(* ===== verification/_CoqProject ===== *)
-Q . S2P
Prelude.v
Tables.v
Decimal.v
DecimalLaws.v
BookingModel.v
BookingStates.v
PaymentStates.v
BookingPolicy.v
Cancellation.v
Booking.v
Pricing.v
Inventory.v
SaleGuard.v
ReservationStates.v
ReservationPolicy.v
Reservation.v
ReservationLaws.v
Ledger.v
RegulatoryVolume.v
KycLimits.v
WalletService.v
LedgerLaws.v
Bank.v
WalletLaws.v
WalletHistory.v
WalletLimits.v
WalletSample.v
StayModel.v
Signing.v
Availability.v
BookingService.v
AvailabilityLaws.v
StayLaws.v
StayHistory.v
StayTheorems.v
StaySample.v
StayRuns.v
Escrow.v
EscrowKeys.v
EscrowLaws.v
EscrowHistory.v
EscrowTheorems.v
EscrowSample.v
InvoiceModel.v
Invoices.v
TripModel.v
Trips.v
RideDispatch.v
RideRequests.v
RidePayment.v
TripLaws.v
TripMoney.v
RideLaws.v
RideAccept.v
TransportHistory.v
TransportTheorems.v
InvoiceLaws.v
RidePaymentLaws.v
InvoiceSample.v
TransportSample.v
AuthModel.v
EmailAddress.v
KeyStore.v
OneTime.v
MobileTokens.v
MobileApi.v
MobileReset.v
EmailLaws.v
OneTimeLaws.v
MobileLaws.v
Signup.v
SignupLaws.v
SignupHistory.v
SignupCage.v
AuthSample.v
