(* ===== verification/Prelude.v ===== *)
(** AFCON360, a platform for travel to a football tournament: the parts of it that
    hold money, rooms, seats and vehicles, modelled in Rocq from the Python code
    under src/app.

    * The program and the files

    The program is a Flask application over PostgreSQL. A request runs one service
    method inside a database transaction; rows are locked with SELECT FOR UPDATE
    or changed by conditional UPDATEs; an exception rolls the transaction back.
    The parts modelled here meet as follows. A guest's room is a booking, whose
    state and payment state are two machines; policy evaluators say what payment a
    state needs, cancellation policies what is refunded, the pricing service what
    is charged. Event tickets are seats of tiers, held and then confirmed; a
    switch in Redis closes a sale. A transport reservation holds vehicles or
    capacity of a provider over a window of time. Money is in the wallet, whose
    balances are sums over a ledger; the other parts pay through it. People come in
    by a sign-up, whose data wait in Redis for a code, and stay in by the sessions
    and tokens of a device.

    - Prelude.v: results and errors, enums with values, transition tables, dates,
      Python strings and truth values, and the tactics. Tables.v: conditional
      UPDATE, row counts, sums of columns, keys. Decimal.v and DecimalLaws.v:
      decimal.Decimal with its context (28 digits, half even), and its laws.
    - BookingModel.v: the row of AccommodationBooking and the tables around it
      (accommodation/models/booking.py). BookingStates.v: BookingStateMachine
      (accommodation/state_machine/booking_states.py). PaymentStates.v:
      PaymentStateMachine and payment events
      (accommodation/state_machine/payment_states.py). BookingPolicy.v:
      the evaluators of booking and payment policy
      (accommodation/state_machine/policy_evaluator.py). Cancellation.v:
      policies and quotes (accommodation/models/cancellation_policy.py).
      Booking.v: the methods of a booking that use them. Pricing.v: PricingService
      (accommodation/services/pricing_service.py).
    - StayModel.v: the tables of a stay: listings, room types, blocked dates,
      holds, rooms and the columns of a booking that the booking service writes
      (accommodation/models/availability.py, room.py, property.py, booking.py).
      Availability.v: AvailabilityService and HostService.available_units
      (accommodation/services/availability_service.py, host_service.py).
      BookingService.v: BookingService with the anti-abuse checks, default
      policies and the task that expires unapproved bookings
      (accommodation/services/booking_service.py, abuse_prevention_service.py,
      payment_policy_service.py, tasks/accommodation_reminders.py).
      AvailabilityLaws.v, StayLaws.v, StayHistory.v, StayTheorems.v: what they
      guarantee; StaySample.v: runs; StayRuns.v: runs that go wrong.
    - Signing.v and Escrow.v: MarketplaceService, the signatures over a booking's
      policy, cancellation and refund workflow, and the settlement of its payment
      through the wallet (accommodation/services/marketplace_service.py,
      accommodation/models/commission.py, identity_service.py,
      payment_processors/wallet_processor.py). EscrowKeys.v, EscrowLaws.v,
      EscrowHistory.v, EscrowTheorems.v: what it guarantees; EscrowSample.v: runs.
    - Inventory.v: seats, holds and sweeps (events/inventory.py). SaleGuard.v: the
      sale switch (events/sale_guard.py).
    - ReservationStates.v, ReservationPolicy.v, Reservation.v: the state machines,
      the policy evaluator and the service of transport reservations with its
      expiry (transport/services/reservation_*.py); ReservationLaws.v: what they
      guarantee.
    - Ledger.v: the wallet's rows and repositories (wallet/models/ledger.py,
      wallet/models/transaction.py, wallet/repositories/*.py).
      RegulatoryVolume.v: wallet/services/regulatory_volume_calculator.py.
      KycLimits.v: wallet/services/kyc_limit_service.py with the tier table and
      the status of organisations. WalletService.v: deposits, withdrawals,
      transfers, commissions and PINs (wallet/services/wallet_service.py and
      commission_service.py, identity/models/user.py), and the callbacks that
      write the status of a transaction (tasks/webhook_processor.py).
      LedgerLaws.v, WalletLaws.v, WalletHistory.v, WalletLimits.v: what they
      guarantee; Bank.v: the abstract bank they refine; WalletSample.v: runs.
    - InvoiceModel.v and Invoices.v: invoices, attempts and allocations, and
      MarketplaceInvoiceService (wallet/models/marketplace_invoice.py,
      wallet/services/marketplace_invoice_service.py). InvoiceLaws.v: what it
      guarantees; InvoiceSample.v: runs.
    - TripModel.v: bookings of rides, drivers, vehicles, ride requests, search
      cycles and offers (transport/models.py). Trips.v: AssignmentService and the
      status operations of BookingService (transport/services/
      assignment_service.py, booking_service.py), the driver's trip actions
      (transport/api/driver_routes.py), deletion and dispute resolution
      (transport/api/booking_routes.py, admin/moderator/routes.py), stall recovery
      (tasks/transport_recovery.py). RideDispatch.v: RideRequestDispatchService,
      from the first offer to the accepted one (transport/services/
      ride_request_dispatch_service.py). RideRequests.v: RideRequestService
      (ride_request_service.py). RidePayment.v: the invoice of a trip and its
      settlement (payment_service.py, driver_routes.py). TripLaws.v, TripMoney.v,
      RideLaws.v, RideAccept.v, TransportHistory.v, TransportTheorems.v,
      RidePaymentLaws.v: what they guarantee; TransportSample.v: runs.
    - AuthModel.v: what the short-lived store holds, and the rows of users, device
      and server sessions (identity/models/user.py, auth/sessions.py). KeyStore.v:
      the in-process store, Redis by its laws, and the functions that choose
      between them (auth/otp_store.py). OneTime.v: OTPService and the verification
      of an email, a phone and a channel (auth/otp_service.py, email.py,
      phone_verification.py, the end of pending_registration.py). EmailAddress.v:
      normal forms and checks of an address (auth/email_validation.py).
      Signup.v: pending registrations (auth/pending_registration.py).
      MobileTokens.v and MobileApi.v: the tokens of the native clients, device and
      server sessions, login's end, refresh and logout (auth/mobile_tokens.py,
      sessions.py, mobile_api.py). MobileReset.v: the native password reset, which
      takes its codes past verify_otp (auth/mobile_password_reset.py, with the
      password rules of validators.py and the password change of services.py).
      OneTimeLaws.v, EmailLaws.v, SignupLaws.v,
      SignupHistory.v, SignupCage.v, MobileLaws.v: what they guarantee;
      AuthSample.v: runs.

    * How state and operations correspond

    A row is a Record, an enum column an inductive type with its stored text, a
    table a list of rows, a column updated in place a new row. An operation takes
    the tables and the clock and returns [Ok] with the new tables or [Err] with
    the exception, in which case the tables are unchanged, as after a rollback.
    Operations keep the names of the code, a class is a Module. A monetary value
    is a [dec], with the context rounding the code gets; a Numeric column is an
    integer number of its smallest unit, rounded half away from zero and bounded.
    Instants are microseconds, dates are day numbers.

    An operation that locks what it reads (supplies and vehicles of a reservation,
    the accounts of a transfer) or that decides by one conditional UPDATE (seats)
    is one atomic step, and a history is a list of such steps. A history of
    transport also takes bookings and drivers from outside; the moderator's
    approval is one of its operations, and the theorems of transport are about
    histories that approve no disputed booking ([no_reopening]), as that operation
    breaks the invariant. The registration of a supply is such a step too, although
    its check for overlaps takes no lock. An operation that
    reads an object loaded earlier takes that object as an argument, so that it
    can be stale. The default isolation of the database is READ COMMITTED.

    * What is proved

    - Bookings: a run of the state machine is bounded, a guest is checked in only
      after the guards held, the future of a state is closed; payment histories
      fold to the stored state; quotes are bounded by what was paid and by the
      policy; a cancellation does exactly what its quote says; totals and
      modification prices are the sums they claim.
    - Stays: whatever guests, hosts and tasks do, two live bookings of a listing
      without room types share no night ([no_double_booking]), provided that a
      host approves while the nights are still held, which the code does not
      check; a confirmation is all or nothing and books what it was paid for; a
      cancellation gives back the nights and units and queues the refund its
      quote says; a request is created once per key and within the units of its
      room type; changed dates move the rows.
    - Escrow: over any history of settlements, reviews and wallet operations the
      ledger pays each booking's escrow out once, to the host or back to the guest
      ([escrow_settles_once]); money moves without a person only on evidence that
      carries the application's signature, with a person only by an administrator
      without a stake; a refund that reached the ledger is recorded; a guest can
      never be charged through it, as the code asks the wallet without a PIN.
    - Tickets: no limited tier is sold past its quantity and its seats in no event
      past the cap, whatever the order of sales, releases, sweeps and the two
      handlers that give seats of expired registrations back, each called for a
      registration that has its seats ([no_oversell]); a tier without a quantity is
      outside both, and can pass the event's cap; holds end once; a sweep leaves
      none behind.
    - Reservations: at every instant committed capacity is within the supplied
      one, a vehicle has one active line, the states of lines, reservations and
      payments agree, creation is idempotent, the walk over supply slices is
      continuous coverage, the policy evaluator is its declarative specification.
    - Wallet: after any history of operations the balances are those of an
      abstract bank that made covered moves only ([wallet_refines_bank]); no
      balance is negative ([balances_solvent]); a key books once; a transfer
      conserves money up to its fee; the tables stay well formed, and a
      withdrawal stays within the limits of the user's tier.
    - Transport: over any history a driver and a vehicle hold at most one booking
      ([no_double_assignment]) and a booking moves along the code's own table of
      transitions, but for three shortcuts the theorem names and gives to the
      operations that take them ([lifecycle_followed]); a request
      has one live offer, asks each of at most five drivers once, and is converted
      by at most one acceptance, which is complete or leaves no trace; a
      cancellation costs exactly the share and cap of its tier, within the fare
      ([cancellation_money]). A converted ride cannot
      be paid for, as its invoice names the request.
    - Invoices: creation is idempotent, a settlement moves the amount
      of the invoice from payer to escrow, once, whatever the service does with the
      invoice afterwards ([settlement_moves_fare], [settled_once]); a refund through the wallet moves
      money and then fails.
    - Sign-in, where Redis is required (otherwise a code replaced in Redis can
      still be accepted from the memory of a process, as [fallback_accepts_older]
      shows): over any interleaving of requests, with Redis answering, away or
      failing at each call, a code is accepted once, in its life, and is the one
      stored last ([code_accepted_once]); an account is opened by such a code
      alone, before the deadline of its sign-up or the life of its first code
      ([account_by_code]), and wrong codes sent one after the other use the sign-up
      up while Redis answers ([attempts_exhausted]); the users table keeps its
      constraints ([accounts_unique]); the verification of an email takes its code
      ([email_verified_by_code]), which the verification of a channel does not
      ([channel_code_unchecked]); a refresh token is exchanged once, its replay
      within 30 days revokes the session while Redis answers, no token of a revoked session is accepted
      ([refresh_rotated_once], [replay_revokes], [revoked_session_dead],
      [bearer_accepted]); an accepted address is in its canonical form, and the
      suggestions use the edit distance ([accepted_canonical],
      [levenshtein_distance]).
    - Where the code does not do what its documentation says, an Example or a
      theorem exhibits it (refund of more than was paid, a fee in a foreign
      currency that overdraws an account, a payout that debits twice, and others).

    * Bounds and fuel

    The functions that recurse on a measure are digit counts and zero stripping in
    Decimal.v, with the binary logarithm or the number of digits as fuel, shown
    sufficient by [ndigits_spec] and [strip_zeros_val]; all else is structural.
    Ledger amounts are below 10^18 millionths; limits are taken below 10^21. The
    histories of sign-up take a request as one instant, with the lives and limits
    of its configuration as parameters, of which the code's defaults are an
    instance; those of one-time codes split a verification into its two halves.

    * Interfaces

    What the program calls and does not contain is an argument: the digest of a
    request ([Digest]), password hashes ([PinHash]), the canonical KYC tier
    ([KycTiers]), the fraud score ([FraudScorer]) and the exchange rate
    ([FxRates]). The ranking of drivers for a ride is [Ranker]; a fare and the
    UUIDs and references drawn are arguments. HMAC-SHA256 under the configured key is the field [signing] of the
    environment of a stay. The wallet's theorems hold for every instance of the KYC service
    ([KycService]) but the one on limits, which is about the service of
    KycLimits.v. Redis is a [KeyStore] with [KeyStoreLaws] (and [KeySets] for the
    sets of a session's tokens), which the in-process store satisfies; the digests
    of codes and of tokens are [OtpDigest] and [TokenDigest]; the random draws, the
    mail's answer, the DNS and the syntax library of an address are arguments. The
    account ids an operation receives are the canonical text of a
    UUID, as its callers pass them.

    * What is not modelled

    Web routes, templates, forms, the admin consoles and the notification
    channels: they read and format, or call the services modelled here. Gateways,
    geocoding, media storage and search: calls to services outside the program.
    Migrations and scripts: they run once. Of stays: eligibility for cash and claim
    tokens, the names and contact details of guests, the CHECK constraint on the
    parts of the total; the server's clock is taken to run in UTC. The services of hosts, listings,
    searches, registrations of guests, fares and the ranking of drivers, the
    transient offers in Redis, tournaments, fan pages and feeds,
    the password check at sign-in, roles and permissions, KYC evidence and the audit subsystem: large
    parts of their own, of which only what the modelled parts read is here. Of
    sign-in: the delivery of a code, magic links, the role and profile that go with
    a new row. Within the modelled parts,
    audit rows and notifications, which no modelled decision reads, and the two
    ordered histories of the ledger. *)

From stdpp Require Export base decidable option list gmap strings relations tactics.
From Stdlib Require Export ZArith Lia.

#[global] Set Default Goal Selector "!".
#[global] Open Scope Z_scope.

Create Rewrite HintDb result.
Create Rewrite HintDb enums.
Create Rewrite HintDb dec_cmp.
Create HintDb decimal.
Create HintDb py.
Create HintDb keystore.

(** * Errors as values: a Python [raise] is [Err], a [return] is [Ok] *)

Inductive result (E A : Type) : Type :=
  | Ok (a : A)
  | Err (e : E).
Arguments Ok {E A} a.
Arguments Err {E A} e.

Definition rbind {E A B} (m : result E A) (k : A -> result E B) : result E B :=
  match m with
  | Ok a => k a
  | Err e => Err e
  end.

Definition map_err {E F A} (f : E -> F) (m : result E A) : result F A :=
  match m with
  | Ok a => Ok a
  | Err e => Err (f e)
  end.

Definition is_ok {E A} (m : result E A) : bool :=
  match m with Ok _ => true | Err _ => false end.

Definition of_option {E A} (e : E) (o : option A) : result E A :=
  match o with Some a => Ok a | None => Err e end.

Declare Scope py_scope.
Delimit Scope py_scope with py.

Notation "'let*' x ':=' m 'in' k" := (rbind m (fun x => k))
  (at level 10, x pattern, m at level 100, k at level 200) : py_scope.
Notation "'require' b 'else' e ';;' k" := (if b then k else Err e)
  (at level 10, b at level 99, e at level 99, k at level 200) : py_scope.
#[global] Open Scope py_scope.

Lemma rbind_Ok {E A B} (m : result E A) (k : A -> result E B) b :
  rbind m k = Ok b <-> exists a, m = Ok a /\ k a = Ok b.
Proof. destruct m; simpl; naive_solver. Qed.

Lemma rbind_Err {E A B} (m : result E A) (k : A -> result E B) e :
  rbind m k = Err e <-> m = Err e \/ exists a, m = Ok a /\ k a = Err e.
Proof. destruct m; simpl; naive_solver. Qed.

Lemma map_err_Ok {E F A} (f : E -> F) (m : result E A) a :
  map_err f m = Ok a <-> m = Ok a.
Proof. destruct m; simpl; naive_solver. Qed.

Lemma of_option_Ok {E A} (e : E) (o : option A) a :
  of_option e o = Ok a <-> o = Some a.
Proof. destruct o; simpl; naive_solver. Qed.

(** [guard_true H]: a successful [require] gives its condition. *)
Lemma require_Ok {E A} (b : bool) (e : E) (k : result E A) a :
  (if b then k else Err e) = Ok a <-> b = true /\ k = Ok a.
Proof. destruct b; naive_solver. Qed.

#[export] Hint Rewrite @rbind_Ok @rbind_Err @map_err_Ok @of_option_Ok @require_Ok : result.

(** Invert a hypothesis that says a monadic computation returned [Ok]. *)
Ltac inv_ok H :=
  repeat match type of H with
  | rbind _ _ = Ok _ =>
      let a := fresh "a" in let Ha := fresh "Hok" in
      apply rbind_Ok in H; destruct H as (a & Ha & H); cbv beta in H; inv_ok Ha
  | map_err _ _ = Ok _ => apply map_err_Ok in H
  | of_option _ _ = Ok _ => apply of_option_Ok in H
  | (if ?b then _ else Err _) = Ok _ =>
      let Hb := fresh "Hreq" in
      apply require_Ok in H; destruct H as [Hb H]
  end.

(** One step of such a computation, with names for its value and equation. *)
Tactic Notation "bind" hyp(H) "as" simple_intropattern(p) ident(Hx) :=
  apply rbind_Ok in H; destruct H as (p & Hx & H); cbv beta iota in H.
Tactic Notation "guard" hyp(H) "as" ident(Hb) :=
  apply require_Ok in H; destruct H as [Hb H].

(** Case analysis on every [if]/[match] of the goal or of a hypothesis. *)
Ltac case_all :=
  repeat (case_match; simplify_eq/=; try done).

(** * Python enums: closed sets of members with a string value each *)

Class PyEnum (A : Type) `{EqDecision A} := {
  enum_members : list A;
  enum_value : A -> string;
  enum_complete : forall a, a ∈ enum_members;
  enum_value_inj : forall a b, enum_value a = enum_value b -> a = b;
}.

#[global] Arguments enum_value {A _ _} _ : simpl never.

(** [E(v)]: the member with value [v]; [None] is Python's ValueError. *)
Definition enum_of_value {A} `{PyEnum A} (v : string) : option A :=
  List.find (fun a => String.eqb (enum_value a) v) enum_members.

Lemma enum_of_value_Some {A} `{PyEnum A} (v : string) (a : A) :
  enum_of_value v = Some a <-> enum_value a = v.
Proof.
  unfold enum_of_value. split.
  - intros [_ Heq]%List.find_some. by apply String.eqb_eq.
  - intros <-. destruct (List.find _ _) as [b|] eqn:Hf.
    + apply List.find_some in Hf as [_ Heq%String.eqb_eq].
      by apply enum_value_inj in Heq as ->.
    + apply (List.find_none _ _) with (x := a) in Hf.
      * by rewrite String.eqb_refl in Hf.
      * apply list_elem_of_In, enum_complete.
Qed.

Lemma enum_of_value_value {A} `{PyEnum A} (a : A) :
  enum_of_value (enum_value a) = Some a.
Proof. by apply enum_of_value_Some. Qed.

#[export] Hint Rewrite @enum_of_value_value : enums.

(** Proves the two laws of a [PyEnum] instance of a finite inductive type. *)
Ltac solve_enum :=
  intros [] ; first [ by repeat constructor
                    | intros []; simpl; intros Heq; first [done | discriminate Heq]
                    | by set_solver ].

(** * Transition tables *)

(** A table gives each state the list of its successors, as the
    [VALID_TRANSITIONS] dictionaries of the state machines do. *)
Section transition_table.
Context {S : Type} `{EqDecision S} (table : S -> list S).

Definition tstep (s t : S) : Prop := t ∈ table s.

Definition allowed (s t : S) : bool := bool_decide (t ∈ table s).

Definition terminal (s : S) : bool := Nat.eqb (length (table s)) 0.

Lemma allowed_spec s t : allowed s t = true <-> tstep s t.
Proof. unfold allowed. apply bool_decide_eq_true. Qed.

Lemma terminal_spec s : terminal s = true <-> forall t, ~ tstep s t.
Proof.
  unfold terminal, tstep. rewrite Nat.eqb_eq, length_zero_iff_nil. split.
  - intros ->. set_solver.
  - destruct (table s) as [|t l]; [done|]. intros Hn. exfalso.
    apply (Hn t). set_solver.
Qed.

(** A set of states closed under the table is never left. *)
Lemma rtc_closed (P : S -> Prop) :
  (forall s t, P s -> tstep s t -> P t) ->
  forall s t, rtc tstep s t -> P s -> P t.
Proof. intros Hcl s t Hr. induction Hr; eauto. Qed.

(** A rank that every transition decreases bounds the length of any run. *)
Lemma nsteps_rank (rank : S -> nat) :
  (forall s t, tstep s t -> (rank t < rank s)%nat) ->
  forall n s t, nsteps tstep n s t -> (n + rank t <= rank s)%nat.
Proof.
  intros Hrk n s t Hn. induction Hn as [|n x y z Hxy Hyz IH]; [lia|].
  specialize (Hrk _ _ Hxy). lia.
Qed.

Lemma rtc_terminal s t : terminal s = true -> rtc tstep s t -> t = s.
Proof.
  rewrite terminal_spec. intros Hter Hr. destruct Hr; [done|].
  exfalso. eapply Hter. done.
Qed.
End transition_table.

(** * Dates, times, truth values *)

(** A [date] is its proleptic ordinal; [(a - b).days] is [a - b]. *)
Abbreviation date := Z (only parsing).

(** A [datetime]: microseconds since an epoch, with or without a time zone.
    An aware value is its UTC instant. *)
Inductive datetime : Type :=
  | Naive (us : Z)
  | Aware (us : Z).

(** [d if d.tzinfo else d.replace(tzinfo=timezone.utc)] *)
Definition as_utc (d : datetime) : Z :=
  match d with Naive us => us | Aware us => us end.

Definition minutes (n : Z) : Z := n * 60000000.
Definition hours (n : Z) : Z := n * 3600000000.

(** The truth value of an optional string: [None] and [""] are false. *)
Definition truthy (s : option string) : bool :=
  match s with
  | None => false
  | Some s => negb (String.eqb s "")
  end.

(** [x or d] on optional strings. *)
Definition str_or (s : option string) (d : string) : string :=
  match s with
  | Some s => if String.eqb s "" then d else s
  | None => d
  end.

Definition is_some {A} (o : option A) : bool :=
  match o with Some _ => true | None => false end.

(** [s in (a, b, ...)] on strings. *)
Definition str_in (s : string) (l : list string) : bool := bool_decide (s ∈ l).

Lemma str_in_spec s l : str_in s l = true <-> s ∈ l.
Proof. unfold str_in. apply bool_decide_eq_true. Qed.

(** [s.lower()] and [s.upper()] on ASCII letters. *)
Definition lower_ascii (c : Ascii.ascii) : Ascii.ascii :=
  let n := Ascii.nat_of_ascii c in
  if (Nat.leb 65 n && Nat.leb n 90)%bool then Ascii.ascii_of_nat (n + 32) else c.
Definition upper_ascii (c : Ascii.ascii) : Ascii.ascii :=
  let n := Ascii.nat_of_ascii c in
  if (Nat.leb 97 n && Nat.leb n 122)%bool then Ascii.ascii_of_nat (n - 32) else c.

Fixpoint map_string (f : Ascii.ascii -> Ascii.ascii) (s : string) : string :=
  match s with
  | EmptyString => EmptyString
  | String c s => String (f c) (map_string f s)
  end.

Definition lower : string -> string := map_string lower_ascii.
Definition upper : string -> string := map_string upper_ascii.

(** [s.strip()] on ASCII white space: tab to carriage return, the four
    separators 28-31, and the space. *)
Definition is_space (c : Ascii.ascii) : bool :=
  let n := Ascii.nat_of_ascii c in
  ((Nat.leb 9 n && Nat.leb n 13) || (Nat.leb 28 n && Nat.leb n 32))%bool.

Fixpoint lstrip (s : string) : string :=
  match s with
  | EmptyString => EmptyString
  | String c s' => if is_space c then lstrip s' else s
  end.

Fixpoint rstrip (s : string) : string :=
  match s with
  | EmptyString => EmptyString
  | String c s' =>
      match rstrip s' with
      | EmptyString => if is_space c then EmptyString else String c EmptyString
      | r => String c r
      end
  end.

Definition strip (s : string) : string := rstrip (lstrip s).
