(* ===== verification/Tables.v ===== *)
(** Tables as lists of rows: a conditional UPDATE, the number of rows it
    matches, the sum of a column, and tables with a primary key. *)

From S2P Require Import Prelude.

Local Open Scope Z_scope.

(** An SQL UPDATE: the rows it matches are changed, and counted. *)
Definition update_where {A} (cond : A -> bool) (f : A -> A) (rows : list A) : list A :=
  (fun r => if cond r then f r else r) <$> rows.
Definition rowcount {A} (cond : A -> bool) (rows : list A) : Z :=
  Z.of_nat (length (List.filter cond rows)).

Definition sum_Z (l : list Z) : Z := foldr Z.add 0 l.

Lemma sum_app l1 l2 : sum_Z (l1 ++ l2) = sum_Z l1 + sum_Z l2.
Proof. induction l1 as [|x l IH]; simpl; [done|]. rewrite IH. lia. Qed.

Lemma sum_cons {A} (f : A -> Z) x l : sum_Z (f <$> x :: l) = f x + sum_Z (f <$> l).
Proof. done. Qed.

Lemma update_cons {A} (c : A -> bool) f x l :
  update_where c f (x :: l) = (if c x then f x else x) :: update_where c f l.
Proof. done. Qed.

Lemma sum_nonneg {A} (f : A -> Z) l : (forall x, x ∈ l -> 0 <= f x) -> 0 <= sum_Z (f <$> l).
Proof.
  induction l as [|x l IH]; [done|]. intros H. rewrite sum_cons.
  pose proof (H x ltac:(set_solver)). specialize (IH ltac:(set_solver)). lia.
Qed.

Lemma elem_of_update {A} (c : A -> bool) f (l : list A) y :
  y ∈ update_where c f l <-> exists x, x ∈ l /\ y = if c x then f x else x.
Proof. unfold update_where. rewrite list_elem_of_fmap. naive_solver. Qed.

Lemma rowcount_pos {A} (c : A -> bool) l : rowcount c l <> 0 -> exists x, x ∈ l /\ c x = true.
Proof.
  unfold rowcount. destruct (List.filter c l) as [|x l'] eqn:E; [done|]. intros _.
  assert (Hin : List.In x (List.filter c l)) by (rewrite E; by left).
  apply List.filter_In in Hin as [Hin Hc]. exists x. split; [by apply list_elem_of_In|done].
Qed.

(** A write that keeps a column keeps the list of its values. *)
Lemma fmap_update {A B} (g : A -> B) (c : A -> bool) (f : A -> A) l :
  (forall x, g (f x) = g x) -> g <$> update_where c f l = g <$> l.
Proof.
  intros Hf. induction l as [|x l IH]; [done|]. rewrite update_cons, !fmap_cons, IH.
  by destruct (c x); rewrite ?Hf.
Qed.

(** A table with a primary key. *)
Section keyed.
Context {A : Type} (key : A -> Z).

Lemma key_unique l x y : NoDup (key <$> l) -> x ∈ l -> y ∈ l -> key x = key y -> x = y.
Proof.
  intros Hnd Hx Hy E. apply list_elem_of_lookup in Hx as [i Hi].
  apply list_elem_of_lookup in Hy as [j Hj].
  assert (i = j) as ->; [|congruence].
  eapply (NoDup_lookup (key <$> l)); [done|by rewrite list_lookup_fmap, Hi|].
  rewrite list_lookup_fmap, Hj. simpl. by rewrite E.
Qed.

Lemma find_app (f : A -> bool) l1 l2 :
  List.find f (l1 ++ l2) = match List.find f l1 with Some x => Some x | None => List.find f l2 end.
Proof. induction l1 as [|x l IH]; [done|]. simpl. by destruct (f x). Qed.

Lemma find_key l x : NoDup (key <$> l) -> x ∈ l ->
  List.find (fun r => key r =? key x) l = Some x.
Proof.
  intros Hnd Hx. destruct (List.find _ l) as [y|] eqn:Hf.
  - apply List.find_some in Hf as [Hin%list_elem_of_In E%Z.eqb_eq]. f_equal. by apply (key_unique l).
  - exfalso. apply (List.find_none _ _) with (x := x) in Hf; [|by apply list_elem_of_In].
    by rewrite Z.eqb_refl in Hf.
Qed.

Lemma update_keys c f l : (forall x, key (f x) = key x) ->
  key <$> update_where c f l = key <$> l.
Proof.
  intros Hf. induction l as [|x l IH]; [done|].
  rewrite update_cons, !fmap_cons, IH. by destruct (c x); rewrite ?Hf.
Qed.

(** Writing one row changes a sum by the difference of that row. *)
Lemma sum_write (g : A -> Z) l x y : NoDup (key <$> l) -> x ∈ l -> key y = key x ->
  sum_Z (g <$> update_where (fun r => key r =? key x) (fun _ => y) l)
  = sum_Z (g <$> l) - g x + g y.
Proof.
  intros Hnd Hx Hy. induction l as [|z l IH]; [by apply not_elem_of_nil in Hx|].
  rewrite fmap_cons, list.NoDup_cons in Hnd; destruct Hnd as [Hz Hnd]. rewrite update_cons, !sum_cons.
  destruct (Z.eqb_spec (key z) (key x)) as [E|E].
  - assert (x = z) as ->.
    { apply elem_of_cons in Hx as [->|Hx]; [done|]. exfalso. apply Hz. rewrite E.
      by apply list_elem_of_fmap_2. }
    assert (Hl : update_where (fun r => key r =? key z) (fun _ => y) l = l).
    { unfold update_where. rewrite <- (list_fmap_id l) at 2. apply list_fmap_ext.
      intros i r Hr. destruct (Z.eqb_spec (key r) (key z)) as [E'|]; [|done].
      exfalso. apply Hz. rewrite <- E'. apply list_elem_of_fmap_2. by eapply list_elem_of_lookup_2. }
    rewrite Hl. lia.
  - apply elem_of_cons in Hx as [->|Hx]; [done|].
    rewrite IH by done. lia.
Qed.

Lemma write_elem l x y r : NoDup (key <$> l) -> key y = key x ->
  r ∈ update_where (fun r => key r =? key x) (fun _ => y) l ->
  r = y \/ (r ∈ l /\ key r <> key x).
Proof.
  intros _ _. rewrite elem_of_update. intros (z & Hz & ->).
  destruct (Z.eqb_spec (key z) (key x)); [by left|by right].
Qed.

Lemma write_other l x y r : r ∈ l -> key r <> key x ->
  r ∈ update_where (fun r => key r =? key x) (fun _ => y) l.
Proof.
  intros Hr Hne. apply elem_of_update. exists r. split; [done|].
  by destruct (Z.eqb_spec (key r) (key x)).
Qed.

(** A conditional update that hits only rows of one key adds up to at most
    one row's change. *)
Lemma sum_update_le (g : A -> Z) c f l k d : NoDup (key <$> l) -> 0 <= d ->
  (forall x, c x = true -> key x = k) ->
  (forall x, c x = true -> x ∈ l -> g (f x) <= g x + d) ->
  sum_Z (g <$> update_where c f l) <= sum_Z (g <$> l) + d.
Proof.
  intros Hnd Hd Hk Hg. induction l as [|z l IH]; [by simpl; lia|].
  rewrite fmap_cons, list.NoDup_cons in Hnd; destruct Hnd as [Hz Hnd]. rewrite update_cons, !sum_cons. destruct (c z) eqn:Hc.
  - assert (Hl : update_where c f l = l).
    { unfold update_where. rewrite <- (list_fmap_id l) at 2. apply list_fmap_ext.
      intros i r Hr. destruct (c r) eqn:Hcr; [|done]. exfalso. apply Hz.
      rewrite (Hk z Hc), <- (Hk r Hcr). apply list_elem_of_fmap_2. by eapply list_elem_of_lookup_2. }
    rewrite Hl. specialize (Hg z Hc ltac:(set_solver)). lia.
  - specialize (IH Hnd ltac:(set_solver)). lia.
Qed.
End keyed.

(** Counting rows. *)
Lemma rowcount_nil {A} (c : A -> bool) : rowcount c [] = 0.
Proof. done. Qed.

Lemma rowcount_cons {A} (c : A -> bool) x l :
  rowcount c (x :: l) = (if c x then 1 else 0) + rowcount c l.
Proof. unfold rowcount. simpl. destruct (c x); simpl; lia. Qed.

Lemma rowcount_app {A} (c : A -> bool) l1 l2 : rowcount c (l1 ++ l2) = rowcount c l1 + rowcount c l2.
Proof. unfold rowcount. rewrite List.filter_app, length_app. lia. Qed.

Lemma rowcount_nonneg {A} (c : A -> bool) l : 0 <= rowcount c l.
Proof. unfold rowcount. lia. Qed.

Lemma rowcount_le_length {A} (c : A -> bool) l : rowcount c l <= Z.of_nat (length l).
Proof. induction l as [|x l IH]; [done|]. rewrite rowcount_cons. simpl length. destruct (c x); lia. Qed.

(** A row-by-row relation under which a counted row comes from a counted one. *)
Lemma rowcount_Forall2 {A B} (R : A -> B -> Prop) c c' l l' :
  Forall2 R l l' -> (forall x y, R x y -> c' y = true -> c x = true) ->
  rowcount c' l' <= rowcount c l.
Proof.
  intros Hf Hc. induction Hf as [|x y l l' Hxy Hf IH]; [done|]. rewrite !rowcount_cons.
  destruct (c' y) eqn:E; [rewrite (Hc _ _ Hxy E); lia|]. destruct (c x); lia.
Qed.

Lemma rowcount_mono {A} (c c' : A -> bool) l :
  (forall x, x ∈ l -> c x = true -> c' x = true) -> rowcount c l <= rowcount c' l.
Proof.
  induction l as [|x l IH]; [done|]. intros Hc. rewrite !rowcount_cons.
  specialize (IH ltac:(set_solver)). specialize (Hc x ltac:(set_solver)).
  destruct (c x); [rewrite Hc by done; lia|]. destruct (c' x); lia.
Qed.

Lemma rowcount_none {A} (c : A -> bool) l :
  (forall x, x ∈ l -> c x = false) -> rowcount c l = 0.
Proof.
  induction l as [|x l IH]; [done|]. intros Hc. rewrite rowcount_cons, (Hc x), IH by set_solver. done.
Qed.

Lemma rowcount_all {A} (c : A -> bool) l :
  (forall x, x ∈ l -> c x = true) -> rowcount c l = Z.of_nat (length l).
Proof.
  induction l as [|x l IH]; [done|]. intros Hc. rewrite rowcount_cons, (Hc x), IH by set_solver.
  simpl length. lia.
Qed.

Lemma rowcount_ext {A} (c c' : A -> bool) l :
  (forall x, x ∈ l -> c x = c' x) -> rowcount c l = rowcount c' l.
Proof.
  induction l as [|x l IH]; [done|]. intros Hc. rewrite !rowcount_cons, (Hc x), IH by set_solver. done.
Qed.

(** Sums over selected rows. *)
Lemma sum_filter_mono {A} (f : A -> Z) (c c' : A -> bool) l :
  (forall x, x ∈ l -> 0 <= f x) -> (forall x, x ∈ l -> c x = true -> c' x = true) ->
  sum_Z (f <$> List.filter c l) <= sum_Z (f <$> List.filter c' l).
Proof.
  induction l as [|x l IH]; [done|]. intros Hf Hc. simpl.
  specialize (IH ltac:(set_solver) ltac:(set_solver)).
  pose proof (Hf x ltac:(set_solver)). specialize (Hc x ltac:(set_solver)).
  destruct (c x), (c' x); rewrite ?sum_cons; lia.
Qed.

Lemma sum_filter_nonneg {A} (f : A -> Z) (c : A -> bool) l :
  (forall x, x ∈ l -> 0 <= f x) -> 0 <= sum_Z (f <$> List.filter c l).
Proof.
  intros Hf. apply sum_nonneg. intros x Hx. apply Hf.
  apply list_elem_of_In, List.filter_In in Hx as [Hx _]. by apply list_elem_of_In.
Qed.
