(* ===== verification/Decimal.v ===== *)
(** Python's [decimal.Decimal] under the context the program installs
    ([getcontext().prec = 28], default rounding ROUND_HALF_EVEN): finite values
    as coefficient and exponent, the operations the program uses with their
    context rounding, and the laws the money code relies on.

    Two numbers that differ only in their exponent (1.0 and 1.00) are equal for
    Python; [≃] is that equality, and [dval] the rational value it compares.
    Exponent limits (Emin/Emax) are not modelled: every value of the program
    comes from a bounded database column or configuration. *)

From Stdlib Require Import QArith Lqa Qpower.
From S2P Require Import Prelude.

Record dec : Type := Dec { coef : Z; dexp : Z }.

#[export] Instance dec_eq_dec : EqDecision dec.
Proof. solve_decision. Defined.

(** Exceptions of the decimal module that the program can meet. *)
Inductive dec_error : Type :=
  | InvalidOperation
  | DivisionByZero.

Inductive rounding : Type :=
  | ROUND_HALF_EVEN
  | ROUND_HALF_UP
  | ROUND_DOWN.

Definition prec : Z := 28.

Definition pow10 (n : Z) : Z := 10 ^ n.

(** * Integer rounding *)

(** [a / b] rounded to an integer, for [0 <= a] and [0 < b]. *)
Definition rdiv (m : rounding) (a b : Z) : Z :=
  let q := a / b in
  let r := a mod b in
  match m with
  | ROUND_DOWN => q
  | ROUND_HALF_UP => if b <=? 2 * r then q + 1 else q
  | ROUND_HALF_EVEN =>
      if b <? 2 * r then q + 1
      else if b =? 2 * r then (if Z.even q then q else q + 1)
      else q
  end.

(** Every mode rounds the magnitude and keeps the sign. *)
Definition rdivs (m : rounding) (a b : Z) : Z :=
  Z.sgn a * rdiv m (Z.abs a) b.

(** Number of decimal digits of [n >= 0]. *)
Fixpoint ndigits_fuel (fuel : nat) (n : Z) : Z :=
  match fuel with
  | O => 1
  | S f => if n <? 10 then 1 else 1 + ndigits_fuel f (n / 10)
  end.

Definition ndigits (n : Z) : Z := ndigits_fuel (Z.to_nat (Z.log2 n)) n.

(** * Operations *)

(** [Decimal._fix]: round to [prec] significant digits, half to even. *)
Definition fix_prec (d : dec) : dec :=
  let a := Z.abs (coef d) in
  if a <? pow10 prec then d
  else
    let n := ndigits a - prec in
    let c := rdivs ROUND_HALF_EVEN (coef d) (pow10 n) in
    if Z.abs c =? pow10 prec
    then Dec (Z.sgn c * pow10 (prec - 1)) (dexp d + n + 1)
    else Dec c (dexp d + n).

(** The coefficient of [d] at the exponent [k <= dexp d]. *)
Definition at_exp (k : Z) (d : dec) : Z := coef d * pow10 (dexp d - k).

Definition common_exp (a b : dec) : Z := Z.min (dexp a) (dexp b).

Definition add_exact (a b : dec) : dec :=
  let k := common_exp a b in Dec (at_exp k a + at_exp k b) k.

Definition dneg (a : dec) : dec := Dec (- coef a) (dexp a).
Definition dadd (a b : dec) : dec := fix_prec (add_exact a b).
Definition dsub (a b : dec) : dec := fix_prec (add_exact a (dneg b)).
Definition mul_exact (a b : dec) : dec := Dec (coef a * coef b) (dexp a + dexp b).
Definition dmul (a b : dec) : dec := fix_prec (mul_exact a b).

(** Strip the trailing zeros an exact quotient has beyond its ideal exponent. *)
Fixpoint strip_zeros (fuel : nat) (c e ideal : Z) : dec :=
  match fuel with
  | O => Dec c e
  | S f => if (e <? ideal) && (c mod 10 =? 0)
           then strip_zeros f (c / 10) (e + 1) ideal
           else Dec c e
  end.

(** [Decimal.__truediv__]: a quotient of [prec + 1] digits or more, its last
    digit made sticky when the division is inexact, then context rounding. *)
Definition ddiv (a b : dec) : result dec_error dec :=
  if coef b =? 0 then Err (if coef a =? 0 then InvalidOperation else DivisionByZero)
  else if coef a =? 0 then Ok (Dec 0 (dexp a - dexp b))
  else
    let sg := Z.sgn (coef a) * Z.sgn (coef b) in
    let x := Z.abs (coef a) in
    let y := Z.abs (coef b) in
    let shift := ndigits y - ndigits x + prec + 1 in
    let e := dexp a - dexp b - shift in
    let num := if 0 <=? shift then x * pow10 shift else x in
    let den := if 0 <=? shift then y else y * pow10 (- shift) in
    let q := num / den in
    if num mod den =? 0
    then
      let s := strip_zeros (Z.to_nat (ndigits q)) q e (dexp a - dexp b) in
      Ok (fix_prec (Dec (sg * coef s) (dexp s)))
    else
      let q' := if q mod 5 =? 0 then q + 1 else q in
      Ok (fix_prec (Dec (sg * q') e)).

(** [d.quantize(Decimal((0, (1,), e)), rounding=m)] *)
Definition quantize (m : rounding) (e : Z) (d : dec) : result dec_error dec :=
  let c := if e <=? dexp d then at_exp e d
           else rdivs m (coef d) (pow10 (e - dexp d)) in
  if Z.abs c <? pow10 prec then Ok (Dec c e) else Err InvalidOperation.

(** * Comparisons: exact, with no context rounding *)

Definition dcompare (a b : dec) : comparison :=
  let k := common_exp a b in at_exp k a ?= at_exp k b.

Definition dltb (a b : dec) : bool :=
  match dcompare a b with Lt => true | _ => false end.
Definition dleb (a b : dec) : bool :=
  match dcompare a b with Gt => false | _ => true end.
Definition deqb (a b : dec) : bool :=
  match dcompare a b with Eq => true | _ => false end.

(** Python's two-argument [min] and [max]: the first of equal arguments. *)
Definition dmin (a b : dec) : dec := if dltb b a then b else a.
Definition dmax (a b : dec) : dec := if dltb a b then b else a.

(** * Literals *)

Definition dint (n : Z) : dec := Dec n 0.
Definition dzero : dec := dint 0.

(** A value with two decimals: a number of cents. *)
Definition cents (n : Z) : dec := Dec n (-2).

(** [v or 0] for a decimal that may be NULL. *)
Definition dec_or0 (v : option dec) : dec :=
  match v with
  | None => dzero
  | Some d => if coef d =? 0 then dzero else d
  end.

(** [Decimal(str(float(d)))] for a column value of at most 15 significant
    digits: such a value survives the round trip through binary64, and [repr]
    prints the shortest decimal, with at least one fractional digit. *)
Fixpoint shortest (fuel : nat) (c e : Z) : dec :=
  match fuel with
  | O => Dec c e
  | S f => if (e <? -1) && (c mod 10 =? 0) then shortest f (c / 10) (e + 1)
           else Dec c e
  end.

Definition via_float (d : dec) : dec :=
  if -1 <=? dexp d then Dec (coef d * pow10 (dexp d + 1)) (-1)
  else shortest (Z.to_nat (- dexp d)) (coef d) (dexp d).

(** * Values *)

(** The rational number a decimal denotes. *)
Definition dval (d : dec) : Q := (inject_Z (coef d) * Qpower 10 (dexp d))%Q.

(** Python's [==] on decimals: 1.0 and 1.00 are equal. *)
Definition deq (a b : dec) : Prop := (dval a == dval b)%Q.
Infix "≃" := deq (at level 70, no associativity) : py_scope.

Definition dle (a b : dec) : Prop := (dval a <= dval b)%Q.
Definition dlt (a b : dec) : Prop := (dval a < dval b)%Q.

(** Representable without context rounding. *)
Definition repr (d : dec) : Prop := Z.abs (coef d) < pow10 prec.
