(* ===== verification/DecimalLaws.v ===== *)
(** Laws of the decimal model: integer rounding is monotone and exact on exact
    quotients, comparisons decide the order of the rational values, context
    rounding never crosses a representable number, quantising is monotone. *)

From Stdlib Require Import QArith Lqa Qpower Qabs.
From S2P Require Import Prelude Decimal.

Local Open Scope Z_scope.

(** * Powers of ten *)

Lemma pow10_pos n : 0 <= n -> 0 < pow10 n.
Proof. intros. unfold pow10. by apply Z.pow_pos_nonneg. Qed.

Lemma pow10_add a b : 0 <= a -> 0 <= b -> pow10 (a + b) = pow10 a * pow10 b.
Proof. intros. unfold pow10. by apply Z.pow_add_r. Qed.

Lemma pow10_le a b : a <= b -> pow10 a <= pow10 b.
Proof. intros. unfold pow10. apply Z.pow_le_mono_r; lia. Qed.

Lemma pow10_0 : pow10 0 = 1.
Proof. done. Qed.

(** * Number of digits *)

Lemma ndigits_fuel_spec f n :
  0 < n -> Z.log2 n <= Z.of_nat f ->
  1 <= ndigits_fuel f n /\ pow10 (ndigits_fuel f n - 1) <= n < pow10 (ndigits_fuel f n).
Proof.
  revert n. induction f as [|f IH]; intros n Hn Hlog; simpl.
  - assert (n < 2). { apply Z.log2_lt_cancel. simpl. lia. }
    unfold pow10. simpl. lia.
  - destruct (Z.ltb_spec n 10) as [Hlt|Hge].
    { unfold pow10. simpl. lia. }
    assert (Hdiv : 0 < n / 10) by (apply Z.div_str_pos; lia).
    assert (Hl : Z.log2 (n / 10) <= Z.of_nat f).
    { enough (Z.log2 (n / 10) < Z.log2 n) by lia.
      assert (Z.log2 (n / 10) <= Z.log2 (n / 2)) as Hle.
      { apply Z.log2_le_mono. apply Z.div_le_compat_l; lia. }
      change (n / 2) with (n / 2 ^ 1) in Hle.
      rewrite <- Z.shiftr_div_pow2 in Hle by lia.
      assert (1 <= Z.log2 n). { apply (Z.log2_le_mono 2). lia. }
      rewrite Z.log2_shiftr in Hle by lia. lia. }
    destruct (IH _ Hdiv Hl) as (H1 & H2 & H3).
    set (d := ndigits_fuel f (n / 10)) in *.
    split; [lia|].
    replace (1 + d - 1) with (1 + (d - 1)) by lia.
    rewrite !pow10_add by lia. change (pow10 1) with 10.
    pose proof (Z.div_mod n 10 ltac:(lia)). pose proof (Z.mod_pos_bound n 10).
    lia.
Qed.

Lemma ndigits_spec n :
  0 < n -> 1 <= ndigits n /\ pow10 (ndigits n - 1) <= n < pow10 (ndigits n).
Proof.
  intros Hn. unfold ndigits. apply ndigits_fuel_spec; [done|].
  rewrite Z2Nat.id; [lia|]. apply Z.log2_nonneg.
Qed.

Lemma ndigits_gt a k : 0 <= k -> pow10 k <= a -> k < ndigits a.
Proof.
  intros Hk Ha. pose proof (pow10_pos k Hk).
  destruct (ndigits_spec a ltac:(lia)) as (H1 & _ & H3).
  destruct (Z.lt_ge_cases k (ndigits a)) as [|Hge]; [done|].
  pose proof (pow10_le _ _ Hge). lia.
Qed.

(** * Integer rounding *)

Lemma rdiv_bounds m a b : 0 <= a -> 0 < b -> a / b <= rdiv m a b <= a / b + 1.
Proof. intros. unfold rdiv. destruct m; repeat case_match; lia. Qed.

Lemma rdiv_nonneg m a b : 0 <= a -> 0 < b -> 0 <= rdiv m a b.
Proof.
  intros. pose proof (rdiv_bounds m a b). pose proof (Z.div_pos a b). lia.
Qed.

Lemma rdiv_exact m a b : 0 < b -> rdiv m (a * b) b = a.
Proof.
  intros. unfold rdiv. rewrite Z.div_mul, Z.mod_mul by lia.
  destruct m; repeat case_match; lia.
Qed.

Lemma rdiv_scale m a b k : 0 < b -> 0 < k -> rdiv m (a * k) (b * k) = rdiv m a b.
Proof.
  intros Hb Hk. unfold rdiv.
  rewrite Z.div_mul_cancel_r, Z.mul_mod_distr_r by lia.
  assert (forall x y, (y * k <=? 2 * (x * k)) = (y <=? 2 * x)) as E1.
  { intros. apply Bool.eq_iff_eq_true. rewrite !Z.leb_le. nia. }
  assert (forall x y, (y * k <? 2 * (x * k)) = (y <? 2 * x)) as E2.
  { intros. apply Bool.eq_iff_eq_true. rewrite !Z.ltb_lt. nia. }
  assert (forall x y, (y * k =? 2 * (x * k)) = (y =? 2 * x)) as E3.
  { intros. apply Bool.eq_iff_eq_true. rewrite !Z.eqb_eq. nia. }
  by rewrite E1, E2, E3.
Qed.

Lemma rdiv_mono m a a' b : 0 <= a <= a' -> 0 < b -> rdiv m a b <= rdiv m a' b.
Proof.
  intros [Ha Haa] Hb.
  pose proof (Z.div_le_mono a a' b Hb Haa) as Hq.
  destruct (Z.eq_dec (a / b) (a' / b)) as [E|NE].
  - pose proof (Z.div_mod a b ltac:(lia)) as D. pose proof (Z.div_mod a' b ltac:(lia)) as D'.
    unfold rdiv. rewrite <- E in D' |- *. clear E Hq.
    generalize dependent (a / b). generalize dependent (a mod b).
    generalize dependent (a' mod b). intros r' r q D D'.
    assert (r <= r') by nia.
    destruct m; [|destruct (Z.leb_spec b (2 * r)), (Z.leb_spec b (2 * r')); lia|lia].
    destruct (Z.ltb_spec b (2 * r)), (Z.ltb_spec b (2 * r')),
      (Z.eqb_spec b (2 * r)), (Z.eqb_spec b (2 * r')), (Z.even q); lia.
  - pose proof (rdiv_bounds m a b ltac:(lia) Hb).
    pose proof (rdiv_bounds m a' b ltac:(lia) Hb). lia.
Qed.

Lemma rdivs_opp m a b : rdivs m (- a) b = - rdivs m a b.
Proof. unfold rdivs. rewrite Z.sgn_opp, Z.abs_opp. lia. Qed.

Lemma rdivs_nonneg_eq m a b : 0 <= a -> 0 < b -> rdivs m a b = rdiv m a b.
Proof.
  intros Ha Hb. unfold rdivs. destruct (Z.eq_dec a 0) as [->|].
  - pose proof (rdiv_exact m 0 b Hb) as E. rewrite Z.mul_0_l in E.
    change (Z.abs 0) with 0. lia.
  - rewrite Z.sgn_pos, Z.abs_eq by lia. lia.
Qed.

Lemma rdivs_neg_eq m a b : a <= 0 -> 0 < b -> rdivs m a b = - rdiv m (- a) b.
Proof.
  intros. rewrite <- (rdivs_nonneg_eq m (- a)) by lia. rewrite rdivs_opp. lia.
Qed.

Lemma rdivs_exact m a b : 0 < b -> rdivs m (a * b) b = a.
Proof.
  intros Hb. destruct (Z.le_ge_cases 0 a).
  - rewrite rdivs_nonneg_eq by nia. by apply rdiv_exact.
  - rewrite rdivs_neg_eq by nia. rewrite <- Z.mul_opp_l, rdiv_exact by done. lia.
Qed.

Lemma rdivs_scale m a b k : 0 < b -> 0 < k -> rdivs m (a * k) (b * k) = rdivs m a b.
Proof.
  intros Hb Hk. destruct (Z.le_ge_cases 0 a).
  - rewrite !rdivs_nonneg_eq by nia. by apply rdiv_scale.
  - rewrite !rdivs_neg_eq by nia. by rewrite <- Z.mul_opp_l, rdiv_scale.
Qed.

Lemma rdivs_mono m a a' b : a <= a' -> 0 < b -> rdivs m a b <= rdivs m a' b.
Proof.
  intros Ha Hb. destruct (Z.le_ge_cases 0 a), (Z.le_ge_cases 0 a').
  - rewrite !rdivs_nonneg_eq by done. apply rdiv_mono; lia.
  - replace a' with a by lia. done.
  - rewrite (rdivs_neg_eq m a), (rdivs_nonneg_eq m a') by done.
    pose proof (rdiv_nonneg m (- a) b). pose proof (rdiv_nonneg m a' b). lia.
  - rewrite !rdivs_neg_eq by done.
    pose proof (rdiv_mono m (- a') (- a) b). lia.
Qed.

(** Rounding two fractions, compared by cross multiplication. *)
Lemma rdivs_mono_frac m a b a' b' :
  0 < b -> 0 < b' -> a * b' <= a' * b -> rdivs m a b <= rdivs m a' b'.
Proof.
  intros Hb Hb' Hle.
  rewrite <- (rdivs_scale m a b b'), <- (rdivs_scale m a' b' b) by done.
  rewrite (Z.mul_comm b' b). apply rdivs_mono; [done|nia].
Qed.

Lemma rdivs_le m a b z : 0 < b -> a <= z * b -> rdivs m a b <= z.
Proof.
  intros Hb Hle. rewrite <- (rdivs_exact m z b Hb). by apply rdivs_mono.
Qed.

Lemma rdivs_ge m a b z : 0 < b -> z * b <= a -> z <= rdivs m a b.
Proof.
  intros Hb Hle. rewrite <- (rdivs_exact m z b Hb). by apply rdivs_mono.
Qed.

(** * Values and comparisons *)

Lemma Q10_pos e : (0 < Qpower 10 e)%Q.
Proof. apply Qpower_0_lt. done. Qed.

Lemma Q10_plus a b : (Qpower 10 (a + b) == Qpower 10 a * Qpower 10 b)%Q.
Proof. apply Qpower_plus. done. Qed.

Lemma Q10_pow10 n : 0 <= n -> (Qpower 10 n == inject_Z (pow10 n))%Q.
Proof.
  intros Hn. unfold pow10. destruct n as [|p|p]; [done| |lia].
  simpl. by rewrite Qpower_positive_Zpower || rewrite (Zpower_Qpower 10 (Zpos p)) by lia.
Qed.

Lemma Q10_pow10_split a b : a <= b ->
  (Qpower 10 b == inject_Z (pow10 (b - a)) * Qpower 10 a)%Q.
Proof.
  intros Hab. rewrite <- (Q10_pow10 (b - a)), <- Q10_plus by lia.
  by replace (b - a + a) with b by lia.
Qed.

(** The value of [d] in units of [10 ^ k]. *)
Lemma dval_at k d : k <= dexp d ->
  (dval d == inject_Z (at_exp k d) * Qpower 10 k)%Q.
Proof.
  intros Hk. unfold dval, at_exp. rewrite (Q10_pow10_split k) by done.
  rewrite inject_Z_mult. ring.
Qed.

Lemma units_le x y k :
  (inject_Z x * Qpower 10 k <= inject_Z y * Qpower 10 k)%Q <-> x <= y.
Proof. rewrite Qmult_le_r by apply Q10_pos. by rewrite <- Zle_Qle. Qed.

Lemma units_lt x y k :
  (inject_Z x * Qpower 10 k < inject_Z y * Qpower 10 k)%Q <-> x < y.
Proof. rewrite Qmult_lt_r by apply Q10_pos. by rewrite <- Zlt_Qlt. Qed.

Lemma units_eq x y k :
  (inject_Z x * Qpower 10 k == inject_Z y * Qpower 10 k)%Q <-> x = y.
Proof.
  split; [|by intros ->]. intros E.
  apply Z.le_antisymm; apply (units_le _ _ k); rewrite E; apply Qle_refl.
Qed.

Section common.
Context (a b : dec) (k : Z) (Ha : k <= dexp a) (Hb : k <= dexp b).

Lemma dle_at : dle a b <-> at_exp k a <= at_exp k b.
Proof using Ha Hb. unfold dle. rewrite (dval_at k a), (dval_at k b) by done. apply units_le. Qed.

Lemma dlt_at : dlt a b <-> at_exp k a < at_exp k b.
Proof using Ha Hb. unfold dlt. rewrite (dval_at k a), (dval_at k b) by done. apply units_lt. Qed.

Lemma deq_at : deq a b <-> at_exp k a = at_exp k b.
Proof using Ha Hb. unfold deq. rewrite (dval_at k a), (dval_at k b) by done. apply units_eq. Qed.
End common.

Lemma common_exp_l a b : common_exp a b <= dexp a.
Proof. unfold common_exp. lia. Qed.
Lemma common_exp_r a b : common_exp a b <= dexp b.
Proof. unfold common_exp. lia. Qed.
#[export] Hint Resolve common_exp_l common_exp_r : decimal.

Lemma dleb_spec a b : dleb a b = true <-> dle a b.
Proof.
  rewrite (dle_at a b (common_exp a b)) by auto with decimal.
  unfold dleb, dcompare. destruct (Z.compare_spec (at_exp (common_exp a b) a) (at_exp (common_exp a b) b)); naive_solver lia.
Qed.

Lemma dltb_spec a b : dltb a b = true <-> dlt a b.
Proof.
  rewrite (dlt_at a b (common_exp a b)) by auto with decimal.
  unfold dltb, dcompare. destruct (Z.compare_spec (at_exp (common_exp a b) a) (at_exp (common_exp a b) b)); naive_solver lia.
Qed.

Lemma deqb_spec a b : deqb a b = true <-> a ≃ b.
Proof.
  rewrite (deq_at a b (common_exp a b)) by auto with decimal.
  unfold deqb, dcompare. destruct (Z.compare_spec (at_exp (common_exp a b) a) (at_exp (common_exp a b) b)); naive_solver lia.
Qed.

Lemma dltb_false a b : dltb a b = false <-> dle b a.
Proof.
  rewrite <- not_true_iff_false, dltb_spec. unfold dlt, dle.
  split; [apply Qnot_lt_le | apply Qle_not_lt].
Qed.

Lemma dleb_false a b : dleb a b = false <-> dlt b a.
Proof.
  rewrite <- not_true_iff_false, dleb_spec. unfold dlt, dle.
  split; [apply Qnot_le_lt | apply Qlt_not_le].
Qed.

#[export] Hint Rewrite dleb_spec dltb_spec deqb_spec dltb_false dleb_false : dec_cmp.

(** Equality, order and the operations respect the value. *)
#[export] Instance deq_equivalence : Equivalence deq.
Proof.
  unfold deq. split; [by intros ? | by intros ?? -> | by intros ??? -> ->].
Qed.

#[export] Instance dle_preorder : PreOrder dle.
Proof. unfold dle. split; [intros ?; apply Qle_refl | intros ???; apply Qle_trans]. Qed.

#[export] Instance dle_proper : Proper (deq ==> deq ==> iff) dle.
Proof. unfold deq, dle. intros ?? E1 ?? E2. by rewrite E1, E2. Qed.

#[export] Instance dlt_proper : Proper (deq ==> deq ==> iff) dlt.
Proof. unfold deq, dlt. intros ?? E1 ?? E2. by rewrite E1, E2. Qed.

#[export] Instance dltb_proper : Proper (deq ==> deq ==> eq) dltb.
Proof.
  intros a a' Ea b b' Eb. apply Bool.eq_iff_eq_true.
  rewrite !dltb_spec. by rewrite Ea, Eb.
Qed.

#[export] Instance dleb_proper : Proper (deq ==> deq ==> eq) dleb.
Proof.
  intros a a' Ea b b' Eb. apply Bool.eq_iff_eq_true.
  rewrite !dleb_spec. by rewrite Ea, Eb.
Qed.

Lemma dle_antisym a b : dle a b -> dle b a -> a ≃ b.
Proof. unfold dle, deq. apply Qle_antisym. Qed.

Lemma dlt_le a b : dlt a b -> dle a b.
Proof. apply Qlt_le_weak. Qed.

Lemma dle_lt_trans a b c : dle a b -> dlt b c -> dlt a c.
Proof. apply Qle_lt_trans. Qed.

Lemma dlt_le_trans a b c : dlt a b -> dle b c -> dlt a c.
Proof. apply Qlt_le_trans. Qed.

Lemma dmin_spec a b : dle (dmin a b) a /\ dle (dmin a b) b /\ (dmin a b = a \/ dmin a b = b).
Proof.
  unfold dmin. destruct (dltb b a) eqn:E.
  - apply dltb_spec, dlt_le in E. split_and!; [done|reflexivity|by right].
  - apply dltb_false in E. split_and!; [reflexivity|done|by left].
Qed.

Lemma dmax_spec a b : dle a (dmax a b) /\ dle b (dmax a b) /\ (dmax a b = a \/ dmax a b = b).
Proof.
  unfold dmax. destruct (dltb a b) eqn:E.
  - apply dltb_spec, dlt_le in E. split_and!; [done|reflexivity|by right].
  - apply dltb_false in E. split_and!; [reflexivity|done|by left].
Qed.

(** A decimal of the same exponent is compared by its coefficient. *)
Lemma dle_coef a b : dexp a = dexp b -> dle a b <-> coef a <= coef b.
Proof.
  intros E. rewrite (dle_at a b (dexp a)) by lia. unfold at_exp.
  rewrite E, Z.sub_diag. change (pow10 0) with 1. by rewrite !Z.mul_1_r.
Qed.

Lemma deq_coef a b : dexp a = dexp b -> a ≃ b <-> coef a = coef b.
Proof.
  intros E. rewrite (deq_at a b (dexp a)) by lia. unfold at_exp.
  rewrite E, Z.sub_diag. change (pow10 0) with 1. by rewrite !Z.mul_1_r.
Qed.

Lemma dle_0 d : dle dzero d <-> 0 <= coef d.
Proof.
  rewrite (dle_at _ _ (Z.min 0 (dexp d))) by (simpl; lia). unfold at_exp. simpl.
  pose proof (pow10_pos (dexp d - Z.min 0 (dexp d)) ltac:(lia)). nia.
Qed.

Lemma dlt_0 d : dlt dzero d <-> 0 < coef d.
Proof.
  rewrite (dlt_at _ _ (Z.min 0 (dexp d))) by (simpl; lia). unfold at_exp. simpl.
  pose proof (pow10_pos (dexp d - Z.min 0 (dexp d)) ltac:(lia)). nia.
Qed.

Lemma dle_0_r d : dle d dzero <-> coef d <= 0.
Proof.
  rewrite (dle_at _ _ (Z.min 0 (dexp d))) by (simpl; lia). unfold at_exp. simpl.
  pose proof (pow10_pos (dexp d - Z.min 0 (dexp d)) ltac:(lia)). nia.
Qed.

(** * Negation and exact sums *)

Lemma at_exp_neg k a : at_exp k (dneg a) = - at_exp k a.
Proof. unfold at_exp, dneg. simpl. lia. Qed.

Lemma dval_neg a : (dval (dneg a) == - dval a)%Q.
Proof. unfold dval, dneg. simpl. rewrite inject_Z_opp. ring. Qed.

Lemma dle_neg a b : dle (dneg a) (dneg b) <-> dle b a.
Proof. unfold dle. rewrite !dval_neg. split; intros; lra. Qed.

Lemma dval_add_exact a b : (dval (add_exact a b) == dval a + dval b)%Q.
Proof.
  unfold add_exact. rewrite (dval_at (common_exp a b) a), (dval_at (common_exp a b) b)
    by auto with decimal.
  unfold dval. simpl. rewrite inject_Z_plus. ring.
Qed.

Lemma dval_mul_exact a b : (dval (mul_exact a b) == dval a * dval b)%Q.
Proof.
  unfold mul_exact, dval. simpl. rewrite inject_Z_mult, Q10_plus. ring.
Qed.

(** * Context rounding *)

Lemma fix_exact d : repr d -> fix_prec d = d.
Proof.
  unfold repr, fix_prec. intros H. apply Z.ltb_lt in H. by rewrite H.
Qed.

(** The digits context rounding drops, and its integer quotient. *)
Definition dropped (d : dec) : Z := ndigits (Z.abs (coef d)) - prec.

Lemma dropped_pos d : ~ repr d -> 0 < dropped d.
Proof.
  unfold repr, dropped. intros H%Z.nlt_ge.
  pose proof (ndigits_gt _ prec ltac:(done) H). lia.
Qed.

(** The value of a rounded decimal: its quotient, whatever the renormalisation. *)
Lemma dval_fix d : ~ repr d ->
  (dval (fix_prec d) ==
   inject_Z (rdivs ROUND_HALF_EVEN (coef d) (pow10 (dropped d)))
   * Qpower 10 (dexp d + dropped d))%Q.
Proof.
  intros Hr. pose proof (dropped_pos d Hr). unfold repr in Hr. unfold fix_prec.
  fold (dropped d). destruct (Z.ltb_spec (Z.abs (coef d)) (pow10 prec)) as [|_]; [done|].
  set (c := rdivs ROUND_HALF_EVEN (coef d) (pow10 (dropped d))).
  destruct (Z.eqb_spec (Z.abs c) (pow10 prec)) as [E|_]; unfold dval; simpl.
  - rewrite (Q10_plus _ 1).
    assert (c = Z.sgn c * pow10 (prec - 1) * 10) as ->.
    { rewrite <- Z.mul_assoc. change (pow10 (prec - 1) * 10) with (pow10 prec).
      rewrite <- E. pose proof (Z.sgn_abs c). lia. }
    rewrite !inject_Z_mult. change (Qpower 10 1) with 10%Q.
    replace (Z.sgn (Z.sgn c * pow10 (prec - 1) * 10)) with (Z.sgn c)
      by (rewrite !Z.sgn_mul, Z.sgn_sgn; change (Z.sgn (pow10 (prec - 1))) with 1; lia).
    change (inject_Z 10) with 10%Q. ring.
  - done.
Qed.

Lemma fix_neg d : fix_prec (dneg d) = dneg (fix_prec d).
Proof.
  unfold fix_prec, dneg. simpl. rewrite Z.abs_opp.
  destruct (Z.ltb_spec (Z.abs (coef d)) (pow10 prec)); [done|].
  rewrite rdivs_opp, Z.abs_opp, Z.sgn_opp.
  case_match; simpl; f_equal; lia.
Qed.

(** The leading digits of a number that is rounded. *)
Lemma dropped_lead d : ~ repr d ->
  pow10 (prec - 1) * pow10 (dropped d) <= Z.abs (coef d).
Proof.
  intros Hr. pose proof (dropped_pos d Hr). unfold repr in Hr.
  destruct (ndigits_spec (Z.abs (coef d))) as (_ & Hlo & _).
  { pose proof (pow10_pos prec ltac:(done)). lia. }
  replace (ndigits (Z.abs (coef d)) - 1) with (prec - 1 + dropped d) in Hlo
    by (unfold dropped; lia).
  by rewrite pow10_add in Hlo by (unfold prec; lia).
Qed.

Section fix_le.
Context (d y : dec) (Hr : ~ repr d) (Hy : repr y) (Hd : dle d y).
#[local] Abbreviation n := (dropped d).
#[local] Abbreviation r := (rdivs ROUND_HALF_EVEN (coef d) (pow10 (dropped d))).

Lemma dropped_pow_pos : 0 < pow10 n.
Proof using Hr. apply pow10_pos. pose proof (dropped_pos d Hr). lia. Qed.

(** [y] has no digit below the last digit kept. *)
Lemma fix_le_coarse : dexp d + n <= dexp y -> dle (fix_prec d) y.
Proof using Hr Hd.
  intros He. pose proof (dropped_pos d Hr). pose proof dropped_pow_pos.
  unfold dle. rewrite dval_fix, (dval_at (dexp d + n) y) by done. apply units_le.
  apply rdivs_le; [done|].
  apply (dle_at d y (dexp d)) in Hd; [|lia|lia]. unfold at_exp in *.
  rewrite Z.sub_diag in Hd. change (pow10 0) with 1 in Hd.
  replace (dexp y - dexp d) with (dexp y - (dexp d + n) + n) in Hd by lia.
  rewrite pow10_add in Hd by lia. lia.
Qed.

(** [y] has finer digits: it is then smaller in magnitude than [d]. *)
Lemma fine_small : dexp y < dexp d + n ->
  Z.abs (coef y) < pow10 (prec - 1) * pow10 (dexp d + n - dexp y).
Proof using Hy.
  intros He. unfold repr in Hy.
  assert (pow10 1 <= pow10 (dexp d + n - dexp y)) by (apply pow10_le; lia).
  change (pow10 prec) with (pow10 (prec - 1) * pow10 1) in Hy.
  pose proof (pow10_pos (prec - 1) ltac:(done)). nia.
Qed.

Lemma fine_negative : dexp y < dexp d + n -> coef d < 0.
Proof using Hr Hy Hd.
  intros He. destruct (Z.lt_ge_cases (coef d) 0) as [|Hpos]; [done|exfalso].
  pose proof (dropped_pos d Hr). pose proof (dropped_lead d Hr) as Hlo.
  pose proof (fine_small He) as Hyb.
  set (k := Z.min (dexp d) (dexp y)).
  apply (dle_at d y k) in Hd; [|lia|lia]. unfold at_exp in Hd.
  rewrite Z.abs_eq in Hlo by lia.
  assert (Hm : pow10 n * pow10 (dexp d - k) = pow10 (dexp d + n - dexp y) * pow10 (dexp y - k)).
  { rewrite <- !pow10_add by lia. f_equal. lia. }
  pose proof (pow10_pos (dexp d - k) ltac:(lia)) as HB.
  pose proof (pow10_pos (dexp y - k) ltac:(lia)) as HD.
  pose proof (Z.mul_le_mono_nonneg_r _ _ (pow10 (dexp d - k)) ltac:(lia) Hlo).
  pose proof (proj1 (Z.mul_lt_mono_pos_r _ _ _ HD) Hyb).
  rewrite <- Z.mul_assoc, Hm in *. nia.
Qed.

Lemma fix_le_fine : dexp y < dexp d + n -> dle (fix_prec d) y.
Proof using Hr Hy Hd.
  intros He. pose proof (fine_negative He). pose proof (fine_small He).
  pose proof (dropped_lead d Hr). pose proof dropped_pow_pos.
  assert (r <= - pow10 (prec - 1)) by (apply rdivs_le; lia).
  unfold dle. rewrite dval_fix by done.
  rewrite (Q10_pow10_split (dexp y) (dexp d + n)) by lia.
  rewrite Qmult_assoc, <- inject_Z_mult. apply units_le.
  pose proof (pow10_pos (dexp d + n - dexp y) ltac:(lia)). nia.
Qed.
End fix_le.

(** A value of at most 28 digits bounds the rounded number if it bounds the
    exact one: rounding never crosses a representable number. *)
Lemma fix_le d y : repr y -> dle d y -> dle (fix_prec d) y.
Proof.
  intros Hy Hd. destruct (decide (Z.abs (coef d) < pow10 prec)) as [Hs|Hr].
  { by rewrite fix_exact. }
  destruct (Z.lt_ge_cases (dexp y) (dexp d + dropped d)).
  - by apply fix_le_fine.
  - by apply fix_le_coarse.
Qed.

Lemma repr_neg d : repr (dneg d) <-> repr d.
Proof. unfold repr, dneg. simpl. by rewrite Z.abs_opp. Qed.

Lemma fix_ge d y : repr y -> dle y d -> dle y (fix_prec d).
Proof.
  intros Hy Hd. apply dle_neg. rewrite <- fix_neg. apply fix_le.
  - by apply repr_neg.
  - by apply dle_neg.
Qed.

Lemma repr_zero : repr dzero.
Proof. done. Qed.

(** A rounded number is representable. *)
Lemma repr_fix d : repr (fix_prec d).
Proof.
  destruct (decide (Z.abs (coef d) < pow10 prec)) as [Hs|Hr]; [by rewrite fix_exact|].
  fold (repr d) in Hr. pose proof (dropped_pos d Hr) as Hn.
  pose proof (pow10_pos (dropped d) ltac:(lia)).
  assert (Hub : Z.abs (coef d) <= pow10 prec * pow10 (dropped d)).
  { destruct (ndigits_spec (Z.abs (coef d))) as (_ & _ & Hhi).
    { unfold repr in Hr. pose proof (pow10_pos prec ltac:(done)). lia. }
    rewrite <- pow10_add by (unfold prec; lia). unfold dropped.
    replace (prec + (ndigits (Z.abs (coef d)) - prec)) with (ndigits (Z.abs (coef d))) by lia. lia. }
  assert (Hc : Z.abs (rdivs ROUND_HALF_EVEN (coef d) (pow10 (dropped d))) <= pow10 prec).
  { apply Z.abs_le. split; [apply rdivs_ge|apply rdivs_le]; lia. }
  unfold fix_prec. unfold repr in Hr. fold (dropped d).
  destruct (Z.ltb_spec (Z.abs (coef d)) (pow10 prec)); [done|].
  destruct (Z.eqb_spec (Z.abs (rdivs ROUND_HALF_EVEN (coef d) (pow10 (dropped d)))) (pow10 prec)) as [|NE];
    unfold repr; simpl; [|lia].
  rewrite Z.abs_mul. pose proof (Z.sgn_abs (Z.sgn (rdivs ROUND_HALF_EVEN (coef d) (pow10 (dropped d))))).
  change (Z.abs (pow10 (prec - 1))) with (pow10 (prec - 1)).
  assert (Z.abs (Z.sgn (rdivs ROUND_HALF_EVEN (coef d) (pow10 (dropped d)))) <= 1) by lia.
  change (pow10 prec) with (10 * pow10 (prec - 1)).
  pose proof (pow10_pos (prec - 1) ltac:(done)). nia.
Qed.

(** * Sums, differences and products *)

Lemma dadd_le a b y : repr y -> (dval a + dval b <= dval y)%Q -> dle (dadd a b) y.
Proof. intros. apply fix_le; [done|]. unfold dle. by rewrite dval_add_exact. Qed.

Lemma dadd_ge a b y : repr y -> (dval y <= dval a + dval b)%Q -> dle y (dadd a b).
Proof. intros. apply fix_ge; [done|]. unfold dle. by rewrite dval_add_exact. Qed.

Lemma dsub_le a b y : repr y -> (dval a - dval b <= dval y)%Q -> dle (dsub a b) y.
Proof.
  intros. apply fix_le; [done|]. unfold dle. by rewrite dval_add_exact, dval_neg.
Qed.

Lemma dsub_ge a b y : repr y -> (dval y <= dval a - dval b)%Q -> dle y (dsub a b).
Proof.
  intros. apply fix_ge; [done|]. unfold dle. by rewrite dval_add_exact, dval_neg.
Qed.

Lemma dmul_le a b y : repr y -> (dval a * dval b <= dval y)%Q -> dle (dmul a b) y.
Proof. intros. apply fix_le; [done|]. unfold dle. by rewrite dval_mul_exact. Qed.

Lemma dmul_ge a b y : repr y -> (dval y <= dval a * dval b)%Q -> dle y (dmul a b).
Proof. intros. apply fix_ge; [done|]. unfold dle. by rewrite dval_mul_exact. Qed.

Lemma dval_zero : (dval dzero == 0)%Q.
Proof. done. Qed.

Lemma dle_zero d : dle dzero d <-> (0 <= dval d)%Q.
Proof. unfold dle. by rewrite dval_zero. Qed.

(** Exact results: operands with the same exponent and small coefficients. *)
Lemma dadd_same a b : dexp a = dexp b -> Z.abs (coef a + coef b) < pow10 prec ->
  dadd a b = Dec (coef a + coef b) (dexp a).
Proof.
  intros E Hs. unfold dadd, add_exact, common_exp, at_exp. rewrite <- E.
  rewrite Z.min_id, Z.sub_diag. change (pow10 0) with 1. rewrite !Z.mul_1_r.
  by apply fix_exact.
Qed.

Lemma dsub_same a b : dexp a = dexp b -> Z.abs (coef a - coef b) < pow10 prec ->
  dsub a b = Dec (coef a - coef b) (dexp a).
Proof. intros E Hs. exact (dadd_same a (dneg b) E Hs). Qed.

Lemma dmul_small a b : Z.abs (coef a * coef b) < pow10 prec ->
  dmul a b = Dec (coef a * coef b) (dexp a + dexp b).
Proof. intros. by apply fix_exact. Qed.

Lemma dmul_nonneg a b : dle dzero a -> dle dzero b -> dle dzero (dmul a b).
Proof.
  intros Ha Hb. apply dmul_ge; [done|]. rewrite dval_zero.
  apply Qmult_le_0_compat; by rewrite <- dle_zero.
Qed.

(** A product by a factor of at most one does not exceed a representable value. *)
Lemma dmul_le_one a r : repr a -> dle dzero a -> dle r (dint 1) -> dle (dmul a r) a.
Proof.
  intros Hr Ha H1. apply dmul_le; [done|]. rewrite dle_zero in Ha.
  unfold dle in H1. change (dval (dint 1)) with (1 * 1)%Q in H1.
  nra.
Qed.

Lemma dadd_nonneg a b : dle dzero a -> dle dzero b -> dle dzero (dadd a b).
Proof.
  rewrite !dle_zero. intros Ha Hb. rewrite <- dle_zero. apply dadd_ge; [done|].
  rewrite dval_zero. lra.
Qed.

Lemma dsub_nonneg a b : dle b a -> dle dzero (dsub a b).
Proof. unfold dle. intros. apply dsub_ge; [done|]. rewrite dval_zero. lra. Qed.

(** * Quotients *)

Section division.
Context (num den q' e : Z) (y : dec).
Context (Hden : 0 < den) (Hbig : pow10 prec <= num / den) (Hy : repr y).
Context (Hrem : num mod den <> 0).
Context (Hq' : q' = if num / den mod 5 =? 0 then num / den + 1 else num / den).

Lemma sticky_bounds : num / den <= q' <= num / den + 1.
Proof using Hq'. subst q'. case_match; lia. Qed.

Lemma num_bounds : num / den * den < num < (num / den + 1) * den.
Proof using Hden Hrem.
  pose proof (Z.div_mod num den ltac:(lia)). pose proof (Z.mod_pos_bound num den Hden). nia.
Qed.

(** A representable number has no digit at the sticky position. *)
Lemma sticky_le : (inject_Z num * Qpower 10 e <= dval y * inject_Z den)%Q -> dle (Dec q' e) y.
Proof using Hden Hbig Hy Hrem Hq'.
  intros Hle. pose proof sticky_bounds. pose proof num_bounds.
  destruct (Z.lt_ge_cases e (dexp y)) as [He|He].
  - rewrite (dval_at e y) in Hle by lia.
    assert (Hz : num <= at_exp e y * den).
    { apply (units_le _ _ e). rewrite inject_Z_mult.
      eapply Qle_trans; [exact Hle|]. apply Qle_lteq. right. ring. }
    apply (dle_at _ _ e); [simpl; lia|lia|].
    unfold at_exp at 1. simpl. rewrite Z.sub_diag. change (pow10 0) with 1. nia.
  - exfalso. unfold repr in Hy.
    assert (Hlt : (dval y < inject_Z (num / den) * Qpower 10 e)%Q).
    { unfold dval. rewrite (Q10_pow10_split (dexp y) e), Qmult_assoc, <- inject_Z_mult by lia.
      apply units_lt. pose proof (pow10_pos (e - dexp y) ltac:(lia)). nia. }
    assert (Hnd : (inject_Z (num / den) * Qpower 10 e * inject_Z den <= inject_Z num * Qpower 10 e)%Q).
    { rewrite <- Qmult_assoc, (Qmult_comm (Qpower 10 e)), Qmult_assoc, <- inject_Z_mult.
      apply units_le. lia. }
    assert (Hd : (inject_Z 0 < inject_Z den)%Q) by (by rewrite <- Zlt_Qlt).
    rewrite <- (Qmult_lt_r _ _ _ Hd) in Hlt. lra.
Qed.

Lemma sticky_ge : (dval y * inject_Z den <= inject_Z num * Qpower 10 e)%Q -> dle y (Dec q' e).
Proof using Hden Hbig Hy Hrem Hq'.
  intros Hle. pose proof sticky_bounds. pose proof num_bounds.
  destruct (Z.lt_ge_cases e (dexp y)) as [He|He].
  - rewrite (dval_at e y) in Hle by lia.
    assert (Hz : at_exp e y * den <= num).
    { apply (units_le _ _ e). rewrite inject_Z_mult.
      eapply Qle_trans; [|exact Hle]. apply Qle_lteq. right. ring. }
    apply (dle_at _ _ e); [lia|simpl; lia|].
    unfold at_exp at 2. simpl. rewrite Z.sub_diag. change (pow10 0) with 1. nia.
  - unfold dle, dval at 2. simpl.
    eapply Qle_trans; [|apply units_le; exact (proj1 sticky_bounds)].
    unfold dval. rewrite (Q10_pow10_split (dexp y) e), Qmult_assoc, <- inject_Z_mult by lia.
    apply units_le. unfold repr in Hy. pose proof (pow10_pos (e - dexp y) ltac:(lia)). nia.
Qed.
End division.

Lemma strip_zeros_val f c e ideal : strip_zeros f c e ideal ≃ Dec c e.
Proof.
  revert c e. induction f as [|f IH]; intros c e; simpl; [reflexivity|].
  destruct ((e <? ideal) && (c mod 10 =? 0)) eqn:E; [|reflexivity].
  apply andb_true_iff in E as [_ Hm%Z.eqb_eq]. rewrite IH.
  apply (deq_at _ _ e); [simpl; lia|simpl; lia|]. unfold at_exp. simpl.
  rewrite Z.sub_diag, Z.add_comm, Z.add_simpl_r. change (pow10 0) with 1. change (pow10 1) with 10.
  pose proof (Z.div_mod c 10 ltac:(lia)). lia.
Qed.

(** The integer quotient [ddiv] computes, for positive operands. *)
Section quotient.
Context (a b : dec) (Ha : 0 < coef a) (Hb : 0 < coef b).
Let shift := ndigits (coef b) - ndigits (coef a) + prec + 1.
Let num := if 0 <=? shift then coef a * pow10 shift else coef a.
Let den := if 0 <=? shift then coef b else coef b * pow10 (- shift).
Let e := dexp a - dexp b - shift.

Lemma den_pos : 0 < den.
Proof using Hb.
  unfold den. case_match eqn:E; [done|]. apply Z.leb_gt in E.
  pose proof (pow10_pos (- shift) ltac:(lia)). nia.
Qed.

(** At least [prec + 1] digits are computed. *)
Lemma quotient_big : pow10 prec <= num / den.
Proof using Ha Hb.
  pose proof den_pos. apply Z.div_le_lower_bound; [done|].
  destruct (ndigits_spec (coef a) Ha) as (Hna & Hla & Hua).
  destruct (ndigits_spec (coef b) Hb) as (Hnb & Hlb & Hub).
  pose proof (pow10_pos prec ltac:(done)).
  unfold num, den. case_match eqn:E; [apply Z.leb_le in E|apply Z.leb_gt in E].
  - pose proof (pow10_pos shift E).
    assert (pow10 (ndigits (coef b)) * pow10 prec = pow10 (ndigits (coef a) - 1) * pow10 shift)
      by (rewrite <- !pow10_add by (unfold prec in *; lia); f_equal; unfold shift; lia).
    nia.
  - pose proof (pow10_pos (- shift) ltac:(lia)).
    assert (pow10 prec * pow10 (ndigits (coef b)) * pow10 (- shift) = pow10 (ndigits (coef a) - 1))
      by (rewrite <- !pow10_add by (unfold prec in *; lia); f_equal; unfold shift; lia).
    nia.
Qed.

(** [a / b = num / den * 10 ^ e] *)
Lemma quotient_val : (dval a * inject_Z den == dval b * (inject_Z num * Qpower 10 e))%Q.
Proof using.
  assert (H10 : (Qpower 10 (dexp a) == Qpower 10 (dexp b) * Qpower 10 (e + shift))%Q).
  { rewrite <- Q10_plus. by replace (dexp b + (e + shift)) with (dexp a) by (unfold e; lia). }
  unfold dval. rewrite H10, Q10_plus. unfold num, den. case_match eqn:E.
  - apply Z.leb_le in E. rewrite inject_Z_mult, <- Q10_pow10 by done. ring.
  - apply Z.leb_gt in E. rewrite inject_Z_mult, <- Q10_pow10 by lia.
    assert (Hs : (Qpower 10 shift * Qpower 10 (- shift) == 1)%Q).
    { rewrite <- Q10_plus. by replace (shift + - shift) with 0 by lia. }
    transitivity (inject_Z (coef a) * Qpower 10 (dexp b) * Qpower 10 e
                  * inject_Z (coef b) * (Qpower 10 shift * Qpower 10 (- shift)))%Q; [ring|].
    rewrite Hs. ring.
Qed.

Lemma ddiv_parts :
  exists num den e d,
    0 < den /\ pow10 prec <= num / den /\
    (dval a * inject_Z den == dval b * (inject_Z num * Qpower 10 e))%Q /\
    ddiv a b = Ok (fix_prec d) /\
    ((num mod den = 0 /\ d ≃ Dec (num / den) e) \/
     (num mod den <> 0 /\
      d = Dec (if num / den mod 5 =? 0 then num / den + 1 else num / den) e)).
Proof using Ha Hb.
  pose proof den_pos. pose proof quotient_big. pose proof quotient_val.
  pose proof (strip_zeros_val (Z.to_nat (ndigits (num / den))) (num / den) e (dexp a - dexp b)) as Hs.
  exists num, den, e. unfold ddiv.
  destruct (Z.eqb_spec (coef b) 0); [lia|]. destruct (Z.eqb_spec (coef a) 0); [lia|].
  rewrite !Z.sgn_pos, !Z.abs_eq, !Z.mul_1_l by lia. fold shift. fold num den e.
  destruct (Z.eqb_spec (num mod den) 0) as [Hz|Hz]; eexists; split_and!; try done.
  - left. split; [done|]. rewrite <- Hs. by destruct (strip_zeros _ _ _ _).
  - by right.
Qed.
End quotient.

Lemma inject_pos n : 0 < n -> (0 < inject_Z n)%Q.
Proof. intros. change 0%Q with (inject_Z 0). by rewrite <- Zlt_Qlt. Qed.

Lemma dval_pos b : 0 < coef b -> (0 < dval b)%Q.
Proof. intros H%dlt_0. exact H. Qed.

(** Cross multiplication of [x / m] and [y] with [x / m = z / n]. *)
Lemma cross_le (x m z n y : Q) : (0 < m)%Q -> (0 < n)%Q -> (x * n == m * z)%Q ->
  (x <= y * m)%Q -> (z <= y * n)%Q.
Proof. intros Hm Hn E H. apply (Qmult_lt_0_le_reg_r _ _ m Hm). nra. Qed.

Lemma cross_ge (x m z n y : Q) : (0 < m)%Q -> (0 < n)%Q -> (x * n == m * z)%Q ->
  (y * m <= x)%Q -> (y * n <= z)%Q.
Proof. intros Hm Hn E H. apply (Qmult_lt_0_le_reg_r _ _ m Hm). nra. Qed.

(** A representable number that bounds the exact quotient bounds the computed
    one, on either side. *)
Section bracket.
Context (a b q y : dec) (Ha : 0 <= coef a) (Hb : 0 < coef b) (Hy : repr y).
Context (Hd : ddiv a b = Ok q).

Lemma ddiv_zero : coef a = 0 -> (dval a == 0)%Q /\ (dval q == 0)%Q.
Proof using Hb Hd.
  intros E. unfold ddiv in Hd. rewrite E in Hd.
  destruct (Z.eqb_spec (coef b) 0); [lia|]. simpl in Hd. injection Hd as <-.
  unfold dval. rewrite E. simpl. change (inject_Z 0) with 0%Q.
  by rewrite !Qmult_0_l.
Qed.

Lemma ddiv_le : (dval a <= dval y * dval b)%Q -> dle q y.
Proof using Ha Hb Hy Hd.
  intros H. pose proof (dval_pos b Hb) as Hbp.
  destruct (Z.eq_dec (coef a) 0) as [E|NE].
  { destruct (ddiv_zero E) as [Ea Eq]. unfold dle. rewrite Ea in H. rewrite Eq.
    apply (Qmult_lt_0_le_reg_r _ _ _ Hbp). lra. }
  destruct (ddiv_parts a b) as (num & den & e & d & Hden & Hbig & Hval & Hd' & Hcase); [lia|done|].
  rewrite Hd in Hd'. injection Hd' as ->. pose proof (inject_pos den Hden) as Hdp.
  pose proof (cross_le _ _ _ _ _ Hbp Hdp Hval H) as Hc.
  apply fix_le; [done|]. destruct Hcase as [[Hz Hdv]|[Hz ->]]; [|by eapply (sticky_le num den)].
  rewrite Hdv. unfold dle, dval at 1. simpl.
  apply (Qmult_lt_0_le_reg_r _ _ _ Hdp).
  rewrite (Z.div_mod num den), Hz, Z.add_0_r, inject_Z_mult in Hc by lia. lra.
Qed.

Lemma ddiv_ge : (dval y * dval b <= dval a)%Q -> dle y q.
Proof using Ha Hb Hy Hd.
  intros H. pose proof (dval_pos b Hb) as Hbp.
  destruct (Z.eq_dec (coef a) 0) as [E|NE].
  { destruct (ddiv_zero E) as [Ea Eq]. unfold dle. rewrite Ea in H. rewrite Eq.
    apply (Qmult_lt_0_le_reg_r _ _ _ Hbp). lra. }
  destruct (ddiv_parts a b) as (num & den & e & d & Hden & Hbig & Hval & Hd' & Hcase); [lia|done|].
  rewrite Hd in Hd'. injection Hd' as ->. pose proof (inject_pos den Hden) as Hdp.
  pose proof (cross_ge _ _ _ _ _ Hbp Hdp Hval H) as Hc.
  apply fix_ge; [done|]. destruct Hcase as [[Hz Hdv]|[Hz ->]]; [|by eapply (sticky_ge num den)].
  rewrite Hdv. unfold dle, dval at 2. simpl.
  apply (Qmult_lt_0_le_reg_r _ _ _ Hdp).
  rewrite (Z.div_mod num den), Hz, Z.add_0_r, inject_Z_mult in Hc by lia. lra.
Qed.

(** A quotient that has a representable value is exact. *)
Lemma ddiv_exact : (dval a == dval y * dval b)%Q -> q ≃ y.
Proof using Ha Hb Hy Hd.
  intros E. apply dle_antisym; [apply ddiv_le|apply ddiv_ge]; rewrite E; apply Qle_refl.
Qed.
End bracket.

Lemma ddiv_Ok a b : coef b <> 0 -> exists q, ddiv a b = Ok q.
Proof.
  intros Hb. unfold ddiv. destruct (Z.eqb_spec (coef b) 0); [done|].
  repeat case_match; eauto.
Qed.

Lemma ddiv_nonneg a b q : 0 <= coef a -> 0 < coef b -> ddiv a b = Ok q -> dle dzero q.
Proof.
  intros Ha Hb Hd. eapply ddiv_ge; eauto; [done|]. rewrite dval_zero, Qmult_0_l.
  rewrite <- dval_zero. by apply dle_0.
Qed.

(** * Quantising *)

(** The quantised coefficient as one rounded fraction. *)
Lemma quantize_coef m e d q : quantize m e d = Ok q ->
  dexp q = e /\ repr q /\
  coef q = rdivs m (coef d * pow10 (Z.max 0 (dexp d - e))) (pow10 (Z.max 0 (e - dexp d))).
Proof.
  unfold quantize. intros H.
  destruct (Z.ltb_spec (Z.abs (if e <=? dexp d then at_exp e d else rdivs m (coef d) (pow10 (e - dexp d)))) (pow10 prec)) as [Hs|]; [|done].
  injection H as <-. simpl. split_and!; [done|done|].
  destruct (Z.leb_spec e (dexp d)).
  - rewrite (Z.max_r 0 (dexp d - e)), (Z.max_l 0 (e - dexp d)) by lia.
    change (pow10 0) with 1. unfold at_exp.
    pose proof (rdivs_exact m (coef d * pow10 (dexp d - e)) 1 ltac:(lia)) as E.
    by rewrite Z.mul_1_r in E.
  - rewrite (Z.max_l 0 (dexp d - e)), (Z.max_r 0 (e - dexp d)) by lia.
    change (pow10 0) with 1. by rewrite Z.mul_1_r.
Qed.

Lemma quantize_exp m e d q : quantize m e d = Ok q -> dexp q = e.
Proof. intros H. by apply quantize_coef in H as (? & _). Qed.

Lemma quantize_repr m e d q : quantize m e d = Ok q -> repr q.
Proof. intros H. by apply quantize_coef in H as (_ & ? & _). Qed.

Lemma quantize_id m e d : dexp d = e -> repr d -> quantize m e d = Ok d.
Proof.
  intros <- Hr. unfold quantize, at_exp. rewrite Z.leb_refl, Z.sub_diag.
  change (pow10 0) with 1. rewrite Z.mul_1_r. unfold repr in Hr.
  apply Z.ltb_lt in Hr. rewrite Hr. by destruct d.
Qed.

Lemma quantize_mono m e a b qa qb :
  quantize m e a = Ok qa -> quantize m e b = Ok qb -> dle a b -> dle qa qb.
Proof.
  intros (Ea & _ & Ca)%quantize_coef (Eb & _ & Cb)%quantize_coef Hle.
  apply dle_coef; [congruence|]. rewrite Ca, Cb.
  set (k := Z.min e (Z.min (dexp a) (dexp b))).
  apply (dle_at a b k) in Hle; [|lia|lia]. unfold at_exp in Hle.
  apply rdivs_mono_frac; [apply pow10_pos; lia..|].
  assert (H1 : dexp a - k + (e - k) = Z.max 0 (dexp a - e) + Z.max 0 (e - dexp b) + (Z.min e (dexp a) - k) + (Z.min e (dexp b) - k)) by lia.
  assert (H2 : dexp b - k + (e - k) = Z.max 0 (dexp b - e) + Z.max 0 (e - dexp a) + (Z.min e (dexp a) - k) + (Z.min e (dexp b) - k)) by lia.
  apply (f_equal pow10) in H1. apply (f_equal pow10) in H2.
  rewrite !pow10_add in H1 by lia. rewrite !pow10_add in H2 by lia.
  pose proof (pow10_pos (e - k) ltac:(lia)).
  pose proof (pow10_pos (Z.min e (dexp a) - k) ltac:(lia)).
  pose proof (pow10_pos (Z.min e (dexp b) - k) ltac:(lia)).
  apply (Z.mul_le_mono_pos_r _ _ (pow10 (Z.min e (dexp a) - k) * pow10 (Z.min e (dexp b) - k))); [nia|].
  apply (Z.mul_le_mono_nonneg_r _ _ (pow10 (e - k))) in Hle; [|lia].
  rewrite <- !Z.mul_assoc in Hle. rewrite H1, H2 in Hle. lia.
Qed.

Lemma quantize_le m e d q y :
  quantize m e d = Ok q -> dexp y = e -> repr y -> dle d y -> dle q y.
Proof.
  intros Hq Ey Hy Hle. eapply quantize_mono; [exact Hq| |exact Hle].
  by apply quantize_id.
Qed.

Lemma quantize_ge m e d q y :
  quantize m e d = Ok q -> dexp y = e -> repr y -> dle y d -> dle y q.
Proof.
  intros Hq Ey Hy Hle. eapply quantize_mono; [|exact Hq|exact Hle].
  by apply quantize_id.
Qed.

Lemma zero_at e : Dec 0 e ≃ dzero.
Proof. unfold deq, dval. simpl. change (inject_Z 0) with 0%Q. by rewrite !Qmult_0_l. Qed.

Lemma quantize_nonneg m e d q : quantize m e d = Ok q -> dle dzero d -> dle dzero q.
Proof.
  intros Hq Hd. rewrite <- (zero_at e) in *. by eapply quantize_ge.
Qed.

(** Quantising a value equal to one of that exponent gives that number. *)
Lemma quantize_exact m e d y :
  dexp y = e -> repr y -> d ≃ y -> quantize m e d = Ok y.
Proof.
  intros Ey Hy Hd.
  assert (Hc : (if e <=? dexp d then at_exp e d else rdivs m (coef d) (pow10 (e - dexp d))) = coef y).
  { destruct (Z.leb_spec e (dexp d)).
    - apply (deq_at d y e) in Hd; [|lia|lia]. rewrite Hd. unfold at_exp. rewrite Ey, Z.sub_diag.
      change (pow10 0) with 1. lia.
    - apply (deq_at d y (dexp d)) in Hd; [|lia|lia]. unfold at_exp in Hd.
      rewrite Z.sub_diag, Ey in Hd. change (pow10 0) with 1 in Hd. rewrite Z.mul_1_r in Hd.
      rewrite Hd. apply rdivs_exact, pow10_pos. lia. }
  unfold quantize. rewrite Hc. unfold repr in Hy. apply Z.ltb_lt in Hy. rewrite Hy.
  by destruct y; simpl in *; subst.
Qed.

(** Quantising succeeds between two representable numbers of that exponent. *)
Lemma quantize_total m e d lo hi :
  dexp lo = e -> dexp hi = e -> repr lo -> repr hi -> dle lo d -> dle d hi ->
  exists q, quantize m e d = Ok q.
Proof.
  intros El Eh Hl Hh Hlo Hhi. unfold quantize.
  set (c := if e <=? dexp d then at_exp e d else rdivs m (coef d) (pow10 (e - dexp d))).
  enough (coef lo <= c <= coef hi) as Hc.
  { destruct (Z.ltb_spec (Z.abs c) (pow10 prec)); [by eexists|]. unfold repr in *. lia. }
  unfold c. clear c. destruct (Z.leb_spec e (dexp d)).
  - apply (dle_at lo d e) in Hlo; [|lia|lia]. apply (dle_at d hi e) in Hhi; [|lia|lia].
    unfold at_exp in *. rewrite El, Eh, !Z.sub_diag in *. change (pow10 0) with 1 in *. lia.
  - apply (dle_at lo d (dexp d)) in Hlo; [|lia|lia].
    apply (dle_at d hi (dexp d)) in Hhi; [|lia|lia].
    unfold at_exp in *. rewrite El, Eh, Z.sub_diag in *. change (pow10 0) with 1 in *.
    pose proof (pow10_pos (e - dexp d) ltac:(lia)).
    split; [apply rdivs_ge|apply rdivs_le]; lia.
Qed.

(** [v or 0] keeps the value. *)
Lemma dec_or0_val d : dec_or0 (Some d) ≃ d.
Proof.
  simpl. destruct (Z.eqb_spec (coef d) 0) as [E|]; [|reflexivity].
  unfold deq, dval. rewrite E. simpl. change (inject_Z 0) with 0%Q. by rewrite !Qmult_0_l.
Qed.

Lemma dec_or0_cases d : dec_or0 (Some d) = d \/ dec_or0 (Some d) = dzero.
Proof. simpl. case_match; auto. Qed.

Lemma dec_or0_repr d : repr d -> repr (dec_or0 (Some d)).
Proof. intros. destruct (dec_or0_cases d) as [->| ->]; done. Qed.

(** * Percentages and columns *)

Lemma shortest_val f : forall c e, shortest f c e ≃ Dec c e.
Proof.
  induction f as [|f IH]; intros c e; simpl; [reflexivity|].
  destruct ((e <? -1) && (c mod 10 =? 0)) eqn:E; [|reflexivity].
  apply andb_true_iff in E as [_ Hm%Z.eqb_eq]. rewrite IH.
  apply (deq_at _ _ e); [simpl; lia|simpl; lia|]. unfold at_exp. simpl.
  replace (e + 1 - e) with 1 by lia. rewrite Z.sub_diag.
  change (pow10 1) with 10. change (pow10 0) with 1.
  pose proof (Z.div_mod c 10 ltac:(lia)). lia.
Qed.

Lemma shortest_coef f : forall c e, 0 <= c -> 0 <= coef (shortest f c e) <= c.
Proof.
  induction f as [|f IH]; intros c e Hc; simpl; [lia|].
  destruct ((e <? -1) && (c mod 10 =? 0)); simpl; [|lia].
  pose proof (Z.div_pos c 10 ltac:(lia) ltac:(lia)).
  pose proof (Z.div_le_upper_bound c 10 c ltac:(lia) ltac:(lia)).
  specialize (IH (c / 10) (e + 1) ltac:(lia)). lia.
Qed.

(** A column value survives the round trip through [float]. *)
Lemma via_float_val d : via_float d ≃ d.
Proof.
  unfold via_float. destruct (Z.leb_spec (-1) (dexp d)).
  - apply (deq_at _ _ (-1)); [simpl; lia|lia|]. unfold at_exp. cbn [coef dexp].
    replace (dexp d - -1) with (dexp d + 1) by lia. change (pow10 (-1 - -1)) with 1. lia.
  - destruct d. apply shortest_val.
Qed.

Lemma via_float_coef d : dexp d < -1 -> 0 <= coef d -> 0 <= coef (via_float d) <= coef d.
Proof.
  intros He Hc. unfold via_float. destruct (Z.leb_spec (-1) (dexp d)); [lia|].
  by apply shortest_coef.
Qed.

(** A percentage of an amount is exact when the product fits the context. *)
Lemma percent_exact a p :
  0 <= coef a -> 0 <= coef p -> coef a * coef p < pow10 prec ->
  exists q, ddiv (dmul a p) (dint 100) = Ok q /\ (dval q * 100 == dval a * dval p)%Q.
Proof.
  intros Ha Hp Hs. assert (Hm : dmul a p = Dec (coef a * coef p) (dexp a + dexp p)).
  { apply dmul_small. lia. }
  destruct (ddiv_Ok (dmul a p) (dint 100) ltac:(done)) as [q Hq]. exists q. split; [done|].
  set (y := Dec (coef a * coef p) (dexp a + dexp p - 2)).
  assert (Hprod : (dval y * dval (dint 100) == dval a * dval p)%Q).
  { unfold y, dval. simpl. rewrite inject_Z_mult.
    replace (dexp a + dexp p - 2) with (dexp a + dexp p + -2) by lia.
    rewrite !Q10_plus. change (Qpower 10 0) with 1%Q.
    assert (E : (Qpower 10 (-2) * inject_Z 100 == 1)%Q) by reflexivity.
    transitivity (inject_Z (coef a) * Qpower 10 (dexp a) * (inject_Z (coef p) * Qpower 10 (dexp p))
                  * (Qpower 10 (-2) * inject_Z 100))%Q; [ring|]. rewrite E. ring. }
  assert (E : q ≃ y).
  { eapply (ddiv_exact (dmul a p) (dint 100)); [| |unfold repr, y; simpl; lia|exact Hq|].
    - rewrite Hm. simpl. lia.
    - simpl. lia.
    - rewrite Hprod, Hm. unfold dval. simpl. rewrite inject_Z_mult, Q10_plus. ring. }
  unfold deq in E. rewrite E, <- Hprod. by change (dval (dint 100)) with 100%Q.
Qed.

(** A NUMERIC(10, 2) amount that is not negative, and a NUMERIC(5, 2)
    percentage. *)
Definition money (d : dec) : Prop := dexp d = -2 /\ 0 <= coef d < pow10 10.
Definition percentage (d : dec) : Prop := dexp d = -2 /\ 0 <= coef d <= 10000.

(** A nullable column holds a value with the property, when it holds one. *)
Definition nullable (P : dec -> Prop) (o : option dec) : Prop :=
  forall d, o = Some d -> P d.

Lemma dec_or0_coef d : coef (dec_or0 (Some d)) = coef d.
Proof. simpl. destruct (Z.eqb_spec (coef d) 0) as [->|]; done. Qed.

Lemma dec_or0_bounds lo hi o : lo <= 0 <= hi ->
  nullable (fun d => lo <= coef d <= hi) o -> lo <= coef (dec_or0 o) <= hi.
Proof. intros Hb Ho. destruct o as [d|]; [rewrite dec_or0_coef; by apply Ho|simpl; lia]. Qed.

(** A stored percentage of a stored amount. *)
Lemma percent_money a p : money a -> 0 <= coef p <= 10000 ->
  exists q, ddiv (dmul (dec_or0 (Some a)) p) (dint 100) = Ok q /\
    (dval q * 100 == dval a * dval p)%Q.
Proof.
  intros [Ea [Ha Hs]] Hp. pose proof (dec_or0_coef a) as Hc.
  destruct (percent_exact (dec_or0 (Some a)) p) as (q & Hq & Hv); [lia|lia| |].
  - rewrite Hc. change (pow10 prec) with (pow10 18 * pow10 10).
    change (pow10 18) with 1000000000000000000. change (pow10 10) with 10000000000 in *. nia.
  - exists q. split; [done|]. pose proof (dec_or0_val a) as E. unfold deq in E. by rewrite Hv, E.
Qed.

(** [Decimal(v or 0).quantize(Decimal("0.01"))], the helper [_q] of the models. *)
Definition q2 (v : dec) : result dec_error dec :=
  quantize ROUND_HALF_EVEN (-2) (dec_or0 (Some v)).

Lemma money_repr d : money d -> repr d.
Proof.
  intros [_ [H0 H1]]. unfold repr. change (pow10 prec) with (pow10 18 * pow10 10).
  change (pow10 18) with 1000000000000000000. change (pow10 10) with 10000000000 in *. lia.
Qed.

Lemma money_nonneg d : money d -> dle dzero d.
Proof. intros [_ [H _]]. by apply dle_0. Qed.

Lemma q2_money d : money d -> q2 d = Ok d.
Proof.
  intros Hm. apply quantize_exact; [apply Hm|by apply money_repr|apply dec_or0_val].
Qed.

(** A value between zero and an amount is rounded to an amount in between. *)
Lemma q2_between b x : money b -> dle dzero x -> dle x b ->
  exists q, q2 x = Ok q /\ money q /\ dle dzero q /\ dle q b.
Proof.
  intros Hb H0 H1. pose proof (money_repr b Hb) as Hr.
  assert (Hx : dle (Dec 0 (-2)) (dec_or0 (Some x))) by (by rewrite dec_or0_val, zero_at).
  assert (Hx' : dle (dec_or0 (Some x)) b) by (by rewrite dec_or0_val).
  destruct (quantize_total ROUND_HALF_EVEN (-2) (dec_or0 (Some x)) (Dec 0 (-2)) b) as [q Hq];
    try done; [by apply Hb|].
  pose proof (quantize_ge _ _ _ _ (Dec 0 (-2)) Hq eq_refl eq_refl Hx) as Hlo.
  pose proof (quantize_le _ _ _ _ b Hq (proj1 Hb) Hr Hx') as Hhi.
  pose proof (quantize_exp _ _ _ _ Hq) as He.
  exists q. split_and!; [done| |by rewrite <- (zero_at (-2))|done].
  split; [done|]. rewrite zero_at, dle_0 in Hlo.
  rewrite (dle_coef q b) in Hhi by (by rewrite He, (proj1 Hb)).
  destruct Hb as [_ [_ Hb]]. lia.
Qed.

(** The difference of two amounts is exact. *)
Lemma q2_sub b r : money b -> money r -> dle r b ->
  exists f, q2 (dsub b r) = Ok f /\ money f /\ (dval r + dval f == dval b)%Q.
Proof.
  intros Hb Hr Hle. rewrite (dle_coef r b) in Hle by (by rewrite (proj1 Hb), (proj1 Hr)).
  pose proof (money_repr b Hb) as Hrb. destruct Hb as [Eb [Hb0 Hb1]], Hr as [Er [Hr0 Hr1]].
  unfold repr in Hrb. rewrite dsub_same by (rewrite ?Eb, ?Er; lia). rewrite Eb.
  set (f := Dec (coef b - coef r) (-2)).
  assert (Hf : money f) by (split; [done|simpl; lia]).
  exists f. split_and!; [by apply q2_money|done|].
  unfold f, dval. simpl. rewrite Eb, Er, <- Qmult_plus_distr_l, <- inject_Z_plus.
  by replace (coef r + (coef b - coef r)) with (coef b) by lia.
Qed.

Lemma money_zero : money (cents 0).
Proof. by repeat split. Qed.
#[export] Hint Resolve money_zero money_repr money_nonneg : decimal.

Lemma dval_mul_small a b : Z.abs (coef a * coef b) < pow10 prec ->
  (dval (dmul a b) == dval a * dval b)%Q.
Proof.
  intros Hs. rewrite dmul_small by done. unfold dval. simpl.
  rewrite inject_Z_mult, Q10_plus. ring.
Qed.

(** Multiplying an amount by a short ratio is monotone in the ratio. *)
Lemma dmul_mono_ratio b r r' : money b -> Z.abs (coef r) <= 10000 -> Z.abs (coef r') <= 10000 ->
  dle r r' -> dle (dmul b r) (dmul b r').
Proof.
  intros Hb Hr Hr' Hle. pose proof (money_nonneg b Hb) as H0. rewrite dle_zero in H0.
  destruct Hb as [_ [Hb0 Hb1]].
  assert (Hsmall : forall x, Z.abs (coef x) <= 10000 -> Z.abs (coef b * coef x) < pow10 prec).
  { intros x Hx. change (pow10 prec) with (pow10 18 * pow10 10).
    change (pow10 18) with 1000000000000000000. change (pow10 10) with 10000000000 in *. nia. }
  unfold dle in *. rewrite !dval_mul_small by auto. nra.
Qed.

(** Signed cents, far within the precision of the context. *)
Lemma q2_cents c : Z.abs c < pow10 20 -> q2 (cents c) = Ok (cents c).
Proof.
  intros Hb. apply quantize_exact; [done| |by apply dec_or0_val].
  unfold repr. simpl. change (pow10 prec) with (pow10 8 * pow10 20).
  change (pow10 8) with 100000000. change (pow10 20) with 100000000000000000000 in *. lia.
Qed.

Lemma dmul_cents c k : Z.abs (c * k) < pow10 20 -> dmul (cents c) (dint k) = cents (c * k).
Proof.
  intros Hb. rewrite dmul_small; [done|]. simpl.
  change (pow10 prec) with (pow10 8 * pow10 20).
  change (pow10 8) with 100000000. change (pow10 20) with 100000000000000000000 in *. lia.
Qed.

Lemma dsub_cents a b : Z.abs (a - b) < pow10 20 -> dsub (cents a) (cents b) = cents (a - b).
Proof.
  intros Hb. rewrite dsub_same; [done|done|]. simpl.
  change (pow10 prec) with (pow10 8 * pow10 20).
  change (pow10 8) with 100000000. change (pow10 20) with 100000000000000000000 in *. lia.
Qed.

Lemma money_cents d : money d -> d = cents (coef d).
Proof. intros [E _]. destruct d as [c e]. simpl in E. by subst. Qed.

Lemma cents_repr c : Z.abs c < pow10 20 -> repr (cents c).
Proof.
  intros Hb. unfold repr. simpl. change (pow10 prec) with (pow10 8 * pow10 20).
  change (pow10 8) with 100000000. lia.
Qed.

Lemma dec_or0_money o : nullable money o ->
  exists c, 0 <= c < pow10 10 /\ dec_or0 o ≃ cents c.
Proof.
  intros Hm. destruct o as [d|].
  - destruct (Hm d eq_refl) as [E Hc]. exists (coef d). split; [done|].
    rewrite dec_or0_val. rewrite <- money_cents; [reflexivity|by split].
  - exists 0. by repeat split.
Qed.

Lemma quantize_cents m v c : v ≃ cents c -> Z.abs c < pow10 20 ->
  quantize m (-2) v = Ok (cents c).
Proof. intros Hv Hc. apply quantize_exact; [done|by apply cents_repr|done]. Qed.

(** A value between zero and an amount of cents is rounded to cents between. *)
Lemma quantize_range m v k : dle dzero v -> dle v (cents k) -> 0 <= k < pow10 20 ->
  exists c, quantize m (-2) v = Ok (cents c) /\ 0 <= c <= k.
Proof.
  intros H0 H1 Hk. assert (Hr : repr (cents k)) by (apply cents_repr; lia).
  assert (H0' : dle (cents 0) v) by (by rewrite (zero_at (-2))).
  destruct (quantize_total m (-2) v (cents 0) (cents k)) as [q Hq]; [done|done|done|done|done|done|].
  pose proof (quantize_exp _ _ _ _ Hq) as He.
  pose proof (quantize_ge _ _ _ _ (cents 0) Hq eq_refl eq_refl H0') as Hlo.
  pose proof (quantize_le _ _ _ _ (cents k) Hq eq_refl Hr H1) as Hhi.
  rewrite (dle_coef (cents 0) q) in Hlo by done. rewrite (dle_coef q (cents k)) in Hhi by done.
  exists (coef q). split; [|simpl in *; lia]. rewrite Hq. f_equal. destruct q. simpl in He. by subst.
Qed.

Lemma cents_nonneg c : dle dzero (cents c) <-> 0 <= c.
Proof. apply dle_0. Qed.

Lemma cents_le a b : dle (cents a) (cents b) <-> a <= b.
Proof. by apply dle_coef. Qed.

Lemma dmin_cents a b : dmin (cents a) (cents b) = cents (Z.min a b).
Proof.
  unfold dmin. destruct (dltb (cents b) (cents a)) eqn:E.
  - rewrite dltb_spec in E. apply dlt_le in E. rewrite cents_le in E. f_equal. lia.
  - rewrite dltb_false, cents_le in E. f_equal. lia.
Qed.

Lemma dadd_cents a b : Z.abs (a + b) < pow10 20 -> dadd (cents a) (cents b) = cents (a + b).
Proof.
  intros Hb. rewrite dadd_same; [done|done|]. simpl. change (pow10 prec) with (pow10 8 * pow10 20).
  change (pow10 8) with 100000000. lia.
Qed.

Lemma dadd_zero_cents a : Z.abs a < pow10 20 -> dadd dzero (cents a) = cents a.
Proof.
  intros Hb. unfold dadd. change (add_exact dzero (cents a)) with (cents (0 + a * 1)).
  replace (0 + a * 1) with a by lia. by apply fix_exact, cents_repr.
Qed.

(** A percentage of at most 100 as a ratio. *)
Lemma pct_ratio_hundred p h : percentage p -> h ≃ dint 100 -> 0 < coef h ->
  exists r, ddiv p h = Ok r /\ dle dzero r /\ dle r (dint 1).
Proof.
  intros [Ep [H0 H1]] Hh Hpos. destruct (ddiv_Ok p h ltac:(lia)) as [r Hr].
  exists r. split_and!; [done|by eapply (ddiv_nonneg p h)|].
  eapply (ddiv_le p h); [done|done|done|exact Hr|].
  change (dval (dint 1)) with 1%Q. rewrite Qmult_1_l.
  change (dle p h). rewrite Hh.
  assert (E : dint 100 ≃ cents 10000) by done. rewrite E. by apply dle_coef.
Qed.

(** The ratio's share of an amount lies between zero and the amount. *)
Lemma dmul_share a r : 0 <= a < pow10 20 -> dle dzero r -> dle r (dint 1) ->
  dle dzero (dmul (cents a) r) /\ dle (dmul (cents a) r) (cents a).
Proof.
  intros Ha Hr0 Hr1. assert (H0 : dle dzero (cents a)) by (apply cents_nonneg; lia).
  split; [by apply dmul_nonneg|apply dmul_le_one; [apply cents_repr; lia|done|done]].
Qed.
