(* ===== verification/BookingModel.v ===== *)
(** The data model of an accommodation booking: status enumerations, the
    property's booking policy, the cancellation policy rows, the booking with
    its status history, and the tables the state machines query. *)

From S2P Require Import Prelude Decimal.

(** * Enumerations (app/accommodation/models/booking.py) *)

Inductive AccommodationBookingStatus : Type :=
  | DRAFT | HELD | PENDING_PAYMENT | PENDING_APPROVAL | CONFIRMED | CHECKED_IN
  | CHECKED_OUT | CLOSED | CANCELLED | NO_SHOW | EXPIRED | REFUNDED
  | PENDING | PAYMENT_PARTIAL.

#[export] Instance booking_status_eq : EqDecision AccommodationBookingStatus.
Proof. solve_decision. Defined.

#[export, refine] Instance booking_status_enum : PyEnum AccommodationBookingStatus := {
  enum_members := [DRAFT; HELD; PENDING_PAYMENT; PENDING_APPROVAL; CONFIRMED; CHECKED_IN;
                   CHECKED_OUT; CLOSED; CANCELLED; NO_SHOW; EXPIRED; REFUNDED;
                   PENDING; PAYMENT_PARTIAL];
  enum_value s := match s with
    | DRAFT => "draft" | HELD => "held" | PENDING_PAYMENT => "pending_payment"
    | PENDING_APPROVAL => "pending_approval" | CONFIRMED => "confirmed"
    | CHECKED_IN => "checked_in" | CHECKED_OUT => "checked_out" | CLOSED => "closed"
    | CANCELLED => "cancelled" | NO_SHOW => "no_show" | EXPIRED => "expired"
    | REFUNDED => "refunded" | PENDING => "pending" | PAYMENT_PARTIAL => "payment_partial"
    end%string;
}.
Proof.
  - intros []; set_solver.
  - intros [] []; by intros [=].
Defined.

Inductive AccommodationPaymentStatus : Type :=
  | APS_UNPAID | APS_PENDING | APS_PROCESSING | APS_PAID | APS_PARTIALLY_PAID
  | APS_FAILED | APS_REFUNDED | APS_PARTIAL_REFUND.

#[export] Instance payment_status_eq : EqDecision AccommodationPaymentStatus.
Proof. solve_decision. Defined.

#[export, refine] Instance payment_status_enum : PyEnum AccommodationPaymentStatus := {
  enum_members := [APS_UNPAID; APS_PENDING; APS_PROCESSING; APS_PAID; APS_PARTIALLY_PAID;
                   APS_FAILED; APS_REFUNDED; APS_PARTIAL_REFUND];
  enum_value s := match s with
    | APS_UNPAID => "unpaid" | APS_PENDING => "pending" | APS_PROCESSING => "processing"
    | APS_PAID => "paid" | APS_PARTIALLY_PAID => "partially_paid" | APS_FAILED => "failed"
    | APS_REFUNDED => "refunded" | APS_PARTIAL_REFUND => "partial_refund"
    end%string;
}.
Proof.
  - intros []; set_solver.
  - intros [] []; by intros [=].
Defined.

(** * Policies *)

(** A nullable boolean column; NULL and False are both false. *)
Definition truth (b : option bool) : bool := default false b.

(** PropertyBookingPolicy: the columns the booking logic reads. *)
Record PropertyBookingPolicy : Type := {
  bp_property_id : Z;
  bp_cancellation_policy : option string;
  bp_free_cancel_hours : Z;
  bp_allow_pay_now : option bool;
  bp_allow_pay_on_arrival : option bool;
  bp_allow_pay_at_checkout : option bool;
  bp_allow_deposit_payment : option bool;
  bp_deposit_percentage : option dec;
  bp_require_payment_guarantee : option bool;
  bp_require_guest_identity : option bool;
}.

(** [PropertyBookingPolicy(property_id=pid)] before any flush: the column
    defaults are not applied yet, every other attribute is NULL. *)
Definition transient_policy (pid : Z) : PropertyBookingPolicy := {|
  bp_property_id := pid;
  bp_cancellation_policy := None;
  bp_free_cancel_hours := 0;
  bp_allow_pay_now := None;
  bp_allow_pay_on_arrival := None;
  bp_allow_pay_at_checkout := None;
  bp_allow_deposit_payment := None;
  bp_deposit_percentage := None;
  bp_require_payment_guarantee := None;
  bp_require_guest_identity := None;
|}.

(** CancellationPolicy: a row of accommodation_cancellation_policies;
    [cp_property_id = None] is a system default. *)
Record CancellationPolicy : Type := {
  cp_name : string;
  cp_property_id : option Z;
  cp_pre_checkin_days : Z;
  cp_pre_checkin_refund_pct : dec;
  cp_mid_stay_refund_pct : dec;
  cp_no_show_penalty : dec;
  cp_is_active : bool;
  cp_is_default : bool;
}.

(** CancellationPolicyType *)
Definition FLEXIBLE : string := "FLEX".
Definition MODERATE : string := "MOD".
Definition STRICT : string := "STRICT".
Definition SUPER_STRICT : string := "SUPER".
Definition NOSHOW_POLICY : string := "NOSHOW".

(** [policy_snapshot["cancellation_policy_rules"]]: its version, the policy it
    parses to ([None] when a key is missing or a value does not convert), the
    text of its other keys, and its signature. *)
Record snapshot_rules : Type := {
  sr_version : Z;
  sr_policy : option CancellationPolicy;
  sr_text : string;
  sr_hmac_sha256 : option string;
}.

(** [policy_snapshot], taken when the booking is confirmed. *)
Record snapshot : Type := {
  snap_rules : option snapshot_rules;
  snap_policy_name : option string;
}.

(** * The booking *)

(** The property as the booking sees it; [prop_local_today] is [None] when
    [local_today()] raises (no usable time zone). *)
Record property : Type := {
  prop_id : Z;
  prop_local_today : option date;
  prop_booking_mode : string;
  prop_require_host_approval : bool;
  prop_cancellation_policy : option string;
}.

(** Columns that the operations modelled here only read. *)
Record booking_info : Type := {
  bk_id : Z;
  bk_reference : option string;
  bk_property_id : Z;
  bk_property : option property;
  bk_check_in : date;
  bk_check_out : date;
  bk_nightly_rate : dec;
  bk_cleaning_fee : option dec;
  bk_service_fee : option dec;
  bk_taxes : option dec;
  bk_currency : option string;
  bk_amount_paid : option dec;
  bk_amount_due : option dec;
  bk_deposit_amount : option dec;
  bk_guest_user_id : option Z;
  bk_primary_guest_id : option Z;
  bk_guest_email : option string;
  bk_host_approved_at : option datetime;
  bk_expires_at : option datetime;
  bk_registration_deadline : option datetime;
  bk_payment_timing : option string;
  bk_booking_flow_type : option string;
  bk_payment_guaranteed : option bool;
  bk_policy_snapshot : option snapshot;
}.

Record booking : Type := {
  bk_info :> booking_info;
  bk_num_nights : Z;
  bk_total_amount : dec;
  bk_status : string;
  bk_payment_status : string;
  bk_refund_amount : option dec;
  bk_refunded_at : option datetime;
  bk_cancelled_at : option datetime;
  bk_cancelled_by_user_id : option Z;
  bk_cancellation_reason : option string;
  bk_paid_at : option datetime;
  bk_wallet_txn_id : option string;
  bk_payment_method : option string;
}.

(** [self.status = s] *)
Definition set_status (b : booking) (s : string) : booking := {|
  bk_info := bk_info b;
  bk_num_nights := bk_num_nights b;
  bk_total_amount := bk_total_amount b;
  bk_status := s;
  bk_payment_status := bk_payment_status b;
  bk_refund_amount := bk_refund_amount b;
  bk_refunded_at := bk_refunded_at b;
  bk_cancelled_at := bk_cancelled_at b;
  bk_cancelled_by_user_id := bk_cancelled_by_user_id b;
  bk_cancellation_reason := bk_cancellation_reason b;
  bk_paid_at := bk_paid_at b;
  bk_wallet_txn_id := bk_wallet_txn_id b;
  bk_payment_method := bk_payment_method b;
|}.

(** The columns a cancellation stamps. *)
Definition set_cancelled (b : booking) (at_ : datetime) (by_user : option Z) (reason : option string) : booking := {|
  bk_info := bk_info b;
  bk_num_nights := bk_num_nights b;
  bk_total_amount := bk_total_amount b;
  bk_status := bk_status b;
  bk_payment_status := bk_payment_status b;
  bk_refund_amount := bk_refund_amount b;
  bk_refunded_at := bk_refunded_at b;
  bk_cancelled_at := Some at_;
  bk_cancelled_by_user_id := by_user;
  bk_cancellation_reason := reason;
  bk_paid_at := bk_paid_at b;
  bk_wallet_txn_id := bk_wallet_txn_id b;
  bk_payment_method := bk_payment_method b;
|}.

(** The columns a refund stamps. *)
Definition set_refund (b : booking) (amount : dec) (payment_status : string) (at_ : datetime) : booking := {|
  bk_info := bk_info b;
  bk_num_nights := bk_num_nights b;
  bk_total_amount := bk_total_amount b;
  bk_status := bk_status b;
  bk_payment_status := payment_status;
  bk_refund_amount := Some amount;
  bk_refunded_at := Some at_;
  bk_cancelled_at := bk_cancelled_at b;
  bk_cancelled_by_user_id := bk_cancelled_by_user_id b;
  bk_cancellation_reason := bk_cancellation_reason b;
  bk_paid_at := bk_paid_at b;
  bk_wallet_txn_id := bk_wallet_txn_id b;
  bk_payment_method := bk_payment_method b;
|}.

Definition set_totals (b : booking) (nights : Z) (total : dec) : booking := {|
  bk_info := bk_info b;
  bk_num_nights := nights;
  bk_total_amount := total;
  bk_status := bk_status b;
  bk_payment_status := bk_payment_status b;
  bk_refund_amount := bk_refund_amount b;
  bk_refunded_at := bk_refunded_at b;
  bk_cancelled_at := bk_cancelled_at b;
  bk_cancelled_by_user_id := bk_cancelled_by_user_id b;
  bk_cancellation_reason := bk_cancellation_reason b;
  bk_paid_at := bk_paid_at b;
  bk_wallet_txn_id := bk_wallet_txn_id b;
  bk_payment_method := bk_payment_method b;
|}.

(** The columns a payment stamps. *)
Definition set_paid (b : booking) (payment_status : string) (at_ : datetime) (txn meth : option string) : booking := {|
  bk_info := bk_info b;
  bk_num_nights := bk_num_nights b;
  bk_total_amount := bk_total_amount b;
  bk_status := bk_status b;
  bk_payment_status := payment_status;
  bk_refund_amount := bk_refund_amount b;
  bk_refunded_at := bk_refunded_at b;
  bk_cancelled_at := bk_cancelled_at b;
  bk_cancelled_by_user_id := bk_cancelled_by_user_id b;
  bk_cancellation_reason := bk_cancellation_reason b;
  bk_paid_at := Some at_;
  bk_wallet_txn_id := txn;
  bk_payment_method := meth;
|}.

(** [status_enum], [payment_status_enum]: [None] is Python's ValueError. *)
Definition status_enum (b : booking) : option AccommodationBookingStatus :=
  enum_of_value (bk_status b).

Definition payment_status_of (b : booking) : option AccommodationPaymentStatus :=
  enum_of_value (bk_payment_status b).

(** * Status history and queried tables *)

(** A value of a JSON document; [MDec d] is [str(d)], [MTime t] is
    [t.isoformat()]. *)
#[warnings="-register-all"]
Inductive meta_value : Type :=
  | MNull
  | MBool (b : bool)
  | MInt (n : Z)
  | MText (s : string)
  | MDec (d : dec)
  | MTime (us : Z)
  | MList (l : list string)
  | MDict (l : list (string * meta_value)).

Definition meta_text (s : option string) : meta_value :=
  match s with Some s => MText s | None => MNull end.

(** BookingStatusHistory *)
Record BookingStatusHistory : Type := {
  h_booking_id : Z;
  h_from_status : string;
  h_to_status : string;
  h_changed_by : option Z;
  h_trigger : option string;
  h_change_metadata : gmap string meta_value;
}.

(** GuestRegistration *)
Record GuestRegistration : Type := {
  gr_booking_id : Z;
  gr_status : string;
}.

(** The tables the accommodation state machines touch. [db_registrations] is
    [None] when the table cannot be queried (the code catches the exception). *)
Record db : Type := {
  db_registrations : option (list GuestRegistration);
  db_policies : list PropertyBookingPolicy;
  db_cancellation_policies : list CancellationPolicy;
  db_history : list BookingStatusHistory;
}.

(** [db.session.add(history)] *)
Definition add_history (d : db) (h : BookingStatusHistory) : db := {|
  db_registrations := db_registrations d;
  db_policies := db_policies d;
  db_cancellation_policies := db_cancellation_policies d;
  db_history := db_history d ++ [h];
|}.

(** [PropertyBookingPolicy.query.filter_by(property_id=pid).first()] *)
Definition find_policy (d : db) (pid : Z) : option PropertyBookingPolicy :=
  List.find (fun p => bp_property_id p =? pid) (db_policies d).

(** * A sample booking, for the witnesses *)

Module Sample.

Definition eur (n : Z) : dec := {| coef := n * 100; dexp := -2 |}.

Definition property : property := {|
  prop_id := 7; prop_local_today := Some 739000; prop_booking_mode := "instant";
  prop_require_host_approval := false; prop_cancellation_policy := Some "moderate"%string;
|}.

Definition info : booking_info := {|
  bk_id := 42; bk_reference := Some "BK-42"%string; bk_property_id := 7;
  bk_property := Some property; bk_check_in := 739000; bk_check_out := 739003;
  bk_nightly_rate := eur 100; bk_cleaning_fee := Some (eur 20);
  bk_service_fee := Some (eur 30); bk_taxes := Some (eur 10); 
  bk_currency := Some "EUR"%string; bk_amount_paid := Some (eur 360);
  bk_amount_due := Some (eur 0); bk_deposit_amount := Some (eur 0);
  bk_guest_user_id := Some 5; bk_primary_guest_id := None; bk_guest_email := None;
  bk_host_approved_at := None; bk_expires_at := None; bk_registration_deadline := None;
  bk_payment_timing := Some "prepaid"%string; bk_booking_flow_type := None;
  bk_payment_guaranteed := None; bk_policy_snapshot := None;
|}.

Definition booking (s : AccommodationBookingStatus) (p : AccommodationPaymentStatus) : booking := {|
  bk_info := info; bk_num_nights := 3; bk_total_amount := eur 360;
  bk_status := enum_value s; bk_payment_status := enum_value p;
  bk_refund_amount := Some (eur 100); bk_refunded_at := None; bk_cancelled_at := None;
  bk_cancelled_by_user_id := None; bk_cancellation_reason := None; bk_paid_at := None;
  bk_wallet_txn_id := None; bk_payment_method := None;
|}.

Definition db : db := {|
  db_registrations := Some []; db_policies := []; db_cancellation_policies := [];
  db_history := [];
|}.

End Sample.
