(* ===== verification/BookingStates.v ===== *)
(** The booking lifecycle: app/accommodation/state_machine/booking_states.py,
    class BookingStateMachine. Payment plays no part here; the policy layer
    that bridges the two machines is in BookingPolicy. *)

From S2P Require Import Prelude Decimal DecimalLaws BookingModel.

Inductive booking_error : Type :=
  | ValueError                                  (* unknown stored status *)
  | InvalidStateTransition (old new : string).

Module BookingStateMachine.

Definition VALID_TRANSITIONS (s : AccommodationBookingStatus) : list AccommodationBookingStatus :=
  match s with
  | DRAFT => [HELD; CANCELLED]
  | HELD => [PENDING_PAYMENT; PENDING_APPROVAL; EXPIRED; CANCELLED]
  | PENDING_PAYMENT => [CONFIRMED; CANCELLED; EXPIRED]
  | PENDING_APPROVAL => [CONFIRMED; CANCELLED]
  | CONFIRMED => [CHECKED_IN; CANCELLED; NO_SHOW]
  | CHECKED_IN => [CHECKED_OUT; CANCELLED]
  | CHECKED_OUT => [CLOSED]
  | CANCELLED => [REFUNDED]
  | CLOSED | REFUNDED | EXPIRED | NO_SHOW => []
  | PENDING => [PENDING_APPROVAL; CONFIRMED; CANCELLED; EXPIRED]
  | PAYMENT_PARTIAL => [CONFIRMED; CANCELLED]
  end.

(** [bool(x)] of an optional id. *)
Definition id_truthy (x : option Z) : bool :=
  match x with Some n => negb (n =? 0) | None => false end.

Definition _all_guests_registered (d : db) (b : booking) : bool :=
  match db_registrations d with
  | Some rows =>
      let registrations := List.filter (fun r => gr_booking_id r =? bk_id b) rows in
      match registrations with
      | [] => false
      | _ => forallb (fun r => str_in (gr_status r) ["completed"; "skipped"]%string) registrations
      end
  | None =>
      id_truthy (bk_primary_guest_id b) || id_truthy (bk_guest_user_id b)
      || truthy (bk_guest_email b)
  end.

Definition _registration_satisfied (now : Z) (d : db) (b : booking) : bool :=
  if _all_guests_registered d b then true
  else match bk_registration_deadline b with
       | None => true
       | Some deadline => if as_utc deadline <? now then true else false
       end.

Definition property_today (b : booking) : option date :=
  p ← bk_property b; prop_local_today p.

Definition _can_check_in (now : Z) (d : db) (b : booking) : bool :=
  if negb (String.eqb (bk_status b) (enum_value CONFIRMED)) then false
  else match property_today b with
       | None => false
       | Some today => if today <? bk_check_in b then false
                       else _registration_satisfied now d b
       end.

(** [refund_amt and Decimal(str(refund_amt or 0)) > 0] *)
Definition refund_positive (b : booking) : bool :=
  match bk_refund_amount b with
  | None => false
  | Some r => negb (coef r =? 0) && dltb dzero (dec_or0 (Some r))
  end.

Definition can_transition (now : Z) (d : db) (b : booking)
    (new_status : AccommodationBookingStatus) : result booking_error bool :=
  let* current_enum := of_option ValueError (enum_of_value (bk_status b)) in
  if negb (allowed VALID_TRANSITIONS current_enum new_status) then Ok false
  else if decide (new_status = CHECKED_IN) then Ok (_can_check_in now d b)
  else if decide (new_status = REFUNDED) then Ok (refund_positive b)
  else Ok true.

Definition get_next_states (s : AccommodationBookingStatus) : list AccommodationBookingStatus :=
  VALID_TRANSITIONS s.

Definition is_terminal (s : AccommodationBookingStatus) : bool :=
  terminal VALID_TRANSITIONS s.

(** The optional arguments of [transition]. *)
Record transition_args : Type := {
  ta_changed_by_user_id : option Z;
  ta_reason : option string;
  ta_ip_address : option string;
  ta_user_agent : option string;
  ta_trigger : option string;
  ta_metadata : gmap string meta_value;
}.

(** [{**(metadata or {}), "reason": .., "ip_address": .., "user_agent": ..}] *)
Definition change_metadata (a : transition_args) : gmap string meta_value :=
  <["user_agent" := meta_text (ta_user_agent a)]>
  (<["ip_address" := meta_text (ta_ip_address a)]>
   (<["reason" := meta_text (ta_reason a)]> (ta_metadata a))).

Definition history_row (b : booking) (new_status : AccommodationBookingStatus)
    (a : transition_args) : BookingStatusHistory := {|
  h_booking_id := bk_id b;
  h_from_status := bk_status b;
  h_to_status := enum_value new_status;
  h_changed_by := ta_changed_by_user_id a;
  h_trigger := ta_trigger a;
  h_change_metadata := change_metadata a;
|}.

Definition transition (now : Z) (d : db) (b : booking)
    (new_status : AccommodationBookingStatus) (a : transition_args)
    : result booking_error (db * booking) :=
  let* ok := can_transition now d b new_status in
  require ok else InvalidStateTransition (bk_status b) (enum_value new_status) ;;
  let d' := add_history d (history_row b new_status a) in
  Ok (d', set_status b (enum_value new_status)).

(** * Lemmas *)

(** What the state machine checks beyond its table. *)
Definition gate (now : Z) (d : db) (b : booking) (t : AccommodationBookingStatus) : Prop :=
  (t = CHECKED_IN -> _can_check_in now d b = true) /\
  (t = REFUNDED -> refund_positive b = true).

Lemma can_transition_true now d b t :
  can_transition now d b t = Ok true <->
  exists s, bk_status b = enum_value s /\ tstep VALID_TRANSITIONS s t /\ gate now d b t.
Proof.
  unfold can_transition, gate. destruct (enum_of_value (bk_status b)) as [s|] eqn:Hs; simpl.
  - apply enum_of_value_Some in Hs.
    setoid_rewrite <- (allowed_spec VALID_TRANSITIONS).
    destruct (allowed VALID_TRANSITIONS s t) eqn:Ha; simpl.
    + transitivity ((t = CHECKED_IN -> _can_check_in now d b = true) /\
                    (t = REFUNDED -> refund_positive b = true)).
      { repeat case_decide; subst; split; intros Hg; try (split; intros); try congruence;
          f_equal; by apply Hg. }
      split; [intros Hg; exists s; by rewrite Ha|]. by intros (? & _ & _ & ?).
    + split; [done|]. intros (s' & Hs' & Hal & _). rewrite Hs' in Hs.
      apply enum_value_inj in Hs as ->. congruence.
  - split; [done|]. intros (s & Hs' & _). rewrite Hs' in Hs. by rewrite enum_of_value_value in Hs.
Qed.

Lemma transition_Ok now d b t a d' b' :
  transition now d b t a = Ok (d', b') <->
  can_transition now d b t = Ok true /\
  d' = add_history d (history_row b t a) /\ b' = set_status b (enum_value t).
Proof.
  unfold transition. destruct (can_transition now d b t) as [[]|]; simpl; naive_solver.
Qed.

(** A rank every transition decreases: the lifecycle has no cycle. *)
Definition rank (s : AccommodationBookingStatus) : nat :=
  match s with
  | DRAFT => 6 | HELD => 5 | PENDING => 5
  | PENDING_PAYMENT | PENDING_APPROVAL | PAYMENT_PARTIAL => 4
  | CONFIRMED => 3 | CHECKED_IN => 2
  | CHECKED_OUT | CANCELLED => 1
  | CLOSED | NO_SHOW | EXPIRED | REFUNDED => 0
  end.

Lemma rank_decreases s t : tstep VALID_TRANSITIONS s t -> (rank t < rank s)%nat.
Proof.
  unfold tstep. destruct s; simpl; set_unfold; intros Ht;
    repeat (destruct Ht as [Ht|Ht]; [subst; simpl; lia|]); subst; simpl; try lia; done.
Qed.

(** * Runs: transitions of one booking while the rest of the world moves on *)

(** Between two transitions other columns of the booking and other tables may
    change; the status and the history do not. One other place writes the status:
    the sweep of unapproved bookings (app/tasks/accommodation_reminders.py) sets
    "expired" without a history row. No transition leaves that status, so a run
    ends there; the sweep itself is a step of StayHistory.v. *)
Definition env_step (x y : db * booking) : Prop :=
  bk_status y.2 = bk_status x.2 /\ db_history y.1 = db_history x.1.

Inductive run : db * booking -> list BookingStatusHistory -> db * booking -> Prop :=
  | run_nil x : run x [] x
  | run_step now d b t a x y hs z :
      transition now d b t a = Ok x ->
      env_step x y ->
      run y hs z ->
      run (d, b) (history_row b t a :: hs) z.

(** The rows of a history that lead from one stored status to another, each
    along the table. *)
Inductive status_path : string -> list BookingStatusHistory -> string -> Prop :=
  | path_nil s : status_path s [] s
  | path_cons s t h hs u :
      h_from_status h = enum_value s ->
      h_to_status h = enum_value t ->
      tstep VALID_TRANSITIONS s t ->
      status_path (enum_value t) hs u ->
      status_path (enum_value s) (h :: hs) u.

Lemma run_path x hs y : run x hs y ->
  db_history y.1 = db_history x.1 ++ hs /\ status_path (bk_status x.2) hs (bk_status y.2).
Proof.
  induction 1 as [x|now d b t a x y hs z Ht [Hes Heh] Hrun [IHh IHp]].
  - split; [by rewrite app_nil_r|constructor].
  - destruct x as [d' b']. apply transition_Ok in Ht as (Hc & -> & ->). simpl in *.
    apply can_transition_true in Hc as (s & Hs & Hst & _).
    split.
    + rewrite IHh, Heh. by rewrite <- (assoc_L (++)).
    + rewrite Hs. econstructor; [exact Hs|done|exact Hst|]. by rewrite <- Hes.
Qed.

Lemma path_rank v hs u : status_path v hs u ->
  forall s, v = enum_value s -> exists t, u = enum_value t /\ (length hs + rank t <= rank s)%nat.
Proof.
  induction 1 as [v|s t h hs u Hf Ht Hst Hp IH]; intros s0 Hs0.
  - exists s0. split; [done|simpl; lia].
  - apply enum_value_inj in Hs0 as <-. destruct (IH t eq_refl) as (t' & -> & Hle).
    exists t'. split; [done|]. pose proof (rank_decreases _ _ Hst). simpl. lia.
Qed.

(** The transition that entered a status is part of the run. *)
Lemma run_entry x hs y (t : AccommodationBookingStatus) :
  run x hs y -> bk_status y.2 = enum_value t -> bk_status x.2 <> enum_value t ->
  exists now d b a hs1 hs2 x',
    hs = hs1 ++ history_row b t a :: hs2 /\ run x hs1 (d, b) /\
    transition now d b t a = Ok x'.
Proof.
  induction 1 as [x|now d b t0 a x y hs z Ht Henv Hrun IH]; intros Hy Hx; [done|].
  destruct (decide (t0 = t)) as [->|Hne].
  - exists now, d, b, a, [], hs, x. split_and!; [done|constructor|done].
  - destruct x as [d1 b1], Henv as [Hes Heh]. pose proof (proj1 (transition_Ok _ _ _ _ _ _ _) Ht) as (_ & _ & ->).
    destruct IH as (now' & d' & b' & a' & hs1 & hs2 & x' & -> & Hr & Ht'); [done| |].
    + rewrite Hes. simpl. by intros Heq%enum_value_inj.
    + exists now', d', b', a', (history_row b t0 a :: hs1), hs2, x'.
      split_and!; [done|by econstructor|done].
Qed.

Lemma path_rtc v hs u : status_path v hs u ->
  forall s, v = enum_value s -> exists t, u = enum_value t /\ rtc (tstep VALID_TRANSITIONS) s t.
Proof.
  induction 1 as [v|s t h hs u Hf Ht Hst Hp IH]; intros s0 Hs0.
  - exists s0. split; [done|constructor].
  - apply enum_value_inj in Hs0 as <-. destruct (IH t eq_refl) as (t' & -> & Hr).
    exists t'. split; [done|]. by eapply rtc_l.
Qed.

(** What a status can still become. *)
Definition future (s : AccommodationBookingStatus) : list AccommodationBookingStatus :=
  match s with
  | CLOSED | REFUNDED | EXPIRED | NO_SHOW => [s]
  | CHECKED_OUT => [CHECKED_OUT; CLOSED]
  | CANCELLED => [CANCELLED; REFUNDED]
  | CHECKED_IN => [CHECKED_IN; CHECKED_OUT; CLOSED; CANCELLED; REFUNDED]
  | CONFIRMED => [CONFIRMED; CHECKED_IN; CHECKED_OUT; CLOSED; CANCELLED; REFUNDED; NO_SHOW]
  | _ => enum_members
  end.

Lemma future_closed s t u :
  t ∈ future s -> tstep VALID_TRANSITIONS t u -> u ∈ future s.
Proof.
  intros Ht Hu. apply (bool_decide_unpack _).
  assert (Hall : forallb (fun s => forallb (fun t => forallb (fun u => bool_decide (u ∈ future s))
    (VALID_TRANSITIONS t)) (future s)) enum_members = true) by reflexivity.
  rewrite forallb_forall in Hall. specialize (Hall s (proj1 (list_elem_of_In _ _) (enum_complete s))).
  rewrite forallb_forall in Hall. specialize (Hall t (proj1 (list_elem_of_In _ _) Ht)).
  rewrite forallb_forall in Hall. specialize (Hall u (proj1 (list_elem_of_In _ _) Hu)).
  by rewrite Hall.
Qed.

(** * A sample run, for the witnesses *)

Definition no_args : transition_args := {|
  ta_changed_by_user_id := None; ta_reason := None; ta_ip_address := None;
  ta_user_agent := None; ta_trigger := None; ta_metadata := ∅ |}.

Definition sample_row (s t : AccommodationBookingStatus) : BookingStatusHistory :=
  history_row (Sample.booking s APS_PAID) t no_args.

Definition sample_db (ps : list (AccommodationBookingStatus * AccommodationBookingStatus)) : db :=
  fold_left (fun d p => add_history d (sample_row p.1 p.2)) ps Sample.db.

Lemma sample_run_checked_in :
  run (Sample.db, Sample.booking PENDING APS_PAID)
      [sample_row PENDING CONFIRMED; sample_row CONFIRMED CHECKED_IN]
      (sample_db [(PENDING, CONFIRMED); (CONFIRMED, CHECKED_IN)], Sample.booking CHECKED_IN APS_PAID).
Proof. do 2 (eapply (run_step 0); [reflexivity|done|]). constructor. Qed.

Lemma sample_run_refunded :
  run (Sample.db, Sample.booking CONFIRMED APS_PAID)
      [sample_row CONFIRMED CANCELLED; sample_row CANCELLED REFUNDED]
      (sample_db [(CONFIRMED, CANCELLED); (CANCELLED, REFUNDED)], Sample.booking REFUNDED APS_PAID).
Proof. do 2 (eapply (run_step 0); [reflexivity|done|]). constructor. Qed.

(** * Properties *)

(** Every sequence of lifecycle transitions, whatever else changes in
    between, is recorded by the appended history rows, which form a connected
    path of the transition table from the first to the last stored status, and
    has at most six transitions: the lifecycle always comes to rest. *)
Theorem run_history_bounded d b hs d' b' (s : AccommodationBookingStatus) :
  run (d, b) hs (d', b') ->
  bk_status b = enum_value s ->
  db_history d' = db_history d ++ hs /\
  status_path (bk_status b) hs (bk_status b') /\
  (length hs <= 6)%nat.
Proof.
  intros Hrun Hs. destruct (run_path _ _ _ Hrun) as [Hh Hp].
  split_and!; [done|done|].
  destruct (path_rank _ _ _ Hp s Hs) as (t & _ & Hle).
  assert (rank s <= 6)%nat by (destruct s; simpl; lia). lia.
Qed.

Lemma run_history_bounded_witness :
  status_path (enum_value PENDING)
    [sample_row PENDING CONFIRMED; sample_row CONFIRMED CHECKED_IN] (enum_value CHECKED_IN).
Proof.
  exact (proj1 (proj2 (run_history_bounded _ _ _ _ _ PENDING sample_run_checked_in eq_refl))).
Defined.

(** C24: a booking that a run brings to CHECKED_IN was checked in by a
    transition made when it was CONFIRMED, its property's local day had
    reached the check-in date, and either every registration row was
    completed or skipped (or the legacy contact fallback held) or no
    registration deadline was still ahead. *)
Theorem run_checked_in d b hs d' b' :
  run (d, b) hs (d', b') ->
  bk_status b' = enum_value CHECKED_IN -> bk_status b <> enum_value CHECKED_IN ->
  exists now d0 b0 a hs1 hs2 today,
    hs = hs1 ++ history_row b0 CHECKED_IN a :: hs2 /\ run (d, b) hs1 (d0, b0) /\
    bk_status b0 = enum_value CONFIRMED /\
    property_today b0 = Some today /\ bk_check_in b0 <= today /\
    (_all_guests_registered d0 b0 = true \/
     forall dl, bk_registration_deadline b0 = Some dl -> as_utc dl < now).
Proof.
  intros Hrun Hb' Hb. destruct (run_entry _ _ _ _ Hrun Hb' Hb)
    as (now & d0 & b0 & a & hs1 & hs2 & [d1 b1] & -> & Hr & Ht).
  apply transition_Ok in Ht as (Hc & _).
  apply can_transition_true in Hc as (s & _ & _ & [Hci _]). specialize (Hci eq_refl).
  unfold _can_check_in in Hci.
  destruct (String.eqb_spec (bk_status b0) (enum_value CONFIRMED)) as [Hs|]; [simpl in Hci|done].
  destruct (property_today b0) as [today|] eqn:Htd; [|done].
  destruct (Z.ltb_spec today (bk_check_in b0)); [done|].
  exists now, d0, b0, a, hs1, hs2, today. split_and!; [done|done|done|done|done|].
  unfold _registration_satisfied in Hci. destruct (_all_guests_registered d0 b0); [by left|right].
  intros dl Hdl. rewrite Hdl in Hci. destruct (Z.ltb_spec (as_utc dl) now); done.
Qed.

Lemma run_checked_in_witness :
  exists b0 today, property_today b0 = Some today /\ bk_check_in b0 <= today.
Proof.
  destruct (run_checked_in _ _ _ _ _ sample_run_checked_in eq_refl ltac:(done))
    as (now & d0 & b0 & a & hs1 & hs2 & today & _ & _ & _ & Ht & Hle & _).
  exists b0, today. split; [exact Ht|exact Hle].
Defined.

(** Where a booking can still go: a terminal status is final, a checked
    out booking can only be closed, a cancelled one only refunded (and then
    with a positive refund amount), a checked in one never becomes a no-show
    or expires, and a confirmed one never expires. *)
Theorem run_future d b hs d' b' (s : AccommodationBookingStatus) :
  run (d, b) hs (d', b') -> bk_status b = enum_value s ->
  (exists t, bk_status b' = enum_value t /\ t ∈ future s) /\
  (bk_status b' = enum_value REFUNDED -> s <> REFUNDED ->
   exists d0 b0 a hs1 hs2, hs = hs1 ++ history_row b0 REFUNDED a :: hs2 /\
     run (d, b) hs1 (d0, b0) /\ refund_positive b0 = true).
Proof.
  intros Hrun Hs. split.
  - destruct (run_path _ _ _ Hrun) as [_ Hp].
    destruct (path_rtc _ _ _ Hp s Hs) as (t & Ht & Hr). exists t. split; [done|].
    apply (rtc_closed VALID_TRANSITIONS (fun u => u ∈ future s)) with (s := s);
      [by apply future_closed|done|]. destruct s; set_solver.
  - intros Hb' Hne. destruct (run_entry _ _ _ REFUNDED Hrun Hb')
      as (now & d0 & b0 & a & hs1 & hs2 & [d1 b1] & -> & Hr & Ht).
    { simpl. rewrite Hs. by intros ?%enum_value_inj. }
    apply transition_Ok in Ht as (Hc & _).
    apply can_transition_true in Hc as (s' & _ & _ & [_ Hrf]).
    exists d0, b0, a, hs1, hs2. auto.
Qed.

Lemma run_future_witness : exists b0, refund_positive b0 = true.
Proof.
  destruct (proj2 (run_future _ _ _ _ _ CONFIRMED sample_run_refunded eq_refl) eq_refl ltac:(done))
    as (d0 & b0 & a & hs1 & hs2 & _ & _ & Hrf).
  exists b0. exact Hrf.
Defined.

End BookingStateMachine.
