(* ===== verification/PaymentStates.v ===== *)
(** The payment lifecycle of a booking: class PaymentStateMachine of
    app/accommodation/state_machine/payment_states.py over the payment events
    of app/accommodation/models/booking_payment.py. Its history rows go to the
    same table as the booking machine's, tagged with a payment: prefix. *)

From S2P Require Import Prelude Decimal BookingModel.

Inductive PaymentState : Type :=
  | UNPAID | PENDING | PROCESSING | PARTIALLY_PAID | PAID | FAILED
  | REFUND_PENDING | REFUNDED | PARTIAL_REFUND | CANCELLED.

#[export] Instance payment_state_eq : EqDecision PaymentState.
Proof. solve_decision. Defined.

#[export, refine] Instance payment_state_enum : PyEnum PaymentState := {
  enum_members := [UNPAID; PENDING; PROCESSING; PARTIALLY_PAID; PAID; FAILED;
                   REFUND_PENDING; REFUNDED; PARTIAL_REFUND; CANCELLED];
  enum_value s := match s with
    | UNPAID => "unpaid" | PENDING => "pending" | PROCESSING => "processing"
    | PARTIALLY_PAID => "partially_paid" | PAID => "paid" | FAILED => "failed"
    | REFUND_PENDING => "refund_pending" | REFUNDED => "refunded"
    | PARTIAL_REFUND => "partial_refund" | CANCELLED => "cancelled"
    end%string;
}.
Proof.
  - intros []; set_solver.
  - intros [] []; by intros [=].
Defined.

Inductive payment_error : Type :=
  | PaymentValueError                          (* unknown stored payment status *)
  | InvalidPaymentTransition (old new : PaymentState)
  | PaymentIntegrityError.                     (* a unique column is violated *)

(** AccommodationBookingPayment; [pe_total_amount] is the total amount of the
    related booking. *)
Record AccommodationBookingPayment : Type := {
  pe_booking_id : option Z;
  pe_total_amount : option dec;
  pe_wallet_txn_id : option string;
  pe_payment_reference : string;
  pe_payment_status : string;
  pe_payment_method : option string;
  pe_payment_gateway : option string;
  pe_gateway_transaction_id : option string;
  pe_idempotency_key : option string;
  pe_failure_reason : option string;
  pe_retry_count : option Z;
  pe_updated_at : datetime;
}.

Definition set_payment_status (e : AccommodationBookingPayment) (s : string) (now : Z)
    : AccommodationBookingPayment := {|
  pe_booking_id := pe_booking_id e;
  pe_total_amount := pe_total_amount e;
  pe_wallet_txn_id := pe_wallet_txn_id e;
  pe_payment_reference := pe_payment_reference e;
  pe_payment_status := s;
  pe_payment_method := pe_payment_method e;
  pe_payment_gateway := pe_payment_gateway e;
  pe_gateway_transaction_id := pe_gateway_transaction_id e;
  pe_idempotency_key := pe_idempotency_key e;
  pe_failure_reason := pe_failure_reason e;
  pe_retry_count := pe_retry_count e;
  pe_updated_at := Aware now;
|}.

(** The gateway and wallet references an operation stores. *)
Definition set_references (e : AccommodationBookingPayment) (wallet gateway : option string)
    : AccommodationBookingPayment := {|
  pe_booking_id := pe_booking_id e;
  pe_total_amount := pe_total_amount e;
  pe_wallet_txn_id := wallet;
  pe_payment_reference := pe_payment_reference e;
  pe_payment_status := pe_payment_status e;
  pe_payment_method := pe_payment_method e;
  pe_payment_gateway := pe_payment_gateway e;
  pe_gateway_transaction_id := gateway;
  pe_idempotency_key := pe_idempotency_key e;
  pe_failure_reason := pe_failure_reason e;
  pe_retry_count := pe_retry_count e;
  pe_updated_at := pe_updated_at e;
|}.

Definition set_failure (e : AccommodationBookingPayment) (reason : string) (retries : Z)
    : AccommodationBookingPayment := {|
  pe_booking_id := pe_booking_id e;
  pe_total_amount := pe_total_amount e;
  pe_wallet_txn_id := pe_wallet_txn_id e;
  pe_payment_reference := pe_payment_reference e;
  pe_payment_status := pe_payment_status e;
  pe_payment_method := pe_payment_method e;
  pe_payment_gateway := pe_payment_gateway e;
  pe_gateway_transaction_id := pe_gateway_transaction_id e;
  pe_idempotency_key := pe_idempotency_key e;
  pe_failure_reason := Some reason;
  pe_retry_count := Some retries;
  pe_updated_at := pe_updated_at e;
|}.

(** [if x: self.a = x] *)
Definition assign_if (x old : option string) : option string :=
  if truthy x then x else old.

Module PaymentStateMachine.

Definition VALID_TRANSITIONS (s : PaymentState) : list PaymentState :=
  match s with
  | UNPAID => [PENDING; PARTIALLY_PAID; PAID; CANCELLED]
  | PENDING => [PROCESSING; PARTIALLY_PAID; PAID; FAILED; CANCELLED; UNPAID]
  | PROCESSING => [PARTIALLY_PAID; PAID; FAILED; CANCELLED]
  | PARTIALLY_PAID => [PENDING; PAID; FAILED; REFUND_PENDING; CANCELLED]
  | PAID => [REFUND_PENDING; PARTIAL_REFUND; REFUNDED]
  | FAILED => [UNPAID; PENDING; CANCELLED]
  | REFUND_PENDING => [REFUNDED; PARTIAL_REFUND; PAID]
  | REFUNDED => []
  | PARTIAL_REFUND => [REFUND_PENDING; REFUNDED]
  | CANCELLED => []
  end.

Definition can_transition (current_state new_state : PaymentState) (amount : option dec) : bool :=
  if negb (allowed VALID_TRANSITIONS current_state new_state) then false
  else if decide (new_state = PARTIALLY_PAID)
       then match amount with
            | Some a => if dleb a dzero then false else true
            | None => true
            end
       else true.

Definition get_next_states (s : PaymentState) : list PaymentState := VALID_TRANSITIONS s.

Definition is_terminal (s : PaymentState) : bool := terminal VALID_TRANSITIONS s.

Definition is_success_state (s : PaymentState) : bool :=
  bool_decide (s ∈ [PAID; PARTIALLY_PAID]).

Definition is_failure_state (s : PaymentState) : bool :=
  bool_decide (s ∈ [FAILED; CANCELLED]).

(** [str(amount) if amount else None] *)
Definition meta_amount (amount : option dec) : meta_value :=
  match amount with
  | Some a => if coef a =? 0 then MNull else MDec a
  | None => MNull
  end.

Record transition_args : Type := {
  ta_changed_by_user_id : option Z;
  ta_reason : option string;
  ta_ip_address : option string;
  ta_user_agent : option string;
  ta_trigger : option string;
  ta_metadata : gmap string meta_value;
  ta_amount : option dec;
}.

Definition history_row (bid : Z) (e : AccommodationBookingPayment) (new_state : PaymentState)
    (a : transition_args) : BookingStatusHistory := {|
  h_booking_id := bid;
  h_from_status := "payment:" +:+ pe_payment_status e;
  h_to_status := "payment:" +:+ enum_value new_state;
  h_changed_by := ta_changed_by_user_id a;
  h_trigger := Some (str_or (ta_trigger a) ("payment_" +:+ enum_value new_state));
  h_change_metadata :=
    <["amount" := meta_amount (ta_amount a)]>
    (<["payment_reference" := MText (pe_payment_reference e)]>
     (<["user_agent" := meta_text (ta_user_agent a)]>
      (<["ip_address" := meta_text (ta_ip_address a)]>
       (<["reason" := meta_text (ta_reason a)]> (ta_metadata a)))));
|}.

Definition transition (now : Z) (d : db) (e : AccommodationBookingPayment)
    (new_state : PaymentState) (a : transition_args)
    : result payment_error (db * AccommodationBookingPayment) :=
  let* current_state := of_option PaymentValueError (enum_of_value (pe_payment_status e)) in
  require can_transition current_state new_state (ta_amount a)
    else (InvalidPaymentTransition current_state new_state) ;;
  let d' := match pe_booking_id e with
            | Some bid => add_history d (history_row bid e new_state a)
            | None => d
            end in
  Ok (d', set_payment_status e (enum_value new_state) now).

(** The arguments every operation below passes to [transition]. *)
Definition args (by_user : option Z) (reason : option string) (trigger : string)
    (metadata : list (string * meta_value)) (amount : option dec) : transition_args := {|
  ta_changed_by_user_id := by_user; ta_reason := reason; ta_ip_address := None;
  ta_user_agent := None; ta_trigger := Some trigger;
  ta_metadata := list_to_map metadata; ta_amount := amount;
|}.

(** The unique columns of the payment event table. *)
Definition violates_unique (events : list AccommodationBookingPayment)
    (e : AccommodationBookingPayment) : bool :=
  existsb (fun x => String.eqb (pe_payment_reference x) (pe_payment_reference e)
    || (is_some (pe_idempotency_key e)
        && bool_decide (pe_idempotency_key x = pe_idempotency_key e))) events.

(** [db.session.add(e); db.session.flush()] *)
Definition add_event (events : list AccommodationBookingPayment) (e : AccommodationBookingPayment)
    : result payment_error (list AccommodationBookingPayment) :=
  if violates_unique events e then Err PaymentIntegrityError else Ok (events ++ [e]).

(** [reference] is the value of [generate_payment_reference()]. An exception
    leaves the session to be rolled back by the caller. *)
Definition initiate_payment (now : Z) (reference : string) (d : db)
    (events : list AccommodationBookingPayment) (b : booking) (amount : dec)
    (payment_method : string) (payment_gateway : option string)
    (initiated_by_user_id : option Z) (idempotency_key : option string)
    (metadata : gmap string meta_value)
    : result payment_error
        (db * list AccommodationBookingPayment * AccommodationBookingPayment) :=
  let payment_event := {|
    pe_booking_id := Some (bk_id b);
    pe_total_amount := Some (bk_total_amount b);
    pe_wallet_txn_id := None;
    pe_payment_reference := reference;
    pe_payment_status := enum_value PENDING;
    pe_payment_method := Some payment_method;
    pe_payment_gateway := payment_gateway;
    pe_gateway_transaction_id := None;
    pe_idempotency_key := idempotency_key;
    pe_failure_reason := None;
    pe_retry_count := Some 0;
    pe_updated_at := Aware now;
  |} in
  let* events' := add_event events payment_event in
  let* r := transition now d payment_event PENDING {|
    ta_changed_by_user_id := initiated_by_user_id;
    ta_reason := Some "Payment initiated"%string;
    ta_ip_address := None;
    ta_user_agent := None;
    ta_trigger := Some "payment_initiated"%string;
    ta_metadata := <["payment_gateway" := meta_text payment_gateway]>
      (<["payment_method" := MText payment_method]>
       (<["amount" := MDec amount]> metadata));
    ta_amount := Some amount;
  |} in
  Ok (r.1, events', r.2).

Definition mark_processing (now : Z) (d : db) (e : AccommodationBookingPayment)
    (gateway_transaction_id wallet_txn_id : option string) :=
  let* r := transition now d e PROCESSING
    (args None None "gateway_processing"
       [("gateway_transaction_id"%string, meta_text gateway_transaction_id);
        ("wallet_txn_id"%string, meta_text wallet_txn_id)] None) in
  let e' := r.2 in
  Ok (r.1, set_references e' (assign_if wallet_txn_id (pe_wallet_txn_id e'))
             (assign_if gateway_transaction_id (pe_gateway_transaction_id e'))).

Definition receipt_metadata (amount : dec) (wallet gateway : option string) :=
  [("amount"%string, MDec amount); ("wallet_txn_id"%string, meta_text wallet);
   ("gateway_transaction_id"%string, meta_text gateway)].

Definition mark_paid (now : Z) (d : db) (e : AccommodationBookingPayment) (amount : dec)
    (wallet_txn_id gateway_transaction_id : option string) (changed_by_user_id : option Z) :=
  let* _ := of_option PaymentValueError (enum_of_value (A := PaymentState) (pe_payment_status e)) in
  let* r := transition now d e PAID
    (args changed_by_user_id (Some "Payment completed"%string) "payment_completed"
       (receipt_metadata amount wallet_txn_id gateway_transaction_id) (Some amount)) in
  Ok (r.1, set_references r.2 wallet_txn_id
             (assign_if gateway_transaction_id (pe_gateway_transaction_id r.2))).

Definition mark_partially_paid (now : Z) (d : db) (e : AccommodationBookingPayment) (amount : dec)
    (wallet_txn_id gateway_transaction_id : option string) (changed_by_user_id : option Z) :=
  let* r := transition now d e PARTIALLY_PAID
    (args changed_by_user_id (Some "Partial payment received"%string) "partial_payment"
       (receipt_metadata amount wallet_txn_id gateway_transaction_id) (Some amount)) in
  Ok (r.1, set_references r.2 wallet_txn_id
             (assign_if gateway_transaction_id (pe_gateway_transaction_id r.2))).

Definition mark_failed (now : Z) (d : db) (e : AccommodationBookingPayment)
    (failure_reason : string) (changed_by_user_id : option Z) :=
  let* r := transition now d e FAILED
    (args changed_by_user_id (Some ("Payment failed: " +:+ failure_reason)) "payment_failed"
       [("failure_reason"%string, MText failure_reason)] None) in
  Ok (r.1, set_failure r.2 failure_reason (default 0 (pe_retry_count r.2) + 1)).

Definition initiate_refund (now : Z) (d : db) (e : AccommodationBookingPayment) (amount : dec)
    (reason : string) (changed_by_user_id : option Z) :=
  let* _ := of_option PaymentValueError (enum_of_value (A := PaymentState) (pe_payment_status e)) in
  let new_state := if dleb (dec_or0 (pe_total_amount e)) amount
                   then REFUND_PENDING else PARTIAL_REFUND in
  transition now d e new_state
    (args changed_by_user_id (Some ("Refund initiated: " +:+ reason)) "refund_initiated"
       [("refund_amount"%string, MDec amount); ("refund_reason"%string, MText reason)]
       (Some amount)).

Definition mark_refunded (now : Z) (d : db) (e : AccommodationBookingPayment) (amount : dec)
    (wallet_txn_id : option string) (changed_by_user_id : option Z) :=
  let* current_state := of_option PaymentValueError (enum_of_value (pe_payment_status e)) in
  let new_state := if decide (current_state = REFUND_PENDING) then REFUNDED else PARTIAL_REFUND in
  let* r := transition now d e new_state
    (args changed_by_user_id (Some "Refund completed"%string) "refund_completed"
       [("refund_amount"%string, MDec amount); ("wallet_txn_id"%string, meta_text wallet_txn_id)]
       (Some amount)) in
  Ok (r.1, set_references r.2 (assign_if wallet_txn_id (pe_wallet_txn_id r.2))
             (pe_gateway_transaction_id r.2)).

(** The operations as data, and a sequence of them on one event. *)
Inductive payment_op : Type :=
  | OpTransition (new_state : PaymentState) (a : transition_args)
  | OpProcessing (gateway wallet : option string)
  | OpPaid (amount : dec) (wallet gateway : option string) (by_user : option Z)
  | OpPartiallyPaid (amount : dec) (wallet gateway : option string) (by_user : option Z)
  | OpFailed (reason : string) (by_user : option Z)
  | OpInitiateRefund (amount : dec) (reason : string) (by_user : option Z)
  | OpRefunded (amount : dec) (wallet : option string) (by_user : option Z).

Definition apply_op (now : Z) (d : db) (e : AccommodationBookingPayment) (o : payment_op)
    : result payment_error (db * AccommodationBookingPayment) :=
  match o with
  | OpTransition s a => transition now d e s a
  | OpProcessing g w => mark_processing now d e g w
  | OpPaid m w g u => mark_paid now d e m w g u
  | OpPartiallyPaid m w g u => mark_partially_paid now d e m w g u
  | OpFailed r u => mark_failed now d e r u
  | OpInitiateRefund m r u => initiate_refund now d e m r u
  | OpRefunded m w u => mark_refunded now d e m w u
  end.

Fixpoint apply_ops (d : db) (e : AccommodationBookingPayment) (os : list (Z * payment_op))
    : result payment_error (db * AccommodationBookingPayment) :=
  match os with
  | [] => Ok (d, e)
  | (now, o) :: os => let* r := apply_op now d e o in apply_ops r.1 r.2 os
  end.

(** * Lemmas *)

Lemma can_transition_tstep s t m : can_transition s t m = true -> tstep VALID_TRANSITIONS s t.
Proof.
  unfold can_transition. rewrite <- allowed_spec.
  by destruct (allowed VALID_TRANSITIONS s t).
Qed.

(** The rows a step writes: one when the event has a booking. *)
Definition rows_of (e : AccommodationBookingPayment) (t : PaymentState) (a : transition_args)
    : list BookingStatusHistory :=
  match pe_booking_id e with
  | Some bid => [history_row bid e t a]
  | None => []
  end.

Lemma payment_transition_Ok now d e t a d' e' :
  transition now d e t a = Ok (d', e') <->
  exists s, pe_payment_status e = enum_value s /\ can_transition s t (ta_amount a) = true /\
    d' = fold_left add_history (rows_of e t a) d /\
    e' = set_payment_status e (enum_value t) now.
Proof.
  unfold transition, rows_of.
  destruct (enum_of_value (pe_payment_status e)) as [s|] eqn:Hs; simpl.
  - apply enum_of_value_Some in Hs. split.
    + intros H. inv_ok H. exists s. by destruct (pe_booking_id e); simplify_eq/=.
    + intros (s' & Hs' & Hc & -> & ->).
      rewrite <- Hs in Hs'. apply enum_value_inj in Hs' as ->. rewrite Hc.
      by destruct (pe_booking_id e).
  - split; [done|]. intros (s & Hs' & _). by rewrite Hs', enum_of_value_value in Hs.
Qed.

Lemma fold_add_history l d :
  db_history (fold_left add_history l d) = db_history d ++ l.
Proof.
  revert d. induction l as [|h l IH]; intros d; simpl; [by rewrite app_nil_r|].
  rewrite IH. simpl. by rewrite <- (assoc_L (++)).
Qed.

Definition is_failure (o : payment_op) : bool :=
  match o with
  | OpFailed _ _ => true
  | _ => false
  end.

(** A row of the payment machine: tagged statuses of one event's booking. *)
Definition payment_row (bid : Z) (h : BookingStatusHistory) : Prop :=
  h_booking_id h = bid /\
  exists s t, tstep VALID_TRANSITIONS s t /\
    h_from_status h = "payment:" +:+ enum_value s /\
    h_to_status h = "payment:" +:+ enum_value t.

(** What one operation does to the event and to the history. *)
Lemma apply_op_step now d e o d' e' :
  apply_op now d e o = Ok (d', e') ->
  exists s t rows,
    pe_payment_status e = enum_value s /\ pe_payment_status e' = enum_value t /\
    tstep VALID_TRANSITIONS s t /\
    pe_booking_id e' = pe_booking_id e /\
    db_history d' = db_history d ++ rows /\
    match pe_booking_id e with
    | Some bid => exists h, rows = [h] /\ payment_row bid h
    | None => rows = []
    end /\
    (is_failure o = false -> pe_retry_count e' = pe_retry_count e) /\
    (is_failure o = true -> pe_retry_count e' = Some (default 0 (pe_retry_count e) + 1)).
Proof.
  assert (Hcore : forall t a d1 e1, transition now d e t a = Ok (d1, e1) ->
    exists s rows, pe_payment_status e = enum_value s /\ pe_payment_status e1 = enum_value t /\
    tstep VALID_TRANSITIONS s t /\ pe_booking_id e1 = pe_booking_id e /\
    db_history d1 = db_history d ++ rows /\
    match pe_booking_id e with
    | Some bid => exists h, rows = [h] /\ payment_row bid h
    | None => rows = []
    end /\ pe_retry_count e1 = pe_retry_count e).
  { intros t a d1 e1 (s & Hs & Hc & -> & ->)%payment_transition_Ok.
    apply can_transition_tstep in Hc. exists s, (rows_of e t a).
    rewrite fold_add_history. split_and!; try done. unfold rows_of, payment_row.
    destruct (pe_booking_id e); [|done]. eexists. split; [done|]. simpl.
    split; [done|]. exists s, t. by rewrite Hs. }
  destruct o; simpl; intros Ho;
    unfold mark_processing, mark_paid, mark_partially_paid, mark_failed, initiate_refund,
      mark_refunded in Ho; inv_ok Ho;
    repeat match goal with
      | r : (db * AccommodationBookingPayment)%type |- _ => destruct r as [? ?]
      | H : transition _ _ _ _ _ = Ok _ |- _ => apply Hcore in H as (s & rows & Hcore')
      end; simplify_eq/=;
    destruct Hcore' as (? & ? & ? & ? & ? & ? & ?); eexists _, _, rows;
    split_and!; try done; simpl; congruence.
Qed.

Definition failures (os : list (Z * payment_op)) : Z :=
  Z.of_nat (length (List.filter (fun x => is_failure x.2) os)).

(** The states of an event that has been paid in full. *)
Definition settled : list PaymentState := [PAID; REFUND_PENDING; PARTIAL_REFUND; REFUNDED].

Lemma settled_closed s t : s ∈ settled -> tstep VALID_TRANSITIONS s t -> t ∈ settled.
Proof. unfold tstep, settled. destruct s; set_solver. Qed.

(** What a sequence of operations does. *)
Lemma apply_ops_steps os : forall d e d' e',
  apply_ops d e os = Ok (d', e') -> forall s, pe_payment_status e = enum_value s ->
  exists t rows, pe_payment_status e' = enum_value t /\ rtc (tstep VALID_TRANSITIONS) s t /\
    pe_booking_id e' = pe_booking_id e /\ db_history d' = db_history d ++ rows /\
    (forall bid, pe_booking_id e = Some bid ->
       length rows = length os /\ Forall (payment_row bid) rows) /\
    default 0 (pe_retry_count e') = default 0 (pe_retry_count e) + failures os.
Proof.
  induction os as [|[now o] os IH]; simpl; intros d e d' e' Hops s Hs.
  - simplify_eq. exists s, []. rewrite app_nil_r. split_and!; [done|constructor|done|done| |].
    + intros bid _. split; [done|constructor].
    + unfold failures. simpl. lia.
  - inv_ok Hops. destruct a as [d1 e1]. simpl in *.
    apply apply_op_step in Hok as (s' & t & rows & Hs' & Ht & Hst & Hb & Hh & Hrows & Hr0 & Hr1).
    rewrite Hs in Hs'. apply enum_value_inj in Hs' as <-.
    destruct (IH _ _ _ _ Hops t Ht) as (u & rows' & Hu & Hr & Hb' & Hh' & Hrows' & Hret).
    exists u, (rows ++ rows'). split_and!.
    + done.
    + by eapply rtc_l.
    + congruence.
    + rewrite Hh', Hh. by rewrite <- (assoc_L (++)).
    + intros bid Hbid. rewrite Hbid in Hrows. destruct Hrows as (h & -> & Hrow).
      destruct (Hrows' bid ltac:(congruence)) as [Hlen Hall]. simpl.
      split; [by rewrite Hlen|by constructor].
    + rewrite Hret. unfold failures. simpl. destruct (is_failure o).
      * rewrite (Hr1 eq_refl). simpl. lia.
      * rewrite (Hr0 eq_refl). lia.
Qed.

Lemma tagged_not_booking_status (t : string) (s : AccommodationBookingStatus) :
  "payment:" +:+ t <> enum_value s.
Proof. destruct s; by intros [=]. Qed.

(** * Properties *)

(** Payment operations on an event, in any order and number, only move it
    along the payment table, and write exactly one history row each, on the
    event's booking, whose tagged statuses are never booking statuses (so the
    booking lifecycle's own rows stay apart); an event that was paid in full
    stays paid, refunding or refunded, whatever is attempted later; and the
    retry counter advances by the number of failures. *)
Theorem apply_ops_spec d e os d' e' (s : PaymentState) bid :
  apply_ops d e os = Ok (d', e') ->
  pe_payment_status e = enum_value s -> pe_booking_id e = Some bid ->
  exists t rows,
    pe_payment_status e' = enum_value t /\ rtc (tstep VALID_TRANSITIONS) s t /\
    db_history d' = db_history d ++ rows /\ length rows = length os /\
    Forall (fun h => payment_row bid h /\ forall st : AccommodationBookingStatus,
      h_from_status h <> enum_value st /\ h_to_status h <> enum_value st) rows /\
    (s ∈ settled -> t ∈ settled) /\
    default 0 (pe_retry_count e') = default 0 (pe_retry_count e) + failures os.
Proof.
  intros Hops Hs Hbid.
  destruct (apply_ops_steps _ _ _ _ _ Hops s Hs) as (t & rows & Ht & Hr & _ & Hh & Hrows & Hret).
  destruct (Hrows bid Hbid) as [Hlen Hall]. exists t, rows. split_and!; try done.
  - revert Hall. apply Forall_impl. intros h Hrow. split; [done|].
    destruct Hrow as (_ & s1 & t1 & _ & -> & ->). intros st.
    split; apply tagged_not_booking_status.
  - intros Hset. by apply (rtc_closed VALID_TRANSITIONS (.∈ settled) settled_closed s t).
Qed.

Definition sample_event (s : PaymentState) : AccommodationBookingPayment := {|
  pe_booking_id := Some 42; pe_total_amount := Some (Sample.eur 360);
  pe_wallet_txn_id := None; pe_payment_reference := "PAY-1"; pe_payment_status := enum_value s;
  pe_payment_method := None; pe_payment_gateway := None; pe_gateway_transaction_id := None;
  pe_idempotency_key := None; pe_failure_reason := None; pe_retry_count := Some 0;
  pe_updated_at := Aware 0;
|}.

Definition sample_ops : list (Z * payment_op) :=
  [(1, OpProcessing (Some "gw"%string) None); (2, OpFailed "declined" None);
   (3, OpTransition PENDING (args None None "retry" [] None));
   (4, OpPaid (Sample.eur 360) (Some "W1"%string) None None);
   (5, OpInitiateRefund (Sample.eur 360) "guest" None)].

Lemma apply_ops_spec_witness :
  exists r, apply_ops Sample.db (sample_event PENDING) sample_ops = Ok r /\
    default 0 (pe_retry_count r.2) = 1.
Proof.
  destruct (apply_ops Sample.db (sample_event PENDING) sample_ops) as [[d' e']|] eqn:Hr.
  - exists (d', e'). split; [done|].
    destruct (apply_ops_spec _ _ _ _ _ PENDING 42 Hr eq_refl eq_refl)
      as (t & rows & _ & _ & _ & _ & _ & _ & Hret). exact Hret.
  - vm_compute in Hr. discriminate Hr.
Defined.

(** [initiate_payment] never returns a payment event: the event is created
    in PENDING and then transitioned to PENDING, which the table refuses. *)
Theorem initiate_payment_never_returns now ref d events b amount meth gw uid key md :
  exists err, initiate_payment now ref d events b amount meth gw uid key md = Err err /\
    (err = InvalidPaymentTransition PENDING PENDING \/ err = PaymentIntegrityError).
Proof.
  unfold initiate_payment, add_event.
  destruct (violates_unique _ _); simpl; [by eauto|]. eauto.
Qed.

(** The refund protocol of a fully paid event. A refund of at least the
    total amount goes through REFUND_PENDING and completes as REFUNDED, after
    which every operation is refused. A smaller one is recorded as
    PARTIAL_REFUND at once, and completing it with [mark_refunded] is refused
    whatever the amount. *)
Theorem refund_protocol now1 now2 d e amount reason by1 m2 w2 by2 :
  pe_payment_status e = enum_value PAID ->
  exists d1 e1, initiate_refund now1 d e amount reason by1 = Ok (d1, e1) /\
  if dleb (dec_or0 (pe_total_amount e)) amount
  then exists d2 e2, mark_refunded now2 d1 e1 m2 w2 by2 = Ok (d2, e2) /\
         pe_payment_status e2 = enum_value REFUNDED /\
         forall now3 o r, apply_op now3 d2 e2 o <> Ok r
  else pe_payment_status e1 = enum_value PARTIAL_REFUND /\
       mark_refunded now2 d1 e1 m2 w2 by2 =
         Err (InvalidPaymentTransition PARTIAL_REFUND PARTIAL_REFUND).
Proof.
  intros He. unfold initiate_refund, transition. rewrite He.
  destruct (dleb (dec_or0 (pe_total_amount e)) amount); simpl;
    eexists _, _; (split; [reflexivity|]).
  - eexists _, _. split; [reflexivity|]. split; [done|].
    intros now3 o [d3 e3] Ho. apply apply_op_step in Ho as (s & t & _ & Hs & _ & Hst & _).
    change (enum_value REFUNDED = enum_value s) in Hs. apply enum_value_inj in Hs as <-.
    by apply not_elem_of_nil in Hst.
  - by split.
Qed.

Lemma refund_protocol_witness :
  exists d1 e1, initiate_refund 1 Sample.db (sample_event PAID) (Sample.eur 100) "guest" None
    = Ok (d1, e1) /\
  pe_payment_status e1 = enum_value PARTIAL_REFUND.
Proof.
  destruct (refund_protocol 1 2 Sample.db (sample_event PAID) (Sample.eur 100) "guest" None
              (Sample.eur 100) None None eq_refl) as (d1 & e1 & H1 & H2).
  exists d1, e1. split; [exact H1|exact (proj1 H2)].
Defined.

End PaymentStateMachine.
