(* ===== verification/BookingPolicy.v ===== *)
(** The policy layer between the booking and the payment machines: classes
    BookingPolicyEvaluator and PaymentPolicyEvaluator of
    app/accommodation/state_machine/policy_evaluator.py. It is the only place
    where the payment status influences a booking transition. *)

From Stdlib Require Import QArith Lqa.
From S2P Require Import Prelude Decimal DecimalLaws BookingModel BookingStates PaymentStates.

Local Open Scope Z_scope.

Inductive policy_error : Type :=
  | PolicyValueError                       (* unknown stored payment status *)
  | PolicyArithmetic (e : dec_error).

(** Reasons, with the values their f-strings embed. *)
Inductive message : Type :=
  | Text (s : string)
  | DepositRequired (pct amount : dec)
  | NotConfirmed (status : string)
  | TooEarly (check_in : date)
  | Joined (parts : list string).

(** [missing_requirements] keeps the payment requirement's reason as an item. *)
Record PolicyDecision : Type := {
  pd_allowed : bool;
  pd_reason : message;
  pd_required_payment : option dec;
  pd_required_approval : bool;
  pd_missing_requirements : list message;
}.

Record PaymentRequirement : Type := {
  pr_required : bool;
  pr_amount : option dec;
  pr_percentage : option dec;
  pr_timing : string;
  pr_reason : message;
}.

Definition allow (reason : string) : PolicyDecision := {|
  pd_allowed := true; pd_reason := Text reason; pd_required_payment := None;
  pd_required_approval := false; pd_missing_requirements := [];
|}.

Definition refuse (reason : message) (payment : option dec) (approval : bool)
    (missing : list message) : PolicyDecision := {|
  pd_allowed := false; pd_reason := reason; pd_required_payment := payment;
  pd_required_approval := approval; pd_missing_requirements := missing;
|}.

Definition not_required (timing reason : string) : PaymentRequirement := {|
  pr_required := false; pr_amount := None; pr_percentage := None;
  pr_timing := timing; pr_reason := Text reason;
|}.

Definition required (amount : dec) (pct : option dec) (timing : string) (reason : message)
    : PaymentRequirement := {|
  pr_required := true; pr_amount := Some amount; pr_percentage := pct;
  pr_timing := timing; pr_reason := reason;
|}.

Module BookingPolicyEvaluator.

Definition policy_or_default (d : db) (b : booking) : PropertyBookingPolicy :=
  match find_policy d (bk_property_id b) with
  | Some p => p
  | None => transient_policy (bk_property_id b)
  end.

Definition payment_timing (b : booking) : string := str_or (bk_payment_timing b) "pay_now".

Definition booking_mode (b : booking) : string :=
  match bk_property b with Some p => prop_booking_mode p | None => "instant" end.

Definition require_host_approval (b : booking) : bool :=
  match bk_property b with Some p => prop_require_host_approval p | None => false end.

Definition approval_required_flows : list string :=
  ["host_approval"; "pay_on_arrival_approval"; "deposit_approval"; "invoice_approval"]%string.

Definition host_approval_required (b : booking) : bool :=
  let host_approval_required :=
    String.eqb (booking_mode b) "host_approval" || require_host_approval b in
  match bk_booking_flow_type b with
  | Some flow_type => if str_in flow_type approval_required_flows then true
                      else host_approval_required
  | None => host_approval_required
  end.

(** [PaymentState(getattr(booking, 'payment_status', 'unpaid'))] *)
Definition payment_state (b : booking) : result policy_error PaymentState :=
  of_option PolicyValueError (enum_of_value (bk_payment_status b)).

Definition _evaluate_payment_requirement (b : booking) (policy : PropertyBookingPolicy)
    (payment_being_made : bool) : result policy_error PaymentRequirement :=
  let timing := payment_timing b in
  if payment_being_made then
    Ok (not_required timing "Payment being processed in this confirmation")
  else if str_in timing ["pay_on_arrival"; "pay_at_checkout"; "invoice"]%string then
    Ok (not_required timing "Payment on arrival/at checkout/invoice - no upfront payment required")
  else if String.eqb timing "deposit" then
    let deposit_pct := via_float (dec_or0 (bp_deposit_percentage policy)) in
    let satisfied := not_required "deposit" "Deposit amount satisfied or no deposit required" in
    if dltb dzero deposit_pct then
      let* required_amount := map_err PolicyArithmetic
        (ddiv (dmul (dec_or0 (Some (bk_total_amount b))) deposit_pct) (dint 100)) in
      if dltb (dec_or0 (bk_amount_paid b)) required_amount then
        Ok (required required_amount (Some deposit_pct) "deposit"
              (DepositRequired deposit_pct required_amount))
      else Ok satisfied
    else Ok satisfied
  else if String.eqb timing "pay_now" then
    if truth (bp_require_payment_guarantee policy) && negb (truth (bk_payment_guaranteed b)) then
      Ok (required (dec_or0 (Some (bk_total_amount b))) None "pay_now"
            (Text "Payment guarantee required before confirmation"))
    else
      let* state := payment_state b in
      if bool_decide (state ∈ [PAID; PARTIALLY_PAID]) then
        Ok (not_required timing "Payment requirement satisfied")
      else
        Ok (required (dec_or0 (Some (bk_total_amount b))) None "pay_now"
              (Text "Full payment required before confirmation"))
  else Ok (not_required timing "Payment requirement satisfied").

Definition expired (now : Z) (b : booking) : bool :=
  match bk_expires_at b with
  | Some expires_at => as_utc expires_at <? now
  | None => false
  end.

Definition can_confirm (now : Z) (d : db) (b : booking) (payment_being_made : bool)
    : result policy_error PolicyDecision :=
  let policy := policy_or_default d b in
  if host_approval_required b && negb (is_some (bk_host_approved_at b)) then
    Ok (refuse (Text "Host approval required before confirmation") None true
          [Text "Host approval required"])
  else
    let* payment_req := _evaluate_payment_requirement b policy payment_being_made in
    if pr_required payment_req then
      Ok (refuse (pr_reason payment_req) (pr_amount payment_req) false [pr_reason payment_req])
    else if expired now b then
      Ok (refuse (Text "Booking has expired") None false [Text "Booking expired"])
    else Ok (allow "All requirements satisfied").

Definition can_check_in (now : Z) (d : db) (b : booking) : result policy_error PolicyDecision :=
  if negb (String.eqb (bk_status b) (enum_value CONFIRMED)) then
    Ok (refuse (NotConfirmed (bk_status b)) None false [Text "Booking not confirmed"])
  else
    match BookingStateMachine.property_today b with
    | None =>
        Ok (refuse (Text "Property timezone is not configured; check-in cannot be authorized.")
              None false [Text "Property IANA timezone not configured"])
    | Some property_today =>
        if property_today <? bk_check_in b then
          Ok (refuse (TooEarly (bk_check_in b)) None false
                [Text "Check-in date not reached at property"])
        else
          let registration :=
            if BookingStateMachine._registration_satisfied now d b then []
            else ["Guest registration incomplete"%string] in
          let timing := payment_timing b in
          let guarantee := match find_policy d (bk_property_id b) with
                           | Some policy => truth (bp_require_payment_guarantee policy)
                           | None => false
                           end in
          let* payment :=
            (if guarantee && String.eqb timing "pay_now" then
              let* state := payment_state b in
              Ok (if bool_decide (state ∈ [PAID; PARTIALLY_PAID]) then []
                  else if negb (String.eqb timing "pay_on_arrival")
                          && negb (String.eqb timing "pay_at_checkout")
                       then ["Payment required before check-in per property policy"%string]
                       else [])
            else Ok []) in
          let missing := registration ++ payment in
          match missing with
          | [] => Ok (allow "Check-in allowed")
          | _ => Ok (refuse (Joined missing) None false (Text <$> missing))
          end
    end.

(** [x and b] for a nullable boolean [x]. *)
Definition and_opt (x : option bool) (b : bool) : option bool :=
  if truth x then Some b else x.

(** The dictionary [get_booking_requirements] returns, flattened. *)
Record BookingRequirements : Type := {
  br_booking_status : string;
  br_payment_status : PaymentState;
  br_payment_timing : string;
  br_confirmation_mode : string;
  br_host_approval_required : bool;
  br_host_approved : bool;
  br_requires_payment_before_confirmation : option bool;
  br_requires_deposit_before_confirmation : bool;
  br_required_deposit_amount : dec;
  br_requires_payment_before_checkin : option bool;
  br_allow_pay_on_arrival : option bool;
  br_allow_pay_at_checkout : option bool;
  br_total_amount : dec;
  br_amount_paid : dec;
  br_amount_due : dec;
  br_deposit_amount : dec;
  br_can_confirm : PolicyDecision;
  br_can_check_in : PolicyDecision;
}.

Definition get_booking_requirements (now : Z) (d : db) (b : booking)
    : result policy_error BookingRequirements :=
  let policy := policy_or_default d b in
  let timing := payment_timing b in
  let* state := payment_state b in
  let* deposit :=
    (if String.eqb timing "deposit" then
      map_err PolicyArithmetic
        (ddiv (dmul (dec_or0 (Some (bk_total_amount b)))
                    (dec_or0 (bp_deposit_percentage policy))) (dint 100))
    else Ok dzero) in
  let* confirm := can_confirm now d b false in
  let* check_in := can_check_in now d b in
  let guarantee := and_opt (bp_require_payment_guarantee policy) (String.eqb timing "pay_now") in
  Ok {|
    br_booking_status := bk_status b;
    br_payment_status := state;
    br_payment_timing := timing;
    br_confirmation_mode :=
      if String.eqb (booking_mode b) "host_approval" then "host_approval" else "automatic";
    br_host_approval_required := require_host_approval b;
    br_host_approved := is_some (bk_host_approved_at b);
    br_requires_payment_before_confirmation := guarantee;
    br_requires_deposit_before_confirmation :=
      String.eqb timing "deposit" && dltb dzero (via_float (dec_or0 (bp_deposit_percentage policy)));
    br_required_deposit_amount := deposit;
    br_requires_payment_before_checkin := guarantee;
    br_allow_pay_on_arrival := bp_allow_pay_on_arrival policy;
    br_allow_pay_at_checkout := bp_allow_pay_at_checkout policy;
    br_total_amount := dec_or0 (Some (bk_total_amount b));
    br_amount_paid := dec_or0 (bk_amount_paid b);
    br_amount_due := dec_or0 (bk_amount_due b);
    br_deposit_amount := dec_or0 (bk_deposit_amount b);
    br_can_confirm := confirm;
    br_can_check_in := check_in;
  |}.

End BookingPolicyEvaluator.

Module PaymentPolicyEvaluator.

Definition get_required_payment_for_confirmation (d : db) (b : booking)
    : result policy_error PaymentRequirement :=
  BookingPolicyEvaluator._evaluate_payment_requirement b
    (BookingPolicyEvaluator.policy_or_default d b) false.

Definition get_allowed_payment_timings (d : db) (property_id : Z) : list string :=
  match find_policy d property_id with
  | None => ["pay_now"; "pay_on_arrival"; "pay_at_checkout"; "deposit"; "invoice"]%string
  | Some policy =>
      (if truth (bp_allow_pay_now policy) then ["pay_now"%string] else [])
      ++ (if truth (bp_allow_pay_on_arrival policy) then ["pay_on_arrival"%string] else [])
      ++ (if truth (bp_allow_pay_at_checkout policy) then ["pay_at_checkout"%string] else [])
      ++ (if truth (bp_allow_deposit_payment policy) then ["deposit"%string] else [])
      ++ ["invoice"%string]
  end.

Definition calculate_deposit_amount (d : db) (b : booking) : result dec_error dec :=
  match find_policy d (bk_property_id b) with
  | None => Ok dzero
  | Some policy =>
      match bp_deposit_percentage policy with
      | Some pct => if coef pct =? 0 then Ok dzero
                    else ddiv (dmul (dec_or0 (Some (bk_total_amount b))) pct) (dint 100)
      | None => Ok dzero
      end
  end.

End PaymentPolicyEvaluator.

(** * Specification *)

(** The columns of a booking and of a policy row hold values of their types. *)
Record well_typed_booking (b : booking) : Prop := {
  wt_total : money (bk_total_amount b);
  wt_paid : nullable money (bk_amount_paid b);
  wt_payment_status : exists s : PaymentState, bk_payment_status b = enum_value s;
}.

Definition well_typed_policies (d : db) : Prop :=
  Forall (fun p => nullable percentage (bp_deposit_percentage p)) (db_policies d).

Section confirmation.
Context (now : Z) (d : db) (b : booking) (payment_being_made : bool).

Let policy := BookingPolicyEvaluator.policy_or_default d b.
Let timing := BookingPolicyEvaluator.payment_timing b.

(** The approval a host must give: the property's mode or switch, or the
    flow the booking was created with. *)
Definition approval_needed : Prop :=
  BookingPolicyEvaluator.booking_mode b = "host_approval"%string \/
  BookingPolicyEvaluator.require_host_approval b = true \/
  exists f, bk_booking_flow_type b = Some f /\
    f ∈ BookingPolicyEvaluator.approval_required_flows.

(** A deposit of the policy's percentage of the total has been paid. *)
Definition deposit_paid : Prop :=
  (dval (bk_total_amount b) * dval (dec_or0 (bp_deposit_percentage policy))
   <= dval (dec_or0 (bk_amount_paid b)) * 100)%Q.

(** What must have been paid, by the booking's payment timing. *)
Definition payment_done : Prop :=
  payment_being_made = true \/
  (timing <> "deposit"%string /\ timing <> "pay_now"%string) \/
  (timing = "deposit"%string /\ deposit_paid) \/
  (timing = "pay_now"%string /\
   (truth (bp_require_payment_guarantee policy) = true ->
    truth (bk_payment_guaranteed b) = true) /\
   bk_payment_status b ∈ [enum_value PAID; enum_value PARTIALLY_PAID]).

Definition unexpired : Prop :=
  forall t, bk_expires_at b = Some t -> now <= as_utc t.
End confirmation.

(** * Lemmas *)

Lemma well_typed_deposit d b : well_typed_policies d ->
  0 <= coef (via_float (dec_or0 (bp_deposit_percentage
         (BookingPolicyEvaluator.policy_or_default d b)))) <= 10000.
Proof.
  intros Hd. unfold BookingPolicyEvaluator.policy_or_default.
  destruct (find_policy d (bk_property_id b)) as [p|] eqn:Hp; [|done].
  apply List.find_some in Hp as [Hin _].
  pose proof (proj1 (List.Forall_forall _ _) Hd p Hin) as Hpct. simpl in Hpct.
  destruct (bp_deposit_percentage p) as [pct|]; [|done].
  destruct (Hpct pct eq_refl) as [He [H0 H1]]. simpl.
  destruct (Z.eqb_spec (coef pct) 0); [done|].
  pose proof (via_float_coef pct ltac:(lia) ltac:(lia)). lia.
Qed.

Lemma deposit_due d b : well_typed_booking b -> well_typed_policies d ->
  let pct := dec_or0 (bp_deposit_percentage (BookingPolicyEvaluator.policy_or_default d b)) in
  exists q, ddiv (dmul (dec_or0 (Some (bk_total_amount b))) (via_float pct)) (dint 100) = Ok q /\
    (dval q * 100 == dval (bk_total_amount b) * dval pct)%Q.
Proof.
  intros Hb Hd pct. destruct (percent_money (bk_total_amount b) (via_float pct)) as (q & Hq & Hv).
  - by apply wt_total.
  - by apply well_typed_deposit.
  - exists q. split; [done|]. rewrite Hv. pose proof (via_float_val pct) as E.
    unfold deq in E. by rewrite E.
Qed.

Lemma paid_nonneg b : well_typed_booking b -> (0 <= dval (dec_or0 (bk_amount_paid b)))%Q.
Proof.
  intros [_ Hp _]. rewrite <- dle_zero. apply dle_0.
  destruct (bk_amount_paid b) as [x|]; [|done].
  rewrite dec_or0_coef. destruct (Hp x eq_refl) as [_ [Hx _]]. exact Hx.
Qed.

Lemma host_approval_required_spec b :
  BookingPolicyEvaluator.host_approval_required b = true <-> approval_needed b.
Proof.
  unfold BookingPolicyEvaluator.host_approval_required, approval_needed.
  destruct (bk_booking_flow_type b) as [f|].
  - destruct (str_in f _) eqn:Hf.
    + apply str_in_spec in Hf. split; [|done]. intros _. right. right. by exists f.
    + rewrite orb_true_iff, String.eqb_eq. split.
      { intros [?|?]; [by left|by right; left]. }
      intros [?|[?|(f' & [= <-] & Hin)]]; [by left|by right|].
      apply str_in_spec in Hin. congruence.
  - rewrite orb_true_iff, String.eqb_eq. naive_solver.
Qed.

(** The payment part of the decision. *)
Lemma payment_requirement_spec d b being : well_typed_booking b -> well_typed_policies d ->
  exists req, BookingPolicyEvaluator._evaluate_payment_requirement b
      (BookingPolicyEvaluator.policy_or_default d b) being = Ok req /\
    (pr_required req = false <-> payment_done d b being).
Proof.
  intros Hb Hd. unfold BookingPolicyEvaluator._evaluate_payment_requirement, payment_done.
  set (timing := BookingPolicyEvaluator.payment_timing b).
  destruct being; [eexists; split; [done|]; naive_solver|].
  destruct (str_in timing _) eqn:Ht.
  { apply str_in_spec in Ht. eexists. split; [done|]. split; [|done]. intros _. right. left.
    split; intros E; rewrite E in Ht; set_solver. }
  clear Ht. destruct (String.eqb_spec timing "deposit") as [Et|Hnd].
  - destruct (deposit_due d b Hb Hd) as (q & Hq & Hv). unfold deposit_paid.
    set (pct := dec_or0 (bp_deposit_percentage _)) in *.
    pose proof (paid_nonneg b Hb) as Hpaid.
    destruct (dltb dzero (via_float pct)) eqn:Hpos.
    + rewrite Hq. simpl. destruct (dltb (dec_or0 (bk_amount_paid b)) q) eqn:Hlt;
        eexists; (split; [done|]); simpl.
      * apply dltb_spec in Hlt. unfold dlt in Hlt. split; [done|].
        intros [?|[[? _]|[[_ Hdp]|[E _]]]]; [done|done| |congruence].
        exfalso. lra.
      * apply dltb_false in Hlt. unfold dle in Hlt. split; [|done]. intros _.
        right. right. left. split; [done|]. lra.
    + apply dltb_false in Hpos. rewrite (via_float_val pct) in Hpos.
      eexists. split; [done|]. split; [|done]. intros _. right. right. left. split; [done|].
      unfold dle in Hpos. rewrite dval_zero in Hpos.
      pose proof (wt_total b Hb) as [_ [Ht _]]. apply dle_0 in Ht. rewrite dle_zero in Ht. nra.
  - destruct (String.eqb_spec timing "pay_now") as [Et|Hnp].
    2: { eexists. split; [done|]. split; [|done]. intros _. by right; left. }
    set (g := truth (bp_require_payment_guarantee _)).
    destruct (g && negb (truth (bk_payment_guaranteed b))) eqn:Hg.
    + eexists. split; [done|]. simpl. split; [done|].
      apply andb_true_iff in Hg as [Hg1 Hg2%negb_true_iff].
      intros [?|[[_ ?]|[[? _]|(_ & Hgg & _)]]]; [done|done|done|].
      specialize (Hgg Hg1). congruence.
    + destruct (wt_payment_status b Hb) as [s Hs].
      unfold BookingPolicyEvaluator.payment_state. rewrite Hs, enum_of_value_value. simpl.
      assert (Hgg : g = true -> truth (bk_payment_guaranteed b) = true).
      { intros E. rewrite E in Hg. simpl in Hg. by apply negb_false_iff in Hg. }
      case_bool_decide as Hin; eexists; (split; [done|]); simpl.
      * split; [|done]. intros _. right. right. right. split_and!; [done|done|].
        destruct s; set_solver.
      * split; [done|]. intros [?|[[_ ?]|[[? _]|(_ & _ & Hst)]]]; [done|done|done|].
        exfalso. apply Hin. destruct s; vm_compute in Hst; set_solver.
Qed.

Lemma expired_spec now b : BookingPolicyEvaluator.expired now b = false <-> unexpired now b.
Proof.
  unfold BookingPolicyEvaluator.expired, unexpired. destruct (bk_expires_at b) as [t|].
  - rewrite Z.ltb_ge. naive_solver.
  - naive_solver.
Qed.

(** * Properties *)

Import BookingPolicyEvaluator.

(** On well-typed rows the confirmation decision is always reached, and a
    booking is allowed exactly when the host approval its property or flow
    asks for was given, what its payment timing asks for before confirmation
    has been paid (the deposit percentage of the total, up to the cent; or,
    for pay-now, the guarantee and a paid or partially paid status) and its
    hold has not expired. *)
Theorem can_confirm_spec now d b being :
  well_typed_booking b -> well_typed_policies d ->
  exists dec, can_confirm now d b being = Ok dec /\
    (pd_allowed dec = true <->
     (approval_needed b -> is_some (bk_host_approved_at b) = true) /\
     payment_done d b being /\ unexpired now b).
Proof.
  intros Hb Hd. unfold can_confirm.
  pose proof (host_approval_required_spec b) as Happ.
  destruct (host_approval_required b && negb (is_some (bk_host_approved_at b))) eqn:Hh.
  - apply andb_true_iff in Hh as [Hreq Hno%negb_true_iff].
    eexists. split; [done|]. split; [done|].
    intros [Happr _]. rewrite (Happr (proj1 Happ Hreq)) in Hno. done.
  - destruct (payment_requirement_spec d b being Hb Hd) as (req & Hr & Hpay). rewrite Hr. simpl.
    assert (Hok : approval_needed b -> is_some (bk_host_approved_at b) = true).
    { intros Hreq%Happ. rewrite Hreq in Hh. simpl in Hh. by apply negb_false_iff in Hh. }
    pose proof (expired_spec now b) as Hexp.
    destruct (pr_required req); [|destruct (expired now b)];
      (eexists; split; [done|]; simpl).
    + split; [done|]. intros (_ & Hp%Hpay & _). done.
    + split; [done|]. intros (_ & _ & Hu%Hexp). done.
    + split; [|done]. intros _. split_and!; [done|by apply Hpay|by apply Hexp].
Qed.

Definition sample_policy (pct : Z) (guarantee : bool) : PropertyBookingPolicy := {|
  bp_property_id := 7; bp_cancellation_policy := Some "moderate"%string;
  bp_free_cancel_hours := 24; bp_allow_pay_now := Some true; bp_allow_pay_on_arrival := None;
  bp_allow_pay_at_checkout := None; bp_allow_deposit_payment := Some true;
  bp_deposit_percentage := Some (cents (pct * 100));
  bp_require_payment_guarantee := Some guarantee; bp_require_guest_identity := None;
|}.

Definition sample_db (pct : Z) (guarantee : bool) : db := {|
  db_registrations := Some []; db_policies := [sample_policy pct guarantee];
  db_cancellation_policies := []; db_history := [];
|}.

(** The sample booking with a payment timing and an amount paid, in euros. *)
Definition sample_stay (timing : string) (s : AccommodationBookingStatus) (pay : string)
    (paid : Z) (nights : Z) (snap : option snapshot) : booking := {|
  bk_info := {|
    bk_id := 42; bk_reference := Some "BK-42"%string; bk_property_id := 7;
    bk_property := Some Sample.property; bk_check_in := 739000; bk_check_out := 739000 + nights;
    bk_nightly_rate := Sample.eur 100; bk_cleaning_fee := None;
    bk_service_fee := None; bk_taxes := None; 
    bk_currency := Some "EUR"%string; bk_amount_paid := Some (Sample.eur paid);
    bk_amount_due := None; bk_deposit_amount := None;
    bk_guest_user_id := Some 5; bk_primary_guest_id := None; bk_guest_email := None;
    bk_host_approved_at := None; bk_expires_at := None; bk_registration_deadline := None;
    bk_payment_timing := Some timing; bk_booking_flow_type := None;
    bk_payment_guaranteed := Some true; bk_policy_snapshot := snap;
  |};
  bk_num_nights := nights; bk_total_amount := Sample.eur 360;
  bk_status := enum_value s; bk_payment_status := pay;
  bk_refund_amount := None; bk_refunded_at := None; bk_cancelled_at := None;
  bk_cancelled_by_user_id := None; bk_cancellation_reason := None; bk_paid_at := None;
  bk_wallet_txn_id := None; bk_payment_method := None;
|}.

Definition sample_booking (timing : string) (s : AccommodationBookingStatus)
    (p : PaymentState) (paid : Z) : booking :=
  sample_stay timing s (enum_value p) paid 3 None.

Lemma sample_typed timing s p paid : 0 <= paid < 100000000 ->
  well_typed_booking (sample_booking timing s p paid).
Proof.
  intros Hp. split; simpl.
  - split; [done|]. simpl. change (pow10 10) with 10000000000. lia.
  - intros d [= <-]. split; [done|]. simpl. change (pow10 10) with 10000000000. lia.
  - by exists p.
Qed.

Lemma sample_policies_typed pct g : 0 <= pct <= 100 -> well_typed_policies (sample_db pct g).
Proof.
  intros Hp. repeat constructor; simpl in *; simplify_eq; simpl; lia.
Qed.

Lemma can_confirm_spec_witness :
  exists dec, can_confirm 0 (sample_db 30 false)
                (sample_booking "deposit" BookingModel.PENDING UNPAID 107) false = Ok dec /\
    pd_allowed dec = false.
Proof.
  destruct (can_confirm_spec 0 (sample_db 30 false)
              (sample_booking "deposit" BookingModel.PENDING UNPAID 107) false
              (sample_typed "deposit" BookingModel.PENDING UNPAID 107 ltac:(done))
              (sample_policies_typed 30 false ltac:(done)))
    as (dec & Hdec & Hiff).
  exists dec. split; [exact Hdec|].
  destruct (pd_allowed dec); [|reflexivity].
  destruct (proj1 Hiff eq_refl) as (_ & [Hf|[[Hf _]|[[_ Hp]|[Hf _]]]] & _).
  - discriminate Hf.
  - by destruct (Hf eq_refl).
  - unfold deposit_paid in Hp. vm_compute in Hp. by destruct Hp.
  - discriminate Hf.
Defined.

Lemma machine_check_in now d b :
  BookingStateMachine.can_transition now d b CHECKED_IN = Ok true <->
  BookingStateMachine._can_check_in now d b = true.
Proof.
  rewrite BookingStateMachine.can_transition_true. split.
  - intros (s & _ & _ & [Hci _]). by apply Hci.
  - intros Hci. exists CONFIRMED. split_and!; [|set_solver|by split].
    unfold BookingStateMachine._can_check_in in Hci.
    by destruct (String.eqb_spec (bk_status b) (enum_value CONFIRMED)).
Qed.

(** The check-in decision is the lifecycle machine's own gate plus one
    payment condition: whatever the policy layer allows the machine accepts as
    a transition to CHECKED_IN, and what it refuses beyond the machine is only
    a pay-now booking, at a property that requires a payment guarantee, whose
    payment status is neither paid nor partially paid. *)
Theorem can_check_in_spec now d b :
  well_typed_booking b ->
  exists dec, can_check_in now d b = Ok dec /\
    (pd_allowed dec = true <->
     BookingStateMachine.can_transition now d b CHECKED_IN = Ok true /\
     (forall p, find_policy d (bk_property_id b) = Some p ->
        truth (bp_require_payment_guarantee p) = true -> payment_timing b = "pay_now"%string ->
        bk_payment_status b ∈ [enum_value PAID; enum_value PARTIALLY_PAID])).
Proof.
  intros Hb. set (pay := forall p, _). setoid_rewrite machine_check_in.
  unfold can_check_in, BookingStateMachine._can_check_in.
  destruct (String.eqb (bk_status b) (enum_value CONFIRMED)) eqn:Hs; simpl.
  2: { eexists. split; [done|]. simpl. naive_solver. }
  destruct (BookingStateMachine.property_today b) as [today|]; [|eexists; split; [done|]; naive_solver].
  destruct (today <? bk_check_in b); [eexists; split; [done|]; naive_solver|].
  destruct (wt_payment_status b Hb) as [s Hst].
  assert (Hpay : exists l, (if match find_policy d (bk_property_id b) with
        | Some policy => truth (bp_require_payment_guarantee policy) | None => false end
        && String.eqb (payment_timing b) "pay_now"
      then rbind (payment_state b) (fun state =>
        Ok (if bool_decide (state ∈ [PAID; PARTIALLY_PAID]) then []
            else if negb (String.eqb (payment_timing b) "pay_on_arrival")
                    && negb (String.eqb (payment_timing b) "pay_at_checkout")
                 then ["Payment required before check-in per property policy"%string] else []))
      else Ok []) = Ok l /\ (l = [] <-> pay)).
  { destruct (find_policy d (bk_property_id b)) as [p|] eqn:Hp; simpl.
    2: { exists []. split; [done|]. split; [|done]. intros _ p' ?. congruence. }
    destruct (truth (bp_require_payment_guarantee p)) eqn:Hg; simpl.
    2: { exists []. split; [done|]. split; [|done]. intros _ p' ? ?. congruence. }
    destruct (String.eqb_spec (payment_timing b) "pay_now") as [Ht|Ht]; simpl.
    2: { exists []. split; [done|]. split; [|done]. intros _ p' ? ? ?. congruence. }
    unfold payment_state. rewrite Hst, enum_of_value_value, Ht. simpl.
    eexists. split; [reflexivity|]. unfold pay. rewrite Hst.
    case_bool_decide as Hin; simpl.
    - split; [|done]. intros _ _ _ _ _. destruct s; set_solver.
    - split; [done|]. intros Hpay. specialize (Hpay p eq_refl Hg Ht). exfalso. apply Hin.
      destruct s; vm_compute in Hpay; set_solver. }
  destruct Hpay as (l & -> & Hl). simpl.
  destruct (BookingStateMachine._registration_satisfied now d b); simpl.
  - destruct l; (eexists; split; [done|]); simpl; [|split; [done|]; intros [_ Hp%Hl]; done].
    split; [|done]. intros _. split; [done|]. by apply Hl.
  - eexists. split; [done|]. naive_solver.
Qed.

Lemma can_check_in_spec_witness :
  exists dec, can_check_in 0 (sample_db 0 true) (sample_booking "pay_now" CONFIRMED UNPAID 0)
    = Ok dec /\ pd_allowed dec = false.
Proof.
  destruct (can_check_in_spec 0 (sample_db 0 true) (sample_booking "pay_now" CONFIRMED UNPAID 0)
              (sample_typed "pay_now" CONFIRMED UNPAID 0 ltac:(done))) as (dec & Hdec & Hiff).
  exists dec. split; [exact Hdec|].
  destruct (pd_allowed dec); [|reflexivity].
  destruct (proj1 Hiff eq_refl) as [_ Hp].
  specialize (Hp (sample_policy 0 true) eq_refl eq_refl eq_refl). vm_compute in Hp.
  apply elem_of_cons in Hp as [Hp|Hp]; [discriminate Hp|].
  apply elem_of_cons in Hp as [Hp|Hp]; [discriminate Hp|]. by apply not_elem_of_nil in Hp.
Defined.

(** The deposit the guest is quoted ([calculate_deposit_amount]) is the
    deposit confirmation demands, though one computes through [float] and the
    other does not: a deposit booking with less paid is refused for exactly
    that amount, and one with at least that amount paid is let through. *)
Theorem deposit_agreement d b :
  well_typed_booking b -> well_typed_policies d -> payment_timing b = "deposit"%string ->
  exists q req,
    PaymentPolicyEvaluator.calculate_deposit_amount d b = Ok q /\
    PaymentPolicyEvaluator.get_required_payment_for_confirmation d b = Ok req /\
    (dlt (dec_or0 (bk_amount_paid b)) q ->
       pr_required req = true /\ exists a, pr_amount req = Some a /\ a ≃ q) /\
    (dle q (dec_or0 (bk_amount_paid b)) -> pr_required req = false).
Proof.
  intros Hb Hd Ht.
  assert (Hq : exists q, PaymentPolicyEvaluator.calculate_deposit_amount d b = Ok q /\
    (dval q * 100 == dval (bk_total_amount b) *
       dval (dec_or0 (bp_deposit_percentage (policy_or_default d b))))%Q).
  { pose proof (well_typed_deposit d b Hd) as Hw.
    unfold PaymentPolicyEvaluator.calculate_deposit_amount, policy_or_default in *.
    destruct (find_policy d (bk_property_id b)) as [p|] eqn:Hp.
    2: { exists dzero. split; [done|]. simpl. rewrite dval_zero. ring. }
    apply List.find_some in Hp as [Hin _].
    pose proof (proj1 (List.Forall_forall _ _) Hd p Hin) as Hpct. simpl in Hpct.
    destruct (bp_deposit_percentage p) as [pct|].
    2: { exists dzero. split; [done|]. simpl. rewrite dval_zero. ring. }
    destruct (Hpct pct eq_refl) as [_ Hpc]. simpl. destruct (coef pct =? 0).
    { exists dzero. split; [done|]. rewrite dval_zero. ring. }
    destruct (percent_money (bk_total_amount b) pct (wt_total b Hb) Hpc) as (q & Hq & Hv).
    by exists q. }
  destruct Hq as (q & Hq & Hv).
  destruct (payment_requirement_spec d b false Hb Hd) as (req & Hr & Hpay).
  exists q, req. split_and!; [done|done| |].
  - intros Hlt. assert (Hreq : pr_required req = true).
    { apply not_false_is_true. intros [?|[[? _]|[[_ Hdp]|[E _]]]]%Hpay; [done|done| |congruence].
      unfold deposit_paid in Hdp. unfold dlt in Hlt. lra. }
    split; [done|]. destruct (deposit_due d b Hb Hd) as (q' & Hq' & Hv').
    unfold PaymentPolicyEvaluator.get_required_payment_for_confirmation,
      _evaluate_payment_requirement in Hr. cbv zeta in Hr. rewrite Hq', Ht in Hr. simpl in Hr.
    destruct (dltb dzero _); [destruct (dltb _ q')|]; simplify_eq/=.
    exists q'. split; [done|]. unfold deq. nra.
  - intros Hle. apply Hpay. right. right. left. split; [done|].
    unfold deposit_paid. unfold dle in Hle. lra.
Qed.

Lemma deposit_agreement_witness :
  exists q, PaymentPolicyEvaluator.calculate_deposit_amount (sample_db 30 false)
    (sample_booking "deposit" BookingModel.PENDING UNPAID 107) = Ok q /\ q ≃ Sample.eur 108.
Proof.
  destruct (deposit_agreement (sample_db 30 false)
              (sample_booking "deposit" BookingModel.PENDING UNPAID 107)
              (sample_typed "deposit" BookingModel.PENDING UNPAID 107 ltac:(done))
              (sample_policies_typed 30 false ltac:(done)) eq_refl)
    as (q & req & Hq & _).
  exists q. split; [exact Hq|]. vm_compute in Hq. injection Hq as <-. reflexivity.
Defined.
