(* ===== verification/Cancellation.v ===== *)
(** The cancellation policy engine: class CancellationPolicy of
    app/accommodation/models/cancellation_policy.py (resolution, system
    defaults, quotes) and the older tiers of
    PropertyBookingPolicy.get_cancellation_refund in booking_policy.py. *)

From Stdlib Require Import QArith Lqa.
From S2P Require Import Prelude Decimal DecimalLaws BookingModel.

Local Open Scope Z_scope.

Inductive CancellationPhase : Type :=
  | PHASE_NONE          (* "none": no quote at this stage *)
  | PRE_CHECKIN | MID_STAY | NO_SHOW_PHASE.

#[export] Instance phase_eq : EqDecision CancellationPhase.
Proof. solve_decision. Defined.

(** The message of a quote, with the values it prints. *)
Inductive quote_message : Type :=
  | MsgText (s : string)
  | MsgNoRefund (policy : string)
  | MsgFullRefund (refund : dec) (policy : string)
  | MsgNoShow (fine : dec)
  | MsgPartial (refund : dec) (policy : string) (fine : dec)
  | MsgMidStay (policy : string) (refund base fine : dec)
  | MsgDebt (m : quote_message).    (* " (debt created for penalty)" *)

(** The quote dictionary. *)
Record quote : Type := {
  q_allowed : bool;
  q_message : quote_message;
  q_phase : CancellationPhase;
  q_policy : option string;
  q_refundable_base : dec;
  q_refund : dec;
  q_fine : dec;
  q_nights_remaining : Z;
  q_days_until_checkin : Z;
}.

Module PropertyBookingPolicyModel.

Definition half : dec := {| coef := 5; dexp := -1 |}.
Definition quarter : dec := {| coef := 25; dexp := -2 |}.

Definition get_cancellation_refund (p : PropertyBookingPolicy) (days_until_checkin : Z)
    (total_amount : dec) : dec :=
  let policy := default ""%string (bp_cancellation_policy p) in
  if String.eqb policy "flexible" then
    if 1 <=? days_until_checkin then total_amount else dzero
  else if String.eqb policy "moderate" then
    if 5 <=? days_until_checkin then total_amount
    else if 1 <=? days_until_checkin then dmul total_amount half
    else dzero
  else if String.eqb policy "strict" then
    if 7 <=? days_until_checkin then dmul total_amount half else dzero
  else if String.eqb policy "super_strict" then
    if 30 <=? days_until_checkin then dmul total_amount half
    else if 14 <=? days_until_checkin then dmul total_amount quarter
    else dzero
  else dzero.

(** [days_until_checkin >= self.free_cancel_hours / 24] *)
Definition can_cancel_free (p : PropertyBookingPolicy) (days_until_checkin : Z) : bool :=
  bp_free_cancel_hours p <=? days_until_checkin * 24.

End PropertyBookingPolicyModel.

Module CancellationPolicyModel.

(** [cls.query.filter_by(property_id=.., .., is_active=True).first()] *)
Definition first_policy (d : db) (property_id : option Z) (cond : CancellationPolicy -> bool)
    : option CancellationPolicy :=
  List.find (fun p => bool_decide (cp_property_id p = property_id) && cond p && cp_is_active p)
    (db_cancellation_policies d).

Definition named (name : option string) (p : CancellationPolicy) : bool :=
  bool_decide (Some (cp_name p) = name).

Definition get_effective_policy (d : db) (property_id : Z) (policy_name : option string)
    : option CancellationPolicy :=
  let override := if truthy policy_name
                  then first_policy d (Some property_id) (named policy_name) else None in
  match override with
  | Some policy => Some policy
  | None =>
      match first_policy d (Some property_id) cp_is_default with
      | Some policy => Some policy
      | None =>
          let system := if truthy policy_name
                        then first_policy d None (named policy_name) else None in
          match system with
          | Some policy => Some policy
          | None => first_policy d None cp_is_default
          end
      end
  end.

Definition system_default (name : string) (days refund mid penalty : Z) : CancellationPolicy := {|
  cp_name := name; cp_property_id := None; cp_pre_checkin_days := days;
  cp_pre_checkin_refund_pct := cents refund; cp_mid_stay_refund_pct := cents mid;
  cp_no_show_penalty := cents penalty; cp_is_active := true; cp_is_default := true;
|}.

Definition create_system_defaults : list CancellationPolicy :=
  [system_default FLEXIBLE 1 10000 10000 0;
   system_default MODERATE 5 10000 10000 0;
   system_default STRICT 7 5000 5000 0;
   system_default SUPER_STRICT 30 5000 2500 0;
   system_default NOSHOW_POLICY 0 0 0 100].

Definition hundred : dec := cents 10000.

(** The phase of a cancellation. *)
Definition phase_of (is_checked_in : bool) (check_in check_out cancellation_date : date)
    : CancellationPhase :=
  if is_checked_in || ((check_in <=? cancellation_date) && (cancellation_date <? check_out))
  then MID_STAY
  else if check_in <=? cancellation_date then NO_SHOW_PHASE
  else PRE_CHECKIN.

(** The graduated percentage before check-in. *)
Definition pre_checkin_pct (p : CancellationPolicy) (days_until : Z) : dec :=
  if String.eqb (cp_name p) MODERATE then
    if 5 <=? days_until then cents 10000
    else if 1 <=? days_until then cents 5000 else cents 0
  else if String.eqb (cp_name p) STRICT then
    if 7 <=? days_until then cents 5000 else cents 0
  else if String.eqb (cp_name p) SUPER_STRICT then
    if 30 <=? days_until then cents 5000
    else if 14 <=? days_until then cents 2500 else cents 0
  else if String.eqb (cp_name p) NOSHOW_POLICY then cents 0
  else if String.eqb (cp_name p) FLEXIBLE then
    if 1 <=? days_until then cents 10000 else cents 0
  else cp_pre_checkin_refund_pct p.

Definition pre_checkin_refund (p : CancellationPolicy) (base : dec) (days_until : Z)
    : result dec_error dec :=
  let* pct := ddiv (pre_checkin_pct p days_until) hundred in
  q2 (dmul base pct).

Definition mid_stay_refund (p : CancellationPolicy) (base : dec)
    (check_in check_out : date) (nights_remaining : Z) : result dec_error dec :=
  let total_nights := check_out - check_in in
  if (0 <? total_nights) && (0 <? nights_remaining) then
    let* unused_ratio := ddiv (dint nights_remaining) (dint total_nights) in
    let* refund_pct := ddiv (cp_mid_stay_refund_pct p) hundred in
    q2 (dmul (dmul base unused_ratio) refund_pct)
  else Ok (cents 0).

Definition no_show_fine (p : CancellationPolicy) (total base : dec) (check_in check_out : date)
    : result dec_error dec :=
  if dleb (dint 1) (cp_no_show_penalty p) then
    if deqb (cp_no_show_penalty p) (dint 1) then
      let* nightly_rate := (if 0 <? check_out - check_in
                            then ddiv total (dint (check_out - check_in)) else Ok total) in
      q2 nightly_rate
    else q2 (cp_no_show_penalty p)
  else
    let* pct := ddiv (cp_no_show_penalty p) hundred in
    q2 (dmul base pct).

Definition quote_message_of (name : string) (phase : CancellationPhase)
    (payment_timing : string) (base refund fine : dec) : quote_message :=
  let message :=
    if dleb refund dzero && dleb fine dzero then MsgNoRefund name
    else if dleb base refund then MsgFullRefund refund name
    else if decide (phase = NO_SHOW_PHASE) then MsgNoShow fine
    else MsgPartial refund name fine in
  if String.eqb payment_timing "pay_on_arrival" && dltb dzero fine
  then MsgDebt message else message.

Definition refundable_base_of (payment_timing : string) (total paid : dec) : dec :=
  if String.eqb payment_timing "pay_now" then paid
  else if String.eqb payment_timing "deposit" then paid
  else if String.eqb payment_timing "pay_on_arrival" then total
  else total.

Definition calculate_quote (p : CancellationPolicy) (total_amount amount_paid : dec)
    (payment_timing : string) (check_in check_out cancellation_date : date)
    (is_checked_in : bool) (nights_remaining : option Z) : result dec_error quote :=
  let* total := q2 total_amount in
  let* paid := q2 amount_paid in
  let phase := phase_of is_checked_in check_in check_out cancellation_date in
  let nights_remaining := default (check_out - cancellation_date) nights_remaining in
  let days_until := Z.max (check_in - cancellation_date) 0 in
  let refundable_base := refundable_base_of payment_timing total paid in
  let* base := q2 refundable_base in
  let* amounts :=
    match phase with
    | NO_SHOW_PHASE =>
        let* fine := no_show_fine p total refundable_base check_in check_out in
        let* fine := q2 fine in
        let* refund := q2 (cents 0) in
        Ok (refund, fine)
    | _ =>
        let* refund := (if decide (phase = MID_STAY)
                        then mid_stay_refund p refundable_base check_in check_out nights_remaining
                        else pre_checkin_refund p refundable_base days_until) in
        let* refund' := q2 refund in
        let* fine := q2 (dsub refundable_base refund) in
        Ok (refund', fine)
    end in
  Ok {|
    q_allowed := true;
    q_message := quote_message_of (cp_name p) phase payment_timing base amounts.1 amounts.2;
    q_phase := phase;
    q_policy := Some (cp_name p);
    q_refundable_base := base;
    q_refund := amounts.1;
    q_fine := amounts.2;
    q_nights_remaining := if decide (phase = MID_STAY) then Z.max nights_remaining 0 else 0;
    q_days_until_checkin := if decide (phase = PRE_CHECKIN) then days_until else 0;
  |}.

End CancellationPolicyModel.

(** * Lemmas *)

Import CancellationPolicyModel.

(** The columns of a policy row hold values its CHECK constraints admit. *)
Record well_typed_policy (p : CancellationPolicy) : Prop := {
  wp_pre : percentage (cp_pre_checkin_refund_pct p);
  wp_mid : percentage (cp_mid_stay_refund_pct p);
  wp_penalty : money (cp_no_show_penalty p);
}.

Lemma pct_ratio p : percentage p ->
  exists r, ddiv p hundred = Ok r /\ dle dzero r /\ dle r (dint 1).
Proof.
  intros [Ep [H0 H1]]. destruct (ddiv_Ok p hundred ltac:(done)) as [r Hr].
  exists r. split_and!; [done|by eapply (ddiv_nonneg p hundred)|].
  eapply (ddiv_le p hundred); [done|done|done|exact Hr|].
  change (dval (dint 1)) with 1%Q. rewrite Qmult_1_l.
  apply (dle_coef p hundred); done.
Qed.

Lemma pre_checkin_pct_ok p days : well_typed_policy p -> percentage (pre_checkin_pct p days).
Proof.
  intros Hp. unfold pre_checkin_pct.
  repeat case_match; try apply (wp_pre p Hp); split; simpl; lia.
Qed.

(** The refund before check-in is an amount between zero and its base. *)
Lemma pre_checkin_refund_bounds p base days : well_typed_policy p -> money base ->
  exists r, pre_checkin_refund p base days = Ok r /\ money r /\ dle dzero r /\ dle r base.
Proof.
  intros Hp Hb. unfold pre_checkin_refund.
  destruct (pct_ratio _ (pre_checkin_pct_ok p days Hp)) as (pct & -> & H0 & H1). simpl.
  apply q2_between; [done| |].
  - apply dmul_nonneg; [by apply money_nonneg|done].
  - apply dmul_le_one; [by apply money_repr|by apply money_nonneg|done].
Qed.

Lemma nights_ratio n total : 0 < n <= total ->
  exists r, ddiv (dint n) (dint total) = Ok r /\ dle dzero r /\ dle r (dint 1).
Proof.
  intros Hn. destruct (ddiv_Ok (dint n) (dint total)) as [r Hr]; [simpl; lia|].
  exists r. split_and!; [done|eapply (ddiv_nonneg (dint n) (dint total)); simpl; [lia|lia|done]|].
  eapply (ddiv_le (dint n) (dint total)); [simpl; lia|simpl; lia|done|exact Hr|].
  change (dval (dint 1)) with 1%Q. rewrite Qmult_1_l.
  apply (dle_coef (dint n) (dint total)); [done|simpl; lia].
Qed.

Lemma mid_stay_refund_bounds p base ci co nights : well_typed_policy p -> money base ->
  nights <= co - ci ->
  exists r, mid_stay_refund p base ci co nights = Ok r /\ money r /\ dle dzero r /\ dle r base.
Proof.
  intros Hp Hb Hn. pose proof (money_nonneg base Hb) as Hb0. unfold mid_stay_refund.
  destruct (Z.ltb_spec 0 (co - ci)); [destruct (Z.ltb_spec 0 nights)|]; simpl.
  2-3: exists (cents 0); split_and!; [done|by apply money_zero|done|by rewrite (zero_at (-2))].
  destruct (nights_ratio nights (co - ci) ltac:(lia)) as (u & -> & Hu0 & Hu1). simpl.
  destruct (pct_ratio _ (wp_mid p Hp)) as (pct & -> & Hm0 & Hm1). simpl.
  apply q2_between; [done| |].
  - by apply dmul_nonneg; [apply dmul_nonneg|].
  - transitivity (dmul base u).
    + apply dmul_le_one; [apply repr_fix|by apply dmul_nonneg|done].
    + apply dmul_le_one; [by apply money_repr|done|done].
Qed.

Lemma refundable_base_money timing total paid : money total -> money paid ->
  money (refundable_base_of timing total paid).
Proof. intros. unfold refundable_base_of. repeat case_match; done. Qed.

(** Outside the no-show phase a quote splits its base into refund and fine. *)
Section quote_split.
Context (p : CancellationPolicy) (total paid : dec) (timing : string).
Context (ci co day : date) (checked_in : bool) (nights : option Z).
Context (Hp : well_typed_policy p) (Ht : money total) (Hpaid : money paid).

Let base := refundable_base_of timing total paid.

Lemma calculate_quote_split r :
  phase_of checked_in ci co day <> NO_SHOW_PHASE ->
  (if decide (phase_of checked_in ci co day = MID_STAY)
   then mid_stay_refund p base ci co (default (co - day) nights)
   else pre_checkin_refund p base (Z.max (ci - day) 0)) = Ok r ->
  money r -> dle r base ->
  exists q, calculate_quote p total paid timing ci co day checked_in nights = Ok q /\
    q_phase q = phase_of checked_in ci co day /\ q_refundable_base q = base /\ q_refund q = r /\
    money (q_fine q) /\ (dval (q_refund q) + dval (q_fine q) == dval base)%Q.
Proof using Ht Hpaid.
  intros Hph Hr Hmr Hle. unfold calculate_quote.
  rewrite (q2_money total Ht), (q2_money paid Hpaid). simpl. fold base.
  assert (Hb : money base) by (by apply refundable_base_money).
  rewrite (q2_money base Hb). simpl. rewrite Hr.
  destruct (q2_sub base r Hb Hmr Hle) as (f & Hf & Hmf & Hsum).
  destruct (phase_of checked_in ci co day); try done;
    simpl; rewrite (q2_money r Hmr); simpl; rewrite Hf; simpl;
    eexists; (split; [reflexivity|]); simpl; done.
Qed.
End quote_split.

Lemma no_show_fine_ok p total base ci co : well_typed_policy p -> money total -> money base ->
  exists f, no_show_fine p total base ci co = Ok f /\ money f.
Proof.
  intros Hp Ht Hb. unfold no_show_fine.
  destruct (dleb (dint 1) (cp_no_show_penalty p)) eqn:H1.
  - destruct (deqb _ _).
    + destruct (Z.ltb_spec 0 (co - ci)); simpl.
      2: { exists total. by rewrite q2_money. }
      destruct (ddiv_Ok total (dint (co - ci))) as [r Hr]; [simpl; lia|]. rewrite Hr. simpl.
      destruct (q2_between total r) as (f & Hf & Hm & _); [done| | |by eauto].
      * eapply (ddiv_nonneg total (dint (co - ci))); [apply Ht|simpl; lia|done].
      * eapply (ddiv_le total (dint (co - ci)));
          [apply Ht|simpl; lia|by apply money_repr|exact Hr|].
        pose proof (money_nonneg total Ht) as H0. rewrite dle_zero in H0.
        assert (Hn : (1 <= dval (dint (co - ci)))%Q).
        { unfold dval. simpl. change (Qpower 10 0) with 1%Q. rewrite Qmult_1_r.
          change 1%Q with (inject_Z 1). rewrite <- Zle_Qle. lia. }
        nra.
    + exists (cp_no_show_penalty p). pose proof (wp_penalty p Hp). by rewrite q2_money.
  - rewrite dleb_false in H1. destruct (wp_penalty p Hp) as [He [H0 _]].
    assert (Hpct : percentage (cp_no_show_penalty p)).
    { split; [done|]. apply dlt_le in H1.
      assert (Hle : dle (cp_no_show_penalty p) (cents 100)).
      { assert (E : dint 1 ≃ cents 100) by done. by rewrite <- E. }
      rewrite dle_coef in Hle by done. simpl in Hle. lia. }
    destruct (pct_ratio _ Hpct) as (r & -> & Hr0 & Hr1). simpl.
    destruct (q2_between base (dmul base r)) as (f & Hf & Hm & _); [done| | |by eauto].
    + apply dmul_nonneg; [by apply money_nonneg|done].
    + apply dmul_le_one; [by apply money_repr|by apply money_nonneg|done].
Qed.

(** Quotes only depend on the amounts rounded to cents. *)
Lemma calculate_quote_q2 p t w tm ci co day ck n t' w' :
  q2 t = Ok t' -> q2 w = Ok w' -> money t' -> money w' ->
  calculate_quote p t w tm ci co day ck n = calculate_quote p t' w' tm ci co day ck n.
Proof. intros Ht Hw Hmt Hmw. unfold calculate_quote. by rewrite Ht, Hw, !q2_money. Qed.

(** A one-night stay quoted with two nights remaining. *)
Lemma one_night_double p t w tm ci :
  cp_mid_stay_refund_pct p = cents 10000 -> money t -> money w ->
  refundable_base_of tm t w = w ->
  exists q, calculate_quote p t w tm ci (ci + 1) (ci - 1) true (Some 2) = Ok q /\
    q_refund q = cents (coef w * 2) /\ q_fine q = cents (- coef w).
Proof.
  intros Hpct Ht Hw Hbase. rewrite (money_cents w Hw) in *. destruct Hw as [_ [Hc0 Hc1]].
  set (c := coef w) in *. simpl in Hc0, Hc1.
  change (pow10 10) with 10000000000 in Hc1.
  assert (Hm : money (cents c)) by (split; [done|simpl; change (pow10 10) with 10000000000; lia]).
  assert (Hrefund : mid_stay_refund p (cents c) ci (ci + 1) 2 = Ok (cents (c * 2))).
  { unfold mid_stay_refund. replace (ci + 1 - ci) with 1 by lia. rewrite Hpct.
    change (ddiv (dint 2) (dint 1)) with (@Ok dec_error dec (dint 2)).
    change (ddiv (cents 10000) hundred) with (@Ok dec_error dec (dint 1)).
    cbn [rbind Z.ltb Z.compare andb].
    rewrite dmul_cents, dmul_cents by (change (pow10 20) with 100000000000000000000; lia).
    rewrite Z.mul_1_r. apply q2_cents. change (pow10 20) with 100000000000000000000. lia. }
  unfold calculate_quote. rewrite (q2_money t Ht), (q2_money _ Hm). cbn [rbind]. cbv zeta.
  rewrite Hbase, (q2_money _ Hm). cbn [rbind phase_of orb from_option id]. rewrite decide_True by done.
  rewrite Hrefund. cbn [rbind].
  rewrite dsub_cents, !q2_cents by (change (pow10 20) with 100000000000000000000; lia).
  cbn [rbind]. eexists. split; [reflexivity|]. split; [done|]. simpl. f_equal. lia.
Qed.

(** * Properties *)

(** C25: before check-in and during the stay, with no more nights remaining
    than the stay has, a quote is always produced; its refund lies between
    zero and the refundable base, and refund and fine add up to that base to
    the cent. *)
Theorem calculate_quote_bounds p total paid timing ci co day checked_in nights :
  well_typed_policy p -> money total -> money paid ->
  phase_of checked_in ci co day <> NO_SHOW_PHASE ->
  default (co - day) nights <= co - ci ->
  exists q, calculate_quote p total paid timing ci co day checked_in nights = Ok q /\
    q_refundable_base q = refundable_base_of timing total paid /\
    dle dzero (q_refund q) /\ dle (q_refund q) (q_refundable_base q) /\ dle dzero (q_fine q) /\
    (dval (q_refund q) + dval (q_fine q) == dval (q_refundable_base q))%Q.
Proof.
  intros Hp Ht Hpaid Hph Hn. set (base := refundable_base_of timing total paid).
  assert (Hb : money base) by (by apply refundable_base_money).
  assert (Hr : exists r, (if decide (phase_of checked_in ci co day = MID_STAY)
     then mid_stay_refund p base ci co (default (co - day) nights)
     else pre_checkin_refund p base (Z.max (ci - day) 0)) = Ok r /\
     money r /\ dle dzero r /\ dle r base).
  { destruct (decide _); [by apply mid_stay_refund_bounds|by apply pre_checkin_refund_bounds]. }
  destruct Hr as (r & Hr & Hmr & H0 & H1).
  destruct (calculate_quote_split p total paid timing ci co day checked_in nights Ht Hpaid r
              Hph Hr Hmr H1) as (q & Hq & _ & Hbase & Href & Hmf & Hsum).
  exists q. rewrite Hbase, Href in *. split_and!; try done. by apply money_nonneg.
Qed.

(** The general bound, for every phase. *)
Lemma calculate_quote_total p total paid timing ci co day checked_in nights :
  well_typed_policy p -> money total -> money paid ->
  (phase_of checked_in ci co day = MID_STAY -> default (co - day) nights <= co - ci) ->
  exists q, calculate_quote p total paid timing ci co day checked_in nights = Ok q /\
    q_phase q = phase_of checked_in ci co day /\
    dle dzero (q_refund q) /\ dle (q_refund q) (refundable_base_of timing total paid).
Proof.
  intros Hp Ht Hpaid Hn. set (base := refundable_base_of timing total paid).
  assert (Hb : money base) by (by apply refundable_base_money).
  destruct (decide (phase_of checked_in ci co day = NO_SHOW_PHASE)) as [Hns|Hns].
  - unfold calculate_quote. rewrite (q2_money total Ht), (q2_money paid Hpaid). simpl. fold base.
    rewrite (q2_money base Hb). simpl. rewrite Hns.
    destruct (no_show_fine_ok p total base ci co Hp Ht Hb) as (f & -> & Hf). simpl.
    rewrite (q2_money f Hf). simpl. eexists. split; [reflexivity|]. simpl.
    rewrite (zero_at (-2)). split_and!; [done|done|by apply money_nonneg].
  - assert (Hr : exists r, (if decide (phase_of checked_in ci co day = MID_STAY)
     then mid_stay_refund p base ci co (default (co - day) nights)
     else pre_checkin_refund p base (Z.max (ci - day) 0)) = Ok r /\
     money r /\ dle dzero r /\ dle r base).
    { destruct (decide _); [by apply mid_stay_refund_bounds; auto|by apply pre_checkin_refund_bounds]. }
    destruct Hr as (r & Hr & Hmr & H0 & H1).
    destruct (calculate_quote_split p total paid timing ci co day checked_in nights Ht Hpaid r
                Hns Hr Hmr H1) as (q & Hq & Hph & _ & Href & _).
    exists q. by rewrite Href.
Qed.

Lemma system_default_typed n days r m pen :
  0 <= r <= 10000 -> 0 <= m <= 10000 -> 0 <= pen < pow10 10 ->
  well_typed_policy (system_default n days r m pen).
Proof. intros ???. by split; (split; [done|]). Qed.

Lemma sample_money n : 0 <= n < 100000000 -> money (Sample.eur n).
Proof.
  intros. split; [done|]. simpl. change (pow10 10) with 10000000000. lia.
Qed.

Lemma calculate_quote_bounds_witness :
  exists q, calculate_quote (system_default MODERATE 5 10000 10000 0) (Sample.eur 361)
      (Sample.eur 361) "pay_now" 110 113 107 false None = Ok q /\
    dle (q_refund q) (q_refundable_base q).
Proof.
  destruct (calculate_quote_bounds (system_default MODERATE 5 10000 10000 0) (Sample.eur 361)
      (Sample.eur 361) "pay_now" 110 113 107 false (Some 3)
      (system_default_typed MODERATE 5 10000 10000 0 ltac:(done) ltac:(done) ltac:(done))
      (sample_money 361 ltac:(lia)) (sample_money 361 ltac:(lia)) ltac:(done) ltac:(simpl; lia))
    as (q & Hq & _ & _ & Hle & _).
  exists q. split; [rewrite <- Hq; reflexivity|exact Hle].
Defined.

Lemma first_policy_Some d pid cond p : first_policy d pid cond = Some p ->
  p ∈ db_cancellation_policies d /\ cp_property_id p = pid /\ cond p = true /\ cp_is_active p = true.
Proof.
  intros [Hin Hc]%List.find_some. apply andb_true_iff in Hc as [[Hp Hc]%andb_true_iff Ha].
  apply bool_decide_eq_true in Hp. split_and!; try done. by apply list_elem_of_In.
Qed.

Lemma first_policy_None d pid cond : first_policy d pid cond = None ->
  forall p, p ∈ db_cancellation_policies d -> cp_property_id p = pid -> cp_is_active p = true ->
  cond p = false.
Proof.
  intros Hn p Hin%list_elem_of_In Hp Ha. pose proof (List.find_none _ _ Hn p Hin) as Hf. simpl in Hf.
  rewrite Ha, andb_true_r in Hf. by rewrite bool_decide_eq_true_2 in Hf.
Qed.

(** Policy resolution keeps its documented order. The policy found is an
    active row of the property or a system row; a system row is found only
    when the property has no active override of the requested name and no
    active default of its own; a row that does not carry the requested name is
    found only when no row of its level does; and some policy is found as soon
    as an active system default is installed. *)
Theorem get_effective_policy_spec d pid name :
  (forall p, get_effective_policy d pid name = Some p ->
     p ∈ db_cancellation_policies d /\ cp_is_active p = true /\
     (cp_property_id p = Some pid \/ cp_property_id p = None) /\
     (cp_property_id p = None -> forall p', p' ∈ db_cancellation_policies d ->
        cp_property_id p' = Some pid -> cp_is_active p' = true ->
        cp_is_default p' = false /\ (truthy name = true -> Some (cp_name p') <> name)) /\
     (truthy name = true -> Some (cp_name p) <> name ->
        cp_is_default p = true /\
        forall p', p' ∈ db_cancellation_policies d -> cp_is_active p' = true ->
          cp_property_id p' = cp_property_id p -> Some (cp_name p') <> name)) /\
  (forall p, p ∈ db_cancellation_policies d -> cp_property_id p = None ->
     cp_is_active p = true -> cp_is_default p = true -> get_effective_policy d pid name <> None).
Proof.
  unfold get_effective_policy.
  assert (Hn : forall lvl, (if truthy name then first_policy d lvl (named name) else None) = None ->
    truthy name = true -> forall p', p' ∈ db_cancellation_policies d ->
    cp_property_id p' = lvl -> cp_is_active p' = true -> Some (cp_name p') <> name).
  { intros lvl E Ht p' H1 H2 H3. rewrite Ht in E.
    pose proof (first_policy_None _ _ _ E p' H1 H2 H3) as Hf.
    by apply bool_decide_eq_false in Hf. }
  assert (Hs : forall lvl p, (if truthy name then first_policy d lvl (named name) else None) = Some p ->
    p ∈ db_cancellation_policies d /\ cp_property_id p = lvl /\ Some (cp_name p) = name /\
    cp_is_active p = true).
  { intros lvl p. destruct (truthy name); [|done].
    intros (? & ? & Hname & ?)%first_policy_Some. by apply bool_decide_eq_true in Hname. }
  split.
  - intros p Hp.
    destruct (if truthy name then first_policy d (Some pid) (named name) else None) as [p1|] eqn:E1.
    { simplify_eq. destruct (Hs _ _ E1) as (? & Hpid & ? & ?). rewrite Hpid. naive_solver. }
    destruct (first_policy d (Some pid) cp_is_default) as [p2|] eqn:E2.
    { simplify_eq. apply first_policy_Some in E2 as (? & Hpid & ? & ?). rewrite Hpid. naive_solver. }
    destruct (if truthy name then first_policy d None (named name) else None) as [p3|] eqn:E3.
    { simplify_eq. destruct (Hs _ _ E3) as (? & Hpid & ? & ?). rewrite Hpid. split_and!; try done.
      - by right.
      - intros _ p' ? ? ?. split; [by eapply first_policy_None|]. eauto. }
    apply first_policy_Some in Hp as (? & Hpid & ? & ?). rewrite Hpid. split_and!; try done.
    + by right.
    + intros _ p' ? ? ?. split; [by eapply first_policy_None|]. eauto.
    + eauto.
  - intros p Hin Hpid Ha Hd Hnone.
    destruct (if truthy name then first_policy d (Some pid) (named name) else None); [done|].
    destruct (first_policy d (Some pid) cp_is_default); [done|].
    destruct (if truthy name then first_policy d None (named name) else None); [done|].
    pose proof (first_policy_None _ _ _ Hnone p Hin Hpid Ha). congruence.
Qed.

(** The ratio of a tier: more days before check-in, no smaller ratio. *)
Lemma tier_ratio_mono p days days' : days <= days' ->
  exists r r', ddiv (pre_checkin_pct p days) hundred = ddiv r hundred /\
    ddiv (pre_checkin_pct p days') hundred = ddiv r' hundred /\
    (r = r' \/ r ∈ [cents 0; cents 2500; cents 5000; cents 10000] /\
       r' ∈ [cents 0; cents 2500; cents 5000; cents 10000] /\ coef r <= coef r').
Proof.
  intros Hle. exists (pre_checkin_pct p days), (pre_checkin_pct p days').
  split_and!; [done|done|]. unfold pre_checkin_pct.
  repeat match goal with |- context [String.eqb ?x ?y] => destruct (String.eqb x y) end;
    try (by left);
    repeat match goal with |- context [?x <=? ?y] => destruct (Z.leb_spec x y) end;
    try lia; try (by left); right; split_and!; first [by simpl; lia|set_solver].
Qed.

(** The tiers' percentages and their ratios. *)
Definition ratios : list (dec * dec) :=
  [(cents 0, dint 0); (cents 2500, PropertyBookingPolicyModel.quarter);
   (cents 5000, PropertyBookingPolicyModel.half); (cents 10000, dint 1)].

Lemma ratio_table x : x ∈ [cents 0; cents 2500; cents 5000; cents 10000] ->
  exists y, ddiv x hundred = Ok y /\ (x, y) ∈ ratios.
Proof.
  intros Hx. repeat (apply elem_of_cons in Hx as [->|Hx];
    [eexists; split; [vm_compute; reflexivity|]; set_solver|]).
  by apply not_elem_of_nil in Hx.
Qed.

Lemma ratio_mono p p' : p ∈ ratios -> p' ∈ ratios -> coef p.1 <= coef p'.1 ->
  Z.abs (coef p.2) <= 10000 /\ Z.abs (coef p'.2) <= 10000 /\ dle p.2 p'.2.
Proof.
  assert (Hall : forallb (fun p => forallb (fun p' => implb (coef p.1 <=? coef p'.1)
    ((Z.abs (coef p.2) <=? 10000) && (Z.abs (coef p'.2) <=? 10000) && dleb p.2 p'.2))
    ratios) ratios = true) by reflexivity.
  intros Hp%list_elem_of_In Hp'%list_elem_of_In Hc%Z.leb_le.
  rewrite forallb_forall in Hall. specialize (Hall p Hp).
  rewrite forallb_forall in Hall. specialize (Hall p' Hp').
  rewrite Hc in Hall. simpl in Hall. apply andb_true_iff in Hall as [[H1 H2]%andb_true_iff H3].
  split_and!; [by apply Z.leb_le|by apply Z.leb_le|by apply dleb_spec].
Qed.

Lemma pre_checkin_refund_mono p base days days' r r' :
  money base -> days <= days' ->
  pre_checkin_refund p base days = Ok r -> pre_checkin_refund p base days' = Ok r' -> dle r r'.
Proof.
  intros Hb Hle. unfold pre_checkin_refund.
  destruct (tier_ratio_mono p days days' Hle) as (x & x' & -> & -> & Hx).
  destruct (ddiv x hundred) as [y|] eqn:Hy; [simpl|done].
  destruct (ddiv x' hundred) as [y'|] eqn:Hy'; [simpl|done].
  intros Hr Hr'. eapply quantize_mono; [exact Hr|exact Hr'|].
  rewrite !dec_or0_val. destruct Hx as [->|(Hin & Hin' & Hc)].
  { rewrite Hy in Hy'. simplify_eq. reflexivity. }
  assert (Hshort : Z.abs (coef y) <= 10000 /\ Z.abs (coef y') <= 10000 /\ dle y y').
  { apply ratio_table in Hin as (z & Hz & Hxz), Hin' as (z' & Hz' & Hxz').
    rewrite Hz in Hy. rewrite Hz' in Hy'. injection Hy as <-. injection Hy' as <-.
    exact (ratio_mono (x, z) (x', z') Hxz Hxz' Hc). }
  destruct Hshort as (? & ? & ?). by apply dmul_mono_ratio.
Qed.

(** Cancelling earlier never refunds less: of two cancellations before
    check-in under the same policy and amounts, the earlier one is quoted a
    refund at least as large. *)
Theorem earlier_refunds_more p total paid timing ci co day day' nights nights' q q' :
  well_typed_policy p -> money total -> money paid ->
  day <= day' -> day' < ci ->
  calculate_quote p total paid timing ci co day false nights = Ok q ->
  calculate_quote p total paid timing ci co day' false nights' = Ok q' ->
  dle (q_refund q') (q_refund q).
Proof.
  intros Hp Ht Hpaid Hle Hci Hq Hq'.
  set (base := refundable_base_of timing total paid).
  assert (Hb : money base) by (by apply refundable_base_money).
  assert (Hph : forall x, x < ci -> phase_of false ci co x = PRE_CHECKIN).
  { intros x Hx. unfold phase_of. destruct (Z.leb_spec ci x); [lia|done]. }
  assert (Hsplit : forall x n r, x < ci -> calculate_quote p total paid timing ci co x false n = Ok r ->
    pre_checkin_refund p base (Z.max (ci - x) 0) = Ok (q_refund r)).
  { intros x n r Hx Hr.
    destruct (pre_checkin_refund_bounds p base (Z.max (ci - x) 0) Hp Hb) as (f & Hf & Hm & _ & Hfb).
    destruct (calculate_quote_split p total paid timing ci co x false n Ht Hpaid f)
      as (q0 & Hq0 & _ & _ & Href & _); rewrite ?(Hph x Hx); try done.
    congruence. }
  eapply (pre_checkin_refund_mono p base (Z.max (ci - day') 0) (Z.max (ci - day) 0));
    [done|lia|by eapply Hsplit|]. apply (Hsplit day nights q); [lia|done].
Qed.

Lemma earlier_refunds_more_witness :
  match calculate_quote (system_default MODERATE 5 10000 10000 0) (Sample.eur 361)
          (Sample.eur 361) "pay_now" 110 113 100 false None,
        calculate_quote (system_default MODERATE 5 10000 10000 0) (Sample.eur 361)
          (Sample.eur 361) "pay_now" 110 113 108 false None with
  | Ok q, Ok q' => dle (q_refund q') (q_refund q)
  | _, _ => False
  end.
Proof.
  pose proof (system_default_typed MODERATE 5 10000 10000 0 ltac:(done) ltac:(done) ltac:(done)) as Hp.
  pose proof (sample_money 361 ltac:(done)) as Hm.
  assert (100 <= 108) as Hle by done. assert (108 < 110) as Hlt by done.
  destruct (calculate_quote _ _ _ _ _ _ 100 _ _) as [q|] eqn:Hq; [|vm_compute in Hq; discriminate Hq].
  destruct (calculate_quote _ _ _ _ _ _ 108 _ _) as [q'|] eqn:Hq'; [|vm_compute in Hq'; discriminate Hq'].
  exact (earlier_refunds_more (system_default MODERATE 5 10000 10000 0) (Sample.eur 361)
    (Sample.eur 361) "pay_now" 110 113 100 108 None None q q' Hp Hm Hm Hle Hlt Hq Hq').
Defined.
