(* ===== verification/Booking.v ===== *)
(** The methods of class AccommodationBooking
    (app/accommodation/models/booking.py): computed check-in properties,
    totals, and the cancellation and refund engine that ties the policy
    quotes to the booking lifecycle. *)

From Stdlib Require Import QArith Lqa.
From S2P Require Import Prelude Decimal DecimalLaws BookingModel BookingStates BookingPolicy Cancellation.

Local Open Scope Z_scope.

Inductive model_error : Type :=
  | EnumValueError                        (* unknown stored status *)
  | NullOperand                           (* TypeError: arithmetic on NULL *)
  | ModelArithmetic (e : dec_error)
  | ModelTransition (e : booking_error).

Module AccommodationBooking.

Definition all_required_guests_registered (d : db) (b : booking) : bool :=
  match db_registrations d with
  | Some rows =>
      let registrations := List.filter (fun r => gr_booking_id r =? bk_id b) rows in
      match registrations with
      | [] => false
      | _ => forallb (fun r => str_in (gr_status r) ["completed"; "skipped"]%string) registrations
      end
  | None => BookingStateMachine.id_truthy (bk_primary_guest_id b)
            || BookingStateMachine.id_truthy (bk_guest_user_id b) || truthy (bk_guest_email b)
  end.

Definition is_ready_for_checkin (d : db) (b : booking) : result model_error bool :=
  match BookingStateMachine.property_today b with
  | None => Ok false
  | Some property_today =>
      if negb (String.eqb (bk_status b) (enum_value CONFIRMED)) then Ok false
      else
        let* payment := of_option EnumValueError (payment_status_of b) in
        if bool_decide (payment ∉ [APS_PAID; APS_PARTIALLY_PAID])
           || (property_today <? bk_check_in b)
           || negb (all_required_guests_registered d b)
        then Ok false
        else match find_policy d (bk_property_id b) with
             | Some policy => if truth (bp_require_guest_identity policy)
                              then Ok (all_required_guests_registered d b) else Ok true
             | None => Ok true
             end
  end.

Definition check_in_date_reached (b : booking) : bool :=
  match BookingStateMachine.property_today b with
  | Some today => bk_check_in b <=? today
  | None => false
  end.

Definition registration_deadline_passed (now : Z) (b : booking) : bool :=
  match bk_registration_deadline b with
  | None => false
  | Some deadline => as_utc deadline <? now
  end.

Definition registration_incomplete (d : db) (b : booking) : bool :=
  negb (all_required_guests_registered d b).

Definition registration_needs_attention (now : Z) (d : db) (b : booking) : bool :=
  registration_deadline_passed now b && registration_incomplete d b.

Definition calculate_nights (b : booking) : Z := bk_check_out b - bk_check_in b.

(** [self.num_nights] and [self.total_amount] are both assigned. *)
Definition calculate_totals (b : booking) : result model_error (booking * dec) :=
  let nights := calculate_nights b in
  let* cleaning := of_option NullOperand (bk_cleaning_fee b) in
  let* service := of_option NullOperand (bk_service_fee b) in
  let* taxes := of_option NullOperand (bk_taxes b) in
  let total := dadd (dadd (dadd (dmul (bk_nightly_rate b) (dint nights)) cleaning) service) taxes in
  Ok (set_totals b nights total, total).

Definition mark_paid (now : Z) (b : booking) (transaction_id : option string) : booking :=
  set_paid b (enum_value APS_PAID) (Aware now) transaction_id
    (if truthy (bk_payment_method b) then bk_payment_method b else Some "wallet"%string).

Definition model_args (by_user : option Z) (reason : option string) (trigger : string)
    : BookingStateMachine.transition_args := {|
  BookingStateMachine.ta_changed_by_user_id := by_user;
  BookingStateMachine.ta_reason := reason;
  BookingStateMachine.ta_ip_address := None;
  BookingStateMachine.ta_user_agent := None;
  BookingStateMachine.ta_trigger := Some trigger;
  BookingStateMachine.ta_metadata := ∅;
|}.

Definition confirm (now : Z) (d : db) (b : booking) : result model_error (db * booking) :=
  map_err ModelTransition (BookingStateMachine.transition now d b CONFIRMED
    (model_args (bk_guest_user_id b) (Some "Booking confirmed"%string) "model_confirm")).

Definition CANCELLABLE_STATUSES : list AccommodationBookingStatus :=
  [DRAFT; HELD; PENDING; PENDING_PAYMENT; PENDING_APPROVAL; CONFIRMED; CHECKED_IN].

Definition aliases (name : string) : string :=
  let n := lower name in
  if String.eqb n "flexible" then "FLEX"
  else if String.eqb n "moderate" then "MOD"
  else if String.eqb n "strict" then "STRICT"
  else if String.eqb n "super_strict" then "SUPER"
  else if String.eqb n "no_show" then "NOSHOW"
  else if String.eqb n "no_show_penalty" then "NOSHOW"
  else name.

Definition snapshot_name (b : booking) : option string :=
  snap ← bk_policy_snapshot b; snap_policy_name snap.

Definition _get_effective_cancellation_policy (d : db) (b : booking) : option CancellationPolicy :=
  let by_name :=
    match snapshot_name b with
    | Some name =>
        if String.eqb name "" then
          CancellationPolicyModel.get_effective_policy d (bk_property_id b) None
        else
          CancellationPolicyModel.get_effective_policy d (bk_property_id b) (Some (aliases name))
    | None => CancellationPolicyModel.get_effective_policy d (bk_property_id b) None
    end in
  match bk_policy_snapshot b ≫= snap_rules with
  | Some rules => if sr_version rules =? 2 then sr_policy rules else by_name
  | None => by_name
  end.

Definition no_quote : quote := {|
  q_allowed := false; q_message := MsgText "Cannot cancel at this stage"; q_phase := PHASE_NONE;
  q_policy := None; q_refundable_base := cents 0; q_refund := cents 0; q_fine := cents 0;
  q_nights_remaining := 0; q_days_until_checkin := 0;
|}.

(** Resolve the effective cancellation policy for this booking (legacy). *)
Definition _cancellation_policy_context (d : db) (b : booking)
    : option PropertyBookingPolicy * string :=
  let policy_obj := find_policy d (bk_property_id b) in
  let row_name := policy_obj ≫= bp_cancellation_policy in
  let name := if truthy (snapshot_name b) then snapshot_name b else row_name in
  let name := if truthy name then name else bk_property b ≫= prop_cancellation_policy in
  (policy_obj, str_or name "non_refundable").

Definition _apply_policy_tiers (policy_name : string) (base : dec) (days_remaining : Z) : dec :=
  if dleb base dzero then cents 0
  else if String.eqb policy_name "flexible" then
    if 1 <=? days_remaining then base else cents 0
  else if String.eqb policy_name "moderate" then
    if 5 <=? days_remaining then base
    else if 1 <=? days_remaining then dmul base PropertyBookingPolicyModel.half
    else cents 0
  else if String.eqb policy_name "strict" then
    if 7 <=? days_remaining then dmul base PropertyBookingPolicyModel.half else cents 0
  else if String.eqb policy_name "super_strict" then
    if 30 <=? days_remaining then dmul base PropertyBookingPolicyModel.half
    else if 14 <=? days_remaining then dmul base PropertyBookingPolicyModel.quarter
    else cents 0
  else cents 0.

Definition legacy_mid_stay (policy_name : string) (total : dec) (b : booking) (today : date)
    : result dec_error quote :=
  let nights_remaining := bk_check_out b - today in
  if nights_remaining <=? 0 then
    Ok {| q_allowed := true; q_message := MsgText "No refund — stay already completed";
          q_phase := MID_STAY; q_policy := Some policy_name; q_refundable_base := cents 0;
          q_refund := cents 0; q_fine := cents 0;
          q_nights_remaining := Z.max nights_remaining 0; q_days_until_checkin := 0 |}
  else
    let nights := if bk_num_nights b =? 0 then 1 else bk_num_nights b in
    let* share := ddiv (dmul total (dint nights_remaining)) (dint nights) in
    let base := dmin share total in
    let refund :=
      if str_in policy_name ["flexible"; "moderate"]%string then base
      else if String.eqb policy_name "strict" then dmul base PropertyBookingPolicyModel.half
      else if String.eqb policy_name "super_strict" then dmul base PropertyBookingPolicyModel.quarter
      else cents 0 in
    let* qbase := q2 base in
    let* qrefund := q2 refund in
    let* qfine := q2 (dsub base refund) in
    Ok {| q_allowed := true; q_message := MsgMidStay policy_name qrefund qbase qfine;
          q_phase := MID_STAY; q_policy := Some policy_name; q_refundable_base := qbase;
          q_refund := qrefund; q_fine := qfine;
          q_nights_remaining := Z.max nights_remaining 0; q_days_until_checkin := 0 |}.

Definition legacy_pre_checkin (policy_obj : option PropertyBookingPolicy) (policy_name : string)
    (total : dec) (b : booking) (today : date) : result dec_error quote :=
  let days_until := bk_check_in b - today in
  let refund := match policy_obj with
    | Some p => PropertyBookingPolicyModel.get_cancellation_refund p days_until total
    | None => _apply_policy_tiers policy_name total days_until
    end in
  let* qbase := q2 total in
  let* qrefund := q2 refund in
  let* qfine := q2 (dsub total refund) in
  Ok {| q_allowed := true;
        q_message := if dleb qrefund dzero then MsgNoRefund policy_name
                     else if dleb qbase qrefund then MsgText "Full refund"
                     else MsgPartial qrefund policy_name qfine;
        q_phase := PRE_CHECKIN; q_policy := Some policy_name; q_refundable_base := qbase;
        q_refund := qrefund; q_fine := qfine;
        q_nights_remaining := 0; q_days_until_checkin := days_until |}.

Definition _get_legacy_cancellation_quote (today : date) (d : db) (b : booking)
    : result model_error quote :=
  let* status := of_option EnumValueError (status_enum b) in
  if bool_decide (status ∉ CANCELLABLE_STATUSES) then Ok no_quote
  else
    let '(policy_obj, policy_name) := _cancellation_policy_context d b in
    let total := dec_or0 (Some (bk_total_amount b)) in
    map_err ModelArithmetic
      (if decide (status = CHECKED_IN) then legacy_mid_stay policy_name total b today
       else legacy_pre_checkin policy_obj policy_name total b today).

Definition get_cancellation_quote (today : date) (d : db) (b : booking)
    (cancellation_date : option date) (cancelled_by_user_type : string)
    : result model_error quote :=
  let* status := of_option EnumValueError (status_enum b) in
  if bool_decide (status ∉ CANCELLABLE_STATUSES) then Ok no_quote
  else match _get_effective_cancellation_policy d b with
  | None => _get_legacy_cancellation_quote today d b
  | Some policy =>
      let cancellation_date := default today cancellation_date in
      let is_checked_in := bool_decide (status = CHECKED_IN) in
      let phase := CancellationPolicyModel.phase_of is_checked_in (bk_check_in b) (bk_check_out b)
                     cancellation_date in
      let nights_remaining := if decide (phase = MID_STAY)
                              then Z.max (bk_check_out b - cancellation_date) 0 else 0 in
      let* q := map_err ModelArithmetic
        (CancellationPolicyModel.calculate_quote policy
           (dec_or0 (Some (bk_total_amount b))) (dec_or0 (bk_amount_paid b))
           (BookingPolicyEvaluator.payment_timing b) (bk_check_in b) (bk_check_out b)
           cancellation_date is_checked_in (Some nights_remaining)) in
      Ok {| q_allowed := if str_in cancelled_by_user_type ["host"; "platform"]%string
                         then true else q_allowed q;
            q_message := q_message q; q_phase := q_phase q; q_policy := q_policy q;
            q_refundable_base := q_refundable_base q; q_refund := q_refund q; q_fine := q_fine q;
            q_nights_remaining := q_nights_remaining q;
            q_days_until_checkin := q_days_until_checkin q |}
  end.

Definition can_cancel (today : date) (d : db) (b : booking)
    : result model_error (bool * quote_message * dec) :=
  let* q := get_cancellation_quote today d b None "guest" in
  Ok (q_allowed q, q_message q, q_refund q).

(** Returns the booking and its history with [(done, message, refund)]. *)
Definition cancel (now : Z) (today : date) (d : db) (b : booking) (user_id : option Z)
    (reason : option string)
    : result model_error (db * booking * (bool * quote_message * dec)) :=
  let* verdict := can_cancel today d b in
  let '(can_cancel, msg, refund) := verdict in
  if negb can_cancel then Ok (d, b, (false, msg, dzero))
  else
    let* r := map_err ModelTransition
      (BookingStateMachine.transition now d b CANCELLED (model_args user_id reason "model_cancel")) in
    let b' := set_cancelled r.2 (Aware now) user_id reason in
    let b' := if dltb dzero refund
              then set_refund b' refund (enum_value APS_REFUNDED) (Aware now) else b' in
    Ok (r.1, b', (true, msg, refund)).

End AccommodationBooking.

(** * Lemmas *)

Import CancellationPolicyModel AccommodationBooking.

Lemma calculate_quote_allowed p t pd tm ci co day ck n q :
  calculate_quote p t pd tm ci co day ck n = Ok q -> q_allowed q = true.
Proof.
  unfold calculate_quote. intros H. inv_ok H. by simplify_eq.
Qed.

Lemma legacy_allowed today d b s q : status_enum b = Some s -> s ∈ CANCELLABLE_STATUSES ->
  _get_legacy_cancellation_quote today d b = Ok q -> q_allowed q = true.
Proof.
  unfold _get_legacy_cancellation_quote. intros -> Hin. simpl.
  rewrite bool_decide_eq_false_2 by (by intros ?).
  destruct (_cancellation_policy_context d b) as [po pn].
  unfold legacy_mid_stay, legacy_pre_checkin. rewrite map_err_Ok.
  destruct (decide (s = CHECKED_IN)); [destruct (_ <=? 0); [by intros [= <-]|]|];
    intros H; inv_ok H; by simplify_eq.
Qed.

Lemma quote_allowed today d b s day ut q : status_enum b = Some s -> s ∈ CANCELLABLE_STATUSES ->
  get_cancellation_quote today d b day ut = Ok q -> q_allowed q = true.
Proof.
  intros Hs Hin. unfold get_cancellation_quote. rewrite Hs. simpl.
  rewrite bool_decide_eq_false_2 by (by intros ?).
  destruct (_get_effective_cancellation_policy d b).
  - intros H. inv_ok H. apply calculate_quote_allowed in Hok. simplify_eq/=. by destruct (str_in _ _).
  - by eapply legacy_allowed.
Qed.

(** The quote of a cancellable booking that has a policy is the policy's. *)
Lemma quote_by_policy today d b s p q :
  status_enum b = Some s -> s ∈ CANCELLABLE_STATUSES ->
  _get_effective_cancellation_policy d b = Some p ->
  get_cancellation_quote today d b None "guest" = Ok q ->
  exists q', calculate_quote p (dec_or0 (Some (bk_total_amount b))) (dec_or0 (bk_amount_paid b))
      (BookingPolicyEvaluator.payment_timing b) (bk_check_in b) (bk_check_out b) today
      (bool_decide (s = CHECKED_IN))
      (Some (if decide (phase_of (bool_decide (s = CHECKED_IN)) (bk_check_in b) (bk_check_out b) today
                        = MID_STAY) then Z.max (bk_check_out b - today) 0 else 0)) = Ok q' /\
    q_refund q = q_refund q' /\ q_fine q = q_fine q' /\ q_refundable_base q = q_refundable_base q' /\
    q_phase q = q_phase q'.
Proof.
  intros Hs Hin Hp. unfold get_cancellation_quote. rewrite Hs. simpl.
  rewrite bool_decide_eq_false_2 by (by intros ?). rewrite Hp. simpl.
  intros H. inv_ok H. exists a. split; [done|]. by simplify_eq.
Qed.

Lemma cancellable_table s : s ∈ CANCELLABLE_STATUSES ->
  tstep BookingStateMachine.VALID_TRANSITIONS s CANCELLED.
Proof.
  unfold tstep. intros Hin.
  repeat (apply elem_of_cons in Hin as [->|Hin]; [simpl; set_solver|]).
  by apply not_elem_of_nil in Hin.
Qed.

Lemma cancel_transition now d b s a : status_enum b = Some s -> s ∈ CANCELLABLE_STATUSES ->
  BookingStateMachine.transition now d b CANCELLED a =
    Ok (add_history d (BookingStateMachine.history_row b CANCELLED a),
        set_status b (enum_value CANCELLED)).
Proof.
  intros Hs Hin. apply BookingStateMachine.transition_Ok. split; [|done].
  apply BookingStateMachine.can_transition_true. exists s.
  split_and!; [symmetry; by apply enum_of_value_Some|by apply cancellable_table|by split].
Qed.

(** A cancellable booking with a quote is cancelled. *)
Lemma cancel_Ok now today d b uid reason s q :
  status_enum b = Some s -> s ∈ CANCELLABLE_STATUSES ->
  get_cancellation_quote today d b None "guest" = Ok q ->
  let b' := set_cancelled (set_status b (enum_value CANCELLED)) (Aware now) uid reason in
  cancel now today d b uid reason =
    Ok (add_history d (BookingStateMachine.history_row b CANCELLED
                         (model_args uid reason "model_cancel")),
        if dltb dzero (q_refund q)
        then set_refund b' (q_refund q) (enum_value APS_REFUNDED) (Aware now) else b',
        (true, q_message q, q_refund q)).
Proof.
  intros Hs Hin Hq b'. pose proof (quote_allowed _ _ _ _ _ _ _ Hs Hin Hq) as Ha.
  unfold cancel, can_cancel. rewrite Hq. cbn [rbind]. rewrite Ha. simpl negb. cbv iota.
  by rewrite (cancel_transition _ _ _ s).
Qed.

(** A zero quote column, [dec_or0] of an amount, is an amount by value. *)
Lemma q2_dec_or0 v : money v -> q2 (dec_or0 (Some v)) = Ok v.
Proof.
  intros Hm. apply quantize_exact; [apply Hm|by apply money_repr|].
  by rewrite !dec_or0_val.
Qed.

(** * Properties *)

(** C33: cancelling. A booking whose status is not cancellable is refused and
    left as it was, with no history row. A cancellable one with a quote is
    always cancelled (the lifecycle table admits CANCELLED from every
    cancellable status, so no transition error escapes), with one history row
    from its old status; the quoted refund is recorded exactly when it is
    positive, and then the lifecycle accepts the later step to REFUNDED. *)
Theorem cancel_spec now today d b uid reason s :
  status_enum b = Some s ->
  (s ∉ CANCELLABLE_STATUSES ->
     cancel now today d b uid reason = Ok (d, b, (false, q_message no_quote, dzero))) /\
  (s ∈ CANCELLABLE_STATUSES -> forall q, get_cancellation_quote today d b None "guest" = Ok q ->
   exists d' b' h, cancel now today d b uid reason = Ok (d', b', (true, q_message q, q_refund q)) /\
     bk_status b' = enum_value CANCELLED /\
     db_history d' = db_history d ++ [h] /\
     h_from_status h = bk_status b /\ h_to_status h = enum_value CANCELLED /\
     bk_cancelled_by_user_id b' = uid /\ bk_cancellation_reason b' = reason /\
     if dltb dzero (q_refund q)
     then bk_refund_amount b' = Some (q_refund q) /\ bk_payment_status b' = enum_value APS_REFUNDED /\
          forall now' d'', BookingStateMachine.can_transition now' d'' b' REFUNDED = Ok true
     else bk_refund_amount b' = bk_refund_amount b /\ bk_payment_status b' = bk_payment_status b).
Proof.
  intros Hs. split.
  - intros Hn. unfold cancel, can_cancel, get_cancellation_quote. rewrite Hs. simpl.
    by rewrite bool_decide_eq_true_2.
  - intros Hin q Hq. rewrite (cancel_Ok now today d b uid reason s q) by done.
    eexists _, _, (BookingStateMachine.history_row b CANCELLED
                     (model_args uid reason "model_cancel")). split; [reflexivity|].
    destruct (dltb dzero (q_refund q)) eqn:Hpos; split_and!; try done.
    intros now' d''. apply BookingStateMachine.can_transition_true. exists CANCELLED.
    split_and!; [done|set_solver|]. split; [done|]. intros _.
    unfold BookingStateMachine.refund_positive. simpl.
    pose proof Hpos as Hpos'. rewrite dltb_spec, dlt_0 in Hpos'.
    destruct (Z.eqb_spec (coef (q_refund q)) 0); [lia|]. simpl.
    done.
Qed.

Definition flex_db : db := {|
  db_registrations := Some []; db_policies := []; db_history := [];
  db_cancellation_policies := create_system_defaults;
|}.

Lemma cancel_spec_witness :
  exists d' b' h msg refund,
    cancel 0 738998 flex_db (Sample.booking CONFIRMED APS_PAID) None None
      = Ok (d', b', (true, msg, refund)) /\ db_history d' = db_history flex_db ++ [h].
Proof.
  assert (Hin : CONFIRMED ∈ CANCELLABLE_STATUSES) by set_solver.
  destruct (get_cancellation_quote 738998 flex_db (Sample.booking CONFIRMED APS_PAID) None "guest")
    as [q|] eqn:Hq; [|vm_compute in Hq; discriminate Hq].
  destruct (proj2 (cancel_spec 0 738998 flex_db (Sample.booking CONFIRMED APS_PAID) None None
    CONFIRMED eq_refl) Hin q Hq) as (d' & b' & h & Hc & _ & Hh & _).
  exists d', b', h, (q_message q), (q_refund q). split; [exact Hc|exact Hh].
Defined.

(** Amount columns reach the quote rounded, whatever [or 0] did to them. *)
Lemma q2_column o : nullable money o ->
  exists v, q2 (dec_or0 o) = Ok v /\ money v /\ v ≃ dec_or0 o.
Proof.
  intros Hm. destruct o as [v|].
  - exists v. pose proof (Hm v eq_refl). split_and!; [by apply q2_dec_or0|done|].
    by rewrite dec_or0_val.
  - exists (cents 0). by split_and!; [|apply money_zero|].
Qed.

(** The booking's quote, for well-typed rows. *)
Lemma quote_total today d b s p :
  status_enum b = Some s -> s ∈ CANCELLABLE_STATUSES ->
  _get_effective_cancellation_policy d b = Some p -> well_typed_policy p ->
  money (bk_total_amount b) -> nullable money (bk_amount_paid b) ->
  bk_check_in b < bk_check_out b -> (s = CHECKED_IN -> bk_check_in b <= today) ->
  exists q base, get_cancellation_quote today d b None "guest" = Ok q /\
    base ≃ refundable_base_of (BookingPolicyEvaluator.payment_timing b)
             (dec_or0 (Some (bk_total_amount b))) (dec_or0 (bk_amount_paid b)) /\
    dle dzero (q_refund q) /\ dle (q_refund q) base.
Proof.
  intros Hs Hin Hp Hwp Ht Hpd Hdates Hci. unfold get_cancellation_quote. rewrite Hs. simpl of_option.
  cbn [rbind]. rewrite bool_decide_eq_false_2 by (by intros ?). rewrite Hp. cbv zeta. simpl default.
  destruct (q2_column (Some (bk_total_amount b))) as (t & Ht1 & Ht2 & Ht3); [by intros ? [= <-]|].
  destruct (q2_column (bk_amount_paid b) Hpd) as (w & Hw1 & Hw2 & Hw3).
  rewrite (calculate_quote_q2 p _ _ _ _ _ _ _ _ t w Ht1 Hw1 Ht2 Hw2).
  set (ck := bool_decide (s = CHECKED_IN)).
  set (ph := phase_of ck (bk_check_in b) (bk_check_out b) today).
  edestruct (calculate_quote_total p t w (BookingPolicyEvaluator.payment_timing b) (bk_check_in b)
    (bk_check_out b) today ck (Some (if decide (ph = MID_STAY) then Z.max (bk_check_out b - today) 0 else 0)))
    as (q & Hq & _ & H0 & H1); [done|done|done| |].
  { fold ph. intros Hph. simpl. destruct (decide _); [|lia].
    assert (bk_check_in b <= today); [|lia].
    unfold ph, phase_of in Hph. destruct ck eqn:Eck.
    - apply Hci. by apply bool_decide_eq_true in Eck.
    - simpl in Hph. destruct (Z.leb_spec (bk_check_in b) today); [done|]. simpl in Hph. done. }
  rewrite Hq. simpl. eexists _, (refundable_base_of (BookingPolicyEvaluator.payment_timing b) t w).
  split_and!; [reflexivity| |done|done].
  unfold refundable_base_of. by repeat destruct (String.eqb _ _).
Qed.

(** A prepaid booking (pay-now or deposit) with a well-typed policy can
    always be cancelled from a cancellable status, and the refund recorded is
    never negative and never exceeds the amount paid, provided a checked-in
    booking is not cancelled on a day before its check-in date. *)
Theorem cancel_refund_within_paid now today d b uid reason s p :
  status_enum b = Some s -> s ∈ CANCELLABLE_STATUSES ->
  _get_effective_cancellation_policy d b = Some p -> well_typed_policy p ->
  money (bk_total_amount b) -> nullable money (bk_amount_paid b) ->
  bk_check_in b < bk_check_out b -> (s = CHECKED_IN -> bk_check_in b <= today) ->
  BookingPolicyEvaluator.payment_timing b ∈ ["pay_now"; "deposit"]%string ->
  exists d' b' msg r, cancel now today d b uid reason = Ok (d', b', (true, msg, r)) /\
    bk_status b' = enum_value CANCELLED /\
    dle dzero r /\ dle r (dec_or0 (bk_amount_paid b)).
Proof.
  intros Hs Hin Hp Hwp Ht Hpd Hdates Hci Htm.
  destruct (quote_total today d b s p Hs Hin Hp Hwp Ht Hpd Hdates Hci)
    as (q & base & Hq & Hbase & H0 & H1).
  assert (E : base ≃ dec_or0 (bk_amount_paid b)).
  { rewrite Hbase. unfold refundable_base_of.
    apply elem_of_cons in Htm as [->|[->|[]%not_elem_of_nil]%elem_of_cons]; reflexivity. }
  rewrite E in H1. rewrite (cancel_Ok now today d b uid reason s q) by done.
  eexists _, _, _, _. split; [reflexivity|]. split_and!; [by destruct (dltb _ _)|done|done].
Qed.

Lemma cancel_refund_within_paid_witness :
  exists r, dle dzero r /\ dle r (Sample.eur 360) /\
    exists d' b' msg, cancel 0 738998 flex_db (sample_booking "pay_now" CONFIRMED PaymentStates.PAID 360) None None
      = Ok (d', b', (true, msg, r)).
Proof.
  assert (Hin : CONFIRMED ∈ CANCELLABLE_STATUSES) by set_solver.
  assert (Hp : well_typed_policy (system_default FLEXIBLE 1 10000 10000 0)) by (by apply system_default_typed).
  assert (Hw : nullable money (Some (Sample.eur 360))).
  { intros ? [= <-]. by apply sample_money. }
  assert (Ht : "pay_now"%string ∈ ["pay_now"; "deposit"]%string) by set_solver.
  destruct (cancel_refund_within_paid 0 738998 flex_db (sample_booking "pay_now" CONFIRMED PaymentStates.PAID 360)
    None None CONFIRMED (system_default FLEXIBLE 1 10000 10000 0) eq_refl Hin eq_refl Hp
    (Hw _ eq_refl) Hw ltac:(simpl; lia) ltac:(intros E; discriminate E) Ht)
    as (d' & b' & msg & r & Hc & _ & H0 & H1).
  exists r. split; [exact H0|]. split; [exact H1|]. exists d', b', msg. exact Hc.
Defined.

(** The case C14 excludes loses money. A guest checked in on the
    property's calendar for one night, at a policy with full mid-stay refunds,
    who cancels while the server's date is still the day before, is refunded
    exactly twice the amount paid. *)
Theorem checked_in_early_over_refund now d b uid reason p w :
  status_enum b = Some CHECKED_IN ->
  _get_effective_cancellation_policy d b = Some p ->
  cp_mid_stay_refund_pct p = cents 10000 ->
  money (bk_total_amount b) -> bk_amount_paid b = Some w -> money w -> 0 < coef w ->
  bk_check_out b = bk_check_in b + 1 ->
  BookingPolicyEvaluator.payment_timing b ∈ ["pay_now"; "deposit"]%string ->
  exists d' b' msg, cancel now (bk_check_in b - 1) d b uid reason
    = Ok (d', b', (true, msg, cents (coef w * 2))) /\
    bk_refund_amount b' = Some (cents (coef w * 2)).
Proof.
  intros Hs Hp Hpct Ht Hpaid Hw Hc Hco Htm.
  assert (Hin : CHECKED_IN ∈ CANCELLABLE_STATUSES) by set_solver.
  assert (Hq : exists q, get_cancellation_quote (bk_check_in b - 1) d b None "guest" = Ok q /\
    q_refund q = cents (coef w * 2)).
  { unfold get_cancellation_quote. rewrite Hs. simpl of_option. cbn [rbind].
    rewrite bool_decide_eq_false_2 by (by intros ?). rewrite Hp. cbv zeta. simpl default.
    rewrite (bool_decide_eq_true_2 (CHECKED_IN = CHECKED_IN)) by done.
    cbn [phase_of orb]. rewrite decide_True, Hco by done.
    replace (Z.max (bk_check_in b + 1 - (bk_check_in b - 1)) 0) with 2 by lia.
    rewrite (calculate_quote_q2 p _ _ _ _ _ _ _ _ (bk_total_amount b) w)
      by (rewrite ?Hpaid; auto using q2_dec_or0).
    destruct (one_night_double p (bk_total_amount b) w (BookingPolicyEvaluator.payment_timing b)
      (bk_check_in b) Hpct Ht Hw) as (q & Hq & Hr & _).
    { apply elem_of_cons in Htm as [->|[->|[]%not_elem_of_nil]%elem_of_cons]; reflexivity. }
    rewrite Hq. eexists. split; [reflexivity|done]. }
  destruct Hq as (q & Hq & Hr).
  rewrite (cancel_Ok now _ d b uid reason CHECKED_IN q), Hr by done.
  assert (Hpos : dltb dzero (cents (coef w * 2)) = true) by (rewrite dltb_spec, dlt_0; simpl; lia).
  rewrite Hpos. eexists _, _, _. split; [reflexivity|done].
Qed.

Lemma checked_in_early_over_refund_witness :
  exists d' b' msg, cancel 0 738999 flex_db
      (sample_stay "pay_now" CHECKED_IN "paid" 120 1 None) None None
    = Ok (d', b', (true, msg, Sample.eur 240)).
Proof.
  assert (Ht : "pay_now"%string ∈ ["pay_now"; "deposit"]%string) by set_solver.
  destruct (checked_in_early_over_refund 0 flex_db
    (sample_stay "pay_now" CHECKED_IN "paid" 120 1 None) None None
    (system_default FLEXIBLE 1 10000 10000 0) (Sample.eur 120) eq_refl eq_refl eq_refl
    (sample_money 360 ltac:(lia)) eq_refl (sample_money 120 ltac:(lia)) ltac:(simpl; lia) eq_refl Ht)
    as (d' & b' & msg & Hc & _).
  exists d', b', msg. exact Hc.
Defined.

(** A refund of money never received. A pay-on-arrival booking under the
    flexible policy, cancelled at least a day before check-in, is recorded as
    refunded in full, and may proceed to REFUNDED, whatever was paid. *)
Theorem pay_on_arrival_refunded_unpaid now today d b uid reason s p :
  status_enum b = Some s -> s ∈ CANCELLABLE_STATUSES -> s <> CHECKED_IN ->
  _get_effective_cancellation_policy d b = Some p -> cp_name p = FLEXIBLE ->
  money (bk_total_amount b) -> 0 < coef (bk_total_amount b) -> nullable money (bk_amount_paid b) ->
  BookingPolicyEvaluator.payment_timing b = "pay_on_arrival"%string ->
  today < bk_check_in b ->
  exists d' b' msg, cancel now today d b uid reason
    = Ok (d', b', (true, msg, bk_total_amount b)) /\
    bk_refund_amount b' = Some (bk_total_amount b) /\
    bk_payment_status b' = enum_value APS_REFUNDED.
Proof.
  intros Hs Hin Hne Hp Hname Ht Hpos Hpd Htm Hday.
  assert (Hq : exists q, get_cancellation_quote today d b None "guest" = Ok q /\
    q_refund q = bk_total_amount b).
  { unfold get_cancellation_quote. rewrite Hs. simpl of_option. cbn [rbind].
    rewrite bool_decide_eq_false_2 by (by intros ?). rewrite Hp. cbv zeta. simpl default.
    rewrite (bool_decide_eq_false_2 (s = CHECKED_IN)) by done.
    assert (Hph : phase_of false (bk_check_in b) (bk_check_out b) today = PRE_CHECKIN).
    { unfold phase_of. destruct (Z.leb_spec (bk_check_in b) today); [lia|done]. }
    rewrite Hph. rewrite decide_False by done. rewrite Htm.
    destruct (q2_column (bk_amount_paid b) Hpd) as (w & Hw1 & Hw2 & _).
    rewrite (calculate_quote_q2 p _ _ _ _ _ _ _ _ (bk_total_amount b) w)
      by (auto using q2_dec_or0).
    destruct (calculate_quote_split p (bk_total_amount b) w "pay_on_arrival" (bk_check_in b)
      (bk_check_out b) today false (Some 0) Ht Hw2 (bk_total_amount b))
      as (q & Hq & _ & _ & Hr & _); [by rewrite Hph| |done|done|].
    - rewrite Hph. rewrite decide_False by done. unfold pre_checkin_refund, pre_checkin_pct.
      rewrite Hname. cbn [String.eqb FLEXIBLE MODERATE STRICT SUPER_STRICT NOSHOW_POLICY
        Ascii.eqb Bool.eqb].
      destruct (Z.leb_spec 1 (Z.max (bk_check_in b - today) 0)); [|lia].
      change (ddiv (cents 10000) hundred) with (@Ok dec_error dec (dint 1)). cbn [rbind].
      change (refundable_base_of "pay_on_arrival" (bk_total_amount b) w) with (bk_total_amount b).
      rewrite (money_cents _ Ht). destruct Ht as [_ [? Hb]]. change (pow10 10) with 10000000000 in Hb.
      rewrite dmul_cents, Z.mul_1_r by (change (pow10 20) with 100000000000000000000; lia).
      apply q2_cents. change (pow10 20) with 100000000000000000000. lia.
    - rewrite Hq. eexists. split; [reflexivity|done]. }
  destruct Hq as (q & Hq & Hr).
  rewrite (cancel_Ok now _ d b uid reason s q), Hr by done.
  assert (Hp0 : dltb dzero (bk_total_amount b) = true) by (rewrite dltb_spec, dlt_0; lia).
  rewrite Hp0. eexists _, _, _. split; [reflexivity|done].
Qed.

Lemma pay_on_arrival_refunded_unpaid_witness :
  exists d' b' msg, cancel 0 738999 flex_db
      (sample_stay "pay_on_arrival" CONFIRMED "unpaid" 0 3 None) None None
    = Ok (d', b', (true, msg, Sample.eur 360)) /\
    bk_payment_status b' = enum_value APS_REFUNDED.
Proof.
  assert (Hin : CONFIRMED ∈ CANCELLABLE_STATUSES) by set_solver.
  assert (Hpd : nullable money (Some (Sample.eur 0))) by (intros ? [= <-]; by apply sample_money).
  destruct (pay_on_arrival_refunded_unpaid 0 738999 flex_db
    (sample_stay "pay_on_arrival" CONFIRMED "unpaid" 0 3 None) None None CONFIRMED
    (system_default FLEXIBLE 1 10000 10000 0) eq_refl Hin ltac:(intros E; discriminate E)
    eq_refl eq_refl (sample_money 360 ltac:(lia)) ltac:(simpl; lia) Hpd eq_refl ltac:(simpl; lia))
    as (d' & b' & msg & Hc & _ & Hps).
  exists d', b', msg. split; [exact Hc|exact Hps].
Defined.

(** The guest's snapshot does not bind the legacy quote. When no
    cancellation policy row applies but the property has a booking policy row,
    a cancellation before check-in is labelled with the policy named in the
    booking's snapshot, while the amount is the one the current row gives. *)
Theorem legacy_quote_ignores_snapshot today d b s name row q :
  status_enum b = Some s -> s ∈ CANCELLABLE_STATUSES -> s <> CHECKED_IN ->
  _get_effective_cancellation_policy d b = None ->
  find_policy d (bk_property_id b) = Some row ->
  snapshot_name b = Some name -> name <> ""%string ->
  get_cancellation_quote today d b None "guest" = Ok q ->
  q_policy q = Some name /\
  q2 (PropertyBookingPolicyModel.get_cancellation_refund row (bk_check_in b - today)
        (dec_or0 (Some (bk_total_amount b)))) = Ok (q_refund q).
Proof.
  intros Hs Hin Hne Hp Hrow Hn Hn0. unfold get_cancellation_quote, _get_legacy_cancellation_quote.
  rewrite Hs. cbn [of_option rbind]. rewrite bool_decide_eq_false_2 by (by intros ?). rewrite Hp.
  unfold _cancellation_policy_context. rewrite Hrow, Hn. cbn [truthy].
  apply String.eqb_neq in Hn0. rewrite Hn0. cbn [negb str_or truthy]. rewrite Hn0. cbn [negb str_or].
  rewrite Hn0. rewrite decide_False by done. unfold legacy_pre_checkin. intros H. inv_ok H.
  by simplify_eq.
Qed.

(** A strict row, and a booking whose snapshot says flexible. *)
Definition strict_db : db := {|
  db_registrations := Some []; db_history := []; db_cancellation_policies := [];
  db_policies := [{|
    bp_property_id := 7; bp_cancellation_policy := Some "strict"%string;
    bp_free_cancel_hours := 24; bp_allow_pay_now := Some true; bp_allow_pay_on_arrival := None;
    bp_allow_pay_at_checkout := None; bp_allow_deposit_payment := None;
    bp_deposit_percentage := None; bp_require_payment_guarantee := None;
    bp_require_guest_identity := None |}];
|}.

Definition flexible_snapshot : snapshot :=
  {| snap_rules := None; snap_policy_name := Some "flexible"%string |}.

Lemma legacy_quote_ignores_snapshot_witness :
  match get_cancellation_quote 738997 strict_db
    (sample_stay "pay_now" CONFIRMED "paid" 360 3 (Some flexible_snapshot)) None "guest" with
  | Ok q => q_policy q = Some "flexible"%string /\ q_refund q ≃ dzero
  | Err _ => False
  end.
Proof.
  assert (Hin : CONFIRMED ∈ CANCELLABLE_STATUSES) by set_solver.
  destruct (get_cancellation_quote 738997 strict_db
    (sample_stay "pay_now" CONFIRMED "paid" 360 3 (Some flexible_snapshot)) None "guest")
    as [q|] eqn:Hq; [|vm_compute in Hq; discriminate Hq].
  destruct (legacy_quote_ignores_snapshot 738997 strict_db
    (sample_stay "pay_now" CONFIRMED "paid" 360 3 (Some flexible_snapshot)) CONFIRMED "flexible"
    _ q eq_refl Hin ltac:(intros E; discriminate E) eq_refl eq_refl eq_refl
    ltac:(intros E; discriminate E) Hq) as [Hn Hr].
  split; [exact Hn|]. vm_compute in Hq. injection Hq as <-. reflexivity.
Defined.

(** The ready-for-check-in badge is sound: a booking shown as ready is
    one the policy layer allows to check in and the lifecycle machine moves to
    CHECKED_IN. *)
Theorem ready_for_checkin_sound now d b :
  well_typed_booking b ->
  is_ready_for_checkin d b = Ok true ->
  BookingStateMachine.can_transition now d b CHECKED_IN = Ok true /\
  exists dec, BookingPolicyEvaluator.can_check_in now d b = Ok dec /\ pd_allowed dec = true.
Proof.
  intros Hb Hr. unfold is_ready_for_checkin in Hr.
  destruct (BookingStateMachine.property_today b) as [today|] eqn:Htd; [|done].
  destruct (String.eqb (bk_status b) (enum_value CONFIRMED)) eqn:Hs; [|done]. simpl in Hr.
  inv_ok Hr. apply enum_of_value_Some in Hok.
  destruct (bool_decide _) eqn:Hpaid; [done|].
  destruct (today <? bk_check_in b) eqn:Hday; [done|].
  destruct (all_required_guests_registered d b) eqn:Hreg; [|done].
  assert (Hm : BookingStateMachine.can_transition now d b CHECKED_IN = Ok true).
  { apply machine_check_in. unfold BookingStateMachine._can_check_in.
    rewrite Hs, Htd, Hday. simpl. unfold BookingStateMachine._registration_satisfied.
    change (BookingStateMachine._all_guests_registered d b) with (all_required_guests_registered d b).
    by rewrite Hreg. }
  split; [done|]. destruct (can_check_in_spec now d b Hb) as (dec & Hdec & Hiff).
  exists dec. split; [done|]. apply Hiff. split; [done|]. intros _ _ _ _.
  apply bool_decide_eq_false in Hpaid. rewrite <- Hok.
  destruct a; first [set_solver|vm_compute; set_solver|exfalso; apply Hpaid; set_solver].
Qed.

Definition registered_db : db := {|
  db_registrations := Some [{| gr_booking_id := 42; gr_status := "completed" |}];
  db_policies := []; db_cancellation_policies := []; db_history := [];
|}.

Lemma ready_for_checkin_sound_witness :
  BookingStateMachine.can_transition 0 registered_db (sample_booking "pay_now" CONFIRMED
    PaymentStates.PAID 360) CHECKED_IN = Ok true.
Proof.
  exact (proj1 (ready_for_checkin_sound 0 registered_db
    (sample_booking "pay_now" CONFIRMED PaymentStates.PAID 360)
    (sample_typed "pay_now" CONFIRMED PaymentStates.PAID 360 ltac:(done)) eq_refl)).
Defined.
