(* ===== verification/Pricing.v ===== *)
(** Prices: class PricingService of
    app/accommodation/services/pricing_service.py and the money helper of
    app/utils/money.py. *)

From Stdlib Require Import QArith Lqa.
From S2P Require Import Prelude Decimal DecimalLaws BookingModel Cancellation Booking.

Local Open Scope Z_scope.

Inductive pricing_error : Type :=
  | DatesError                     (* "Check-out must be after check-in" *)
  | RoomTypeError                  (* unknown room type, or another property's *)
  | NoProperty                     (* AttributeError on a missing property *)
  | PricingArithmetic (e : dec_error).

(** [money(value)]: [Decimal(str(value or 0)).quantize(0.01, ROUND_HALF_UP)] *)
Definition money_of (value : option dec) : result pricing_error dec :=
  map_err PricingArithmetic (quantize ROUND_HALF_UP (-2) (dec_or0 value)).

Module PricingService.

(** The pricing columns of a property, and of a room type. *)
Record priced : Type := {
  pr_property_id : Z;
  pr_base_price_per_night : option dec;
  pr_cleaning_fee : option dec;
  pr_service_fee_pct : option dec;
  pr_tax_rate_pct : option dec;      (* read from the property only *)
}.

Definition _money (value : dec) : result pricing_error dec := money_of (Some value).

Definition _percentage (value : option dec) : dec := dec_or0 value.

Record modification : Type := {
  mod_nights : Z;
  mod_new_subtotal : dec;
  mod_new_total : dec;
  mod_old_total : dec;
  mod_delta_amount : dec;
  mod_refund_amount : dec;
  mod_amount_owed : dec;
  mod_old_amount_paid : dec;
  mod_currency : string;
}.

Definition calculate_modification_price (b : booking) (new_check_in new_check_out : date)
    : result pricing_error modification :=
  let nights := new_check_out - new_check_in in
  if nights <? 0 then Err DatesError
  else
    let* nightly_rate := money_of (Some (bk_nightly_rate b)) in
    let* cleaning_fee := money_of (bk_cleaning_fee b) in
    let* service_fee := money_of (bk_service_fee b) in
    let* taxes := money_of (bk_taxes b) in
    let* new_subtotal := _money (dmul nightly_rate (dint nights)) in
    let* new_total := _money (dadd (dadd (dadd new_subtotal cleaning_fee) service_fee) taxes) in
    let* old_total := money_of (Some (bk_total_amount b)) in
    let* old_amount_paid := money_of (bk_amount_paid b) in
    let* delta := _money (dsub new_total old_total) in
    let* refund_amount := (if dltb delta dzero then _money (dneg delta) else _money dzero) in
    let* amount_owed := (if dltb dzero delta then _money delta else _money dzero) in
    Ok {| mod_nights := nights; mod_new_subtotal := new_subtotal; mod_new_total := new_total;
          mod_old_total := old_total; mod_delta_amount := delta;
          mod_refund_amount := refund_amount; mod_amount_owed := amount_owed;
          mod_old_amount_paid := old_amount_paid;
          mod_currency := str_or (bk_currency b) "USD" |}.

Record breakdown : Type := {
  bd_nightly_rate : dec;
  bd_nights : Z;
  bd_num_rooms : Z;
  bd_subtotal : dec;
  bd_cleaning_fee : dec;
  bd_service_fee : dec;
  bd_service_fee_pct : dec;
  bd_tax_rate_pct : dec;
  bd_taxes : dec;
  bd_promo_discount : dec;
  bd_loyalty_discount : dec;
  bd_wallet_credit : dec;
  bd_discount_total : dec;
  bd_gross_total : dec;
  bd_total : dec;
}.

(** [room_types id] is [db.session.get(RoomType, id)]. The rates come from the
    room type when one is requested, and from the property otherwise. *)
Definition rates (room_types : Z -> option priced) (p : priced) (room_type_id : option Z)
    : result pricing_error priced :=
  match room_type_id with
  | None => Ok p
  | Some rid =>
      if rid =? 0 then Ok p
      else match room_types rid with
           | None => Err RoomTypeError
           | Some rt => if negb (pr_property_id rt =? pr_property_id p) then Err RoomTypeError
                        else Ok rt
           end
  end.

Definition calculate_total (room_types : Z -> option priced) (p : priced)
    (check_in check_out : date) (room_type_id : option Z) (num_rooms : Z)
    (promo_discount loyalty_discount wallet_credit : dec) (tax_rate : option dec)
    : result pricing_error breakdown :=
  let nights := check_out - check_in in
  let rooms := Z.max 1 (if num_rooms =? 0 then 1 else num_rooms) in
  if nights <=? 0 then Err DatesError
  else
    let* r := rates room_types p room_type_id in
    let* nightly_rate := money_of (pr_base_price_per_night r) in
    let* cleaning := money_of (pr_cleaning_fee r) in
    let cleaning_fee := dmul cleaning (dint rooms) in
    let service_fee_pct := _percentage (pr_service_fee_pct r) in
    let* subtotal := _money (dmul (dmul nightly_rate (dint nights)) (dint rooms)) in
    let* service_ratio := map_err PricingArithmetic (ddiv service_fee_pct (dint 100)) in
    let* service_fee := _money (dmul subtotal service_ratio) in
    let tax_rate_pct := match tax_rate with
                        | None => _percentage (pr_tax_rate_pct p)
                        | Some t => _percentage (Some t)
                        end in
    let taxable_amount := dadd (dadd subtotal cleaning_fee) service_fee in
    let* tax_ratio := map_err PricingArithmetic (ddiv tax_rate_pct (dint 100)) in
    let* taxes := _money (dmul taxable_amount tax_ratio) in
    let* gross_total := _money (dadd taxable_amount taxes) in
    let* promo := _money promo_discount in
    let* loyalty := _money loyalty_discount in
    let* wallet := _money wallet_credit in
    let* total_discount := _money (dadd (dadd (dadd dzero promo) loyalty) wallet) in
    let discount_applied := dmin total_discount gross_total in
    let* total := _money (dsub gross_total discount_applied) in
    Ok {| bd_nightly_rate := nightly_rate; bd_nights := nights; bd_num_rooms := rooms;
          bd_subtotal := subtotal; bd_cleaning_fee := cleaning_fee; bd_service_fee := service_fee;
          bd_service_fee_pct := service_fee_pct; bd_tax_rate_pct := tax_rate_pct;
          bd_taxes := taxes; bd_promo_discount := promo; bd_loyalty_discount := loyalty;
          bd_wallet_credit := wallet; bd_discount_total := discount_applied;
          bd_gross_total := gross_total; bd_total := total |}.

(** [(refund_amount, policy)]; the explanation text is left out. *)
Definition calculate_refund (b : booking) (cancellation_date : date)
    : result pricing_error (dec * string) :=
  let days_until_checkin := bk_check_in b - cancellation_date in
  let* p := of_option NoProperty (bk_property b) in
  let policy := default ""%string (prop_cancellation_policy p) in
  let total := bk_total_amount b in
  Ok (if String.eqb policy "flexible" then
        if 1 <=? days_until_checkin then (total, "flexible"%string) else (dzero, "flexible"%string)
      else if String.eqb policy "moderate" then
        if 5 <=? days_until_checkin then (total, "moderate"%string)
        else if 1 <=? days_until_checkin
             then (dmul total PropertyBookingPolicyModel.half, "moderate"%string)
             else (dzero, "moderate"%string)
      else if String.eqb policy "strict" then
        if 7 <=? days_until_checkin
        then (dmul total PropertyBookingPolicyModel.half, "strict"%string)
        else (dzero, "strict"%string)
      else (dzero, "super_strict"%string)).

End PricingService.

(** * Lemmas *)

Import PricingService.

Lemma money_of_column o : nullable money o ->
  exists c, money_of o = Ok (cents c) /\ 0 <= c < pow10 10 /\ dec_or0 o ≃ cents c.
Proof.
  intros Hm. destruct (dec_or0_money o Hm) as (c & Hc & E). exists c. split_and!; try done.
  - unfold money_of. rewrite (quantize_cents _ _ c); [done|done|].
    change (pow10 20) with (pow10 10 * pow10 10). change (pow10 10) with 10000000000 in *. lia.
  - lia.
  - lia.
Qed.

Lemma _money_cents c : Z.abs c < pow10 20 -> _money (cents c) = Ok (cents c).
Proof.
  intros Hc. unfold _money, money_of. rewrite (quantize_cents _ _ c); [done|by rewrite dec_or0_val|done].
Qed.

Lemma _money_range v k : dle dzero v -> dle v (cents k) -> 0 <= k < pow10 20 ->
  exists c, _money v = Ok (cents c) /\ 0 <= c <= k.
Proof.
  intros H0 H1 Hk. unfold _money, money_of.
  destruct (quantize_range ROUND_HALF_UP (dec_or0 (Some v)) k) as (c & -> & Hc);
    [by rewrite dec_or0_val|by rewrite dec_or0_val|done|]. by exists c.
Qed.

(** A rounded percentage of an amount. *)
Lemma _money_share a p : 0 <= a < pow10 20 -> percentage p ->
  exists r c, map_err PricingArithmetic (ddiv p (dint 100)) = Ok r /\
    _money (dmul (cents a) r) = Ok (cents c) /\ 0 <= c <= a.
Proof.
  intros Ha Hp. destruct (pct_ratio_hundred p (dint 100) Hp ltac:(reflexivity) ltac:(done))
    as (r & -> & H0 & H1).
  destruct (dmul_share a r Ha H0 H1) as [Hs0 Hs1].
  destruct (_money_range _ a Hs0 Hs1 Ha) as (c & Hc & Hb). by exists r, c.
Qed.

Lemma percentage_column o : nullable percentage o -> percentage (dec_or0 o) \/ dec_or0 o = dzero.
Proof.
  intros Hp. destruct o as [d|]; [|by right].
  destruct (dec_or0_cases d) as [E|E]; [left; rewrite E; by apply Hp|by right].
Qed.

Lemma _money_share_column a o : 0 <= a < pow10 20 -> nullable percentage o ->
  exists r c, map_err PricingArithmetic (ddiv (dec_or0 o) (dint 100)) = Ok r /\
    _money (dmul (cents a) r) = Ok (cents c) /\ 0 <= c <= a.
Proof.
  intros Ha Hp. destruct (percentage_column o Hp) as [Hpc| ->]; [by apply _money_share|].
  change (ddiv dzero (dint 100)) with (@Ok dec_error dec (dint 0)). cbn [map_err].
  destruct (dmul_share a (dint 0) Ha ltac:(reflexivity) ltac:(done)) as [Hs0 Hs1].
  destruct (_money_range _ a Hs0 Hs1 Ha) as (c & Hc & Hb). by exists (dint 0), c.
Qed.

Lemma dltb_cents a b : dltb (cents a) (cents b) = (a <? b).
Proof.
  destruct (Z.ltb_spec a b).
  - destruct (dltb (cents a) (cents b)) eqn:E; [done|].
    rewrite dltb_false, cents_le in E. lia.
  - rewrite dltb_false, cents_le. lia.
Qed.

(** Comparisons with zero do not see its exponent. *)
Lemma zero_cents c : dltb (cents c) dzero = dltb (cents c) (cents 0) /\
  dltb dzero (cents c) = dltb (cents 0) (cents c).
Proof. assert (E : dzero ≃ cents 0) by done. by rewrite E. Qed.

Lemma money_amount d : money d -> exists c, d = cents c /\ 0 <= c < 10000000000.
Proof. intros Hm. exists (coef d). split; [by apply money_cents|]. by destruct Hm. Qed.

(** What the quoted rates must satisfy, and what the caller passes. *)
Record well_typed_rates (r : priced) : Prop := {
  wr_base : nullable money (pr_base_price_per_night r);
  wr_cleaning : nullable money (pr_cleaning_fee r);
  wr_service : nullable percentage (pr_service_fee_pct r);
  wr_tax : nullable percentage (pr_tax_rate_pct r);
}.

(** * Properties *)

(** A price breakdown adds up to the cent. Dates in the wrong order are
    refused; otherwise, for well-typed rates of the property or of one of its
    room types, the subtotal is rate times nights times rooms, the cleaning
    fee is charged once per room, the service fee and the taxes are
    non-negative and at most what they are a percentage of, the gross total is
    their sum, the discount applied is the sum of the discounts capped at the
    gross total, and the total is the exact difference, never below zero. *)
Theorem calculate_total_spec room_types p r ci co rid n promo loyalty credit tax :
  rates room_types p rid = Ok r -> well_typed_rates r -> nullable percentage (pr_tax_rate_pct p) ->
  nullable percentage tax -> money promo -> money loyalty -> money credit ->
  co - ci <= 10000 -> n <= 1000 ->
  if co <=? ci
  then calculate_total room_types p ci co rid n promo loyalty credit tax = Err DatesError
  else let rooms := Z.max 1 n in
    exists b rate clean svc tx,
      calculate_total room_types p ci co rid n promo loyalty credit tax = Ok b /\
      dec_or0 (pr_base_price_per_night r) ≃ cents rate /\ dec_or0 (pr_cleaning_fee r) ≃ cents clean /\
      let sub := rate * (co - ci) * rooms in
      let gross := sub + clean * rooms + svc + tx in
      let discount := coef promo + coef loyalty + coef credit in
      bd_subtotal b = cents sub /\ bd_cleaning_fee b = cents (clean * rooms) /\
      bd_service_fee b = cents svc /\ 0 <= svc <= sub /\
      bd_taxes b = cents tx /\ 0 <= tx <= sub + clean * rooms + svc /\
      bd_gross_total b = cents gross /\ bd_discount_total b = cents (Z.min discount gross) /\
      bd_total b = cents (Z.max 0 (gross - discount)).
Proof.
  intros Hr Hwr Htp Htx Hpr Hlo Hcr Hn Hrooms. unfold calculate_total.
  destruct (Z.leb_spec co ci); [destruct (Z.leb_spec (co - ci) 0); [done|lia]|].
  destruct (Z.leb_spec (co - ci) 0); [lia|].
  replace (Z.max 1 (if n =? 0 then 1 else n)) with (Z.max 1 n)
    by (destruct (Z.eqb_spec n 0); subst; done).
  cbv zeta. set (rooms := Z.max 1 n). rewrite Hr. cbn [rbind].
  destruct (money_of_column _ (wr_base r Hwr)) as (rate & -> & Hrate & Erate).
  destruct (money_of_column _ (wr_cleaning r Hwr)) as (clean & -> & Hclean & Eclean). cbn [rbind].
  destruct (money_amount _ Hpr) as (p1 & -> & Hp1). destruct (money_amount _ Hlo) as (l1 & -> & Hl1).
  destruct (money_amount _ Hcr) as (w1 & -> & Hw1).
  change (pow10 10) with 10000000000 in *. assert (H20 : pow10 20 = 100000000000000000000) by done.
  assert (Hrb : 1 <= rooms <= 1000) by lia.
  assert (Hnights : 0 <= rate * (co - ci) <= 100000000000000) by nia.
  assert (Hsub : 0 <= rate * (co - ci) * rooms <= 100000000000000000) by nia.
  assert (Hcl : 0 <= clean * rooms <= 10000000000000) by nia.
  rewrite !dmul_cents by lia. rewrite _money_cents by lia. cbn [rbind].
  destruct (_money_share_column (rate * (co - ci) * rooms) (pr_service_fee_pct r))
    as (sr & svc & Hsr & Hsvc & Hsvcb); [lia|apply Hwr|].
  unfold _percentage at 1. rewrite Hsr. cbn [rbind]. rewrite Hsvc. cbn [rbind].
  rewrite !dadd_cents by lia.
  replace (match tax with Some t => _percentage (Some t) | None => _percentage (pr_tax_rate_pct p) end)
    with (dec_or0 (match tax with Some t => Some t | None => pr_tax_rate_pct p end))
    by (by destruct tax).
  destruct (_money_share_column (rate * (co - ci) * rooms + clean * rooms + svc)
    (match tax with Some t => Some t | None => pr_tax_rate_pct p end))
    as (tr & tx & Htr & Htxc & Htxb); [lia|by destruct tax|].
  rewrite Htr. cbn [rbind]. rewrite Htxc. cbn [rbind].
  rewrite dadd_cents by lia. rewrite !_money_cents by lia. cbn [rbind].
  rewrite dadd_zero_cents by lia. rewrite !dadd_cents by lia. rewrite _money_cents by lia. cbn [rbind].
  rewrite dmin_cents, dsub_cents by lia. rewrite _money_cents by lia. cbn [rbind].
  eexists _, rate, clean, svc, tx. split; [reflexivity|]. simpl.
  split_and!; first [assumption|lia|reflexivity|f_equal; lia].
Qed.

Definition sample_priced : priced := {|
  pr_property_id := 7; pr_base_price_per_night := Some (Sample.eur 100);
  pr_cleaning_fee := Some (Sample.eur 20); pr_service_fee_pct := Some (cents 1000);
  pr_tax_rate_pct := Some (cents 1800);
|}.

Lemma sample_priced_typed : well_typed_rates sample_priced.
Proof. split; intros d [= <-]; split; (done || (simpl; change (pow10 10) with 10000000000; lia)). Qed.

Lemma calculate_total_spec_witness :
  exists b, calculate_total (fun _ => None) sample_priced 100 103 None 2 (Sample.eur 5000)
    (Sample.eur 0) (Sample.eur 0) None = Ok b /\ bd_total b = cents 0.
Proof.
  destruct (calculate_total_spec (fun _ => None) sample_priced sample_priced 100 103 None 2
    (Sample.eur 5000) (Sample.eur 0) (Sample.eur 0) None eq_refl sample_priced_typed
    (wr_tax _ sample_priced_typed) ltac:(intros ? [=]) (sample_money 5000 ltac:(lia))
    (sample_money 0 ltac:(lia)) (sample_money 0 ltac:(lia)) ltac:(lia) ltac:(lia))
    as (b & rate & clean & svc & tx & Hb & _).
  exists b. split; [exact Hb|]. vm_compute in Hb. injection Hb as <-. reflexivity.
Defined.

(** A change of dates is priced exactly. Only a check-out before the
    check-in is refused, so a change to zero nights is accepted and priced at
    the flat fees alone; the new total is rate times nights plus the flat fees
    and taxes; the guest is refunded what the stay became cheaper or owes what
    it became dearer, never both. *)
Theorem calculate_modification_price_spec (b : booking) ci co :
  money (bk_nightly_rate b) -> nullable money (bk_cleaning_fee b) ->
  nullable money (bk_service_fee b) -> nullable money (bk_taxes b) ->
  money (bk_total_amount b) -> nullable money (bk_amount_paid b) -> co - ci <= 10000 ->
  if co <? ci
  then calculate_modification_price b ci co = Err DatesError
  else exists m rate clean svc tx old,
    calculate_modification_price b ci co = Ok m /\
    bk_nightly_rate b = cents rate /\ bk_total_amount b = cents old /\
    dec_or0 (bk_cleaning_fee b) ≃ cents clean /\ dec_or0 (bk_service_fee b) ≃ cents svc /\
    dec_or0 (bk_taxes b) ≃ cents tx /\
    let new := rate * (co - ci) + clean + svc + tx in
    mod_nights m = co - ci /\ mod_new_total m = cents new /\ mod_old_total m = cents old /\
    mod_delta_amount m = cents (new - old) /\
    mod_refund_amount m = cents (Z.max 0 (old - new)) /\
    mod_amount_owed m = cents (Z.max 0 (new - old)).
Proof.
  intros Hrate Hclean Hsvc Htx Hold Hpaid Hn. unfold calculate_modification_price.
  destruct (Z.ltb_spec co ci); [destruct (Z.ltb_spec (co - ci) 0); [done|lia]|].
  destruct (Z.ltb_spec (co - ci) 0); [lia|].
  destruct (money_amount _ Hrate) as (rate & Erate & Hr). rewrite Erate.
  destruct (money_amount _ Hold) as (old & Eold & Ho). rewrite Eold.
  destruct (money_of_column _ Hclean) as (clean & -> & Hc & Ec).
  destruct (money_of_column _ Hsvc) as (svc & -> & Hs & Es).
  destruct (money_of_column _ Htx) as (tx & -> & Ht & Et).
  destruct (money_of_column _ Hpaid) as (paid & -> & Hp & Ep).
  change (pow10 10) with 10000000000 in *. assert (H20 : pow10 20 = 100000000000000000000) by done.
  assert (Hsub : 0 <= rate * (co - ci) <= 100000000000000) by nia.
  fold (_money (cents rate)) (_money (cents old)).
  rewrite !_money_cents by lia. cbn [rbind]. rewrite dmul_cents, _money_cents by lia. cbn [rbind].
  rewrite !dadd_cents, _money_cents by lia. cbn [rbind].
  rewrite dsub_cents, _money_cents by lia. cbn [rbind].
  set (new := rate * (co - ci) + clean + svc + tx). assert (Hnew : 0 <= new <= 200000000000000) by lia.
  assert (Hrefund : (if dltb (cents (new - old)) dzero then _money (dneg (cents (new - old)))
                     else _money dzero) = Ok (cents (Z.max 0 (old - new)))).
  { rewrite (proj1 (zero_cents _)), dltb_cents. change (dneg (cents (new - old))) with (cents (- (new - old))).
    destruct (Z.ltb_spec (new - old) 0).
    - rewrite _money_cents by lia. do 2 f_equal. lia.
    - rewrite Z.max_l by lia. reflexivity. }
  assert (Howed : (if dltb dzero (cents (new - old)) then _money (cents (new - old))
                   else _money dzero) = Ok (cents (Z.max 0 (new - old)))).
  { rewrite (proj2 (zero_cents _)), dltb_cents. destruct (Z.ltb_spec 0 (new - old)).
    - rewrite _money_cents by lia. do 2 f_equal. lia.
    - rewrite Z.max_l by lia. reflexivity. }
  rewrite Hrefund. cbn [rbind]. rewrite Howed. cbn [rbind].
  eexists _, rate, clean, svc, tx, old. split; [reflexivity|].
  split_and!; first [assumption|reflexivity].
Qed.

Lemma calculate_modification_price_spec_witness :
  exists m, calculate_modification_price (Sample.booking CONFIRMED APS_PAID) 100 100 = Ok m /\
    mod_refund_amount m = cents 30000.
Proof.
  assert (Hm : forall n, 0 <= n < 100000000 -> nullable money (Some (Sample.eur n))).
  { intros n Hn ? [= <-]. by apply sample_money. }
  destruct (calculate_modification_price_spec (Sample.booking CONFIRMED APS_PAID) 100 100
    (sample_money 100 ltac:(lia)) (Hm 20 ltac:(lia)) (Hm 30 ltac:(lia)) (Hm 10 ltac:(lia))
    (sample_money 360 ltac:(lia)) (Hm 360 ltac:(lia)) ltac:(lia))
    as (m & rate & clean & svc & tx & old & Hmod & _).
  exists m. split; [exact Hmod|]. vm_compute in Hmod. injection Hmod as <-. reflexivity.
Defined.

(** The tier names of the three calculators. *)
Definition tier_names : list string := ["flexible"; "moderate"; "strict"; "super_strict"]%string.

Lemma alias_flexible : AccommodationBooking.aliases "flexible" = FLEXIBLE.
Proof. reflexivity. Qed.
Lemma alias_moderate : AccommodationBooking.aliases "moderate" = MODERATE.
Proof. reflexivity. Qed.
Lemma alias_strict : AccommodationBooking.aliases "strict" = STRICT.
Proof. reflexivity. Qed.
Lemma alias_super_strict : AccommodationBooking.aliases "super_strict" = SUPER_STRICT.
Proof. reflexivity. Qed.

(** The percentages of the tiers as ratios. *)
Lemma ratio_10000 : ddiv (cents 10000) CancellationPolicyModel.hundred = Ok (dint 1).
Proof. by vm_compute. Qed.
Lemma ratio_5000 : ddiv (cents 5000) CancellationPolicyModel.hundred =
  Ok PropertyBookingPolicyModel.half.
Proof. by vm_compute. Qed.
Lemma ratio_2500 : ddiv (cents 2500) CancellationPolicyModel.hundred =
  Ok PropertyBookingPolicyModel.quarter.
Proof. by vm_compute. Qed.
Lemma ratio_0 : ddiv (cents 0) CancellationPolicyModel.hundred = Ok (dint 0).
Proof. by vm_compute. Qed.

Lemma tier_refund p name base days : name ∈ tier_names ->
  cp_name p = AccommodationBooking.aliases name -> money base -> 0 < coef base ->
  CancellationPolicyModel.pre_checkin_refund p base days =
  q2 (AccommodationBooking._apply_policy_tiers name base days).
Proof.
  intros Hin Hname Hb Hpos. unfold CancellationPolicyModel.pre_checkin_refund.
  assert (Hfull : dmul base (dint 1) = base).
  { pose proof (money_cents _ Hb) as E. destruct Hb as [_ Hb]. rewrite E at 1.
    change (pow10 10) with 10000000000 in Hb.
    rewrite dmul_cents by (change (pow10 20) with 100000000000000000000; lia).
    by rewrite Z.mul_1_r. }
  assert (Hzero : q2 (dmul base (dint 0)) = q2 (cents 0)).
  { rewrite (money_cents _ Hb). rewrite dmul_cents by (rewrite Z.mul_0_r; done). by rewrite Z.mul_0_r. }
  assert (Hle : dleb base dzero = false).
  { rewrite dleb_false, dlt_0. done. }
  unfold AccommodationBooking._apply_policy_tiers. rewrite Hle.
  unfold CancellationPolicyModel.pre_checkin_pct. rewrite Hname.
  unfold tier_names in Hin.
  repeat (apply elem_of_cons in Hin as [->|Hin]; [
    rewrite ?alias_flexible, ?alias_moderate, ?alias_strict, ?alias_super_strict;
    cbn [String.eqb MODERATE STRICT SUPER_STRICT NOSHOW_POLICY FLEXIBLE Ascii.eqb Bool.eqb];
    repeat match goal with |- context [?x <=? ?y] => destruct (Z.leb_spec x y); try lia end;
    rewrite ?ratio_10000, ?ratio_5000, ?ratio_2500, ?ratio_0; cbn [rbind];
    by rewrite ?Hfull, ?Hzero|]).
  by apply not_elem_of_nil in Hin.
Qed.

Lemma quarter_positive base : money base -> 0 < coef base ->
  dlt dzero (dmul base PropertyBookingPolicyModel.quarter) /\
  dlt dzero (dmul base PropertyBookingPolicyModel.half).
Proof.
  intros [_ [H0 H1]] Hpos. change (pow10 10) with 10000000000 in H1.
  split; rewrite dlt_0, dmul_small; simpl; try lia;
    change (pow10 prec) with 10000000000000000000000000000; lia.
Qed.

(** Four pieces of code price the same cancellation before check-in. The
    booking policy row, the booking's own tiers and the cancellation policy
    engine agree to the cent on every tier and number of days; the pricing
    service agrees on flexible, moderate and strict, but refunds nothing under
    super-strict where the other three refund half or a quarter. *)
Theorem refund_calculators_agree (b : booking) row p prop name day :
  name ∈ tier_names -> bp_cancellation_policy row = Some name ->
  cp_name p = AccommodationBooking.aliases name ->
  bk_property b = Some prop -> prop_cancellation_policy prop = Some name ->
  money (bk_total_amount b) -> 0 < coef (bk_total_amount b) ->
  let days := bk_check_in b - day in
  let tiers := AccommodationBooking._apply_policy_tiers name (bk_total_amount b) days in
  q2 (PropertyBookingPolicyModel.get_cancellation_refund row days (bk_total_amount b)) = q2 tiers /\
  CancellationPolicyModel.pre_checkin_refund p (bk_total_amount b) days = q2 tiers /\
  exists r, calculate_refund b day = Ok (r, name) /\
    if String.eqb name "super_strict"
    then r = dzero /\ (14 <= days -> dlt dzero tiers)
    else q2 r = q2 tiers.
Proof.
  intros Hin Hrow Hp Hprop Hname Hm Hpos days tiers.
  pose proof (tier_refund p name (bk_total_amount b) days Hin Hp Hm Hpos) as Htier.
  destruct (quarter_positive _ Hm Hpos) as [Hquarter Hhalf].
  assert (Hle : dleb (bk_total_amount b) dzero = false) by (by rewrite dleb_false, dlt_0).
  assert (Hz : q2 dzero = q2 (cents 0)) by (by vm_compute).
  split_and!; [|done|].
  - unfold tiers, AccommodationBooking._apply_policy_tiers,
      PropertyBookingPolicyModel.get_cancellation_refund. rewrite Hrow, Hle. cbn [from_option id].
    unfold tier_names in Hin.
    repeat (apply elem_of_cons in Hin as [->|Hin]; [
      cbn [String.eqb Ascii.eqb Bool.eqb]; by repeat destruct (Z.leb _ _)|]).
    by apply not_elem_of_nil in Hin.
  - unfold calculate_refund. rewrite Hprop. cbn [of_option rbind]. rewrite Hname. cbn [from_option id].
    fold days. unfold tiers, AccommodationBooking._apply_policy_tiers. rewrite Hle.
    unfold tier_names in Hin.
    repeat (apply elem_of_cons in Hin as [->|Hin]; [
      cbn [String.eqb Ascii.eqb Bool.eqb]|]).
    + destruct (1 <=? days); eexists; by split.
    + destruct (5 <=? days); [|destruct (1 <=? days)]; eexists; by split.
    + destruct (7 <=? days); eexists; by split.
    + eexists. split; [done|]. split; [done|]. intros Hd.
      destruct (Z.leb_spec 30 days); [done|]. destruct (Z.leb_spec 14 days); [done|lia].
    + by apply not_elem_of_nil in Hin.
Qed.

Lemma refund_calculators_agree_witness :
  exists r, calculate_refund (Sample.booking CONFIRMED APS_PAID) 738997 = Ok (r, "moderate"%string) /\
    q2 r = q2 (AccommodationBooking._apply_policy_tiers "moderate" (Sample.eur 360) 3).
Proof.
  assert (Hin : "moderate"%string ∈ tier_names) by (unfold tier_names; set_solver).
  destruct (refund_calculators_agree (Sample.booking CONFIRMED APS_PAID)
    {| bp_property_id := 7; bp_cancellation_policy := Some "moderate"%string;
       bp_free_cancel_hours := 24; bp_allow_pay_now := None; bp_allow_pay_on_arrival := None;
       bp_allow_pay_at_checkout := None; bp_allow_deposit_payment := None;
       bp_deposit_percentage := None; bp_require_payment_guarantee := None;
       bp_require_guest_identity := None |}
    (CancellationPolicyModel.system_default MODERATE 5 10000 10000 0) Sample.property "moderate" 738997
    Hin eq_refl eq_refl eq_refl eq_refl (sample_money 360 ltac:(lia)) ltac:(simpl; lia))
    as (_ & _ & r & Hr & Hq).
  exists r. split; [exact Hr|exact Hq].
Defined.
