(* ===== verification/Inventory.v ===== *)
(** Ticket inventory for high-concurrency sales: app/events/inventory.py, the
    seat columns of app/events/models.py (TicketType) and the sweep of expired
    holds in app/events/tasks.py.

    Each operation is one database transaction and is modelled as one atomic
    step: the tier row is changed by a single conditional UPDATE, and the
    event-level check runs under the event's row lock. A hold is passed as the
    ORM object the caller loaded, which may be older than its row. *)

From stdpp Require Import sorting.
From S2P Require Import Prelude Tables.

Inductive ReservationStatus : Type :=
  | RESERVED | CONFIRMED | RELEASED | EXPIRED | CANCELLED.

#[export] Instance reservation_status_eq : EqDecision ReservationStatus.
Proof. solve_decision. Defined.

#[export, refine] Instance reservation_status_enum : PyEnum ReservationStatus := {
  enum_members := [RESERVED; CONFIRMED; RELEASED; EXPIRED; CANCELLED];
  enum_value s := match s with
    | RESERVED => "reserved" | CONFIRMED => "confirmed" | RELEASED => "released"
    | EXPIRED => "expired" | CANCELLED => "cancelled"
    end%string;
}.
Proof.
  - intros []; set_solver.
  - intros [] []; by intros [=].
Defined.

Definition TERMINAL : list ReservationStatus := [CONFIRMED; RELEASED; EXPIRED; CANCELLED].

Definition HOLD_TTL_MINUTES_DEFAULT : Z := 10.

Inductive inventory_error : Type :=
  | QuantityError                            (* ValueError *)
  | EventNotFound
  | EventFull                                (* "Event has reached full capacity" *)
  | TicketTypeNotFound
  | TicketTypeInactive
  | OnlyAvailable (n : Z)                    (* "Only n ticket(s) available" *)
  | InventoryUnavailable
  | HoldNotFound
  | HoldNotConfirmable (status : ReservationStatus)
  | ConstraintViolated.                      (* IntegrityError of a CHECK or UNIQUE *)

(** Event: the columns the inventory reads. *)
Record Event : Type := { ev_id : Z; ev_max_capacity : option Z }.

(** TicketType: a capacity of 0 is unlimited. *)
Record TicketType : Type := {
  tt_id : Z;
  tt_event_id : Z;
  tt_capacity : Z;
  tt_available_seats : option Z;
  tt_is_active : bool;
}.

Definition set_available (t : TicketType) (a : option Z) : TicketType := {|
  tt_id := tt_id t; tt_event_id := tt_event_id t; tt_capacity := tt_capacity t;
  tt_available_seats := a; tt_is_active := tt_is_active t;
|}.

Record TicketHold : Type := {
  th_id : Z;
  th_reservation_token : string;
  th_event_id : Z;
  th_ticket_type_id : Z;
  th_user_id : option Z;
  th_quantity : Z;
  th_status : ReservationStatus;
  th_idempotency_key : option string;
  th_wallet_txn_id : option string;
  th_hold_minutes : Z;
  th_expires_at : datetime;
  th_released_at : option datetime;
  th_release_reason : option string;
  th_converted_registration_id : option Z;
}.

(** The columns a status change writes. *)
Definition set_hold (h : TicketHold) (s : ReservationStatus) (txn : option string)
    (released_at : option datetime) (reason : option string) (registration : option Z)
    : TicketHold := {|
  th_id := th_id h;
  th_reservation_token := th_reservation_token h;
  th_event_id := th_event_id h;
  th_ticket_type_id := th_ticket_type_id h;
  th_user_id := th_user_id h;
  th_quantity := th_quantity h;
  th_status := s;
  th_idempotency_key := th_idempotency_key h;
  th_wallet_txn_id := txn;
  th_hold_minutes := th_hold_minutes h;
  th_expires_at := th_expires_at h;
  th_released_at := released_at;
  th_release_reason := reason;
  th_converted_registration_id := registration;
|}.

(** The rows of the three tables. *)
Record inv : Type := {
  inv_events : list Event;
  inv_tiers : list TicketType;
  inv_holds : list TicketHold;
}.

Definition with_tiers (s : inv) (l : list TicketType) : inv :=
  {| inv_events := inv_events s; inv_tiers := l; inv_holds := inv_holds s |}.
Definition with_holds (s : inv) (l : list TicketHold) : inv :=
  {| inv_events := inv_events s; inv_tiers := inv_tiers s; inv_holds := l |}.

(** * TicketHold methods *)

Definition is_expired_flag (now : Z) (h : TicketHold) : bool :=
  if decide (th_status h <> RESERVED) then false else as_utc (th_expires_at h) <=? now.

Definition mark_confirmed (h : TicketHold) (wallet_txn_id : option string)
    (registration_id : option Z) : TicketHold :=
  set_hold h CONFIRMED
    (match wallet_txn_id with Some _ => wallet_txn_id | None => th_wallet_txn_id h end)
    (th_released_at h) (Some "Converted to registration"%string)
    (match registration_id with Some _ => registration_id | None => th_converted_registration_id h end).

Definition mark_released (now : Z) (h : TicketHold) (reason : option string) : TicketHold :=
  set_hold h RELEASED (th_wallet_txn_id h) (Some (Aware now)) reason (th_converted_registration_id h).

Definition mark_expired (now : Z) (h : TicketHold) : TicketHold :=
  set_hold h EXPIRED (th_wallet_txn_id h) (Some (Aware now)) (Some "Hold expired"%string)
    (th_converted_registration_id h).

Definition mark_cancelled (now : Z) (h : TicketHold) (reason : option string) : TicketHold :=
  set_hold h CANCELLED (th_wallet_txn_id h) (Some (Aware now)) reason (th_converted_registration_id h).

(** Flushing a changed ORM object writes the row with its primary key. *)
Definition flush_hold (s : inv) (h : TicketHold) : inv :=
  with_holds s (update_where (fun r => th_id r =? th_id h) (fun _ => h) (inv_holds s)).

(** * Inventory primitives *)

(** [capacity - coalesce(available_seats, capacity)] *)
Definition consumed (t : TicketType) : Z :=
  tt_capacity t - default (tt_capacity t) (tt_available_seats t).

Definition limited_of (event_id : Z) (t : TicketType) : bool :=
  (tt_event_id t =? event_id) && (0 <? tt_capacity t).

Definition _event_consumed_seats (s : inv) (event_id : Z) : Z :=
  sum_Z (consumed <$> List.filter (limited_of event_id) (inv_tiers s)).

(** The WHERE clause of the conditional UPDATE; NULL >= q is not true. *)
Definition sellable (event_id ticket_type_id quantity : Z) (t : TicketType) : bool :=
  (tt_id t =? ticket_type_id) && (tt_event_id t =? event_id) && tt_is_active t
  && match tt_available_seats t with Some a => quantity <=? a | None => false end.

Definition take_seats (quantity : Z) (t : TicketType) : TicketType :=
  set_available t (option_map (fun a => a - quantity) (tt_available_seats t)).

Definition _atomic_decrement (s : inv) (event_id ticket_type_id quantity : Z)
    : result inventory_error inv :=
  if quantity <? 1 then Err QuantityError
  else
    let* event := of_option EventNotFound
      (List.find (fun e => ev_id e =? event_id) (inv_events s)) in
    let full := match ev_max_capacity event with
      | Some cap => if 0 <? cap then cap <? _event_consumed_seats s event_id + quantity else false
      | None => false
      end in
    if full then Err EventFull
    else
      let cond := sellable event_id ticket_type_id quantity in
      if rowcount cond (inv_tiers s) =? 0 then
        match List.find (fun t => (tt_id t =? ticket_type_id) && (tt_event_id t =? event_id))
                (inv_tiers s) with
        | None => Err TicketTypeNotFound
        | Some t =>
            if negb (tt_is_active t) then Err TicketTypeInactive
            else if tt_capacity t =? 0 then Ok s
            else let available := default (tt_capacity t) (tt_available_seats t) in
                 if available <? quantity then Err (OnlyAvailable available)
                 else Err InventoryUnavailable
        end
      else Ok (with_tiers s (update_where cond (take_seats quantity) (inv_tiers s))).

Definition decrement_capacity (s : inv) (ticket_type_id quantity : Z) (event_id : option Z)
    : result inventory_error inv :=
  if quantity <? 1 then Err QuantityError
  else
    let* event_id := match event_id with
      | Some e => Ok e
      | None => let* t := of_option TicketTypeNotFound
                  (List.find (fun t => tt_id t =? ticket_type_id) (inv_tiers s)) in
                Ok (tt_event_id t)
      end in
    _atomic_decrement s event_id ticket_type_id quantity.

Definition returnable (ticket_type_id : Z) (t : TicketType) : bool :=
  (tt_id t =? ticket_type_id) && (0 <? tt_capacity t).

Definition return_seats (quantity : Z) (t : TicketType) : TicketType :=
  set_available t (Some (Z.min (tt_capacity t)
    (default (tt_capacity t) (tt_available_seats t) + quantity))).

Definition increment_capacity (s : inv) (ticket_type_id quantity : Z) : inv * Z :=
  if quantity <? 1 then (s, 0)
  else (with_tiers s (update_where (returnable ticket_type_id) (return_seats quantity) (inv_tiers s)),
        rowcount (returnable ticket_type_id) (inv_tiers s)).

(** [hold_id] and [token] are the sequence value and [secrets.token_hex(16)];
    [config] is TICKET_HOLD_MINUTES. *)
Definition reserve_capacity (now : Z) (hold_id : Z) (token : string) (config : option Z)
    (s : inv) (event_id ticket_type_id quantity : Z) (user_id : option Z)
    (hold_minutes : option Z) (idempotency_key : option string)
    : result inventory_error (inv * TicketHold) :=
  if quantity <? 1 then Err QuantityError
  else
    let mins := match hold_minutes with
      | Some m => if m =? 0 then default HOLD_TTL_MINUTES_DEFAULT config else m
      | None => default HOLD_TTL_MINUTES_DEFAULT config
      end in
    let* s' := _atomic_decrement s event_id ticket_type_id quantity in
    let hold := {|
      th_id := hold_id; th_reservation_token := token; th_event_id := event_id;
      th_ticket_type_id := ticket_type_id; th_user_id := user_id; th_quantity := quantity;
      th_status := RESERVED; th_idempotency_key := idempotency_key; th_wallet_txn_id := None;
      th_hold_minutes := mins; th_expires_at := Aware (now + minutes mins);
      th_released_at := None; th_release_reason := None; th_converted_registration_id := None;
    |} in
    let violated := (mins <=? 0)
      || existsb (fun r => String.eqb (th_reservation_token r) token) (inv_holds s') in
    require negb violated else ConstraintViolated ;;
    Ok (with_holds s' (inv_holds s' ++ [hold]), hold).

Definition release_capacity (s : inv) (ticket_type_id quantity : Z) : inv * Z :=
  increment_capacity s ticket_type_id quantity.

(** [h] is the caller's object. *)
Definition release_hold (now : Z) (s : inv) (h : option TicketHold) (reason : option string)
    : inv * bool :=
  match h with
  | None => (s, false)
  | Some h =>
      if decide (th_status h <> RESERVED) then (s, false)
      else let s' := (release_capacity s (th_ticket_type_id h) (th_quantity h)).1 in
           (flush_hold s' (mark_released now h reason), true)
  end.

Definition confirm_reservation (s : inv) (h : option TicketHold) (wallet_txn_id : option string)
    (registration_id : option Z) : result inventory_error (inv * TicketHold) :=
  let* h := of_option HoldNotFound h in
  if decide (th_status h = CONFIRMED) then Ok (s, h)
  else if bool_decide (th_status h ∈ [RELEASED; EXPIRED; CANCELLED])
       then Err (HoldNotConfirmable (th_status h))
  else let h' := mark_confirmed h wallet_txn_id registration_id in
       Ok (flush_hold s h', h').

(** * The sweep of expired holds (app/events/tasks.py) *)

Definition by_id (a b : TicketHold) : Prop := th_id a <= th_id b.
#[export] Instance by_id_dec : RelDecision by_id.
Proof. intros a b. unfold by_id. apply _. Defined.

(** The page: reserved and expired rows after a given id, in id order, less the
    rows another transaction has locked (SKIP LOCKED), at most [batch_size]. *)
Definition expired_page (now : Z) (locked : Z -> bool) (s : inv) (batch_size after : Z)
    : list TicketHold :=
  take (Z.to_nat batch_size) (merge_sort by_id
    (List.filter (fun h => bool_decide (th_status h = RESERVED)
       && (as_utc (th_expires_at h) <=? now) && (after <? th_id h) && negb (locked (th_id h)))
       (inv_holds s))).

Fixpoint release_all (now : Z) (s : inv) (holds : list TicketHold) : inv * Z :=
  match holds with
  | [] => (s, 0)
  | h :: holds =>
      let '(s1, done) := release_hold now s (Some h) (Some "expired by beat"%string) in
      let '(s2, n) := release_all now s1 holds in
      (s2, (if done then 1 else 0) + n)
  end.

(** The state after the task, and the number of holds released. *)
Definition release_expired_ticket_holds (now : Z) (locked : Z -> bool) (s : inv)
    (batch_size after_hold_id : Z) : inv * Z :=
  let batch_size := Z.max 1 (Z.min batch_size 50) in
  let after := Z.max 0 after_hold_id in
  release_all now s (expired_page now locked s batch_size after).

(** * Seats of expired registrations (app/events/signal_handlers.py, tasks.py) *)

Definition tier_of (event_id ticket_type_id : Z) (t : TicketType) : bool :=
  (tt_id t =? ticket_type_id) && (tt_event_id t =? event_id).

(** [least(capacity, coalesce(available_seats, 0) + quantity)] *)
Definition give_back (quantity : Z) (t : TicketType) : TicketType :=
  set_available t (Some (Z.min (tt_capacity t) (default 0 (tt_available_seats t) + quantity))).

(** The receiver of the reaper's signal; the value tells whether it wrote a row (of an
    unlimited tier the version only). The row it has just read is there when it
    updates it, so the retries never run. *)
Definition handle_capacity_released (s : inv) (event_id ticket_type_id seats_released : Z) : inv * bool :=
  if ticket_type_id =? 0 then (s, false)
  else match List.find (tier_of event_id ticket_type_id) (inv_tiers s) with
  | None => (s, false)
  | Some t =>
      if tt_capacity t =? 0 then (s, true)
      else (with_tiers s (update_where (tier_of event_id ticket_type_id) (give_back seats_released)
                            (inv_tiers s)), true)
  end.

(** The task of the same purpose, which does not look at the capacity. *)
Definition release_expired_capacity (s : inv) (event_id ticket_type_id seats_to_release : Z) : inv * bool :=
  if rowcount (tier_of event_id ticket_type_id) (inv_tiers s) =? 0 then (s, false)
  else (with_tiers s (update_where (tier_of event_id ticket_type_id) (give_back seats_to_release)
                        (inv_tiers s)), true).

(** * TicketType methods (app/events/models.py) *)

(** [__init__]: seats start at the capacity. *)
Definition new_ticket_type (id event_id capacity : Z) (available : option Z) (active : bool)
    : TicketType := {|
  tt_id := id; tt_event_id := event_id; tt_capacity := capacity;
  tt_available_seats := match available with Some a => Some a | None => Some capacity end;
  tt_is_active := active;
|}.

Definition reserve_seat (s : inv) (t : TicketType) : inv * bool :=
  if tt_capacity t =? 0 then (s, true)
  else match decrement_capacity s (tt_id t) 1 (Some (tt_event_id t)) with
       | Ok s' => (s', true)
       | Err _ => (s, false)
       end.

Definition release_seat (s : inv) (t : TicketType) (count : Z) : inv :=
  if (tt_capacity t =? 0) || (count <? 1) then s
  else (increment_capacity s (tt_id t) count).1.

(** * Lemmas: one operation *)

(** What a successful decrement did: nothing, on an unlimited tier; otherwise
    seats were taken from sellable rows, within the event's cap. *)
Lemma decrement_Ok s eid tid q s' : _atomic_decrement s eid tid q = Ok s' ->
  1 <= q /\ inv_events s' = inv_events s /\ inv_holds s' = inv_holds s /\
  (exists e, e ∈ inv_events s /\ ev_id e = eid /\
     forall c, ev_max_capacity e = Some c -> 0 < c -> _event_consumed_seats s eid + q <= c) /\
  ((s' = s /\ exists t, t ∈ inv_tiers s /\ tt_id t = tid /\ tt_capacity t = 0) \/
   (inv_tiers s' = update_where (sellable eid tid q) (take_seats q) (inv_tiers s) /\
    exists t, t ∈ inv_tiers s /\ sellable eid tid q t = true)).
Proof.
  unfold _atomic_decrement. destruct (Z.ltb_spec q 1); [done|]. intros Hd. inv_ok Hd.
  apply List.find_some in Hok as [Hin%list_elem_of_In He%Z.eqb_eq].
  destruct (match ev_max_capacity a with Some c => _ | None => _ end) eqn:Hfull; [done|].
  assert (Hcap : exists e, e ∈ inv_events s /\ ev_id e = eid /\
     forall c, ev_max_capacity e = Some c -> 0 < c -> _event_consumed_seats s eid + q <= c).
  { exists a. split_and!; [done|done|]. intros c Hc Hc0. rewrite Hc in Hfull.
    destruct (Z.ltb_spec 0 c); [|lia]. by apply Z.ltb_ge in Hfull. }
  destruct (Z.eqb_spec (rowcount (sellable eid tid q) (inv_tiers s)) 0) as [Hrc|Hrc].
  - destruct (List.find _ (inv_tiers s)) as [t|] eqn:Ht; [|done].
    apply List.find_some in Ht as [Htin%list_elem_of_In [Hid%Z.eqb_eq _]%andb_true_iff].
    destruct (tt_is_active t); [|done]. simpl in Hd.
    destruct (Z.eqb_spec (tt_capacity t) 0); [|by case_match].
    injection Hd as <-. split_and!; try done. left. split; [done|]. by exists t.
  - injection Hd as <-. split_and!; try done. right. split; [done|]. by apply rowcount_pos.
Qed.

Lemma sellable_spec eid tid q t : sellable eid tid q t = true <->
  tt_id t = tid /\ tt_event_id t = eid /\ tt_is_active t = true /\
  exists a, tt_available_seats t = Some a /\ q <= a.
Proof.
  unfold sellable. rewrite !andb_true_iff, !Z.eqb_eq. destruct (tt_available_seats t) as [a|].
  - rewrite Z.leb_le. naive_solver.
  - naive_solver.
Qed.

Lemma decrement_capacity_Ok s tid q oe s' : decrement_capacity s tid q oe = Ok s' ->
  exists eid, _atomic_decrement s eid tid q = Ok s'.
Proof.
  unfold decrement_capacity. destruct (q <? 1); [done|]. intros Hd. inv_ok Hd. by eexists.
Qed.

Lemma reserve_Ok now hid tok cfg s eid tid q u m k s' h :
  reserve_capacity now hid tok cfg s eid tid q u m k = Ok (s', h) ->
  exists s1, _atomic_decrement s eid tid q = Ok s1 /\ s' = with_holds s1 (inv_holds s1 ++ [h]) /\
    th_id h = hid /\ th_ticket_type_id h = tid /\ th_event_id h = eid /\ th_quantity h = q /\
    th_status h = RESERVED.
Proof.
  unfold reserve_capacity. destruct (q <? 1); [done|]. intros Hr. inv_ok Hr.
  simplify_eq. exists a. by split_and!.
Qed.

(** * The invariant *)

Definition active (h : TicketHold) : bool := bool_decide (th_status h = RESERVED).

(** The seats of a tier a hold accounts for, until it is confirmed or given up. *)
Definition seats (tid : Z) (h : TicketHold) : Z :=
  if (th_ticket_type_id h =? tid) && active h then th_quantity h else 0.

Definition held (s : inv) (tid : Z) : Z := sum_Z (seats tid <$> inv_holds s).

(** A state with, for each tier, the seats sold and not yet returned: those of
    confirmed holds and those [decrement_capacity] took for the older registration
    paths. *)
Definition world : Type := inv * (Z -> Z).

Definition bump (g : Z -> Z) (tid q : Z) : Z -> Z :=
  fun x => if x =? tid then g x + q else g x.

Record keys_ok (s : inv) : Prop := {
  ko_tiers : NoDup (tt_id <$> inv_tiers s);
  ko_holds : NoDup (th_id <$> inv_holds s);
  ko_events : NoDup (ev_id <$> inv_events s);
  ko_quantity : forall h, h ∈ inv_holds s -> 0 < th_quantity h;
}.

(** Every seat of a limited tier is available, held or sold. *)
Definition balanced (s : inv) (g : Z -> Z) : Prop :=
  forall t, t ∈ inv_tiers s -> 0 < tt_capacity t ->
    exists a, tt_available_seats t = Some a /\ 0 <= a /\
      a + held s (tt_id t) + g (tt_id t) = tt_capacity t.

Definition within_caps (s : inv) : Prop :=
  forall e c, e ∈ inv_events s -> ev_max_capacity e = Some c -> 0 < c ->
    _event_consumed_seats s (ev_id e) <= c.

Definition Inv (w : world) : Prop :=
  keys_ok w.1 /\ (forall tid, 0 <= w.2 tid) /\ balanced w.1 w.2 /\ within_caps w.1.

(** The steps: any operation, at any time, by any caller, under two conditions on
    the callers. A hold is handed to [release_hold] and [confirm_reservation] as it
    stands in its row (the sweep loads it FOR UPDATE; [stale_double_release] is what
    an older object does), and the seats given back by [increment_capacity], by the
    reaper's signal and by its task were sold and not given back before. *)
Inductive step : world -> world -> Prop :=
  | step_reserve now hid tok cfg s g eid tid q u m k s' h :
      reserve_capacity now hid tok cfg s eid tid q u m k = Ok (s', h) ->
      hid ∉ th_id <$> inv_holds s ->
      step (s, g) (s', g)
  | step_decrement s g tid q oe s' :
      decrement_capacity s tid q oe = Ok s' ->
      step (s, g) (s', bump g tid q)
  | step_increment s g tid q :
      1 <= q <= g tid ->
      step (s, g) ((increment_capacity s tid q).1, bump g tid (- q))
  | step_release now s g h reason :
      h ∈ inv_holds s ->
      step (s, g) ((release_hold now s (Some h) reason).1, g)
  | step_confirm s g h txn reg s' h' :
      h ∈ inv_holds s ->
      confirm_reservation s (Some h) txn reg = Ok (s', h') ->
      step (s, g) (s', if active h then bump g (th_ticket_type_id h) (th_quantity h) else g)
  | step_reaped s g eid tid q :
      1 <= q <= g tid ->
      step (s, g) ((handle_capacity_released s eid tid q).1,
                   if (handle_capacity_released s eid tid q).2 then bump g tid (- q) else g)
  | step_expired s g eid tid q :
      1 <= q <= g tid ->
      step (s, g) ((release_expired_capacity s eid tid q).1,
                   if (release_expired_capacity s eid tid q).2 then bump g tid (- q) else g)
  | step_sweep now locked s g batch after :
      step (s, g) ((release_expired_ticket_holds now locked s batch after).1, g).

(** A sale that opens: every limited tier full, no hold yet. *)
Record opening (s : inv) : Prop := {
  op_keys : keys_ok s;
  op_holds : inv_holds s = [];
  op_tiers : forall t, t ∈ inv_tiers s -> tt_available_seats t = Some (tt_capacity t);
}.

Lemma event_consumed_sum s eid : _event_consumed_seats s eid =
  sum_Z ((fun t => if limited_of eid t then consumed t else 0) <$> inv_tiers s).
Proof.
  unfold _event_consumed_seats. induction (inv_tiers s) as [|t l IH]; [done|].
  rewrite sum_cons. simpl List.filter. destruct (limited_of eid t); rewrite ?sum_cons; lia.
Qed.

Lemma opening_Inv s : opening s -> Inv (s, fun _ => 0).
Proof.
  intros [Hk Hh Ht]. split_and!; [done|done| |].
  - intros t Hin Hc. exists (tt_capacity t). split_and!; [by apply Ht|lia|].
    unfold held. simpl. rewrite Hh. simpl. lia.
  - intros e c _ _ Hc. simpl. rewrite event_consumed_sum.
    assert (H0 : forall l, (forall t, t ∈ l -> tt_available_seats t = Some (tt_capacity t)) ->
      sum_Z ((fun t => if limited_of (ev_id e) t then consumed t else 0) <$> l) = 0).
    { induction l as [|t l IH]; intros Hl; [done|]. rewrite sum_cons, IH by set_solver.
      unfold consumed. rewrite (Hl t) by set_solver. simpl. destruct (limited_of _ _); lia. }
    rewrite H0 by done. lia.
Qed.

(** * Preservation *)

Lemma sum_ge_elem {A} (f : A -> Z) l x : x ∈ l -> (forall y, y ∈ l -> 0 <= f y) ->
  f x <= sum_Z (f <$> l).
Proof.
  induction l as [|z l IH]; [by intros ?%not_elem_of_nil|]. intros Hx Hpos. rewrite sum_cons.
  pose proof (sum_nonneg f l ltac:(set_solver)). pose proof (Hpos z ltac:(set_solver)).
  apply elem_of_cons in Hx as [->|Hx]; [lia|]. specialize (IH Hx ltac:(set_solver)). lia.
Qed.

Lemma sum_update_mono {A} (g : A -> Z) c f l :
  (forall x, x ∈ l -> c x = true -> g (f x) <= g x) ->
  sum_Z (g <$> update_where c f l) <= sum_Z (g <$> l).
Proof.
  induction l as [|z l IH]; [done|]. intros Hg. rewrite update_cons, !sum_cons.
  specialize (IH ltac:(set_solver)). destruct (c z) eqn:Hc; [|lia].
  specialize (Hg z ltac:(set_solver) Hc). lia.
Qed.

Lemma seats_nonneg s tid h : keys_ok s -> h ∈ inv_holds s -> 0 <= seats tid h <= th_quantity h.
Proof. intros Hk Hh. pose proof (ko_quantity s Hk h Hh). unfold seats. case_match; lia. Qed.

Lemma seats_reserved tid h : th_status h = RESERVED ->
  seats tid h = if th_ticket_type_id h =? tid then th_quantity h else 0.
Proof. intros E. unfold seats, active. rewrite E. by destruct (_ =? tid). Qed.

Lemma held_nonneg s tid : keys_ok s -> 0 <= held s tid.
Proof. intros Hk. apply sum_nonneg. intros h Hh. by apply (seats_nonneg s). Qed.

Lemma seats_le_held s tid h : keys_ok s -> h ∈ inv_holds s -> seats tid h <= held s tid.
Proof.
  intros Hk Hh. apply (sum_ge_elem (seats tid)); [done|]. intros y Hy. by apply (seats_nonneg s).
Qed.

Section decrement.
Context (s : inv) (g : Z -> Z) (eid tid q : Z) (s' : inv).
Context (Hk : keys_ok s) (Hb : balanced s g) (Hd : _atomic_decrement s eid tid q = Ok s').

Lemma decrement_keys : keys_ok s'.
Proof using Hk Hd.
  destruct (decrement_Ok _ _ _ _ _ Hd) as (_ & He & Hh & _ & Hcase).
  destruct Hk as [K1 K2 K3 K4]. split; rewrite ?He, ?Hh; try done.
  destruct Hcase as [[-> _]|[-> _]]; [done|]. by rewrite (update_keys tt_id).
Qed.

Lemma decrement_balanced t : t ∈ inv_tiers s' -> 0 < tt_capacity t ->
  exists a, tt_available_seats t = Some a /\ 0 <= a /\
    a + held s (tt_id t) + g (tt_id t) + (if tt_id t =? tid then q else 0) = tt_capacity t.
Proof using Hk Hb Hd.
  intros Ht Hc. destruct (decrement_Ok _ _ _ _ _ Hd) as (Hq & _ & _ & _ & Hcase).
  destruct Hcase as [(-> & t0 & Ht0 & Hid & Hz)|(Htiers & t0 & Ht0 & Hs0)].
  - destruct (Z.eqb_spec (tt_id t) tid) as [E|_].
    + assert (t = t0) as ->; [|lia]. apply (key_unique tt_id (inv_tiers s)); try done.
      * apply Hk.
      * congruence.
    + destruct (Hb t Ht Hc) as (a & Ha & H0 & Hsum). exists a. split_and!; [done|done|lia].
  - rewrite Htiers in Ht. apply elem_of_update in Ht as (t1 & Ht1 & ->).
    apply sellable_spec in Hs0 as Hs0'. destruct Hs0' as (Hid0 & _ & _ & a0 & Ha0 & Hq0).
    destruct (sellable eid tid q t1) eqn:Hs1.
    + apply sellable_spec in Hs1 as (Hid1 & _ & _ & a & Ha & Hqa). simpl in Hc.
      destruct (Hb t1 Ht1 Hc) as (a' & Ha' & H0 & Hsum). rewrite Ha in Ha'. simplify_eq.
      simpl. rewrite Ha. simpl. rewrite Z.eqb_refl. exists (a' - q). split_and!; [done|lia|lia].
    + destruct (Hb t1 Ht1 Hc) as (a & Ha & H0 & Hsum).
      destruct (Z.eqb_spec (tt_id t1) tid) as [E|_].
      * exfalso. assert (t1 = t0) as ->; [|congruence].
        apply (key_unique tt_id (inv_tiers s)); [apply Hk|done|done|congruence].
      * exists a. split_and!; [done|done|lia].
Qed.

Lemma decrement_caps : within_caps s -> within_caps s'.
Proof using Hk Hd.
  intros Hw e c Hin Hmax Hc.
  destruct (decrement_Ok _ _ _ _ _ Hd) as (Hq & He & _ & (e0 & He0 & Hid0 & Hcap0) & Hcase).
  rewrite He in Hin. destruct Hcase as [(-> & _)|(Htiers & _)]; [by eapply Hw|].
  rewrite event_consumed_sum, Htiers.
  set (f := fun t => if limited_of (ev_id e) t then consumed t else 0).
  destruct (Z.eq_dec (ev_id e) eid) as [E|Hne].
  - assert (e = e0) as ->; [apply (key_unique ev_id (inv_events s)); [apply Hk|done|done|congruence]|].
    specialize (Hcap0 c Hmax Hc). rewrite event_consumed_sum, <- E in Hcap0. fold f in Hcap0.
    etransitivity; [|exact Hcap0]. apply (sum_update_le tt_id f _ _ _ tid q); [apply Hk|lia| |].
    + intros t. rewrite sellable_spec. naive_solver.
    + intros t Hs _. apply sellable_spec in Hs as (_ & _ & _ & a & Ha & Hqa).
      unfold f, limited_of, consumed. simpl. rewrite Ha. simpl. case_match; lia.
  - pose proof (Hw e c Hin Hmax Hc) as H. rewrite event_consumed_sum in H. fold f in H.
    etransitivity; [|exact H]. apply sum_update_mono. intros t _ Hs.
    apply sellable_spec in Hs as (_ & Hev & _). unfold f, limited_of. simpl.
    destruct (Z.eqb_spec (tt_event_id t) (ev_id e)); [congruence|]. done.
Qed.
End decrement.

(** Returning seats that are out. *)
Section increment.
Context (s : inv) (g : Z -> Z) (tid q : Z).
Context (Hk : keys_ok s) (Hb : balanced s g) (Hw : within_caps s).
Context (Hg : forall x, 0 <= g x) (Hq : 1 <= q <= held s tid + g tid).

Let s' := (increment_capacity s tid q).1.

Lemma increment_eq : s' = with_tiers s (update_where (returnable tid) (return_seats q) (inv_tiers s)).
Proof using Hq.
  unfold s', increment_capacity. destruct (Z.ltb_spec q 1); [lia|done].
Qed.

Lemma increment_keys : keys_ok s'.
Proof using Hk Hq.
  rewrite increment_eq. destruct Hk as [K1 K2 K3 K4]. split; simpl; try done.
  by rewrite (update_keys tt_id).
Qed.

Lemma increment_balanced t : t ∈ inv_tiers s' -> 0 < tt_capacity t ->
  exists a, tt_available_seats t = Some a /\ 0 <= a /\
    a + held s (tt_id t) + g (tt_id t) = tt_capacity t + (if tt_id t =? tid then q else 0).
Proof using Hb Hq.
  rewrite increment_eq. simpl. intros Ht Hc. apply elem_of_update in Ht as (t1 & Ht1 & ->).
  unfold returnable in *. destruct (Z.eqb_spec (tt_id t1) tid) as [E|E]; simpl in *.
  - destruct (Z.ltb_spec 0 (tt_capacity t1)) as [Hc1|]; simpl in *; [|lia].
    destruct (Hb t1 Ht1 Hc1) as (a & Ha & H0 & Hsum). rewrite Ha. simpl. rewrite E, Z.eqb_refl in *.
    exists (Z.min (tt_capacity t1) (a + q)). split_and!; [done|lia|lia].
  - destruct (Hb t1 Ht1 Hc) as (a & Ha & H0 & Hsum). exists a.
    destruct (Z.eqb_spec (tt_id t1) tid); [done|]. split_and!; [done|done|lia].
Qed.

Lemma increment_caps : within_caps s'.
Proof using Hk Hb Hw Hg Hq.
  rewrite increment_eq. intros e c Hin Hmax Hc. pose proof (Hw e c Hin Hmax Hc) as H.
  rewrite event_consumed_sum in *. simpl. etransitivity; [|exact H].
  apply sum_update_mono. intros t Ht Hr. unfold returnable in Hr.
  apply andb_true_iff in Hr as [_ Hc1%Z.ltb_lt].
  destruct (Hb t Ht Hc1) as (a & Ha & H0 & Hsum).
  pose proof (held_nonneg s (tt_id t) Hk). specialize (Hg (tt_id t)).
  unfold limited_of, consumed. simpl. rewrite Ha. simpl. case_match; lia.
Qed.
End increment.

Lemma write_keys {A} (key : A -> Z) l x y : key y = key x ->
  key <$> update_where (fun r => key r =? key x) (fun _ => y) l = key <$> l.
Proof.
  intros E. induction l as [|z l IH]; [done|]. rewrite update_cons, !fmap_cons, IH.
  destruct (Z.eqb_spec (key z) (key x)); [by rewrite E; f_equal|done].
Qed.

(** Writing a new version of a held row. *)
Section flush.
Context (s : inv) (h h' : TicketHold).
Context (Hk : keys_ok s) (Hh : h ∈ inv_holds s).
Context (Hid : th_id h' = th_id h) (Hq : th_quantity h' = th_quantity h).

Lemma flush_eq : flush_hold s h' =
  with_holds s (update_where (fun r => th_id r =? th_id h) (fun _ => h') (inv_holds s)).
Proof using Hid. unfold flush_hold. by rewrite Hid. Qed.

Lemma flush_keys : keys_ok (flush_hold s h').
Proof using Hk Hh Hid Hq.
  rewrite flush_eq. destruct Hk as [K1 K2 K3 K4]. split; simpl; try done.
  - by rewrite (write_keys th_id).
  - intros r Hr. destruct (write_elem th_id _ _ _ _ K2 Hid Hr) as [->|[Hin _]]; [|by apply K4].
    rewrite Hq. by apply K4.
Qed.

Lemma flush_held tid : held (flush_hold s h') tid = held s tid - seats tid h + seats tid h'.
Proof using Hk Hh Hid.
  rewrite flush_eq. unfold held. simpl. apply (sum_write th_id); [apply Hk|done|done].
Qed.
End flush.

Lemma release_Inv now s g h reason : h ∈ inv_holds s -> Inv (s, g) ->
  Inv ((release_hold now s (Some h) reason).1, g).
Proof.
  intros Hh (Hk & Hg & Hb & Hw). simpl in *. unfold release_hold.
  destruct (decide (th_status h <> RESERVED)) as [|Hst]; [done|].
  assert (Hres : th_status h = RESERVED) by (destruct (decide (th_status h = RESERVED)); tauto).
  unfold release_capacity. set (tid := th_ticket_type_id h). set (q := th_quantity h).
  assert (Hseats : forall x, seats x h = if tid =? x then q else 0) by (intros; by apply seats_reserved).
  assert (Hq : 1 <= q <= held s tid + g tid).
  { pose proof (seats_le_held s tid h Hk Hh) as Hle. rewrite Hseats, Z.eqb_refl in Hle.
    pose proof (ko_quantity s Hk h Hh). specialize (Hg tid). unfold q in *. lia. }
  set (s1 := (increment_capacity s tid q).1).
  assert (Hh1 : inv_holds s1 = inv_holds s) by (unfold s1; by rewrite (increment_eq s g)).
  assert (Hk1 : keys_ok s1) by (by apply (increment_keys s g)).
  set (h' := mark_released now h reason).
  assert (Hin1 : h ∈ inv_holds s1) by (by rewrite Hh1).
  split_and!; simpl.
  - by apply (flush_keys s1 h h').
  - done.
  - intros t Ht Hc. rewrite (flush_held s1 h h') by done.
    destruct (increment_balanced s g tid q Hb Hq t Ht Hc) as (a & Ha & H0 & Hsum).
    exists a. split_and!; [done|done|]. rewrite Hseats.
    assert (Hz : seats (tt_id t) h' = 0) by (unfold seats; by rewrite andb_false_r).
    rewrite Hz. unfold held in *. rewrite Hh1. rewrite (Z.eqb_sym tid). lia.
  - by apply (increment_caps s g tid q Hk Hb Hw Hg Hq).
Qed.

Lemma confirm_Inv s g h txn reg s' h' : h ∈ inv_holds s ->
  confirm_reservation s (Some h) txn reg = Ok (s', h') -> Inv (s, g) ->
  Inv (s', if active h then bump g (th_ticket_type_id h) (th_quantity h) else g).
Proof.
  intros Hh Hc (Hk & Hg & Hb & Hw). simpl in *. unfold confirm_reservation in Hc. simpl in Hc.
  destruct (decide (th_status h = CONFIRMED)) as [Hcf|Hne].
  { injection Hc as <- <-. unfold active. by rewrite Hcf. }
  destruct (bool_decide (th_status h ∈ [RELEASED; EXPIRED; CANCELLED])) eqn:Hterm; [done|]. injection Hc as <- <-.
  assert (Hres : th_status h = RESERVED).
  { apply bool_decide_eq_false in Hterm. destruct (th_status h); set_solver. }
  pose proof (ko_quantity s Hk h Hh) as Hq.
  replace (active h) with true by (unfold active; by rewrite Hres).
  split_and!; simpl.
  - by apply (flush_keys s h).
  - intros x. unfold bump. specialize (Hg x). destruct (x =? th_ticket_type_id h); lia.
  - intros t Ht Hcap. rewrite (flush_held s h) by done.
    assert (E : seats (tt_id t) (mark_confirmed h txn reg) = 0) by (unfold seats; by rewrite andb_false_r).
    rewrite E, seats_reserved by done. destruct (Hb t Ht Hcap) as (a & Ha & H0 & Hsum).
    exists a. split_and!; [done|done|]. unfold bump. rewrite (Z.eqb_sym (tt_id t)). case_match; lia.
  - done.
Qed.

Lemma release_all_Inv now page : forall s g, NoDup (th_id <$> page) ->
  (forall h, h ∈ page -> h ∈ inv_holds s) -> Inv (s, g) -> Inv ((release_all now s page).1, g).
Proof.
  induction page as [|h page IH]; intros s g Hnd Hin HI; [done|].
  rewrite fmap_cons, list.NoDup_cons in Hnd. destruct Hnd as [Hnew Hnd]. cbn [release_all].
  pose proof (release_Inv now s g h (Some "expired by beat"%string) (Hin h ltac:(set_solver)) HI) as HI1.
  destruct (release_hold now s (Some h) (Some "expired by beat"%string)) as [s1 done1] eqn:Hr.
  simpl in HI1. specialize (IH s1 g Hnd). destruct (release_all now s1 page) as [s2 n].
  simpl in IH. simpl. apply IH; [|done]. intros r Hr'. unfold release_hold in Hr.
  specialize (Hin r ltac:(set_solver)).
  destruct (decide _); [by simplify_eq|]. injection Hr as <- _. unfold release_capacity, increment_capacity.
  assert (Hne : th_id r <> th_id h).
  { intros E. apply Hnew. rewrite <- E. by apply list_elem_of_fmap_2. }
  destruct (_ <? 1); simpl; by apply (write_other th_id _ h).
Qed.

Lemma filter_keys {A} (key : A -> Z) c l : NoDup (key <$> l) -> NoDup (key <$> List.filter c l).
Proof.
  induction l as [|x l IH]; [done|]. rewrite fmap_cons, list.NoDup_cons. intros [Hx Hnd]. simpl.
  destruct (c x); [|by apply IH]. rewrite fmap_cons. apply list.NoDup_cons. split; [|by apply IH].
  intros Hin. apply Hx. apply list_elem_of_fmap in Hin as (y & -> & Hy).
  apply list_elem_of_In, List.filter_In in Hy as [Hy _]. by apply list_elem_of_fmap_2, list_elem_of_In.
Qed.

Lemma page_ok now locked s batch after : keys_ok s ->
  NoDup (th_id <$> expired_page now locked s batch after) /\
  forall h, h ∈ expired_page now locked s batch after -> h ∈ inv_holds s /\ th_status h = RESERVED /\
    as_utc (th_expires_at h) <= now /\ after < th_id h /\ locked (th_id h) = false.
Proof.
  intros Hk. unfold expired_page. set (c := fun h => _). set (l := List.filter c (inv_holds s)).
  pose proof (merge_sort_Permutation by_id l) as Hp. split.
  - rewrite fmap_take. eapply sublist_NoDup; [|apply sublist_take].
    rewrite Hp. apply filter_keys, Hk.
  - intros h Hh. apply elem_of_take in Hh as (i & Hi & _). apply list_elem_of_lookup_2 in Hi.
    rewrite Hp in Hi. apply list_elem_of_In, List.filter_In in Hi as [Hin Hc].
    unfold c in Hc. rewrite !andb_true_iff in Hc. destruct Hc as [[[Hs He] Ha] Hl].
    split_and!; [by apply list_elem_of_In|by apply bool_decide_eq_true in Hs|by apply Z.leb_le
      |by apply Z.ltb_lt|by apply negb_true_iff].
Qed.

Lemma reserve_keys s eid tid q s1 h hid : keys_ok s -> _atomic_decrement s eid tid q = Ok s1 ->
  th_id h = hid -> th_quantity h = q -> hid ∉ th_id <$> inv_holds s ->
  keys_ok (with_holds s1 (inv_holds s1 ++ [h])).
Proof.
  intros Hk Hd Hid Hqty Hfresh. destruct (decrement_Ok _ _ _ _ _ Hd) as (Hq & _ & Hholds & _ & _).
  destruct (decrement_keys _ _ _ _ _ Hk Hd) as [K1 K2 K3 K4]. split; simpl; try done.
  - rewrite fmap_app, list.NoDup_app. split_and!; [done| |by apply NoDup_singleton].
    intros x Hx Hx'. apply list_elem_of_singleton in Hx' as ->. apply Hfresh.
    rewrite Hholds in Hx. by rewrite <- Hid.
  - intros r [Hr|Hr]%elem_of_app; [by apply K4|]. apply list_elem_of_singleton in Hr as ->. lia.
Qed.

(** ** Seats given back *)

Lemma increment_Inv s g tid q : 1 <= q <= g tid -> Inv (s, g) ->
  Inv ((increment_capacity s tid q).1, bump g tid (- q)).
Proof.
  intros Hq (Hk & Hg & Hb & Hw). simpl in *.
  pose proof (held_nonneg s tid Hk). assert (Hq' : 1 <= q <= held s tid + g tid) by lia.
  split_and!; simpl.
  - by apply (increment_keys s g).
  - intros x. unfold bump. specialize (Hg x). destruct (Z.eqb_spec x tid); subst; lia.
  - intros t Ht Hc. destruct (increment_balanced s g tid q Hb Hq' t Ht Hc) as (a & Ha & H0 & Hsum).
    exists a. split_and!; [done|done|]. rewrite (increment_eq s g) by done.
    change (held _ (tt_id t)) with (held s (tt_id t)). unfold bump.
    destruct (tt_id t =? tid); lia.
  - by apply (increment_caps s g tid q Hk Hb Hw Hg).
Qed.

Lemma tier_of_spec eid tid t : tier_of eid tid t = true <-> tt_id t = tid /\ tt_event_id t = eid.
Proof. unfold tier_of. by rewrite andb_true_iff, !Z.eqb_eq. Qed.

(** On a limited tier both forms of the update give back the same seats. *)
Lemma give_back_limited s g eid tid q t : Inv (s, g) -> 1 <= q ->
  t ∈ inv_tiers s -> tier_of eid tid t = true -> 0 < tt_capacity t ->
  with_tiers s (update_where (tier_of eid tid) (give_back q) (inv_tiers s)) = (increment_capacity s tid q).1.
Proof.
  intros (Hk & _ & Hb & _) Hq Ht Hm Hc. unfold increment_capacity.
  destruct (Z.ltb_spec q 1); [lia|]. simpl. f_equal. apply tier_of_spec in Hm as [Hid Hev].
  apply list_fmap_ext. intros i r Hr%list_elem_of_lookup_2.
  unfold tier_of, returnable. destruct (Z.eqb_spec (tt_id r) tid) as [E|]; [|done].
  assert (r = t) as -> by (apply (key_unique tt_id (inv_tiers s)); [apply Hk|done|done|congruence]).
  rewrite Hev, Z.eqb_refl. destruct (Z.ltb_spec 0 (tt_capacity t)); [|lia]. simpl.
  destruct (Hb t Ht Hc) as (a & Ha & _). unfold give_back, return_seats. by rewrite Ha.
Qed.

(** An unlimited tier counts for nothing. *)
Lemma give_back_unlimited s g eid tid q t : Inv (s, g) ->
  t ∈ inv_tiers s -> tier_of eid tid t = true -> tt_capacity t <= 0 -> 1 <= q <= g tid ->
  Inv (with_tiers s (update_where (tier_of eid tid) (give_back q) (inv_tiers s)), bump g tid (- q)).
Proof.
  intros (Hk & Hg & Hb & Hw) Ht Hm Hc Hq. simpl in *. apply tier_of_spec in Hm as [Hid _].
  assert (Hun : forall r, r ∈ inv_tiers s -> tier_of eid tid r = true -> r = t).
  { intros r Hr [E _]%tier_of_spec. apply (key_unique tt_id (inv_tiers s)); [apply Hk|done|done|congruence]. }
  split_and!; simpl.
  - destruct Hk. split; simpl; try done. by rewrite (update_keys tt_id).
  - intros x. unfold bump. specialize (Hg x). destruct (Z.eqb_spec x tid); subst; lia.
  - intros r (r1 & Hr1 & ->)%elem_of_update Hcr.
    destruct (tier_of eid tid r1) eqn:E; [rewrite (Hun r1 Hr1 E) in Hcr; simpl in Hcr; lia|].
    destruct (Hb r1 Hr1 Hcr) as (a & Ha & H0 & Hsum). exists a. split_and!; [done|done|]. unfold bump.
    destruct (Z.eqb_spec (tt_id r1) tid) as [E1|]; [|done]. exfalso.
    assert (r1 = t) as -> by (apply (key_unique tt_id (inv_tiers s)); [apply Hk|done|done|congruence]). lia.
  - intros e c He Hmax Hpos. pose proof (Hw e c He Hmax Hpos) as Hle. rewrite event_consumed_sum in *. simpl.
    etransitivity; [|exact Hle]. apply sum_update_mono. intros r Hr E. rewrite (Hun r Hr E).
    unfold limited_of. simpl. destruct (Z.ltb_spec 0 (tt_capacity t)); [lia|]. by rewrite !andb_false_r.
Qed.

Lemma give_back_Inv s g eid tid q t : Inv (s, g) -> 1 <= q <= g tid ->
  t ∈ inv_tiers s -> tier_of eid tid t = true ->
  Inv (with_tiers s (update_where (tier_of eid tid) (give_back q) (inv_tiers s)), bump g tid (- q)).
Proof.
  intros HI Hq Ht Hm. destruct (Z.lt_ge_cases 0 (tt_capacity t)).
  - rewrite (give_back_limited s g eid tid q t) by (done || lia). by apply increment_Inv.
  - by apply (give_back_unlimited s g eid tid q t).
Qed.

Lemma expired_Inv s g eid tid q : 1 <= q <= g tid -> Inv (s, g) ->
  Inv ((release_expired_capacity s eid tid q).1,
       if (release_expired_capacity s eid tid q).2 then bump g tid (- q) else g).
Proof.
  intros Hq HI. unfold release_expired_capacity. destruct (Z.eqb_spec (rowcount (tier_of eid tid) (inv_tiers s)) 0) as [|Hn]; [done|].
  destruct (rowcount_pos (tier_of eid tid) (inv_tiers s)) as (t & Ht & Hm); [done|]. simpl.
  by apply (give_back_Inv s g eid tid q t).
Qed.

(** What is said of an unlimited tier as sold does not matter. *)
Lemma unlimited_Inv s g eid tid q t : Inv (s, g) -> 1 <= q <= g tid ->
  t ∈ inv_tiers s -> tier_of eid tid t = true -> tt_capacity t <= 0 -> Inv (s, bump g tid (- q)).
Proof.
  intros (Hk & Hg & Hb & Hw) Hq Ht [Hid _]%tier_of_spec Hc. simpl in *. split_and!; [done| |intros r Hr Hcr|done]; simpl.
  - intros x. unfold bump. specialize (Hg x). destruct (Z.eqb_spec x tid); subst; lia.
  - destruct (Hb r Hr Hcr) as (a & Ha & H0 & Hsum). exists a. split_and!; [done|done|]. unfold bump.
    destruct (Z.eqb_spec (tt_id r) tid) as [E|]; [|done]. exfalso.
    assert (r = t) as -> by (apply (key_unique tt_id (inv_tiers s)); [apply Hk|done|done|congruence]). lia.
Qed.

Lemma reaped_Inv s g eid tid q : 1 <= q <= g tid -> Inv (s, g) ->
  Inv ((handle_capacity_released s eid tid q).1,
       if (handle_capacity_released s eid tid q).2 then bump g tid (- q) else g).
Proof.
  intros Hq HI. unfold handle_capacity_released. destruct (tid =? 0); [done|].
  destruct (List.find (tier_of eid tid) (inv_tiers s)) as [t|] eqn:Hf; [|done].
  apply List.find_some in Hf as [Ht%list_elem_of_In Hm].
  destruct (Z.eqb_spec (tt_capacity t) 0) as [Hc|]; simpl.
  - apply (unlimited_Inv s g eid tid q t); [done..|lia].
  - by apply (give_back_Inv s g eid tid q t).
Qed.

Lemma step_Inv w w' : step w w' -> Inv w -> Inv w'.
Proof.
  destruct 1 as [now hid tok cfg s g eid tid q u m k s' h Hr Hfresh|s g tid q oe s' Hd
    |s g tid q Hq|now s g h reason Hh|s g h txn reg s' h' Hh Hc|s g eid tid q Hq|s g eid tid q Hq
    |now locked s g batch after];
    intros HI; pose proof HI as (Hk & Hg & Hb & Hw); simpl in *.
  - apply reserve_Ok in Hr as (s1 & Hd & -> & Hid & Htid & _ & Hqty & Hst).
    destruct (decrement_Ok _ _ _ _ _ Hd) as (Hq & _ & Hholds & _ & _).
    split_and!; simpl.
    + by apply (reserve_keys s eid tid q s1 h hid).
    + done.
    + intros t Ht Hc. destruct (decrement_balanced s g eid tid q s1 Hk Hb Hd t Ht Hc)
        as (a & Ha & H0 & Hsum).
      exists a. split_and!; [done|done|]. unfold held in *. simpl. rewrite fmap_app, sum_app, Hholds.
      change (seats (tt_id t) <$> [h]) with [seats (tt_id t) h]. rewrite seats_reserved by done.
      rewrite Htid, Hqty, (Z.eqb_sym tid). cbn [sum_Z foldr]. lia.
    + exact (decrement_caps s eid tid q s1 Hk Hd Hw).
  - apply decrement_capacity_Ok in Hd as [eid Hd].
    destruct (decrement_Ok _ _ _ _ _ Hd) as (Hq & _ & Hholds & _ & _).
    split_and!; simpl.
    + by eapply decrement_keys.
    + intros x. unfold bump. specialize (Hg x). destruct (x =? tid); lia.
    + intros t Ht Hc. destruct (decrement_balanced s g eid tid q s' Hk Hb Hd t Ht Hc)
        as (a & Ha & H0 & Hsum).
      exists a. split_and!; [done|done|]. unfold bump, held in *. rewrite Hholds.
      destruct (tt_id t =? tid); lia.
    + exact (decrement_caps s eid tid q s' Hk Hd Hw).
  - by apply increment_Inv.
  - by apply release_Inv.
  - by eapply confirm_Inv.
  - by apply reaped_Inv.
  - by apply expired_Inv.
  - destruct (page_ok now locked s (Z.max 1 (Z.min batch 50)) (Z.max 0 after) Hk) as [Hnd Hin].
    apply release_all_Inv; [done|naive_solver|done].
Qed.

Lemma reachable_Inv s0 s g : opening s0 -> rtc step (s0, fun _ => 0) (s, g) -> Inv (s, g).
Proof.
  intros Ho Hr. apply opening_Inv in Ho. revert Ho.
  generalize (s0, fun _ : Z => 0) (s, g) Hr. clear. intros w w' Hr. induction Hr; eauto using step_Inv.
Qed.

(** Releasing a hold leaves the other rows, and a hold that is not reserved,
    as they are. *)
Lemma release_other now s h h1 reason : keys_ok s -> h ∈ inv_holds s -> h1 ∈ inv_holds s ->
  th_status h <> RESERVED -> h ∈ inv_holds (release_hold now s (Some h1) reason).1.
Proof.
  intros Hk Hh Hh1 Hnr. unfold release_hold. destruct (decide _) as [|Hst]; [done|].
  unfold release_capacity, increment_capacity. destruct (_ <? 1); simpl;
    (apply (write_other th_id _ h1); [done|]); intros E;
    assert (h = h1) as -> by (by apply (key_unique th_id (inv_holds s)); [apply Hk|..]); tauto.
Qed.

Lemma release_all_other now page : forall s h, h ∈ inv_holds s ->
  (forall h1, h1 ∈ page -> th_id h <> th_id h1) -> h ∈ inv_holds (release_all now s page).1.
Proof.
  induction page as [|h1 page IH]; intros s h Hh Hne; [done|]. cbn [release_all].
  destruct (release_hold now s (Some h1) (Some "expired by beat"%string)) as [s1 dn] eqn:Hr.
  specialize (IH s1 h). destruct (release_all now s1 page) as [s2 n]. simpl in *.
  apply IH; [|set_solver]. unfold release_hold in Hr. destruct (decide _); [by simplify_eq|].
  injection Hr as <- _. unfold release_capacity, increment_capacity.
  destruct (_ <? 1); simpl; (apply (write_other th_id _ h1); [done|]); set_solver.
Qed.

(** * Properties *)

(** C5: no overselling of limited tiers. From a sale that opens full, after any
    interleaving of reservations, direct decrements, releases, confirmations, expiry
    sweeps and returns of seats (by [increment_capacity], by the reaper's signal or
    by its task), every limited tier has a non-negative number of available seats,
    and available, reserved and sold seats add up exactly to its capacity: no seat
    is sold twice and none is lost; and the seats taken from the limited tiers of a
    capped event are within its cap. It is for callers that release and confirm a
    hold as it stands in its row and give back only seats that were sold and not
    given back before ([stale_double_release]: an older object of a hold is released
    a second time). Seats of unlimited tiers (capacity 0) are not counted against
    the cap of the event, by the code either ([unlimited_tier_ignores_event_cap]). *)
Theorem no_oversell s0 s g :
  opening s0 -> rtc step (s0, fun _ => 0) (s, g) ->
  (forall t, t ∈ inv_tiers s -> 0 < tt_capacity t ->
     exists a, tt_available_seats t = Some a /\ 0 <= a /\ 0 <= held s (tt_id t) /\ 0 <= g (tt_id t) /\
       a + held s (tt_id t) + g (tt_id t) = tt_capacity t) /\
  (forall e c, e ∈ inv_events s -> ev_max_capacity e = Some c -> 0 < c ->
     _event_consumed_seats s (ev_id e) <= c).
Proof.
  intros Ho Hr. destruct (reachable_Inv _ _ _ Ho Hr) as (Hk & Hg & Hb & Hw). simpl in *.
  split; [|done]. intros t Ht Hc. destruct (Hb t Ht Hc) as (a & Ha & H0 & Hsum).
  exists a. split_and!; try done. by apply held_nonneg.
Qed.

(** A sample sale: one capped event, a limited and an unlimited tier. *)
Definition sample_tier : TicketType := new_ticket_type 1 9 5 None true.
Definition sample_free_tier : TicketType := new_ticket_type 2 9 0 None true.
Definition sample_inv : inv := {|
  inv_events := [{| ev_id := 9; ev_max_capacity := Some 4 |}];
  inv_tiers := [sample_tier; sample_free_tier]; inv_holds := [];
|}.

Lemma sample_keys : keys_ok sample_inv.
Proof.
  split; [..|by intros h Hh%not_elem_of_nil];
    apply (bool_decide_unpack _); vm_compute; exact I.
Qed.

Lemma sample_opening : opening sample_inv.
Proof.
  split; [exact sample_keys|done|].
  intros t [->|[->|[]%not_elem_of_nil]%elem_of_cons]%elem_of_cons; done.
Qed.

Definition sample_hold : TicketHold := {|
  th_id := 1; th_reservation_token := "a"; th_event_id := 9; th_ticket_type_id := 1;
  th_user_id := None; th_quantity := 2; th_status := RESERVED; th_idempotency_key := None;
  th_wallet_txn_id := None; th_hold_minutes := 10; th_expires_at := Aware (minutes 10);
  th_released_at := None; th_release_reason := None; th_converted_registration_id := None;
|}.

(** The state after one reservation of two seats. *)
Definition sample_reserved : inv := {|
  inv_events := inv_events sample_inv;
  inv_tiers := [set_available sample_tier (Some 3); sample_free_tier];
  inv_holds := [sample_hold];
|}.

Lemma sample_step : step (sample_inv, fun _ => 0) (sample_reserved, fun _ => 0).
Proof.
  apply (step_reserve 0 1 "a" None sample_inv (fun _ => 0) 9 1 2 None None None
           sample_reserved sample_hold); [reflexivity|by intros ?%not_elem_of_nil].
Qed.

(** The hold is confirmed, and the reaper gives one of its two seats back. *)
Definition sample_confirmed : inv := flush_hold sample_reserved (mark_confirmed sample_hold None (Some 77)).
Definition sample_sold : Z -> Z := bump (fun _ => 0) 1 2.
Definition sample_reaped : inv := (handle_capacity_released sample_confirmed 9 1 1).1.
Definition sample_left : Z -> Z := bump sample_sold 1 (-1).

Lemma sample_run : rtc step (sample_inv, fun _ => 0) (sample_reaped, sample_left).
Proof.
  eapply rtc_l; [exact sample_step|]. eapply rtc_l; [|apply rtc_once].
  - exact (step_confirm sample_reserved (fun _ => 0) sample_hold None (Some 77) sample_confirmed _
             (list_elem_of_here _ _) eq_refl).
  - apply (step_reaped sample_confirmed sample_sold 9 1 1). vm_compute. split; discriminate.
Qed.

Lemma no_oversell_witness :
  _event_consumed_seats sample_reaped 9 <= 4
  /\ exists t a, t ∈ inv_tiers sample_reaped /\ tt_available_seats t = Some a
       /\ a + held sample_reaped (tt_id t) + sample_left (tt_id t) = tt_capacity t.
Proof.
  destruct (no_oversell sample_inv sample_reaped sample_left sample_opening sample_run) as [Ht Hc].
  split.
  - refine (Hc {| ev_id := 9; ev_max_capacity := Some 4 |} 4 _ eq_refl _); [|lia].
    simpl. apply elem_of_cons. by left.
  - destruct (Ht (set_available sample_tier (Some 4)) (list_elem_of_here _ _) eq_refl)
      as (a & Ha & _ & _ & _ & Hs).
    exists (set_available sample_tier (Some 4)), a. split; [apply list_elem_of_here|]. split; [exact Ha|exact Hs].
Defined.

(** An unlimited tier answers a decrement without touching its row. *)
Lemma decrement_unlimited s e t q : keys_ok s -> e ∈ inv_events s -> t ∈ inv_tiers s ->
  tt_event_id t = ev_id e -> tt_capacity t = 0 -> tt_available_seats t = Some 0 ->
  tt_is_active t = true -> 1 <= q ->
  (forall c, ev_max_capacity e = Some c -> _event_consumed_seats s (ev_id e) + q <= c) ->
  _atomic_decrement s (ev_id e) (tt_id t) q = Ok s.
Proof.
  intros Hk He Ht Hev Hc Ha Hact Hq Hcap. unfold _atomic_decrement.
  destruct (Z.ltb_spec q 1); [lia|].
  destruct (List.find (fun e' => ev_id e' =? ev_id e) (inv_events s)) as [e'|] eqn:Hfe.
  2: { exfalso. apply (List.find_none _ _) with (x := e) in Hfe; [|by apply list_elem_of_In].
       by rewrite Z.eqb_refl in Hfe. }
  apply List.find_some in Hfe as [He'%list_elem_of_In Hid%Z.eqb_eq].
  assert (e' = e) as -> by (apply (key_unique ev_id (inv_events s)); [apply Hk|done|done|done]).
  simpl. assert (Hfull : match ev_max_capacity e with
    | Some cap => if 0 <? cap then cap <? _event_consumed_seats s (ev_id e) + q else false
    | None => false end = false).
  { destruct (ev_max_capacity e) as [c|]; [|done]. specialize (Hcap c eq_refl).
    destruct (0 <? c); [|done]. apply Z.ltb_ge. lia. }
  rewrite Hfull.
  destruct (Z.eqb_spec (rowcount (sellable (ev_id e) (tt_id t) q) (inv_tiers s)) 0) as [Hrc|Hrc].
  - destruct (List.find _ (inv_tiers s)) as [t'|] eqn:Hft.
    2: { exfalso. apply (List.find_none _ _) with (x := t) in Hft; [|by apply list_elem_of_In].
         by rewrite Hev, !Z.eqb_refl in Hft. }
    apply List.find_some in Hft as [Ht'%list_elem_of_In [Hid'%Z.eqb_eq _]%andb_true_iff].
    assert (t' = t) as -> by (apply (key_unique tt_id (inv_tiers s)); [apply Hk|done|done|done]).
    rewrite Hact, Hc. done.
  - exfalso. apply rowcount_pos in Hrc as (t' & Ht' & Hs).
    apply sellable_spec in Hs as (Hid' & _ & _ & a & Ha' & Hqa).
    assert (t' = t) as -> by (apply (key_unique tt_id (inv_tiers s)); [apply Hk|done|done|done]).
    rewrite Ha in Ha'. simplify_eq. lia.
Qed.

(** The event cap does not bind unlimited tiers. Whatever cap an event
    has, as long as its limited tiers leave room for one request, any number
    of further requests of that size succeed on an active tier of capacity 0,
    no tier row changes, and the seats held there grow without bound. *)
Theorem unlimited_tier_ignores_event_cap s g e t q n :
  keys_ok s -> e ∈ inv_events s -> t ∈ inv_tiers s -> tt_event_id t = ev_id e ->
  tt_capacity t = 0 -> tt_available_seats t = Some 0 -> tt_is_active t = true -> 1 <= q ->
  (forall c, ev_max_capacity e = Some c -> _event_consumed_seats s (ev_id e) + q <= c) ->
  exists s', rtc step (s, g) (s', g) /\ keys_ok s' /\
    inv_events s' = inv_events s /\ inv_tiers s' = inv_tiers s /\
    held s' (tt_id t) = held s (tt_id t) + Z.of_nat n * q.
Proof.
  intros Hk He Ht Hev Hc Ha Hact Hq Hcap.
  induction n as [|n (s1 & Hr & Hk1 & He1 & Ht1 & Hheld)];
    [exists s; split_and!; [constructor|done|done|done|lia]|].
  set (hid := fresh (th_id <$> inv_holds s1)). set (tok := fresh (th_reservation_token <$> inv_holds s1)).
  assert (Hd : _atomic_decrement s1 (ev_id e) (tt_id t) q = Ok s1).
  { apply decrement_unlimited; rewrite ?He1, ?Ht1; try done.
    unfold _event_consumed_seats. by rewrite Ht1. }
  destruct (reserve_capacity 0 hid tok None s1 (ev_id e) (tt_id t) q None None None) as [[s2 h]|err] eqn:Hres.
  - pose proof (reserve_Ok _ _ _ _ _ _ _ _ _ _ _ _ _ Hres)
      as (s1' & Hd' & -> & Hid & Htid & _ & Hqty & Hst).
    rewrite Hd in Hd'. injection Hd' as <-.
    assert (Hfresh : hid ∉ th_id <$> inv_holds s1) by apply infinite_is_fresh.
    exists (with_holds s1 (inv_holds s1 ++ [h])). split_and!; simpl; try done.
    + eapply rtc_r; [exact Hr|]. by eapply step_reserve.
    + by apply (reserve_keys s1 (ev_id e) (tt_id t) q s1 h hid).
    + unfold held in *. simpl. rewrite fmap_app, sum_app.
      change (seats (tt_id t) <$> [h]) with [seats (tt_id t) h]. rewrite seats_reserved by done.
      rewrite Htid, Hqty, Z.eqb_refl. cbn [sum_Z foldr]. unfold sum_Z in *. lia.
  - exfalso. revert Hres. unfold reserve_capacity. destruct (Z.ltb_spec q 1); [lia|].
    rewrite Hd. simpl. destruct (existsb _ (inv_holds s1)) eqn:Hex; [|done].
    apply existsb_exists in Hex as (r & Hin%list_elem_of_In & E%String.eqb_eq). intros _.
    apply (infinite_is_fresh (th_reservation_token <$> inv_holds s1)). fold tok. rewrite <- E.
    by apply list_elem_of_fmap_2.
Qed.

Lemma unlimited_tier_ignores_event_cap_witness :
  exists s', rtc step (sample_inv, fun _ => 0) (s', fun _ => 0) /\ held s' 2 = 1000.
Proof.
  assert (He : {| ev_id := 9; ev_max_capacity := Some 4 |} ∈ inv_events sample_inv)
    by (apply elem_of_cons; by left).
  assert (Ht : sample_free_tier ∈ inv_tiers sample_inv)
    by (apply elem_of_cons; right; apply elem_of_cons; by left).
  assert (Hcap : forall c, Some 4 = Some c -> _event_consumed_seats sample_inv 9 + 1 <= c)
    by (intros c [= <-]; vm_compute; by intros [=]).
  destruct (unlimited_tier_ignores_event_cap sample_inv (fun _ => 0)
    {| ev_id := 9; ev_max_capacity := Some 4 |} sample_free_tier 1 1000 sample_keys He Ht
    eq_refl eq_refl eq_refl eq_refl (Z.le_refl 1) Hcap) as (s' & Hr & _ & _ & _ & Hheld).
  exists s'. split; [exact Hr|]. exact Hheld.
Defined.

(** The hold lifecycle. Once a hold is confirmed, released, expired or
    cancelled its row never changes again, whatever step runs; releasing it is
    a no-op that reports False, confirming a confirmed hold is a no-op that
    returns it, and confirming a released, expired or cancelled one is refused. *)
Theorem terminal_hold_immutable w w' h :
  step w w' -> keys_ok w.1 -> h ∈ inv_holds w.1 -> th_status h ∈ TERMINAL ->
  h ∈ inv_holds w'.1 /\
  (forall now reason, release_hold now w.1 (Some h) reason = (w.1, false)) /\
  (forall txn reg, confirm_reservation w.1 (Some h) txn reg =
     if decide (th_status h = CONFIRMED) then Ok (w.1, h) else Err (HoldNotConfirmable (th_status h))).
Proof.
  intros Hstep Hk Hh Hterm.
  assert (Hnr : th_status h <> RESERVED) by (intros E; rewrite E in Hterm; unfold TERMINAL in Hterm; set_solver).
  split_and!.
  - destruct Hstep as [now hid tok cfg s g eid tid q u m k s' h1 Hr Hfresh|s g tid q oe s' Hd
      |s g tid q Hq|now s g h1 reason Hh1|s g h1 txn reg s' h' Hh1 Hc|s g eid tid q Hq|s g eid tid q Hq
      |now locked s g batch after];
      simpl in *.
    + apply reserve_Ok in Hr as (s1 & Hd & -> & _).
      destruct (decrement_Ok _ _ _ _ _ Hd) as (_ & _ & Hholds & _). simpl. rewrite Hholds. set_solver.
    + apply decrement_capacity_Ok in Hd as [eid Hd].
      destruct (decrement_Ok _ _ _ _ _ Hd) as (_ & _ & Hholds & _). by rewrite Hholds.
    + unfold increment_capacity. by destruct (q <? 1).
    + by apply release_other.
    + unfold confirm_reservation in Hc. simpl in Hc. destruct (decide _); [by simplify_eq|].
      destruct (bool_decide _) eqn:Hb; [done|]. injection Hc as <- _. simpl.
      apply (write_other th_id _ h1); [done|]. intros E.
      assert (h = h1) as -> by (by apply (key_unique th_id (inv_holds s)); [apply Hk|..]).
      apply bool_decide_eq_false in Hb. unfold TERMINAL in Hterm. set_solver.
    + unfold handle_capacity_released. by repeat case_match.
    + unfold release_expired_capacity. by case_match.
    + destruct (page_ok now locked s (Z.max 1 (Z.min batch 50)) (Z.max 0 after) Hk) as [Hnd Hin].
      unfold release_expired_ticket_holds. apply release_all_other; [done|].
      intros h1 Hh1 E. destruct (Hin h1 Hh1) as (Hin1 & Hres & _).
      assert (h = h1) as -> by (by apply (key_unique th_id (inv_holds s)); [apply Hk|..]). done.
  - intros now reason. unfold release_hold. by rewrite decide_True.
  - intros txn reg. unfold confirm_reservation. simpl. destruct (decide _); [done|].
    rewrite bool_decide_eq_true_2; [done|]. unfold TERMINAL in Hterm. set_solver.
Qed.

Lemma sample_confirmed_keys : keys_ok sample_confirmed.
Proof.
  split; [apply (bool_decide_unpack _); vm_compute; exact I..|].
  intros h [->|[]%not_elem_of_nil]%elem_of_cons. done.
Qed.

Lemma terminal_hold_immutable_witness :
  release_hold 7 sample_confirmed (Some (mark_confirmed sample_hold None (Some 77))) None
    = (sample_confirmed, false).
Proof.
  assert (Hin : mark_confirmed sample_hold None (Some 77) ∈ inv_holds sample_confirmed)
    by (apply elem_of_cons; by left).
  assert (Ht : th_status (mark_confirmed sample_hold None (Some 77)) ∈ TERMINAL)
    by (apply elem_of_cons; by left).
  destruct (terminal_hold_immutable (sample_confirmed, fun _ => 0) _ _
    (step_release 0 sample_confirmed (fun _ => 0) _ None Hin) sample_confirmed_keys Hin Ht) as (_ & Hr & _).
  exact (Hr 7 None).
Defined.

(** What a request for seats is answered, case by case: the event's cap
    is checked first, then that the tier is active; enough available seats are
    taken; an unlimited tier always accepts; otherwise the remaining number is
    reported. A limited tier whose available seats are NULL never sells, even
    though every other piece of this code reads NULL as the full capacity. *)
Theorem atomic_decrement_spec s e t q :
  keys_ok s -> e ∈ inv_events s -> t ∈ inv_tiers s -> tt_event_id t = ev_id e -> 1 <= q ->
  0 <= tt_capacity t ->
  let taken := with_tiers s (update_where (fun r => tt_id r =? tt_id t) (fun _ => take_seats q t)
                               (inv_tiers s)) in
  _atomic_decrement s (ev_id e) (tt_id t) q =
    if (match ev_max_capacity e with
        | Some c => (0 <? c) && (c <? _event_consumed_seats s (ev_id e) + q)
        | None => false end)
    then Err EventFull
    else if negb (tt_is_active t) then Err TicketTypeInactive
    else match tt_available_seats t with
         | Some a => if q <=? a then Ok taken
                     else if tt_capacity t =? 0 then Ok s else Err (OnlyAvailable a)
         | None => if tt_capacity t =? 0 then Ok s
                   else if tt_capacity t <? q then Err (OnlyAvailable (tt_capacity t))
                   else Err InventoryUnavailable
         end.
Proof.
  intros Hk He Ht Hev Hq Hcap taken. unfold _atomic_decrement.
  destruct (Z.ltb_spec q 1); [lia|].
  rewrite (find_key ev_id (inv_events s) e) by (done || apply Hk). cbn [of_option rbind].
  replace (match ev_max_capacity e with
    | Some cap => if 0 <? cap then cap <? _event_consumed_seats s (ev_id e) + q else false
    | None => false end) with (match ev_max_capacity e with
        | Some c => (0 <? c) && (c <? _event_consumed_seats s (ev_id e) + q)
        | None => false end) by (by destruct (ev_max_capacity e)).
  destruct (match ev_max_capacity e with Some c => _ | None => _ end); [done|].
  assert (Huniq : forall r, r ∈ inv_tiers s -> tt_id r = tt_id t -> r = t).
  { intros r Hr E. by apply (key_unique tt_id (inv_tiers s)); [apply Hk|..]. }
  assert (Hfind : List.find (fun r => (tt_id r =? tt_id t) && (tt_event_id r =? ev_id e)) (inv_tiers s)
    = Some t).
  { destruct (List.find _ (inv_tiers s)) as [r|] eqn:Hf.
    - apply List.find_some in Hf as [Hin%list_elem_of_In [E%Z.eqb_eq _]%andb_true_iff].
      by rewrite (Huniq r Hin E).
    - exfalso. apply (List.find_none _ _) with (x := t) in Hf; [|by apply list_elem_of_In].
      by rewrite Hev, !Z.eqb_refl in Hf. }
  destruct (Z.eqb_spec (rowcount (sellable (ev_id e) (tt_id t) q) (inv_tiers s)) 0) as [Hrc|Hrc].
  - assert (Hns : sellable (ev_id e) (tt_id t) q t = false).
    { apply not_true_is_false. intros Hs. unfold rowcount in Hrc.
      destruct (List.filter _ (inv_tiers s)) eqn:Hf; [|done].
      assert (Hin : List.In t (List.filter (sellable (ev_id e) (tt_id t) q) (inv_tiers s)))
        by (apply List.filter_In; split; [by apply list_elem_of_In|done]).
      by rewrite Hf in Hin. }
    unfold sellable in Hns. rewrite Hev, !Z.eqb_refl in Hns. simpl in Hns. rewrite Hfind.
    destruct (tt_is_active t); [|done]. simpl in *.
    destruct (tt_available_seats t) as [a|]; simpl; [|done]. rewrite Hns.
    apply Z.leb_gt in Hns. destruct (tt_capacity t =? 0); [done|]. by destruct (Z.ltb_spec a q); [|lia].
  - apply rowcount_pos in Hrc as (r & Hr & Hs). apply sellable_spec in Hs as Hs'.
    destruct Hs' as (E & _ & Hact & a & Ha & Hqa). rewrite (Huniq r Hr E) in *.
    rewrite Hact, Ha. simpl. destruct (Z.leb_spec q a); [|lia].
    unfold taken. do 2 f_equal. apply list_fmap_ext. intros i x Hx.
    apply list_elem_of_lookup_2 in Hx. destruct (Z.eqb_spec (tt_id x) (tt_id t)) as [E'|E'].
    + rewrite (Huniq x Hx E'), Hs. done.
    + destruct (sellable _ _ _ x) eqn:Hsx; [|done]. apply sellable_spec in Hsx. tauto.
Qed.

(** A limited tier whose available seats are NULL. *)
Definition sample_null : inv := {|
  inv_events := [{| ev_id := 9; ev_max_capacity := None |}];
  inv_tiers := [set_available sample_tier None]; inv_holds := [];
|}.

Lemma atomic_decrement_spec_witness :
  _atomic_decrement sample_null 9 1 2 = Err InventoryUnavailable.
Proof.
  assert (Hk : keys_ok sample_null)
    by (split; [apply (bool_decide_unpack _); vm_compute; exact I..|by intros h Hh%not_elem_of_nil]).
  exact (atomic_decrement_spec sample_null {| ev_id := 9; ev_max_capacity := None |}
    (set_available sample_tier None) 2 Hk (list_elem_of_here _ _) (list_elem_of_here _ _)
    eq_refl ltac:(lia) ltac:(done)).
Defined.

(** Why a hold must be released from its locked row. Two callers that
    both loaded the hold while it was reserved can both release it; both
    report success, and twice the hold's seats return to the pool (here with
    room below the capacity), so that available, held and taken seats exceed
    the tier's capacity by the hold's quantity. *)
Theorem stale_double_release now now' s g h t a reason reason' :
  keys_ok s -> balanced s g -> h ∈ inv_holds s -> th_status h = RESERVED ->
  t ∈ inv_tiers s -> tt_id t = th_ticket_type_id h -> 0 < tt_capacity t ->
  tt_available_seats t = Some a -> a + 2 * th_quantity h <= tt_capacity t ->
  let r1 := release_hold now s (Some h) reason in
  let r2 := release_hold now' r1.1 (Some h) reason' in
  r1.2 = true /\ r2.2 = true /\
  exists t2, t2 ∈ inv_tiers r2.1 /\ tt_id t2 = tt_id t /\ tt_capacity t2 = tt_capacity t /\
    tt_available_seats t2 = Some (a + 2 * th_quantity h) /\
    a + 2 * th_quantity h + held r2.1 (tt_id t) + g (tt_id t) = tt_capacity t + th_quantity h.
Proof.
  intros Hk Hb Hh Hres Ht Hid Hc Ha Hroom r1 r2. pose proof (ko_quantity s Hk h Hh) as Hq.
  assert (Hr : forall n x why, release_hold n x (Some h) why =
    (flush_hold (with_tiers x (update_where (returnable (th_ticket_type_id h))
       (return_seats (th_quantity h)) (inv_tiers x))) (mark_released n h why), true)).
  { intros n x why. unfold release_hold. rewrite decide_False by (by intros E).
    unfold release_capacity, increment_capacity. by destruct (Z.ltb_spec (th_quantity h) 1); [lia|]. }
  unfold r2, r1. rewrite !Hr. simpl. split_and!; [done|done|].
  set (f := fun r => if returnable (th_ticket_type_id h) r then return_seats (th_quantity h) r else r).
  assert (Hf : forall r x, tt_id r = th_ticket_type_id h -> 0 < tt_capacity r ->
    tt_available_seats r = Some x -> x + th_quantity h <= tt_capacity r ->
    f r = set_available r (Some (x + th_quantity h))).
  { intros r x E Hcr Hx Hle. unfold f, returnable. rewrite E, Z.eqb_refl. simpl.
    destruct (Z.ltb_spec 0 (tt_capacity r)); [|lia]. unfold return_seats. rewrite Hx. simpl.
    by rewrite Z.min_r by lia. }
  exists (set_available t (Some (a + 2 * th_quantity h))). split_and!; try done.
  - apply elem_of_update. exists (f t). split; [apply elem_of_update; by exists t|].
    fold (f (f t)). rewrite (Hf t a) by (done || lia). rewrite (Hf _ (a + th_quantity h)) by (done || (simpl; lia)).
    unfold set_available. simpl. do 2 f_equal. lia.
  - destruct (Hb t Ht Hc) as (a' & Ha' & _ & Hsum). rewrite Ha in Ha'. injection Ha' as <-.
    set (s1 := with_tiers s (update_where _ _ (inv_tiers s))).
    assert (Hk1 : keys_ok s1).
    { destruct Hk as [K1 K2 K3 K4]. split; simpl; try done. by rewrite (update_keys tt_id). }
    set (h1 := mark_released now h reason). set (s2 := flush_hold s1 h1).
    assert (Hk2 : keys_ok s2) by (by apply (flush_keys s1 h h1)).
    assert (Hh2 : h1 ∈ inv_holds s2).
    { unfold s2. rewrite (flush_eq s1 h h1) by done. apply elem_of_update. exists h. split; [done|].
      by rewrite Z.eqb_refl. }
    set (s3 := with_tiers s2 _).
    assert (Hheld : held (flush_hold s3 (mark_released now' h reason')) (tt_id t)
      = held s2 (tt_id t)).
    { rewrite (flush_held s3 h1 (mark_released now' h reason')) by
        (try done; destruct Hk2 as [K1 K2 K3 K4]; split; simpl; try done; by rewrite (update_keys tt_id)).
      assert (E : forall n w, seats (tt_id t) (mark_released n h w) = 0)
        by (intros; unfold seats; by rewrite andb_false_r).
      unfold h1. rewrite !E. unfold held. simpl. lia. }
    rewrite Hheld. unfold s2. rewrite (flush_held s1 h h1) by done.
    assert (E : seats (tt_id t) h1 = 0) by (unfold seats; by rewrite andb_false_r).
    rewrite E, seats_reserved, Hid, Z.eqb_refl by done. unfold held in *. simpl.
    rewrite <- Hid in *. lia.
Qed.

(** The sample sale with five seats, one hold of two reserved. *)
Lemma stale_double_release_witness :
  exists t2, t2 ∈ inv_tiers (release_hold 2 (release_hold 1 (with_tiers sample_reserved
      [set_available (new_ticket_type 1 9 9 None true) (Some 5)]) (Some sample_hold) None).1
      (Some sample_hold) None).1 /\
    tt_available_seats t2 = Some 9.
Proof.
  set (s := with_tiers sample_reserved [set_available (new_ticket_type 1 9 9 None true) (Some 5)]).
  assert (Hk : keys_ok s).
  { split; [apply (bool_decide_unpack _); vm_compute; exact I..|].
    intros h [->|[]%not_elem_of_nil]%elem_of_cons. done. }
  assert (Hb : balanced s (fun _ => 2)).
  { intros t [->|[]%not_elem_of_nil]%elem_of_cons _. exists 5. by split_and!. }
  destruct (stale_double_release 1 2 s (fun _ => 2) sample_hold
    (set_available (new_ticket_type 1 9 9 None true) (Some 5)) 5 None None Hk Hb
    (list_elem_of_here _ _) eq_refl (list_elem_of_here _ _) eq_refl ltac:(done) eq_refl ltac:(done))
    as (_ & _ & t2 & Ht & _ & _ & Ha & _).
  exists t2. split; [exact Ht|exact Ha].
Defined.

(** What the sweep is meant to release. *)
Definition due (now : Z) (locked : Z -> bool) (after : Z) (h : TicketHold) : bool :=
  bool_decide (th_status h = RESERVED) && (as_utc (th_expires_at h) <=? now)
  && (after <? th_id h) && negb (locked (th_id h)).

Lemma release_all_reserved now page : forall s, (forall h, h ∈ page -> th_status h = RESERVED) ->
  (release_all now s page).2 = Z.of_nat (length page).
Proof.
  induction page as [|h page IH]; intros s Hres; [done|]. cbn [release_all].
  unfold release_hold. rewrite decide_False by (intros E; by rewrite Hres in E by set_solver).
  set (s1 := flush_hold _ _). specialize (IH s1 ltac:(set_solver)).
  destruct (release_all now s1 page) as [s2 n]. simpl in *. lia.
Qed.

(** Every row after the sweep is an old row or a released one; the rows of the
    page do not survive. *)
Lemma release_all_rows now page : forall s h, keys_ok s -> NoDup (th_id <$> page) ->
  (forall h, h ∈ page -> h ∈ inv_holds s /\ th_status h = RESERVED) ->
  h ∈ inv_holds (release_all now s page).1 -> th_status h = RESERVED ->
  h ∈ inv_holds s /\ h ∉ page.
Proof.
  induction page as [|h1 page IH]; intros s h Hk Hnd Hpage Hh Hres; [split; [done|set_solver]|].
  rewrite fmap_cons, list.NoDup_cons in Hnd. destruct Hnd as [Hnew Hnd].
  destruct (Hpage h1 ltac:(set_solver)) as [Hin1 Hres1].
  cbn [release_all] in Hh. unfold release_hold in Hh. rewrite decide_False in Hh by (by intros E).
  set (s1 := flush_hold _ _) in Hh.
  assert (Hholds : exists l, s1 = with_holds (with_tiers s l)
    (update_where (fun r => th_id r =? th_id h1)
       (fun _ => mark_released now h1 (Some "expired by beat"%string)) (inv_holds s))).
  { unfold s1, flush_hold, release_capacity, increment_capacity.
    destruct (th_quantity h1 <? 1); simpl; by eexists. }
  destruct Hholds as [l Hs1].
  assert (Hk1 : keys_ok s1).
  { assert (Ht : tt_id <$> inv_tiers s1 = tt_id <$> inv_tiers s).
    { unfold s1, flush_hold, release_capacity, increment_capacity.
      destruct (th_quantity h1 <? 1); simpl; [done|by apply (update_keys tt_id)]. }
    pose proof (flush_keys s h1 (mark_released now h1 (Some "expired by beat"%string)) Hk Hin1
      eq_refl eq_refl) as [K1 K2 K3 K4].
    split; [rewrite Ht; apply Hk|rewrite Hs1; exact K2|rewrite Hs1; exact K3|rewrite Hs1; exact K4]. }
  destruct (release_all now s1 page) as [s2 n] eqn:Hrest. simpl in Hh.
  destruct (IH s1 h Hk1 Hnd) as [Hin Hnot]; [|by rewrite Hrest|done|].
  - intros r Hr. destruct (Hpage r ltac:(set_solver)) as [Hinr Hresr]. split; [|done].
    rewrite Hs1. simpl. apply (write_other th_id _ h1); [done|]. intros E. apply Hnew.
    rewrite <- E. by apply list_elem_of_fmap_2.
  - rewrite Hs1 in Hin. simpl in Hin.
    destruct (write_elem th_id _ h1 (mark_released now h1 (Some "expired by beat"%string)) _
                (ko_holds s Hk) eq_refl Hin) as [->|[Hin' Hne]]; [done|].
    split; [done|]. intros [->|Hp]%elem_of_cons; done.
Qed.

(** The expiry sweep. When the due holds fit one page, the task reports
    exactly their number and afterwards no due hold is left: no reserved row
    past its deadline, after the given id and not locked by another
    transaction. *)
Theorem sweep_complete now locked s batch after :
  keys_ok s ->
  let batch_size := Z.max 1 (Z.min batch 50) in
  let n := rowcount (due now locked (Z.max 0 after)) (inv_holds s) in
  n <= batch_size ->
  let r := release_expired_ticket_holds now locked s batch after in
  r.2 = n /\ forall h, h ∈ inv_holds r.1 -> due now locked (Z.max 0 after) h = false.
Proof.
  intros Hk bs n Hn r. set (a := Z.max 0 after) in *.
  destruct (page_ok now locked s bs a Hk) as [Hnd Hpage].
  set (l := List.filter (due now locked a) (inv_holds s)) in *.
  assert (Hp : expired_page now locked s bs a ≡ₚ l).
  { unfold expired_page. fold (due now locked a). fold l.
    rewrite take_ge; [apply merge_sort_Permutation|].
    rewrite merge_sort_Permutation. unfold n, rowcount in Hn. fold l in Hn. lia. }
  unfold r, release_expired_ticket_holds. fold bs a. split.
  - rewrite release_all_reserved by (intros h Hh; by apply Hpage).
    rewrite Hp. done.
  - intros h Hh. apply not_true_is_false. intros Hdue.
    assert (Hres : th_status h = RESERVED).
    { unfold due in Hdue. rewrite !andb_true_iff in Hdue. destruct Hdue as [[[Hs _] _] _].
      by apply bool_decide_eq_true in Hs. }
    destruct (release_all_rows now _ s h Hk Hnd ltac:(intros x Hx; split; by apply Hpage) Hh Hres)
      as [Hin Hnot].
    apply Hnot. rewrite Hp. unfold l. apply list_elem_of_In, List.filter_In.
    split; [by apply list_elem_of_In|done].
Qed.

Lemma sweep_complete_witness :
  (release_expired_ticket_holds (minutes 11) (fun _ => false) sample_reserved 25 0).2 = 1.
Proof.
  assert (Hk : keys_ok sample_reserved).
  { split; [apply (bool_decide_unpack _); vm_compute; exact I..|].
    intros h [->|[]%not_elem_of_nil]%elem_of_cons. done. }
  exact (proj1 (sweep_complete (minutes 11) (fun _ => false) sample_reserved 25 0 Hk ltac:(done))).
Defined.
