(* ===== verification/SaleGuard.v ===== *)
(** The sale kill switch: app/events/sale_guard.py. Modes live in Redis, which
    may be unavailable; the decorator decides whether a reserve or confirm
    endpoint runs. *)

From stdpp Require Import pretty.
From S2P Require Import Prelude.

Definition VALID_MODES : list string := ["open"; "waitlist_only"; "paused"; "closed"]%string.

Definition GLOBAL_KEY : string := "events:global_sale_mode".
Definition EVENT_KEY (event_id : Z) : string := "event:sale_mode:" +:+ pretty event_id.

(** Redis as this module uses it: keys with a value and an expiry time in
    seconds; [None] when there is no client or every command raises. *)
Definition redis : Type := option (gmap string (string * Z)).

(** [get] does not see an expired key. *)
Definition _read_key (now : Z) (r : redis) (key : string) : option string :=
  match r with
  | None => None
  | Some m => match m !! key with
              | Some (v, expiry) => if now <? expiry then Some v else None
              | None => None
              end
  end.

Definition _write_key (now : Z) (r : redis) (key mode : string) : redis :=
  match r with
  | None => None
  | Some m => Some (if String.eqb mode "open" then delete key m
                    else <[key := (mode, now + 86400)]> m)
  end.

(** [config] is EVENTS_SALE_MODE. *)
Definition global_sale_mode (now : Z) (config : option string) (r : redis) : string :=
  match _read_key now r GLOBAL_KEY with
  | Some value => if str_in value VALID_MODES then value else default "open"%string config
  | None => default "open"%string config
  end.

Definition event_sale_mode (now : Z) (r : redis) (event_id : Z) : string :=
  match _read_key now r (EVENT_KEY event_id) with
  | Some value => if str_in value VALID_MODES then value else "open"
  | None => "open"
  end.

(** [None] is ValueError("invalid sale mode"). *)
Definition set_global_sale_mode (now : Z) (r : redis) (mode : string) : option redis :=
  if str_in mode VALID_MODES then Some (_write_key now r GLOBAL_KEY mode) else None.

Definition set_event_sale_mode (now : Z) (r : redis) (event_id : Z) (mode : string)
    : option redis :=
  if str_in mode VALID_MODES then Some (_write_key now r (EVENT_KEY event_id) mode) else None.

(** Event: what the guard looks up. *)
Record guarded_event : Type := { ge_id : Z; ge_slug : string; ge_public_id : string }.

Inductive guard_response : Type :=
  | RunView
  | Blocked (error : string) (sale_mode : string) (status : Z).

Definition find_event (events : list guarded_event) (identifier : string) : option guarded_event :=
  match List.find (fun e => String.eqb (ge_slug e) identifier) events with
  | Some e => Some e
  | None => List.find (fun e => String.eqb (ge_public_id e) identifier) events
  end.

Definition sale_guard (now : Z) (config : option string) (r : redis) (events : list guarded_event)
    (identifier : option string) : guard_response :=
  let mode := global_sale_mode now config r in
  let event := match identifier with Some i => find_event events i | None => None end in
  let mode := match event with
              | Some e => if String.eqb mode "open" then event_sale_mode now r (ge_id e) else mode
              | None => mode
              end in
  if String.eqb mode "open" then RunView
  else if String.eqb mode "waitlist_only" then Blocked "high_demand" mode 409
  else Blocked "sale_unavailable" mode 503.

(** * Lemmas *)

Lemma event_key_inj a b : EVENT_KEY a = EVENT_KEY b -> a = b.
Proof.
  unfold EVENT_KEY. intros E. apply (inj pretty). by apply (inj (String.append "event:sale_mode:")) in E.
Qed.

Lemma event_key_not_global a : EVENT_KEY a <> GLOBAL_KEY.
Proof. by intros [=]. Qed.

Lemma read_written t0 t m k k' mode :
  _read_key t (_write_key t0 (Some m) k mode) k' =
  if decide (k' = k) then (if String.eqb mode "open" then None
                           else if t <? t0 + 86400 then Some mode else None)
  else _read_key t (Some m) k'.
Proof.
  simpl. destruct (String.eqb mode "open"), (decide (k' = k)) as [->|Hne].
  - by rewrite lookup_delete_eq.
  - by rewrite lookup_delete_ne.
  - by rewrite lookup_insert_eq.
  - by rewrite lookup_insert_ne.
Qed.

(** * Properties *)

(** Setting an event's sale mode. With Redis up and sales globally open,
    the guard on that event's pages follows the new mode at once, every other
    event's and the global mode are untouched, and the setting lasts one day:
    after 86400 seconds without another write the event sells again, whatever
    it was set to. *)
Theorem set_event_sale_mode_spec t0 t m events e mode config r' :
  mode ∈ VALID_MODES ->
  set_event_sale_mode t0 (Some m) (ge_id e) mode = Some r' ->
  find_event events (ge_slug e) = Some e ->
  global_sale_mode t config (Some m) = "open"%string ->
  global_sale_mode t config r' = "open"%string /\
  (forall e', ge_id e' <> ge_id e ->
     event_sale_mode t r' (ge_id e') = event_sale_mode t (Some m) (ge_id e')) /\
  sale_guard t config r' events (Some (ge_slug e)) =
    if String.eqb mode "open" || (t0 + 86400 <=? t) then RunView
    else if String.eqb mode "waitlist_only" then Blocked "high_demand" mode 409
    else Blocked "sale_unavailable" mode 503.
Proof.
  intros Hv Hset He Hglobal. unfold set_event_sale_mode in Hset.
  rewrite (proj2 (str_in_spec _ _) Hv) in Hset. apply (inj Some) in Hset as <-.
  assert (Hg : global_sale_mode t config (_write_key t0 (Some m) (EVENT_KEY (ge_id e)) mode)
    = "open"%string).
  { unfold global_sale_mode in *. rewrite read_written, decide_False; [done|].
    intros E. by apply (event_key_not_global (ge_id e)). }
  split_and!; [done| |].
  - intros e' Hne. unfold event_sale_mode. rewrite read_written, decide_False; [done|].
    by intros ?%event_key_inj.
  - unfold sale_guard. rewrite Hg, He. simpl (String.eqb "open" "open"). cbv iota.
    unfold event_sale_mode. rewrite read_written, decide_True by done.
    destruct (String.eqb mode "open") eqn:Eo; [done|].
    destruct (Z.ltb_spec t (t0 + 86400)), (Z.leb_spec (t0 + 86400) t); try lia; simpl; [|done].
    by rewrite (proj2 (str_in_spec _ _) Hv), Eo.
Qed.

Lemma set_event_sale_mode_spec_witness :
  exists r', set_event_sale_mode 0 (Some ∅) 9 "closed" = Some r' /\
    sale_guard 86400 None r' [{| ge_id := 9; ge_slug := "final"; ge_public_id := "p" |}]
      (Some "final"%string) = RunView.
Proof.
  assert (Hv : "closed"%string ∈ VALID_MODES) by (unfold VALID_MODES; set_solver).
  eexists. split; [reflexivity|].
  exact (proj2 (proj2 (set_event_sale_mode_spec 0 86400 ∅
    [{| ge_id := 9; ge_slug := "final"; ge_public_id := "p" |}]
    {| ge_id := 9; ge_slug := "final"; ge_public_id := "p" |} "closed" None _ Hv eq_refl eq_refl eq_refl))).
Defined.
