(* ===== verification/ReservationStates.v ===== *)
(** Transport reservations: the rows of TransportReservation and
    TransportReservationLine (app/transport/models.py) and the two lifecycles of
    app/transport/services/reservation_state_machine.py, one of the reservation
    itself and one of its financial obligation. Both append to the audit log of
    the row. *)

From S2P Require Import Prelude Decimal.

Module ReservationState.

Inductive t : Type :=
  | DRAFT | HELD | RESERVED | MATERIALIZED | COMPLETED | CANCELLED | EXPIRED.

#[export] Instance eq : EqDecision t.
Proof. solve_decision. Defined.

#[export, refine] Instance enum : PyEnum t := {
  enum_members := [DRAFT; HELD; RESERVED; MATERIALIZED; COMPLETED; CANCELLED; EXPIRED];
  enum_value s := match s with
    | DRAFT => "draft" | HELD => "held" | RESERVED => "reserved"
    | MATERIALIZED => "materialized" | COMPLETED => "completed"
    | CANCELLED => "cancelled" | EXPIRED => "expired"
    end%string;
}.
Proof.
  - intros []; set_solver.
  - intros [] []; by intros [=].
Defined.

End ReservationState.
Export (hints) ReservationState.

Module ObligationState.

Inductive t : Type := UNPAID | DEPOSITED | PAID.

#[export] Instance eq : EqDecision t.
Proof. solve_decision. Defined.

#[export, refine] Instance enum : PyEnum t := {
  enum_members := [UNPAID; DEPOSITED; PAID];
  enum_value s := match s with
    | UNPAID => "unpaid" | DEPOSITED => "deposited" | PAID => "paid"
    end%string;
}.
Proof.
  - intros []; set_solver.
  - intros [] []; by intros [=].
Defined.

End ObligationState.
Export (hints) ObligationState.

(** A value in an audit entry; [LTime] is the isoformat of an instant. *)
Inductive log_value : Type :=
  | LNone
  | LInt (n : Z)
  | LText (s : string)
  | LTime (us : Z).

Definition log_text (s : option string) : log_value :=
  match s with Some s => LText s | None => LNone end.
Definition log_int (n : option Z) : log_value :=
  match n with Some n => LInt n | None => LNone end.

Abbreviation audit_entry := (gmap string log_value).

(** The columns of TransportReservation that are written once, when the row is
    created; [ri_required_obligation] is the entry
    "required_obligation_for_reserved" of the policy snapshot. *)
Record reservation_info : Type := {
  ri_id : Z;
  ri_reference : string;
  ri_idempotency_key : string;
  ri_request_fingerprint : string;
  ri_reserving_user_id : Z;
  ri_on_behalf_of : option Z;
  ri_offering_code : string;
  ri_provider_type : string;
  ri_provider_id : Z;
  ri_window_start : Z;
  ri_window_end : Z;
  ri_required_quantity : Z;
  ri_mode : string;
  ri_payment_method : option string;
  ri_payment_timing : option string;
  ri_commercial_policy_ref : option string;
  ri_deposit_required : bool;
  ri_required_total_amount : option dec;
  ri_deposit_amount : option dec;
  ri_deposit_currency : option string;
  ri_deposit_due_at : option Z;
  ri_required_obligation : list string;
  ri_is_deleted : bool;
}.

(** TransportReservation *)
Record reservation : Type := {
  rv_info : reservation_info;
  rv_state : string;
  rv_obligation_state : string;
  rv_amount_received : option dec;
  rv_wallet_transaction_reference : option string;
  rv_audit_log : option (list audit_entry);
}.

Definition set_state (r : reservation) (s : string) (log : option (list audit_entry)) : reservation := {|
  rv_info := rv_info r;
  rv_state := s;
  rv_obligation_state := rv_obligation_state r;
  rv_amount_received := rv_amount_received r;
  rv_wallet_transaction_reference := rv_wallet_transaction_reference r;
  rv_audit_log := log;
|}.

Definition set_obligation (r : reservation) (s : string) (log : option (list audit_entry)) : reservation := {|
  rv_info := rv_info r;
  rv_state := rv_state r;
  rv_obligation_state := s;
  rv_amount_received := rv_amount_received r;
  rv_wallet_transaction_reference := rv_wallet_transaction_reference r;
  rv_audit_log := log;
|}.

Definition set_payment (r : reservation) (received : option dec) (ref : option string) : reservation := {|
  rv_info := rv_info r;
  rv_state := rv_state r;
  rv_obligation_state := rv_obligation_state r;
  rv_amount_received := received;
  rv_wallet_transaction_reference := ref;
  rv_audit_log := rv_audit_log r;
|}.

Inductive transition_error : Type :=
  | InvalidReservationTransition (from to : string)
  | InvalidObligationTransition (from to : string).

Module TransportReservationStateMachine.
Import ReservationState.

Definition RESERVATION_TRANSITIONS (s : ReservationState.t) : list ReservationState.t :=
  match s with
  | DRAFT => [HELD; CANCELLED]
  | HELD => [RESERVED; CANCELLED; EXPIRED]
  | RESERVED => [MATERIALIZED; CANCELLED; EXPIRED]
  | MATERIALIZED => [COMPLETED; CANCELLED]
  | COMPLETED | CANCELLED | EXPIRED => []
  end.

Definition OBLIGATION_TRANSITIONS (s : ObligationState.t) : list ObligationState.t :=
  match s with
  | ObligationState.UNPAID => [ObligationState.DEPOSITED; ObligationState.PAID]
  | ObligationState.DEPOSITED => [ObligationState.PAID]
  | ObligationState.PAID => []
  end.

Definition TERMINAL_STATES : list ReservationState.t := [COMPLETED; CANCELLED; EXPIRED].

Definition CAPACITY_CONSUMING_STATES : list ReservationState.t := [HELD; RESERVED; MATERIALIZED].

(** Both arguments as the stored strings; a string that is no member is refused. *)
Definition can_transition (current target : string) : bool :=
  match enum_of_value current, enum_of_value target with
  | Some c, Some t => allowed RESERVATION_TRANSITIONS c t
  | _, _ => false
  end.

Definition can_transition_obligation (current target : string) : bool :=
  match enum_of_value current, enum_of_value target with
  | Some c, Some t => allowed OBLIGATION_TRANSITIONS c t
  | _, _ => false
  end.

Definition is_terminal (state : string) : bool :=
  match enum_of_value state with
  | Some s => bool_decide (s ∈ TERMINAL_STATES)
  | None => false
  end.

Definition consumes_capacity (state : string) : bool :=
  match enum_of_value state with
  | Some s => bool_decide (s ∈ CAPACITY_CONSUMING_STATES)
  | None => false
  end.

Definition obligation_satisfies_reserved (obligation_state : string) (required : list string) : bool :=
  match enum_of_value (A := ObligationState.t) obligation_state with
  | Some cur => str_in (upper (enum_value cur)) (map upper required)
  | None => false
  end.

Record transition_args : Type := {
  changed_by_user_id : option Z;
  reason : option string;
  trigger : option string;
  metadata : option audit_entry;
}.

(** One appended entry: [**(metadata or {})] comes last, so its keys win. *)
Definition entry (now : Z) (action from to : string) (a : transition_args) : audit_entry :=
  default ∅ (metadata a) ∪
  <["at" := LTime now]>
  (<["action" := LText action]>
  (<["from" := LText from]>
  (<["to" := LText to]>
  (<["by_user_id" := log_int (changed_by_user_id a)]>
  (<["reason" := log_text (reason a)]>
  (<["trigger" := log_text (trigger a)]> ∅)))))).

Definition append_entry (r : reservation) (e : audit_entry) : option (list audit_entry) :=
  Some (default [] (rv_audit_log r) ++ [e]).

Definition transition (now : Z) (r : reservation) (target : string) (a : transition_args)
    : result transition_error reservation :=
  require can_transition (rv_state r) target
    else (InvalidReservationTransition (rv_state r) target) ;;
  Ok (set_state r target
    (append_entry r (entry now "reservation_state_changed" (rv_state r) target a))).

Definition transition_obligation (now : Z) (r : reservation) (target : string) (a : transition_args)
    : result transition_error reservation :=
  require can_transition_obligation (rv_obligation_state r) target
    else (InvalidObligationTransition (rv_obligation_state r) target) ;;
  Ok (set_obligation r target
    (append_entry r (entry now "reservation_obligation_changed" (rv_obligation_state r) target a))).

(** * Runs of the two machines *)

Inductive event : Type :=
  | LifecycleTo (target : string)
  | ObligationTo (target : string).

Definition apply_event (now : Z) (r : reservation) (e : event) (a : transition_args)
    : result transition_error reservation :=
  match e with
  | LifecycleTo t => transition now r t a
  | ObligationTo t => transition_obligation now r t a
  end.

Fixpoint run (r : reservation) (es : list (Z * event * transition_args))
    : result transition_error reservation :=
  match es with
  | [] => Ok r
  | (now, e, a) :: es => let* r' := apply_event now r e a in run r' es
  end.

(** Reading the log back: an entry's "action" says which machine moved and its
    "to" where. *)
Definition replay (so : string * string) (e : audit_entry) : string * string :=
  match e !! "action", e !! "to" with
  | Some (LText act), Some (LText t) =>
      if String.eqb act "reservation_state_changed" then (t, so.2)
      else if String.eqb act "reservation_obligation_changed" then (so.1, t)
      else so
  | _, _ => so
  end.

(** The metadata does not shadow the keys [replay] reads. *)
Definition plain (a : transition_args) : Prop :=
  default ∅ (metadata a) !! "action" = None /\ default ∅ (metadata a) !! "to" = None.

Definition lifecycle_rank (s : ReservationState.t) : nat :=
  match s with
  | DRAFT => 4 | HELD => 3 | RESERVED => 2 | MATERIALIZED => 1
  | COMPLETED | CANCELLED | EXPIRED => 0
  end.

Definition obligation_rank (s : ObligationState.t) : nat :=
  match s with
  | ObligationState.UNPAID => 2 | ObligationState.DEPOSITED => 1 | ObligationState.PAID => 0
  end.

Definition state_of (r : reservation) : string * string := (rv_state r, rv_obligation_state r).

Lemma reservation_can_transition_true c t :
  can_transition (enum_value c) t = true <-> exists s, t = enum_value s /\ tstep RESERVATION_TRANSITIONS c s.
Proof.
  unfold can_transition. rewrite enum_of_value_value. split.
  - destruct (enum_of_value t) as [s|] eqn:E; [|done]. intros Ha%allowed_spec.
    exists s. by apply enum_of_value_Some in E as <-.
  - intros (s & -> & Hs). rewrite enum_of_value_value. by apply allowed_spec.
Qed.

Lemma can_transition_obligation_true c t :
  can_transition_obligation (enum_value c) t = true <->
  exists s, t = enum_value s /\ tstep OBLIGATION_TRANSITIONS c s.
Proof.
  unfold can_transition_obligation. rewrite enum_of_value_value. split.
  - destruct (enum_of_value t) as [s|] eqn:E; [|done]. intros Ha%allowed_spec.
    exists s. by apply enum_of_value_Some in E as <-.
  - intros (s & -> & Hs). rewrite enum_of_value_value. by apply allowed_spec.
Qed.

Lemma lifecycle_rank_decreases s t :
  tstep RESERVATION_TRANSITIONS s t -> (lifecycle_rank t < lifecycle_rank s)%nat.
Proof. destruct s; unfold tstep; simpl; set_unfold; intuition (subst; simpl; lia). Qed.

Lemma obligation_rank_decreases s t :
  tstep OBLIGATION_TRANSITIONS s t -> (obligation_rank t < obligation_rank s)%nat.
Proof. destruct s; unfold tstep; simpl; set_unfold; intuition (subst; simpl; lia). Qed.

Lemma terminal_table s : terminal RESERVATION_TRANSITIONS s = is_terminal (enum_value s).
Proof. by destruct s. Qed.

Lemma replay_entry now act from to a so :
  plain a ->
  replay so (entry now act from to a) =
    if String.eqb act "reservation_state_changed" then (to, so.2)
    else if String.eqb act "reservation_obligation_changed" then (so.1, to) else so.
Proof.
  intros [Ha Ht]. unfold replay, entry.
  rewrite !lookup_union_r by done. rewrite !lookup_insert_ne by done.
  rewrite !lookup_insert_eq. rewrite lookup_insert_ne by done.
  rewrite !lookup_insert_ne by done. by rewrite lookup_insert_eq.
Qed.

(** What one successful event does to the row. *)
Lemma apply_event_Ok now r e a r' s o :
  rv_state r = enum_value s -> rv_obligation_state r = enum_value o ->
  apply_event now r e a = Ok r' ->
  exists s' o' en,
    rv_state r' = enum_value s' /\ rv_obligation_state r' = enum_value o' /\
    rtc (tstep RESERVATION_TRANSITIONS) s s' /\ rtc (tstep OBLIGATION_TRANSITIONS) o o' /\
    rv_audit_log r' = Some (default [] (rv_audit_log r) ++ [en]) /\
    rv_info r' = rv_info r /\ rv_amount_received r' = rv_amount_received r /\
    rv_wallet_transaction_reference r' = rv_wallet_transaction_reference r /\
    (lifecycle_rank s' + obligation_rank o' < lifecycle_rank s + obligation_rank o)%nat /\
    (plain a -> replay (state_of r) en = state_of r').
Proof.
  intros Hs Ho. destruct e as [t|t]; simpl.
  - unfold transition. rewrite Hs. intros [Hc Hr]%require_Ok.
    apply reservation_can_transition_true in Hc as (s' & -> & Hst). injection Hr as <-.
    exists s', o, (entry now "reservation_state_changed" (enum_value s) (enum_value s') a).
    pose proof (lifecycle_rank_decreases _ _ Hst).
    split_and!; try done; [by apply rtc_once|lia|]. intros Hp. by rewrite replay_entry.
  - unfold transition_obligation. rewrite Ho. intros [Hc Hr]%require_Ok.
    apply can_transition_obligation_true in Hc as (o' & -> & Hst). injection Hr as <-.
    exists s, o', (entry now "reservation_obligation_changed" (enum_value o) (enum_value o') a).
    pose proof (obligation_rank_decreases _ _ Hst).
    split_and!; try done; [by apply rtc_once|lia|]. intros Hp. by rewrite replay_entry.
Qed.

Definition no_args : transition_args :=
  {| changed_by_user_id := None; reason := None; trigger := None; metadata := None |}.

Definition sample_events : list (Z * event * transition_args) :=
  [(1, LifecycleTo "held", no_args); (2, ObligationTo "deposited", no_args);
   (3, LifecycleTo "reserved", no_args); (4, ObligationTo "paid", no_args);
   (5, LifecycleTo "cancelled", no_args)]%string.

Definition sample_info : reservation_info := {|
  ri_id := 1; ri_reference := "RSV1"; ri_idempotency_key := "key"; ri_request_fingerprint := "fp";
  ri_reserving_user_id := 7; ri_on_behalf_of := None; ri_offering_code := "bus";
  ri_provider_type := "organisation"; ri_provider_id := 3; ri_window_start := 0;
  ri_window_end := hours 4; ri_required_quantity := 1; ri_mode := "capacity";
  ri_payment_method := None; ri_payment_timing := Some "DEPOSIT";
  ri_commercial_policy_ref := None; ri_deposit_required := true;
  ri_required_total_amount := Some (cents 10000); ri_deposit_amount := Some (cents 2000);
  ri_deposit_currency := Some "USD"; ri_deposit_due_at := Some 0;
  ri_required_obligation := ["DEPOSITED"; "PAID"]; ri_is_deleted := false
|}%string.

Definition sample_row : reservation := {|
  rv_info := sample_info; rv_state := "draft"; rv_obligation_state := "unpaid";
  rv_amount_received := Some dzero; rv_wallet_transaction_reference := None;
  rv_audit_log := Some []
|}%string.

(** C37: any sequence of accepted lifecycle and obligation transitions of a
    reservation follows both tables, moves the obligation only forward, is at
    most six long and appends exactly one audit entry per transition; no other
    column of the row changes, and a terminal reservation stays as it is. When the
    metadata given to the transitions has no key "action" or "to" (its keys are
    written over those of the entry, and no caller gives any), reading the new
    entries back from the starting states gives the states of the row. *)
Theorem run_audited r es r' s o :
  rv_state r = enum_value s -> rv_obligation_state r = enum_value o ->
  run r es = Ok r' ->
  exists s' o' log,
    rv_state r' = enum_value s' /\ rv_obligation_state r' = enum_value o' /\
    rtc (tstep RESERVATION_TRANSITIONS) s s' /\ rtc (tstep OBLIGATION_TRANSITIONS) o o' /\
    default [] (rv_audit_log r') = default [] (rv_audit_log r) ++ log /\
    length log = length es /\ (length es <= 6)%nat /\
    rv_info r' = rv_info r /\ rv_amount_received r' = rv_amount_received r /\
    rv_wallet_transaction_reference r' = rv_wallet_transaction_reference r /\
    (is_terminal (rv_state r) = true -> rv_state r' = rv_state r) /\
    (Forall (fun x => plain x.2) es -> foldl replay (state_of r) log = state_of r').
Proof.
  intros Hs Ho Hrun.
  assert (exists s' o' log,
    rv_state r' = enum_value s' /\ rv_obligation_state r' = enum_value o' /\
    rtc (tstep RESERVATION_TRANSITIONS) s s' /\ rtc (tstep OBLIGATION_TRANSITIONS) o o' /\
    default [] (rv_audit_log r') = default [] (rv_audit_log r) ++ log /\
    length log = length es /\
    (length es + lifecycle_rank s' + obligation_rank o' <= lifecycle_rank s + obligation_rank o)%nat /\
    rv_info r' = rv_info r /\ rv_amount_received r' = rv_amount_received r /\
    rv_wallet_transaction_reference r' = rv_wallet_transaction_reference r /\
    (Forall (fun x => plain x.2) es -> foldl replay (state_of r) log = state_of r'))
    as (s' & o' & log & Hs' & Ho' & Hl & Hob & Hlog & Hn & Hrk & Hi & Ha & Hw & Hrep).
  { revert r s o Hs Ho Hrun.
    induction es as [|[[now e] a] es IH]; intros r s o Hs Ho Hrun; simpl in Hrun.
    { injection Hrun as <-. exists s, o, []. rewrite app_nil_r. split_and!; try done; lia. }
    inv_ok Hrun. rename a0 into r1.
    destruct (apply_event_Ok _ _ _ _ _ _ _ Hs Ho Hok) as (s1 & o1 & en & H1 & H2 & H3 & H4 & H5 & H6 & H7 & H7w & H8 & H9).
    destruct (IH r1 s1 o1 H1 H2 Hrun) as (s' & o' & log & G1 & G2 & G3 & G4 & G5 & G6 & G7 & G8 & G9 & G9w & G10).
    exists s', o', (en :: log). rewrite G5, H5. simpl. rewrite <-app_assoc.
    split_and!; try done; [by transitivity s1|by transitivity o1|lia|lia|congruence|congruence|congruence|].
    intros Hf. inversion Hf as [|? ? Hp Hps]; subst. simpl in Hp. rewrite (H9 Hp). auto. }
  exists s', o', log. split_and!; try done.
  - assert (lifecycle_rank s <= 4 /\ obligation_rank o <= 2)%nat by (destruct s, o; simpl; lia). lia.
  - rewrite Hs, Hs', <-terminal_table. intros Ht. by rewrite (rtc_terminal _ _ _ Ht Hl).
Qed.

Lemma run_audited_witness :
  exists r', run sample_row sample_events = Ok r' /\
    state_of r' = ("cancelled", "paid")%string /\
    exists log, default [] (rv_audit_log r') = log /\ length log = 5%nat /\
      foldl replay ("draft", "unpaid")%string log = ("cancelled", "paid")%string.
Proof.
  destruct (run sample_row sample_events) as [r'|] eqn:E; [|vm_compute in E; discriminate E].
  destruct (run_audited sample_row sample_events r' ReservationState.DRAFT ObligationState.UNPAID eq_refl eq_refl E)
    as (s' & o' & log & _ & _ & _ & _ & Hlog & Hn & _ & _ & _ & _ & _ & Hrep).
  assert (Hst : state_of r' = ("cancelled", "paid")%string)
    by (vm_compute in E; injection E as <-; reflexivity).
  exists r'. split; [done|]. split; [done|]. exists log. split_and!; [by rewrite Hlog|done|].
  change ("draft", "unpaid")%string with (state_of sample_row). rewrite Hrep, Hst; [done|].
  unfold sample_events. repeat constructor.
Defined.

(** Metadata with a key of the entry hides what happened. *)
Example shadowed_entry :
  exists r', transition 1 sample_row "held" {| changed_by_user_id := None; reason := None; trigger := None;
                                               metadata := Some {["to" := LText "draft"]} |} = Ok r'
    /\ rv_state r' = "held"%string
    /\ foldl replay (state_of sample_row) (default [] (rv_audit_log r')) = ("draft", "unpaid")%string.
Proof. eexists. split; [vm_compute; reflexivity|]. split; vm_compute; reflexivity. Qed.

End TransportReservationStateMachine.
