(* ===== verification/ReservationPolicy.v ===== *)
(** The policy of a reservation request:
    app/transport/services/reservation_policy_evaluator.py. It checks window,
    quantity, actor, payment timing and method and the authority to act for an
    organisation, and computes the deposit and the obligation a reservation must
    meet before it is RESERVED. It moves no money. *)

From Stdlib Require Import QArith.
From S2P Require Import Prelude Decimal DecimalLaws ReservationStates.

Local Open Scope Z_scope.

Definition CANONICAL_PAYMENT_METHODS : list string :=
  ["CASH"; "WALLET"; "MOBILE_MONEY"; "CARD"; "BANK_TRANSFER"]%string.

Definition CANONICAL_PAYMENT_TIMINGS : list string :=
  ["NOW"; "DEPOSIT"; "END_OF_TRIP"; "INVOICE"]%string.

Definition RESERVATION_MODES : list string := ["specific"; "capacity"]%string.

(** The lookup is made with a canonical timing only; the last case is not met. *)
Definition _REQUIRED_OBLIGATION_FOR_RESERVED (timing : string) : list string :=
  if String.eqb timing "NOW" then ["PAID"]%string
  else if String.eqb timing "DEPOSIT" then ["DEPOSITED"; "PAID"]%string
  else if str_in timing ["END_OF_TRIP"; "INVOICE"]%string then ["UNPAID"; "DEPOSITED"; "PAID"]%string
  else [].

(** A user as the request carries it. *)
Record actor : Type := {
  ac_id : Z;
  ac_is_authenticated : bool;
  ac_global_roles : list string;
}.

(** Organisation and OrganisationMember; [om_permissions] is what the member's
    roles and grants amount to (effective_permissions of identity). *)
Record organisation : Type := { org_id : Z; org_is_active : bool; org_is_deleted : bool }.
Record organisation_member : Type := {
  om_user_id : Z;
  om_organisation_id : Z;
  om_is_active : bool;
  om_is_deleted : bool;
  om_permissions : list string;
}.

Record identity : Type := {
  id_organisations : list organisation;
  id_members : list organisation_member;
}.

(** The value of enabled_payment_methods: not set, null, a text or a list. *)
Inductive methods_setting : Type :=
  | MethodsUnset
  | MethodsNull
  | MethodsText (s : string)
  | MethodsList (l : list string).

(** The settings "transport.reservation.*". The outer option is whether the key
    is set, the inner one whether int() or Decimal() converts its value. *)
Record reservation_settings : Type := {
  st_enabled_payment_methods : methods_setting;
  st_deposit_lead_hours : option (option Z);
  st_deposit_percent : option (option dec);
  st_deposit_currency : option string;
  st_commercial_policy : string -> option string;
}.

Record PolicyDecision : Type := {
  pd_allowed : bool;
  pd_reason : string;
  pd_requires_deposit : bool;
  pd_deposit_amount : option dec;
  pd_deposit_currency : option string;
  pd_deposit_due_at : option Z;
  pd_required_obligation_for_reserved : list string;
  pd_commercial_policy_ref : option string;
  pd_missing_requirements : list string;
  pd_metadata : gmap string log_value;
}.

Definition refused (reason : string) : PolicyDecision := {|
  pd_allowed := false;
  pd_reason := reason;
  pd_requires_deposit := false;
  pd_deposit_amount := None;
  pd_deposit_currency := None;
  pd_deposit_due_at := None;
  pd_required_obligation_for_reserved := [];
  pd_commercial_policy_ref := None;
  pd_missing_requirements := [];
  pd_metadata := ∅;
|}.

(** The keyword arguments of [evaluate]. The evidence of authority is passed
    along and not read. *)
Record policy_request : Type := {
  pr_actor : option actor;
  pr_offering_code : string;
  pr_provider_type : string;
  pr_provider_id : Z;
  pr_quantity : Z;
  pr_window_start : datetime;
  pr_window_end : datetime;
  pr_payment_method : option string;
  pr_payment_timing : option string;
  pr_commercial_policy_ref : option string;
  pr_on_behalf_of : option Z;
  pr_estimated_value : option dec;
}.

Module TransportReservationPolicyEvaluator.

Definition DEFAULT_DEPOSIT_LEAD_HOURS : Z := 72.
Definition DEFAULT_DEPOSIT_PERCENT : dec := cents 2000.
Definition DEFAULT_DEPOSIT_CURRENCY : string := "USD".

(** [(x or "").strip().upper()] *)
Definition canonical (x : option string) : string := upper (strip (str_or x "")).

Definition find_membership (ids : identity) (user org : Z) : option organisation_member :=
  List.find (fun m => (om_user_id m =? user) && (om_organisation_id m =? org)
                      && om_is_active m && negb (om_is_deleted m)) (id_members ids).

(** A user always has an id, so the branch for an actor without one is not met. *)
Definition _validate_authority (ids : identity) (a : actor) (org : Z) : bool * string :=
  match List.find (fun o => (org_id o =? org) && negb (org_is_deleted o) && org_is_active o)
          (id_organisations ids) with
  | None => (false, "Organisation not found"%string)
  | Some o =>
      match find_membership ids (ac_id a) (org_id o) with
      | None => (false, "Actor is not an active organisation member"%string)
      | Some m =>
          if str_in "org.manage_transport" (om_permissions m) then (true, ""%string)
          else (false, "Actor lacks organisation transport authority"%string)
      end
  end.

Definition deposit_percent (st : reservation_settings) : dec :=
  match st_deposit_percent st with
  | Some (Some p) => p
  | _ => DEFAULT_DEPOSIT_PERCENT
  end.

Definition lead_hours (st : reservation_settings) : Z :=
  match st_deposit_lead_hours st with
  | Some (Some h) => h
  | _ => DEFAULT_DEPOSIT_LEAD_HOURS
  end.

Definition _compute_deposit (st : reservation_settings) (payment_timing : string)
    (estimated_value : option dec) (window_start : Z)
    : bool * option dec * option string * option Z :=
  if negb (String.eqb payment_timing "DEPOSIT") then (false, None, None, None) else
  let currency := str_or (st_deposit_currency st) DEFAULT_DEPOSIT_CURRENCY in
  let deposit_amount :=
    match estimated_value with
    | Some v =>
        match ddiv (dmul v (deposit_percent st)) (dint 100) with
        | Ok d => Some d
        | Err _ => None
        end
    | None => None
    end in
  (true, deposit_amount, Some currency, Some (window_start - hours (lead_hours st))).

(** The enabled methods, stripped and upper-cased. *)
Definition enabled_upper (st : reservation_settings) : list string :=
  map (fun m => upper (strip m))
    match st_enabled_payment_methods st with
    | MethodsUnset => CANONICAL_PAYMENT_METHODS
    | MethodsNull => []
    | MethodsText s => [s]
    | MethodsList l => l
    end.

(** The checks of steps 1 to 6, in order: the reason of the first that fails. *)
Definition objection (ids : identity) (st : reservation_settings) (r : policy_request) : option string :=
  let timing := canonical (pr_payment_timing r) in
  let method := canonical (pr_payment_method r) in
  match pr_window_start r, pr_window_end r with
  | Aware s, Aware e =>
      if e <=? s then Some "window_end must be strictly after window_start"%string
      else if pr_quantity r <=? 0 then Some "quantity must be a positive integer"%string
      else match pr_actor r with
      | None => Some "Authentication required"%string
      | Some a =>
        if negb (ac_is_authenticated a) then Some "Authentication required"%string
        else if String.eqb timing "" then Some "payment_timing is required"%string
        else if negb (str_in timing CANONICAL_PAYMENT_TIMINGS) then
          Some ("Unsupported payment_timing '" +:+ timing +:+
                "'. Canonical: ['DEPOSIT', 'END_OF_TRIP', 'INVOICE', 'NOW'].")%string
        else if String.eqb timing "NOW" && String.eqb method "" then
          Some "payment_method is required for timing=NOW"%string
        else if negb (String.eqb method "") && negb (str_in method CANONICAL_PAYMENT_METHODS) then
          Some ("Unsupported payment_method '" +:+ method +:+
                "'. Canonical: ['BANK_TRANSFER', 'CARD', 'CASH', 'MOBILE_MONEY', 'WALLET'].")%string
        else if negb (String.eqb method "") && negb (str_in method (enabled_upper st)) then
          Some ("Payment method '" +:+ method +:+ "' is not enabled for this deployment")%string
        else match pr_on_behalf_of r with
        | Some org =>
            let '(ok, reason) := _validate_authority ids a org in
            if ok then None else Some reason
        | None => None
        end
      end
  | _, _ => Some "window_start and window_end must be tz-aware"%string
  end.

Definition evaluate (ids : identity) (st : reservation_settings) (r : policy_request) : PolicyDecision :=
  match objection ids st r with
  | Some reason => refused reason
  | None =>
      let timing := canonical (pr_payment_timing r) in
      let method := canonical (pr_payment_method r) in
      let '(requires_deposit, amount, currency, due) :=
        _compute_deposit st timing (pr_estimated_value r) (as_utc (pr_window_start r)) in
      {| pd_allowed := true;
         pd_reason := "Reservation policy satisfied";
         pd_requires_deposit := requires_deposit;
         pd_deposit_amount := amount;
         pd_deposit_currency := currency;
         pd_deposit_due_at := due;
         pd_required_obligation_for_reserved := _REQUIRED_OBLIGATION_FOR_RESERVED timing;
         pd_commercial_policy_ref :=
           if truthy (pr_commercial_policy_ref r) then pr_commercial_policy_ref r
           else st_commercial_policy st (pr_offering_code r);
         pd_missing_requirements := [];
         pd_metadata :=
           <["payment_method" := if String.eqb method "" then LNone else LText method]>
           (<["payment_timing" := LText timing]>
           (<["offering_code" := LText (pr_offering_code r)]>
           (<["provider_type" := LText (pr_provider_type r)]>
           (<["provider_id" := LInt (pr_provider_id r)]>
           (<["quantity" := LInt (pr_quantity r)]> ∅))))) |}
  end.

End TransportReservationPolicyEvaluator.

Import TransportReservationPolicyEvaluator.

(** The actor has the transport authority of the organisation. *)
Definition may_act_for (ids : identity) (a : actor) (org : Z) : Prop :=
  (exists o, o ∈ id_organisations ids /\ org_id o = org /\
             org_is_active o = true /\ org_is_deleted o = false) /\
  exists m, find_membership ids (ac_id a) org = Some m /\
            "org.manage_transport"%string ∈ om_permissions m.

(** What a request must satisfy. *)
Record acceptable (ids : identity) (st : reservation_settings) (r : policy_request) : Prop := {
  ok_window : exists s e, pr_window_start r = Aware s /\ pr_window_end r = Aware e /\ s < e;
  ok_quantity : 0 < pr_quantity r;
  ok_actor : exists a, pr_actor r = Some a /\ ac_is_authenticated a = true /\
    forall org, pr_on_behalf_of r = Some org -> may_act_for ids a org;
  ok_timing : canonical (pr_payment_timing r) ∈ CANONICAL_PAYMENT_TIMINGS;
  ok_method_given : canonical (pr_payment_timing r) = "NOW"%string ->
    canonical (pr_payment_method r) <> ""%string;
  ok_method : canonical (pr_payment_method r) <> ""%string ->
    canonical (pr_payment_method r) ∈ CANONICAL_PAYMENT_METHODS /\
    canonical (pr_payment_method r) ∈ enabled_upper st;
}.

Lemma validate_authority_spec ids a org :
  (_validate_authority ids a org).1 = true <-> may_act_for ids a org.
Proof.
  unfold _validate_authority, may_act_for. split.
  - destruct (List.find _ (id_organisations ids)) as [o|] eqn:Ho; [|done].
    apply List.find_some in Ho as [Hin Hc]. rewrite !andb_true_iff, negb_true_iff, Z.eqb_eq in Hc.
    destruct Hc as [[<- Hdel] Hact]. destruct (find_membership _ _ _) as [m|] eqn:Hm; [|done].
    destruct (str_in _ _) eqn:Hp; [|done]. intros _. split.
    + exists o. rewrite list_elem_of_In. done.
    + exists m. by rewrite <-str_in_spec.
  - intros [(o & Hin & <- & Hact & Hdel) (m & Hm & Hp)].
    destruct (List.find _ (id_organisations ids)) as [o'|] eqn:Ho.
    + apply List.find_some in Ho as [_ Hc]. rewrite !andb_true_iff, Z.eqb_eq in Hc.
      destruct Hc as [[-> _] _]. rewrite Hm. apply str_in_spec in Hp. by rewrite Hp.
    + apply list_elem_of_In in Hin. apply (List.find_none _ _) with (x := o) in Ho; [|done].
      by rewrite Z.eqb_refl, Hact, Hdel in Ho.
Qed.

Lemma eqb_empty (s : string) : String.eqb s "" = false <-> s <> ""%string.
Proof. apply String.eqb_neq. Qed.

Lemma timing_nonempty t : t ∈ CANONICAL_PAYMENT_TIMINGS -> String.eqb t "" = false.
Proof. intros Ht. apply eqb_empty. intros ->. apply str_in_spec in Ht. discriminate Ht. Qed.

(** The checks find nothing to object to exactly when the request is acceptable. *)
Lemma objection_None ids st r : objection ids st r = None <-> acceptable ids st r.
Proof.
  unfold objection. cbv zeta. split.
  - intros H.
    destruct (pr_window_start r) as [|s] eqn:Hs; [done|]. destruct (pr_window_end r) as [|e] eqn:He; [done|].
    destruct (e <=? s) eqn:Hse; [done|]. destruct (pr_quantity r <=? 0) eqn:Hq; [done|].
    destruct (pr_actor r) as [a|] eqn:Ha; [|done]. destruct (ac_is_authenticated a) eqn:Hau; [|done].
    simpl in H. destruct (String.eqb (canonical (pr_payment_timing r)) "") eqn:Ht0; [done|].
    destruct (str_in (canonical (pr_payment_timing r)) _) eqn:Ht; [|done]. simpl in H.
    destruct (_ && _) eqn:Hnow in H; [done|]. destruct (_ && _) eqn:Hcan in H; [done|].
    destruct (_ && _) eqn:Hen in H; [done|]. apply str_in_spec in Ht.
    split; try done; [exists s, e; split_and!; [done|done|lia]|lia| | |].
    + exists a. split_and!; try done. intros org Ho. rewrite Ho in H.
      apply validate_authority_spec. by destruct (_validate_authority ids a org) as [[] ?].
    + intros E. rewrite E in Hnow. simpl in Hnow. by apply eqb_empty.
    + intros E%eqb_empty. rewrite E in Hcan, Hen. simpl in Hcan, Hen.
      apply negb_false_iff in Hcan, Hen. by rewrite !str_in_spec in *.
  - intros [(s & e & -> & -> & Hse) Hq (a & -> & Hau & Horg) Ht Hnow Hm].
    destruct (e <=? s) eqn:E1; [lia|]. destruct (pr_quantity r <=? 0) eqn:E2; [lia|].
    rewrite Hau. simpl. rewrite (timing_nonempty _ Ht). apply str_in_spec in Ht. rewrite Ht. simpl.
    destruct (String.eqb (canonical (pr_payment_method r)) "") eqn:Em; simpl.
    + destruct (String.eqb (canonical (pr_payment_timing r)) "NOW") eqn:En; simpl.
      { apply String.eqb_eq in En, Em. by destruct (Hnow En). }
      destruct (pr_on_behalf_of r) as [org|]; [|done]. specialize (Horg org eq_refl).
      apply validate_authority_spec in Horg. by destruct (_validate_authority ids a org) as [[] ?].
    + rewrite andb_false_r. apply eqb_empty in Em. destruct (Hm Em) as [H1 H2].
      apply str_in_spec in H1, H2. rewrite H1, H2. simpl.
      destruct (pr_on_behalf_of r) as [org|]; [|done]. specialize (Horg org eq_refl).
      apply validate_authority_spec in Horg. by destruct (_validate_authority ids a org) as [[] ?].
Qed.

Lemma evaluate_allowed ids st r : pd_allowed (evaluate ids st r) = true <-> objection ids st r = None.
Proof.
  unfold evaluate. destruct (objection ids st r); [done|].
  by destruct (_compute_deposit _ _ _ _) as [[[? ?] ?] ?].
Qed.

Lemma evaluate_fields ids st r : objection ids st r = None ->
  pd_required_obligation_for_reserved (evaluate ids st r)
    = _REQUIRED_OBLIGATION_FOR_RESERVED (canonical (pr_payment_timing r)) /\
  (pd_requires_deposit (evaluate ids st r), pd_deposit_amount (evaluate ids st r),
   pd_deposit_currency (evaluate ids st r), pd_deposit_due_at (evaluate ids st r))
    = _compute_deposit st (canonical (pr_payment_timing r)) (pr_estimated_value r)
        (as_utc (pr_window_start r)).
Proof.
  intros H. unfold evaluate. rewrite H.
  by destruct (_compute_deposit _ _ _ _) as [[[? ?] ?] ?] eqn:E.
Qed.

(** Which obligation states open the way to RESERVED, per timing. *)
Definition gate_open (timing : string) (o : ObligationState.t) : Prop :=
  (timing = "NOW"%string -> o = ObligationState.PAID) /\
  (timing = "DEPOSIT"%string -> o <> ObligationState.UNPAID).

Lemma gate_spec timing o : timing ∈ CANONICAL_PAYMENT_TIMINGS ->
  TransportReservationStateMachine.obligation_satisfies_reserved (enum_value o)
    (_REQUIRED_OBLIGATION_FOR_RESERVED timing) = true <-> gate_open timing o.
Proof.
  unfold CANONICAL_PAYMENT_TIMINGS, gate_open. rewrite !elem_of_cons, elem_of_nil.
  intros [->|[->|[->|[->|[]]]]]; destruct o; split; try done; vm_compute; naive_solver.
Qed.

(** Only the deposit timing asks for a deposit: its amount is exactly the
    configured percentage of the estimate. *)
Lemma compute_deposit_exact st v s :
  0 <= coef v -> 0 <= coef (deposit_percent st) -> coef v * coef (deposit_percent st) < pow10 prec ->
  exists d cur, _compute_deposit st "DEPOSIT" (Some v) s
      = (true, Some d, Some cur, Some (s - hours (lead_hours st))) /\
    (dval d * 100 == dval v * dval (deposit_percent st))%Q.
Proof.
  intros Hv Hp Hs. destruct (percent_exact v (deposit_percent st) Hv Hp Hs) as (q & Hq & Hval).
  unfold _compute_deposit. rewrite Hq. simpl. eauto.
Qed.

Lemma compute_deposit_none st timing v s : timing <> "DEPOSIT"%string ->
  _compute_deposit st timing v s = (false, None, None, None).
Proof. intros H%String.eqb_neq. unfold _compute_deposit. by rewrite H. Qed.

(** A request is allowed exactly when its window is time-zone aware and not
    empty, its quantity positive, its actor authenticated (and, acting for an
    organisation, an active member with transport authority of an active
    organisation), its timing canonical and its method, if given, canonical and
    enabled, NOW requiring one. An allowed request opens RESERVED to PAID only for
    NOW, to DEPOSITED or PAID for DEPOSIT and to every obligation state otherwise;
    a deposit is asked for DEPOSIT only, due lead_hours before the window, and is
    exactly the configured percentage of the estimated value. *)
Theorem evaluate_spec ids st r :
  (pd_allowed (evaluate ids st r) = true <-> acceptable ids st r) /\
  (pd_allowed (evaluate ids st r) = true ->
   let timing := canonical (pr_payment_timing r) in
   let d := evaluate ids st r in
   (forall o, TransportReservationStateMachine.obligation_satisfies_reserved (enum_value o)
      (pd_required_obligation_for_reserved d) = true <-> gate_open timing o) /\
   (timing <> "DEPOSIT"%string -> pd_requires_deposit d = false /\
      pd_deposit_amount d = None /\ pd_deposit_due_at d = None) /\
   (timing = "DEPOSIT"%string -> pd_requires_deposit d = true /\
      pd_deposit_due_at d = Some (as_utc (pr_window_start r) - hours (lead_hours st)) /\
      (pr_estimated_value r = None -> pd_deposit_amount d = None) /\
      (forall v, pr_estimated_value r = Some v -> 0 <= coef v -> 0 <= coef (deposit_percent st) ->
         coef v * coef (deposit_percent st) < pow10 prec ->
         exists a, pd_deposit_amount d = Some a /\
           (dval a * 100 == dval v * dval (deposit_percent st))%Q))).
Proof.
  split; [by rewrite evaluate_allowed, objection_None|].
  intros Hall timing d. apply evaluate_allowed in Hall.
  destruct (evaluate_fields _ _ _ Hall) as [Hgate Hdep]. fold d timing in Hgate, Hdep.
  apply objection_None in Hall as Hok. pose proof (ok_timing _ _ _ Hok) as Ht. fold timing in Ht.
  split_and!.
  - intros o. rewrite Hgate. by apply gate_spec.
  - intros Hne. rewrite compute_deposit_none in Hdep by done. by injection Hdep as -> -> _ ->.
  - intros E. rewrite E in Hdep. split_and!.
    + unfold _compute_deposit in Hdep. simpl in Hdep. by injection Hdep as -> _ _ _.
    + unfold _compute_deposit in Hdep. simpl in Hdep. by injection Hdep as _ _ _ ->.
    + intros Hn. unfold _compute_deposit in Hdep. rewrite Hn in Hdep. simpl in Hdep.
      by injection Hdep as _ -> _ _.
    + intros v Hv H1 H2 H3. rewrite Hv in Hdep.
      destruct (compute_deposit_exact st v (as_utc (pr_window_start r)) H1 H2 H3) as (a & cur & Ha & Hq).
      exists a. rewrite Ha in Hdep. by injection Hdep as _ -> _ _.
Qed.

Definition sample_identity : identity := {|
  id_organisations := [{| org_id := 3; org_is_active := true; org_is_deleted := false |}];
  id_members := [{| om_user_id := 7; om_organisation_id := 3; om_is_active := true;
                    om_is_deleted := false; om_permissions := ["org.manage_transport"%string] |}];
|}.

Definition sample_settings : reservation_settings := {|
  st_enabled_payment_methods := MethodsUnset;
  st_deposit_lead_hours := None;
  st_deposit_percent := None;
  st_deposit_currency := None;
  st_commercial_policy := fun _ => None;
|}.

Definition sample_actor : actor :=
  {| ac_id := 7; ac_is_authenticated := true; ac_global_roles := [] |}.

Definition sample_request (timing : string) : policy_request := {|
  pr_actor := Some sample_actor;
  pr_offering_code := "bus";
  pr_provider_type := "organisation";
  pr_provider_id := 3;
  pr_quantity := 2;
  pr_window_start := Aware (hours 100);
  pr_window_end := Aware (hours 104);
  pr_payment_method := Some " wallet ";
  pr_payment_timing := Some timing;
  pr_commercial_policy_ref := None;
  pr_on_behalf_of := Some 3;
  pr_estimated_value := Some (cents 10000);
|}%string.

Lemma evaluate_spec_witness :
  acceptable sample_identity sample_settings (sample_request "deposit") /\
  exists a, pd_deposit_amount (evaluate sample_identity sample_settings (sample_request "deposit")) = Some a /\
    (dval a * 100 == dval (cents 10000) * dval (cents 2000))%Q.
Proof.
  destruct (evaluate_spec sample_identity sample_settings (sample_request "deposit")) as [Hiff Hsp].
  assert (Hall : pd_allowed (evaluate sample_identity sample_settings (sample_request "deposit")) = true)
    by (vm_compute; reflexivity).
  split; [by apply Hiff|]. destruct (Hsp Hall) as (_ & _ & Hd).
  destruct (Hd eq_refl) as (_ & _ & _ & Hv).
  apply (Hv (cents 10000)); [reflexivity|simpl; lia|vm_compute; done|vm_compute; done].
Defined.
