(* ===== verification/Reservation.v ===== *)
(** Transport reservations as a service:
    app/transport/services/reservation_service.py and
    app/transport/services/reservation_expiry_service.py over the tables of
    app/transport/models.py.

    Each public operation runs in one database transaction (commit=True, the
    default of every caller) and is one atomic step here: creation locks the
    vehicle rows and the overlapping supply rows before it checks and inserts. An
    [Err] leaves the tables as they were. The log table of app.utils.audit is
    written and never read, and is left out. *)

From stdpp Require Import sorting.
From S2P Require Import Prelude Tables Decimal ReservationStates ReservationPolicy.

Local Open Scope Z_scope.

Import TransportReservationStateMachine TransportReservationPolicyEvaluator.

(** TransportReservationLine *)
Record line : Type := {
  ln_reservation_id : Z;
  ln_offering_code : string;
  ln_vehicle_id : option Z;
  ln_window_start : Z;
  ln_window_end : Z;
  ln_state : string;
  ln_is_deleted : bool;
}.

Definition set_line_state (s : string) (l : line) : line := {|
  ln_reservation_id := ln_reservation_id l;
  ln_offering_code := ln_offering_code l;
  ln_vehicle_id := ln_vehicle_id l;
  ln_window_start := ln_window_start l;
  ln_window_end := ln_window_end l;
  ln_state := s;
  ln_is_deleted := ln_is_deleted l;
|}.

(** ProviderOfferingSupply *)
Record supply : Type := {
  su_id : Z;
  su_provider_type : string;
  su_provider_id : Z;
  su_offering_code : string;
  su_window_start : Z;
  su_window_end : Z;
  su_total_units : Z;
  su_is_deleted : bool;
}.

(** Vehicle; [ve_class] is the value of its class. *)
Record vehicle : Type := {
  ve_id : Z;
  ve_owner_type : string;
  ve_owner_id : Z;
  ve_status : option string;
  ve_is_available : bool;
  ve_passenger_capacity : Z;
  ve_class : option string;
  ve_is_deleted : bool;
}.

(** TransportOffering; [of_compatible] is the list "compatible_vehicle_classes" of
    its metadata, empty when there is none. *)
Record offering : Type := {
  of_code : string;
  of_min_seats : Z;
  of_max_seats : Z;
  of_is_active : bool;
  of_is_deleted : bool;
  of_compatible : list string;
}.

(** What the reservation service only reads. *)
Record catalogue : Type := {
  ct_vehicles : list vehicle;
  ct_offerings : list offering;
  ct_identity : identity;
  ct_settings : reservation_settings;
}.

(** The tables; [st_next_*] is the next value of the primary key's sequence. *)
Record store : Type := {
  st_reservations : list reservation;
  st_lines : list line;
  st_supplies : list supply;
  st_catalogue : catalogue;
  st_next_reservation : Z;
  st_next_supply : Z;
}.

Definition with_reservations (s : store) (rs : list reservation) (ls : list line) : store := {|
  st_reservations := rs;
  st_lines := ls;
  st_supplies := st_supplies s;
  st_catalogue := st_catalogue s;
  st_next_reservation := st_next_reservation s;
  st_next_supply := st_next_supply s;
|}.

Inductive service_error : Type :=
  | ValidationError (msg : string)
  | PermissionError (msg : string)
  | NotFoundError (msg : string)
  | ConflictError (msg : string)
  | ReservationConflictError (* the vehicles are taken *)
  | InsufficientSupply (slice_start slice_end requested available : Z)   (* ReservationConflictError *)
  | NoSupply                                                             (* SupplyCoverageError *)
  | CoverageGap (from to : Z)                                            (* SupplyCoverageError *)
  | CoverageEnds (at_ before : Z)                                        (* SupplyCoverageError *)
  | TransitionError (e : transition_error)
  | TypeError
  | DataError.                                   (* a value the column cannot hold *)

(** A Numeric(10, 2) column rounds half away from zero and refuses ten digits or
    more before the point. *)
Definition store_amount (d : dec) : result service_error dec :=
  match quantize ROUND_HALF_UP (-2) d with
  | Ok q => if Z.abs (coef q) <? 10000000000 then Ok q else Err DataError
  | Err _ => Err DataError
  end.

Definition store_optional (d : option dec) : result service_error (option dec) :=
  match d with
  | Some d => let* q := store_amount d in Ok (Some q)
  | None => Ok None
  end.

Definition ACTIVE_LINE_STATES : list string := ["held"; "reserved"; "materialized"]%string.
Definition VEHICLE_PROVIDER_TYPE_ORG : string := "organisation".
Definition VEHICLE_PROVIDER_TYPE_DRIVER : string := "driver".

Definition rid (r : reservation) : Z := ri_id (rv_info r).

Definition active_line (l : line) : bool :=
  negb (ln_is_deleted l) && str_in (ln_state l) ACTIVE_LINE_STATES.

(** [a.window_start < e and a.window_end > s] *)
Definition overlaps (a_start a_end s e : Z) : bool := (a_start <? e) && (s <? a_end).

(** The join of a line with its reservation, with a condition on it. *)
Definition joined (rs : list reservation) (cond : reservation_info -> bool) (l : line) : bool :=
  existsb (fun r => (rid r =? ln_reservation_id l) && negb (ri_is_deleted (rv_info r))
                    && cond (rv_info r)) rs.

Definition in_pool (provider_type : string) (provider_id : Z) (offering_code : string)
    (i : reservation_info) : bool :=
  String.eqb (ri_provider_type i) provider_type && (ri_provider_id i =? provider_id)
  && String.eqb (ri_offering_code i) offering_code.

Definition supply_in_pool (provider_type : string) (provider_id : Z) (offering_code : string)
    (su : supply) : bool :=
  String.eqb (su_provider_type su) provider_type && (su_provider_id su =? provider_id)
  && String.eqb (su_offering_code su) offering_code && negb (su_is_deleted su).

(** The keyword arguments of [create_reservation]. The quantity is an int and the
    windows are datetimes; the checks of their types have nothing to refuse. *)
Record create_request : Type := {
  cr_actor : option actor;
  cr_offering_code : string;
  cr_provider_type : string;
  cr_provider_id : Z;
  cr_window_start : datetime;
  cr_window_end : datetime;
  cr_required_quantity : Z;
  cr_mode : string;
  cr_idempotency_key : string;
  cr_payment_method : option string;
  cr_payment_timing : option string;
  cr_commercial_policy_ref : option string;
  cr_on_behalf_of : option Z;
  cr_event_id : option Z;
  cr_context_source : option string;
  cr_context_ref : option string;
  cr_specific_vehicle_ids : option (list Z);
  cr_estimated_value : option dec;
}.

(** The canonical request that is hashed. *)
Record canonical_request : Type := {
  cq_offering_code : string;
  cq_provider_type : string;
  cq_provider_id : Z;
  cq_window_start : Z;
  cq_window_end : Z;
  cq_required_quantity : Z;
  cq_mode : string;
  cq_payment_method : option string;
  cq_payment_timing : option string;
  cq_commercial_policy_ref : option string;
  cq_on_behalf_of : option Z;
  cq_event_id : option Z;
  cq_context_source : option string;
  cq_context_ref : option string;
  cq_specific_vehicle_ids : list Z;
  cq_estimated_value : option dec;
}.

(** The digest of the canonical JSON text: SHA-256 in the code. *)
Class Digest : Type := digest : canonical_request -> string.

Module TransportReservationService.

Section service.
Context `{Digest}.

(** * Creation: request, idempotency *)

(** [str(x).strip().lower()] and, for an optional value, [.upper()]. *)
Definition canonical_text (s : string) : string := lower (strip s).
Definition canonical_option (s : option string) : option string :=
  (fun s => upper (strip s)) <$> s.

(** [format(value, "f")] tells Decimals apart up to a positive exponent. *)
Definition fixed_point (d : dec) : dec :=
  if 0 <? dexp d then Dec (at_exp 0 d) 0 else d.

Definition _request_fingerprint (q : create_request) : string := digest {|
  cq_offering_code := canonical_text (cr_offering_code q);
  cq_provider_type := canonical_text (cr_provider_type q);
  cq_provider_id := cr_provider_id q;
  cq_window_start := as_utc (cr_window_start q);
  cq_window_end := as_utc (cr_window_end q);
  cq_required_quantity := cr_required_quantity q;
  cq_mode := canonical_text (cr_mode q);
  cq_payment_method := canonical_option (cr_payment_method q);
  cq_payment_timing := canonical_option (cr_payment_timing q);
  cq_commercial_policy_ref := cr_commercial_policy_ref q;
  cq_on_behalf_of := cr_on_behalf_of q;
  cq_event_id := cr_event_id q;
  cq_context_source := cr_context_source q;
  cq_context_ref := cr_context_ref q;
  cq_specific_vehicle_ids := merge_sort Z.le (default [] (cr_specific_vehicle_ids q));
  cq_estimated_value := fixed_point <$> cr_estimated_value q;
|}.

Definition _lookup_idempotent (s : store) (user : Z) (key : string) : option reservation :=
  List.find (fun r => (ri_reserving_user_id (rv_info r) =? user)
                      && String.eqb (ri_idempotency_key (rv_info r)) key
                      && negb (ri_is_deleted (rv_info r))) (st_reservations s).

Definition _return_matching_idempotent (existing : reservation) (fingerprint : string)
    : result service_error reservation :=
  require String.eqb (ri_request_fingerprint (rv_info existing)) fingerprint
    else (ConflictError "Idempotency key has already been used with a different material request") ;;
  Ok existing.

(** TransportOfferingRegistry.get *)
Definition get_offering (ct : catalogue) (code : string) : option offering :=
  if String.eqb code "" then None
  else List.find (fun o => String.eqb (of_code o) (canonical_text code)
                           && of_is_active o && negb (of_is_deleted o)) (ct_offerings ct).

(** * Vehicles *)

(** The rows locked, by id; the locks are taken in ascending order. *)
Definition _lock_vehicles_for_reservation (ct : catalogue) (ids : list Z) : list vehicle :=
  List.filter (fun v => bool_decide (ve_id v ∈ ids) && negb (ve_is_deleted v)) (ct_vehicles ct).

Definition prove_one (locked : list vehicle) (provider_type : string) (provider_id : Z)
    (o : offering) (vid : Z) : result service_error unit :=
  let* v := of_option (NotFoundError "Vehicle not found") (List.find (fun v => ve_id v =? vid) locked) in
  require str_in provider_type [VEHICLE_PROVIDER_TYPE_ORG; VEHICLE_PROVIDER_TYPE_DRIVER]
    else (ValidationError "specific reservations require an organisation or driver provider") ;;
  require String.eqb (ve_owner_type v) provider_type && (ve_owner_id v =? provider_id)
    else (PermissionError "Vehicle is not owned by the indicated provider") ;;
  require String.eqb (lower (str_or (ve_status v) "")) "active" && ve_is_available v
    else (ValidationError "Vehicle is not in active status") ;;
  require (of_min_seats o <=? ve_passenger_capacity v) && (ve_passenger_capacity v <=? of_max_seats o)
    else (ValidationError "Vehicle capacity is not eligible for offering") ;;
  require match of_compatible o, ve_class v with
          | [], _ => true
          | _, Some c => String.eqb c "" || str_in c (of_compatible o)
          | _, None => true
          end
    else (ValidationError "Vehicle class is not eligible for offering") ;;
  Ok tt.

Fixpoint _prove_vehicle_ownership (locked : list vehicle) (provider_type : string)
    (provider_id : Z) (o : offering) (ids : list Z) : result service_error unit :=
  match ids with
  | [] => Ok tt
  | vid :: ids =>
      let* _ := prove_one locked provider_type provider_id o vid in
      _prove_vehicle_ownership locked provider_type provider_id o ids
  end.

Definition _active_specific_vehicle_ids (s : store) (id : Z) : list Z :=
  merge_sort Z.le (remove_dups (omap ln_vehicle_id
    (List.filter (fun l => (ln_reservation_id l =? id) && active_line l) (st_lines s)))).

Definition on_vehicle (ids : list Z) (l : line) : bool :=
  match ln_vehicle_id l with
  | Some v => bool_decide (v ∈ ids)
  | None => false
  end.

Definition _check_vehicle_overlap (s : store) (ids : list Z) (window_start window_end : Z)
    : result service_error unit :=
  require negb (existsb (fun l => on_vehicle ids l && active_line l
                           && overlaps (ln_window_start l) (ln_window_end l) window_start window_end
                           && joined (st_reservations s) (fun _ => true) l) (st_lines s))
    else ReservationConflictError ;;
  Ok tt.

(** * Supply and capacity *)

Definition by_start (a b : supply) : Prop :=
  su_window_start a < su_window_start b
  \/ su_window_start a = su_window_start b /\ su_id a <= su_id b.

#[export] Instance by_start_dec : RelDecision by_start.
Proof. intros a b. unfold by_start. apply _. Defined.

Definition by_fst (a b : Z * Z) : Prop := a.1 <= b.1.

#[export] Instance by_fst_dec : RelDecision by_fst.
Proof. intros a b. unfold by_fst. apply _. Defined.

Definition _lock_overlapping_supply_rows (s : store) (provider_type : string) (provider_id : Z)
    (offering_code : string) (window_start window_end : Z) : list supply :=
  merge_sort by_start
    (List.filter (fun su => supply_in_pool provider_type provider_id offering_code su
                            && overlaps (su_window_start su) (su_window_end su) window_start window_end)
       (st_supplies s)).

(** The walk over the slices; [inl] is the early return. *)
Fixpoint cover (slices : list (Z * Z)) (cursor window_end : Z) : result service_error (unit + Z) :=
  match slices with
  | [] => Ok (inr cursor)
  | (s_start, s_end) :: slices =>
      if s_end <=? cursor then cover slices cursor window_end
      else if cursor <? s_start then Err (CoverageGap cursor s_start)
      else
        let cursor := Z.max cursor s_end in
        if window_end <=? cursor then Ok (inl tt) else cover slices cursor window_end
  end.

Definition _assert_continuous_coverage (supplies : list supply) (window_start window_end : Z)
    : result service_error unit :=
  let slices := merge_sort by_fst ((fun su => (su_window_start su, su_window_end su)) <$> supplies) in
  let* c := cover slices window_start window_end in
  match c with
  | inl _ => Ok tt
  | inr cursor => if cursor <? window_end then Err (CoverageEnds cursor window_end) else Ok tt
  end.

Definition _count_committed_in_slice (s : store) (provider_type : string) (provider_id : Z)
    (offering_code : string) (slice_start slice_end : Z) : Z :=
  rowcount (fun l => active_line l
              && overlaps (ln_window_start l) (ln_window_end l) slice_start slice_end
              && joined (st_reservations s) (in_pool provider_type provider_id offering_code) l)
    (st_lines s).

Fixpoint check_slices (s : store) (provider_type : string) (provider_id : Z) (offering_code : string)
    (window_start window_end quantity : Z) (supplies : list supply) : result service_error unit :=
  match supplies with
  | [] => Ok tt
  | su :: supplies =>
      let slice_start := Z.max (su_window_start su) window_start in
      let slice_end := Z.min (su_window_end su) window_end in
      let rest := check_slices s provider_type provider_id offering_code
                    window_start window_end quantity supplies in
      if slice_end <=? slice_start then rest
      else
        let available := su_total_units su -
          _count_committed_in_slice s provider_type provider_id offering_code slice_start slice_end in
        if available <? quantity
        then Err (InsufficientSupply slice_start slice_end quantity available)
        else rest
  end.

Definition _check_supply_coverage (s : store) (provider_type : string) (provider_id : Z)
    (offering_code : string) (window_start window_end quantity : Z) : result service_error unit :=
  let supplies := _lock_overlapping_supply_rows s provider_type provider_id offering_code
                    window_start window_end in
  require negb (Nat.eqb (length supplies) 0) else NoSupply ;;
  let* _ := _assert_continuous_coverage supplies window_start window_end in
  check_slices s provider_type provider_id offering_code window_start window_end quantity supplies.

(** * Lines and state gating *)

Definition new_line (r : reservation) (v : option Z) : line := {|
  ln_reservation_id := rid r;
  ln_offering_code := ri_offering_code (rv_info r);
  ln_vehicle_id := v;
  ln_window_start := ri_window_start (rv_info r);
  ln_window_end := ri_window_end (rv_info r);
  ln_state := "held";
  ln_is_deleted := false;
|}.

Definition _materialise_lines (r : reservation) (ids : option (list Z)) : list line :=
  if String.eqb (ri_mode (rv_info r)) "specific"
  then (fun v => new_line r (Some v)) <$> default [] ids
  else replicate (Z.to_nat (ri_required_quantity (rv_info r))) (new_line r None).

Definition sm_args (user : option Z) (trigger : string) : transition_args := {|
  changed_by_user_id := user;
  reason := None;
  trigger := Some trigger;
  metadata := None;
|}.

Definition lift {A} : result transition_error A -> result service_error A := map_err TransitionError.

Definition _consume_capacity_locked (now : Z) (r : reservation) (ids : option (list Z))
    (required : list string) : result service_error (reservation * list line) :=
  let user := Some (ri_reserving_user_id (rv_info r)) in
  let ls := _materialise_lines r ids in
  let* r := lift (transition now r "held" (sm_args user "capacity_secured")) in
  if obligation_satisfies_reserved (rv_obligation_state r) required
  then let* r := lift (transition now r "reserved" (sm_args user "obligation_satisfied")) in Ok (r, ls)
  else Ok (r, ls).

(** * create_reservation *)

(** Steps 1 to 3: the authenticated actor and the offering. *)
Definition validated (s : store) (q : create_request) : result service_error (actor * offering) :=
  match cr_window_start q, cr_window_end q with
  | Aware ws, Aware we =>
      require ws <? we else (ValidationError "window_end must be strictly after window_start") ;;
      require 0 <? cr_required_quantity q
        else (ValidationError "required_quantity must be a positive integer") ;;
      require str_in (cr_mode q) RESERVATION_MODES
        else (ValidationError "mode must be one of ['capacity', 'specific']") ;;
      let* a := of_option (PermissionError "Authentication required") (cr_actor q) in
      require ac_is_authenticated a else (PermissionError "Authentication required") ;;
      require negb (String.eqb (cr_idempotency_key q) "")
        else (ValidationError "idempotency_key is required") ;;
      let* o := of_option (NotFoundError "Unknown or inactive offering")
                  (get_offering (st_catalogue s) (cr_offering_code q)) in
      require negb (String.eqb (cr_mode q) "specific")
              || match cr_specific_vehicle_ids q with
                 | Some (v :: ids) => Z.of_nat (length (v :: ids)) =? cr_required_quantity q
                 | _ => false
                 end
        else (ValidationError "specific mode requires exactly `required_quantity` vehicle ids") ;;
      Ok (a, o)
  | _, _ => Err (ValidationError "window_start and window_end must be timezone-aware")
  end.

Definition policy_request_of (q : create_request) : policy_request := {|
  pr_actor := cr_actor q;
  pr_offering_code := cr_offering_code q;
  pr_provider_type := cr_provider_type q;
  pr_provider_id := cr_provider_id q;
  pr_quantity := cr_required_quantity q;
  pr_window_start := cr_window_start q;
  pr_window_end := cr_window_end q;
  pr_payment_method := cr_payment_method q;
  pr_payment_timing := cr_payment_timing q;
  pr_commercial_policy_ref := cr_commercial_policy_ref q;
  pr_on_behalf_of := cr_on_behalf_of q;
  pr_estimated_value := cr_estimated_value q;
|}.

(** Steps 5 to 7, on the tables as they are under the locks. *)
Definition admitted_by (s : store) (q : create_request) (o : offering)
    : result service_error PolicyDecision :=
  let ct := st_catalogue s in
  let d := evaluate (ct_identity ct) (ct_settings ct) (policy_request_of q) in
  let ws := as_utc (cr_window_start q) in
  let we := as_utc (cr_window_end q) in
  require pd_allowed d else (PermissionError (pd_reason d)) ;;
  let* _ :=
    if String.eqb (cr_mode q) "specific" then
      let ids := default [] (cr_specific_vehicle_ids q) in
      let locked := _lock_vehicles_for_reservation ct ids in
      let* _ := _prove_vehicle_ownership locked (cr_provider_type q) (cr_provider_id q) o ids in
      _check_vehicle_overlap s ids ws we
    else Ok tt in
  let* _ := _check_supply_coverage s (cr_provider_type q) (cr_provider_id q) (cr_offering_code q)
              ws we (cr_required_quantity q) in
  Ok d.

Definition header (id : Z) (reference : string) (a : actor) (q : create_request)
    (d : PolicyDecision) (total deposit : option dec) : reservation := {|
  rv_info := {|
    ri_id := id;
    ri_reference := reference;
    ri_idempotency_key := cr_idempotency_key q;
    ri_request_fingerprint := _request_fingerprint q;
    ri_reserving_user_id := ac_id a;
    ri_on_behalf_of := cr_on_behalf_of q;
    ri_offering_code := cr_offering_code q;
    ri_provider_type := cr_provider_type q;
    ri_provider_id := cr_provider_id q;
    ri_window_start := as_utc (cr_window_start q);
    ri_window_end := as_utc (cr_window_end q);
    ri_required_quantity := cr_required_quantity q;
    ri_mode := cr_mode q;
    ri_payment_method := if String.eqb (canonical (cr_payment_method q)) "" then None
                         else Some (canonical (cr_payment_method q));
    ri_payment_timing := if String.eqb (canonical (cr_payment_timing q)) "" then None
                         else Some (canonical (cr_payment_timing q));
    ri_commercial_policy_ref := pd_commercial_policy_ref d;
    ri_deposit_required := pd_requires_deposit d;
    ri_required_total_amount := total;
    ri_deposit_amount := deposit;
    ri_deposit_currency := pd_deposit_currency d;
    ri_deposit_due_at := pd_deposit_due_at d;
    ri_required_obligation := pd_required_obligation_for_reserved d;
    ri_is_deleted := false;
  |};
  rv_state := "draft";
  rv_obligation_state := "unpaid";
  rv_amount_received := Some dzero;
  rv_wallet_transaction_reference := None;
  rv_audit_log := Some [];
|}.

(** The unique constraints of the table, which count deleted rows too. *)
Definition violates_unique (s : store) (r : reservation) : bool :=
  existsb (fun x => String.eqb (ri_reference (rv_info x)) (ri_reference (rv_info r))
    || (ri_reserving_user_id (rv_info x) =? ri_reserving_user_id (rv_info r))
       && String.eqb (ri_idempotency_key (rv_info x)) (ri_idempotency_key (rv_info r)))
    (st_reservations s).

(** Steps 8 and 9. On an IntegrityError the code rolls back and looks the winner
    up, passing positional arguments to the keyword-only [_lookup_idempotent],
    which raises TypeError. *)
Definition persist (now : Z) (reference : string) (s : store) (q : create_request) (a : actor)
    (d : PolicyDecision) : result service_error (store * reservation) :=
  let* total := store_optional (cr_estimated_value q) in
  let* deposit := store_optional (pd_deposit_amount d) in
  let r := header (st_next_reservation s) reference a q d total deposit in
  require negb (violates_unique s r) else TypeError ;;
  let* (r, ls) := _consume_capacity_locked now r (cr_specific_vehicle_ids q)
                     (pd_required_obligation_for_reserved d) in
  Ok ({| st_reservations := st_reservations s ++ [r];
         st_lines := st_lines s ++ ls;
         st_supplies := st_supplies s;
         st_catalogue := st_catalogue s;
         st_next_reservation := st_next_reservation s + 1;
         st_next_supply := st_next_supply s |}, r).

Definition create_reservation (now : Z) (reference : string) (s : store) (q : create_request)
    : result service_error (store * reservation) :=
  let* (a, o) := validated s q in
  match _lookup_idempotent s (ac_id a) (cr_idempotency_key q) with
  | Some existing =>
      let* r := _return_matching_idempotent existing (_request_fingerprint q) in Ok (s, r)
  | None =>
      let* d := admitted_by s q o in
      persist now reference s q a d
  end.

End service.

(** * apply_obligation_event *)

(** The target as the caller passes it: a member, or a text that is lower-cased. *)
Inductive obligation_target : Type :=
  | ByState (o : ObligationState.t)
  | ByText (s : string).

Definition target_value (t : obligation_target) : string :=
  match t with
  | ByState o => enum_value o
  | ByText s => lower s
  end.

(** [db.session.get], refused when missing or deleted. *)
Definition get_live (s : store) (id : Z) : result service_error reservation :=
  let* r := of_option (NotFoundError "Reservation not found")
              (List.find (fun r => rid r =? id) (st_reservations s)) in
  require negb (ri_is_deleted (rv_info r)) else (NotFoundError "Reservation not found") ;;
  Ok r.

Definition write_row (s : store) (r : reservation) : store :=
  with_reservations s (update_where (fun x => rid x =? rid r) (fun _ => r) (st_reservations s))
    (st_lines s).

Definition is_deposited (target : string) : bool := String.eqb target (enum_value ObligationState.DEPOSITED).
Definition is_paid (target : string) : bool := String.eqb target (enum_value ObligationState.PAID).

(** The amount the row would have received after the event. *)
Definition proposed_amount (r : reservation) (target : string) (amount_received : option dec)
    : result service_error dec :=
  let current := dec_or0 (rv_amount_received r) in
  match amount_received with
  | Some a =>
      require negb (dltb a dzero) else (ValidationError "amount_received must not be negative") ;;
      Ok (dmax current a)
  | None =>
      let floor := if is_deposited target then ri_deposit_amount (rv_info r)
                   else if is_paid target then ri_required_total_amount (rv_info r)
                   else None in
      Ok (match floor with Some f => dmax current f | None => current end)
  end.

(** The fail-closed guards of a deposit and of a settlement. *)
Definition settled_guard (target_is : bool) (reference : option dec) (proposed : dec)
    (missing short : string) : result service_error unit :=
  if target_is then
    match reference with
    | None => Err (ValidationError missing)
    | Some ref => require negb (dltb proposed ref) else (ValidationError short) ;; Ok tt
    end
  else Ok tt.

(** The partial unique index on the wallet reference, over the other rows. *)
Definition reference_taken (s : store) (r : reservation) : bool :=
  match rv_wallet_transaction_reference r with
  | Some ref => existsb (fun x => negb (rid x =? rid r) &&
                  bool_decide (rv_wallet_transaction_reference x = Some ref)) (st_reservations s)
  | None => false
  end.

Definition apply_obligation_event (now : Z) (s : store) (reservation_id : Z)
    (target_obligation : obligation_target) (wallet_reference : option string)
    (amount_received : option dec) : result service_error (store * reservation) :=
  let* row := get_live s reservation_id in
  let target := target_value target_obligation in
  let current := rv_obligation_state row in
  require negb (is_terminal (rv_state row) && negb (String.eqb target current))
    else (ValidationError "Reservation is in terminal state; obligation cannot transition") ;;
  let* proposed := proposed_amount row target amount_received in
  let* _ := settled_guard (is_deposited target) (ri_deposit_amount (rv_info row)) proposed
              "Deposit event requires a valid deposit reference amount"
              "Deposit event does not satisfy the required deposit amount" in
  let* _ := settled_guard (is_paid target) (ri_required_total_amount (rv_info row)) proposed
              "Paid state requires a valid required total amount"
              "Full-settlement event does not satisfy the required total amount" in
  if truthy wallet_reference && truthy (rv_wallet_transaction_reference row)
     && bool_decide (rv_wallet_transaction_reference row = wallet_reference)
  then Ok (s, row)
  else
    let* moved :=
      if String.eqb target current then Ok row
      else lift (transition_obligation now row target (sm_args None "wallet_obligation_event")) in
    let paid := set_payment moved (Some proposed)
                  (if truthy wallet_reference then wallet_reference
                   else rv_wallet_transaction_reference moved) in
    let* promoted :=
      if String.eqb (rv_state paid) "held"
         && obligation_satisfies_reserved (rv_obligation_state paid) (ri_required_obligation (rv_info paid))
      then lift (transition now paid "reserved" (sm_args None "obligation_satisfied"))
      else Ok paid in
    let* stored := store_amount proposed in
    if reference_taken s promoted then Ok (s, row)
    else
      let r := set_payment promoted (Some stored) (rv_wallet_transaction_reference promoted) in
      Ok (write_row s r, r).

(** * Cancellation and supply *)

Definition actor_can_access_reservation (ids : identity) (a : option actor) (r : reservation) : bool :=
  match a with
  | None => false
  | Some a =>
      if negb (ac_is_authenticated a) then false
      else if ri_reserving_user_id (rv_info r) =? ac_id a then true
      else if existsb (fun role => str_in role ["admin"; "super_admin"; "owner"]%string) (ac_global_roles a)
      then true
      else match ri_on_behalf_of (rv_info r) with
           | None => false
           | Some org =>
               match find_membership ids (ac_id a) org with
               | Some m => str_in "org.manage_transport" (om_permissions m)
               | None => false
               end
           end
  end.

(** The rows the cancelling UPDATE matches, and the release of the lines. *)
Definition cancellable (id : Z) (r : reservation) : bool :=
  (rid r =? id) && str_in (rv_state r) ["held"; "reserved"; "materialized"]%string
  && negb (ri_is_deleted (rv_info r)).

Definition release_lines (id : Z) (ls : list line) : list line :=
  update_where (fun l => (ln_reservation_id l =? id) && str_in (ln_state l) ACTIVE_LINE_STATES)
    (set_line_state "cancelled") ls.

Definition cancel_reservation (s : store) (reservation_id : Z) (a : option actor)
    : result service_error (store * reservation) :=
  let* row := get_live s reservation_id in
  require actor_can_access_reservation (ct_identity (st_catalogue s)) a row
    else (PermissionError "Not authorised to cancel this reservation") ;;
  if is_terminal (rv_state row) then Ok (s, row)
  else
    require rowcount (cancellable (rid row)) (st_reservations s) =? 1
      else (ConflictError "Reservation is not in a cancellable state") ;;
    let rs := update_where (cancellable (rid row))
                (fun r => set_state r "cancelled" (rv_audit_log r)) (st_reservations s) in
    let s' := with_reservations s rs (release_lines (rid row) (st_lines s)) in
    Ok (s', set_state row "cancelled" (rv_audit_log row)).

Definition register_supply (s : store) (provider_type : string) (provider_id : Z)
    (offering_code : string) (window_start window_end total_units : Z)
    : result service_error (store * supply) :=
  require window_start <? window_end else (ValidationError "window_end must be > window_start") ;;
  require 0 <? total_units else (ValidationError "total_units must be > 0") ;;
  require negb (existsb (fun su => supply_in_pool provider_type provider_id offering_code su
                  && overlaps (su_window_start su) (su_window_end su) window_start window_end)
                  (st_supplies s))
    else (ConflictError "Overlapping supply declaration exists for this provider/offering") ;;
  let row := {|
    su_id := st_next_supply s;
    su_provider_type := provider_type;
    su_provider_id := provider_id;
    su_offering_code := offering_code;
    su_window_start := window_start;
    su_window_end := window_end;
    su_total_units := total_units;
    su_is_deleted := false;
  |} in
  Ok ({| st_reservations := st_reservations s;
         st_lines := st_lines s;
         st_supplies := st_supplies s ++ [row];
         st_catalogue := st_catalogue s;
         st_next_reservation := st_next_reservation s;
         st_next_supply := st_next_supply s + 1 |}, row).

End TransportReservationService.

Module TransportReservationExpiryService.
Import TransportReservationService.

(** Held, unpaid, and the deposit deadline has passed. *)
Definition due (now : Z) (r : reservation) : bool :=
  String.eqb (rv_state r) "held"
  && match ri_deposit_due_at (rv_info r) with Some d => d <? now | None => false end
  && String.eqb (rv_obligation_state r) "unpaid" && negb (ri_is_deleted (rv_info r)).

Definition by_deadline (a b : reservation) : Prop :=
  let d r := default 0 (ri_deposit_due_at (rv_info r)) in
  d a < d b \/ d a = d b /\ rid a <= rid b.

#[export] Instance by_deadline_dec : RelDecision by_deadline.
Proof. intros a b. unfold by_deadline. apply _. Defined.

(** A limit of 0 is falsy, like none. *)
Definition candidates (now : Z) (limit : option nat) (s : store) : list Z :=
  let all := rid <$> merge_sort by_deadline (List.filter (due now) (st_reservations s)) in
  match limit with
  | Some (S n) => take (S n) all
  | _ => all
  end.

Record summary : Type := { examined : Z; expired : Z; skipped : Z }.

Definition expire_one (now : Z) (s : store) (id : Z) : store * bool :=
  let hit := fun r => (rid r =? id) && due now r in
  if rowcount hit (st_reservations s) =? 1 then
    (with_reservations s
       (update_where hit (fun r => set_state r "expired" (rv_audit_log r)) (st_reservations s))
       (release_lines id (st_lines s)), true)
  else (s, false).

Fixpoint expire_all (now : Z) (s : store) (ids : list Z) : store * Z :=
  match ids with
  | [] => (s, 0)
  | id :: ids =>
      let '(s, ok) := expire_one now s id in
      let '(s, n) := expire_all now s ids in
      (s, if ok then n + 1 else n)
  end.

Definition expire_due_held_reservations (now : Z) (limit : option nat) (s : store) : store * summary :=
  let ids := candidates now limit s in
  let '(s', n) := expire_all now s ids in
  (s', {| examined := Z.of_nat (length ids); expired := n; skipped := Z.of_nat (length ids) - n |}).

End TransportReservationExpiryService.
