(* ===== verification/ReservationLaws.v ===== *)
(** What the reservation service guarantees: continuous coverage of a window,
    capacity at every instant, exclusive vehicles, lines and payments that agree
    with the state of each reservation, and idempotent creation. The tables
    evolve by the steps of [step]: any of the service's operations, in any order,
    and any change of the catalogue it only reads. *)

From stdpp Require Import sorting pretty.
From S2P Require Import Prelude Tables Decimal DecimalLaws ReservationStates ReservationPolicy Reservation.

Local Open Scope Z_scope.

Import TransportReservationStateMachine TransportReservationPolicyEvaluator.
Import TransportReservationService TransportReservationExpiryService.

(** * Sorting *)

#[export] Instance by_fst_total : Total by_fst.
Proof. intros a b. unfold by_fst. lia. Qed.
#[export] Instance by_fst_trans : Transitive by_fst.
Proof. intros a b c. unfold by_fst. lia. Qed.

(** * Continuous coverage *)

Definition slice_covers (t : Z) (sl : Z * Z) : Prop := sl.1 <= t < sl.2.

(** The walk over slices sorted by their start finds an uncovered instant, or
    there is none. *)
Lemma cover_spec slices cursor we : StronglySorted by_fst slices -> cursor < we ->
  match cover slices cursor we with
  | Ok (inl _) => forall t, cursor <= t < we -> Exists (slice_covers t) slices
  | Ok (inr c) => cursor <= c < we /\ Forall (fun sl => sl.2 <= c) slices
  | Err _ => exists t, cursor <= t < we /\ Forall (fun sl => ~ slice_covers t sl) slices
  end.
Proof.
  intros Hs. revert cursor. induction Hs as [|[s e] slices Hs IH Hall]; intros cursor Hc.
  { simpl. split; [lia|constructor]. }
  simpl. destruct (Z.leb_spec e cursor) as [He|He].
  - specialize (IH cursor Hc). destruct (cover slices cursor we) as [[[]|c]|].
    + intros t Ht. by apply Exists_cons_tl, IH.
    + destruct IH as [? IH]. split; [done|]. constructor; [simpl; lia|done].
    + destruct IH as (t & Ht & IH). exists t. split; [done|].
      constructor; [unfold slice_covers; simpl; lia|done].
  - destruct (Z.ltb_spec cursor s) as [Hg|Hg].
    + exists cursor. split; [lia|]. constructor; [unfold slice_covers; simpl; lia|].
      eapply list.Forall_impl; [exact Hall|]. intros [s' e']. unfold by_fst, slice_covers. simpl. lia.
    + rewrite Z.max_r by lia. destruct (Z.leb_spec we e) as [Hw|Hw].
      { intros t Ht. apply Exists_cons_hd. unfold slice_covers. simpl. lia. }
      specialize (IH e Hw). destruct (cover slices e we) as [[[]|c]|].
      * intros t Ht. destruct (Z_lt_le_dec t e) as [Hte|Hte].
        { apply Exists_cons_hd. unfold slice_covers. simpl. lia. }
        apply Exists_cons_tl, IH. lia.
      * destruct IH as [? IH]. split; [lia|]. constructor; [simpl; lia|done].
      * destruct IH as (t & Ht & IH). exists t. split; [lia|].
        constructor; [unfold slice_covers; simpl; lia|done].
Qed.

Definition supply_covers (t : Z) (su : supply) : Prop := su_window_start su <= t < su_window_end su.

Lemma elem_sorted_slices supplies sl :
  sl ∈ merge_sort by_fst ((fun su => (su_window_start su, su_window_end su)) <$> supplies)
  <-> exists su, su ∈ supplies /\ sl = (su_window_start su, su_window_end su).
Proof. rewrite (merge_sort_Permutation by_fst), list_elem_of_fmap. naive_solver. Qed.

(** The walk of the check, in either outcome. *)
Lemma assert_coverage_cases supplies ws we : ws < we ->
  match _assert_continuous_coverage supplies ws we with
  | Ok _ => forall t, ws <= t < we -> exists su, su ∈ supplies /\ supply_covers t su
  | Err _ => exists t, ws <= t < we /\ forall su, su ∈ supplies -> ~ supply_covers t su
  end.
Proof.
  intros Hw. unfold _assert_continuous_coverage.
  set (slices := merge_sort by_fst _).
  pose proof (cover_spec slices ws we (StronglySorted_merge_sort by_fst _) Hw) as H.
  destruct (cover slices ws we) as [[[]|c]|]; cbn [rbind].
  - intros t Ht. specialize (H t Ht). apply list.Exists_exists in H as (sl & Hin & Hc).
    apply elem_sorted_slices in Hin as (su & Hsu & ->). by exists su.
  - destruct H as [Hc H]. destruct (Z.ltb_spec c we); [|lia]. exists c. split; [lia|].
    intros su Hsu [_ Hlt]. rewrite list.Forall_forall in H.
    specialize (H (su_window_start su, su_window_end su)). simpl in H.
    assert (su_window_end su <= c); [|lia]. apply H, elem_sorted_slices. by exists su.
  - destruct H as (t & Ht & H). exists t. split; [done|]. intros su Hsu.
    rewrite list.Forall_forall in H. apply (H (su_window_start su, su_window_end su)).
    apply elem_sorted_slices. by exists su.
Qed.

Lemma assert_coverage_Ok supplies ws we u : ws < we ->
  _assert_continuous_coverage supplies ws we = Ok u ->
  forall t, ws <= t < we -> exists su, su ∈ supplies /\ supply_covers t su.
Proof. intros Hw E. pose proof (assert_coverage_cases supplies ws we Hw) as Hc. by rewrite E in Hc. Qed.

(** The coverage check accepts a set of supply slices, in whatever order
    they come and however they overlap, exactly when every instant of the
    requested window lies in one of them; when it refuses, some instant of the
    window is uncovered. *)
Theorem assert_continuous_coverage_spec supplies ws we : ws < we ->
  match _assert_continuous_coverage supplies ws we with
  | Ok _ => forall t, ws <= t < we -> exists su, su ∈ supplies /\ supply_covers t su
  | Err _ => exists t, ws <= t < we /\ forall su, su ∈ supplies -> ~ supply_covers t su
  end.
Proof. apply assert_coverage_cases. Qed.

Definition sample_supply (id s e : Z) : supply := {|
  su_id := id; su_provider_type := "organisation"; su_provider_id := 3; su_offering_code := "bus";
  su_window_start := s; su_window_end := e; su_total_units := 5; su_is_deleted := false
|}.

Lemma assert_continuous_coverage_spec_witness :
  exists t, 0 <= t < 10 /\
    forall su, su ∈ [sample_supply 1 6 20; sample_supply 2 0 4] -> ~ supply_covers t su.
Proof.
  exact (assert_continuous_coverage_spec [sample_supply 1 6 20; sample_supply 2 0 4] 0 10 eq_refl).
Defined.

(** * What each operation does to the tables *)

Section laws.
Context `{Digest}.

Definition inserted (s : store) (r : reservation) (ls : list line) : store := {|
  st_reservations := st_reservations s ++ [r];
  st_lines := st_lines s ++ ls;
  st_supplies := st_supplies s;
  st_catalogue := st_catalogue s;
  st_next_reservation := st_next_reservation s + 1;
  st_next_supply := st_next_supply s;
|}.

Definition first_state (required : list string) : string :=
  if obligation_satisfies_reserved "unpaid" required then "reserved" else "held".

Lemma consume_Ok now r ids required r' ls :
  rv_state r = "draft"%string -> rv_obligation_state r = "unpaid"%string ->
  _consume_capacity_locked now r ids required = Ok (r', ls) ->
  ls = _materialise_lines r ids /\ exists log, r' = set_state r (first_state required) log.
Proof.
  intros Hs Ho. unfold _consume_capacity_locked, transition, first_state. rewrite Hs.
  replace (can_transition "draft" "held") with true by (vm_compute; reflexivity).
  cbn -[obligation_satisfies_reserved]. rewrite Ho.
  destruct (obligation_satisfies_reserved "unpaid" required).
  - replace (can_transition "held" "reserved") with true by (vm_compute; reflexivity). cbn.
    intros [= <- <-]. eauto.
  - intros [= <- <-]. eauto.
Qed.

(** What the insertion of a new reservation establishes. *)
Record creation (s : store) (q : create_request) (s' : store) (r : reservation)
    (a : actor) (o : offering) (d : PolicyDecision) : Prop := {
  cn_validated : validated s q = Ok (a, o);
  cn_admitted : admitted_by s q o = Ok d;
  cn_row : exists reference total deposit log,
    store_optional (cr_estimated_value q) = Ok total /\
    store_optional (pd_deposit_amount d) = Ok deposit /\
    let h := header (st_next_reservation s) reference a q d total deposit in
    violates_unique s h = false /\
    r = set_state h (first_state (pd_required_obligation_for_reserved d)) log /\
    s' = inserted s r (_materialise_lines h (cr_specific_vehicle_ids q));
}.

Lemma persist_Ok now ref s q a o d s' r :
  validated s q = Ok (a, o) -> admitted_by s q o = Ok d ->
  persist now ref s q a d = Ok (s', r) -> creation s q s' r a o d.
Proof.
  intros Hv Ha Hp. split; [done..|]. unfold persist in Hp. inv_ok Hp.
  rename a0 into total, a1 into deposit. destruct a2 as [r' ls]. injection Hp as <- <-.
  apply consume_Ok in Hok1 as [-> [log ->]]; [|done|done].
  exists ref, total, deposit, log. apply negb_true_iff in Hreq. split_and!; done.
Qed.

Lemma lookup_Some s user key r : _lookup_idempotent s user key = Some r ->
  r ∈ st_reservations s /\ ri_reserving_user_id (rv_info r) = user /\
  ri_idempotency_key (rv_info r) = key /\ ri_is_deleted (rv_info r) = false.
Proof.
  unfold _lookup_idempotent. intros [Hin Hc]%List.find_some.
  rewrite !andb_true_iff, Z.eqb_eq, String.eqb_eq, negb_true_iff in Hc.
  rewrite list_elem_of_In. tauto.
Qed.

(** A successful creation either replays an existing reservation or inserts one. *)
Lemma create_Ok now ref s q s' r :
  create_reservation now ref s q = Ok (s', r) ->
  (s' = s /\ r ∈ st_reservations s /\ ri_request_fingerprint (rv_info r) = _request_fingerprint q) \/
  exists a o d, _lookup_idempotent s (ac_id a) (cr_idempotency_key q) = None /\ creation s q s' r a o d.
Proof.
  unfold create_reservation. intros Hc. inv_ok Hc. destruct a as [a o].
  destruct (_lookup_idempotent s (ac_id a) (cr_idempotency_key q)) as [x|] eqn:Hl.
  - left. inv_ok Hc. injection Hc as <- <-. unfold _return_matching_idempotent in Hok0. inv_ok Hok0.
    injection Hok0 as <-. apply lookup_Some in Hl as (Hin & _). by apply String.eqb_eq in Hreq.
  - right. inv_ok Hc. exists a, o, a0. split; [done|]. by eapply persist_Ok.
Qed.

(** The row a later operation finds. *)
Lemma get_live_Ok s id r : get_live s id = Ok r ->
  r ∈ st_reservations s /\ rid r = id /\ ri_is_deleted (rv_info r) = false.
Proof.
  unfold get_live. intros Hg. inv_ok Hg. injection Hg as <-.
  apply List.find_some in Hok as [Hin E%Z.eqb_eq]. apply negb_true_iff in Hreq.
  by rewrite list_elem_of_In.
Qed.

(** What an obligation event that is not a replay establishes. *)
Record settlement (row : reservation) (target : string) (amount : option dec) (r : reservation) : Prop := {
  sl_info : rv_info r = rv_info row;
  sl_obligation : rv_obligation_state r = target;
  sl_moved : target = rv_obligation_state row \/
             can_transition_obligation (rv_obligation_state row) target = true;
  sl_terminal : is_terminal (rv_state row) = true -> target = rv_obligation_state row;
  sl_received : exists proposed stored, proposed_amount row target amount = Ok proposed /\
    store_amount proposed = Ok stored /\ rv_amount_received r = Some stored /\
    settled_guard (is_deposited target) (ri_deposit_amount (rv_info row)) proposed
      "Deposit event requires a valid deposit reference amount"
      "Deposit event does not satisfy the required deposit amount" = Ok tt /\
    settled_guard (is_paid target) (ri_required_total_amount (rv_info row)) proposed
      "Paid state requires a valid required total amount"
      "Full-settlement event does not satisfy the required total amount" = Ok tt;
  sl_state : rv_state r =
    if String.eqb (rv_state row) "held"
       && obligation_satisfies_reserved target (ri_required_obligation (rv_info row))
    then "reserved"%string else rv_state row;
}.

Lemma transition_obligation_Ok now r target a r' :
  transition_obligation now r target a = Ok r' ->
  can_transition_obligation (rv_obligation_state r) target = true /\
  exists log, r' = set_obligation r target log.
Proof. unfold transition_obligation. intros [Hc Hr]%require_Ok. injection Hr as <-. eauto. Qed.

Lemma transition_state_Ok now r target a r' :
  transition now r target a = Ok r' -> exists log, r' = set_state r target log.
Proof. unfold transition. intros [Hc Hr]%require_Ok. injection Hr as <-. eauto. Qed.

Lemma apply_Ok now s id tgt ref amount s' r :
  apply_obligation_event now s id tgt ref amount = Ok (s', r) ->
  exists row, get_live s id = Ok row /\
    ((s' = s /\ r = row) \/ (s' = write_row s r /\ settlement row (target_value tgt) amount r)).
Proof.
  unfold apply_obligation_event. intros Hp. inv_ok Hp. rename a into row, a0 into proposed.
  exists row. split; [done|]. destruct a1, a2.
  destruct (_ && _) in Hp; [injection Hp as <- <-; by left|].
  inv_ok Hp. rename a into moved, a0 into promoted, a1 into stored.
  destruct (reference_taken s promoted); [injection Hp as <- <-; by left|].
  right. injection Hp as <- <-. split; [done|].
  assert (Hm : rv_info moved = rv_info row /\ rv_state moved = rv_state row /\
    rv_obligation_state moved = target_value tgt /\
    (target_value tgt = rv_obligation_state row \/
     can_transition_obligation (rv_obligation_state row) (target_value tgt) = true)).
  { destruct (String.eqb_spec (target_value tgt) (rv_obligation_state row)) as [E|E].
    - injection Hok3 as <-. eauto.
    - unfold lift in Hok3. apply map_err_Ok, transition_obligation_Ok in Hok3 as [? [log ->]]. eauto. }
  destruct Hm as (Hi & Hst & Ho & Hmv).
  assert (Hpr : rv_info promoted = rv_info row /\ rv_obligation_state promoted = target_value tgt /\
    rv_state promoted = if String.eqb (rv_state row) "held"
       && obligation_satisfies_reserved (target_value tgt) (ri_required_obligation (rv_info row))
    then "reserved"%string else rv_state row).
  { cbn [rv_state rv_obligation_state rv_info set_payment] in Hok4. rewrite Hi, Hst, Ho in Hok4.
    destruct (_ && _) in Hok4 |- *.
    - unfold lift in Hok4. apply map_err_Ok, transition_state_Ok in Hok4 as [log ->]. done.
    - injection Hok4 as <-. done. }
  destruct Hpr as (Hi' & Ho' & Hs').
  split; try done.
  - intros Ht. rewrite Ht in Hreq. simpl in Hreq. apply negb_true_iff, negb_false_iff in Hreq.
    by apply String.eqb_eq in Hreq.
  - exists proposed, stored. done.
Qed.

(** Cancellation and expiry: the row's state and the release of its lines. *)
Definition released (s : store) (c : reservation -> bool) (st : string) (id : Z) : store :=
  with_reservations s (update_where c (fun r => set_state r st (rv_audit_log r)) (st_reservations s))
    (release_lines id (st_lines s)).

Lemma cancel_reservation_Ok s id a s' r :
  cancel_reservation s id a = Ok (s', r) ->
  s' = s \/ (s' = released s (cancellable id) "cancelled" id /\
             exists x, x ∈ st_reservations s /\ cancellable id x = true).
Proof.
  unfold cancel_reservation. intros Hc. inv_ok Hc. apply get_live_Ok in Hok as (_ & E & _).
  destruct (is_terminal _); [injection Hc as <- _; by left|]. inv_ok Hc.
  injection Hc as <- _. right. rewrite E in Hreq0 |- *. split; [done|].
  apply rowcount_pos. lia.
Qed.

Lemma expire_one_cases now s id :
  (expire_one now s id).1 = s \/
  ((expire_one now s id).1 = released s (fun r => (rid r =? id) && due now r) "expired" id /\
   exists x, x ∈ st_reservations s /\ (rid x =? id) && due now x = true).
Proof.
  unfold expire_one. destruct (_ =? 1) eqn:E; simpl; [right|by left].
  split; [done|]. apply rowcount_pos with (c := fun r => (rid r =? id) && due now r). lia.
Qed.

Lemma register_Ok s pt pid code ws we n s' su :
  register_supply s pt pid code ws we n = Ok (s', su) ->
  s' = {| st_reservations := st_reservations s; st_lines := st_lines s;
          st_supplies := st_supplies s ++ [su]; st_catalogue := st_catalogue s;
          st_next_reservation := st_next_reservation s; st_next_supply := st_next_supply s + 1 |} /\
  0 < su_total_units su /\
  (forall t su', su' ∈ st_supplies s -> supply_covers t su -> supply_covers t su' ->
     supply_in_pool (su_provider_type su) (su_provider_id su) (su_offering_code su) su' = false).
Proof.
  unfold register_supply. intros Hr. inv_ok Hr. injection Hr as <- <-. split; [done|].
  split; [simpl; lia|]. intros t su' Hin [H1 H2] [H3 H4]. simpl in *.
  apply negb_true_iff in Hreq1. apply not_true_iff_false. intros Hp.
  apply not_true_iff_false in Hreq1. apply Hreq1, existsb_exists. exists su'.
  rewrite <-list_elem_of_In, Hp. split; [done|]. unfold overlaps. simpl. lia.
Qed.

(** * Steps *)

Inductive step (s : store) : store -> Prop :=
  | step_create now reference q s' r :
      create_reservation now reference s q = Ok (s', r) -> step s s'
  | step_obligation now id target ref amount s' r :
      apply_obligation_event now s id target ref amount = Ok (s', r) -> step s s'
  | step_cancel id a s' r : cancel_reservation s id a = Ok (s', r) -> step s s'
  | step_expire now limit : step s (expire_due_held_reservations now limit s).1
  | step_register pt pid code ws we n s' su :
      register_supply s pt pid code ws we n = Ok (s', su) -> step s s'
  | step_catalogue ct : step s {|
      st_reservations := st_reservations s; st_lines := st_lines s; st_supplies := st_supplies s;
      st_catalogue := ct; st_next_reservation := st_next_reservation s;
      st_next_supply := st_next_supply s |}.

Definition opening (s : store) : Prop :=
  st_reservations s = [] /\ st_lines s = [] /\ st_supplies s = [].

(** Steps that keep the identity of every row: each reservation its written-once
    columns, each line its own, except that a line may have been cancelled. *)
Definition same_line (l l' : line) : Prop := l' = l \/ l' = set_line_state "cancelled" l.

Record frame (s s' : store) : Prop := {
  fr_infos : rv_info <$> st_reservations s' = rv_info <$> st_reservations s;
  fr_lines : Forall2 same_line (st_lines s) (st_lines s');
  fr_supplies : st_supplies s' = st_supplies s;
  fr_next : st_next_reservation s' = st_next_reservation s;
}.

#[local] Instance same_line_trans : Transitive same_line.
Proof. intros l1 l2 l3 [->| ->] [->| ->]; unfold same_line; auto. Qed.

Lemma same_line_refl ls : Forall2 same_line ls ls.
Proof. induction ls; constructor; [by left|done]. Qed.

Lemma update_infos c f rs : (forall x, x ∈ rs -> c x = true -> rv_info (f x) = rv_info x) ->
  rv_info <$> update_where c f rs = rv_info <$> rs.
Proof.
  intros Hf. induction rs as [|r rs IH]; [done|].
  rewrite update_cons, !fmap_cons, IH by set_solver.
  destruct (c r) eqn:E; [|done]. by rewrite (Hf r) by set_solver.
Qed.

Lemma release_same id ls : Forall2 same_line ls (release_lines id ls).
Proof.
  induction ls as [|l ls IH]; [constructor|]. unfold release_lines in *. rewrite update_cons.
  constructor; [|done]. destruct (_ && _); [by right|by left].
Qed.

Lemma released_frame s c st id : frame s (released s c st id).
Proof. split; try done; [by apply update_infos|apply release_same]. Qed.

Lemma frame_refl s : frame s s.
Proof. split; try done. apply same_line_refl. Qed.

Lemma write_row_frame s row r : NoDup (rid <$> st_reservations s) -> row ∈ st_reservations s ->
  rv_info r = rv_info row -> frame s (write_row s r).
Proof.
  intros Hnd Hin E. split; try done; [|apply same_line_refl].
  apply update_infos. intros x Hx Ex%Z.eqb_eq.
  assert (x = row) as ->; [|done]. apply (key_unique rid (st_reservations s)); try done.
  rewrite Ex. unfold rid. by rewrite E.
Qed.

(** * Keys *)

Definition infos (s : store) : list reservation_info := rv_info <$> st_reservations s.

Definition owns (i : reservation_info) (l : line) : Prop :=
  ri_id i = ln_reservation_id l /\
  ln_window_start l = ri_window_start i /\ ln_window_end l = ri_window_end i.

Record keys (s : store) : Prop := {
  k_unique : NoDup (ri_id <$> infos s);
  k_next : forall i, i ∈ infos s -> ri_id i < st_next_reservation s;
  k_live : forall i, i ∈ infos s -> ri_is_deleted i = false;
  k_owner : forall l, l ∈ st_lines s -> exists i, i ∈ infos s /\ owns i l;
}.

Lemma rid_infos s : rid <$> st_reservations s = ri_id <$> infos s.
Proof. unfold infos. by rewrite <-list_fmap_compose. Qed.

Lemma elem_infos s r : r ∈ st_reservations s -> rv_info r ∈ infos s.
Proof. apply list_elem_of_fmap_2. Qed.

Lemma same_line_fields l l' : same_line l l' ->
  ln_reservation_id l' = ln_reservation_id l /\ ln_vehicle_id l' = ln_vehicle_id l /\
  ln_window_start l' = ln_window_start l /\ ln_window_end l' = ln_window_end l /\
  (active_line l' = true -> l' = l).
Proof.
  intros [->| ->]; split_and!; try done. unfold active_line. simpl.
  by rewrite andb_comm.
Qed.

Lemma frame_line s s' l' : frame s s' -> l' ∈ st_lines s' ->
  exists l, l ∈ st_lines s /\ same_line l l'.
Proof.
  intros [_ Hl _ _] Hin. apply list_elem_of_lookup in Hin as [k Hk].
  destruct (Forall2_lookup_r _ _ _ _ _ Hl Hk) as (l & Hlk & Hs).
  exists l. split; [by eapply list_elem_of_lookup_2|done].
Qed.

Lemma frame_infos s s' : frame s s' -> infos s' = infos s.
Proof. by intros [? _ _ _]. Qed.

Lemma frame_keys s s' : frame s s' -> keys s -> keys s'.
Proof.
  intros Hf [H1 H2 H3 H4]. pose proof (frame_infos _ _ Hf) as Hi.
  split; rewrite ?Hi; try done; [by rewrite (fr_next _ _ Hf)|].
  intros l' Hl'. destruct (frame_line _ _ _ Hf Hl') as (l & Hl & Hs).
  destruct (H4 l Hl) as (i & Hin & Ho). exists i. split; [done|].
  destruct (same_line_fields _ _ Hs) as (E1 & _ & E2 & E3 & _). unfold owns. by rewrite E1, E2, E3.
Qed.

Lemma frame_trans s1 s2 s3 : frame s1 s2 -> frame s2 s3 -> frame s1 s3.
Proof.
  intros [A1 B1 C1 D1] [A2 B2 C2 D2]. split; [by rewrite A2|..|by rewrite C2|by rewrite D2].
  by transitivity (st_lines s2).
Qed.

Lemma expire_all_frame now ids s : frame s (expire_all now s ids).1.
Proof.
  revert s. induction ids as [|id ids IH]; intros s; [apply frame_refl|]. simpl.
  destruct (expire_one now s id) as [s1 ok] eqn:E1. destruct (expire_all now s1 ids) as [s2 n] eqn:E2.
  simpl. apply (frame_trans _ s1).
  - pose proof (expire_one_cases now s id) as Hc. rewrite E1 in Hc. simpl in Hc.
    destruct Hc as [->|[-> _]]; [apply frame_refl|apply released_frame].
  - specialize (IH s1). by rewrite E2 in IH.
Qed.

(** The lines of a new reservation. *)
Lemma materialise_line h ids l : l ∈ _materialise_lines h ids ->
  l = new_line h (ln_vehicle_id l) /\ active_line l = true.
Proof.
  unfold _materialise_lines. destruct (String.eqb _ _).
  - intros (v & -> & _)%list_elem_of_fmap. done.
  - intros Hl. apply elem_of_replicate in Hl as [-> _]. done.
Qed.

Lemma validated_count s q a o reference d total deposit : validated s q = Ok (a, o) ->
  Z.of_nat (length (_materialise_lines (header (st_next_reservation s) reference a q d total deposit)
    (cr_specific_vehicle_ids q))) = cr_required_quantity q /\ 0 < cr_required_quantity q.
Proof.
  unfold validated. destruct (cr_window_start q); [done|]. destruct (cr_window_end q); [done|].
  intros Hv. inv_ok Hv. apply orb_true_iff in Hreq4. split; [|lia].
  unfold _materialise_lines. simpl. destruct (String.eqb (cr_mode q) "specific") eqn:Em.
  - destruct Hreq4 as [?|Hreq4]; [done|]. destruct (cr_specific_vehicle_ids q) as [[|v ids]|]; [done| |done].
    rewrite length_fmap. simpl default. lia.
  - rewrite length_replicate. lia.
Qed.

Lemma creation_effect s q s' r a o d : creation s q s' r a o d ->
  exists reference total deposit log,
    let h := header (st_next_reservation s) reference a q d total deposit in
    r = set_state h (first_state (pd_required_obligation_for_reserved d)) log /\
    s' = inserted s r (_materialise_lines h (cr_specific_vehicle_ids q)) /\
    infos s' = infos s ++ [rv_info h].
Proof.
  intros [_ _ (ref & total & deposit & log & _ & _ & _ & -> & ->)].
  exists ref, total, deposit, log. split_and!; try done. unfold infos. simpl. by rewrite fmap_app.
Qed.

Lemma creation_keys s q s' r a o d : creation s q s' r a o d -> keys s -> keys s'.
Proof.
  intros Hc [H1 H2 H3 H4]. destruct (creation_effect _ _ _ _ _ _ _ Hc) as (ref & total & deposit & log & Hr & Hs & Hi).
  split; rewrite ?Hi.
  - rewrite fmap_app. apply list.NoDup_app. split_and!; [done| |apply NoDup_singleton].
    intros x (i & -> & Hin)%list_elem_of_fmap. simpl. rewrite list_elem_of_singleton.
    specialize (H2 i Hin). lia.
  - intros i. rewrite elem_of_app, list_elem_of_singleton, Hs. simpl.
    intros [Hin| ->]; [specialize (H2 i Hin); lia|simpl; lia].
  - intros i. rewrite elem_of_app, list_elem_of_singleton. intros [Hin| ->]; [auto|done].
  - intros l. rewrite Hs. simpl. rewrite elem_of_app. intros [Hl|Hl].
    + destruct (H4 l Hl) as (i & Hin & Ho). exists i. split; [|done]. apply elem_of_app. by left.
    + destruct (materialise_line _ _ _ Hl) as [-> _]. eexists. split; [|done].
      apply elem_of_app. right. by apply list_elem_of_singleton.
Qed.

(** * Capacity *)

Abbreviation pool := (string * Z * string)%type.

Definition pool_of (su : supply) : pool := (su_provider_type su, su_provider_id su, su_offering_code su).

Definition pool_info (i : reservation_info) : pool :=
  (ri_provider_type i, ri_provider_id i, ri_offering_code i).

Definition line_covers (t : Z) (l : line) : bool := (ln_window_start l <=? t) && (t <? ln_window_end l).

Definition in_pool_of (p : pool) (i : reservation_info) : bool := in_pool p.1.1 p.1.2 p.2 i.

(** The live reservation of the line is in the pool. *)
Definition held_in (rows : list reservation_info) (p : pool) (l : line) : bool :=
  existsb (fun i => (ri_id i =? ln_reservation_id l) && negb (ri_is_deleted i) && in_pool_of p i) rows.

(** The units of the pool that are committed at instant [t]. *)
Definition usage (s : store) (p : pool) (t : Z) : Z :=
  rowcount (fun l => active_line l && line_covers t l && held_in (infos s) p l) (st_lines s).

Record capacity (s : store) : Prop := {
  cap_total : forall su t, su ∈ st_supplies s -> su_is_deleted su = false -> supply_covers t su ->
    usage s (pool_of su) t <= su_total_units su;
  cap_covered : forall l i t, l ∈ st_lines s -> active_line l = true -> i ∈ infos s -> owns i l ->
    line_covers t l = true ->
    exists su, su ∈ st_supplies s /\ pool_of su = pool_info i /\ su_is_deleted su = false /\
               supply_covers t su;
}.

Lemma in_pool_of_spec p i : in_pool_of p i = true <-> pool_info i = p.
Proof.
  destruct p as [[pt pid] code]. unfold in_pool_of, in_pool, pool_info. simpl.
  rewrite !andb_true_iff, !String.eqb_eq, Z.eqb_eq. naive_solver.
Qed.

Lemma supply_in_pool_spec pt pid code su :
  supply_in_pool pt pid code su = true <-> pool_of su = (pt, pid, code) /\ su_is_deleted su = false.
Proof.
  unfold supply_in_pool, pool_of. rewrite !andb_true_iff, !String.eqb_eq, Z.eqb_eq, negb_true_iff.
  naive_solver.
Qed.

Lemma joined_infos rs cond l : joined rs cond l =
  existsb (fun i => (ri_id i =? ln_reservation_id l) && negb (ri_is_deleted i) && cond i) (rv_info <$> rs).
Proof. unfold joined. induction rs as [|r rs IH]; [done|]. simpl. by rewrite IH. Qed.

Lemma frame_capacity s s' : frame s s' -> capacity s -> capacity s'.
Proof.
  intros Hf [H1 H2]. pose proof (frame_infos _ _ Hf) as Hi. split.
  - intros su t. rewrite (fr_supplies _ _ Hf). intros Hsu Hd Hc.
    transitivity (usage s (pool_of su) t); [|by apply H1]. unfold usage. rewrite Hi.
    eapply rowcount_Forall2; [apply (fr_lines _ _ Hf)|].
    intros l l' Hs Ha. destruct (same_line_fields _ _ Hs) as (_ & _ & _ & _ & Hact).
    rewrite !andb_true_iff in Ha. destruct Ha as [[Ha Hc1] Hc2]. by rewrite <-(Hact Ha), Ha, Hc1, Hc2.
  - intros l' i t Hl' Ha Hin Ho Hc. rewrite (fr_supplies _ _ Hf).
    destruct (frame_line _ _ _ Hf Hl') as (l & Hl & Hs).
    destruct (same_line_fields _ _ Hs) as (_ & _ & _ & _ & Hact). specialize (Hact Ha); subst l'.
    rewrite Hi in Hin. by apply (H2 l).
Qed.

Lemma held_in_owner rows p l : held_in rows p l = true ->
  exists i, i ∈ rows /\ ri_id i = ln_reservation_id l /\ pool_info i = p.
Proof.
  unfold held_in. intros (i & Hin & Hc)%existsb_exists. rewrite !andb_true_iff, Z.eqb_eq in Hc.
  destruct Hc as [[E _] Hp]. exists i. rewrite list_elem_of_In, <-in_pool_of_spec. done.
Qed.

Lemma register_capacity s su s' :
  s' = {| st_reservations := st_reservations s; st_lines := st_lines s;
          st_supplies := st_supplies s ++ [su]; st_catalogue := st_catalogue s;
          st_next_reservation := st_next_reservation s; st_next_supply := st_next_supply s + 1 |} ->
  0 < su_total_units su ->
  (forall t su', su' ∈ st_supplies s -> supply_covers t su -> supply_covers t su' ->
     supply_in_pool (su_provider_type su) (su_provider_id su) (su_offering_code su) su' = false) ->
  keys s -> capacity s -> capacity s'.
Proof.
  intros -> Hpos Hdis Hk [H1 H2]. split.
  - intros x t. simpl. rewrite elem_of_app, list_elem_of_singleton.
    intros [Hx| ->] Hd Hc; [by apply H1|].
    assert (usage s (pool_of su) t = 0) as E; [|unfold usage, infos in *; simpl; lia].
    apply rowcount_none. intros l Hl. apply not_true_iff_false. rewrite !andb_true_iff.
    intros [[Ha Hcov] Hheld]. destruct (held_in_owner _ _ _ Hheld) as (i & Hi & Hid & Hp).
    destruct (k_owner _ Hk l Hl) as (i' & Hi' & Ho).
    assert (i' = i) as ->.
    { apply (key_unique ri_id (infos s)); try done; [apply Hk|]. destruct Ho. congruence. }
    destruct (H2 l i t Hl Ha Hi Ho Hcov) as (su' & Hin & Hp' & Hd' & Hc').
    specialize (Hdis t su' Hin Hc Hc'). apply not_true_iff_false in Hdis. apply Hdis.
    apply supply_in_pool_spec. split; [|done]. by rewrite Hp', Hp.
  - intros l i t Hl Ha Hi Ho Hc. destruct (H2 l i t Hl Ha Hi Ho Hc) as (x & Hx & ?).
    exists x. split; [apply elem_of_app; by left|done].
Qed.

Lemma usage_committed s pt pid code t slice_start slice_end : slice_start <= t < slice_end ->
  usage s (pt, pid, code) t <= _count_committed_in_slice s pt pid code slice_start slice_end.
Proof.
  intros Ht. apply rowcount_mono. intros l _. rewrite !andb_true_iff, joined_infos.
  unfold line_covers, overlaps. rewrite !andb_true_iff. intros [[-> ?] Hh].
  split_and!; [done|lia|lia|exact Hh].
Qed.

Lemma check_slices_Ok s pt pid code ws we n sups u :
  check_slices s pt pid code ws we n sups = Ok u ->
  forall su t, su ∈ sups -> ws <= t < we -> supply_covers t su ->
    usage s (pt, pid, code) t + n <= su_total_units su.
Proof.
  induction sups as [|x sups IH]; simpl; [intros _ su t Hin; by apply not_elem_of_nil in Hin|].
  intros Hc su t [->|Hin]%elem_of_cons Ht Hcov.
  - unfold supply_covers in Hcov. destruct (Z.leb_spec (Z.min (su_window_end x) we) (Z.max (su_window_start x) ws)); [lia|].
    destruct (_ <? n) eqn:E; [done|].
    pose proof (usage_committed s pt pid code t (Z.max (su_window_start x) ws) (Z.min (su_window_end x) we)). lia.
  - apply IH; try done. destruct (_ <=? _); [done|]. by destruct (_ <? n).
Qed.

Lemma elem_locked s pt pid code ws we su :
  su ∈ _lock_overlapping_supply_rows s pt pid code ws we <->
  su ∈ st_supplies s /\ pool_of su = (pt, pid, code) /\ su_is_deleted su = false /\
  su_window_start su < we /\ ws < su_window_end su.
Proof.
  unfold _lock_overlapping_supply_rows. rewrite (merge_sort_Permutation by_start).
  rewrite !list_elem_of_In, List.filter_In, andb_true_iff, supply_in_pool_spec.
  unfold overlaps. rewrite andb_true_iff, !Z.ltb_lt. tauto.
Qed.

(** An accepted coverage check: every instant of the window is covered by declared
    supply of the pool, with room for the request. *)
Lemma check_supply_Ok s pt pid code ws we n u : ws < we ->
  _check_supply_coverage s pt pid code ws we n = Ok u ->
  (forall t, ws <= t < we -> exists su, su ∈ st_supplies s /\ pool_of su = (pt, pid, code) /\
     su_is_deleted su = false /\ supply_covers t su) /\
  (forall su t, su ∈ st_supplies s -> pool_of su = (pt, pid, code) -> su_is_deleted su = false ->
     ws <= t < we -> supply_covers t su -> usage s (pt, pid, code) t + n <= su_total_units su).
Proof.
  intros Hw Hc. unfold _check_supply_coverage in Hc. inv_ok Hc. split.
  - intros t Ht. pose proof (assert_coverage_Ok _ _ _ _ Hw Hok t Ht) as (su & Hin & Hcov).
    apply elem_locked in Hin as (? & ? & ? & _). by exists su.
  - intros su t Hin Hp Hd Ht Hcov. eapply check_slices_Ok; [exact Hc| |exact Ht|exact Hcov].
    apply elem_locked. unfold supply_covers in Hcov. split_and!; try done; lia.
Qed.

Lemma validated_window s q a o : validated s q = Ok (a, o) ->
  as_utc (cr_window_start q) < as_utc (cr_window_end q).
Proof.
  unfold validated. destruct (cr_window_start q); [done|]. destruct (cr_window_end q); [done|].
  intros Hv. inv_ok Hv. simpl. lia.
Qed.

Lemma admitted_supply s q o d : admitted_by s q o = Ok d ->
  _check_supply_coverage s (cr_provider_type q) (cr_provider_id q) (cr_offering_code q)
    (as_utc (cr_window_start q)) (as_utc (cr_window_end q)) (cr_required_quantity q) = Ok tt.
Proof.
  unfold admitted_by. intros Ha. inv_ok Ha. by destruct a0.
Qed.

Lemma held_in_app rows i p l : held_in (rows ++ [i]) p l =
  held_in rows p l || ((ri_id i =? ln_reservation_id l) && negb (ri_is_deleted i) && in_pool_of p i).
Proof. unfold held_in. rewrite existsb_app. simpl. by rewrite orb_false_r. Qed.

Lemma creation_capacity s q s' r a o d :
  creation s q s' r a o d -> keys s -> capacity s -> capacity s'.
Proof.
  intros Hc Hk [H1 H2].
  pose proof (validated_window _ _ _ _ (cn_validated _ _ _ _ _ _ _ Hc)) as Hw.
  pose proof (admitted_supply _ _ _ _ (cn_admitted _ _ _ _ _ _ _ Hc)) as Hs.
  destruct (check_supply_Ok _ _ _ _ _ _ _ _ Hw Hs) as [Hcov Hroom].
  destruct (creation_effect _ _ _ _ _ _ _ Hc) as (ref & total & dep & log & Hr & Hs' & Hi).
  destruct (validated_count s q a o ref d total dep (cn_validated _ _ _ _ _ _ _ Hc)) as [Hn _].
  set (h := header (st_next_reservation s) ref a q d total dep) in *.
  set (ls := _materialise_lines h (cr_specific_vehicle_ids q)) in *.
  assert (Hsup : st_supplies s' = st_supplies s) by (rewrite Hs'; done).
  assert (Hlines : st_lines s' = st_lines s ++ ls) by (rewrite Hs'; done).
  assert (Hold : forall p t, rowcount (fun l => active_line l && line_covers t l && held_in (infos s') p l) (st_lines s)
                 = usage s p t).
  { intros p t. apply rowcount_ext. intros l Hl. rewrite Hi, held_in_app.
    destruct (k_owner _ Hk l Hl) as (i & Hin & Ho & _). pose proof (k_next _ Hk i Hin).
    replace (ri_id (rv_info h) =? ln_reservation_id l) with false; [by rewrite orb_false_r|].
    simpl. symmetry. apply Z.eqb_neq. lia. }
  assert (Hnew : forall p t, rowcount (fun l => active_line l && line_covers t l && held_in (infos s') p l) ls
     <= if bool_decide (p = (cr_provider_type q, cr_provider_id q, cr_offering_code q)) &&
           ((as_utc (cr_window_start q) <=? t) && (t <? as_utc (cr_window_end q)))
        then cr_required_quantity q else 0).
  { intros p t. destruct (bool_decide _ && _) eqn:E; [rewrite <-Hn; apply rowcount_le_length|].
    apply Z.eq_le_incl, rowcount_none. intros l Hl. apply not_true_iff_false. rewrite !andb_true_iff.
    intros [[_ Ht] Hh]. destruct (materialise_line _ _ _ Hl) as [El _]. apply held_in_owner in Hh as (i & Hin & Hid & Hp).
    rewrite Hi, elem_of_app, list_elem_of_singleton in Hin. rewrite El in Ht, Hid.
    destruct Hin as [Hin| ->]; [pose proof (k_next _ Hk i Hin); change (ri_id i = st_next_reservation s) in Hid; lia|].
    unfold line_covers, h in Ht. simpl in Ht. rewrite Ht, andb_true_r in E.
    apply bool_decide_eq_false in E. by apply E. }
  split.
  - intros su t. rewrite Hsup. intros Hin Hd Hcs. unfold usage. rewrite Hlines, rowcount_app, Hold.
    specialize (Hnew (pool_of su) t). destruct (bool_decide _ && _) eqn:E.
    + apply andb_true_iff in E as [Ep%bool_decide_eq_true Et].
      specialize (Hroom su t Hin Ep Hd ltac:(lia) Hcs). rewrite Ep in *. lia.
    + specialize (H1 su t Hin Hd Hcs). lia.
  - intros l i t. rewrite Hsup, Hlines, Hi, !elem_of_app, list_elem_of_singleton.
    intros Hl Ha Hin Ho Hc'. destruct Hl as [Hl|Hl], Hin as [Hin| ->].
    + by apply (H2 l i t).
    + destruct (k_owner _ Hk l Hl) as (i & Hi' & Ho' & _). pose proof (k_next _ Hk i Hi').
      destruct Ho as [Ho _]. unfold h, rid in Ho. simpl in Ho. lia.
    + destruct (materialise_line _ _ _ Hl) as [El _]. pose proof (k_next _ Hk i Hin).
      destruct Ho as [Ho _]. rewrite El in Ho. change (ri_id i = st_next_reservation s) in Ho. lia.
    + destruct (materialise_line _ _ _ Hl) as [El _]. rewrite El in Hc'. unfold line_covers, h in Hc'.
      simpl in Hc'. destruct (Hcov t ltac:(lia)) as (su & ? & ? & ? & ?). by exists su.
Qed.

(** * Vehicles *)

(** Two lines that want the same vehicle at the same time. *)
Definition clash (l1 l2 : line) : Prop :=
  is_some (ln_vehicle_id l1) = true /\ ln_vehicle_id l1 = ln_vehicle_id l2 /\
  ln_window_start l1 < ln_window_end l2 /\ ln_window_start l2 < ln_window_end l1.

Definition exclusive (s : store) : Prop :=
  forall l1 l2, l1 ∈ st_lines s -> l2 ∈ st_lines s -> active_line l1 = true -> active_line l2 = true ->
    clash l1 l2 -> ln_reservation_id l1 = ln_reservation_id l2.

Lemma frame_exclusive s s' : frame s s' -> exclusive s -> exclusive s'.
Proof.
  intros Hf He l1 l2 H1 H2 A1 A2 Hc.
  destruct (frame_line _ _ _ Hf H1) as (x1 & X1 & S1), (frame_line _ _ _ Hf H2) as (x2 & X2 & S2).
  destruct (same_line_fields _ _ S1) as (_ & _ & _ & _ & E1), (same_line_fields _ _ S2) as (_ & _ & _ & _ & E2).
  specialize (E1 A1). specialize (E2 A2). subst. by apply He.
Qed.

Lemma joined_live s l : keys s -> l ∈ st_lines s -> joined (st_reservations s) (fun _ => true) l = true.
Proof.
  intros Hk Hl. destruct (k_owner _ Hk l Hl) as (i & Hi & E & _). rewrite joined_infos.
  apply existsb_exists. exists i. rewrite <-list_elem_of_In. split; [done|].
  rewrite (k_live _ Hk i Hi), E, Z.eqb_refl. done.
Qed.

Lemma admitted_vehicles s q o d : admitted_by s q o = Ok d -> cr_mode q = "specific"%string ->
  _check_vehicle_overlap s (default [] (cr_specific_vehicle_ids q))
    (as_utc (cr_window_start q)) (as_utc (cr_window_end q)) = Ok tt.
Proof.
  unfold admitted_by. intros Ha Em. rewrite Em in Ha. simpl in Ha. inv_ok Ha. by destruct a.
Qed.

(** No active line already wants a vehicle of the new reservation in its window. *)
Lemma new_line_free s q o d h l x : keys s -> admitted_by s q o = Ok d ->
  ri_mode (rv_info h) = cr_mode q ->
  ri_window_start (rv_info h) = as_utc (cr_window_start q) ->
  ri_window_end (rv_info h) = as_utc (cr_window_end q) ->
  x ∈ _materialise_lines h (cr_specific_vehicle_ids q) ->
  l ∈ st_lines s -> active_line l = true -> clash l x -> False.
Proof.
  intros Hk Ha Em Es Ee Hx Hl Hact (Hv & Hvv & H1 & H2).
  destruct (materialise_line _ _ _ Hx) as [Ex _]. rewrite Ex in H1, H2. simpl in H1, H2.
  unfold _materialise_lines in Hx. rewrite Em in Hx.
  destruct (String.eqb_spec (cr_mode q) "specific") as [E|E].
  - pose proof (admitted_vehicles _ _ _ _ Ha E) as Hc. unfold _check_vehicle_overlap in Hc. inv_ok Hc.
    apply negb_true_iff, not_true_iff_false in Hreq. apply Hreq, existsb_exists. exists l.
    rewrite <-list_elem_of_In, Hact, (joined_live s l Hk Hl). split; [done|].
    apply list_elem_of_fmap in Hx as (v & -> & Hin). simpl in Hvv.
    unfold on_vehicle, overlaps. rewrite Hvv, bool_decide_eq_true_2 by done. simpl. lia.
  - apply elem_of_replicate in Hx as [-> _]. simpl in Hvv. by rewrite Hvv in Hv.
Qed.

Lemma creation_exclusive s q s' r a o d :
  creation s q s' r a o d -> keys s -> exclusive s -> exclusive s'.
Proof.
  intros Hc Hk He. destruct (creation_effect _ _ _ _ _ _ _ Hc) as (ref & total & dep & log & _ & Hs' & _).
  pose proof (cn_admitted _ _ _ _ _ _ _ Hc) as Ha.
  intros l1 l2. rewrite Hs'. simpl. rewrite !elem_of_app.
  intros [H1|H1] [H2|H2] A1 A2 Hcl; [by apply He| | |].
  - exfalso. by eapply (new_line_free s q o d); [..|exact H2|exact H1|exact A1|exact Hcl].
  - exfalso. eapply (new_line_free s q o d); [done|done| | | |exact H1|exact H2|exact A2|]; try done.
    destruct Hcl as (C1 & C2 & C3 & C4). split_and!; try done. by rewrite <-C2.
  - destruct (materialise_line _ _ _ H1) as [-> _], (materialise_line _ _ _ H2) as [-> _]. done.
Qed.

(** * Rows: state, lines and money *)

Definition active_states : list string := ["held"; "reserved"]%string.

(** The active lines of a reservation. *)
Definition lines_of (ls : list line) (id : Z) : Z :=
  rowcount (fun l => active_line l && (ln_reservation_id l =? id)) ls.

(** An amount as its column stores it. *)
Definition stored (d : dec) : Prop := dexp d = -2 /\ repr d.

(** The obligation reached is backed by the amount received. *)
Definition backed (ref received : option dec) : Prop :=
  exists r g, ref = Some r /\ received = Some g /\ dle r g.

Record row_ok (ls : list line) (r : reservation) : Prop := {
  ro_state : rv_state r ∈ ["held"; "reserved"; "cancelled"; "expired"]%string;
  ro_obligation : exists o : ObligationState.t, rv_obligation_state r = enum_value o;
  ro_reserved : rv_state r = "reserved"%string ->
    obligation_satisfies_reserved (rv_obligation_state r) (ri_required_obligation (rv_info r)) = true;
  ro_held : rv_state r = "held"%string ->
    obligation_satisfies_reserved (rv_obligation_state r) (ri_required_obligation (rv_info r)) = false;
  ro_quantity : 0 < ri_required_quantity (rv_info r);
  ro_lines : lines_of ls (rid r) =
    if str_in (rv_state r) active_states then ri_required_quantity (rv_info r) else 0;
  ro_paid : rv_obligation_state r = "paid"%string ->
    backed (ri_required_total_amount (rv_info r)) (rv_amount_received r);
  ro_deposited : rv_obligation_state r = "deposited"%string ->
    backed (ri_deposit_amount (rv_info r)) (rv_amount_received r);
  ro_total : forall t, ri_required_total_amount (rv_info r) = Some t -> stored t;
  ro_deposit : forall d, ri_deposit_amount (rv_info r) = Some d -> stored d;
  ro_timing : exists timing, timing ∈ CANONICAL_PAYMENT_TIMINGS /\
    ri_payment_timing (rv_info r) = Some timing /\
    ri_required_obligation (rv_info r) = _REQUIRED_OBLIGATION_FOR_RESERVED timing;
  ro_due : ri_payment_timing (rv_info r) <> Some "DEPOSIT"%string -> ri_deposit_due_at (rv_info r) = None;
}.

Definition rows_ok (s : store) : Prop := forall r, r ∈ st_reservations s -> row_ok (st_lines s) r.

Lemma store_amount_stored d q : store_amount d = Ok q -> stored q /\ quantize ROUND_HALF_UP (-2) d = Ok q.
Proof.
  unfold store_amount. destruct (quantize _ _ _) as [x|] eqn:E; [|done].
  destruct (_ <? _); [|done]. intros [= <-]. split; [|done].
  split; [by eapply quantize_exp|by eapply quantize_repr].
Qed.

Lemma store_optional_stored d q x : store_optional d = Ok q -> q = Some x -> stored x.
Proof.
  unfold store_optional. destruct d as [d|]; intros Hs ->; [|done].
  inv_ok Hs. injection Hs as ->. by apply store_amount_stored in Hok as [? _].
Qed.

(** An accepted guard survives the rounding of the stored amount. *)
Lemma guard_backed ref proposed got missing short : settled_guard true ref proposed missing short = Ok tt ->
  (forall x, ref = Some x -> stored x) -> store_amount proposed = Ok got -> backed ref (Some got).
Proof.
  unfold settled_guard. destruct ref as [x|]; [|done]. intros Hg Hst Hs. inv_ok Hg.
  apply negb_true_iff, dltb_false in Hreq. destruct (Hst x eq_refl) as [Ex Hx].
  apply store_amount_stored in Hs as [_ Hq]. exists x, got. split_and!; try done. by eapply quantize_ge.
Qed.

(** The gate stays open along the obligation's transitions. *)
Lemma gate_mono timing o o' : timing ∈ CANONICAL_PAYMENT_TIMINGS -> tstep OBLIGATION_TRANSITIONS o o' ->
  obligation_satisfies_reserved (enum_value o) (_REQUIRED_OBLIGATION_FOR_RESERVED timing) = true ->
  obligation_satisfies_reserved (enum_value o') (_REQUIRED_OBLIGATION_FOR_RESERVED timing) = true.
Proof.
  intros Ht Hs. rewrite !gate_spec by done. unfold gate_open, tstep, OBLIGATION_TRANSITIONS in *.
  destruct o; set_unfold; naive_solver.
Qed.

Lemma settlement_row_ok ls row target amount r :
  row_ok ls row -> settlement row target amount r -> row_ok ls r.
Proof.
  intros Hro Hsl. pose proof (sl_info _ _ _ _ Hsl) as Hi. pose proof (sl_obligation _ _ _ _ Hsl) as Ho.
  pose proof (sl_state _ _ _ _ Hsl) as Hst.
  destruct (sl_received _ _ _ _ Hsl) as (proposed & got & _ & Hgot & Hrec & Hg1 & Hg2).
  destruct (ro_obligation _ _ Hro) as [o Hcur].
  destruct (ro_timing _ _ Hro) as (timing & Ht & Hpt & Hreq).
  assert (Hto : exists o', target = enum_value o' /\ (o' = o \/ tstep OBLIGATION_TRANSITIONS o o')).
  { destruct (sl_moved _ _ _ _ Hsl) as [->|Hc]; [exists o; eauto|].
    rewrite Hcur in Hc. apply can_transition_obligation_true in Hc as (o' & -> & ?). eauto. }
  destruct Hto as (o' & Eo' & Hmove).
  set (gate := obligation_satisfies_reserved target (ri_required_obligation (rv_info row))) in *.
  assert (Hgate : rv_state row = "reserved"%string -> gate = true).
  { intros Er. pose proof (ro_reserved _ _ Hro Er) as Hg. unfold gate. rewrite Hreq, Eo', Hcur in *.
    destruct Hmove as [->|Hs]; [done|by apply (gate_mono timing o)]. }
  assert (Hactive : str_in (rv_state r) active_states = str_in (rv_state row) active_states).
  { rewrite Hst. destruct (String.eqb_spec (rv_state row) "held") as [E|E]; [|done].
    rewrite E. by destruct gate. }
  split; rewrite ?Hi, ?Ho, ?Hrec; fold gate.
  - rewrite Hst. destruct (_ && gate); [set_solver|]. apply Hro.
  - by exists o'.
  - rewrite Hst. destruct (String.eqb_spec (rv_state row) "held") as [E|E]; simpl; [|done].
    destruct gate eqn:Eg; [done|]. rewrite E. done.
  - rewrite Hst. destruct (String.eqb_spec (rv_state row) "held") as [E|E]; simpl; [|done].
    by destruct gate eqn:Eg.
  - apply Hro.
  - unfold rid. rewrite Hi, Hactive. apply Hro.
  - intros E. eapply guard_backed; [|apply Hro|exact Hgot].
    unfold is_paid in Hg2. by rewrite E in Hg2.
  - intros E. eapply guard_backed; [|apply Hro|exact Hgot].
    unfold is_deposited in Hg1. by rewrite E in Hg1.
  - apply Hro.
  - apply Hro.
  - by exists timing.
  - apply Hro.
Qed.

Lemma write_row_rows s row target amount r : rows_ok s -> row ∈ st_reservations s ->
  settlement row target amount r -> rows_ok (write_row s r).
Proof.
  intros Hro Hin Hsl x. simpl. rewrite elem_of_update. intros (y & Hy & ->).
  destruct (Z.eqb_spec (rid y) (rid r)) as [E|E]; [|by apply Hro].
  apply (settlement_row_ok _ row target amount); [by apply Hro|done].
Qed.

(** Releasing a reservation: its lines no longer count, the others' do. *)
Lemma lines_of_release ls id id' :
  lines_of (release_lines id ls) id' = if id' =? id then 0 else lines_of ls id'.
Proof.
  unfold lines_of, release_lines. induction ls as [|l ls IH]; [by destruct (id' =? id)|].
  rewrite update_cons, !rowcount_cons, IH.
  destruct (Z.eqb_spec id' id) as [E'|E'].
  - destruct (Z.eqb_spec (ln_reservation_id l) id) as [E|E]; unfold active_line; simpl.
    + destruct (str_in (ln_state l) ACTIVE_LINE_STATES) eqn:Ea; simpl; [|rewrite Ea]; by rewrite andb_false_r.
    + destruct (Z.eqb_spec (ln_reservation_id l) id'); [lia|]. by rewrite andb_false_r.
  - destruct (Z.eqb_spec (ln_reservation_id l) id) as [E|E]; [|done]. simpl.
    destruct (str_in (ln_state l) ACTIVE_LINE_STATES); simpl; [|done].
    destruct (Z.eqb_spec (ln_reservation_id l) id'); [lia|]. by rewrite !andb_false_r.
Qed.

Lemma released_row_ok ls row st id :
  row_ok ls row -> st ∈ ["cancelled"; "expired"]%string -> rid row = id ->
  row_ok (release_lines id ls) (set_state row st (rv_audit_log row)).
Proof.
  intros Hro Hst Hid.
  assert (Hoff : str_in st active_states = false /\ st <> "reserved"%string /\ st <> "held"%string).
  { rewrite !elem_of_cons, elem_of_nil in Hst. by destruct Hst as [->|[->|[]]]. }
  destruct Hoff as (Hoff & Hn1 & Hn2).
  split; simpl; try by apply Hro.
  - rewrite !elem_of_cons, elem_of_nil in Hst. set_solver.
  - done.
  - done.
  - rewrite lines_of_release, Hoff. unfold rid in *. simpl. by rewrite Hid, Z.eqb_refl.
Qed.

(** The UPDATE of a release hits the row of that id and no other. *)
Lemma released_rows s c st id : keys s -> rows_ok s -> st ∈ ["cancelled"; "expired"]%string ->
  (forall x, c x = true -> rid x = id) -> (exists x, x ∈ st_reservations s /\ c x = true) ->
  rows_ok (released s c st id).
Proof.
  intros Hk Hro Hst Hc (x & Hx & Hcx) r. simpl. rewrite elem_of_update. intros (y & Hy & ->).
  destruct (c y) eqn:E; [apply released_row_ok; auto|].
  assert (Hne : rid y <> id).
  { intros Ey. assert (y = x) as ->; [|congruence].
    apply (key_unique rid (st_reservations s)); try done; [rewrite rid_infos; apply Hk|].
    rewrite Ey. symmetry. by apply Hc. }
  pose proof (Hro y Hy) as Hy'. split; try apply Hy'.
  rewrite lines_of_release. destruct (Z.eqb_spec (rid y) id); [done|]. apply Hy'.
Qed.

Lemma first_state_spec timing : timing ∈ CANONICAL_PAYMENT_TIMINGS ->
  let required := _REQUIRED_OBLIGATION_FOR_RESERVED timing in
  first_state required = (if str_in timing ["END_OF_TRIP"; "INVOICE"] then "reserved" else "held")%string /\
  obligation_satisfies_reserved "unpaid" required = str_in timing ["END_OF_TRIP"; "INVOICE"]%string.
Proof.
  unfold CANONICAL_PAYMENT_TIMINGS. rewrite !elem_of_cons, elem_of_nil.
  intros [->|[->|[->|[->|[]]]]]; vm_compute; done.
Qed.

Lemma admitted_policy s q o d : admitted_by s q o = Ok d ->
  d = evaluate (ct_identity (st_catalogue s)) (ct_settings (st_catalogue s)) (policy_request_of q) /\
  pd_allowed d = true.
Proof. unfold admitted_by. intros Ha. inv_ok Ha. injection Ha as <-. done. Qed.

Lemma admitted_timing s q o d : admitted_by s q o = Ok d ->
  let timing := canonical (cr_payment_timing q) in
  timing ∈ CANONICAL_PAYMENT_TIMINGS /\
  pd_required_obligation_for_reserved d = _REQUIRED_OBLIGATION_FOR_RESERVED timing /\
  (timing <> "DEPOSIT"%string -> pd_deposit_due_at d = None).
Proof.
  intros (-> & Hal)%admitted_policy. apply evaluate_allowed in Hal.
  split; [by apply objection_None, ok_timing in Hal|].
  destruct (evaluate_fields _ _ _ Hal) as [-> Hdep]. split; [done|]. intros Hne.
  rewrite compute_deposit_none in Hdep by exact Hne. by injection Hdep as _ _ _ ->.
Qed.

Lemma creation_row_ok s q s' r a o d : creation s q s' r a o d -> keys s -> row_ok (st_lines s') r.
Proof.
  intros Hc Hk. destruct (admitted_timing _ _ _ _ (cn_admitted _ _ _ _ _ _ _ Hc)) as (Ht & Hreq & Hdue).
  destruct (cn_row _ _ _ _ _ _ _ Hc) as (ref & total & dep & log & Htot & Hdep & _ & -> & ->).
  destruct (validated_count s q a o ref d total dep (cn_validated _ _ _ _ _ _ _ Hc)) as [Hn Hpos].
  set (h := header (st_next_reservation s) ref a q d total dep) in *.
  destruct (first_state_spec _ Ht) as [Hf Hg]. rewrite <-Hreq in Hf, Hg.
  split; simpl.
  - rewrite Hf. destruct (str_in _ _); set_solver.
  - by exists ObligationState.UNPAID.
  - rewrite Hf, Hg. by destruct (str_in _ _).
  - rewrite Hf, Hg. by destruct (str_in _ _).
  - done.
  - rewrite Hf. unfold lines_of. rewrite rowcount_app.
    rewrite (rowcount_none _ (st_lines s)); [rewrite rowcount_all, Hn; [by destruct (str_in _ _)|]|].
    + intros l Hl. destruct (materialise_line _ _ _ Hl) as [-> Ha]. rewrite Ha. apply Z.eqb_refl.
    + intros l Hl. destruct (k_owner _ Hk l Hl) as (i & Hi & E & _). pose proof (k_next _ Hk i Hi).
      apply andb_false_iff. right. apply Z.eqb_neq. unfold rid. simpl. lia.
  - done.
  - done.
  - intros t E. exact (store_optional_stored _ _ _ Htot E).
  - intros t E. exact (store_optional_stored _ _ _ Hdep E).
  - exists (canonical (cr_payment_timing q)). split_and!; try done.
    by rewrite timing_nonempty.
  - rewrite timing_nonempty by done. intros Hne. apply Hdue. congruence.
Qed.

Lemma creation_rows s q s' r a o d : creation s q s' r a o d -> keys s -> rows_ok s -> rows_ok s'.
Proof.
  intros Hc Hk Hro x Hx. pose proof (creation_row_ok _ _ _ _ _ _ _ Hc Hk) as Hnew.
  destruct (creation_effect _ _ _ _ _ _ _ Hc) as (ref & total & dep & log & Hr & Hs' & _).
  rewrite Hs' in Hx. simpl in Hx. rewrite elem_of_app, list_elem_of_singleton in Hx.
  destruct Hx as [Hx| ->]; [|done]. specialize (Hro x Hx). split; try apply Hro.
  rewrite Hs'. simpl. unfold lines_of. rewrite rowcount_app.
  rewrite (rowcount_none _ (_materialise_lines _ _)); [rewrite Z.add_0_r; apply Hro|].
  intros l Hl. destruct (materialise_line _ _ _ Hl) as [-> _].
  pose proof (k_next _ Hk _ (elem_infos _ _ Hx)). apply andb_false_iff. right. apply Z.eqb_neq.
  unfold rid. simpl. unfold rid. simpl. lia.
Qed.

(** * The invariant *)

Record Inv (s : store) : Prop := {
  inv_keys : keys s;
  inv_capacity : capacity s;
  inv_exclusive : exclusive s;
  inv_rows : rows_ok s;
}.

Lemma opening_sound s : opening s -> Inv s.
Proof.
  intros (Hr & Hl & Hs). split; [split|split|..].
  - unfold infos. rewrite Hr. apply NoDup_nil_2.
  - intros i. unfold infos. rewrite Hr. set_solver.
  - intros i. unfold infos. rewrite Hr. set_solver.
  - intros l. rewrite Hl. set_solver.
  - intros su t. rewrite Hs. set_solver.
  - intros l i t. rewrite Hl. set_solver.
  - intros l1 l2. rewrite Hl. set_solver.
  - intros r. rewrite Hr. set_solver.
Qed.

Lemma frame_Inv s s' : frame s s' -> rows_ok s' -> Inv s -> Inv s'.
Proof.
  intros Hf Hr [Hk Hc He _]. split; [by apply (frame_keys s)|by apply (frame_capacity s)|
    by apply (frame_exclusive s)|done].
Qed.

Lemma released_Inv s c st id : Inv s -> st ∈ ["cancelled"; "expired"]%string ->
  (forall x, c x = true -> rid x = id) -> (exists x, x ∈ st_reservations s /\ c x = true) ->
  Inv (released s c st id).
Proof.
  intros Hi Hst Hc Hx. apply (frame_Inv s); [apply released_frame| |done].
  apply released_rows; try done; apply Hi.
Qed.

Lemma expire_all_Inv now ids s : Inv s -> Inv (expire_all now s ids).1.
Proof.
  revert s. induction ids as [|id ids IH]; intros s Hi; [done|]. simpl.
  destruct (expire_one now s id) as [s1 ok] eqn:E1. destruct (expire_all now s1 ids) as [s2 n] eqn:E2.
  simpl. specialize (IH s1). rewrite E2 in IH. apply IH.
  pose proof (expire_one_cases now s id) as Hc. rewrite E1 in Hc. simpl in Hc.
  destruct Hc as [->|[-> Hx]]; [done|]. apply released_Inv; try done; [set_solver|].
  intros x [Hx' _]%andb_true_iff. lia.
Qed.

Lemma step_sound s s' : step s s' -> Inv s -> Inv s'.
Proof.
  intros Hstep Hi. destruct Hstep as [now ref q s' r Hc|now id tgt ref amount s' r Ha|id a s' r Hc|
    now limit|pt pid code ws we n s' su Hr|ct].
  - apply create_Ok in Hc as [(-> & _)|(a & o & d & _ & Hc)]; [done|]. destruct Hi as [Hk Hcap He Hro].
    split; [by eapply creation_keys|by eapply creation_capacity|by eapply creation_exclusive|by eapply creation_rows].
  - apply apply_Ok in Ha as (row & Hg & [[-> _]|[-> Hsl]]); [done|].
    apply get_live_Ok in Hg as (Hin & _ & _). apply (frame_Inv s); [|by eapply write_row_rows; [apply Hi|..]|done].
    apply (write_row_frame s row); [rewrite rid_infos; apply Hi|done|apply Hsl].
  - apply cancel_reservation_Ok in Hc as [->|[-> Hx]]; [done|]. apply released_Inv; try done; [set_solver|].
    intros x. unfold cancellable. rewrite !andb_true_iff. lia.
  - unfold expire_due_held_reservations. pose proof (expire_all_Inv now (candidates now limit s) s Hi) as He.
    by destruct (expire_all now s (candidates now limit s)).
  - apply register_Ok in Hr as (-> & Hpos & Hdis). destruct Hi as [Hk Hcap He Hro].
    split; [|by eapply register_capacity|done|done].
    destruct Hk as [K1 K2 K3 K4]. by split.
  - destruct Hi as [[K1 K2 K3 K4] [C1 C2] He Hro]. by split.
Qed.

Lemma reachable_sound s0 s : opening s0 -> rtc step s0 s -> Inv s.
Proof.
  intros Ho Hr. apply opening_sound in Ho. induction Hr as [|x y z Hxy Hyz IH]; [done|].
  apply IH. by apply (step_sound x).
Qed.

(** C6: whatever operations the service has performed, in any order, at every
    instant the units of active reservations of a provider's offering never
    exceed the units of a supply slice declared for that instant, and every
    active line is covered by declared supply throughout its window. *)
Theorem no_overcommit s0 s : opening s0 -> rtc step s0 s ->
  (forall su t, su ∈ st_supplies s -> su_is_deleted su = false -> supply_covers t su ->
     usage s (pool_of su) t <= su_total_units su) /\
  (forall l t, l ∈ st_lines s -> active_line l = true -> line_covers t l = true ->
     exists r su, r ∈ st_reservations s /\ rid r = ln_reservation_id l /\
       su ∈ st_supplies s /\ pool_of su = pool_info (rv_info r) /\ supply_covers t su).
Proof.
  intros Ho Hr. destruct (reachable_sound _ _ Ho Hr) as [Hk [H1 H2] _ _]. split; [exact H1|].
  intros l t Hl Ha Hc. destruct (k_owner _ Hk l Hl) as (i & Hi & Howns).
  destruct (H2 l i t Hl Ha Hi Howns Hc) as (su & Hsu & Hp & _ & Hcov).
  apply list_elem_of_fmap in Hi as (r & -> & Hin). exists r, su. destruct Howns. done.
Qed.

(** No vehicle is promised twice: two active lines of the same vehicle whose
    windows overlap belong to the same reservation, whatever operations were
    performed. *)
Theorem vehicles_exclusive s0 s l1 l2 v : opening s0 -> rtc step s0 s ->
  l1 ∈ st_lines s -> l2 ∈ st_lines s -> active_line l1 = true -> active_line l2 = true ->
  ln_vehicle_id l1 = Some v -> ln_vehicle_id l2 = Some v ->
  ln_window_start l1 < ln_window_end l2 -> ln_window_start l2 < ln_window_end l1 ->
  ln_reservation_id l1 = ln_reservation_id l2.
Proof.
  intros Ho Hr H1 H2 A1 A2 V1 V2 W1 W2. apply (inv_exclusive _ (reachable_sound _ _ Ho Hr)); try done.
  split_and!; try done; by rewrite V1.
Qed.

(** In every reachable state, each reservation is held, reserved, cancelled or
    expired; it is RESERVED only if its obligation satisfies the policy it was
    accepted under, and HELD only if it does not; it owns exactly its quantity of
    active lines while held or reserved and none afterwards; and a PAID or
    DEPOSITED obligation is backed by an amount received of at least the total or
    the deposit. *)
Theorem reservations_sound s0 s r : opening s0 -> rtc step s0 s -> r ∈ st_reservations s ->
  rv_state r ∈ ["held"; "reserved"; "cancelled"; "expired"]%string /\
  (rv_state r ∈ active_states ->
     (rv_state r = "reserved"%string <->
      obligation_satisfies_reserved (rv_obligation_state r) (ri_required_obligation (rv_info r)) = true)) /\
  lines_of (st_lines s) (rid r) =
    (if str_in (rv_state r) active_states then ri_required_quantity (rv_info r) else 0) /\
  (rv_obligation_state r = "paid"%string ->
     backed (ri_required_total_amount (rv_info r)) (rv_amount_received r)) /\
  (rv_obligation_state r = "deposited"%string ->
     backed (ri_deposit_amount (rv_info r)) (rv_amount_received r)).
Proof.
  intros Ho Hr Hin. pose proof (inv_rows _ (reachable_sound _ _ Ho Hr) r Hin) as Hro.
  split_and!; try apply Hro. unfold active_states. rewrite !elem_of_cons, elem_of_nil.
  intros [E|[E|[]]]; rewrite E.
  - by rewrite (ro_held _ _ Hro E).
  - by rewrite (ro_reserved _ _ Hro E).
Qed.

(** Rows of a reservation that a release does not hit stay as they are. *)
Lemma expire_one_keeps now s id r : r ∈ st_reservations s -> due now r = false ->
  r ∈ st_reservations (expire_one now s id).1.
Proof.
  intros Hin Hd. destruct (expire_one_cases now s id) as [->|[-> _]]; [done|].
  simpl. apply elem_of_update. exists r. by rewrite Hd, andb_false_r.
Qed.

Lemma expire_all_keeps now ids s r : r ∈ st_reservations s -> due now r = false ->
  r ∈ st_reservations (expire_all now s ids).1.
Proof.
  revert s. induction ids as [|id ids IH]; intros s Hin Hd; [done|]. simpl.
  pose proof (expire_one_keeps now s id r Hin Hd) as H1.
  destruct (expire_one now s id) as [s1 ok]. simpl in H1. specialize (IH s1 H1 Hd).
  by destruct (expire_all now s1 ids).
Qed.

Lemma write_row_keeps s r x : x ∈ st_reservations s -> rid x <> rid r ->
  x ∈ st_reservations (write_row s r).
Proof. intros. simpl. by apply write_other. Qed.

(** C38: only a deposit deadline ever ends a hold. A held reservation of any other
    timing survives every expiry run, unchanged; and if its timing is NOW and its
    request carried no estimated value, no obligation event can promote it
    either: it stays HELD, and keeps its units, until someone cancels it. *)
Theorem hold_without_deadline s0 s r : opening s0 -> rtc step s0 s -> r ∈ st_reservations s ->
  rv_state r = "held"%string -> ri_payment_timing (rv_info r) <> Some "DEPOSIT"%string ->
  (forall now limit, let s' := (expire_due_held_reservations now limit s).1 in
     r ∈ st_reservations s' /\ lines_of (st_lines s') (rid r) = ri_required_quantity (rv_info r)) /\
  (ri_payment_timing (rv_info r) = Some "NOW"%string -> ri_required_total_amount (rv_info r) = None ->
   forall now id target ref amount s' r',
     apply_obligation_event now s id target ref amount = Ok (s', r') ->
     exists x, x ∈ st_reservations s' /\ rid x = rid r /\ rv_state x = "held"%string).
Proof.
  intros Ho Hr Hin Hst Hne. pose proof (reachable_sound _ _ Ho Hr) as Hi.
  pose proof (inv_rows _ Hi r Hin) as Hro. split.
  - intros now limit s'. assert (Hd : due now r = false).
    { unfold due. by rewrite (ro_due _ _ Hro Hne), andb_false_r. }
    assert (Hin' : r ∈ st_reservations s').
    { unfold s', expire_due_held_reservations.
      pose proof (expire_all_keeps now (candidates now limit s) s r Hin Hd) as Hk.
      by destruct (expire_all now s (candidates now limit s)). }
    split; [done|]. pose proof (step_sound _ _ (step_expire s now limit) Hi) as Hi'.
    fold s' in Hi'. rewrite (ro_lines _ _ (inv_rows _ Hi' r Hin')), Hst. done.
  - intros Hnow Htot now id target ref amount s' r' Ha.
    apply apply_Ok in Ha as (row & Hg & Hcase). apply get_live_Ok in Hg as (Hrow & Hid & _).
    destruct Hcase as [[-> _]|[-> Hsl]]; [by exists r|].
    pose proof (sl_info _ _ _ _ Hsl) as Hinfo.
    destruct (Z.eq_dec (rid r) (rid r')) as [E|E]; [|exists r; split; [by apply write_row_keeps|done]].
    assert (row = r) as ->.
    { apply (key_unique rid (st_reservations s)); try done; [rewrite rid_infos; apply Hi|].
      unfold rid in *. by rewrite E, Hinfo. }
    exists r'. split_and!; [|done|].
    { simpl. apply elem_of_update. exists r. split; [done|]. by rewrite E, Z.eqb_refl. }
    rewrite (sl_state _ _ _ _ Hsl), Hst.
    destruct (ro_timing _ _ Hro) as (timing & Ht & Hpt & Hreq). rewrite Hnow in Hpt. injection Hpt as <-.
    assert (Hnp : target_value target <> "paid"%string).
    { intros Ep. destruct (sl_received _ _ _ _ Hsl) as (? & ? & _ & _ & _ & _ & Hg).
      unfold is_paid in Hg. rewrite Ep, Htot in Hg. discriminate Hg. }
    rewrite Hreq. simpl. unfold obligation_satisfies_reserved.
    destruct (enum_of_value (target_value target)) as [o|] eqn:Eo; [|done].
    apply enum_of_value_Some in Eo. destruct o; [done|done|by destruct Hnp].
Qed.

(** The rows that a lookup by actor and key sees after an insertion. *)
Lemma lookup_inserted s r ls user key :
  _lookup_idempotent s user key = None -> ri_reserving_user_id (rv_info r) = user ->
  ri_idempotency_key (rv_info r) = key -> ri_is_deleted (rv_info r) = false ->
  _lookup_idempotent (inserted s r ls) user key = Some r.
Proof.
  unfold _lookup_idempotent. simpl. intros Hn <- <- Hd.
  induction (st_reservations s) as [|x l IH]; simpl in *; [by rewrite Z.eqb_refl, String.eqb_refl, Hd|].
  destruct (_ && _); [done|]. by apply IH.
Qed.

Lemma violates_existing s x r : x ∈ st_reservations s ->
  ri_reserving_user_id (rv_info x) = ri_reserving_user_id (rv_info r) ->
  ri_idempotency_key (rv_info x) = ri_idempotency_key (rv_info r) -> violates_unique s r = true.
Proof.
  intros Hin E1 E2. apply existsb_exists. exists x. rewrite <-list_elem_of_In. split; [done|].
  by rewrite E1, E2, Z.eqb_refl, String.eqb_refl, orb_true_r.
Qed.

(** After a successful creation the reservation of that actor and key is there. *)
Lemma create_lookup now ref s q s' r a o :
  validated s q = Ok (a, o) -> create_reservation now ref s q = Ok (s', r) ->
  _lookup_idempotent s' (ac_id a) (cr_idempotency_key q) = Some r /\
  ri_request_fingerprint (rv_info r) = _request_fingerprint q /\
  st_catalogue s' = st_catalogue s.
Proof.
  unfold create_reservation. intros Hv Hc. rewrite Hv in Hc. cbn [rbind] in Hc.
  destruct (_lookup_idempotent s (ac_id a) (cr_idempotency_key q)) as [x|] eqn:Hl.
  - inv_ok Hc. injection Hc as <- <-. unfold _return_matching_idempotent in Hok. inv_ok Hok.
    injection Hok as <-. apply String.eqb_eq in Hreq. done.
  - inv_ok Hc. pose proof (persist_Ok _ _ _ _ _ _ _ _ _ Hv Hok Hc) as Hcr.
    destruct (cn_row _ _ _ _ _ _ _ Hcr) as (ref' & total & dep & log & _ & _ & _ & Hr & ->).
    split_and!; [|by rewrite Hr|done]. apply lookup_inserted; [done|by rewrite Hr..].
Qed.

Lemma validated_catalogue s s' q : st_catalogue s' = st_catalogue s -> validated s' q = validated s q.
Proof. intros E. unfold validated. by rewrite E. Qed.

(** Creation is idempotent in the actor's key. Repeating an accepted request
    returns the same reservation and changes nothing; the same key with a
    different material request is a conflict. But a second request that looked the
    key up before the first committed, and inserts after it, ends in a TypeError
    instead of being handed the winner. *)
Theorem create_idempotent now ref s q s' r a o :
  validated s q = Ok (a, o) -> create_reservation now ref s q = Ok (s', r) ->
  (forall now' ref', create_reservation now' ref' s' q = Ok (s', r)) /\
  (forall now' ref' q' a' o', validated s' q' = Ok (a', o') -> ac_id a' = ac_id a ->
     cr_idempotency_key q' = cr_idempotency_key q -> _request_fingerprint q' <> _request_fingerprint q ->
     exists msg, create_reservation now' ref' s' q' = Err (ConflictError msg)) /\
  (forall now' ref' d total deposit, store_optional (cr_estimated_value q) = Ok total ->
     store_optional (pd_deposit_amount d) = Ok deposit -> persist now' ref' s' q a d = Err TypeError).
Proof.
  intros Hv Hc. destruct (create_lookup _ _ _ _ _ _ _ _ Hv Hc) as (Hl & Hf & Hct). split_and!.
  - intros now' ref'. unfold create_reservation. rewrite (validated_catalogue _ _ _ Hct), Hv. cbn [rbind].
    rewrite Hl. unfold _return_matching_idempotent. by rewrite Hf, String.eqb_refl.
  - intros now' ref' q' a' o' Hv' Ea Ek Hne. unfold create_reservation. rewrite Hv'. cbn [rbind].
    rewrite Ea, Ek, Hl. unfold _return_matching_idempotent. rewrite Hf.
    destruct (String.eqb_spec (_request_fingerprint q) (_request_fingerprint q')) as [E|E];
      [by destruct Hne|by eexists].
  - intros now' ref' d total deposit Ht Hd. unfold persist. rewrite Ht, Hd. cbn [rbind].
    apply lookup_Some in Hl as (Hin & Eu & Ek & _).
    by rewrite (violates_existing s' r) by done.
Qed.

Lemma count_new_lines h ids v :
  rowcount (fun l => active_line l && (ln_reservation_id l =? rid h)
                     && bool_decide (ln_vehicle_id l = Some v))
    ((fun w => new_line h (Some w)) <$> ids) = Z.of_nat (length (filter (eq v) ids)).
Proof.
  induction ids as [|w ids IH]; [done|].
  rewrite fmap_cons, rowcount_cons, IH, filter_cons. simpl ln_reservation_id. rewrite Z.eqb_refl.
  simpl. destruct (decide (v = w)) as [->|Hn].
  - rewrite bool_decide_eq_true_2 by done. simpl length. lia.
  - rewrite bool_decide_eq_false_2 by congruence. done.
Qed.

(** A reservation of specific vehicles makes one active line for each vehicle
    id of its request, repetitions included: a vehicle named twice is accepted as
    two of the required units. *)
Theorem one_line_per_named_vehicle now ref s0 s q s' r ids v : opening s0 -> rtc step s0 s ->
  create_reservation now ref s q = Ok (s', r) -> s' <> s ->
  cr_mode q = "specific"%string -> cr_specific_vehicle_ids q = Some ids ->
  rowcount (fun l => active_line l && (ln_reservation_id l =? rid r)
                     && bool_decide (ln_vehicle_id l = Some v)) (st_lines s')
    = Z.of_nat (length (filter (eq v) ids)) /\
  Z.of_nat (length ids) = ri_required_quantity (rv_info r).
Proof.
  intros Ho Hr Hc Hne Em Ei. pose proof (inv_keys _ (reachable_sound _ _ Ho Hr)) as Hk.
  apply create_Ok in Hc as [(-> & _)|(a & o & d & _ & Hc)]; [done|].
  destruct (cn_row _ _ _ _ _ _ _ Hc) as (ref' & total & dep & log & _ & _ & _ & Er & ->).
  destruct (validated_count s q a o ref' d total dep (cn_validated _ _ _ _ _ _ _ Hc)) as [Hn _].
  unfold _materialise_lines in *. cbn [header ri_mode rv_info] in *. rewrite Em, Ei in *. simpl in Hn.
  rewrite length_fmap in Hn. split; [|by rewrite Er]. simpl. rewrite rowcount_app.
  rewrite (rowcount_none _ (st_lines s)).
  - rewrite Z.add_0_l. subst r.
    exact (count_new_lines (header (st_next_reservation s) ref' a q d total dep) ids v).
  - intros l Hl. destruct (k_owner _ Hk l Hl) as (i & Hi & E & _). pose proof (k_next _ Hk i Hi).
    subst r. apply andb_false_iff. left. apply andb_false_iff. right. apply Z.eqb_neq.
    unfold rid. simpl. lia.
Qed.

End laws.

(** * A concrete run *)

Module ReservationSample.

#[export] Instance sample_digest : Digest :=
  fun c => (pretty (cq_required_quantity c) +:+ cq_offering_code c)%string.

Definition catalogue : catalogue := {|
  ct_vehicles := [{| ve_id := 5; ve_owner_type := "organisation"; ve_owner_id := 3;
    ve_status := Some "active"; ve_is_available := true; ve_passenger_capacity := 40;
    ve_class := None; ve_is_deleted := false |}];
  ct_offerings := [{| of_code := "bus"; of_min_seats := 30; of_max_seats := 60;
    of_is_active := true; of_is_deleted := false; of_compatible := [] |}];
  ct_identity := sample_identity;
  ct_settings := sample_settings;
|}%string.

Definition empty : store := {|
  st_reservations := []; st_lines := []; st_supplies := []; st_catalogue := catalogue;
  st_next_reservation := 1; st_next_supply := 1
|}.

Definition request (timing mode : string) (ids : option (list Z)) (estimate : option dec)
    : create_request := {|
  cr_actor := Some sample_actor;
  cr_offering_code := "bus";
  cr_provider_type := "organisation";
  cr_provider_id := 3;
  cr_window_start := Aware (hours 100);
  cr_window_end := Aware (hours 104);
  cr_required_quantity := 2;
  cr_mode := mode;
  cr_idempotency_key := "key";
  cr_payment_method := Some "wallet";
  cr_payment_timing := Some timing;
  cr_commercial_policy_ref := None;
  cr_on_behalf_of := None;
  cr_event_id := None;
  cr_context_source := None;
  cr_context_ref := None;
  cr_specific_vehicle_ids := ids;
  cr_estimated_value := estimate;
|}%string.

Definition supplied : store :=
  match register_supply empty "organisation" 3 "bus" 0 (hours 200) 5 with
  | Ok (s, _) => s
  | Err _ => empty
  end.

Definition priced : create_request := request "deposit" "capacity" None (Some (cents 10000)).
Definition unpriced : create_request := request "now" "capacity" None None.
Definition twice : create_request := request "invoice" "specific" (Some [5; 5]) None.

Definition after (q : create_request) : store :=
  match create_reservation 0 "RSV1" supplied q with
  | Ok (s, _) => s
  | Err _ => supplied
  end.

Definition row (q : create_request) : reservation :=
  match create_reservation 0 "RSV1" supplied q with
  | Ok (_, r) => r
  | Err _ => sample_row
  end.

Lemma opened : opening empty.
Proof. done. Qed.

Lemma supplied_step : step empty supplied.
Proof. eapply (step_register _ "organisation" 3 "bus" 0 (hours 200) 5). vm_compute. reflexivity. Qed.

Lemma created q : is_ok (create_reservation 0 "RSV1" supplied q) = true ->
  create_reservation 0 "RSV1" supplied q = Ok (after q, row q).
Proof. unfold after, row. by destruct (create_reservation 0 "RSV1" supplied q) as [[]|]. Qed.

Lemma reach q : is_ok (create_reservation 0 "RSV1" supplied q) = true -> rtc step empty (after q).
Proof.
  intros Ho. eapply rtc_l; [apply supplied_step|]. apply rtc_once.
  eapply step_create. by apply created.
Qed.

Lemma ok_priced : is_ok (create_reservation 0 "RSV1" supplied priced) = true.
Proof. vm_compute. reflexivity. Qed.
Lemma ok_unpriced : is_ok (create_reservation 0 "RSV1" supplied unpriced) = true.
Proof. vm_compute. reflexivity. Qed.
Lemma ok_twice : is_ok (create_reservation 0 "RSV1" supplied twice) = true.
Proof. vm_compute. reflexivity. Qed.

Definition slice : supply := {|
  su_id := 1; su_provider_type := "organisation"; su_provider_id := 3; su_offering_code := "bus";
  su_window_start := 0; su_window_end := hours 200; su_total_units := 5; su_is_deleted := false
|}%string.

Lemma slices : st_supplies (after priced) = [slice].
Proof. vm_compute. reflexivity. Qed.

Lemma twice_lines :
  st_lines (after twice) = [new_line (row twice) (Some 5); new_line (row twice) (Some 5)].
Proof. vm_compute. reflexivity. Qed.

Lemma row_in q : is_ok (create_reservation 0 "RSV1" supplied q) = true ->
  existsb (fun r => rid r =? rid (row q)) (st_reservations supplied) = false ->
  row q ∈ st_reservations (after q).
Proof.
  intros Ho He. destruct (create_Ok _ _ _ _ _ _ (created q Ho)) as [(_ & Hin & _)|(a & o & d & _ & Hc)].
  - exfalso. apply not_true_iff_false in He. apply He, existsb_exists. exists (row q).
    rewrite <-list_elem_of_In. split; [done|apply Z.eqb_refl].
  - destruct (creation_effect _ _ _ _ _ _ _ Hc) as (ref & total & dep & log & _ & -> & _).
    simpl. apply list_elem_of_here.
Qed.

End ReservationSample.
Import ReservationSample.

Lemma no_overcommit_witness :
  usage (after priced) ("organisation", 3, "bus")%string (hours 101) = 2 /\
  usage (after priced) ("organisation", 3, "bus")%string (hours 101) <= 5.
Proof.
  split; [vm_compute; reflexivity|].
  destruct (no_overcommit empty (after priced) opened (reach priced ok_priced)) as [Hcap _].
  apply (Hcap slice (hours 101)); [rewrite slices; by apply list_elem_of_singleton|done|done].
Defined.

Lemma vehicles_exclusive_witness :
  exists l1 l2, st_lines (after twice) = [l1; l2] /\ ln_vehicle_id l1 = Some 5 /\
    ln_vehicle_id l2 = Some 5 /\ ln_reservation_id l1 = ln_reservation_id l2.
Proof.
  exists (new_line (row twice) (Some 5)), (new_line (row twice) (Some 5)).
  split_and!; [apply twice_lines|done|done|].
  assert (Hin : new_line (row twice) (Some 5) ∈ st_lines (after twice))
    by (rewrite twice_lines; apply list_elem_of_here).
  apply (vehicles_exclusive empty (after twice) _ _ 5 opened (reach twice ok_twice) Hin Hin);
    vm_compute; reflexivity.
Defined.

Lemma reservations_sound_witness :
  rv_state (row priced) = "held"%string /\
  lines_of (st_lines (after priced)) (rid (row priced)) = 2.
Proof.
  split; [vm_compute; reflexivity|].
  destruct (reservations_sound empty (after priced) (row priced) opened (reach priced ok_priced)
    (row_in priced ok_priced eq_refl)) as (_ & _ & Hl & _).
  rewrite Hl. vm_compute. reflexivity.
Defined.

Lemma hold_without_deadline_witness :
  row unpriced ∈ st_reservations (expire_due_held_reservations (hours 10000) None (after unpriced)).1.
Proof.
  destruct (hold_without_deadline empty (after unpriced) (row unpriced) opened
    (reach unpriced ok_unpriced) (row_in unpriced ok_unpriced eq_refl)) as [He _];
    [vm_compute; reflexivity|vm_compute; discriminate|].
  exact (proj1 (He (hours 10000) None)).
Defined.

Lemma create_idempotent_witness :
  create_reservation 9 "RSV2" (after priced) priced = Ok (after priced, row priced).
Proof.
  destruct (validated supplied priced) as [[a o]|] eqn:Hv; [|vm_compute in Hv; discriminate Hv].
  destruct (create_idempotent 0 "RSV1" supplied priced (after priced) (row priced) a o Hv
    (created priced ok_priced)) as [Hsame _].
  exact (Hsame 9 "RSV2"%string).
Defined.

Lemma one_line_per_named_vehicle_witness :
  rowcount (fun l => active_line l && (ln_reservation_id l =? rid (row twice))
                     && bool_decide (ln_vehicle_id l = Some 5)) (st_lines (after twice)) = 2.
Proof.
  assert (Hr : rtc step empty supplied) by (apply rtc_once, supplied_step).
  assert (Hne : after twice <> supplied).
  { intros E. apply (f_equal st_lines) in E. rewrite twice_lines in E. discriminate E. }
  exact (proj1 (one_line_per_named_vehicle 0 "RSV1" empty supplied twice (after twice) (row twice)
    [5; 5] 5 opened Hr (created twice ok_twice) Hne eq_refl eq_refl)).
Defined.
