(* ===== verification/Ledger.v ===== *)
(** The wallet's tables and their repositories: app/wallet/models/ledger.py,
    app/wallet/models/transaction.py and app/wallet/repositories/. A balance is
    never stored: it is the sum of the ledger entries of an account in a currency.

    An amount in a table is a number of millionths, as the columns are
    Numeric(18, 6); an amount of the program is a [dec] until it is written. A
    UUID of an account is its canonical text, a UUID of a transaction the value of
    a counter. Instants are microseconds in UTC. *)

From S2P Require Import Prelude Tables Decimal.

Local Open Scope Z_scope.

(** * Enumerations *)

Module EntryType.

Inductive t : Type := DEBIT | CREDIT.

#[export] Instance eq : EqDecision t.
Proof. solve_decision. Defined.

#[export, refine] Instance enum : PyEnum t := {
  enum_members := [DEBIT; CREDIT];
  enum_value s := match s with DEBIT => "DEBIT" | CREDIT => "CREDIT" end%string;
}.
Proof.
  - intros []; set_solver.
  - intros [] []; by intros [=].
Defined.

End EntryType.
Export (hints) EntryType.

Module TransactionType.

Inductive t : Type := DEPOSIT | WITHDRAW | TRANSFER | FEE | REFUND | ADJUSTMENT.

#[export] Instance eq : EqDecision t.
Proof. solve_decision. Defined.

#[export, refine] Instance enum : PyEnum t := {
  enum_members := [DEPOSIT; WITHDRAW; TRANSFER; FEE; REFUND; ADJUSTMENT];
  enum_value s := match s with
    | DEPOSIT => "deposit" | WITHDRAW => "withdraw" | TRANSFER => "transfer"
    | FEE => "fee" | REFUND => "refund" | ADJUSTMENT => "adjustment"
    end%string;
}.
Proof.
  - intros []; set_solver.
  - intros [] []; by intros [=].
Defined.

End TransactionType.
Export (hints) TransactionType.

Module TransactionStatus.

Inductive t : Type := PENDING | COMPLETED | FAILED | CANCELLED.

#[export] Instance eq : EqDecision t.
Proof. solve_decision. Defined.

#[export, refine] Instance enum : PyEnum t := {
  enum_members := [PENDING; COMPLETED; FAILED; CANCELLED];
  enum_value s := match s with
    | PENDING => "pending" | COMPLETED => "completed"
    | FAILED => "failed" | CANCELLED => "cancelled"
    end%string;
}.
Proof.
  - intros []; set_solver.
  - intros [] []; by intros [=].
Defined.

End TransactionStatus.
Export (hints) TransactionStatus.

(** * Errors *)

(** The exceptions of app/wallet/exceptions.py, those of Python, and those of
    the database driver. *)
Inductive wallet_error : Type :=
  | WalletNotFoundError (ref : string)
  | InsufficientBalanceError (currency : string) (required available : dec)
  | DuplicateTransactionError (key : string) (existing : Z)
  | WalletFrozenError (ref : string) (reason : option string)
  | LimitExceededError (limit_type : string)
  | UnsupportedCurrencyError (currency : string)
  | TransactionPINError (msg : string)
  | ComplianceBlockError (rule : string)
  | ValueError (msg : string)
  | PermissionError
  | AttributeError
  | TypeError
  | FXError                          (* any exception of the rate service *)
  | ArithmeticError (e : dec_error)
  | MultipleResultsFound
  | DataError                        (* a value the column cannot hold *)
  | IntegrityError                   (* a constraint of the table *)
  | PendingRollbackError.            (* a statement after a failed flush *)

Abbreviation outcome := (result wallet_error).

(** A decimal operation that may raise. *)
Definition arith {A} (m : result dec_error A) : outcome A := map_err ArithmeticError m.

(** * Rows *)

(** A scalar value of a JSON document; a float, a list or an object is kept as
    its JSON text. *)
Inductive json : Type :=
  | JNull
  | JBool (b : bool)
  | JInt (n : Z)
  | JStr (s : string)
  | JDec (d : dec)             (* str(d) of a Decimal *)
  | JText (s : string).

#[export] Instance json_eq_dec : EqDecision json.
Proof. solve_decision. Defined.

Abbreviation metadata := (gmap string json).

(** Python's [==]: a bool is an int. *)
Definition json_num (j : json) : option Z :=
  match j with
  | JBool b => Some (if b then 1 else 0)
  | JInt n => Some n
  | _ => None
  end.

Definition json_eqb (a b : json) : bool :=
  match json_num a, json_num b with
  | Some m, Some n => m =? n
  | _, _ => bool_decide (a = b)
  end.

(** [d.get(k)] *)
Definition json_get (m : metadata) (k : string) : json := default JNull (m !! k).

(** AccountModel: the columns written when the account is opened. *)
Record account_info : Type := {
  ai_id : string;
  ai_owner_type : string;
  ai_user_id : option Z;
  ai_organisation_id : option Z;
  ai_currency : string;
  ai_monthly_volume_limit : option dec;
  ai_status : string;
  ai_account_type : string;
  ai_platform_account : bool;
  ai_service_type : option string;       (* extra_data["service_type"] *)
}.

Record account : Type := {
  ac_info : account_info;
  ac_is_frozen : bool;
  ac_frozen_reason : option string;
  ac_frozen_at : option Z;
  ac_daily_volume : Z;
  ac_daily_volume_reset_at : option Z;
  ac_monthly_volume : Z;
  ac_monthly_volume_reset_at : option Z;
}.

Definition ac_id (a : account) : string := ai_id (ac_info a).
Definition ac_user_id (a : account) : option Z := ai_user_id (ac_info a).
Definition ac_currency (a : account) : string := ai_currency (ac_info a).

(** ck_accounts_single_owner and ck_accounts_owner_type_consistent *)
Definition owner_ok (i : account_info) : bool :=
  let user := is_some (ai_user_id i) in
  let org := is_some (ai_organisation_id i) in
  (negb user || negb org)
  && (String.eqb (ai_owner_type i) "user" && user && negb org
      || String.eqb (ai_owner_type i) "organisation" && (org || user)
      || str_in (ai_owner_type i) ["platform"; "system"]%string && user && negb org).

(** TransactionModel; a NULL document reads as the empty one. *)
Record transaction : Type := {
  tx_id : Z;
  tx_client_request_id : string;
  tx_type : TransactionType.t;
  tx_status : TransactionStatus.t;
  tx_amount : Z;
  tx_currency : string;
  tx_user_id : option Z;
  tx_recipient_user_id : option Z;
  tx_metadata : metadata;
  tx_created_at : Z;
  tx_completed_at : option Z;
  tx_failed_at : option Z;
  tx_failure_reason : option string;
}.

(** LedgerEntryModel, as a row and as an object not yet written. Rows are only
    ever appended; [le_id] is the position of the row. *)
Record entry : Type := {
  le_id : Z;
  le_transaction_id : Z;
  le_account_id : string;
  le_type : EntryType.t;
  le_amount : Z;
  le_currency : string;
  le_created_at : Z;
}.

Record new_entry : Type := {
  ne_transaction_id : Z;
  ne_account_id : string;
  ne_type : EntryType.t;
  ne_amount : dec;
  ne_currency : string;
}.

(** AgentCommission *)
Record commission : Type := {
  cm_agent_id : Z;
  cm_amount : Z;
  cm_currency : string;
  cm_source_type : string;
  cm_source_id : Z;
  cm_recipient_id : option Z;
  cm_status : string;
}.

(** User: the columns of the transaction PIN. *)
Record pin_user : Type := {
  us_id : Z;
  us_pin_hash : option string;
  us_pin_failed_attempts : Z;
  us_pin_locked_until : option Z;
}.

Record store : Type := {
  st_accounts : list account;
  st_transactions : list transaction;
  st_entries : list entry;
  st_commissions : list commission;
  st_users : list pin_user;
  st_next_tx : Z;
}.

Definition with_accounts (l : list account) (s : store) : store := {|
  st_accounts := l;
  st_transactions := st_transactions s;
  st_entries := st_entries s;
  st_commissions := st_commissions s;
  st_users := st_users s;
  st_next_tx := st_next_tx s;
|}.

Definition with_transactions (l : list transaction) (next : Z) (s : store) : store := {|
  st_accounts := st_accounts s;
  st_transactions := l;
  st_entries := st_entries s;
  st_commissions := st_commissions s;
  st_users := st_users s;
  st_next_tx := next;
|}.

Definition with_entries (l : list entry) (s : store) : store := {|
  st_accounts := st_accounts s;
  st_transactions := st_transactions s;
  st_entries := l;
  st_commissions := st_commissions s;
  st_users := st_users s;
  st_next_tx := st_next_tx s;
|}.

Definition with_commissions (l : list commission) (s : store) : store := {|
  st_accounts := st_accounts s;
  st_transactions := st_transactions s;
  st_entries := st_entries s;
  st_commissions := l;
  st_users := st_users s;
  st_next_tx := st_next_tx s;
|}.

Definition with_users (l : list pin_user) (s : store) : store := {|
  st_accounts := st_accounts s;
  st_transactions := st_transactions s;
  st_entries := st_entries s;
  st_commissions := st_commissions s;
  st_users := l;
  st_next_tx := st_next_tx s;
|}.

(** * Columns *)

Definition micro (n : Z) : dec := Dec n (-6).

Definition MICRO_MAX : Z := 10 ^ 18.

(** Numeric(18, 6): half away from zero at the sixth decimal, twelve digits at
    most before the point. *)
Definition to_micro (d : dec) : Z :=
  if -6 <=? dexp d then at_exp (-6) d
  else rdivs ROUND_HALF_UP (coef d) (pow10 (-6 - dexp d)).

Definition numeric_18_6 (d : dec) : outcome Z :=
  require Z.abs (to_micro d) <? MICRO_MAX else DataError ;;
  Ok (to_micro d).

(** A Numeric(18, 6) column with the constraint [amount > 0]. *)
Definition positive_amount (d : dec) : outcome Z :=
  let* n := numeric_18_6 d in
  require 0 <? n else IntegrityError ;;
  Ok n.

(** String(n) *)
Definition varchar (n : Z) (s : string) : outcome string :=
  require Z.of_nat (String.length s) <=? n else DataError ;;
  Ok s.

(** * LedgerRepository *)

Module LedgerRepository.

Definition flush_entry (id now : Z) (e : new_entry) : outcome entry :=
  let* amount := positive_amount (ne_amount e) in
  let* currency := varchar 10 (ne_currency e) in
  Ok {| le_id := id;
        le_transaction_id := ne_transaction_id e;
        le_account_id := ne_account_id e;
        le_type := ne_type e;
        le_amount := amount;
        le_currency := currency;
        le_created_at := now |}.

(** The entries are added to the session; the next query flushes them. *)
Fixpoint post_entries (now : Z) (l : list new_entry) (s : store) : outcome store :=
  match l with
  | [] => Ok s
  | e :: l =>
      let* row := flush_entry (Z.of_nat (length (st_entries s))) now e in
      post_entries now l (with_entries (st_entries s ++ [row]) s)
  end.

Definition of_account (account_id currency : string) (e : entry) : bool :=
  String.eqb (le_account_id e) account_id && String.eqb (le_currency e) currency.

Definition is_debit (e : entry) : bool :=
  match le_type e with EntryType.DEBIT => true | EntryType.CREDIT => false end.

(** [case((entry_type == X, amount), else_=0)] *)
Definition credit_of (e : entry) : Z := if is_debit e then 0 else le_amount e.
Definition debit_of (e : entry) : Z := if is_debit e then le_amount e else 0.

Definition get_balance (s : store) (account_id currency : string) (as_of : option Z) : Z :=
  let rows := List.filter (fun e => of_account account_id currency e
                 && match as_of with Some t => le_created_at e <=? t | None => true end)
                (st_entries s) in
  sum_Z (credit_of <$> rows) - sum_Z (debit_of <$> rows).

(** The balance now. *)
Definition balance (s : store) (account_id currency : string) : Z :=
  get_balance s account_id currency None.

(** Group the account's entries by currency. *)
Definition group_entry (account_id : string) (e : entry) (m : gmap string Z) : gmap string Z :=
  if String.eqb (le_account_id e) account_id
  then <[le_currency e := (if is_debit e then - le_amount e else le_amount e)
                          + default 0 (m !! le_currency e)]> m
  else m.

Definition get_balances (s : store) (account_id : string) : gmap string Z :=
  foldr (group_entry account_id) ∅ (st_entries s).

Definition outgoing (s : store) (account_id currency : string) (since : Z) : Z :=
  sum_Z (le_amount <$> List.filter (fun e => of_account account_id currency e && is_debit e
                                             && (since <=? le_created_at e)) (st_entries s)).

Definition days (n : Z) : Z := n * 86400000000.

Definition get_daily_volume (s : store) (account_id currency : string) (now : Z)
    (since : option Z) : Z :=
  outgoing s account_id currency (default (now - days 1) since).

Definition get_monthly_volume (s : store) (account_id currency : string) (now : Z)
    (since : option Z) : Z :=
  outgoing s account_id currency (default (now - days 30) since).

Definition validate_account_balance (s : store) (account_id currency : string)
    (required_amount : dec) : bool :=
  dleb required_amount (micro (balance s account_id currency)).

End LedgerRepository.

(** * AccountRepository *)

Module AccountRepository.

Definition get_by_id (s : store) (account_id : string) : option account :=
  List.find (fun a => String.eqb (ac_id a) account_id) (st_accounts s).

(** [scalar_one_or_none] *)
Definition get_by_user_id (s : store) (user_id : Z) (currency : string)
    : outcome (option account) :=
  require 0 <? user_id else ValueError "Internal BIGINT ID must be positive" ;;
  match List.filter (fun a => bool_decide (ac_user_id a = Some user_id)
                              && String.eqb (ac_currency a) currency) (st_accounts s) with
  | [] => Ok None
  | [a] => Ok (Some a)
  | _ => Err MultipleResultsFound
  end.

(** An assignment to columns of the row with this id; [false] when there is none. *)
Definition write_account (f : account -> account) (account_id : string) (s : store)
    : store * bool :=
  match get_by_id s account_id with
  | None => (s, false)
  | Some _ =>
      (with_accounts (update_where (fun a => String.eqb (ac_id a) account_id) f
                        (st_accounts s)) s, true)
  end.

Definition set_frozen (frozen : bool) (reason : option string) (at_ : option Z) (a : account)
    : account := {|
  ac_info := ac_info a;
  ac_is_frozen := frozen;
  ac_frozen_reason := reason;
  ac_frozen_at := at_;
  ac_daily_volume := ac_daily_volume a;
  ac_daily_volume_reset_at := ac_daily_volume_reset_at a;
  ac_monthly_volume := ac_monthly_volume a;
  ac_monthly_volume_reset_at := ac_monthly_volume_reset_at a;
|}.

Definition set_daily (v : Z) (at_ : option Z) (a : account) : account := {|
  ac_info := ac_info a;
  ac_is_frozen := ac_is_frozen a;
  ac_frozen_reason := ac_frozen_reason a;
  ac_frozen_at := ac_frozen_at a;
  ac_daily_volume := v;
  ac_daily_volume_reset_at := at_;
  ac_monthly_volume := ac_monthly_volume a;
  ac_monthly_volume_reset_at := ac_monthly_volume_reset_at a;
|}.

Definition set_monthly (v : Z) (at_ : option Z) (a : account) : account := {|
  ac_info := ac_info a;
  ac_is_frozen := ac_is_frozen a;
  ac_frozen_reason := ac_frozen_reason a;
  ac_frozen_at := ac_frozen_at a;
  ac_daily_volume := ac_daily_volume a;
  ac_daily_volume_reset_at := ac_daily_volume_reset_at a;
  ac_monthly_volume := v;
  ac_monthly_volume_reset_at := at_;
|}.

Definition freeze_account (now : Z) (account_id reason : string) : store -> store * bool :=
  write_account (set_frozen true (Some reason) (Some now)) account_id.

Definition unfreeze_account (account_id : string) : store -> store * bool :=
  write_account (set_frozen false None None) account_id.

Definition reset_daily_volume (now : Z) (account_id : string) : store -> store * bool :=
  write_account (set_daily 0 (Some now)) account_id.

Definition reset_monthly_volume (now : Z) (account_id : string) : store -> store * bool :=
  write_account (set_monthly 0 (Some now)) account_id.

(** The counters are added up exactly and rounded by the column. *)
Definition update_volume (account_id : string) (amount : dec) (volume_type : string) (s : store)
    : outcome (store * bool) :=
  match get_by_id s account_id with
  | None => Ok (s, false)
  | Some a =>
      if String.eqb volume_type "daily" then
        let* v := numeric_18_6 (dadd (micro (ac_daily_volume a)) amount) in
        Ok (write_account (fun a => set_daily v (ac_daily_volume_reset_at a) a) account_id s)
      else if String.eqb volume_type "monthly" then
        let* v := numeric_18_6 (dadd (micro (ac_monthly_volume a)) amount) in
        Ok (write_account (fun a => set_monthly v (ac_monthly_volume_reset_at a) a) account_id s)
      else Ok (s, true)
  end.

End AccountRepository.

(** * TransactionRepository *)

Module TransactionRepository.

Definition get_by_id (s : store) (id : Z) : option transaction :=
  List.find (fun t => tx_id t =? id) (st_transactions s).

Definition get_by_client_request_id (s : store) (key : option string) : option transaction :=
  match key with
  | None => None
  | Some key => List.find (fun t => String.eqb (tx_client_request_id t) key) (st_transactions s)
  end.

(** The checks of the INSERT come first, then the conflict on the key. *)
Definition get_or_create (now : Z) (key : option string) (tx_type : TransactionType.t)
    (amount : dec) (currency : string) (user_id recipient_user_id : option Z)
    (md : option metadata) (s : store) : outcome (store * transaction) :=
  let* key := of_option IntegrityError key in
  let* key := varchar 255 key in
  let* currency := varchar 10 currency in
  let* amount := positive_amount amount in
  match get_by_client_request_id s (Some key) with
  | Some existing => Ok (s, existing)
  | None =>
      let row := {|
        tx_id := st_next_tx s;
        tx_client_request_id := key;
        tx_type := tx_type;
        tx_status := TransactionStatus.PENDING;
        tx_amount := amount;
        tx_currency := currency;
        tx_user_id := user_id;
        tx_recipient_user_id := recipient_user_id;
        tx_metadata := default ∅ md;
        tx_created_at := now;
        tx_completed_at := None;
        tx_failed_at := None;
        tx_failure_reason := None |} in
      Ok (with_transactions (st_transactions s ++ [row]) (st_next_tx s + 1) s, row)
  end.

Definition set_status (now : Z) (status : TransactionStatus.t) (reason : option string)
    (t : transaction) : transaction := {|
  tx_id := tx_id t;
  tx_client_request_id := tx_client_request_id t;
  tx_type := tx_type t;
  tx_status := status;
  tx_amount := tx_amount t;
  tx_currency := tx_currency t;
  tx_user_id := tx_user_id t;
  tx_recipient_user_id := tx_recipient_user_id t;
  tx_metadata := tx_metadata t;
  tx_created_at := tx_created_at t;
  tx_completed_at := match status with
                     | TransactionStatus.COMPLETED => Some now | _ => tx_completed_at t end;
  tx_failed_at := match status with
                  | TransactionStatus.FAILED => Some now | _ => tx_failed_at t end;
  tx_failure_reason := match status with
                       | TransactionStatus.FAILED => reason | _ => tx_failure_reason t end;
|}.

Definition update_status (now : Z) (id : Z) (status : TransactionStatus.t)
    (failure_reason : option string) (s : store) : store * bool :=
  match get_by_id s id with
  | None => (s, false)
  | Some _ =>
      (with_transactions (update_where (fun t => tx_id t =? id)
                            (set_status now status failure_reason) (st_transactions s))
         (st_next_tx s) s, true)
  end.

(** The filters of the history, without its order and its page. *)
Definition get_transaction_count (s : store) (user_id : Z) (ty : option TransactionType.t)
    (status : option TransactionStatus.t) : Z :=
  rowcount (fun t => bool_decide (tx_user_id t = Some user_id)
                     && match ty with Some ty => bool_decide (tx_type t = ty) | None => true end
                     && match status with
                        | Some st => bool_decide (tx_status t = st) | None => true end)
    (st_transactions s).

End TransactionRepository.
