(* ===== verification/RegulatoryVolume.v ===== *)
(** Volumes for the regulatory limits:
    app/wallet/services/regulatory_volume_calculator.py and the policy row of
    app/wallet/models/regulatory_volume.py. The volume of a window is the sum of
    the debits of completed transactions; the window is a calendar day or month
    of Kampala, or a rolling one. *)

From S2P Require Import Prelude Tables Decimal Ledger.

Local Open Scope Z_scope.

Module WindowMode.

Inductive t : Type := CALENDAR | ROLLING.

#[export] Instance eq : EqDecision t.
Proof. solve_decision. Defined.

#[export, refine] Instance enum : PyEnum t := {
  enum_members := [CALENDAR; ROLLING];
  enum_value s := match s with CALENDAR => "calendar" | ROLLING => "rolling" end%string;
}.
Proof.
  - intros []; set_solver.
  - intros [] []; by intros [=].
Defined.

End WindowMode.
Export (hints) WindowMode.

(** The value of a window column: the enum member once the row is loaded, the
    text it was given while the object is new in the session. *)
Inductive mode_value : Type :=
  | Member (m : WindowMode.t)
  | Text (s : string).

(** RegulatoryVolumePolicy *)
Record volume_policy : Type := {
  vp_daily_window_mode : mode_value;
  vp_monthly_window_mode : mode_value;
}.

(** [get_active_or_default], on the active row if there is one. *)
Definition get_active_or_default (active : option volume_policy) : volume_policy :=
  default {| vp_daily_window_mode := Text "calendar";
             vp_monthly_window_mode := Text "calendar" |} active.

(** [mode is WindowMode.CALENDAR] *)
Definition is_calendar (m : mode_value) : bool :=
  match m with Member WindowMode.CALENDAR => true | _ => false end.

(** * TimezoneEngine *)

Module TimezoneEngine.

Definition KAMPALA_TZ_OFFSET : Z := hours 3.
Definition day : Z := hours 24.

(** [d.astimezone(KAMPALA)], as a wall clock; a naive value is Kampala time for
    the window starts, UTC for the conversions. *)
Definition utc_to_kampala (d : datetime) : Z := as_utc d + KAMPALA_TZ_OFFSET.
Definition kampala_to_utc (d : datetime) : Z :=
  match d with Naive us => us - KAMPALA_TZ_OFFSET | Aware us => us end.
Definition wall (d : datetime) : Z :=
  match d with Naive us => us | Aware us => us + KAMPALA_TZ_OFFSET end.

(** The day of the month of a day counted from 1970-01-01, in the proleptic
    Gregorian calendar: 400-year cycles from 0000-03-01, years from March. *)
Definition day_of_month (n : Z) : Z :=
  let doe := (n + 719468) mod 146097 in
  let yoe := (doe - doe / 1460 + doe / 36524 - doe / 146096) / 365 in
  let doy := doe - (365 * yoe + yoe / 4 - yoe / 100) in
  let mp := (5 * doy + 2) / 153 in
  doy - (153 * mp + 2) / 5 + 1.

(** [replace(hour=0, minute=0, second=0, microsecond=0)] *)
Definition midnight (w : Z) : Z := w - w mod day.

Definition get_day_start_utc (d : datetime) : Z := midnight (wall d) - KAMPALA_TZ_OFFSET.

(** The same with [day=1]. *)
Definition get_month_start_utc (d : datetime) : Z :=
  let w := midnight (wall d) in
  w - (day_of_month (w / day) - 1) * day - KAMPALA_TZ_OFFSET.

End TimezoneEngine.

(** * VolumeWindowCalculator *)

Module VolumeWindowCalculator.
Import TimezoneEngine.

Definition get_daily_window_bounds (p : volume_policy) (end_time : Z) : Z * Z :=
  (if is_calendar (vp_daily_window_mode p) then get_day_start_utc (Aware end_time)
   else end_time - hours 24, end_time).

Definition get_monthly_window_bounds (p : volume_policy) (end_time : Z) : Z * Z :=
  (if is_calendar (vp_monthly_window_mode p) then get_month_start_utc (Aware end_time)
   else end_time - 30 * hours 24, end_time).

End VolumeWindowCalculator.

(** * RegulatoryVolumeCalculator *)

(** What the calculator reads besides the ledger: the policy in force and the
    entries recorded as reversals. *)
Record volume_rules : Type := {
  vr_active_policy : option volume_policy;
  vr_reversal_entry_ids : list Z;
}.

Module RegulatoryVolumeCalculator.
Import VolumeWindowCalculator LedgerRepository.

Section calculator.
Context (rules : volume_rules).

Definition policy : volume_policy := get_active_or_default (vr_active_policy rules).

(** The conditions of the query on one entry. *)
Definition _build_base_query (account_id currency : string) (e : entry) : bool :=
  of_account account_id currency e && is_debit e
  && negb (bool_decide (le_id e ∈ vr_reversal_entry_ids rules)).

(** The join with the transaction, which must be completed. *)
Definition _add_transaction_status_filter (s : store) (e : entry) : bool :=
  existsb (fun t => (tx_id t =? le_transaction_id e)
                    && bool_decide (tx_status t = TransactionStatus.COMPLETED))
    (st_transactions s).

Definition volume (s : store) (account_id currency : string) (window : Z * Z) : Z :=
  sum_Z (le_amount <$> List.filter
    (fun e => _build_base_query account_id currency e && _add_transaction_status_filter s e
              && (window.1 <=? le_created_at e) && (le_created_at e <=? window.2)) (st_entries s)).

Definition get_daily_volume (s : store) (account_id currency : string) (as_of : Z) : Z :=
  volume s account_id currency (get_daily_window_bounds policy as_of).

Definition get_monthly_volume (s : store) (account_id currency : string) (as_of : Z) : Z :=
  volume s account_id currency (get_monthly_window_bounds policy as_of).

Definition check_limit (volume : Z) (proposed_amount : dec) (limit : option dec)
    : bool * Z :=
  match limit with
  | None => (true, 0)
  | Some l =>
      if dleb l dzero then (true, 0)
      else (dleb (dadd (micro volume) proposed_amount) l, volume)
  end.

Definition check_daily_limit (s : store) (account_id currency : string) (as_of : Z)
    (proposed_amount : dec) (daily_limit : option dec) : bool * Z :=
  check_limit (get_daily_volume s account_id currency as_of) proposed_amount daily_limit.

Definition check_monthly_limit (s : store) (account_id currency : string) (as_of : Z)
    (proposed_amount : dec) (monthly_limit : option dec) : bool * Z :=
  check_limit (get_monthly_volume s account_id currency as_of) proposed_amount monthly_limit.

End calculator.

End RegulatoryVolumeCalculator.
