(* ===== verification/KycLimits.v ===== *)
(** Transaction limits by KYC level: app/wallet/services/kyc_limit_service.py,
    the tier table of app/kyc_config_schema.py, the operational ceilings of
    app/wallet/models/config.py and the status of an organisation from
    app/identity/services/organisation_kyb_service.py. *)

From stdpp Require Import pretty.
From S2P Require Import Prelude Tables Decimal Ledger RegulatoryVolume.

Local Open Scope Z_scope.

(** * Tier requirements (kyc_config_schema) *)

Record tier_config : Type := {
  tc_daily_limit : option Z;
  tc_monthly_limit : option Z;
  tc_transaction_limit : option Z;
}.

Definition tier_row (daily monthly txn : Z) : tier_config := {|
  tc_daily_limit := Some daily;
  tc_monthly_limit := Some monthly;
  tc_transaction_limit := Some txn;
|}.

(** The limits of the six tiers; the last has none. *)
Definition DEFAULT_TIER_REQUIREMENTS (t : Z) : tier_config :=
  match t with
  | 0 => tier_row 0 0 0
  | 1 => tier_row 400000 2000000 100000
  | 2 => tier_row 2000000 10000000 500000
  | 3 => tier_row 7000000 35000000 2000000
  | 4 => tier_row 20000000 100000000 5000000
  | _ => {| tc_daily_limit := None; tc_monthly_limit := None; tc_transaction_limit := None |}
  end.

(** The settings of get_kyc_settings that are integers, by key. *)
Abbreviation kyc_settings := (gmap string (option Z)).

Definition tier_key (t : Z) (what : string) : string :=
  ("kyc_tier_" +:+ pretty t +:+ what)%string.

(** The entry of tier [t] in the dictionary get_tier_requirements returns. *)
Definition tier_entry (s : kyc_settings) (t : Z) : tier_config :=
  let d := DEFAULT_TIER_REQUIREMENTS t in {|
  tc_daily_limit := default (tc_daily_limit d) (s !! tier_key t "_daily_limit");
  tc_monthly_limit := default (tc_monthly_limit d) (s !! tier_key t "_monthly_limit");
  tc_transaction_limit := default (tc_transaction_limit d) (s !! tier_key t "_transaction_limit");
|}.

Definition get_tier_requirements (s : kyc_settings) : gmap Z tier_config :=
  list_to_map ((fun t => (t, tier_entry s t)) <$> [0; 1; 2; 3; 4; 5]).

(** * WalletSystemConfig *)

Record wallet_system_config : Type := {
  wc_max_deposit_amount : option dec;
  wc_max_withdrawal_amount : option dec;
  wc_max_transfer_amount : option dec;
  wc_max_daily_amount : option dec;
  wc_max_monthly_amount : option dec;
  wc_require_kyc_for_deposits : bool;
  wc_require_kyc_for_withdrawals : bool;
  wc_require_kyc_for_transfers : bool;
}.

(** A new row, with the defaults of its columns. *)
Definition default_system_config : wallet_system_config := {|
  wc_max_deposit_amount := Some (dint 1000000);
  wc_max_withdrawal_amount := Some (dint 500000);
  wc_max_transfer_amount := Some (dint 1000000);
  wc_max_daily_amount := Some (dint 5000000);
  wc_max_monthly_amount := Some (dint 50000000);
  wc_require_kyc_for_deposits := false;
  wc_require_kyc_for_withdrawals := true;
  wc_require_kyc_for_transfers := false;
|}.

(** [get_config], on the row of the table if there is one. *)
Definition get_config (row : option wallet_system_config) : wallet_system_config :=
  default default_system_config row.

(** * Organisations (organisation_kyb_service) *)

Record step_status : Type := { sp_required : bool; sp_done : bool }.

(** Organisation: whether it is deleted, the status of each KYB step, and its
    setting "large_transaction_threshold". *)
Record organisation : Type := {
  og_id : Z;
  og_is_deleted : bool;
  og_steps : gmap string step_status;
  og_large_transaction_threshold : option dec;
}.

Module OrganisationKYBService.

(** The keys of the registry with the tier that needs them. *)
Definition STEP_REGISTRY : list (string * string) := [
  ("business_registration", "basic"); ("identity", "basic"); ("tax", "basic");
  ("license", "basic"); ("ubo", "full"); ("sanctions", "full"); ("source_of_funds", "full")
]%string.

Record kyb_status : Type := {
  kb_level : Z;
  kb_is_operational : bool;
  kb_is_full : bool;
  kb_pending : list string;
}.

(** A step the status computation did not report reads as required and open;
    [_step_statuses] reports all of them. *)
Definition step_of (o : organisation) (k : string) : step_status :=
  default {| sp_required := true; sp_done := false |} (og_steps o !! k).

Definition required_steps (o : organisation) (tier : string) : list string :=
  List.filter (fun k => sp_required (step_of o k))
    (List.map fst (List.filter (fun p => String.eqb (snd p) tier) STEP_REGISTRY)).

Definition compute_status (o : organisation) : kyb_status :=
  let basic_required := required_steps o "basic" in
  let full_required := basic_required ++ required_steps o "full" in
  let is_operational := forallb (fun k => sp_done (step_of o k)) basic_required in
  let is_full := forallb (fun k => sp_done (step_of o k)) full_required in {|
  kb_level := if is_full then 2 else if is_operational then 1 else 0;
  kb_is_operational := is_operational;
  kb_is_full := is_full;
  kb_pending := List.filter (fun k => negb (sp_done (step_of o k))) full_required;
|}.

Definition DEFAULT_LARGE_TRANSACTION_THRESHOLD : dec := dint 10000.

Definition large_value_threshold (o : organisation) : dec :=
  match og_large_transaction_threshold o with
  | Some v => if dleb v dzero then DEFAULT_LARGE_TRANSACTION_THRESHOLD else v
  | None => DEFAULT_LARGE_TRANSACTION_THRESHOLD
  end.

(** [orgs] is the table of organisations. *)
Definition is_personal_transfer (s : store) (orgs : list organisation)
    (recipient_user_id : option Z) : bool :=
  match recipient_user_id with
  | None => false
  | Some r =>
      if r =? 0 then false
      else if existsb (fun a => bool_decide (ac_user_id a = Some r)
                                && String.eqb (ai_owner_type (ac_info a)) "user") (st_accounts s)
      then true
      else if existsb (fun o => og_id o =? r) orgs then false
      else existsb (fun u => us_id u =? r) (st_users s)
  end.

Definition requires_full_kyb (s : store) (orgs : list organisation) (o : organisation)
    (amount : dec) (recipient_user_id : option Z) : bool :=
  dleb (large_value_threshold o) amount || is_personal_transfer s orgs recipient_user_id.

End OrganisationKYBService.

(** * What the wallet reads besides its own tables *)

(** The application's configuration: decimal entries by key, currencies, and
    commission rules (rate, agent share) by source. *)
Record app_config : Type := {
  cf_decimals : gmap string dec;
  cf_supported_currencies : list string;
  cf_commission_rules : gmap string dec;
  cf_pin_max_attempts : Z;
  cf_pin_lock_minutes : Z;
}.

(** [current_app.config.get(key, default)] *)
Definition config_get (c : app_config) (key : string) (d : dec) : dec :=
  default d (cf_decimals c !! key).

(** The user of the session; [None] for an anonymous request, whose [id] raises
    AttributeError. *)
Record session_user : Type := { su_user_id : Z; su_is_admin : bool }.

Record wallet_env : Type := {
  we_now : Z;
  we_user : option session_user;
  we_config : app_config;
  we_system_config : option wallet_system_config;
  we_kyc_settings : kyc_settings;
  we_organisations : list organisation;
  we_volume_rules : volume_rules;
  we_cashin_rate : option dec;            (* commission rates of the agent terms; *)
  we_cashout_rate : option dec;           (* None when they cannot be read *)
}.

(** The canonical KYC tier of a user: app/auth/kyc_compliance.py. *)
Class KycTiers : Type := calculate_kyc_tier : option Z -> Z.

(** * KYCLimitService *)

Module KYCLimitService.
Import OrganisationKYBService RegulatoryVolumeCalculator.

Record features : Type := {
  can_send : bool;
  can_receive : bool;
  can_withdraw : bool;
  can_deposit : bool;
}.

(** The matrix of features; an unknown level has those of level 0. *)
Definition TIER_FEATURES (level : Z) : features :=
  if (1 <=? level) && (level <=? 5)
  then {| can_send := true; can_receive := true; can_withdraw := true; can_deposit := true |}
  else {| can_send := false; can_receive := true; can_withdraw := false; can_deposit := true |}.

Record limits : Type := {
  lm_daily : dec;
  lm_monthly : dec;
  lm_per_txn : dec;
  lm_features : features;
}.

(** [Decimal(str(v or 0))] *)
Definition limit_value (v : option Z) : dec := dint (default 0 v).

Definition _get_live_limits (env : wallet_env) (kyc_level : Z) : limits :=
  let reqs := get_tier_requirements (we_kyc_settings env) in
  let tier := default (tier_entry (we_kyc_settings env) 0) (reqs !! kyc_level) in {|
  lm_daily := limit_value (tc_daily_limit tier);
  lm_monthly := limit_value (tc_monthly_limit tier);
  lm_per_txn := limit_value (tc_transaction_limit tier);
  lm_features := TIER_FEATURES kyc_level;
|}.

Definition get_limits (env : wallet_env) (kyc_level : Z) : limits := _get_live_limits env kyc_level.

Definition _operational_per_txn_ceiling (c : wallet_system_config) (action : string)
    : option dec :=
  if String.eqb action "deposit" then wc_max_deposit_amount c
  else if String.eqb action "withdraw" then wc_max_withdrawal_amount c
  else wc_max_transfer_amount c.

(** [min(regulatory, ceiling)]: comparing with None raises. *)
Definition effective_per_txn (env : wallet_env) (level : Z) (action : string) : outcome dec :=
  let* ceiling := of_option TypeError
    (_operational_per_txn_ceiling (get_config (we_system_config env)) action) in
  Ok (dmin (lm_per_txn (get_limits env level)) ceiling).

Definition action_map (action : string) : option (features -> bool) :=
  if String.eqb action "send" then Some can_send
  else if String.eqb action "receive" then Some can_receive
  else if String.eqb action "withdraw" then Some can_withdraw
  else if String.eqb action "deposit" then Some can_deposit
  else None.

Inductive refusal : Type :=
  | UnknownAction
  | NotPermittedAtLevel
  | KycRequired
  | OverPerTransactionLimit
  | BasicKybRequired (pending : list string)
  | FullKybRequired (pending : list string).

(** The answer: a refusal, or the allowed transaction with the entries
    "kyc_level" and "kyb_level" of the answer, when they are there. *)
Inductive answer : Type :=
  | Allowed (kyc_level kyb_level : option Z)
  | Refused (why : refusal).

Definition requires_kyc (c : wallet_system_config) (action : string) : bool :=
  String.eqb action "deposit" && wc_require_kyc_for_deposits c
  || String.eqb action "withdraw" && wc_require_kyc_for_withdrawals c
  || String.eqb action "send" && wc_require_kyc_for_transfers c.

Definition _check_org_transaction_allowed (env : wallet_env) (s : store) (o : organisation)
    (amount : dec) (action : string) (recipient_user_id : option Z) : outcome answer :=
  let status := compute_status o in
  if negb (kb_is_operational status) then Ok (Refused (BasicKybRequired (kb_pending status)))
  else if requires_full_kyb s (we_organisations env) o amount recipient_user_id
          && negb (kb_is_full status)
  then Ok (Refused (FullKybRequired (kb_pending status)))
  else
    let level := kb_level status in
    let* per_txn := effective_per_txn env level action in
    match action_map action with
    | None => Ok (Refused UnknownAction)
    | Some can =>
        if negb (can (lm_features (get_limits env level))) then Ok (Refused NotPermittedAtLevel)
        else if dltb per_txn amount then Ok (Refused OverPerTransactionLimit)
        else Ok (Allowed None (Some level))
    end.

(** [db.session.get(Organisation, user_id)], when it is not deleted. *)
Definition find_organisation (env : wallet_env) (user_id : option Z) : option organisation :=
  match user_id with
  | None => None
  | Some u =>
      match List.find (fun o => og_id o =? u) (we_organisations env) with
      | Some o => if og_is_deleted o then None else Some o
      | None => None
      end
  end.

Section service.
Context `{KycTiers} (env : wallet_env).

Definition get_user_kyc_level (user_id : option Z) : Z := calculate_kyc_tier user_id.

Definition check_transaction_allowed (s : store) (user_id : option Z) (amount : dec)
    (action : string) (recipient_user_id : option Z) : outcome answer :=
  match find_organisation env user_id with
  | Some o => _check_org_transaction_allowed env s o amount action recipient_user_id
  | None =>
      let level := get_user_kyc_level user_id in
      let* per_txn := effective_per_txn env level action in
      match action_map action with
      | None => Ok (Refused UnknownAction)
      | Some can =>
          if negb (can (lm_features (get_limits env level))) then Ok (Refused NotPermittedAtLevel)
          else if requires_kyc (get_config (we_system_config env)) action && (level =? 0)
          then Ok (Refused KycRequired)
          else if dltb per_txn amount then Ok (Refused OverPerTransactionLimit)
          else Ok (Allowed (Some level) None)
      end
  end.

(** [inr] is a refusal with its "limit_type". *)
Definition check_regulatory_cumulative_limits (s : store) (account_id currency : string)
    (amount : dec) (kyc_level : Z) : unit + string :=
  match AccountRepository.get_by_id s account_id with
  | None => inr "cumulative"%string
  | Some _ =>
      let l := get_limits env kyc_level in
      if negb (deqb (lm_daily l) dzero)
         && negb (check_daily_limit (we_volume_rules env) s account_id currency (we_now env)
                    amount (Some (lm_daily l))).1
      then inr "daily"%string
      else if negb (deqb (lm_monthly l) dzero)
              && negb (check_monthly_limit (we_volume_rules env) s account_id currency (we_now env)
                         amount (Some (lm_monthly l))).1
      then inr "monthly"%string
      else inl tt
  end.

(** The level that governs cumulative limits outside the transaction check. *)
Definition governing_level (user_id : option Z) : Z :=
  match find_organisation env user_id with
  | Some o => kb_level (compute_status o)
  | None => get_user_kyc_level user_id
  end.

Definition get_effective_cumulative_limit (user_id : option Z) (currency period : string)
    : option dec :=
  let reg := get_limits env (governing_level user_id) in
  let c := get_config (we_system_config env) in
  let capped (regulatory : dec) (op : option dec) :=
    if deqb regulatory dzero then None
    else Some (match op with Some o => dmin regulatory o | None => regulatory end) in
  if String.eqb period "daily" then
    let key := if String.eqb currency "USD" then "WALLET_DAILY_LIMIT_HOME"%string
               else "WALLET_DAILY_LIMIT_LOCAL"%string in
    let op := match wc_max_daily_amount c with
              | Some d => Some d
              | None => cf_decimals (we_config env) !! key
              end in
    capped (lm_daily reg) op
  else if String.eqb period "monthly" then capped (lm_monthly reg) (wc_max_monthly_amount c)
  else None.

Definition enforce_cumulative_volume (s : store) (user_id : option Z) (account_id : string)
    (amount : dec) (currency period : string) : outcome unit :=
  let l := get_limits env (governing_level user_id) in
  if String.eqb period "daily" then
    require deqb (lm_daily l) dzero
            || (check_daily_limit (we_volume_rules env) s account_id currency (we_now env) amount
                  (Some (lm_daily l))).1
      else (LimitExceededError "kyc_daily") ;;
    Ok tt
  else
    require deqb (lm_monthly l) dzero
            || (check_monthly_limit (we_volume_rules env) s account_id currency (we_now env) amount
                  (Some (lm_monthly l))).1
      else (LimitExceededError ("kyc_" +:+ period)) ;;
    Ok tt.

End service.

End KYCLimitService.

(** What the wallet service is promised by the KYC service. *)
Class KycService : Type := {
  kyc_check_transaction :
    wallet_env -> store -> option Z -> dec -> string -> option Z -> outcome KYCLimitService.answer;
  kyc_user_level : option Z -> Z;
  kyc_check_cumulative : wallet_env -> store -> string -> string -> dec -> Z -> unit + string;
}.

#[export] Instance kyc_limit_service `{KycTiers} : KycService := {
  kyc_check_transaction env s u amount action r :=
    KYCLimitService.check_transaction_allowed env s u amount action r;
  kyc_user_level := KYCLimitService.get_user_kyc_level;
  kyc_check_cumulative env s a c amount level :=
    KYCLimitService.check_regulatory_cumulative_limits env s a c amount level;
}.
