(* ===== verification/WalletService.v ===== *)
(** Deposits, withdrawals and transfers: app/wallet/services/wallet_service.py,
    with the commission of app/wallet/services/commission_service.py and the
    transaction PIN of app/identity/models/user.py.

    Each operation is one [begin] block: an exception rolls it back, so an [Err]
    leaves the tables as they were. Audit rows and notifications are written and
    not read, and are left out. The rate service, the fraud score and the password
    hash are interfaces; the KYC service is the interface of KycLimits.v. *)

From stdpp Require Import pretty.
From S2P Require Import Prelude Tables Decimal Ledger RegulatoryVolume KycLimits.

Local Open Scope Z_scope.

(** [FXService().get_rate_safe(base, quote).rate] read inside the block: the rate,
    or the exception. *)
Class FxRates : Type := get_rate_safe : wallet_env -> string -> string -> outcome dec.

(** The "action" of [FraudDetectionService.score_transaction]. *)
Class FraudScorer : Type :=
  fraud_action : wallet_env -> store -> option Z -> dec -> string -> option Z -> string.

(** werkzeug's [check_password_hash(hash, password)]. *)
Class PinHash : Type := check_password_hash : string -> string -> bool.

(** * Commission *)

Module CommissionService.

(** The rate of the rule; rates of the agent terms are percentages. *)
Definition _get_rule (env : wallet_env) (source_type : string) : dec :=
  let configured := default dzero (cf_commission_rules (we_config env) !! source_type) in
  let terms := if String.eqb source_type "deposit" then we_cashin_rate env
               else if String.eqb source_type "withdraw" then we_cashout_rate env
               else None in
  match terms with
  | None => configured
  | Some r => match ddiv r (dint 100) with Ok q => q | Err _ => configured end
  end.

Definition calculate_commission (env : wallet_env) (amount : dec) (source_type : string)
    (platform_fee : option dec) : result dec_error dec :=
  let base := match platform_fee with
              | Some f => f
              | None => dmul amount (_get_rule env source_type)
              end in
  quantize ROUND_HALF_EVEN (-6) base.

(** The truth value of a JSON value. *)
Definition json_truthy (j : json) : bool :=
  match j with
  | JNull => false
  | JBool b => b
  | JInt n => negb (n =? 0)
  | JStr s => negb (String.eqb s "")
  | JDec _ => true
  | JText s => negb (str_in s ["[]"; "{}"; "0.0"]%string)
  end.

(** [md.get('agent_id') or md.get('agent')] *)
Definition agent_of (md : option metadata) : json :=
  match md with
  | None => JNull
  | Some m => let a := json_get m "agent_id" in
              if json_truthy a then a else json_get m "agent"
  end.

(** The integer a BIGINT column makes of a value; text is parsed by the database. *)
Fixpoint digits (s : string) (acc : Z) : option Z :=
  match s with
  | EmptyString => Some acc
  | String c s =>
      let n := Z.of_nat (Ascii.nat_of_ascii c) in
      if (48 <=? n) && (n <=? 57) then digits s (10 * acc + (n - 48)) else None
  end.

Definition bigint_of (j : json) : option Z :=
  match j with
  | JInt n => Some n
  | JStr s => match strip s with
              | EmptyString => None
              | String c ds =>
                  if Ascii.eqb c (Ascii.ascii_of_nat 45)
                  then (if String.eqb ds "" then None else Z.opp <$> digits ds 0)
                  else digits (String c ds) 0
              end
  | _ => None
  end.

(** The amount due to the agent named by the metadata, if it is positive. Errors
    of the computation are logged and forgotten. *)
Definition commission_due (env : wallet_env) (agent : json) (amount : dec) (source_type : string)
    (platform_fee : option dec) : option dec :=
  if negb (json_truthy agent) then None
  else match calculate_commission env amount source_type platform_fee with
       | Ok c => if dltb dzero c then Some c else None
       | Err _ => None
       end.

(** The row is flushed at once; an exception is swallowed by the caller, but the
    session refuses the next statement. *)
Definition record_commission (agent : json) (amount : dec) (currency source_type : string)
    (source_id : Z) (recipient_id : option Z) (s : store) : outcome store :=
  map_err (fun _ => PendingRollbackError)
    (let* agent_id := of_option DataError (bigint_of agent) in
     let* n := numeric_18_6 amount in
     let* c := varchar 10 currency in
     require existsb (fun u => us_id u =? agent_id) (st_users s) else IntegrityError ;;
     Ok (with_commissions (st_commissions s ++ [{|
       cm_agent_id := agent_id;
       cm_amount := n;
       cm_currency := c;
       cm_source_type := source_type;
       cm_source_id := source_id;
       cm_recipient_id := recipient_id;
       cm_status := "pending" |}]) s)).

Definition pay_commission (env : wallet_env) (agent : json) (amount : dec) (source_type : string)
    (platform_fee : option dec) (currency : string) (source_id : Z) (recipient_id : option Z)
    (s : store) : outcome store :=
  match commission_due env agent amount source_type platform_fee with
  | None => Ok s
  | Some c => record_commission agent c currency source_type source_id recipient_id s
  end.

End CommissionService.

(** * Transaction PIN *)

Module TransactionPin.

Definition set_pin_state (failed : Z) (locked_until : option Z) (u : pin_user) : pin_user := {|
  us_id := us_id u;
  us_pin_hash := us_pin_hash u;
  us_pin_failed_attempts := failed;
  us_pin_locked_until := locked_until;
|}.

Definition locked (now : Z) (u : pin_user) : bool :=
  match us_pin_locked_until u with Some t => now <? t | None => false end.

Definition verify_transaction_pin `{PinHash} (env : wallet_env) (pin : string) (u : pin_user)
    : pin_user * bool :=
  let now := we_now env in
  match us_pin_hash u with
  | None => (u, false)
  | Some h =>
      if String.eqb h "" then (u, false)
      else if locked now u then (u, false)
      else if check_password_hash h pin then (set_pin_state 0 None u, true)
      else
        let failed := us_pin_failed_attempts u + 1 in
        (set_pin_state failed
           (if cf_pin_max_attempts (we_config env) <=? failed
            then Some (now + minutes (cf_pin_lock_minutes (we_config env)))
            else us_pin_locked_until u) u, false)
  end.

End TransactionPin.

(** * WalletService *)

Module WalletService.
Import CommissionService TransactionPin LedgerRepository(balance).

(** The keyword arguments of [deposit]. *)
Record deposit_request : Type := {
  dq_account_id : option string;
  dq_amount : option dec;
  dq_currency : option string;
  dq_client_request_id : option string;
  dq_metadata : option metadata;
  dq_tx_type : TransactionType.t;
  dq_system_initiated : bool;
  dq_user_id : option Z;
  dq_reference : option string;
  dq_idempotency_key : option string;
}.

(** Those of [withdraw]; [wq_destination_agent] is the entry "agent_id" of
    destination_details. *)
Record withdraw_request : Type := {
  wq_account_id : string;
  wq_amount : dec;
  wq_currency : string;
  wq_client_request_id : option string;
  wq_metadata : option metadata;
  wq_destination_agent : json;
  wq_tx_type : TransactionType.t;
  wq_agent_on_behalf : bool;
  wq_system_initiated : bool;
}.

(** Those of [transfer]. *)
Record transfer_request : Type := {
  tq_from_account_id : string;
  tq_to_account_id : string;
  tq_amount : dec;
  tq_currency : string;
  tq_client_request_id : option string;
  tq_metadata : option metadata;
  tq_platform_fee : option dec;
  tq_fee_currency : option string;
  tq_pin : option string;
  tq_system_initiated : bool;
}.

(** The dictionary an operation returns. *)
Record response : Type := {
  rs_transaction_id : Z;
  rs_already_processed : bool;
  rs_amount : dec;
  rs_currency : string;
  rs_balances : list Z;
}.

Definition _quantize (d : dec) : outcome dec := arith (quantize ROUND_DOWN (-2) d).

(** [a or b] where both may be None; the last value stands when all are false. *)
Definition or_str (a b : option string) : option string := if truthy a then a else b.

Section service.
Context `{KycService} `{FraudScorer} `{FxRates} `{PinHash} (env : wallet_env).

Definition now : Z := we_now env.

Definition _is_admin : bool :=
  match we_user env with Some u => su_is_admin u | None => false end.

Definition _validate_currency (currency : string) : outcome unit :=
  require str_in (upper currency) (cf_supported_currencies (we_config env))
    else (UnsupportedCurrencyError currency) ;;
  Ok tt.

Definition _check_transaction_limit (amount : dec) (operation : string) : outcome unit :=
  require negb (dltb (config_get (we_config env) ("WALLET_MAX_" +:+ upper operation) (dint 10000))
                  amount)
    else (LimitExceededError "per_transaction") ;;
  Ok tt.

Definition daily_limit (currency : string) : dec :=
  match wc_max_daily_amount (get_config (we_system_config env)) with
  | Some d => d
  | None =>
      config_get (we_config env)
        ("WALLET_DAILY_LIMIT_" +:+ (if String.eqb currency "USD" then "HOME" else "LOCAL")%string)
        (dint 10000)
  end.

Definition _check_daily_limit (s : store) (account_id : string) (amount : dec) (currency : string)
    : outcome unit :=
  let volume := LedgerRepository.get_daily_volume s account_id currency now None in
  require negb (dltb (daily_limit currency) (dadd (micro volume) amount))
    else (LimitExceededError "daily") ;;
  Ok tt.

(** [None] is an early return: no limit applies. *)
Definition monthly_limit (s : store) (account_id : string) : option dec :=
  match wc_max_monthly_amount (get_config (we_system_config env)) with
  | Some d => Some d
  | None =>
      match AccountRepository.get_by_id s account_id with
      | None => None
      | Some a =>
          match ai_monthly_volume_limit (ac_info a) with
          | Some l => if deqb l dzero then None else Some l
          | None => None
          end
      end
  end.

Definition _check_monthly_limit (s : store) (account_id : string) (amount : dec)
    (currency : string) : outcome unit :=
  match monthly_limit s account_id with
  | None => Ok tt
  | Some limit =>
      let volume := LedgerRepository.get_monthly_volume s account_id currency now None in
      require negb (dltb limit (dadd (micro volume) amount))
        else (LimitExceededError "monthly") ;;
      Ok tt
  end.

Definition _check_kyc_limits (s : store) (user_id : option Z) (amount : dec) (action : string)
    (currency : string) (recipient_user_id : option Z) (account_id : option string)
    : outcome unit :=
  let* answer := kyc_check_transaction env s user_id amount action recipient_user_id in
  match answer with
  | KYCLimitService.Refused _ => Err (LimitExceededError "kyc")
  | KYCLimitService.Allowed kyc_level _ =>
      let level := match kyc_level with Some l => l | None => kyc_user_level user_id end in
      match account_id with
      | None => Ok tt
      | Some a =>
          match kyc_check_cumulative env s a currency amount level with
          | inl _ => Ok tt
          | inr limit_type => Err (LimitExceededError ("kyc_" +:+ limit_type))
          end
      end
  end.

Definition _check_fraud_risk (s : store) (user_id : option Z) (amount : dec) (currency : string)
    (recipient_id : option Z) : outcome unit :=
  require negb (String.eqb (fraud_action env s user_id amount currency recipient_id) "block")
    else (ComplianceBlockError "fraud_detection") ;;
  Ok tt.

(** The ownership test; reading the id of an anonymous user raises. *)
Definition check_owner (skip : bool) (a : account) : outcome unit :=
  if skip then Ok tt
  else match we_user env with
       | None => Err AttributeError
       | Some u =>
           require bool_decide (ac_user_id a = Some (su_user_id u)) || _is_admin
             else PermissionError ;;
           Ok tt
       end.

Definition locked_account (s : store) (account_id : string) : outcome account :=
  of_option (WalletNotFoundError account_id) (AccountRepository.get_by_id s account_id).

Definition not_frozen (a : account) : outcome unit :=
  require negb (ac_is_frozen a) else (WalletFrozenError (ac_id a) (ac_frozen_reason a)) ;;
  Ok tt.

(** The converted amount: [(amount * rate).quantize(Decimal('0.01'))]. *)
Definition fx_convert (amount rate : dec) : outcome dec :=
  arith (quantize ROUND_HALF_EVEN (-2) (dmul amount rate)).

(** The limits of a deposit or a withdrawal. *)
Definition single_checks (s : store) (a : account) (amount : dec) (currency action : string)
    : outcome unit :=
  let* _ := _check_kyc_limits s (ac_user_id a) amount action currency None (Some (ac_id a)) in
  _check_fraud_risk s (ac_user_id a) amount currency None.

Definition volume_checks (s : store) (a : account) (amount : dec) (currency : string)
    : outcome unit :=
  let* _ := _check_daily_limit s (ac_id a) amount currency in
  _check_monthly_limit s (ac_id a) amount currency.

Definition completed (t : transaction) : bool :=
  bool_decide (tx_status t = TransactionStatus.COMPLETED).

Definition one_entry (t : transaction) (a : account) (ty : EntryType.t) (amount : dec)
    (currency : string) : list new_entry :=
  [{| ne_transaction_id := tx_id t; ne_account_id := ac_id a; ne_type := ty;
      ne_amount := amount; ne_currency := currency |}].

(** Entry, volume counter, commission, status: what a deposit or a withdrawal
    writes once its transaction is claimed. *)
Definition book_single (t : transaction) (a : account) (ty : EntryType.t) (amount : dec)
    (currency source : string) (agent : json) (s : store) : outcome store :=
  let* s := LedgerRepository.post_entries now (one_entry t a ty amount currency) s in
  let* s := AccountRepository.update_volume (ac_id a) amount "daily" s in
  let* s := pay_commission env agent amount source None currency (tx_id t) (ac_user_id a) s.1 in
  Ok (TransactionRepository.update_status now (tx_id t) TransactionStatus.COMPLETED None s).1.

(** ** Deposit *)

(** The account named by the legacy arguments. *)
Definition deposit_account (q : deposit_request) (s : store) : outcome string :=
  match dq_account_id q, dq_user_id q with
  | None, Some u =>
      let* a := AccountRepository.get_by_user_id s u (str_or (dq_currency q) "UGX") in
      let* a := of_option (WalletNotFoundError (pretty u)) a in
      Ok (ac_id a)
  | Some a, _ => require negb (String.eqb a "") else (ValueError "account_id (or user_id) is required") ;;
                 Ok a
  | None, None => Err (ValueError "account_id (or user_id) is required")
  end.

(** The amount credited, its currency and the metadata: converted to the home
    currency of the account when it differs. *)
Definition deposit_terms (a : account) (amount : dec) (currency : string) (md : option metadata)
    : outcome (dec * string * option metadata) :=
  if String.eqb (ac_currency a) currency then Ok (amount, currency, md)
  else
    let* rate := get_rate_safe env currency (ac_currency a) in
    let* converted := fx_convert amount rate in
    Ok (converted, ac_currency a,
        Some (<["cross_border_fx" := JBool true]>
             (<["original_deposit_amount" := JDec amount]>
             (<["original_deposit_currency" := JStr currency]>
             (<["fx_rate_applied" := JDec rate]> (default ∅ md)))))).

Definition deposit_block (q : deposit_request) (account_id : string) (amount : dec)
    (currency : string) (s : store) : outcome (store * response) :=
  let* a := locked_account s account_id in
  let* _ := check_owner (dq_system_initiated q) a in
  let* _ := not_frozen a in
  let* terms := deposit_terms a amount currency (dq_metadata q) in
  let '(amount, currency, md) := terms in
  let* _ := single_checks s a amount currency "deposit" in
  let* _ := volume_checks s a amount currency in
  let* claim := TransactionRepository.get_or_create now
    (or_str (dq_client_request_id q) (or_str (dq_idempotency_key q) (dq_reference q)))
    (dq_tx_type q) amount currency (ac_user_id a) None md s in
  let '(s, t) := claim in
  if completed t then
    Ok (s, {| rs_transaction_id := tx_id t; rs_already_processed := true; rs_amount := amount;
              rs_currency := currency; rs_balances := [balance s (ac_id a) currency] |})
  else
    let* s := book_single t a EntryType.CREDIT amount currency "deposit" (agent_of md) s in
    Ok (s, {| rs_transaction_id := tx_id t; rs_already_processed := false; rs_amount := amount;
              rs_currency := currency; rs_balances := [balance s (ac_id a) currency] |}).

Definition deposit (q : deposit_request) (s : store) : outcome (store * response) :=
  let* account_id := deposit_account q s in
  match dq_amount q, dq_currency q with
  | Some amount, Some currency =>
      let* amount := _quantize amount in
      require negb (dleb amount dzero) else (ValueError "Amount must be greater than zero") ;;
      let* _ := _validate_currency currency in
      let* _ := _check_transaction_limit amount "deposit" in
      deposit_block q account_id amount currency s
  | _, _ => Err (ValueError "amount and currency are required")
  end.

(** ** Withdrawal *)

Definition withdraw_block (q : withdraw_request) (amount : dec) (s : store)
    : outcome (store * response) :=
  let currency := wq_currency q in
  let* a := locked_account s (wq_account_id q) in
  let* _ := check_owner (wq_system_initiated q || wq_agent_on_behalf q) a in
  let* _ := not_frozen a in
  let* _ := single_checks s a amount currency "withdraw" in
  let available := micro (balance s (ac_id a) currency) in
  require negb (dltb available amount) else (InsufficientBalanceError currency amount available) ;;
  let* _ := volume_checks s a amount currency in
  let* claim := TransactionRepository.get_or_create now (wq_client_request_id q) (wq_tx_type q)
    amount currency (ac_user_id a) None (wq_metadata q) s in
  let '(s, t) := claim in
  if completed t then
    Ok (s, {| rs_transaction_id := tx_id t; rs_already_processed := true; rs_amount := amount;
              rs_currency := currency; rs_balances := [balance s (ac_id a) currency] |})
  else
    let agent := if json_truthy (wq_destination_agent q) then wq_destination_agent q
                 else agent_of (wq_metadata q) in
    let* s := book_single t a EntryType.DEBIT amount currency "withdraw" agent s in
    Ok (s, {| rs_transaction_id := tx_id t; rs_already_processed := false; rs_amount := amount;
              rs_currency := currency; rs_balances := [balance s (ac_id a) currency] |}).

Definition withdraw (q : withdraw_request) (s : store) : outcome (store * response) :=
  let* amount := _quantize (wq_amount q) in
  require negb (dleb amount dzero) else (ValueError "Amount must be greater than zero") ;;
  let* _ := _validate_currency (wq_currency q) in
  let* _ := _check_transaction_limit amount "withdraw" in
  withdraw_block q amount s.

(** ** Transfer *)

Definition MARKETPLACE_KEYS : list string :=
  ["marketplace_invoice_id"; "service_code"; "service_reference"; "settlement_timing";
   "escrow_account_id"; "escrow_service_type"]%string.

(** The keys present on either side must agree. *)
Definition same_marketplace (expected candidate : metadata) : bool :=
  forallb (fun k =>
    negb (is_some (expected !! k) || is_some (candidate !! k))
    || json_eqb (json_get expected k) (json_get candidate k)) MARKETPLACE_KEYS.

Definition _transfer_terms_match (q : transfer_request) (amount : dec) (from to : account)
    (t : transaction) : outcome bool :=
  let* candidate_amount := _quantize (micro (tx_amount t)) in
  let* expected_amount := _quantize amount in
  Ok (bool_decide (tx_type t = TransactionType.TRANSFER)
      && deqb candidate_amount expected_amount
      && String.eqb (upper (tx_currency t)) (upper (tq_currency q))
      && bool_decide (tx_user_id t = ac_user_id from)
      && bool_decide (tx_recipient_user_id t = ac_user_id to)
      && same_marketplace (default ∅ (tq_metadata q)) (tx_metadata t)).

(** PIN verification: the owner of the sending account, unless the system sends. *)
Definition verify_sender (q : transfer_request) (s : store) : outcome store :=
  if tq_system_initiated q then Ok s
  else
    let* a := locked_account s (tq_from_account_id q) in
    let* u := of_option (TransactionPINError "could not verify") (we_user env) in
    require bool_decide (ac_user_id a = Some (su_user_id u)) || _is_admin else PermissionError ;;
    let* sender := of_option (TransactionPINError "no PIN authority")
      (List.find (fun u => bool_decide (ac_user_id a = Some (us_id u))) (st_users s)) in
    require truthy (us_pin_hash sender) else (TransactionPINError "no PIN set") ;;
    require truthy (tq_pin q) else (TransactionPINError "PIN required") ;;
    let '(sender', ok) := verify_transaction_pin env (default "" (tq_pin q)) sender in
    require ok else (TransactionPINError "invalid or locked PIN") ;;
    Ok (with_users (update_where (fun u => us_id u =? us_id sender) (fun _ => sender')
                      (st_users s)) s).

(** What is debited and credited, in which currencies. *)
Record terms : Type := {
  tm_debit_amount : dec;
  tm_debit_currency : string;
  tm_credit_amount : dec;
  tm_credit_currency : string;
}.

Definition transfer_terms (from to : account) (amount : dec) (currency : string) : outcome terms :=
  if negb (String.eqb (ac_currency from) (ac_currency to)) then
    if String.eqb currency (ac_currency from) then
      let* rate := get_rate_safe env (ac_currency from) (ac_currency to) in
      let* credit := fx_convert amount rate in
      Ok {| tm_debit_amount := amount; tm_debit_currency := ac_currency from;
            tm_credit_amount := credit; tm_credit_currency := ac_currency to |}
    else
      let* rate := get_rate_safe env currency (ac_currency from) in
      let* debit := fx_convert amount rate in
      Ok {| tm_debit_amount := debit; tm_debit_currency := ac_currency from;
            tm_credit_amount := amount; tm_credit_currency := ac_currency to |}
  else if negb (String.eqb (ac_currency from) currency) then
    Ok {| tm_debit_amount := amount; tm_debit_currency := ac_currency from;
          tm_credit_amount := amount; tm_credit_currency := ac_currency to |}
  else
    Ok {| tm_debit_amount := amount; tm_debit_currency := currency;
          tm_credit_amount := amount; tm_credit_currency := currency |}.

(** [fee_currency or currency] *)
Definition fee_currency (q : transfer_request) : string :=
  str_or (tq_fee_currency q) (tq_currency q).

(** [platform_fee and platform_fee > 0] *)
Definition fee_due (q : transfer_request) : option dec :=
  match tq_platform_fee q with
  | Some f => if dltb dzero f then Some f else None
  | None => None
  end.

Definition transfer_entries (q : transfer_request) (t : transaction) (from to : account)
    (tm : terms) : list new_entry :=
  [{| ne_transaction_id := tx_id t; ne_account_id := ac_id from; ne_type := EntryType.DEBIT;
      ne_amount := tm_debit_amount tm; ne_currency := tm_debit_currency tm |};
   {| ne_transaction_id := tx_id t; ne_account_id := ac_id to; ne_type := EntryType.CREDIT;
      ne_amount := tm_credit_amount tm; ne_currency := tm_credit_currency tm |}]
  ++ match fee_due q with
     | Some f => [{| ne_transaction_id := tx_id t; ne_account_id := ac_id from;
                     ne_type := EntryType.DEBIT; ne_amount := f; ne_currency := fee_currency q |}]
     | None => []
     end.

(** The answer to a replay of a completed transfer, from the stored row. *)
Definition replay_response (s : store) (from to : account) (t : transaction) : response := {|
  rs_transaction_id := tx_id t;
  rs_already_processed := true;
  rs_amount := micro (tx_amount t);
  rs_currency := tx_currency t;
  rs_balances := [balance s (ac_id from) (upper (ac_currency from));
                  balance s (ac_id to) (upper (ac_currency to))];
|}.

(** Everything a transfer writes once its transaction is claimed. The entries are
    flushed by the commission, when one is due, and then a failure shows as a
    refused statement. *)
Definition book_transfer (q : transfer_request) (t : transaction) (from to : account)
    (amount : dec) (tm : terms) (s : store) : outcome store :=
  let agent := agent_of (tq_metadata q) in
  let due := commission_due env agent amount "transfer" (tq_platform_fee q) in
  let* s := map_err (fun e => if is_some due then PendingRollbackError else e)
              (LedgerRepository.post_entries now (transfer_entries q t from to tm) s) in
  let* s := pay_commission env agent amount "transfer" (tq_platform_fee q) (fee_currency q)
              (tx_id t) (ac_user_id to) s in
  let* s := AccountRepository.update_volume (ac_id from) amount "daily" s in
  Ok (TransactionRepository.update_status now (tx_id t) TransactionStatus.COMPLETED None s.1).1.

(** The checks of a fresh transfer, up to the claim of its key. *)
Definition transfer_checks (q : transfer_request) (amount : dec) (from to : account) (s : store)
    : outcome terms :=
  let currency := tq_currency q in
  let* _ := _check_transaction_limit amount "transfer" in
  let* _ := not_frozen from in
  let* _ := not_frozen to in
  let* _ := _check_kyc_limits s (ac_user_id from) amount "send" currency (ac_user_id to)
              (Some (ac_id from)) in
  let* _ := _check_fraud_risk s (ac_user_id from) amount currency (ac_user_id to) in
  let* tm := transfer_terms from to amount currency in
  let from_balance := micro (balance s (ac_id from) (tm_debit_currency tm)) in
  let total_debit := dadd (tm_debit_amount tm) (dec_or0 (tq_platform_fee q)) in
  require negb (dltb from_balance total_debit)
    else (InsufficientBalanceError (tm_debit_currency tm) total_debit from_balance) ;;
  let* _ := volume_checks s from (tm_debit_amount tm) (tm_debit_currency tm) in
  Ok tm.

Definition duplicate (q : transfer_request) (t : transaction) : wallet_error :=
  DuplicateTransactionError (default "" (tq_client_request_id q)) (tx_id t).

(** An existing transaction with the key: replay it or refuse. *)
Definition transfer_replay (q : transfer_request) (amount : dec) (from to : account)
    (t : transaction) (s : store) : outcome (store * response) :=
  let* same := _transfer_terms_match q amount from to t in
  require same else (duplicate q t) ;;
  require completed t else (duplicate q t) ;;
  Ok (s, replay_response s from to t).

Definition transfer_fresh (q : transfer_request) (amount : dec) (from to : account) (s : store)
    : outcome (store * response) :=
  let currency := tq_currency q in
  let* tm := transfer_checks q amount from to s in
  let* claim := TransactionRepository.get_or_create now (tq_client_request_id q)
    TransactionType.TRANSFER amount currency (ac_user_id from) (ac_user_id to) (tq_metadata q) s in
  let '(s, t) := claim in
  if completed t then
    let* same := _transfer_terms_match q amount from to t in
    require same else (duplicate q t) ;;
    Ok (s, {| rs_transaction_id := tx_id t; rs_already_processed := true; rs_amount := amount;
              rs_currency := currency;
              rs_balances := [balance s (ac_id from) (tm_debit_currency tm);
                              balance s (ac_id to) (tm_credit_currency tm)] |})
  else
    let* s := book_transfer q t from to amount tm s in
    Ok (s, {| rs_transaction_id := tx_id t; rs_already_processed := false; rs_amount := amount;
              rs_currency := currency;
              rs_balances := [balance s (ac_id from) currency; balance s (ac_id to) currency] |}).

Definition transfer_block (q : transfer_request) (amount : dec) (s : store)
    : outcome (store * response) :=
  let* s := verify_sender q s in
  let first := String.leb (tq_from_account_id q) (tq_to_account_id q) in
  let* _ := locked_account s (if first then tq_from_account_id q else tq_to_account_id q) in
  let* _ := locked_account s (if first then tq_to_account_id q else tq_from_account_id q) in
  let* from := locked_account s (tq_from_account_id q) in
  let* to := locked_account s (tq_to_account_id q) in
  let* _ := check_owner (tq_system_initiated q) from in
  match TransactionRepository.get_by_client_request_id s (tq_client_request_id q) with
  | Some t => transfer_replay q amount from to t s
  | None => transfer_fresh q amount from to s
  end.

Definition transfer (q : transfer_request) (s : store) : outcome (store * response) :=
  let* amount := _quantize (tq_amount q) in
  require negb (String.eqb (tq_from_account_id q) (tq_to_account_id q))
    else (ValueError "Cannot transfer to yourself") ;;
  require negb (dleb amount dzero) else (ValueError "Amount must be greater than zero") ;;
  let* _ := _validate_currency (tq_currency q) in
  transfer_block q amount s.

(** ** Administration *)

Definition adjustment_metadata (reason : string) (started : string) : metadata :=
  <["admin_id" := match we_user env with Some u => JInt (su_user_id u) | None => JNull end]>
  (<["adjustment_reason" := JStr reason]>
  (<["type" := JStr "admin_adjustment"]> (<["initiated_at" := JStr started]> ∅))).

(** [stamp] is the text of the clock in the key, [started] its isoformat. *)
Definition admin_deposit (account_id : string) (amount : dec) (currency reason stamp started : string)
    (s : store) : outcome (store * response) :=
  require _is_admin else PermissionError ;;
  require negb (String.eqb (strip reason) "") else (ValueError "A mandatory reason must be provided") ;;
  deposit {|
    dq_account_id := Some account_id;
    dq_amount := Some amount;
    dq_currency := Some currency;
    dq_client_request_id := Some ("admin_dep_" +:+ stamp +:+ "_" +:+ account_id)%string;
    dq_metadata := Some (adjustment_metadata reason started);
    dq_tx_type := TransactionType.ADJUSTMENT;
    dq_system_initiated := false;
    dq_user_id := None;
    dq_reference := None;
    dq_idempotency_key := None |} s.

Definition admin_withdraw (account_id : string) (amount : dec) (currency reason stamp started : string)
    (s : store) : outcome (store * response) :=
  require _is_admin else PermissionError ;;
  require negb (String.eqb (strip reason) "") else (ValueError "A mandatory reason must be provided") ;;
  withdraw {|
    wq_account_id := account_id;
    wq_amount := amount;
    wq_currency := currency;
    wq_client_request_id := Some ("admin_wd_" +:+ stamp +:+ "_" +:+ account_id)%string;
    wq_metadata := Some (adjustment_metadata reason started);
    wq_destination_agent := JNull;
    wq_tx_type := TransactionType.ADJUSTMENT;
    wq_agent_on_behalf := false;
    wq_system_initiated := false |} s.

End service.

End WalletService.

(** * The other writers of a transaction's status *)

(** WalletService.approve_transaction and reject_transaction, and the payout
    callbacks of app/tasks/webhook_processor.py. *)
Module TransactionReview.
Import TransactionRepository.

Definition write_status (id : Z) (f : transaction -> transaction) (s : store) : store :=
  with_transactions (update_where (fun t => tx_id t =? id) f (st_transactions s)) (st_next_tx s) s.

(** The status and the failure reason alone. *)
Definition assign_status (status : TransactionStatus.t) (reason : option string)
    (t : transaction) : transaction := {|
  tx_id := tx_id t;
  tx_client_request_id := tx_client_request_id t;
  tx_type := tx_type t;
  tx_status := status;
  tx_amount := tx_amount t;
  tx_currency := tx_currency t;
  tx_user_id := tx_user_id t;
  tx_recipient_user_id := tx_recipient_user_id t;
  tx_metadata := tx_metadata t;
  tx_created_at := tx_created_at t;
  tx_completed_at := tx_completed_at t;
  tx_failed_at := tx_failed_at t;
  tx_failure_reason := reason;
|}.

Definition review (status : TransactionStatus.t) (reason : option string) (id : Z) (s : store)
    : store * bool :=
  match get_by_id s id with
  | Some t =>
      if bool_decide (tx_status t = TransactionStatus.PENDING)
      then (write_status id (assign_status status
              (match reason with Some r => Some r | None => tx_failure_reason t end)) s, true)
      else (s, false)
  | None => (s, false)
  end.

Definition approve_transaction (id : Z) (s : store) : store * bool :=
  review TransactionStatus.COMPLETED None id s.

Definition reject_transaction (id : Z) (reason : string) (s : store) : store * bool :=
  review TransactionStatus.FAILED (Some reason) id s.

Definition mark_payout (status : TransactionStatus.t) (reference : string) (s : store) : store :=
  if String.eqb reference "" then s
  else match get_by_client_request_id s (Some reference) with
       | Some t =>
           if bool_decide (tx_type t = TransactionType.WITHDRAW)
           then write_status (tx_id t) (assign_status status (tx_failure_reason t)) s
           else s
       | None => s
       end.

Definition _mark_payout_complete (reference : string) (s : store) : store :=
  mark_payout TransactionStatus.COMPLETED reference s.

Definition _mark_payout_failed (reference : string) (s : store) : store :=
  mark_payout TransactionStatus.FAILED reference s.

End TransactionReview.
