(* ===== verification/LedgerLaws.v ===== *)
(** Laws of the wallet's repositories: balances as sums of signed entries, the
    rows an operation appends, and the columns it leaves alone. *)

From Stdlib Require Import QArith Lqa Qpower.
From S2P Require Import Prelude Tables Decimal DecimalLaws Ledger.

Local Open Scope Z_scope.

Import LedgerRepository.

(** * Balances *)

(** What an entry adds to the balance of an account in a currency. *)
Definition signed (account_id currency : string) (e : entry) : Z :=
  if of_account account_id currency e then credit_of e - debit_of e else 0.

Lemma balance_signed s a c : balance s a c = sum_Z (signed a c <$> st_entries s).
Proof.
  unfold balance, get_balance. induction (st_entries s) as [|e l IH]; [done|].
  rewrite sum_cons. unfold signed at 1. simpl List.filter. rewrite andb_true_r.
  destruct (of_account a c e); [|rewrite <- IH; lia].
  rewrite !sum_cons. lia.
Qed.

(** Two stores with the same entries have the same balances. *)
Lemma balance_entries s s' a c : st_entries s' = st_entries s -> balance s' a c = balance s a c.
Proof. intros E. by rewrite !balance_signed, E. Qed.

Lemma balance_append s s' rows a c : st_entries s' = st_entries s ++ rows ->
  balance s' a c = balance s a c + sum_Z (signed a c <$> rows).
Proof. intros E. by rewrite !balance_signed, E, fmap_app, sum_app. Qed.

(** ** All the balances of an account *)

Definition has_entry (s : store) (a c : string) : bool := existsb (of_account a c) (st_entries s).

Lemma signed_none a c l : existsb (of_account a c) l = false -> sum_Z (signed a c <$> l) = 0.
Proof.
  induction l as [|e l IH]; [done|]. simpl existsb. intros [E1 E2]%orb_false_iff.
  rewrite sum_cons, IH by done. unfold signed. by rewrite E1.
Qed.

Lemma group_entry_lookup a c e m :
  group_entry a e m !! c
  = if of_account a c e then Some (credit_of e - debit_of e + default 0 (m !! c)) else m !! c.
Proof.
  unfold group_entry, of_account, credit_of, debit_of.
  destruct (String.eqb_spec (le_account_id e) a) as [Ea|Ea]; [|done]. rewrite andb_true_l.
  destruct (String.eqb_spec (le_currency e) c) as [<-|Ec].
  - rewrite lookup_insert_eq. f_equal. destruct (is_debit e); lia.
  - by rewrite lookup_insert_ne.
Qed.

(** [get_balances], one grouped query, agrees with [get_balance] asked for
    each currency: it lists exactly the currencies in which the account has an
    entry, each with its balance. *)
Theorem get_balances_agrees s a c :
  get_balances s a !! c = if has_entry s a c then Some (balance s a c) else None.
Proof.
  rewrite balance_signed. unfold get_balances, has_entry.
  induction (st_entries s) as [|e l IH]; [done|].
  change (foldr (group_entry a) ∅ (e :: l)) with (group_entry a e (foldr (group_entry a) ∅ l)).
  change (existsb (of_account a c) (e :: l)) with (of_account a c e || existsb (of_account a c) l).
  rewrite group_entry_lookup, sum_cons, IH. replace (signed a c e)
    with (if of_account a c e then credit_of e - debit_of e else 0) by done.
  destruct (of_account a c e); simpl orb; cbv iota; [|by rewrite Z.add_0_l].
  f_equal. destruct (existsb _ l) eqn:El; simpl; [done|]. by rewrite (signed_none _ _ _ El).
Qed.

(** * Amounts *)

Lemma to_micro_cents d : dexp d = -2 -> to_micro d = coef d * 10000.
Proof. intros E. unfold to_micro, at_exp. rewrite E. done. Qed.

Lemma dle_micro_cents n d : dexp d = -2 -> dle d (micro n) <-> to_micro d <= n.
Proof.
  intros E. rewrite (dle_at d (micro n) (-6)) by (rewrite ?E; simpl; lia).
  rewrite to_micro_cents by done. unfold at_exp, pow10. rewrite E. simpl. lia.
Qed.

(** Rounding half up moves a value by half a unit at most. *)
Lemma to_micro_half d : 0 <= coef d -> dle (Dec (10 * to_micro d - 5) (-7)) d.
Proof.
  intros Hc. unfold to_micro. destruct (Z.leb_spec (-6) (dexp d)) as [He|He].
  - rewrite (dle_at _ d (-7)) by (cbn [dexp]; lia). unfold at_exp. cbn [coef dexp].
    change (pow10 (-7 - -7)) with 1. replace (dexp d - -7) with (1 + (dexp d - -6)) by lia. rewrite pow10_add by lia.
    change (pow10 1) with 10. lia.
  - rewrite (dle_at _ d (dexp d)) by (cbn [dexp]; lia). unfold at_exp. cbn [coef dexp].
    rewrite Z.sub_diag. change (pow10 0) with 1.
    set (b := pow10 (-7 - dexp d)). assert (Hb : 0 < b) by (apply pow10_pos; lia).
    replace (-6 - dexp d) with (1 + (-7 - dexp d)) by lia. rewrite pow10_add by lia. fold b.
    change (pow10 1) with 10. rewrite rdivs_nonneg_eq by lia. unfold rdiv.
    pose proof (Z.div_mod (coef d) (10 * b) ltac:(lia)).
    pose proof (Z.mod_pos_bound (coef d) (10 * b) ltac:(lia)).
    destruct (Z.leb_spec (10 * b) (2 * (coef d mod (10 * b)))); nia.
Qed.

Lemma to_micro_nonneg d : 0 <= coef d -> 0 <= to_micro d.
Proof.
  intros Hc. unfold to_micro, at_exp. destruct (Z.leb_spec (-6) (dexp d)).
  - pose proof (pow10_pos (dexp d - -6) ltac:(lia)). nia.
  - pose proof (pow10_pos (-6 - dexp d) ltac:(lia)).
    rewrite rdivs_nonneg_eq by lia. by apply rdiv_nonneg.
Qed.

(** A sum that a balance covers is covered once its parts are rounded. *)
Lemma covers_debit b d f : dexp d = -2 -> 0 <= coef f ->
  to_micro d < MICRO_MAX -> 0 <= to_micro d -> to_micro f < MICRO_MAX ->
  dltb (micro b) (dadd d f) = false -> to_micro d + to_micro f <= b.
Proof.
  intros Ed Hf Hd Hd0 Hfm H%dltb_false. pose proof (to_micro_nonneg f Hf).
  destruct (Z_le_gt_dec (to_micro d + to_micro f) b) as [|Hgt]; [done|]. exfalso.
  set (y := Dec (10 * (to_micro d + to_micro f) - 5) (-7)).
  assert (Hy : dle y (dadd d f)).
  { apply dadd_ge; [unfold repr, y, pow10; cbn [coef]; unfold prec, MICRO_MAX in *; lia|].
    pose proof (to_micro_half f Hf) as Hh. unfold dle in Hh.
    eapply Qle_trans; [|apply Qplus_le_r, Hh]. unfold y, dval. cbn [coef dexp]. rewrite to_micro_cents, Ed by done.
    assert (E10 : (Qpower 10 (-2) == inject_Z 100000 * Qpower 10 (-7))%Q) by reflexivity.
    rewrite E10, Qmult_assoc, <- inject_Z_mult, <- Qmult_plus_distr_l, <- inject_Z_plus.
    apply units_le. lia. }
  assert (Hlt : dlt (micro b) y).
  { apply (dlt_at _ _ (-7)); [simpl; lia|done|]. unfold at_exp, y, micro, pow10. simpl. lia. }
  pose proof (dlt_le_trans _ _ _ Hlt Hy) as Hc. unfold dlt, dle in *. lra.
Qed.

Lemma numeric_18_6_Ok d n : numeric_18_6 d = Ok n <-> n = to_micro d /\ Z.abs n < MICRO_MAX.
Proof.
  unfold numeric_18_6. rewrite require_Ok, Z.ltb_lt. split; [by intros [? [= <-]]|].
  by intros [-> ?].
Qed.

Lemma positive_amount_Ok d n :
  positive_amount d = Ok n <-> n = to_micro d /\ 0 < n < MICRO_MAX.
Proof.
  unfold positive_amount. rewrite rbind_Ok. setoid_rewrite numeric_18_6_Ok.
  setoid_rewrite require_Ok. setoid_rewrite Z.ltb_lt. split.
  - intros (a & [-> Ha] & Hp & [= <-]). lia.
  - intros [-> ?]. exists (to_micro d). split; [split; [done|lia]|split; [lia|done]].
Qed.

Lemma varchar_Ok n s r : varchar n s = Ok r -> r = s.
Proof. unfold varchar. intros H. inv_ok H. by simplify_eq. Qed.

(** * Appending entries *)

(** A row written for an entry object, at or after position [from]. *)
Record written (now from : Z) (n : new_entry) (e : entry) : Prop := {
  wr_position : from <= le_id e;
  wr_transaction : le_transaction_id e = ne_transaction_id n;
  wr_account : le_account_id e = ne_account_id n;
  wr_type : le_type e = ne_type n;
  wr_currency : le_currency e = ne_currency n;
  wr_amount : le_amount e = to_micro (ne_amount n);
  wr_positive : 0 < le_amount e < MICRO_MAX;
  wr_created : le_created_at e = now;
}.

Lemma flush_entry_Ok id now n e : flush_entry id now n = Ok e ->
  le_id e = id /\ written now id n e.
Proof.
  unfold flush_entry. intros H. inv_ok H. apply positive_amount_Ok in Hok as [-> Hp].
  apply varchar_Ok in Hok0 as ->. simplify_eq. done.
Qed.

Lemma written_weaken now from from' n e : from' <= from -> written now from n e -> written now from' n e.
Proof. intros Hle [H ? ? ? ? ? ? ?]. split; try done. lia. Qed.

Lemma with_entries_self s : with_entries (st_entries s) s = s.
Proof. by destruct s. Qed.

Lemma post_entries_Ok now l s s' : post_entries now l s = Ok s' ->
  exists rows, s' = with_entries (st_entries s ++ rows) s
  /\ Forall2 (written now (Z.of_nat (length (st_entries s)))) l rows.
Proof.
  revert s. induction l as [|n l IH]; intros s H; simpl in H.
  { simplify_eq. exists []. rewrite app_nil_r, with_entries_self. by split. }
  inv_ok H. apply flush_entry_Ok in Hok as [Hid Hw].
  apply IH in H as (rows & -> & Hrows). simpl in Hrows. exists (a :: rows). simpl.
  rewrite <- app_assoc. split; [done|]. constructor; [done|].
  eapply Forall2_impl; [|exact Hrows]. intros x y. apply written_weaken. rewrite length_app. lia.
Qed.

(** The change of a balance by a row written for [n]. *)
Definition posted (account_id currency : string) (n : new_entry) : Z :=
  if String.eqb (ne_account_id n) account_id && String.eqb (ne_currency n) currency
  then match ne_type n with
       | EntryType.DEBIT => - to_micro (ne_amount n)
       | EntryType.CREDIT => to_micro (ne_amount n)
       end
  else 0.

Lemma written_signed now from n e a c : written now from n e -> signed a c e = posted a c n.
Proof.
  intros [_ _ Ha Ht Hc Hm _ _]. unfold signed, posted, of_account, credit_of, debit_of, is_debit.
  rewrite Ha, Hc, Ht, Hm. destruct (_ && _); [|done]. destruct (ne_type n); lia.
Qed.

Lemma post_entries_balance now l s s' a c : post_entries now l s = Ok s' ->
  balance s' a c = balance s a c + sum_Z (posted a c <$> l).
Proof.
  intros (rows & -> & Hw)%post_entries_Ok.
  rewrite (balance_append s _ rows) by done. f_equal.
  induction Hw as [|n e l rows Hne _ IH]; [done|]. rewrite !sum_cons.
  by rewrite IH, (written_signed _ _ _ _ a c Hne).
Qed.

(** * Accounts *)

Import AccountRepository.

Lemma get_account_Some s id a : AccountRepository.get_by_id s id = Some a ->
  a ∈ st_accounts s /\ ac_id a = id.
Proof. intros [Hin E%String.eqb_eq]%List.find_some. by rewrite list_elem_of_In. Qed.

(** A write that keeps the opening columns of the row. *)
Lemma find_update (f : account -> account) id l : (forall a, ac_info (f a) = ac_info a) ->
  List.find (fun a => String.eqb (ac_id a) id)
    (update_where (fun a => String.eqb (ac_id a) id) f l)
  = f <$> List.find (fun a => String.eqb (ac_id a) id) l.
Proof.
  intros Hf. induction l as [|a l IH]; [done|]. rewrite update_cons. simpl.
  destruct (String.eqb (ac_id a) id) eqn:E; simpl.
  - unfold ac_id in *. by rewrite Hf, E.
  - by rewrite E.
Qed.

Ltac finish Hw :=
  match goal with |- write_account ?f _ _ = _ -> _ =>
    let Hx := fresh in pose proof (Hw f ltac:(done)) as Hx; intros Hy; rewrite Hy in Hx
  end.

Lemma update_volume_Ok id amount ty s s' b : update_volume id amount ty s = Ok (s', b) ->
  exists l, s' = with_accounts l s /\ ac_info <$> l = ac_info <$> st_accounts s.
Proof.
  assert (Hself : exists l, s = with_accounts l s /\ ac_info <$> l = ac_info <$> st_accounts s).
  { exists (st_accounts s). by destruct s. }
  assert (Hw : forall f, (forall a, ac_info (f a) = ac_info a) ->
    exists l, (write_account f id s).1 = with_accounts l s
              /\ ac_info <$> l = ac_info <$> st_accounts s).
  { intros f Hf. unfold write_account. destruct (AccountRepository.get_by_id s id); [|done].
    simpl. eexists. split; [done|]. unfold update_where. rewrite <- list_fmap_compose.
    apply list_fmap_ext. intros _ x _. simpl. by destruct (String.eqb _ _). }
  unfold update_volume. destruct (AccountRepository.get_by_id s id) as [a|];
    [|by intros [= <- _]].
  destruct (String.eqb ty "daily").
  { intros H. inv_ok H. injection H as H. revert H. by finish Hw. }
  destruct (String.eqb ty "monthly"); [|by intros [= <- _]].
  intros H. inv_ok H. injection H as H. revert H. by finish Hw.
Qed.

(** * Transactions *)

Import TransactionRepository.

Lemma get_by_key_Some s k t : get_by_client_request_id s (Some k) = Some t ->
  t ∈ st_transactions s /\ tx_client_request_id t = k.
Proof. intros [Hin E%String.eqb_eq]%List.find_some. by rewrite list_elem_of_In. Qed.

Lemma get_by_key_None s k t : get_by_client_request_id s (Some k) = None ->
  t ∈ st_transactions s -> tx_client_request_id t <> k.
Proof.
  intros Hn Ht E. apply list_elem_of_In in Ht. apply (List.find_none _ _ Hn) in Ht. cbv beta in Ht.
  by rewrite E, String.eqb_refl in Ht.
Qed.

(** The row [get_or_create] inserts. *)
Record new_transaction (s : store) (now : Z) (k : string) (ty : TransactionType.t) (amount : dec)
    (currency : string) (u r : option Z) (md : option metadata) (t : transaction) : Prop := {
  nt_id : tx_id t = st_next_tx s;
  nt_key : tx_client_request_id t = k;
  nt_type : tx_type t = ty;
  nt_status : tx_status t = TransactionStatus.PENDING;
  nt_amount : tx_amount t = to_micro amount;
  nt_positive : 0 < tx_amount t < MICRO_MAX;
  nt_currency : tx_currency t = currency;
  nt_users : tx_user_id t = u /\ tx_recipient_user_id t = r;
  nt_metadata : tx_metadata t = default ∅ md;
}.

Lemma get_or_create_Ok now key ty amount currency u r md s s' t :
  get_or_create now key ty amount currency u r md s = Ok (s', t) ->
  exists k, key = Some k /\ 0 < to_micro amount < MICRO_MAX /\
    ((get_by_client_request_id s (Some k) = Some t /\ s' = s)
     \/ (get_by_client_request_id s (Some k) = None
         /\ new_transaction s now k ty amount currency u r md t
         /\ s' = with_transactions (st_transactions s ++ [t]) (st_next_tx s + 1) s)).
Proof.
  unfold get_or_create. intros H. inv_ok H. subst key. apply varchar_Ok in Hok0 as ->.
  apply varchar_Ok in Hok1 as ->. apply positive_amount_Ok in Hok2 as [-> Hp].
  exists a. split; [done|]. split; [done|].
  destruct (get_by_client_request_id s (Some a)) as [t0|] eqn:Hg; simplify_eq; [by left|right].
  split; [done|]. split; [|done]. by split.
Qed.

(** C39: round trip of the idempotency key: the row [get_or_create] answers is the
    row a lookup of its key finds afterwards, and claiming the key again, for
    whatever operation, amount, currency and users, answers the same row and
    inserts nothing. *)
Theorem get_or_create_roundtrip now key ty amount currency u r md s s' t
  (H : get_or_create now key ty amount currency u r md s = Ok (s', t)) :
  get_by_client_request_id s' key = Some t
  /\ forall now' ty' amount' currency' u' r' md' s2 t2,
       get_or_create now' key ty' amount' currency' u' r' md' s' = Ok (s2, t2) ->
       s2 = s' /\ t2 = t.
Proof.
  assert (Hg : get_by_client_request_id s' key = Some t).
  { apply get_or_create_Ok in H as (k & -> & _ & [[Hk ->]|(Hk & Ht & ->)]); [done|].
    simpl in *. rewrite find_app, Hk. simpl. by rewrite (nt_key _ _ _ _ _ _ _ _ _ _ Ht), String.eqb_refl. }
  split; [done|]. intros * (k & Ek & _ & [[Hk2 ->]|(Hk2 & _)])%get_or_create_Ok.
  - rewrite Ek in Hg. rewrite Hg in Hk2. by simplify_eq.
  - by rewrite Ek, Hk2 in Hg.
Qed.

Lemma update_where_none {A} (c : A -> bool) f (l : list A) :
  (forall x, x ∈ l -> c x = false) -> update_where c f l = l.
Proof.
  intros Hc. unfold update_where. rewrite <- (list_fmap_id l) at 2. apply list_fmap_ext.
  intros i x Hx. by rewrite (Hc x (list_elem_of_lookup_2 _ _ _ Hx)).
Qed.

(** The update of a status, whether or not the row exists. *)
Lemma update_status_eq now id status reason s :
  (update_status now id status reason s).1
  = with_transactions (update_where (fun t => tx_id t =? id) (set_status now status reason)
                         (st_transactions s)) (st_next_tx s) s.
Proof.
  unfold update_status. destruct (TransactionRepository.get_by_id s id) eqn:E; [done|].
  simpl. rewrite update_where_none; [by destruct s|]. intros x Hx.
  apply (List.find_none _ _ E). by apply list_elem_of_In.
Qed.

Lemma find_update_key (f : transaction -> transaction) c k l :
  (forall t, tx_client_request_id (f t) = tx_client_request_id t) ->
  List.find (fun t => String.eqb (tx_client_request_id t) k) (update_where c f l)
  = (fun t => if c t then f t else t) <$> List.find (fun t => String.eqb (tx_client_request_id t) k) l.
Proof.
  intros Hf. induction l as [|t l IH]; [done|]. rewrite update_cons. simpl.
  destruct (c t) eqn:Hc; [rewrite Hf|]; destruct (String.eqb _ k); simpl; by rewrite ?Hc.
Qed.
