(* ===== verification/Bank.v ===== *)
(** The abstract specification of the wallet: a bank that holds an amount for each
    account and currency, and moves it only by credits, covered debits and covered
    moves. *)

From S2P Require Import Prelude.

Local Open Scope Z_scope.

(** What each account holds in each currency. *)
Definition bank : Type := string -> string -> Z.

(** Two banks are the same when they hold the same amounts. *)
#[export] Instance bank_equiv : Equiv bank := fun b1 b2 => forall a c, b1 a c = b2 a c.

#[export] Instance bank_equivalence : Equivalence (≡@{bank}).
Proof.
  split.
  - by intros b a c.
  - intros b1 b2 E a c. by rewrite E.
  - intros b1 b2 b3 E1 E2 a c. by rewrite E1, E2.
Qed.

Inductive bank_op : Type :=
  | Credit (account currency : string) (n : Z)
  | Debit (account currency : string) (n : Z)
  | Move (from debit_currency : string) (debit : Z)
         (to credit_currency : string) (credit : Z) (fee : Z).

Definition post (account currency : string) (n : Z) (b : bank) : bank := fun a c =>
  b a c + if String.eqb account a && String.eqb currency c then n else 0.

Definition apply (op : bank_op) (b : bank) : bank :=
  match op with
  | Credit a c n => post a c n b
  | Debit a c n => post a c (- n) b
  | Move from dc dn to cc cn fee => post to cc cn (post from dc (- (dn + fee)) b)
  end.

(** What the bank agrees to: amounts are positive, and money that leaves an
    account is there. *)
Definition allowed (op : bank_op) (b : bank) : Prop :=
  match op with
  | Credit _ _ n => 0 < n
  | Debit a c n => 0 < n <= b a c
  | Move from dc dn to _ cn fee => from <> to /\ 0 < dn /\ 0 < cn /\ 0 <= fee /\ dn + fee <= b from dc
  end.

#[export] Instance post_proper a c n : Proper ((≡) ==> (≡)) (post a c n).
Proof. intros b1 b2 E x y. unfold post. by rewrite E. Qed.

#[export] Instance apply_proper op : Proper ((≡) ==> (≡)) (apply op).
Proof. intros b1 b2 E. destruct op; simpl; by rewrite E. Qed.

#[export] Instance allowed_proper op : Proper ((≡) ==> iff) (allowed op).
Proof. intros b1 b2 E. destruct op as [| |]; simpl; by rewrite ?(E _ _). Qed.

(** A run of allowed operations. *)
Inductive run : list bank_op -> bank -> bank -> Prop :=
  | run_nil b b' : b ≡ b' -> run [] b b'
  | run_cons op ops b b' : allowed op b -> run ops (apply op b) b' -> run (op :: ops) b b'.

#[export] Instance run_proper ops : Proper ((≡) ==> (≡) ==> iff) (run ops).
Proof.
  assert (Hrun : forall b1 b1', run ops b1 b1' -> forall b2 b2', b1 ≡ b2 -> b1' ≡ b2' -> run ops b2 b2').
  { intros b1 b1' Hr. induction Hr as [b b' E|op ops b b' Ha _ IH]; intros b2 b2' E1 E2.
    - constructor. by rewrite <- E1, <- E2.
    - constructor; [by rewrite <- E1|]. apply IH; [by rewrite E1|done]. }
  intros b1 b2 E1 b1' b2' E2. split; intros Hr; eapply Hrun; done.
Qed.

Lemma run_app ops1 ops2 b1 b2 b3 : run ops1 b1 b2 -> run ops2 b2 b3 -> run (ops1 ++ ops2) b1 b3.
Proof.
  intros Hr. induction Hr as [b b' E|op ops b b' Ha _ IH]; intros H2; simpl; [by rewrite E|].
  constructor; auto.
Qed.

(** No account of a bank is overdrawn. *)
Definition solvent (b : bank) : Prop := forall a c, 0 <= b a c.

Lemma apply_solvent op b : solvent b -> allowed op b -> solvent (apply op b).
Proof.
  intros Hs Ha x y. specialize (Hs x y). destruct op as [a c n|a c n|from dc dn to cc cn fee]; simpl in *;
    unfold post.
  - destruct (_ && _); lia.
  - destruct (String.eqb_spec a x) as [->|], (String.eqb_spec c y) as [->|]; simpl; lia.
  - destruct (String.eqb_spec from x) as [->|], (String.eqb_spec dc y) as [->|];
      cbn [andb]; destruct (_ && _); lia.
Qed.

Lemma run_solvent ops b b' : run ops b b' -> solvent b -> solvent b'.
Proof.
  induction 1 as [b b' E|op ops b b' Ha _ IH]; intros Hs.
  - intros a c. rewrite <- (E a c). apply Hs.
  - by apply IH, apply_solvent.
Qed.
