(* ===== verification/WalletLaws.v ===== *)
(** What the wallet guarantees: the ledger refines a bank of accounts, no balance
    is overdrawn while fees are covered, a transfer conserves money, a key books
    once, and a withdrawal stays within the regulatory limits. *)

From Stdlib Require Import QArith Lqa.
From S2P Require Import Prelude Tables Decimal DecimalLaws Ledger RegulatoryVolume KycLimits.
From S2P Require Import WalletService LedgerLaws.

Local Open Scope Z_scope.

Import LedgerRepository WalletService CommissionService TransactionPin.

(** * What one operation writes *)

(** Booking the entries [news] for the claimed transaction [t]. *)
Record booked (env : wallet_env) (s : store) (t : transaction) (news : list new_entry)
    (s' : store) : Prop := {
  bk_rows : exists rows, st_entries s' = st_entries s ++ rows
    /\ Forall2 (written (now env) (Z.of_nat (length (st_entries s)))) news rows;
  bk_accounts : ac_info <$> st_accounts s' = ac_info <$> st_accounts s;
  bk_transactions : st_transactions s'
    = update_where (fun x => tx_id x =? tx_id t)
        (TransactionRepository.set_status (now env) TransactionStatus.COMPLETED None)
        (st_transactions s);
  bk_users : st_users s' = st_users s;
  bk_next : st_next_tx s' = st_next_tx s;
}.

Lemma pay_commission_Ok env agent amount src fee c id u s s' :
  pay_commission env agent amount src fee c id u s = Ok s' ->
  exists l, s' = with_commissions l s.
Proof.
  unfold pay_commission, record_commission. destruct (commission_due _ _ _ _ _).
  - intros H%map_err_Ok. inv_ok H. simplify_eq. by eexists.
  - intros [= <-]. exists (st_commissions s). by destruct s.
Qed.

Section operations.
Context `{KycService} `{FraudScorer} `{FxRates} `{PinHash}.

Lemma book_single_booked env t a ty amount c src agent s s' :
  book_single env t a ty amount c src agent s = Ok s' ->
  booked env s t (one_entry t a ty amount c) s'.
Proof.
  unfold book_single. intros Hb. inv_ok Hb. injection Hb as <-.
  apply post_entries_Ok in Hok as (rows & -> & Hrows). destruct a1 as [s1 b1].
  apply update_volume_Ok in Hok0 as (l & -> & Hl). simpl in Hok1.
  apply pay_commission_Ok in Hok1 as (cs & ->). rewrite update_status_eq.
  split; simpl; try done. by exists rows.
Qed.

Lemma book_transfer_booked env q t from to amount tm s s' :
  book_transfer env q t from to amount tm s = Ok s' ->
  booked env s t (transfer_entries q t from to tm) s'.
Proof.
  unfold book_transfer. intros Hb. inv_ok Hb. injection Hb as <-.
  apply post_entries_Ok in Hok as (rows & -> & Hrows).
  apply pay_commission_Ok in Hok0 as (cs & ->). destruct a1 as [s1 b1].
  apply update_volume_Ok in Hok1 as (l & -> & Hl). rewrite update_status_eq.
  split; simpl; try done. by exists rows.
Qed.

Lemma booked_balance env s t news s' a c : booked env s t news s' ->
  balance s' a c = balance s a c + sum_Z (posted a c <$> news).
Proof.
  intros [(rows & E & Hw) _ _ _ _]. rewrite (balance_append _ _ rows) by done. f_equal. clear E.
  induction Hw as [|n e l rows Hne _ IH]; [done|]. rewrite !sum_cons.
  by rewrite IH, (written_signed _ _ _ _ a c Hne).
Qed.

(** A claim answers the row of its key, or inserts a pending one. *)
Definition claims (env : wallet_env) (key : option string) (s s1 : store) (t : transaction) : Prop :=
  exists ty amount currency u r md,
    TransactionRepository.get_or_create (now env) key ty amount currency u r md s = Ok (s1, t).

Lemma claims_frame env key s s1 t : claims env key s s1 t ->
  st_entries s1 = st_entries s /\ st_accounts s1 = st_accounts s /\ st_users s1 = st_users s
  /\ st_commissions s1 = st_commissions s.
Proof.
  intros (ty & am & c & u & r & md & (k & _ & _ & [[_ ->]|(_ & _ & ->)])%get_or_create_Ok); done.
Qed.

Lemma claims_completed env key s s1 t : claims env key s s1 t -> completed t = true -> s1 = s.
Proof.
  intros (ty & am & c & u & r & md & (k & _ & _ & [[_ ->]|(_ & Hn & _)])%get_or_create_Ok) Ht; [done|].
  unfold completed in Ht. by rewrite (nt_status _ _ _ _ _ _ _ _ _ _ Hn) in Ht.
Qed.

(** What a successful operation did with its claim: answer a completed
    transaction again, or book [news]. *)
Definition settles (env : wallet_env) (s1 : store) (t : transaction) (news : list new_entry)
    (s' : store) (r : response) : Prop :=
  rs_transaction_id r = tx_id t /\
  (completed t = true /\ s' = s1 /\ rs_already_processed r = true
   \/ completed t = false /\ booked env s1 t news s' /\ rs_already_processed r = false).

Definition key_of_deposit (q : deposit_request) : option string :=
  or_str (dq_client_request_id q) (or_str (dq_idempotency_key q) (dq_reference q)).

Lemma quantize_positive amount d : _quantize amount = Ok d -> dleb d dzero = false ->
  dexp d = -2 /\ 0 < coef d.
Proof.
  unfold _quantize, arith. rewrite map_err_Ok. intros Hq%quantize_exp Hd. split; [done|].
  apply dleb_false in Hd. by apply dlt_0.
Qed.

Lemma not_frozen_Ok a u : not_frozen a = Ok u -> ac_is_frozen a = false.
Proof. unfold not_frozen. intros Hf. guard Hf as Hb. by apply negb_true_iff in Hb. Qed.

Lemma fx_convert_exp amount rate d : fx_convert amount rate = Ok d -> dexp d = -2.
Proof. unfold fx_convert, arith. rewrite map_err_Ok. apply quantize_exp. Qed.

(** What a deposit credits in currency [c]: its amount in whole cents, converted at
    the rate of the session when it is in another currency. *)
Definition credited (env : wallet_env) (q : deposit_request) (c : string) (n : Z) : Prop :=
  exists asked currency d, dq_amount q = Some asked /\ dq_currency q = Some currency /\ _quantize asked = Ok d
    /\ if String.eqb c currency then n = to_micro d
       else exists rate converted, get_rate_safe env currency c = Ok rate
              /\ fx_convert d rate = Ok converted /\ n = to_micro converted.

Lemma deposit_cases env q s s' r : deposit env q s = Ok (s', r) ->
  exists id a amount currency s1 t,
    deposit_account q s = Ok id
    /\ AccountRepository.get_by_id s id = Some a /\ ac_is_frozen a = false
    /\ dexp amount = -2 /\ 0 < to_micro amount /\ currency = ac_currency a
    /\ credited env q currency (to_micro amount)
    /\ claims env (key_of_deposit q) s s1 t
    /\ settles env s1 t (one_entry t a EntryType.CREDIT amount currency) s' r.
Proof.
  unfold deposit. intros Hd. bind Hd as id Hid. destruct (dq_amount q) as [amount0|] eqn:Eq; [|done].
  destruct (dq_currency q) as [c0|] eqn:Ec; [|done]. bind Hd as amount1 Hq. guard Hd as Hpos.
  apply negb_true_iff in Hpos. destruct (quantize_positive _ _ Hq Hpos) as [He _].
  bind Hd as ? Hcur. bind Hd as ? Hlim. unfold deposit_block in Hd.
  bind Hd as a Ha. apply of_option_Ok in Ha. bind Hd as ? Hown. bind Hd as ? Hfr.
  apply not_frozen_Ok in Hfr. bind Hd as [[amount currency] md] Hterms.
  bind Hd as ? Hchk. bind Hd as ? Hvol. bind Hd as [s1 t] Hclaim.
  exists id, a, amount, currency, s1, t. split_and!; try done.
  - unfold deposit_terms in Hterms. destruct (String.eqb _ c0); [by simplify_eq|].
    bind Hterms as rate Hr. bind Hterms as conv Hconv. simplify_eq. by apply fx_convert_exp in Hconv.
  - by apply get_or_create_Ok in Hclaim as (? & _ & [? _] & _).
  - unfold deposit_terms in Hterms. destruct (String.eqb_spec (ac_currency a) c0); [by simplify_eq|].
    bind Hterms as rate Hr. bind Hterms as conv Hconv. by simplify_eq.
  - exists amount0, c0, amount1. split_and!; [done..|]. unfold deposit_terms in Hterms.
    destruct (String.eqb_spec (ac_currency a) c0) as [E|E].
    + simplify_eq. by rewrite String.eqb_refl.
    + bind Hterms as rate Hr. bind Hterms as conv Hconv. simplify_eq.
      rewrite (proj2 (String.eqb_neq _ _) E). by exists rate, amount.
  - by repeat eexists.
  - destruct (completed t) eqn:Hc.
    + simplify_eq. split; [done|]. by left.
    + bind Hd as s2 Hb. simplify_eq. split; [done|]. right. split_and!; try done.
      by eapply book_single_booked.
Qed.

Lemma withdraw_cases env q s s' r : withdraw env q s = Ok (s', r) ->
  exists a amount s1 t,
    AccountRepository.get_by_id s (wq_account_id q) = Some a /\ ac_is_frozen a = false
    /\ _quantize (wq_amount q) = Ok amount /\ 0 < to_micro amount
    /\ to_micro amount <= balance s (ac_id a) (wq_currency q)
    /\ single_checks env s a amount (wq_currency q) "withdraw" = Ok tt
    /\ claims env (wq_client_request_id q) s s1 t
    /\ settles env s1 t (one_entry t a EntryType.DEBIT amount (wq_currency q)) s' r.
Proof.
  unfold withdraw. intros Hd. bind Hd as amount Hq. guard Hd as Hpos.
  apply negb_true_iff in Hpos. destruct (quantize_positive _ _ Hq Hpos) as [He _].
  bind Hd as ? Hcur. bind Hd as ? Hlim. unfold withdraw_block in Hd.
  bind Hd as a Ha. apply of_option_Ok in Ha. bind Hd as ? Hown. bind Hd as ? Hfr.
  apply not_frozen_Ok in Hfr. bind Hd as [] Hchk. guard Hd as Hbal. bind Hd as ? Hvol.
  bind Hd as [s1 t] Hclaim. exists a, amount, s1, t. split_and!; try done.
  - by apply get_or_create_Ok in Hclaim as (? & _ & [? _] & _).
  - apply negb_true_iff in Hbal. by apply dltb_false, dle_micro_cents in Hbal.
  - by repeat eexists.
  - destruct (completed t) eqn:Hc.
    + simplify_eq. split; [done|]. by left.
    + bind Hd as s2 Hb. simplify_eq. split; [done|]. right. split_and!; try done.
      by eapply book_single_booked.
Qed.

(** What the checks of a fresh transfer establish. *)
Lemma transfer_checks_Ok env q amount from to s tm : dexp amount = -2 ->
  transfer_checks env q amount from to s = Ok tm ->
  ac_is_frozen from = false /\ ac_is_frozen to = false
  /\ transfer_terms env from to amount (tq_currency q) = Ok tm
  /\ dltb (micro (balance s (ac_id from) (tm_debit_currency tm)))
       (dadd (tm_debit_amount tm) (dec_or0 (tq_platform_fee q))) = false.
Proof.
  unfold transfer_checks. intros He Hd. bind Hd as ? Hl. bind Hd as ? Hf. bind Hd as ? Ht.
  apply not_frozen_Ok in Hf, Ht. bind Hd as ? Hk. bind Hd as ? Hr. bind Hd as tm' Htm.
  guard Hd as Hbal. apply negb_true_iff in Hbal. bind Hd as ? Hv. by simplify_eq.
Qed.

(** The debit is in the home currency of the sender, the credit in that of the
    recipient, and both are whole cents. *)
Lemma transfer_terms_Ok env from to amount currency tm : dexp amount = -2 ->
  transfer_terms env from to amount currency = Ok tm ->
  tm_debit_currency tm = ac_currency from /\ tm_credit_currency tm = ac_currency to
  /\ dexp (tm_debit_amount tm) = -2 /\ dexp (tm_credit_amount tm) = -2
  /\ (ac_currency from = ac_currency to ->
      tm_debit_amount tm = amount /\ tm_credit_amount tm = amount).
Proof.
  intros He. unfold transfer_terms.
  destruct (String.eqb_spec (ac_currency from) (ac_currency to)) as [E|E]; cbn [negb].
  - destruct (String.eqb_spec (ac_currency from) currency) as [Ec|Ec]; cbn [negb];
      intros [= <-]; simpl; by split_and!; try congruence.
  - destruct (String.eqb_spec currency (ac_currency from)) as [Ec|Ec]; intros Ht;
      bind Ht as rate Hr; bind Ht as conv Hc; injection Ht as <-;
      apply fx_convert_exp in Hc; simpl; by split_and!; try congruence.
Qed.

Lemma verify_sender_Ok env q s s0 : verify_sender env q s = Ok s0 ->
  exists l, s0 = with_users l s.
Proof.
  unfold verify_sender. destruct (tq_system_initiated q).
  { intros [= <-]. exists (st_users s). by destruct s. }
  intros Hv. bind Hv as a Ha. bind Hv as u Hu. guard Hv as Ho. bind Hv as w Hw.
  guard Hv as Hh. guard Hv as Hp. destruct (verify_transaction_pin _ _ _) as [w' ok].
  guard Hv as Hok. simplify_eq. by eexists.
Qed.

Lemma transfer_cases env q s s' r : transfer env q s = Ok (s', r) ->
  exists users amount from to,
    _quantize (tq_amount q) = Ok amount /\ dexp amount = -2 /\ tq_from_account_id q <> tq_to_account_id q
    /\ AccountRepository.get_by_id s (tq_from_account_id q) = Some from
    /\ AccountRepository.get_by_id s (tq_to_account_id q) = Some to
    /\ ((exists t, TransactionRepository.get_by_client_request_id s (tq_client_request_id q) = Some t
          /\ completed t = true /\ _transfer_terms_match q amount from to t = Ok true
          /\ s' = with_users users s /\ r = replay_response s' from to t)
        \/ (TransactionRepository.get_by_client_request_id s (tq_client_request_id q) = None
            /\ exists tm s1 t, transfer_checks env q amount from to (with_users users s) = Ok tm
               /\ claims env (tq_client_request_id q) (with_users users s) s1 t
               /\ settles env s1 t (transfer_entries q t from to tm) s' r)).
Proof.
  unfold transfer. intros Hd. bind Hd as amount Hq. guard Hd as Hne. guard Hd as Hpos.
  apply negb_true_iff in Hpos, Hne. destruct (quantize_positive _ _ Hq Hpos) as [He _].
  apply String.eqb_neq in Hne. bind Hd as ? Hcur. unfold transfer_block in Hd.
  bind Hd as s0 Hv. apply verify_sender_Ok in Hv as [users ->]. bind Hd as ? Hl1. bind Hd as ? Hl2.
  bind Hd as from Hfrom. bind Hd as to Hto. apply of_option_Ok in Hfrom, Hto. bind Hd as ? Hown.
  exists users, amount, from, to. split_and!; try done.
  change (TransactionRepository.get_by_client_request_id (with_users users s) (tq_client_request_id q))
    with (TransactionRepository.get_by_client_request_id s (tq_client_request_id q)) in Hd.
  destruct (TransactionRepository.get_by_client_request_id s _) as [t|] eqn:Hg.
  - left. exists t. unfold transfer_replay in Hd. bind Hd as same Hs. guard Hd as Hsame.
    guard Hd as Hc. by simplify_eq.
  - right. split; [done|]. unfold transfer_fresh in Hd. bind Hd as tm Htm.
    bind Hd as [s1 t] Hclaim. exists tm, s1, t. split_and!; [done|by repeat eexists|].
    destruct (completed t) eqn:Hc.
    + bind Hd as same Hs. guard Hd as Hsame. simplify_eq. split; [done|]. by left.
    + bind Hd as s2 Hb. simplify_eq. split; [done|]. right. split_and!; try done.
      by eapply book_transfer_booked.
Qed.
End operations.
