(* ===== verification/WalletHistory.v ===== *)
(** Histories of the wallet: every operation that writes its tables as an event,
    executed in any order; an operation that raises leaves the tables as they were.
    The theorems hold of the tables after any history. *)

From S2P Require Import Prelude Tables Decimal DecimalLaws Ledger RegulatoryVolume KycLimits.
From S2P Require Import WalletService LedgerLaws Bank WalletLaws.

Local Open Scope Z_scope.

Import LedgerRepository WalletService.

(** The operations that write; each carries the environment it runs in. *)
Inductive event : Type :=
  | EDeposit (env : wallet_env) (q : deposit_request)
  | EWithdraw (env : wallet_env) (q : withdraw_request)
  | ETransfer (env : wallet_env) (q : transfer_request)
  | EFreeze (at_ : Z) (account_id reason : string)
  | EUnfreeze (account_id : string)
  | EResetDaily (at_ : Z) (account_id : string)
  | EResetMonthly (at_ : Z) (account_id : string)
  | EOpenAccount (a : account)
  | EUsers (l : list pin_user)                     (* users and their PINs *)
  | ECommissions (l : list commission)             (* payouts *)
  | EApprove (id : Z)
  | EReject (id : Z) (reason : string)
  | EPayoutComplete (reference : string)
  | EPayoutFailed (reference : string).

Section history.
Context `{KycService} `{FraudScorer} `{FxRates} `{PinHash}.

Definition exec (e : event) (s : store) : outcome store :=
  match e with
  | EDeposit env q => let* p := deposit env q s in Ok p.1
  | EWithdraw env q => let* p := withdraw env q s in Ok p.1
  | ETransfer env q => let* p := transfer env q s in Ok p.1
  | EFreeze t id reason => Ok (AccountRepository.freeze_account t id reason s).1
  | EUnfreeze id => Ok (AccountRepository.unfreeze_account id s).1
  | EResetDaily t id => Ok (AccountRepository.reset_daily_volume t id s).1
  | EResetMonthly t id => Ok (AccountRepository.reset_monthly_volume t id s).1
  | EOpenAccount a =>
      require bool_decide (AccountRepository.get_by_id s (ac_id a) = None) && owner_ok (ac_info a)
        else IntegrityError ;;
      Ok (with_accounts (st_accounts s ++ [a]) s)
  | EUsers l => Ok (with_users l s)
  | ECommissions l => Ok (with_commissions l s)
  | EApprove id => Ok (TransactionReview.approve_transaction id s).1
  | EReject id reason => Ok (TransactionReview.reject_transaction id reason s).1
  | EPayoutComplete k => Ok (TransactionReview._mark_payout_complete k s)
  | EPayoutFailed k => Ok (TransactionReview._mark_payout_failed k s)
  end.

(** A failed operation is rolled back. *)
Definition do (e : event) (s : store) : store :=
  match exec e s with Ok s' => s' | Err _ => s end.

Fixpoint history (es : list event) (s : store) : store :=
  match es with
  | [] => s
  | e :: es => history es (do e s)
  end.

Lemma history_app es1 es2 s : history (es1 ++ es2) s = history es2 (history es1 s).
Proof. revert s. induction es1 as [|e es IH]; intros s; [done|]. simpl. apply IH. Qed.

(** An invariant of every successful event holds after every history. *)
Lemma history_invariant (P : store -> Prop) :
  (forall e s s', P s -> exec e s = Ok s' -> P s') -> forall es s, P s -> P (history es s).
Proof.
  intros Hstep es. induction es as [|e es IH]; intros s Hs; [done|]. simpl. apply IH.
  unfold do. destruct (exec e s) eqn:He; [by eapply Hstep|done].
Qed.

(** Events other than the three operations leave the entries alone. *)
Definition posting (e : event) : bool :=
  match e with EDeposit _ _ | EWithdraw _ _ | ETransfer _ _ => true | _ => false end.

Lemma write_account_frame f id s : st_entries (AccountRepository.write_account f id s).1 = st_entries s.
Proof. unfold AccountRepository.write_account. by destruct (AccountRepository.get_by_id s id). Qed.

Lemma review_frame st reason id s : st_entries (TransactionReview.review st reason id s).1 = st_entries s.
Proof.
  unfold TransactionReview.review. destruct (TransactionRepository.get_by_id s id) as [t|]; [|done].
  by destruct (bool_decide _).
Qed.

Lemma payout_frame st k s : st_entries (TransactionReview.mark_payout st k s) = st_entries s.
Proof.
  unfold TransactionReview.mark_payout. destruct (String.eqb k ""); [done|].
  destruct (TransactionRepository.get_by_client_request_id s (Some k)) as [t|]; [|done].
  by destruct (bool_decide _).
Qed.

Lemma exec_frame e s s' : posting e = false -> exec e s = Ok s' -> st_entries s' = st_entries s.
Proof.
  intros Hp He. destruct e; try done; simpl in He;
    try (injection He as <-; first [apply write_account_frame | apply review_frame | apply payout_frame | done]).
  guard He as Hb. by simplify_eq.
Qed.

(** * Refinement *)

(** The amounts the ledger holds, as a bank. *)
Definition bank_of (s : store) : bank := balance s.

(** The fee of a transfer, if any, is not negative and in the home currency of the
    sender: the balance check adds it to the debit whatever its currency is. *)
Definition fee_covered (s : store) (e : event) : Prop :=
  match e with
  | ETransfer _ q =>
      forall from f, AccountRepository.get_by_id s (tq_from_account_id q) = Some from ->
        tq_platform_fee q = Some f -> 0 <= coef f /\ fee_currency q = ac_currency from
  | _ => True
  end.

Fixpoint fees_covered (es : list event) (s : store) : Prop :=
  match es with
  | [] => True
  | e :: es => fee_covered s e /\ fees_covered es (do e s)
  end.

Lemma posted_one env s t a ty amount c s' x y :
  booked env s t (one_entry t a ty amount c) s' ->
  bank_of s' x y = post (ac_id a) c
    (match ty with EntryType.DEBIT => - to_micro amount | EntryType.CREDIT => to_micro amount end)
    (bank_of s) x y.
Proof.
  intros Hb. unfold bank_of, post. rewrite (booked_balance _ _ _ _ _ x y Hb). simpl.
  unfold posted. simpl. destruct (_ && _); [|lia]. destruct ty; lia.
Qed.

Lemma booked_positive env s t news s' n : booked env s t news s' -> n ∈ news ->
  0 < to_micro (ne_amount n) < MICRO_MAX.
Proof.
  intros [(rows & _ & Hw) _ _ _ _] Hn. apply list_elem_of_lookup in Hn as [i Hi].
  destruct (Forall2_lookup_l _ _ _ _ _ Hw Hi) as (e & _ & He).
  rewrite <- (wr_amount _ _ _ _ He). apply (wr_positive _ _ _ _ He).
Qed.

Lemma settles_bank env key s s1 t news s' r : claims env key s s1 t -> settles env s1 t news s' r ->
  bank_of s' ≡ bank_of s
  \/ (forall a c, bank_of s' a c = bank_of s a c + sum_Z (posted a c <$> news))
     /\ booked env s1 t news s'.
Proof.
  intros Hc [_ [(_ & -> & _)|(_ & Hb & _)]]; pose proof (claims_frame _ _ _ _ _ Hc) as [E _].
  - left. intros a c. by apply balance_entries.
  - right. split; [|done]. intros a c. unfold bank_of.
    by rewrite (booked_balance _ _ _ _ _ a c Hb), (balance_entries s s1).
Qed.

(** The fee a transfer adds to its debit, in millionths. *)
Definition fee_micro (q : transfer_request) : Z :=
  match fee_due q with Some f => to_micro f | None => 0 end.

Lemma transfer_bank q t from to tm x y (b : bank) :
  (fee_due q <> None -> fee_currency q = tm_debit_currency tm) ->
  b x y + sum_Z (posted x y <$> transfer_entries q t from to tm)
  = apply (Move (ac_id from) (tm_debit_currency tm) (to_micro (tm_debit_amount tm))
             (ac_id to) (tm_credit_currency tm) (to_micro (tm_credit_amount tm)) (fee_micro q)) b x y.
Proof.
  intros Hfee. unfold transfer_entries, fee_micro. simpl. unfold post, posted.
  destruct (fee_due q) as [f|]; simpl.
  - rewrite Hfee by done. destruct (String.eqb (ac_id from) x && _), (String.eqb (ac_id to) x && _); lia.
  - destruct (String.eqb (ac_id from) x && _), (String.eqb (ac_id to) x && _); lia.
Qed.

Lemma fee_due_dec q f : fee_due q = Some f -> tq_platform_fee q = Some f /\ 0 < coef f.
Proof.
  unfold fee_due. destruct (tq_platform_fee q) as [g|]; [|done].
  destruct (dltb dzero g) eqn:Hg; [|done]. intros [= <-]. split; [done|].
  by apply dlt_0, dltb_spec.
Qed.

Lemma dec_or0_pos f : 0 < coef f -> dec_or0 (Some f) = f.
Proof. unfold dec_or0. destruct (Z.eqb_spec (coef f) 0); [lia|done]. Qed.

(** The checks of a transfer make its move an allowed one. *)
Lemma transfer_allowed env q from to tm s1 t s' b : dexp (tm_debit_amount tm) = -2 ->
  booked env s1 t (transfer_entries q t from to tm) s' -> ac_id from <> ac_id to ->
  (forall f, tq_platform_fee q = Some f -> 0 <= coef f) ->
  dltb (micro (b (ac_id from) (tm_debit_currency tm)))
    (dadd (tm_debit_amount tm) (dec_or0 (tq_platform_fee q))) = false ->
  allowed (Move (ac_id from) (tm_debit_currency tm) (to_micro (tm_debit_amount tm))
             (ac_id to) (tm_credit_currency tm) (to_micro (tm_credit_amount tm)) (fee_micro q)) b.
Proof.
  intros He Hb Hne Hfee Hbal.
  assert (Hpos : forall n, n ∈ transfer_entries q t from to tm -> 0 < to_micro (ne_amount n) < MICRO_MAX)
    by (intros n; by apply (booked_positive _ _ _ _ _ _ Hb)).
  unfold transfer_entries in Hpos.
  pose proof (Hpos _ ltac:(by left)) as Hd. pose proof (Hpos _ ltac:(by right; left)) as Hc.
  simpl in Hd, Hc. unfold fee_micro. simpl. destruct (fee_due q) as [f|] eqn:Hf.
  - destruct (fee_due_dec _ _ Hf) as [E Hfp]. rewrite E, dec_or0_pos in Hbal by done.
    pose proof (Hpos _ ltac:(by do 2 right; left)) as Hfm. simpl in Hfm.
    apply covers_debit in Hbal; [|done|lia..]. split_and!; [done|lia..].
  - assert (Hz : coef (dec_or0 (tq_platform_fee q)) = 0).
    { unfold fee_due in Hf. destruct (tq_platform_fee q) as [f|] eqn:E; [|done].
      specialize (Hfee f eq_refl). unfold dec_or0. destruct (Z.eqb_spec (coef f) 0); [done|].
      destruct (dltb dzero f) eqn:Hl; [done|]. apply dltb_false, dle_0_r in Hl. lia. }
    assert (Hm : to_micro (dec_or0 (tq_platform_fee q)) = 0).
    { unfold to_micro, at_exp. rewrite Hz. by destruct (_ <=? _). }
    apply covers_debit in Hbal; [|done|lia|lia|lia|unfold MICRO_MAX; lia]. split_and!; [done|lia..].
Qed.

(** The operation of the bank that an event asks for: the account, the amount in
    whole cents (converted, for a deposit in another currency), the parties and the
    fee are those of the request. *)
Definition asks (e : event) (op : bank_op) : Prop :=
  match e, op with
  | EDeposit env q, Credit a c n => (forall id, dq_account_id q = Some id -> a = id) /\ credited env q c n
  | EWithdraw _ q, Debit a c n =>
      a = wq_account_id q /\ c = wq_currency q
      /\ exists d, _quantize (wq_amount q) = Ok d /\ n = to_micro d
  | ETransfer _ q, Move from dc dn to cc cn fee =>
      from = tq_from_account_id q /\ to = tq_to_account_id q /\ fee = fee_micro q
      /\ exists d, _quantize (tq_amount q) = Ok d
                   /\ (dc = cc -> dn = to_micro d /\ cn = to_micro d)
  | _, _ => False
  end.

(** Each event performs one operation it asks for, or none. *)
Inductive performs : list event -> list bank_op -> Prop :=
  | performs_nil : performs [] []
  | performs_none e es ops : performs es ops -> performs (e :: es) ops
  | performs_one e es op ops : asks e op -> performs es ops -> performs (e :: es) (op :: ops).

(** One successful event is a step of the bank or leaves it as it is. *)
Lemma exec_refines e s s' : fee_covered s e -> exec e s = Ok s' ->
  exists ops, performs [e] ops /\ run ops (bank_of s) (bank_of s').
Proof.
  intros Hfee He. destruct (posting e) eqn:Hp.
  2:{ exists []. split; [repeat constructor|]. constructor. intros a c. symmetry. by apply balance_entries, (exec_frame e). }
  destruct e as [env q|env q|env q| | | | | | | | | | |]; try done; simpl in He;
    bind He as [s2 r] Hop; injection He as <-.
  - apply deposit_cases in Hop as (id & a & amount & c & s1 & t & Hid & Hget & _ & _ & Hpos & _ & Hcr & Hc & Hs).
    destruct (settles_bank _ _ _ _ _ _ _ _ Hc Hs) as [E|[E Hb]]; [exists []; by repeat constructor|].
    exists [Credit (ac_id a) c (to_micro amount)]. split.
    { apply performs_one; [|constructor]. split; [|exact Hcr]. intros id' E'. apply get_account_Some in Hget as [_ <-].
      unfold deposit_account in Hid. rewrite E' in Hid. guard Hid as Hne. by simplify_eq. }
    constructor; [done|]. constructor. intros x y.
    rewrite E. simpl. unfold post, posted. simpl. lia.
  - apply withdraw_cases in Hop as (a & amount & s1 & t & Hget & _ & Hq & Hpos & Hbal & _ & Hc & Hs).
    destruct (settles_bank _ _ _ _ _ _ _ _ Hc Hs) as [E|[E Hb]]; [exists []; by repeat constructor|].
    exists [Debit (ac_id a) (wq_currency q) (to_micro amount)]. split.
    { apply performs_one; [|constructor]. simpl. apply get_account_Some in Hget as [_ <-].
      split_and!; [done|done|by exists amount]. }
    constructor; [by split|]. constructor.
    intros x y. rewrite E. simpl. unfold post, posted. simpl. lia.
  - apply transfer_cases in Hop as (us & amount & from & to & Hq & Hd & Hne & Hfrom & Hto & Hcase).
    destruct Hcase as [(t & _ & _ & _ & -> & _)|(_ & tm & s1 & t & Hchk & Hc & Hs)];
      [exists []; by repeat constructor|].
    destruct (settles_bank _ _ _ _ _ _ _ _ Hc Hs) as [E|[E Hb]]; [exists []; by repeat constructor|].
    apply transfer_checks_Ok in Hchk as (_ & _ & Htm & Hbal); [|done].
    apply transfer_terms_Ok in Htm as (Edc & Ecc & Edd & _ & Esame); [|done].
    assert (Hf : forall f, tq_platform_fee q = Some f ->
              0 <= coef f /\ fee_currency q = tm_debit_currency tm).
    { intros f Ef. rewrite Edc. by apply Hfee. }
    pose proof (proj2 (get_account_Some _ _ _ Hfrom)) as Ifrom.
    pose proof (proj2 (get_account_Some _ _ _ Hto)) as Ito.
    exists [Move (ac_id from) (tm_debit_currency tm) (to_micro (tm_debit_amount tm))
              (ac_id to) (tm_credit_currency tm) (to_micro (tm_credit_amount tm)) (fee_micro q)].
    split; [|econstructor].
    + apply performs_one; [|constructor]. simpl. split_and!; [exact Ifrom|exact Ito|reflexivity|].
      exists amount. split; [done|]. rewrite Edc, Ecc. intros E'.
      destruct (Esame E') as [-> ->]. done.
    + eapply (transfer_allowed env q from to tm s1 t s2); try done.
      * by rewrite Ifrom, Ito.
      * intros f Ef. by apply Hf.
    + constructor. intros x y. rewrite E.
      symmetry. rewrite (transfer_bank q t from to tm); [done|].
      intros Hdue. destruct (fee_due q) as [f|] eqn:Hfd; [|done].
      by apply (Hf f), fee_due_dec.
Qed.

Lemma performs_cons e es ops1 ops : performs [e] ops1 -> performs es ops ->
  performs (e :: es) (ops1 ++ ops).
Proof.
  intros Hp. inversion Hp as [|? ? ? Hn|? ? ? ? Ha Hn]; subst; inversion Hn; subst; simpl;
    by constructor.
Qed.

Lemma history_refines es s : fees_covered es s ->
  exists ops, performs es ops /\ run ops (bank_of s) (bank_of (history es s)).
Proof.
  revert s. induction es as [|e es IH]; intros s Hfees; simpl; [exists []; by repeat constructor|].
  destruct Hfees as [Hf Hfees]. destruct (IH _ Hfees) as (ops & Hp & Hops).
  unfold do in *. destruct (exec e s) as [s'|] eqn:He; [|exists ops; split; [by constructor|done]].
  destruct (exec_refines _ _ _ Hf He) as (ops1 & Hp1 & Hops1).
  exists (ops1 ++ ops). split; [by apply performs_cons|by eapply run_app].
Qed.

(** C1: the wallet refines the bank: whatever the operations and their order,
    as long as each fee is not negative and in the sender's home currency, the
    balances derived from the ledger are those of a bank that went through a run
    of allowed operations: credits, debits the account covers, and moves between
    two accounts whose debit and fee the sender covers. Each operation is one that
    the event asked for, in its order, and an event performs one at most. *)
Theorem wallet_refines_bank es s (Hfees : fees_covered es s) :
  exists ops, performs es ops /\ run ops (bank_of s) (bank_of (history es s)).
Proof. by apply history_refines. Qed.

(** C13: no account is overdrawn: in every history in which each fee is not
    negative and in the sender's home currency, no balance becomes negative. *)
Theorem balances_solvent es s a c (Hs : forall a c, 0 <= balance s a c) (Hfees : fees_covered es s) :
  0 <= balance (history es s) a c.
Proof.
  destruct (history_refines es s Hfees) as (ops & _ & Hr). by apply (run_solvent _ _ _ Hr).
Qed.

(** * The tables stay well formed *)

Definition tx_ids (s : store) : list Z := tx_id <$> st_transactions s.
Definition tx_keys (s : store) : list string := tx_client_request_id <$> st_transactions s.
Definition opened (s : store) : list account_info := ac_info <$> st_accounts s.
Definition home (i : account_info) : string * string := (ai_id i, ai_currency i).

(** The primary key of the transactions comes from a sequence. *)
Record ids_ok (s : store) : Prop := {
  io_unique : NoDup (tx_ids s);
  io_next : forall i, i ∈ tx_ids s -> i < st_next_tx s;
}.

(** Keys identify rows; amounts are positive; every entry belongs to a transaction
    and to an account, whose home currency it is in. *)
Record wallet_ok (s : store) : Prop := {
  wo_accounts : NoDup (ai_id <$> opened s);
  wo_tx_ids : ids_ok s;
  wo_tx_keys : NoDup (tx_keys s);
  wo_tx_amounts : forall n, n ∈ tx_amount <$> st_transactions s -> 0 < n < MICRO_MAX;
  wo_entry_amounts : forall e, e ∈ st_entries s -> 0 < le_amount e < MICRO_MAX;
  wo_entry_txs : forall e, e ∈ st_entries s -> le_transaction_id e ∈ tx_ids s;
  wo_entry_accounts : forall e, e ∈ st_entries s ->
    (le_account_id e, le_currency e) ∈ home <$> opened s;
}.

(** The columns of the tables that well-formedness reads. *)
Definition shape (s : store) : list account_info * list Z * list string * list Z * list entry * Z :=
  (opened s, tx_ids s, tx_keys s, tx_amount <$> st_transactions s, st_entries s, st_next_tx s).

Lemma ids_ok_shape s s' : tx_ids s' = tx_ids s -> st_next_tx s' = st_next_tx s ->
  ids_ok s -> ids_ok s'.
Proof. intros Ei En [? ?]. by split; rewrite ?Ei, ?En. Qed.

Lemma wallet_ok_shape s s' : shape s' = shape s -> wallet_ok s -> wallet_ok s'.
Proof.
  intros [= Ea Ei Ek Em Ee En] [? ? ? ? ? ? ?].
  split; rewrite ?Ea, ?Ei, ?Ek, ?Em, ?Ee, ?En; try done. by apply (ids_ok_shape s).
Qed.

Lemma write_account_shape f id s : (forall a, ac_info (f a) = ac_info a) ->
  shape (AccountRepository.write_account f id s).1 = shape s.
Proof.
  intros Hf. unfold AccountRepository.write_account. destruct (AccountRepository.get_by_id s id); [|done].
  unfold shape, opened. simpl. by rewrite (fmap_update ac_info).
Qed.

Lemma write_status_shape id f s :
  (forall t, tx_id (f t) = tx_id t /\ tx_client_request_id (f t) = tx_client_request_id t
             /\ tx_amount (f t) = tx_amount t) ->
  shape (TransactionReview.write_status id f s) = shape s.
Proof.
  intros Hf. unfold shape, tx_ids, tx_keys, TransactionReview.write_status. simpl.
  rewrite (fmap_update tx_id), (fmap_update tx_client_request_id), (fmap_update tx_amount);
    [done|intros x; apply (Hf x)..].
Qed.

Lemma review_shape st reason id s : shape (TransactionReview.review st reason id s).1 = shape s.
Proof.
  unfold TransactionReview.review. destruct (TransactionRepository.get_by_id s id) as [t|]; [|done].
  destruct (bool_decide _); [|done]. by apply write_status_shape.
Qed.

Lemma payout_shape st k s : shape (TransactionReview.mark_payout st k s) = shape s.
Proof.
  unfold TransactionReview.mark_payout. destruct (String.eqb k ""); [done|].
  destruct (TransactionRepository.get_by_client_request_id s (Some k)) as [t|]; [|done].
  destruct (bool_decide _); [|done]. by apply write_status_shape.
Qed.

Lemma claims_ids env key s s1 t : ids_ok s -> claims env key s s1 t -> ids_ok s1.
Proof.
  intros [Hu Hn] (ty & am & c & u & r & md & (k & _ & _ & [[_ ->]|(_ & Ht & ->)])%get_or_create_Ok);
    [done|]. pose proof (nt_id _ _ _ _ _ _ _ _ _ _ Ht) as Hid.
  split; unfold tx_ids in *; simpl; rewrite fmap_app.
  - apply list.NoDup_app. split_and!; [done| |apply NoDup_singleton].
    intros i Hi%Hn ->%list_elem_of_singleton. lia.
  - intros i [Hi%Hn| ->%list_elem_of_singleton]%elem_of_app; lia.
Qed.

(** A claim keeps the tables well formed, and its transaction is in them. *)
Lemma claims_ok env key s s1 t : wallet_ok s -> claims env key s s1 t ->
  wallet_ok s1 /\ tx_id t ∈ tx_ids s1.
Proof.
  intros Hs Hc. pose proof (claims_ids _ _ _ _ _ (wo_tx_ids _ Hs) Hc) as Hids. revert Hids.
  destruct Hc as (ty & am & c & u & r & md & (k & _ & _ & Hcase)%get_or_create_Ok).
  intros Hids. destruct Hcase as [[Hk ->]|(Hk & Hn & ->)].
  { split; [done|]. apply get_by_key_Some in Hk as [Hin _]. by apply list_elem_of_fmap_2. }
  destruct Hs. split.
  - split; try done; unfold tx_ids, tx_keys in *; simpl; rewrite ?fmap_app.
    + apply list.NoDup_app. split_and!; [done| |apply NoDup_singleton].
      intros i (x & -> & Hx)%list_elem_of_fmap E%list_elem_of_singleton.
      rewrite (nt_key _ _ _ _ _ _ _ _ _ _ Hn) in E. by apply (get_by_key_None _ _ _ Hk Hx).
    + intros n [Hin| ->%list_elem_of_singleton]%elem_of_app; [auto|].
      apply (nt_positive _ _ _ _ _ _ _ _ _ _ Hn).
    + intros e He. apply elem_of_app. left. auto.
  - unfold tx_ids. simpl. rewrite fmap_app. set_solver.
Qed.

Lemma booked_shape env s t news s' : booked env s t news s' -> exists rows,
  shape s' = (opened s, tx_ids s, tx_keys s, tx_amount <$> st_transactions s,
              st_entries s ++ rows, st_next_tx s)
  /\ Forall2 (written (now env) (Z.of_nat (length (st_entries s)))) news rows.
Proof.
  intros [(rows & E & Hw) Ea Et _ En]. exists rows. split; [|done]. unfold shape, opened, tx_ids, tx_keys.
  by rewrite Ea, Et, En, E, (fmap_update tx_id), (fmap_update tx_client_request_id),
    (fmap_update tx_amount).
Qed.

(** Booking entries of the claimed transaction, each in the home currency of an
    existing account. *)
Lemma settles_ok env key s s1 t news s' r : wallet_ok s -> claims env key s s1 t ->
  settles env s1 t news s' r ->
  (forall n, n ∈ news -> ne_transaction_id n = tx_id t
                        /\ (ne_account_id n, ne_currency n) ∈ home <$> opened s) ->
  wallet_ok s'.
Proof.
  intros Hs Hc [_ [(_ & -> & _)|(_ & Hb & _)]] Hnews;
    destruct (claims_ok _ _ _ _ _ Hs Hc) as [Hs1 Ht]; [done|].
  pose proof (claims_frame _ _ _ _ _ Hc) as (_ & Ea & _ & _).
  apply booked_shape in Hb as (rows & [= E1 E2 E3 E4 E5 E6] & Hw).
  assert (Hrow : forall e, e ∈ rows -> 0 < le_amount e < MICRO_MAX
            /\ le_transaction_id e = tx_id t /\ (le_account_id e, le_currency e) ∈ home <$> opened s).
  { intros e [i Hi]%list_elem_of_lookup. destruct (Forall2_lookup_r _ _ _ _ _ Hw Hi) as (n & Hn & Hne).
    destruct Hne as [_ W1 W2 _ W4 _ W6 _]. rewrite W1, W2, W4. split; [done|].
    apply Hnews. by eapply list_elem_of_lookup_2. }
  assert (Eo : opened s1 = opened s) by (unfold opened; by rewrite Ea).
  destruct Hs1. split; rewrite ?E1, ?E2, ?E3, ?E4, ?E5, ?E6; try done.
  - by apply (ids_ok_shape s1).
  - intros e [He|He]%elem_of_app; [auto|]. by apply Hrow.
  - intros e [He|He]%elem_of_app; [auto|]. by destruct (Hrow e He) as (_ & -> & _).
  - intros e [He|He]%elem_of_app; [auto|]. rewrite Eo. by apply Hrow.
Qed.

Lemma home_of s id a : AccountRepository.get_by_id s id = Some a ->
  (ac_id a, ac_currency a) ∈ home <$> opened s.
Proof.
  intros [Hin _]%get_account_Some. unfold opened. rewrite <- list_fmap_compose.
  apply list_elem_of_fmap. by exists a.
Qed.

Lemma positive_balance s a c : 0 < balance s a c ->
  exists e, e ∈ st_entries s /\ le_account_id e = a /\ le_currency e = c.
Proof.
  rewrite balance_signed. intros Hb. destruct (existsb (of_account a c) (st_entries s)) eqn:He.
  - apply existsb_exists in He as (e & Hin%list_elem_of_In & Ho). exists e. split; [done|].
    apply andb_true_iff in Ho as [E1 E2]. by apply String.eqb_eq in E1, E2.
  - rewrite (signed_none _ _ _ He) in Hb. lia.
Qed.

Lemma transfer_ok env q s s' : wallet_ok s -> fee_covered s (ETransfer env q) ->
  exec (ETransfer env q) s = Ok s' -> wallet_ok s'.
Proof.
  intros Hs Hfee He. simpl in He. bind He as [s2 r] Hop. injection He as <-.
  apply transfer_cases in Hop as (us & amount & from & to & _ & Hd & Hne & Hfrom & Hto & Hcase).
  assert (Hu : wallet_ok (with_users us s)) by (by apply (wallet_ok_shape s)).
  destruct Hcase as [(t & _ & _ & _ & -> & _)|(_ & tm & s1 & t & Hchk & Hc & Hset)]; [done|].
  apply transfer_checks_Ok in Hchk as (_ & _ & Htm & _); [|done].
  apply transfer_terms_Ok in Htm as (Edc & Ecc & _); [|done].
  eapply (settles_ok env _ _ s1 t); [done..|]. intros n Hn. unfold transfer_entries in Hn.
  change (opened (with_users us s)) with (opened s).
  apply elem_of_app in Hn as [Hn|Hn].
  - apply elem_of_cons in Hn as [->|Hn]; [|apply list_elem_of_singleton in Hn as ->]; simpl;
      rewrite ?Edc, ?Ecc; split; try done; [by apply (home_of _ _ _ Hfrom)|by apply (home_of _ _ _ Hto)].
  - destruct (fee_due q) as [f|] eqn:Hf; [|by apply not_elem_of_nil in Hn].
    apply list_elem_of_singleton in Hn as ->. simpl. split; [done|].
    apply fee_due_dec in Hf as [Hf _]. destruct (Hfee _ _ Hfrom Hf) as [_ ->].
    by apply (home_of _ _ _ Hfrom).
Qed.

Lemma exec_ok e s s' : wallet_ok s -> fee_covered s e -> exec e s = Ok s' -> wallet_ok s'.
Proof.
  intros Hs Hfee He. assert (Hshape : shape s' = shape s -> wallet_ok s')
    by (intros E; by apply (wallet_ok_shape s)).
  destruct e as [env q|env q|env q| | | | |a| | | | | |]; simpl in He;
    try (injection He as <-; apply Hshape;
         first [by apply write_account_shape | apply review_shape | apply payout_shape | done]).
  - bind He as [s2 r] Hop. injection He as <-.
    apply deposit_cases in Hop as (id & a & amount & c & s1 & t & _ & Hget & _ & _ & _ & -> & _ & Hc & Hset).
    eapply (settles_ok env _ _ s1 t); [done..|]. intros n ->%list_elem_of_singleton.
    split; [done|]. by apply (home_of _ _ _ Hget).
  - bind He as [s2 r] Hop. injection He as <-.
    apply withdraw_cases in Hop as (a & amount & s1 & t & Hget & _ & _ & Hpos & Hbal & _ & Hc & Hset).
    eapply (settles_ok env _ _ s1 t); [done..|]. intros n ->%list_elem_of_singleton.
    split; [done|]. simpl. destruct (positive_balance s (ac_id a) (wq_currency q)) as (e & Hin & E1 & E2);
      [lia|]. pose proof (wo_entry_accounts _ Hs _ Hin) as Hh. by rewrite E1, E2 in Hh.
  - by eapply transfer_ok.
  - guard He as Hb. injection He as <-. apply andb_true_iff in Hb as [Hnew%bool_decide_eq_true _].
    destruct Hs. split; try done; unfold opened in *; simpl; rewrite ?fmap_app.
    + apply list.NoDup_app. split_and!; [done| |apply NoDup_singleton].
      intros i (x & -> & Hx)%list_elem_of_fmap E%list_elem_of_singleton.
      apply list_elem_of_fmap in Hx as (y & -> & Hy).
      apply list_elem_of_In in Hy. apply (List.find_none _ _ Hnew) in Hy. cbv beta in Hy.
      unfold ac_id in Hy. by rewrite E, String.eqb_refl in Hy.
    + by apply (ids_ok_shape s).
    + intros e He. apply elem_of_app. left. auto.
Qed.

(** C36: the type of the wallet's tables: in every history whose fees are covered,
    keys identify rows, every amount is positive and fits its column, and every
    ledger entry belongs to a transaction and to an account and is in the home
    currency of that account, so an account holds money in no other currency. *)
Theorem wallet_well_formed es s (Hs : wallet_ok s) (Hfees : fees_covered es s) :
  wallet_ok (history es s).
Proof.
  revert s Hs Hfees. induction es as [|e es IH]; intros s Hs Hfees; [done|].
  destruct Hfees as [Hf Hfees]. simpl. apply IH; [|done]. unfold do.
  destruct (exec e s) as [s'|] eqn:He; [by apply (exec_ok e s s')|done].
Qed.

(** * A key books once *)

Definition key_of (e : event) : option string :=
  match e with
  | EDeposit _ q => key_of_deposit q
  | EWithdraw _ q => wq_client_request_id q
  | ETransfer _ q => tq_client_request_id q
  | _ => None
  end.

(** The key belongs to a completed transaction. *)
Definition key_completed (s : store) (k : string) : Prop :=
  exists t, TransactionRepository.get_by_client_request_id s (Some k) = Some t /\ completed t = true.

Definition keeps_completed (k : string) (c : transaction -> bool) (f : transaction -> transaction)
    : Prop :=
  (forall t, tx_client_request_id (f t) = tx_client_request_id t)
  /\ forall t, tx_client_request_id t = k -> completed t = true -> c t = true -> completed (f t) = true.

Lemma update_completed s s' k c f : keeps_completed k c f ->
  st_transactions s' = update_where c f (st_transactions s) -> key_completed s k -> key_completed s' k.
Proof.
  intros [Hk Hf] E (t & Ht & Hc). unfold key_completed. simpl. rewrite E, find_update_key by done.
  simpl in Ht. rewrite Ht. eexists. split; [reflexivity|]. cbv beta.
  destruct (c t) eqn:Hct; [|done]. apply Hf; [|done..]. by apply (get_by_key_Some s k t).
Qed.

Lemma claims_key env key s s1 t : claims env key s s1 t ->
  TransactionRepository.get_by_client_request_id s1 key = Some t.
Proof.
  intros (ty & am & c & u & r & md & Hg). apply get_or_create_Ok in Hg as (k & -> & _ & Hcase).
  destruct Hcase as [[Hk ->]|(Hk & Ht & ->)]; [done|]. simpl in *. rewrite find_app, Hk. simpl.
  by rewrite (nt_key _ _ _ _ _ _ _ _ _ _ Ht), String.eqb_refl.
Qed.

Lemma claims_keep env key s s1 t k : claims env key s s1 t -> key_completed s k -> key_completed s1 k.
Proof.
  intros (ty & am & c & u & r & md & (k' & _ & _ & [[_ ->]|(_ & _ & ->)])%get_or_create_Ok); [done|].
  intros (t0 & Ht0 & Hc). exists t0. split; [|done]. simpl in *. by rewrite find_app, Ht0.
Qed.

Lemma booked_keep env s t news s' k : booked env s t news s' -> key_completed s k -> key_completed s' k.
Proof. intros Hb. eapply update_completed; [|apply (bk_transactions _ _ _ _ _ Hb)]. by split. Qed.

Lemma settles_keep env key s s1 t news s' r k : claims env key s s1 t -> settles env s1 t news s' r ->
  key_completed s k -> key_completed s' k.
Proof.
  intros Hc [_ [(_ & -> & _)|(_ & Hb & _)]] Hk; pose proof (claims_keep _ _ _ _ _ _ Hc Hk); [done|].
  by eapply booked_keep.
Qed.

Lemma settles_completes env k s s1 t news s' r : claims env (Some k) s s1 t ->
  settles env s1 t news s' r -> key_completed s' k.
Proof.
  intros Hk%claims_key [_ [(Hc & -> & _)|(_ & Hb & _)]]; [by exists t|].
  pose proof (bk_transactions _ _ _ _ _ Hb) as E. unfold key_completed.
  change (TransactionRepository.get_by_client_request_id s1 (Some k))
    with (List.find (fun t => String.eqb (tx_client_request_id t) k) (st_transactions s1)) in Hk.
  simpl. rewrite E, find_update_key, Hk by (intros []; reflexivity). eexists. split; [reflexivity|].
  cbv beta. by rewrite Z.eqb_refl.
Qed.

Lemma settles_replay env k s s1 t news s' r : key_completed s k -> claims env (Some k) s s1 t ->
  settles env s1 t news s' r -> st_entries s' = st_entries s.
Proof.
  intros (t0 & Ht0 & Hc0) Hc Hs.
  assert (t = t0) as ->.
  { destruct Hc as (ty & am & c & u & rr & md & (k' & [= <-] & _ & Hcase)%get_or_create_Ok).
    destruct Hcase as [[Hk _]|(Hk & _)]; rewrite Ht0 in Hk; [by injection Hk as <-|done]. }
  pose proof (claims_frame _ _ _ _ _ Hc) as (E & _).
  destruct Hs as [_ [(_ & -> & _)|(Hf & _)]]; [done|]. by rewrite Hc0 in Hf.
Qed.

(** What an event with a key does to it. *)
Lemma exec_key e s s' k : key_of e = Some k -> exec e s = Ok s' ->
  key_completed s' k /\ (key_completed s k -> st_entries s' = st_entries s).
Proof.
  intros Hk He. destruct e as [env q|env q|env q| | | | | | | | | | |]; try done; simpl in Hk, He;
    bind He as [s2 r] Hop; injection He as <-.
  - apply deposit_cases in Hop as (? & ? & ? & ? & s1 & t & _ & _ & _ & _ & _ & _ & _ & Hc & Hs).
    rewrite Hk in Hc. split; [by eapply settles_completes|intros ?; by eapply settles_replay].
  - apply withdraw_cases in Hop as (? & ? & s1 & t & _ & _ & _ & _ & _ & _ & Hc & Hs).
    rewrite Hk in Hc. split; [by eapply settles_completes|intros ?; by eapply settles_replay].
  - apply transfer_cases in Hop as (us & ? & from & to & _ & _ & _ & _ & _ & Hcase). rewrite Hk in Hcase.
    destruct Hcase as [(t & Ht & Hct & _ & -> & _)|(Hn & tm & s1 & t & _ & Hc & Hs)]; [by split; [exists t|]|].
    split; [by eapply settles_completes|]. intros (t0 & Ht0 & _). by rewrite Hn in Ht0.
Qed.

Lemma exec_ids e s s' : ids_ok s -> exec e s = Ok s' -> ids_ok s'.
Proof.
  intros Hs He. assert (Hshape : shape s' = shape s -> ids_ok s').
  { intros [= _ Ei _ _ _ En]. by apply (ids_ok_shape s). }
  assert (Hset : forall env key s0 s1 t news r, ids_ok s0 -> claims env key s0 s1 t ->
            settles env s1 t news s' r -> ids_ok s').
  { intros env key s0 s1 t news r Hi0 Hc%(claims_ids _ _ _ _ _ Hi0) [_ [(_ & -> & _)|(_ & Hb & _)]]; [done|].
    apply booked_shape in Hb as (rows & [= _ Ei _ _ _ En] & _). by apply (ids_ok_shape s1). }
  destruct e as [env q|env q|env q| | | | |a| | | | | |]; simpl in He;
    try (injection He as <-; apply Hshape;
         first [by apply write_account_shape | apply review_shape | apply payout_shape | done]).
  - bind He as [s2 r] Hop. injection He as <-.
    apply deposit_cases in Hop as (? & ? & ? & ? & s1 & t & _ & _ & _ & _ & _ & _ & _ & Hc & Hs'). by eapply Hset.
  - bind He as [s2 r] Hop. injection He as <-.
    apply withdraw_cases in Hop as (? & ? & s1 & t & _ & _ & _ & _ & _ & _ & Hc & Hs'). by eapply Hset.
  - bind He as [s2 r] Hop. injection He as <-.
    apply transfer_cases in Hop as (us & ? & from & to & _ & _ & _ & _ & _ & Hcase).
    assert (Hu : ids_ok (with_users us s)) by (by apply (ids_ok_shape s)).
    destruct Hcase as [(t & _ & _ & _ & -> & _)|(_ & tm & s1 & t & _ & Hc & Hs')]; [done|].
    by eapply (Hset env _ (with_users us s)).
  - guard He as Hb. injection He as <-. by apply (ids_ok_shape s).
Qed.

(** Two rows with the same primary key are one. *)
Lemma same_row s t x : ids_ok s -> t ∈ st_transactions s -> x ∈ st_transactions s ->
  tx_id x = tx_id t -> x = t.
Proof. intros [Hu _] Ht Hx. by apply (key_unique tx_id (st_transactions s)). Qed.

(** Writing the status of one row keeps a completed key, unless it is that row. *)
Lemma write_status_keeps s t f k : ids_ok s -> t ∈ st_transactions s ->
  (forall x, tx_client_request_id (f x) = tx_client_request_id x) ->
  (tx_client_request_id t = k -> completed t = true -> completed (f t) = true) ->
  key_completed s k -> key_completed (TransactionReview.write_status (tx_id t) f s) k.
Proof.
  intros Hs Ht Hf Hkt (x & Hx & Hc). destruct (get_by_key_Some _ _ _ Hx) as [Hin Hk].
  unfold key_completed. simpl. rewrite find_update_key by done. simpl in Hx. rewrite Hx.
  eexists. split; [reflexivity|]. cbv beta. destruct (Z.eqb_spec (tx_id x) (tx_id t)) as [E|]; [|done].
  apply (same_row s) in E as ->; [|done..]. by apply Hkt.
Qed.

Lemma review_keeps st reason id s k : ids_ok s -> key_completed s k ->
  key_completed (TransactionReview.review st reason id s).1 k.
Proof.
  intros Hs Hk. unfold TransactionReview.review.
  destruct (TransactionRepository.get_by_id s id) as [t|] eqn:Ht; [|done].
  apply List.find_some in Ht as [Hin%list_elem_of_In E%Z.eqb_eq]. subst id.
  destruct (bool_decide_reflect (tx_status t = TransactionStatus.PENDING)) as [Hp|]; [|done].
  apply write_status_keeps; try done. intros _ Hc. unfold completed in Hc. by rewrite Hp in Hc.
Qed.

Lemma payout_keeps st ref s k : ids_ok s -> st = TransactionStatus.COMPLETED \/ ref <> k ->
  key_completed s k -> key_completed (TransactionReview.mark_payout st ref s) k.
Proof.
  intros Hs Href Hk. unfold TransactionReview.mark_payout. destruct (String.eqb ref ""); [done|].
  destruct (TransactionRepository.get_by_client_request_id s (Some ref)) as [t|] eqn:Ht; [|done].
  destruct (get_by_key_Some _ _ _ Ht) as [Hin E]. destruct (bool_decide _); [|done].
  apply write_status_keeps; try done. intros E' _. destruct Href as [->|Hne]; [done|congruence].
Qed.

Lemma exec_keeps e s s' k : ids_ok s -> e <> EPayoutFailed k -> exec e s = Ok s' ->
  key_completed s k -> key_completed s' k.
Proof.
  intros Hs Hne He Hk.
  destruct e as [env q|env q|env q|? ? ?|?|? ?|? ?|a|?|?|id|id reason|ref|ref]; simpl in He.
  - bind He as [s2 r] Hop. injection He as <-.
    apply deposit_cases in Hop as (? & ? & ? & ? & s1 & t & _ & _ & _ & _ & _ & _ & _ & Hc & Hs').
    by eapply settles_keep.
  - bind He as [s2 r] Hop. injection He as <-.
    apply withdraw_cases in Hop as (? & ? & s1 & t & _ & _ & _ & _ & _ & _ & Hc & Hs').
    by eapply settles_keep.
  - bind He as [s2 r] Hop. injection He as <-.
    apply transfer_cases in Hop as (us & ? & from & to & _ & _ & _ & _ & _ & Hcase).
    destruct Hcase as [(t & _ & _ & _ & -> & _)|(_ & tm & s1 & t & _ & Hc & Hs')]; [done|].
    by eapply (settles_keep env _ (with_users us s)).
  - injection He as <-. simpl. unfold AccountRepository.freeze_account, AccountRepository.write_account.
    by destruct (AccountRepository.get_by_id s _).
  - injection He as <-. simpl. unfold AccountRepository.unfreeze_account, AccountRepository.write_account.
    by destruct (AccountRepository.get_by_id s _).
  - injection He as <-. simpl. unfold AccountRepository.reset_daily_volume, AccountRepository.write_account.
    by destruct (AccountRepository.get_by_id s _).
  - injection He as <-. simpl. unfold AccountRepository.reset_monthly_volume, AccountRepository.write_account.
    by destruct (AccountRepository.get_by_id s _).
  - guard He as Hb. by injection He as <-.
  - by injection He as <-.
  - by injection He as <-.
  - injection He as <-. by apply review_keeps.
  - injection He as <-. by apply review_keeps.
  - injection He as <-. apply payout_keeps; auto.
  - injection He as <-. apply payout_keeps; [done| |done]. right. congruence.
Qed.

(** C12: a key books once: after a deposit, a withdrawal or a transfer succeeded
    under a key, and whatever happened since except a payout failure reported for
    that key, an operation under the same key that succeeds posts no ledger entry. *)
Theorem key_books_once es e1 e2 s s1 s3 k (Hids : ids_ok s) (Hfirst : exec e1 s = Ok s1)
  (Hk1 : key_of e1 = Some k) (Hes : Forall (fun e => e <> EPayoutFailed k) es)
  (Hsecond : exec e2 (history es s1) = Ok s3) (Hk2 : key_of e2 = Some k) :
  st_entries s3 = st_entries (history es s1).
Proof.
  apply (exec_key _ _ _ _ Hk2 Hsecond). pose proof (exec_ids _ _ _ Hids Hfirst) as Hi.
  destruct (exec_key _ _ _ _ Hk1 Hfirst) as [Hc _]. clear Hfirst Hsecond Hids. revert s1 Hi Hc.
  induction Hes as [|e es He _ IH]; intros s1 Hi Hc; [done|]. simpl. unfold do.
  destruct (exec e s1) as [s2|] eqn:E; [|by apply IH].
  apply IH; [by eapply exec_ids|by eapply exec_keeps].
Qed.
End history.

(** * Conservation *)

(** What all accounts hold together in a currency. *)
Definition total (s : store) (currency : string) : Z :=
  sum_Z ((fun e => if String.eqb (le_currency e) currency then credit_of e - debit_of e else 0)
           <$> st_entries s).

(** What booking a list of entries adds to it. *)
Definition posted_total (currency : string) (n : new_entry) : Z :=
  posted (ne_account_id n) currency n.

Lemma booked_total env s t news s' c : booked env s t news s' ->
  total s' c = total s c + sum_Z (posted_total c <$> news).
Proof.
  intros [(rows & E & Hw) _ _ _ _]. unfold total. rewrite E, fmap_app, sum_app. f_equal. clear E.
  induction Hw as [|n e l rows [_ _ Ha Ht Hc Hm _ _] _ IH]; [done|]. rewrite !sum_cons, IH. f_equal.
  unfold posted_total, posted, credit_of, debit_of, is_debit. rewrite Hc, Ht, Hm, String.eqb_refl.
  simpl. destruct (String.eqb _ c); [|done]. destruct (ne_type n); lia.
Qed.

(** The fee an answered transfer took, in a currency. *)
Definition fee_leaving (q : transfer_request) (r : response) (currency : string) : Z :=
  if negb (rs_already_processed r) && String.eqb (fee_currency q) currency then fee_micro q else 0.

Section conservation.
Context `{KycService} `{FraudScorer} `{FxRates} `{PinHash}.

(** C34: a transfer conserves money up to its fee: between two accounts with the
    same home currency, the total over all accounts changes in no currency but
    that of the platform fee, which leaves the sender and reaches no account; a
    replay changes nothing. *)
Theorem transfer_conserves env q s s' r from to c
  (Hop : transfer env q s = Ok (s', r))
  (Hfrom : AccountRepository.get_by_id s (tq_from_account_id q) = Some from)
  (Hto : AccountRepository.get_by_id s (tq_to_account_id q) = Some to)
  (Hsame : ac_currency from = ac_currency to) :
  total s' c = total s c - fee_leaving q r c.
Proof.
  unfold fee_leaving.
  apply transfer_cases in Hop as (us & amount & from' & to' & _ & Hd & _ & Hf & Ht & Hcase).
  rewrite Hfrom in Hf. rewrite Hto in Ht. injection Hf as <-. injection Ht as <-.
  destruct Hcase as [(t & _ & _ & _ & -> & ->)|(_ & tm & s1 & t & Hchk & Hc & Hs)];
    [unfold total; simpl; lia|].
  pose proof (claims_frame _ _ _ _ _ Hc) as [E _].
  assert (Et : total s1 c = total s c) by (unfold total; by rewrite E).
  destruct Hs as [_ [(_ & -> & ->)|(_ & Hb & ->)]]; [simpl; lia|].
  rewrite (booked_total _ _ _ _ _ c Hb), Et.
  apply transfer_checks_Ok in Hchk as (_ & _ & Htm & _); [|done].
  apply transfer_terms_Ok in Htm as (Edc & Ecc & _ & _ & Esame); [|done].
  destruct (Esame Hsame) as [Ed Ec]. unfold transfer_entries, fee_micro, posted_total, posted. simpl.
  rewrite Edc, Ecc, Ed, Ec, Hsame, !String.eqb_refl. simpl.
  destruct (fee_due q) as [f|]; simpl; rewrite ?String.eqb_refl; simpl;
    destruct (String.eqb (ac_currency to) c), (String.eqb (fee_currency q) c); lia.
Qed.
End conservation.
