(* ===== verification/WalletLimits.v ===== *)
(** The limits a withdrawal respects, with the KYC service in place of its
    interface: after a withdrawal the volume of the day and of the month is within
    the limits of the user's tier. *)

From S2P Require Import Prelude Tables Decimal DecimalLaws Ledger RegulatoryVolume KycLimits.
From S2P Require Import WalletService LedgerLaws WalletLaws WalletHistory.

Local Open Scope Z_scope.

Import LedgerRepository WalletService RegulatoryVolumeCalculator VolumeWindowCalculator.
Import TimezoneEngine KYCLimitService.

(** * Windows *)

Lemma day_of_month_pos n : 1 <= day_of_month n.
Proof.
  unfold day_of_month.
  set (doy := (n + 719468) mod 146097 - _). set (mp := (5 * doy + 2) / 153).
  pose proof (Z.mul_div_le (5 * doy + 2) 153 ltac:(lia)). fold mp in H.
  pose proof (Z.div_le_upper_bound (153 * mp + 2) 5 doy). 
  assert ((153 * mp + 2) / 5 <= doy).
  { apply Z.lt_succ_r, Z.div_lt_upper_bound; lia. }
  lia.
Qed.

Lemma midnight_le w : midnight w <= w.
Proof. unfold midnight. pose proof (Z.mod_pos_bound w day ltac:(done)). lia. Qed.

Lemma day_start_le t : get_day_start_utc (Aware t) <= t.
Proof. unfold get_day_start_utc, wall. pose proof (midnight_le (t + KAMPALA_TZ_OFFSET)). lia. Qed.

Lemma month_start_le t : get_month_start_utc (Aware t) <= t.
Proof.
  unfold get_month_start_utc, wall. cbv zeta. set (w := t + KAMPALA_TZ_OFFSET).
  pose proof (midnight_le w). pose proof (day_of_month_pos (midnight w / day)).
  assert (0 < day) by done. unfold w in *. nia.
Qed.

(** Both windows end at the given instant and contain it. *)
Lemma daily_window p t :
  (get_daily_window_bounds p t).1 <= t /\ (get_daily_window_bounds p t).2 = t.
Proof.
  unfold get_daily_window_bounds. split; [|done]. simpl.
  destruct (is_calendar _); [apply day_start_le|unfold hours; lia].
Qed.

Lemma monthly_window p t :
  (get_monthly_window_bounds p t).1 <= t /\ (get_monthly_window_bounds p t).2 = t.
Proof.
  unfold get_monthly_window_bounds. split; [|done]. simpl.
  destruct (is_calendar _); [apply month_start_le|unfold hours; lia].
Qed.

(** * Volumes *)

(** A limit that is checked is respected by the exact sum. *)
Lemma check_limit_Ok v d l : dexp d = -2 -> 0 < l < 10 ^ 21 -> 0 <= v ->
  (check_limit v d (Some (dint l))).1 = true -> v + to_micro d <= l * 1000000.
Proof.
  intros Hd Hl Hv Hc. unfold check_limit in Hc.
  destruct (dleb (dint l) dzero) eqn:Hz.
  { apply dleb_spec, dle_0_r in Hz. simpl in Hz. lia. }
  simpl in Hc. apply dleb_spec in Hc. rewrite to_micro_cents by done.
  destruct (Z_le_gt_dec (v + coef d * 10000) (l * 1000000)) as [|Hgt]; [done|]. exfalso.
  set (y := micro (l * 1000000 + 1)).
  assert (Hy : dle y (dadd (micro v) d)).
  { apply dadd_ge.
    - change (Z.abs (l * 1000000 + 1) < 10 ^ 28).
      change (10 ^ 28) with 10000000000000000000000000000.
      change (10 ^ 21) with 1000000000000000000000 in Hl. lia.
    - rewrite <- dval_add_exact. apply (dle_at y (add_exact (micro v) d) (-6)); [done|..].
      + unfold add_exact, common_exp. simpl. rewrite Hd. done.
      + unfold y, micro, add_exact, common_exp, at_exp. cbn [coef dexp]. rewrite Hd.
        change (Z.min (-6) (-2)) with (-6). change (pow10 (-6 - -6)) with 1.
        change (pow10 (-2 - -6)) with 10000. lia. }
  assert (Hlt : dlt (dint l) y).
  { apply (dlt_at _ _ (-6)); [done|done|]. unfold at_exp, y, micro, dint. cbn [coef dexp].
    change (pow10 (0 - -6)) with 1000000. change (pow10 (-6 - -6)) with 1. lia. }
  pose proof (dlt_le_trans _ _ _ Hlt Hy) as Hc'. apply dleb_false in Hc'. by apply dleb_spec in Hc;
    rewrite Hc in Hc'.
Qed.

Section limits.
Context `{KycTiers} `{FraudScorer} `{FxRates} `{PinHash}.

(** The rows of the transactions after a fresh claim is booked. *)
Lemma fresh_transactions env s t news s' : ids_ok s -> tx_id t = st_next_tx s ->
  booked env (with_transactions (st_transactions s ++ [t]) (st_next_tx s + 1) s) t news s' ->
  st_transactions s'
  = st_transactions s ++ [TransactionRepository.set_status (now env) TransactionStatus.COMPLETED None t].
Proof.
  intros [_ Hn] Ht Hb. rewrite (bk_transactions _ _ _ _ _ Hb). simpl.
  unfold update_where at 1. rewrite fmap_app. fold (update_where (fun x => tx_id x =? tx_id t)
    (TransactionRepository.set_status (now env) TransactionStatus.COMPLETED None) (st_transactions s)).
  rewrite update_where_none.
  - simpl. by rewrite Z.eqb_refl.
  - intros x Hx. apply Z.eqb_neq. specialize (Hn (tx_id x) (list_elem_of_fmap_2 _ _ _ Hx)). lia.
Qed.

(** A fresh debit adds its amount to every volume whose window contains now. *)
Lemma booked_volume rules env s t a amount c s' (w : Z * Z) : wallet_ok s ->
  tx_id t = st_next_tx s ->
  (forall i, i ∈ vr_reversal_entry_ids rules -> i < Z.of_nat (length (st_entries s))) ->
  booked env (with_transactions (st_transactions s ++ [t]) (st_next_tx s + 1) s) t
    (one_entry t a EntryType.DEBIT amount c) s' ->
  w.1 <= now env <= w.2 ->
  volume rules s' (ac_id a) c w = volume rules s (ac_id a) c w + to_micro amount.
Proof.
  intros Hs Ht Hrev Hb Hw.
  pose proof (fresh_transactions _ _ _ _ _ (wo_tx_ids _ Hs) Ht Hb) as Etx.
  destruct (bk_rows _ _ _ _ _ Hb) as (rows & Een & Hrows). simpl in Een, Hrows.
  inversion Hrows as [|n e l l' Hne Hnil]; subst. inversion Hnil; subst. clear Hrows Hnil.
  destruct Hne as [W0 W1 W2 W3 W4 W5 _ W7]. simpl in W1, W2, W3, W4, W5.
  unfold volume. rewrite Een, List.filter_app, fmap_app, sum_app. f_equal.
  - do 2 f_equal. apply List.filter_ext_in. intros e0 He0%list_elem_of_In.
    do 2 f_equal. f_equal. unfold _add_transaction_status_filter. rewrite Etx, existsb_app. simpl.
    pose proof (io_next _ (wo_tx_ids _ Hs) _ (wo_entry_txs _ Hs _ He0)).
    destruct (Z.eqb_spec (tx_id t) (le_transaction_id e0)); [lia|]. simpl. by rewrite !orb_false_r.
  - simpl. unfold _build_base_query, of_account, is_debit. rewrite W2, W3, W4, !String.eqb_refl.
    rewrite bool_decide_eq_false_2 by (intros Hin%Hrev; lia).
    replace (_add_transaction_status_filter s' e) with true.
    + rewrite W7. destruct (Z.leb_spec w.1 (now env)), (Z.leb_spec (now env) w.2); try lia.
      simpl. rewrite W5. lia.
    + unfold _add_transaction_status_filter. rewrite Etx, existsb_app. simpl.
      by rewrite W1, Z.eqb_refl, !orb_true_r.
Qed.

Lemma volume_nonneg rules s a c w : wallet_ok s -> 0 <= volume rules s a c w.
Proof.
  intros Hs. apply sum_nonneg. intros e He. apply list_elem_of_In, List.filter_In in He as [He _].
  apply list_elem_of_In in He. pose proof (wo_entry_amounts _ Hs _ He). lia.
Qed.

(** What an allowed withdrawal of a personal wallet establishes. *)
Lemma withdraw_allowed env s a amount c :
  find_organisation env (ac_user_id a) = None ->
  single_checks env s a amount c "withdraw" = Ok tt ->
  let level := calculate_kyc_tier (ac_user_id a) in
  1 <= level <= 5
  /\ dle amount (lm_per_txn (get_limits env level))
  /\ (forall m, wc_max_withdrawal_amount (get_config (we_system_config env)) = Some m -> dle amount m)
  /\ check_regulatory_cumulative_limits env s (ac_id a) c amount level = inl tt.
Proof.
  intros Horg Hc level. unfold single_checks, _check_kyc_limits in Hc. bind Hc as ? Hk.
  bind Hk as ans Ha. simpl in Ha. unfold check_transaction_allowed in Ha. rewrite Horg in Ha.
  bind Ha as per Hper. unfold effective_per_txn in Hper. bind Hper as ceil Hceil.
  apply of_option_Ok in Hceil. injection Hper as <-. simpl in Ha. unfold get_user_kyc_level in Ha.
  fold level in Ha. destruct (can_withdraw _) eqn:Hcan; [|by injection Ha as <-].
  destruct (_ && (level =? 0)); [by injection Ha as <-|].
  destruct (dltb _ amount) eqn:Hamt; [by injection Ha as <-|]. injection Ha as <-. simpl in Hk.
  destruct (check_regulatory_cumulative_limits _ _ _ _ _ _) as [[]|] eqn:Hcum; [|done].
  apply dltb_false in Hamt. destruct (dmin_spec (lm_per_txn (get_limits env level)) ceil) as (Hm1 & Hm2 & _).
  assert (Hl : 1 <= level <= 5).
  { unfold get_limits, _get_live_limits, TIER_FEATURES in Hcan. simpl in Hcan.
    destruct ((1 <=? level) && (level <=? 5)) eqn:Hl; [lia|done]. }
  split; [done|]. split_and!; try done.
  - by transitivity (dmin (lm_per_txn (get_limits env level)) ceil).
  - intros m Hm. change (wc_max_withdrawal_amount (get_config (we_system_config env)) = Some ceil) in Hceil.
    rewrite Hm in Hceil. injection Hceil as <-.
    by transitivity (dmin (lm_per_txn (get_limits env level)) m).
Qed.

(** The limit of a tier in millionths; none is set when it is not positive. *)
Definition within (volume : Z) (limit : dec) : Prop :=
  0 < coef limit -> volume <= coef limit * 1000000.

(** A limit that is zero or was checked. *)
Definition checked (v : Z) (amount limit : dec) : Prop :=
  deqb limit dzero = true \/ (check_limit v amount (Some limit)).1 = true.

Lemma checked_within v amount x : dexp amount = -2 -> x < 10 ^ 21 -> 0 <= v ->
  checked v amount (dint x) -> within (v + to_micro amount) (dint x).
Proof.
  intros He Hx Hv [Hz|Hc] Hp; simpl in *.
  - apply deqb_spec, deq_coef in Hz; [simpl in Hz; lia|done].
  - by apply check_limit_Ok.
Qed.

Lemma cumulative_Ok env s id a c amount level : AccountRepository.get_by_id s id = Some a ->
  check_regulatory_cumulative_limits env s id c amount level = inl tt ->
  let l := get_limits env level in
  let rules := we_volume_rules env in
  checked (get_daily_volume rules s id c (we_now env)) amount (lm_daily l)
  /\ checked (get_monthly_volume rules s id c (we_now env)) amount (lm_monthly l).
Proof.
  intros Ha Hc l rules. unfold check_regulatory_cumulative_limits in Hc. rewrite Ha in Hc.
  fold l rules in Hc. unfold check_daily_limit, check_monthly_limit in Hc. unfold checked.
  revert Hc. generalize (deqb (lm_daily l) dzero), (deqb (lm_monthly l) dzero).
  generalize (check_limit (get_daily_volume rules s id c (we_now env)) amount (Some (lm_daily l))).1.
  generalize (check_limit (get_monthly_volume rules s id c (we_now env)) amount (Some (lm_monthly l))).1.
  intros [] [] [] []; simpl; auto; discriminate.
Qed.

(** C35: a withdrawal stays within the regulatory limits: after a personal
    wallet's first withdrawal under a key, the user has a tier from 1 to 5, the
    amount is at most the tier's limit per transaction and the operational
    ceiling, and the volume of the day and of the month, this withdrawal
    included, is at most the tier's limit wherever one is set. *)
Theorem withdrawal_within_limits env q s s' r a
  (Hs : wallet_ok s)
  (Hop : withdraw env q s = Ok (s', r))
  (Hfirst : rs_already_processed r = false)
  (Hkey : TransactionRepository.get_by_client_request_id s (wq_client_request_id q) = None)
  (Ha : AccountRepository.get_by_id s (wq_account_id q) = Some a)
  (Horg : find_organisation env (ac_user_id a) = None)
  (Hrev : forall i, i ∈ vr_reversal_entry_ids (we_volume_rules env) ->
            i < Z.of_nat (length (st_entries s))) :
  let level := calculate_kyc_tier (ac_user_id a) in
  let l := get_limits env level in
  let c := wq_currency q in
  coef (lm_daily l) < 10 ^ 21 -> coef (lm_monthly l) < 10 ^ 21 ->
  1 <= level <= 5
  /\ (exists amount, _quantize (wq_amount q) = Ok amount /\ dle amount (lm_per_txn l)
       /\ forall m, wc_max_withdrawal_amount (get_config (we_system_config env)) = Some m -> dle amount m)
  /\ within (get_daily_volume (we_volume_rules env) s' (ac_id a) c (we_now env)) (lm_daily l)
  /\ within (get_monthly_volume (we_volume_rules env) s' (ac_id a) c (we_now env)) (lm_monthly l).
Proof.
  intros level l c Hd Hm. apply withdraw_cases in Hop as (a' & amount & s1 & t & Ha' & _ & Hq & Hpos & _ & Hc & Hclaim & Hset).
  rewrite Ha in Ha'. injection Ha' as <-. destruct (withdraw_allowed _ _ _ _ _ Horg Hc) as (Hl & Hp & Hmax & Hcum).
  fold level l in Hl, Hp, Hcum. split; [done|]. split; [by exists amount|].
  destruct Hset as [_ [(_ & _ & E)|(_ & Hb & _)]]; [by rewrite E in Hfirst|].
  destruct Hclaim as (ty & am & c' & u & rr & md & (k & Ek & _ & [[Hk _]|(_ & Hn & ->)])%get_or_create_Ok);
    [by rewrite Ek, Hk in Hkey|].
  assert (He : dexp amount = -2) by (unfold _quantize, arith in Hq; by apply map_err_Ok, quantize_exp in Hq).
  pose proof (nt_id _ _ _ _ _ _ _ _ _ _ Hn) as Hid.
  assert (Hvol : forall w, w.1 <= now env /\ w.2 = now env ->
            volume (we_volume_rules env) s' (ac_id a) c w
            = volume (we_volume_rules env) s (ac_id a) c w + to_micro amount)
    by (intros w [Hw1 Hw2]; eapply booked_volume; try done; lia).
  rewrite <- (proj2 (get_account_Some _ _ _ Ha)) in Ha.
  destruct (cumulative_Ok _ _ _ _ _ _ _ Ha Hcum) as [Hday Hmonth]. fold l c in Hday, Hmonth.
  unfold get_daily_volume, get_monthly_volume.
  rewrite (Hvol _ (daily_window _ _)), (Hvol _ (monthly_window _ _)).
  split; apply (checked_within _ amount (coef (_ l))); try done; by apply volume_nonneg.
Qed.
End limits.
