(* ===== verification/WalletSample.v ===== *)
(** Concrete runs of the wallet: the theorems of LedgerLaws.v, WalletHistory.v and
    WalletLimits.v at an example with two accounts, and the runs that show where the
    code departs from its documentation. *)

From S2P Require Import Prelude Tables Decimal DecimalLaws Ledger RegulatoryVolume KycLimits.
From S2P Require Import WalletService LedgerLaws Bank WalletLaws WalletHistory WalletLimits.

Local Open Scope Z_scope.

Import LedgerRepository WalletService.

#[local] Instance tiers : KycTiers := fun _ => 2.
#[local] Instance fraud : FraudScorer := fun _ _ _ _ _ _ => "allow"%string.
#[local] Instance pins : PinHash := String.eqb.
(** One unit of any currency costs 3800 of any other. *)
#[local] Instance rates : FxRates := fun _ _ _ => Ok (dint 3800).

Definition open_account (id : string) (user : Z) (currency : string) : account := {|
  ac_info := {| ai_id := id; ai_owner_type := "user"; ai_user_id := Some user;
                ai_organisation_id := None; ai_currency := currency;
                ai_monthly_volume_limit := None; ai_status := "active";
                ai_account_type := "user_wallet"; ai_platform_account := false;
                ai_service_type := None |};
  ac_is_frozen := false;
  ac_frozen_reason := None;
  ac_frozen_at := None;
  ac_daily_volume := 0;
  ac_daily_volume_reset_at := None;
  ac_monthly_volume := 0;
  ac_monthly_volume_reset_at := None;
|}.

Definition user (id : Z) : pin_user := {|
  us_id := id;
  us_pin_hash := Some "1234"%string;
  us_pin_failed_attempts := 2;
  us_pin_locked_until := None;
|}.

Definition start : store := {|
  st_accounts := [open_account "A" 1 "UGX"; open_account "B" 2 "UGX"];
  st_transactions := [];
  st_entries := [];
  st_commissions := [];
  st_users := [user 1; user 2];
  st_next_tx := 1;
|}.

Definition config : app_config := {|
  cf_decimals := <["WALLET_MAX_DEPOSIT" := dint 100000]> ∅;
  cf_supported_currencies := ["USD"; "UGX"]%string;
  cf_commission_rules := ∅;
  cf_pin_max_attempts := 5;
  cf_pin_lock_minutes := 15;
|}.

(** A session of the user, three hours after the first midnight of 2025 in UTC. *)
Definition session (u : Z) : wallet_env := {|
  we_now := 20089 * hours 24 + hours 3;
  we_user := Some {| su_user_id := u; su_is_admin := false |};
  we_config := config;
  we_system_config := None;
  we_kyc_settings := ∅;
  we_organisations := [];
  we_volume_rules := {| vr_active_policy := None; vr_reversal_entry_ids := [] |};
  we_cashin_rate := None;
  we_cashout_rate := None;
|}.

Definition deposit_of (account key currency : string) (amount : Z) : deposit_request := {|
  dq_account_id := Some account;
  dq_amount := Some (dint amount);
  dq_currency := Some currency;
  dq_client_request_id := Some key;
  dq_metadata := None;
  dq_tx_type := TransactionType.DEPOSIT;
  dq_system_initiated := false;
  dq_user_id := None;
  dq_reference := None;
  dq_idempotency_key := None;
|}.

Definition withdraw_of (account key currency : string) (amount : Z) : withdraw_request := {|
  wq_account_id := account;
  wq_amount := dint amount;
  wq_currency := currency;
  wq_client_request_id := Some key;
  wq_metadata := None;
  wq_destination_agent := JNull;
  wq_tx_type := TransactionType.WITHDRAW;
  wq_agent_on_behalf := false;
  wq_system_initiated := false;
|}.

Definition transfer_of (key currency : string) (amount : Z) (fee : option dec)
    (fee_cur : option string) : transfer_request := {|
  tq_from_account_id := "A";
  tq_to_account_id := "B";
  tq_amount := dint amount;
  tq_currency := currency;
  tq_client_request_id := Some key;
  tq_metadata := None;
  tq_platform_fee := fee;
  tq_fee_currency := fee_cur;
  tq_pin := Some "1234"%string;
  tq_system_initiated := false;
|}.

Definition run_of : list event := [
  EDeposit (session 1) (deposit_of "A" "k1" "UGX" 20000);
  ETransfer (session 1) (transfer_of "k2" "UGX" 5000 (Some (cents 12550)) None);
  ETransfer (session 1) (transfer_of "k2" "UGX" 5000 (Some (cents 12550)) None);
  EWithdraw (session 2) (withdraw_of "B" "k3" "UGX" 1500)
].

(** The deposit, the transfer with its fee once, and the withdrawal. *)
Example run_balances :
  (balance (history run_of start) "A" "UGX", balance (history run_of start) "B" "UGX",
   total (history run_of start) "UGX")
  = (14874500000, 3500000000, 18374500000).
Proof. vm_compute. reflexivity. Qed.

(** * The theorems at this run *)

Ltac fees :=
  repeat first
    [ exact I
    | match goal with |- fees_covered (_ :: _) _ => split | |- fees_covered [] _ => exact I end
    | let from := fresh in let f := fresh in let Hf := fresh in let Hq := fresh in
      intros from f Hf Hq; vm_compute in Hf; injection Hf as <-; injection Hq as <-; by split ].

Lemma run_fees : fees_covered run_of start.
Proof. unfold run_of. fees. Qed.

Lemma start_ok : wallet_ok start.
Proof.
  split; try (intros ? Hin; by apply not_elem_of_nil in Hin).
  - vm_compute. repeat constructor; set_solver.
  - split; [constructor|]. intros ? Hin. by apply not_elem_of_nil in Hin.
  - constructor.
Qed.

Lemma wallet_refines_bank_witness :
  exists ops, performs run_of ops /\ run ops (bank_of start) (bank_of (history run_of start)).
Proof. exact (wallet_refines_bank run_of start run_fees). Defined.

Lemma balances_solvent_witness : 0 <= balance (history run_of start) "A" "UGX".
Proof.
  apply balances_solvent; [|exact run_fees]. intros a c. apply Z.eq_le_incl. reflexivity.
Defined.

Lemma wallet_well_formed_witness : wallet_ok (history run_of start).
Proof. exact (wallet_well_formed run_of start start_ok run_fees). Defined.

(** A withdrawal under the key of the deposit. *)
Definition reuse : event := EWithdraw (session 1) (withdraw_of "A" "k1" "UGX" 1000).

Definition after (e : event) (s : store) : store := do e s.

Lemma exec_do e s : is_ok (exec e s) = true -> exec e s = Ok (do e s).
Proof. unfold do. by destruct (exec e s). Qed.

Lemma first_runs : exec (EDeposit (session 1) (deposit_of "A" "k1" "UGX" 20000)) start
  = Ok (history (take 1 run_of) start).
Proof. apply exec_do. vm_compute. reflexivity. Qed.

Lemma reuse_runs : exec reuse (history (drop 1 run_of) (history (take 1 run_of) start))
  = Ok (do reuse (history (drop 1 run_of) (history (take 1 run_of) start))).
Proof. apply exec_do. vm_compute. reflexivity. Qed.

Lemma start_ids : ids_ok start.
Proof. exact (wo_tx_ids _ start_ok). Qed.

(** The withdrawal succeeds and posts nothing: the key is that of a deposit. *)
Lemma key_books_once_witness :
  st_entries (do reuse (history (drop 1 run_of) (history (take 1 run_of) start)))
  = st_entries (history (drop 1 run_of) (history (take 1 run_of) start)).
Proof.
  apply (key_books_once (drop 1 run_of) (EDeposit (session 1) (deposit_of "A" "k1" "UGX" 20000)) reuse
           start (history (take 1 run_of) start) _ "k1" start_ids first_runs eq_refl).
  - repeat constructor; discriminate.
  - exact reuse_runs.
  - reflexivity.
Defined.

Definition funded : store := history (take 1 run_of) start.
Definition fee_transfer : transfer_request := transfer_of "k2" "UGX" 5000 (Some (cents 12550)) None.

(** The store and the response of a successful operation. *)
Definition stored (m : outcome (store * response)) : store :=
  match m with Ok p => p.1 | Err _ => start end.
Definition answered (m : outcome (store * response)) : response :=
  match m with
  | Ok p => p.2
  | Err _ => {| rs_transaction_id := 0; rs_already_processed := true; rs_amount := dzero;
                rs_currency := ""; rs_balances := [] |}
  end.

Lemma outcome_ok (m : outcome (store * response)) :
  is_ok m = true -> m = Ok (stored m, answered m).
Proof. by destruct m as [[s r]|]. Qed.

Definition transferred : outcome (store * response) := transfer (session 1) fee_transfer funded.

Lemma transferred_ok :
  transfer (session 1) fee_transfer funded = Ok (stored transferred, answered transferred).
Proof. change (transferred = Ok (stored transferred, answered transferred)).
  apply outcome_ok. vm_compute. reflexivity. Qed.

Definition account_in (s : store) (id : string) : account :=
  default (open_account id 0 "") (AccountRepository.get_by_id s id).

Lemma sender_in : AccountRepository.get_by_id funded "A" = Some (account_in funded "A").
Proof. vm_compute. reflexivity. Qed.

Lemma recipient_in : AccountRepository.get_by_id funded "B" = Some (account_in funded "B").
Proof. vm_compute. reflexivity. Qed.

Lemma same_home : ac_currency (account_in funded "A") = ac_currency (account_in funded "B").
Proof. vm_compute. reflexivity. Qed.

Lemma fee_charged : fee_leaving fee_transfer (answered transferred) "UGX" = 125500000.
Proof. vm_compute. reflexivity. Qed.

(** The fee of 125.50 leaves the sender and reaches no account. *)
Lemma transfer_conserves_witness :
  total (stored transferred) "UGX" = total funded "UGX" - 125500000.
Proof.
  rewrite <- fee_charged.
  exact (transfer_conserves (session 1) fee_transfer funded (stored transferred) (answered transferred)
    (account_in funded "A") (account_in funded "B") "UGX" transferred_ok sender_in recipient_in same_home).
Defined.

(** The row a claim of "k9" inserts into the empty table. *)
Definition claimed_row : transaction := {|
  tx_id := 1;
  tx_client_request_id := "k9";
  tx_type := TransactionType.DEPOSIT;
  tx_status := TransactionStatus.PENDING;
  tx_amount := 25000000;
  tx_currency := "UGX";
  tx_user_id := Some 1;
  tx_recipient_user_id := None;
  tx_metadata := ∅;
  tx_created_at := 7;
  tx_completed_at := None;
  tx_failed_at := None;
  tx_failure_reason := None;
|}.

Lemma claimed_ok :
  TransactionRepository.get_or_create 7 (Some "k9"%string) TransactionType.DEPOSIT (dint 25) "UGX"
    (Some 1) None None start = Ok (with_transactions [claimed_row] 2 start, claimed_row).
Proof. vm_compute. reflexivity. Qed.

Lemma get_or_create_roundtrip_witness :
  TransactionRepository.get_by_client_request_id (with_transactions [claimed_row] 2 start) (Some "k9"%string)
  = Some claimed_row.
Proof. exact (proj1 (get_or_create_roundtrip _ _ _ _ _ _ _ _ _ _ _ claimed_ok)). Defined.

Definition payout : withdraw_request := withdraw_of "A" "k5" "UGX" 1500.
Definition withdrawn : outcome (store * response) := withdraw (session 1) payout funded.

Lemma withdrawn_ok : withdraw (session 1) payout funded = Ok (stored withdrawn, answered withdrawn).
Proof. change (withdrawn = Ok (stored withdrawn, answered withdrawn)).
  apply outcome_ok. vm_compute. reflexivity. Qed.

Lemma funded_ok : wallet_ok funded.
Proof. apply (wallet_well_formed (take 1 run_of) start start_ok). by split. Qed.

Lemma payout_fresh : rs_already_processed (answered withdrawn) = false.
Proof. vm_compute. reflexivity. Qed.

Lemma payout_key : TransactionRepository.get_by_client_request_id funded (wq_client_request_id payout) = None.
Proof. vm_compute. reflexivity. Qed.

Lemma personal : KYCLimitService.find_organisation (session 1) (ac_user_id (account_in funded "A")) = None.
Proof. vm_compute. reflexivity. Qed.

Lemma no_reversals i : i ∈ vr_reversal_entry_ids (we_volume_rules (session 1)) ->
  i < Z.of_nat (length (st_entries funded)).
Proof. intros Hi. by apply not_elem_of_nil in Hi. Qed.

Lemma tier_limits :
  coef (KYCLimitService.lm_daily (KYCLimitService.get_limits (session 1) 2)) < 10 ^ 21
  /\ coef (KYCLimitService.lm_monthly (KYCLimitService.get_limits (session 1) 2)) < 10 ^ 21.
Proof. by vm_compute. Qed.

(** The volume of the day is within the limit of tier 2. *)
Lemma withdrawal_within_limits_witness :
  within (RegulatoryVolumeCalculator.get_daily_volume (we_volume_rules (session 1))
            (stored withdrawn) (ac_id (account_in funded "A")) "UGX" (we_now (session 1)))
    (KYCLimitService.lm_daily (KYCLimitService.get_limits (session 1) 2)).
Proof.
  exact (proj1 (proj2 (proj2 (withdrawal_within_limits (session 1) payout funded (stored withdrawn)
    (answered withdrawn) (account_in funded "A") funded_ok withdrawn_ok payout_fresh payout_key sender_in
    personal no_reversals (proj1 tier_limits) (proj2 tier_limits))))).
Defined.

(** * Where the code departs from its documentation *)

(** A fee in another currency is not part of the balance check: the account ends
    with 1,000 US dollars less than nothing. *)
Example foreign_fee_overdraws :
  balance (do (ETransfer (session 1) (transfer_of "k6" "UGX" 5000 (Some (dint 1000)) (Some "USD"%string)))
             funded) "A" "USD" = -1000000000.
Proof. vm_compute. reflexivity. Qed.

(** A negative fee lowers what the balance must cover. *)
Example negative_fee_overdraws :
  balance (do (ETransfer (session 1) (transfer_of "k6" "UGX" 9000 (Some (dint (-8000))) None))
             (do (EWithdraw (session 1) (withdraw_of "A" "k7" "UGX" 9500))
                (do (EWithdraw (session 1) (withdraw_of "A" "k8" "UGX" 9500)) funded))) "A" "UGX"
  = -8000000000.
Proof. vm_compute. reflexivity. Qed.

(** A transfer asked in dollars between two shilling wallets moves as many
    shillings, with no conversion. *)
Example dollars_move_as_shillings :
  balance (do (ETransfer (session 1) (transfer_of "k6" "USD" 10 None None)) funded) "B" "UGX" = 10000000.
Proof. vm_compute. reflexivity. Qed.

(** A withdrawal reported as failed by the provider keeps its debit, and its key
    debits a second time. *)
Example failed_payout_debits_twice :
  let once := do (EWithdraw (session 1) payout) funded in
  let failed := do (EPayoutFailed "k5") once in
  let again := do (EWithdraw (session 1) payout) failed in
  (balance once "A" "UGX", balance failed "A" "UGX", balance again "A" "UGX")
  = (18500000000, 18500000000, 17000000000).
Proof. vm_compute. reflexivity. Qed.

(** A wrong PIN raises inside the block: the count of failed attempts is rolled
    back with it, so the lock after five attempts is never reached. *)
Definition guess (pin : string) : transfer_request := {|
  tq_from_account_id := "A";
  tq_to_account_id := "B";
  tq_amount := dint 10;
  tq_currency := "UGX";
  tq_client_request_id := Some "k6"%string;
  tq_metadata := None;
  tq_platform_fee := None;
  tq_fee_currency := None;
  tq_pin := Some pin;
  tq_system_initiated := false;
|}.

Example wrong_pins_never_lock :
  let tries := repeat (ETransfer (session 1) (guess "0000")) 20 in
  (st_users (history tries funded), is_ok (exec (ETransfer (session 1) (guess "1234")) (history tries funded)))
  = (st_users funded, true).
Proof. vm_compute. reflexivity. Qed.

(** The sixth tier has no limit in the configuration; "None or 0" makes it the
    limit zero, and every amount is over it. *)
Example corporate_tier_allows_nothing :
  KYCLimitService.lm_per_txn (KYCLimitService.get_limits (session 1) 5) = dzero.
Proof. vm_compute. reflexivity. Qed.

(** The default policy object holds the text "calendar", which is not the enum
    member: until it is reloaded its windows are rolling ones. *)
Example default_policy_is_rolling :
  VolumeWindowCalculator.get_daily_window_bounds (get_active_or_default None) (we_now (session 1))
  = (we_now (session 1) - hours 24, we_now (session 1)).
Proof. vm_compute. reflexivity. Qed.
