(* ===== verification/StayModel.v ===== *)
(** The tables behind an accommodation stay: listings, room types and their
    inventory blocks, blocked dates, room holds, availability rules, physical
    rooms, and the booking rows with the columns the booking service writes
    (app/accommodation/models/availability.py, room.py, property.py, booking.py). *)

From S2P Require Import Prelude Tables Decimal BookingModel BookingStates PaymentStates.
From S2P Require Import Cancellation Pricing.

Local Open Scope Z_scope.

(** * Availability (models/availability.py) *)

Inductive AccommodationBlockedReason : Type :=
  | BOOKED | TEMPORARY_HOLD | OWNER_BLOCKED | MAINTENANCE | SEASONAL.

#[export] Instance blocked_reason_eq : EqDecision AccommodationBlockedReason.
Proof. solve_decision. Defined.

#[export, refine] Instance blocked_reason_enum : PyEnum AccommodationBlockedReason := {
  enum_members := [BOOKED; TEMPORARY_HOLD; OWNER_BLOCKED; MAINTENANCE; SEASONAL];
  enum_value r := match r with
    | BOOKED => "booked" | TEMPORARY_HOLD => "temporary_hold" | OWNER_BLOCKED => "owner_blocked"
    | MAINTENANCE => "maintenance" | SEASONAL => "seasonal"
    end%string;
}.
Proof. all: solve_enum. Defined.

(** BlockedDate: one night of a property; (property, date) is unique. *)
Record BlockedDate : Type := {
  bl_id : Z;
  bl_property_id : Z;
  bl_blocked_date : date;
  bl_booking_id : option Z;
  bl_reason : string;
  bl_created_by : option Z;
  bl_created_at : Z;
}.

(** [blocked.reason = r; blocked.booking_id = b] *)
Definition book_row (r : string) (b : Z) (x : BlockedDate) : BlockedDate := {|
  bl_id := bl_id x;
  bl_property_id := bl_property_id x;
  bl_blocked_date := bl_blocked_date x;
  bl_booking_id := Some b;
  bl_reason := r;
  bl_created_by := bl_created_by x;
  bl_created_at := bl_created_at x;
|}.

(** RoomHold *)
Record RoomHold : Type := {
  rh_id : Z;
  rh_property_id : Z;
  rh_room_type_id : option Z;
  rh_booking_id : option Z;
  rh_guest_user_id : option Z;
  rh_check_in : date;
  rh_check_out : date;
  rh_units : Z;
  rh_hold_minutes : Z;
  rh_expires_at : Z;
  rh_status : string;
  rh_release_reason : option string;
  rh_hold_type : string;
  rh_approval_sla_hours : option Z;
}.

Definition hold_with (h : RoomHold) (status : string) (bid : option Z) (reason : option string)
    : RoomHold := {|
  rh_id := rh_id h;
  rh_property_id := rh_property_id h;
  rh_room_type_id := rh_room_type_id h;
  rh_booking_id := bid;
  rh_guest_user_id := rh_guest_user_id h;
  rh_check_in := rh_check_in h;
  rh_check_out := rh_check_out h;
  rh_units := rh_units h;
  rh_hold_minutes := rh_hold_minutes h;
  rh_expires_at := rh_expires_at h;
  rh_status := status;
  rh_release_reason := reason;
  rh_hold_type := rh_hold_type h;
  rh_approval_sla_hours := rh_approval_sla_hours h;
|}.

Definition mark_released (reason : string) (h : RoomHold) : RoomHold :=
  hold_with h "released" (rh_booking_id h) (Some reason).

Definition mark_expired (h : RoomHold) : RoomHold :=
  hold_with h "expired" (rh_booking_id h) (Some "Hold expired"%string).

Definition mark_converted (bid : Z) (h : RoomHold) : RoomHold :=
  hold_with h "converted" (Some bid) (Some "Converted to booking"%string).

Definition is_expired_flag (now : Z) (h : RoomHold) : bool :=
  String.eqb (rh_status h) "active" && (rh_expires_at h <=? now).

(** AvailabilityRule: a weekday (Monday is 0) or a range of dates. *)
Record AvailabilityRule : Type := {
  ar_property_id : Z;
  ar_day_of_week : option Z;
  ar_start_date : option date;
  ar_end_date : option date;
  ar_is_available : option bool;
}.

(** [date.weekday()] of the ordinal. *)
Definition weekday (d : date) : Z := (d + 6) mod 7.

Definition applies_to_date (r : AvailabilityRule) (check_date : date) : bool :=
  match ar_day_of_week r with
  | Some w => w =? weekday check_date
  | None => match ar_start_date r, ar_end_date r with
            | Some a, Some b => (a <=? check_date) && (check_date <=? b)
            | _, _ => false
            end
  end.

(** * Rooms (models/room.py) *)

Record RoomType : Type := {
  rt_id : Z;
  rt_property_id : Z;
  rt_max_guests : Z;
  rt_total_units : Z;
  rt_is_active : bool;
  rt_priced : PricingService.priced;
}.

(** InventoryBlockReason: the name and the value of each member. *)
Definition InventoryBlockReason : list (string * string) :=
  [("MAINTENANCE", "MAINTENANCE"); ("RENOVATION", "RENOVATION");
   ("SEASONAL_CLOSE", "SEASONAL_CLOSE"); ("OWNER_BLOCK", "OWNER_BLOCK");
   ("TEMPORARY_HOLD", "temporary_hold")]%string.

Record InventoryBlock : Type := {
  ib_room_type_id : Z;
  ib_booking_id : option Z;
  ib_date_range_start : date;
  ib_date_range_end : date;
  ib_units_blocked : Z;
  ib_reason : string;
  ib_created_by : option Z;
}.

(** The validator of [reason]: [None] is its ValueError. A member's name is
    replaced by the member's value, a member's value is kept. *)
Definition _validate_reason (value : string) : option string :=
  match List.find (fun m => String.eqb m.1 value) InventoryBlockReason with
  | Some m => Some m.2
  | None => if existsb (fun m => String.eqb m.2 value) InventoryBlockReason then Some value
            else if String.eqb value "temporary_hold" then Some value else None
  end.

(** A bulk UPDATE of reason and booking: it does not run the validator. *)
Definition book_block (r : string) (b : Z) (x : InventoryBlock) : InventoryBlock := {|
  ib_room_type_id := ib_room_type_id x;
  ib_booking_id := Some b;
  ib_date_range_start := ib_date_range_start x;
  ib_date_range_end := ib_date_range_end x;
  ib_units_blocked := ib_units_blocked x;
  ib_reason := r;
  ib_created_by := ib_created_by x;
|}.

Record Room : Type := {
  ro_id : Z;
  ro_property_id : Z;
  ro_room_type_id : Z;
  ro_is_active : bool;
  ro_status : string;
  ro_is_maintenance : bool;
}.

Definition room_with_status (st : string) (r : Room) : Room := {|
  ro_id := ro_id r;
  ro_property_id := ro_property_id r;
  ro_room_type_id := ro_room_type_id r;
  ro_is_active := ro_is_active r;
  ro_status := st;
  ro_is_maintenance := ro_is_maintenance r;
|}.

Definition release : Room -> Room := room_with_status "available".

(** RoomBooking. The class body defines columns check_in and check_out and
    then methods of the same names, so the mapped class has no such columns. *)
Record RoomBooking : Type := {
  rb_booking_id : Z;
  rb_room_id : Z;
  rb_status : string;
}.

Definition rb_checked_out (r : RoomBooking) : RoomBooking := {|
  rb_booking_id := rb_booking_id r;
  rb_room_id := rb_room_id r;
  rb_status := "checked_out";
|}.

(** * Listings (models/property.py) *)

Record Property : Type := {
  ls_id : Z;
  ls_status : string;
  ls_is_verified : bool;
  ls_is_active : bool;
  ls_is_deleted : bool;
  ls_booking_mode : string;
  ls_require_host_approval : option bool;
  ls_cancellation_policy : option string;
  ls_currency : option string;
  ls_min_stay_nights : Z;
  ls_max_stay_nights : option Z;
  ls_priced : PricingService.priced;
  ls_policy_violations : Z;
  ls_auto_suspend_threshold : Z;
  ls_is_suspended : bool;
  ls_suspension_reason : option string;
  ls_owner_user_id : option Z;
  ls_owner_org_id : option Z;
}.

Definition can_be_booked (p : Property) : bool :=
  str_in (ls_status p) ["active"; "published"]%string
  && ls_is_verified p && ls_is_active p && negb (ls_is_deleted p).

(** [record_policy_violation]'s writes. *)
Definition with_violation (p : Property) (suspend : option string) : Property := {|
  ls_id := ls_id p;
  ls_status := if is_some suspend then "suspended"%string else ls_status p;
  ls_is_verified := ls_is_verified p;
  ls_is_active := if is_some suspend then false else ls_is_active p;
  ls_is_deleted := ls_is_deleted p;
  ls_booking_mode := ls_booking_mode p;
  ls_require_host_approval := ls_require_host_approval p;
  ls_cancellation_policy := ls_cancellation_policy p;
  ls_currency := ls_currency p;
  ls_min_stay_nights := ls_min_stay_nights p;
  ls_max_stay_nights := ls_max_stay_nights p;
  ls_priced := ls_priced p;
  ls_policy_violations := ls_policy_violations p + 1;
  ls_auto_suspend_threshold := ls_auto_suspend_threshold p;
  ls_is_suspended := if is_some suspend then true else ls_is_suspended p;
  ls_suspension_reason := match suspend with Some r => Some r | None => ls_suspension_reason p end;
  ls_owner_user_id := ls_owner_user_id p;
  ls_owner_org_id := ls_owner_org_id p;
|}.

(** The listing as a booking sees it, on the listing's calendar day. *)
Definition listing_view (today : option date) (p : Property) : property := {|
  prop_id := ls_id p;
  prop_local_today := today;
  prop_booking_mode := ls_booking_mode p;
  prop_require_host_approval := truth (ls_require_host_approval p);
  prop_cancellation_policy := ls_cancellation_policy p;
|}.

(** * The booking row (models/booking.py) *)

(** [policy_snapshot["refund_workflow"]], a dictionary; its dates are left out. *)
Abbreviation refund_workflow := (gmap string meta_value).

(** [policy_snapshot["cancellation_outcome"]] *)
Record cancellation_outcome : Type := {
  co_policy : option string;
  co_phase : CancellationPhase;
  co_refundable_base : dec;
  co_refund : dec;
  co_fine : dec;
  co_nights_remaining : Z;
  co_days_until_checkin : Z;
  co_cancelled_by : option Z;
  co_from_status : string;
}.

(** Columns written once, when the booking is created (the approval deadline
    by the checkout page). *)
Record stay_terms : Type := {
  sy_room_type_id : option Z;
  sy_num_guests : Z;
  sy_rooms_requested : Z;
  sy_host_user_id : Z;
  sy_booked_by_user_id : Z;
  sy_booking_owner_id : option Z;
  sy_idempotency_key : option string;
  sy_created_at : Z;
  sy_approval_deadline : option Z;
  sy_is_deleted : bool;
}.

(** Columns of the host's decision and of the front desk. *)
Record stay_desk : Type := {
  sy_approved_by_user_id : option Z;
  sy_approval_reason : option string;
  sy_host_rejected_at : option Z;
  sy_host_rejection_reason : option string;
  sy_guarantee_type : option string;
  sy_assigned_room_id : option Z;
  sy_is_checked_in : bool;
  sy_checked_in_by : option Z;
  sy_is_checked_out : bool;
  sy_checked_out_by : option Z;
}.

Record stay : Type := {
  sy_booking :> booking;
  sy_terms :> stay_terms;
  sy_desk :> stay_desk;
  sy_outcome : option cancellation_outcome;
  sy_outcome_hmac : option string;
  sy_workflow : option refund_workflow;
}.

(** Writes of the columns that [booking_info] groups. *)
Definition set_info (b : booking) (i : booking_info) : booking := {|
  bk_info := i;
  bk_num_nights := bk_num_nights b;
  bk_total_amount := bk_total_amount b;
  bk_status := bk_status b;
  bk_payment_status := bk_payment_status b;
  bk_refund_amount := bk_refund_amount b;
  bk_refunded_at := bk_refunded_at b;
  bk_cancelled_at := bk_cancelled_at b;
  bk_cancelled_by_user_id := bk_cancelled_by_user_id b;
  bk_cancellation_reason := bk_cancellation_reason b;
  bk_paid_at := bk_paid_at b;
  bk_wallet_txn_id := bk_wallet_txn_id b;
  bk_payment_method := bk_payment_method b;
|}.

Section booking_info_writes.
Context (i : booking_info).

Let with_ (p : option property) (ci co : date) (paid due : option dec)
    (approved : option datetime) (guaranteed : option bool) : booking_info := {|
  bk_id := bk_id i;
  bk_reference := bk_reference i;
  bk_property_id := bk_property_id i;
  bk_property := p;
  bk_check_in := ci;
  bk_check_out := co;
  bk_nightly_rate := bk_nightly_rate i;
  bk_cleaning_fee := bk_cleaning_fee i;
  bk_service_fee := bk_service_fee i;
  bk_taxes := bk_taxes i;
  bk_currency := bk_currency i;
  bk_amount_paid := paid;
  bk_amount_due := due;
  bk_deposit_amount := bk_deposit_amount i;
  bk_guest_user_id := bk_guest_user_id i;
  bk_primary_guest_id := bk_primary_guest_id i;
  bk_guest_email := bk_guest_email i;
  bk_host_approved_at := approved;
  bk_expires_at := bk_expires_at i;
  bk_registration_deadline := bk_registration_deadline i;
  bk_payment_timing := bk_payment_timing i;
  bk_booking_flow_type := bk_booking_flow_type i;
  bk_payment_guaranteed := guaranteed;
  bk_policy_snapshot := bk_policy_snapshot i;
|}.

(** The [accommodation_property] relation, loaded. *)
Definition info_property (p : option property) : booking_info :=
  with_ p (bk_check_in i) (bk_check_out i) (bk_amount_paid i) (bk_amount_due i)
    (bk_host_approved_at i) (bk_payment_guaranteed i).

Definition info_dates (ci co : date) (due : option dec) : booking_info :=
  with_ (bk_property i) ci co (bk_amount_paid i) due (bk_host_approved_at i)
    (bk_payment_guaranteed i).

Definition info_paid (paid due : option dec) : booking_info :=
  with_ (bk_property i) (bk_check_in i) (bk_check_out i) paid due (bk_host_approved_at i)
    (Some true).

Definition info_approved (at_ : Z) : booking_info :=
  with_ (bk_property i) (bk_check_in i) (bk_check_out i) (bk_amount_paid i) (bk_amount_due i)
    (Some (Aware at_)) (bk_payment_guaranteed i).
End booking_info_writes.

(** [booking.refund_amount = r] *)
Definition set_refund_amount (b : booking) (r : dec) : booking := {|
  bk_info := bk_info b;
  bk_num_nights := bk_num_nights b;
  bk_total_amount := bk_total_amount b;
  bk_status := bk_status b;
  bk_payment_status := bk_payment_status b;
  bk_refund_amount := Some r;
  bk_refunded_at := bk_refunded_at b;
  bk_cancelled_at := bk_cancelled_at b;
  bk_cancelled_by_user_id := bk_cancelled_by_user_id b;
  bk_cancellation_reason := bk_cancellation_reason b;
  bk_paid_at := bk_paid_at b;
  bk_wallet_txn_id := bk_wallet_txn_id b;
  bk_payment_method := bk_payment_method b;
|}.

Definition with_booking (x : stay) (b : booking) : stay :=
  {| sy_booking := b; sy_terms := sy_terms x; sy_desk := sy_desk x;
     sy_outcome := sy_outcome x; sy_outcome_hmac := sy_outcome_hmac x;
     sy_workflow := sy_workflow x |}.

Definition with_desk (x : stay) (d : stay_desk) : stay :=
  {| sy_booking := sy_booking x; sy_terms := sy_terms x; sy_desk := d;
     sy_outcome := sy_outcome x; sy_outcome_hmac := sy_outcome_hmac x;
     sy_workflow := sy_workflow x |}.

Definition with_outcome (x : stay) (o : cancellation_outcome) (mac : string) : stay :=
  {| sy_booking := sy_booking x; sy_terms := sy_terms x; sy_desk := sy_desk x;
     sy_outcome := Some o; sy_outcome_hmac := Some mac; sy_workflow := sy_workflow x |}.

Definition with_workflow (x : stay) (w : refund_workflow) : stay :=
  {| sy_booking := sy_booking x; sy_terms := sy_terms x; sy_desk := sy_desk x;
     sy_outcome := sy_outcome x; sy_outcome_hmac := sy_outcome_hmac x; sy_workflow := Some w |}.

(** * The other tables, and the database *)

(** CancellationPenalty: the key is unique. *)
Record CancellationPenalty : Type := {
  pn_booking_id : Z;
  pn_amount : dec;
  pn_currency : string;
  pn_status : string;
  pn_idempotency_key : string;
}.

(** BookingPriceAdjustment *)
Record BookingPriceAdjustment : Type := {
  pa_booking_id : Z;
  pa_old_dates : date * date;
  pa_new_dates : date * date;
  pa_old_total_amount : dec;
  pa_new_total_amount : dec;
  pa_delta_amount : dec;
  pa_new_amount_due : dec;
  pa_refund_amount : dec;
  pa_changed_by_user_id : Z;
}.

(** GuestProfile: the columns a booking updates. *)
Record GuestProfile : Type := {
  gp_guest_user_id : Z;
  gp_preferred_currency : option string;
}.

(** [st_flags]: the entities ("accommodation_booking", id) of the open
    ContentFlag rows, a row each. *)
Record store : Type := {
  st_properties : list Property;
  st_room_types : list RoomType;
  st_rules : list AvailabilityRule;
  st_bookings : list stay;
  st_blocked : list BlockedDate;
  st_blocked_seq : Z;
  st_blocks : list InventoryBlock;
  st_holds : list RoomHold;
  st_rooms : list Room;
  st_room_bookings : list RoomBooking;
  st_payments : list AccommodationBookingPayment;
  st_penalties : list CancellationPenalty;
  st_adjustments : list BookingPriceAdjustment;
  st_profiles : list GuestProfile;
  st_flags : list Z;
  st_db : db;
}.

(** The writes of one table. *)
Section store_writes.
Context (s : store).

Let with_ pr bo bl sq ib ho ro pa pe ad gp d : store := {|
  st_properties := pr; st_room_types := st_room_types s; st_rules := st_rules s;
  st_bookings := bo; st_blocked := bl; st_blocked_seq := sq; st_blocks := ib; st_holds := ho;
  st_rooms := ro; st_room_bookings := pa.1; st_payments := pa.2; st_penalties := pe;
  st_adjustments := ad; st_profiles := gp; st_flags := st_flags s; st_db := d;
|}.

Let same_desk := (st_room_bookings s, st_payments s).

Definition with_properties (pr : list Property) : store :=
  with_ pr (st_bookings s) (st_blocked s) (st_blocked_seq s) (st_blocks s) (st_holds s) (st_rooms s)
    same_desk (st_penalties s) (st_adjustments s) (st_profiles s) (st_db s).
Definition with_bookings (bo : list stay) : store :=
  with_ (st_properties s) bo (st_blocked s) (st_blocked_seq s) (st_blocks s) (st_holds s)
    (st_rooms s) same_desk (st_penalties s) (st_adjustments s) (st_profiles s) (st_db s).
Definition with_blocked (bl : list BlockedDate) (sq : Z) : store :=
  with_ (st_properties s) (st_bookings s) bl sq (st_blocks s) (st_holds s)
    (st_rooms s) same_desk (st_penalties s) (st_adjustments s) (st_profiles s) (st_db s).
Definition with_blocks (ib : list InventoryBlock) : store :=
  with_ (st_properties s) (st_bookings s) (st_blocked s) (st_blocked_seq s) ib (st_holds s)
    (st_rooms s) same_desk (st_penalties s) (st_adjustments s) (st_profiles s) (st_db s).
Definition with_holds (ho : list RoomHold) : store :=
  with_ (st_properties s) (st_bookings s) (st_blocked s) (st_blocked_seq s) (st_blocks s) ho
    (st_rooms s) same_desk (st_penalties s) (st_adjustments s) (st_profiles s) (st_db s).
Definition with_rooms (ro : list Room) (ra : list RoomBooking) : store :=
  with_ (st_properties s) (st_bookings s) (st_blocked s) (st_blocked_seq s) (st_blocks s)
    (st_holds s) ro (ra, st_payments s) (st_penalties s) (st_adjustments s) (st_profiles s) (st_db s).
Definition with_payments (pa : list AccommodationBookingPayment) (d : db) : store :=
  with_ (st_properties s) (st_bookings s) (st_blocked s) (st_blocked_seq s) (st_blocks s)
    (st_holds s) (st_rooms s) (st_room_bookings s, pa) (st_penalties s) (st_adjustments s)
    (st_profiles s) d.
Definition with_penalties (pe : list CancellationPenalty) : store :=
  with_ (st_properties s) (st_bookings s) (st_blocked s) (st_blocked_seq s) (st_blocks s)
    (st_holds s) (st_rooms s) same_desk pe (st_adjustments s) (st_profiles s) (st_db s).
Definition with_adjustments (ad : list BookingPriceAdjustment) : store :=
  with_ (st_properties s) (st_bookings s) (st_blocked s) (st_blocked_seq s) (st_blocks s)
    (st_holds s) (st_rooms s) same_desk (st_penalties s) ad (st_profiles s) (st_db s).
Definition with_profiles (gp : list GuestProfile) : store :=
  with_ (st_properties s) (st_bookings s) (st_blocked s) (st_blocked_seq s) (st_blocks s)
    (st_holds s) (st_rooms s) same_desk (st_penalties s) (st_adjustments s) gp (st_db s).
Definition with_db (d : db) : store :=
  with_ (st_properties s) (st_bookings s) (st_blocked s) (st_blocked_seq s) (st_blocks s)
    (st_holds s) (st_rooms s) same_desk (st_penalties s) (st_adjustments s) (st_profiles s) d.
End store_writes.

Definition get_property (s : store) (pid : Z) : option Property :=
  List.find (fun p => ls_id p =? pid) (st_properties s).
Definition get_room_type (s : store) (rid : Z) : option RoomType :=
  List.find (fun r => rt_id r =? rid) (st_room_types s).
Definition get_stay (s : store) (bid : Z) : option stay :=
  List.find (fun b : stay => bk_id b =? bid) (st_bookings s).

(** The row of a loaded object is written back; the relation to the listing is
    not a column. *)
Definition stored (x : stay) : stay :=
  with_booking x (set_info x (info_property x None)).
Definition write_stay (s : store) (x : stay) : store :=
  with_bookings s (update_where (fun b : stay => bk_id b =? bk_id x) (fun _ => stored x)
                     (st_bookings s)).

(** * Signatures (services/marketplace_service.py) *)

(** [_refund_policy_booking_context] *)
Record signing_context : Type := {
  sc_booking_id : Z;
  sc_booking_reference : option string;
  sc_property_id : Z;
  sc_booked_by_user_id : Z;
  sc_host_user_id : Z;
  sc_currency : string;
}.

(** The payloads that are signed, each the JSON text of its parts with sorted
    keys. *)
Inductive signed_message : Type :=
  | RulesMessage (c : signing_context) (version : Z) (policy : option CancellationPolicy)
      (text : string)
  | OutcomeMessage (c : signing_context) (rules_signature : option string)
      (outcome : cancellation_outcome)
  | WorkflowMessage (c : signing_context) (rules_signature outcome_signature : option string)
      (w : refund_workflow).

(** When and where an operation runs: the instant, the server's calendar day,
    the day at each property ([None]: no usable time zone), the hold time
    configured in minutes, whether the anti-abuse checks are skipped, HMAC-SHA256
    under the signing key ([None]: no key is configured), and who holds an
    administrator's role. *)
Record env : Type := {
  now : Z;
  server_date : date;
  local_today : Z -> option date;
  hold_minutes_config : Z;
  development_mode : bool;
  signing : option (signed_message -> string);
  has_global_role : Z -> bool;
}.

(** [if x:] on an optional id. *)
Definition id_of (x : option Z) : option Z :=
  match x with Some n => if n =? 0 then None else Some n | None => None end.

(** A booking loaded with its listing. *)
Definition load (e : env) (s : store) (x : stay) : stay :=
  with_booking x (set_info x (info_property x
    (listing_view (local_today e (bk_property_id x)) <$> get_property s (bk_property_id x)))).
