(* ===== verification/Signing.v ===== *)
(** The signatures that tie a booking's policy, cancellation outcome and refund
    workflow to the booking: the signing half of class MarketplaceService in
    app/accommodation/services/marketplace_service.py. HMAC-SHA256 under the
    configured key is the function of the environment; a stored signature is the
    text the code writes there. *)

From S2P Require Import Prelude Tables Decimal BookingModel BookingStates PaymentStates.
From S2P Require Import Cancellation Pricing StayModel.

Module MarketplaceSignatures.

Definition rules_of (x : booking) : option snapshot_rules := bk_policy_snapshot x ≫= snap_rules.

Definition _refund_policy_booking_context (x : stay) : signing_context := {|
  sc_booking_id := bk_id x;
  sc_booking_reference := bk_reference x;
  sc_property_id := bk_property_id x;
  sc_booked_by_user_id := sy_booked_by_user_id x;
  sc_host_user_id := sy_host_user_id x;
  sc_currency := upper (default "" (bk_currency x));
|}.

(** [(rules or {}).get("hmac_sha256")] of the booking's rules. *)
Definition rules_signature (x : booking) : option string := rules_of x ≫= sr_hmac_sha256.

(** The payloads. *)
Definition rules_message (x : stay) (r : snapshot_rules) : signed_message :=
  RulesMessage (_refund_policy_booking_context x) (sr_version r) (sr_policy r) (sr_text r).

Definition outcome_message (x : stay) (o : cancellation_outcome) : signed_message :=
  OutcomeMessage (_refund_policy_booking_context x) (rules_signature x) o.

Definition unsigned (w : refund_workflow) : refund_workflow := delete "hmac_sha256"%string w.

Definition workflow_message (x : stay) (w : refund_workflow) : signed_message :=
  WorkflowMessage (_refund_policy_booking_context x) (rules_signature x) (sy_outcome_hmac x)
    (unsigned w).

Lemma unsigned_lookup w w' k : unsigned w = unsigned w' -> k <> "hmac_sha256"%string ->
  w !! k = w' !! k.
Proof.
  intros E Hk. rewrite <- (lookup_delete_ne w "hmac_sha256"%string k) by done.
  unfold unsigned in E. rewrite E. by apply lookup_delete_ne.
Qed.

(** [None]: "Refund policy signing key is not configured". *)
Section signing.
Context (e : env).

Definition sign (m : signed_message) : option string := (fun mac => mac m) <$> signing e.

Definition sign_cancellation_policy_rules (x : stay) (r : snapshot_rules) : option string :=
  sign (rules_message x r).

Definition sign_cancellation_outcome (x : stay) (o : cancellation_outcome) : option string :=
  sign (outcome_message x o).

Definition sign_refund_workflow (x : stay) (w : refund_workflow) : option string :=
  sign (workflow_message x w).

(** A missing or empty signature, and a key that is not configured, verify nothing. *)
Definition verifies (recorded : option string) (m : signed_message) : bool :=
  truthy recorded && bool_decide (sign m = recorded).

Definition verify_cancellation_policy_rules (x : stay) (r : snapshot_rules) : bool :=
  verifies (sr_hmac_sha256 r) (rules_message x r).

Definition verify_cancellation_outcome (x : stay) : bool :=
  match sy_outcome x with
  | Some o => verifies (sy_outcome_hmac x) (outcome_message x o)
  | None => false
  end.

(** The signature a workflow carries: a text. *)
Definition recorded_signature (w : refund_workflow) : option string :=
  match w !! "hmac_sha256"%string with Some (MText h) => Some h | _ => None end.

Definition verify_refund_workflow (x : stay) (w : refund_workflow) : bool :=
  verifies (recorded_signature w) (workflow_message x w).

(** The workflow is signed in the context of the snapshot it is stored in. *)
Definition _store_refund_workflow (x : stay) (w : refund_workflow) : option stay :=
  mac ← sign_refund_workflow x w;
  Some (with_workflow x (<["hmac_sha256"%string := MText mac]> (unsigned w))).

Lemma stored_workflow x y w : _store_refund_workflow x w = Some y -> exists w', y = with_workflow x w'
  /\ unsigned w' = unsigned w.
Proof.
  unfold _store_refund_workflow. destruct (sign_refund_workflow x w) as [mac|]; [|done].
  intros [= <-]. eexists. split; [done|]. unfold unsigned. rewrite delete_insert_id; [done|].
  apply lookup_delete_eq.
Qed.

(** What is stored verifies, unless the signature is the empty text. *)
Lemma stored_verifies x y w : _store_refund_workflow x w = Some y ->
  (forall m, sign m <> Some ""%string) ->
  exists w', sy_workflow y = Some w' /\ unsigned w' = unsigned w /\ verify_refund_workflow y w' = true.
Proof.
  unfold _store_refund_workflow, sign_refund_workflow. destruct (sign _) as [mac|] eqn:Hm; [|done].
  intros [= <-] Hne. eexists. split; [done|].
  assert (Hu : unsigned (<["hmac_sha256"%string := MText mac]> (unsigned w)) = unsigned w).
  { unfold unsigned. rewrite delete_insert_id; [done|]. apply lookup_delete_eq. }
  split; [done|]. unfold verify_refund_workflow, verifies, recorded_signature.
  rewrite lookup_insert_eq. apply andb_true_iff. split.
  - simpl. destruct (String.eqb_spec mac ""); [|done]. subst. by destruct (Hne _ Hm).
  - apply bool_decide_eq_true. rewrite <- Hm. f_equal. unfold workflow_message. by rewrite Hu.
Qed.

End signing.

End MarketplaceSignatures.
