(* ===== verification/Availability.v ===== *)
(** Availability of a property's nights and of a room type's units, blocked
    dates and holds: class AvailabilityService of
    app/accommodation/services/availability_service.py and
    HostService.available_units of host_service.py. Tables are lists in the
    order of their ids; a date range is check-in included, check-out excluded. *)

From S2P Require Import Prelude Tables Decimal BookingModel BookingStates PaymentStates.
From S2P Require Import BookingPolicy Cancellation Pricing StayModel.

Local Open Scope Z_scope.

(** What an operation answers instead of a result, with the values its message
    prints. *)
Inductive refusal : Type :=
  | Say (s : string)
  | DateNotAvailable (d : date)
  | OnlyUnits (available requested : Z)
  | InsufficientUnits (available requested : Z)
  | NotAvailable (why : refusal)                  (* "New dates are not available: ..." *)
  | TooManyGuests (guests rooms most : Z)
  | NotInState (status : string)
  | StayTooShort (nights least : Z)
  | StayTooLong (nights most : Z)
  | InsufficientRooms (available requested : Z)
  | CheckInTooEarly (check_in : date)
  | Adjustment (why : refusal)                    (* "Could not adjust ... to today: ..." *)
  | PolicyRefused (reason : BookingPolicy.message)
  | QuoteRefused (m : quote_message)
  | BadTransition (from to : string)
  | Raised (what : string).                       (* the text of a caught exception *)

Inductive answer (A : Type) : Type :=
  | Refused (m : refusal)
  | Done (a : A).
Arguments Refused {A} m.
Arguments Done {A} a.

Definition is_done {A} (a : answer A) : bool := match a with Done _ => true | Refused _ => false end.

(** The nights of a stay. *)
Definition nights (check_in check_out : date) : list date := seqZ check_in (check_out - check_in).

(** [BETWEEN check_in AND check_out - 1] *)
Definition in_nights (check_in check_out d : date) : bool := (check_in <=? d) && (d <=? check_out - 1).

Module HostService.

Definition ACTIVE_BOOKING_STATUSES : list string :=
  [enum_value CONFIRMED; enum_value CHECKED_IN; enum_value BookingModel.PENDING].

(** [if exclude_booking_id: query.filter(id != exclude_booking_id)] *)
Definition kept (exclude : option Z) (x : stay) : bool :=
  match id_of exclude with Some e => negb (bk_id x =? e) | None => true end.

Definition occupies (rid : Z) (check_in check_out : date) (exclude : option Z) (x : stay) : bool :=
  bool_decide (sy_room_type_id x = Some rid)
  && str_in (bk_status x) ACTIVE_BOOKING_STATUSES
  && (bk_check_in x <? check_out) && (check_in <? bk_check_out x)
  && kept exclude x.

Definition blocks_units (rid : Z) (check_in check_out : date) (b : InventoryBlock) : bool :=
  (ib_room_type_id b =? rid)
  && (ib_date_range_start b <? check_out) && (check_in <? ib_date_range_end b)
  && negb (String.eqb (ib_reason b) "booked").

Definition booked (s : store) (rid : Z) (check_in check_out : date) (exclude : option Z) : Z :=
  sum_Z (sy_rooms_requested ∘ sy_terms <$>
           List.filter (occupies rid check_in check_out exclude) (st_bookings s)).

Definition blocked (s : store) (rid : Z) (check_in check_out : date) : Z :=
  sum_Z (ib_units_blocked <$> List.filter (blocks_units rid check_in check_out) (st_blocks s)).

Definition available_units (s : store) (rid : Z) (check_in check_out : date)
    (exclude_booking_id : option Z) : Z :=
  match get_room_type s rid with
  | None => 0
  | Some room_type =>
      let available := rt_total_units room_type
                       - booked s rid check_in check_out exclude_booking_id
                       - blocked s rid check_in check_out in
      Z.max 0 available
  end.

End HostService.

Module AvailabilityService.

Definition active_room_types (s : store) (pid : Z) : list RoomType :=
  List.filter (fun r => (rt_property_id r =? pid) && rt_is_active r) (st_room_types s).

Definition row_at (s : store) (pid : Z) (d : date) : option BlockedDate :=
  List.find (fun x => (bl_property_id x =? pid) && (bl_blocked_date x =? d)) (st_blocked s).

(** The legacy query: a confirmed or checked-in booking of the property covers
    the night. *)
Definition covers (pid : Z) (d : date) (x : stay) : bool :=
  (bk_property_id x =? pid)
  && str_in (bk_status x) [enum_value CONFIRMED; enum_value CHECKED_IN]
  && (bk_check_in x <=? d) && (d <? bk_check_out x).

Definition is_date_available (s : store) (property_id : Z) (check_date : date)
    (exclude_booking_id : option Z) : bool :=
  match row_at s property_id check_date with
  | Some blocked =>
      match id_of exclude_booking_id with
      | Some e => bool_decide (bl_booking_id blocked = Some e)
      | None => false
      end
  | None =>
      let free :=
        match active_room_types s property_id with
        | [] => negb (existsb (fun x => covers property_id check_date x
                                        && HostService.kept exclude_booking_id x) (st_bookings s))
        | room_types =>
            existsb (fun rt => 0 <? HostService.available_units s (rt_id rt) check_date
                                      (check_date + 1) exclude_booking_id) room_types
        end in
      if negb free then false
      else match List.find (fun r => (ar_property_id r =? property_id)
                                     && applies_to_date r check_date) (st_rules s) with
           | Some rule => truth (ar_is_available rule)
           | None => true
           end
  end.

Definition is_range_available (s : store) (property_id : Z) (check_in check_out : date)
    (exclude_booking_id : option Z) : bool * list date * option refusal :=
  if check_out <=? check_in then (false, [], Some (Say "Check-out must be after check-in"))
  else
    let blocked_dates :=
      List.filter (fun d => negb (is_date_available s property_id d exclude_booking_id))
        (nights check_in check_out) in
    match blocked_dates with
    | d :: _ => (false, blocked_dates, Some (DateNotAvailable d))
    | [] => (true, [], None)
    end.

Record room_type_availability : Type := {
  ra_id : Z;
  ra_max_guests : Z;
  ra_total_units : Z;
  ra_available_units : Z;
  ra_is_available : bool;
  ra_can_accommodate_guests : bool;
  ra_rooms_needed : Z;
  ra_status : string;
  ra_blocked_dates : list date;
}.

Inductive python_error : Type := ZeroDivisionError.

Definition availability_of (s : store) (check_in check_out : date) (num_guests num_rooms : Z)
    (exclude : option Z) (rt : RoomType) : result python_error room_type_availability :=
  let available := HostService.available_units s (rt_id rt) check_in check_out exclude in
  require negb ((0 <? num_guests) && (rt_max_guests rt =? 0)) else ZeroDivisionError ;;
  let rooms_needed := if 0 <? num_guests
                      then Z.max 1 ((num_guests + rt_max_guests rt - 1) / rt_max_guests rt)
                      else num_rooms in
  let can_accommodate := (num_guests <=? rt_max_guests rt) || (rooms_needed <=? available) in
  let rooms_required := Z.max num_rooms rooms_needed in
  let blocked_dates :=
    List.filter (fun d => HostService.available_units s (rt_id rt) d (d + 1) exclude <=? 0)
      (nights check_in check_out) in
  let is_available := (rooms_required <=? available) && can_accommodate in
  let status := if is_available then "available"%string
                else if 0 <? available then "limited"%string else "sold_out"%string in
  Ok {|
    ra_id := rt_id rt;
    ra_max_guests := rt_max_guests rt;
    ra_total_units := rt_total_units rt;
    ra_available_units := available;
    ra_is_available := is_available;
    ra_can_accommodate_guests := can_accommodate;
    ra_rooms_needed := rooms_needed;
    ra_status := if negb (Nat.eqb (length blocked_dates) 0) && (0 <? available)
                 then "partial"%string else status;
    ra_blocked_dates := blocked_dates;
  |}.

Fixpoint collect {E A B} (f : A -> result E B) (l : list A) : result E (list B) :=
  match l with
  | [] => Ok []
  | x :: l => let* y := f x in let* ys := collect f l in Ok (y :: ys)
  end.

Definition get_room_type_availability (s : store) (property_id : Z) (check_in check_out : date)
    (num_guests num_rooms : Z) (exclude_booking_id : option Z)
    : result python_error (list room_type_availability) :=
  collect (availability_of s check_in check_out num_guests num_rooms exclude_booking_id)
    (active_room_types s property_id).

(** One turn of the loop of [block_dates]; the last component counts. *)
Definition block_night (now : Z) (pid : Z) (reason : string) (bid by_user : option Z)
    (acc : list BlockedDate * Z * Z) (d : date) : list BlockedDate * Z * Z :=
  let '(rows, seq, count) := acc in
  if existsb (fun x => (bl_property_id x =? pid) && (bl_blocked_date x =? d)) rows then acc
  else (rows ++ [{| bl_id := seq; bl_property_id := pid; bl_blocked_date := d;
                    bl_booking_id := bid; bl_reason := reason; bl_created_by := by_user;
                    bl_created_at := now |}], seq + 1, count + 1).

Definition block_dates (now : Z) (s : store) (property_id : Z) (check_in check_out : date)
    (reason : string) (booking_id created_by : option Z) : store * Z :=
  let '(rows, seq, blocked_count) :=
    foldl (block_night now property_id reason booking_id created_by)
      (st_blocked s, st_blocked_seq s, 0) (nights check_in check_out) in
  (with_blocked s rows seq, blocked_count).

(** Construct and insert a block; [None] is the validator's ValueError. *)
Definition add_block (s : store) (rid : Z) (check_in check_out : date) (units : Z)
    (reason : string) (bid by_user : option Z) : option store :=
  reason ← _validate_reason reason;
  Some (with_blocks s (st_blocks s ++ [{|
    ib_room_type_id := rid; ib_booking_id := bid; ib_date_range_start := check_in;
    ib_date_range_end := check_out; ib_units_blocked := units; ib_reason := reason;
    ib_created_by := by_user |}])).

Definition is_multi_unit (s : store) (room_type_id : option Z) : bool :=
  match id_of room_type_id ≫= get_room_type s with
  | Some room_type => 1 <? rt_total_units room_type
  | None => false
  end.

(** The flush of the RoomHold row; [None] when a CHECK constraint refuses it. *)
Definition add_hold (s : store) (h : RoomHold) : option (store * Z) :=
  if (0 <? rh_hold_minutes h) && (rh_check_in h <? rh_check_out h)
  then Some (with_holds s (st_holds s ++ [h]), rh_id h) else None.

(** Every hold answers its id. The blocked dates are committed before the hold
    is flushed, so they stay when the flush fails. *)
Definition create_hold (now : Z) (s : store) (property_id : Z) (check_in check_out : date)
    (created_by : Z) (room_type_id : option Z) (units hold_minutes : Z) (hold_type : string)
    (approval_sla_hours : Z) : store * answer Z :=
  let approval := String.eqb hold_type "approval" in
  let effective_minutes := if approval then approval_sla_hours * 60 else hold_minutes in
  let hold := {|
    rh_id := Z.of_nat (length (st_holds s)) + 1;
    rh_property_id := property_id; rh_room_type_id := room_type_id; rh_booking_id := None;
    rh_guest_user_id := Some created_by; rh_check_in := check_in; rh_check_out := check_out;
    rh_units := units; rh_hold_minutes := effective_minutes;
    rh_expires_at := now + minutes effective_minutes; rh_status := "active";
    rh_release_reason := None; rh_hold_type := hold_type;
    rh_approval_sla_hours := if approval then Some approval_sla_hours else None |} in
  let failed := Refused (Say "Could not hold dates. Please try again.") in
  match id_of room_type_id, is_multi_unit s room_type_id with
  | Some rid, true =>
      let available := HostService.available_units s rid check_in check_out None in
      if available <? units then (s, Refused (OnlyUnits available units))
      else match add_block s rid check_in check_out units (enum_value TEMPORARY_HOLD) None
                   (Some created_by) ≫= fun s' => add_hold s' hold with
           | Some (s', hid) => (s', Done hid)
           | None => (s, failed)
           end
  | _, _ =>
      let '(s', blocked_count) :=
        block_dates now s property_id check_in check_out (enum_value TEMPORARY_HOLD) None
          (Some created_by) in
      if blocked_count =? 0 then (s', Refused (Say "Dates are already on hold"))
      else match add_hold s' hold with
           | Some (s', hid) => (s', Done hid)
           | None => (s', failed)
           end
  end.

(** [if created_by: query.filter(column == created_by)] *)
Definition by_filter (created_by column : option Z) : bool :=
  match id_of created_by with Some u => bool_decide (column = Some u) | None => true end.

Definition temporary (x : BlockedDate) : bool := String.eqb (bl_reason x) (enum_value TEMPORARY_HOLD).

Definition delete_blocked (s : store) (cond : BlockedDate -> bool) : store * Z :=
  (with_blocked s (List.filter (negb ∘ cond) (st_blocked s)) (st_blocked_seq s),
   rowcount cond (st_blocked s)).

Definition release_hold (s : store) (property_id : Z) (check_in check_out : date)
    (created_by : option Z) : store * Z :=
  let '(s1, result) := delete_blocked s (fun x =>
    (bl_property_id x =? property_id) && in_nights check_in check_out (bl_blocked_date x)
    && temporary x && by_filter created_by (bl_created_by x)) in
  let holds := update_where (fun h =>
      (rh_property_id h =? property_id) && (rh_check_in h =? check_in)
      && (rh_check_out h =? check_out) && String.eqb (rh_status h) "active"
      && by_filter created_by (rh_guest_user_id h))
    (mark_released "Released by checkout flow") (st_holds s1) in
  (with_holds s1 holds, result).

Record sweep_page : Type := {
  sp_released : Z;
  sp_has_more : bool;
  sp_after_blocked_id : Z;
  sp_after_room_hold_id : Z;
}.

(** The page's cursor: the last id of a full page. *)
Definition cursor {A} (id : A -> Z) (batch_size : Z) (page : list A) (after : Z) : Z :=
  if batch_size <=? Z.of_nat (length page)
  then match list.last page with Some x => id x | None => after end
  else after.

Definition release_expired_holds (now : Z) (s : store)
    (hold_minutes batch_size after_blocked_id after_room_hold_id : Z) : store * sweep_page :=
  let batch_size := Z.max 1 (Z.min batch_size 100) in
  let n := Z.to_nat batch_size in
  let expired_time := now - minutes hold_minutes in
  let after_blocked_id := Z.max 0 after_blocked_id in
  let after_room_hold_id := Z.max 0 after_room_hold_id in
  let expired_blocked := firstn n (List.filter (fun x =>
    temporary x && (bl_created_at x <? expired_time) && (after_blocked_id <? bl_id x)) (st_blocked s)) in
  let '(s1, _) := delete_blocked s (fun x => existsb (fun y => bl_id y =? bl_id x) expired_blocked) in
  let expired_room_holds := firstn n (List.filter (fun h =>
    String.eqb (rh_status h) "active" && (rh_expires_at h <=? now)
    && (after_room_hold_id <? rh_id h)) (st_holds s1)) in
  let s2 := with_holds s1 (update_where
    (fun h => existsb (fun y => rh_id y =? rh_id h) expired_room_holds) mark_expired (st_holds s1)) in
  (s2, {|
    sp_released := Z.of_nat (length expired_blocked) + Z.of_nat (length expired_room_holds);
    sp_has_more := (batch_size <=? Z.of_nat (length expired_blocked))
                   || (batch_size <=? Z.of_nat (length expired_room_holds));
    sp_after_blocked_id := cursor bl_id batch_size expired_blocked after_blocked_id;
    sp_after_room_hold_id := cursor rh_id batch_size expired_room_holds after_room_hold_id;
  |}).

Definition unblock_dates (s : store) (property_id : Z) (check_in check_out : date)
    (booking_id : option Z) (reason : option string) : store * Z :=
  delete_blocked s (fun x =>
    (bl_property_id x =? property_id) && in_nights check_in check_out (bl_blocked_date x)
    && by_filter booking_id (bl_booking_id x)
    && (if truthy reason then bool_decide (Some (bl_reason x) = reason) else true)).

Definition release_room_type_blocks (s : store) (room_type_id : Z) (check_in check_out : date)
    (booking_id : option Z) : store * Z :=
  let cond b := (ib_room_type_id b =? room_type_id) && (ib_date_range_start b =? check_in)
                && (ib_date_range_end b =? check_out) && by_filter booking_id (ib_booking_id b) in
  (with_blocks s (List.filter (negb ∘ cond) (st_blocks s)), rowcount cond (st_blocks s)).

Definition expire_hold (s : store) (hold : RoomHold) : store :=
  let '(s1, _) := delete_blocked s (fun x =>
    (bl_property_id x =? rh_property_id hold)
    && in_nights (rh_check_in hold) (rh_check_out hold) (bl_blocked_date x)
    && temporary x && is_some (rh_guest_user_id hold)
    && bool_decide (bl_created_by x = rh_guest_user_id hold)) in
  let s2 := match id_of (rh_room_type_id hold) with
            | Some rid => (release_room_type_blocks s1 rid (rh_check_in hold) (rh_check_out hold)
                             (rh_booking_id hold)).1
            | None => s1
            end in
  with_holds s2 (update_where (fun h => rh_id h =? rh_id hold) mark_expired (st_holds s2)).

Definition expire_room_holds (now : Z) (s : store) : store * Z :=
  let expired_holds := List.filter (is_expired_flag now) (st_holds s) in
  (foldl expire_hold s expired_holds, Z.of_nat (length expired_holds)).

Definition get_available_dates (s : store) (property_id : Z) (start_date end_date : date)
    (max_dates : Z) : list date :=
  let end_limit := Z.min end_date (start_date + max_dates) in
  List.filter (fun d => is_date_available s property_id d None)
    (seqZ start_date (end_limit - start_date + 1)).

Definition get_available_units (s : store) (room_type_id : Z) (check_in check_out : date)
    (exclude_booking_id : option Z) : Z :=
  HostService.available_units s room_type_id check_in check_out exclude_booking_id.

Definition is_room_type_available (s : store) (room_type_id : Z) (check_in check_out : date)
    (requested_units : Z) : bool * option refusal :=
  let available := get_available_units s room_type_id check_in check_out None in
  if requested_units <=? available then (true, None)
  else (false, Some (OnlyUnits available requested_units)).

(** The constructor's ValueError is caught: the answer is its text. *)
Definition block_room_type_units (s : store) (room_type_id : Z) (check_in check_out : date)
    (units_to_block : Z) (reason : string) (booking_id created_by : option Z)
    : store * answer unit :=
  match get_room_type s room_type_id with
  | None => (s, Refused (Say "Room type not found"))
  | Some _ =>
      let available := get_available_units s room_type_id check_in check_out None in
      if available <? units_to_block then (s, Refused (InsufficientUnits available units_to_block))
      else match add_block s room_type_id check_in check_out units_to_block reason booking_id
                   created_by with
           | Some s' => (s', Done tt)
           | None => (s, Refused (Raised ("Invalid InventoryBlock.reason: " +:+ reason)))
           end
  end.

Definition check_availability_for_dates (s : store) (property_id : Z) (check_in check_out : date)
    (exclude_booking_id room_type_id : option Z) (units_needed : Z)
    : bool * list date * option refusal :=
  if check_out <=? check_in then (false, [], Some (Say "Check-out must be after check-in"))
  else match id_of room_type_id with
       | Some rid =>
           let available := get_available_units s rid check_in check_out exclude_booking_id in
           if available <? units_needed then (false, [], Some (OnlyUnits available units_needed))
           else (true, [], None)
       | None => is_range_available s property_id check_in check_out exclude_booking_id
       end.

End AvailabilityService.
