(* ===== verification/BookingService.v ===== *)
(** Creating, deciding, moving and ending an accommodation booking: class
    BookingService of app/accommodation/services/booking_service.py, with the
    anti-abuse checks (abuse_prevention_service.py), the creation of a default
    booking policy (payment_policy_service.py) and the task that expires
    unapproved bookings (app/tasks/accommodation_reminders.py). An operation
    catches its exceptions and rolls back to its last commit, so it answers a
    store even when it refuses. *)

From stdpp Require Import pretty.
From S2P Require Import Prelude Tables Decimal BookingModel BookingStates PaymentStates.
From S2P Require Import BookingPolicy Cancellation Booking Pricing StayModel Signing Availability.

Local Open Scope Z_scope.

Import AvailabilityService.

(** [if c: return None, m] *)
Notation "'refuse_if' c 'with' m ';;' k" := (if c then Refused m else k)
  (at level 10, c at level 99, m at level 99, k at level 200) : py_scope.

(** The server's clock runs in UTC, so that [datetime.now()] without a zone
    compares with the stored instants. *)
Module AbusePreventionService.

Definition MAX_USER_HOLDS : Z := 5.
Definition MAX_PROPERTY_HOLDS : Z := 10.

(** A pending booking that has not expired. *)
Definition pending_hold (now : Z) (x : stay) : bool :=
  str_in (bk_status x) [enum_value BookingModel.PENDING; enum_value PENDING_APPROVAL]
  && match bk_expires_at x with Some t => now <? as_utc t | None => false end.

Definition of_guest (user_id : Z) (x : stay) : bool := bool_decide (bk_guest_user_id x = Some user_id).

Definition check_user_hold_limit (now : Z) (s : store) (user_id : Z) : option refusal :=
  if MAX_USER_HOLDS <=? rowcount (fun x => of_guest user_id x && pending_hold now x) (st_bookings s)
  then Some (Say "Too many active bookings. Complete or wait.") else None.

Definition check_property_hold_limit (now : Z) (s : store) (property_id : Z) : option refusal :=
  if MAX_PROPERTY_HOLDS <=? rowcount (fun x : stay => (bk_property_id x =? property_id)
                                                     && pending_hold now x) (st_bookings s)
  then Some (Say "High demand. Try again shortly.") else None.

Definition check_rate_limit (now : Z) (s : store) (user_id : Z) : option refusal :=
  let since ago := rowcount (fun x => of_guest user_id x && (now - ago <=? sy_created_at x))
                     (st_bookings s) in
  if 3 <=? since (minutes 1) then Some (Say "Too many requests. Slow down.")
  else if 10 <=? since (hours 1) then Some (Say "Too many booking attempts. Try later.")
  else None.

(** [failed / total > 0.8], the quotient rounded to a double like 0.8 itself. *)
Definition detect_suspicious_behavior (s : store) (user_id : Z) : option refusal :=
  let total := rowcount (of_guest user_id) (st_bookings s) in
  if total <? 5 then None
  else
    let failed := rowcount (fun x => of_guest user_id x
      && negb (String.eqb (bk_payment_status x) (enum_value APS_PAID))) (st_bookings s) in
    if 4 * total <? 5 * failed
    then Some (Say "Suspicious activity detected. Please verify your account.") else None.

End AbusePreventionService.

Module PaymentPolicyService.

(** A row inserted with the column defaults. *)
Definition default_policy (pid : Z) : PropertyBookingPolicy := {|
  bp_property_id := pid;
  bp_cancellation_policy := Some "flexible"%string;
  bp_free_cancel_hours := 24;
  bp_allow_pay_now := Some true;
  bp_allow_pay_on_arrival := Some false;
  bp_allow_pay_at_checkout := Some false;
  bp_allow_deposit_payment := Some false;
  bp_deposit_percentage := Some (cents 0);
  bp_require_payment_guarantee := Some false;
  bp_require_guest_identity := Some false;
|}.

Definition with_policy (d : db) (p : PropertyBookingPolicy) : db := {|
  db_registrations := db_registrations d;
  db_policies := db_policies d ++ [p];
  db_cancellation_policies := db_cancellation_policies d;
  db_history := db_history d;
|}.

Definition get_policy (s : store) (property_id : Z) : option PropertyBookingPolicy :=
  find_policy (st_db s) property_id.

(** Commits when it inserts. *)
Definition get_or_create_policy (s : store) (property_id : Z) : store * PropertyBookingPolicy :=
  match get_policy s property_id with
  | Some policy => (s, policy)
  | None => let policy := default_policy property_id in
            (with_db s (with_policy (st_db s) policy), policy)
  end.

End PaymentPolicyService.

Module BookingService.

Import PaymentPolicyService MarketplaceSignatures.

(** The arguments of [create_booking] that a later decision reads. *)
Record create_request : Type := {
  bq_property_id : Z;
  bq_guest_user_id : Z;
  bq_host_user_id : Z;
  bq_check_in : date;
  bq_check_out : date;
  bq_num_guests : Z;
  bq_rooms_requested : Z;
  bq_guest_email : option string;
  bq_idempotency_key : option string;
  bq_booked_by_user_id : option Z;
  bq_primary_guest_id : option Z;
  bq_primary_guest_email : option string;
  bq_room_type_id : option Z;
  bq_skip_hold_creation : bool;
  bq_payment_method : option string;
  bq_payment_timing : option string;
  bq_payment_guaranteed : option bool;
  bq_guarantee_type : option string;
  bq_booking_owner_id : option Z;
  bq_ip_address : option string;
  bq_user_agent : option string;
}.

Definition _determine_booking_flow_type (s : store) (p : Property) (payment_timing : option string)
    : store * string :=
  let instant_if_pay_now :=
    let '(s', policy) := get_or_create_policy s (ls_id p) in
    (s', if truth (bp_allow_pay_now policy) then "instant" else "host_approval")%string in
  if String.eqb (ls_booking_mode p) "host_approval" then (s, "host_approval"%string)
  else if negb (truthy payment_timing) then instant_if_pay_now
  else
    let timing := lower (default ""%string payment_timing) in
    if String.eqb timing "pay_on_arrival" then (s, "pay_on_arrival_approval"%string)
    else if String.eqb timing "invoice" then (s, "invoice_approval"%string)
    else if String.eqb timing "deposit" then
      let '(s', policy) := get_or_create_policy s (ls_id p) in
      (s', if truth (bp_require_payment_guarantee policy)
           then "deposit_approval"%string else "deposit_approval"%string)
    else if String.eqb timing "pay_now" then instant_if_pay_now
    else (s, "host_approval"%string).

(** [query.filter_by(idempotency_key=key, guest_user_id=guest).first()] *)
Definition find_by_key (s : store) (q : create_request) : option stay :=
  if truthy (bq_idempotency_key q) then
    List.find (fun x : stay => bool_decide (sy_idempotency_key x = bq_idempotency_key q)
                        && bool_decide (bk_guest_user_id x = Some (bq_guest_user_id q)))
      (st_bookings s)
  else None.

Definition resolve_room_type (s : store) (q : create_request) : option Z :=
  match id_of (bq_room_type_id q) with
  | Some rid => Some rid
  | None => rt_id <$> head (active_room_types s (bq_property_id q))
  end.

(** The guest count must fit the rooms requested. *)
Definition occupancy (s : store) (q : create_request) (room_type_id : option Z) : option refusal :=
  rt ← id_of room_type_id ≫= get_room_type s;
  let most := bq_rooms_requested q * rt_max_guests rt in
  if most <? bq_num_guests q
  then Some (TooManyGuests (bq_num_guests q) (bq_rooms_requested q) most) else None.

Definition anti_abuse (e : env) (s : store) (q : create_request) : option refusal :=
  if development_mode e then None
  else
    match AbusePreventionService.check_user_hold_limit (now e) s (bq_guest_user_id q) with
    | Some m => Some m
    | None =>
        match AbusePreventionService.check_property_hold_limit (now e) s (bq_property_id q) with
        | Some m => Some m
        | None =>
            match AbusePreventionService.check_rate_limit (now e) s (bq_guest_user_id q) with
            | Some m => Some m
            | None => AbusePreventionService.detect_suspicious_behavior s (bq_guest_user_id q)
            end
        end
    end.

Definition check_inventory (s : store) (q : create_request) (room_type_id : option Z)
    : option refusal :=
  if bq_skip_hold_creation q then None
  else
    let short :=
      match id_of room_type_id with
      | Some rid =>
          let available := HostService.available_units s rid (bq_check_in q) (bq_check_out q) None in
          if available <? bq_rooms_requested q
          then Some (OnlyUnits available (bq_rooms_requested q)) else None
      | None => None
      end in
    match short with
    | Some m => Some m
    | None =>
        let '(is_available, _, error) :=
          is_range_available s (bq_property_id q) (bq_check_in q) (bq_check_out q) None in
        if is_available then None
        else Some (default (Say "Selected dates are not available") error)
    end.

(** Before anything is written: the listing and the room type to book, or the
    booking an earlier request with the same key made. *)
Inductive admission : Type :=
  | Existing (x : stay)
  | Accepted (p : Property) (room_type_id : option Z).

Definition unable {A} : answer A := Refused (Say "Unable to create booking. Please try again.").

Definition check_request (e : env) (s : store) (q : create_request) : answer admission :=
  refuse_if bq_check_out q <=? bq_check_in q with Say "Check-out must be after check-in" ;;
  refuse_if bq_rooms_requested q <? 1 with Say "At least one room must be requested" ;;
  match get_property s (bq_property_id q) with
  | None => unable                                       (* scalar_one: NoResultFound *)
  | Some p =>
      refuse_if negb (can_be_booked p) with Say "Property is not available for booking" ;;
      match find_by_key s q with
      | Some existing => Done (Existing existing)
      | None =>
          let room_type_id := resolve_room_type s q in
          match occupancy s q room_type_id with
          | Some m => Refused m
          | None =>
              match anti_abuse e s q with
              | Some m => Refused m
              | None =>
                  match check_inventory s q room_type_id with
                  | None => Done (Accepted p room_type_id)
                  | Some m => match find_by_key s q with
                              | Some winner => Done (Existing winner)
                              | None => Refused m
                              end
                  end
              end
          end
      end
  end.

Definition price (s : store) (p : Property) (q : create_request) (room_type_id : option Z)
    : result pricing_error PricingService.breakdown :=
  PricingService.calculate_total (fun rid => rt_priced <$> get_room_type s rid) (ls_priced p)
    (bq_check_in q) (bq_check_out q) room_type_id 1 dzero dzero dzero None.

Definition str_opt_or (a b : option string) : option string := if truthy a then a else b.

(** The row [AccommodationBooking(...)] inserts. *)
Definition new_stay (e : env) (q : create_request) (bid : Z) (reference : string) (p : Property)
    (room_type_id : option Z) (pricing : PricingService.breakdown) (flow : string) : stay := {|
  sy_booking := {|
    bk_info := {|
      bk_id := bid; bk_reference := Some reference; bk_property_id := bq_property_id q;
      bk_property := None; bk_check_in := bq_check_in q; bk_check_out := bq_check_out q;
      bk_nightly_rate := PricingService.bd_nightly_rate pricing;
      bk_cleaning_fee := Some (PricingService.bd_cleaning_fee pricing);
      bk_service_fee := Some (PricingService.bd_service_fee pricing);
      bk_taxes := Some (PricingService.bd_taxes pricing); bk_currency := ls_currency p;
      bk_amount_paid := Some (cents 0); bk_amount_due := Some (cents 0);
      bk_deposit_amount := Some (cents 0); bk_guest_user_id := Some (bq_guest_user_id q);
      bk_primary_guest_id := bq_primary_guest_id q;
      bk_guest_email := str_opt_or (bq_primary_guest_email q) (bq_guest_email q);
      bk_host_approved_at := None;
      bk_expires_at := Some (Aware (now e + minutes (hold_minutes_config e)));
      bk_registration_deadline := None; bk_payment_timing := bq_payment_timing q;
      bk_booking_flow_type := Some flow;
      bk_payment_guaranteed := Some (default false (bq_payment_guaranteed q));
      bk_policy_snapshot := None |};
    bk_num_nights := PricingService.bd_nights pricing;
    bk_total_amount := PricingService.bd_total pricing;
    bk_status := enum_value DRAFT; bk_payment_status := enum_value APS_PENDING;
    bk_refund_amount := Some (cents 0); bk_refunded_at := None; bk_cancelled_at := None;
    bk_cancelled_by_user_id := None; bk_cancellation_reason := None; bk_paid_at := None;
    bk_wallet_txn_id := None; bk_payment_method := bq_payment_method q |};
  sy_terms := {|
    sy_room_type_id := room_type_id; sy_num_guests := bq_num_guests q;
    sy_rooms_requested := bq_rooms_requested q; sy_host_user_id := bq_host_user_id q;
    sy_booked_by_user_id := default (bq_guest_user_id q) (id_of (bq_booked_by_user_id q));
    sy_booking_owner_id := bq_booking_owner_id q; sy_idempotency_key := bq_idempotency_key q;
    sy_created_at := now e; sy_approval_deadline := None; sy_is_deleted := false |};
  sy_desk := {|
    sy_approved_by_user_id := None; sy_approval_reason := None; sy_host_rejected_at := None;
    sy_host_rejection_reason := None;
    sy_guarantee_type := Some (str_or (bq_guarantee_type q) "none");
    sy_assigned_room_id := None; sy_is_checked_in := false; sy_checked_in_by := None;
    sy_is_checked_out := false; sy_checked_out_by := None |};
  sy_outcome := None;
  sy_outcome_hmac := None;
  sy_workflow := None;
|}.

(** The flush of the new row: unique reference and key, at least one guest and
    one night. [None] is the IntegrityError. *)
Definition insert_stay (s : store) (x : stay) : option store :=
  if existsb (fun y : stay => bool_decide (bk_reference y = bk_reference x)
                       || (is_some (sy_idempotency_key x)
                           && bool_decide (sy_idempotency_key y = sy_idempotency_key x)))
       (st_bookings s)
     || (sy_num_guests x <? 1) || (bk_num_nights x <? 1)
  then None else Some (with_bookings s (st_bookings s ++ [x])).

(** The arguments this service passes to [BookingStateMachine.transition]. *)
Definition args (by_user : option Z) (reason : option string) (ip ua trigger : option string)
    (metadata : gmap string meta_value) : BookingStateMachine.transition_args := {|
  BookingStateMachine.ta_changed_by_user_id := by_user;
  BookingStateMachine.ta_reason := reason;
  BookingStateMachine.ta_ip_address := ip;
  BookingStateMachine.ta_user_agent := ua;
  BookingStateMachine.ta_trigger := trigger;
  BookingStateMachine.ta_metadata := metadata;
|}.

(** A transition of a loaded booking, written back with its history row. *)
Definition move (e : env) (s : store) (x : stay) (to : AccommodationBookingStatus)
    (a : BookingStateMachine.transition_args) : result booking_error (store * stay) :=
  let* r := BookingStateMachine.transition (now e) (st_db s) x to a in
  let x' := with_booking x r.2 in
  Ok (write_stay (with_db s r.1) x', x').

Definition approval_required_flows : list string :=
  ["host_approval"; "pay_on_arrival_approval"; "deposit_approval"; "invoice_approval"]%string.

(** DRAFT to HELD, then to the state the booking waits in. *)
Definition to_waiting (e : env) (s : store) (x : stay) (q : create_request)
    : result booking_error (store * stay) :=
  let by_guest := Some (bq_guest_user_id q) in
  let step reason trigger metadata :=
    args by_guest (Some reason) (bq_ip_address q) (bq_user_agent q) (Some trigger) metadata in
  let* r := move e s x HELD (step "Inventory held for checkout"%string "booking_created"%string
    {[ "hold_expires_at"%string := match bk_expires_at x with
                            | Some t => MTime (as_utc t) | None => MNull end ]}) in
  let flow_type := str_or (bk_booking_flow_type x) "host_approval" in
  if str_in flow_type approval_required_flows
  then move e r.1 r.2 PENDING_APPROVAL
         (step "Host approval required"%string "host_approval_required"%string ∅)
  else move e r.1 r.2 PENDING_PAYMENT
         (step "Awaiting payment confirmation"%string "booking_created"%string ∅).

(** [skip_hold_creation]: the temporary holds of the nights become the
    booking's, whoever placed them; so do the unattached temporary blocks of
    exactly its range. *)
Definition convert_holds (s : store) (x : stay) : store :=
  let s1 := with_blocked s (update_where (fun b =>
      (bl_property_id b =? bk_property_id x)
      && in_nights (bk_check_in x) (bk_check_out x) (bl_blocked_date b) && temporary b)
    (book_row (enum_value BOOKED) (bk_id x)) (st_blocked s)) (st_blocked_seq s) in
  match id_of (sy_room_type_id x) with
  | None => s1
  | Some rid => with_blocks s1 (update_where (fun b =>
      (ib_room_type_id b =? rid) && (ib_date_range_start b =? bk_check_in x)
      && (ib_date_range_end b =? bk_check_out x)
      && String.eqb (ib_reason b) (enum_value TEMPORARY_HOLD) && negb (is_some (ib_booking_id b)))
    (book_block (enum_value BOOKED) (bk_id x)) (st_blocks s1))
  end.

(** A refusal to block units is only logged. *)
Definition hold_inventory (e : env) (s : store) (x : stay) (guest : Z) : store :=
  match id_of (sy_room_type_id x) with
  | Some rid =>
      (block_room_type_units s rid (bk_check_in x) (bk_check_out x)
         (if sy_rooms_requested x =? 0 then 1 else sy_rooms_requested x)
         (enum_value TEMPORARY_HOLD) (Some (bk_id x)) (Some guest)).1
  | None =>
      (block_dates (now e) s (bk_property_id x) (bk_check_in x) (bk_check_out x)
         (enum_value TEMPORARY_HOLD) (Some (bk_id x)) (Some guest)).1
  end.

Definition upsert_profile (s : store) (guest : Z) (currency : option string) : store :=
  let row := {| gp_guest_user_id := guest; gp_preferred_currency := currency |} in
  with_profiles s
    (if existsb (fun g => gp_guest_user_id g =? guest) (st_profiles s)
     then update_where (fun g => gp_guest_user_id g =? guest) (fun _ => row) (st_profiles s)
     else st_profiles s ++ [row]).

Definition payment_row (now : Z) (x : stay) (reference : string) (wallet_txn_id : option string)
    (status : string) (meth key : option string) : AccommodationBookingPayment := {|
  pe_booking_id := Some (bk_id x);
  pe_total_amount := Some (bk_total_amount x);
  pe_wallet_txn_id := wallet_txn_id;
  pe_payment_reference := reference;
  pe_payment_status := status;
  pe_payment_method := meth;
  pe_payment_gateway := None;
  pe_gateway_transaction_id := None;
  pe_idempotency_key := key;
  pe_failure_reason := None;
  pe_retry_count := Some 0;
  pe_updated_at := Aware now;
|}.

(** The random values an operation draws. *)
Record draws : Type := {
  dr_booking_reference : string;
  dr_payment_reference : string;
  dr_time_ns : string;
}.

(** After an IntegrityError and a rollback to [s]. *)
Definition race_resolved (s : store) (q : create_request) : store * answer stay :=
  (s, match find_by_key s q with Some existing => Done existing | None => unable end).

(** From the admission on; [s1] holds what pricing and the flow committed. *)
Definition book (e : env) (r : draws) (s : store) (q : create_request) (p : Property)
    (room_type_id : option Z) (pricing : PricingService.breakdown) : store * answer stay :=
  let '(s1, flow) := _determine_booking_flow_type s p (bq_payment_timing q) in
  let x := new_stay e q (Z.of_nat (length (st_bookings s1)) + 1) (dr_booking_reference r) p
             room_type_id pricing flow in
  match insert_stay s1 x with
  | None => race_resolved s1 q
  | Some s2 =>
      let s3 := if bq_skip_hold_creation q then convert_holds s2 x
                else hold_inventory e s2 x (bq_guest_user_id q) in
      match to_waiting e s3 x q with
      | Err _ => (if bq_skip_hold_creation q then s1 else s3, unable)
      | Ok (s4, x') =>
          let s5 := upsert_profile s4 (bq_guest_user_id q) (ls_currency p) in
          match PaymentStateMachine.add_event (st_payments s5)
                  (payment_row (now e) x' (dr_payment_reference r) None "pending"
                     (Some "pending"%string) None) with
          | Ok payments => (with_payments s5 payments (st_db s5), Done x')
          | Err _ => race_resolved s5 q
          end
      end
  end.

Definition create_booking (e : env) (r : draws) (s : store) (q : create_request)
    : store * answer stay :=
  match check_request e s q with
  | Refused m => (s, Refused m)
  | Done (Existing x) => (s, Done x)
  | Done (Accepted p room_type_id) =>
      match price s p q room_type_id with
      | Err DatesError => (s, Refused (Say "Check-out must be after check-in"))
      | Err RoomTypeError => (s, Refused (Say "Room type not found or does not belong to this property"))
      | Err _ => (s, unable)
      | Ok pricing => book e r s q p room_type_id pricing
      end
  end.

(** * Deciding *)

(** What leaves an operation uncaught. *)
Inductive service_error : Type :=
  | NoResultFound                      (* scalar_one on an unknown booking *)
  | QuoteError (e : model_error)
  | PriceError (e : pricing_error).

(** [InvalidStateTransition] is answered as its own text, any other exception
    by the operation's general message. *)
Definition transition_refusal (e : booking_error) (general : refusal) : refusal :=
  match e with
  | InvalidStateTransition a b => BadTransition a b
  | ValueError => general
  end.

Definition has_expired (now : Z) (x : booking) : bool :=
  match bk_expires_at x with Some t => as_utc t <? now | None => false end.

(** [update({"reason": BOOKED})] on the booking's rows. *)
Definition mark_booked (s : store) (bid : Z) : store :=
  with_blocked s (update_where (fun b => bool_decide (bl_booking_id b = Some bid))
    (book_row (enum_value BOOKED) bid) (st_blocked s)) (st_blocked_seq s).

(** The booking's block of exactly its range is deleted. *)
Definition drop_blocks (s : store) (x : stay) : store :=
  match id_of (sy_room_type_id x) with
  | None => s
  | Some rid => with_blocks s (List.filter (fun b =>
      negb ((ib_room_type_id b =? rid) && (ib_date_range_start b =? bk_check_in x)
            && (ib_date_range_end b =? bk_check_out x)
            && bool_decide (ib_booking_id b = Some (bk_id x)))) (st_blocks s))
  end.

(** The most recent payment event of the booking; rows are in creation order. *)
Definition get_payment_event (s : store) (bid : Z) : option AccommodationBookingPayment :=
  list.last (List.filter (fun e => bool_decide (pe_booking_id e = Some bid)) (st_payments s)).

Definition write_event (l : list AccommodationBookingPayment) (ev : AccommodationBookingPayment) :=
  update_where (fun x => String.eqb (pe_payment_reference x) (pe_payment_reference ev)) (fun _ => ev) l.

(** The payment event, found or inserted, and then marked paid. *)
Definition settle_payment (e : env) (r : draws) (s : store) (x : stay)
    (wallet_transaction_id : option string) (amount : dec) : result payment_error store :=
  let* found := match get_payment_event s (bk_id x) with
    | Some ev => Ok (st_payments s, ev)
    | None =>
        let ev := payment_row (now e) x (dr_payment_reference r) wallet_transaction_id
          (enum_value PENDING) (Some (str_or (bk_payment_method x) "wallet"))
          (sy_idempotency_key x) in
        let* rows := PaymentStateMachine.add_event (st_payments s) ev in Ok (rows, ev)
    end in
  let* paid := PaymentStateMachine.mark_paid (now e) (st_db s) found.2 amount
                 wallet_transaction_id None (bk_guest_user_id x) in
  Ok (with_payments s (write_event found.1 paid.2) paid.1).

(** The columns synchronised with a completed payment. *)
Definition paid_stay (e : env) (x : stay) (txn : option string) (amount : dec) : stay :=
  let b := set_info x (info_paid x (Some amount) (Some (dint 0))) in
  let b := set_paid b (enum_value PAID) (Aware (now e)) txn (bk_payment_method b) in
  let d := sy_desk x in
  let x := with_booking x b in
  if negb (truthy (sy_guarantee_type d)) || bool_decide (sy_guarantee_type d = Some "none"%string)
  then with_desk x {|
    sy_approved_by_user_id := sy_approved_by_user_id d; sy_approval_reason := sy_approval_reason d;
    sy_host_rejected_at := sy_host_rejected_at d;
    sy_host_rejection_reason := sy_host_rejection_reason d;
    sy_guarantee_type := Some "payment_confirmed"%string;
    sy_assigned_room_id := sy_assigned_room_id d; sy_is_checked_in := sy_is_checked_in d;
    sy_checked_in_by := sy_checked_in_by d; sy_is_checked_out := sy_is_checked_out d;
    sy_checked_out_by := sy_checked_out_by d |}
  else x.

(** Availability again, the booking's own holds aside. *)
Definition recheck (s : store) (x : stay) : option refusal :=
  let lost := match id_of (sy_room_type_id x) with
    | Some rid =>
        if HostService.available_units s rid (bk_check_in x) (bk_check_out x) (Some (bk_id x)) <=? 0
        then Some (Say "Selected dates are no longer available for this room type. Please contact support.")
        else None
    | None => None
    end in
  match lost with
  | Some m => Some m
  | None =>
      let '(is_available, _, error) :=
        is_range_available s (bk_property_id x) (bk_check_in x) (bk_check_out x) (Some (bk_id x)) in
      if is_available then None
      else Some (default (Say "Dates are no longer available. Please contact support.") error)
  end.

Definition has_open_flags (s : store) (bid : Z) : bool := existsb (Z.eqb bid) (st_flags s).

Definition confirmation_args (x : stay) (ip ua wallet_transaction_id : option string) (amount : dec) :=
  args (bk_guest_user_id x) (Some "Booking confirmed"%string) ip ua (Some "booking_confirmed"%string)
    (list_to_map [("wallet_transaction_id"%string, meta_text wallet_transaction_id);
                  ("payment_amount"%string, MDec amount);
                  ("payment_timing"%string, meta_text (bk_payment_timing x))]).

Definition confirm_booking (e : env) (r : draws) (s : store) (booking_id : Z)
    (wallet_transaction_id ip_address user_agent : option string)
    : result service_error (store * answer unit) :=
  let* row := of_option NoResultFound (get_stay s booking_id) in
  let x := load e s row in
  let failed what := Refused (Raised ("Unable to confirm booking: " +:+ what)) in
  if String.eqb (bk_status x) (enum_value CONFIRMED) then
    Ok (s, Refused (Say "Booking already confirmed"))
  else if has_expired (now e) x then
    Ok (s, Refused (Say "Booking has expired. Please create a new booking."))
  else match recheck s x with
  | Some m => Ok (s, Refused m)
  | None =>
  if has_open_flags s booking_id then Ok (s, failed "open flags must be resolved first."%string)
  else match BookingPolicyEvaluator.can_confirm (now e) (st_db s) x (is_some wallet_transaction_id) with
  | Err _ => Ok (s, failed "policy"%string)
  | Ok policy_decision =>
  if negb (pd_allowed policy_decision) then
    Ok (s, Refused (PolicyRefused (pd_reason policy_decision)))
  else
    let s1 := drop_blocks (mark_booked s booking_id) x in
    let payment_amount := dec_or0 (Some (bk_total_amount x)) in
    match settle_payment e r s1 x wallet_transaction_id payment_amount with
    | Err _ => Ok (s, failed "payment"%string)
    | Ok s2 =>
        match move e s2 (paid_stay e x wallet_transaction_id payment_amount) CONFIRMED
                (confirmation_args x ip_address user_agent wallet_transaction_id payment_amount) with
        | Err er => Ok (s, Refused (transition_refusal er (Raised "Unable to confirm booking")))
        | Ok (s3, _) => Ok (s3, Done tt)
        end
    end
  end
  end.

Definition approved (e : env) (x : stay) (by_user : Z) (reason : option string) : stay :=
  let d := sy_desk x in
  with_desk (with_booking x (set_info x (info_approved x (now e)))) {|
    sy_approved_by_user_id := Some by_user; sy_approval_reason := reason;
    sy_host_rejected_at := sy_host_rejected_at d;
    sy_host_rejection_reason := sy_host_rejection_reason d;
    sy_guarantee_type := sy_guarantee_type d; sy_assigned_room_id := sy_assigned_room_id d;
    sy_is_checked_in := sy_is_checked_in d; sy_checked_in_by := sy_checked_in_by d;
    sy_is_checked_out := sy_is_checked_out d; sy_checked_out_by := sy_checked_out_by d |}.

(** Neither the expiry nor the availability of the nights is looked at. *)
Definition approve_booking (e : env) (s : store) (booking_id approved_by_user_id : Z)
    (reason ip_address user_agent : option string) : result service_error (store * answer unit) :=
  let* row := of_option NoResultFound (get_stay s booking_id) in
  let x := load e s row in
  if negb (String.eqb (bk_status x) (enum_value PENDING_APPROVAL)) then
    Ok (s, Refused (NotInState (bk_status x)))
  else
    match move e s (approved e x approved_by_user_id reason) CONFIRMED
            (args (Some approved_by_user_id) (Some (str_or reason "Approved by host"))
               ip_address user_agent None ∅) with
    | Err er => Ok (s, Refused (transition_refusal er
                  (Say "Unable to approve booking. Please contact support.")))
    | Ok (s1, x') => Ok (drop_blocks (mark_booked s1 booking_id) x', Done tt)
    end.

(** [BlockedDate.query.filter_by(booking_id=...).delete()] *)
Definition free_nights (s : store) (bid : Z) : store :=
  (delete_blocked s (fun b => bool_decide (bl_booking_id b = Some bid))).1.

(** Nights and units go back; with a room type this is committed at once. *)
Definition release_inventory (s : store) (x : stay) : store :=
  let s1 := free_nights s (bk_id x) in
  match id_of (sy_room_type_id x) with
  | Some rid => (release_room_type_blocks s1 rid (bk_check_in x) (bk_check_out x)
                   (Some (bk_id x))).1
  | None => s1
  end.

(** What remains after a failure behind [release_inventory]. *)
Definition rolled_back (s s1 : store) (x : stay) : store :=
  if is_some (id_of (sy_room_type_id x)) then s1 else s.

Definition rejected (e : env) (x : stay) (reason : option string) : stay :=
  let d := sy_desk x in
  with_desk x {|
    sy_approved_by_user_id := sy_approved_by_user_id d; sy_approval_reason := sy_approval_reason d;
    sy_host_rejected_at := Some (now e); sy_host_rejection_reason := reason;
    sy_guarantee_type := sy_guarantee_type d; sy_assigned_room_id := sy_assigned_room_id d;
    sy_is_checked_in := sy_is_checked_in d; sy_checked_in_by := sy_checked_in_by d;
    sy_is_checked_out := sy_is_checked_out d; sy_checked_out_by := sy_checked_out_by d |}.

Definition reject_booking (e : env) (s : store) (booking_id rejected_by_user_id : Z)
    (reason ip_address user_agent : option string) : result service_error (store * answer unit) :=
  let* row := of_option NoResultFound (get_stay s booking_id) in
  let x := load e s row in
  if negb (String.eqb (bk_status x) (enum_value PENDING_APPROVAL)) then
    Ok (s, Refused (NotInState (bk_status x)))
  else
    let s1 := release_inventory s x in
    match move e s1 (rejected e x reason) BookingModel.CANCELLED
            (args (Some rejected_by_user_id) (Some (str_or reason "Rejected by host"))
               ip_address user_agent None ∅) with
    | Err er => Ok (rolled_back s s1 x, Refused (transition_refusal er
                  (Say "Unable to reject booking. Please contact support.")))
    | Ok (s2, x') =>
        Ok (write_stay s2 (with_booking x'
              (set_cancelled x' (Aware (now e)) (Some rejected_by_user_id) reason)), Done tt)
    end.

(** * Cancelling *)

(** The suspension reason a property gets, if the violation reaches the
    threshold. *)
Definition suspension (p : Property) (reason : string) : option string :=
  let threshold := if ls_auto_suspend_threshold p =? 0 then 5 else ls_auto_suspend_threshold p in
  if threshold <=? ls_policy_violations p + 1
  then Some ("Auto-suspended after " +:+ pretty (ls_policy_violations p + 1)
             +:+ " policy violations: " +:+ reason)
  else None.

(** [None]: "Property not found". *)
Definition record_policy_violation (s : store) (property_id : Z) (reason : string) : option store :=
  prop ← get_property s property_id;
  Some (with_properties s (update_where (fun p => ls_id p =? property_id)
          (fun _ => with_violation prop (suspension prop reason)) (st_properties s))).

(** The actors who may cancel; an empty column admits an actor without id. *)
Definition authorized_cancel_actor_ids (x : stay) : list (option Z) :=
  [sy_booking_owner_id x; Some (sy_booked_by_user_id x); bk_guest_user_id x;
   bk_primary_guest_id x; Some (sy_host_user_id x)].

Definition snapshot_version (x : booking) : option Z :=
  sr_version <$> (bk_policy_snapshot x ≫= snap_rules).

Definition outcome_of (q : quote) (by_user : option Z) (old_status : string) : cancellation_outcome := {|
  co_policy := q_policy q; co_phase := q_phase q; co_refundable_base := q_refundable_base q;
  co_refund := q_refund q; co_fine := q_fine q; co_nights_remaining := q_nights_remaining q;
  co_days_until_checkin := q_days_until_checkin q; co_cancelled_by := by_user;
  co_from_status := old_status |}.

Definition refundable_cash_amount (x : booking) (q : quote) : dec :=
  if str_in (BookingPolicyEvaluator.payment_timing x) ["pay_now"; "deposit"]%string
  then q_refund q else cents 0.

Definition review_flags (x : booking) (is_host human_review : bool) : list string :=
  (if human_review then ["human_review_requested"%string] else [])
  ++ (if is_host then ["provider_cancellation_liability_review"%string] else [])
  ++ (if bool_decide (snapshot_version x = Some 2) then []
      else ["booking_time_policy_snapshot_incomplete"%string]).

Definition workflow_of (x : booking) (q : quote) (by_user : option Z) (is_host human_review : bool)
    (reason review_reason : option string) : refund_workflow :=
  let flags := review_flags x is_host human_review in
  let amount := refundable_cash_amount x q in
  let timing := BookingPolicyEvaluator.payment_timing x in
  let common := list_to_map [
    ("currency", MText (str_or (bk_currency x) "USD"));
    ("requested_by_user_id", match by_user with Some u => MInt u | None => MNull end);
    ("policy_amount", MDec (q_refund q));
    ("payment_timing", MText timing)]%string in
  if dltb dzero amount || negb (Nat.eqb (length flags) 0) then list_to_map [
    ("state", MText (if Nat.eqb (length flags) 0 then "screening" else "pending_human_review"));
    ("proposed_amount", MDec amount);
    ("payment_method", meta_text (bk_payment_method x));
    ("request_source", MText (if is_host then "host_cancellation" else "guest_cancellation"));
    ("request_reason", MText (strip (str_or review_reason (str_or reason ""))));
    ("risk_flags", MList flags)]%string ∪ common
  else list_to_map [
    ("state", MText "no_refund_due");
    ("proposed_amount", MDec (cents 0));
    ("request_source", MText "booking_cancellation");
    ("risk_flags", MList [])]%string ∪ common.

(** The debt of a guest who was to pay on arrival, once per key. *)
Definition charge_penalty (s : store) (x : booking) (q : quote) (key : string) : store :=
  if String.eqb (BookingPolicyEvaluator.payment_timing x) "pay_on_arrival"
     && dltb dzero (q_fine q)
     && negb (existsb (fun p => String.eqb (pn_idempotency_key p) key) (st_penalties s))
  then with_penalties s (st_penalties s ++ [{|
         pn_booking_id := bk_id x; pn_amount := q_fine q;
         pn_currency := str_or (bk_currency x) "USD"; pn_status := "PENDING";
         pn_idempotency_key := key |}])
  else s.

Definition penalty_key (idempotency_key : option string) (bid : Z) (time_ns : string) : string :=
  str_or idempotency_key ("cancel-" +:+ pretty bid +:+ "-" +:+ time_ns).

Definition cancel_booking (e : env) (r : draws) (s : store) (booking_id : Z)
    (cancelled_by_user_id : option Z) (reason ip_address user_agent idempotency_key : option string)
    (request_human_review : bool) (review_reason : option string)
    : result service_error (store * answer (quote_message * dec)) :=
  let* row := of_option NoResultFound (get_stay s booking_id) in
  let x := load e s row in
  if bool_decide (cancelled_by_user_id ∉ authorized_cancel_actor_ids x) then
    Ok (s, Refused (Say "You are not authorised to cancel this booking."))
  else
    let is_host := bool_decide (cancelled_by_user_id = Some (sy_host_user_id x)) in
    let* q := map_err QuoteError (AccommodationBooking.get_cancellation_quote (server_date e)
                (st_db s) x None (if is_host then "host" else "guest")) in
    if negb (q_allowed q) then Ok (s, Refused (QuoteRefused (q_message q)))
    else
      let old_status := bk_status x in
      let s1 := release_inventory s x in
      let failed := (rolled_back s s1 x,
                     Refused (Say "Unable to cancel booking. Please contact support.")) in
      match move e s1 x BookingModel.CANCELLED
              (args cancelled_by_user_id reason ip_address user_agent
                 (Some "booking_cancelled"%string) ∅) with
      | Err (InvalidStateTransition a b) => Ok (rolled_back s s1 x, Refused (BadTransition a b))
      | Err ValueError => Ok failed
      | Ok (s2, x1) =>
          let x2 := with_booking x1 (set_cancelled x1 (Aware (now e)) cancelled_by_user_id reason) in
          let outcome := outcome_of q cancelled_by_user_id old_status in
          match sign_cancellation_outcome e x2 outcome with
          | None => Ok failed
          | Some mac =>
            let violated :=
              if is_host && str_in old_status [enum_value CONFIRMED; enum_value CHECKED_IN]
              then record_policy_violation s2 (bk_property_id x)
                     ("Host cancelled booking " +:+ default "None" (bk_reference x) +:+ ": "
                      +:+ default "None" reason)
              else Some s2 in
            match violated with
            | None => Ok failed
            | Some s3 =>
                let workflow := workflow_of x q cancelled_by_user_id is_host request_human_review
                                  reason review_reason in
                match _store_refund_workflow e (with_outcome x2 outcome mac) workflow with
                | None => Ok failed
                | Some x3 =>
                let s4 := charge_penalty (write_stay s3 x3) x q
                            (penalty_key idempotency_key booking_id (dr_time_ns r)) in
                Ok (s4, Done (q_message q, refundable_cash_amount x q))
                end
            end
          end
      end.

Definition get_pending_expired_bookings (now : Z) (s : store) : list stay :=
  List.filter (fun x : stay =>
    str_in (bk_status x) [enum_value BookingModel.PENDING; enum_value PENDING_APPROVAL]
    && has_expired now x) (st_bookings s).

(** One booking of the sweep: an exception is logged and the sweep goes on. *)
Definition cleanup_one (e : env) (r : draws) (acc : store * Z) (x : stay) : store * Z :=
  match cancel_booking e r acc.1 (bk_id x) None (Some "Booking expired (payment not completed)"%string)
          (Some "system"%string) (Some "system"%string) None false None with
  | Ok (s', Done _) => (s', acc.2 + 1)
  | Ok (s', Refused _) => (s', acc.2)
  | Err _ => acc
  end.

Definition cleanup_expired_bookings (e : env) (r : draws) (s : store) : store * Z :=
  foldl (cleanup_one e r) (s, 0) (get_pending_expired_bookings (now e) s).

(** The task accommodation.expire_unapproved_bookings, one page of it: the
    status is assigned directly. *)
Definition expire_one (e : env) (s : store) (x : stay) : store :=
  let s1 := with_holds s (update_where (fun h =>
      (rh_property_id h =? bk_property_id x) && (rh_check_in h =? bk_check_in x)
      && (rh_check_out h =? bk_check_out x) && String.eqb (rh_status h) "active")
    mark_expired (st_holds s)) in
  let s2 := match id_of (sy_room_type_id x) with
    | Some rid => (release_room_type_blocks s1 rid (bk_check_in x) (bk_check_out x)
                     (Some (bk_id x))).1
    | None => (release_hold s1 (bk_property_id x) (bk_check_in x) (bk_check_out x) None).1
    end in
  write_stay s2 (with_booking x (set_cancelled (set_status x (enum_value EXPIRED)) (Aware (now e))
    (bk_cancelled_by_user_id x) (Some "Host approval expired"%string))).

Definition expire_unapproved_bookings (e : env) (s : store) (batch_size after_booking_id : Z)
    : store * list Z :=
  let batch_size := Z.max 1 (Z.min batch_size 50) in
  let after_booking_id := Z.max 0 after_booking_id in
  let page := firstn (Z.to_nat batch_size) (List.filter (fun x : stay =>
    String.eqb (bk_status x) (enum_value PENDING_APPROVAL)
    && match sy_approval_deadline x with Some t => t <=? now e | None => false end
    && (after_booking_id <? bk_id x)) (st_bookings s)) in
  (foldl (expire_one e) s page, (fun x : stay => bk_id x) <$> page).

(** * Moving *)

(** The stay moved to its new dates and price. *)
Definition moved (x : stay) (ci co : date) (m : PricingService.modification) : stay :=
  let b := set_info x (info_dates x ci co (Some (PricingService.mod_amount_owed m))) in
  let b := set_totals b (co - ci) (PricingService.mod_new_total m) in
  with_booking x (if dltb dzero (PricingService.mod_refund_amount m)
                  then set_refund_amount b (PricingService.mod_refund_amount m) else b).

Definition adjustment_of (x : booking) (by_user : Z) (ci co : date)
    (m : PricingService.modification) : BookingPriceAdjustment := {|
  pa_booking_id := bk_id x;
  pa_old_dates := (bk_check_in x, bk_check_out x);
  pa_new_dates := (ci, co);
  pa_old_total_amount := PricingService.mod_old_total m;
  pa_new_total_amount := PricingService.mod_new_total m;
  pa_delta_amount := PricingService.mod_delta_amount m;
  pa_new_amount_due := PricingService.mod_amount_owed m;
  pa_refund_amount := PricingService.mod_refund_amount m;
  pa_changed_by_user_id := by_user;
|}.

(** Where the new dates lie, and the rules of stay length. *)
Definition check_dates (p : Property) (today : date) (ci co : date) : option refusal :=
  let new_nights := co - ci in
  let too_long := match ls_max_stay_nights p with
    | Some most => if negb (most =? 0) && (most <? new_nights) then Some (StayTooLong new_nights most)
                   else None
    | None => None
    end in
  if ci <? today then Some (Say "New check-in date cannot be in the past at the property")
  else if co <=? today then Some (Say "New check-out date must be in the future at the property")
  else if co <=? ci then Some (Say "Check-out must be after check-in")
  else if negb (ls_min_stay_nights p =? 0) && (new_nights <? ls_min_stay_nights p)
       then Some (StayTooShort new_nights (ls_min_stay_nights p))
  else too_long.

(** Old nights and blocks go, the new nights of a stay without room type are
    blocked; the units of a confirmed stay are counted from its row. *)
Definition reblock (e : env) (s : store) (x : stay) (ci co : date) (by_user : Z) : store :=
  let s1 := release_inventory s x in
  match id_of (sy_room_type_id x) with
  | Some _ => s1
  | None => (block_dates (now e) s1 (bk_property_id x) ci co (enum_value BOOKED) (Some (bk_id x))
               (Some by_user)).1
  end.

Definition modify_booking_dates (e : env) (s : store) (booking_id host_user_id : Z)
    (new_check_in new_check_out : option date)
    : result service_error (store * answer PricingService.modification) :=
  let* x := of_option NoResultFound (get_stay s booking_id) in
  if sy_is_deleted x then Ok (s, Refused (Say "Booking is deleted and cannot be modified"))
  else if negb (sy_host_user_id x =? host_user_id) && negb (has_global_role e host_user_id) then
    Ok (s, Refused (Say "You are not authorised to modify this booking's dates"))
  else if negb (str_in (bk_status x) [enum_value CONFIRMED; enum_value CHECKED_IN]) then
    Ok (s, Refused (NotInState (bk_status x)))
  else
    let ci := default (bk_check_in x) new_check_in in
    let co := default (bk_check_out x) new_check_out in
    match get_property s (bk_property_id x) with
    | None => Ok (s, Refused (Say "Property not found"))
    | Some p =>
        if (ci =? bk_check_in x) && (co =? bk_check_out x)
        then Ok (s, Refused (Say "No date changes provided — new dates match the current booking"))
        else match local_today e (ls_id p) with
        | None => Ok (s, Refused
            (Say "This property needs a valid IANA timezone before booking dates can be changed."))
        | Some today =>
            match check_dates p today ci co with
            | Some m => Ok (s, Refused m)
            | None =>
                let '(is_available, _, avail_error) :=
                  check_availability_for_dates s (bk_property_id x) ci co (Some (bk_id x))
                    (sy_room_type_id x)
                    (if sy_rooms_requested x =? 0 then 1 else sy_rooms_requested x) in
                if negb is_available then
                  Ok (s, Refused (NotAvailable (default (Say "conflicting booking") avail_error)))
                else
                  match PricingService.calculate_modification_price x ci co with
                  | Err DatesError => Ok (s, Refused (Say "Check-out must be after check-in"))
                  | Err er => Err (PriceError er)
                  | Ok m =>
                      let s1 := write_stay (reblock e s x ci co host_user_id) (moved x ci co m) in
                      Ok (with_adjustments s1 (st_adjustments s1
                            ++ [adjustment_of x host_user_id ci co m]), Done m)
                  end
            end
        end
    end.

(** * The front desk *)

(** [_check_in_block_reason] *)
Definition _check_in_block_reason (e : env) (s : store) (x : stay) : answer unit :=
  if negb (String.eqb (bk_status x) (enum_value CONFIRMED)) then Refused (NotInState (bk_status x))
  else match BookingStateMachine.property_today x with
       | None => Refused
           (Say "Property IANA timezone is not configured; check-in cannot be authorized.")
       | Some property_today =>
           if property_today <? bk_check_in x then Refused (CheckInTooEarly (bk_check_in x))
           else match BookingPolicyEvaluator.can_check_in (now e) (st_db s) x with
                | Err _ => Refused (Say "Check-in failed. Please try again.")
                | Ok d => if negb (pd_allowed d) then Refused (PolicyRefused (pd_reason d))
                          else Refused (Say "Booking is not ready for check-in.")
                end
       end.

Definition active_assignment (r : RoomBooking) : bool :=
  str_in (rb_status r) ["active"; "checked_in"]%string.

(** The rooms of the type that are free now. *)
Definition candidate_rooms (s : store) (x : stay) : list Room :=
  List.filter (fun r =>
    (ro_property_id r =? bk_property_id x) && bool_decide (Some (ro_room_type_id r) = sy_room_type_id x)
    && ro_is_active r && String.eqb (ro_status r) "available" && negb (ro_is_maintenance r)) (st_rooms s).

(** The loop over candidate rooms. A room with an active assignment makes the
    comparison of its dates raise a TypeError: [None]. *)
Fixpoint assign_rooms (s : store) (candidates : list Room) (requested : nat) : option (list Room) :=
  match requested, candidates with
  | O, _ | _, [] => Some []
  | S n, room :: candidates =>
      if existsb (fun r => (rb_room_id r =? ro_id room) && active_assignment r) (st_room_bookings s)
      then None
      else assigned ← assign_rooms s candidates n; Some (room :: assigned)
  end.

Inductive assignment : Type :=
  | Assigned                       (* the rooms were assigned before *)
  | NotAssigned (why : refusal)
  | AssignmentRaised.

(** Enough free rooms end in a NameError: the module does not import
    RoomBooking. *)
Definition room_assignment (s : store) (x : stay) : assignment :=
  let requested := if sy_rooms_requested x =? 0 then 1 else sy_rooms_requested x in
  match List.filter (fun r => (rb_booking_id r =? bk_id x) && active_assignment r)
          (st_room_bookings s) with
  | [] =>
      match assign_rooms s (candidate_rooms s x) (Z.to_nat requested) with
      | None => AssignmentRaised
      | Some rooms =>
          if Z.of_nat (length rooms) <? requested
          then NotAssigned (InsufficientRooms (Z.of_nat (length rooms)) requested)
          else AssignmentRaised
      end
  | existing =>
      if negb (Z.of_nat (length existing) =? requested)
      then NotAssigned (Say "Existing physical room assignments do not match the requested room quantity")
      else if forallb (fun r => existsb (fun ro => ro_id ro =? rb_room_id r) (st_rooms s)) existing
      then Assigned
      else NotAssigned (Say "Assigned physical rooms could not be loaded")
  end.

Definition desk_in (d : stay_desk) (user : Z) : stay_desk := {|
  sy_approved_by_user_id := sy_approved_by_user_id d; sy_approval_reason := sy_approval_reason d;
  sy_host_rejected_at := sy_host_rejected_at d;
  sy_host_rejection_reason := sy_host_rejection_reason d;
  sy_guarantee_type := sy_guarantee_type d; sy_assigned_room_id := sy_assigned_room_id d;
  sy_is_checked_in := true; sy_checked_in_by := Some user;
  sy_is_checked_out := sy_is_checked_out d; sy_checked_out_by := sy_checked_out_by d |}.

Definition desk_out (d : stay_desk) (user : Z) : stay_desk := {|
  sy_approved_by_user_id := sy_approved_by_user_id d; sy_approval_reason := sy_approval_reason d;
  sy_host_rejected_at := sy_host_rejected_at d;
  sy_host_rejection_reason := sy_host_rejection_reason d;
  sy_guarantee_type := sy_guarantee_type d; sy_assigned_room_id := sy_assigned_room_id d;
  sy_is_checked_in := sy_is_checked_in d; sy_checked_in_by := sy_checked_in_by d;
  sy_is_checked_out := true; sy_checked_out_by := Some user |}.

(** The arrival or departure on another day: the dates are modified first. *)
Definition adjust (e : env) (s : store) (x : stay) (wanted : bool) (ci co : date)
    : result service_error (store * answer (option PricingService.modification)) :=
  if wanted then
    let* r := modify_booking_dates e s (bk_id x) (sy_host_user_id x) (Some ci) (Some co) in
    Ok (r.1, match r.2 with Refused m => Refused (Adjustment m) | Done m => Done (Some m) end)
  else Ok (s, Done None).

Definition desk_args (user : Z) (reason trigger : string) :=
  args (Some user) (Some reason) None None (Some trigger) ∅.

(** [Some m]: the dates were adjusted first. *)
Definition check_in (e : env) (s : store) (booking_id user_id : Z) (adjust_checkin_to_today : bool)
    : store * answer (option PricingService.modification) :=
  let failed := Refused (Say "Check-in failed. Please try again.") in
  match get_stay s booking_id with
  | None => (s, Refused (Say "Booking not found"))
  | Some row =>
  if sy_is_checked_in row then (s, Refused (Say "Booking is already checked in"))
  else match BookingStateMachine.property_today (load e s row) with
  | None => (s, Refused
      (Say "Property IANA timezone is not configured; early check-in cannot be adjusted."))
  | Some today =>
  match adjust e s row (adjust_checkin_to_today && (today <? bk_check_in row)) today
          (bk_check_out row) with
  | Err _ => (s, failed)
  | Ok (s1, Refused m) => (s1, Refused m)
  | Ok (s1, Done info) =>
      match get_stay s1 booking_id with
      | None => (s1, failed)
      | Some row1 =>
          let x := load e s1 row1 in
          if negb (BookingStateMachine._can_check_in (now e) (st_db s1) x)
          then (s1, match _check_in_block_reason e s1 x with
                    | Refused m => Refused m | Done _ => failed end)
          else match BookingPolicyEvaluator.can_check_in (now e) (st_db s1) x with
          | Err _ => (s1, failed)
          | Ok checkin_decision =>
              if negb (pd_allowed checkin_decision)
              then (s1, Refused (PolicyRefused (pd_reason checkin_decision)))
              else match room_assignment s1 x with
              | NotAssigned m => (s1, Refused m)
              | AssignmentRaised => (s1, failed)
              | Assigned =>
                  match move e s1 x CHECKED_IN (desk_args user_id "Guest checked in" "guest_check_in") with
                  | Err _ => (s1, failed)
                  | Ok (s2, x') => (write_stay s2 (with_desk x' (desk_in (sy_desk x') user_id)), Done info)
                  end
              end
          end
      end
  end
  end
  end.

(** The assigned room and the rooms of the checked-in assignments are free. *)
Definition release_rooms (s : store) (x : stay) : store :=
  let leaving r := (rb_booking_id r =? bk_id x) && String.eqb (rb_status r) "checked_in" in
  let freed := default [] ((fun r => [r]) <$> id_of (sy_assigned_room_id x))
               ++ (rb_room_id <$> List.filter leaving (st_room_bookings s)) in
  with_rooms s (update_where (fun ro => bool_decide (ro_id ro ∈ freed)) release (st_rooms s))
    (update_where leaving rb_checked_out (st_room_bookings s)).

Definition check_out (e : env) (s : store) (booking_id user_id : Z) (adjust_checkout_to_today : bool)
    : store * answer (option PricingService.modification) :=
  let failed := Refused (Say "Check-out failed. Please try again.") in
  match get_stay s booking_id with
  | None => (s, Refused (Say "Booking not found"))
  | Some row =>
  if negb (String.eqb (bk_status row) (enum_value CHECKED_IN))
  then (s, Refused (Say "Only checked-in bookings can be checked out"))
  else if sy_is_checked_out row then (s, Refused (Say "Booking is already checked out"))
  else match BookingStateMachine.property_today (load e s row) with
  | None => (s, Refused
      (Say "Property IANA timezone is not configured; early check-out cannot be adjusted."))
  | Some today =>
  match adjust e s row (adjust_checkout_to_today && (today <? bk_check_out row)) (bk_check_in row)
          today with
  | Err _ => (s, failed)
  | Ok (s1, Refused m) => (s1, Refused m)
  | Ok (s1, Done info) =>
      match get_stay s1 booking_id with
      | None => (s1, failed)
      | Some row1 =>
          match move e s1 (load e s1 row1) CHECKED_OUT
                  (desk_args user_id "Guest checked out" "guest_check_out") with
          | Err _ => (s1, failed)
          | Ok (s2, x') =>
              (release_rooms (write_stay s2 (with_desk x' (desk_out (sy_desk x') user_id))) x',
               Done info)
          end
      end
  end
  end
  end.

End BookingService.
