(* ===== verification/AvailabilityLaws.v ===== *)
(** What the availability operations compute: the nights a range check refuses,
    the rows a block adds, and units that fit on every night. *)

From S2P Require Import Prelude Tables Decimal BookingModel BookingStates PaymentStates.
From S2P Require Import BookingPolicy Cancellation Pricing StayModel Availability.

Local Open Scope Z_scope.

Import AvailabilityService.

(** * Nights *)

Lemma elem_of_nights ci co d : d ∈ nights ci co <-> ci <= d < co.
Proof. unfold nights. rewrite elem_of_seqZ. lia. Qed.

Lemma in_nights_spec ci co d : in_nights ci co d = true <-> ci <= d < co.
Proof. unfold in_nights. rewrite andb_true_iff, !Z.leb_le. lia. Qed.

Lemma NoDup_nights ci co : NoDup (nights ci co).
Proof. apply NoDup_seqZ. Qed.

(** Every night of the range is available. *)
Definition all_available (s : store) (pid ci co : Z) (exclude : option Z) : Prop :=
  forall d, ci <= d < co -> is_date_available s pid d exclude = true.

Lemma is_range_available_true s pid ci co exclude :
  (is_range_available s pid ci co exclude).1.1 = true <->
  ci < co /\ all_available s pid ci co exclude.
Proof.
  unfold is_range_available, all_available. destruct (Z.leb_spec co ci); simpl; [lia|].
  destruct (List.filter _ _) as [|d l] eqn:E; simpl.
  - split; [|done]. intros _. split; [lia|]. intros d Hd.
    destruct (is_date_available s pid d exclude) eqn:Ha; [done|]. exfalso.
    assert (Hin : List.In d []) by (rewrite <- E; apply List.filter_In; split;
      [apply list_elem_of_In; by apply elem_of_nights|by rewrite Ha]). done.
  - split; [done|]. intros [_ Hall].
    assert (Hin : List.In d (d :: l)) by by left. rewrite <- E in Hin.
    apply List.filter_In in Hin as [Hd%list_elem_of_In%elem_of_nights Hn].
    rewrite Hall in Hn by done. done.
Qed.

(** * Rows *)

Definition night_of (x : BlockedDate) : Z * Z := (bl_property_id x, bl_blocked_date x).

Lemma row_at_Some s pid d x : row_at s pid d = Some x -> x ∈ st_blocked s /\ night_of x = (pid, d).
Proof.
  unfold row_at. intros [Hin Hc]%List.find_some. apply list_elem_of_In in Hin.
  apply andb_true_iff in Hc as [Hp%Z.eqb_eq Hd%Z.eqb_eq]. split; [done|]. unfold night_of. by subst.
Qed.

Lemma row_at_None s pid d x : row_at s pid d = None -> x ∈ st_blocked s -> night_of x <> (pid, d).
Proof.
  unfold row_at. intros Hf Hx E. apply (List.find_none _ _) with (x := x) in Hf; [|by apply list_elem_of_In].
  injection E as Ep Ed. rewrite Ep, Ed, !Z.eqb_refl in Hf. done.
Qed.

Lemma night_unique l x y : NoDup (night_of <$> l) -> x ∈ l -> y ∈ l -> night_of x = night_of y -> x = y.
Proof.
  intros Hnd Hx Hy E. apply list_elem_of_lookup in Hx as [i Hi].
  apply list_elem_of_lookup in Hy as [j Hj].
  assert (i = j) as ->; [|congruence].
  eapply (NoDup_lookup (night_of <$> l)); [done|by rewrite list_lookup_fmap, Hi|].
  rewrite list_lookup_fmap, Hj. simpl. by rewrite E.
Qed.

Lemma nights_kept (c : BlockedDate -> bool) l :
  NoDup (night_of <$> l) -> NoDup (night_of <$> List.filter c l).
Proof.
  induction l as [|x l IH]; [done|]. rewrite fmap_cons, list.NoDup_cons. intros [Hx Hnd]. simpl.
  destruct (c x); [|by apply IH]. rewrite fmap_cons, list.NoDup_cons. split; [|by apply IH].
  intros (y & E & Hy)%list_elem_of_fmap. apply Hx. rewrite E. apply list_elem_of_fmap_2.
  apply list_elem_of_In, List.filter_In in Hy as [Hy _]. by apply list_elem_of_In.
Qed.

(** ** Blocking *)

Section block.
Context (now pid : Z) (reason : string) (bid by_user : option Z).

Definition is_blocked (rows : list BlockedDate) (d : date) : bool :=
  existsb (fun x => (bl_property_id x =? pid) && (bl_blocked_date x =? d)) rows.

Lemma is_blocked_spec rows d : is_blocked rows d = true <-> (pid, d) ∈ night_of <$> rows.
Proof.
  unfold is_blocked. rewrite existsb_exists, list_elem_of_fmap. unfold night_of. split.
  - intros (x & Hx & [Hp%Z.eqb_eq Hd%Z.eqb_eq]%andb_true_iff). exists x.
    split; [by subst|by apply list_elem_of_In].
  - intros (x & [= -> ->] & Hx). exists x. split; [by apply list_elem_of_In|]. by rewrite !Z.eqb_refl.
Qed.

(** A row this call inserts. *)
Definition fresh_row (x : BlockedDate) : Prop :=
  bl_property_id x = pid /\ bl_booking_id x = bid /\ bl_reason x = reason
  /\ bl_created_by x = by_user /\ bl_created_at x = now.

Lemma block_fold ds : NoDup ds -> forall rows seq n rows' seq' n',
  foldl (block_night now pid reason bid by_user) (rows, seq, n) ds = (rows', seq', n') ->
  exists news, rows' = rows ++ news /\ Forall fresh_row news
    /\ bl_blocked_date <$> news = List.filter (fun d => negb (is_blocked rows d)) ds
    /\ n' = n + Z.of_nat (length news).
Proof.
  induction 1 as [|d ds Hd Hnd IH]; intros rows seq n rows' seq' n'; simpl.
  - intros [= <- <- <-]. exists []. rewrite app_nil_r. split_and!; [done|by constructor|done|simpl; lia].
  - fold (is_blocked rows d). destruct (is_blocked rows d) eqn:E; simpl; [by apply IH|].
    intros H. apply IH in H as (news & -> & Hf & Hd' & ->).
    eexists (_ :: news). rewrite <- (assoc_L (++)). split_and!; [done| | |simpl; lia].
    + constructor; [by split_and!|done].
    + rewrite fmap_cons, Hd'. simpl. f_equal. apply List.filter_ext_in. intros d' Hin. f_equal.
      unfold is_blocked. rewrite existsb_app. simpl.
      destruct (Z.eqb_spec d d'); [subst; by apply list_elem_of_In in Hin|].
      by rewrite andb_false_r, !orb_false_r.
Qed.

(** The rows after blocking a range: the old ones and one for each night that
    had none; the answer counts them. *)
Lemma block_dates_spec s ci co s' n :
  block_dates now s pid ci co reason bid by_user = (s', n) ->
  exists news seq, s' = with_blocked s (st_blocked s ++ news) seq /\ Forall fresh_row news
    /\ bl_blocked_date <$> news
       = List.filter (fun d => negb (is_blocked (st_blocked s) d)) (nights ci co)
    /\ n = Z.of_nat (length news).
Proof.
  unfold block_dates. destruct (foldl _ _ _) as [[rows seq] k] eqn:E. intros [= <- <-].
  apply block_fold in E as (news & -> & Hf & Hd & ->); [|apply NoDup_nights].
  by exists news, seq.
Qed.

Lemma block_dates_unique s ci co s' n : NoDup (night_of <$> st_blocked s) ->
  block_dates now s pid ci co reason bid by_user = (s', n) -> NoDup (night_of <$> st_blocked s').
Proof.
  intros Hnd (news & seq & -> & Hf & Hd & _)%block_dates_spec. simpl.
  rewrite fmap_app. apply list.NoDup_app.
  assert (Hn : night_of <$> news = pair pid <$> (bl_blocked_date <$> news)).
  { rewrite <- list_fmap_compose. apply list_fmap_ext. intros i x Hx. unfold night_of. simpl.
    by rewrite (proj1 (proj1 (list.Forall_lookup _ _) Hf i x Hx)). }
  rewrite Hn, Hd. split_and!; [done| |].
  - intros p Hp (d & -> & Hin)%list_elem_of_fmap. apply list_elem_of_In, List.filter_In in Hin.
    destruct Hin as [_ Hb]. apply is_blocked_spec in Hp. by rewrite Hp in Hb.
  - apply NoDup_fmap_2; [by intros ? ? [=]|]. apply NoDup_ListNoDup, List.NoDup_filter, NoDup_ListNoDup.
    apply NoDup_nights.
Qed.
End block.

(** * Units *)

(** Counts are not negative: the columns have CHECK constraints or are written
    from positive requests. *)
Definition units_ok (s : store) : Prop :=
  (forall x : stay, x ∈ st_bookings s -> 0 <= sy_rooms_requested x)
  /\ (forall b, b ∈ st_blocks s -> 0 <= ib_units_blocked b).

(** The units of a room type taken on one night: by active bookings and by
    blocks that are not the shadow of one. *)
Definition taken (s : store) (rid : Z) (d : date) : Z :=
  HostService.booked s rid d (d + 1) None + HostService.blocked s rid d (d + 1).

Lemma taken_le s rid ci co d : units_ok s -> ci <= d < co ->
  taken s rid d <= HostService.booked s rid ci co None + HostService.blocked s rid ci co.
Proof.
  intros [Hb Hi] Hd. unfold taken, HostService.booked, HostService.blocked.
  apply Z.add_le_mono; apply sum_filter_mono; try done.
  - intros x _. unfold HostService.occupies. rewrite !andb_true_iff, !Z.ltb_lt.
    intros [[[[-> ->] ?] ?] ->]. split_and!; try done; lia.
  - intros b _. unfold HostService.blocks_units. rewrite !andb_true_iff, !Z.ltb_lt.
    intros [[[-> ?] ?] ->]. split_and!; try done; lia.
Qed.

Lemma available_units_fit s rid rt ci co n : get_room_type s rid = Some rt -> 0 < n ->
  n <= HostService.available_units s rid ci co None ->
  HostService.booked s rid ci co None + HostService.blocked s rid ci co + n <= rt_total_units rt.
Proof. unfold HostService.available_units. intros -> Hn Ha. lia. Qed.

(** The units a range check finds free are free on each of its nights. *)
Lemma free_every_night s rid rt ci co n : units_ok s -> get_room_type s rid = Some rt -> 0 < n ->
  n <= HostService.available_units s rid ci co None ->
  forall d, ci <= d < co -> taken s rid d + n <= rt_total_units rt.
Proof.
  intros Hu Hrt Hn Ha d Hd. pose proof (taken_le s rid ci co d Hu Hd).
  pose proof (available_units_fit s rid rt ci co n Hrt Hn Ha). lia.
Qed.

(** Inserting a counted block takes its units on the nights of its range. *)
Lemma taken_with_block s rid d b : ib_room_type_id b = rid -> ib_reason b <> "booked"%string ->
  taken (with_blocks s (st_blocks s ++ [b])) rid d
  = taken s rid d + if (ib_date_range_start b <=? d) && (d <? ib_date_range_end b)
                    then ib_units_blocked b else 0.
Proof.
  intros Hr Hb. unfold taken, HostService.blocked, HostService.booked. simpl.
  rewrite List.filter_app, fmap_app, sum_app. simpl.
  assert (HostService.blocks_units rid d (d + 1) b
          = (ib_date_range_start b <=? d) && (d <? ib_date_range_end b)) as ->.
  { unfold HostService.blocks_units. rewrite Hr, Z.eqb_refl. simpl.
    destruct (String.eqb_spec (ib_reason b) "booked"); [done|]. rewrite andb_true_r. f_equal.
    apply eq_true_iff_eq. rewrite Z.ltb_lt, Z.leb_le. lia. }
  destruct (_ && _); simpl; lia.
Qed.
