(* ===== verification/StayLaws.v ===== *)
(** No two live bookings of a property share a night: the invariant behind it,
    what each operation of the booking service does to the rows it concerns, and
    the theorem for every history of operations. *)

From S2P Require Import Prelude Tables Decimal BookingModel BookingStates PaymentStates.
From S2P Require Import BookingPolicy Cancellation Booking Pricing StayModel Availability.
From S2P Require Import BookingService AvailabilityLaws.

Local Open Scope Z_scope.

Import AvailabilityService BookingService.

(** * The rows of an operation *)

Definition key (x : stay) : Z := bk_id x.

(** [B'] is [B] with the rows of booking [b] rewritten to rows that satisfy [P]. *)
Definition rewrites (b : Z) (P : stay -> Prop) (B B' : list stay) : Prop :=
  key <$> B' = key <$> B /\ forall y, y ∈ B' -> (y ∈ B /\ key y <> b) \/ (key y = b /\ P y).

Lemma rewrites_trans b P Q B B1 B2 : rewrites b P B B1 -> rewrites b Q B1 B2 -> rewrites b Q B B2.
Proof.
  intros [K1 H1] [K2 H2]. split; [congruence|]. intros y [[Hy Hn]|?]%H2; [|by right].
  apply H1 in Hy as [[??]|[? _]]; [by left|done].
Qed.

Lemma write_stay_rewrites s b (x : stay) : bk_id x = b ->
  rewrites b (eq (stored x)) (st_bookings s) (st_bookings (write_stay s x)).
Proof.
  intros <-. split; simpl.
  - induction (st_bookings s) as [|y l IH]; [done|]. rewrite update_cons, !fmap_cons, IH.
    f_equal. unfold key. by destruct (Z.eqb_spec (bk_id y) (bk_id x)) as [->|].
  - intros y (z & Hz & ->)%elem_of_update. destruct (Z.eqb_spec (bk_id z) (bk_id x)); [by right|by left].
Qed.

Lemma get_stay_Some s b (x : stay) : get_stay s b = Some x -> x ∈ st_bookings s /\ bk_id x = b.
Proof. intros [Hin E%Z.eqb_eq]%List.find_some. split; [by apply list_elem_of_In|done]. Qed.

(** The columns of a stay that place it: they change by a modification only. *)
Definition same_place (x y : stay) : Prop :=
  bk_id x = bk_id y /\ bk_property_id x = bk_property_id y /\ bk_check_in x = bk_check_in y
  /\ bk_check_out x = bk_check_out y /\ sy_room_type_id x = sy_room_type_id y.

Lemma move_Ok e s (x : stay) t a s' (x' : stay) : move e s x t a = Ok (s', x') ->
  x' = with_booking x (set_status x (enum_value t))
  /\ s' = write_stay (with_db s (add_history (st_db s) (BookingStateMachine.history_row x t a))) x'
  /\ BookingStateMachine.can_transition (now e) (st_db s) x t = Ok true.
Proof.
  unfold move. intros H. inv_ok H. destruct a0 as [d b].
  apply BookingStateMachine.transition_Ok in Hok as (Hc & -> & ->). by simplify_eq/=.
Qed.

(** * The invariant *)

Section property.
Context (pid : Z).

(** The nights of a live booking carry no row but its own booked ones, no two
    live bookings share a night, and bookings of the property are of the whole
    property, which has no room types. *)
Record Inv (s : store) : Prop := {
  inv_ids : key <$> st_bookings s = seqZ 1 (Z.of_nat (length (st_bookings s)));
  inv_unique : NoDup (night_of <$> st_blocked s);
  inv_types : active_room_types s pid = [];
  inv_whole : forall x : stay, x ∈ st_bookings s -> bk_property_id x = pid ->
    id_of (sy_room_type_id x) = None;
  inv_rows : forall (x : stay) d r, x ∈ st_bookings s -> covers pid d x = true ->
    r ∈ st_blocked s -> night_of r = (pid, d) ->
    bl_booking_id r = Some (bk_id x) /\ bl_reason r = enum_value BOOKED;
  inv_apart : forall (x y : stay) d, x ∈ st_bookings s -> y ∈ st_bookings s ->
    covers pid d x = true -> covers pid d y = true -> bk_id x = bk_id y;
}.

Lemma id_positive s (x : stay) : Inv s -> x ∈ st_bookings s -> 0 < bk_id x.
Proof.
  intros Hi Hx. assert (Hk : key x ∈ key <$> st_bookings s) by by apply list_elem_of_fmap_2.
  rewrite (inv_ids s Hi), elem_of_seqZ in Hk. unfold key in Hk. lia.
Qed.

Lemma get_stay_elem s (x : stay) : Inv s -> x ∈ st_bookings s -> get_stay s (bk_id x) = Some x.
Proof.
  intros Hi Hx. apply (find_key key); [|done]. rewrite (inv_ids s Hi). apply NoDup_seqZ.
Qed.

Lemma covers_spec d (x : stay) : covers pid d x = true <->
  bk_property_id x = pid /\ str_in (bk_status x) [enum_value CONFIRMED; enum_value CHECKED_IN] = true
  /\ bk_check_in x <= d < bk_check_out x.
Proof. unfold covers. rewrite !andb_true_iff, Z.eqb_eq, Z.leb_le, Z.ltb_lt. naive_solver. Qed.

(** A night nobody else holds: a row on it, and a live booking of it, are [b]'s. *)
Definition clear (s : store) (b : option Z) (d : date) : Prop :=
  (forall r, r ∈ st_blocked s -> night_of r = (pid, d) -> b <> None /\ bl_booking_id r = b)
  /\ (forall x : stay, x ∈ st_bookings s -> covers pid d x = true -> Some (bk_id x) = b).

Lemma available_clear s b d : Inv s -> is_date_available s pid d b = true ->
  (forall n, b = Some n -> n <> 0) -> clear s b d.
Proof.
  intros Hi Ha Hb. assert (Hid : id_of b = b).
  { destruct b as [n|]; [|done]. simpl. destruct (Z.eqb_spec n 0); [by destruct (Hb n)|done]. }
  unfold is_date_available in Ha. destruct (row_at s pid d) as [r0|] eqn:Hr.
  - apply row_at_Some in Hr as [Hr0 Hn0]. rewrite Hid in Ha.
    destruct b as [n|]; [|done]. apply bool_decide_eq_true in Ha. split.
    + intros r Hr Hn. assert (r = r0) as ->; [|done].
      eapply night_unique; [exact (inv_unique s Hi)|done|done|congruence].
    + intros x Hx Hc. destruct (inv_rows s Hi x d r0 Hx Hc Hr0 Hn0) as [E _]. congruence.
  - split; [intros r Hin Hn; by destruct (row_at_None _ _ _ _ Hr Hin)|].
    intros x Hx Hc. rewrite (inv_types s Hi) in Ha.
    destruct (existsb _ (st_bookings s)) eqn:E; [done|].
    assert (Hno : ~ (exists x : stay, List.In x (st_bookings s) /\
      covers pid d x && HostService.kept b x = true)) by (by rewrite <- existsb_exists, E).
    destruct b as [n|].
    + destruct (decide (bk_id x = n)) as [->|Hne]; [done|]. exfalso. apply Hno. exists x.
      split; [by apply list_elem_of_In|]. rewrite Hc. unfold HostService.kept. rewrite Hid.
      by destruct (Z.eqb_spec (bk_id x) n).
    + exfalso. apply Hno. exists x. split; [by apply list_elem_of_In|]. by rewrite Hc.
Qed.

(** A booking whose nights all carry its row holds clear nights. *)
Definition still_held (s : store) (x : stay) : Prop :=
  forall d, bk_check_in x <= d < bk_check_out x ->
    exists r, r ∈ st_blocked s /\ night_of r = (pid, d) /\ bl_booking_id r = Some (bk_id x).

Lemma held_clear s (x : stay) d : Inv s -> still_held s x -> bk_check_in x <= d < bk_check_out x ->
  clear s (Some (bk_id x)) d.
Proof.
  intros Hi Hh Hd. destruct (Hh d Hd) as (r0 & Hr0 & Hn0 & Hb0). split.
  - intros r Hr Hn. assert (r = r0) as ->; [|done].
    eapply night_unique; [exact (inv_unique s Hi)|done|done|congruence].
  - intros y Hy Hc. destruct (inv_rows s Hi y d r0 Hy Hc Hr0 Hn0) as [E _]. congruence.
Qed.

(** An operation on one booking keeps the invariant when the nights on which it
    leaves that booking live were clear, and the rows of live nights are right. *)
Lemma Inv_rewrite s s' b : Inv s ->
  rewrites b (fun y => bk_property_id y = pid -> id_of (sy_room_type_id y) = None)
    (st_bookings s) (st_bookings s') ->
  st_room_types s' = st_room_types s ->
  NoDup (night_of <$> st_blocked s') ->
  (forall (y : stay) d, y ∈ st_bookings s' -> bk_id y = b -> covers pid d y = true ->
     clear s (Some b) d /\ forall r, r ∈ st_blocked s' -> night_of r = (pid, d) ->
       bl_booking_id r = Some b /\ bl_reason r = enum_value BOOKED) ->
  (forall r d (x : stay), r ∈ st_blocked s' -> night_of r = (pid, d) -> x ∈ st_bookings s ->
     bk_id x <> b -> covers pid d x = true ->
     bl_booking_id r = Some (bk_id x) /\ bl_reason r = enum_value BOOKED) ->
  Inv s'.
Proof.
  intros Hi [Hk Hw] Ht Hu Hb Hr. unfold key in Hw. split.
  - rewrite Hk, (inv_ids s Hi). do 2 f_equal. by rewrite <- (length_fmap key), <- Hk, length_fmap.
  - done.
  - unfold active_room_types. rewrite Ht. exact (inv_types s Hi).
  - intros x [[Hx _]|[_ Hp]]%Hw Hpid; [by apply (inv_whole s Hi)|by apply Hp].
  - intros x d r Hx Hc Hin Hn. destruct (Hw x Hx) as [[Hx' Hne]|[E _]].
    + by eapply Hr.
    + rewrite E. by apply (Hb x d).
  - intros x y d Hx Hy Hcx Hcy. destruct (Hw x Hx) as [[Hx' Hnx]|[Ex _]], (Hw y Hy) as [[Hy' Hny]|[Ey _]].
    + by apply (inv_apart s Hi x y d).
    + exfalso. destruct (Hb y d Hy Ey Hcy) as [[_ Hcl] _]. specialize (Hcl x Hx' Hcx). congruence.
    + exfalso. destruct (Hb x d Hx Ex Hcx) as [[_ Hcl] _]. specialize (Hcl y Hy' Hcy). congruence.
    + congruence.
Qed.

(** An operation on rows only, whose rows of live nights were there before. *)
Lemma Inv_rows_only s s' : Inv s -> st_bookings s' = st_bookings s ->
  st_room_types s' = st_room_types s -> NoDup (night_of <$> st_blocked s') ->
  (forall r d (x : stay), r ∈ st_blocked s' -> night_of r = (pid, d) -> x ∈ st_bookings s ->
     covers pid d x = true -> bl_booking_id r = Some (bk_id x) /\ bl_reason r = enum_value BOOKED) ->
  Inv s'.
Proof.
  intros Hi Hb Ht Hu Hr. apply (Inv_rewrite s s' 0); try done.
  - rewrite Hb. split; [done|]. intros y Hy. left. split; [done|].
    pose proof (id_positive s y Hi Hy). unfold key. lia.
  - rewrite Hb. intros y d Hy E. pose proof (id_positive s y Hi Hy). lia.
  - intros r d x H1 H2 H3 _ H4. by apply (Hr r d x).
Qed.

Lemma live_clear s (x : stay) d : Inv s -> x ∈ st_bookings s -> covers pid d x = true ->
  clear s (Some (bk_id x)) d.
Proof.
  intros Hi Hx Hc. split.
  - intros r Hr Hn. by destruct (inv_rows s Hi x d r Hx Hc Hr Hn).
  - intros y Hy Hcy. f_equal. by apply (inv_apart s Hi y x d).
Qed.

(** The bookings live less, and no row appears. *)
Lemma Inv_shrink s s' b : Inv s ->
  rewrites b (fun y => (bk_property_id y = pid -> id_of (sy_room_type_id y) = None) /\
    forall d, covers pid d y = true -> exists x : stay, x ∈ st_bookings s /\ bk_id x = b /\ covers pid d x = true)
    (st_bookings s) (st_bookings s') ->
  st_room_types s' = st_room_types s -> NoDup (night_of <$> st_blocked s') ->
  (forall r, r ∈ st_blocked s' -> r ∈ st_blocked s) -> Inv s'.
Proof.
  intros Hi [Hk Hw] Ht Hu Hr. apply (Inv_rewrite s s' b); try done.
  - split; [done|]. intros y [?|[? []]]%Hw; [by left|by right].
  - intros y d Hy E Hc. destruct (Hw y Hy) as [[_ Hn]|[_ [_ Hcov]]]; [by destruct Hn|].
    destruct (Hcov d Hc) as (x & Hx & Ex & Hcx). rewrite <- Ex. split; [by apply live_clear|].
    intros r Hin Hn. apply (inv_rows s Hi x d r); auto.
  - intros r d x Hin Hn Hx _ Hc. apply (inv_rows s Hi x d r); auto.
Qed.

(** A booking becomes live where it is: its nights were clear, and its rows
    become booked ones. *)
Lemma Inv_live s s' (x : stay) : Inv s -> x ∈ st_bookings s ->
  rewrites (bk_id x) (same_place x) (st_bookings s) (st_bookings s') ->
  st_room_types s' = st_room_types s ->
  st_blocked s' = update_where (fun r => bool_decide (bl_booking_id r = Some (bk_id x)))
                    (book_row (enum_value BOOKED) (bk_id x)) (st_blocked s) ->
  (bk_property_id x = pid -> forall d, bk_check_in x <= d < bk_check_out x ->
     clear s (Some (bk_id x)) d) -> Inv s'.
Proof.
  intros Hi Hx Hw Ht Hb Hcl. apply (Inv_rewrite s s' (bk_id x)); try done.
  - destruct Hw as [Hk Hw]. split; [done|].
    intros y [?|[? (_ & Hp & _ & _ & Hrt)]]%Hw; [by left|right]. split; [done|].
    rewrite <- Hp, <- Hrt. by apply (inv_whole s Hi).
  - rewrite Hb, fmap_update; [by apply (inv_unique s Hi)|done].
  - intros y d Hy E Hc. apply covers_spec in Hc as (Hp & _ & Hd).
    destruct (proj2 Hw y Hy) as [[_ Hn]|[_ (_ & Ep & Ei & Eo & _)]]; [by destruct Hn|].
    rewrite <- Ei, <- Eo in Hd. rewrite <- Ep in Hp. specialize (Hcl Hp d Hd). split; [done|].
    rewrite Hb. intros r (r0 & Hr0 & ->)%elem_of_update Hn.
    assert (Hn0 : night_of r0 = (pid, d)) by (by destruct (bool_decide _)).
    destruct (proj1 Hcl r0 Hr0 Hn0) as [_ E0]. by rewrite bool_decide_eq_true_2.
  - rewrite Hb. intros r d y (r0 & Hr0 & ->)%elem_of_update Hn Hy Hne Hc.
    assert (Hn0 : night_of r0 = (pid, d)) by (by destruct (bool_decide _)).
    destruct (inv_rows s Hi y d r0 Hy Hc Hr0 Hn0) as [E0 ?].
    rewrite bool_decide_eq_false_2 by congruence. done.
Qed.

Lemma fresh_night now p reason bid u news ci co rows r :
  Forall (fresh_row now p reason bid u) news ->
  bl_blocked_date <$> news = List.filter (fun d => negb (is_blocked p rows d)) (nights ci co) ->
  r ∈ news -> bl_property_id r = p /\ bl_booking_id r = bid /\ bl_reason r = reason
    /\ ci <= bl_blocked_date r < co.
Proof.
  intros Hf Hd Hr. rewrite list.Forall_forall in Hf. destruct (Hf r Hr) as (? & ? & ? & _).
  split_and!; try done.
  all: assert (Hin : bl_blocked_date r ∈ bl_blocked_date <$> news) by (by apply list_elem_of_fmap_2);
    rewrite Hd in Hin; apply list_elem_of_In, List.filter_In in Hin as [Hin _];
    apply list_elem_of_In, elem_of_nights in Hin; lia.
Qed.

(** Blocking nights nobody lives in. *)
Lemma block_Inv now s p ci co reason bid u s' n : Inv s ->
  (p = pid -> forall d, ci <= d < co -> forall x : stay, x ∈ st_bookings s -> covers pid d x = false) ->
  block_dates now s p ci co reason bid u = (s', n) -> Inv s'.
Proof.
  intros Hi Hcl Hb. pose proof (block_dates_unique _ _ _ _ _ _ _ _ _ _ (inv_unique s Hi) Hb) as Hu.
  apply block_dates_spec in Hb as (news & seq & -> & Hf & Hd & _).
  apply (Inv_rows_only s); try done. simpl.
  intros r d x [Hr|Hr]%elem_of_app Hn Hx Hc; [by apply (inv_rows s Hi x d r)|].
  destruct (fresh_night _ _ _ _ _ _ _ _ _ _ Hf Hd Hr) as (Hp & _ & _ & Hrd).
  injection Hn as Ep Ed. exfalso. specialize (Hcl ltac:(congruence) d ltac:(lia) x Hx). congruence.
Qed.

(** A stay moves to clear nights: its rows are the new ones. *)
Lemma Inv_moved now s s1 s' (x : stay) ci co u n : Inv s -> x ∈ st_bookings s ->
  id_of (sy_room_type_id x) = None ->
  block_dates now (free_nights s (bk_id x)) (bk_property_id x) ci co (enum_value BOOKED)
    (Some (bk_id x)) u = (s1, n) ->
  st_blocked s' = st_blocked s1 -> st_room_types s' = st_room_types s ->
  rewrites (bk_id x) (fun y => bk_property_id y = bk_property_id x /\ bk_check_in y = ci
    /\ bk_check_out y = co /\ sy_room_type_id y = sy_room_type_id x) (st_bookings s) (st_bookings s') ->
  (bk_property_id x = pid -> forall d, ci <= d < co -> clear s (Some (bk_id x)) d) -> Inv s'.
Proof.
  intros Hi Hx Hrt Hb Hbl Ht Hw Hcl.
  assert (Hu : NoDup (night_of <$> st_blocked s')).
  { rewrite Hbl. eapply block_dates_unique; [|exact Hb]. simpl.
    apply nights_kept, (inv_unique s Hi). }
  apply block_dates_spec in Hb as (news & seq & -> & Hf & Hd & _). simpl in *.
  assert (Hold : forall r, r ∈ List.filter (negb ∘ (fun b => bool_decide (bl_booking_id b = Some (bk_id x))))
                     (st_blocked s) -> r ∈ st_blocked s /\ bl_booking_id r <> Some (bk_id x)).
  { intros r Hr. apply list_elem_of_In, List.filter_In in Hr as [Hr Hn]. simpl in Hn.
    split; [by apply list_elem_of_In|]. intros E. by rewrite bool_decide_eq_true_2 in Hn. }
  apply (Inv_rewrite s s' (bk_id x)); try done.
  - destruct Hw as [Hk Hw]. split; [done|]. intros y [?|[? (Hp & _ & _ & Hr)]]%Hw; [by left|right].
    split; [done|]. by rewrite Hr.
  - intros y d Hy E Hc. apply covers_spec in Hc as (Hp & _ & Hdd).
    destruct (proj2 Hw y Hy) as [[_ Hn]|[_ (Ep & Ei & Eo & _)]]; [by destruct Hn|].
    rewrite Ei, Eo in Hdd. rewrite Ep in Hp. specialize (Hcl Hp d Hdd). split; [done|].
    rewrite Hbl. intros r [Hr|Hr]%elem_of_app Hn.
    + destruct (Hold r Hr) as [Hr' Hne]. destruct (proj1 Hcl r Hr' Hn). done.
    + destruct (fresh_night _ _ _ _ _ _ _ _ _ _ Hf Hd Hr) as (_ & ? & ? & _). done.
  - rewrite Hbl. intros r d y [Hr|Hr]%elem_of_app Hn Hy Hne Hc.
    + apply (inv_rows s Hi y d r); [done|done|by apply Hold|done].
    + destruct (fresh_night _ _ _ _ _ _ _ _ _ _ Hf Hd Hr) as (Hp & _ & _ & Hrd).
      injection Hn as Ep Ed. exfalso.
      destruct (Hcl ltac:(congruence) d ltac:(lia)) as [_ Hc2]. specialize (Hc2 y Hy Hc). congruence.
Qed.

Lemma Inv_insert s (x : stay) : Inv s -> bk_id x = Z.of_nat (length (st_bookings s)) + 1 ->
  (bk_property_id x = pid -> id_of (sy_room_type_id x) = None) ->
  (forall d, covers pid d x = false) ->
  Inv (with_bookings s (st_bookings s ++ [x])).
Proof.
  intros Hi Hid Hp Hc. split; simpl.
  - rewrite fmap_app, (inv_ids s Hi), length_app. simpl. unfold key. rewrite Hid.
    rewrite Nat2Z.inj_add, seqZ_app by lia. f_equal. simpl. unfold seqZ. simpl. f_equal. lia.
  - exact (inv_unique s Hi).
  - exact (inv_types s Hi).
  - intros y [Hy| ->%list_elem_of_singleton]%elem_of_app; [by apply (inv_whole s Hi)|done].
  - intros y d r [Hy| ->%list_elem_of_singleton]%elem_of_app Hcy; [by apply (inv_rows s Hi)|].
    by rewrite Hc in Hcy.
  - intros y z d [Hy| ->%list_elem_of_singleton]%elem_of_app [Hz| ->%list_elem_of_singleton]%elem_of_app
      Hcy Hcz; try (by rewrite Hc in *). by apply (inv_apart s Hi y z d).
Qed.

End property.
