(* ===== verification/StayHistory.v ===== *)
(** Histories of booking operations: each keeps the invariant of StayLaws, so no
    two live bookings of a property ever share a night. *)

From S2P Require Import Prelude Tables Decimal BookingModel BookingStates PaymentStates.
From S2P Require Import BookingPolicy Cancellation Booking Pricing StayModel Signing Availability.
From S2P Require Import BookingService AvailabilityLaws StayLaws.

Local Open Scope Z_scope.

Import MarketplaceSignatures AvailabilityService BookingService.

(** * What the operations write *)

(** The tables the invariant reads. *)
Definition same_core (s s' : store) : Prop :=
  st_bookings s' = st_bookings s /\ st_blocked s' = st_blocked s
  /\ st_room_types s' = st_room_types s.

Lemma idle_status (y : stay) t : bk_status y = enum_value t -> t <> CONFIRMED -> t <> CHECKED_IN ->
  forall pid d, covers pid d y = false.
Proof.
  intros Hs H1 H2 pid d. unfold covers. rewrite Hs.
  assert (str_in (enum_value t) [enum_value CONFIRMED; enum_value CHECKED_IN] = false) as ->
    by (by destruct t). by rewrite andb_false_r.
Qed.

Lemma settle_payment_core e r s x txn amount s' :
  settle_payment e r s x txn amount = Ok s' -> same_core s s'.
Proof. unfold settle_payment. intros H. inv_ok H. by simplify_eq. Qed.

Lemma move_core e s (x : stay) t a s' (x' : stay) : move e s x t a = Ok (s', x') ->
  x' = with_booking x (set_status x (enum_value t))
  /\ rewrites (bk_id x) (eq (stored x')) (st_bookings s) (st_bookings s')
  /\ st_blocked s' = st_blocked s /\ st_room_types s' = st_room_types s.
Proof.
  intros (-> & -> & _)%move_Ok. split_and!; try done.
  by apply (write_stay_rewrites (with_db s _) _ (with_booking x (set_status x (enum_value t)))).
Qed.

Lemma rewrites_weaken b (P Q : stay -> Prop) B B' : rewrites b P B B' -> (forall y, P y -> Q y) ->
  rewrites b Q B B'.
Proof. intros [Hk Hw] HPQ. split; [done|]. intros y [?|[? ?]]%Hw; [by left|right; auto]. Qed.

Lemma confirm_cases e r s b txn ip ua s' a : confirm_booking e r s b txn ip ua = Ok (s', a) ->
  (s' = s /\ is_done a = false) \/
  exists row s2 x' d, let x := load e s row in let amount := dec_or0 (Some (bk_total_amount x)) in
    a = Done tt /\ get_stay s b = Some row /\ has_expired (now e) x = false
    /\ recheck s x = None /\ has_open_flags s b = false
    /\ BookingPolicyEvaluator.can_confirm (now e) (st_db s) x (is_some txn) = Ok d
    /\ pd_allowed d = true
    /\ settle_payment e r (drop_blocks (mark_booked s b) x) x txn amount = Ok s2
    /\ move e s2 (paid_stay e x txn amount) CONFIRMED (confirmation_args x ip ua txn amount) = Ok (s', x').
Proof.
  unfold confirm_booking. intros H. bind H as row Hrow. apply of_option_Ok in Hrow.
  destruct (String.eqb _ _); [left; by simplify_eq|].
  destruct (has_expired _ _) eqn:He; [left; by simplify_eq|].
  destruct (recheck _ _) eqn:Hr; [left; by simplify_eq|].
  destruct (has_open_flags _ _) eqn:Hf; [left; by simplify_eq|].
  destruct (BookingPolicyEvaluator.can_confirm _ _ _ _) as [d|] eqn:Hd; [|left; by simplify_eq].
  destruct (pd_allowed d) eqn:Hp; simpl in H; [|left; by simplify_eq].
  destruct (settle_payment _ _ _ _ _ _) as [s2|] eqn:Hs; [|left; by simplify_eq].
  destruct (move _ _ _ _ _) as [[s3 x']|] eqn:Hm; [|left; by simplify_eq].
  right. exists row, s2, x', d. simplify_eq. by split_and!.
Qed.

Lemma recheck_None s (x : stay) : recheck s x = None ->
  all_available s (bk_property_id x) (bk_check_in x) (bk_check_out x) (Some (bk_id x)).
Proof.
  unfold recheck. destruct (match id_of _ with Some _ => _ | None => _ end); [done|].
  destruct (is_range_available _ _ _ _ _) as [[av l] er] eqn:E. destruct av; [|done]. intros _.
  eapply is_range_available_true. by rewrite E.
Qed.

Lemma drop_blocks_core s x : same_core s (drop_blocks s x).
Proof. unfold drop_blocks. by destruct (id_of _). Qed.

Lemma release_inventory_rows s (x : stay) :
  st_bookings (release_inventory s x) = st_bookings s
  /\ st_room_types (release_inventory s x) = st_room_types s
  /\ st_blocked (release_inventory s x) = st_blocked (free_nights s (bk_id x)).
Proof. unfold release_inventory. by destruct (id_of _). Qed.

Lemma freed_rows s b :
  (forall r, r ∈ st_blocked (free_nights s b) -> r ∈ st_blocked s)
  /\ (NoDup (night_of <$> st_blocked s) -> NoDup (night_of <$> st_blocked (free_nights s b))).
Proof.
  split; [|by apply nights_kept]. simpl. intros r Hr. apply list_elem_of_In, List.filter_In in Hr as [Hr _].
  by apply list_elem_of_In.
Qed.

Lemma convert_bookings s x : st_bookings (convert_holds s x) = st_bookings s.
Proof. unfold convert_holds. by destruct (id_of _). Qed.

(** * Every operation keeps the invariant *)

Section property.
Context (pid : Z).

Lemma Inv_core s s' : Inv pid s -> same_core s s' -> Inv pid s'.
Proof.
  intros Hi (Hb & Hl & Ht). apply (Inv_rows_only pid s); rewrite ?Hl; try done.
  - apply (inv_unique pid s Hi).
  - intros r d x Hr Hn Hx Hc. by apply (inv_rows pid s Hi x d r).
Qed.

Lemma Inv_deleted s s' : Inv pid s -> st_bookings s' = st_bookings s ->
  st_room_types s' = st_room_types s ->
  (exists c, st_blocked s' = List.filter c (st_blocked s)) -> Inv pid s'.
Proof.
  intros Hi Hb Ht [c Hc]. apply (Inv_rows_only pid s); try done; rewrite Hc.
  - apply nights_kept, (inv_unique pid s Hi).
  - intros r d x Hr Hn Hx Hcv. apply list_elem_of_In, List.filter_In in Hr as [Hr _].
    apply (inv_rows pid s Hi x d r); try done. by apply list_elem_of_In.
Qed.

(** The check every caller of [create_hold] and of the calendar makes first. *)
Definition free (s : store) (ci co : date) : Prop := (is_range_available s pid ci co None).1.1 = true.

Lemma free_uncovered s ci co d : Inv pid s -> free s ci co -> ci <= d < co ->
  forall x : stay, x ∈ st_bookings s -> covers pid d x = false.
Proof.
  intros Hi [_ Ha]%is_range_available_true Hd x Hx.
  destruct (available_clear pid s None d Hi (Ha d Hd)) as [_ Hc]; [done|].
  destruct (covers pid d x) eqn:E; [|done]. by specialize (Hc x Hx E).
Qed.

Lemma hold_Inv now s p ci co u rt units mins ty sla : Inv pid s -> (p = pid -> free s ci co) ->
  Inv pid (create_hold now s p ci co u rt units mins ty sla).1.
Proof.
  intros Hi Hf.
  assert (Hm : forall s' hid h, add_hold s' h = Some hid -> same_core s' hid.1).
  { unfold add_hold. intros s' hid h. destruct (_ && _); [|done]. by intros [= <-]. }
  assert (Hs : Inv pid (let '(s', n) := block_dates now s p ci co (enum_value TEMPORARY_HOLD) None (Some u) in s')).
  { destruct (block_dates _ _ _ _ _ _ _ _) as [s' n] eqn:E. eapply (block_Inv pid); [exact Hi| |exact E].
    intros Hp d Hd. apply (free_uncovered s ci co d Hi); [by apply Hf|done]. }
  unfold create_hold. destruct (block_dates _ _ _ _ _ _ _ _) as [s' n].
  assert (Hb : forall h, Inv pid ((if n =? 0 then (s', Refused (Say "Dates are already on hold"))
      else match add_hold s' h with
           | Some (s', hid) => (s', Done hid)
           | None => (s', Refused (Say "Could not hold dates. Please try again."))
           end) : store * answer Z).1).
  { intros h. destruct (n =? 0); [done|]. destruct (add_hold s' h) as [[s2 hid]|] eqn:E; [|done].
    eapply Inv_core; [exact Hs|]. exact (Hm _ _ _ E). }
  destruct (id_of rt) as [rid|]; [|apply Hb]. destruct (is_multi_unit s rt); [|apply Hb].
  destruct (_ <? units); [done|]. unfold add_block.
  destruct (_validate_reason _); [|done]. simpl.
  destruct (add_hold _ _) as [[s2 hid]|] eqn:E; [|done]. simpl.
  eapply Inv_core; [exact Hi|]. exact (Hm _ _ _ E).
Qed.

Lemma update_status_core (s s2 : store) (x : stay) (st : AccommodationBookingStatus) :
  Inv pid s -> x ∈ st_bookings s -> st <> CONFIRMED -> st <> CHECKED_IN ->
  rewrites (bk_id x) (fun y => same_place x y /\ bk_status y = enum_value st) (st_bookings s) (st_bookings s2) ->
  st_room_types s2 = st_room_types s -> NoDup (night_of <$> st_blocked s2) ->
  (forall r, r ∈ st_blocked s2 -> r ∈ st_blocked s) -> Inv pid s2.
Proof.
  intros Hi Hx H1 H2 Hw Ht Hu Hr. apply (Inv_shrink pid s s2 (bk_id x)); try done.
  eapply rewrites_weaken; [exact Hw|]. intros y [(_ & Hp & _ & _ & Hrt) Hst]. split.
  - rewrite <- Hp, <- Hrt. by apply (inv_whole pid s Hi).
  - intros d Hc. by rewrite (idle_status y st Hst H1 H2) in Hc.
Qed.

Lemma confirm_booking_Inv e r s b txn ip ua s' a : Inv pid s ->
  confirm_booking e r s b txn ip ua = Ok (s', a) -> Inv pid s'.
Proof.
  intros Hi [[-> _]|(row & s2 & x' & d & _ & Hrow & _ & Hre & _ & _ & _ & Hset & Hm)]%confirm_cases; [done|].
  destruct (get_stay_Some _ _ _ Hrow) as [Hx <-].
  apply settle_payment_core in Hset as (B2 & L2 & T2).
  destruct (drop_blocks_core (mark_booked s (bk_id row)) (load e s row)) as (B1 & L1 & T1).
  apply move_core in Hm as (-> & Hw & L3 & T3).
  apply (Inv_live pid s s' row); try done.
  - rewrite B2, B1 in Hw. eapply rewrites_weaken.
    + replace (bk_id row) with (bk_id (paid_stay e (load e s row) txn (dec_or0 (Some (bk_total_amount (load e s row))))));
        [exact Hw|]. unfold paid_stay. by destruct (_ || _).
    + intros y <-. unfold paid_stay. by destruct (_ || _).
  - by rewrite T3, T2, T1.
  - by rewrite L3, L2, L1.
  - intros Hp d' Hd. pose proof (recheck_None _ _ Hre d' Hd) as Ha.
    change (bk_property_id (load e s row)) with (bk_property_id row) in Ha. rewrite Hp in Ha.
    apply available_clear; [done|exact Ha|]. intros n [= <-].
    pose proof (id_positive pid s row Hi Hx). lia.
Qed.

Lemma approve_Inv e s b u reason ip ua s' a : Inv pid s ->
  (forall row, get_stay s b = Some row -> bk_property_id row = pid -> still_held pid s row) ->
  approve_booking e s b u reason ip ua = Ok (s', a) -> Inv pid s'.
Proof.
  intros Hi Hheld. unfold approve_booking. intros H. bind H as row Hrow. apply of_option_Ok in Hrow.
  destruct (negb _); [by simplify_eq|]. destruct (get_stay_Some _ _ _ Hrow) as [Hx <-].
  destruct (move _ _ _ _ _) as [[s1 x']|] eqn:Hm; [|by simplify_eq]. simplify_eq.
  apply move_core in Hm as (-> & Hw & L & T).
  destruct (drop_blocks_core (mark_booked s1 (bk_id row)) (with_booking (approved e (load e s row) u reason)
    (set_status (approved e (load e s row) u reason) (enum_value CONFIRMED)))) as (B1 & L1 & T1).
  apply (Inv_live pid s _ row); try done.
  - rewrite B1. eapply rewrites_weaken; [exact Hw|]. by intros y <-.
  - by rewrite T1.
  - rewrite L1. simpl. by rewrite L.
  - intros Hp d Hd. apply held_clear; auto.
Qed.

Lemma freed_Inv s (x : stay) : Inv pid s -> Inv pid (release_inventory s x).
Proof.
  intros Hi. destruct (release_inventory_rows s x) as (B & T & L).
  apply (Inv_deleted s); [done..|]. rewrite L. simpl. by eexists.
Qed.

Lemma rolled_back_Inv s s1 x : Inv pid s -> Inv pid s1 -> Inv pid (rolled_back s s1 x).
Proof. unfold rolled_back. by destruct (is_some _). Qed.

(** A booking leaves the live states with its inventory. *)
Lemma released_nights_Inv s s' (x : stay) st : Inv pid s -> x ∈ st_bookings s ->
  st <> CONFIRMED -> st <> CHECKED_IN ->
  rewrites (bk_id x) (fun y => same_place x y /\ bk_status y = enum_value st) (st_bookings s) (st_bookings s') ->
  st_blocked s' = st_blocked (release_inventory s x) -> st_room_types s' = st_room_types s -> Inv pid s'.
Proof.
  intros Hi Hx H1 H2 Hw HL HT. destruct (release_inventory_rows s x) as (_ & _ & L).
  destruct (freed_rows s (bk_id x)) as [Hsub Hnd]. apply (update_status_core s s' x st); try done.
  - rewrite HL, L. apply Hnd, (inv_unique pid s Hi).
  - rewrite HL, L. exact Hsub.
Qed.

Lemma reject_Inv e s b u reason ip ua s' a : Inv pid s ->
  reject_booking e s b u reason ip ua = Ok (s', a) -> Inv pid s'.
Proof.
  intros Hi. unfold reject_booking. intros H. bind H as row Hrow. apply of_option_Ok in Hrow.
  destruct (negb _); [by simplify_eq|]. destruct (get_stay_Some _ _ _ Hrow) as [Hx <-].
  destruct (move _ _ _ _ _) as [[s1 x']|] eqn:Hm; simplify_eq;
    [|by apply rolled_back_Inv, freed_Inv].
  apply move_core in Hm as (-> & Hw & L & T).
  destruct (release_inventory_rows s (load e s row)) as (B & T1 & _).
  apply (released_nights_Inv s _ row BookingModel.CANCELLED); try done.
  - rewrite B in Hw. eapply rewrites_trans; [exact Hw|].
    eapply rewrites_weaken; [by apply write_stay_rewrites|]. by intros y <-.
  - simpl. by rewrite T.
Qed.

Lemma cancel_Inv e r s b u reason ip ua key human rr s' a : Inv pid s ->
  cancel_booking e r s b u reason ip ua key human rr = Ok (s', a) -> Inv pid s'.
Proof.
  intros Hi. unfold cancel_booking. intros H. bind H as row Hrow. apply of_option_Ok in Hrow.
  destruct (bool_decide _); [by simplify_eq|]. bind H as q Hq.
  destruct (negb (q_allowed q)); [by simplify_eq|].
  destruct (get_stay_Some _ _ _ Hrow) as [Hx <-].
  pose proof (rolled_back_Inv s _ (load e s row) Hi (freed_Inv s (load e s row) Hi)) as Hrb.
  destruct (move _ _ _ _ _) as [[s1 x']|[]] eqn:Hm; [|by simplify_eq..].
  destruct (sign_cancellation_outcome _ _ _) as [mac|]; [|by simplify_eq].
  apply move_core in Hm as (-> & Hw & L & T).
  destruct (release_inventory_rows s (load e s row)) as (B & T1 & _).
  set (v := if _ && _ then _ else Some s1) in H.
  assert (Hv : forall s3, v = Some s3 -> same_core s1 s3).
  { intros s3. unfold v. destruct (_ && _); [|by intros [= <-]]. unfold record_policy_violation.
    destruct (get_property _ _); [|done]. simpl. by intros [= <-]. }
  destruct v as [s3|]; [|by simplify_eq]. destruct (Hv s3 eq_refl) as (B3 & L3 & T3).
  destruct (_store_refund_workflow _ _ _) as [x3|] eqn:Hx3; [|by simplify_eq].
  apply stored_workflow in Hx3 as (w & -> & _). simplify_eq.
  match goal with |- Inv pid (charge_penalty ?w ?x0 ?q0 ?k) =>
    assert (Hc : same_core w (charge_penalty w x0 q0 k))
      by (unfold charge_penalty; by destruct (_ && _));
    apply (Inv_core w); [|done] end.
  apply (released_nights_Inv s _ row BookingModel.CANCELLED); try done; simpl.
  - rewrite B3. rewrite B in Hw. eapply rewrites_trans; [exact Hw|].
    match goal with |- rewrites _ _ ?l (update_where _ (fun _ => stored ?x2) _) =>
      eapply rewrites_weaken; [exact (write_stay_rewrites (with_bookings s l) (bk_id row) x2 eq_refl)|] end.
    by intros y <-.
  - by rewrite L3, L.
  - by rewrite T3, T.
Qed.


Lemma modify_cases e s b u ci co s' a : modify_booking_dates e s b u ci co = Ok (s', a) ->
  (s' = s /\ is_done a = false) \/
  exists (x : stay) p today m, let ci' := default (bk_check_in x) ci in let co' := default (bk_check_out x) co in
    a = Done m /\ get_stay s b = Some x
    /\ str_in (bk_status x) [enum_value CONFIRMED; enum_value CHECKED_IN] = true
    /\ get_property s (bk_property_id x) = Some p /\ local_today e (ls_id p) = Some today
    /\ check_dates p today ci' co' = None
    /\ (check_availability_for_dates s (bk_property_id x) ci' co' (Some (bk_id x)) (sy_room_type_id x)
         (if sy_rooms_requested x =? 0 then 1 else sy_rooms_requested x)).1.1 = true
    /\ PricingService.calculate_modification_price x ci' co' = Ok m
    /\ s' = with_adjustments (write_stay (reblock e s x ci' co' u) (moved x ci' co' m))
              (st_adjustments (reblock e s x ci' co' u) ++ [adjustment_of x u ci' co' m]).
Proof.
  unfold modify_booking_dates. intros H. bind H as x Hx. apply of_option_Ok in Hx.
  destruct (sy_is_deleted x); [left; by simplify_eq|].
  destruct (_ && _); [left; by simplify_eq|].
  destruct (str_in _ _) eqn:Hst; simpl in H; [|left; by simplify_eq].
  destruct (get_property _ _) as [p|] eqn:Hp; [|left; by simplify_eq].
  destruct (_ && _); [left; by simplify_eq|].
  destruct (local_today _ _) as [today|] eqn:Ht; [|left; by simplify_eq].
  destruct (check_dates _ _ _ _) eqn:Hd; [left; by simplify_eq|].
  destruct (check_availability_for_dates _ _ _ _ _ _ _) as [[av l] er] eqn:Ha.
  destruct av; simpl in H; [|left; by simplify_eq].
  destruct (PricingService.calculate_modification_price _ _ _) as [m|[]] eqn:Hm; try done;
    [|left; by simplify_eq].
  right. exists x, p, today, m. simplify_eq. rewrite Ha. by split_and!.
Qed.

Lemma moved_place (x : stay) ci co m : let y := stored (moved x ci co m) in
  bk_id y = bk_id x /\ bk_property_id y = bk_property_id x /\ bk_check_in y = ci
  /\ bk_check_out y = co /\ sy_room_type_id y = sy_room_type_id x /\ bk_status y = bk_status x.
Proof. unfold moved. by destruct (dltb _ _). Qed.

Lemma modify_Inv e s b u ci co s' a : Inv pid s ->
  modify_booking_dates e s b u ci co = Ok (s', a) -> Inv pid s'.
Proof.
  intros Hi [[-> _]|(x & p & today & m & _ & Hx & _ & _ & _ & _ & Hav & _ & ->)]%modify_cases; [done|].
  destruct (get_stay_Some _ _ _ Hx) as [Hin <-]. revert Hav.
  set (ci' := default _ ci). set (co' := default _ co). intros Hav.
  match goal with |- Inv pid (with_adjustments ?w _) => apply (Inv_core w); [|done] end.
  destruct (moved_place x ci' co' m) as (E1 & E2 & E3 & E4 & E5 & _).
  assert (Hid : bk_id (moved x ci' co' m) = bk_id x) by exact E1.
  assert (Hw : rewrites (bk_id x) (fun y => bk_property_id y = bk_property_id x /\ bk_check_in y = ci'
    /\ bk_check_out y = co' /\ sy_room_type_id y = sy_room_type_id x)
    (st_bookings s) (st_bookings (write_stay (reblock e s x ci' co' u) (moved x ci' co' m)))).
  { replace (st_bookings s) with (st_bookings (reblock e s x ci' co' u)).
    - eapply rewrites_weaken; [by apply write_stay_rewrites|]. intros y <-. by split_and!.
    - unfold reblock. destruct (release_inventory_rows s x) as (B & _ & _). destruct (id_of _); [done|].
      unfold block_dates. by destruct (foldl _ _ _) as [[??]?]. }
  unfold reblock in *. destruct (release_inventory_rows s x) as (B & T & L).
  destruct (id_of (sy_room_type_id x)) as [rid|] eqn:Hrt.
  - destruct (freed_rows s (bk_id x)) as [Hsub Hnd].
    apply (Inv_shrink pid s _ (bk_id x)); try done; simpl.
    + eapply rewrites_weaken; [exact Hw|]. intros y (Hp & _ & _ & Hr).
      assert (bk_property_id x <> pid) by (intros E; by rewrite (inv_whole pid s Hi) in Hrt).
      split; [congruence|]. intros d Hc. apply covers_spec in Hc as (? & _). congruence.
    + rewrite L. apply Hnd, (inv_unique pid s Hi).
    + rewrite L. exact Hsub.
  - assert (Hfree : release_inventory s x = free_nights s (bk_id x))
      by (unfold release_inventory; by rewrite Hrt). rewrite Hfree in *.
    destruct (block_dates _ _ _ _ _ _ _ _) as [s1 n] eqn:Hb.
    assert (Ht : st_room_types s1 = st_room_types s)
      by (by apply block_dates_spec in Hb as (? & ? & -> & _)).
    eapply (Inv_moved pid (now e) s s1 _ x ci' co'); try done.
    intros Hp d Hd. apply available_clear; [done| |].
    + unfold check_availability_for_dates in Hav. rewrite Hrt in Hav.
      destruct (co' <=? ci'); [done|]. apply is_range_available_true in Hav as [_ Hav].
      rewrite <- Hp. by apply Hav.
    + intros n' [= <-]. pose proof (id_positive pid s x Hi Hin). lia.
Qed.


Lemma adjust_Inv e s (x : stay) w ci co s' a : Inv pid s -> adjust e s x w ci co = Ok (s', a) -> Inv pid s'.
Proof.
  unfold adjust. intros Hi H. destruct w; [|by simplify_eq]. bind H as r Hr.
  destruct r as [s1 a1]. simplify_eq/=. by eapply modify_Inv.
Qed.

(** A front desk step: the stay keeps its place, and is live after it only if
    it was before. *)
Lemma desk_Inv s s' (x : stay) : Inv pid s -> x ∈ st_bookings s ->
  rewrites (bk_id x) (fun y => same_place x y /\ forall d, covers pid d y = true -> covers pid d x = true)
    (st_bookings s) (st_bookings s') ->
  st_blocked s' = st_blocked s -> st_room_types s' = st_room_types s -> Inv pid s'.
Proof.
  intros Hi Hx Hw HL HT. apply (Inv_shrink pid s s' (bk_id x)); try done; rewrite ?HL; try done.
  - eapply rewrites_weaken; [exact Hw|]. intros y [(_ & Hp & _ & _ & Hrt) Hc]. split.
    + rewrite <- Hp, <- Hrt. by apply (inv_whole pid s Hi).
    + intros d Hd. exists x. auto.
  - apply (inv_unique pid s Hi).
Qed.

Lemma check_in_Inv e s b u w : Inv pid s -> Inv pid (check_in e s b u w).1.
Proof.
  intros Hi. unfold check_in. destruct (get_stay s b) as [row|]; [|done].
  destruct (sy_is_checked_in row); [done|]. destruct (BookingStateMachine.property_today _) as [today|]; [|done].
  destruct (adjust _ _ _ _ _ _) as [[s1 [m|info]]|] eqn:Ha; [by eapply adjust_Inv| |done].
  apply adjust_Inv in Ha as Hi1; [|done].
  destruct (get_stay s1 b) as [row1|] eqn:Hrow; [|done]. destruct (get_stay_Some _ _ _ Hrow) as [Hx <-].
  destruct (negb _); [done|]. destruct (BookingPolicyEvaluator.can_check_in _ _ _) as [d|]; [|done].
  destruct (negb _); [done|]. destruct (room_assignment _ _); try done.
  destruct (move _ _ _ _ _) as [[s2 x']|] eqn:Hm; [|done]. simpl.
  pose proof (proj2 (proj2 (move_Ok _ _ _ _ _ _ _ Hm))) as Hc.
  apply move_core in Hm as (-> & Hw & L & T).
  apply (desk_Inv s1 _ row1); [done|done| |exact L|exact T].
  eapply rewrites_trans; [exact Hw|]. eapply rewrites_weaken; [by apply write_stay_rewrites|].
  intros y <-. split; [done|]. intros d' (Hp & _ & Hd)%covers_spec. apply covers_spec.
  split; [exact Hp|]. split; [|exact Hd].
  apply BookingStateMachine.can_transition_true in Hc as (st & Hst & Htab & _).
  change (bk_status (load e s1 row1)) with (bk_status row1) in Hst. rewrite Hst.
  revert Htab. clear. unfold tstep. destruct st; simpl; set_solver.
Qed.

Lemma check_out_Inv e s b u w : Inv pid s -> Inv pid (check_out e s b u w).1.
Proof.
  intros Hi. unfold check_out. destruct (get_stay s b) as [row|]; [|done].
  destruct (negb _); [done|]. destruct (sy_is_checked_out row); [done|].
  destruct (BookingStateMachine.property_today _) as [today|]; [|done].
  destruct (adjust _ _ _ _ _ _) as [[s1 [m|info]]|] eqn:Ha; [by eapply adjust_Inv| |done].
  apply adjust_Inv in Ha as Hi1; [|done].
  destruct (get_stay s1 b) as [row1|] eqn:Hrow; [|done]. destruct (get_stay_Some _ _ _ Hrow) as [Hx <-].
  destruct (move _ _ _ _ _) as [[s2 x']|] eqn:Hm; [|done]. simpl.
  apply move_core in Hm as (-> & Hw & L & T).
  apply (desk_Inv s1 _ row1); [done|done| |exact L|exact T].
  match goal with |- rewrites _ _ _ (st_bookings (release_rooms ?w _)) =>
    change (st_bookings (release_rooms w _)) with (st_bookings w) end.
  eapply rewrites_trans; [exact Hw|]. eapply rewrites_weaken; [by apply write_stay_rewrites|].
  intros y <-. split; [done|]. intros d Hd. by rewrite (idle_status _ CHECKED_OUT) in Hd.
Qed.

(** ** Creating *)

Lemma check_request_Accepted e s q p rt : check_request e s q = Done (Accepted p rt) ->
  get_property s (bq_property_id q) = Some p /\ can_be_booked p = true
  /\ find_by_key s q = None /\ rt = resolve_room_type s q /\ check_inventory s q rt = None.
Proof.
  unfold check_request. destruct (_ <=? _); [done|]. destruct (_ <? 1); [done|].
  destruct (get_property _ _) as [p0|]; [|done]. destruct (can_be_booked p0) eqn:Hb; simpl; [|done].
  destruct (find_by_key s q) eqn:Hk; [done|]. destruct (occupancy _ _ _); [done|].
  destruct (anti_abuse _ _ _); [done|]. destruct (check_inventory _ _ _) eqn:Hc; [done|].
  intros [= <- <-]. by split_and!.
Qed.

Lemma flow_core s p timing : same_core s (_determine_booking_flow_type s p timing).1.
Proof.
  unfold _determine_booking_flow_type, PaymentPolicyService.get_or_create_policy.
  destruct (String.eqb _ _); [done|]. destruct (PaymentPolicyService.get_policy _ _);
    repeat (case_match; try done).
Qed.

Lemma insert_stay_Some s x s' : insert_stay s x = Some s' -> s' = with_bookings s (st_bookings s ++ [x]).
Proof. unfold insert_stay. destruct (_ || _); [done|]. by intros [= <-]. Qed.

Lemma to_waiting_Inv e s (x : stay) q s' x' : Inv pid s -> x ∈ st_bookings s ->
  to_waiting e s x q = Ok (s', x') -> Inv pid s'.
Proof.
  intros Hi Hx H. unfold to_waiting in H. bind H as r Hr. destruct r as [s1 x1].
  apply move_core in Hr as (-> & Hw1 & L1 & T1). simpl in H.
  assert (Hgo : forall t, t <> CONFIRMED -> t <> CHECKED_IN ->
    forall a, move e s1 (with_booking x (set_status x (enum_value HELD))) t a = Ok (s', x') -> Inv pid s').
  { intros t H1 H2 a Hm. apply move_core in Hm as (-> & Hw2 & L2 & T2).
    apply (update_status_core s s' x t); try done.
    - eapply rewrites_trans; [exact Hw1|]. eapply rewrites_weaken; [exact Hw2|]. by intros y <-.
    - by rewrite T2.
    - rewrite L2, L1. apply (inv_unique pid s Hi).
    - by rewrite L2, L1. }
  destruct (str_in _ _); [by eapply (Hgo PENDING_APPROVAL)|by eapply (Hgo PENDING_PAYMENT)].
Qed.

(** Temporary rows are never those of a live night. *)
Lemma convert_Inv s x : Inv pid s -> Inv pid (convert_holds s x).
Proof.
  intros Hi. unfold convert_holds.
  match goal with |- Inv pid (match _ with Some _ => _ | None => ?s1 end) => assert (H1 : Inv pid s1) end.
  { apply (Inv_rows_only pid s); try done; simpl.
    - rewrite fmap_update; [apply (inv_unique pid s Hi)|done].
    - intros r d y (r0 & Hr0 & ->)%elem_of_update Hn Hy Hc.
      assert (Hn0 : night_of r0 = (pid, d)) by (by destruct (_ && temporary r0)).
      destruct (inv_rows pid s Hi y d r0 Hy Hc Hr0 Hn0) as [E0 Er].
      unfold temporary. rewrite Er. by rewrite andb_false_r. }
  destruct (id_of _); [|done]. by eapply Inv_core.
Qed.

Lemma hold_inventory_Inv e s (x : stay) g : Inv pid s ->
  (bk_property_id x = pid -> forall d, bk_check_in x <= d < bk_check_out x ->
     forall y : stay, y ∈ st_bookings s -> covers pid d y = false) ->
  Inv pid (hold_inventory e s x g) /\ st_bookings (hold_inventory e s x g) = st_bookings s.
Proof.
  intros Hi Hc. unfold hold_inventory. destruct (id_of _) as [rid|].
  - unfold block_room_type_units, add_block. destruct (get_room_type _ _); [|done].
    destruct (_ <? _); [done|]. destruct (_validate_reason _); [|done]. simpl. split; [|done].
    by eapply Inv_core.
  - destruct (block_dates _ _ _ _ _ _ _ _) as [s' n] eqn:Hb. simpl. split.
    + eapply (block_Inv pid); [exact Hi| |exact Hb]. exact Hc.
    + by apply block_dates_spec in Hb as (? & ? & -> & _).
Qed.

Lemma book_Inv e r s q p rt pricing : Inv pid s -> check_request e s q = Done (Accepted p rt) ->
  (bq_property_id q = pid -> id_of (bq_room_type_id q) = None) ->
  Inv pid (book e r s q p rt pricing).1.
Proof.
  intros Hi (_ & _ & _ & Hrt & Hinv)%check_request_Accepted Hq. unfold book.
  pose proof (flow_core s p (bq_payment_timing q)) as Hcore.
  destruct (_determine_booking_flow_type _ _ _) as [s1 flow]. simpl in Hcore.
  assert (Hi1 : Inv pid s1) by by eapply Inv_core.
  destruct Hcore as (B & L & T). set (x := new_stay _ _ _ _ _ _ _ _).
  destruct (insert_stay s1 x) as [s2|] eqn:Hins; [|done]. apply insert_stay_Some in Hins as ->.
  assert (Hidle : forall d, covers pid d x = false) by (by apply (idle_status x DRAFT)).
  assert (Hi2 : Inv pid (with_bookings s1 (st_bookings s1 ++ [x]))).
  { apply Inv_insert; try done. intros Hp. simpl. rewrite Hrt. unfold resolve_room_type.
    rewrite Hq by done. change (bq_property_id q = pid) in Hp. by rewrite Hp, (inv_types pid s Hi). }
  set (s2 := with_bookings s1 (st_bookings s1 ++ [x])) in *.
  set (s3 := if bq_skip_hold_creation q then _ else _).
  assert (Hi3 : Inv pid s3 /\ st_bookings s3 = st_bookings s2).
  { unfold s3. destruct (bq_skip_hold_creation q) eqn:Hskip.
    - split; [by apply convert_Inv|]. apply convert_bookings.
    - apply hold_inventory_Inv; [done|]. intros Hp d Hd y Hy.
      apply elem_of_app in Hy as [Hy| ->%list_elem_of_singleton]; [|done]. rewrite B in Hy.
      apply (free_uncovered s (bq_check_in q) (bq_check_out q) d); try done.
      unfold check_inventory in Hinv. rewrite Hskip in Hinv.
      destruct (match id_of rt with Some _ => _ | None => _ end); [done|].
      change (bq_property_id q = pid) in Hp. rewrite Hp in Hinv. unfold free.
      destruct (is_range_available _ _ _ _ _) as [[[] ?] ?]; done. }
  destruct Hi3 as [Hi3 B3].
  destruct (to_waiting e s3 x q) as [[s4 x']|] eqn:Hw; [|by destruct (bq_skip_hold_creation q)].
  apply to_waiting_Inv in Hw as Hi4; [|done|rewrite B3; set_solver].
  assert (Hi5 : Inv pid (upsert_profile s4 (bq_guest_user_id q) (ls_currency p))) by by eapply Inv_core.
  destruct (PaymentStateMachine.add_event _ _); [|done]. by eapply Inv_core.
Qed.

Lemma create_Inv e r s q : Inv pid s -> (bq_property_id q = pid -> id_of (bq_room_type_id q) = None) ->
  Inv pid (create_booking e r s q).1.
Proof.
  intros Hi Hq. unfold create_booking. destruct (check_request e s q) as [m|[x|p rt]] eqn:Ha; [done..|].
  destruct (price _ _ _ _) as [pricing|[]]; try done. by apply book_Inv.
Qed.


(** ** Sweeps, releases and the host's calendar *)

Lemma deleted_Inv s c : Inv pid s -> Inv pid (delete_blocked s c).1.
Proof. intros Hi. apply (Inv_deleted s); try done. by eexists. Qed.

Lemma release_hold_Inv s p ci co u : Inv pid s -> Inv pid (release_hold s p ci co u).1.
Proof.
  intros Hi. unfold release_hold. simpl. eapply Inv_core; [by apply deleted_Inv|done].
Qed.

Lemma sweep_Inv now s mins n a b : Inv pid s -> Inv pid (release_expired_holds now s mins n a b).1.
Proof.
  intros Hi. unfold release_expired_holds. simpl. eapply Inv_core; [by apply deleted_Inv|done].
Qed.

Lemma expire_room_holds_Inv now s : Inv pid s -> Inv pid (expire_room_holds now s).1.
Proof.
  unfold expire_room_holds. simpl. generalize (List.filter (is_expired_flag now) (st_holds s)).
  intros l. revert s. induction l as [|h l IH]; intros s Hi; simpl; [done|]. apply IH.
  unfold expire_hold. simpl.
  eapply Inv_core; [by apply deleted_Inv|]. by destruct (id_of _).
Qed.

Lemma expire_one_Inv e s (x : stay) : Inv pid s ->
  (bk_property_id x = pid -> id_of (sy_room_type_id x) = None) -> Inv pid (expire_one e s x).
Proof.
  intros Hi Hx. unfold expire_one.
  match goal with |- Inv pid (write_stay ?s2 ?x2) => set (s2' := s2); set (x2' := x2) end.
  assert (Hs : Inv pid s2' /\ st_bookings s2' = st_bookings s).
  { unfold s2'. destruct (id_of _).
    - split; [by eapply Inv_core|done].
    - split; [|done]. apply release_hold_Inv. by eapply Inv_core. }
  destruct Hs as [Hi2 B]. apply (Inv_shrink pid s2' _ (bk_id x)); try done.
  - eapply rewrites_weaken; [by apply write_stay_rewrites|]. intros y <-. split; [exact Hx|].
    intros d Hd. by rewrite (idle_status _ EXPIRED) in Hd.
  - apply (inv_unique pid s2' Hi2).
Qed.

Lemma expire_unapproved_Inv e s n a : Inv pid s -> Inv pid (expire_unapproved_bookings e s n a).1.
Proof.
  intros Hi. unfold expire_unapproved_bookings. simpl.
  match goal with |- Inv pid (foldl _ _ ?l) => assert (Hl : forall x : stay, x ∈ l ->
    bk_property_id x = pid -> id_of (sy_room_type_id x) = None); [|revert Hl; generalize l] end.
  { intros x Hx. apply (inv_whole pid s Hi).
    eapply elem_of_take in Hx as (i & Hx & _). apply list_elem_of_lookup_2, list_elem_of_In,
      List.filter_In in Hx as [Hx _]. by apply list_elem_of_In. }
  intros l. revert s Hi. induction l as [|x l IH]; intros s Hi Hl; simpl; [done|].
  apply IH; [|set_solver]. apply expire_one_Inv; [done|]. apply Hl. set_solver.
Qed.

Lemma cleanup_Inv e r s : Inv pid s -> Inv pid (cleanup_expired_bookings e r s).1.
Proof.
  intros Hi. unfold cleanup_expired_bookings. generalize (get_pending_expired_bookings (now e) s).
  intros l. change (Inv pid (s, 0).1) in Hi. revert Hi. generalize (s, 0). clear s.
  induction l as [|x l IH]; intros acc Hi; simpl; [done|]. apply IH. unfold cleanup_one.
  destruct (cancel_booking _ _ _ _ _ _ _ _ _ _ _) as [[s' [m|d]]|] eqn:Hc; simpl; [| |done];
    by eapply cancel_Inv.
Qed.

Lemma host_block_Inv now s p ci co reason u : Inv pid s -> (p = pid -> free s ci co) ->
  Inv pid (block_dates now s p ci co reason None u).1.
Proof.
  intros Hi Hf. destruct (block_dates _ _ _ _ _ _ _ _) as [s' n] eqn:E. eapply (block_Inv pid); [exact Hi| |exact E].
  intros Hp d Hd. apply (free_uncovered s ci co d Hi); [by apply Hf|done].
Qed.

(** * Histories *)

(** The operations on the tables, by anyone, at any time, in any order. On the
    property in question a hold and a calendar block come after the range check
    their pages make, a booking names no room type, and the host approves a
    booking while its nights are still held for it. *)
Inductive step (s : store) : store -> Prop :=
  | step_hold now p ci co u rt units mins ty sla : (p = pid -> free s ci co) ->
      step s (create_hold now s p ci co u rt units mins ty sla).1
  | step_create e r q : (bq_property_id q = pid -> id_of (bq_room_type_id q) = None) ->
      step s (create_booking e r s q).1
  | step_confirm e r b txn ip ua s' a :
      confirm_booking e r s b txn ip ua = Ok (s', a) -> step s s'
  | step_approve e b u reason ip ua s' a :
      (forall row, get_stay s b = Some row -> bk_property_id row = pid -> still_held pid s row) ->
      approve_booking e s b u reason ip ua = Ok (s', a) -> step s s'
  | step_reject e b u reason ip ua s' a : reject_booking e s b u reason ip ua = Ok (s', a) -> step s s'
  | step_cancel e r b u reason ip ua key human rr s' a :
      cancel_booking e r s b u reason ip ua key human rr = Ok (s', a) -> step s s'
  | step_modify e b u ci co s' a : modify_booking_dates e s b u ci co = Ok (s', a) -> step s s'
  | step_check_in e b u w : step s (check_in e s b u w).1
  | step_check_out e b u w : step s (check_out e s b u w).1
  | step_cleanup e r : step s (cleanup_expired_bookings e r s).1
  | step_expire_unapproved e n a : step s (expire_unapproved_bookings e s n a).1
  | step_release_hold p ci co u : step s (release_hold s p ci co u).1
  | step_sweep now mins n a b : step s (release_expired_holds now s mins n a b).1
  | step_expire_holds now : step s (expire_room_holds now s).1
  | step_block now p ci co reason u : (p = pid -> free s ci co) ->
      step s (block_dates now s p ci co reason None u).1
  | step_unblock p ci co b reason : step s (unblock_dates s p ci co b reason).1.

Lemma step_keeps_Inv s s' : Inv pid s -> step s s' -> Inv pid s'.
Proof.
  intros Hi []; [by apply hold_Inv|by apply create_Inv|by eapply confirm_booking_Inv|by eapply approve_Inv|
    by eapply reject_Inv|by eapply cancel_Inv|by eapply modify_Inv|by apply check_in_Inv|
    by apply check_out_Inv|by apply cleanup_Inv|by apply expire_unapproved_Inv|
    by apply release_hold_Inv|by apply sweep_Inv|by apply expire_room_holds_Inv|
    by apply host_block_Inv|by apply deleted_Inv].
Qed.

(** A state to start from: no booking yet, and no room types at the property. *)
Record opening (s : store) : Prop := {
  op_bookings : st_bookings s = [];
  op_rows : NoDup (night_of <$> st_blocked s);
  op_types : active_room_types s pid = [];
}.

Lemma history_Inv s0 s : opening s0 -> rtc step s0 s -> Inv pid s.
Proof.
  intros [Hb Hr Ht] Hs. assert (Hi : Inv pid s0).
  { split; try done; rewrite ?Hb; try done; intros *; try (by intros ?%not_elem_of_nil). }
  clear Hb Hr Ht. induction Hs as [s|s s1 s2 H1 _ IH]; [done|]. apply IH. by eapply step_keeps_Inv.
Qed.

End property.

(** C2: no double booking. Whatever the guests, the host and the tasks do to the
    tables, in any order, two bookings of a property without room types that are
    both confirmed or checked in share no night. The steps are those of [step]:
    a hold or a host's block is asked for where the pages found the nights free,
    and a host approves while the booking's nights are still held; without the
    latter the property fails (StayRuns.approve_after_sweep_double_books). *)
Theorem no_double_booking pid s0 s (x y : stay) d :
  opening pid s0 -> rtc (step pid) s0 s ->
  x ∈ st_bookings s -> y ∈ st_bookings s ->
  covers pid d x = true -> covers pid d y = true -> x = y.
Proof.
  intros H0 Hs Hx Hy Hcx Hcy. pose proof (history_Inv pid s0 s H0 Hs) as Hi.
  apply (key_unique key (st_bookings s)); [|done|done|by apply (inv_apart pid s Hi x y d)].
  rewrite (inv_ids pid s Hi). apply NoDup_seqZ.
Qed.
