(* ===== verification/StayTheorems.v ===== *)
(** What single operations of the booking service do: confirming, creating with
    an idempotency key, holding units of a room type, cancelling, checking in. *)

From S2P Require Import Prelude Tables Decimal DecimalLaws BookingModel BookingStates PaymentStates.
From S2P Require Import BookingPolicy Cancellation Booking Pricing StayModel Signing Availability.
From S2P Require Import BookingService AvailabilityLaws StayLaws StayHistory.

Local Open Scope Z_scope.

Import MarketplaceSignatures AvailabilityService BookingService.

(** * Lemmas *)

Lemma get_stay_written s (x : stay) : (exists y, get_stay s (bk_id x) = Some y) ->
  get_stay (write_stay s x) (bk_id x) = Some (stored x).
Proof.
  unfold get_stay, write_stay. simpl. intros [y Hy]. induction (st_bookings s) as [|z l IH]; [done|].
  rewrite update_cons. simpl in *. destruct (Z.eqb_spec (bk_id z) (bk_id x)) as [E|E]; simpl.
  - by rewrite Z.eqb_refl.
  - destruct (Z.eqb_spec (bk_id z) (bk_id x)); [done|]. by apply IH.
Qed.

Lemma get_stay_other s (x : stay) b : b <> bk_id x -> get_stay (write_stay s x) b = get_stay s b.
Proof.
  intros Hne. unfold get_stay, write_stay. simpl. induction (st_bookings s) as [|z l IH]; [done|].
  rewrite update_cons. simpl. destruct (Z.eqb_spec (bk_id z) (bk_id x)) as [E|E]; simpl.
  - destruct (Z.eqb_spec (bk_id x) b); [congruence|]. destruct (Z.eqb_spec (bk_id z) b); [congruence|]. done.
  - destruct (Z.eqb_spec (bk_id z) b); [done|]. done.
Qed.

Lemma get_stay_bookings s s' b : st_bookings s' = st_bookings s -> get_stay s' b = get_stay s b.
Proof. unfold get_stay. by intros ->. Qed.

Lemma mark_paid_status now d ev amount w g u r :
  PaymentStateMachine.mark_paid now d ev amount w g u = Ok r ->
  pe_payment_status ev <> enum_value PAID /\ pe_payment_status r.2 = enum_value PAID
  /\ pe_payment_reference r.2 = pe_payment_reference ev /\ pe_booking_id r.2 = pe_booking_id ev.
Proof.
  unfold PaymentStateMachine.mark_paid. intros H. bind H as st Hst. bind H as r1 Hr. destruct r1 as [d1 e1].
  apply PaymentStateMachine.payment_transition_Ok in Hr as (st' & Es & Hc & _ & ->). simplify_eq/=.
  split; [|done]. rewrite Es. intros ->%enum_value_inj. done.
Qed.

Lemma payment_event_elem s b ev : get_payment_event s b = Some ev ->
  ev ∈ st_payments s /\ pe_booking_id ev = Some b.
Proof.
  unfold get_payment_event. intros H. apply last_Some in H as [l H].
  assert (Hin : List.In ev (List.filter (fun e => bool_decide (pe_booking_id e = Some b)) (st_payments s)))
    by (rewrite H; apply in_or_app; right; by left).
  apply List.filter_In in Hin as [Hin Hb]. split; [by apply list_elem_of_In|]. by apply bool_decide_eq_true in Hb.
Qed.

(** A payment event recorded as paid cannot be settled again. *)
Lemma settle_payment_paid e r s x txn amount s' : settle_payment e r s x txn amount = Ok s' ->
  (forall ev, get_payment_event s (bk_id x) = Some ev -> pe_payment_status ev <> enum_value PAID)
  /\ exists ev, ev ∈ st_payments s' /\ pe_booking_id ev = Some (bk_id x)
       /\ pe_payment_status ev = enum_value PAID.
Proof.
  unfold settle_payment. intros H. bind H as found Hf. bind H as paid Hp. simplify_eq.
  destruct paid as [d' ev']. apply mark_paid_status in Hp as (Hn & Hs & Hr & Hb). simpl in *.
  assert (Hfound : found.2 ∈ found.1 /\ pe_booking_id found.2 = Some (bk_id x)).
  { destruct (get_payment_event s (bk_id x)) as [ev|] eqn:He.
    - simplify_eq/=. by apply payment_event_elem.
    - bind Hf as rows Hrows. simplify_eq/=. split; [|done]. unfold PaymentStateMachine.add_event in Hrows.
      destruct (PaymentStateMachine.violates_unique _ _); [done|]. simplify_eq. set_solver. }
  split.
  - intros ev He. rewrite He in Hf. by simplify_eq/=.
  - exists ev'. destruct Hfound as [Hin Hbk]. split_and!; [|congruence|done].
    apply elem_of_update. exists found.2. split; [done|]. by rewrite Hr, String.eqb_refl.
Qed.

(** * Confirming *)

(** Confirmation is all or nothing. A refusal leaves every table as it was;
    an accepted confirmation had the booking unexpired, its range available but
    for its own holds, and the policy's leave; afterwards the booking is confirmed and
    recorded as fully paid by the transaction, one of its payment events is
    paid, its rows are booked ones, and no other booking has changed. *)
Theorem confirm_effect e r s b txn ip ua s' a :
  confirm_booking e r s b txn ip ua = Ok (s', a) ->
  (is_done a = false /\ s' = s) \/
  (exists row y d, a = Done tt /\ get_stay s b = Some row /\ get_stay s' b = Some y
    /\ has_expired (now e) row = false
    /\ all_available s (bk_property_id row) (bk_check_in row) (bk_check_out row) (Some b)
    /\ BookingPolicyEvaluator.can_confirm (now e) (st_db s) (load e s row) (is_some txn) = Ok d
    /\ pd_allowed d = true
    /\ bk_status y = enum_value CONFIRMED /\ bk_payment_status y = enum_value PAID
    /\ bk_amount_paid y = Some (dec_or0 (Some (bk_total_amount row)))
    /\ bk_amount_due y = Some (dint 0) /\ bk_wallet_txn_id y = txn
    /\ (exists ev, ev ∈ st_payments s' /\ pe_booking_id ev = Some b
          /\ pe_payment_status ev = enum_value PAID)
    /\ (forall x, x ∈ st_blocked s' -> bl_booking_id x = Some b -> bl_reason x = enum_value BOOKED)
    /\ forall c, c <> b -> get_stay s' c = get_stay s c).
Proof.
  intros [[-> Ha]|H]%confirm_cases; [by left|right].
  destruct H as (row & s2 & x' & d & -> & Hrow & He & Hre & _ & Hd & Hp & Hset & Hm).
  destruct (get_stay_Some _ _ _ Hrow) as [Hx <-].
  pose proof (proj2 (settle_payment_paid _ _ _ _ _ _ _ Hset)) as Hpaid.
  apply settle_payment_core in Hset as (B2 & L2 & _).
  destruct (drop_blocks_core (mark_booked s (bk_id row)) (load e s row)) as (B1 & L1 & _).
  apply move_Ok in Hm as (-> & -> & _).
  set (x2 := paid_stay _ _ _ _) in *.
  assert (Ex : bk_id x2 = bk_id row /\ bk_payment_status x2 = enum_value PAID
    /\ bk_amount_paid x2 = Some (dec_or0 (Some (bk_total_amount row)))
    /\ bk_amount_due x2 = Some (dint 0) /\ bk_wallet_txn_id x2 = txn)
    by (unfold x2, paid_stay; by destruct (_ || _)).
  destruct Ex as (Ex & Ep & Ea & Eu & Et).
  set (y := with_booking x2 (set_status x2 (enum_value CONFIRMED))).
  assert (Hsame : forall c, get_stay (with_db s2 (add_history (st_db s2)
      (BookingStateMachine.history_row x2 CONFIRMED (confirmation_args (load e s row) ip ua txn
         (dec_or0 (Some (bk_total_amount (load e s row)))))))) c = get_stay s c)
    by (intros c; apply get_stay_bookings; simpl; by rewrite B2, B1).
  exists row, (stored y), d. split_and!; try done.
  - change (bk_id row) with (bk_id row). rewrite <- Ex at 1. apply (get_stay_written _ y).
    exists row. rewrite Hsame. change (bk_id y) with (bk_id x2). by rewrite Ex.
  - exact (recheck_None _ _ Hre).
  - simpl. rewrite L2, L1. simpl. intros z (z0 & Hz0 & ->)%elem_of_update.
    case_bool_decide; [done|]. done.
  - intros c Hc. rewrite get_stay_other; [apply Hsame|]. change (bk_id y) with (bk_id x2). by rewrite Ex.
Qed.

(** A payment that is already recorded blocks the confirmation. When the
    booking's latest payment event is paid, as the checkout page leaves it after
    a successful charge, [confirm_booking] answers a refusal, with or without a
    transaction, and changes nothing. *)
Theorem confirm_after_payment e r s b txn ip ua ev s' a :
  get_payment_event s b = Some ev -> pe_payment_status ev = enum_value PAID ->
  confirm_booking e r s b txn ip ua = Ok (s', a) -> is_done a = false /\ s' = s.
Proof.
  intros Hev Hpaid [[-> Ha]|H]%confirm_cases; [by split|].
  destruct H as (row & s2 & x' & d & _ & Hrow & _ & _ & _ & _ & _ & Hset & _).
  destruct (get_stay_Some _ _ _ Hrow) as [_ <-].
  apply settle_payment_paid in Hset as [Hn _]. exfalso. apply (Hn ev); [|done].
  unfold get_payment_event in *. unfold drop_blocks. by destruct (id_of _).
Qed.

(** * Creating *)

(** Bookings are numbered from 1. *)
Definition numbered (s : store) : Prop :=
  key <$> st_bookings s = seqZ 1 (Z.of_nat (length (st_bookings s))).

Lemma numbered_fresh s (z : stay) : numbered s -> z ∈ st_bookings s ->
  bk_id z <> Z.of_nat (length (st_bookings s)) + 1.
Proof.
  intros Hn Hz. assert (Hk : key z ∈ key <$> st_bookings s) by by apply list_elem_of_fmap_2.
  rewrite Hn, elem_of_seqZ in Hk. unfold key in Hk. lia.
Qed.

Lemma update_last (B : list stay) (x y : stay) b : (forall z : stay, z ∈ B -> bk_id z <> b) ->
  bk_id x = b -> update_where (fun z : stay => bk_id z =? b) (fun _ => y) (B ++ [x]) = B ++ [y].
Proof.
  intros HB Hx. induction B as [|z B IH].
  - simpl. by rewrite Hx, Z.eqb_refl.
  - rewrite <- !app_comm_cons, update_cons, IH by set_solver. destruct (Z.eqb_spec (bk_id z) b) as [E|]; [|done].
    exfalso. apply (HB z); [set_solver|done].
Qed.

(** A new booking reaches the state it waits in, at the end of the table. *)
Lemma to_waiting_Ok e s B (x : stay) q s' x' : st_bookings s = B ++ [x] ->
  (forall z : stay, z ∈ B -> bk_id z <> bk_id x) -> to_waiting e s x q = Ok (s', x') ->
  st_bookings s' = B ++ [stored x'] /\ st_properties s' = st_properties s
  /\ st_blocked s' = st_blocked s /\ st_blocks s' = st_blocks s /\ st_room_types s' = st_room_types s
  /\ exists t, t ∈ [PENDING_APPROVAL; PENDING_PAYMENT]
       /\ x' = with_booking x (set_status x (enum_value t)).
Proof.
  intros HB Hne H. unfold to_waiting in H. bind H as r Hr. destruct r as [s1 x1].
  apply move_Ok in Hr as (-> & -> & _). simpl in H.
  assert (Hgo : forall t a, t ∈ [PENDING_APPROVAL; PENDING_PAYMENT] ->
    move e (write_stay (with_db s (add_history (st_db s) (BookingStateMachine.history_row x HELD
      (args (Some (bq_guest_user_id q)) (Some "Inventory held for checkout"%string) (bq_ip_address q)
        (bq_user_agent q) (Some "booking_created"%string)
        {[ "hold_expires_at"%string := match bk_expires_at x with Some t => MTime (as_utc t) | None => MNull end ]}))))
      (with_booking x (set_status x (enum_value HELD)))) (with_booking x (set_status x (enum_value HELD))) t a
    = Ok (s', x') -> st_bookings s' = B ++ [stored x'] /\ st_properties s' = st_properties s
      /\ st_blocked s' = st_blocked s /\ st_blocks s' = st_blocks s /\ st_room_types s' = st_room_types s
      /\ exists t, t ∈ [PENDING_APPROVAL; PENDING_PAYMENT] /\ x' = with_booking x (set_status x (enum_value t))).
  { intros t a Ht (-> & -> & _)%move_Ok. split_and!; try done; [|by exists t].
    unfold write_stay at 1. simpl. rewrite HB.
    change (bk_id (with_booking x (set_status x (enum_value HELD)))) with (bk_id x).
    rewrite update_last by done. by apply update_last. }
  destruct (str_in _ _); (eapply Hgo; [|exact H]; set_solver).
Qed.

Lemma hold_inventory_tables e s (x : stay) g :
  st_bookings (hold_inventory e s x g) = st_bookings s
  /\ st_properties (hold_inventory e s x g) = st_properties s
  /\ st_room_types (hold_inventory e s x g) = st_room_types s.
Proof.
  unfold hold_inventory. destruct (id_of _) as [rid|].
  - unfold block_room_type_units, add_block. destruct (get_room_type _ _); [|done].
    destruct (_ <? _); [done|]. by destruct (_validate_reason _).
  - destruct (block_dates _ _ _ _ _ _ _ _) as [s' n] eqn:Hb.
    by apply block_dates_spec in Hb as (? & ? & -> & _).
Qed.

Lemma convert_properties s x : st_properties (convert_holds s x) = st_properties s.
Proof. unfold convert_holds. by destruct (id_of _). Qed.

Lemma flow_properties s p t :
  st_properties (_determine_booking_flow_type s p t).1 = st_properties s
  /\ st_blocks (_determine_booking_flow_type s p t).1 = st_blocks s.
Proof.
  unfold _determine_booking_flow_type, PaymentPolicyService.get_or_create_policy.
  destruct (String.eqb _ _); [done|]. destruct (PaymentPolicyService.get_policy _ _);
    repeat (case_match; try done).
Qed.

(** What a request that was answered with a new booking has written. *)
Lemma book_Done e r s q p rt pricing s' y : numbered s -> find_by_key s q = None ->
  book e r s q p rt pricing = (s', Done y) ->
  exists s1 flow s3 t, let x := new_stay e q (Z.of_nat (length (st_bookings s)) + 1)
      (dr_booking_reference r) p rt pricing flow in
    same_core s s1 /\ st_blocks s1 = st_blocks s /\ t ∈ [PENDING_APPROVAL; PENDING_PAYMENT]
    /\ (let s2 := with_bookings s1 (st_bookings s ++ [x]) in
        s3 = if bq_skip_hold_creation q then convert_holds s2 x
             else hold_inventory e s2 x (bq_guest_user_id q))
    /\ st_bookings s' = st_bookings s ++ [with_booking x (set_status x (enum_value t))]
    /\ st_properties s' = st_properties s /\ st_room_types s' = st_room_types s
    /\ st_blocks s' = st_blocks s3
    /\ (y = with_booking x (set_status x (enum_value t)) \/ find_by_key s' q = Some y).
Proof.
  intros Hnum Hnone. unfold book.
  pose proof (flow_core s p (bq_payment_timing q)) as (B & L & T).
  pose proof (flow_properties s p (bq_payment_timing q)) as [Pr Ib].
  destruct (_determine_booking_flow_type _ _ _) as [s1 flow]. simpl in *.
  rewrite B. remember (new_stay _ _ _ _ _ _ _ _) as x eqn:Hsame. unfold race_resolved.
  destruct (insert_stay s1 x) as [s2|] eqn:Hins.
  2:{ replace (find_by_key s1 q) with (find_by_key s q) by (unfold find_by_key; by rewrite B).
      by rewrite Hnone. }
  apply insert_stay_Some in Hins as ->. set (s2 := with_bookings s1 (st_bookings s1 ++ [x])).
  set (s3 := if bq_skip_hold_creation q then _ else _).
  assert (B3 : st_bookings s3 = st_bookings s ++ [x] /\ st_properties s3 = st_properties s
    /\ st_room_types s3 = st_room_types s).
  { unfold s3. destruct (bq_skip_hold_creation q).
    - rewrite convert_bookings, convert_properties. simpl. rewrite B. split_and!; try done.
      unfold convert_holds. destruct (id_of _); simpl; done.
    - destruct (hold_inventory_tables e s2 x (bq_guest_user_id q)) as (-> & -> & ->). simpl.
      by rewrite B. }
  destruct B3 as (B3 & P3 & T3).
  destruct (to_waiting e s3 x q) as [[s4 x']|] eqn:Hw; [|done].
  apply (to_waiting_Ok e s3 (st_bookings s) x q s4 x') in Hw as (B4 & P4 & L4 & I4 & T4 & t & Ht & ->); try done.
  2:{ intros z Hz. rewrite Hsame. by apply numbered_fresh. }
  destruct (PaymentStateMachine.add_event _ _) as [pays|].
  - intros [= <- <-]. exists s1, flow, s3, t. rewrite <- Hsame. split_and!; try done;
      first [unfold s3, s2; by rewrite B|(simpl; rewrite B4; rewrite Hsame; reflexivity)|simpl; congruence|left; rewrite Hsame; reflexivity].
  - intros H. injection H as Hs Hy. subst s'. exists s1, flow, s3, t. rewrite <- Hsame. split_and!; try done;
      try first [unfold s3, s2; by rewrite B|(simpl; rewrite B4; rewrite Hsame; reflexivity)|simpl; congruence].
    right. destruct (find_by_key _ q) as [z|] in Hy |- *; [|done]. by injection Hy as <-.
Qed.

Lemma find_last {A} (f : A -> bool) B y : List.find f B = None -> f y = true ->
  List.find f (B ++ [y]) = Some y.
Proof.
  intros HB Hy. induction B as [|z B IH]; simpl in *; [by rewrite Hy|].
  destruct (f z); [done|]. by apply IH.
Qed.

(** A booking is created once per idempotency key. Repeating a request that
    was answered with a booking, at any later time and with whatever dates of
    the clock, answers the same booking and writes nothing. *)
Theorem booked_once_per_key e r s q s' x : numbered s -> truthy (bq_idempotency_key q) = true ->
  create_booking e r s q = (s', Done x) ->
  find_by_key s' q = Some x /\ forall e' r', create_booking e' r' s' q = (s', Done x).
Proof.
  intros Hnum Hkey Hc.
  assert (Hadm : exists p, get_property s (bq_property_id q) = Some p /\ can_be_booked p = true
    /\ bq_check_in q < bq_check_out q /\ 1 <= bq_rooms_requested q
    /\ st_properties s' = st_properties s /\ find_by_key s' q = Some x).
  { unfold create_booking in Hc. destruct (check_request e s q) as [m|[z|p rt]] eqn:Ha; [done| |].
    - injection Hc as <- <-. unfold check_request in Ha. destruct (Z.leb_spec (bq_check_out q) (bq_check_in q)); [done|].
      destruct (Z.ltb_spec (bq_rooms_requested q) 1); [done|].
      destruct (get_property _ _) as [p|]; [|done]. destruct (can_be_booked p) eqn:Hb; [|done]. simpl in Ha.
      exists p. destruct (find_by_key s q) eqn:Hk; [by simplify_eq|]. exfalso.
      destruct (occupancy _ _ _); [done|]. destruct (anti_abuse _ _ _); [done|].
      by destruct (check_inventory _ _ _).
    - destruct (price _ _ _ _) as [pricing|[]]; try done.
      apply check_request_Accepted in Ha as Ha'. destruct Ha' as (Hp & Hb & Hk & _ & _).
      apply (book_Done _ _ _ _ _ _ _ _ _ Hnum Hk) in Hc
        as (s1 & flow & s3 & t & _ & _ & _ & _ & HB & HP & _ & _ & Hy).
      unfold check_request in Ha. destruct (Z.leb_spec (bq_check_out q) (bq_check_in q)); [done|].
      destruct (Z.ltb_spec (bq_rooms_requested q) 1); [done|].
      exists p. split_and!; try done. destruct Hy as [->|Hy]; [|done].
      unfold find_by_key in *. rewrite Hkey, HB in *. apply find_last; [done|]. simpl.
      by rewrite !bool_decide_eq_true_2. }
  destruct Hadm as (p & Hp & Hb & Hd & Hr & HP & Hk). split; [done|]. intros e' r'.
  unfold create_booking, check_request, get_property. rewrite HP. fold (get_property s (bq_property_id q)).
  rewrite Hp, Hb, Hk. destruct (Z.leb_spec (bq_check_out q) (bq_check_in q)); [lia|].
  by destruct (Z.ltb_spec (bq_rooms_requested q) 1); [lia|].
Qed.

(** ** Units of a room type *)

Lemma taken_new_booking s (x : stay) rid d :
  str_in (bk_status x) HostService.ACTIVE_BOOKING_STATUSES = false ->
  forall s', st_bookings s' = st_bookings s ++ [x] -> st_blocks s' = st_blocks s ->
  taken s' rid d = taken s rid d.
Proof.
  intros Hx s' HB HI. unfold taken, HostService.booked, HostService.blocked. rewrite HB, HI.
  rewrite List.filter_app, fmap_app, sum_app. simpl. unfold HostService.occupies at 2. rewrite Hx.
  rewrite andb_false_r. simpl. lia.
Qed.

Lemma available_new_booking s (x : stay) rid ci co ex :
  str_in (bk_status x) HostService.ACTIVE_BOOKING_STATUSES = false ->
  forall s', st_bookings s' = st_bookings s ++ [x] -> st_blocks s' = st_blocks s ->
  st_room_types s' = st_room_types s ->
  HostService.available_units s' rid ci co ex = HostService.available_units s rid ci co ex.
Proof.
  intros Hx s' HB HI HT. unfold HostService.available_units, get_room_type. rewrite HT.
  destruct (List.find _ _); [|done]. unfold HostService.booked, HostService.blocked.
  rewrite HB, HI, List.filter_app, fmap_app, sum_app. simpl. unfold HostService.occupies at 2.
  rewrite Hx, andb_false_r. simpl. do 2 f_equal. lia.
Qed.

(** Enough free units are blocked. *)
Lemma block_units_held e s (x : stay) g rid rt : id_of (sy_room_type_id x) = Some rid ->
  get_room_type s rid = Some rt -> 0 < sy_rooms_requested x ->
  sy_rooms_requested x <= HostService.available_units s rid (bk_check_in x) (bk_check_out x) None ->
  st_blocks (hold_inventory e s x g) = st_blocks s ++ [{|
    ib_room_type_id := rid; ib_booking_id := Some (bk_id x); ib_date_range_start := bk_check_in x;
    ib_date_range_end := bk_check_out x; ib_units_blocked := sy_rooms_requested x;
    ib_reason := enum_value TEMPORARY_HOLD; ib_created_by := Some g |}].
Proof.
  intros Hid Hrt Hn Hav. unfold hold_inventory, block_room_type_units, get_available_units.
  rewrite Hid, Hrt. destruct (Z.eqb_spec (sy_rooms_requested x) 0); [lia|].
  by destruct (Z.ltb_spec (HostService.available_units s rid (bk_check_in x) (bk_check_out x) None)
                 (sy_rooms_requested x)); [lia|].
Qed.

Lemma idle_draft t : t ∈ [DRAFT; PENDING_APPROVAL; PENDING_PAYMENT] ->
  str_in (enum_value t) HostService.ACTIVE_BOOKING_STATUSES = false.
Proof.
  intros Ht. repeat (apply elem_of_cons in Ht as [->|Ht]; [done|]). by apply not_elem_of_nil in Ht.
Qed.

(** Units of a room type are not oversold by a booking that holds its own
    inventory. When such a request is answered with a new booking, every night
    of the stay has exactly the requested units more taken than before, by active
    bookings and blocks together, and no more than the type has. *)
Theorem created_units_fit e r s q s' x rid rt : numbered s -> units_ok s ->
  bq_skip_hold_creation q = false -> find_by_key s q = None ->
  resolve_room_type s q = Some rid -> rid <> 0 -> get_room_type s rid = Some rt ->
  create_booking e r s q = (s', Done x) ->
  forall d, bq_check_in q <= d < bq_check_out q ->
    taken s' rid d = taken s rid d + bq_rooms_requested q /\ taken s' rid d <= rt_total_units rt.
Proof.
  intros Hnum Hu Hskip Hk Hres Hr0 Hrt Hc d Hd.
  unfold create_booking in Hc. destruct (check_request e s q) as [m|[z|p rt0]] eqn:Ha; [done| |].
  { unfold check_request in Ha. repeat case_match; simplify_eq. }
  destruct (price _ _ _ _) as [pricing|[]]; try done.
  apply check_request_Accepted in Ha as Ha'. destruct Ha' as (_ & _ & _ & -> & Hci).
  rewrite Hres in *.
  assert (Hrooms : 0 < bq_rooms_requested q).
  { unfold check_request in Ha. destruct (_ <=? _); [done|]. destruct (Z.ltb_spec (bq_rooms_requested q) 1); [done|lia]. }
  apply (book_Done _ _ _ _ _ _ _ _ _ Hnum Hk) in Hc
    as (s1 & flow & s3 & t & (B1 & _ & T1) & I1 & Ht & Hs3 & HB & _ & _ & HI & _).
  set (x0 := new_stay _ _ _ _ _ _ _ _) in *. rewrite Hskip in Hs3.
  assert (Hid : id_of (Some rid) = Some rid) by (simpl; by destruct (Z.eqb_spec rid 0)).
  unfold check_inventory in Hci. rewrite Hskip, Hid in Hci.
  destruct (Z.ltb_spec (HostService.available_units s rid (bq_check_in q) (bq_check_out q) None)
              (bq_rooms_requested q)) as [|Hav]; [done|].
  pose proof (idle_draft t ltac:(set_solver)) as Hidle.
  pose proof (block_units_held e (with_bookings s1 (st_bookings s ++ [x0])) x0 (bq_guest_user_id q) rid rt
    Hid) as Hhold. rewrite <- Hs3 in Hhold.
  rewrite (available_new_booking s x0) in Hhold by first [done|by apply idle_draft; set_solver].
  specialize (Hhold ltac:(unfold get_room_type; simpl; by rewrite T1) Hrooms Hav). simpl in Hhold.
  rewrite <- HI, I1 in Hhold.
  assert (E : taken s' rid d = taken s rid d + bq_rooms_requested q).
  { match type of Hhold with _ = _ ++ [?b0] => set (b := b0) in Hhold end.
    rewrite (taken_new_booking (with_blocks s (st_blocks s ++ [b])) (with_booking x0 (set_status x0 (enum_value t))))
      by done.
    rewrite taken_with_block by done. simpl.
    by rewrite (proj2 (Z.leb_le _ _) (proj1 Hd)), (proj2 (Z.ltb_lt _ _) (proj2 Hd)). }
  split; [done|]. rewrite E. by apply (free_every_night s rid rt (bq_check_in q) (bq_check_out q)).
Qed.

(** * Cancelling *)

Lemma cancel_Done e r s b u reason ip ua key human rr s' msg cash :
  cancel_booking e r s b u reason ip ua key human rr = Ok (s', Done (msg, cash)) ->
  exists row q s2 x1 s3 mac w, let x := load e s row in
    let host := bool_decide (u = Some (sy_host_user_id x)) in
    get_stay s b = Some row /\ u ∈ authorized_cancel_actor_ids x
    /\ AccommodationBooking.get_cancellation_quote (server_date e) (st_db s) x None
         (if host then "host" else "guest")%string = Ok q
    /\ q_allowed q = true /\ cash = refundable_cash_amount x q
    /\ move e (release_inventory s x) x BookingModel.CANCELLED
         (args u reason ip ua (Some "booking_cancelled"%string) ∅) = Ok (s2, x1)
    /\ same_core s2 s3
    /\ unsigned w = unsigned (workflow_of x q u host human reason rr)
    /\ s' = charge_penalty (write_stay s3 (with_workflow (with_outcome
              (with_booking x1 (set_cancelled x1 (Aware (now e)) u reason))
              (outcome_of q u (bk_status x)) mac) w))
              x q (penalty_key key b (dr_time_ns r)).
Proof.
  unfold cancel_booking. intros H. bind H as row Hrow. apply of_option_Ok in Hrow.
  case_bool_decide as Hu; [done|]. bind H as q Hq. apply map_err_Ok in Hq.
  destruct (q_allowed q) eqn:Ha; simpl in H; [|done].
  destruct (move _ _ _ _ _) as [[s2 x1]|[]] eqn:Hm; try done.
  destruct (sign_cancellation_outcome _ _ _) as [mac|]; [|done].
  set (v := if _ && _ then _ else Some s2) in H.
  assert (Hv : forall s3, v = Some s3 -> same_core s2 s3).
  { intros s3. unfold v. destruct (_ && _); [|by intros [= <-]]. unfold record_policy_violation.
    destruct (get_property s2 _); [|done]. simpl. by intros [= <-]. }
  destruct v as [s3|]; [|done].
  destruct (_store_refund_workflow _ _ _) as [x3|] eqn:Hx3; [|done].
  apply stored_workflow in Hx3 as (w & -> & Hw). simplify_eq. exists row, q, s2, x1, s3, mac, w.
  split_and!; try done; first [by apply dec_stable|by apply Hv].
Qed.

(** The keys of a new workflow that the theorem names. *)
Lemma workflow_of_lookup x q u host human reason rr :
  workflow_of x q u host human reason rr !! "policy_amount"%string = Some (MDec (q_refund q))
  /\ (workflow_of x q u host human reason rr !! "state"%string = Some (MText "no_refund_due") ->
      dle (refundable_cash_amount x q) dzero).
Proof.
  unfold workflow_of. destruct (dltb dzero (refundable_cash_amount x q)) eqn:E; simpl.
  - split; [done|]. by destruct (review_flags x host human).
  - split; [by destruct (negb _)|]. intros _. by apply dltb_false.
Qed.

(** A cancellation frees the inventory and moves no money. It is asked by one
    of the booking's people, follows an allowed quote, leaves no row of any
    night to the booking, stores the quote as the outcome and as the workflow's
    proposal, and leaves payment status, refund and refund time as they were; the
    amount answered is the quoted refund when the stay was prepaid or on deposit,
    and nothing otherwise. *)
Theorem cancel_releases e r s b u reason ip ua key human rr s' msg cash :
  cancel_booking e r s b u reason ip ua key human rr = Ok (s', Done (msg, cash)) ->
  exists row y q o w, get_stay s b = Some row /\ get_stay s' b = Some y
    /\ u ∈ authorized_cancel_actor_ids row /\ q_allowed q = true
    /\ cash = (if str_in (BookingPolicyEvaluator.payment_timing row) ["pay_now"; "deposit"]%string
               then q_refund q else cents 0)
    /\ bk_status y = enum_value BookingModel.CANCELLED
    /\ bk_payment_status y = bk_payment_status row /\ bk_refund_amount y = bk_refund_amount row
    /\ bk_refunded_at y = bk_refunded_at row
    /\ sy_outcome y = Some o /\ co_refund o = q_refund q /\ co_fine o = q_fine q
    /\ sy_workflow y = Some w /\ w !! "policy_amount"%string = Some (MDec (q_refund q))
    /\ (w !! "state"%string = Some (MText "no_refund_due") -> dle cash dzero)
    /\ (forall x, x ∈ st_blocked s' -> bl_booking_id x <> Some b)
    /\ forall c, c <> b -> get_stay s' c = get_stay s c.
Proof.
  intros (row & q & s2 & x1 & s3 & mac & w & Hrow & Hu & Hq & Ha & -> & Hm & (B3 & L3 & _) & Hw & ->)%cancel_Done.
  destruct (get_stay_Some _ _ _ Hrow) as [_ <-].
  apply move_Ok in Hm as (-> & -> & _).
  destruct (release_inventory_rows s (load e s row)) as (B1 & _ & L1).
  match goal with |- context [charge_penalty (write_stay s3 ?y0) _ _ _] => set (y := y0) end.
  match goal with |- context [charge_penalty ?w0 ?x0 q ?k0] =>
    assert (Hc : same_core w0 (charge_penalty w0 x0 q k0))
      by (unfold charge_penalty; by destruct (_ && _)); set (s' := charge_penalty w0 x0 q k0) in * end.
  destruct Hc as (Bc & Lc & _).
  assert (H0 : forall c, c <> bk_id row -> get_stay s3 c = get_stay s c).
  { intros c Hne. rewrite (get_stay_bookings _ _ c B3).
    rewrite get_stay_other by done. by apply get_stay_bookings. }
  assert (Hb : exists z, get_stay s3 (bk_id y) = Some z).
  { change (bk_id y) with (bk_id row). rewrite (get_stay_bookings _ _ _ B3).
    eexists. apply (get_stay_written (with_db (release_inventory s (load e s row)) _)
      (with_booking (load e s row) (set_status (load e s row) (enum_value BookingModel.CANCELLED)))).
    exists row. change (bk_id _) with (bk_id row). rewrite <- Hrow. by apply get_stay_bookings. }
  exists row, (stored y), q, (outcome_of q u (bk_status row)), w. split_and!; try done.
  - rewrite (get_stay_bookings _ _ _ Bc). by apply (get_stay_written s3 y).
  - rewrite (unsigned_lookup _ _ _ Hw), (proj1 (workflow_of_lookup _ _ _ _ _ _ _)) by done. done.
  - rewrite (unsigned_lookup _ _ _ Hw) by done. apply workflow_of_lookup.
  - rewrite Lc. simpl. rewrite L3. simpl. rewrite L1. simpl. intros z Hz.
    apply list_elem_of_In, List.filter_In in Hz as [_ Hz]. simpl in Hz.
    intros E. by rewrite bool_decide_eq_true_2 in Hz.
  - intros c Hne. rewrite (get_stay_bookings _ _ _ Bc), get_stay_other by done. by apply H0.
Qed.

(** * Moving and checking in *)

Lemma freed_available s pid b d : NoDup (night_of <$> st_blocked s) -> b <> 0 ->
  is_date_available s pid d (Some b) = true -> is_blocked pid (st_blocked (free_nights s b)) d = false.
Proof.
  intros Hnd Hb Ha. destruct (is_blocked _ _ _) eqn:Eb; [|done]. exfalso.
  apply is_blocked_spec in Eb. apply list_elem_of_fmap in Eb as (r & Er & Hr).
  apply list_elem_of_In, List.filter_In in Hr as [Hr Hne]. apply list_elem_of_In in Hr. simpl in Hne.
  unfold is_date_available in Ha. destruct (row_at s pid d) as [r0|] eqn:Hr0.
  - apply row_at_Some in Hr0 as [Hr0 Hn0]. simpl in Ha.
    destruct (Z.eqb_spec b 0); [done|]. apply bool_decide_eq_true in Ha.
    assert (r = r0) as -> by (eapply night_unique; [exact Hnd|done|done|congruence]).
    by rewrite bool_decide_eq_true_2 in Hne.
  - by apply (row_at_None _ _ _ r Hr0 Hr).
Qed.

(** A stay of a whole property that is moved occupies its new nights and no
    others. After an accepted modification the booking has the new dates, the
    price the pricing service computed for them, and the rows that carry its id
    are exactly one for every new night. *)
Theorem modify_moves_rows e s b u ci co s' m row :
  NoDup (night_of <$> st_blocked s) -> b <> 0 ->
  get_stay s b = Some row -> id_of (sy_room_type_id row) = None ->
  modify_booking_dates e s b u ci co = Ok (s', Done m) ->
  let ci' := default (bk_check_in row) ci in
  let co' := default (bk_check_out row) co in
  exists y, get_stay s' b = Some y /\ bk_check_in y = ci' /\ bk_check_out y = co' /\ ci' < co'
    /\ bk_num_nights y = co' - ci' /\ bk_total_amount y = PricingService.mod_new_total m
    /\ PricingService.calculate_modification_price row ci' co' = Ok m
    /\ (forall d, (exists r, r ∈ st_blocked s' /\ night_of r = (bk_property_id row, d)
                     /\ bl_booking_id r = Some b) <-> ci' <= d < co')
    /\ NoDup (night_of <$> st_blocked s').
Proof.
  intros Hnd Hb0 Hrow Hrt H ci' co'. apply modify_cases in H as [[_ ?]|H]; [done|].
  destruct H as (x & p & today & m' & [= <-] & Hx & Hst & Hp & Ht & Hcd & Hav & Hm & ->).
  rewrite Hrow in Hx. injection Hx as <-. fold ci' co' in Hav, Hm, Hcd |- *.
  destruct (get_stay_Some _ _ _ Hrow) as [_ <-].
  unfold check_availability_for_dates in Hav. rewrite Hrt in Hav.
  destruct (Z.leb_spec co' ci') as [|Hlt]; [done|]. apply is_range_available_true in Hav as [_ Hav].
  unfold reblock, release_inventory. rewrite Hrt. set (s1 := free_nights s (bk_id row)).
  destruct (block_dates _ _ _ _ _ _ _ _) as [s2 n] eqn:Hbl. simpl.
  assert (Hu : NoDup (night_of <$> st_blocked s2)).
  { eapply block_dates_unique; [|exact Hbl]. by apply freed_rows. }
  apply block_dates_spec in Hbl as (news & seq & -> & Hf & Hd & _).
  destruct (moved_place row ci' co' m) as (_ & _ & E3 & E4 & _).
  exists (stored (moved row ci' co' m)). split_and!; try done.
  - assert (E1 : bk_id (moved row ci' co' m) = bk_id row) by apply (moved_place row ci' co' m).
    rewrite <- E1 at 1. apply (get_stay_written (with_blocked s1 (st_blocked s1 ++ news) seq)). exists row. by rewrite E1.
  - unfold moved. by destruct (dltb _ _).
  - unfold moved. by destruct (dltb _ _).
  - intros d. split.
    + intros (r & [Hr|Hr]%elem_of_app & Hn & Hbk).
      * apply list_elem_of_In, List.filter_In in Hr as [_ Hr]. simpl in Hr. by rewrite bool_decide_eq_true_2 in Hr.
      * destruct (fresh_night _ _ _ _ _ _ _ _ _ _ Hf Hd Hr) as (_ & _ & _ & Hrd).
        injection Hn as _ Ed. lia.
    + intros Hdd. assert (Hin : d ∈ bl_blocked_date <$> news).
      { rewrite Hd. apply list_elem_of_In, List.filter_In. split.
        - by apply list_elem_of_In, elem_of_nights.
        - unfold s1. by rewrite freed_available by auto. }
      apply list_elem_of_fmap in Hin as (r & -> & Hr). exists r.
      destruct (fresh_night _ _ _ _ _ _ _ _ _ _ Hf Hd Hr) as (Ep & Eb & _ & _).
      split_and!; [set_solver|unfold night_of; congruence|done].
Qed.

Lemma modify_desk e s b u ci co s' a : modify_booking_dates e s b u ci co = Ok (s', a) ->
  st_room_bookings s' = st_room_bookings s.
Proof.
  intros [[-> _]|(x & p & today & m & _ & _ & _ & _ & _ & _ & _ & _ & ->)]%modify_cases; [done|].
  simpl. unfold reblock, release_inventory. destruct (id_of _); [done|].
  destruct (block_dates _ _ _ _ _ _ _ _) as [s2 n] eqn:Hbl. simpl.
  by apply block_dates_spec in Hbl as (? & ? & -> & _).
Qed.

(** The front desk cannot assign rooms. A check-in succeeds only for a booking
    that already has an active room assignment: without one, no state of the
    rooms and no adjustment of the dates lets it succeed. *)
Theorem check_in_needs_assignment e s b u w s' info :
  check_in e s b u w = (s', Done info) ->
  exists rb, rb ∈ st_room_bookings s /\ rb_booking_id rb = b /\ active_assignment rb = true.
Proof.
  unfold check_in. destruct (get_stay s b) as [row|]; [|done].
  destruct (sy_is_checked_in row); [done|]. destruct (BookingStateMachine.property_today _) as [today|]; [|done].
  destruct (adjust _ _ _ _ _ _) as [[s1 [m|i]]|] eqn:Ha; [done| |done].
  assert (Hdesk : st_room_bookings s1 = st_room_bookings s).
  { unfold adjust in Ha. destruct (w && _); [|by simplify_eq]. bind Ha as r Hr. destruct r as [s2 a].
    simplify_eq/=. by eapply modify_desk. }
  destruct (get_stay s1 b) as [row1|] eqn:Hrow; [|done]. destruct (get_stay_Some _ _ _ Hrow) as [_ <-].
  destruct (negb _); [by case_match|]. destruct (BookingPolicyEvaluator.can_check_in _ _ _) as [d|]; [|done].
  destruct (negb _); [done|]. destruct (room_assignment s1 _) eqn:Hroom; try done. intros _.
  unfold room_assignment in Hroom. rewrite Hdesk in Hroom. destruct (List.filter _ _) as [|rb l] eqn:Hf.
  - by repeat case_match.
  - assert (Hin : List.In rb (rb :: l)) by by left. rewrite <- Hf in Hin.
    apply List.filter_In in Hin as [Hin [E%Z.eqb_eq Hact]%andb_true_iff].
    exists rb. split; [by apply list_elem_of_In|done].
Qed.
