(* ===== verification/StaySample.v ===== *)
(** A listing, its guests and their bookings: the witnesses of the theorems on
    stays, and the runs in which the booking service does not do what it means. *)

From S2P Require Import Prelude Tables Decimal BookingModel BookingStates PaymentStates.
From S2P Require Import BookingPolicy Cancellation Booking Pricing StayModel Availability.
From S2P Require Import BookingService AvailabilityLaws StayLaws StayHistory StayTheorems.

Local Open Scope Z_scope.

Import AvailabilityService BookingService.

Definition priced (pid : Z) : PricingService.priced := {|
  PricingService.pr_property_id := pid;
  PricingService.pr_base_price_per_night := Some (cents 10000);
  PricingService.pr_cleaning_fee := Some (cents 2000);
  PricingService.pr_service_fee_pct := Some (cents 1000);
  PricingService.pr_tax_rate_pct := None;
|}.

Definition listing : Property := {|
  ls_id := 7; ls_status := "active"; ls_is_verified := true; ls_is_active := true;
  ls_is_deleted := false; ls_booking_mode := "instant"; ls_require_host_approval := Some false;
  ls_cancellation_policy := Some "flexible"%string; ls_currency := Some "EUR"%string;
  ls_min_stay_nights := 1; ls_max_stay_nights := None; ls_priced := priced 7;
  ls_policy_violations := 0; ls_auto_suspend_threshold := 5; ls_is_suspended := false;
  ls_suspension_reason := None; ls_owner_user_id := Some 9; ls_owner_org_id := None;
|}.

Definition empty (types : list RoomType) : store := {|
  st_properties := [listing]; st_room_types := types; st_rules := []; st_bookings := [];
  st_blocked := []; st_blocked_seq := 1; st_blocks := []; st_holds := []; st_rooms := [];
  st_room_bookings := []; st_payments := []; st_penalties := []; st_adjustments := [];
  st_profiles := []; st_flags := []; st_db := Sample.db;
|}.

(** Day 739000 at every listing, [m] minutes into the run. *)
Definition clock (m : Z) : env := {|
  now := minutes m; server_date := 739000; local_today := fun _ => Some 739000;
  hold_minutes_config := 15; development_mode := true; signing := Some (fun _ => "mac"%string);
  has_global_role := fun _ => false;
|}.

Definition draw (n : string) : draws := {|
  dr_booking_reference := "BK-" +:+ n; dr_payment_reference := "PAY-" +:+ n; dr_time_ns := n |}.

(** Three nights from day 739010. *)
Definition request (guest : Z) (key timing : string) (rt : option Z) (rooms : Z) (skip : bool)
    : create_request := {|
  bq_property_id := 7; bq_guest_user_id := guest; bq_host_user_id := 9;
  bq_check_in := 739010; bq_check_out := 739013; bq_num_guests := 2;
  bq_rooms_requested := rooms; bq_guest_email := None; bq_idempotency_key := Some key;
  bq_booked_by_user_id := None; bq_primary_guest_id := None; bq_primary_guest_email := None;
  bq_room_type_id := rt; bq_skip_hold_creation := skip; bq_payment_method := Some "wallet"%string;
  bq_payment_timing := Some timing; bq_payment_guaranteed := Some true; bq_guarantee_type := None;
  bq_booking_owner_id := None; bq_ip_address := None; bq_user_agent := None;
|}.

Definition confirmed (m : Z) (s : store) (b : Z) (txn : option string) : store :=
  match confirm_booking (clock m) (draw "C") s b txn None None with
  | Ok (s', _) => s' | Err _ => s end.
Definition approved_store (m : Z) (s : store) (b : Z) : store :=
  match approve_booking (clock m) s b 9 None None None with
  | Ok (s', _) => s' | Err _ => s end.

(** * A booking that is paid and confirmed *)

Definition q1 : create_request := request 5 "k1" "pay_now" None 1 false.
Definition created1 : store := (create_booking (clock 0) (draw "1") (empty []) q1).1.
Definition stay1 : store := confirmed 5 created1 1 (Some "T1"%string).

Definition created_booking (a : store * answer stay) : option stay :=
  match a.2 with Done x => Some x | Refused _ => None end.

Lemma confirmed1 :
  confirm_booking (clock 5) (draw "C") created1 1 (Some "T1"%string) None None = Ok (stay1, Done tt).
Proof. vm_compute. reflexivity. Qed.

Lemma opening0 : opening 7 (empty []).
Proof. split; [done|constructor|done]. Qed.

Lemma created_step : step 7 (empty []) created1.
Proof. apply (step_create 7 (empty []) (clock 0) (draw "1") q1). reflexivity. Qed.

Lemma confirmed_step : step 7 created1 stay1.
Proof. exact (step_confirm 7 created1 _ _ _ _ _ _ _ _ confirmed1). Qed.

Lemma run1 : rtc (step 7) (empty []) stay1.
Proof. exact (rtc_l _ _ _ _ created_step (rtc_once _ _ confirmed_step)). Qed.

Lemma booked1 : exists x, get_stay stay1 1 = Some x /\ covers 7 739011 x = true.
Proof. eexists. split; vm_compute; reflexivity. Qed.

Lemma no_double_booking_witness :
  exists x : stay, x ∈ st_bookings stay1 /\ covers 7 739011 x = true
    /\ forall y : stay, y ∈ st_bookings stay1 -> covers 7 739011 y = true -> x = y.
Proof.
  destruct booked1 as (x & Hx & Hc). destruct (get_stay_Some _ _ _ Hx) as [Hin _].
  exists x. split; [exact Hin|]. split; [exact Hc|].
  intros y Hy Hcy. exact (no_double_booking 7 (empty []) stay1 x y 739011 opening0 run1 Hin Hy Hc Hcy).
Defined.

Lemma confirm_effect_witness :
  exists y, get_stay stay1 1 = Some y /\ bk_payment_status y = enum_value PAID.
Proof.
  destruct (confirm_effect _ _ _ _ _ _ _ _ _ confirmed1) as [[H _]|H]; [discriminate H|].
  destruct H as (row & y & d & _ & _ & Hy & _ & _ & _ & _ & _ & Hp & _). exists y. split; [exact Hy|exact Hp].
Defined.

(** The checkout page: the nights are held, the booking takes over the hold, the
    charge is recorded as paid, and only then confirmation is asked for. *)
Definition held (m : Z) (s : store) (guest : Z) (rt : option Z) (units : Z) : store :=
  (create_hold (minutes m) s 7 739010 739013 guest rt units 15 "payment" 48).1.

Definition charged (m : Z) (s : store) (b : Z) : store :=
  match get_payment_event s b with
  | Some ev => match PaymentStateMachine.mark_paid (minutes m) (st_db s) ev (cents 36000)
                       (Some "T1"%string) None (Some 5) with
               | Ok r => with_payments s (write_event (st_payments s) r.2) r.1
               | Err _ => s
               end
  | None => s
  end.

Definition q_checkout : create_request := request 5 "k1" "pay_now" None 1 true.
Definition checked_out : store :=
  charged 1 (create_booking (clock 0) (draw "1") (held 0 (empty []) 5 None 1) q_checkout).1 1.

Definition paid_event : AccommodationBookingPayment :=
  match get_payment_event checked_out 1 with
  | Some ev => ev
  | None => {|
      pe_booking_id := None; pe_total_amount := None; pe_wallet_txn_id := None;
      pe_payment_reference := ""; pe_payment_status := ""; pe_payment_method := None;
      pe_payment_gateway := None; pe_gateway_transaction_id := None; pe_idempotency_key := None;
      pe_failure_reason := None; pe_retry_count := None; pe_updated_at := Aware 0 |}
  end.

Lemma paid_event_at : get_payment_event checked_out 1 = Some paid_event.
Proof. vm_compute. reflexivity. Qed.

Definition failed_payment : answer unit := Refused (Raised "Unable to confirm booking: payment").

Lemma refused_after_charge :
  confirm_booking (clock 2) (draw "C") checked_out 1 (Some "T1"%string) None None
  = Ok (checked_out, failed_payment).
Proof. vm_compute. reflexivity. Qed.

Lemma confirm_after_payment_witness : is_done failed_payment = false /\ checked_out = checked_out.
Proof.
  exact (confirm_after_payment (clock 2) (draw "C") checked_out 1 (Some "T1"%string) None None paid_event
    checked_out failed_payment paid_event_at ltac:(vm_compute; reflexivity) refused_after_charge).
Defined.

Lemma created_done : exists x, create_booking (clock 0) (draw "1") (empty []) q1 = (created1, Done x).
Proof. eexists. vm_compute. reflexivity. Qed.

Lemma booked_once_per_key_witness :
  exists x, create_booking (clock 90) (draw "2") created1 q1 = (created1, Done x).
Proof.
  destruct created_done as [x Hx]. exists x.
  exact (proj2 (booked_once_per_key (clock 0) (draw "1") (empty []) q1 created1 x
    ltac:(reflexivity) ltac:(reflexivity) Hx) (clock 90) (draw "2")).
Defined.

(** ** A room type of three units *)

Definition suite (units : Z) : RoomType := {|
  rt_id := 3; rt_property_id := 7; rt_max_guests := 2; rt_total_units := units;
  rt_is_active := true; rt_priced := priced 7;
|}.

Definition q_units : create_request := request 5 "u1" "pay_now" (Some 3) 2 false.
Definition units1 : store := (create_booking (clock 0) (draw "1") (empty [suite 3]) q_units).1.

Lemma units_done : exists x, create_booking (clock 0) (draw "1") (empty [suite 3]) q_units = (units1, Done x).
Proof. eexists. vm_compute. reflexivity. Qed.

Lemma empty_units types : units_ok (empty types).
Proof. split; intros x []%not_elem_of_nil. Qed.

Lemma created_units_fit_witness : taken units1 3 739012 <= 3.
Proof.
  destruct units_done as [x Hx].
  refine (proj2 (created_units_fit (clock 0) (draw "1") (empty [suite 3]) q_units units1 x 3 (suite 3)
    ltac:(reflexivity) (empty_units _) ltac:(reflexivity) ltac:(vm_compute; reflexivity)
    ltac:(reflexivity) _ ltac:(reflexivity) Hx 739012 _)); [lia|]. simpl. lia.
Defined.

(** ** Cancelling, moving *)

Lemma cancelled1 : exists s' msg cash,
  cancel_booking (clock 10) (draw "X") stay1 1 (Some 5) None None None None false None
  = Ok (s', Done (msg, cash)).
Proof. do 3 eexists. vm_compute. reflexivity. Qed.

Lemma cancel_releases_witness :
  exists s' msg cash, cancel_booking (clock 10) (draw "X") stay1 1 (Some 5) None None None None false None
    = Ok (s', Done (msg, cash)) /\ forall x, x ∈ st_blocked s' -> bl_booking_id x <> Some 1.
Proof.
  destruct cancelled1 as (s' & msg & cash & H). exists s', msg, cash. split; [exact H|].
  destruct (cancel_releases _ _ _ _ _ _ _ _ _ _ _ _ _ _ H)
    as (row & y & q & o & w & _ & _ & _ & _ & _ & _ & _ & _ & _ & _ & _ & _ & _ & _ & _ & Hrows & _).
  exact Hrows.
Defined.

Definition moved_store : store :=
  match modify_booking_dates (clock 10) stay1 1 9 (Some 739011) (Some 739015) with
  | Ok (s', _) => s' | Err _ => stay1 end.

Lemma moved1 : exists m row, get_stay stay1 1 = Some row /\ id_of (sy_room_type_id row) = None
  /\ modify_booking_dates (clock 10) stay1 1 9 (Some 739011) (Some 739015) = Ok (moved_store, Done m).
Proof. do 2 eexists. split_and!; vm_compute; reflexivity. Qed.

Lemma rows_unique1 : NoDup (night_of <$> st_blocked stay1).
Proof. apply (bool_decide_unpack _). vm_compute. reflexivity. Qed.

Lemma modify_moves_rows_witness :
  exists r, r ∈ st_blocked moved_store /\ night_of r = (7, 739014) /\ bl_booking_id r = Some 1.
Proof.
  destruct moved1 as (m & row & Hrow & Hrt & Hm).
  destruct (modify_moves_rows (clock 10) stay1 1 9 (Some 739011) (Some 739015) moved_store m row
    rows_unique1 ltac:(discriminate) Hrow Hrt Hm) as (y & _ & _ & _ & _ & _ & _ & _ & Hn & _).
  destruct (proj2 (Hn 739014) ltac:(simpl; lia)) as (r & Hr & Hnr & Hb).
  assert (Hp : bk_property_id row = 7).
  { vm_compute in Hrow. injection Hrow as <-. reflexivity. }
  exists r. split; [exact Hr|]. split; [|exact Hb]. rewrite Hnr, Hp. reflexivity.
Defined.

(** ** Checking in *)

(** A room of the listing and an assignment to the booking, as no operation of
    the service writes one. *)
Definition room11 : Room := {|
  ro_id := 11; ro_property_id := 7; ro_room_type_id := 3; ro_is_active := true;
  ro_status := "available"; ro_is_maintenance := false;
|}.

Definition assigned1 : RoomBooking := {| rb_booking_id := 1; rb_room_id := 11; rb_status := "active" |}.

(** The day of arrival. *)
Definition arrival : env := {|
  now := 0; server_date := 739010; local_today := fun _ => Some 739010;
  hold_minutes_config := 15; development_mode := true; signing := Some (fun _ => "mac"%string);
  has_global_role := fun _ => false;
|}.

Definition desk_store : store := with_rooms stay1 [room11] [assigned1].
Definition arrived : store := (check_in arrival desk_store 1 9 false).1.

Lemma arrived1 : check_in arrival desk_store 1 9 false = (arrived, Done None).
Proof. vm_compute. reflexivity. Qed.

Lemma check_in_needs_assignment_witness :
  exists rb, rb ∈ st_room_bookings desk_store /\ rb_booking_id rb = 1 /\ active_assignment rb = true.
Proof. exact (check_in_needs_assignment arrival desk_store 1 9 false arrived None arrived1). Defined.
