(* ===== verification/StayRuns.v ===== *)
(** Runs of the booking service that end where it does not mean to go: each
    starts from the empty tables of StaySample and is evaluated. *)

From S2P Require Import Prelude Tables Decimal BookingModel BookingStates PaymentStates.
From S2P Require Import BookingPolicy Cancellation Booking Pricing StayModel Availability.
From S2P Require Import BookingService AvailabilityLaws StayLaws StayHistory StayTheorems StaySample.

Local Open Scope Z_scope.

Import AvailabilityService BookingService.

(** The store a request leaves. *)
Definition created (m : Z) (n : string) (s : store) (q : create_request) : store :=
  (create_booking (clock m) (draw n) s q).1.

Definition swept (m : Z) (s : store) : store := (release_expired_holds (minutes m) s 15 100 0 0).1.

(** The ids of the confirmed bookings of the listing at a night. *)
Definition guests_at (s : store) (d : date) : list Z :=
  (fun x : stay => bk_id x) <$> List.filter (covers 7 d) (st_bookings s).

Definition status_of (s : store) (b : Z) : option string :=
  (fun x : stay => bk_status x) <$> get_stay s b.

(** ** Two guests in one night *)

Definition q_arrival : create_request := request 5 "k1" "pay_on_arrival" None 1 false.
Definition q_other : create_request := request 6 "k2" "pay_now" None 1 false.

Definition asked : store := created 0 "1" (empty []) q_arrival.
Definition taken_over : store :=
  confirmed 22 (created 21 "2" (swept 20 asked) q_other) 2 (Some "T2"%string).

(** The first guest waits for the host's approval; the sweep deletes the nights
    after a quarter of an hour; another guest books and pays for them; the host
    then approves the first. *)
Lemma approve_after_sweep_double_books :
  status_of asked 1 = Some "pending_approval"%string
  /\ guests_at taken_over 739011 = [2] /\ guests_at (approved_store 30 taken_over 1) 739011 = [1; 2].
Proof. vm_compute. split_and!; reflexivity. Qed.

(** ** Nights that nobody holds any more *)

(** The checkout page's booking: [expire_unapproved_bookings] releases temporary
    rows only, the booking's rows are already booked ones. *)
Definition waiting : store :=
  created 1 "1" (held 0 (empty []) 5 None 1) (request 5 "k1" "pay_on_arrival" None 1 true).

Definition deadline_passed (s : store) : store :=
  with_bookings s ((fun x : stay => {|
    sy_booking := x; sy_desk := sy_desk x; sy_outcome := sy_outcome x;
    sy_outcome_hmac := sy_outcome_hmac x; sy_workflow := sy_workflow x;
    sy_terms := {|
      sy_room_type_id := sy_room_type_id x; sy_num_guests := sy_num_guests x;
      sy_rooms_requested := sy_rooms_requested x; sy_host_user_id := sy_host_user_id x;
      sy_booked_by_user_id := sy_booked_by_user_id x; sy_booking_owner_id := sy_booking_owner_id x;
      sy_idempotency_key := sy_idempotency_key x; sy_created_at := sy_created_at x;
      sy_approval_deadline := Some (hours 48); sy_is_deleted := sy_is_deleted x |} |})
    <$> st_bookings s).

Definition expired_store : store := (expire_unapproved_bookings (clock (49 * 60)) (deadline_passed waiting) 50 0).1.

Lemma expired_approval_keeps_nights :
  status_of waiting 1 = Some "pending_approval"%string
  /\ status_of expired_store 1 = Some "expired"%string
  /\ (fun d => is_date_available expired_store 7 d None) <$> nights 739010 739013 = [false; false; false].
Proof. vm_compute. split_and!; reflexivity. Qed.

(** ** Units *)

(** A booking of every unit of its room type is refused by its own block. *)
Lemma own_hold_blocks_confirmation : let s := created 0 "1" (empty [suite 3]) (request 5 "u1" "pay_now" (Some 3) 3 false) in
  status_of s 1 = Some "pending_payment"%string
  /\ confirm_booking (clock 1) (draw "C") s 1 (Some "T1"%string) None None
     = Ok (s, Refused (Say "Selected dates are no longer available for this room type. Please contact support.")).
Proof. vm_compute. split; reflexivity. Qed.

(** Two checkouts of all three units: the booked blocks are not counted, nor
    are the bookings while they wait, and confirmation asks for one free unit. *)
Definition both_waiting : store :=
  created 3 "2" (held 2 (created 1 "1" (held 0 (empty [suite 3]) 5 (Some 3) 2)
    (request 5 "u1" "pay_now" (Some 3) 2 true)) 6 (Some 3) 2)
    (request 6 "u2" "pay_now" (Some 3) 2 true).
Definition both_confirmed : store :=
  confirmed 5 (confirmed 4 both_waiting 1 (Some "T1"%string)) 2 (Some "T2"%string).

Lemma confirm_oversells :
  status_of both_confirmed 1 = Some "confirmed"%string /\ status_of both_confirmed 2 = Some "confirmed"%string
  /\ HostService.booked both_confirmed 3 739010 739013 None = 4
  /\ rt_total_units <$> get_room_type both_confirmed 3 = Some 3.
Proof. vm_compute. split_and!; reflexivity. Qed.

(** The price does not depend on the number of rooms. *)
Lemma rooms_not_priced s p q rt n :
  price s p q rt = price s p {|
    bq_property_id := bq_property_id q; bq_guest_user_id := bq_guest_user_id q;
    bq_host_user_id := bq_host_user_id q; bq_check_in := bq_check_in q; bq_check_out := bq_check_out q;
    bq_num_guests := bq_num_guests q; bq_rooms_requested := n; bq_guest_email := bq_guest_email q;
    bq_idempotency_key := bq_idempotency_key q; bq_booked_by_user_id := bq_booked_by_user_id q;
    bq_primary_guest_id := bq_primary_guest_id q; bq_primary_guest_email := bq_primary_guest_email q;
    bq_room_type_id := bq_room_type_id q; bq_skip_hold_creation := bq_skip_hold_creation q;
    bq_payment_method := bq_payment_method q; bq_payment_timing := bq_payment_timing q;
    bq_payment_guaranteed := bq_payment_guaranteed q; bq_guarantee_type := bq_guarantee_type q;
    bq_booking_owner_id := bq_booking_owner_id q; bq_ip_address := bq_ip_address q;
    bq_user_agent := bq_user_agent q |} rt.
Proof. reflexivity. Qed.

(** Blocking units as "booked", the default, is always refused. *)
Lemma booked_block_refused s rid ci co n bid by_user :
  is_done (block_room_type_units s rid ci co n "booked" bid by_user).2 = false.
Proof.
  unfold block_room_type_units, add_block. destruct (get_room_type s rid); [|done].
  by destruct (_ <? n).
Qed.

(** A hold on the single unit of one room type blocks the night of the whole
    property, whose other room type has ten units. *)
Definition cabin : RoomType := {|
  rt_id := 4; rt_property_id := 7; rt_max_guests := 2; rt_total_units := 1; rt_is_active := true;
  rt_priced := priced 7 |}.
Definition suite5 : RoomType := {|
  rt_id := 5; rt_property_id := 7; rt_max_guests := 2; rt_total_units := 10; rt_is_active := true;
  rt_priced := priced 7 |}.

Lemma single_unit_hold_blocks_property : let s := held 0 (empty [cabin; suite5]) 5 (Some 4) 1 in
  HostService.available_units s 5 739010 739013 None = 10
  /\ is_range_available s 7 739010 739013 None
     = (false, [739010; 739011; 739012], Some (DateNotAvailable 739010)).
Proof. vm_compute. split; reflexivity. Qed.

(** The sweep expires the hold of a room type of several units and leaves its
    block. *)
Lemma expired_hold_leaves_its_block : let s := swept 60 (held 0 (empty [suite 3]) 5 (Some 3) 2) in
  rh_status <$> st_holds s = ["expired"%string]
  /\ HostService.available_units s 3 739010 739013 None = 1.
Proof. vm_compute. split; reflexivity. Qed.

(** The host's calendar releases the rows of confirmed stays. *)
Lemma unblocking_drops_booked_rows :
  bl_booking_id <$> st_blocked stay1 = [Some 1; Some 1; Some 1]
  /\ st_blocked (unblock_dates stay1 7 739010 739013 None None).1 = [].
Proof. vm_compute. split; reflexivity. Qed.
