(* ===== verification/Escrow.v ===== *)
(** Escrow of accommodation payments: charging the guest, paying the host,
    refunding the guest through the ledger or the original provider, and the human
    review of refunds (class MarketplaceService of
    app/accommodation/services/marketplace_service.py, with
    app/accommodation/models/commission.py and can_manage_property of
    identity_service.py).

    A market is the tables of the stays, those of the wallet, the commissions and
    the organisation members. WalletService.transfer rolls back what its caller has
    not committed and commits the ledger on its own, so an operation returns its
    tables together with its answer: a failure after the transfer keeps the ledger.
    Answers are the code's pairs of a flag and a message. Times inside workflows
    and metadata are left out, as are audit rows. A call that returns without a
    commit leaves its pending writes to the end of the request, which drops them. *)

From stdpp Require Import pretty.
From S2P Require Import Prelude Tables Decimal BookingModel BookingStates PaymentStates.
From S2P Require Import Cancellation Pricing StayModel Signing.
From S2P Require Import Ledger RegulatoryVolume KycLimits WalletService.

Local Open Scope Z_scope.

Import MarketplaceSignatures.

(** What was recorded as the authorization of a refund. *)
Abbreviation authorization := (gmap string json).

(** BookingCommission: one row a booking. *)
Record BookingCommission : Type := {
  bc_id : Z;
  bc_booking_id : Z;
  bc_total_amount : dec;
  bc_commission_amount : dec;
  bc_host_payout : dec;
  bc_platform_fee_pct : dec;
  bc_status : string;
  bc_host_payout_transaction_id : option string;
  bc_released_at : option Z;
  bc_released_by : option Z;
  bc_refund_amount : option dec;
  bc_refunded_at : option Z;
  bc_refund_authorization : option authorization;
}.

Definition commission_released (c : BookingCommission) (at_ by_ : Z) (txn : string)
    : BookingCommission := {|
  bc_id := bc_id c;
  bc_booking_id := bc_booking_id c;
  bc_total_amount := bc_total_amount c;
  bc_commission_amount := bc_commission_amount c;
  bc_host_payout := bc_host_payout c;
  bc_platform_fee_pct := bc_platform_fee_pct c;
  bc_status := "released";
  bc_host_payout_transaction_id := Some txn;
  bc_released_at := Some at_;
  bc_released_by := Some by_;
  bc_refund_amount := bc_refund_amount c;
  bc_refunded_at := bc_refunded_at c;
  bc_refund_authorization := bc_refund_authorization c;
|}.

Definition commission_refunded (c : BookingCommission) (status : string) (amount : dec) (at_ : Z)
    (a : authorization) : BookingCommission := {|
  bc_id := bc_id c;
  bc_booking_id := bc_booking_id c;
  bc_total_amount := bc_total_amount c;
  bc_commission_amount := bc_commission_amount c;
  bc_host_payout := bc_host_payout c;
  bc_platform_fee_pct := bc_platform_fee_pct c;
  bc_status := status;
  bc_host_payout_transaction_id := bc_host_payout_transaction_id c;
  bc_released_at := bc_released_at c;
  bc_released_by := bc_released_by c;
  bc_refund_amount := Some amount;
  bc_refunded_at := Some at_;
  bc_refund_authorization := Some a;
|}.

(** OrganisationMember, with its permission "org.accommodation.manage". *)
Record OrganisationMember : Type := {
  om_user_id : Z;
  om_organisation_id : Z;
  om_is_active : bool;
  om_is_deleted : bool;
  om_can_manage : bool;
}.

Record market : Type := {
  mk_stay : StayModel.store;
  mk_wallet : Ledger.store;
  mk_commissions : list BookingCommission;
  mk_members : list OrganisationMember;
}.

Definition with_stay (m : market) (s : StayModel.store) : market := {|
  mk_stay := s; mk_wallet := mk_wallet m; mk_commissions := mk_commissions m;
  mk_members := mk_members m |}.
Definition with_wallet (m : market) (w : Ledger.store) : market := {|
  mk_stay := mk_stay m; mk_wallet := w; mk_commissions := mk_commissions m;
  mk_members := mk_members m |}.
Definition with_commission_rows (m : market) (l : list BookingCommission) : market := {|
  mk_stay := mk_stay m; mk_wallet := mk_wallet m; mk_commissions := l;
  mk_members := mk_members m |}.

(** The exceptions that the operations turn into answers. *)
Inductive escrow_error : Type :=
  | WalletRaised (e : wallet_error)
  | PlatformOrgNotConfigured
  | PlatformAccountNotFound
  | WalletAccountNotFound (user_id : Z)
  | SigningKeyNotConfigured
  | InvalidBookingId
  | PostgresRequired
  | DecimalRaised (e : dec_error)
  | TransitionRaised (e : booking_error)
  | UniqueViolation.

(** Where and by whom an operation runs: the two services' environments (the
    session's user is the wallet's), the configuration, the roles, whether the
    database is PostgreSQL and the advisory lock of the booking was free, and the
    text of an exception. *)
Record market_env : Type := {
  me_stay : StayModel.env;
  me_wallet : wallet_env;
  me_platform_org_id : option Z;
  me_commission_pct : option dec;
  me_is_admin : Z -> bool;               (* has_global_role of the four roles *)
  me_manages_any : Z -> bool;            (* can(user, "accommodation.manage") *)
  me_postgresql : bool;
  me_lock_free : bool;
  me_error_text : escrow_error -> string;
}.

(** [(True, None)], [(False, message)] ... *)
Abbreviation reply := (bool * option string)%type.
Definition yes (msg : string) : reply := (true, Some msg).
Definition no (msg : string) : reply := (false, Some msg).

(** [current_user.id] of an authenticated session. *)
Definition actor (e : market_env) : option Z := su_user_id <$> we_user (me_wallet e).

(** * Refund workflows *)

(** [workflow.update({...})] *)
Definition w_update (w : refund_workflow) (l : list (string * meta_value)) : refund_workflow :=
  foldl (fun w kv => <[kv.1 := kv.2]> w) w l.

(** [list(workflow.get("risk_flags") or [])]; the code stores lists there. *)
Definition risk_flags (w : refund_workflow) : list string :=
  match w !! "risk_flags"%string with Some (MList l) => l | _ => [] end.

(** [list(dict.fromkeys(l))]: the first of equal texts. *)
Fixpoint fromkeys_from (seen l : list string) : list string :=
  match l with
  | [] => []
  | f :: l => if str_in f seen then fromkeys_from seen l else f :: fromkeys_from (f :: seen) l
  end.
Definition fromkeys (l : list string) : list string := fromkeys_from [] l.

Definition add_flags (w : refund_workflow) (l : list string) : meta_value :=
  MList (fromkeys (risk_flags w ++ l)).

(** [workflow.get("state") == s] *)
Definition state_is (w : refund_workflow) (s : string) : bool :=
  match w !! "state"%string with Some (MText t) => String.eqb t s | _ => false end.
Definition state_in (w : refund_workflow) (l : list string) : bool := existsb (state_is w) l.

Definition meta_truthy (v : option meta_value) : bool :=
  match v with
  | None | Some MNull => false
  | Some (MBool b) => b
  | Some (MInt n) => negb (n =? 0)
  | Some (MText s) => negb (String.eqb s "")
  | Some (MDec _) | Some (MTime _) => true
  | Some (MList l) => negb (Nat.eqb (length l) 0)
  | Some (MDict l) => negb (Nat.eqb (length l) 0)
  end.

(** [v == n] *)
Definition meta_is_int (v : option meta_value) (n : Z) : bool :=
  match v with Some (MInt k) => k =? n | _ => false end.

(** [Decimal(str(v or "0"))] of an amount the code stores. *)
Definition meta_amount (v : option meta_value) : result escrow_error dec :=
  if negb (meta_truthy v) then Ok dzero
  else match v with
       | Some (MDec d) => Ok d
       | Some (MInt n) => Ok (dint n)
       | _ => Err (DecimalRaised InvalidOperation)
       end.

Definition meta_of_json (j : json) : meta_value :=
  match j with
  | JNull => MNull
  | JBool b => MBool b
  | JInt n => MInt n
  | JStr s => MText s
  | JDec d => MDec d
  | JText s => MText s
  end.

Definition opt_jint (x : option Z) : json := match x with Some n => JInt n | None => JNull end.

(** [Decimal(str(x)).quantize(Decimal("0.01"))] *)
Definition cents_of (d : dec) : result escrow_error dec :=
  map_err DecimalRaised (quantize ROUND_HALF_EVEN (-2) d).

Definition amount_paid (x : booking) : dec := dec_or0 (bk_amount_paid x).

(** [payment_method in {"wallet", "mock_gateway"}] of the lower-cased column. *)
Definition held_in_wallet (x : booking) : bool :=
  str_in (lower (default "" (bk_payment_method x))) ["wallet"; "mock_gateway"]%string.

Definition payment_confirmed (x : booking) : bool :=
  str_in (lower (bk_payment_status x)) ["paid"; "partially_paid"]%string.

Definition previously_refunded (x : booking) : bool :=
  is_some (bk_refunded_at x) || dltb dzero (dec_or0 (bk_refund_amount x)).

(** [str(j) == str(booking_id)] *)
Definition is_booking_id (j : json) (b : Z) : bool :=
  match j with
  | JStr s | JText s => String.eqb s (pretty b)
  | JInt n => n =? b
  | JDec d => (dexp d =? 0) && (coef d =? b)
  | JNull | JBool _ => false
  end.

Module IdentityService.

Definition member (m : market) (uid org : Z) (also : OrganisationMember -> bool)
    : option OrganisationMember :=
  List.find (fun o => (om_user_id o =? uid) && (om_organisation_id o =? org) && om_is_active o
                      && also o) (mk_members m).

Definition can_manage_property (e : market_env) (m : market) (uid : Z)
    (owner_user_id owner_org_id : option Z) : bool :=
  me_is_admin e uid
  || me_manages_any e uid
  || bool_decide (id_of owner_user_id = Some uid)
  || match id_of owner_org_id with
     | Some org => match member m uid org (fun _ => true) with
                   | Some o => om_can_manage o
                   | None => false
                   end
     | None => false
     end.

End IdentityService.

Module MarketplaceService.
Import IdentityService WalletService.

Section marketplace.
Context `{KycService} `{FraudScorer} `{FxRates} `{PinHash} (e : market_env).

Definition now : Z := StayModel.now (me_stay e).

(** * Accounts *)

(** The lookup of the account; a booking without currency has none. *)
Definition find_account (m : market) (user_id : Z) (currency : option string)
    : result escrow_error (option string) :=
  map_err WalletRaised
    (let* a := AccountRepository.get_by_user_id (mk_wallet m) user_id (default "" currency) in
     Ok (match currency with Some _ => ac_id <$> a | None => None end)).

(** The organisation's id is looked up as that of a user. *)
Definition _get_platform_account_id (m : market) (currency : option string)
    : result escrow_error string :=
  let* platform_org_id := of_option PlatformOrgNotConfigured (id_of (me_platform_org_id e)) in
  let* a := find_account m platform_org_id currency in
  of_option PlatformAccountNotFound a.

Definition _get_account_for_user (m : market) (user_id : Z) (currency : option string)
    : result escrow_error string :=
  let* a := find_account m user_id currency in
  of_option (WalletAccountNotFound user_id) a.

Definition wallet_transfer (q : transfer_request) (m : market)
    : result escrow_error (market * response) :=
  map_err WalletRaised
    (let* p := transfer (me_wallet e) q (mk_wallet m) in Ok (with_wallet m p.1, p.2)).

Definition opt_jstr (s : option string) : json := match s with Some s => JStr s | None => JNull end.

(** * Charging the guest *)

Definition DEFAULT_COMMISSION_PCT : dec := Dec 100 (-1).

Definition charge_request (x : stay) (total_amount : dec) (currency idempotency_key : string)
    (pct commission host_payout : dec) (guest platform : string) : transfer_request := {|
  tq_from_account_id := guest;
  tq_to_account_id := platform;
  tq_amount := total_amount;
  tq_currency := currency;
  tq_client_request_id := Some ("booking_" +:+ pretty (bk_id x) +:+ "_charge_" +:+ idempotency_key)%string;
  tq_metadata := Some (list_to_map [
    ("booking_id", JStr (pretty (bk_id x)));
    ("booking_reference", opt_jstr (bk_reference x));
    ("property_id", JStr (pretty (bk_property_id x)));
    ("guest_user_id", JStr (pretty (sy_booked_by_user_id x)));
    ("host_user_id", JStr (pretty (sy_host_user_id x)));
    ("commission_pct", JDec pct);
    ("commission_amount", JDec commission);
    ("host_payout", JDec host_payout)]%string);
  tq_platform_fee := Some commission;
  tq_fee_currency := Some currency;
  tq_pin := None;
  tq_system_initiated := false;
|}.

(** The columns a charge stamps. *)
Definition charged_stay (x : stay) (total_amount : dec) (txn : string) : stay :=
  let b := set_paid x "paid" (Aware now) (Some txn) (bk_payment_method x) in
  with_booking x (set_info b {|
    bk_id := bk_id b; bk_reference := bk_reference b; bk_property_id := bk_property_id b;
    bk_property := bk_property b; bk_check_in := bk_check_in b; bk_check_out := bk_check_out b;
    bk_nightly_rate := bk_nightly_rate b; bk_cleaning_fee := bk_cleaning_fee b;
    bk_service_fee := bk_service_fee b; bk_taxes := bk_taxes b; bk_currency := bk_currency b;
    bk_amount_paid := Some total_amount; bk_amount_due := bk_amount_due b;
    bk_deposit_amount := bk_deposit_amount b; bk_guest_user_id := bk_guest_user_id b;
    bk_primary_guest_id := bk_primary_guest_id b; bk_guest_email := bk_guest_email b;
    bk_host_approved_at := bk_host_approved_at b; bk_expires_at := bk_expires_at b;
    bk_registration_deadline := bk_registration_deadline b;
    bk_payment_timing := bk_payment_timing b; bk_booking_flow_type := bk_booking_flow_type b;
    bk_payment_guaranteed := bk_payment_guaranteed b;
    bk_policy_snapshot := bk_policy_snapshot b |}).

Definition next_commission_id (m : market) : Z :=
  foldr (fun c n => Z.max (bc_id c + 1) n) 1 (mk_commissions m).

Definition commission_of (m : market) (booking_id : Z) : option BookingCommission :=
  List.find (fun c => bc_booking_id c =? booking_id) (mk_commissions m).

(** The commission: half to even on the cent, the rest is the host's. *)
Definition split (total_amount : dec) : result escrow_error (dec * dec * dec) :=
  let pct := default DEFAULT_COMMISSION_PCT (me_commission_pct e) in
  let* share := map_err DecimalRaised (ddiv (dmul total_amount pct) (dint 100)) in
  let* commission := cents_of share in
  Ok (pct, commission, dsub total_amount commission).

Definition charge (m : market) (x : stay) (total_amount : dec) (currency idempotency_key : string)
    : market * result escrow_error string :=
  let prepared :=
    let* guest := _get_account_for_user m (sy_booked_by_user_id x) (Some currency) in
    let* platform := _get_platform_account_id m (Some currency) in
    let* terms := split total_amount in
    let* p := wallet_transfer (charge_request x total_amount currency idempotency_key
                terms.1.1 terms.1.2 terms.2 guest platform) m in
    Ok (terms, p) in
  match prepared with
  | Err err => (m, Err err)
  | Ok (pct, commission, host_payout, (m1, r)) =>
      let txn := pretty (rs_transaction_id r) in
      if is_some (commission_of m1 (bk_id x)) then (m1, Err UniqueViolation)
      else
        let m2 := with_stay m1 (write_stay (mk_stay m1) (charged_stay x total_amount txn)) in
        (with_commission_rows m2 (mk_commissions m2 ++ [{|
           bc_id := next_commission_id m2;
           bc_booking_id := bk_id x;
           bc_total_amount := total_amount;
           bc_commission_amount := commission;
           bc_host_payout := host_payout;
           bc_platform_fee_pct := pct;
           bc_status := "held";
           bc_host_payout_transaction_id := None;
           bc_released_at := None;
           bc_released_by := None;
           bc_refund_amount := Some dzero;
           bc_refunded_at := None;
           bc_refund_authorization := None |}]), Ok txn)
  end.

Definition charge_guest (m : market) (x : stay) (total_amount : dec)
    (currency idempotency_key : string) : market * (bool * option string * option string) :=
  match charge m x total_amount currency idempotency_key with
  | (m', Ok txn) => (m', (true, Some txn, None))
  | (m', Err err) => (m', (false, None, Some (me_error_text e err)))
  end.

(** * Settlement under the booking's lock *)

Definition _booking_settlement_lock (booking_id : Z) : result escrow_error bool :=
  require 0 <? booking_id else InvalidBookingId ;;
  require me_postgresql e else PostgresRequired ;;
  Ok (me_lock_free e).

(** [refused] is the answer when the lock cannot be asked for. *)
Definition under_lock (booking_id : Z) (refused : string) (m : market)
    (settle : market * reply) : market * reply :=
  match _booking_settlement_lock booking_id with
  | Err _ => (m, no refused)
  | Ok false => (m, no ("Another refund or host payout is processing for this booking; "
                        +:+ "retry after it completes"))
  | Ok true => settle
  end.

Definition prop_of (m : market) (x : booking) : option Property :=
  get_property (mk_stay m) (bk_property_id x).

Definition manages (m : market) (uid : Z) (x : booking) : bool :=
  can_manage_property e m uid (prop_of m x ≫= ls_owner_user_id) (prop_of m x ≫= ls_owner_org_id).

Definition write_commission (m : market) (c : BookingCommission) : market :=
  with_commission_rows m (update_where (fun r => bc_booking_id r =? bc_booking_id c) (fun _ => c)
                            (mk_commissions m)).

(** * Paying the host *)

Definition payout_key (booking_id : Z) : string := "booking_" +:+ pretty booking_id +:+ "_payout".

Definition payout_request (x : stay) (c : BookingCommission) (approver : Z)
    (platform host : string) : transfer_request := {|
  tq_from_account_id := platform;
  tq_to_account_id := host;
  tq_amount := bc_host_payout c;
  tq_currency := default "" (bk_currency x);
  tq_client_request_id := Some (payout_key (bk_id x));
  tq_metadata := Some (list_to_map [
    ("booking_id", JStr (pretty (bk_id x)));
    ("booking_reference", opt_jstr (bk_reference x));
    ("commission_id", JStr (pretty (bc_id c)));
    ("approved_by_user_id", JInt approver);
    ("approval_source", JStr "host_check_in");
    ("approval_reason", JStr "Host confirmed guest check-in")]%string);
  tq_platform_fee := None;
  tq_fee_currency := None;
  tq_pin := None;
  tq_system_initiated := true;
|}.

Definition pay_host (m : market) (x : stay) (c : BookingCommission) (approver : Z)
    : result escrow_error market :=
  let* host := _get_account_for_user m (sy_host_user_id x) (bk_currency x) in
  let* platform := _get_platform_account_id m (bk_currency x) in
  let* p := wallet_transfer (payout_request x c approver platform host) m in
  Ok (write_commission p.1 (commission_released c now approver (pretty (rs_transaction_id p.2)))).

Definition _release_host_payout_locked (booking_id : Z) (m : market) : market * reply :=
  match get_stay (mk_stay m) booking_id with
  | None => (m, no "Booking not found")
  | Some x =>
      match actor e with
      | None => (m, no "An authenticated host approval is required")
      | Some uid =>
          if negb (manages m uid x)
          then (m, no "You are not authorised to approve this host payout")
          else if negb (sy_is_checked_in x && String.eqb (bk_status x) (enum_value CHECKED_IN)
                        && bool_decide (sy_checked_in_by x = Some uid))
          then (m, no "A host must confirm this booking's check-in before payout")
          else match commission_of m booking_id with
               | None => (m, no "Commission record not found")
               | Some c =>
                   if negb (String.eqb (bc_status c) "held")
                   then (m, no ("Commission already " +:+ bc_status c))
                   else match pay_host m x c uid with
                        | Ok m' => (m', (true, None))
                        | Err err => (m, no (me_error_text e err))
                        end
               end
      end
  end.

Definition release_host_payout (booking_id : Z) (m : market) : market * reply :=
  under_lock booking_id
    "Host payout could not safely reserve this booking's escrow; no payout was initiated" m
    (_release_host_payout_locked booking_id m).

(** * The record of a refund *)

Definition _refund_workflow (x : stay) : refund_workflow := default ∅ (sy_workflow x).

Definition _record_refund_history (x : booking) (actor_user_id : Z) (trigger : string)
    (metadata : list (string * meta_value)) (d : db) : db :=
  add_history d {|
    h_booking_id := bk_id x;
    h_from_status := bk_status x;
    h_to_status := bk_status x;
    h_changed_by := Some actor_user_id;
    h_trigger := Some trigger;
    h_change_metadata := list_to_map metadata |}.

(** [_store_refund_workflow], raising. *)
Definition store_workflow (x : stay) (w : refund_workflow) : result escrow_error stay :=
  of_option SigningKeyNotConfigured (_store_refund_workflow (me_stay e) x w).

Definition store_db (m : market) : db := st_db (mk_stay m).

(** The commit of a booking and of the history. *)
Definition commit_booking (m : market) (x : stay) (d : db) : market :=
  with_stay m (write_stay (StayModel.with_db (mk_stay m) d) x).

(** Store the workflow, append the event, commit, answer. *)
Definition queue_workflow (m : market) (d : db) (x : stay) (w : refund_workflow) (actor_user_id : Z)
    (trigger : string) (metadata : list (string * meta_value)) (answer : reply)
    : result escrow_error (market * reply) :=
  let* x' := store_workflow x w in
  Ok (commit_booking m x' (_record_refund_history x' actor_user_id trigger metadata d), answer).

(** * Screening *)

Definition _is_independent_refund_reviewer (m : market) (x : stay) (reviewer_user_id : Z)
    (w : refund_workflow) : bool :=
  negb (existsb (fun i => bool_decide (i = Some reviewer_user_id))
          [bk_cancelled_by_user_id x; Some (sy_booked_by_user_id x); bk_guest_user_id x;
           sy_booking_owner_id x; bk_primary_guest_id x; Some (sy_host_user_id x)])
  && negb (meta_is_int (w !! "requested_by_user_id"%string) reviewer_user_id)
  && match prop_of m x with
     | None => false
     | Some p =>
         negb (bool_decide (id_of (ls_owner_user_id p) = Some reviewer_user_id))
         && match id_of (ls_owner_org_id p) with
            | Some org =>
                match member m reviewer_user_id org (fun o => negb (om_is_deleted o)) with
                | Some o => negb (om_can_manage o)
                | None => true
                end
            | None => true
            end
     end.

(** The transaction that [wallet_txn_id] names. *)
Definition original_payment (m : market) (x : booking) : option transaction :=
  txn ← bk_wallet_txn_id x;
  List.find (fun t => String.eqb (pretty (tx_id t)) txn) (st_transactions (mk_wallet m)).

Definition reconciles (x : stay) (amount : dec) (t : transaction) : bool :=
  bool_decide (tx_status t = TransactionStatus.COMPLETED)
  && bool_decide (tx_user_id t = Some (sy_booked_by_user_id x))
  && negb (dltb (micro (tx_amount t)) amount)
  && String.eqb (upper (tx_currency t)) (upper (default "" (bk_currency x)))
  && is_booking_id (json_get (tx_metadata t) "booking_id") (bk_id x).

Definition flag (b : bool) (f : string) : list string := if b then [f] else [].

Definition rules_flags (x : stay) : list string :=
  match rules_of x with
  | None => ["booking_time_policy_snapshot_incomplete"]%string
  | Some r =>
      if negb (sr_version r =? 2) then ["booking_time_policy_snapshot_incomplete"]%string
      else flag (negb (verify_cancellation_policy_rules (me_stay e) x r))
             "booking_time_policy_snapshot_integrity_failed"
  end.

Definition escrow_flags (amount : dec) (c : option BookingCommission) : list string :=
  match c with
  | None => ["escrow_commission_record_missing"]%string
  | Some c =>
      flag (negb (String.eqb (bc_status c) "held")) "escrow_not_held_for_automatic_refund"
      ++ flag (dltb (bc_total_amount c) amount) "refund_exceeds_escrow_amount"
  end.

(** [amount] is already a number of cents. *)
Definition _refund_screening_flags (m : market) (x : stay) (amount : dec)
    (c : option BookingCommission) : list string :=
  fromkeys
    (rules_flags x
     ++ flag (negb (verify_cancellation_outcome (me_stay e) x)) "cancellation_outcome_integrity_failed"
     ++ flag (negb (held_in_wallet x)) "payment_not_held_in_platform_wallet"
     ++ flag (negb (truthy (bk_wallet_txn_id x))) "original_platform_transaction_missing"
     ++ flag (negb (payment_confirmed x)) "booking_payment_not_confirmed"
     ++ flag (dltb (amount_paid x) amount) "refund_exceeds_confirmed_payment"
     ++ escrow_flags amount c
     ++ flag (previously_refunded x) "previous_refund_recorded"
     ++ flag (truthy (bk_wallet_txn_id x)
              && match original_payment m x with
                 | Some t => negb (reconciles x amount t)
                 | None => true
                 end) "original_payment_cannot_be_reconciled").

(** * Refunding through the ledger *)

Definition refund_key (booking_id : Z) : string := "booking_" +:+ pretty booking_id +:+ "_refund".

(** Who authorized a refund, and as what. *)
Record decision : Type := {
  de_authorization_source : string;
  de_authorized_by_user_id : Z;
  de_approved_by_user_id : option Z;
  de_approval_reason : string;
}.

(** [approved_by_user_id or authorized_by_user_id] *)
Definition decided_by (d : decision) : Z :=
  default (de_authorized_by_user_id d) (id_of (de_approved_by_user_id d)).

Definition authorization_of (d : decision) : authorization := list_to_map [
  ("authorization_source", JStr (de_authorization_source d));
  ("authorized_by_user_id", JInt (de_authorized_by_user_id d));
  ("approved_by_user_id", opt_jint (de_approved_by_user_id d));
  ("approval_reason", JStr (de_approval_reason d))]%string.

(** The keys of the authorization that a transaction's metadata carries. *)
Definition recorded_authorization (md : metadata) : authorization := list_to_map
  ((fun k => (k, json_get md k)) <$>
     ["authorization_source"; "authorized_by_user_id"; "approved_by_user_id"; "approval_reason"]%string).

Definition authorization_meta (a : authorization) : meta_value :=
  MDict ((fun k => (k, meta_of_json (json_get a k))) <$>
     ["authorization_source"; "authorized_by_user_id"; "approved_by_user_id"; "approval_reason"]%string).

Definition refund_request (x : stay) (amount : dec) (d : decision) (platform guest : string)
    : transfer_request := {|
  tq_from_account_id := platform;
  tq_to_account_id := guest;
  tq_amount := amount;
  tq_currency := default "" (bk_currency x);
  tq_client_request_id := Some (refund_key (bk_id x));
  tq_metadata := Some (list_to_map [
      ("booking_id", JStr (pretty (bk_id x)));
      ("booking_reference", opt_jstr (bk_reference x));
      ("refund_amount", JDec amount)]%string ∪ authorization_of d);
  tq_platform_fee := None;
  tq_fee_currency := None;
  tq_pin := None;
  tq_system_initiated := true;
|}.

(** What remains of a workflow besides its signature is merged, and then the
    failure recorded. [message] is cut at 500 characters. *)
Definition _queue_refund_execution_reconciliation (m : market) (x : stay) (context : refund_workflow)
    (d : decision) (message : string) (transaction_id : Z) : result escrow_error (market * reply) :=
  let w := unsigned context ∪ _refund_workflow x in
  let text := MText (String.substring 0 500 message) in
  let txn := MText (pretty transaction_id) in
  queue_workflow m (store_db m) x
    (w_update w [
      ("state", MText "pending_human_review");
      ("last_error", text);
      ("reconciliation_transaction_id", txn);
      ("risk_flags", add_flags w ["refund_execution_reconciliation_failed"]);
      ("review_reason", MText "Wallet execution or its durable transaction could not be reconciled automatically; administrator review is required.")]%string)
    (de_authorized_by_user_id d) "refund_execution_reconciliation_queued"
    [("error", text); ("transaction_id", txn);
     ("risk_flag", MText "refund_execution_reconciliation_failed")]%string
    (no "The refund was not marked complete. The payment execution could not be reconciled and has been sent to the platform review queue.").

(** The first check that the durable transaction fails. A replayed transfer also
    needs the authorization evidence in its metadata. *)
Definition durable_refund_problem (x : stay) (amount : dec) (r : response) (t : transaction)
    : option string :=
  if negb (bool_decide (tx_status t = TransactionStatus.COMPLETED)) then
    Some "The wallet refund transaction is not completed; keep the booking unrefunded"
  else if negb (deqb (micro (tx_amount t)) amount) then
    Some "An earlier refund transaction exists for a different amount"
  else if negb (String.eqb (upper (tx_currency t)) (upper (default "" (bk_currency x)))) then
    Some "The durable refund transaction currency does not match the booking"
  else if negb (bool_decide (tx_recipient_user_id t = Some (sy_booked_by_user_id x))) then
    Some "The durable refund transaction recipient does not match the booking payer"
  else if negb (is_booking_id (json_get (tx_metadata t) "booking_id") (bk_id x)) then
    Some "The durable wallet transaction is not tied to this booking"
  else if rs_already_processed r
          && (negb (CommissionService.json_truthy (json_get (tx_metadata t) "authorization_source"))
              || negb (CommissionService.json_truthy (json_get (tx_metadata t) "authorized_by_user_id")))
  then Some "Existing refund transaction has no complete authorization evidence"
  else None%string.

Definition fully (amount whole : dec) : bool := dleb whole amount.
Definition remaining (whole amount : dec) : dec := dmax (cents 0) (dsub whole amount).

(** The booking row of a completed refund: a full refund of a cancelled booking
    moves it to REFUNDED. *)
Definition refund_booking (x : stay) (amount : dec) (by_user : Z) (reason trigger : string) (d : db)
    : result escrow_error (db * stay) :=
  let full := fully amount (amount_paid x) in
  let b := set_refund x amount (enum_value (if full then APS_REFUNDED else APS_PARTIAL_REFUND))
             (Aware now) in
  if String.eqb (bk_status x) (enum_value BookingModel.CANCELLED) && full then
    let* p := map_err TransitionRaised
      (BookingStateMachine.transition now d b BookingModel.REFUNDED {|
         BookingStateMachine.ta_changed_by_user_id := Some by_user;
         BookingStateMachine.ta_reason := Some reason;
         BookingStateMachine.ta_ip_address := None;
         BookingStateMachine.ta_user_agent := None;
         BookingStateMachine.ta_trigger := Some trigger;
         BookingStateMachine.ta_metadata := ∅ |}) in
    Ok (p.1, with_booking x p.2)
  else Ok (d, with_booking x b).

Definition settled_state (full : bool) : meta_value :=
  MText (if full then "refunded" else "partially_refunded").

(** The business record of a completed transfer [t]. *)
Definition record_refund (m : market) (x : stay) (c : BookingCommission) (amount : dec)
    (d : decision) (a : authorization) (context : refund_workflow) (t : transaction)
    : result escrow_error (market * reply) :=
  let c_full := fully amount (bc_total_amount c) in
  let b_full := fully amount (amount_paid x) in
  let c' := commission_refunded c (if c_full then "refunded" else "partially_refunded")
              amount now a in
  let* p := refund_booking x amount (decided_by d) "Refund executed under recorded authorization"
              "refund_processed" (store_db m) in
  let w := w_update (unsigned context ∪ _refund_workflow x) [
    ("state", settled_state b_full);
    ("actual_amount", MDec amount);
    ("remaining_paid_amount", MDec (remaining (amount_paid x) amount));
    ("remaining_escrow_amount", MDec (remaining (bc_total_amount c) amount));
    ("transaction_id", MText (pretty (tx_id t)));
    ("authorization", authorization_meta a)]%string in
  let* x' := store_workflow p.2 w in
  let d' := _record_refund_history x' (decided_by d) "refund_ledger_settled" [
    ("amount", MDec amount);
    ("currency", meta_text (bk_currency x));
    ("transaction_id", MText (pretty (tx_id t)));
    ("authorization", authorization_meta a);
    ("full_refund", MBool b_full)]%string p.1 in
  Ok (commit_booking (write_commission m c') x' d', (true, None)).

(** After the transfer the booking is read again: what was not committed before it
    is gone, except the workflow, which the code carried over in a local. *)
Definition settle_refund (m1 : market) (booking_id : Z) (c : BookingCommission) (amount : dec)
    (d : decision) (context : refund_workflow) (r : response) : result escrow_error (market * reply) :=
  match get_stay (mk_stay m1) booking_id with
  | None => Ok (m1, no "Booking not found")                    (* the row is locked *)
  | Some x =>
      match TransactionRepository.get_by_client_request_id (mk_wallet m1) (Some (refund_key booking_id)) with
      | None => _queue_refund_execution_reconciliation m1 x context d
                  "Wallet did not return a durable refund transaction" (rs_transaction_id r)
      | Some t =>
          match durable_refund_problem x amount r t with
          | Some problem => _queue_refund_execution_reconciliation m1 x context d problem (tx_id t)
          | None =>
              record_refund m1 x c amount d
                (if rs_already_processed r then recorded_authorization (tx_metadata t)
                 else authorization_of d) context t
          end
      end
  end.

(** [x] is the booking as the caller holds it, [m] what is committed. An exception
    after the transfer leaves the ledger moved. *)
Definition _execute_escrow_refund (m : market) (x : stay) (c : option BookingCommission)
    (refund_amount : dec) (d : decision) : market * result escrow_error reply :=
  match cents_of refund_amount with
  | Err err => (m, Err err)
  | Ok amount =>
      if dleb amount dzero then (m, Ok (no "Refund amount must be greater than zero"))
      else match c with
      | None => (m, Ok (no "Platform escrow is not held; human recovery review is required"))
      | Some c =>
          if negb (String.eqb (bc_status c) "held")
          then (m, Ok (no "Platform escrow is not held; human recovery review is required"))
          else if dltb (amount_paid x) amount
          then (m, Ok (no "Refund exceeds the amount actually paid"))
          else if dltb (bc_total_amount c) amount
          then (m, Ok (no "Refund exceeds the amount held in escrow"))
          else
            let moved :=
              let* platform := _get_platform_account_id m (bk_currency x) in
              let* guest := _get_account_for_user m (sy_booked_by_user_id x) (bk_currency x) in
              wallet_transfer (refund_request x amount d platform guest) m in
            match moved with
            | Err err => (m, Err err)
            | Ok (m1, r) =>
                match settle_refund m1 (bk_id x) c amount d (_refund_workflow x) r with
                | Ok (m2, answer) => (m2, Ok answer)
                | Err err => (m1, Err err)
                end
            end
      end
  end.

(** * The guest's refund under the booking's policy *)

(** The amount recorded by the cancellation. *)
Definition policy_amount (x : stay) : result escrow_error dec :=
  cents_of (match sy_outcome x with Some o => co_refund o | None => dzero end).

Definition queue_integrity_review (m : market) (x : stay) (uid : Z) : result escrow_error (market * reply) :=
  let w := _refund_workflow x in
  queue_workflow m (store_db m) x
    (w_update w [
      ("state", MText "pending_human_review");
      ("risk_flags", add_flags w ["refund_workflow_integrity_failed"]);
      ("review_reason", MText "The stored refund workflow failed its signature check")]%string)
    uid "refund_workflow_integrity_review_queued"
    [("risk_flag", MText "refund_workflow_integrity_failed");
     ("proposed_amount", default MNull (w !! "proposed_amount"%string))]%string
    (yes "Refund workflow integrity could not be verified; the case was sent for human review").

Definition queue_screening_review (m : market) (x : stay) (uid : Z) (amount : dec)
    (flags : list string) : result escrow_error (market * reply) :=
  let w := _refund_workflow x in
  queue_workflow m (store_db m) x
    (w_update w [
      ("state", MText "pending_human_review");
      ("proposed_amount", MDec amount);
      ("currency", MText (str_or (bk_currency x) "USD"));
      ("risk_flags", MList flags);
      ("review_reason", MText "Machine screening could not safely authorize automatic refund")]%string)
    uid "refund_review_queued"
    [("proposed_amount", MDec amount);
     ("currency", meta_text (bk_currency x));
     ("risk_flags", MList flags);
     ("request_source", default MNull (w !! "request_source"%string))]%string
    (yes "Refund submitted to the platform human-approval queue").

(** An early result of a [try] body, as tables and answer. *)
Definition done (m : market) (r : result escrow_error (market * reply))
    : market * result escrow_error reply :=
  match r with
  | Ok (m', a) => (m', Ok a)
  | Err err => (m, Err err)
  end.

Definition refund_decision (x : booking) (uid : Z) : decision := {|
  de_authorization_source := "booking_time_policy";
  de_authorized_by_user_id := uid;
  de_approved_by_user_id := None;
  de_approval_reason := str_or (bk_cancellation_reason x)
    "Authenticated guest cancellation under frozen booking policy" |}.

Definition refund_guest_try (booking_id : Z) (refund_amount : dec) (m : market)
    : market * result escrow_error reply :=
  match get_stay (mk_stay m) booking_id, actor e with
  | None, _ => (m, Ok (no "Booking not found"))
  | Some _, None => (m, Ok (no "An authenticated booking cancellation is required"))
  | Some x, Some uid =>
      if negb (bool_decide (bk_cancelled_by_user_id x = Some uid)
               && str_in (bk_status x)
                    [enum_value BookingModel.CANCELLED; enum_value BookingModel.REFUNDED])
      then (m, Ok (no "Only the authenticated cancellation actor can start this policy refund"))
      else match cents_of refund_amount, policy_amount x with
      | Err err, _ | _, Err err => (m, Err err)
      | Ok amount, Ok recorded =>
          if dleb amount dzero || negb (deqb amount recorded)
          then (m, Ok (no "Refund amount does not match the recorded booking-time cancellation calculation"))
          else
            let w := _refund_workflow x in
            if negb (verify_refund_workflow (me_stay e) x w)
            then done m (queue_integrity_review m x uid)
            else if state_in w ["refunded"; "partially_refunded"]%string
            then (m, Ok (no "Already refunded"))
            else if state_in w ["pending_human_review"; "approved_external_execution_pending";
                                "approved_recovery_required"; "rejected"]%string
            then (m, Ok (yes "Refund is awaiting platform human review or external settlement"))
            else
              let c := commission_of m booking_id in
              let flags := fromkeys (_refund_screening_flags m x amount c ++ risk_flags w) in
              if negb (Nat.eqb (length flags) 0)
              then done m (queue_screening_review m x uid amount flags)
              else _execute_escrow_refund m x c amount (refund_decision x uid)
      end
  end.

(** The handler: whatever failed, the case goes to the review queue. *)
Definition queue_failed_refund (booking_id : Z) (err : escrow_error) (m : market) : market :=
  match get_stay (mk_stay m) booking_id with
  | None => m
  | Some x =>
      let w := _refund_workflow x in
      match store_workflow x (w_update w [
        ("state", MText "pending_human_review");
        ("last_error", MText (String.substring 0 500 (me_error_text e err)));
        ("risk_flags", add_flags w ["automatic_refund_execution_failed"])]%string) with
      | Ok x' => commit_booking m x' (store_db m)
      | Err _ => m
      end
  end.

Definition _refund_guest_locked (booking_id : Z) (refund_amount : dec) (m : market) : market * reply :=
  match refund_guest_try booking_id refund_amount m with
  | (m', Ok answer) => (m', answer)
  | (m', Err err) =>
      (queue_failed_refund booking_id err m',
       no "Refund execution failed; the payment remains unrefunded")
  end.

Definition refund_guest (booking_id : Z) (refund_amount : dec) (m : market) : market * reply :=
  under_lock booking_id
    "Refund could not safely reserve this booking's escrow; no refund was initiated" m
    (_refund_guest_locked booking_id refund_amount m).

(** * Human review *)

(** [except Exception as exc: ... return False, str(exc)] *)
Definition answered (prefix : string) (r : market * result escrow_error reply)
    : market * reply :=
  match r with
  | (m', Ok answer) => (m', answer)
  | (m', Err err) => (m', no (prefix +:+ me_error_text e err))
  end.

(** A user id that names a row. *)
Definition user_exists (m : market) (uid : Z) : bool :=
  existsb (fun u => us_id u =? uid) (st_users (mk_wallet m)).

Definition too_short (n : nat) (s : string) : bool := Nat.ltb (String.length s) n.

Definition submit_review_try (booking_id : Z) (refund_amount : dec) (reason : option string)
    (requested_by_user_id : Z) (request_source : string) (m : market)
    : market * result escrow_error reply :=
  match get_stay (mk_stay m) booking_id with
  | None => (m, Ok (no "Booking not found"))
  | Some x =>
      let reason := strip (str_or reason "") in
      if negb (bool_decide (actor e = Some requested_by_user_id))
      then (m, Ok (no "The refund requester must be the authenticated property manager"))
      else if negb (user_exists m requested_by_user_id && manages m requested_by_user_id x)
      then (m, Ok (no "Only an authorised property manager can submit this request"))
      else if too_short 5 reason
      then (m, Ok (no "A review reason of at least five characters is required"))
      else match cents_of refund_amount with
      | Err err => (m, Err err)
      | Ok amount =>
          if dleb amount dzero then (m, Ok (no "Requested refund must be greater than zero"))
          else if dltb (amount_paid x) amount
          then (m, Ok (no "Requested refund must not exceed the confirmed amount paid"))
          else
            let w := _refund_workflow x in
            let valid := verify_refund_workflow (me_stay e) x w in
            if state_in w ["pending_human_review"; "approved_external_execution_pending";
                           "approved_recovery_required"; "refunded"; "partially_refunded"]%string
               && valid
            then (m, Ok (no "A refund review or settlement is already active for this booking"))
            else
              let w := if valid then w else w_update w [
                ("risk_flags", add_flags w ["refund_workflow_integrity_failed"]);
                ("integrity_review_reason", MText "Previous refund workflow signature was invalid; provider request resubmitted for review")]%string in
              let flags := add_flags w ["provider_or_manual_exception"]%string in
              done m (queue_workflow m (store_db m) x
                (w_update w [
                  ("state", MText "pending_human_review");
                  ("proposed_amount", MDec amount);
                  ("currency", MText (str_or (bk_currency x) "USD"));
                  ("request_source", MText request_source);
                  ("requested_by_user_id", MInt requested_by_user_id);
                  ("request_reason", MText reason);
                  ("risk_flags", flags)]%string)
                requested_by_user_id "refund_review_submitted"
                [("proposed_amount", MDec amount);
                 ("currency", meta_text (bk_currency x));
                 ("request_source", MText request_source);
                 ("reason", MText reason);
                 ("risk_flags", flags)]%string
                (true, None))
      end
  end.

Definition submit_refund_review (booking_id : Z) (refund_amount : dec) (reason : option string)
    (requested_by_user_id : Z) (request_source : string) (m : market) : market * reply :=
  answered "" (submit_review_try booking_id refund_amount reason requested_by_user_id
                   request_source m).

Definition integrity_flags : list string :=
  ["booking_time_policy_snapshot_incomplete"; "booking_time_policy_snapshot_integrity_failed";
   "cancellation_outcome_integrity_failed"]%string.

Definition hard_flags : list string :=
  ["original_platform_transaction_missing"; "original_payment_cannot_be_reconciled";
   "booking_payment_not_confirmed"; "refund_exceeds_confirmed_payment";
   "escrow_commission_record_missing"; "refund_exceeds_escrow_amount";
   "previous_refund_recorded"]%string.

(** [sorted(integrity_flags & set(screening_flags))]: the list above is sorted. *)
Definition discovered (flags : list string) : list string :=
  List.filter (fun f => str_in f flags) integrity_flags.

(** The workflow of an approval whose money is not moved here. *)
Definition approval (w : refund_workflow) (state : string) (amount : dec) (uid : Z) (reason : string)
    (more : list (string * meta_value)) : refund_workflow :=
  w_update w ([("state", MText state);
    ("approved_amount", MDec amount);
    ("approved_by_user_id", MInt uid);
    ("approval_reason", MText reason)]%string ++ more).

(** The checks of an approval before the screening: [None] is passed. *)
Definition approval_refused (m : market) (x : stay) (uid : Z) : option string :=
  let w := _refund_workflow x in
  if negb (verify_refund_workflow (me_stay e) x w)
  then Some "Refund workflow signature failed; do not approve until the case is safely resubmitted and reviewed"
  else if previously_refunded x then Some "Already refunded"
  else if state_in w ["refunded"; "partially_refunded"] then Some "Already refunded"
  else if negb (state_is w "pending_human_review") then Some "This refund is not awaiting human review"
  else if negb (_is_independent_refund_reviewer m x uid w)
  then Some "The cancellation actor, guest, booking owner, requester, host or property-side manager cannot approve this refund"
  else None%string.

(** The checks of its amount. *)
Definition approved_amount_refused (x : booking) (amount : dec) : option string :=
  if dleb amount dzero then Some "Approved refund amount must be greater than zero"
  else if dltb (amount_paid x) amount
  then Some "Approved refund cannot exceed the amount actually collected"
  else if dltb (dec_or0 (Some (bk_total_amount x))) amount
  then Some "Approved refund cannot exceed the booking total"
  else if negb (payment_confirmed x)
  then Some "The original payment has not been confirmed as collected"
  else if dleb (amount_paid x) dzero
  then Some "There is no collected payment available to refund"
  else if negb (held_in_wallet x) && negb (truthy (bk_wallet_txn_id x))
  then Some "The original external payment reference is missing; provider settlement cannot be verified"
  else None%string.

(** The integrity warning: blocked, or acknowledged and pending in the session. *)
Definition block_integrity (m : market) (x : stay) (uid : Z) (found : list string)
    : result escrow_error (market * reply) :=
  let w := _refund_workflow x in
  queue_workflow m (store_db m) x
    (w_update w [("risk_flags", add_flags w found);
                 ("integrity_review_required", MBool true)]%string)
    uid "refund_policy_integrity_rechecked"
    [("integrity_flags", MList found); ("approval_blocked", MBool true)]%string
    (no "The booking policy evidence failed its integrity check. Review the warning and explicitly acknowledge the exception before approval.").

Definition acknowledge_integrity (x : stay) (uid : Z) (reason : string) (found : list string) (d : db)
    : result escrow_error (stay * db) :=
  let w := _refund_workflow x in
  let* x' := store_workflow x (w_update w [
    ("integrity_exception_acknowledged_by_user_id", MInt uid);
    ("integrity_exception_reason", MText reason);
    ("risk_flags", add_flags w found)]%string) in
  Ok (x', _record_refund_history x' uid "refund_policy_integrity_exception_acknowledged"
            [("integrity_flags", MList found); ("approval_reason", MText reason)]%string d).

Definition approve_external (m : market) (d : db) (x : stay) (uid : Z) (amount : dec) (reason : string)
    : result escrow_error (market * reply) :=
  let owner := MText "original_payment_provider_or_property" in
  queue_workflow m d x
    (approval (_refund_workflow x) "approved_external_execution_pending" amount uid reason [
      ("execution_owner", owner);
      ("original_payment_reference", MText (default "None" (bk_wallet_txn_id x)));
      ("execution_note", MText "Do not mark refunded until the original payment channel supplies an execution reference.")]%string)
    uid "refund_review_approved_external"
    [("approved_amount", MDec amount); ("currency", meta_text (bk_currency x));
     ("approval_reason", MText reason); ("execution_owner", owner)]%string
    (yes "Approved. Refund remains pending execution by the original payment provider or property").

Definition approve_recovery (m : market) (d : db) (x : stay) (c : option BookingCommission) (uid : Z)
    (amount : dec) (reason : string) : result escrow_error (market * reply) :=
  queue_workflow m d x
    (approval (_refund_workflow x) "approved_recovery_required" amount uid reason [
      ("execution_note", MText "Escrow has already been released or cannot be reconciled. Financial recovery is required before payment.")]%string)
    uid "refund_review_approved_recovery_required"
    [("approved_amount", MDec amount); ("currency", meta_text (bk_currency x));
     ("approval_reason", MText reason);
     ("commission_status", meta_text (bc_status <$> c))]%string
    (yes "Approved, but escrow recovery is required before the refund can be executed").

Definition human_decision (uid : Z) (reason : string) : decision := {|
  de_authorization_source := "platform_human_review";
  de_authorized_by_user_id := uid;
  de_approved_by_user_id := Some uid;
  de_approval_reason := reason |}.

Definition is_held (c : option BookingCommission) : bool :=
  match c with Some c => String.eqb (bc_status c) "held" | None => false end.

(** The approval once the integrity warning is dealt with; [x] and [d] may carry
    the acknowledgement, which is not committed yet. *)
Definition execute_approval (m : market) (d : db) (x : stay) (c : option BookingCommission)
    (flags : list string) (uid : Z) (amount : dec) (reason : string)
    : market * result escrow_error reply :=
  if held_in_wallet x && existsb (fun f => str_in f flags) hard_flags
  then (m, Ok (no "The original payment or escrow cannot be reconciled; keep this request in review"))
  else if negb (held_in_wallet x) then done m (approve_external m d x uid amount reason)
  else if negb (is_held c) then done m (approve_recovery m d x c uid amount reason)
  else _execute_escrow_refund m x c amount (human_decision uid reason).

Definition approve_amount (m : market) (x : stay) (uid : Z) (amount : dec) (reason : string)
    (integrity_exception_acknowledged : bool) : market * result escrow_error reply :=
  match approved_amount_refused x amount with
  | Some msg => (m, Ok (no msg))
  | None =>
      let c := commission_of m (bk_id x) in
      let flags := _refund_screening_flags m x amount c in
      let found := discovered flags in
      if Nat.eqb (length found) 0 then execute_approval m (store_db m) x c flags uid amount reason
      else if negb integrity_exception_acknowledged then done m (block_integrity m x uid found)
      else match acknowledge_integrity x uid reason found (store_db m) with
           | Ok (x', d') => execute_approval m d' x' c flags uid amount reason
           | Err err => (m, Err err)
           end
  end.

Definition refund_guest_approved_try (booking_id : Z) (refund_amount : dec)
    (approval_reason : option string) (integrity_exception_acknowledged : bool) (m : market)
    : market * result escrow_error reply :=
  let reason := strip (str_or approval_reason "") in
  match actor e with
  | None => (m, Ok (no "Platform administrator approval is required"))
  | Some uid =>
      if negb (me_is_admin e uid)
      then (m, Ok (no "Platform administrator approval is required"))
      else if too_short 5 reason
      then (m, Ok (no "An approval reason of at least five characters is required"))
      else match get_stay (mk_stay m) booking_id with
      | None => (m, Ok (no "Booking not found"))
      | Some x =>
          match approval_refused m x uid with
          | Some msg => (m, Ok (no msg))
          | None => match cents_of refund_amount with
                    | Err err => (m, Err err)
                    | Ok amount =>
                        approve_amount m x uid amount reason integrity_exception_acknowledged
                    end
          end
      end
  end.

Definition _refund_guest_approved_locked (booking_id : Z) (refund_amount : dec)
    (approval_reason : option string) (acknowledged : bool) (m : market) : market * reply :=
  answered "Could not execute approved refund: "
    (refund_guest_approved_try booking_id refund_amount approval_reason acknowledged m).

Definition refund_guest_approved (booking_id : Z) (refund_amount : dec)
    (approval_reason : option string) (acknowledged : bool) (m : market) : market * reply :=
  under_lock booking_id
    "Approved refund could not safely reserve this booking's escrow; no refund was initiated" m
    (_refund_guest_approved_locked booking_id refund_amount approval_reason acknowledged m).

(** The first two checks of a reviewer that an argument names. *)
Definition reviewer_refused (m : market) (reviewer_user_id : Z) (identity role : string)
    : option string :=
  if negb (bool_decide (actor e = Some reviewer_user_id)) then Some identity
  else if negb (user_exists m reviewer_user_id && me_is_admin e reviewer_user_id) then Some role
  else None.

Definition rejection_refused (m : market) (x : stay) (reviewer_user_id : Z) : option string :=
  let w := _refund_workflow x in
  if negb (verify_refund_workflow (me_stay e) x w)
  then Some "Refund workflow signature failed; do not reject until the case is safely resubmitted and reviewed"
  else if negb (state_is w "pending_human_review") then Some "This refund is not awaiting human review"
  else if negb (_is_independent_refund_reviewer m x reviewer_user_id w)
  then Some "The cancellation actor, guest, booking owner, requester, host or property-side manager cannot reject this review as the platform reviewer"
  else None%string.

Definition reject_review_try (booking_id : Z) (reason : option string) (reviewer_user_id : Z)
    (m : market) : market * result escrow_error reply :=
  let reason := strip (str_or reason "") in
  match reviewer_refused m reviewer_user_id
          "The refund reviewer must be the authenticated platform administrator"
          "Platform administrator review is required" with
  | Some msg => (m, Ok (no msg))
  | None =>
      if too_short 5 reason
      then (m, Ok (no "A rejection reason of at least five characters is required"))
      else match get_stay (mk_stay m) booking_id with
      | None => (m, Ok (no "Booking not found"))
      | Some x =>
          match rejection_refused m x reviewer_user_id with
          | Some msg => (m, Ok (no msg))
          | None =>
              let w := _refund_workflow x in
              done m (queue_workflow m (store_db m) x
                (w_update w [("state", MText "rejected");
                             ("rejected_by_user_id", MInt reviewer_user_id);
                             ("rejection_reason", MText reason)]%string)
                reviewer_user_id "refund_review_rejected"
                [("rejection_reason", MText reason);
                 ("requested_by_user_id", default MNull (w !! "requested_by_user_id"%string));
                 ("proposed_amount", default MNull (w !! "proposed_amount"%string))]%string
                (true, None))
          end
      end
  end.

Definition reject_refund_review (booking_id : Z) (reason : option string) (reviewer_user_id : Z)
    (m : market) : market * reply :=
  answered "" (reject_review_try booking_id reason reviewer_user_id m).

(** * Refunds executed by the original provider *)

(** [str((row.change_metadata or {}).get("external_provider_reference"))] of a
    row of such a refund; the code stores a text there. *)
Definition recorded_reference (h : BookingStatusHistory) : string :=
  match h_change_metadata h !! "external_provider_reference"%string with
  | Some (MText s) => s
  | _ => "None"
  end.

Definition reference_used (m : market) (reference : string) : bool :=
  existsb (fun h => bool_decide (h_trigger h = Some "external_refund_verified"%string)
                    && String.eqb (recorded_reference h) reference)
    (db_history (store_db m)).

Definition execution_refused (m : market) (x : stay) (reviewer_user_id : Z) : option string :=
  let w := _refund_workflow x in
  let approver := w !! "approved_by_user_id"%string in
  if negb (verify_refund_workflow (me_stay e) x w)
  then Some "The external refund approval record failed its signature check"
  else if negb (state_is w "approved_external_execution_pending")
  then Some "This refund is not awaiting external payment execution"
  else if negb (meta_truthy approver) || negb (meta_truthy (w !! "approval_reason"%string))
  then Some "The human approval record is incomplete"
  else if meta_is_int approver reviewer_user_id
  then Some "A different platform administrator must verify external execution"
  else if negb (_is_independent_refund_reviewer m x reviewer_user_id w)
  then Some "The cancellation actor, guest, booking owner, requester, host or property-side manager cannot verify external execution"
  else None%string.

Definition execution_amount (m : market) (x : stay) (amount : dec) (reference : string)
    : result escrow_error (option string) :=
  if dleb amount dzero || dltb (amount_paid x) amount
  then Ok (Some "Verified provider refund must be positive and no greater than the amount collected"%string)
  else
    let* approved := meta_amount (_refund_workflow x !! "approved_amount"%string) in
    if negb (deqb amount approved)
    then Ok (Some "Recorded provider execution amount does not match the approved amount"%string)
    else if reference_used m reference
    then Ok (Some "This provider refund reference has already been recorded"%string)
    else Ok None.

Definition verification_method : meta_value :=
  MText "independent_manual_provider_reconciliation".

Definition execute_external (m : market) (x : stay) (amount : dec) (reference note : string)
    (reviewer_user_id : Z) : result escrow_error (market * reply) :=
  let full := fully amount (amount_paid x) in
  let w := _refund_workflow x in
  let* p := refund_booking x amount reviewer_user_id "Original payment provider refund verified"
              "external_refund_verified" (store_db m) in
  queue_workflow m p.1 p.2
    (w_update w [
      ("state", settled_state full);
      ("actual_amount", MDec amount);
      ("external_provider_reference", MText reference);
      ("execution_verification_note", MText note);
      ("execution_verification_method", verification_method);
      ("execution_verified_by_user_id", MInt reviewer_user_id)]%string)
    reviewer_user_id "external_refund_verified"
    [("approved_by_user_id", default MNull (w !! "approved_by_user_id"%string));
     ("verified_by_user_id", MInt reviewer_user_id);
     ("amount", MDec amount);
     ("currency", meta_text (bk_currency x));
     ("external_provider_reference", MText reference);
     ("verification_note", MText note);
     ("verification_method", verification_method);
     ("full_refund", MBool full)]%string
    (true, None).

Definition record_external_try (booking_id : Z) (amount : dec) (provider_reference : option string)
    (verification_note : option string) (reviewer_user_id : Z) (m : market)
    : market * result escrow_error reply :=
  let reference := strip (str_or provider_reference "") in
  let note := strip (str_or verification_note "") in
  match reviewer_refused m reviewer_user_id
          "The execution verifier must be the authenticated platform administrator"
          "Platform administrator authorization is required" with
  | Some msg => (m, Ok (no msg))
  | None =>
      if String.eqb reference "" then (m, Ok (no "Original provider refund reference is required"))
      else if too_short 10 note
      then (m, Ok (no "Record what you independently checked in the original provider's system"))
      else match get_stay (mk_stay m) booking_id with
      | None => (m, Ok (no "Booking not found"))
      | Some x =>
          match execution_refused m x reviewer_user_id with
          | Some msg => (m, Ok (no msg))
          | None =>
              done m
                (let* amount := cents_of amount in
                 let* refused := execution_amount m x amount reference in
                 match refused with
                 | Some msg => Ok (m, no msg)
                 | None => execute_external m x amount reference note reviewer_user_id
                 end)
          end
      end
  end.

Definition record_external_refund_execution (booking_id : Z) (amount : dec)
    (provider_reference verification_note : option string) (reviewer_user_id : Z) (m : market)
    : market * reply :=
  answered "" (record_external_try booking_id amount provider_reference verification_note
                   reviewer_user_id m).

(** * Earnings *)

(** The sums of [get_host_earnings]: released and held. *)
Definition earned (m : market) (host_user_id : Z) (status : string) : dec :=
  foldl (fun total c => dadd total (bc_host_payout c)) dzero
    (List.filter (fun c =>
       existsb (fun x : stay => (bk_id x =? bc_booking_id c) && (sy_host_user_id x =? host_user_id))
         (st_bookings (mk_stay m))
       && String.eqb (bc_status c) status) (mk_commissions m)).

Definition get_host_earnings (m : market) (host_user_id : Z) : dec * dec * dec :=
  let released := earned m host_user_id "released" in
  let held := earned m host_user_id "held" in
  (released, held, dadd released held).

End marketplace.

End MarketplaceService.

(** * The wallet as a payment processor (services/payment_processors/wallet_processor.py) *)

Module WalletProcessor.
Import MarketplaceService.

Section processor.
Context `{KycService} `{FraudScorer} `{FxRates} `{PinHash} (e : market_env).

Definition refund (transaction_id : string) (amount : dec) (reason : option string) (m : market)
    : market * reply :=
  match List.find (fun c => bool_decide (bc_host_payout_transaction_id c = Some transaction_id))
          (mk_commissions m) with
  | None => (m, no "Commission record not found for transaction")
  | Some c => refund_guest_approved e (bc_booking_id c) amount reason false m
  end.

End processor.
End WalletProcessor.
