(* ===== verification/EscrowKeys.v ===== *)
(** The wallet as the escrow uses it: which idempotency keys have a transaction,
    what a transfer by the system writes under a fresh key, and that the payout and
    refund keys of the bookings are all different. *)

From stdpp Require Import pretty.
From S2P Require Import Prelude Tables Decimal DecimalLaws Ledger RegulatoryVolume KycLimits.
From S2P Require Import WalletService LedgerLaws Bank WalletLaws WalletHistory.
From S2P Require Import BookingModel Signing Escrow.

Local Open Scope Z_scope.

Import LedgerRepository WalletService TransactionRepository.

(** * Rows by key *)

(** The amount of the transaction that holds a key. *)
Definition booked_amount (s : store) (k : string) : option Z :=
  tx_amount <$> get_by_client_request_id s (Some k).

Definition rows (s : store) : list (string * Z) := zip (tx_keys s) (tx_amount <$> st_transactions s).

Definition amount_at (l : list (string * Z)) (k : string) : option Z :=
  snd <$> List.find (fun r => String.eqb r.1 k) l.

Lemma booked_amount_rows s k : booked_amount s k = amount_at (rows s) k.
Proof.
  unfold booked_amount, amount_at, rows, tx_keys, get_by_client_request_id.
  induction (st_transactions s) as [|t l IH]; [done|]. simpl. by destruct (String.eqb _ k).
Qed.

Lemma amount_at_snoc l k k' n :
  amount_at (l ++ [(k', n)]) k
  = match amount_at l k with Some a => Some a | None => if String.eqb k' k then Some n else None end.
Proof.
  unfold amount_at. rewrite find_app. destruct (List.find _ l); [done|]. simpl.
  by destruct (String.eqb k' k).
Qed.

Lemma rows_shape s s' : shape s' = shape s -> rows s' = rows s.
Proof. unfold rows. by intros [= _ _ -> -> _ _]. Qed.

Lemma opened_shape s s' : shape s' = shape s -> opened s' = opened s.
Proof. by intros [= -> _ _ _ _ _]. Qed.

Lemma claims_rows env key s s1 t : claims env key s s1 t ->
  rows s1 = rows s
  \/ exists k, key = Some k /\ booked_amount s k = None /\ rows s1 = rows s ++ [(k, tx_amount t)].
Proof.
  intros (ty & am & c & u & r & md & (k & -> & _ & [[_ ->]|(Hn & Ht & ->)])%get_or_create_Ok);
    [by left|right]. exists k. split; [done|].
  split; [unfold booked_amount; by rewrite Hn|]. unfold rows, tx_keys. simpl.
  rewrite !fmap_app, zip_with_app by (by rewrite !length_fmap).
  rewrite !list_fmap_singleton. by rewrite (nt_key _ _ _ _ _ _ _ _ _ _ Ht).
Qed.

Lemma settles_rows env s1 t news s' r : settles env s1 t news s' r ->
  rows s' = rows s1 /\ opened s' = opened s1.
Proof.
  intros [_ [(_ & -> & _)|(_ & Hb & _)]]; [done|].
  apply booked_shape in Hb as (? & [= Eo _ Ek Ea _ _] & _). split; [|done]. unfold rows. by rewrite Ek, Ea.
Qed.

Section events.
Context `{KycService} `{FraudScorer} `{FxRates} `{PinHash}.

(** What any event does to the accounts and to the keys. *)
Lemma exec_rows ev s s' : exec ev s = Ok s' ->
  (opened s' = opened s \/ exists a, opened s' = opened s ++ [ac_info a]
                            /\ AccountRepository.get_by_id s (ac_id a) = None)
  /\ (rows s' = rows s \/ exists k n, key_of ev = Some k /\ booked_amount s k = None
                            /\ rows s' = rows s ++ [(k, n)]).
Proof.
  intros He.
  assert (Hshape : shape s' = shape s -> opened s' = opened s /\ rows s' = rows s)
    by (intros E; by rewrite (rows_shape _ _ E), (opened_shape _ _ E)).
  assert (Hset : forall env s0 s1 t news r, rows s0 = rows s -> opened s0 = opened s ->
    claims env (key_of ev) s0 s1 t -> settles env s1 t news s' r ->
    opened s' = opened s /\ (rows s' = rows s \/ exists k n, key_of ev = Some k
                              /\ booked_amount s k = None /\ rows s' = rows s ++ [(k, n)])).
  { intros env s0 s1 t news r Er Eo Hc [Er1 Eo1]%settles_rows.
    pose proof (claims_frame _ _ _ _ _ Hc) as (_ & Ea & _).
    split; [rewrite Eo1; unfold opened in *; by rewrite Ea|].
    destruct (claims_rows _ _ _ _ _ Hc) as [E|(k & Hk & Hb & E)]; rewrite Er1, E, Er; [by left|right].
    exists k, (tx_amount t). split_and!; [done| |done].
    rewrite booked_amount_rows, Er, <- booked_amount_rows in Hb. done. }
  destruct ev as [env q|env q|env q| | | | |a| | | | | |]; simpl in He;
    try (injection He as <-; destruct Hshape as [-> ->]; [|by split; left];
         first [by apply write_account_shape | apply review_shape | apply payout_shape | done]).
  - bind He as [s2 r] Hop. injection He as <-.
    apply deposit_cases in Hop as (? & ? & ? & ? & s1 & t & _ & _ & _ & _ & _ & _ & _ & Hc & Hs).
    destruct (Hset env s s1 t _ r eq_refl eq_refl Hc Hs) as [? ?]. auto.
  - bind He as [s2 r] Hop. injection He as <-.
    apply withdraw_cases in Hop as (? & ? & s1 & t & _ & _ & _ & _ & _ & _ & Hc & Hs).
    destruct (Hset env s s1 t _ r eq_refl eq_refl Hc Hs) as [? ?]. auto.
  - bind He as [s2 r] Hop. injection He as <-.
    apply transfer_cases in Hop as (us & ? & from & to & _ & _ & _ & _ & _ & Hcase).
    destruct Hcase as [(t & _ & _ & _ & -> & _)|(_ & tm & s1 & t & _ & Hc & Hs)]; [by split; left|].
    destruct (Hset env (with_users us s) s1 t _ r eq_refl eq_refl Hc Hs) as [? ?]. auto.
  - guard He as Hb. injection He as <-. apply andb_true_iff in Hb as [Hnew%bool_decide_eq_true _].
    split; [right|by left]. exists a. split; [|done]. unfold opened. simpl. by rewrite fmap_app.
Qed.

(** An event under another key leaves a key as it is. *)
Lemma exec_booked ev s s' k : exec ev s = Ok s' -> key_of ev <> Some k ->
  booked_amount s' k = booked_amount s k.
Proof.
  intros [_ [E|(k' & n & Hk & _ & E)]]%exec_rows Hne; rewrite !booked_amount_rows, E; [done|].
  rewrite amount_at_snoc. destruct (amount_at (rows s) k); [done|].
  destruct (String.eqb_spec k' k); [congruence|done].
Qed.

Lemma exec_opened ev s s' : exec ev s = Ok s' -> NoDup (ai_id <$> opened s) -> NoDup (ai_id <$> opened s').
Proof.
  intros [[E|(a & E & Hn)] _]%exec_rows Hnd; rewrite E; [done|]. rewrite fmap_app.
  apply list.NoDup_app. split_and!; [done| |apply NoDup_singleton].
  intros i (x & -> & Hx)%list_elem_of_fmap E'%list_elem_of_singleton.
  apply list_elem_of_fmap in Hx as (y & -> & Hy). apply list_elem_of_In in Hy.
  apply (List.find_none _ _ Hn) in Hy. cbv beta in Hy. unfold ac_id in Hy.
  by rewrite E', String.eqb_refl in Hy.
Qed.

(** * A transfer under a fresh key *)

(** The completed row of a transfer between the owners of two accounts. *)
Record transfer_row (q : transfer_request) (amount : dec) (from to : account) (t : transaction)
    : Prop := {
  tr_status : tx_status t = TransactionStatus.COMPLETED;
  tr_amount : tx_amount t = to_micro amount;
  tr_currency : tx_currency t = tq_currency q;
  tr_users : tx_user_id t = ac_user_id from /\ tx_recipient_user_id t = ac_user_id to;
  tr_metadata : tx_metadata t = default ∅ (tq_metadata q);
}.

Lemma transfer_fresh_spec env q s s' r k : transfer env q s = Ok (s', r) ->
  tq_client_request_id q = Some k -> booked_amount s k = None ->
  exists amount from to t, _quantize (tq_amount q) = Ok amount
    /\ AccountRepository.get_by_id s (tq_from_account_id q) = Some from
    /\ AccountRepository.get_by_id s (tq_to_account_id q) = Some to
    /\ get_by_client_request_id s' (Some k) = Some t /\ transfer_row q amount from to t
    /\ rs_already_processed r = false /\ rs_transaction_id r = tx_id t.
Proof.
  intros Hd Hk Hb. unfold transfer in Hd. bind Hd as amount Hq. guard Hd as Hne. guard Hd as Hpos.
  bind Hd as ? Hcur. unfold transfer_block in Hd. bind Hd as s0 Hv. apply verify_sender_Ok in Hv as [us ->].
  bind Hd as ? Hl1. bind Hd as ? Hl2. bind Hd as from Hfrom. bind Hd as to Hto.
  apply of_option_Ok in Hfrom, Hto. bind Hd as ? Hown. rewrite Hk in Hd.
  assert (Hg : get_by_client_request_id (with_users us s) (Some k) = None).
  { unfold booked_amount in Hb. change (get_by_client_request_id (with_users us s) (Some k))
      with (get_by_client_request_id s (Some k)). by destruct (get_by_client_request_id s (Some k)). }
  rewrite Hg in Hd. unfold transfer_fresh in Hd. bind Hd as tm Htm. rewrite Hk in Hd.
  bind Hd as [s1 t] Hclaim. apply get_or_create_Ok in Hclaim as (k' & [= <-] & _ & [[Hk2 _]|(_ & Ht & ->)]);
    [by rewrite Hg in Hk2|].
  assert (Hc : completed t = false) by (unfold completed; by rewrite (nt_status _ _ _ _ _ _ _ _ _ _ Ht)).
  rewrite Hc in Hd. bind Hd as s2 Hb2. injection Hd as <- <-. apply book_transfer_booked in Hb2.
  exists amount, from, to, (set_status (now env) TransactionStatus.COMPLETED None t).
  split_and!; try done.
  - pose proof (bk_transactions _ _ _ _ _ Hb2) as E.
    change (get_by_client_request_id s2 (Some k))
      with (List.find (fun t => String.eqb (tx_client_request_id t) k) (st_transactions s2)).
    rewrite E, find_update_key by (intros []; reflexivity). simpl. rewrite find_app.
    change (get_by_client_request_id (with_users us s) (Some k))
      with (List.find (fun t => String.eqb (tx_client_request_id t) k) (st_transactions s)) in Hg.
    rewrite Hg. simpl. rewrite (nt_key _ _ _ _ _ _ _ _ _ _ Ht), String.eqb_refl. simpl. by rewrite Z.eqb_refl.
  - destruct Ht. by split.
Qed.

End events.

(** * The keys of the bookings *)

Lemma append_inj_l (p s s' : string) : (p +:+ s = p +:+ s')%string -> s = s'.
Proof. induction p as [|c p IH]; [done|]. intros [= E]. by apply IH. Qed.

Fixpoint chars (s : string) : list Ascii.ascii :=
  match s with EmptyString => [] | String c s => c :: chars s end.

Lemma chars_append s s' : chars (s +:+ s') = chars s ++ chars s'.
Proof. induction s as [|c s IH]; [done|]. simpl. f_equal. apply IH. Qed.

Lemma chars_inj s s' : chars s = chars s' -> s = s'.
Proof.
  revert s'. induction s as [|c s IH]; intros [|c' s'] E; simplify_eq/=; [done|]. f_equal. by apply IH.
Qed.

Import MarketplaceService.

Lemma payout_key_inj b b' : payout_key b = payout_key b' -> b = b'.
Proof.
  unfold payout_key. intros E%append_inj_l%(f_equal chars). rewrite !chars_append in E.
  by apply app_inv_tail, chars_inj, (inj pretty) in E.
Qed.

Lemma refund_key_inj b b' : refund_key b = refund_key b' -> b = b'.
Proof.
  unfold refund_key. intros E%append_inj_l%(f_equal chars). rewrite !chars_append in E.
  by apply app_inv_tail, chars_inj, (inj pretty) in E.
Qed.

Lemma payout_refund_key b b' : payout_key b <> refund_key b'.
Proof.
  unfold payout_key, refund_key. intros E%append_inj_l%(f_equal chars). rewrite !chars_append in E.
  apply (f_equal list.last) in E. by rewrite !last_app in E.
Qed.
