(* ===== verification/EscrowLaws.v ===== *)
(** What the escrow guarantees: nothing is charged through it, money leaves it once
    per booking, an automatic refund needs evidence that verifies, and people who
    have a stake decide nothing. *)

From stdpp Require Import pretty.
From S2P Require Import Prelude Tables Decimal DecimalLaws BookingModel BookingStates PaymentStates.
From S2P Require Import Cancellation Pricing StayModel Signing StayLaws StayTheorems.
From S2P Require Import Ledger RegulatoryVolume KycLimits WalletService LedgerLaws Bank WalletLaws WalletHistory.
From S2P Require Import Escrow EscrowKeys.

Local Open Scope Z_scope.

Import MarketplaceSignatures WalletService IdentityService MarketplaceService.

(** A chain of refusals that was passed. *)
Ltac pass H E :=
  match type of H with (if ?b then Some _ else _) = None => destruct b eqn:E; [discriminate H|] end.

(** * Amounts *)

Lemma cents_of_Ok d a : cents_of d = Ok a -> dexp a = -2.
Proof. unfold cents_of. rewrite map_err_Ok. apply quantize_exp. Qed.

(** Cents stay as they are when the wallet cuts them to cents. *)
Lemma quantize_cents_id a b : dexp a = -2 -> _quantize a = Ok b -> b = a.
Proof.
  destruct a as [c x]. simpl. intros ->. unfold _quantize, arith, quantize, at_exp, pow10. simpl.
  rewrite Z.mul_1_r. destruct (_ <? _); [|done]. by intros [= <-].
Qed.

(** An amount read back from its column. *)
Lemma micro_back a : dexp a = -2 -> deqb (micro (to_micro a)) a = true.
Proof.
  intros He. rewrite to_micro_cents by done. destruct a as [c x]. simpl in He |- *. subst x.
  unfold deqb, dcompare, common_exp, at_exp, micro, pow10. simpl.
  change (10 ^ 0) with 1. change (10 ^ 4) with 10000. by rewrite Z.mul_1_r, Z.compare_refl.
Qed.

Lemma refund_positive_amount b amount st t : dleb amount dzero = false ->
  BookingStateMachine.refund_positive (set_refund b amount st t) = true.
Proof.
  intros Hp%dleb_false%dlt_0. unfold BookingStateMachine.refund_positive. simpl. unfold dec_or0.
  destruct (Z.eqb_spec (coef amount) 0); [lia|]. simpl. by apply dltb_spec, dlt_0.
Qed.

Section escrow.
Context `{KycService} `{FraudScorer} `{FxRates} `{PinHash}.

(** Neither the ledger nor the commissions change. *)
Definition same_money (m m' : market) : Prop :=
  mk_wallet m' = mk_wallet m /\ mk_commissions m' = mk_commissions m.

Lemma same_money_refl m : same_money m m.
Proof. done. Qed.

Section operations.
Context (e : market_env).

Lemma queue_same_money m d x w uid trigger md ans m' a :
  queue_workflow e m d x w uid trigger md ans = Ok (m', a) -> same_money m m' /\ a = ans.
Proof. unfold queue_workflow. intros Hq. bind Hq as x' Hx. by simplify_eq. Qed.

Lemma done_queue m d x w uid trigger md ans m' r :
  done m (queue_workflow e m d x w uid trigger md ans) = (m', r) -> same_money m m'.
Proof.
  unfold done. destruct (queue_workflow _ _ _ _ _ _ _ _ _) as [[m1 a1]|] eqn:Hq; intros [= <- <-]; [|done].
  by apply queue_same_money in Hq as [? _].
Qed.

(** * Charging *)

Lemma verify_sender_no_pin env q s : tq_system_initiated q = false -> tq_pin q = None ->
  exists err, verify_sender env q s = Err err.
Proof.
  intros Hs Hp. destruct (verify_sender env q s) as [s'|err] eqn:Hv; [|by exists err]. exfalso.
  unfold verify_sender in Hv. rewrite Hs, Hp in Hv. bind Hv as a Ha. bind Hv as u Hu. guard Hv as Ho.
  bind Hv as w Hw. guard Hv as Hh. by guard Hv as Hpin.
Qed.

Lemma transfer_no_pin env q s : tq_system_initiated q = false -> tq_pin q = None ->
  exists err, transfer env q s = Err err.
Proof.
  intros Hs Hp. destruct (transfer env q s) as [p|err] eqn:Ht; [|by exists err]. exfalso.
  unfold transfer in Ht. bind Ht as amount Hq. guard Ht as Hne. guard Ht as Hpos. bind Ht as ? Hc.
  unfold transfer_block in Ht. bind Ht as s0 Hv.
  destruct (verify_sender_no_pin env q s Hs Hp) as [err E]. congruence.
Qed.

(** No guest is ever charged through the escrow. [charge_guest] asks the
    wallet for a transfer by the guest without the guest's PIN, which the wallet
    refuses: whatever the booking, the amount and the balances, the answer is a
    failure and every table is as it was. *)
Theorem charge_guest_refused m x total_amount currency idempotency_key :
  exists err, charge_guest e m x total_amount currency idempotency_key = (m, (false, None, Some err)).
Proof.
  unfold charge_guest, charge. destruct (let* guest := _ in _) as [p|err] eqn:Hp; [exfalso|by eexists].
  bind Hp as guest Hg. bind Hp as platform Hpl. bind Hp as terms Ht. bind Hp as p' Hw.
  unfold wallet_transfer in Hw. apply map_err_Ok in Hw. bind Hw as p'' Htr.
  match type of Htr with transfer _ ?q _ = _ =>
    destruct (transfer_no_pin (me_wallet e) q (mk_wallet m) eq_refl eq_refl) as [err E] end.
  congruence.
Qed.

(** * What a payout and a refund do *)

Lemma wallet_transfer_Ok q m m1 r : wallet_transfer e q m = Ok (m1, r) ->
  exists w, transfer (me_wallet e) q (mk_wallet m) = Ok (w, r) /\ m1 = with_wallet m w.
Proof.
  unfold wallet_transfer. intros Hw%map_err_Ok. bind Hw as [w r'] Ht. simplify_eq. by exists w.
Qed.

(** The host's payout: the manager who checked the guest in releases the host's
    share of a commission still held. *)
Record paid_out (m : market) (b : Z) (m' : market) (c : BookingCommission) (w : Ledger.store) : Prop := {
  po_commission : commission_of m b = Some c;
  po_held : bc_status c = "held"%string;
  po_transfer : exists q r, transfer (me_wallet e) q (mk_wallet m) = Ok (w, r)
    /\ tq_client_request_id q = Some (payout_key b) /\ tq_amount q = bc_host_payout c;
  po_manager : exists x uid, get_stay (mk_stay m) b = Some x /\ actor e = Some uid
    /\ manages e m uid x = true /\ sy_is_checked_in x = true
    /\ bk_status x = enum_value CHECKED_IN /\ sy_checked_in_by x = Some uid;
  po_wallet : mk_wallet m' = w;
  po_rows : exists at_ by_ txn, mk_commissions m'
    = update_where (fun r => bc_booking_id r =? bc_booking_id c)
        (fun _ => commission_released c at_ by_ txn) (mk_commissions m);
}.

Lemma payout_cases b m m' a : release_host_payout e b m = (m', a) ->
  m' = m \/ exists c w, paid_out m b m' c w.
Proof.
  unfold release_host_payout, under_lock. destruct (_booking_settlement_lock e b) as [[]|];
    try (intros [= <- _]; by left).
  unfold _release_host_payout_locked. destruct (get_stay (mk_stay m) b) as [x|] eqn:Hx; [|intros [= <- _]; by left].
  destruct (actor e) as [uid|] eqn:Hu; [|intros [= <- _]; by left].
  destruct (manages e m uid x) eqn:Hm; simpl; [|intros [= <- _]; by left].
  destruct (_ && _ && _) eqn:Hc; simpl; [|intros [= <- _]; by left].
  destruct (commission_of m b) as [c|] eqn:Hcm; [|intros [= <- _]; by left].
  destruct (String.eqb_spec (bc_status c) "held") as [Hh|]; simpl; [|intros [= <- _]; by left].
  destruct (pay_host e m x c uid) as [m1|err] eqn:Hp; intros [= <- _]; [right|by left].
  apply andb_true_iff in Hc as [[Hc1 Hc2%String.eqb_eq]%andb_true_iff Hc3%bool_decide_eq_true].
  unfold pay_host in Hp. bind Hp as host Hho. bind Hp as platform Hpl. bind Hp as [m2 r] Hw. injection Hp as <-.
  apply wallet_transfer_Ok in Hw as (w & Ht & ->). exists c, w.
  destruct (get_stay_Some _ _ _ Hx) as [_ <-].
  split; try done; [by do 2 eexists|by exists x, uid|by do 3 eexists].
Qed.

(** A refund that reached the ledger, up to what was recorded of it. *)
Record transferred (m : market) (x : stay) (c : BookingCommission) (amount : dec) (d : decision)
    (m1 : market) (r : response) : Prop := {
  tf_held : bc_status c = "held"%string;
  tf_cents : dexp amount = -2;
  tf_positive : dleb amount dzero = false;
  tf_within_paid : dltb (amount_paid x) amount = false;
  tf_within_escrow : dltb (bc_total_amount c) amount = false;
  tf_transfer : exists platform guest w,
    _get_account_for_user m (sy_booked_by_user_id x) (bk_currency x) = Ok guest
    /\ transfer (me_wallet e) (refund_request x amount d platform guest) (mk_wallet m) = Ok (w, r)
    /\ m1 = with_wallet m w;
}.

Lemma execute_cases m x c refund_amount d m' a : _execute_escrow_refund e m x c refund_amount d = (m', a) ->
  m' = m \/ exists c0 amount m1 r, c = Some c0 /\ cents_of refund_amount = Ok amount
    /\ transferred m x c0 amount d m1 r
    /\ ((exists answer, settle_refund e m1 (bk_id x) c0 amount d (_refund_workflow x) r = Ok (m', answer)
                        /\ a = Ok answer)
        \/ exists err, settle_refund e m1 (bk_id x) c0 amount d (_refund_workflow x) r = Err err
                       /\ m' = m1 /\ a = Err err).
Proof.
  unfold _execute_escrow_refund. destruct (cents_of refund_amount) as [amount|] eqn:Ha;
    [|intros [= <- _]; by left].
  destruct (dleb amount dzero) eqn:Hpos; [intros [= <- _]; by left|].
  destruct c as [c|]; [|intros [= <- _]; by left].
  destruct (String.eqb_spec (bc_status c) "held") as [Hh|]; simpl; [|intros [= <- _]; by left].
  destruct (dltb (amount_paid x) amount) eqn:Hp1; [intros [= <- _]; by left|].
  destruct (dltb (bc_total_amount c) amount) eqn:Hp2; [intros [= <- _]; by left|].
  destruct (let* platform := _ in _) as [[m1 r]|] eqn:Hm; [|intros [= <- _]; by left].
  intros Hs. right. exists c, amount, m1, r. split_and!; [done|done| |].
  - bind Hm as platform Hpl. bind Hm as guest Hg. apply wallet_transfer_Ok in Hm as (w & Ht & ->).
    split; try done; [by apply cents_of_Ok in Ha|]. by exists platform, guest, w.
  - destruct (settle_refund _ _ _ _ _ _ _ _) as [[m2 answer]|err]; simplify_eq;
      [left; by eexists|right; by eexists].
Qed.

(** * A refund that reached the ledger is recorded *)

(** The status of a booking after a refund. *)
Definition refunded_status (x : booking) (full : bool) : string :=
  if String.eqb (bk_status x) (enum_value BookingModel.CANCELLED) && full
  then enum_value BookingModel.REFUNDED else bk_status x.

(** The row of a refunded booking. *)
Record refund_stamped (x : stay) (amount : dec) (y : stay) : Prop := {
  rs_id : bk_id y = bk_id x;
  rs_paid : bk_amount_paid y = bk_amount_paid x;
  rs_refund : bk_refund_amount y = Some amount;
  rs_at : is_some (bk_refunded_at y) = true;
  rs_payment : bk_payment_status y
    = enum_value (if fully amount (amount_paid x) then APS_REFUNDED else APS_PARTIAL_REFUND);
  rs_status : bk_status y = refunded_status x (fully amount (amount_paid x));
}.

Lemma refund_booking_total x amount u reason trigger d : dleb amount dzero = false ->
  exists d' y, refund_booking e x amount u reason trigger d = Ok (d', y)
    /\ refund_stamped x amount y /\ sy_outcome_hmac y = sy_outcome_hmac x.
Proof.
  intros Hp. unfold refund_booking. set (b := set_refund _ _ _ _).
  destruct (String.eqb (bk_status x) (enum_value BookingModel.CANCELLED) && _) eqn:Hc.
  2:{ eexists _, _. split; [done|]. split; [|done]. split; try done. unfold refunded_status. by rewrite Hc. }
  match goal with |- context [BookingStateMachine.transition ?n d b ?t ?a] =>
    destruct (BookingStateMachine.transition n d b t a) as [[d' b']|err] eqn:Ht end.
  - apply BookingStateMachine.transition_Ok in Ht as (_ & -> & ->). simpl.
    eexists _, _. split; [done|]. split; [|done]. split; try done. unfold refunded_status. by rewrite Hc.
  - exfalso. apply andb_true_iff in Hc as [Hc%String.eqb_eq _].
    match type of Ht with BookingStateMachine.transition ?n _ _ ?t ?a = _ =>
      assert (Hk : BookingStateMachine.can_transition n d b t = Ok true) end.
    { apply BookingStateMachine.can_transition_true. exists BookingModel.CANCELLED. split; [done|].
      split; [apply Prelude.allowed_spec; by vm_compute|]. split; [done|].
      intros _. by apply refund_positive_amount. }
    unfold BookingStateMachine.transition in Ht. by rewrite Hk in Ht.
Qed.

Lemma store_workflow_total x w : signing (me_stay e) <> None ->
  exists y w', store_workflow e x w = Ok y /\ y = with_workflow x w' /\ unsigned w' = unsigned w.
Proof.
  intros Hs. unfold store_workflow. destruct (_store_refund_workflow (me_stay e) x w) as [y|] eqn:Hy.
  - destruct (stored_workflow _ _ _ _ Hy) as (w' & -> & Hu). by exists (with_workflow x w'), w'.
  - exfalso. unfold _store_refund_workflow, sign_refund_workflow, sign in Hy.
    by destruct (signing (me_stay e)).
Qed.

(** The account of a user belongs to the user. *)
Lemma account_of_user m uid cur id : NoDup (ai_id <$> opened (mk_wallet m)) ->
  _get_account_for_user m uid cur = Ok id ->
  forall a, AccountRepository.get_by_id (mk_wallet m) id = Some a -> ac_user_id a = Some uid.
Proof.
  intros Hnd. unfold _get_account_for_user, find_account. intros Hg a Ha.
  bind Hg as o Ho. apply of_option_Ok in Hg as ->. apply map_err_Ok in Ho. bind Ho as acc Hacc.
  destruct cur as [cur|]; [|by simplify_eq]. destruct acc as [acc|]; simplify_eq/=.
  unfold AccountRepository.get_by_user_id in Hacc. guard Hacc as Hpos.
  destruct (List.filter _ _) as [|a1 [|]] eqn:Hf; simplify_eq.
  assert (Hin : List.In acc (List.filter (fun a => bool_decide (ac_user_id a = Some uid)
    && String.eqb (ac_currency a) cur) (st_accounts (mk_wallet m)))).
  { simpl in Hf. rewrite Hf. by left. }
  apply List.filter_In in Hin as [Hin%list_elem_of_In [Hu%bool_decide_eq_true _]%andb_true_iff].
  apply get_account_Some in Ha as [Ha E]. rewrite <- Hu. f_equal.
  apply list_elem_of_lookup in Hin as [i Hi]. apply list_elem_of_lookup in Ha as [j Hj].
  assert (i = j) as ->; [|congruence]. eapply NoDup_lookup; [exact Hnd| |].
  - unfold opened. by rewrite !list_lookup_fmap, Hi.
  - unfold opened. rewrite !list_lookup_fmap, Hj. simpl. f_equal. exact E.
Qed.

Lemma is_booking_id_pretty b : is_booking_id (JStr (pretty b)) b = true.
Proof. simpl. apply String.eqb_refl. Qed.

(** The tables after a recorded refund. *)
Record refund_recorded (m : market) (x : stay) (c : BookingCommission) (amount : dec) (d : decision)
    (m1 m2 : market) : Prop := {
  rr_wallet : mk_wallet m2 = mk_wallet m1;
  rr_booked : booked_amount (mk_wallet m1) (refund_key (bk_id x)) = Some (to_micro amount);
  rr_rows : mk_commissions m2 = update_where (fun r => bc_booking_id r =? bc_booking_id c)
    (fun _ => commission_refunded c
       (if fully amount (bc_total_amount c) then "refunded" else "partially_refunded")
       amount (now e) (authorization_of d)) (mk_commissions m);
  rr_booking : exists y w, get_stay (mk_stay m2) (bk_id x) = Some y /\ refund_stamped x amount y
    /\ sy_workflow y = Some w
    /\ w !! "state"%string = Some (settled_state (fully amount (amount_paid x)))
    /\ w !! "actual_amount"%string = Some (MDec amount);
}.

Lemma settle_complete m (x x0 : stay) c amount d m1 r : signing (me_stay e) <> None ->
  get_stay (mk_stay m) (bk_id x) = Some x0 -> sy_booking x = sy_booking x0 -> sy_terms x = sy_terms x0 ->
  NoDup (ai_id <$> opened (mk_wallet m)) ->
  booked_amount (mk_wallet m) (refund_key (bk_id x)) = None -> transferred m x c amount d m1 r ->
  exists m2, settle_refund e m1 (bk_id x) c amount d (_refund_workflow x) r = Ok (m2, (true, None))
    /\ refund_recorded m x c amount d m1 m2.
Proof.
  intros Hsig Hx0 Eb Et Hnd Hfresh [Hheld Hcents Hpos Hpaid Hesc (pl & gu & w & Hgu & Htr & ->)].
  destruct (transfer_fresh_spec _ _ _ _ _ (refund_key (bk_id x)) Htr eq_refl Hfresh)
    as (amount' & from & to & t & Hq & _ & Hto & Hget & Hrow & Hproc & _).
  apply quantize_cents_id in Hq as ->; [|done].
  unfold settle_refund. change (mk_stay (with_wallet m w)) with (mk_stay m). rewrite Hx0.
  change (mk_wallet (with_wallet m w)) with w.
  rewrite Hget.
  assert (Hprob : durable_refund_problem x0 amount r t = None).
  { destruct Hrow as [Hst Ham Hcu [_ Hre] Hmd]. unfold durable_refund_problem.
    rewrite Hst, Ham, Hcu, Hre, Hmd, Hproc, micro_back by done. simpl tq_currency. simpl tq_metadata.
    rewrite bool_decide_eq_true_2 by done. simpl negb. cbv iota. rewrite Eb, String.eqb_refl. simpl negb.
    cbv iota. rewrite bool_decide_eq_true_2 by (rewrite <- Et; by eapply account_of_user). simpl negb. cbv iota.
    unfold json_get. rewrite lookup_union_l', lookup_insert_eq by (by rewrite lookup_insert_eq). simpl.
    by rewrite String.eqb_refl. }
  rewrite Hprob, Hproc. unfold record_refund.
  destruct (refund_booking_total x0 amount (decided_by d) "Refund executed under recorded authorization"
    "refund_processed" (store_db (with_wallet m w)) Hpos) as (d' & y & -> & Hy & _). simpl.
  match goal with |- context [store_workflow e y ?w0] =>
    destruct (store_workflow_total y w0 Hsig) as (y' & w' & -> & -> & Hu) end. simpl.
  eexists. split; [done|]. split; try done.
  - unfold booked_amount. change (mk_wallet (with_wallet m w)) with w. rewrite Hget. simpl. by rewrite (tr_amount _ _ _ _ _ Hrow).
  - eexists (stored (with_workflow y w')), w'. split_and!; try done.
    + rewrite Eb. rewrite <- (rs_id _ _ _ Hy). apply (get_stay_written _ (with_workflow y w')).
      exists x0. simpl. rewrite (rs_id _ _ _ Hy), <- Eb. done.
    + destruct Hy. split; try done; rewrite Eb; done.
    + rewrite (unsigned_lookup _ _ _ Hu) by done. rewrite Eb.
      unfold w_update. simpl. by rewrite !lookup_insert_ne, lookup_insert_eq by done.
    + rewrite (unsigned_lookup _ _ _ Hu) by done.
      unfold w_update. simpl. by rewrite !lookup_insert_ne, lookup_insert_eq by done.
Qed.

(** * Who gets a refund *)

Lemma fromkeys_nil l : fromkeys l = [] -> l = [].
Proof.
  destruct l as [|f l]; [done|]. unfold fromkeys. cbn [fromkeys_from].
  destruct (str_in f []) eqn:Ef; [|done]. apply str_in_spec in Ef. by apply not_elem_of_nil in Ef.
Qed.

Lemma flag_nil b f : flag b f = [] -> b = false.
Proof. by destruct b. Qed.

(** A screening without flags: the rules and the outcome carry the signature the
    application made for this booking, the payment is a completed wallet payment of
    this booking by its payer that covers the amount, and nothing was refunded. *)
Record screened (m : market) (x : stay) (amount : dec) (c : option BookingCommission) : Prop := {
  sc_rules : exists r, rules_of x = Some r /\ sr_version r = 2
    /\ verify_cancellation_policy_rules (me_stay e) x r = true;
  sc_outcome : verify_cancellation_outcome (me_stay e) x = true;
  sc_method : held_in_wallet x = true;
  sc_confirmed : payment_confirmed x = true;
  sc_paid : dltb (amount_paid x) amount = false;
  sc_escrow : exists c0, c = Some c0 /\ bc_status c0 = "held"%string
    /\ dltb (bc_total_amount c0) amount = false;
  sc_first : previously_refunded x = false;
  sc_original : exists t, original_payment m x = Some t /\ reconciles x amount t = true;
}.

Lemma screening_clean m x amount c : _refund_screening_flags e m x amount c = [] ->
  screened m x amount c.
Proof.
  unfold _refund_screening_flags. intros Hf%fromkeys_nil.
  repeat match goal with H : _ ++ _ = [] |- _ => apply app_eq_nil in H as [? H] end.
  repeat match goal with H : flag _ _ = [] |- _ => apply flag_nil in H end.
  repeat match goal with H : negb _ = false |- _ => apply negb_false_iff in H end.
  split; try done.
  - unfold rules_flags in *. destruct (rules_of x) as [r|]; [|done]. exists r.
    destruct (Z.eqb_spec (sr_version r) 2); simpl in *; [|done].
    match goal with H : flag _ _ = [] |- _ => apply flag_nil, negb_false_iff in H end. done.
  - unfold escrow_flags in *. destruct c as [c|]; [|done]. exists c. split; [done|].
    match goal with H : _ ++ _ = [] |- _ => apply app_eq_nil in H as [E1 E2]; apply flag_nil in E1, E2;
      apply negb_false_iff, String.eqb_eq in E1 end. done.
  - match goal with H : truthy _ = true, H' : truthy _ && _ = false |- _ => rewrite H in H'; simpl in H' end.
    destruct (original_payment m x) as [t|]; [|done]. exists t. split; [done|].
    match goal with H : negb _ = false |- _ => by apply negb_false_iff in H end.
Qed.

(** What an automatic refund has checked before the ledger moves. *)
Record policy_refund (m : market) (b : Z) (x : stay) (uid : Z) (c : BookingCommission) (amount : dec)
    : Prop := {
  pr_booking : get_stay (mk_stay m) b = Some x;
  pr_actor : actor e = Some uid /\ bk_cancelled_by_user_id x = Some uid;
  pr_status : bk_status x = enum_value BookingModel.CANCELLED
              \/ bk_status x = enum_value BookingModel.REFUNDED;
  pr_amount : exists recorded, policy_amount x = Ok recorded /\ amount ≃ recorded;
  pr_workflow : verify_refund_workflow (me_stay e) x (_refund_workflow x) = true;
  pr_flags : risk_flags (_refund_workflow x) = [];
  pr_commission : commission_of m b = Some c;
  pr_screened : screened m x amount (Some c);
}.

Lemma verify_signing x w : verify_refund_workflow (me_stay e) x w = true -> signing (me_stay e) <> None.
Proof.
  unfold verify_refund_workflow, verifies, sign. intros [Ht Hb%bool_decide_eq_true]%andb_true_iff Hs.
  rewrite Hs in Hb. simpl in Hb. by rewrite <- Hb in Ht.
Qed.

Lemma queue_failed_same_money b err m : same_money m (queue_failed_refund e b err m).
Proof.
  unfold queue_failed_refund. destruct (get_stay _ _); [|done]. by destruct (store_workflow _ _ _).
Qed.

(** The answer of a refund that reached the ledger, and its tables. *)
Definition settled_as (m1 : market) (b : Z) (x : stay) (c : BookingCommission) (amount : dec)
    (d : decision) (r : response) (m' : market) (a : reply) : Prop :=
  settle_refund e m1 (bk_id x) c amount d (_refund_workflow x) r = Ok (m', a)
  \/ exists err, settle_refund e m1 (bk_id x) c amount d (_refund_workflow x) r = Err err
                 /\ same_money m1 m'.

(** The same, of the [try] body. *)
Definition settled_try (m1 : market) (x : stay) (c : BookingCommission) (amount : dec)
    (d : decision) (r : response) (m' : market) (a : result escrow_error reply) : Prop :=
  (exists ans, settle_refund e m1 (bk_id x) c amount d (_refund_workflow x) r = Ok (m', ans) /\ a = Ok ans)
  \/ exists err, settle_refund e m1 (bk_id x) c amount d (_refund_workflow x) r = Err err
                 /\ m' = m1 /\ a = Err err.

Lemma cents_of_again d a a' : cents_of d = Ok a -> cents_of a = Ok a' -> a' = a.
Proof.
  unfold cents_of. rewrite !map_err_Ok. intros Ha. rewrite quantize_id; [by intros [= ->]| |].
  - by eapply quantize_exp.
  - by eapply quantize_repr.
Qed.

Lemma refund_try_cases b refund_amount m m' a : refund_guest_try e b refund_amount m = (m', a) ->
  same_money m m' \/ exists x uid c amount m1 r, policy_refund m b x uid c amount
    /\ cents_of refund_amount = Ok amount
    /\ transferred m x c amount (refund_decision x uid) m1 r
    /\ settled_try m1 x c amount (refund_decision x uid) r m' a.
Proof.
  unfold refund_guest_try. intros Ht.
  destruct (get_stay (mk_stay m) b) as [x|] eqn:Hx; [|by simplify_eq; left].
  destruct (actor e) as [uid|] eqn:Hu; [|by simplify_eq; left].
  destruct (negb _) eqn:Hc in Ht; [by simplify_eq; left|].
  destruct (cents_of refund_amount) as [amount|] eqn:Ha; [|by simplify_eq; left].
  destruct (policy_amount x) as [recorded|] eqn:Hp; [|by simplify_eq; left].
  destruct (dleb amount dzero || _) eqn:Heq; [by simplify_eq; left|].
  destruct (negb (verify_refund_workflow _ _ _)) eqn:Hv in Ht; [left; by eapply done_queue|].
  destruct (state_in _ _) eqn:Hs1 in Ht; [by simplify_eq; left|].
  destruct (state_in _ _) eqn:Hs2 in Ht; [by simplify_eq; left|].
  destruct (negb (Nat.eqb _ 0)) eqn:Hf in Ht; [left; by eapply done_queue|].
  apply negb_false_iff, Nat.eqb_eq, nil_length_inv, fromkeys_nil, app_eq_nil in Hf as [Hf1 Hf2].
  apply screening_clean in Hf1. apply negb_false_iff in Hc, Hv.
  apply andb_true_iff in Hc as [Hc1%bool_decide_eq_true Hc2%str_in_spec].
  apply orb_false_iff in Heq as [_ Heq%negb_false_iff%deqb_spec].
  apply execute_cases in Ht as [->|(c & amount' & m1 & r & Ec & Ea & Htf & Hres)]; [by left|].
  rewrite (cents_of_again _ _ _ Ha Ea) in *. rewrite Ec in *.
  right. exists x, uid, c, amount, m1, r. split_and!; try done. split; try done.
  - apply elem_of_cons in Hc2 as [->|Hc2%list_elem_of_singleton]; auto.
  - by eexists.
Qed.

Lemma refund_guest_cases b refund_amount m m' a : refund_guest e b refund_amount m = (m', a) ->
  same_money m m' \/ exists x uid c amount m1 r, policy_refund m b x uid c amount
    /\ cents_of refund_amount = Ok amount
    /\ transferred m x c amount (refund_decision x uid) m1 r
    /\ settled_as m1 b x c amount (refund_decision x uid) r m' a.
Proof.
  unfold refund_guest, under_lock, _refund_guest_locked.
  destruct (_booking_settlement_lock e b) as [[]|]; try (intros [= <- _]; by left).
  destruct (refund_guest_try e b refund_amount m) as [m2 res] eqn:Ht.
  apply refund_try_cases in Ht as [Hs|(x & uid & c & amount & m1 & r & Hp & Ha & Htf & Hres)].
  - left. destruct res as [ans|err]; simplify_eq; [done|].
    destruct (queue_failed_same_money b err m2), Hs; split; congruence.
  - intros E. right. exists x, uid, c, amount, m1, r. split_and!; try done.
    destruct Hres as [(ans & Hset & ->)|(err & Hset & -> & ->)]; simplify_eq; [by left|].
    right. exists err. split; [done|]. apply queue_failed_same_money.
Qed.

(** What an approved refund has checked before the ledger moves. *)
Record human_refund (m : market) (b : Z) (x : stay) (uid : Z) (c : BookingCommission) (amount : dec)
    (reason : string) (acknowledged : bool) : Prop := {
  hr_booking : get_stay (mk_stay m) b = Some x;
  hr_admin : actor e = Some uid /\ me_is_admin e uid = true;
  hr_workflow : verify_refund_workflow (me_stay e) x (_refund_workflow x) = true;
  hr_pending : state_is (_refund_workflow x) "pending_human_review" = true;
  hr_independent : _is_independent_refund_reviewer m x uid (_refund_workflow x) = true;
  hr_reason : (5 <= String.length reason)%nat;
  hr_within_paid : dltb (amount_paid x) amount = false;
  hr_within_total : dltb (dec_or0 (Some (bk_total_amount x))) amount = false;
  hr_method : held_in_wallet x = true;
  hr_commission : commission_of m b = Some c;
  hr_flags : forall f, f ∈ _refund_screening_flags e m x amount (Some c) -> f ∉ hard_flags;
  hr_integrity : acknowledged = true
    \/ forall f, f ∈ _refund_screening_flags e m x amount (Some c) -> f ∉ integrity_flags;
}.

Lemma approve_external_same_money m d x uid amount reason m' r :
  done m (approve_external e m d x uid amount reason) = (m', r) -> same_money m m'.
Proof. apply done_queue. Qed.

Lemma no_hard_flags flags : existsb (fun f => str_in f flags) hard_flags = false ->
  forall f, f ∈ flags -> f ∉ hard_flags.
Proof.
  intros Hf f Hin Hh. assert (Ht : existsb (fun f => str_in f flags) hard_flags = true); [|congruence].
  apply existsb_exists. exists f. split; [by apply list_elem_of_In|by apply str_in_spec].
Qed.

Lemma approval_passed m x uid : approval_refused e m x uid = None ->
  verify_refund_workflow (me_stay e) x (_refund_workflow x) = true /\ previously_refunded x = false
  /\ state_is (_refund_workflow x) "pending_human_review" = true
  /\ _is_independent_refund_reviewer m x uid (_refund_workflow x) = true.
Proof.
  unfold approval_refused. intros Hr. pass Hr E1. pass Hr E2. pass Hr E3. pass Hr E4. pass Hr E5.
  apply negb_false_iff in E1, E4, E5. done.
Qed.

Lemma amount_passed (x : booking) amount : approved_amount_refused x amount = None ->
  dltb (amount_paid x) amount = false /\ dltb (dec_or0 (Some (bk_total_amount x))) amount = false.
Proof. unfold approved_amount_refused. intros Hr. pass Hr E1. pass Hr E2. by pass Hr E3. Qed.

(** An approval that reached the ledger; [x'] may carry an acknowledgement. *)
Lemma execute_approval_cases m d x' c flags uid amount reason m' a :
  cents_of amount = Ok amount ->
  execute_approval e m d x' c flags uid amount reason = (m', a) ->
  same_money m m' \/ exists c0 m1 r, c = Some c0 /\ held_in_wallet x' = true
    /\ (forall f, f ∈ flags -> f ∉ hard_flags)
    /\ transferred m x' c0 amount (human_decision uid reason) m1 r
    /\ settled_try m1 x' c0 amount (human_decision uid reason) r m' a.
Proof.
  intros Ha. unfold execute_approval. destruct (held_in_wallet x') eqn:Hh; cbn [andb negb]; [|left; by eapply done_queue].
  destruct (existsb (fun f => str_in f flags) hard_flags) eqn:Hf; [intros [= <- _]; by left|].
  destruct (is_held c) eqn:Hc; simpl; [|left; by eapply done_queue].
  intros [->|(c0 & amount' & m1 & r & -> & Ea & Htf & Hres)]%execute_cases; [by left|right].
  rewrite (cents_of_again _ _ _ Ha Ea) in *. exists c0, m1, r. split_and!; try done.
  by apply no_hard_flags.
Qed.

Lemma cents_of_id d a : cents_of d = Ok a -> cents_of a = Ok a.
Proof.
  unfold cents_of. rewrite !map_err_Ok. intros Ha. apply quantize_id; [by eapply quantize_exp|by eapply quantize_repr].
Qed.

(** The booking in memory is the stored one up to its workflow. *)
Definition same_row (x x' : stay) : Prop :=
  sy_booking x' = sy_booking x /\ sy_terms x' = sy_terms x.

Lemma approve_amount_cases m (x : stay) uid amount reason ack m' a :
  cents_of amount = Ok amount -> approve_amount e m x uid amount reason ack = (m', a) ->
  same_money m m' \/ exists x' c m1 r, approved_amount_refused x amount = None
    /\ same_row x x' /\ held_in_wallet x = true /\ commission_of m (bk_id x) = Some c
    /\ (forall f, f ∈ _refund_screening_flags e m x amount (Some c) -> f ∉ hard_flags)
    /\ (ack = true \/ forall f, f ∈ _refund_screening_flags e m x amount (Some c) -> f ∉ integrity_flags)
    /\ transferred m x' c amount (human_decision uid reason) m1 r
    /\ settled_try m1 x' c amount (human_decision uid reason) r m' a.
Proof.
  intros Ha. unfold approve_amount. destruct (approved_amount_refused x amount) eqn:Hr; [intros [= <- _]; by left|].
  set (flags := _refund_screening_flags _ _ _ _ _). destruct (Nat.eqb _ 0) eqn:Hd.
  - intros [Hs|(c & m1 & r & Ec & Hh & Hf & Htf & Hres)]%execute_approval_cases; [by left| |done].
    right. exists x, c, m1, r. subst flags. rewrite Ec in *. split_and!; try done. right.
    intros f Hin Hi. apply Nat.eqb_eq, nil_length_inv in Hd. unfold discovered in Hd.
    assert (Hl : List.In f (List.filter (fun f => str_in f (_refund_screening_flags e m x amount (Some c)))
      integrity_flags)); [|by rewrite Hd in Hl].
    apply List.filter_In. split; [by apply list_elem_of_In|by apply str_in_spec].
  - destruct ack; simpl; [|left; by eapply done_queue].
    destruct (acknowledge_integrity _ _ _ _ _ _) as [[x' d']|] eqn:Hk; [|intros [= <- _]; by left].
    unfold acknowledge_integrity in Hk. bind Hk as x1 Hx1. injection Hk as <- <-.
    unfold store_workflow in Hx1. apply of_option_Ok, stored_workflow in Hx1 as (w & -> & _).
    intros [Hs|(c & m1 & r & Ec & Hh & Hf & Htf & Hres)]%execute_approval_cases; [by left| |done].
    right. exists (with_workflow x w), c, m1, r. subst flags. rewrite Ec in *. split_and!; try done. by left.
Qed.

Lemma approved_cases b refund_amount reason ack m m' a :
  refund_guest_approved e b refund_amount reason ack m = (m', a) ->
  same_money m m' \/ exists x x' uid c amount m1 r, let why := strip (str_or reason "") in
    human_refund m b x uid c amount why ack
    /\ cents_of refund_amount = Ok amount /\ same_row x x'
    /\ transferred m x' c amount (human_decision uid why) m1 r
    /\ settled_as m1 b x' c amount (human_decision uid why) r m' a.
Proof.
  unfold refund_guest_approved, under_lock, _refund_guest_approved_locked, answered.
  destruct (_booking_settlement_lock e b) as [[]|]; try (intros [= <- _]; by left).
  destruct (refund_guest_approved_try _ _ _ _ _ _) as [m2 res] eqn:Ht. intros Hans.
  assert (Hm : m2 = m') by (by destruct res; simplify_eq). subst m2.
  unfold refund_guest_approved_try in Ht.
  destruct (actor e) as [uid|] eqn:Hu; [|simplify_eq; by left].
  destruct (me_is_admin e uid) eqn:Hadm; simpl in Ht; [|simplify_eq; by left].
  destruct (too_short 5 _) eqn:Hlen; [simplify_eq; by left|].
  destruct (get_stay (mk_stay m) b) as [x|] eqn:Hx; [|simplify_eq; by left].
  destruct (approval_refused e m x uid) eqn:Hr; [simplify_eq; by left|].
  destruct (cents_of refund_amount) as [amount|] eqn:Ha; [|simplify_eq; by left].
  destruct (get_stay_Some _ _ _ Hx) as [_ Hid].
  apply approve_amount_cases in Ht as [Hs|(x' & c & m1 & r & Hra & Hrow & Hh & Hc & Hf & Hi & Htf & Hres)];
    [by left| |by eapply cents_of_id].
  right. exists x, x', uid, c, amount, m1, r. simpl. split_and!; try done.
  - apply approval_passed in Hr as (Hv & _ & Hst & Hin). apply amount_passed in Hra as (Hp & Hto).
    unfold too_short in Hlen. apply Nat.ltb_ge in Hlen. split; try done. by rewrite <- Hid.
  - destruct Hres as [(ans & Hset & ->)|(err & Hset & -> & ->)]; simplify_eq; [by left|right].
    by exists err.
Qed.

End operations.
End escrow.
