(* ===== verification/EscrowHistory.v ===== *)
(** Histories of the market: the escrow's operations by anyone, the wallet's own
    events, and whatever else happens to the tables of the stays and of the members,
    in any order. *)

From stdpp Require Import pretty.
From S2P Require Import Prelude Tables Decimal DecimalLaws BookingModel BookingStates PaymentStates.
From S2P Require Import Cancellation Pricing StayModel Signing StayLaws StayTheorems.
From S2P Require Import Ledger RegulatoryVolume KycLimits WalletService LedgerLaws Bank WalletLaws WalletHistory.
From S2P Require Import Escrow EscrowKeys EscrowLaws.

Local Open Scope Z_scope.

Import MarketplaceSignatures WalletService IdentityService MarketplaceService.

Inductive market_event : Type :=
  | MCharge (e : market_env) (x : stay) (total_amount : dec) (currency key : string)
  | MPayout (e : market_env) (b : Z)
  | MRefund (e : market_env) (b : Z) (amount : dec)
  | MSubmit (e : market_env) (b : Z) (amount : dec) (reason : option string) (uid : Z) (source : string)
  | MApprove (e : market_env) (b : Z) (amount : dec) (reason : option string) (acknowledged : bool)
  | MReject (e : market_env) (b : Z) (reason : option string) (uid : Z)
  | MExternal (e : market_env) (b : Z) (amount : dec) (reference note : option string) (uid : Z)
  | MWallet (ev : event)
  | MStays (s : StayModel.store)              (* bookings are made, moved, cancelled *)
  | MMembers (l : list OrganisationMember).

Section history.
Context `{KycService} `{FraudScorer} `{FxRates} `{PinHash}.

Definition market_do (ev : market_event) (m : market) : market :=
  match ev with
  | MCharge e x t c k => (charge_guest e m x t c k).1
  | MPayout e b => (release_host_payout e b m).1
  | MRefund e b a => (refund_guest e b a m).1
  | MSubmit e b a r u src => (submit_refund_review e b a r u src m).1
  | MApprove e b a r k => (refund_guest_approved e b a r k m).1
  | MReject e b r u => (reject_refund_review e b r u m).1
  | MExternal e b a r n u => (record_external_refund_execution e b a r n u m).1
  | MWallet ev => with_wallet m (WalletHistory.do ev (mk_wallet m))
  | MStays s => with_stay m s
  | MMembers l => {| mk_stay := mk_stay m; mk_wallet := mk_wallet m;
                     mk_commissions := mk_commissions m; mk_members := l |}
  end.

Fixpoint market_history (es : list market_event) (m : market) : market :=
  match es with
  | [] => m
  | ev :: es => market_history es (market_do ev m)
  end.

(** The wallet's own events use no key that the escrow reserves. *)
Definition unreserved (ev : market_event) : Prop :=
  match ev with
  | MWallet w => forall b, key_of w <> Some (payout_key b) /\ key_of w <> Some (refund_key b)
  | _ => True
  end.

(** * Operations that move no money *)

Lemma answered_market e p r m' a : answered e p r = (m', a) -> m' = r.1.
Proof. destruct r as [m1 [ans|err]]; simpl; by intros [= <- _]. Qed.

Section quiet.
Context (e : market_env).

Lemma submit_same_money b amount reason u src m :
  same_money m (submit_refund_review e b amount reason u src m).1.
Proof.
  destruct (submit_refund_review _ _ _ _ _ _ _) as [m' a] eqn:Hs. simpl.
  unfold submit_refund_review in Hs. apply answered_market in Hs as ->.
  destruct (submit_review_try _ _ _ _ _ _ _) as [m1 res] eqn:Ht. simpl. unfold submit_review_try in Ht.
  repeat (case_match; simplify_eq; try done). all: by eapply done_queue.
Qed.

Lemma reject_same_money b reason u m : same_money m (reject_refund_review e b reason u m).1.
Proof.
  destruct (reject_refund_review _ _ _ _ _) as [m' a] eqn:Hs. simpl.
  unfold reject_refund_review in Hs. apply answered_market in Hs as ->.
  destruct (reject_review_try _ _ _ _ _) as [m1 res] eqn:Ht. simpl. unfold reject_review_try in Ht.
  repeat (case_match; simplify_eq; try done). by eapply done_queue.
Qed.

Lemma external_done_cases b amount reference note u m m' a :
  record_external_refund_execution e b amount reference note u m = (m', a) ->
  (m' = m /\ a.1 = false) \/ exists x cents, let ref := strip (str_or reference "") in
    get_stay (mk_stay m) b = Some x
    /\ reviewer_refused e m u "The execution verifier must be the authenticated platform administrator"
         "Platform administrator authorization is required" = None
    /\ ref <> ""%string /\ (10 <= String.length (strip (str_or note "")))%nat
    /\ execution_refused e m x u = None
    /\ cents_of amount = Ok cents /\ execution_amount m x cents ref = Ok None
    /\ execute_external e m x cents ref (strip (str_or note "")) u = Ok (m', a).
Proof.
  unfold record_external_refund_execution. destruct (record_external_try _ _ _ _ _ _ _) as [m1 res] eqn:Ht.
  unfold record_external_try in Ht.
  destruct (reviewer_refused _ _ _ _ _) eqn:Hr; [simplify_eq; intros [= <- <-]; by left|].
  destruct (String.eqb_spec (strip (str_or reference "")) "") as [|Hne]; [simplify_eq; intros [= <- <-]; by left|].
  destruct (too_short 10 _) eqn:Hlen; [simplify_eq; intros [= <- <-]; by left|].
  destruct (get_stay (mk_stay m) b) as [x|] eqn:Hx; [|simplify_eq; intros [= <- <-]; by left].
  destruct (execution_refused e m x u) eqn:He; [simplify_eq; intros [= <- <-]; by left|].
  unfold done in Ht. destruct (let* cents := _ in _) as [[m2 ans]|err] eqn:Hb; simplify_eq;
    [|intros [= <- <-]; by left]. intros [= <- <-].
  bind Hb as cents Hc. bind Hb as refused Hrf. destruct refused as [msg|]; [simplify_eq; by left|].
  right. exists x, cents. unfold too_short in Hlen. apply Nat.ltb_ge in Hlen. done.
Qed.

Lemma execute_external_same_money m x amount ref note u m' a :
  execute_external e m x amount ref note u = Ok (m', a) -> same_money m m'.
Proof.
  unfold execute_external. intros He. bind He as [d y] Hr. by apply queue_same_money in He as [Hs _].
Qed.

Lemma external_same_money b amount reference note u m :
  same_money m (record_external_refund_execution e b amount reference note u m).1.
Proof.
  destruct (record_external_refund_execution _ _ _ _ _ _ _) as [m' a] eqn:Hs. simpl.
  apply external_done_cases in Hs as [[-> _]|(x & cents & _ & _ & _ & _ & _ & _ & _ & He)]; [done|].
  by eapply execute_external_same_money.
Qed.

End quiet.

(** * Each booking's escrow leaves once *)

(** What the ledger says of a commission: a booked payout is recorded as such and
    is the host's share, a booked refund is recorded with its amount, at most the
    total; so no commission has both, and one still held has neither. *)
Record row_settled (w : Ledger.store) (c : BookingCommission) : Prop := {
  es_payout : forall n, booked_amount w (payout_key (bc_booking_id c)) = Some n ->
    bc_status c = "released"%string
    /\ exists d, _quantize (bc_host_payout c) = Ok d /\ n = to_micro d;
  es_refund : forall n, booked_amount w (refund_key (bc_booking_id c)) = Some n ->
    bc_status c ∈ ["refunded"; "partially_refunded"]%string
    /\ exists d, bc_refund_amount c = Some d /\ n = to_micro d /\ dle d (bc_total_amount c);
}.

Record escrow_ok (m : market) : Prop := {
  eo_accounts : NoDup (ai_id <$> opened (mk_wallet m));
  eo_unique : NoDup (bc_booking_id <$> mk_commissions m);
  eo_rows : forall c, c ∈ mk_commissions m -> row_settled (mk_wallet m) c;
}.

Lemma escrow_ok_same m m' : same_money m m' -> escrow_ok m -> escrow_ok m'.
Proof. intros [Ew Ec] [? ? ?]. by split; rewrite ?Ew, ?Ec. Qed.

Lemma row_settled_keys w w' c :
  booked_amount w' (payout_key (bc_booking_id c)) = booked_amount w (payout_key (bc_booking_id c)) ->
  booked_amount w' (refund_key (bc_booking_id c)) = booked_amount w (refund_key (bc_booking_id c)) ->
  row_settled w c -> row_settled w' c.
Proof. intros E1 E2 [? ?]. by split; rewrite ?E1, ?E2. Qed.

Lemma held_unbooked w c : row_settled w c -> bc_status c = "held"%string ->
  booked_amount w (payout_key (bc_booking_id c)) = None
  /\ booked_amount w (refund_key (bc_booking_id c)) = None.
Proof.
  intros [Hp Hr] Hh. split.
  - destruct (booked_amount w (payout_key (bc_booking_id c))) as [n|] eqn:E; [|done]. destruct (Hp n eq_refl) as [Hs _]. by rewrite Hh in Hs.
  - destruct (booked_amount w (refund_key (bc_booking_id c))) as [n|] eqn:E; [|done]. destruct (Hr n eq_refl) as [Hs _].
    rewrite Hh in Hs. set_solver.
Qed.

Lemma commission_of_Some m b c : commission_of m b = Some c ->
  c ∈ mk_commissions m /\ bc_booking_id c = b.
Proof. intros [Hin E%Z.eqb_eq]%List.find_some. split; [by apply list_elem_of_In|done]. Qed.

(** One transfer of a booking's escrow, and the write of its commission. *)
Lemma settle_row m m' b c c' env q r w k : escrow_ok m -> commission_of m b = Some c ->
  k = payout_key b \/ k = refund_key b -> tq_client_request_id q = Some k ->
  transfer env q (mk_wallet m) = Ok (w, r) -> mk_wallet m' = w -> bc_booking_id c' = b ->
  mk_commissions m' = update_where (fun r => bc_booking_id r =? bc_booking_id c) (fun _ => c')
                        (mk_commissions m) ->
  row_settled w c' ->
  escrow_ok m'.
Proof.
  intros [Ha Hu Hr] Hc Hk Hq Ht Ew Hid Erows Hc'.
  assert (He : exec (ETransfer env q) (mk_wallet m) = Ok w) by (simpl; by rewrite Ht).
  assert (Hother : forall k', k' <> k -> booked_amount w k' = booked_amount (mk_wallet m) k').
  { intros k' Hne. apply (exec_booked _ _ _ _ He). simpl. congruence. }
  destruct (commission_of_Some _ _ _ Hc) as [Hin Eb]. split.
  - rewrite Ew. by apply (exec_opened _ _ _ He).
  - rewrite Erows. assert (E : bc_booking_id <$> update_where (fun r => bc_booking_id r =? bc_booking_id c)
      (fun _ => c') (mk_commissions m) = bc_booking_id <$> mk_commissions m); [|by rewrite E].
    unfold update_where. rewrite <- list_fmap_compose. apply list_fmap_ext. intros i x _. simpl.
    destruct (Z.eqb_spec (bc_booking_id x) (bc_booking_id c)); congruence.
  - rewrite Erows, Ew. intros y (x & Hx & ->)%elem_of_update.
    destruct (Z.eqb_spec (bc_booking_id x) (bc_booking_id c)) as [E|E].
    + done.
    + apply (row_settled_keys (mk_wallet m)); [..|by apply Hr]; apply Hother; intros Ek;
        destruct Hk as [->| ->]; (try by apply payout_refund_key in Ek);
        (try by symmetry in Ek; apply payout_refund_key in Ek).
      * apply payout_key_inj in Ek. congruence.
      * apply refund_key_inj in Ek. congruence.
Qed.

Lemma transfer_other env q s w r k k' : transfer env q s = Ok (w, r) ->
  tq_client_request_id q = Some k -> k' <> k -> booked_amount w k' = booked_amount s k'.
Proof.
  intros Ht Hq Hne. apply (exec_booked (ETransfer env q)); simpl; [by rewrite Ht|congruence].
Qed.

Lemma payout_ok e b m : escrow_ok m -> escrow_ok (release_host_payout e b m).1.
Proof.
  intros Hm. destruct (release_host_payout e b m) as [m' a] eqn:Hp. simpl.
  apply payout_cases in Hp as [->|(c & w & [Hc Hh (q & r & Ht & Hk & Hq) _ Hw (at_ & by_ & txn & Erows)])]; [done|].
  destruct (commission_of_Some _ _ _ Hc) as [Hin Eb].
  destruct (held_unbooked _ _ (eo_rows _ Hm _ Hin) Hh) as [Hf1 Hf2]. rewrite Eb in Hf1, Hf2.
  destruct (transfer_fresh_spec _ _ _ _ _ _ Ht Hk Hf1) as (amount & from & to & t & Hqa & _ & _ & Hg & Hrow & _).
  eapply (settle_row m m' b c (commission_released c at_ by_ txn) _ _ _ w (payout_key b)); try done; [by left|].
  split; simpl; rewrite Eb; intros n Hn.
  - split; [done|]. exists amount. split; [by rewrite <- Hq|]. unfold booked_amount in Hn. rewrite Hg in Hn.
    injection Hn as <-. apply (tr_amount _ _ _ _ _ Hrow).
  - rewrite (transfer_other _ _ _ _ _ _ _ Ht Hk), Hf2 in Hn; [done|]. intros E. by symmetry in E; apply payout_refund_key in E.
Qed.

(** A refund that moved the ledger, whoever asked for it. *)
Lemma transferred_keeps_ok e b m m1 m2 (x x0 : stay) c amount d r : escrow_ok m ->
  signing (me_stay e) <> None -> get_stay (mk_stay m) b = Some x0 -> same_row x0 x ->
  commission_of m b = Some c -> transferred e m x c amount d m1 r ->
  settle_refund e m1 (bk_id x) c amount d (_refund_workflow x) r = Ok (m2, (true, None)) ->
  refund_recorded e m x c amount d m1 m2 -> escrow_ok m2.
Proof.
  intros Hm Hsig Hx0 [Eb Et] Hc Htf Hset [Hw Hbk Hrows _].
  destruct (get_stay_Some _ _ _ Hx0) as [_ Hid]. assert (Ix : bk_id x = b) by congruence.
  destruct (commission_of_Some _ _ _ Hc) as [Hin Ec]. rewrite Ix in *.
  destruct Htf as [Hh _ _ _ Hesc (pl & gu & w & _ & Htr & ->)].
  destruct (held_unbooked _ _ (eo_rows _ Hm _ Hin) Hh) as [Hf1 Hf2]. rewrite Ec in Hf1, Hf2.
  assert (Hkey : tq_client_request_id (refund_request x amount d pl gu) = Some (refund_key b))
    by (simpl; by rewrite Ix).
  eapply (settle_row m m2 b c _ _ _ _ w (refund_key b) Hm Hc); [by right|done|done|done| |exact Hrows|]; [done|].
  split; simpl; rewrite Ec; intros n Hn.
  - by rewrite (transfer_other _ _ _ _ _ _ _ Htr Hkey (payout_refund_key b b)), Hf1 in Hn.
  - change (mk_wallet (with_wallet m w)) with w in Hbk. rewrite Hbk in Hn. injection Hn as <-.
    split; [destruct (fully _ _); set_solver|]. exists amount. split_and!; [done|done|by apply dltb_false].
Qed.

Lemma refund_complete e b m m' m1 (x x0 : stay) c amount d r a : escrow_ok m ->
  signing (me_stay e) <> None -> get_stay (mk_stay m) b = Some x0 -> same_row x0 x ->
  commission_of m b = Some c -> transferred e m x c amount d m1 r ->
  settled_as e m1 b x c amount d r m' a ->
  a = (true, None) /\ refund_recorded e m x c amount d m1 m' /\ escrow_ok m'.
Proof.
  intros Hm Hsig Hx0 [Eb Et] Hc Htf Hset. destruct (get_stay_Some _ _ _ Hx0) as [_ Hid].
  assert (Ix : bk_id x = b) by congruence. destruct (commission_of_Some _ _ _ Hc) as [Hin Ec].
  destruct (held_unbooked _ _ (eo_rows _ Hm _ Hin) (tf_held _ _ _ _ _ _ _ _ Htf)) as [_ Hfresh].
  rewrite Ec, <- Ix in Hfresh. rewrite <- Ix in Hx0.
  destruct (settle_complete e m x x0 c amount d m1 r) as (m2 & Hs2 & Hrec); try done.
  { apply (eo_accounts _ Hm). }
  destruct Hset as [Hs|(err & Hs & _)]; rewrite Hs2 in Hs; [|done]. injection Hs as <- <-.
  split_and!; try done. rewrite Ix in Hx0. by eapply transferred_keeps_ok.
Qed.

Lemma refund_ok e b amount m : escrow_ok m -> escrow_ok (refund_guest e b amount m).1.
Proof.
  intros Hm. destruct (refund_guest e b amount m) as [m' a] eqn:Hr. simpl.
  apply refund_guest_cases in Hr as [Hs|(x & uid & c & am & m1 & r & Hp & _ & Htf & Hset)];
    [by apply (escrow_ok_same m)|].
  eapply (refund_complete e b m m' m1 x x c am); try done; try apply Hp.
  by apply (verify_signing _ _ _ (pr_workflow _ _ _ _ _ _ _ Hp)).
Qed.

Lemma approved_ok e b amount reason k m : escrow_ok m ->
  escrow_ok (refund_guest_approved e b amount reason k m).1.
Proof.
  intros Hm. destruct (refund_guest_approved e b amount reason k m) as [m' a] eqn:Hr. simpl.
  apply approved_cases in Hr as [Hs|(x & x' & uid & c & am & m1 & r & Hp & _ & Hrow & Htf & Hset)];
    [by apply (escrow_ok_same m)|].
  eapply (refund_complete e b m m' m1 x' x c am); try done; try apply Hp.
  by apply (verify_signing _ _ _ (hr_workflow _ _ _ _ _ _ _ _ _ Hp)).
Qed.

Lemma market_do_ok ev m : unreserved ev -> escrow_ok m -> escrow_ok (market_do ev m).
Proof.
  intros Hun Hm. destruct ev as [e x t c k|e b|e b a|e b a r u src|e b a r k|e b r u|e b a r n u|ev|s|l]; simpl.
  - by destruct (charge_guest_refused e m x t c k) as [err ->].
  - by apply payout_ok.
  - by apply refund_ok.
  - apply (escrow_ok_same m); [apply submit_same_money|done].
  - by apply approved_ok.
  - apply (escrow_ok_same m); [apply reject_same_money|done].
  - apply (escrow_ok_same m); [apply external_same_money|done].
  - unfold WalletHistory.do. destruct (exec ev (mk_wallet m)) as [w|] eqn:He; [|by destruct m].
    destruct Hm as [Ha Hu Hr]. split; simpl; [by eapply exec_opened|done|]. intros c Hc.
    apply (row_settled_keys (mk_wallet m)); [..|by apply Hr]; apply (exec_booked _ _ _ _ He); apply Hun.
  - by destruct Hm.
  - by destruct Hm.
Qed.

(** C3: each booking's escrow leaves the platform once. From tables where the
    ledger agrees with the commissions (as when every commission is held and no
    payout or refund key is in use), and whatever charges, payouts, refunds,
    reviews, wallet operations and changes of bookings and members follow, as long
    as no other wallet operation uses a reserved key: of every commission the
    ledger has booked the payout or the refund or neither, a payout is the host's
    share and the commission says released, a refund is the amount the commission
    records, not above the total that was held, and a held commission has neither. *)
Theorem escrow_settles_once es m c (Hm : escrow_ok m) (Hes : Forall unreserved es)
  (Hc : c ∈ mk_commissions (market_history es m)) :
  let w := mk_wallet (market_history es m) in
  let paid := booked_amount w (payout_key (bc_booking_id c)) in
  let refunded := booked_amount w (refund_key (bc_booking_id c)) in
  row_settled w c /\ (paid = None \/ refunded = None)
  /\ (bc_status c = "held"%string -> paid = None /\ refunded = None).
Proof.
  assert (Hok : escrow_ok (market_history es m)).
  { clear c Hc. revert m Hm. induction Hes as [|ev es Hev _ IH]; intros m Hm; [done|].
    apply IH. by apply market_do_ok. }
  simpl. pose proof (eo_rows _ Hok _ Hc) as Hrow. split; [done|]. split; [|by apply held_unbooked].
  destruct (booked_amount _ (payout_key _)) as [n|] eqn:E1; [right|by left].
  destruct (booked_amount _ (refund_key _)) as [n'|] eqn:E2; [|done].
  destruct (es_payout _ _ Hrow n E1) as [Hs _]. destruct (es_refund _ _ Hrow n' E2) as [Hs' _].
  rewrite Hs in Hs'. set_solver.
Qed.

End history.
