(* ===== verification/EscrowTheorems.v ===== *)
(** Who moves money out of the escrow, on what evidence, and what is recorded. *)

From stdpp Require Import pretty.
From S2P Require Import Prelude Tables Decimal DecimalLaws BookingModel BookingStates PaymentStates.
From S2P Require Import Cancellation Pricing StayModel Signing StayLaws StayTheorems.
From S2P Require Import Ledger RegulatoryVolume KycLimits WalletService LedgerLaws Bank WalletLaws WalletHistory.
From S2P Require Import Escrow EscrowKeys EscrowLaws EscrowHistory.

Local Open Scope Z_scope.

Import MarketplaceSignatures WalletService IdentityService MarketplaceService.

(** The people with a stake in a booking. *)
Definition parties (x : stay) : list (option Z) :=
  [bk_cancelled_by_user_id x; Some (sy_booked_by_user_id x); bk_guest_user_id x;
   sy_booking_owner_id x; bk_primary_guest_id x; Some (sy_host_user_id x)].

(** The listing's owner, and the members of the owning organisation who may manage it. *)
Definition provider_side (m : market) (x : stay) (uid : Z) : Prop :=
  exists p, prop_of m x = Some p
    /\ (id_of (ls_owner_user_id p) = Some uid
        \/ exists org o, id_of (ls_owner_org_id p) = Some org /\ om_can_manage o = true
             /\ member m uid org (fun o => negb (om_is_deleted o)) = Some o).

Lemma independent_spec m x uid w : _is_independent_refund_reviewer m x uid w = true ->
  (Some uid ∉ parties x) /\ w !! "requested_by_user_id"%string <> Some (MInt uid)
  /\ is_some (prop_of m x) = true /\ ~ provider_side m x uid.
Proof.
  unfold _is_independent_refund_reviewer.
  intros [[Hp%negb_true_iff Hw%negb_true_iff]%andb_true_iff Hs]%andb_true_iff. split_and!.
  - intros Hin. assert (Ht : existsb (fun i => bool_decide (i = Some uid)) (parties x) = true);
      [|unfold parties in Ht; congruence].
    apply existsb_exists. exists (Some uid). split; [by apply list_elem_of_In|by apply bool_decide_eq_true].
  - intros E. rewrite E in Hw. simpl in Hw. by rewrite Z.eqb_refl in Hw.
  - by destruct (prop_of m x).
  - intros (p & E & Hside). rewrite E in Hs. apply andb_true_iff in Hs as [Ho Hm].
    destruct Hside as [Hu|(org & o & Eo & Hc & Hmem)].
    + apply negb_true_iff, bool_decide_eq_false in Ho. done.
    + rewrite Eo, Hmem in Hm. by rewrite Hc in Hm.
Qed.

Section theorems.
Context `{KycService} `{FraudScorer} `{FxRates} `{PinHash} (e : market_env).

(** C19: an automatic refund moves money only on evidence that verifies. When
    [refund_guest] changed the ledger, the session's user is the one who cancelled
    the booking, which is cancelled; the amount is the one the cancellation
    recorded; the refund workflow, the rules the booking was made under and the
    outcome carry the application's signature for this booking; no risk flag is
    set; the commission is held and covers the amount, as the confirmed payment
    does; nothing was refunded before; and the original payment is a completed
    wallet transaction of the payer for this booking that covers the amount. *)
Theorem automatic_refund_evidence b refund_amount m m' a (Hr : refund_guest e b refund_amount m = (m', a))
  (Hmoved : mk_wallet m' <> mk_wallet m) :
  exists x uid c amount, cents_of refund_amount = Ok amount /\ policy_refund e m b x uid c amount.
Proof.
  apply refund_guest_cases in Hr as [[E _]|(x & uid & c & amount & m1 & r & Hp & Ha & _)]; [done|].
  by exists x, uid, c, amount.
Qed.

(** C20: people with a stake approve nothing. When an approval changed the ledger,
    the session's user is an administrator who gave a reason, and is neither the
    one who cancelled nor a guest, the payer, the owner or the host of the booking,
    nor the one who asked for the refund, nor on the provider's side; the signed
    workflow was waiting for review; the amount is within what was paid, the
    booking's total and the escrow; and of the machine's flags none is of those
    that exclude a refund, and those on the policy's evidence were acknowledged. *)
Theorem approved_refund_independent b refund_amount reason acknowledged m m' a
  (Hr : refund_guest_approved e b refund_amount reason acknowledged m = (m', a))
  (Hmoved : mk_wallet m' <> mk_wallet m) :
  exists x uid c amount, cents_of refund_amount = Ok amount
    /\ human_refund e m b x uid c amount (strip (str_or reason "")) acknowledged
    /\ (Some uid ∉ parties x) /\ _refund_workflow x !! "requested_by_user_id"%string <> Some (MInt uid)
    /\ ~ provider_side m x uid
    /\ bc_status c = "held"%string /\ dle amount (bc_total_amount c).
Proof.
  apply approved_cases in Hr as [[E _]|(x & x' & uid & c & amount & m1 & r & Hh & Ha & _ & Htf & _)]; [done|].
  exists x, uid, c, amount. destruct (independent_spec _ _ _ _ (hr_independent _ _ _ _ _ _ _ _ _ Hh)) as (? & ? & _ & ?).
  destruct Htf as [? _ _ _ Hle%dltb_false _]. done.
Qed.

Definition refunds (b : Z) (amount : dec) (reason : option string) (acknowledged : bool) (m : market)
    (by_policy : bool) : market * reply :=
  if by_policy then refund_guest e b amount m
  else refund_guest_approved e b amount reason acknowledged m.

(** A refund that reached the ledger is recorded. Where the ledger agrees with
    the commissions, a refund by policy or by approval that changed the ledger is
    answered with success; the ledger has booked the amount under the booking's
    refund key; the commission is refunded, wholly or in part; the booking has the
    amount and its time, its payment status, and if it was cancelled and refunded
    in full its status; and the workflow is closed with the amount. The code's
    reconciliation queue for executed refunds is never needed. *)
Theorem moved_refund_recorded b refund_amount reason acknowledged m m' a by_policy (Hm : escrow_ok m)
  (Hr : refunds b refund_amount reason acknowledged m by_policy = (m', a))
  (Hmoved : mk_wallet m' <> mk_wallet m) :
  exists x amount c y w, get_stay (mk_stay m) b = Some x /\ cents_of refund_amount = Ok amount
    /\ a = (true, None) /\ booked_amount (mk_wallet m') (refund_key b) = Some (to_micro amount)
    /\ commission_of m b = Some c
    /\ (exists c', c' ∈ mk_commissions m' /\ bc_booking_id c' = b /\ bc_refund_amount c' = Some amount
        /\ bc_status c' = (if fully amount (bc_total_amount c) then "refunded" else "partially_refunded")%string)
    /\ get_stay (mk_stay m') b = Some y /\ refund_stamped x amount y
    /\ sy_workflow y = Some w
    /\ w !! "state"%string = Some (settled_state (fully amount (amount_paid x)))
    /\ w !! "actual_amount"%string = Some (MDec amount).
Proof.
  assert (Hcase : exists x x' c amount d m1 r, get_stay (mk_stay m) b = Some x
    /\ signing (me_stay e) <> None /\ same_row x x' /\ commission_of m b = Some c
    /\ cents_of refund_amount = Ok amount
    /\ transferred e m x' c amount d m1 r /\ settled_as e m1 b x' c amount d r m' a).
  { unfold refunds in Hr. destruct by_policy.
    - apply refund_guest_cases in Hr as [[E _]|(x & uid & c & amount & m1 & r & Hp & Ha & Htf & Hset)]; [done|].
      exists x, x, c, amount, (refund_decision x uid), m1, r. destruct Hp. split_and!; try done.
      by eapply verify_signing.
    - apply approved_cases in Hr as [[E _]|(x & x' & uid & c & amount & m1 & r & Hp & Ha & Hrow & Htf & Hset)]; [done|].
      eexists x, x', c, amount, _, m1, r. destruct Hp. split_and!; try done. by eapply verify_signing. }
  destruct Hcase as (x & x' & c & amount & d & m1 & r & Hx & Hsig & Hrow & Hc & Ha & Htf & Hset).
  destruct (refund_complete e b m m' m1 x' x c amount d r a Hm Hsig Hx Hrow Hc Htf Hset) as (-> & Hrec & _).
  destruct Hrec as [Ew Eb Er (y & w & Hy & Hst & Hw & Hs1 & Hs2)]. destruct Hrow as [Ebk Et].
  destruct (get_stay_Some _ _ _ Hx) as [_ Hid]. destruct (commission_of_Some _ _ _ Hc) as [Hin Ec].
  assert (Ix : bk_id x' = b) by congruence. rewrite Ix in *. rewrite Ebk in *.
  exists x, amount, c, y, w. rewrite Ew. split_and!; try done.
  - eexists. split; [rewrite Er; apply elem_of_update; exists c; split; [done|by rewrite Z.eqb_refl]|]. done.
  - destruct Hst. split; by rewrite ?Ebk in *.
Qed.

Lemma reviewer_passed m uid s1 s2 : reviewer_refused e m uid s1 s2 = None ->
  actor e = Some uid /\ me_is_admin e uid = true.
Proof.
  unfold reviewer_refused. intros Hr. pass Hr E1. pass Hr E2. apply negb_false_iff in E1, E2.
  apply bool_decide_eq_true in E1. by apply andb_true_iff in E2 as [_ ?].
Qed.

Lemma execution_passed m x uid : execution_refused e m x uid = None ->
  verify_refund_workflow (me_stay e) x (_refund_workflow x) = true
  /\ exists approver, _refund_workflow x !! "approved_by_user_id"%string = Some approver
     /\ meta_truthy (Some approver) = true /\ approver <> MInt uid
     /\ _is_independent_refund_reviewer m x uid (_refund_workflow x) = true.
Proof.
  unfold execution_refused. intros Hr. pass Hr E1. pass Hr E2. pass Hr E3. pass Hr E4. pass Hr E5.
  apply negb_false_iff in E1, E5. apply orb_false_iff in E3 as [E3%negb_false_iff _].
  split; [done|]. destruct (_ !! _) as [approver|]; [|done]. exists approver. split_and!; try done.
  intros ->. simpl in E4. by rewrite Z.eqb_refl in E4.
Qed.

Lemma amount_executed m x cents ref : execution_amount m x cents ref = Ok None ->
  dleb cents dzero = false /\ dltb (amount_paid x) cents = false
  /\ (exists d, meta_amount (_refund_workflow x !! "approved_amount"%string) = Ok d /\ cents ≃ d)
  /\ reference_used m ref = false.
Proof.
  unfold execution_amount. destruct (_ || _) eqn:E1; [done|]. apply orb_false_iff in E1 as [? ?].
  intros Hd. bind Hd as d Hm. destruct (deqb cents d) eqn:E2; simpl in Hd; [|done].
  destruct (reference_used m ref); [done|]. split_and!; try done. exists d. by apply deqb_spec in E2.
Qed.

Lemma external_recorded m b x cents ref note uid m' a : dleb cents dzero = false ->
  get_stay (mk_stay m) b = Some x -> execute_external e m x cents ref note uid = Ok (m', a) ->
  exists y, get_stay (mk_stay m') b = Some y /\ refund_stamped x cents y
    /\ reference_used m' ref = true /\ same_money m m'.
Proof.
  intros Hpos Hx He. pose proof (execute_external_same_money _ _ _ _ _ _ _ _ _ He) as Hs.
  destruct (get_stay_Some _ _ _ Hx) as [_ Hid]. unfold execute_external in He.
  destruct (refund_booking_total e x cents uid "Original payment provider refund verified"
    "external_refund_verified" (store_db m) Hpos) as (d & y & E & Hst & _).
  rewrite E in He. simpl in He. unfold queue_workflow in He. bind He as y' Hy. injection He as <- <-.
  unfold store_workflow in Hy. apply of_option_Ok, stored_workflow in Hy as (w & -> & _).
  exists (stored (with_workflow y w)). split_and!; try done.
  - rewrite <- Hid, <- (rs_id _ _ _ Hst). apply (get_stay_written _ (with_workflow y w)).
    exists x. simpl. by rewrite (rs_id _ _ _ Hst), Hid.
  - by destruct Hst.
  - unfold reference_used. simpl. apply existsb_exists. eexists. split; [apply in_or_app; right; by left|].
    simpl. unfold recorded_reference. simpl. by rewrite String.eqb_refl.
Qed.

(** C30: a refund by the original provider takes two administrators and a new
    reference. When it is recorded, the session's user is an administrator without
    a stake; the signed workflow carries the approval of someone else, for exactly
    this amount, which is positive and within what was paid; no earlier record has
    the reference, and now this one has it; no money moves here; and the booking is
    stamped as refunded. *)
Theorem external_refund_two_people b amount reference note uid m m'
  (Hr : record_external_refund_execution e b amount reference note uid m = (m', (true, None))) :
  exists x y cents approver, let ref := strip (str_or reference "") in
    get_stay (mk_stay m) b = Some x /\ get_stay (mk_stay m') b = Some y
    /\ cents_of amount = Ok cents /\ dlt dzero cents /\ dle cents (amount_paid x)
    /\ actor e = Some uid /\ me_is_admin e uid = true
    /\ verify_refund_workflow (me_stay e) x (_refund_workflow x) = true
    /\ _refund_workflow x !! "approved_by_user_id"%string = Some approver
    /\ meta_truthy (Some approver) = true /\ approver <> MInt uid
    /\ (exists d, meta_amount (_refund_workflow x !! "approved_amount"%string) = Ok d /\ cents ≃ d)
    /\ (Some uid ∉ parties x) /\ ~ provider_side m x uid
    /\ reference_used m ref = false /\ reference_used m' ref = true
    /\ mk_wallet m' = mk_wallet m /\ mk_commissions m' = mk_commissions m
    /\ refund_stamped x cents y.
Proof.
  apply external_done_cases in Hr as [[_ Hf]|Hr]; [done|].
  destruct Hr as (x & cents & Hx & Hrev & Hne & Hlen & Href & Hc & Ham & He).
  destruct (reviewer_passed _ _ _ _ Hrev) as [Hact Hadm].
  destruct (execution_passed _ _ _ Href) as (Hv & approver & Hap & Htr & Hnot & Hind).
  destruct (amount_executed _ _ _ _ Ham) as (Hpos & Hle & Happ & Hnew).
  destruct (independent_spec _ _ _ _ Hind) as (Hp & _ & _ & Hside).
  destruct (external_recorded _ _ _ _ _ _ _ _ _ Hpos Hx He) as (y & Hy & Hst & Hused & Hs).
  exists x, y, cents, approver. destruct Hs. split_and!; try done.
  - by apply dleb_false.
  - by apply dltb_false.
Qed.
End theorems.
