(* ===== verification/EscrowSample.v ===== *)
(** Concrete runs of the escrow: the theorems of EscrowHistory.v and
    EscrowTheorems.v at a paid booking, and the runs that show where the code
    departs from what it says. *)

From stdpp Require Import pretty.
From S2P Require Import Prelude Tables Decimal DecimalLaws BookingModel BookingStates PaymentStates.
From S2P Require Import Cancellation Pricing StayModel Signing StayLaws StayTheorems StaySample.
From S2P Require Import Ledger RegulatoryVolume KycLimits WalletService LedgerLaws Bank WalletLaws WalletHistory.
From S2P Require Import WalletSample Escrow EscrowKeys EscrowLaws EscrowHistory EscrowTheorems.

Local Open Scope Z_scope.

Import MarketplaceSignatures WalletService IdentityService MarketplaceService.

#[local] Instance tiers : KycTiers := fun _ => 2.
#[local] Instance fraud : FraudScorer := fun _ _ _ _ _ _ => "allow"%string.
#[local] Instance pins : PinHash := String.eqb.
#[local] Instance rates : FxRates := fun _ _ _ => Ok (dint 3800).

(** ** A booking of 200 USD, paid from the wallet of guest 5, hosted by 9 *)

Definition accounts : Ledger.store := {|
  st_accounts := [open_account "P" 1 "USD"; open_account "G" 5 "USD"; open_account "H" 9 "USD"];
  Ledger.st_transactions := []; st_entries := []; st_commissions := [];
  st_users := [user 1; user 3; user 4; user 5; user 9]; st_next_tx := 1;
|}.

Definition payment : transfer_request := {|
  tq_from_account_id := "G"; tq_to_account_id := "P"; tq_amount := dint 200; tq_currency := "USD";
  tq_client_request_id := Some "pay-42"%string;
  tq_metadata := Some (<["booking_id"%string := JStr "42"]> ∅);
  tq_platform_fee := None; tq_fee_currency := None; tq_pin := Some "1234"%string;
  tq_system_initiated := false |}.

(** Transaction 2 is the payment. *)
Definition wallet : Ledger.store :=
  history [EDeposit (session 5) (deposit_of "G" "top" "USD" 300); ETransfer (session 5) payment] accounts.

Definition snapshot : BookingModel.snapshot := {|
  snap_rules := Some {| sr_version := 2; sr_policy := None; sr_text := "";
                        sr_hmac_sha256 := Some "mac"%string |};
  snap_policy_name := None |}.

Definition workflow (state : string) (more : list (string * meta_value)) : refund_workflow :=
  list_to_map ([("state", MText state); ("hmac_sha256", MText "mac")]%string ++ more).

Definition stay_of (status : string) (cancelled_by : option Z) (meth : string)
    (snap : option BookingModel.snapshot) (w : option refund_workflow) : stay := {|
  sy_booking := {|
    bk_info := {|
      bk_id := 42; bk_reference := Some "BK-42"%string; bk_property_id := 7; bk_property := None;
      bk_check_in := 739010; bk_check_out := 739012; bk_nightly_rate := dint 100;
      bk_cleaning_fee := None; bk_service_fee := None; bk_taxes := None;
      bk_currency := Some "USD"%string; bk_amount_paid := Some (cents 20000);
      bk_amount_due := Some (cents 0); bk_deposit_amount := None; bk_guest_user_id := Some 5;
      bk_primary_guest_id := None; bk_guest_email := None; bk_host_approved_at := None;
      bk_expires_at := None; bk_registration_deadline := None;
      bk_payment_timing := Some "pay_now"%string; bk_booking_flow_type := None;
      bk_payment_guaranteed := None; bk_policy_snapshot := snap |};
    bk_num_nights := 2; bk_total_amount := cents 20000; bk_status := status;
    bk_payment_status := "paid"; bk_refund_amount := Some (cents 0); bk_refunded_at := None;
    bk_cancelled_at := None; bk_cancelled_by_user_id := cancelled_by;
    bk_cancellation_reason := None; bk_paid_at := Some (Aware 0);
    bk_wallet_txn_id := Some "2"%string; bk_payment_method := Some meth |};
  sy_terms := {|
    sy_room_type_id := None; sy_num_guests := 2; sy_rooms_requested := 1; sy_host_user_id := 9;
    sy_booked_by_user_id := 5; sy_booking_owner_id := None; sy_idempotency_key := None;
    sy_created_at := 0; sy_approval_deadline := None; sy_is_deleted := false |};
  sy_desk := {|
    sy_approved_by_user_id := None; sy_approval_reason := None; sy_host_rejected_at := None;
    sy_host_rejection_reason := None; sy_guarantee_type := None; sy_assigned_room_id := None;
    sy_is_checked_in := String.eqb status "checked_in"; sy_checked_in_by := Some 9;
    sy_is_checked_out := false; sy_checked_out_by := None |};
  sy_outcome := Some {|
    co_policy := None; co_phase := PRE_CHECKIN; co_refundable_base := cents 20000;
    co_refund := cents 20000; co_fine := cents 0; co_nights_remaining := 2;
    co_days_until_checkin := 10; co_cancelled_by := cancelled_by; co_from_status := "confirmed" |};
  sy_outcome_hmac := Some "mac"%string;
  sy_workflow := w;
|}.

Definition commission : BookingCommission := {|
  bc_id := 1; bc_booking_id := 42; bc_total_amount := cents 20000;
  bc_commission_amount := cents 2000; bc_host_payout := cents 18000;
  bc_platform_fee_pct := dint 10; bc_status := "held"; bc_host_payout_transaction_id := None;
  bc_released_at := None; bc_released_by := None; bc_refund_amount := Some dzero;
  bc_refunded_at := None; bc_refund_authorization := None |}.

Definition bookings (x : stay) : StayModel.store := StayModel.with_bookings (empty []) [x].

Definition market_of (x : stay) : market := {|
  mk_stay := bookings x; mk_wallet := wallet; mk_commissions := [commission]; mk_members := [] |}.

(** The platform is organisation 1; users 3 and 4 are administrators. *)
Definition as_user (u : Z) : market_env := {|
  me_stay := clock 0; me_wallet := session u; me_platform_org_id := Some 1;
  me_commission_pct := None; me_is_admin := fun u => (u =? 3) || (u =? 4);
  me_manages_any := fun _ => false; me_postgresql := true; me_lock_free := true;
  me_error_text := fun _ => "error"%string |}.

Definition cancelled_stay : stay :=
  stay_of "cancelled" (Some 5) "wallet" (Some snapshot) (Some (workflow "screening" [])).
Definition review_stay (snap : option BookingModel.snapshot) : stay :=
  stay_of "cancelled" (Some 5) "wallet" snap (Some (workflow "pending_human_review" [])).
Definition checked_in_stay : stay := stay_of "checked_in" None "wallet" (Some snapshot) None.

Definition refund_run : market * reply :=
  refund_guest (as_user 5) 42 (cents 20000) (market_of cancelled_stay).

Definition summary (m : market) : list string * option Z * option Z * list string :=
  (bk_status <$> (sy_booking <$> st_bookings (mk_stay m)),
   booked_amount (mk_wallet m) (payout_key 42), booked_amount (mk_wallet m) (refund_key 42),
   bc_status <$> mk_commissions m).

Example refund_runs :
  summary refund_run.1 = (["refunded"]%string, None, Some 200000000, ["refunded"]%string).
Proof. vm_compute. reflexivity. Qed.

(** ** The theorems at these markets *)

Lemma market_ok x : escrow_ok (market_of x).
Proof.
  split.
  - vm_compute. repeat constructor; set_solver.
  - apply NoDup_singleton.
  - intros c ->%list_elem_of_singleton. split; vm_compute; discriminate.
Qed.

Definition busy_day : list market_event :=
  [MRefund (as_user 5) 42 (cents 20000); MPayout (as_user 9) 42;
   MWallet (EDeposit (session 9) (deposit_of "H" "k9" "USD" 50))].

Lemma busy_unreserved : Forall unreserved busy_day.
Proof. repeat constructor; intros E; injection E as E; by vm_compute in E. Qed.

Definition evening : market := market_history busy_day (market_of cancelled_stay).
Definition settled_row : BookingCommission := default commission (head (mk_commissions evening)).

Lemma head_in {A} (a : A) l : Nat.ltb 0 (length l) = true -> default a (head l) ∈ l.
Proof. destruct l; [done|]. intros _. by left. Qed.

Lemma evening_row : settled_row ∈ mk_commissions evening.
Proof. apply head_in. vm_compute. reflexivity. Qed.

Lemma escrow_settles_once_witness : row_settled (mk_wallet evening) settled_row.
Proof.
  exact (proj1 (escrow_settles_once busy_day (market_of cancelled_stay) settled_row
    (market_ok _) busy_unreserved evening_row)).
Defined.

Lemma refund_moved : mk_wallet refund_run.1 <> mk_wallet (market_of cancelled_stay).
Proof. intros E. apply (f_equal (fun w => length (Ledger.st_transactions w))) in E. by vm_compute in E. Qed.

Lemma refund_run_eq :
  refund_guest (as_user 5) 42 (cents 20000) (market_of cancelled_stay) = (refund_run.1, refund_run.2).
Proof. unfold refund_run. by destruct (refund_guest _ _ _ _). Qed.

Lemma automatic_refund_evidence_witness : exists x uid c amount,
  cents_of (cents 20000) = Ok amount /\ policy_refund (as_user 5) (market_of cancelled_stay) 42 x uid c amount.
Proof.
  exact (automatic_refund_evidence (as_user 5) 42 (cents 20000) (market_of cancelled_stay)
    refund_run.1 refund_run.2 refund_run_eq refund_moved).
Defined.

Lemma moved_refund_recorded_witness : refund_run.2 = (true, None).
Proof.
  destruct (moved_refund_recorded (as_user 5) 42 (cents 20000) None false (market_of cancelled_stay)
    refund_run.1 refund_run.2 true (market_ok _) refund_run_eq refund_moved)
    as (x & amount & c & y & w & _ & _ & Ha & _). exact Ha.
Defined.

Definition approve (snap : option BookingModel.snapshot) (acknowledged : bool) : market * reply :=
  refund_guest_approved (as_user 3) 42 (cents 5000) (Some "goodwill"%string) acknowledged
    (market_of (review_stay snap)).

Definition approve_run : market * reply := approve (Some snapshot) false.

Lemma approve_run_eq : refund_guest_approved (as_user 3) 42 (cents 5000) (Some "goodwill"%string) false
  (market_of (review_stay (Some snapshot))) = (approve_run.1, approve_run.2).
Proof. unfold approve_run, approve. by destruct (refund_guest_approved _ _ _ _ _ _). Qed.

Lemma approve_moved : mk_wallet approve_run.1 <> mk_wallet (market_of (review_stay (Some snapshot))).
Proof. intros E. apply (f_equal (fun w => length (Ledger.st_transactions w))) in E. by vm_compute in E. Qed.

Lemma approved_refund_independent_witness : exists x uid,
  (Some uid ∉ parties x) /\ actor (as_user 3) = Some uid.
Proof.
  destruct (approved_refund_independent (as_user 3) 42 (cents 5000) (Some "goodwill"%string) false
    (market_of (review_stay (Some snapshot))) approve_run.1 approve_run.2 approve_run_eq approve_moved)
    as (x & uid & c & amount & _ & Hh & Hp & _).
  exists x, uid. split; [exact Hp|apply (hr_admin _ _ _ _ _ _ _ _ _ Hh)].
Defined.

(** A card payment, approved by 3, refunded by the card's provider, recorded by 4. *)
Definition card_stay : stay :=
  stay_of "cancelled" (Some 5) "card" (Some snapshot)
    (Some (workflow "approved_external_execution_pending"
       [("approved_amount", MDec (cents 20000)); ("approved_by_user_id", MInt 3);
        ("approval_reason", MText "goodwill")]%string)).

Definition provider_refund (uid : Z) (x : stay) : market * reply :=
  record_external_refund_execution (as_user uid) 42 (cents 20000) (Some "re_1"%string)
    (Some "seen in the provider's console"%string) uid (market_of x).

Definition card_run : market * reply := provider_refund 4 card_stay.

Lemma card_run_eq : record_external_refund_execution (as_user 4) 42 (cents 20000) (Some "re_1"%string)
  (Some "seen in the provider's console"%string) 4 (market_of card_stay) = (card_run.1, (true, None)).
Proof.
  assert (E : card_run.2 = (true, None)) by (vm_compute; reflexivity). rewrite <- E.
  unfold card_run, provider_refund. by destruct (record_external_refund_execution _ _ _ _ _ _ _).
Qed.

Lemma external_refund_two_people_witness :
  reference_used card_run.1 (strip (str_or (Some "re_1"%string) "")) = true.
Proof.
  destruct (external_refund_two_people (as_user 4) 42 (cents 20000) (Some "re_1"%string)
    (Some "seen in the provider's console"%string) 4 (market_of card_stay) card_run.1 card_run_eq)
    as (x & y & cents & approver & _ & _ & _ & _ & _ & _ & _ & _ & _ & _ & _ & _ & _ & _ & _ & Hu & _).
  exact Hu.
Defined.

(** The approver cannot record it. *)
Example same_person_refused :
  (provider_refund 3 card_stay).2
  = no "A different platform administrator must verify external execution".
Proof. vm_compute. reflexivity. Qed.

(** ** Where the code departs from what it says *)

(** A payout that stops between the ledger's commit and its own leaves the
    commission held: the guest then cancels, is refunded, and both have left. *)
Definition stopped_payout : market :=
  with_wallet (market_of cancelled_stay)
    (WalletHistory.do (ETransfer (session 9)
       (payout_request checked_in_stay commission 9 "P" "H")) wallet).

Example stopped_payout_and_refund :
  summary (refund_guest (as_user 5) 42 (cents 20000)
             (with_wallet stopped_payout
                (WalletHistory.do (EDeposit (session 1) (deposit_of "P" "float" "USD" 500))
                   (mk_wallet stopped_payout)))).1
  = (["refunded"]%string, Some 180000000, Some 200000000, ["refunded"]%string).
Proof. vm_compute. reflexivity. Qed.

(** Any user can take a reserved key: the guest's refund then fails, and goes to
    the administrators' queue, as does every later attempt. *)
Definition squatted : market :=
  with_wallet (market_of cancelled_stay)
    (WalletHistory.do (EDeposit (session 9) (deposit_of "H" "booking_42_refund" "USD" 1)) wallet).

Example reserved_key_squatted :
  (refund_guest (as_user 5) 42 (cents 20000) squatted).2
    = no "Refund execution failed; the payment remains unrefunded"
  /\ (refund_guest_approved (as_user 3) 42 (cents 20000) (Some "goodwill"%string) false
        (refund_guest (as_user 5) 42 (cents 20000) squatted).1).2
    = no "Could not execute approved refund: error".
Proof. vm_compute. by split. Qed.

(** An acknowledged approval writes its event before the transfer, which rolls it
    back: the history has the settlement and not the acknowledgement. *)
Example acknowledgement_not_in_history :
  (approve None true).2 = (true, None)
  /\ (h_trigger <$> db_history (store_db (approve None true).1)) = [Some "refund_ledger_settled"%string].
Proof. vm_compute. by split. Qed.

(** The share of the host is computed as total less commission, while the fee is
    debited from the guest on top of the total: the platform keeps both. *)
Example commission_taken_twice :
  forall total pct commission host, split (as_user 5) total = Ok (pct, commission, host) ->
    total = cents 20000 ->
    host = cents 18000 /\ fee_due (charge_request cancelled_stay total "USD" "k" pct commission host "G" "P")
                          = Some (cents 2000).
Proof. intros total pct commission host Hs ->. vm_compute in Hs. injection Hs as <- <- <-. by split. Qed.
