(* ===== verification/InvoiceModel.v ===== *)
(** The tables of app/wallet/models/marketplace_invoice.py: invoices, payment
    attempts and allocations. Amounts are numbers of millionths, as the columns
    are Numeric(18, 6); the UUID of an invoice is its canonical text. *)

From S2P Require Import Prelude Tables Decimal.

Local Open Scope Z_scope.

(** ck_marketplace_invoice_status_valid *)
Inductive InvoiceStatus : Type :=
  | IV_pending | IV_due | IV_paid | IV_cash_received | IV_failed | IV_cancelled
  | IV_refunded | IV_partially_paid | IV_partially_refunded | IV_refund_pending.

#[export] Instance invoice_status_eq : EqDecision InvoiceStatus.
Proof. solve_decision. Defined.

(** ck_marketplace_attempt_status_valid *)
Inductive AttemptStatus : Type :=
  | AT_created | AT_pending | AT_requires_action | AT_succeeded | AT_failed
  | AT_cancelled | AT_expired.

#[export] Instance attempt_status_eq : EqDecision AttemptStatus.
Proof. solve_decision. Defined.

(** The columns no operation changes once the invoice exists. *)
Record invoice_terms : Type := {
  it_id : string;
  it_idempotency_key : string;
  it_service_code : string;
  it_service_reference : string;
  it_payer_user_id : Z;
  it_amount : Z;
  it_currency : string;
  it_payment_method : string;
  it_settlement_timing : string;
  it_service_country_code : option string;
  it_payer_country_code : option string;
}.

(** receipt_metadata of a cash receipt. *)
Record cash_receipt : Type := {
  cr_driver_user_id : Z;
  cr_driver_profile_id : Z;
  cr_driver_code : option string;
  cr_confirmed_at : Z;
}.

(** MarketplaceInvoice *)
Record invoice : Type := {
  iv_terms : invoice_terms;
  iv_status : InvoiceStatus;
  iv_transaction_id : option Z;
  iv_cash_received_by : option Z;
  iv_receipt : option cash_receipt;
  iv_due_at : option Z;
  iv_paid_at : option Z;
  iv_cash_received_at : option Z;
  iv_cancelled_at : option Z;
}.

Definition iv_id (i : invoice) : string := it_id (iv_terms i).
Definition iv_amount (i : invoice) : Z := it_amount (iv_terms i).

(** Status, with the instants of due and paid and the transaction that settled it. *)
Definition set_invoice (s : InvoiceStatus) (tx due paid : option Z) (i : invoice) : invoice := {|
  iv_terms := iv_terms i; iv_status := s; iv_transaction_id := tx;
  iv_cash_received_by := iv_cash_received_by i; iv_receipt := iv_receipt i;
  iv_due_at := due; iv_paid_at := paid; iv_cash_received_at := iv_cash_received_at i;
  iv_cancelled_at := iv_cancelled_at i;
|}.

Definition set_cash_received (r : cash_receipt) (i : invoice) : invoice := {|
  iv_terms := iv_terms i; iv_status := IV_cash_received; iv_transaction_id := iv_transaction_id i;
  iv_cash_received_by := Some (cr_driver_user_id r); iv_receipt := Some r;
  iv_due_at := iv_due_at i; iv_paid_at := iv_paid_at i;
  iv_cash_received_at := Some (cr_confirmed_at r); iv_cancelled_at := iv_cancelled_at i;
|}.

Definition set_cancelled (s : InvoiceStatus) (at_ : option Z) (i : invoice) : invoice := {|
  iv_terms := iv_terms i; iv_status := s; iv_transaction_id := iv_transaction_id i;
  iv_cash_received_by := iv_cash_received_by i; iv_receipt := iv_receipt i;
  iv_due_at := iv_due_at i; iv_paid_at := iv_paid_at i;
  iv_cash_received_at := iv_cash_received_at i;
  iv_cancelled_at := match at_ with Some _ => at_ | None => iv_cancelled_at i end;
|}.

(** MarketplacePaymentAttempt *)
Record payment_attempt : Type := {
  pa_id : string;
  pa_invoice_id : string;
  pa_attempt_number : Z;
  pa_amount : Z;
  pa_currency : string;
  pa_payment_method : string;
  pa_status : AttemptStatus;
  pa_completed_at : option Z;
}.

Definition finish_attempt (s : AttemptStatus) (at_ : Z) (a : payment_attempt) : payment_attempt := {|
  pa_id := pa_id a; pa_invoice_id := pa_invoice_id a; pa_attempt_number := pa_attempt_number a;
  pa_amount := pa_amount a; pa_currency := pa_currency a; pa_payment_method := pa_payment_method a;
  pa_status := s; pa_completed_at := Some at_;
|}.

(** MarketplaceAllocation *)
Record allocation : Type := {
  al_transaction_id : Z;
  al_invoice_id : string;
  al_amount : Z;
  al_currency : string;
}.

(** uq_marketplace_invoice_service_reference and
    uq_wallet_marketplace_invoice_idempotency *)
Definition by_key (key : string) (i : invoice) : bool :=
  String.eqb (it_idempotency_key (iv_terms i)) key.
Definition by_reference (code reference : string) (i : invoice) : bool :=
  String.eqb (it_service_code (iv_terms i)) code
  && String.eqb (it_service_reference (iv_terms i)) reference.

Definition find_invoice_row (l : list invoice) (id : string) : option invoice :=
  List.find (fun i => String.eqb (iv_id i) id) l.
Definition write_invoice (l : list invoice) (i : invoice) : list invoice :=
  update_where (fun r => String.eqb (iv_id r) (iv_id i)) (fun _ => i) l.
