(* ===== verification/Invoices.v ===== *)
(** Marketplace invoices: app/wallet/services/marketplace_invoice_service.py over
    the invoice tables and the wallet. A transfer or a commit inside an operation
    persists what it wrote, so the operations that meet one return the store they
    leave together with their result. The audit row of a cash receipt is written
    and never read, and is left out. *)

From S2P Require Import Prelude Tables Decimal Ledger RegulatoryVolume KycLimits WalletService InvoiceModel.

Local Open Scope Z_scope.

(** PaymentMethodConfig: the columns an invoice reads. *)
Record method_config : Type := {
  pm_method_id : string;
  pm_is_enabled : bool;
  pm_is_active : bool;
  pm_marketplace_collection_implemented : bool;
  pm_supported_currencies : list string;
  pm_allowed_timings : list string;
  pm_country_code : string;
  pm_min_amount : option dec;
  pm_max_amount : option dec;
}.

(** The invoice tables next to the wallet. *)
Record market : Type := {
  mk_wallet : Ledger.store;
  mk_methods : list method_config;
  mk_invoices : list invoice;
  mk_attempts : list payment_attempt;
  mk_allocations : list allocation;
}.

Definition with_wallet (w : Ledger.store) (m : market) : market := {|
  mk_wallet := w; mk_methods := mk_methods m; mk_invoices := mk_invoices m;
  mk_attempts := mk_attempts m; mk_allocations := mk_allocations m;
|}.
Definition with_invoices (l : list invoice) (m : market) : market := {|
  mk_wallet := mk_wallet m; mk_methods := mk_methods m; mk_invoices := l;
  mk_attempts := mk_attempts m; mk_allocations := mk_allocations m;
|}.
Definition with_attempts (l : list payment_attempt) (m : market) : market := {|
  mk_wallet := mk_wallet m; mk_methods := mk_methods m; mk_invoices := mk_invoices m;
  mk_attempts := l; mk_allocations := mk_allocations m;
|}.
Definition with_allocations (l : list allocation) (m : market) : market := {|
  mk_wallet := mk_wallet m; mk_methods := mk_methods m; mk_invoices := mk_invoices m;
  mk_attempts := mk_attempts m; mk_allocations := l;
|}.
Definition save_invoice (i : invoice) (m : market) : market :=
  with_invoices (write_invoice (mk_invoices m) i) m.

(** MarketplaceInvoiceError with its code, or an exception of the wallet or of the
    database that no clause catches. *)
Inductive invoice_error : Type :=
  | MarketplaceInvoiceError (code : string)
  | Uncaught (e : wallet_error).

(** The dictionary a settlement returns. *)
Record settlement : Type := {
  se_status : InvoiceStatus;
  se_transaction_id : option Z;
  se_already_processed : bool;
}.

Module MarketplaceInvoiceService.
Import TransactionRepository(get_by_id).

Definition _SUPPORTED_SETTLEMENT_TIMINGS : list string :=
  ["pay_on_completion"; "pay_now"; "deposit"; "pay_on_arrival"]%string.
Definition _SETTLED_STATES : list InvoiceStatus := [IV_paid; IV_cash_received].

Definition refuse {A} (code : string) : result invoice_error A := Err (MarketplaceInvoiceError code).
Definition uncaught {A} (r : outcome A) : result invoice_error A := map_err Uncaught r.

Definition _money (d : dec) : result invoice_error dec :=
  match quantize ROUND_HALF_UP (-2) d with
  | Ok a => require dltb dzero a else (MarketplaceInvoiceError "invalid_amount") ;; Ok a
  | Err _ => refuse "invalid_amount"
  end.

(** [s.isalpha()] on ASCII letters. *)
Definition is_letter (c : Ascii.ascii) : bool :=
  let n := Ascii.nat_of_ascii c in
  ((Nat.leb 65 n && Nat.leb n 90) || (Nat.leb 97 n && Nat.leb n 122))%bool.
Fixpoint letters (s : string) : bool :=
  match s with
  | EmptyString => true
  | String c s => is_letter c && letters s
  end.

Definition slen (s : string) : Z := Z.of_nat (String.length s).

Definition _currency (value : string) : result invoice_error string :=
  let r := upper (strip value) in
  require negb (String.eqb r "") && (slen r <=? 10) && letters r
    else (MarketplaceInvoiceError "invalid_currency") ;;
  Ok r.

(** [Decimal(str(amount)).quantize(Decimal("0.01"))] of a stored amount. *)
Definition two_decimals (n : Z) : result dec_error dec := quantize ROUND_HALF_EVEN (-2) (micro n).
Definition same_amount (n : Z) (d : dec) : bool :=
  match two_decimals n with Ok q => deqb q d | Err _ => false end.

(** * Eligibility of a method *)

Definition usable (method_id : string) (c : method_config) : bool :=
  String.eqb (pm_method_id c) method_id && pm_is_enabled c && pm_is_active c.

Definition supports_currency (c : method_config) (currency : string) : bool :=
  str_in (upper currency) (upper <$> pm_supported_currencies c).

Definition in_range (c : method_config) (amount : dec) : bool :=
  negb (dltb amount (dec_or0 (pm_min_amount c)))
  && match pm_max_amount c with Some x => negb (dltb x amount) | None => true end.

Definition _method_config (methods : list method_config) (method_id currency : string) (amount : dec)
    (settlement_timing : string) (service_country_code : option string)
    : result invoice_error method_config :=
  let* c := of_option (MarketplaceInvoiceError "method_unavailable")
    (List.find (usable (lower (strip method_id))) methods) in
  require pm_marketplace_collection_implemented c else (MarketplaceInvoiceError "method_not_integrated") ;;
  require supports_currency c currency else (MarketplaceInvoiceError "currency_not_supported") ;;
  require str_in settlement_timing ((fun t => lower (strip t)) <$> pm_allowed_timings c)
    else (MarketplaceInvoiceError "timing_not_supported") ;;
  require negb (truthy service_country_code && negb (String.eqb (pm_country_code c) "")
                && negb (String.eqb (upper (pm_country_code c))
                           (upper (strip (default "" service_country_code)))))
    else (MarketplaceInvoiceError "market_not_supported") ;;
  require in_range c amount else (MarketplaceInvoiceError "amount_out_of_range") ;;
  Ok c.

Definition _wallet_account_available (w : Ledger.store) (payer : Z) (currency : string) : bool :=
  existsb (fun a => bool_decide (ac_user_id a = Some payer)
                    && String.eqb (ai_owner_type (ac_info a)) "user"
                    && String.eqb (ac_currency a) currency
                    && String.eqb (lower (strip (ai_status (ac_info a)))) "active"
                    && negb (ac_is_frozen a)) (st_accounts w).

Definition _wallet_requires_transaction_pin (w : Ledger.store) (payer : Z) : bool :=
  match List.find (fun u => us_id u =? payer) (st_users w) with
  | Some u => truthy (us_pin_hash u)
  | None => true
  end.

Definition escrow_row (currency : string) (a : account) : bool :=
  let i := ac_info a in
  ai_platform_account i && String.eqb (ai_owner_type i) "platform"
  && String.eqb (ai_account_type i) "escrow" && String.eqb (ai_currency i) currency
  && String.eqb (ai_status i) "active" && negb (ac_is_frozen a)
  && bool_decide (ai_service_type i = Some "transport"%string).

Definition _get_transport_escrow_account (w : Ledger.store) (currency : string)
    : result invoice_error account :=
  of_option (MarketplaceInvoiceError "transport_escrow_unavailable")
    (List.find (escrow_row currency) (st_accounts w)).

(** * Creation *)

(** The keyword arguments. *)
Record invoice_request : Type := {
  nq_idempotency_key : string;
  nq_service_code : string;
  nq_service_reference : string;
  nq_payer_user_id : Z;
  nq_amount : dec;
  nq_currency : string;
  nq_payment_method : string;
  nq_settlement_timing : string;
  nq_service_country_code : option string;
  nq_payer_country_code : option string;
}.

Definition country (c : option string) : option string :=
  match c with
  | Some s => if String.eqb s "" then None else Some (upper (strip s))
  | None => None
  end.

(** The normalised terms, before the amount is stored. *)
Definition normal_terms (q : invoice_request) (id currency : string) (amount : Z) : invoice_terms := {|
  it_id := id;
  it_idempotency_key := strip (nq_idempotency_key q);
  it_service_code := lower (strip (nq_service_code q));
  it_service_reference := strip (nq_service_reference q);
  it_payer_user_id := nq_payer_user_id q;
  it_amount := amount;
  it_currency := currency;
  it_payment_method := lower (strip (nq_payment_method q));
  it_settlement_timing := lower (strip (nq_settlement_timing q));
  it_service_country_code := country (nq_service_country_code q);
  it_payer_country_code := country (nq_payer_country_code q);
|}.

Definition _immutable_terms_match (i : invoice) (t : invoice_terms) (amount : dec) : bool :=
  let e := iv_terms i in
  String.eqb (it_service_code e) (it_service_code t)
  && String.eqb (it_service_reference e) (it_service_reference t)
  && (it_payer_user_id e =? it_payer_user_id t)
  && same_amount (it_amount e) amount
  && String.eqb (upper (it_currency e)) (it_currency t)
  && String.eqb (lower (it_payment_method e)) (it_payment_method t)
  && String.eqb (lower (it_settlement_timing e)) (it_settlement_timing t)
  && bool_decide (it_service_country_code e = it_service_country_code t)
  && bool_decide (it_payer_country_code e = it_payer_country_code t).

Definition pending_invoice (t : invoice_terms) : invoice := {|
  iv_terms := t; iv_status := IV_pending; iv_transaction_id := None; iv_cash_received_by := None;
  iv_receipt := None; iv_due_at := None; iv_paid_at := None; iv_cash_received_at := None;
  iv_cancelled_at := None;
|}.

(** The columns refuse what does not fit them. *)
Definition store_terms (t : invoice_terms) (amount : dec) : outcome invoice_terms :=
  let* n := positive_amount amount in
  let* _ := varchar 50 (it_payment_method t) in
  let* _ := varchar 2 (default "" (it_service_country_code t)) in
  let* _ := varchar 2 (default "" (it_payer_country_code t)) in
  Ok {| it_id := it_id t; it_idempotency_key := it_idempotency_key t;
        it_service_code := it_service_code t; it_service_reference := it_service_reference t;
        it_payer_user_id := it_payer_user_id t; it_amount := n; it_currency := it_currency t;
        it_payment_method := it_payment_method t; it_settlement_timing := it_settlement_timing t;
        it_service_country_code := it_service_country_code t;
        it_payer_country_code := it_payer_country_code t |}.

(** The row with the key, else the row of the service reference. *)
Definition existing_invoice (l : list invoice) (t : invoice_terms) : option invoice :=
  match List.find (by_key (it_idempotency_key t)) l with
  | Some i => Some i
  | None => List.find (by_reference (it_service_code t) (it_service_reference t)) l
  end.

(** [new_id] is the UUID drawn for a new invoice. *)
Definition create_invoice (w : Ledger.store) (methods : list method_config) (l : list invoice)
    (new_id : string) (q : invoice_request) : result invoice_error (list invoice * invoice) :=
  let* currency := _currency (nq_currency q) in
  let* amount := _money (nq_amount q) in
  let t := normal_terms q new_id currency 0 in
  require negb (String.eqb (it_idempotency_key t) "") && (slen (it_idempotency_key t) <=? 255)
    else (MarketplaceInvoiceError "invalid_idempotency_key") ;;
  require negb (String.eqb (it_service_code t) "") && (slen (it_service_code t) <=? 50)
          && negb (String.eqb (it_service_reference t) "") && (slen (it_service_reference t) <=? 255)
    else (MarketplaceInvoiceError "invalid_service_reference") ;;
  require str_in (it_settlement_timing t) _SUPPORTED_SETTLEMENT_TIMINGS
    else (MarketplaceInvoiceError "timing_not_supported") ;;
  match existing_invoice l t with
  | Some i =>
      require _immutable_terms_match i t amount
        else (MarketplaceInvoiceError "invoice_idempotency_conflict") ;;
      Ok (l, i)
  | None =>
      let method := it_payment_method t in
      let* _ := _method_config methods method currency amount (it_settlement_timing t)
                  (it_service_country_code t) in
      require negb (String.eqb method "wallet")
              || _wallet_account_available w (nq_payer_user_id q) currency
        else (MarketplaceInvoiceError "wallet_account_missing") ;;
      require negb (String.eqb method "wallet"
                    && _wallet_requires_transaction_pin w (nq_payer_user_id q))
        else (MarketplaceInvoiceError "wallet_pin_authorization_unavailable") ;;
      let* t := uncaught (store_terms t amount) in
      let i := pending_invoice t in
      Ok (l ++ [i], i)
  end.

(** * Context and due *)

(** What a caller says about the service it settles. *)
Record context : Type := {
  cx_payer_user_id : Z;
  cx_service_code : string;
  cx_service_reference : string;
  cx_amount : dec;
  cx_currency : string;
}.

Definition get_invoice (m : market) (id : string) : result invoice_error invoice :=
  of_option (MarketplaceInvoiceError "invoice_not_found") (find_invoice_row (mk_invoices m) id).

Definition _validate_context (i : invoice) (x : context) : result invoice_error unit :=
  let* amount := _money (cx_amount x) in
  let* currency := _currency (cx_currency x) in
  let t := iv_terms i in
  require String.eqb (it_service_code t) (lower (strip (cx_service_code x)))
          && String.eqb (it_service_reference t) (strip (cx_service_reference x))
          && (it_payer_user_id t =? cx_payer_user_id x)
          && same_amount (it_amount t) amount
          && String.eqb (upper (it_currency t)) currency
    else (MarketplaceInvoiceError "invoice_context_mismatch") ;;
  Ok tt.

Definition mark_due_after_completion (m : market) (id : string) (x : context) (now : Z)
    : result invoice_error (market * invoice) :=
  let* i := get_invoice m id in
  let* _ := _validate_context i x in
  match iv_status i with
  | IV_pending =>
      let i' := set_invoice IV_due (iv_transaction_id i) (Some now) (iv_paid_at i) i in
      Ok (save_invoice i' m, i')
  | IV_due | IV_paid | IV_cash_received => Ok (m, i)
  | _ => refuse "invoice_not_payable"
  end.

(** * Cash *)

(** [Ok true] when the receipt was already recorded by this driver. *)
Definition confirm_cash_receipt (m : market) (id : string) (x : context)
    (driver_user_id driver_profile_id : Z) (driver_code : option string) (now : Z)
    : result invoice_error (market * bool) :=
  let* i := get_invoice m id in
  let* _ := _validate_context i x in
  require String.eqb (it_payment_method (iv_terms i)) "cash"
    else (MarketplaceInvoiceError "method_mismatch") ;;
  match iv_status i with
  | IV_cash_received =>
      match iv_receipt i with
      | Some r =>
          require (if cr_driver_profile_id r =? 0 then -1 else cr_driver_profile_id r) =? driver_profile_id
            else (MarketplaceInvoiceError "cash_already_confirmed") ;;
          Ok (m, true)
      | None =>
          require -1 =? driver_profile_id else (MarketplaceInvoiceError "cash_already_confirmed") ;;
          Ok (m, true)
      end
  | IV_due =>
      let r := {| cr_driver_user_id := driver_user_id; cr_driver_profile_id := driver_profile_id;
                  cr_driver_code := match driver_code with
                                    | Some c => let p := String.substring 0 100 c in
                                                if String.eqb p "" then None else Some p
                                    | None => None
                                    end;
                  cr_confirmed_at := now |} in
      Ok (save_invoice (set_cash_received r i) m, false)
  | _ => refuse "invoice_not_due"
  end.

(** * Settlement and refund through the wallet *)

Section settlement.
Context `{KycService} `{FraudScorer} `{FxRates} `{PinHash} (env : wallet_env).

(** The answer for an invoice that needs no transfer, or the refusal of a method. *)
Definition settled_already (i : invoice) : option (result invoice_error settlement) :=
  if bool_decide (iv_status i ∈ _SETTLED_STATES)
  then Some (Ok {| se_status := iv_status i; se_transaction_id := iv_transaction_id i;
                   se_already_processed := true |})
  else if String.eqb (it_payment_method (iv_terms i)) "cash"
  then Some (Ok {| se_status := IV_due; se_transaction_id := None; se_already_processed := false |})
  else if String.eqb (it_payment_method (iv_terms i)) "wallet" then None
  else Some (refuse "method_not_integrated").

(** The payer's account in the currency of the invoice, usable for the payment. *)
Definition payer_account (w : Ledger.store) (t : invoice_terms) : result invoice_error account :=
  let* o := uncaught (AccountRepository.get_by_user_id w (it_payer_user_id t) (it_currency t)) in
  let* a := of_option (MarketplaceInvoiceError "wallet_account_missing") o in
  require String.eqb (upper (ac_currency a)) (it_currency t)
    else (MarketplaceInvoiceError "wallet_account_missing") ;;
  require String.eqb (lower (strip (ai_status (ac_info a)))) "active" && negb (ac_is_frozen a)
          && String.eqb (lower (strip (ai_owner_type (ac_info a)))) "user"
    else (MarketplaceInvoiceError "wallet_account_unavailable") ;;
  Ok a.

Definition wallet_key (id : string) : string := ("MARKETPLACE-INVOICE-" +:+ id)%string.

Definition settlement_metadata (t : invoice_terms) (escrow : account) (request_id : option string)
    : metadata :=
  <["escrow_service_type" := JStr "transport"]> (<["escrow_account_id" := JStr (ac_id escrow)]>
  (<["request_id" := match request_id with Some r => JStr r | None => JNull end]>
  (<["settlement_timing" := JStr (it_settlement_timing t)]>
  (<["service_reference" := JStr (it_service_reference t)]>
  (<["service_code" := JStr (it_service_code t)]>
  (<["marketplace_invoice_id" := JStr (it_id t)]> ∅)))))).

Definition system_transfer (from to : account) (amount : dec) (currency key : string) (md : metadata)
    : WalletService.transfer_request := {|
  WalletService.tq_from_account_id := ac_id from;
  WalletService.tq_to_account_id := ac_id to;
  WalletService.tq_amount := amount;
  WalletService.tq_currency := currency;
  WalletService.tq_client_request_id := Some key;
  WalletService.tq_metadata := Some md;
  WalletService.tq_platform_fee := None;
  WalletService.tq_fee_currency := None;
  WalletService.tq_pin := None;
  WalletService.tq_system_initiated := true;
|}.

(** The except clauses of the transfer. *)
Definition transfer_refused (e : wallet_error) : invoice_error :=
  MarketplaceInvoiceError match e with
    | TransactionPINError _ => "transaction_pin_required"
    | InsufficientBalanceError _ _ _ => "insufficient_funds"
    | WalletNotFoundError _ => "wallet_account_missing"
    | _ => "settlement_unavailable"
    end.

(** The wallet's transaction is the one this invoice asked for. *)
Definition transaction_verified (i : invoice) (escrow : account) (o : option transaction) : bool :=
  match o with
  | None => false
  | Some t =>
      bool_decide (tx_status t = TransactionStatus.COMPLETED)
      && bool_decide (tx_type t = TransactionType.TRANSFER)
      && match two_decimals (tx_amount t), two_decimals (iv_amount i) with
         | Ok a, Ok b => deqb a b | _, _ => false end
      && String.eqb (upper (tx_currency t)) (it_currency (iv_terms i))
      && bool_decide (tx_user_id t = Some (it_payer_user_id (iv_terms i)))
      && is_some (tx_recipient_user_id t)
      && bool_decide (tx_recipient_user_id t = ac_user_id escrow)
      && bool_decide (json_get (tx_metadata t) "marketplace_invoice_id" = JStr (iv_id i))
      && bool_decide (json_get (tx_metadata t) "escrow_account_id" = JStr (ac_id escrow))
  end.

(** After the transfer committed: the row is read again under its lock. *)
Definition record_payment (m : market) (id : string) (tx : Z) : market * result invoice_error settlement :=
  match get_invoice m id with
  | Err e => (m, Err e)
  | Ok i =>
      match iv_status i with
      | IV_paid =>
          if decide (iv_transaction_id i = Some tx)
          then (m, Ok {| se_status := IV_paid; se_transaction_id := Some tx; se_already_processed := true |})
          else (m, refuse "invoice_already_paid")
      | IV_due =>
          (save_invoice (set_invoice IV_paid (Some tx) (iv_due_at i) (Some (we_now env)) i) m,
           Ok {| se_status := IV_paid; se_transaction_id := Some tx; se_already_processed := false |})
      | _ => (m, refuse "invoice_state_changed")
      end
  end.

(** Steps of a wallet settlement, from the invoice marked due. *)
Definition settle_by_wallet (m : market) (i : invoice) (request_id : option string)
    : market * result invoice_error settlement :=
  let t := iv_terms i in
  match payer_account (mk_wallet m) t, _get_transport_escrow_account (mk_wallet m) (it_currency t) with
  | Err e, _ => (m, Err e)
  | _, Err e => (m, Err e)
  | Ok a, Ok escrow =>
      match WalletService.transfer env
              (system_transfer a escrow (micro (it_amount t)) (it_currency t) (wallet_key (it_id t))
                 (settlement_metadata t escrow request_id)) (mk_wallet m) with
      | Err e => (m, Err (transfer_refused e))
      | Ok (w, r) =>
          let m := with_wallet w m in
          let tx := WalletService.rs_transaction_id r in
          if transaction_verified i escrow (get_by_id w tx)
          then record_payment m (it_id t) tx
          else (m, refuse "settlement_unverified")
      end
  end.

(** The due mark commits before the transfer. *)
Definition settle_after_completion (m : market) (id : string) (x : context) (request_id : option string)
    : market * result invoice_error settlement :=
  match mark_due_after_completion m id x (we_now env) with
  | Err e => (m, Err e)
  | Ok (m1, i) =>
      match settled_already i with
      | Some r => (m1, r)
      | None => settle_by_wallet m1 i request_id
      end
  end.

(** ** Refunds *)

Definition allocations_of (m : market) (id : string) : list allocation :=
  List.filter (fun a => String.eqb (al_invoice_id a) id) (mk_allocations m).
Definition sum_allocated (l : list allocation) : dec :=
  fold_left (fun acc a => dadd acc (micro (al_amount a))) l dzero.

(** MarketplaceInvoice.outstanding_amount *)
Definition outstanding_amount (m : market) (i : invoice) : dec :=
  if decide (iv_status i ∈ _SETTLED_STATES) then dzero
  else dmax (dsub (micro (iv_amount i)) (sum_allocated (allocations_of m (iv_id i)))) dzero.

Definition refund_key (id suffix : string) : string :=
  ("MARKETPLACE-REFUND-" +:+ id +:+ "-" +:+ suffix)%string.

Definition refund_metadata (t : invoice_terms) (reason : string) (original : option string) : metadata :=
  <["original_transaction_id" := match original with Some o => JStr o | None => JNull end]>
  (<["refund_reason" := JStr reason]> (<["marketplace_invoice_id" := JStr (it_id t)]> ∅)).

Definition refund_refused (e : wallet_error) : invoice_error :=
  MarketplaceInvoiceError match e with
    | InsufficientBalanceError _ _ _ => "escrow_insufficient_funds"
    | WalletNotFoundError _ => "escrow_missing"
    | _ => "refund_unavailable"
    end.

Definition refundable : list InvoiceStatus := [IV_paid; IV_partially_paid; IV_cash_received].

(** What was allocated, less what was given back. *)
Definition net_allocated (l : list allocation) : dec :=
  let paid := fold_left (fun acc a => dadd acc (micro (al_amount a)))
                (List.filter (fun a => 0 <? al_amount a) l) dzero in
  let back := fold_left (fun acc a => dadd acc (micro (Z.abs (al_amount a))))
                (List.filter (fun a => al_amount a <? 0) l) dzero in
  dsub paid back.

(** The status from what the allocations leave paid. *)
Definition status_after_refund (m : market) (i : invoice) : market :=
  let remaining := net_allocated (allocations_of m (iv_id i)) in
  save_invoice
    (if dleb remaining dzero then set_cancelled IV_refunded (Some (we_now env)) i
     else if dltb remaining (micro (iv_amount i)) then set_cancelled IV_partially_refunded None i
     else set_cancelled IV_paid None i) m.

(** The transfer back to the payer, which commits. *)
Definition refund_by_wallet (m : market) (i : invoice) (amount : dec) (reason : string)
    (original : option string) (suffix : string) : market * result invoice_error Z :=
  let t := iv_terms i in
  match uncaught (AccountRepository.get_by_user_id (mk_wallet m) (it_payer_user_id t) (it_currency t)) with
  | Err e => (m, Err e)
  | Ok None => (m, refuse "payer_wallet_missing")
  | Ok (Some payer) =>
      match _get_transport_escrow_account (mk_wallet m) (it_currency t) with
      | Err e => (m, Err e)
      | Ok escrow =>
          match WalletService.transfer env
                  (system_transfer escrow payer amount (it_currency t) (refund_key (it_id t) suffix)
                     (refund_metadata t reason original)) (mk_wallet m) with
          | Err e => (m, Err (refund_refused e))
          | Ok (w, r) => (with_wallet w m, Ok (WalletService.rs_transaction_id r))
          end
      end
  end.

(** INSERT of an allocation: ck_marketplace_allocation_amount_positive and
    uq_marketplace_allocation_transaction_invoice. *)
Definition insert_allocation (m : market) (a : allocation) : outcome market :=
  require 0 <? al_amount a else IntegrityError ;;
  require negb (existsb (fun b => (al_transaction_id b =? al_transaction_id a)
                                  && String.eqb (al_invoice_id b) (al_invoice_id a)) (mk_allocations m))
    else IntegrityError ;;
  Ok (with_allocations (mk_allocations m ++ [a]) m).

(** What may be refunded. *)
Definition eligible (m : market) (i : invoice) : dec :=
  if decide (iv_status i = IV_cash_received) then micro (iv_amount i)
  else dadd (outstanding_amount m i) (sum_allocated (allocations_of m (iv_id i))).

Definition process_refund (m : market) (id : string) (amount : dec) (currency reason : string)
    (original : option string) (suffix : string) : market * result invoice_error unit :=
  match (let* i := get_invoice m id in
         let* a := _money amount in
         let* c := _currency currency in
         require bool_decide (iv_status i ∈ refundable) else (MarketplaceInvoiceError "invoice_not_refundable") ;;
         require String.eqb c (it_currency (iv_terms i)) else (MarketplaceInvoiceError "currency_mismatch") ;;
         require negb (dltb (eligible m i) a) else (MarketplaceInvoiceError "refund_exceeds_eligible") ;;
         Ok (i, a)) with
  | Err e => (m, Err e)
  | Ok (i, a) =>
      if String.eqb (it_payment_method (iv_terms i)) "wallet"
         && negb (bool_decide (iv_status i = IV_cash_received))
      then
        match refund_by_wallet m i a reason original suffix with
        | (m1, Err e) => (m1, Err e)
        | (m1, Ok tx) =>
            match insert_allocation m1 {| al_transaction_id := tx; al_invoice_id := id;
                                          al_amount := - to_micro a;
                                          al_currency := it_currency (iv_terms i) |} with
            | Err e => (m1, Err (Uncaught e))
            | Ok m2 => (status_after_refund m2 i, Ok tt)
            end
        end
      else (status_after_refund m i, Ok tt)
  end.

(** * Payment attempts *)

Definition attempts_of (m : market) (id : string) : list payment_attempt :=
  List.filter (fun a => String.eqb (pa_invoice_id a) id) (mk_attempts m).

Definition next_attempt_number (m : market) (id : string) : Z :=
  1 + foldr Z.max 0 (pa_attempt_number <$> attempts_of m id).

(** The status an invoice takes when an attempt on it starts. *)
Definition attempt_started (m : market) (i : invoice) (now : Z) : invoice :=
  match iv_status i with
  | IV_due =>
      if dltb (outstanding_amount m i) (micro (iv_amount i))
      then set_invoice IV_partially_paid (iv_transaction_id i) (iv_due_at i) (iv_paid_at i) i else i
  | IV_pending =>
      if str_in (it_settlement_timing (iv_terms i)) ["pay_now"; "deposit"; "pay_on_arrival"]%string
      then set_invoice IV_due (iv_transaction_id i) (Some now) (iv_paid_at i) i else i
  | _ => i
  end.

Definition create_payment_attempt (m : market) (new_id id : string) (amount : dec)
    (currency payment_method : string) : result invoice_error (market * payment_attempt) :=
  let* i := get_invoice m id in
  let* a := _money amount in
  let* c := _currency currency in
  require negb (bool_decide (iv_status i ∈ _SETTLED_STATES))
    else (MarketplaceInvoiceError "invoice_already_settled") ;;
  require String.eqb c (it_currency (iv_terms i)) else (MarketplaceInvoiceError "currency_mismatch") ;;
  require negb (dltb (outstanding_amount m i) a) else (MarketplaceInvoiceError "amount_exceeds_outstanding") ;;
  let* n := uncaught (positive_amount a) in
  let* method := uncaught (varchar 50 (lower (strip payment_method))) in
  let p := {| pa_id := new_id; pa_invoice_id := id; pa_attempt_number := next_attempt_number m id;
              pa_amount := n; pa_currency := c; pa_payment_method := method;
              pa_status := AT_created; pa_completed_at := None |} in
  let m1 := with_attempts (mk_attempts m ++ [p]) m in
  Ok (save_invoice (attempt_started m i (we_now env)) m1, p).

Definition open_attempt (p : payment_attempt) : bool :=
  bool_decide (pa_status p ∈ [AT_created; AT_pending; AT_requires_action]).

Definition save_attempt (p : payment_attempt) (m : market) : market :=
  with_attempts (update_where (fun r => String.eqb (pa_id r) (pa_id p)) (fun _ => p) (mk_attempts m)) m.

(** The status the allocations of an invoice give it, the amount just allocated
    counted once more: the new row is in the session when they are read. *)
Definition invoice_after_attempt (m : market) (i : invoice) (amount tx : Z) : invoice :=
  let paid := dadd (sum_allocated (allocations_of m (iv_id i))) (micro amount) in
  if dleb (micro (iv_amount i)) paid
  then set_invoice IV_paid (Some tx) (iv_due_at i) (Some (we_now env)) i
  else set_invoice IV_partially_paid (iv_transaction_id i) (iv_due_at i) (iv_paid_at i) i.

Definition attempt_transaction (m : market) (p : payment_attempt) (tx : Z) : result invoice_error unit :=
  let* t := of_option (MarketplaceInvoiceError "transaction_not_found") (get_by_id (mk_wallet m) tx) in
  require bool_decide (tx_status t = TransactionStatus.COMPLETED)
    else (MarketplaceInvoiceError "transaction_not_completed") ;;
  require match two_decimals (tx_amount t) with Ok a => deqb a (micro (pa_amount p)) | Err _ => false end
    else (MarketplaceInvoiceError "amount_mismatch") ;;
  require String.eqb (upper (tx_currency t)) (pa_currency p) else (MarketplaceInvoiceError "currency_mismatch") ;;
  Ok tt.

(** [status] is "succeeded" or another status of an attempt. *)
Definition complete_payment_attempt (m : market) (attempt_id : string) (tx : Z) (status : AttemptStatus)
    : result invoice_error market :=
  let* p := of_option (MarketplaceInvoiceError "attempt_not_found")
    (List.find (fun r => String.eqb (pa_id r) attempt_id) (mk_attempts m)) in
  require open_attempt p else (MarketplaceInvoiceError "attempt_already_completed") ;;
  let m1 := save_attempt (finish_attempt status (we_now env) p) m in
  if decide (status = AT_succeeded) then
    let* _ := attempt_transaction m p tx in
    let* m2 := uncaught (insert_allocation m1 {| al_transaction_id := tx; al_invoice_id := pa_invoice_id p;
                                                 al_amount := pa_amount p; al_currency := pa_currency p |}) in
    let* i := get_invoice m2 (pa_invoice_id p) in
    Ok (save_invoice (invoice_after_attempt m2 i (pa_amount p) tx) m2)
  else Ok m1.

(** * Reconciliation *)

(** [update_invoice_status_from_allocations], which no caller commits. *)
Definition update_invoice_status_from_allocations (m : market) (i : invoice) : invoice :=
  let net := net_allocated (allocations_of m (iv_id i)) in
  let status s paid_at := set_invoice s (iv_transaction_id i) (iv_due_at i) paid_at i in
  if dleb net dzero then
    if decide (iv_status i ∈ [IV_paid; IV_partially_paid; IV_partially_refunded])
    then status IV_refunded (iv_paid_at i) else i
  else if dleb (micro (iv_amount i)) net then
    if decide (iv_status i = IV_paid) then i
    else status IV_paid (Some (default (we_now env) (iv_paid_at i)))
  else if decide (iv_status i ∈ [IV_paid; IV_refunded]) then
    status (if dltb dzero net then IV_partially_paid else IV_due) (iv_paid_at i)
  else if bool_decide (iv_status i = IV_due) && dltb dzero net
  then status IV_partially_paid (iv_paid_at i) else i.

End settlement.

End MarketplaceInvoiceService.
