(* ===== verification/TripModel.v ===== *)
(** Trips and ride requests of app/transport/models.py: the rows the dispatch
    services read and write, the status vocabularies of app/utils/enums.py, and
    the single-row writes with the CHECK constraint on a booking.

    Instants are microseconds since the epoch in UTC. A booking keeps the columns
    no operation here changes in [trip_info], its timestamps in [trip_times], what a
    cancellation writes in [cancellation], and the keys of its JSON metadata in
    [trip_meta]. Addresses, prices other than the final price, and contact columns
    are left out. *)

From S2P Require Import Prelude Tables Decimal InvoiceModel.

Local Open Scope Z_scope.

(** * Vocabularies *)

Inductive BookingStatus : Type :=
  | DRAFT | PENDING_PAYMENT | CONFIRMED | ASSIGNED | DRIVER_EN_ROUTE | PICKUP_ARRIVED
  | IN_PROGRESS | COMPLETED | CANCELLED | NO_SHOW | DISPUTED | NO_MATCH.

#[export] Instance booking_status_eq : EqDecision BookingStatus.
Proof. solve_decision. Defined.

#[export, refine] Instance booking_status_enum : PyEnum BookingStatus := {
  enum_members := [DRAFT; PENDING_PAYMENT; CONFIRMED; ASSIGNED; DRIVER_EN_ROUTE; PICKUP_ARRIVED;
                   IN_PROGRESS; COMPLETED; CANCELLED; NO_SHOW; DISPUTED; NO_MATCH];
  enum_value s := match s with
    | DRAFT => "draft" | PENDING_PAYMENT => "pending_payment" | CONFIRMED => "confirmed"
    | ASSIGNED => "assigned" | DRIVER_EN_ROUTE => "driver_en_route"
    | PICKUP_ARRIVED => "pickup_arrived" | IN_PROGRESS => "in_progress"
    | COMPLETED => "completed" | CANCELLED => "cancelled" | NO_SHOW => "no_show"
    | DISPUTED => "disputed" | NO_MATCH => "no_match"
    end%string;
}.
Proof.
  - intros []; set_solver.
  - intros [] []; by intros [=].
Defined.

(** assignment_service.py *)
Definition ACTIVE_ASSIGNMENT_STATUSES : list BookingStatus :=
  [ASSIGNED; DRIVER_EN_ROUTE; PICKUP_ARRIVED; IN_PROGRESS; DISPUTED].
Definition TERMINAL_RELEASE_STATUSES : list BookingStatus := [COMPLETED; CANCELLED; NO_SHOW].
Definition VEHICLE_ACTIVE_STATUS : string := "active".

(** matching_service.py *)
Definition NO_MATCH_NO_SUPPLY : string := "no_supply".
Definition NO_MATCH_ALL_REJECTED : string := "all_rejected".
Definition NO_MATCH_REASONS : list string := [NO_MATCH_NO_SUPPLY; NO_MATCH_ALL_REJECTED].

(** The vocabularies of a ride request, a search cycle and an offer. *)
Inductive RequestStatus : Type := RQ_searching | RQ_converting | RQ_converted | RQ_cancelled.
Inductive CycleStatus : Type :=
  | CY_searching | CY_converting | CY_completed | CY_expired | CY_cancelled.
Inductive OfferStatus : Type :=
  | OF_queued | OF_offered | OF_accepting | OF_declined | OF_timed_out
  | OF_skipped | OF_claim_failed | OF_won | OF_withdrawn.

#[export] Instance request_status_eq : EqDecision RequestStatus.
Proof. solve_decision. Defined.
#[export] Instance cycle_status_eq : EqDecision CycleStatus.
Proof. solve_decision. Defined.
#[export] Instance offer_status_eq : EqDecision OfferStatus.
Proof. solve_decision. Defined.

Definition ACTIVE_CYCLE_STATUSES : list CycleStatus := [CY_searching; CY_converting].
Definition ACTIONABLE_OFFER_STATUSES : list OfferStatus := [OF_offered; OF_accepting].

(** What the operations raise; the message of a dispatch error is its kind. *)
Inductive trip_error : Type :=
  | NotFoundError
  | PermissionError (msg : string)
  | ValidationError (msg : string)
  | DispatchClaimError (kind : string)
  | RideRequestDispatchError (code : string)
  | IdempotencyConflictError
  | ServiceUnavailableError
  | IntegrityError                       (* a constraint of the database *)
  | DecimalError (e : dec_error).

(** * Rows *)

(** DriverProfile, with the public id of its user. *)
Record driver : Type := {
  dr_id : Z;
  dr_user_id : Z;
  dr_driver_code : string;
  dr_user_public_id : option string;
  dr_compliance_status : string;
  dr_is_online : bool;
  dr_is_deleted : bool;
}.

(** Vehicle *)
Record cab : Type := {
  vh_id : Z;
  vh_status : string;
  vh_is_available : bool;
  vh_is_deleted : bool;
}.

Definition set_available (a : bool) (v : cab) : cab := {|
  vh_id := vh_id v; vh_status := vh_status v; vh_is_available := a; vh_is_deleted := vh_is_deleted v;
|}.

(** DriverVehicleHistory *)
Record pairing : Type := {
  pr_driver_id : Z;
  pr_vehicle_id : Z;
  pr_ended_at : option Z;
  pr_is_deleted : bool;
}.

(** LocationObservation of a driver (entity_type "driver"), by driver code. *)
Record observation : Type := {
  ob_public_id : string;
  ob_public_ref : string;
  ob_observed_at : Z;
  ob_is_deleted : bool;
}.

(** LocationLifecycleEvent of type ACTUAL_START or ACTUAL_END. *)
Record lifecycle_event : Type := {
  le_booking_id : Z;
  le_event_type : string;
  le_geo_observation : option string;
  le_actor_user_id : Z;
  le_transition_at : Z;
  le_freshness : string;
}.

Record trip_info : Type := {
  ti_id : Z;
  ti_reference : string;
  ti_user_id : Z;
  ti_provider_id : option Z;
  ti_pickup_time : option Z;
  ti_pickup_mode : option string;
  ti_passenger_count : Z;
  ti_final_price : dec;
  ti_currency : string;
  ti_payment_method : option string;
  ti_ride_request_id : option Z;
  ti_search_cycle_id : option Z;
  ti_created_at : Z;
}.

Record trip_times : Type := {
  tm_confirmed_at : option Z;
  tm_driver_assigned_at : option Z;
  tm_driver_en_route_at : option Z;
  tm_driver_arrived_at : option Z;
  tm_pickup_actual_time : option Z;
  tm_dropoff_actual_time : option Z;
  tm_completed_at : option Z;
  tm_cancelled_at : option Z;
}.

(** The cancellation_* columns and cancelled_stage. *)
Record cancellation : Type := {
  cn_reason : option string;
  cn_reason_category : option string;
  cn_safety_flag : bool;
  cn_cancelled_stage : option BookingStatus;
  cn_fee : option dec;
  cn_initiated_by : option string;
}.

(** metadata["cancellation"] *)
Record cancellation_facts : Type := {
  cf_fee : dec;
  cf_currency : string;
  cf_tier : string;
  cf_refund_amount_estimate : dec;
  cf_initiated_by : string;
  cf_scheduled : bool;
  cf_percentage : Z;
  cf_at : Z;
}.

(** metadata["no_show"] *)
Record no_show_facts : Type := {
  ns_fee : dec;
  ns_currency : string;
  ns_marked_at : Z;
  ns_driver_code : string;
  ns_driver_user_public_id : option string;
  ns_driver_credit : dec;
}.

(** An element of metadata["driver_cancellation_credits"]. *)
Record driver_credit : Type := {
  dc_driver_code : string;
  dc_driver_user_public_id : option string;
  dc_amount : dec;
  dc_currency : string;
  dc_reason : string;
  dc_booking_reference : string;
  dc_at : Z;
}.

(** An element of metadata["driver_cancellations"]. *)
Record driver_cancellation : Type := {
  dx_driver_code : string;
  dx_driver_user_public_id : option string;
  dx_stage : BookingStatus;
  dx_reason : string;
  dx_at : Z;
  dx_booking_reference : string;
}.

(** metadata["completed_by_..."] *)
Record completed_by : Type := { cb_profile_id : Z; cb_driver_code : string; cb_user_id : Z }.

Record trip_meta : Type := {
  md_booking_mode : option string;
  md_matching_started_at : option Z;
  md_cancellation : option cancellation_facts;
  md_no_show : option no_show_facts;
  md_driver_credits : list driver_credit;
  md_no_match_cause : option string;
  md_driver_cancellations : list driver_cancellation;
  md_completed_by : option completed_by;
}.

(** An entry of the column audit_log. *)
Record log_entry : Type := {
  lg_action : string;
  lg_from : BookingStatus;
  lg_to : BookingStatus;
  lg_at : Z;
  lg_reason : option string;
}.

(** Booking *)
Record trip : Type := {
  tb_info : trip_info;
  tb_status : BookingStatus;
  tb_no_match_reason : option string;
  tb_driver_id : option Z;           (* assigned_driver_id *)
  tb_vehicle_id : option Z;          (* assigned_vehicle_id *)
  tb_times : trip_times;
  tb_cancel : cancellation;
  tb_meta : trip_meta;
  tb_log : list log_entry;
  tb_is_deleted : bool;
}.

Definition tid (b : trip) : Z := ti_id (tb_info b).
Definition reference (b : trip) : string := ti_reference (tb_info b).

(** * Column writes of a booking *)

(** The dispatch columns: status, no_match_reason and the two assignments. *)
Definition set_dispatch (s : BookingStatus) (r : option string) (d v : option Z) (b : trip) : trip := {|
  tb_info := tb_info b; tb_status := s; tb_no_match_reason := r; tb_driver_id := d;
  tb_vehicle_id := v; tb_times := tb_times b; tb_cancel := tb_cancel b; tb_meta := tb_meta b;
  tb_log := tb_log b; tb_is_deleted := tb_is_deleted b;
|}.
Definition set_status (s : BookingStatus) (b : trip) : trip :=
  set_dispatch s (tb_no_match_reason b) (tb_driver_id b) (tb_vehicle_id b) b.

Definition set_times (t : trip_times) (b : trip) : trip := {|
  tb_info := tb_info b; tb_status := tb_status b; tb_no_match_reason := tb_no_match_reason b;
  tb_driver_id := tb_driver_id b; tb_vehicle_id := tb_vehicle_id b; tb_times := t;
  tb_cancel := tb_cancel b; tb_meta := tb_meta b; tb_log := tb_log b; tb_is_deleted := tb_is_deleted b;
|}.

Definition set_cancel (c : cancellation) (b : trip) : trip := {|
  tb_info := tb_info b; tb_status := tb_status b; tb_no_match_reason := tb_no_match_reason b;
  tb_driver_id := tb_driver_id b; tb_vehicle_id := tb_vehicle_id b; tb_times := tb_times b;
  tb_cancel := c; tb_meta := tb_meta b; tb_log := tb_log b; tb_is_deleted := tb_is_deleted b;
|}.

Definition set_meta (m : trip_meta) (b : trip) : trip := {|
  tb_info := tb_info b; tb_status := tb_status b; tb_no_match_reason := tb_no_match_reason b;
  tb_driver_id := tb_driver_id b; tb_vehicle_id := tb_vehicle_id b; tb_times := tb_times b;
  tb_cancel := tb_cancel b; tb_meta := m; tb_log := tb_log b; tb_is_deleted := tb_is_deleted b;
|}.

(** booking.audit_log = (booking.audit_log or []) + [entry] *)
Definition append_log (l : log_entry) (b : trip) : trip := {|
  tb_info := tb_info b; tb_status := tb_status b; tb_no_match_reason := tb_no_match_reason b;
  tb_driver_id := tb_driver_id b; tb_vehicle_id := tb_vehicle_id b; tb_times := tb_times b;
  tb_cancel := tb_cancel b; tb_meta := tb_meta b; tb_log := tb_log b ++ [l];
  tb_is_deleted := tb_is_deleted b;
|}.

Definition set_deleted (b : trip) : trip := {|
  tb_info := tb_info b; tb_status := tb_status b; tb_no_match_reason := tb_no_match_reason b;
  tb_driver_id := tb_driver_id b; tb_vehicle_id := tb_vehicle_id b; tb_times := tb_times b;
  tb_cancel := tb_cancel b; tb_meta := tb_meta b; tb_log := tb_log b; tb_is_deleted := true;
|}.

(** The timestamps an operation writes are given as [Some]; [None] leaves a column. *)
Definition or_keep {A} (new old : option A) : option A := match new with Some _ => new | None => old end.
Definition stamp (confirmed assigned completed cancelled : option Z) (t : trip_times) : trip_times := {|
  tm_confirmed_at := or_keep confirmed (tm_confirmed_at t);
  tm_driver_assigned_at := or_keep assigned (tm_driver_assigned_at t);
  tm_driver_en_route_at := tm_driver_en_route_at t;
  tm_driver_arrived_at := tm_driver_arrived_at t;
  tm_pickup_actual_time := tm_pickup_actual_time t;
  tm_dropoff_actual_time := tm_dropoff_actual_time t;
  tm_completed_at := or_keep completed (tm_completed_at t);
  tm_cancelled_at := or_keep cancelled (tm_cancelled_at t);
|}.

(** chk_no_match_reason *)
Definition chk_no_match_reason (b : trip) : bool :=
  if decide (tb_status b = NO_MATCH)
  then match tb_no_match_reason b with Some r => str_in r NO_MATCH_REASONS | None => false end
  else negb (is_some (tb_no_match_reason b)).

(** * Ride requests, search cycles, offers *)

(** A candidate of the ranked pool of a cycle: driver, vehicle, rank. *)
Record candidate : Type := {
  ca_driver_id : Z;
  ca_vehicle_id : Z;
  ca_rank : Z;
}.

(** RideRequest; [rr_*] after the status are keys of request_metadata. *)
Record ride_request : Type := {
  rr_id : Z;
  rr_public_id : string;
  rr_user_id : Z;
  rr_idempotency_key : string;
  rr_requested_pickup_time : option Z;
  rr_passenger_count : Z;
  rr_fare_estimate_amount : option dec;
  rr_currency_code : option string;
  rr_payment_method : option string;
  rr_created_at : Z;
  rr_is_deleted : bool;
  rr_trip_hash : option string;
  rr_booking_mode : option string;
  rr_wallet_invoice_id : option string;
  rr_status : RequestStatus;
  rr_cancelled_at : option Z;
  rr_converted_at : option Z;
  rr_retry_count : Z;
}.

(** status, cancelled_at, converted_at, and the count of retries. *)
Definition set_request (s : RequestStatus) (cancelled converted : option Z) (retries : Z)
    (r : ride_request) : ride_request := {|
  rr_id := rr_id r; rr_public_id := rr_public_id r; rr_user_id := rr_user_id r;
  rr_idempotency_key := rr_idempotency_key r;
  rr_requested_pickup_time := rr_requested_pickup_time r;
  rr_passenger_count := rr_passenger_count r;
  rr_fare_estimate_amount := rr_fare_estimate_amount r; rr_currency_code := rr_currency_code r;
  rr_payment_method := rr_payment_method r; rr_created_at := rr_created_at r;
  rr_is_deleted := rr_is_deleted r; rr_trip_hash := rr_trip_hash r;
  rr_booking_mode := rr_booking_mode r; rr_wallet_invoice_id := rr_wallet_invoice_id r;
  rr_status := s; rr_cancelled_at := cancelled; rr_converted_at := converted;
  rr_retry_count := retries;
|}.

(** SearchCycle; [cy_ranked_pool] is cycle_metadata["ranked_pool"]. *)
Record search_cycle : Type := {
  cy_id : Z;
  cy_ride_request_id : Z;
  cy_cycle_number : Z;
  cy_deadline : option Z;
  cy_is_deleted : bool;
  cy_status : CycleStatus;
  cy_completed_at : option Z;
  cy_terminal_reason : option string;
  cy_ranked_pool : option (list candidate);
}.

Definition close_cycle (s : CycleStatus) (at_ : Z) (reason : option string) (c : search_cycle) : search_cycle := {|
  cy_id := cy_id c; cy_ride_request_id := cy_ride_request_id c; cy_cycle_number := cy_cycle_number c;
  cy_deadline := cy_deadline c; cy_is_deleted := cy_is_deleted c; cy_status := s;
  cy_completed_at := Some at_; cy_terminal_reason := reason; cy_ranked_pool := cy_ranked_pool c;
|}.
Definition set_pool (p : list candidate) (c : search_cycle) : search_cycle := {|
  cy_id := cy_id c; cy_ride_request_id := cy_ride_request_id c; cy_cycle_number := cy_cycle_number c;
  cy_deadline := cy_deadline c; cy_is_deleted := cy_is_deleted c; cy_status := cy_status c;
  cy_completed_at := cy_completed_at c; cy_terminal_reason := cy_terminal_reason c;
  cy_ranked_pool := Some p;
|}.

(** OfferAttempt; [oa_reason] is outcome_detail["reason"]. *)
Record offer_attempt : Type := {
  oa_id : Z;
  oa_cycle_id : Z;
  oa_driver_id : Z;
  oa_vehicle_id : Z;
  oa_attempt_number : Z;
  oa_candidate_rank : Z;
  oa_offered_at : Z;
  oa_response_deadline : option Z;
  oa_status : OfferStatus;
  oa_responded_at : option Z;
  oa_reason : option string;
}.

Definition respond (s : OfferStatus) (at_ : Z) (reason : option string) (a : offer_attempt) : offer_attempt := {|
  oa_id := oa_id a; oa_cycle_id := oa_cycle_id a; oa_driver_id := oa_driver_id a;
  oa_vehicle_id := oa_vehicle_id a; oa_attempt_number := oa_attempt_number a;
  oa_candidate_rank := oa_candidate_rank a; oa_offered_at := oa_offered_at a;
  oa_response_deadline := oa_response_deadline a; oa_status := s; oa_responded_at := Some at_;
  oa_reason := or_keep reason (oa_reason a);
|}.

(** BookingPayment: the pending obligation a conversion records. *)
Record trip_payment : Type := {
  tp_booking_id : Z;
  tp_amount : dec;
  tp_payment_method : option string;
  tp_wallet_invoice_id : option string;
}.

(** * The store *)

(** What the dispatch services only read. *)
Record fleet : Type := {
  fl_drivers : list driver;
  fl_pairings : list pairing;
  fl_observations : list observation;
}.

Record store : Type := {
  st_fleet : fleet;
  st_cabs : list cab;
  st_trips : list trip;
  st_events : list lifecycle_event;
  st_requests : list ride_request;
  st_cycles : list search_cycle;
  st_offers : list offer_attempt;
  st_payments : list trip_payment;
  st_invoices : list invoice;
  st_next : Z;                             (* the next value of the sequences *)
}.

Definition with_trips (m : store) (bs : list trip) : store := {|
  st_fleet := st_fleet m; st_cabs := st_cabs m; st_trips := bs; st_events := st_events m;
  st_requests := st_requests m; st_cycles := st_cycles m; st_offers := st_offers m;
  st_payments := st_payments m; st_invoices := st_invoices m; st_next := st_next m;
|}.
Definition with_cabs (m : store) (vs : list cab) : store := {|
  st_fleet := st_fleet m; st_cabs := vs; st_trips := st_trips m; st_events := st_events m;
  st_requests := st_requests m; st_cycles := st_cycles m; st_offers := st_offers m;
  st_payments := st_payments m; st_invoices := st_invoices m; st_next := st_next m;
|}.
Definition with_events (m : store) (es : list lifecycle_event) : store := {|
  st_fleet := st_fleet m; st_cabs := st_cabs m; st_trips := st_trips m; st_events := es;
  st_requests := st_requests m; st_cycles := st_cycles m; st_offers := st_offers m;
  st_payments := st_payments m; st_invoices := st_invoices m; st_next := st_next m;
|}.
Definition with_search (m : store) (rs : list ride_request) (cs : list search_cycle)
    (os : list offer_attempt) : store := {|
  st_fleet := st_fleet m; st_cabs := st_cabs m; st_trips := st_trips m; st_events := st_events m;
  st_requests := rs; st_cycles := cs; st_offers := os;
  st_payments := st_payments m; st_invoices := st_invoices m; st_next := st_next m;
|}.
Definition with_payments (m : store) (ps : list trip_payment) : store := {|
  st_fleet := st_fleet m; st_cabs := st_cabs m; st_trips := st_trips m; st_events := st_events m;
  st_requests := st_requests m; st_cycles := st_cycles m; st_offers := st_offers m;
  st_payments := ps; st_invoices := st_invoices m; st_next := st_next m;
|}.
Definition with_invoices (m : store) (l : list invoice) : store := {|
  st_fleet := st_fleet m; st_cabs := st_cabs m; st_trips := st_trips m; st_events := st_events m;
  st_requests := st_requests m; st_cycles := st_cycles m; st_offers := st_offers m;
  st_payments := st_payments m; st_invoices := l; st_next := st_next m;
|}.
Definition take_id (m : store) : store := {|
  st_fleet := st_fleet m; st_cabs := st_cabs m; st_trips := st_trips m; st_events := st_events m;
  st_requests := st_requests m; st_cycles := st_cycles m; st_offers := st_offers m;
  st_payments := st_payments m; st_invoices := st_invoices m; st_next := st_next m + 1;
|}.

(** * Row access *)

Definition find_trip (m : store) (id : Z) : option trip :=
  List.find (fun b => tid b =? id) (st_trips m).
Definition trip_by_reference (m : store) (r : string) : option trip :=
  List.find (fun b => String.eqb (reference b) r) (st_trips m).
Definition find_driver (m : store) (id : Z) : option driver :=
  List.find (fun d => dr_id d =? id) (fl_drivers (st_fleet m)).
Definition driver_of_user (m : store) (uid : Z) : option driver :=
  List.find (fun d => (dr_user_id d =? uid) && negb (dr_is_deleted d)) (fl_drivers (st_fleet m)).

(** The row with the id of [b] becomes [b]; the constraint is checked on the write. *)
Definition put_trip (m : store) (b : trip) : store :=
  with_trips m (update_where (fun r => tid r =? tid b) (fun _ => b) (st_trips m)).
Definition save_trip (m : store) (b : trip) : result trip_error store :=
  if chk_no_match_reason b then Ok (put_trip m b) else Err IntegrityError.

(** UPDATE transport_bookings ... WHERE id = :id AND cond: [None] when no row matches. *)
Definition guarded_update (m : store) (id : Z) (cond : trip -> bool) (f : trip -> trip)
    : result trip_error (option store) :=
  match find_trip m id with
  | Some b => if cond b then let* m' := save_trip m (f b) in Ok (Some m') else Ok None
  | None => Ok None
  end.
