(* ===== verification/Trips.v ===== *)
(** Assignment and lifecycle of trips:
    app/transport/services/assignment_service.py, the status operations of
    app/transport/services/booking_service.py, the driver's trip actions of
    app/transport/api/driver_routes.py, the deletion and the dispute resolution of
    a booking, and the stall recovery of app/tasks/transport_recovery.py.

    Each operation is one database transaction under the row locks it takes and is
    one atomic step; it reads the clock once. An [Err] leaves the store as it was.
    The log table of app.utils.audit is written and never read, the caches and the
    transient offers in Redis are never authoritative: all are left out. *)

From S2P Require Import Prelude Tables Decimal InvoiceModel TripModel.

Local Open Scope Z_scope.

Module AssignmentService.

(** The roles of the acting user; [None] is no actor. *)
Abbreviation actor := (option (list string)).

Definition _actor_is_admin (a : actor) : bool :=
  match a with
  | None => false
  | Some roles => existsb (fun r => str_in r ["admin"; "super_admin"; "owner"]%string) roles
  end.

Definition active (b : trip) : bool := bool_decide (tb_status b ∈ ACTIVE_ASSIGNMENT_STATUSES).
Definition live (b : trip) : bool := negb (tb_is_deleted b).

Definition driven_by (d : Z) (b : trip) : bool := bool_decide (tb_driver_id b = Some d).
Definition uses_vehicle (v : Z) (b : trip) : bool := bool_decide (tb_vehicle_id b = Some v).

(** The NOT EXISTS subqueries: another active booking holds the driver, the vehicle. *)
Definition engaged_other (holds : trip -> bool) (m : store) (booking_id : Z) : bool :=
  existsb (fun b => holds b && negb (tid b =? booking_id) && active b && live b) (st_trips m).
Definition driver_engaged_other (m : store) (d booking_id : Z) : bool :=
  engaged_other (driven_by d) m booking_id.
Definition vehicle_engaged_other (m : store) (v booking_id : Z) : bool :=
  engaged_other (uses_vehicle v) m booking_id.

(** ** Claim *)

Definition claimable (b : trip) : bool :=
  bool_decide (tb_status b = CONFIRMED) && negb (is_some (tb_driver_id b))
  && negb (is_some (tb_vehicle_id b)) && live b.

(** r1: the booking; its foreign key needs the vehicle to exist. *)
Definition claim_booking (m : store) (id d v now : Z) : result trip_error store :=
  match guarded_update m id claimable
    (fun b => set_times (stamp None (Some now) None None (tb_times b))
                (set_dispatch ASSIGNED (tb_no_match_reason b) (Some d) (Some v) b)) with
  | Ok (Some m') => require existsb (fun c => vh_id c =? v) (st_cabs m) else IntegrityError ;; Ok m'
  | Ok None => Err (DispatchClaimError "booking_unavailable")
  | Err e => Err e
  end.

(** r2: the driver. *)
Definition driver_claimable (m : store) (d booking_id : Z) (forced : bool) : bool :=
  match find_driver m d with
  | Some r => negb (dr_is_deleted r) && String.eqb (dr_compliance_status r) "approved"
              && (dr_is_online r || forced) && negb (driver_engaged_other m d booking_id)
  | None => false
  end.

(** r3: the vehicle. *)
Definition vehicle_claimable (m : store) (v booking_id : Z) (forced : bool) (c : cab) : bool :=
  (vh_id c =? v) && negb (vh_is_deleted c) && String.eqb (vh_status c) VEHICLE_ACTIVE_STATUS
  && (vh_is_available c || forced) && negb (vehicle_engaged_other m v booking_id).

Definition claim_vehicle (m : store) (v booking_id : Z) (forced : bool) : result trip_error store :=
  require rowcount (vehicle_claimable m v booking_id forced) (st_cabs m) =? 1
    else (DispatchClaimError "vehicle_unavailable") ;;
  Ok (with_cabs m (update_where (vehicle_claimable m v booking_id forced) (set_available false)
                     (st_cabs m))).

(** The value is the id of the booking claimed. *)
Definition claim (m : store) (booking_ref : string) (driver_id vehicle_id : Z) (a : actor)
    (force : bool) (now : Z) : result trip_error (store * Z) :=
  require negb force || _actor_is_admin a else (DispatchClaimError "unauthorized") ;;
  let* b := of_option (DispatchClaimError "booking_unavailable") (trip_by_reference m booking_ref) in
  require is_some (find_driver m driver_id) else (DispatchClaimError "driver_unavailable") ;;
  let* m := claim_booking m (tid b) driver_id vehicle_id now in
  require driver_claimable m driver_id (tid b) force else (DispatchClaimError "driver_unavailable") ;;
  let* m := claim_vehicle m vehicle_id (tid b) force in
  Ok (m, tid b).

(** ** Release *)

(** The last observation of the driver at or before the transition, and how fresh
    it is: 120 seconds. *)
Definition later_observation (o : observation) (best : option observation) : option observation :=
  match best with
  | Some p => if ob_observed_at p <=? ob_observed_at o then Some o else Some p
  | None => Some o
  end.

Definition closest_observation (m : store) (code : string) (at_ : Z) : option observation :=
  foldr later_observation None
    (List.filter (fun o => String.eqb (ob_public_ref o) code && negb (ob_is_deleted o)
                           && (ob_observed_at o <=? at_)) (fl_observations (st_fleet m))).

Definition freshness (o : option observation) (at_ : Z) : string :=
  match o with
  | None => "missing"
  | Some o => if at_ - ob_observed_at o <=? 120000000 then "fresh" else "stale"
  end.

Definition lifecycle_event_of (m : store) (event_type : string) (booking_id : Z) (d : driver) (at_ : Z)
    : lifecycle_event :=
  let o := closest_observation m (dr_driver_code d) at_ in {|
  le_booking_id := booking_id;
  le_event_type := event_type;
  le_geo_observation := ob_public_id <$> o;
  le_actor_user_id := dr_user_id d;
  le_transition_at := at_;
  le_freshness := freshness o at_;
|}.

Definition _capture_actual_end (m : store) (booking_id : Z) (driver_id : option Z) (at_ : Z) : store :=
  match driver_id with
  | None => m
  | Some d =>
      match find_driver m d with
      | Some r => if String.eqb (dr_driver_code r) "" then m
                  else with_events m (st_events m ++ [lifecycle_event_of m "ACTUAL_END" booking_id r at_])
      | None => m
      end
  end.

(** The vehicle becomes available unless another active booking holds it. *)
Definition free_vehicle (m : store) (booking_id : Z) (vehicle : option Z) : store :=
  match vehicle with
  | None => m
  | Some v =>
      with_cabs m (update_where (fun c => (vh_id c =? v) && negb (vh_is_available c)
                                          && negb (vh_is_deleted c)
                                          && negb (vehicle_engaged_other m v booking_id))
                     (set_available true) (st_cabs m))
  end.

Definition unassign (s : BookingStatus) (b : trip) : trip :=
  set_dispatch s (tb_no_match_reason b) None None b.

(** The value tells whether an assignment was released. *)
Definition release (m : store) (booking_id : Z) (terminal : BookingStatus) (now : Z)
    : result trip_error (store * bool) :=
  require bool_decide (terminal ∈ TERMINAL_RELEASE_STATUSES) else (DispatchClaimError "invalid_state") ;;
  let* row := of_option (DispatchClaimError "booking_unavailable") (find_trip m booking_id) in
  if is_some (tb_driver_id row) || is_some (tb_vehicle_id row) then
    let* o := guarded_update m booking_id (fun b => active b && live b) (unassign terminal) in
    let* m1 := of_option (DispatchClaimError "invalid_state") o in
    let m2 := if decide (terminal = COMPLETED)
              then _capture_actual_end m1 booking_id (tb_driver_id row) now else m1 in
    Ok (free_vehicle m2 booking_id (tb_vehicle_id row), true)
  else
    let* o := guarded_update m booking_id live (set_status terminal) in
    let* m1 := of_option (DispatchClaimError "invalid_state") o in
    Ok (m1, false).

(** ** Release as no match *)

Definition driver_cancellable : list BookingStatus := [ASSIGNED; DRIVER_EN_ROUTE; PICKUP_ARRIVED].

Definition forget_driver_times (t : trip_times) : trip_times := {|
  tm_confirmed_at := tm_confirmed_at t;
  tm_driver_assigned_at := None;
  tm_driver_en_route_at := None;
  tm_driver_arrived_at := None;
  tm_pickup_actual_time := tm_pickup_actual_time t;
  tm_dropoff_actual_time := tm_dropoff_actual_time t;
  tm_completed_at := tm_completed_at t;
  tm_cancelled_at := tm_cancelled_at t;
|}.

(** The value tells whether the call was a replay. *)
Definition release_to_no_match (m : store) (booking_id : Z) (reason : string)
    : result trip_error (store * bool) :=
  require str_in reason NO_MATCH_REASONS else (DispatchClaimError "invalid_state") ;;
  let* row := of_option (DispatchClaimError "booking_unavailable") (find_trip m booking_id) in
  if decide (tb_status row = NO_MATCH) then Ok (m, true)
  else
    require is_some (tb_driver_id row) || is_some (tb_vehicle_id row)
      else (DispatchClaimError "invalid_state") ;;
    require bool_decide (tb_status row ∈ driver_cancellable) else (DispatchClaimError "invalid_state") ;;
    let* o := guarded_update m booking_id
                (fun b => bool_decide (tb_status b ∈ driver_cancellable) && live b)
                (fun b => set_times (forget_driver_times (tb_times b))
                            (set_dispatch NO_MATCH (Some reason) None None b)) in
    let* m1 := of_option (DispatchClaimError "invalid_state") o in
    Ok (free_vehicle m1 booking_id (tb_vehicle_id row), false).

End AssignmentService.

Module BookingService.
Import AssignmentService.

(** * Cancellation policy *)

Definition SCHEDULED_BOOKING_MODE : string := "scheduled".
Definition CANCEL_FEE_STANDARD_CAP : dec := cents 1000000.
Definition CANCEL_FEE_LATE_CAP : dec := cents 2000000.
Definition NO_SHOW_FEE_RATE : dec := Dec 40 (-2).
Definition NO_SHOW_FEE_CAP : dec := cents 2000000.
Definition NO_SHOW_GRACE : Z := minutes 15.
Definition DRIVER_LATE_CANCEL_CREDIT_RATE : dec := Dec 80 (-2).

Definition dec_result {A} (m : result dec_error A) : result trip_error A := map_err DecimalError m.

Definition _money (d : dec) : result trip_error dec := dec_result (quantize ROUND_HALF_EVEN (-2) d).

Definition _booking_mode (b : trip) : string :=
  lower (strip (default "" (md_booking_mode (tb_meta b)))).

Definition _booking_currency_code (b : trip) : string :=
  upper (strip (str_or (Some (ti_currency (tb_info b))) "UGX")).

Record policy : Type := {
  po_scheduled : bool;
  po_fee : dec;
  po_currency : string;
  po_tier : string;
  po_percentage : Z;
  po_cap : dec;
  po_pickup_time : option Z;
}.

Definition free_policy (b : trip) (scheduled : bool) (tier : string) (pickup : option Z) : policy := {|
  po_scheduled := scheduled; po_fee := cents 0; po_currency := _booking_currency_code b;
  po_tier := tier; po_percentage := 0; po_cap := cents 0; po_pickup_time := pickup;
|}.

(** [max(Decimal("0.00"), _money(booking.final_price))] *)
Definition fare (b : trip) : result trip_error dec :=
  let* p := _money (ti_final_price (tb_info b)) in
  Ok (dmax (cents 0) p).

Definition _cancellation_policy (b : trip) (now : Z) : result trip_error policy :=
  if negb (String.eqb (_booking_mode b) SCHEDULED_BOOKING_MODE)
  then Ok (free_policy b false "not_scheduled" None)
  else match ti_pickup_time (tb_info b) with
  | None => Ok (free_policy b true "unreleased_pickup" None)
  | Some pickup =>
      let* f := fare b in
      let delta := pickup - now in
      if hours 1 <? delta then Ok (free_policy b true "more_than_1h" (Some pickup))
      else
        let standard := minutes 15 <=? delta in
        let percentage := if standard then 20 else 40 in
        let cap := if standard then CANCEL_FEE_STANDARD_CAP else CANCEL_FEE_LATE_CAP in
        let* share := dec_result (ddiv (dmul f (dint percentage)) (dint 100)) in
        let* share := _money share in
        let* fee := _money (dmin (dmin share cap) f) in
        Ok {| po_scheduled := true; po_fee := fee; po_currency := _booking_currency_code b;
              po_tier := if standard then "15m_to_1h" else "under_15m";
              po_percentage := percentage; po_cap := cap; po_pickup_time := Some pickup |}
  end.

Definition _calculate_no_show_fee (b : trip) : result trip_error dec :=
  let* f := fare b in
  let* share := _money (dmul f NO_SHOW_FEE_RATE) in
  _money (dmin (dmin share NO_SHOW_FEE_CAP) f).

(** * Metadata *)

Definition meta_cancellation (f : cancellation_facts) (m : trip_meta) : trip_meta := {|
  md_booking_mode := md_booking_mode m; md_matching_started_at := md_matching_started_at m;
  md_cancellation := Some f; md_no_show := md_no_show m; md_driver_credits := md_driver_credits m;
  md_no_match_cause := md_no_match_cause m; md_driver_cancellations := md_driver_cancellations m;
  md_completed_by := md_completed_by m;
|}.
Definition meta_no_show (f : no_show_facts) (m : trip_meta) : trip_meta := {|
  md_booking_mode := md_booking_mode m; md_matching_started_at := md_matching_started_at m;
  md_cancellation := md_cancellation m; md_no_show := Some f; md_driver_credits := md_driver_credits m;
  md_no_match_cause := md_no_match_cause m; md_driver_cancellations := md_driver_cancellations m;
  md_completed_by := md_completed_by m;
|}.
Definition meta_credits (l : list driver_credit) (m : trip_meta) : trip_meta := {|
  md_booking_mode := md_booking_mode m; md_matching_started_at := md_matching_started_at m;
  md_cancellation := md_cancellation m; md_no_show := md_no_show m; md_driver_credits := l;
  md_no_match_cause := md_no_match_cause m; md_driver_cancellations := md_driver_cancellations m;
  md_completed_by := md_completed_by m;
|}.
(** The start of the matching window, and what a driver's cancellation leaves. *)
Definition meta_matching (started : option Z) (cause : option string) (l : list driver_cancellation)
    (m : trip_meta) : trip_meta := {|
  md_booking_mode := md_booking_mode m; md_matching_started_at := started;
  md_cancellation := md_cancellation m; md_no_show := md_no_show m;
  md_driver_credits := md_driver_credits m;
  md_no_match_cause := cause; md_driver_cancellations := l; md_completed_by := md_completed_by m;
|}.
Definition meta_completed_by (c : completed_by) (m : trip_meta) : trip_meta := {|
  md_booking_mode := md_booking_mode m; md_matching_started_at := md_matching_started_at m;
  md_cancellation := md_cancellation m; md_no_show := md_no_show m;
  md_driver_credits := md_driver_credits m; md_no_match_cause := md_no_match_cause m;
  md_driver_cancellations := md_driver_cancellations m; md_completed_by := Some c;
|}.

Definition _append_driver_credit (b : trip) (d : driver) (amount : dec) (currency reason : string)
    (now : Z) (m : trip_meta) : result trip_error trip_meta :=
  let* credit := _money amount in
  if dleb credit dzero then Ok m
  else Ok (meta_credits (md_driver_credits m ++ [{|
    dc_driver_code := dr_driver_code d;
    dc_driver_user_public_id := dr_user_public_id d;
    dc_amount := credit;
    dc_currency := currency;
    dc_reason := reason;
    dc_booking_reference := reference b;
    dc_at := now |}]) m).

Definition _stamp_matching_window_start (now : Z) (b : trip) : trip :=
  set_meta (meta_matching (Some now) (md_no_match_cause (tb_meta b))
              (md_driver_cancellations (tb_meta b)) (tb_meta b)) b.

(** The except clauses the operations share: a refused claim or release is a
    validation error, an error of the database means the service is unavailable. *)
Definition translate {A} (r : result trip_error A) : result trip_error A :=
  map_err (fun e => match e with
    | DispatchClaimError kind => ValidationError kind
    | IntegrityError => ServiceUnavailableError
    | e => e
    end) r.

(** * Cancellation by the rider, a provider, an administrator *)

Definition PRE_ASSIGNMENT_STATUSES : list BookingStatus := [PENDING_PAYMENT; CONFIRMED].
Definition POST_ASSIGNMENT_CANCELLABLE_STATUSES : list BookingStatus :=
  [ASSIGNED; DRIVER_EN_ROUTE; PICKUP_ARRIVED].
Definition ALL_CANCELLABLE_STATUSES : list BookingStatus :=
  PRE_ASSIGNMENT_STATUSES ++ POST_ASSIGNMENT_CANCELLABLE_STATUSES.
Definition SAFETY_CATEGORIES : list string :=
  ["driver_vehicle_mismatch"; "driver_identity_mismatch"; "safety_concern";
   "driver_requested_cancel"; "unexpected_driver_behaviour"]%string.

(** The keyword arguments. *)
Record cancel_request : Type := {
  cq_booking_id : Z;
  cq_user_id : Z;
  cq_reason : option string;
  cq_reason_category : option string;
  cq_safety_flag : bool;
}.

(** The figures of the answer. *)
Record cancel_answer : Type := {
  ca_fee : dec;
  ca_tier : string;
  ca_refund_estimate : dec;
  ca_driver_credit : dec;
}.

Definition may_cancel (b : trip) (user_id : Z) : bool :=
  (ti_user_id (tb_info b) =? user_id) || bool_decide (tb_driver_id b = Some user_id)
  || bool_decide (ti_provider_id (tb_info b) = Some user_id).

Definition is_safety (q : cancel_request) : bool :=
  str_in (lower (default "" (cq_reason_category q))) SAFETY_CATEGORIES.

(** The fee and its tier, after the waivers. *)
Definition waive (q : cancel_request) (is_rider : bool) (p : policy) : dec * string :=
  if is_safety q then (cents 0, "safety"%string)
  else if negb is_rider then (cents 0, "non_rider"%string)
  else (po_fee p, po_tier p).

(** The credit of the assigned driver and the metadata that records it. *)
Definition credit_driver (m : store) (b : trip) (is_rider : bool) (fee : dec) (currency : string)
    (now : Z) (md : trip_meta) : result trip_error (dec * trip_meta) :=
  match tb_driver_id b with
  | Some d =>
      if is_rider && dltb dzero fee && negb (d =? 0) then
        match find_driver m d with
        | Some r =>
            let* credit := _money (dmul fee DRIVER_LATE_CANCEL_CREDIT_RATE) in
            let* md := _append_driver_credit b r credit currency "late_cancellation" now md in
            Ok (credit, md)
        | None => Ok (cents 0, md)
        end
      else Ok (cents 0, md)
  | None => Ok (cents 0, md)
  end.

Definition cancel_booking (m : store) (q : cancel_request) (now : Z)
    : result trip_error (store * cancel_answer) :=
  let* b := of_option NotFoundError (find_trip m (cq_booking_id q)) in
  require may_cancel b (cq_user_id q) else (PermissionError "Cannot cancel another user's booking") ;;
  require live b else NotFoundError ;;
  require bool_decide (tb_status b ∈ ALL_CANCELLABLE_STATUSES) else (ValidationError "stage") ;;
  let is_rider := ti_user_id (tb_info b) =? cq_user_id q in
  let initiated_by := if is_rider then "rider"%string else "admin"%string in
  let safety := cq_safety_flag q || is_safety q in
  let* p := _cancellation_policy b now in
  let '(fee, tier) := waive q is_rider p in
  let* price := _money (ti_final_price (tb_info b)) in
  let* refund := _money (dmax (cents 0) (dsub price fee)) in
  let md := meta_cancellation {|
    cf_fee := fee; cf_currency := po_currency p; cf_tier := tier; cf_refund_amount_estimate := refund;
    cf_initiated_by := initiated_by; cf_scheduled := po_scheduled p;
    cf_percentage := if str_in tier ["safety"; "non_rider"]%string then 0 else po_percentage p;
    cf_at := now |} (tb_meta b) in
  let* cm := credit_driver m b is_rider fee (po_currency p) now md in
  let '(credit, md) := cm in
  let b' := set_meta md (set_cancel {|
    cn_reason := cq_reason q; cn_reason_category := cq_reason_category q; cn_safety_flag := safety;
    cn_cancelled_stage := Some (tb_status b); cn_fee := Some fee;
    cn_initiated_by := Some initiated_by |}
    (set_times (stamp None None None (Some now) (tb_times b)) b)) in
  let answer := {| ca_fee := fee; ca_tier := tier; ca_refund_estimate := refund;
                   ca_driver_credit := credit |} in
  translate (
    if decide (tb_status b ∈ PRE_ASSIGNMENT_STATUSES) then
      let* o := guarded_update m (tid b)
                  (fun r => bool_decide (tb_status r ∈ PRE_ASSIGNMENT_STATUSES) && live r)
                  (fun _ => set_status CANCELLED b') in
      let* m' := of_option (ValidationError "no longer cancellable") o in
      Ok (m', answer)
    else
      let* m1 := save_trip m b' in
      let* m2 := release m1 (tid b) CANCELLED now in
      Ok (m2.1, answer)).

(** * Guarded status transitions *)

Definition STATUS_TRANSITIONS (s : BookingStatus) : list BookingStatus :=
  match s with
  | DRAFT => [PENDING_PAYMENT; CANCELLED]
  | PENDING_PAYMENT => [CONFIRMED; CANCELLED]
  | CONFIRMED => [ASSIGNED; NO_MATCH; CANCELLED]
  | ASSIGNED => [DRIVER_EN_ROUTE; CANCELLED]
  | DRIVER_EN_ROUTE => [PICKUP_ARRIVED; CANCELLED]
  | PICKUP_ARRIVED => [IN_PROGRESS; NO_SHOW]
  | IN_PROGRESS => [COMPLETED; DISPUTED]
  | COMPLETED => []
  | CANCELLED => []
  | NO_SHOW => []
  | DISPUTED => [COMPLETED; CANCELLED]
  | NO_MATCH => [CONFIRMED]
  end.

Definition _can_transition (current target : BookingStatus) : bool :=
  allowed STATUS_TRANSITIONS current target.

(** The reason, the initiator and the other cancellation columns of a transition. *)
Definition transition_cancel (reason : option string) (initiated_by : string) (c : cancellation)
    : cancellation := {|
  cn_reason := Some (default "admin_action" reason)%string;
  cn_reason_category := cn_reason_category c;
  cn_safety_flag := cn_safety_flag c;
  cn_cancelled_stage := cn_cancelled_stage c;
  cn_fee := cn_fee c;
  cn_initiated_by := Some initiated_by;
|}.

(** The columns a transition to a status stamps. *)
Definition stamp_status (s : BookingStatus) (reason : option string) (initiated_by : string) (now : Z)
    (b : trip) : trip :=
  match s with
  | CONFIRMED =>
      _stamp_matching_window_start now (set_times (stamp (Some now) None None None (tb_times b)) b)
  | COMPLETED => set_times (stamp None None (Some now) None (tb_times b)) b
  | CANCELLED =>
      set_cancel (transition_cancel reason initiated_by (tb_cancel b))
        (set_times (stamp None None None (Some now) (tb_times b)) b)
  | _ => b
  end.

Definition log_of (action : string) (from to : BookingStatus) (now : Z) (reason : option string)
    : log_entry :=
  {| lg_action := action; lg_from := from; lg_to := to; lg_at := now; lg_reason := reason |}.

Definition transition_status (m : store) (booking_id : Z) (new_status : BookingStatus)
    (reason : option string) (initiated_by : string) (now : Z) : result trip_error store :=
  let* b := of_option NotFoundError (find_trip m booking_id) in
  require live b else NotFoundError ;;
  require _can_transition (tb_status b) new_status else (ValidationError "status") ;;
  if bool_decide (new_status ∈ TERMINAL_RELEASE_STATUSES)
     && (is_some (tb_driver_id b) || is_some (tb_vehicle_id b))
  then
    let* m1 := save_trip m (stamp_status new_status reason initiated_by now b) in
    let* m2 := release m1 booking_id new_status now in
    Ok m2.1
  else
    translate (save_trip m
      (append_log (log_of "status_changed" (tb_status b) new_status now reason)
        (stamp_status new_status reason initiated_by now (set_status new_status b)))).

(** * No match and retry *)

(** The value tells whether the call was a replay. *)
Definition mark_no_match (m : store) (booking_id : Z) (reason : string) (now : Z)
    : result trip_error (store * bool) :=
  require str_in reason NO_MATCH_REASONS else (ValidationError "no_match_reason") ;;
  let* b := of_option NotFoundError (find_trip m booking_id) in
  require live b else NotFoundError ;;
  if decide (tb_status b = NO_MATCH) then Ok (m, true)
  else
    require bool_decide (tb_status b = CONFIRMED) else (ValidationError "status") ;;
    require negb (is_some (tb_driver_id b) || is_some (tb_vehicle_id b)) else (ValidationError "status") ;;
    let* o := guarded_update m booking_id claimable
                (fun r => set_dispatch NO_MATCH (Some reason) (tb_driver_id r) (tb_vehicle_id r) r) in
    let* m1 := of_option (ValidationError "no longer awaiting matching") o in
    let* r := of_option NotFoundError (find_trip m1 booking_id) in
    let* m2 := save_trip m1
                 (append_log (log_of "marked_no_match" (tb_status b) NO_MATCH now (Some reason)) r) in
    Ok (m2, false).

(** The offers made after the commit are not part of it. *)
Definition retry_matching (m : store) (booking_id user_id now : Z) : result trip_error store :=
  let* b := of_option NotFoundError (find_trip m booking_id) in
  require live b else NotFoundError ;;
  require ti_user_id (tb_info b) =? user_id else (PermissionError "Cannot retry another user's ride") ;;
  require bool_decide (tb_status b = NO_MATCH) else (ValidationError "status") ;;
  translate (save_trip m
    (append_log (log_of "retry_matching" NO_MATCH CONFIRMED now (Some "rider_retry"%string))
      (set_meta (meta_matching (Some now) None (md_driver_cancellations (tb_meta b)) (tb_meta b))
        (set_dispatch CONFIRMED None (tb_driver_id b) (tb_vehicle_id b) b)))).

(** * No show *)

(** The answer of [mark_no_show]: fee, credit, and whether it was a replay. *)
Record no_show_answer : Type := { na_fee : dec; na_credit : dec; na_idempotent : bool }.

Definition no_show_cancel (fee : dec) (reason : option string) : cancellation := {|
  cn_reason := Some (str_or reason "rider_no_show");
  cn_reason_category := Some "rider_no_show"%string;
  cn_safety_flag := false;
  cn_cancelled_stage := Some PICKUP_ARRIVED;
  cn_fee := Some fee;
  cn_initiated_by := Some "driver"%string;
|}.

Definition mark_no_show (m : store) (booking_id driver_user_id : Z) (reason : option string) (now : Z)
    : result trip_error (store * no_show_answer) :=
  let* b := of_option NotFoundError (find_trip m booking_id) in
  require live b else NotFoundError ;;
  let* d := of_option (PermissionError "Only the assigned driver") (driver_of_user m driver_user_id) in
  if decide (tb_status b = NO_SHOW) then
    match md_no_show (tb_meta b) with
    | Some f =>
        require String.eqb (ns_driver_code f) (dr_driver_code d) else (PermissionError "Only the assigned driver") ;;
        let* fee := _money (ns_fee f) in
        let* credit := _money (ns_driver_credit f) in
        Ok (m, {| na_fee := fee; na_credit := credit; na_idempotent := true |})
    | None => Err (PermissionError "Only the assigned driver")
    end
  else
    require bool_decide (tb_driver_id b = Some (dr_id d)) else (PermissionError "Only the assigned driver") ;;
    require bool_decide (tb_status b = PICKUP_ARRIVED) else (ValidationError "not arrived") ;;
    require String.eqb (_booking_mode b) SCHEDULED_BOOKING_MODE else (ValidationError "not scheduled") ;;
    let* pickup := of_option (ValidationError "no pickup time") (ti_pickup_time (tb_info b)) in
    require pickup + NO_SHOW_GRACE <=? now else (ValidationError "grace") ;;
    let* fee := _calculate_no_show_fee b in
    let currency := _booking_currency_code b in
    let* md := _append_driver_credit b d fee currency "no_show" now
      (meta_no_show {| ns_fee := fee; ns_currency := currency; ns_marked_at := now;
                       ns_driver_code := dr_driver_code d;
                       ns_driver_user_public_id := dr_user_public_id d;
                       ns_driver_credit := fee |} (tb_meta b)) in
    translate (
      let* m1 := save_trip m (set_meta md (set_cancel (no_show_cancel fee reason) b)) in
      let* m2 := transition_status m1 booking_id NO_SHOW (Some (str_or reason "rider_no_show")) "driver" now in
      Ok (m2, {| na_fee := fee; na_credit := fee; na_idempotent := false |})).

(** * Cancellation by the driver *)

(** The value tells whether the call was a replay. *)
Definition driver_cancel (m : store) (booking_id driver_user_id : Z) (reason : option string) (now : Z)
    : result trip_error (store * bool) :=
  let* b := of_option NotFoundError (find_trip m booking_id) in
  require live b else NotFoundError ;;
  let* d := of_option (PermissionError "Only the assigned driver") (driver_of_user m driver_user_id) in
  if decide (tb_status b = NO_MATCH) then
    require bool_decide (md_no_match_cause (tb_meta b) = Some "driver_cancelled"%string)
      else (ValidationError "already closed") ;;
    match list.last (md_driver_cancellations (tb_meta b)) with
    | Some x =>
        require String.eqb (dx_driver_code x) (dr_driver_code d) else (PermissionError "replay") ;;
        Ok (m, true)
    | None => Err (PermissionError "replay")
    end
  else
    require negb (bool_decide (tb_status b = IN_PROGRESS)) else (ValidationError "already started") ;;
    require bool_decide (tb_status b ∈ driver_cancellable) else (ValidationError "stage") ;;
    require bool_decide (tb_driver_id b = Some (dr_id d)) else (PermissionError "Only the assigned driver") ;;
    let why := str_or reason "driver_cancelled" in
    let record := {| dx_driver_code := dr_driver_code d; dx_driver_user_public_id := dr_user_public_id d;
                     dx_stage := tb_status b; dx_reason := why; dx_at := now;
                     dx_booking_reference := reference b |} in
    let b' := append_log (log_of "driver_cancelled_before_start" (tb_status b) NO_MATCH now (Some why))
      (set_meta (meta_matching (md_matching_started_at (tb_meta b)) (Some "driver_cancelled"%string)
                   (md_driver_cancellations (tb_meta b) ++ [record]) (tb_meta b)) b) in
    translate (
      let* m1 := save_trip m b' in
      let* m2 := release_to_no_match m1 booking_id NO_MATCH_ALL_REJECTED in
      Ok (m2.1, false)).

End BookingService.

(** * The driver's trip actions: app/transport/api/driver_routes.py *)

Module DriverTrip.
Import AssignmentService BookingService.

Inductive action : Type := en_route | arrive | start | complete | no_show | cancel.

(** Expected and target status of an action of the transition table. *)
Definition _DRIVER_TRIP_ACTIONS (a : action) : option (BookingStatus * BookingStatus) :=
  match a with
  | en_route => Some (ASSIGNED, DRIVER_EN_ROUTE)
  | arrive => Some (DRIVER_EN_ROUTE, PICKUP_ARRIVED)
  | start => Some (PICKUP_ARRIVED, IN_PROGRESS)
  | complete => Some (IN_PROGRESS, COMPLETED)
  | no_show => Some (PICKUP_ARRIVED, NO_SHOW)
  | cancel => None
  end.

(** The timestamp columns of an action. *)
Definition stamp_action (a : action) (now : Z) (t : trip_times) : trip_times := {|
  tm_confirmed_at := tm_confirmed_at t;
  tm_driver_assigned_at := tm_driver_assigned_at t;
  tm_driver_en_route_at := match a with en_route => Some now | _ => tm_driver_en_route_at t end;
  tm_driver_arrived_at := match a with arrive => Some now | _ => tm_driver_arrived_at t end;
  tm_pickup_actual_time := match a with start => Some now | _ => tm_pickup_actual_time t end;
  tm_dropoff_actual_time := match a with complete => Some now | _ => tm_dropoff_actual_time t end;
  tm_completed_at := match a with complete => Some now | _ => tm_completed_at t end;
  tm_cancelled_at := tm_cancelled_at t;
|}.

Definition _capture_actual_start (m : store) (booking_id : Z) (d : driver) (now : Z) : store :=
  if String.eqb (dr_driver_code d) "" then m
  else with_events m (st_events m ++ [lifecycle_event_of m "ACTUAL_START" booking_id d now]).

Definition completion (d : driver) (now : Z) (b : trip) : trip :=
  set_meta (meta_completed_by {| cb_profile_id := dr_id d; cb_driver_code := dr_driver_code d;
                                 cb_user_id := dr_user_id d |} (tb_meta b))
    (set_times (stamp_action complete now (tb_times b)) b).

(** An action that only advances the status: one guarded UPDATE. *)
Definition advance (m : store) (b : trip) (d : driver) (a : action) (from to : BookingStatus) (now : Z)
    : result trip_error store :=
  let m1 := match a with start => _capture_actual_start m (tid b) d now | _ => m end in
  let* o := guarded_update m1 (tid b)
              (fun r => driven_by (dr_id d) r && bool_decide (tb_status r = from) && live r)
              (fun r => set_times (stamp_action a now (tb_times r)) (set_status to r)) in
  of_option (DispatchClaimError "invalid_state") o.

Definition _execute_driver_trip_action (m : store) (b : trip) (d : driver) (a : action) (now : Z)
    : result trip_error store :=
  match a with
  | cancel => let* r := driver_cancel m (tid b) (dr_user_id d) None now in Ok r.1
  | no_show => let* r := mark_no_show m (tid b) (dr_user_id d) None now in Ok r.1
  | complete =>
      let* m1 := save_trip m (completion d now b) in
      let* r := release m1 (tid b) COMPLETED now in
      Ok r.1
  | en_route => advance m b d a ASSIGNED DRIVER_EN_ROUTE now
  | arrive => advance m b d a DRIVER_EN_ROUTE PICKUP_ARRIVED now
  | start => advance m b d a PICKUP_ARRIVED IN_PROGRESS now
  end.

(** POST /drivers/me/trips/<reference>/status by the driver with profile [d]. *)
Definition post (m : store) (d : driver) (booking_reference : string) (a : action) (now : Z)
    : result trip_error store :=
  let* b := of_option NotFoundError
    (List.find (fun b => String.eqb (reference b) booking_reference && live b) (st_trips m)) in
  require driven_by (dr_id d) b else (PermissionError "only the assigned driver may advance this trip") ;;
  _execute_driver_trip_action m b d a now.

End DriverTrip.

(** * Administration and recovery *)

Module TripAdmin.
Import AssignmentService BookingService.

(** DELETE /bookings/<reference>: _booking_by_reference_or_404 reads live rows. *)
Definition delete (m : store) (booking_reference : string) : result trip_error store :=
  let* b := of_option NotFoundError
    (List.find (fun b => String.eqb (reference b) booking_reference && live b) (st_trips m)) in
  require negb (active b) else (DispatchClaimError "active_assignment") ;;
  save_trip m (set_deleted (set_dispatch (tb_status b) (tb_no_match_reason b) None None b)).

(** The moderator's approval of a booking. *)
Definition approve (m : store) (booking_id now : Z) : result trip_error store :=
  let* b := of_option NotFoundError (find_trip m booking_id) in
  if decide (tb_status b = CONFIRMED) then Ok m
  else if decide (tb_status b = DISPUTED) then translate (save_trip m (set_status CONFIRMED b))
  else transition_status m booking_id CONFIRMED None "moderator" now.

Definition TRANSPORT_STALL_TIMEOUT_SECONDS : Z := 600.

(** A booking assigned longer than the timeout whose driver is not on the way. *)
Definition stalled (cutoff after_booking_id : Z) (b : trip) : bool :=
  bool_decide (tb_status b = ASSIGNED) && negb (is_some (tm_driver_en_route_at (tb_times b)))
  && live b
  && match tm_driver_assigned_at (tb_times b) with Some t => t <? cutoff | None => false end
  && (after_booking_id <? tid b).

Definition insert_by_id (b : trip) (l : list trip) : list trip :=
  List.filter (fun c => tid c <=? tid b) l ++ b :: List.filter (fun c => negb (tid c <=? tid b)) l.

(** The page of candidates, by id. *)
Definition stall_candidates (m : store) (cutoff after_booking_id : Z) (batch : nat) : list trip :=
  take batch (foldr insert_by_id [] (List.filter (stalled cutoff after_booking_id) (st_trips m))).

(** Each candidate is released in a transaction of its own; a failure is skipped. *)
Definition release_stalled (now : Z) (m : store) (b : trip) : store :=
  match release m (tid b) CANCELLED now with Ok r => r.1 | Err _ => m end.

Definition stall_recovery (m : store) (stall_seconds : Z) (batch after_booking_id now : Z) : store :=
  let timeout := if stall_seconds =? 0 then TRANSPORT_STALL_TIMEOUT_SECONDS else stall_seconds in
  let page := Z.to_nat (Z.max 1 (Z.min batch 50)) in
  fold_left (release_stalled now)
    (stall_candidates m (now - timeout * 1000000) (Z.max 0 after_booking_id) page) m.

End TripAdmin.
