(* ===== verification/RideDispatch.v ===== *)
(** Ride requests before a booking exists:
    app/transport/services/ride_request_dispatch_service.py and the persistence of
    app/transport/services/ride_request_service.py.

    Each operation locks the request row first and is one atomic step that reads
    the clock once. [accept_offer] may commit the end of a matching window or the
    next offer before it raises, so it returns the store it leaves with its result;
    the others leave the store as it was when they raise. The ranking of drivers by
    distance and rating (app/transport/services/matching_service.py) is the
    interface [Ranker]; notifications are left out. *)

From stdpp Require Import pretty.
From S2P Require Import Prelude Tables Decimal Ledger InvoiceModel Invoices TripModel Trips.

Local Open Scope Z_scope.

(** [MatchingService._ranked_candidates]: driver and vehicle ids in rank order, of
    which either may be missing. *)
Class Ranker : Type := ranked_candidates : TripModel.store -> ride_request -> list (option Z * option Z).

Module RideRequestDispatchService.
Import AssignmentService(actor, claim).

Definition RESPONSE_SECONDS : Z := 25.
Definition MATCHING_POOL_SIZE : nat := 5.
Definition seconds (n : Z) : Z := n * 1000000.

Definition dispatch_error {A} (code : string) : result trip_error A := Err (RideRequestDispatchError code).

(** * Rows *)

Definition request_by_public_id (m : store) (p : string) : option ride_request :=
  List.find (fun r => String.eqb (rr_public_id r) p && negb (rr_is_deleted r)) (st_requests m).
Definition request_by_id (m : store) (id : Z) : option ride_request :=
  List.find (fun r => (rr_id r =? id) && negb (rr_is_deleted r)) (st_requests m).

Definition later_cycle (c : search_cycle) (best : option search_cycle) : option search_cycle :=
  match best with
  | Some b => if cy_cycle_number b <=? cy_cycle_number c then Some c else Some b
  | None => Some c
  end.

Definition cycles_of (m : store) (request_id : Z) : list search_cycle :=
  List.filter (fun c => (cy_ride_request_id c =? request_id) && negb (cy_is_deleted c)) (st_cycles m).
Definition _cycle_for_request (m : store) (r : ride_request) : option search_cycle :=
  foldr later_cycle None (cycles_of m (rr_id r)).

Definition offers_of (m : store) (cycle_id : Z) : list offer_attempt :=
  List.filter (fun a => oa_cycle_id a =? cycle_id) (st_offers m).
Definition actionable (a : offer_attempt) : bool := bool_decide (oa_status a ∈ ACTIONABLE_OFFER_STATUSES).
Definition active_offer (m : store) (cycle_id : Z) : option offer_attempt :=
  List.find actionable (offers_of m cycle_id).
Definition offered_to (m : store) (cycle_id driver_id : Z) : option offer_attempt :=
  List.find (fun a => (oa_driver_id a =? driver_id) && bool_decide (oa_status a = OF_offered))
    (offers_of m cycle_id).

Definition put_request (r : ride_request) (m : store) : store :=
  with_search m (update_where (fun x => rr_id x =? rr_id r) (fun _ => r) (st_requests m))
    (st_cycles m) (st_offers m).
Definition put_cycle (c : search_cycle) (m : store) : store :=
  with_search m (st_requests m) (update_where (fun x => cy_id x =? cy_id c) (fun _ => c) (st_cycles m))
    (st_offers m).
Definition put_offer (a : offer_attempt) (m : store) : store :=
  with_search m (st_requests m) (st_cycles m)
    (update_where (fun x => oa_id x =? oa_id a) (fun _ => a) (st_offers m)).

(** Every actionable offer of a cycle is answered in one statement. *)
Definition answer_offers (s : OfferStatus) (reason : string) (now cycle_id : Z) (m : store) : store :=
  with_search m (st_requests m) (st_cycles m)
    (update_where (fun a => (oa_cycle_id a =? cycle_id) && actionable a)
       (respond s now (Some reason)) (st_offers m)).

(** * Offers *)

(** An id that is missing or zero is false. *)
Definition true_id (o : option Z) : option Z :=
  match o with Some z => if z =? 0 then None else Some z | None => None end.

Fixpoint with_ranks (rank : Z) (l : list (option Z * option Z)) : list candidate :=
  match l with
  | [] => []
  | (d, v) :: l =>
      match true_id d, true_id v with
      | Some d, Some v => {| ca_driver_id := d; ca_vehicle_id := v; ca_rank := rank |} :: with_ranks (rank + 1) l
      | _, _ => with_ranks rank l
      end
  end.

Definition _candidate_snapshot (l : list (option Z * option Z)) : list candidate :=
  with_ranks 1 (take MATCHING_POOL_SIZE l).

(** INSERT of an offer: uq_offer_attempt_number and uq_offer_attempt_actionable. *)
Definition _insert_offer (m : store) (cycle_id : Z) (c : candidate) (number now : Z)
    : result trip_error store :=
  require negb (existsb (fun a => oa_attempt_number a =? number) (offers_of m cycle_id))
          && negb (existsb actionable (offers_of m cycle_id)) else IntegrityError ;;
  let a := {|
    oa_id := st_next m;
    oa_cycle_id := cycle_id;
    oa_driver_id := ca_driver_id c;
    oa_vehicle_id := ca_vehicle_id c;
    oa_attempt_number := number;
    oa_candidate_rank := if ca_rank c =? 0 then number else ca_rank c;
    oa_offered_at := now;
    oa_response_deadline := Some (now + seconds RESPONSE_SECONDS);
    oa_status := OF_offered;
    oa_responded_at := None;
    oa_reason := None |} in
  Ok (take_id (with_search m (st_requests m) (st_cycles m) (st_offers m ++ [a]))).

Definition reached (deadline : option Z) (now : Z) : bool :=
  match deadline with Some d => d <=? now | None => false end.

Definition why_closed (had_attempts : bool) : option string :=
  Some (if had_attempts then NO_MATCH_ALL_REJECTED else NO_MATCH_NO_SUPPLY).

Definition is_nil {A} (l : list A) : bool := match l with [] => true | _ => false end.

(** The matching window is over: [None] when it is not. *)
Definition _close_cycle_at_deadline (m : store) (c : search_cycle) (now : Z) : option store :=
  if reached (cy_deadline c) now then
    let had_attempts := negb (is_nil (offers_of m (cy_id c))) in
    Some (put_cycle (close_cycle CY_expired now (why_closed had_attempts) c)
            (answer_offers OF_timed_out "matching_window_expired" now (cy_id c) m))
  else None.

(** The first candidate of the pool that had no offer in this cycle. *)
Definition next_candidate (m : store) (c : search_cycle) : option candidate :=
  List.find (fun k => negb (bool_decide (ca_driver_id k ∈ oa_driver_id <$> offers_of m (cy_id c))))
    (default [] (cy_ranked_pool c)).

Definition next_number (m : store) (cycle_id : Z) : Z :=
  foldr Z.max 0 (oa_attempt_number <$> offers_of m cycle_id) + 1.

(** The value tells whether a new offer was made. *)
Definition _advance_locked (m : store) (c : search_cycle) (a : offer_attempt) (outcome : OfferStatus)
    (now : Z) : result trip_error (store * bool) :=
  let m := put_offer (respond outcome now None a) m in
  match _close_cycle_at_deadline m c now with
  | Some m => Ok (m, false)
  | None =>
      match next_candidate m c with
      | None =>
          Ok (put_cycle (close_cycle CY_expired now
                           (why_closed (negb (is_nil (offers_of m (cy_id c))))) c) m, false)
      | Some k =>
          let* m := _insert_offer m (cy_id c) k (next_number m (cy_id c)) now in
          Ok (m, true)
      end
  end.

(** The status of the cycle after an operation on it. *)
Definition cycle_status_text (m : store) (id : Z) : string :=
  match List.find (fun c => cy_id c =? id) (st_cycles m) with
  | Some c => match cy_status c with
              | CY_searching => "searching" | CY_converting => "converting"
              | CY_completed => "completed" | CY_expired => "expired" | CY_cancelled => "cancelled"
              end%string
  | None => ""%string
  end.

Definition request_status_text (s : RequestStatus) : string :=
  match s with
  | RQ_searching => "searching" | RQ_converting => "converting"
  | RQ_converted => "converted" | RQ_cancelled => "cancelled"
  end%string.

(** The branch for an offer that is still actionable. *)
Definition answer_active (m : store) (c : search_cycle) (a : offer_attempt) (now : Z)
    : result trip_error (store * string) :=
  if bool_decide (oa_status a = OF_accepting) then Ok (m, "accepting"%string)
  else if is_some (oa_response_deadline a) && negb (reached (oa_response_deadline a) now)
  then Ok (m, "offered"%string)
  else
    let* r := _advance_locked m c a OF_timed_out now in
    Ok (r.1, cycle_status_text r.1 (cy_id c)).

Section dispatch.
Context `{Ranker}.

(** The pool of the cycle, taken from the ranking the first time. *)
Definition pool_of (m : store) (r : ride_request) (c : search_cycle) : search_cycle * list candidate :=
  match cy_ranked_pool c with
  | Some pool => (c, pool)
  | None => let pool := _candidate_snapshot (ranked_candidates m r) in (set_pool pool c, pool)
  end.

(** The first offer of the cycle. *)
Definition first_offer (m : store) (r : ride_request) (c : search_cycle) (now : Z)
    : result trip_error (store * string) :=
  let '(c, pool) := pool_of m r c in
  match pool with
  | [] => Ok (put_cycle (close_cycle CY_expired now (Some NO_MATCH_NO_SUPPLY) c) m, "no_supply"%string)
  | k :: _ =>
      match _insert_offer (put_cycle c m) (cy_id c) k 1 now with
      | Ok m => Ok (m, "offered"%string)
      | Err IntegrityError =>
          match active_offer m (cy_id c) with
          | Some a => Ok (m, if decide (oa_status a = OF_accepting) then "accepting" else "offered")%string
          | None => Err IntegrityError
          end
      | Err e => Err e
      end
  end.

Definition start_search (m : store) (public_id : string) (now : Z) : result trip_error (store * string) :=
  let* r := of_option (RideRequestDispatchError "request_not_found") (request_by_public_id m public_id) in
  if negb (bool_decide (rr_status r = RQ_searching)) then Ok (m, request_status_text (rr_status r))
  else match _cycle_for_request m r with
  | None => Ok (m, "no_active_search"%string)
  | Some c =>
      if negb (bool_decide (cy_status c = CY_searching)) then Ok (m, "no_active_search"%string)
      else match _close_cycle_at_deadline m c now with
      | Some m => Ok (m, "expired"%string)
      | None =>
          match active_offer m (cy_id c) with
          | Some a => answer_active m c a now
          | None => first_offer m r c now
          end
      end
  end.

(** ** Retry *)

(** INSERT of a cycle: uq_search_cycle_number and uq_search_cycle_active; the key
    of a cycle is made of the request's key and its number. *)
Definition insert_cycle (m : store) (r : ride_request) (number window now : Z) : result trip_error store :=
  require negb (existsb (fun c => (cy_ride_request_id c =? rr_id r)
                                  && ((cy_cycle_number c =? number)
                                      || bool_decide (cy_status c ∈ ACTIVE_CYCLE_STATUSES)))
                  (st_cycles m)) else IntegrityError ;;
  let c := {|
    cy_id := st_next m;
    cy_ride_request_id := rr_id r;
    cy_cycle_number := number;
    cy_deadline := Some (now + seconds window);
    cy_is_deleted := false;
    cy_status := CY_searching;
    cy_completed_at := None;
    cy_terminal_reason := None;
    cy_ranked_pool := None |} in
  Ok (take_id (with_search m (st_requests m) (st_cycles m ++ [c]) (st_offers m))).

Definition count_retry (r : ride_request) : ride_request :=
  set_request (rr_status r) (rr_cancelled_at r) (rr_converted_at r) (rr_retry_count r + 1) r.

(** A new cycle after the last one ended. *)
Definition open_cycle (m : store) (r : ride_request) (current : option search_cycle) (window now : Z)
    : result trip_error (store * string) :=
  let number := match current with Some c => cy_cycle_number c + 1 | None => 1 end in
  let* m := insert_cycle (put_request (count_retry r) m) r number window now in
  start_search m (rr_public_id r) now.

(** The cycle is still searching. *)
Definition retry_current (m : store) (r : ride_request) (c : search_cycle) (now : Z)
    : result trip_error (store * string) :=
  match _close_cycle_at_deadline m c now with
  | Some m => Ok (m, "expired"%string)
  | None =>
      match active_offer m (cy_id c) with
      | Some a =>
          require negb (bool_decide (oa_status a = OF_accepting))
            else (RideRequestDispatchError "accept_in_progress") ;;
          answer_active m c a now
      | None => start_search m (rr_public_id r) now
      end
  end.

Definition retry_search (m : store) (public_id : string) (owner_user_id window now : Z)
    : result trip_error (store * string) :=
  let* r := of_option (RideRequestDispatchError "request_not_found") (request_by_public_id m public_id) in
  require rr_user_id r =? owner_user_id else (RideRequestDispatchError "request_not_found") ;;
  require bool_decide (rr_status r = RQ_searching) else (RideRequestDispatchError "request_not_retryable") ;;
  match _cycle_for_request m r with
  | None => open_cycle m r None window now
  | Some c =>
      match cy_status c with
      | CY_searching => retry_current m r c now
      | CY_expired | CY_cancelled => open_cycle m r (Some c) window now
      | _ => dispatch_error "request_not_retryable"
      end
  end.

(** ** Cancellation and refusal *)

Definition cancel_cycle (m : store) (c : search_cycle) (now : Z) : store :=
  put_cycle (close_cycle CY_cancelled now (Some "rider_cancelled"%string) c)
    (answer_offers OF_withdrawn "rider_cancelled" now (cy_id c) m).

(** The value tells whether the call was a replay. *)
Definition cancel_request (m : store) (public_id : string) (owner_user_id now : Z)
    : result trip_error (store * bool) :=
  let* r := of_option (RideRequestDispatchError "request_not_found") (request_by_public_id m public_id) in
  require rr_user_id r =? owner_user_id else (RideRequestDispatchError "request_not_found") ;;
  match rr_status r with
  | RQ_converted => dispatch_error "already_assigned"
  | RQ_cancelled => Ok (m, true)
  | RQ_converting => dispatch_error "request_not_cancellable"
  | RQ_searching =>
      let m1 := match _cycle_for_request m r with
                | Some c => if decide (cy_status c = CY_searching) then cancel_cycle m c now else m
                | None => m
                end in
      Ok (put_request (set_request RQ_cancelled (Some now) (rr_converted_at r) (rr_retry_count r) r) m1, false)
  end.

(** The cycle of a request that is still being matched. *)
Definition searching_cycle (m : store) (r : ride_request) : option search_cycle :=
  if negb (bool_decide (rr_status r = RQ_searching)) then None
  else match _cycle_for_request m r with
  | Some c => if decide (cy_status c = CY_searching) then Some c else None
  | None => None
  end.

Definition decline_offer (m : store) (public_id : string) (driver_id now : Z)
    : result trip_error (store * bool) :=
  match (r ← request_by_public_id m public_id;
         c ← searching_cycle m r;
         a ← offered_to m (cy_id c) driver_id;
         Some (c, a)) with
  | None => Ok (m, false)
  | Some (c, a) => let* p := _advance_locked m c a OF_declined now in Ok (p.1, true)
  end.


(** ** Recovery *)

(** Ascending, an absent instant last. *)
Definition at_or_before (a b : option Z) : bool :=
  match a, b with
  | Some x, Some y => x <=? y
  | _, None => true
  | None, Some _ => false
  end.
Definition stale_before (x y : option Z * option Z) : bool :=
  at_or_before x.1 y.1 && (negb (at_or_before y.1 x.1) || at_or_before x.2 y.2).

Fixpoint insert_sorted {A} (le : A -> A -> bool) (x : A) (l : list A) : list A :=
  match l with
  | [] => [x]
  | y :: l => if le x y then x :: y :: l else y :: insert_sorted le x l
  end.
Definition order_by {A} (le : A -> A -> bool) (l : list A) : list A := foldr (insert_sorted le) [] l.

(** An offer joined with its cycle. *)
Definition with_cycle (m : store) (a : offer_attempt) : list (search_cycle * offer_attempt) :=
  (fun c => (c, a)) <$> List.filter (fun c => cy_id c =? oa_cycle_id a) (st_cycles m).

Definition stale (now : Z) (p : search_cycle * offer_attempt) : bool :=
  bool_decide (oa_status p.2 = OF_offered)
  && (reached (oa_response_deadline p.2) now || reached (cy_deadline p.1) now).

Definition deadlines (p : search_cycle * offer_attempt) : option Z * option Z :=
  (cy_deadline p.1, oa_response_deadline p.2).

Definition stale_offers (m : store) (batch : nat) (now : Z) : list (search_cycle * offer_attempt) :=
  take batch (order_by (fun p q => stale_before (deadlines p) (deadlines q))
    (List.filter (stale now) (List.concat (with_cycle m <$> st_offers m)))).

(** Expired, advanced and closed. *)
Record recovery : Type := { re_expired : Z; re_advanced : Z; re_closed : Z }.
Definition count_recovery (expired advanced closed : Z) (n : recovery) : recovery := {|
  re_expired := re_expired n + expired;
  re_advanced := re_advanced n + advanced;
  re_closed := re_closed n + closed;
|}.

(** The row is read again under the lock of its request. *)
Definition revalidated (m : store) (c : search_cycle) (a : offer_attempt)
    : option (search_cycle * offer_attempt) :=
  r ← request_by_id m (cy_ride_request_id c);
  c ← searching_cycle m r;
  a ← List.find (fun x => (oa_id x =? oa_id a) && (oa_cycle_id x =? cy_id c)
                          && bool_decide (oa_status x = OF_offered)) (st_offers m);
  Some (c, a).

(** A failure is rolled back and skipped. *)
Definition recover_offer (now : Z) (s : store * recovery) (p : search_cycle * offer_attempt)
    : store * recovery :=
  let '(m, n) := s in
  match revalidated m p.1 p.2 with
  | None => (m, n)
  | Some (c, a) =>
      match _close_cycle_at_deadline m c now with
      | Some m => (m, count_recovery 1 0 1 n)
      | None =>
          if is_some (oa_response_deadline a) && negb (reached (oa_response_deadline a) now) then (m, n)
          else match _advance_locked m c a OF_timed_out now with
          | Ok (m, true) => (m, count_recovery 1 1 0 n)
          | Ok (m, false) => (m, count_recovery 1 0 1 n)
          | Err _ => (m, n)
          end
      end
  end.

(** Searching requests with a searching cycle that made no offer, oldest first. *)
Definition without_offers (m : store) (r : ride_request) : bool :=
  bool_decide (rr_status r = RQ_searching) && negb (rr_is_deleted r)
  && existsb (fun c => (cy_ride_request_id c =? rr_id r) && bool_decide (cy_status c = CY_searching)
                       && negb (cy_is_deleted c) && is_nil (offers_of m (cy_id c))) (st_cycles m).
Definition unserved (m : store) (batch : nat) : list ride_request :=
  take batch (order_by (fun r s => rr_created_at r <=? rr_created_at s)
    (List.filter (without_offers m) (st_requests m))).

Definition recover_search (now : Z) (m : store) (r : ride_request) : store :=
  match start_search m (rr_public_id r) now with Ok p => p.1 | Err _ => m end.

Definition recover_expired (m : store) (batch : nat) (now : Z) : store * recovery :=
  let '(m, n) := fold_left (recover_offer now) (stale_offers m batch now)
                   (m, {| re_expired := 0; re_advanced := 0; re_closed := 0 |}) in
  (fold_left (recover_search now) (unserved m batch) m, n).


(** ** Acceptance *)

(** The members of the enum Currency. *)
Definition Currency : list string :=
  ["USD"; "EUR"; "GBP"; "XOF"; "XAF"; "NGN"; "KES"; "GHS"; "ZAR"; "UGX"]%string.

(** [str(None)] is the text None. *)
Definition str_of (s : option string) : string := default "None"%string s.
Definition decimal_of (d : option dec) : result trip_error dec :=
  of_option (DecimalError InvalidOperation) d.
Definition to_cents (d : dec) : result trip_error dec :=
  map_err DecimalError (quantize ROUND_HALF_EVEN (-2) d).

(** The comparisons of the invoice with the request, in order; the fare is read
    only when the ones before it agree. *)
Definition invoice_mismatch (i : invoice) (r : ride_request) : result trip_error bool :=
  let t := iv_terms i in
  if negb (String.eqb (it_service_code t) "transport"
           && String.eqb (it_service_reference t) (rr_public_id r)
           && (it_payer_user_id t =? rr_user_id r)) then Ok true
  else
    let* a := to_cents (micro (it_amount t)) in
    let* f := decimal_of (rr_fare_estimate_amount r) in
    let* f := to_cents f in
    Ok (negb (deqb a f
              && String.eqb (upper (it_currency t)) (upper (str_of (rr_currency_code r)))
              && String.eqb (lower (it_payment_method t)) (lower (str_of (rr_payment_method r)))
              && bool_decide (iv_status i = IV_pending))).

(** The invoice the metadata of the request names; [None] when it names none. *)
Definition wallet_invoice (m : store) (r : ride_request) : result trip_error (option string) :=
  match rr_wallet_invoice_id r with
  | None => Ok None
  | Some id =>
      if String.eqb id "" then Ok None
      else
        let* i := of_option (RideRequestDispatchError "wallet_invoice_unavailable")
                    (find_invoice_row (st_invoices m) id) in
        let* bad := invoice_mismatch i r in
        require negb bad else (RideRequestDispatchError "wallet_invoice_mismatch") ;;
        Ok (Some id)
  end.

Definition request_mode (r : ride_request) : string := lower (str_or (rr_booking_mode r) "instant").

Definition no_cancellation : cancellation := {|
  cn_reason := None; cn_reason_category := None; cn_safety_flag := false; cn_cancelled_stage := None;
  cn_fee := Some (cents 0); cn_initiated_by := None;
|}.
Definition confirmed_at (now : Z) : trip_times := {|
  tm_confirmed_at := Some now; tm_driver_assigned_at := None; tm_driver_en_route_at := None;
  tm_driver_arrived_at := None; tm_pickup_actual_time := None; tm_dropoff_actual_time := None;
  tm_completed_at := None; tm_cancelled_at := None;
|}.

(** The booking of a request. *)
Definition booking_of (id : Z) (new_ref : string) (r : ride_request) (c : search_cycle) (amount : dec)
    (currency : string) (now : Z) : trip := {|
  tb_info := {|
    ti_id := id;
    ti_reference := new_ref;
    ti_user_id := rr_user_id r;
    ti_provider_id := None;
    ti_pickup_time := Some (default now (rr_requested_pickup_time r));
    ti_pickup_mode := Some (if str_in (request_mode r) ["instant"; "scheduled"]%string
                            then request_mode r else "instant"%string);
    ti_passenger_count := if rr_passenger_count r =? 0 then 1 else rr_passenger_count r;
    ti_final_price := amount;
    ti_currency := currency;
    ti_payment_method := rr_payment_method r;
    ti_ride_request_id := Some (rr_id r);
    ti_search_cycle_id := Some (cy_id c);
    ti_created_at := now |};
  tb_status := CONFIRMED;
  tb_no_match_reason := None;
  tb_driver_id := None;
  tb_vehicle_id := None;
  tb_times := confirmed_at now;
  tb_cancel := no_cancellation;
  tb_meta := {|
    md_booking_mode := Some (request_mode r); md_matching_started_at := None; md_cancellation := None;
    md_no_show := None; md_driver_credits := []; md_no_match_cause := None;
    md_driver_cancellations := []; md_completed_by := None |};
  tb_log := [];
  tb_is_deleted := false;
|}.

(** The CHECK constraints of an inserted booking. *)
Definition insertable (b : trip) : bool :=
  let i := tb_info b in
  chk_no_match_reason b
  && match ti_pickup_time i with Some p => ti_created_at i - minutes 5 <? p | None => true end
  && (0 <? ti_passenger_count i) && (ti_passenger_count i <=? 100)
  && dleb dzero (ti_final_price i).

(** ix_booking_reference, ix_booking_ride_request and ix_booking_search_cycle. *)
Definition collides (b c : trip) : bool :=
  String.eqb (reference b) (reference c)
  || (is_some (ti_ride_request_id (tb_info b))
      && bool_decide (ti_ride_request_id (tb_info b) = ti_ride_request_id (tb_info c)))
  || (is_some (ti_search_cycle_id (tb_info b))
      && bool_decide (ti_search_cycle_id (tb_info b) = ti_search_cycle_id (tb_info c))).

Definition insert_booking (m : store) (b : trip) : result trip_error store :=
  require insertable b && negb (existsb (collides b) (st_trips m)) else IntegrityError ;;
  Ok (take_id (with_trips m (st_trips m ++ [b]))).

(** chk_payment_amount_positive, and payment_method is not null. *)
Definition insert_payment (m : store) (p : trip_payment) : result trip_error store :=
  require dltb dzero (tp_amount p) && is_some (tp_payment_method p) else IntegrityError ;;
  Ok (with_payments m (st_payments m ++ [p])).

(** The statuses in flight. *)
Definition in_flight (m : store) (r : ride_request) (c : search_cycle) (a : offer_attempt) (now : Z) : store :=
  put_request (set_request RQ_converting (rr_cancelled_at r) (rr_converted_at r) (rr_retry_count r) r)
    (put_cycle {| cy_id := cy_id c; cy_ride_request_id := cy_ride_request_id c;
                  cy_cycle_number := cy_cycle_number c; cy_deadline := cy_deadline c;
                  cy_is_deleted := cy_is_deleted c; cy_status := CY_converting;
                  cy_completed_at := cy_completed_at c; cy_terminal_reason := cy_terminal_reason c;
                  cy_ranked_pool := cy_ranked_pool c |}
      (put_offer (respond OF_accepting now None a) m)).

(** The other actionable offers of the cycle. *)
Definition skip_others (m : store) (a : offer_attempt) (now : Z) : store :=
  with_search m (st_requests m) (st_cycles m)
    (update_where (fun x => (oa_cycle_id x =? oa_cycle_id a) && negb (oa_id x =? oa_id a) && actionable x)
       (respond OF_skipped now (Some "another_driver_won"%string)) (st_offers m)).

(** What a successful claim writes. *)
Definition converted (m : store) (r : ride_request) (c : search_cycle) (a : offer_attempt) (now : Z) : store :=
  put_request (set_request RQ_converted (rr_cancelled_at r) (Some now) (rr_retry_count r) r)
    (put_cycle (close_cycle CY_completed now None c)
      (skip_others (put_offer (respond OF_won now None a) m) a now)).

(** Booking, payment obligation, claim and conversion, in one transaction; the
    value is the id of the booking. *)
Definition convert (m : store) (r : ride_request) (c : search_cycle) (a : offer_attempt) (amount : dec)
    (currency : string) (wallet_invoice_id : option string) (who : actor) (new_ref : string) (now : Z)
    : result trip_error (store * Z) :=
  let b := booking_of (st_next m) new_ref r c amount currency now in
  let* m1 := insert_booking m b in
  let* m2 := insert_payment m1 {| tp_booking_id := tid b; tp_amount := amount;
                                  tp_payment_method := rr_payment_method r;
                                  tp_wallet_invoice_id := wallet_invoice_id |} in
  let* p := claim m2 new_ref (oa_driver_id a) (oa_vehicle_id a) who false now in
  Ok (converted p.1 r c a now, p.2).

(** The offer ends and the next candidate is asked: committed, then the error. *)
Definition advance_and_refuse {A} (m : store) (c : search_cycle) (a : offer_attempt) (outcome : OfferStatus)
    (now : Z) (e : trip_error) : store * result trip_error A :=
  match _advance_locked m c a outcome now with
  | Ok p => (p.1, Err e)
  | Err e' => (m, Err e')
  end.

(** The except clause of a conversion. *)
Definition conversion_error (e : trip_error) : trip_error :=
  RideRequestDispatchError match e with
    | DispatchClaimError kind => kind
    | _ => "assignment_conflict"
    end.
Definition is_conversion_error (e : trip_error) : bool :=
  match e with DispatchClaimError _ | IntegrityError => true | _ => false end.

(** The current offer of a searching cycle, answered in time with the driver's
    current vehicle. *)
Definition accept_current (m : store) (r : ride_request) (c : search_cycle) (a : offer_attempt)
    (who : actor) (new_ref : string) (now : Z) : store * result trip_error Z :=
  let m' := in_flight m r c a now in
  match (let* amount := to_cents (default dzero (rr_fare_estimate_amount r)) in
         let currency := upper (str_or (rr_currency_code r) "USD") in
         require str_in currency Currency else (RideRequestDispatchError "invalid_currency") ;;
         let* inv := wallet_invoice m' r in
         Ok (amount, currency, inv)) with
  | Err e => (m, Err e)
  | Ok (amount, currency, inv) =>
      match convert m' r c a amount currency inv who new_ref now with
      | Ok p => (p.1, Ok p.2)
      | Err e =>
          if is_conversion_error e
          then advance_and_refuse m c a OF_claim_failed now (conversion_error e)
          else (m, Err e)
      end
  end.

Definition paired (m : store) (driver_id vehicle_id : Z) : bool :=
  existsb (fun p => (pr_driver_id p =? driver_id) && (pr_vehicle_id p =? vehicle_id)
                    && negb (is_some (pr_ended_at p)) && negb (pr_is_deleted p))
    (fl_pairings (st_fleet m)).

(** The offer the driver answers: still his, for the same vehicle. *)
Definition accept_answer (m : store) (r : ride_request) (c : search_cycle) (driver_id vehicle_id : Z)
    (who : actor) (new_ref : string) (now : Z) : store * result trip_error Z :=
  match offered_to m (cy_id c) driver_id with
  | None => (m, dispatch_error "offer_unavailable")
  | Some a =>
      if negb (oa_vehicle_id a =? vehicle_id) then (m, dispatch_error "offer_unavailable")
      else if negb (is_some (oa_response_deadline a)) || reached (oa_response_deadline a) now
      then advance_and_refuse m c a OF_timed_out now (RideRequestDispatchError "offer_expired")
      else if negb (paired m driver_id vehicle_id)
      then advance_and_refuse m c a OF_claim_failed now (RideRequestDispatchError "vehicle_assignment_changed")
      else accept_current m r c a who new_ref now
  end.

(** [new_ref] is the reference drawn for the booking; the value is its id. *)
Definition accept_offer (m : store) (public_id : string) (driver_id vehicle_id : Z) (who : actor)
    (new_ref : string) (now : Z) : store * result trip_error Z :=
  match request_by_public_id m public_id with
  | None => (m, dispatch_error "request_not_found")
  | Some r =>
      if decide (rr_status r = RQ_converted) then (m, dispatch_error "already_accepted")
      else if negb (bool_decide (rr_status r = RQ_searching)) then (m, dispatch_error "request_not_searchable")
      else match searching_cycle m r with
      | None => (m, dispatch_error "offer_unavailable")
      | Some c =>
          match _close_cycle_at_deadline m c now with
          | Some m => (m, dispatch_error "matching_window_expired")
          | None => accept_answer m r c driver_id vehicle_id who new_ref now
          end
      end
  end.

End dispatch.
End RideRequestDispatchService.
