(* ===== verification/RideRequests.v ===== *)
(** The creation of a ride request: the part of
    app/transport/services/ride_request_service.py after the payload is validated
    and priced, from the idempotent replay to the commit. The invoice of the ride is
    created by the wallet in the same transaction, before any driver is asked. *)

From stdpp Require Import pretty.
From S2P Require Import Prelude Tables Decimal Ledger InvoiceModel Invoices TripModel Trips RideDispatch.

Local Open Scope Z_scope.

Module RideRequestService.
Import RideRequestDispatchService(seconds).
Import MarketplaceInvoiceService(invoice_request, create_invoice).

(** What the validated payload gives: the accepted fare in hundredths, the trip
    hash, and the window of app configuration. *)
Record draft : Type := {
  rd_owner_user_id : Z;
  rd_key : string;
  rd_requested_pickup_time : Z;
  rd_passenger_count : Z;
  rd_fare_cents : Z;
  rd_currency_code : string;
  rd_payment_method : string;
  rd_trip_hash : string;
  rd_booking_mode : string;
}.

(** The dictionary returned. *)
Record created : Type := {
  cd_request : ride_request;
  cd_cycle : option search_cycle;
  cd_replayed : bool;
}.

Definition by_owner_key (d : draft) (r : ride_request) : bool :=
  (rr_user_id r =? rd_owner_user_id d) && String.eqb (rr_idempotency_key r) (rd_key d).

Definition first_cycle (m : store) (request_id : Z) : option search_cycle :=
  List.find (fun c => (cy_ride_request_id c =? request_id) && (cy_cycle_number c =? 1)
                      && negb (cy_is_deleted c)) (st_cycles m).

Definition new_request (id : Z) (public_id : string) (now : Z) (d : draft) : ride_request := {|
  rr_id := id;
  rr_public_id := public_id;
  rr_user_id := rd_owner_user_id d;
  rr_idempotency_key := rd_key d;
  rr_requested_pickup_time := Some (rd_requested_pickup_time d);
  rr_passenger_count := rd_passenger_count d;
  rr_fare_estimate_amount := Some (cents (rd_fare_cents d));
  rr_currency_code := Some (rd_currency_code d);
  rr_payment_method := Some (rd_payment_method d);
  rr_created_at := now;
  rr_is_deleted := false;
  rr_trip_hash := Some (rd_trip_hash d);
  rr_booking_mode := Some (rd_booking_mode d);
  rr_wallet_invoice_id := None;
  rr_status := RQ_searching;
  rr_cancelled_at := None;
  rr_converted_at := None;
  rr_retry_count := 0;
|}.

(** request_metadata["wallet_invoice_id"] *)
Definition set_wallet_invoice (id : string) (r : ride_request) : ride_request := {|
  rr_id := rr_id r; rr_public_id := rr_public_id r; rr_user_id := rr_user_id r;
  rr_idempotency_key := rr_idempotency_key r;
  rr_requested_pickup_time := rr_requested_pickup_time r;
  rr_passenger_count := rr_passenger_count r;
  rr_fare_estimate_amount := rr_fare_estimate_amount r; rr_currency_code := rr_currency_code r;
  rr_payment_method := rr_payment_method r; rr_created_at := rr_created_at r;
  rr_is_deleted := rr_is_deleted r; rr_trip_hash := rr_trip_hash r;
  rr_booking_mode := rr_booking_mode r; rr_wallet_invoice_id := Some id;
  rr_status := rr_status r; rr_cancelled_at := rr_cancelled_at r;
  rr_converted_at := rr_converted_at r; rr_retry_count := rr_retry_count r;
|}.

(** The columns and unique constraints of a request: Numeric(10, 2), String(3),
    String(50), String(128), the public id, and the key of the owner whether the
    row is deleted or not. *)
Definition insert_request (m : store) (r : ride_request) (d : draft) : result trip_error store :=
  require (Z.abs (rd_fare_cents d) <? 10000000000)
          && (Z.of_nat (String.length (rd_currency_code d)) <=? 3)
          && (Z.of_nat (String.length (rd_payment_method d)) <=? 50)
          && (Z.of_nat (String.length (rd_key d)) <=? 128) else ServiceUnavailableError ;;
  require negb (existsb (fun x => String.eqb (rr_public_id x) (rr_public_id r) || by_owner_key d x)
                  (st_requests m)) else IntegrityError ;;
  Ok (take_id (with_search m (st_requests m ++ [r]) (st_cycles m) (st_offers m))).

(** The invoice of a ride, which names the public id of its request. *)
Definition ride_invoice (r : ride_request) (d : draft) : invoice_request := {|
  MarketplaceInvoiceService.nq_idempotency_key :=
    ("transport-ride:" +:+ pretty (rd_owner_user_id d) +:+ ":" +:+ rd_key d)%string;
  MarketplaceInvoiceService.nq_service_code := "transport"%string;
  MarketplaceInvoiceService.nq_service_reference := rr_public_id r;
  MarketplaceInvoiceService.nq_payer_user_id := rd_owner_user_id d;
  MarketplaceInvoiceService.nq_amount := cents (rd_fare_cents d);
  MarketplaceInvoiceService.nq_currency := rd_currency_code d;
  MarketplaceInvoiceService.nq_payment_method := rd_payment_method d;
  MarketplaceInvoiceService.nq_settlement_timing := "pay_on_completion"%string;
  MarketplaceInvoiceService.nq_service_country_code := None;
  MarketplaceInvoiceService.nq_payer_country_code := None;
|}.

Section create.
Context (w : Ledger.store) (methods : list method_config).

Definition invoice_failed (e : invoice_error) : trip_error :=
  match e with
  | MarketplaceInvoiceError code => ValidationError code
  | Uncaught _ => ServiceUnavailableError
  end.

(** Request, invoice, first cycle, in one transaction. *)
Definition insert_all (m : store) (d : draft) (public_id invoice_id : string) (window now : Z)
    : result trip_error (store * created) :=
  let r := new_request (st_next m) public_id now d in
  let* m1 := insert_request m r d in
  let* p := map_err invoice_failed (create_invoice w methods (st_invoices m1) invoice_id (ride_invoice r d)) in
  let r := set_wallet_invoice (iv_id p.2) r in
  let m2 := RideRequestDispatchService.put_request r (with_invoices m1 p.1) in
  let* m3 := RideRequestDispatchService.insert_cycle m2 r 1 window now in
  Ok (m3, {| cd_request := r; cd_cycle := first_cycle m3 (rr_id r); cd_replayed := false |}).

Definition existing_request (m : store) (d : draft) : option ride_request :=
  List.find (fun r => by_owner_key d r && negb (rr_is_deleted r)) (st_requests m).

(** A row with the key is the answer, or a conflict. *)
Definition replay (m : store) (d : draft) (r : ride_request) : result trip_error (store * created) :=
  require bool_decide (rr_trip_hash r = Some (rd_trip_hash d)) else IdempotencyConflictError ;;
  Ok (m, {| cd_request := r; cd_cycle := first_cycle m (rr_id r); cd_replayed := true |}).

(** [public_id] and [invoice_id] are the UUIDs drawn. A constraint violation with no
    row of the key to answer with is a failure of the service. *)
Definition create_request (m : store) (d : draft) (public_id invoice_id : string) (window now : Z)
    : result trip_error (store * created) :=
  match existing_request m d with
  | Some r => replay m d r
  | None =>
      match insert_all m d public_id invoice_id window now with
      | Err IntegrityError => Err ServiceUnavailableError
      | r => r
      end
  end.

End create.
End RideRequestService.
