(* ===== verification/RidePayment.v ===== *)
(** The payment of a completed trip: the invoice and settlement part of
    PaymentService.process_payment (app/transport/services/payment_service.py) and
    of the driver's cash confirmation (app/transport/api/driver_routes.py). The
    copies transport keeps of the wallet's answer are left out: an invoice decides. *)

From S2P Require Import Prelude Tables Decimal Ledger KycLimits WalletService InvoiceModel Invoices TripModel.

Local Open Scope Z_scope.

Module PaymentService.
Import MarketplaceInvoiceService.

(** The terms transport asks an invoice for. *)
Definition booking_invoice (b : trip) (key : string) (amount : dec) (currency payment_method : string)
    : invoice_request := {|
  nq_idempotency_key := key;
  nq_service_code := "transport"%string;
  nq_service_reference := reference b;
  nq_payer_user_id := ti_user_id (tb_info b);
  nq_amount := amount;
  nq_currency := currency;
  nq_payment_method := payment_method;
  nq_settlement_timing := "pay_on_completion"%string;
  nq_service_country_code := None;
  nq_payer_country_code := None;
|}.

Definition booking_key (b : trip) : string := ("transport-booking:" +:+ reference b)%string.

(** [raw_invoice_id]: the reference the payment row or the booking metadata keeps. *)
Definition invoice_key (m : market) (b : trip) (raw_invoice_id : option string) : result invoice_error string :=
  match raw_invoice_id with
  | Some id =>
      if String.eqb id "" then Ok (booking_key b)
      else let* i := get_invoice m id in Ok (it_idempotency_key (iv_terms i))
  | None => Ok (booking_key b)
  end.

Definition _ensure_wallet_invoice_for_booking (m : market) (b : trip) (raw_invoice_id : option string)
    (amount : dec) (payment_method new_id : string) : result invoice_error (market * invoice) :=
  let* key := invoice_key m b raw_invoice_id in
  let* p := create_invoice (mk_wallet m) (mk_methods m) (mk_invoices m) new_id
              (booking_invoice b key amount (ti_currency (tb_info b)) payment_method) in
  Ok (Invoices.with_invoices p.1 m, p.2).

(** What transport tells the wallet about a booking. *)
Definition booking_context (b : trip) (amount : dec) (currency : string) : context := {|
  cx_payer_user_id := ti_user_id (tb_info b);
  cx_service_code := "transport"%string;
  cx_service_reference := reference b;
  cx_amount := amount;
  cx_currency := currency;
|}.

Section payment.
Context `{KycService} `{FraudScorer} `{FxRates} `{PinHash} (env : wallet_env).

(** The invoice is committed before it is settled. *)
Definition process_payment (m : market) (b : trip) (raw_invoice_id : option string) (final_price : dec)
    (new_id : string) (request_id : option string) : market * result invoice_error settlement :=
  match _ensure_wallet_invoice_for_booking m b raw_invoice_id final_price
          (lower (strip (default "" (ti_payment_method (tb_info b))))) new_id with
  | Err e => (m, Err e)
  | Ok (m1, i) =>
      settle_after_completion env m1 (iv_id i)
        (booking_context b final_price (ti_currency (tb_info b))) request_id
  end.

(** MarketplaceInvoiceService.find_invoice *)
Definition find_invoice (m : market) (service_code service_reference : string) : option invoice :=
  List.find (by_reference (lower (strip service_code)) (strip service_reference)) (mk_invoices m).

(** The invoice whose cash is confirmed: the recorded one, else that of the booking,
    else a new one. *)
Definition cash_invoice (m : market) (b : trip) (raw_invoice_id : option string) (amount : dec)
    (new_id : string) : result invoice_error (market * invoice) :=
  match raw_invoice_id with
  | Some id =>
      if String.eqb id "" then
        match find_invoice m "transport" (reference b) with
        | Some i => Ok (m, i)
        | None => _ensure_wallet_invoice_for_booking m b None amount "cash" new_id
        end
      else let* i := get_invoice m id in Ok (m, i)
  | None =>
      match find_invoice m "transport" (reference b) with
      | Some i => Ok (m, i)
      | None => _ensure_wallet_invoice_for_booking m b None amount "cash" new_id
      end
  end.

(** One transaction; the value tells whether the receipt had been recorded before. *)
Definition confirm_cash (m : market) (b : trip) (raw_invoice_id : option string) (amount : dec)
    (d : driver) (new_id : string) : result invoice_error (market * bool) :=
  let x := booking_context b amount (ti_currency (tb_info b)) in
  let* p := cash_invoice m b raw_invoice_id amount new_id in
  let* q := mark_due_after_completion p.1 (iv_id p.2) x (we_now env) in
  confirm_cash_receipt q.1 (iv_id p.2) x (dr_user_id d) (dr_id d) (Some (dr_driver_code d)) (we_now env).

End payment.
End PaymentService.
