(* ===== verification/TripLaws.v ===== *)
(** The invariant of trips and what every operation of Trips does to it: no driver
    and no vehicle is held by two bookings, a booking holds them only while it is
    active, and statuses move along the table of BookingService and three named
    shortcuts. *)

From S2P Require Import Prelude Tables Decimal InvoiceModel TripModel Trips.

Local Open Scope Z_scope.

Import AssignmentService.

(** Past a guard whose condition is not needed. *)
Ltac skip H := apply require_Ok in H; destruct H as [_ H].

(** * The invariant *)

Definition held (b : trip) : bool := is_some (tb_driver_id b) || is_some (tb_vehicle_id b).

Record row_ok (b : trip) : Prop := {
  ro_check : chk_no_match_reason b = true;
  ro_active : held b = true -> active b = true /\ live b = true;
  ro_pair : is_some (tb_driver_id b) = is_some (tb_vehicle_id b);
}.

Record trips_sound (m : store) : Prop := {
  ts_ids : NoDup (tid <$> st_trips m);
  ts_cabs : NoDup (vh_id <$> st_cabs m);
  ts_fresh : forall b, b ∈ st_trips m -> tid b < st_next m;
  ts_rows : forall b, b ∈ st_trips m -> row_ok b;
  ts_driver : forall b c d, b ∈ st_trips m -> c ∈ st_trips m ->
    tb_driver_id b = Some d -> tb_driver_id c = Some d -> tid b = tid c;
  ts_vehicle : forall b c v, b ∈ st_trips m -> c ∈ st_trips m ->
    tb_vehicle_id b = Some v -> tb_vehicle_id c = Some v -> tid b = tid c;
  ts_parked : forall b c v, b ∈ st_trips m -> c ∈ st_cabs m ->
    tb_vehicle_id b = Some v -> vh_id c = v -> vh_is_available c = false;
}.

(** ** The lifecycle: the table of BookingService and the shortcuts around it *)

(** Three operations write a status without asking the table: the driver's action
    [complete], a withdrawal by the driver, and a cancellation at the pickup. *)
Inductive shortcut : Type := early_completion | driver_withdraws | cancel_at_pickup.

Definition shortcut_edges (k : shortcut) (s : BookingStatus) : list BookingStatus :=
  match k, s with
  | early_completion, (ASSIGNED | DRIVER_EN_ROUTE | PICKUP_ARRIVED) => [COMPLETED]
  | driver_withdraws, (ASSIGNED | DRIVER_EN_ROUTE | PICKUP_ARRIVED) => [NO_MATCH]
  | cancel_at_pickup, PICKUP_ARRIVED => [CANCELLED]
  | _, _ => []
  end.

(** A step of the table, or one of the shortcuts in [allow]. *)
Definition edge (allow : shortcut -> bool) (s t : BookingStatus) : Prop :=
  t ∈ BookingService.STATUS_TRANSITIONS s
  \/ exists k, allow k = true /\ t ∈ shortcut_edges k s.

Definition moves (allow : shortcut -> bool) : BookingStatus -> BookingStatus -> Prop := rtc (edge allow).

#[export] Instance moves_preorder allow : PreOrder (moves allow).
Proof. unfold moves. apply _. Qed.

Lemma moves_one allow s t : edge allow s t -> moves allow s t.
Proof. intros H. by apply rtc_once. Qed.

Lemma edge_table allow s t : t ∈ BookingService.STATUS_TRANSITIONS s -> edge allow s t.
Proof. by left. Qed.

Lemma edge_shortcut allow k s t : allow k = true -> t ∈ shortcut_edges k s -> edge allow s t.
Proof. intros. right. by exists k. Qed.

Lemma moves_mono (allow allow' : shortcut -> bool) s t :
  (forall k, allow k = true -> allow' k = true) -> moves allow s t -> moves allow' s t.
Proof.
  intros Ha. apply rtc_subrel. intros x y [H|(k & Hk & H)]; [by left|right; exists k; auto].
Qed.

Definition table_only : shortcut -> bool := fun _ => false.

Lemma moves_table s t : moves table_only s t -> rtc (tstep BookingService.STATUS_TRANSITIONS) s t.
Proof. apply rtc_subrel. by intros x y [H|(k & [=] & _)]. Qed.

Lemma moves_final allow s t : s ∈ TERMINAL_RELEASE_STATUSES -> moves allow s t -> t = s.
Proof.
  intros Hs Hm. destruct Hm as [|s u t [H|(k & _ & H)] _]; [done|exfalso..]; [|destruct k];
    destruct s; set_solver.
Qed.

Section effects.
Context (allow : shortcut -> bool).

(** What an operation on trips leaves alone, and what it may change. *)
Record trip_effect (m m' : store) : Prop := {
  te_sound : trips_sound m';
  te_moves : forall b, b ∈ st_trips m -> exists b', b' ∈ st_trips m' /\ tid b' = tid b
               /\ moves allow (tb_status b) (tb_status b');
  te_info : tb_info <$> st_trips m' = tb_info <$> st_trips m;
  te_fleet : st_fleet m' = st_fleet m;
  te_requests : st_requests m' = st_requests m;
  te_cycles : st_cycles m' = st_cycles m;
  te_offers : st_offers m' = st_offers m;
  te_payments : st_payments m' = st_payments m;
  te_invoices : st_invoices m' = st_invoices m;
  te_next : st_next m' = st_next m;
}.

Lemma trip_effect_refl m : trips_sound m -> trip_effect m m.
Proof. split; try done. intros b Hb. by exists b. Qed.

Lemma trip_effect_trans m1 m2 m3 : trip_effect m1 m2 -> trip_effect m2 m3 -> trip_effect m1 m3.
Proof.
  intros [? Hm1 ? ? ? ? ? ? ? ?] [? Hm2 ? ? ? ? ? ? ? ?]. split; try congruence.
  intros b Hb. destruct (Hm1 b Hb) as (b' & Hb' & ? & ?).
  destruct (Hm2 b' Hb') as (b'' & Hb'' & ? & ?).
  exists b''. split_and!; [done|congruence|by etrans].
Qed.

(** Only trips, vehicles and the next id matter to the invariant. *)
Lemma trips_sound_frame m m' : st_trips m' = st_trips m -> st_cabs m' = st_cabs m ->
  st_next m <= st_next m' -> trips_sound m -> trips_sound m'.
Proof.
  intros Et Ec Hn [? ? Hf ? ? ? ?]. split; rewrite ?Et, ?Ec; try done.
  intros b Hb. specialize (Hf b Hb). lia.
Qed.

(** * Rows *)

Lemma find_trip_elem m id b : find_trip m id = Some b -> b ∈ st_trips m /\ tid b = id.
Proof. unfold find_trip. intros [H1%list_elem_of_In H2%Z.eqb_eq]%List.find_some. done. Qed.

Lemma find_trip_of m b : trips_sound m -> b ∈ st_trips m -> find_trip m (tid b) = Some b.
Proof. intros Hs Hb. by apply (find_key tid); [apply ts_ids|]. Qed.

Lemma elem_of_put_trip m b b' r : tid b' = tid b ->
  r ∈ st_trips (put_trip m b') -> r = b' \/ (r ∈ st_trips m /\ tid r <> tid b).
Proof.
  intros E. unfold put_trip. simpl. rewrite elem_of_update. intros (z & Hz & ->).
  destruct (Z.eqb_spec (tid z) (tid b')); [by left|right; by rewrite <- E].
Qed.

Lemma put_trip_elem m b b' : trips_sound m -> b ∈ st_trips m -> tid b' = tid b ->
  b' ∈ st_trips (put_trip m b').
Proof.
  intros Hs Hb E. unfold put_trip. simpl. apply elem_of_update. exists b. split; [done|].
  by rewrite <- E, Z.eqb_refl.
Qed.

(** A row that keeps its assignment, gives it up, or takes a driver and a vehicle
    that no other row holds. *)
Inductive reassign (m : store) (b b' : trip) : Prop :=
  | keeps : tb_driver_id b' = tb_driver_id b -> tb_vehicle_id b' = tb_vehicle_id b ->
      (held b = true -> active b' = true /\ live b' = true) -> reassign m b b'
  | frees : tb_driver_id b' = None -> tb_vehicle_id b' = None -> reassign m b b'
  | takes d v : tb_driver_id b' = Some d -> tb_vehicle_id b' = Some v ->
      active b' = true -> live b' = true ->
      (forall r, r ∈ st_trips m -> tid r <> tid b ->
         tb_driver_id r <> Some d /\ tb_vehicle_id r <> Some v) ->
      (forall c, c ∈ st_cabs m -> vh_id c = v -> vh_is_available c = false) -> reassign m b b'.

Lemma reassign_apart m b b' r :
  trips_sound m -> b ∈ st_trips m -> r ∈ st_trips m -> tid r <> tid b -> reassign m b b' ->
  (forall d, tb_driver_id b' = Some d -> tb_driver_id r <> Some d)
  /\ (forall v, tb_vehicle_id b' = Some v -> tb_vehicle_id r <> Some v).
Proof.
  intros Hs Hb Hr Hn [Hd Hv _|Hd Hv|d v Hd Hv _ _ Ho _]; rewrite Hd, Hv; [|done|].
  - split; intros x Hx Hrx; apply Hn.
    + by eapply (ts_driver m Hs r b).
    + by eapply (ts_vehicle m Hs r b).
  - destruct (Ho r Hr Hn). split; congruence.
Qed.

Lemma reassign_parked m b b' c v :
  trips_sound m -> b ∈ st_trips m -> reassign m b b' -> c ∈ st_cabs m ->
  tb_vehicle_id b' = Some v -> vh_id c = v -> vh_is_available c = false.
Proof.
  intros Hs Hb [_ Hv _|_ Hv|d u _ Hv _ _ _ Hp] Hc; rewrite Hv; [|done|].
  - by apply (ts_parked m Hs b c).
  - intros [= <-]. by apply Hp.
Qed.

Lemma reassign_row m b b' :
  row_ok b -> chk_no_match_reason b' = true -> reassign m b b' -> row_ok b'.
Proof.
  intros [_ Ha Hp] Hc Hr. unfold held in *.
  split; [done|unfold held|]; destruct Hr as [Hd Hv Hk|Hd Hv|d v Hd Hv Hact Hlive];
    rewrite Hd, Hv; done.
Qed.

Lemma put_trip_effect m b b' :
  trips_sound m -> b ∈ st_trips m -> tb_info b' = tb_info b ->
  chk_no_match_reason b' = true -> reassign m b b' -> moves allow (tb_status b) (tb_status b') ->
  trip_effect m (put_trip m b').
Proof.
  intros Hs Hb Ei Hc Hr Hm. assert (E : tid b' = tid b) by (unfold tid; congruence).
  assert (Hsplit := fun r => elem_of_put_trip m b b' r E). split; try done.
  - split.
    + unfold put_trip. simpl. rewrite E. unfold update_where.
      rewrite <- list_fmap_compose. erewrite list_fmap_ext; [by apply (ts_ids m)|].
      intros i r Hi. simpl. destruct (Z.eqb_spec (tid r) (tid b)); congruence.
    + by apply (ts_cabs m).
    + intros r [->|[Hin _]]%Hsplit; simpl; [rewrite E|]; by apply (ts_fresh m).
    + intros r [->|[Hin _]]%Hsplit; [|by apply (ts_rows m)].
      exact (reassign_row m b b' (ts_rows m Hs b Hb) Hc Hr).
    + intros r s d [->|[Hr' Hn]]%Hsplit [->|[Hs' Hn']]%Hsplit H1 H2; [done| | |].
      * exfalso. by eapply (proj1 (reassign_apart m b b' s Hs Hb Hs' Hn' Hr)).
      * exfalso. by eapply (proj1 (reassign_apart m b b' r Hs Hb Hr' Hn Hr)).
      * by eapply (ts_driver m Hs r s d).
    + intros r s d [->|[Hr' Hn]]%Hsplit [->|[Hs' Hn']]%Hsplit H1 H2; [done| | |].
      * exfalso. by eapply (proj2 (reassign_apart m b b' s Hs Hb Hs' Hn' Hr)).
      * exfalso. by eapply (proj2 (reassign_apart m b b' r Hs Hb Hr' Hn Hr)).
      * by eapply (ts_vehicle m Hs r s d).
    + intros r c v [->|[Hr' Hn]]%Hsplit Hin H1 H2; [by eapply reassign_parked|].
      by eapply (ts_parked m Hs r c).
  - intros r Hr'. destruct (decide (tid r = tid b)) as [Eq|Hne].
    + assert (r = b) as -> by (apply (key_unique tid (st_trips m)); [by apply ts_ids|done..]).
      exists b'. split_and!; [by eapply put_trip_elem|done|done].
    + exists r. split_and!; [|done|done]. unfold put_trip. simpl. rewrite E.
      by apply (write_other tid).
  - unfold put_trip. simpl. rewrite E. unfold update_where. rewrite <- list_fmap_compose.
    apply list_fmap_ext. intros i r Hi. simpl. destruct (Z.eqb_spec (tid r) (tid b)) as [Eq|]; [|done].
    assert (r = b) as ->; [|done].
    apply (key_unique tid (st_trips m)); [by apply ts_ids|by eapply list_elem_of_lookup_2|done|done].
Qed.

Lemma save_trip_effect m b b' m' :
  trips_sound m -> b ∈ st_trips m -> save_trip m b' = Ok m' -> tb_info b' = tb_info b ->
  reassign m b b' -> moves allow (tb_status b) (tb_status b') -> trip_effect m m'.
Proof.
  intros Hs Hb Hw. unfold save_trip in Hw. destruct (chk_no_match_reason b') eqn:Hc; [|done].
  injection Hw as <-. intros. by eapply put_trip_effect.
Qed.

(** The row [b] of [m] after it was written as [b']. *)
Lemma save_trip_elem m b b' m' :
  trips_sound m -> b ∈ st_trips m -> save_trip m b' = Ok m' -> tb_info b' = tb_info b ->
  b' ∈ st_trips m' /\ m' = put_trip m b'.
Proof.
  unfold save_trip. destruct (chk_no_match_reason b'); [|done]. intros Hs Hb [= <-] E.
  split; [|done]. eapply put_trip_elem; [done|done|by unfold tid; rewrite E].
Qed.

Lemma check_of_save m b m' : save_trip m b = Ok m' -> chk_no_match_reason b = true.
Proof. unfold save_trip. by case_match. Qed.

Lemma guarded_update_Some m id cond f m' : guarded_update m id cond f = Ok (Some m') ->
  exists b, find_trip m id = Some b /\ cond b = true /\ save_trip m (f b) = Ok m'.
Proof.
  unfold guarded_update. destruct (find_trip m id) as [b|] eqn:Hf; [|by intros [=]].
  destruct (cond b) eqn:Hc; [|by intros [=]]. intros H. bind H as m1 Hm. injection H as <-.
  by exists b.
Qed.

(** A row written without its status, its assignment and its deletion mark. *)
Definition same_dispatch (b b' : trip) : Prop :=
  tb_info b' = tb_info b /\ tb_status b' = tb_status b /\ tb_driver_id b' = tb_driver_id b
  /\ tb_vehicle_id b' = tb_vehicle_id b /\ tb_is_deleted b' = tb_is_deleted b.

Lemma same_dispatch_reassign m b b' : row_ok b -> same_dispatch b b' -> reassign m b b'.
Proof.
  intros [_ Ha _] (? & Es & ? & ? & Ed). apply keeps; [done|done|]. intros Hh.
  destruct (Ha Hh). unfold active, live in *. by rewrite Es, Ed.
Qed.

Lemma save_same_effect m b b' m' :
  trips_sound m -> b ∈ st_trips m -> same_dispatch b b' -> save_trip m b' = Ok m' -> trip_effect m m'.
Proof.
  intros Hs Hb Hd Hw. eapply save_trip_effect; [done|done|done|by apply Hd| |].
  - apply same_dispatch_reassign; [by apply (ts_rows m)|done].
  - destruct Hd as (_ & -> & _). done.
Qed.

(** * Vehicles and events *)

Lemma with_events_effect m es : trips_sound m -> trip_effect m (with_events m es).
Proof.
  intros Hs. split; try done.
  - by eapply trips_sound_frame; [..|exact Hs].
  - intros b Hb. by exists b.
Qed.

Lemma capture_end_effect m id d at_ : trips_sound m -> trip_effect m (_capture_actual_end m id d at_).
Proof.
  intros Hs. unfold _capture_actual_end. repeat case_match; auto using trip_effect_refl, with_events_effect.
Qed.

Lemma with_cabs_effect m cs : trips_sound m -> vh_id <$> cs = vh_id <$> st_cabs m ->
  (forall b c v, b ∈ st_trips m -> c ∈ cs -> tb_vehicle_id b = Some v -> vh_id c = v ->
     vh_is_available c = false) -> trip_effect m (with_cabs m cs).
Proof.
  intros [] Hk Hc. split; try done; [|by intros b Hb; exists b].
  split; simpl; try done. by rewrite Hk.
Qed.

Lemma engaged_other_intro holds m id b :
  trips_sound m -> b ∈ st_trips m -> holds b = true -> tid b <> id -> held b = true ->
  engaged_other holds m id = true.
Proof.
  intros Hs Hb Hh Hn Hd. apply existsb_exists. exists b. rewrite list_elem_of_In in Hb.
  split; [done|]. apply list_elem_of_In in Hb.
  destruct (ro_active b (ts_rows m Hs b Hb) Hd) as [-> ->]. rewrite Hh.
  by destruct (Z.eqb_spec (tid b) id).
Qed.

Lemma held_vehicle b v : tb_vehicle_id b = Some v -> held b = true.
Proof. unfold held. intros ->. by rewrite orb_true_r. Qed.
Lemma held_driver b d : tb_driver_id b = Some d -> held b = true.
Proof. unfold held. by intros ->. Qed.

Lemma vehicle_engaged_intro m id b v :
  trips_sound m -> b ∈ st_trips m -> tb_vehicle_id b = Some v -> tid b <> id ->
  vehicle_engaged_other m v id = true.
Proof.
  intros Hs Hb Hv Hn. eapply engaged_other_intro; eauto using held_vehicle.
  unfold uses_vehicle. by apply bool_decide_eq_true.
Qed.

Lemma driver_engaged_intro m id b d :
  trips_sound m -> b ∈ st_trips m -> tb_driver_id b = Some d -> tid b <> id ->
  driver_engaged_other m d id = true.
Proof.
  intros Hs Hb Hv Hn. eapply engaged_other_intro; eauto using held_driver.
  unfold driven_by. by apply bool_decide_eq_true.
Qed.

Lemma free_vehicle_effect m id vo :
  trips_sound m -> (forall b, b ∈ st_trips m -> tid b = id -> tb_vehicle_id b = None) ->
  trip_effect m (free_vehicle m id vo).
Proof.
  intros Hs Hn. unfold free_vehicle. destruct vo as [v|]; [|by apply trip_effect_refl].
  apply with_cabs_effect; [done|by apply update_keys|]. intros b c u Hb (k & Hk & ->)%elem_of_update Hu Hc.
  case_match eqn:Hcond; [|by eapply (ts_parked m Hs)].
  exfalso. rewrite !andb_true_iff, !negb_true_iff in Hcond.
  destruct Hcond as [[[E%Z.eqb_eq _] _] He]. simpl in Hc. subst u.
  rewrite E in Hu. rewrite (vehicle_engaged_intro m id b v) in He; try done.
  intros Ht. rewrite (Hn b Hb Ht) in Hu. done.
Qed.

(** * Release *)

(** The step that gives up an assignment and frees the vehicle. *)
Lemma give_up_effect m id cond f m1 vo :
  trips_sound m -> guarded_update m id cond f = Ok (Some m1) ->
  (forall b, tb_info (f b) = tb_info b /\ tb_driver_id (f b) = None /\ tb_vehicle_id (f b) = None) ->
  (forall b, find_trip m id = Some b -> cond b = true -> moves allow (tb_status b) (tb_status (f b))) ->
  trip_effect m (free_vehicle m1 id vo).
Proof.
  intros Hs Hg Hf Hm. apply guarded_update_Some in Hg as (b & Hfind & Hc & Hsave).
  destruct (find_trip_elem _ _ _ Hfind) as [Hb Hid]. destruct (Hf b) as (Ei & Ed & Ev).
  assert (H1 : trip_effect m m1).
  { eapply save_trip_effect; [done|exact Hb|done|done| |by apply Hm]. by apply frees. }
  eapply trip_effect_trans; [exact H1|]. apply free_vehicle_effect; [by apply te_sound in H1|].
  destruct (save_trip_elem m b (f b) m1 Hs Hb Hsave Ei) as [_ ->].
  intros r [->|[_ Hn]]%(elem_of_put_trip m b) Hr; [done|congruence|by unfold tid; rewrite Ei].
Qed.

Lemma release_effect m id terminal now r :
  trips_sound m -> release m id terminal now = Ok r ->
  (forall b, find_trip m id = Some b -> moves allow (tb_status b) terminal) -> trip_effect m r.1.
Proof.
  intros Hs H Hm. unfold release in H. guard H as Ht. bind H as row Hrow. inv_ok Hrow.
  destruct (is_some (tb_driver_id row) || is_some (tb_vehicle_id row)) eqn:Ha;
    bind H as o Ho; bind H as m1 Hm1; inv_ok Hm1; subst o; injection H as <-; simpl.
  - assert (Hcap : forall x, trips_sound x ->
      trip_effect x (if decide (terminal = COMPLETED)
                     then _capture_actual_end x id (tb_driver_id row) now else x)).
    { intros x Hx. destruct (decide (terminal = COMPLETED)); [by apply capture_end_effect|by apply trip_effect_refl]. }
    assert (Hfree : trip_effect m m1).
    { refine (give_up_effect m id _ _ m1 None Hs Ho _ _); [done|]. intros b Hb _. by apply Hm. }
    eapply trip_effect_trans; [exact Hfree|].
    specialize (Hcap m1 (te_sound _ _ Hfree)). eapply trip_effect_trans; [exact Hcap|].
    apply free_vehicle_effect; [by apply te_sound in Hcap|].
    apply guarded_update_Some in Ho as (b & Hfind & _ & Hsave).
    destruct (find_trip_elem _ _ _ Hfind) as [Hb Hid].
    destruct (save_trip_elem m b _ m1 Hs Hb Hsave eq_refl) as [_ E1].
    intros x Hx Hxid.
    assert (Hx1 : x ∈ st_trips m1).
    { destruct (decide (terminal = COMPLETED)); [|done]. unfold _capture_actual_end in Hx. by repeat case_match. }
    rewrite E1 in Hx1. apply (elem_of_put_trip m b) in Hx1; [|done].
    destruct Hx1 as [->|[_ Hn]]; [done|congruence].
  - apply guarded_update_Some in Ho as (b & Hfind & Hl & Hsave).
    destruct (find_trip_elem _ _ _ Hfind) as [Hb _].
    rewrite orb_false_iff in Ha. rewrite Hfind in Hrow. injection Hrow as ->.
    eapply save_trip_effect; [done|exact Hb|done|done| |by apply Hm].
    apply frees; simpl; [destruct (tb_driver_id row)|destruct (tb_vehicle_id row)]; naive_solver.
Qed.

(** * Claim *)

Lemma trip_by_reference_elem m r b : trip_by_reference m r = Some b -> b ∈ st_trips m /\ reference b = r.
Proof.
  unfold trip_by_reference. intros [H1%list_elem_of_In H2%String.eqb_eq]%List.find_some. done.
Qed.

(** The row a claim writes. *)
Definition assigned (d v now : Z) (b : trip) : trip :=
  set_times (stamp None (Some now) None None (tb_times b))
    (set_dispatch ASSIGNED (tb_no_match_reason b) (Some d) (Some v) b).

(** The steps of a successful claim. *)
Lemma claim_Ok m ref d v a force now r : claim m ref d v a force now = Ok r ->
  exists b, trip_by_reference m ref = Some b /\
  (force = false \/ _actor_is_admin a = true) /\
  is_some (find_driver m d) = true /\
  (exists b0, find_trip m (tid b) = Some b0 /\ claimable b0 = true
     /\ save_trip m (assigned d v now b0) = Ok (put_trip m (assigned d v now b0))
     /\ let m1 := put_trip m (assigned d v now b0) in
        driver_claimable m1 d (tid b) force = true
        /\ rowcount (vehicle_claimable m1 v (tid b) force) (st_cabs m1) = 1
        /\ r = (with_cabs m1 (update_where (vehicle_claimable m1 v (tid b) force) (set_available false)
                                (st_cabs m1)), tid b)).
Proof.
  unfold claim. intros H. guard H as Hf. bind H as b Hb. inv_ok Hb. guard H as Hd.
  bind H as m1 Hm1. guard H as Hdc. bind H as m2 Hm2. injection H as <-.
  exists b. split_and!; [done| |done|].
  { destruct force; [right|by left]. done. }
  unfold claim_booking in Hm1. case_match eqn:Hg; [|done]. case_match; [|done].
  apply require_Ok in Hm1 as [_ [= ->]].
  apply guarded_update_Some in Hg as (b0 & Hfind & Hc & Hsave). exists b0.
  unfold claim_vehicle in Hm2. guard Hm2 as Hrow. injection Hm2 as <-. apply Z.eqb_eq in Hrow.
  assert (E : m1 = put_trip m (assigned d v now b0)).
  { unfold save_trip in Hsave. case_match; [|done]. by injection Hsave as <-. }
  subst m1. by split_and!.
Qed.

Lemma claimable_spec b : claimable b = true ->
  tb_status b = CONFIRMED /\ tb_driver_id b = None /\ tb_vehicle_id b = None /\ live b = true.
Proof.
  unfold claimable. rewrite !andb_true_iff, bool_decide_eq_true, !negb_true_iff.
  intros [[[-> Hd] Hv] ->]. by destruct (tb_driver_id b), (tb_vehicle_id b).
Qed.

(** After the booking was written, no other booking counts as engaged. *)
Lemma unengaged holds m b b' r :
  trips_sound m -> tid b' = tid b -> engaged_other holds (put_trip m b') (tid b) = false ->
  r ∈ st_trips m -> tid r <> tid b -> held r = true -> holds r = false.
Proof.
  intros Hs E Hf Hr Hn Hh. destruct (holds r) eqn:Hho; [|done]. rewrite <- Hf. symmetry.
  apply existsb_exists. exists r. split.
  - apply list_elem_of_In. simpl. rewrite E. by apply (write_other tid).
  - destruct (ro_active r (ts_rows m Hs r Hr) Hh) as [-> ->]. rewrite Hho.
    by destruct (Z.eqb_spec (tid r) (tid b)).
Qed.

Lemma driver_claimable_free m d id force :
  driver_claimable m d id force = true -> engaged_other (driven_by d) m id = false.
Proof.
  unfold driver_claimable. case_match; [|done]. by rewrite !andb_true_iff, !negb_true_iff; intros [_ ?].
Qed.

Lemma vehicle_claimable_free m v id force c :
  vehicle_claimable m v id force c = true ->
  vh_id c = v /\ engaged_other (uses_vehicle v) m id = false.
Proof.
  unfold vehicle_claimable. rewrite !andb_true_iff, !negb_true_iff, Z.eqb_eq.
  by intros [[[[? _] _] _] ?].
Qed.

Lemma claim_effect m ref d v a force now r :
  trips_sound m -> claim m ref d v a force now = Ok r -> trip_effect m r.1.
Proof.
  intros Hs (b & Href & _ & _ & b0 & Hfind & Hc & Hsave & Hdc & Hrow & ->)%claim_Ok. simpl.
  destruct (find_trip_elem _ _ _ Hfind) as [Hb0 Hid]. rewrite <- Hid in *.
  destruct (claimable_spec _ Hc) as (Hst & Hd & Hv & Hl).
  set (b' := assigned d v now b0) in *. set (m1 := put_trip m b') in *.
  destruct (rowcount_pos (vehicle_claimable m1 v (tid b0) force) (st_cabs m1)) as (c & Hin & Hvc); [lia|].
  destruct (vehicle_claimable_free _ _ _ _ _ Hvc) as [Hcv Hvfree].
  set (cs := update_where _ _ _).
  change (with_cabs m1 cs) with (put_trip (with_cabs m cs) b').
  assert (Hcabs : trip_effect m (with_cabs m cs)).
  { apply with_cabs_effect; [done|by apply update_keys|].
    intros b1 c1 u Hb1 (k & Hk & ->)%elem_of_update Hu Hcu. destruct (vehicle_claimable m1 v (tid b0) force k); [done|].
    by eapply (ts_parked m Hs). }
  eapply trip_effect_trans; [exact Hcabs|]. eapply (put_trip_effect _ b0); try done.
  - by apply te_sound in Hcabs.
  - by eapply check_of_save.
  - eapply (takes _ _ _ d v); try done.
    + intros r Hr Hn. split; intros Hx.
      * pose proof (unengaged (driven_by d) m b0 b' r Hs eq_refl (driver_claimable_free _ _ _ _ Hdc)
          Hr Hn (held_driver _ _ Hx)) as Hf.
        unfold driven_by in Hf. by rewrite bool_decide_eq_false in Hf.
      * pose proof (unengaged (uses_vehicle v) m b0 b' r Hs eq_refl Hvfree Hr Hn
          (held_vehicle _ _ Hx)) as Hf.
        unfold uses_vehicle in Hf. by rewrite bool_decide_eq_false in Hf.
    + intros c' (k & Hk & ->)%elem_of_update Hkv.
      destruct (vehicle_claimable m1 v (tid b0) force k) eqn:Hvk; [done|].
      exfalso. assert (c = k) as ->; [|congruence].
      by apply (key_unique vh_id (st_cabs m)); [apply ts_cabs|..|congruence].
  - rewrite Hst. apply moves_one, edge_table. set_solver.
Qed.

(** * The operations of BookingService *)

Import BookingService.

Lemma can_transition_edge s t : _can_transition s t = true -> edge allow s t.
Proof. unfold _can_transition. rewrite allowed_spec. apply edge_table. Qed.

(** An operation that writes the row and then releases it. *)
Lemma save_then_release m b b' m1 terminal now r :
  trips_sound m -> b ∈ st_trips m -> same_dispatch b b' -> save_trip m b' = Ok m1 ->
  release m1 (tid b) terminal now = Ok r -> edge allow (tb_status b) terminal -> trip_effect m r.1.
Proof.
  intros Hs Hb Hd Hw Hr Ht.
  assert (H1 : trip_effect m m1) by (by eapply save_same_effect).
  destruct (save_trip_elem m b b' m1 Hs Hb Hw (proj1 Hd)) as [Hb' _].
  eapply trip_effect_trans; [exact H1|]. eapply release_effect; [by apply te_sound in H1|exact Hr|].
  intros c Hc. destruct Hd as (Ei & Es & _).
  replace (tid b) with (tid b') in Hc by (unfold tid; congruence).
  rewrite (find_trip_of m1 b') in Hc; [|by apply te_sound in H1|done]. injection Hc as <-.
  rewrite Es. by apply moves_one.
Qed.

Lemma stamp_status_dispatch s reason by_ now b : same_dispatch b (stamp_status s reason by_ now b).
Proof. by destruct s. Qed.

Lemma active_next s t : s ∈ ACTIVE_ASSIGNMENT_STATUSES -> _can_transition s t = true ->
  t ∈ TERMINAL_RELEASE_STATUSES \/ t ∈ ACTIVE_ASSIGNMENT_STATUSES.
Proof.
  unfold _can_transition. rewrite allowed_spec. unfold tstep.
  destruct s; simpl; rewrite ?list_elem_of_singleton; set_solver.
Qed.

Lemma transition_status_effect m id s reason by_ now m' :
  trips_sound m -> transition_status m id s reason by_ now = Ok m' -> trip_effect m m'.
Proof.
  intros Hs H. unfold transition_status in H. bind H as b Hb. inv_ok Hb. guard H as Hl. guard H as Hc.
  destruct (find_trip_elem _ _ _ Hb) as [Hin <-].
  pose proof (can_transition_edge _ _ Hc) as Hlc.
  destruct (bool_decide (s ∈ TERMINAL_RELEASE_STATUSES) && _) eqn:Hcase.
  - bind H as m1 Hm1. bind H as m2 Hm2. injection H as <-.
    eapply save_then_release; eauto using stamp_status_dispatch.
  - apply map_err_Ok in H.
    destruct (stamp_status_dispatch s reason by_ now (set_status s b)) as (Ei & Es & Ed & Ev & Edl).
    eapply save_trip_effect; [done|exact Hin|exact H|done| |].
    + apply keeps; [done|done|]. intros Hh.
      destruct (ro_active b (ts_rows m Hs b Hin) Hh) as [Ha _].
      unfold active, live. simpl. rewrite Es, Edl. simpl. split; [|done].
      apply bool_decide_eq_true. unfold active in Ha. rewrite bool_decide_eq_true in Ha.
      destruct (active_next _ _ Ha Hc) as [Ht|]; [|done].
      rewrite (bool_decide_eq_true_2 _ Ht) in Hcase. unfold held in Hh. by rewrite Hh in Hcase.
    + simpl. rewrite Es. by apply moves_one.
Qed.

Lemma release_to_no_match_effect m id reason r :
  allow driver_withdraws = true -> trips_sound m -> release_to_no_match m id reason = Ok r -> trip_effect m r.1.
Proof.
  intros Hk Hs H. unfold release_to_no_match in H. skip H. bind H as row Hrow. inv_ok Hrow.
  destruct (decide (tb_status row = NO_MATCH)); [injection H as <-; by apply trip_effect_refl|].
  skip H. skip H. bind H as o Ho. bind H as m1 Hm1. inv_ok Hm1. subst o. injection H as <-.
  simpl. eapply give_up_effect; [done|exact Ho|done|]. simpl. intros b _ [Hb _]%andb_true_iff.
  rewrite bool_decide_eq_true in Hb. apply moves_one, (edge_shortcut _ driver_withdraws); [done|].
  unfold driver_cancellable in Hb. destruct (tb_status b); set_solver.
Qed.

Lemma unheld_reassign m b b' : held b = false -> tb_driver_id b' = tb_driver_id b ->
  tb_vehicle_id b' = tb_vehicle_id b -> reassign m b b'.
Proof. intros Hh Hd Hv. apply keeps; [done|done|]. by rewrite Hh. Qed.

Lemma inactive_unheld m b : trips_sound m -> b ∈ st_trips m -> active b = false -> held b = false.
Proof.
  intros Hs Hb Ha. destruct (held b) eqn:Hh; [|done].
  destruct (ro_active b (ts_rows m Hs b Hb) Hh) as [Ha' _]. by rewrite Ha' in Ha.
Qed.

Lemma mark_no_match_effect m id reason now r :
  trips_sound m -> mark_no_match m id reason now = Ok r -> trip_effect m r.1.
Proof.
  intros Hs H. unfold mark_no_match in H. skip H. bind H as b Hb. inv_ok Hb. skip H.
  destruct (decide (tb_status b = NO_MATCH)); [injection H as <-; by apply trip_effect_refl|].
  skip H. skip H. bind H as o Ho. bind H as m1 Hm1. inv_ok Hm1. subst o.
  bind H as r1 Hr1. inv_ok Hr1. bind H as m2 Hm2. injection H as <-. simpl.
  apply guarded_update_Some in Ho as (b0 & Hfind & Hc & Hsave).
  destruct (find_trip_elem _ _ _ Hfind) as [Hin _].
  destruct (claimable_spec _ Hc) as (Hst & Hd & Hv & _).
  assert (H1 : trip_effect m m1).
  { eapply save_trip_effect; [done|exact Hin|exact Hsave|done| |].
    - by apply frees.
    - rewrite Hst. apply moves_one, edge_table. set_solver. }
  eapply trip_effect_trans; [exact H1|].
  apply find_trip_elem in Hr1 as [Hr1 _].
  by eapply (save_same_effect m1 r1); [by apply te_sound in H1|..|exact Hm2].
Qed.

Lemma retry_matching_effect m id uid now m' :
  trips_sound m -> retry_matching m id uid now = Ok m' -> trip_effect m m'.
Proof.
  intros Hs H. unfold retry_matching in H. bind H as b Hb. inv_ok Hb. skip H. skip H.
  guard H as Hst. rewrite bool_decide_eq_true in Hst. apply map_err_Ok in H.
  destruct (find_trip_elem _ _ _ Hb) as [Hin _].
  eapply save_trip_effect; [done|exact Hin|exact H|done| |].
  - apply unheld_reassign; [|done..]. eapply inactive_unheld; [done..|]. unfold active. by rewrite Hst.
  - rewrite Hst. apply moves_one, edge_table. set_solver.
Qed.

Lemma cancel_booking_effect m q now r :
  allow cancel_at_pickup = true -> trips_sound m -> cancel_booking m q now = Ok r -> trip_effect m r.1.
Proof.
  intros Hk Hs H. unfold cancel_booking in H. bind H as b Hb. inv_ok Hb. skip H. skip H.
  guard H as Hst. rewrite bool_decide_eq_true in Hst. bind H as p Hp.
  destruct (waive q _ p) as [fee tier]. bind H as price Hprice. bind H as refund Hrefund.
  bind H as cm Hcm. destruct cm as [credit md]. apply map_err_Ok in H.
  destruct (find_trip_elem _ _ _ Hb) as [Hin _].
  destruct (decide (tb_status b ∈ PRE_ASSIGNMENT_STATUSES)) as [Hpre|Hpost].
  - bind H as o Ho. bind H as m1 Hm1. inv_ok Hm1. subst o. injection H as <-. simpl.
    apply guarded_update_Some in Ho as (b0 & Hfind & Hc & Hsave).
    rewrite (find_trip_of m b) in Hfind by done. injection Hfind as <-.
    eapply save_trip_effect; [done|exact Hin|exact Hsave|done| |].
    + apply unheld_reassign; [|done..]. eapply inactive_unheld; [done..|]. unfold active.
      apply bool_decide_eq_false. unfold PRE_ASSIGNMENT_STATUSES in Hpre.
      destruct (tb_status b); set_solver.
    + simpl. apply moves_one, edge_table. unfold PRE_ASSIGNMENT_STATUSES in Hpre.
      destruct (tb_status b); set_solver.
  - bind H as m1 Hm1. bind H as m2 Hm2. injection H as <-. simpl.
    eapply save_then_release; [done|exact Hin| |exact Hm1|exact Hm2|]; [done|].
    unfold ALL_CANCELLABLE_STATUSES in Hst. rewrite elem_of_app in Hst. destruct Hst as [|Hst]; [done|].
    unfold POST_ASSIGNMENT_CANCELLABLE_STATUSES in Hst.
    destruct (decide (tb_status b = PICKUP_ARRIVED)) as [->|];
      [apply (edge_shortcut _ cancel_at_pickup); [done|set_solver]|apply edge_table].
    destruct (tb_status b); set_solver.
Qed.

Lemma mark_no_show_effect m id uid reason now r :
  trips_sound m -> mark_no_show m id uid reason now = Ok r -> trip_effect m r.1.
Proof.
  intros Hs H. unfold mark_no_show in H. bind H as b Hb. inv_ok Hb. skip H. bind H as d Hd.
  destruct (find_trip_elem _ _ _ Hb) as [Hin _].
  destruct (decide (tb_status b = NO_SHOW)).
  - destruct (md_no_show _); [|done]. skip H. bind H as fee Hfee. bind H as credit Hcr.
    injection H as <-. by apply trip_effect_refl.
  - skip H. skip H. skip H. bind H as pk Hpk. skip H. bind H as fee Hfee.
    bind H as md Hmd. apply map_err_Ok in H. bind H as m1 Hm1. bind H as m2 Hm2. injection H as <-. simpl.
    assert (H1 : trip_effect m m1) by (by (refine (save_same_effect m b _ m1 Hs Hin _ Hm1); done)).
    eapply trip_effect_trans; [exact H1|]. eapply transition_status_effect; [|exact Hm2].
    by apply te_sound in H1.
Qed.

Lemma driver_cancel_effect m id uid reason now r :
  allow driver_withdraws = true -> trips_sound m -> driver_cancel m id uid reason now = Ok r -> trip_effect m r.1.
Proof.
  intros Hk Hs H. unfold driver_cancel in H. bind H as b Hb. inv_ok Hb. skip H. bind H as d Hd.
  destruct (find_trip_elem _ _ _ Hb) as [Hin _].
  destruct (decide (tb_status b = NO_MATCH)).
  - skip H. destruct (list.last _); [|done]. skip H. injection H as <-.
    by apply trip_effect_refl.
  - skip H. skip H. skip H. apply map_err_Ok in H. bind H as m1 Hm1. bind H as m2 Hm2.
    injection H as <-. simpl. assert (H1 : trip_effect m m1) by (by (refine (save_same_effect m b _ m1 Hs Hin _ Hm1); done)).
    eapply trip_effect_trans; [exact H1|]. eapply release_to_no_match_effect; [done| |exact Hm2].
    by apply te_sound in H1.
Qed.

(** * Driver actions, deletion and recovery *)

Import DriverTrip TripAdmin.

Lemma advance_effect m b d a from to now m' :
  trips_sound m -> from ∈ ACTIVE_ASSIGNMENT_STATUSES -> to ∈ ACTIVE_ASSIGNMENT_STATUSES ->
  to ∈ STATUS_TRANSITIONS from -> advance m b d a from to now = Ok m' -> trip_effect m m'.
Proof.
  intros Hs _ Hto Hl H. unfold advance in H. bind H as o Ho. inv_ok H. subst o.
  set (m1 := match a with start => _ | _ => m end) in Ho.
  assert (H1 : trip_effect m m1).
  { unfold m1. destruct a; auto using trip_effect_refl. unfold _capture_actual_start.
    case_match; auto using trip_effect_refl, with_events_effect. }
  eapply trip_effect_trans; [exact H1|]. apply te_sound in H1.
  apply guarded_update_Some in Ho as (r & Hfind & Hc & Hsave).
  rewrite !andb_true_iff, bool_decide_eq_true in Hc. destruct Hc as [[_ Hst] Hlive].
  destruct (find_trip_elem _ _ _ Hfind) as [Hin _].
  eapply save_trip_effect; [done|exact Hin|exact Hsave|done| |].
  - apply keeps; [done|done|]. intros _. split; [|done]. by apply bool_decide_eq_true.
  - simpl. rewrite Hst. by apply moves_one, edge_table.
Qed.

(** The status the driver's completion starts from is any active one. *)
Lemma completable m b d : allow early_completion = true -> trips_sound m -> b ∈ st_trips m ->
  driven_by d b = true -> edge allow (tb_status b) COMPLETED.
Proof.
  intros Hk Hs Hb Hd. unfold driven_by in Hd. rewrite bool_decide_eq_true in Hd.
  destruct (ro_active b (ts_rows m Hs b Hb) (held_driver _ _ Hd)) as [Ha _].
  unfold active in Ha. rewrite bool_decide_eq_true in Ha. unfold ACTIVE_ASSIGNMENT_STATUSES in Ha.
  destruct (decide (COMPLETED ∈ STATUS_TRANSITIONS (tb_status b))); [by apply edge_table|].
  apply (edge_shortcut _ early_completion); [done|]. destruct (tb_status b); set_solver.
Qed.

(** The shortcut a driver's action may take. *)
Definition action_shortcut (a : action) : option shortcut :=
  match a with
  | complete => Some early_completion
  | cancel => Some driver_withdraws
  | _ => None
  end.

Lemma action_effect m b d a now m' :
  (forall k, action_shortcut a = Some k -> allow k = true) -> trips_sound m -> b ∈ st_trips m -> driven_by (dr_id d) b = true ->
  _execute_driver_trip_action m b d a now = Ok m' -> trip_effect m m'.
Proof.
  intros Hk Hs Hin Hd H.
  destruct a; simpl in H; try (eapply advance_effect; [done|..|exact H]; set_solver).
  - bind H as m1 Hm1. bind H as r Hr. injection H as <-.
    eapply save_then_release; [done|exact Hin| |exact Hm1|exact Hr|eapply completable; eauto]. done.
  - bind H as r Hr. injection H as <-. by eapply mark_no_show_effect.
  - bind H as r Hr. injection H as <-. by eapply driver_cancel_effect; [apply Hk|..].
Qed.

Lemma live_by_reference m r b :
  List.find (fun b => String.eqb (reference b) r && live b) (st_trips m) = Some b ->
  b ∈ st_trips m /\ live b = true.
Proof. by intros [H1%list_elem_of_In [_ H2]%andb_prop]%List.find_some. Qed.

Lemma post_effect m d r a now m' :
  (forall k, action_shortcut a = Some k -> allow k = true) -> trips_sound m -> post m d r a now = Ok m' -> trip_effect m m'.
Proof.
  intros Hk Hs H. unfold post in H. bind H as b Hb. inv_ok Hb. guard H as Hd.
  apply live_by_reference in Hb as [Hin _]. by eapply action_effect.
Qed.

Lemma delete_effect m r m' : trips_sound m -> delete m r = Ok m' -> trip_effect m m'.
Proof.
  intros Hs H. unfold delete in H. bind H as b Hb. inv_ok Hb. skip H.
  apply live_by_reference in Hb as [Hin _].
  eapply save_trip_effect; [done|exact Hin|exact H|done|by apply frees|done].
Qed.

(** A page of rows of the store whose status the batch itself does not change
    before their turn. *)
Lemma release_stalled_effect now m b :
  trips_sound m -> (forall b', find_trip m (tid b) = Some b' -> CANCELLED ∈ STATUS_TRANSITIONS (tb_status b')
                              \/ tb_status b' = CANCELLED) ->
  trip_effect m (release_stalled now m b).
Proof.
  intros Hs Hb. unfold release_stalled. destruct (release m (tid b) CANCELLED now) as [r|e] eqn:Hr.
  - eapply release_effect; [done|exact Hr|]. intros b' Hb'.
    destruct (Hb b' Hb') as [H|H]; [by apply moves_one, edge_table|by rewrite H].
  - by apply trip_effect_refl.
Qed.

Lemma guarded_rows m id cond f m' b' : guarded_update m id cond f = Ok (Some m') ->
  (forall b, tb_info (f b) = tb_info b) -> b' ∈ st_trips m' ->
  b' ∈ st_trips m \/ exists b, find_trip m id = Some b /\ b' = f b.
Proof.
  intros (b & Hfind & _ & Hsave)%guarded_update_Some Hf Hb'.
  unfold save_trip in Hsave. case_match; [|done]. injection Hsave as <-.
  apply (elem_of_put_trip m b) in Hb' as [->|[Hin _]]; [right; by exists b|by left|].
  by unfold tid; rewrite Hf.
Qed.

Lemma free_vehicle_trips m id vo : st_trips (free_vehicle m id vo) = st_trips m.
Proof. by destruct vo. Qed.
Lemma capture_end_trips m id d at_ : st_trips (_capture_actual_end m id d at_) = st_trips m.
Proof. unfold _capture_actual_end. by repeat case_match. Qed.

Lemma release_rows m id terminal now r b' : release m id terminal now = Ok r -> b' ∈ st_trips r.1 ->
  b' ∈ st_trips m \/ (tid b' = id /\ tb_status b' = terminal).
Proof.
  intros H Hb'. unfold release in H. skip H. bind H as row Hrow.
  destruct (is_some (tb_driver_id row) || is_some (tb_vehicle_id row));
    bind H as o Ho; bind H as m1 Hm1; inv_ok Hm1; subst o; injection H as <-; simpl in Hb'.
  - rewrite free_vehicle_trips in Hb'.
    assert (H1 : b' ∈ st_trips m1).
    { destruct (decide (terminal = COMPLETED)); [|done]. by rewrite capture_end_trips in Hb'. }
    destruct (guarded_rows _ _ _ _ _ b' Ho (fun _ => eq_refl) H1) as [|(b & Hb & ->)]; [by left|].
    right. destruct (find_trip_elem _ _ _ Hb) as [_ Ht]. done.
  - destruct (guarded_rows _ _ _ _ _ b' Ho (fun _ => eq_refl) Hb') as [|(b & Hb & ->)]; [by left|].
    right. destruct (find_trip_elem _ _ _ Hb) as [_ Ht]. done.
Qed.

Lemma insert_by_id_elem b l x : x ∈ insert_by_id b l <-> x = b \/ x ∈ l.
Proof.
  unfold insert_by_id. rewrite elem_of_app, elem_of_cons, !list_elem_of_In, !List.filter_In.
  rewrite negb_true_iff. destruct (tid x <=? tid b); naive_solver.
Qed.

Lemma stall_candidates_elem m cutoff after batch b : b ∈ stall_candidates m cutoff after batch ->
  b ∈ st_trips m /\ stalled cutoff after b = true.
Proof.
  unfold stall_candidates. intros (i & H%list_elem_of_lookup_2 & _)%elem_of_take.
  assert (Hl : forall l, b ∈ foldr insert_by_id [] l -> b ∈ l).
  { induction l as [|x l IH]; [done|]. simpl. rewrite insert_by_id_elem, elem_of_cons. naive_solver. }
  apply Hl, list_elem_of_In, List.filter_In in H. by rewrite list_elem_of_In.
Qed.

(** The rows of the page are assigned, or cancelled by the page itself. *)
Definition on_page (page : list trip) (m : store) : Prop :=
  forall b b', b ∈ page -> b' ∈ st_trips m -> tid b' = tid b ->
    tb_status b' = ASSIGNED \/ tb_status b' = CANCELLED.

Lemma release_stalled_on_page now page m b :
  on_page page m -> on_page page (release_stalled now m b).
Proof.
  intros Hp. unfold release_stalled. destruct (release m (tid b) CANCELLED now) as [r|] eqn:Hr; [|done].
  intros x b' Hx Hb' Ht. destruct (release_rows _ _ _ _ _ _ Hr Hb') as [Hin|[_ ->]]; [by eapply Hp|by right].
Qed.

Lemma stalled_page_effect now page todo m :
  trips_sound m -> on_page page m -> (forall b, b ∈ todo -> b ∈ page) ->
  trip_effect m (fold_left (release_stalled now) todo m).
Proof.
  revert m. induction todo as [|b todo IH]; intros m Hs Hp Hsub; simpl; [by apply trip_effect_refl|].
  assert (H1 : trip_effect m (release_stalled now m b)).
  { apply release_stalled_effect; [done|]. intros b' [Hin Ht]%find_trip_elem.
    destruct (Hp b b' ltac:(set_solver) Hin Ht) as [->| ->]; [left; set_solver|by right]. }
  eapply trip_effect_trans; [exact H1|].
  apply IH; [by apply te_sound in H1|by apply release_stalled_on_page|set_solver].
Qed.

Lemma stall_recovery_effect m secs batch after now :
  trips_sound m -> trip_effect m (stall_recovery m secs batch after now).
Proof.
  intros Hs. unfold stall_recovery. eapply stalled_page_effect; [done| |done].
  intros b b' [Hb Hst]%stall_candidates_elem Hb' Ht. left.
  assert (b' = b) as -> by (by apply (key_unique tid (st_trips m)); [apply ts_ids|..]).
  unfold stalled in Hst. rewrite !andb_true_iff, bool_decide_eq_true in Hst. apply Hst.
Qed.

(** The moderator's approval, unless it reopens a dispute. *)
Lemma approve_effect m id now m' :
  trips_sound m -> (forall b, find_trip m id = Some b -> tb_status b <> DISPUTED) ->
  approve m id now = Ok m' -> trip_effect m m'.
Proof.
  intros Hs Hd H. unfold approve in H. bind H as b Hb. inv_ok Hb.
  destruct (decide (tb_status b = CONFIRMED)); [injection H as <-; by apply trip_effect_refl|].
  destruct (decide (tb_status b = DISPUTED)) as [E|]; [by destruct (Hd b Hb)|].
  by eapply transition_status_effect.
Qed.

End effects.
