(* ===== verification/TripMoney.v ===== *)
(** The money of a cancellation and of a no-show: fee, refund estimate and the
    driver's credit. *)

From S2P Require Import Prelude Tables Decimal DecimalLaws InvoiceModel TripModel Trips.

Local Open Scope Z_scope.

Import AssignmentService BookingService.

(** An amount in hundredths between zero and [n]. *)
Definition upto (n : Z) (d : dec) : Prop := dexp d = -2 /\ 0 <= coef d <= n.

Lemma upto_cents n d : upto n d -> d = cents (coef d).
Proof. intros [E _]. destruct d; simpl in *. by subst. Qed.

Lemma money_of_money d : money d -> _money d = Ok d.
Proof.
  intros Hm. unfold _money, dec_result. rewrite quantize_id; [done|apply Hm|by apply money_repr].
Qed.

Lemma money_result d q : _money d = Ok q -> quantize ROUND_HALF_EVEN (-2) d = Ok q.
Proof. unfold _money, dec_result. by rewrite map_err_Ok. Qed.

Lemma money_upto d q n : _money d = Ok q -> dle dzero d -> dle d (cents n) -> 0 <= n < pow10 20 -> upto n q.
Proof.
  intros Hq%money_result H0 H1 Hn. pose proof (quantize_exp _ _ _ _ Hq) as He. split; [done|].
  pose proof (quantize_nonneg _ _ _ _ Hq H0) as Hlo. apply dle_0 in Hlo.
  pose proof (quantize_le _ _ _ _ (cents n) Hq eq_refl (cents_repr n ltac:(lia)) H1) as Hhi.
  rewrite dle_coef in Hhi by done. simpl in Hhi. lia.
Qed.

Lemma money_small d : money d -> 0 <= coef d < pow10 20.
Proof. intros [_ [? ?]]. split; [done|]. etrans; [done|]. done. Qed.

Lemma fare_money b : money (ti_final_price (tb_info b)) -> fare b = Ok (ti_final_price (tb_info b)).
Proof.
  intros Hm. unfold fare. rewrite money_of_money by done. simpl. f_equal.
  unfold dmax. destruct (dltb _ _) eqn:E; [done|]. apply dltb_false in E.
  destruct Hm as [He [Hc _]]. rewrite dle_coef in E by done. simpl in E.
  destruct (ti_final_price (tb_info b)) as [c e]. simpl in *. subst e. unfold cents. f_equal. lia.
Qed.

(** Equal values are quantised to the same number. *)
Lemma quantize_eq m e x y qx qy :
  quantize m e x = Ok qx -> quantize m e y = Ok qy -> x ≃ y -> qx = qy.
Proof.
  intros Hx Hy E.
  assert (H1 : dle qx qy) by (eapply quantize_mono; [exact Hx|exact Hy|rewrite E; reflexivity]).
  assert (H2 : dle qy qx) by (eapply quantize_mono; [exact Hy|exact Hx|rewrite E; reflexivity]).
  pose proof (quantize_exp _ _ _ _ Hx) as Ex. pose proof (quantize_exp _ _ _ _ Hy) as Ey.
  rewrite dle_coef in H1, H2 by congruence. destruct qx, qy. simpl in *. f_equal; [lia|congruence].
Qed.

(** [k] per cent of an amount in hundredths, rounded to the hundredth, half to even. *)
Definition percent (k price : Z) : Z := rdivs ROUND_HALF_EVEN (price * k) 100.

Lemma percent_bounds k price : 0 <= k <= 100 -> 0 <= price -> 0 <= percent k price <= price.
Proof. intros. unfold percent. split; [apply rdivs_ge|apply rdivs_le]; nia. Qed.

(** The share of the fare that the policy computes. *)
Lemma share_percent price k q s :
  0 <= price < pow10 10 -> 0 <= k <= 100 ->
  ddiv (dmul (cents price) (dint k)) (dint 100) = Ok q -> _money q = Ok s -> s = cents (percent k price).
Proof.
  intros Hp Hk Hd Hq%money_result. change (pow10 10) with 10000000000 in Hp.
  assert (Hs : Z.abs (price * k) < pow10 20) by (change (pow10 20) with 100000000000000000000; nia).
  rewrite dmul_cents in Hd by done.
  assert (Eq : q ≃ Dec (price * k) (-4)).
  { eapply (ddiv_exact (cents (price * k)) (dint 100) q (Dec (price * k) (-4))); [simpl; nia|done| |exact Hd|].
    - unfold repr. simpl. change (pow10 prec) with (pow10 8 * pow10 20).
      change (pow10 8) with 100000000. lia.
    - unfold dval. simpl. unfold QArith_base.Qeq. simpl. lia. }
  eapply quantize_eq; [exact Hq| |exact Eq]. unfold quantize. cbn [dexp coef].
  change (-2 <=? -4) with false. change (pow10 (-2 - -4)) with 100. cbv iota. fold (percent k price).
  destruct (Z.ltb_spec (Z.abs (percent k price)) (pow10 prec)) as [|Hbig]; [done|].
  pose proof (percent_bounds k price Hk ltac:(lia)).
  change (pow10 prec) with 10000000000000000000000000000 in Hbig. lia.
Qed.

(** ** The policy *)

(** The fee of the policy's tiers for a fare in hundredths and a pickup so far ahead:
    nothing with more than an hour to go, a fifth of the fare capped at 10,000 down
    to fifteen minutes, then two fifths capped at 20,000. *)
Definition tier_fee (price ahead : Z) : Z :=
  if hours 1 <? ahead then 0
  else if minutes 15 <=? ahead then Z.min (percent 20 price) 1000000
  else Z.min (percent 40 price) 2000000.

Definition scheduled_fee (b : trip) (now : Z) : Z :=
  if String.eqb (_booking_mode b) SCHEDULED_BOOKING_MODE then
    match ti_pickup_time (tb_info b) with
    | Some pickup => tier_fee (coef (ti_final_price (tb_info b))) (pickup - now)
    | None => 0
    end
  else 0.

Lemma tier_fee_bounds price ahead : 0 <= price -> 0 <= tier_fee price ahead <= Z.min price 2000000.
Proof.
  intros Hp. pose proof (percent_bounds 20 price ltac:(lia) Hp). pose proof (percent_bounds 40 price ltac:(lia) Hp).
  unfold tier_fee. repeat case_match; lia.
Qed.

Lemma scheduled_fee_bounds b now : money (ti_final_price (tb_info b)) ->
  0 <= scheduled_fee b now <= Z.min (coef (ti_final_price (tb_info b))) 2000000.
Proof.
  intros [_ [Hp _]]. unfold scheduled_fee. repeat case_match; try lia. by apply tier_fee_bounds.
Qed.

Lemma cancellation_policy_fee b now p :
  money (ti_final_price (tb_info b)) -> _cancellation_policy b now = Ok p ->
  po_fee p = cents (scheduled_fee b now).
Proof.
  intros Hm H. unfold _cancellation_policy in H. unfold scheduled_fee, tier_fee.
  destruct (String.eqb (_booking_mode b) SCHEDULED_BOOKING_MODE); cbn [negb] in H;
    [|by injection H as <-].
  destruct (ti_pickup_time (tb_info b)) as [t|]; [|by injection H as <-].
  set (price := coef (ti_final_price (tb_info b))) in *.
  assert (Hp : 0 <= price < pow10 10) by apply Hm.
  bind H as f Hf. rewrite fare_money, (money_cents _ Hm) in Hf by done. injection Hf as <-. cbv zeta in H.
  fold price in H. destruct (Z.ltb_spec (hours 1) (t - now)); [by injection H as <-|].
  bind H as s1 Hs1. bind H as s2 Hs2. bind H as fee Hfee. injection H as <-. cbn [po_fee].
  unfold dec_result in Hs1. rewrite map_err_Ok in Hs1.
  pose proof (percent_bounds 20 price ltac:(lia) ltac:(lia)). pose proof (percent_bounds 40 price ltac:(lia) ltac:(lia)).
  assert (Hmin : forall a b, 0 <= a <= price -> 0 <= b -> _money (dmin (dmin (cents a) (cents b)) (cents price)) = Ok fee ->
    fee = cents (Z.min a b)).
  { intros a c Ha Hc Hq. rewrite !dmin_cents, Z.min_l in Hq by lia.
    rewrite money_of_money in Hq; [by injection Hq as <-|]. repeat split; simpl; lia. }
  destruct (minutes 15 <=? t - now); eapply share_percent in Hs1; try exact Hs2; try lia; subst s2;
    apply Hmin in Hfee; try lia; exact Hfee.
Qed.

(** ** The driver's credit *)

Lemma append_credit_unchanged b d amount currency reason now md md' :
  _append_driver_credit b d amount currency reason now md = Ok md' ->
  md_cancellation md' = md_cancellation md.
Proof. unfold _append_driver_credit. intros H. bind H as c Hc. by destruct (dleb c dzero); injection H as <-. Qed.

Lemma credit_driver_bounds m b is_rider fee currency now md p n :
  upto n fee -> n < pow10 10 -> credit_driver m b is_rider fee currency now md = Ok p ->
  upto (coef fee) p.1 /\ (is_rider = false -> p.1 = cents 0).
Proof.
  intros [He Hb] Hn H. unfold credit_driver in H.
  assert (Hz : upto (coef fee) (cents 0) /\ (is_rider = false -> cents 0 = cents 0)).
  { split; [split; simpl; lia|done]. }
  destruct (tb_driver_id b) as [d|]; [|injection H as <-; done].
  destruct (is_rider && _ && _) eqn:Hr; [|injection H as <-; done].
  destruct (find_driver m d) as [r|]; [|injection H as <-; done].
  bind H as credit Hc. bind H as md' Hmd. injection H as <-. simpl.
  split; [|by intros ->].
  assert (Hsmall : 0 <= coef fee < pow10 20).
  { split; [lia|]. change (pow10 20) with (pow10 10 * pow10 10). change (pow10 10) with 10000000000 in *. lia. }
  assert (Hpos : dle dzero fee) by (apply dle_0; lia).
  apply (money_upto _ _ _ Hc); [|..|lia].
  - apply dmul_nonneg; [done|]. done.
  - etrans; [apply dmul_le_one; [|done|]|].
    + rewrite (upto_cents n fee) by done. apply cents_repr. lia.
    + done.
    + by rewrite <- (upto_cents n fee).
Qed.

(** ** Cancellation *)

(** C26: a cancellation of a booking with a stored fare charges exactly the fee of
    its tier when the rider cancels a scheduled ride and not for a safety reason:
    nothing with more than an hour to the pickup, 20 per cent of the fare capped at
    10,000 down to fifteen minutes, 40 per cent capped at 20,000 after; every other
    cancellation charges nothing. The refund is estimated as the rest of the fare,
    to the cent, and the driver is credited at most the fee. *)
Theorem cancellation_money (m m' : store) (b : trip) (q : cancel_request) (ans : cancel_answer) (now : Z) :
  find_trip m (cq_booking_id q) = Some b -> money (ti_final_price (tb_info b)) ->
  cancel_booking m q now = Ok (m', ans) ->
  exists fee credit, ca_fee ans = cents fee /\ ca_driver_credit ans = cents credit
    /\ 0 <= credit <= fee
    /\ fee = (if is_safety q || negb (ti_user_id (tb_info b) =? cq_user_id q) then 0 else scheduled_fee b now)
    /\ fee <= coef (ti_final_price (tb_info b))
    /\ ca_refund_estimate ans = cents (coef (ti_final_price (tb_info b)) - fee).
Proof.
  intros Hb Hm H. unfold cancel_booking in H. rewrite Hb in H. simpl in H.
  do 3 (apply require_Ok in H; destruct H as [_ H]). bind H as p Hp.
  pose proof (cancellation_policy_fee _ _ _ Hm Hp) as Hfee. pose proof (scheduled_fee_bounds b now Hm) as Hbound.
  set (rider := ti_user_id (tb_info b) =? cq_user_id q) in *.
  destruct (waive q rider p) as [fee tier] eqn:Hw.
  set (price := coef (ti_final_price (tb_info b))) in *.
  assert (Hprice : 0 <= price < pow10 10) by apply Hm.
  assert (Ef : fee = cents (if is_safety q || negb rider then 0 else scheduled_fee b now)).
  { unfold waive in Hw. destruct (is_safety q); [by injection Hw as <- <-|].
    by destruct rider; injection Hw as <- <-. }
  set (n := if is_safety q || negb rider then 0 else scheduled_fee b now) in *.
  assert (Hn : 0 <= n <= price) by (unfold n; destruct (is_safety q || negb rider); [|pose proof (Z.le_min_l price 2000000)]; lia). clearbody n. subst fee.
  rewrite money_of_money in H by done. simpl in H. bind H as refund Hrefund.
  bind H as cm Hcm. destruct cm as [credit md].
  assert (Hu : upto price (cents n)) by (split; simpl; lia).
  destruct (credit_driver_bounds _ _ _ _ _ _ _ _ _ Hu ltac:(lia) Hcm) as [Hcred _]. simpl in *.
  assert (Ha : ans = {| ca_fee := cents n; ca_tier := tier; ca_refund_estimate := refund; ca_driver_credit := credit |}).
  { apply map_err_Ok in H. destruct (decide _).
    - bind H as o Ho. bind H as m1 Hm1. by injection H.
    - bind H as m1 Hm1. bind H as m2 Hm2. by injection H. }
  subst ans. simpl. exists n, (coef credit).
  split_and!; [done|by eapply upto_cents|apply Hcred|apply Hcred|done|lia|].
  rewrite (money_cents _ Hm) in Hrefund. fold price in Hrefund.
  change (pow10 10) with 10000000000 in *.
  rewrite dsub_cents in Hrefund by (change (pow10 20) with 100000000000000000000; lia).
  assert (E : dmax (cents 0) (cents (price - n)) = cents (price - n)).
  { unfold dmax. destruct (dltb _ _) eqn:E; [done|]. apply dltb_false in E. rewrite cents_le in E.
    assert (price - n = 0) as -> by lia. done. }
  rewrite E, money_of_money in Hrefund; [by injection Hrefund as <-|].
  split; [done|]. change (pow10 10) with 10000000000. simpl. lia.
Qed.
