(* ===== verification/RideLaws.v ===== *)
(** The invariant of ride requests, search cycles and offers, and what the writes
    of RideDispatch do to it. *)

From S2P Require Import Prelude Tables Decimal InvoiceModel TripModel Trips RideDispatch.

Local Open Scope Z_scope.

Import RideRequestDispatchService.

Definition searching (c : search_cycle) : Prop := cy_status c = CY_searching.

(** * The invariant, table by table *)

Record requests_ok (rs : list ride_request) (n : Z) : Prop := {
  rq_ids : NoDup (rr_id <$> rs);
  rq_public : NoDup (rr_public_id <$> rs);
  rq_fresh : forall r, r ∈ rs -> rr_id r < n;
  rq_settled : forall r, r ∈ rs -> rr_status r <> RQ_converting;
}.

(** The searching cycle of a request is its last, and the request is searching. *)
Record cycles_ok (rs : list ride_request) (cs : list search_cycle) (n : Z) : Prop := {
  cc_ids : NoDup (cy_id <$> cs);
  cc_fresh : forall c, c ∈ cs -> cy_id c < n;
  cc_kept : forall c, c ∈ cs -> cy_is_deleted c = false;
  cc_settled : forall c, c ∈ cs -> cy_status c <> CY_converting;
  cc_foreign : forall c, c ∈ cs -> cy_ride_request_id c ∈ rr_id <$> rs;
  cc_parent : forall c, c ∈ cs -> searching c ->
    exists r, r ∈ rs /\ rr_id r = cy_ride_request_id c /\ rr_status r = RQ_searching;
  cc_last : forall c c', c ∈ cs -> c' ∈ cs -> cy_ride_request_id c = cy_ride_request_id c' ->
    searching c -> cy_cycle_number c' <= cy_cycle_number c;
  cc_numbers : forall c c', c ∈ cs -> c' ∈ cs -> cy_ride_request_id c = cy_ride_request_id c' ->
    cy_cycle_number c = cy_cycle_number c' -> cy_id c = cy_id c';
  cc_pool : forall c p, c ∈ cs -> cy_ranked_pool c = Some p -> (length p <= MATCHING_POOL_SIZE)%nat;
}.

(** An offer comes from the pool of its cycle, to a driver who had none in it. *)
Record offers_ok (cs : list search_cycle) (os : list offer_attempt) (n : Z) : Prop := {
  oo_ids : NoDup (oa_id <$> os);
  oo_fresh : forall a, a ∈ os -> oa_id a < n;
  oo_settled : forall a, a ∈ os -> oa_status a <> OF_accepting;
  oo_cycle : forall a, a ∈ os -> actionable a = true ->
    exists c, c ∈ cs /\ cy_id c = oa_cycle_id a /\ searching c;
  oo_one : forall a a', a ∈ os -> a' ∈ os -> oa_cycle_id a = oa_cycle_id a' ->
    actionable a = true -> actionable a' = true -> oa_id a = oa_id a';
  oo_drivers : forall a a', a ∈ os -> a' ∈ os -> oa_cycle_id a = oa_cycle_id a' ->
    oa_driver_id a = oa_driver_id a' -> oa_id a = oa_id a';
  oo_numbers : forall a a', a ∈ os -> a' ∈ os -> oa_cycle_id a = oa_cycle_id a' ->
    oa_attempt_number a = oa_attempt_number a' -> oa_id a = oa_id a';
  oo_pool : forall a, a ∈ os -> exists c p k, c ∈ cs /\ cy_id c = oa_cycle_id a
    /\ cy_ranked_pool c = Some p /\ k ∈ p /\ ca_driver_id k = oa_driver_id a
    /\ ca_vehicle_id k = oa_vehicle_id a;
}.

(** A request has a booking exactly when it is converted, and then one. *)
Record links_ok (rs : list ride_request) (ts : list trip_info) : Prop := {
  lk_booked : forall i id, i ∈ ts -> ti_ride_request_id i = Some id ->
    exists r, r ∈ rs /\ rr_id r = id /\ rr_status r = RQ_converted;
  lk_converted : forall r, r ∈ rs -> rr_status r = RQ_converted ->
    exists i, i ∈ ts /\ ti_ride_request_id i = Some (rr_id r);
  lk_once : forall i j id, i ∈ ts -> j ∈ ts -> ti_ride_request_id i = Some id ->
    ti_ride_request_id j = Some id -> i = j;
}.

Record search_base (m : store) : Prop := {
  sb_requests : requests_ok (st_requests m) (st_next m);
  sb_cycles : cycles_ok (st_requests m) (st_cycles m) (st_next m);
  sb_offers : offers_ok (st_cycles m) (st_offers m) (st_next m);
  sb_links : links_ok (st_requests m) (tb_info <$> st_trips m);
}.

(** A searching cycle that made offers has one that waits for its answer. *)
Definition offered_in (m : store) (id : Z) : Prop := exists a, a ∈ st_offers m /\ oa_cycle_id a = id.
Definition waiting_in (m : store) (id : Z) : Prop :=
  exists a, a ∈ st_offers m /\ oa_cycle_id a = id /\ actionable a = true.
Definition served (m : store) (c : search_cycle) : Prop :=
  searching c -> offered_in m (cy_id c) -> waiting_in m (cy_id c).
Definition served_but (id : Z) (m : store) : Prop :=
  forall c, c ∈ st_cycles m -> cy_id c <> id -> served m c.

Record search_sound (m : store) : Prop := {
  sh_base : search_base m;
  sh_served : forall c, c ∈ st_cycles m -> served m c;
}.

(** * Offers *)

(** The columns of an offer that never change. *)
Definition offer_key (a : offer_attempt) : Z * Z * Z * Z * Z :=
  (oa_id a, oa_cycle_id a, oa_driver_id a, oa_vehicle_id a, oa_attempt_number a).

Definition quiet_offer (a : offer_attempt) : Prop := oa_status a ∉ ACTIONABLE_OFFER_STATUSES.

Lemma actionable_spec a : actionable a = true <-> oa_status a ∈ ACTIONABLE_OFFER_STATUSES.
Proof. unfold actionable. apply bool_decide_eq_true. Qed.

Lemma quiet_not_actionable a : quiet_offer a -> actionable a = false.
Proof. unfold actionable, quiet_offer. by intros; apply bool_decide_eq_false. Qed.

Lemma updated_offer cond f os a' :
  (forall a, offer_key (f a) = offer_key a /\ quiet_offer (f a)) -> a' ∈ update_where cond f os ->
  exists a, a ∈ os /\ offer_key a' = offer_key a
            /\ (a' = a /\ cond a = false \/ quiet_offer a' /\ cond a = true /\ a' = f a).
Proof.
  intros Hf (a & Ha & ->)%elem_of_update. exists a. destruct (Hf a) as [Hk Hq].
  destruct (cond a); naive_solver.
Qed.

Ltac offer_keys := unfold offer_key in *; simplify_eq/=.

Lemma offers_update cs os n cond f :
  (forall a, offer_key (f a) = offer_key a /\ quiet_offer (f a)) ->
  offers_ok cs os n -> offers_ok cs (update_where cond f os) n.
Proof.
  intros Hf Ho. assert (Hu := fun a' => updated_offer cond f os a' Hf). split.
  - rewrite (update_keys oa_id); [by apply Ho|]. intros a. destruct (Hf a) as [Hk _]. by offer_keys.
  - intros a' (a & Ha & Hk & _)%Hu. pose proof (oo_fresh _ _ _ Ho a Ha). offer_keys. congruence.
  - intros a' (a & Ha & _ & [[-> _]|[Hq _]])%Hu; [by eapply oo_settled|]. unfold quiet_offer in Hq. set_solver.
  - intros a' (a & Ha & _ & [[-> _]|[Hq _]])%Hu Hact; [by eapply oo_cycle|].
    by rewrite quiet_not_actionable in Hact.
  - intros a' b' (a & Ha & _ & [[-> _]|[Hq _]])%Hu (b & Hb & _ & [[-> _]|[Hq' _]])%Hu E H1 H2;
      [by eapply oo_one|by rewrite quiet_not_actionable in H2|by rewrite quiet_not_actionable in H1..].
  - intros a' b' (a & Ha & Hk & _)%Hu (b & Hb & Hk' & _)%Hu E E'.
    pose proof (oo_drivers _ _ _ Ho a b Ha Hb). offer_keys. naive_solver congruence.
  - intros a' b' (a & Ha & Hk & _)%Hu (b & Hb & Hk' & _)%Hu E E'.
    pose proof (oo_numbers _ _ _ Ho a b Ha Hb). offer_keys. naive_solver congruence.
  - intros a' (a & Ha & Hk & _)%Hu. destruct (oo_pool _ _ _ Ho a Ha) as (c & p & k & Hc).
    exists c, p, k. offer_keys. naive_solver congruence.
Qed.

(** Cycles that end without an offer that waits, or gain a pool. *)
Lemma offers_cycles cs cs' os n n' :
  n <= n' ->
  (forall c, c ∈ cs -> exists c', c' ∈ cs' /\ cy_id c' = cy_id c
     /\ (forall p, cy_ranked_pool c = Some p -> cy_ranked_pool c' = Some p)
     /\ ((exists a, a ∈ os /\ oa_cycle_id a = cy_id c /\ actionable a = true) ->
         searching c -> searching c')) ->
  offers_ok cs os n -> offers_ok cs' os n'.
Proof.
  intros Hn Hc [Ho1 Ho2 Ho3 Ho4 Ho5 Ho6 Ho7 Ho8]. split; try done.
  - intros a Ha. specialize (Ho2 a Ha). lia.
  - intros a Ha Hact. destruct (Ho4 a Ha Hact) as (c & Hin & E & Hs).
    destruct (Hc c Hin) as (c' & Hin' & E' & _ & Hk). exists c'. split_and!; [done|congruence|].
    apply Hk; [by exists a|done].
  - intros a Ha. destruct (Ho8 a Ha) as (c & p & k & Hin & E & Hp & Hk).
    destruct (Hc c Hin) as (c' & Hin' & E' & Hp' & _). exists c', p, k.
    split_and!; try apply Hk; [done|congruence|by apply Hp'].
Qed.

Lemma offers_insert cs os n c p k number now rank deadline :
  offers_ok cs os n -> c ∈ cs -> searching c -> cy_ranked_pool c = Some p -> k ∈ p ->
  (forall a, a ∈ os -> oa_cycle_id a = cy_id c -> actionable a = false
     /\ oa_driver_id a <> ca_driver_id k /\ oa_attempt_number a <> number) ->
  offers_ok cs (os ++ [{| oa_id := n; oa_cycle_id := cy_id c; oa_driver_id := ca_driver_id k;
                          oa_vehicle_id := ca_vehicle_id k; oa_attempt_number := number;
                          oa_candidate_rank := rank; oa_offered_at := now;
                          oa_response_deadline := deadline; oa_status := OF_offered;
                          oa_responded_at := None; oa_reason := None |}]) (n + 1).
Proof.
  intros Ho Hc Hs Hp Hk Hother.
  assert (Hin : forall x (P : offer_attempt), x ∈ os ++ [P] -> x ∈ os \/ x = P).
  { intros x P. rewrite elem_of_app, list_elem_of_singleton. done. }
  split.
  - rewrite fmap_app. apply list.NoDup_app. split_and!; [by apply Ho| |apply NoDup_singleton].
    intros x (a & -> & Ha)%list_elem_of_fmap Hx%list_elem_of_singleton. simpl in Hx.
    pose proof (oo_fresh _ _ _ Ho a Ha). lia.
  - intros a [Ha| ->]%Hin; [pose proof (oo_fresh _ _ _ Ho a Ha)|simpl]; lia.
  - intros a [Ha| ->]%Hin; [by eapply oo_settled|done].
  - intros a [Ha| ->]%Hin Hact; [by eapply oo_cycle|]. by exists c.
  - intros a b [Ha| ->]%Hin [Hb| ->]%Hin E H1 H2; simpl in *; [by eapply oo_one| | |done].
    + destruct (Hother a Ha E); congruence.
    + destruct (Hother b Hb (eq_sym E)); congruence.
  - intros a b [Ha| ->]%Hin [Hb| ->]%Hin E H1; simpl in *; [by eapply oo_drivers| | |done].
    + destruct (Hother a Ha E) as (_ & ? & _); congruence.
    + destruct (Hother b Hb (eq_sym E)) as (_ & ? & _); congruence.
  - intros a b [Ha| ->]%Hin [Hb| ->]%Hin E H1; simpl in *; [by eapply oo_numbers| | |done].
    + destruct (Hother a Ha E) as (_ & _ & ?); congruence.
    + destruct (Hother b Hb (eq_sym E)) as (_ & _ & ?); congruence.
  - intros a [Ha| ->]%Hin; [by eapply oo_pool|]. by exists c, p, k.
Qed.

(** * Cycles *)

Definition cycle_key (c : search_cycle) : Z * Z * Z * bool :=
  (cy_id c, cy_ride_request_id c, cy_cycle_number c, cy_is_deleted c).

Record cycle_write (c c' : search_cycle) : Prop := {
  cw_key : cycle_key c' = cycle_key c;
  cw_searching : searching c' -> searching c;
  cw_settled : cy_status c <> CY_converting -> cy_status c' <> CY_converting;
  cw_pool : forall p, cy_ranked_pool c' = Some p ->
    cy_ranked_pool c = Some p \/ (length p <= MATCHING_POOL_SIZE)%nat;
}.

Lemma cycle_write_refl c : cycle_write c c.
Proof. split; auto. Qed.

Lemma close_cycle_write s now reason c :
  s <> CY_searching -> s <> CY_converting -> cycle_write c (close_cycle s now reason c).
Proof. intros H1 H2. split; [done|intros H; by destruct H1|done|by left]. Qed.

Lemma set_pool_write p c : (length p <= MATCHING_POOL_SIZE)%nat -> cycle_write c (set_pool p c).
Proof. intros Hp. split; [done|done|done|]. intros q [= ->]. by right. Qed.

Ltac cycle_keys := unfold cycle_key in *; simplify_eq/=.

Lemma updated_cycle cond f (cs : list search_cycle) c' :
  (forall c, c ∈ cs -> cond c = true -> cycle_write c (f c)) -> c' ∈ update_where cond f cs ->
  exists c, c ∈ cs /\ cycle_write c c'.
Proof.
  intros Hf (c & Hc & ->)%elem_of_update. exists c. split; [done|].
  destruct (cond c) eqn:E; [by apply Hf|by apply cycle_write_refl].
Qed.

Lemma update_cycle_ids cond f (cs : list search_cycle) :
  (forall c, c ∈ cs -> cond c = true -> cycle_write c (f c)) ->
  cy_id <$> update_where cond f cs = cy_id <$> cs.
Proof.
  intros Hf. unfold update_where. rewrite <- list_fmap_compose. apply list_fmap_ext.
  intros i c Hc. simpl. destruct (cond c) eqn:E; [|done].
  destruct (Hf c (list_elem_of_lookup_2 _ _ _ Hc) E) as [Hk _ _ _]. by cycle_keys.
Qed.

Lemma cycles_update rs cs n cond f :
  (forall c, c ∈ cs -> cond c = true -> cycle_write c (f c)) ->
  cycles_ok rs cs n -> cycles_ok rs (update_where cond f cs) n.
Proof.
  intros Hf Ho. assert (Hu := fun c' => updated_cycle cond f cs c' Hf). split.
  - rewrite update_cycle_ids by done. apply Ho.
  - intros c' (c & Hc & [Hk _ _ _])%Hu. pose proof (cc_fresh _ _ _ Ho c Hc). cycle_keys. congruence.
  - intros c' (c & Hc & [Hk _ _ _])%Hu. pose proof (cc_kept _ _ _ Ho c Hc). cycle_keys. congruence.
  - intros c' (c & Hc & Hw)%Hu. apply (cw_settled _ _ Hw). by eapply cc_settled.
  - intros c' (c & Hc & [Hk _ _ _])%Hu. pose proof (cc_foreign _ _ _ Ho c Hc). injection Hk as _ -> _ _. done.
  - intros c' (c & Hc & [Hk Hs _ _])%Hu Hs'. destruct (cc_parent _ _ _ Ho c Hc (Hs Hs')) as (r & ? & ? & ?).
    exists r. cycle_keys. split_and!; congruence.
  - intros c' d' (c & Hc & [Hk Hs _ _])%Hu (d & Hd & [Hk' _ _ _])%Hu E Hs'.
    injection Hk as _ Ec -> _. injection Hk' as _ Ed -> _. rewrite Ec, Ed in E.
    by apply (cc_last _ _ _ Ho c d Hc Hd E), Hs.
  - intros c' d' (c & Hc & [Hk _ _ _])%Hu (d & Hd & [Hk' _ _ _])%Hu E E'.
    pose proof (cc_numbers _ _ _ Ho c d Hc Hd) as Hl. cycle_keys. naive_solver congruence.
  - intros c' p (c & Hc & Hw)%Hu Hp. destruct (cw_pool _ _ Hw p Hp); [by eapply cc_pool|done].
Qed.

Lemma cycles_insert rs cs n r number deadline :
  cycles_ok rs cs n -> r ∈ rs -> rr_status r = RQ_searching ->
  (forall c, c ∈ cs -> cy_ride_request_id c = rr_id r -> cy_cycle_number c < number /\ ~ searching c) ->
  cycles_ok rs (cs ++ [{| cy_id := n; cy_ride_request_id := rr_id r; cy_cycle_number := number;
                          cy_deadline := deadline; cy_is_deleted := false; cy_status := CY_searching;
                          cy_completed_at := None; cy_terminal_reason := None;
                          cy_ranked_pool := None |}]) (n + 1).
Proof.
  intros Ho Hr Hst Hother.
  assert (Hin : forall x (P : search_cycle), x ∈ cs ++ [P] -> x ∈ cs \/ x = P).
  { intros x P. rewrite elem_of_app, list_elem_of_singleton. done. }
  split.
  - rewrite fmap_app. apply list.NoDup_app. split_and!; [by apply Ho| |apply NoDup_singleton].
    intros x (c & -> & Hc)%list_elem_of_fmap Hx%list_elem_of_singleton. simpl in Hx.
    pose proof (cc_fresh _ _ _ Ho c Hc). lia.
  - intros c [Hc| ->]%Hin; [pose proof (cc_fresh _ _ _ Ho c Hc)|simpl]; lia.
  - intros c [Hc| ->]%Hin; [by eapply cc_kept|done].
  - intros c [Hc| ->]%Hin; [by eapply cc_settled|done].
  - intros c [Hc| ->]%Hin; [by eapply cc_foreign|]. simpl. by apply list_elem_of_fmap_2.
  - intros c [Hc| ->]%Hin Hs; [by eapply cc_parent|]. by exists r.
  - intros c d [Hc| ->]%Hin [Hd| ->]%Hin E Hs; simpl in *; [by eapply cc_last| | |done].
    + by destruct (Hother c Hc E).
    + destruct (Hother d Hd (eq_sym E)). lia.
  - intros c d [Hc| ->]%Hin [Hd| ->]%Hin E E'; simpl in *; [by eapply cc_numbers| | |done].
    + destruct (Hother c Hc E). lia.
    + destruct (Hother d Hd (eq_sym E)). lia.
  - intros c p [Hc| ->]%Hin Hp; [by eapply cc_pool|done].
Qed.

Lemma cycles_requests rs rs' cs n n' :
  n <= n' -> (forall id, id ∈ rr_id <$> rs -> id ∈ rr_id <$> rs') ->
  (forall r c, r ∈ rs -> rr_status r = RQ_searching -> c ∈ cs -> searching c ->
     cy_ride_request_id c = rr_id r ->
     exists r', r' ∈ rs' /\ rr_id r' = rr_id r /\ rr_status r' = RQ_searching) ->
  cycles_ok rs cs n -> cycles_ok rs' cs n'.
Proof.
  intros Hn Hf Hr [H1 H2 H3 H4 H4' H5 H6 H7 H8]. split; try done.
  - intros c Hc. specialize (H2 c Hc). lia.
  - intros c Hc. by apply Hf, H4'.
  - intros c Hc Hs. destruct (H5 c Hc Hs) as (r & Hin & E & Hst).
    destruct (Hr r c Hin Hst Hc Hs (eq_sym E)) as (r' & ? & ? & ?). exists r'. split_and!; [done|congruence|done].
Qed.

Lemma offers_next cs os n n' : n <= n' -> offers_ok cs os n -> offers_ok cs os n'.
Proof. intros Hn []. split; try done. intros a Ha. specialize (oo_fresh0 a Ha). lia. Qed.

Lemma requests_next rs n n' : n <= n' -> requests_ok rs n -> requests_ok rs n'.
Proof. intros Hn [? ? Hf ?]. split; try done. intros r Hr. specialize (Hf r Hr). lia. Qed.

(** At most one searching cycle of a request. *)
Lemma searching_once rs cs n c c' :
  cycles_ok rs cs n -> c ∈ cs -> c' ∈ cs -> cy_ride_request_id c = cy_ride_request_id c' ->
  searching c -> searching c' -> c = c'.
Proof.
  intros Ho Hc Hc' E Hs Hs'. apply (key_unique cy_id cs); [by apply Ho|done|done|].
  eapply cc_numbers; [done..|]. pose proof (cc_last _ _ _ Ho c c' Hc Hc' E Hs).
  pose proof (cc_last _ _ _ Ho c' c Hc' Hc (eq_sym E) Hs'). lia.
Qed.

(** * Requests *)

(** Writing one request whose public columns stay. *)
Definition request_key (r : ride_request) : Z * string := (rr_id r, rr_public_id r).

Lemma updated_request (rs : list ride_request) r r' x :
  NoDup (rr_id <$> rs) -> r ∈ rs -> request_key r' = request_key r ->
  x ∈ update_where (fun x => rr_id x =? rr_id r') (fun _ => r') rs ->
  x = r' \/ (x ∈ rs /\ rr_id x <> rr_id r).
Proof.
  intros Hnd Hr [= E _]. rewrite E. by apply (write_elem rr_id).
Qed.

Lemma update_request_keys (rs : list ride_request) r r' :
  NoDup (rr_id <$> rs) -> r ∈ rs -> request_key r' = request_key r ->
  request_key <$> update_where (fun x => rr_id x =? rr_id r') (fun _ => r') rs = request_key <$> rs.
Proof.
  intros Hnd Hr Hk. unfold update_where. rewrite <- list_fmap_compose. apply list_fmap_ext.
  intros i x Hx. simpl. destruct (Z.eqb_spec (rr_id x) (rr_id r')) as [E|]; [|done].
  assert (x = r) as ->; [|done].
  apply (key_unique rr_id rs); [done|by eapply list_elem_of_lookup_2|done|]. by injection Hk as <-.
Qed.

Lemma update_request_ids (rs : list ride_request) r r' :
  NoDup (rr_id <$> rs) -> r ∈ rs -> request_key r' = request_key r ->
  rr_id <$> update_where (fun x => rr_id x =? rr_id r') (fun _ => r') rs = rr_id <$> rs.
Proof.
  intros Hnd Hr Hk. pose proof (f_equal (fmap fst) (update_request_keys rs r r' Hnd Hr Hk)) as E.
  by rewrite <- !list_fmap_compose in E.
Qed.

Lemma requests_write rs r r' n :
  requests_ok rs n -> r ∈ rs -> request_key r' = request_key r -> rr_status r' <> RQ_converting ->
  requests_ok (update_where (fun x => rr_id x =? rr_id r') (fun _ => r') rs) n.
Proof.
  intros Ho Hr Hk Hs. pose proof (update_request_keys rs r r' (rq_ids _ _ Ho) Hr Hk) as Hkeys.
  assert (Hu := fun x => updated_request rs r r' x (rq_ids _ _ Ho) Hr Hk). split.
  - rewrite (update_request_ids rs r r'); [apply Ho|apply Ho|done|done].
  - replace (rr_public_id <$> _) with (snd <$> (request_key <$> rs)); [rewrite <- list_fmap_compose; apply Ho|].
    rewrite <- Hkeys, <- list_fmap_compose. done.
  - intros x [->|[Hx _]]%Hu; [|by apply (rq_fresh _ _ Ho)]. injection Hk as -> _. by apply (rq_fresh _ _ Ho).
  - intros x [->|[Hx _]]%Hu; [done|by eapply rq_settled].
Qed.

(** A write that does not touch converted requests keeps the links. *)
Lemma links_write rs ts r r' n :
  requests_ok rs n -> links_ok rs ts -> r ∈ rs -> request_key r' = request_key r ->
  rr_status r <> RQ_converted -> rr_status r' <> RQ_converted ->
  links_ok (update_where (fun x => rr_id x =? rr_id r') (fun _ => r') rs) ts.
Proof.
  intros Hq [H1 H2 H3] Hr Hk Hs Hs'.
  assert (Hu := fun x => updated_request rs r r' x (rq_ids _ _ Hq) Hr Hk). split; [| |done].
  - intros i id Hi E. destruct (H1 i id Hi E) as (x & Hx & Ex & Hst). exists x. split_and!; [|done|done].
    injection Hk as -> _. apply (write_other rr_id); [done|].
    intros E'. apply Hs. assert (x = r) as <-; [|done]. by apply (key_unique rr_id rs); [apply Hq|..].
  - intros x [->|[Hx _]]%Hu Hst; [done|by apply H2].
Qed.

(** * Writes of the store *)

(** What every operation before a booking leaves alone. *)
Record search_frame (m m' : store) : Prop := {
  sf_trips : st_trips m' = st_trips m;
  sf_cabs : st_cabs m' = st_cabs m;
  sf_fleet : st_fleet m' = st_fleet m;
  sf_payments : st_payments m' = st_payments m;
  sf_invoices : st_invoices m' = st_invoices m;
  sf_next : st_next m <= st_next m';
  sf_requests : forall r, r ∈ st_requests m -> exists r', r' ∈ st_requests m'
    /\ request_key r' = request_key r
    /\ (rr_status r' = rr_status r \/ rr_status r = RQ_searching /\ rr_status r' = RQ_cancelled);
}.

Lemma search_frame_refl m : search_frame m m.
Proof. split; try done. intros r Hr. exists r. auto. Qed.

Lemma search_frame_trans m1 m2 m3 : search_frame m1 m2 -> search_frame m2 m3 -> search_frame m1 m3.
Proof.
  intros [? ? ? ? ? ? Hr1] [? ? ? ? ? ? Hr2]. split; try congruence; [lia|].
  intros r Hr. destruct (Hr1 r Hr) as (r' & Hr' & ? & Hs1). destruct (Hr2 r' Hr') as (r'' & ? & ? & Hs2).
  exists r''. split_and!; [done|congruence|]. destruct Hs1 as [E|[E1 E2]], Hs2 as [E'|[E1' E2']].
  all: first [left; congruence|right; split; congruence].
Qed.

Lemma same_requests_frame m cs os : search_frame m (with_search m (st_requests m) cs os).
Proof. split; try done. intros r Hr. exists r. auto. Qed.

Lemma take_id_frame m : search_frame m (take_id m).
Proof. split; try done; simpl; [lia|]. intros r Hr. exists r. auto. Qed.

(** ** Offers *)

Lemma update_offers_base m cond f :
  (forall a, offer_key (f a) = offer_key a /\ quiet_offer (f a)) -> search_base m ->
  search_base (with_search m (st_requests m) (st_cycles m) (update_where cond f (st_offers m))).
Proof. intros Hf []. split; try done. by apply offers_update. Qed.

Lemma update_offers_served m cond f id :
  (forall a, offer_key (f a) = offer_key a /\ quiet_offer (f a)) ->
  (forall a, a ∈ st_offers m -> cond a = true -> oa_cycle_id a = id) ->
  served_but id m ->
  served_but id (with_search m (st_requests m) (st_cycles m) (update_where cond f (st_offers m))).
Proof.
  intros Hf Hc Hs c Hin Hne Hsr (a' & Ha' & E).
  destruct (updated_offer _ _ _ _ Hf Ha') as (a & Ha & Hk & _). injection Hk as _ Ek _ _ _.
  destruct (Hs c Hin Hne Hsr) as (w & Hw & Ew & Hact); [by exists a; split; [|congruence]|].
  exists w. split_and!; [|done|done]. apply elem_of_update. exists w. split; [done|].
  destruct (cond w) eqn:Hcw; [|done]. exfalso. apply Hne. by rewrite <- Ew, <- (Hc w Hw Hcw).
Qed.

Definition quiet_outcome (s : OfferStatus) : Prop := s ∉ ACTIONABLE_OFFER_STATUSES.

Lemma quiet_outcome_intro s : s <> OF_offered -> s <> OF_accepting -> quiet_outcome s.
Proof. unfold quiet_outcome. set_solver. Qed.

Create HintDb rides.
#[export] Hint Extern 1 (quiet_outcome _) => by apply quiet_outcome_intro : rides.
#[export] Hint Resolve search_frame_refl same_requests_frame take_id_frame cycle_write_refl : rides.

Lemma respond_key s now reason a : quiet_outcome s ->
  offer_key (respond s now reason a) = offer_key a /\ quiet_offer (respond s now reason a).
Proof. done. Qed.

(** No offer of the cycle waits. *)
Definition quiet_cycle (m : store) (id : Z) : Prop :=
  forall a, a ∈ st_offers m -> oa_cycle_id a = id -> actionable a = false.

Lemma answer_offers_base s reason now id m : quiet_outcome s -> search_base m ->
  search_base (answer_offers s reason now id m).
Proof. intros Hq. apply update_offers_base. intros a. by apply respond_key. Qed.

Lemma answer_offers_served s reason now id m : quiet_outcome s -> served_but id m ->
  served_but id (answer_offers s reason now id m).
Proof.
  intros Hq. apply update_offers_served; [intros a; by apply respond_key|].
  intros a _ [E%Z.eqb_eq _]%andb_prop. done.
Qed.

Lemma answer_offers_quiet s reason now id m : quiet_outcome s ->
  quiet_cycle (answer_offers s reason now id m) id.
Proof.
  intros Hq a (x & Hx & ->)%elem_of_update E. destruct (_ && _) eqn:Hc.
  - by apply quiet_not_actionable.
  - rewrite E, Z.eqb_refl in Hc. done.
Qed.

(** One offer answered. *)
Lemma put_offer_base s reason now a m : quiet_outcome s -> search_base m -> a ∈ st_offers m ->
  search_base (put_offer (respond s now reason a) m)
  /\ (served_but (oa_cycle_id a) m -> served_but (oa_cycle_id a) (put_offer (respond s now reason a) m))
  /\ (actionable a = true -> quiet_cycle (put_offer (respond s now reason a) m) (oa_cycle_id a)).
Proof.
  intros Hq Hb Ha. pose proof (sb_offers _ Hb) as Ho.
  assert (Eq : put_offer (respond s now reason a) m
    = with_search m (st_requests m) (st_cycles m)
        (update_where (fun x => oa_id x =? oa_id a) (respond s now reason) (st_offers m))).
  { unfold put_offer. f_equal. apply list_fmap_ext. intros i x Hx. simpl.
    destruct (Z.eqb_spec (oa_id x) (oa_id a)) as [E|]; [|done].
    assert (x = a) as ->; [|done].
    apply (key_unique oa_id (st_offers m)); [by apply Ho|by eapply list_elem_of_lookup_2|done|done]. }
  rewrite Eq. split_and!.
  - apply update_offers_base; [|done]. intros x. by apply respond_key.
  - apply update_offers_served; [intros x; by apply respond_key|]. intros x Hx E%Z.eqb_eq.
    by rewrite (key_unique oa_id (st_offers m) x a (oo_ids _ _ _ Ho) Hx Ha E).
  - intros Hact x (y & Hy & ->)%elem_of_update E. destruct (Z.eqb_spec (oa_id y) (oa_id a)) as [|Hne].
    + by apply quiet_not_actionable.
    + destruct (actionable y) eqn:Hy'; [|done]. exfalso. apply Hne. by eapply (oo_one _ _ _ Ho).
Qed.

(** ** Cycles *)

Lemma put_cycle_base m c c' : search_base m -> c ∈ st_cycles m -> cycle_write c c' ->
  (forall p, cy_ranked_pool c = Some p -> cy_ranked_pool c' = Some p) ->
  (searching c' \/ quiet_cycle m (cy_id c)) -> search_base (put_cycle c' m).
Proof.
  intros [Hr Hcs Ho Hl] Hc Hw Hp Hq.
  assert (E : cy_id c' = cy_id c) by (destruct Hw as [Hk _ _ _]; by injection Hk).
  assert (Hsame : forall x, x ∈ st_cycles m -> cy_id x = cy_id c' -> x = c).
  { intros x Hx Ex. apply (key_unique cy_id (st_cycles m)); [by apply Hcs|done|done|congruence]. }
  split; simpl; [done| | |done].
  - apply cycles_update; [|done]. intros x Hx Ex%Z.eqb_eq. by rewrite (Hsame x Hx Ex).
  - eapply offers_cycles; [reflexivity| |exact Ho]. intros x Hx.
    exists (if cy_id x =? cy_id c' then c' else x). split.
    { apply elem_of_update. by exists x. }
    destruct (Z.eqb_spec (cy_id x) (cy_id c')) as [Ex|]; [|auto].
    rewrite (Hsame x Hx Ex). split_and!; [done|done|]. intros (a & Ha & Ea & Hact) _.
    destruct Hq as [|Hq]; [done|]. by rewrite (Hq a Ha Ea) in Hact.
Qed.

Lemma put_cycle_served m c' : served_but (cy_id c') m ->
  (served m c' \/ ~ searching c') -> forall c, c ∈ st_cycles (put_cycle c' m) -> served (put_cycle c' m) c.
Proof.
  intros Hs Hc c (x & Hx & ->)%elem_of_update. destruct (Z.eqb_spec (cy_id x) (cy_id c')) as [|Hne].
  - destruct Hc as [Hc|Hc]; [exact Hc|by intros Hs'].
  - by apply Hs.
Qed.

(** A cycle without a waiting offer ends. *)
Lemma end_cycle_sound m c c0 s now reason :
  search_base m -> served_but (cy_id c) m -> c0 ∈ st_cycles m -> cycle_write c0 c ->
  (forall p, cy_ranked_pool c0 = Some p -> cy_ranked_pool c = Some p) ->
  quiet_cycle m (cy_id c) -> s <> CY_searching -> s <> CY_converting ->
  search_sound (put_cycle (close_cycle s now reason c) m).
Proof.
  intros Hb Hs Hc Hw Hp Hq H1 H2.
  assert (E : cy_id c = cy_id c0) by (destruct Hw as [Hk _ _ _]; by injection Hk).
  split.
  - apply (put_cycle_base m c0); [done|done| |done|right; by rewrite <- E].
    destruct (close_cycle_write s now reason c H1 H2) as [Hk' Hs' Hst' Hp'], Hw as [Hk Hs0 Hst Hp0].
    split; [congruence|auto|auto|]. intros p Hpp. destruct (Hp' p Hpp); auto.
  - apply put_cycle_served; [done|]. right. exact H1.
Qed.

Lemma sound_served_but m id : search_sound m -> served_but id m.
Proof. intros [_ Hs] c Hc _. by apply Hs. Qed.

Lemma close_at_deadline_sound m c now m' :
  search_base m -> served_but (cy_id c) m -> c ∈ st_cycles m ->
  _close_cycle_at_deadline m c now = Some m' -> search_sound m'.
Proof.
  intros Hb Hs Hc. unfold _close_cycle_at_deadline. case_match; [|done]. intros [= <-].
  apply (end_cycle_sound _ _ c); try done; auto with rides.
  - apply answer_offers_base; auto with rides.
  - apply answer_offers_served; auto with rides.
  - apply answer_offers_quiet; auto with rides.
Qed.

Lemma close_at_deadline_frame m c now m' :
  _close_cycle_at_deadline m c now = Some m' -> search_frame m m'.
Proof.
  unfold _close_cycle_at_deadline. case_match; [|done]. intros [= <-].
  eapply search_frame_trans; apply same_requests_frame.
Qed.

(** ** A new offer *)

Lemma elem_of_offers_of m id a : a ∈ offers_of m id <-> a ∈ st_offers m /\ oa_cycle_id a = id.
Proof. unfold offers_of. by rewrite list_elem_of_In, List.filter_In, <- list_elem_of_In, Z.eqb_eq. Qed.

Lemma existsb_false {A} (f : A -> bool) l : existsb f l = false <-> forall x, x ∈ l -> f x = false.
Proof.
  split.
  - intros H x Hx%list_elem_of_In. destruct (f x) eqn:E; [|done].
    rewrite <- H. symmetry. apply existsb_exists. by exists x.
  - intros H. destruct (existsb f l) eqn:E; [|done].
    apply existsb_exists in E as (x & Hx%list_elem_of_In & E). by rewrite H in E.
Qed.

Lemma insert_offer_Ok m id k number now :
  (forall a, a ∈ st_offers m -> oa_cycle_id a = id ->
     actionable a = false /\ oa_attempt_number a <> number) ->
  exists m', _insert_offer m id k number now = Ok m'.
Proof.
  intros Ho. unfold _insert_offer.
  rewrite (proj2 (existsb_false (fun a => oa_attempt_number a =? number) _)),
    (proj2 (existsb_false actionable _)); [by eexists|..];
    intros a [Ha E]%elem_of_offers_of; destruct (Ho a Ha E); [done|by apply Z.eqb_neq].
Qed.

Lemma insert_offer_sound m c p k number now m' :
  search_base m -> served_but (cy_id c) m -> c ∈ st_cycles m -> searching c ->
  cy_ranked_pool c = Some p -> k ∈ p ->
  (forall a, a ∈ st_offers m -> oa_cycle_id a = cy_id c -> oa_driver_id a <> ca_driver_id k) ->
  _insert_offer m (cy_id c) k number now = Ok m' -> search_sound m' /\ search_frame m m'.
Proof.
  intros [Hr Hc Ho Hl] Hs Hin Hsr Hp Hk Hd H. unfold _insert_offer in H. guard H as Hu.
  injection H as <-. rewrite andb_true_iff, !negb_true_iff, !existsb_false in Hu.
  destruct Hu as [Hnum Hact].
  assert (Hother : forall a, a ∈ st_offers m -> oa_cycle_id a = cy_id c -> actionable a = false
     /\ oa_driver_id a <> ca_driver_id k /\ oa_attempt_number a <> number).
  { intros a Ha E. assert (Hao : a ∈ offers_of m (cy_id c)) by by apply elem_of_offers_of.
    split_and!; [by apply Hact|by apply Hd|]. by apply Z.eqb_neq, Hnum. }
  split; [|exact (search_frame_trans _ _ _ (same_requests_frame m _ _) (take_id_frame _))]. split.
  - assert (Hn : st_next m <= st_next m + 1) by lia. split; simpl.
    + by eapply requests_next.
    + eapply (cycles_requests (st_requests m)); [exact Hn|done|by eauto|done].
    + by eapply offers_insert.
    + done.
  - intros x Hx. simpl in Hx. destruct (decide (cy_id x = cy_id c)) as [E|Hne]; intros Hsx Hoff.
    + eexists. split; [apply elem_of_app; right; apply list_elem_of_singleton; reflexivity|]. done.
    + destruct (Hs x Hx Hne Hsx) as (w & Hw & Ew & Hact').
      * destruct Hoff as (a & Ha & E). simpl in Ha. rewrite elem_of_app, list_elem_of_singleton in Ha.
        destruct Ha as [Ha| ->]; [by exists a|]. simpl in E. congruence.
      * exists w. split; [apply elem_of_app; by left|done].
Qed.

(** * Advancing a cycle *)

Lemma next_number_fresh m id a : a ∈ st_offers m -> oa_cycle_id a = id ->
  oa_attempt_number a <> next_number m id.
Proof.
  intros Ha E. unfold next_number.
  assert (H : oa_attempt_number a ∈ oa_attempt_number <$> offers_of m id).
  { apply list_elem_of_fmap_2. by apply elem_of_offers_of. }
  revert H. generalize (oa_attempt_number <$> offers_of m id). intros l H.
  assert (oa_attempt_number a <= foldr Z.max 0 l); [|lia].
  induction l as [|x l IH]; [by apply not_elem_of_nil in H|]. simpl.
  apply elem_of_cons in H as [<-|H]; [lia|]. specialize (IH H). lia.
Qed.

Lemma next_candidate_spec m c k : next_candidate m c = Some k ->
  exists p, cy_ranked_pool c = Some p /\ k ∈ p
    /\ forall a, a ∈ st_offers m -> oa_cycle_id a = cy_id c -> oa_driver_id a <> ca_driver_id k.
Proof.
  unfold next_candidate. intros [Hin%list_elem_of_In Hn]%List.find_some.
  destruct (cy_ranked_pool c) as [p|]; [|by apply not_elem_of_nil in Hin].
  exists p. split_and!; [done|done|]. intros a Ha E Ed.
  rewrite negb_true_iff, bool_decide_eq_false in Hn. apply Hn. rewrite <- Ed.
  apply list_elem_of_fmap_2. by apply elem_of_offers_of.
Qed.

(** An offer that waits ends without error: the window closes, the pool is
    exhausted, or the next driver is asked. *)
Lemma advance_locked_spec m c a outcome now :
  search_sound m -> c ∈ st_cycles m -> searching c -> a ∈ st_offers m -> oa_cycle_id a = cy_id c ->
  actionable a = true -> quiet_outcome outcome ->
  exists p, _advance_locked m c a outcome now = Ok p /\ search_sound p.1 /\ search_frame m p.1.
Proof.
  intros Hsound Hc Hs Ha E Hact Hq. unfold _advance_locked.
  destruct (put_offer_base outcome None now a m Hq (sh_base _ Hsound) Ha) as (Hb & Hsv & Hqc).
  rewrite E in Hsv, Hqc. specialize (Hsv (sound_served_but m _ Hsound)). specialize (Hqc Hact).
  set (m1 := put_offer _ m) in *. assert (Hf : search_frame m m1) by apply same_requests_frame.
  destruct (_close_cycle_at_deadline m1 c now) as [m2|] eqn:Hclose.
  { exists (m2, false). split_and!; [done|by eapply close_at_deadline_sound|].
    eapply search_frame_trans; [exact Hf|by eapply close_at_deadline_frame]. }
  destruct (next_candidate m1 c) as [k|] eqn:Hk.
  - destruct (next_candidate_spec _ _ _ Hk) as (p & Hp & Hkp & Hd).
    destruct (insert_offer_Ok m1 (cy_id c) k (next_number m1 (cy_id c)) now) as [m2 Hm2].
    { intros x Hx Ex. split; [by apply Hqc|by apply next_number_fresh]. }
    rewrite Hm2. exists (m2, true). split; [done|].
    destruct (insert_offer_sound m1 c p k _ now m2 Hb Hsv Hc Hs Hp Hkp Hd Hm2) as [? ?].
    split; [done|]. by eapply search_frame_trans.
  - eexists. split; [reflexivity|]. split.
    + apply (end_cycle_sound _ _ c); auto with rides; done.
    + eapply search_frame_trans; [exact Hf|apply same_requests_frame].
Qed.

(** * The operations on a search *)

Lemma elem_of_cycles_of m id c :
  c ∈ cycles_of m id <-> c ∈ st_cycles m /\ cy_ride_request_id c = id /\ cy_is_deleted c = false.
Proof.
  unfold cycles_of. rewrite list_elem_of_In, List.filter_In, <- list_elem_of_In.
  by rewrite andb_true_iff, Z.eqb_eq, negb_true_iff.
Qed.

(** The cycle an operation finds is the last of its request. *)
Lemma cycle_for_request_spec m r : search_base m ->
  match _cycle_for_request m r with
  | Some c => c ∈ st_cycles m /\ cy_ride_request_id c = rr_id r
      /\ forall c', c' ∈ st_cycles m -> cy_ride_request_id c' = rr_id r ->
           cy_cycle_number c' <= cy_cycle_number c
  | None => forall c', c' ∈ st_cycles m -> cy_ride_request_id c' <> rr_id r
  end.
Proof.
  intros Hb. unfold _cycle_for_request.
  assert (Hall : forall c', c' ∈ st_cycles m -> cy_ride_request_id c' = rr_id r -> c' ∈ cycles_of m (rr_id r)).
  { intros c' Hc' E. apply elem_of_cycles_of. split_and!; [done|done|]. by apply (cc_kept _ _ _ (sb_cycles _ Hb)). }
  assert (Hmax : forall l, match foldr later_cycle None l with
    | Some c => c ∈ l /\ forall c', c' ∈ l -> cy_cycle_number c' <= cy_cycle_number c
    | None => l = [] end).
  { induction l as [|x l IH]; [done|]. simpl. destruct (foldr later_cycle None l) as [y|]; simpl.
    - destruct IH as [Hy Hm]. destruct (Z.leb_spec (cy_cycle_number y) (cy_cycle_number x)).
      + split; [set_solver|]. intros c' [->|Hc']%elem_of_cons; [done|]. specialize (Hm c' Hc'). lia.
      + split; [set_solver|]. intros c' [->|Hc']%elem_of_cons; [lia|]. by apply Hm.
    - subst l. split; [set_solver|]. intros c' ->%list_elem_of_singleton. done. }
  specialize (Hmax (cycles_of m (rr_id r))). destruct (foldr _ _ _) as [c|].
  - destruct Hmax as [(? & ? & _)%elem_of_cycles_of Hm]. split_and!; [done|done|]. auto.
  - intros c' Hc' E. specialize (Hall c' Hc' E). rewrite Hmax in Hall. by apply not_elem_of_nil in Hall.
Qed.

(** No cycle of a request searches when the last one does not. *)
Lemma idle_request m r : search_base m ->
  (forall c, _cycle_for_request m r = Some c -> ~ searching c) ->
  forall c, c ∈ st_cycles m -> cy_ride_request_id c = rr_id r -> ~ searching c.
Proof.
  intros Hb Hl c Hc E Hs. pose proof (cycle_for_request_spec m r Hb) as Hsp.
  destruct (_cycle_for_request m r) as [l|]; [|by apply (Hsp c Hc)]. destruct Hsp as (Hin & El & Hmax).
  apply (Hl l eq_refl). assert (l = c) as ->; [|done].
  pose proof (sb_cycles _ Hb) as Hcs. apply (key_unique cy_id (st_cycles m)); [by apply Hcs|done|done|].
  eapply (cc_numbers _ _ _ Hcs); [done|done|congruence|].
  specialize (Hmax c Hc E). pose proof (cc_last _ _ _ Hcs c l Hc Hin ltac:(congruence) Hs). lia.
Qed.

Lemma searching_cycle_spec m r c : search_base m -> searching_cycle m r = Some c ->
  rr_status r = RQ_searching /\ c ∈ st_cycles m /\ cy_ride_request_id c = rr_id r /\ searching c.
Proof.
  intros Hb. unfold searching_cycle. destruct (bool_decide _) eqn:Hr; [|done].
  rewrite bool_decide_eq_true in Hr. pose proof (cycle_for_request_spec m r Hb) as Hsp.
  destruct (_cycle_for_request m r) as [c'|]; [|done]. simpl. case_decide; [|done]. intros [= ->].
  by destruct Hsp as (? & ? & _).
Qed.

Lemma active_offer_spec m id a : active_offer m id = Some a ->
  a ∈ st_offers m /\ oa_cycle_id a = id /\ actionable a = true.
Proof.
  unfold active_offer. intros [Hin%list_elem_of_In Ha]%List.find_some.
  by apply elem_of_offers_of in Hin as [? ?].
Qed.

Lemma active_offer_none m id : active_offer m id = None -> ~ waiting_in m id.
Proof.
  unfold active_offer. intros Hn (a & Ha & E & Hact).
  assert (Hin : In a (offers_of m id)) by by apply list_elem_of_In, elem_of_offers_of.
  by rewrite (List.find_none _ _ Hn a Hin) in Hact.
Qed.

Lemma answer_active_sound m c a now r :
  search_sound m -> c ∈ st_cycles m -> searching c -> active_offer m (cy_id c) = Some a ->
  answer_active m c a now = Ok r -> search_sound r.1 /\ search_frame m r.1.
Proof.
  intros Hs Hc Hsr (Ha & E & Hact)%active_offer_spec H. unfold answer_active in H.
  destruct (bool_decide _); [injection H as <-; auto with rides|].
  destruct (_ && _); [injection H as <-; auto with rides|].
  destruct (advance_locked_spec m c a OF_timed_out now Hs Hc Hsr Ha E Hact) as (p & Hp & ? & ?);
    [auto with rides|]. rewrite Hp in H. by injection H as <-.
Qed.

Lemma with_ranks_length n l : (length (with_ranks n l) <= length l)%nat.
Proof.
  revert n. induction l as [|[d v] l IH]; intros n; simpl; [done|].
  pose proof (IH n). pose proof (IH (n + 1)). destruct (true_id d), (true_id v); simpl; lia.
Qed.

Lemma candidate_snapshot_length l : (length (_candidate_snapshot l) <= MATCHING_POOL_SIZE)%nat.
Proof.
  unfold _candidate_snapshot. etrans; [apply with_ranks_length|]. rewrite length_take.
  unfold MATCHING_POOL_SIZE. lia.
Qed.

Lemma put_cycle_elem m c c' : c ∈ st_cycles m -> cy_id c' = cy_id c -> c' ∈ st_cycles (put_cycle c' m).
Proof.
  intros Hc E. apply elem_of_update. exists c. split; [done|]. by rewrite E, Z.eqb_refl.
Qed.

Lemma quiet_cycle_none m id : ~ waiting_in m id -> quiet_cycle m id.
Proof.
  intros Hn a Ha E. destruct (actionable a) eqn:Hact; [|done]. exfalso. apply Hn. by exists a.
Qed.

Section ranked.
Context `{Hrank : Ranker}.

Lemma pool_of_spec m r c c' pool : search_sound m -> c ∈ st_cycles m -> pool_of m r c = (c', pool) ->
  cycle_write c c' /\ cy_ranked_pool c' = Some pool
  /\ (forall p, cy_ranked_pool c = Some p -> cy_ranked_pool c' = Some p)
  /\ cy_status c' = cy_status c /\ cy_id c' = cy_id c.
Proof.
  intros Hs Hc. unfold pool_of. destruct (cy_ranked_pool c) as [p|] eqn:Hp; intros [= <- <-].
  - split_and!; [apply cycle_write_refl|done|congruence|done|done].
  - split_and!; try done. apply set_pool_write, candidate_snapshot_length.
Qed.

Lemma first_offer_sound m r c now p :
  search_sound m -> c ∈ st_cycles m -> searching c -> active_offer m (cy_id c) = None ->
  first_offer m r c now = Ok p -> search_sound p.1 /\ search_frame m p.1.
Proof.
  intros Hs Hc Hsr Hnone%active_offer_none H. unfold first_offer in H.
  destruct (pool_of m r c) as [c' pool] eqn:Hpool.
  destruct (pool_of_spec _ _ _ _ _ Hs Hc Hpool) as (Hw & Hp' & Hpp & Hst & Hid).
  assert (Hempty : forall a, a ∈ st_offers m -> oa_cycle_id a <> cy_id c).
  { intros a Ha E. apply Hnone. apply (sh_served _ Hs c Hc Hsr). by exists a. }
  destruct pool as [|k pool].
  - injection H as <-. simpl. split; [|apply same_requests_frame].
    apply (end_cycle_sound _ _ c); try done; [apply Hs|by apply sound_served_but|].
    rewrite Hid. by apply quiet_cycle_none.
  - assert (Hb : search_base (put_cycle c' m)).
    { apply (put_cycle_base m c); [apply Hs|done..|left]. unfold searching. by rewrite Hst. }
    destruct (insert_offer_Ok (put_cycle c' m) (cy_id c') k 1 now) as [m' Hm'].
    { intros a Ha E. destruct (Hempty a Ha). congruence. }
    rewrite Hm' in H. injection H as <-. simpl.
    destruct (insert_offer_sound (put_cycle c' m) c' (k :: pool) k 1 now m') as [? Hf]; try done.
    + intros x (y & Hy & ->)%elem_of_update. destruct (Z.eqb_spec (cy_id y) (cy_id c')); [done|].
      intros _. apply (sh_served _ Hs y Hy).
    + by apply (put_cycle_elem m c).
    + unfold searching. by rewrite Hst.
    + set_solver.
    + intros a Ha E. destruct (Hempty a Ha). congruence.
    + split; [done|]. eapply search_frame_trans; [apply same_requests_frame|exact Hf].
Qed.

(** Every operation that matches a request: the invariant, and the rest of the store. *)
Definition sound_step {A} (m : store) (o : result trip_error (store * A)) : Prop :=
  forall p, o = Ok p -> search_sound p.1 /\ search_frame m p.1.

Lemma sound_step_id {A} m (x : A) : search_sound m -> sound_step m (Ok (m, x)).
Proof. intros Hs p [= <-]. auto with rides. Qed.

Lemma start_search_sound m public_id now :
  search_sound m -> sound_step m (start_search m public_id now).
Proof.
  intros Hs p H. unfold start_search in H. bind H as r Hr. inv_ok Hr.
  destruct (bool_decide (rr_status r = RQ_searching)) eqn:Hst; simpl in H;
    [|injection H as <-; auto with rides].
  destruct (_cycle_for_request m r) as [c|] eqn:Hc; [|injection H as <-; auto with rides].
  destruct (bool_decide (cy_status c = CY_searching)) eqn:Hcs; simpl in H;
    [|injection H as <-; auto with rides].
  rewrite bool_decide_eq_true in Hst, Hcs.
  assert (Hsc : searching_cycle m r = Some c).
  { unfold searching_cycle. rewrite bool_decide_eq_true_2, Hc by done. simpl. by case_decide. }
  apply searching_cycle_spec in Hsc as (_ & Hin & _ & Hsr); [|apply Hs].
  destruct (_close_cycle_at_deadline m c now) as [m'|] eqn:Hcl.
  { injection H as <-. split; [|by eapply close_at_deadline_frame].
    eapply close_at_deadline_sound; [apply Hs|by apply sound_served_but|done|done]. }
  destruct (active_offer m (cy_id c)) as [a|] eqn:Ha.
  - by eapply answer_active_sound.
  - by eapply first_offer_sound.
Qed.

Lemma decline_offer_sound m public_id d now :
  search_sound m -> sound_step m (decline_offer m public_id d now).
Proof.
  intros Hs p H. unfold decline_offer in H.
  destruct (request_by_public_id m public_id) as [r|]; simpl in H; [|injection H as <-; auto with rides].
  destruct (searching_cycle m r) as [c|] eqn:Hc; simpl in H; [|injection H as <-; auto with rides].
  destruct (offered_to m (cy_id c) d) as [a|] eqn:Ha; simpl in H; [|injection H as <-; auto with rides].
  apply searching_cycle_spec in Hc as (_ & Hin & _ & Hsr); [|apply Hs].
  apply List.find_some in Ha as [[Ha E]%list_elem_of_In%elem_of_offers_of Hof].
  rewrite andb_true_iff, bool_decide_eq_true in Hof. destruct Hof as [_ Hof].
  destruct (advance_locked_spec m c a OF_declined now Hs Hin Hsr Ha E) as (q & Hq & ? & ?).
  - apply actionable_spec. rewrite Hof. set_solver.
  - auto with rides.
  - rewrite Hq in H. by injection H as <-.
Qed.

(** ** Retry *)

(** A request written without becoming converted. *)
Lemma put_request_sound m r r' :
  search_sound m -> r ∈ st_requests m -> request_key r' = request_key r ->
  rr_status r = RQ_searching ->
  (rr_status r' = RQ_searching \/ rr_status r' = RQ_cancelled
     /\ forall c, c ∈ st_cycles m -> cy_ride_request_id c = rr_id r -> ~ searching c) ->
  search_sound (put_request r' m) /\ search_frame m (put_request r' m).
Proof.
  intros [[Hq Hc Ho Hl] Hs] Hr Hk Hst Hst'.
  assert (Hne : rr_status r' <> RQ_converting /\ rr_status r' <> RQ_converted).
  { destruct Hst' as [->|[-> _]]; done. }
  destruct Hne as [Hn1 Hn2].
  assert (Hids : rr_id r' = rr_id r) by by injection Hk.
  split; [split; [split|exact Hs]|split; try done]; simpl.
  - by apply (requests_write _ r).
  - eapply (cycles_requests (st_requests m)); [reflexivity|by rewrite (update_request_ids _ r); [|apply Hq|..]| |done].
    intros x c Hx Hxs Hcx Hsc E. destruct (decide (rr_id x = rr_id r)) as [Ex|Hne].
    + exists r'. split_and!; [|congruence|].
      * apply elem_of_update. exists r. by rewrite Hids, Z.eqb_refl.
      * destruct Hst' as [|[_ Hno]]; [done|]. exfalso. by apply (Hno c Hcx); [congruence|].
    + exists x. split_and!; [|done|done]. rewrite Hids. by apply (write_other rr_id).
  - done.
  - eapply links_write; [exact Hq|done|exact Hr|done|by rewrite Hst|done].
  - intros x Hx. exists (if rr_id x =? rr_id r' then r' else x). split.
    { apply elem_of_update. by exists x. }
    destruct (Z.eqb_spec (rr_id x) (rr_id r')) as [Ex|]; [|auto].
    assert (x = r) as ->.
    { apply (key_unique rr_id (st_requests m)); [by apply Hq|done|done|congruence]. }
    split; [done|]. destruct Hst' as [->|[-> _]]; [left|right]; by rewrite Hst.
Qed.

Lemma put_request_elem m r r' : r ∈ st_requests m -> request_key r' = request_key r ->
  r' ∈ st_requests (put_request r' m).
Proof. intros Hr [= E _]. apply elem_of_update. exists r. by rewrite E, Z.eqb_refl. Qed.

Lemma insert_cycle_sound m r0 r number window now m' :
  search_sound m -> r0 ∈ st_requests m -> rr_id r0 = rr_id r -> rr_status r0 = RQ_searching ->
  (forall c, c ∈ st_cycles m -> cy_ride_request_id c = rr_id r -> cy_cycle_number c < number) ->
  insert_cycle m r number window now = Ok m' -> search_sound m' /\ search_frame m m'.
Proof.
  intros [[Hq Hc Ho Hl] Hs] Hr Hid Hst Hnum H. unfold insert_cycle in H. guard H as Hg.
  rewrite negb_true_iff, existsb_false in Hg. injection H as <-.
  assert (Hn : st_next m <= st_next m + 1) by lia.
  split; [split; [split|]|exact (search_frame_trans _ _ _ (same_requests_frame m _ _) (take_id_frame _))];
    simpl.
  - by eapply requests_next.
  - rewrite <- Hid. apply cycles_insert; [done..|]. rewrite Hid. intros c Hcin E. split; [by apply Hnum|]. intros Hsr.
    specialize (Hg c Hcin). rewrite E, Z.eqb_refl, (bool_decide_eq_true_2 (cy_status c ∈ _)) in Hg.
    + by rewrite orb_true_r in Hg.
    + rewrite Hsr. set_solver.
  - eapply offers_cycles; [exact Hn| |exact Ho]. intros c Hcin. exists c.
    split_and!; [apply elem_of_app; by left|done..].
  - done.
  - intros c Hcin. simpl in Hcin. rewrite elem_of_app, list_elem_of_singleton in Hcin.
    destruct Hcin as [Hcin| ->]; [by apply (Hs c)|]. intros _ (a & Ha & E). simpl in E. exfalso.
    destruct (oo_pool _ _ _ Ho a Ha) as (c & _ & _ & Hcin & Ec & _).
    pose proof (cc_fresh _ _ _ Hc c Hcin). lia.
Qed.

Lemma request_by_public_id_spec m p r : request_by_public_id m p = Some r ->
  r ∈ st_requests m /\ rr_public_id r = p.
Proof.
  unfold request_by_public_id. intros [H1%list_elem_of_In [H2%String.eqb_eq _]%andb_prop]%List.find_some.
  done.
Qed.

Lemma open_cycle_sound m r window now :
  search_sound m -> r ∈ st_requests m -> rr_status r = RQ_searching ->
  sound_step m (open_cycle m r (_cycle_for_request m r) window now).
Proof.
  intros Hs Hr Hst p H. unfold open_cycle in H.
  destruct (put_request_sound m r (count_retry r) Hs Hr eq_refl Hst) as [H1 F1]; [by left|].
  bind H as m2 Hm2. pose proof (cycle_for_request_spec m r (sh_base _ Hs)) as Hsp.
  pose proof (put_request_elem m r (count_retry r) Hr eq_refl) as Hcount.
  eapply (insert_cycle_sound _ _ _ _ _ _ _ H1 Hcount eq_refl Hst) in Hm2 as [H2 F2]; cycle 1.
  { intros c Hc E. destruct (_cycle_for_request m r) as [l|]; [|by destruct (Hsp c Hc)].
    destruct Hsp as (_ & _ & Hmax). specialize (Hmax c Hc E). lia. }
  destruct (start_search_sound m2 _ now H2 p H) as [H3 F3]. split; [done|].
  by eapply search_frame_trans; [exact F1|eapply search_frame_trans].
Qed.

Lemma retry_search_sound m public_id uid window now :
  search_sound m -> sound_step m (retry_search m public_id uid window now).
Proof.
  intros Hs p H. unfold retry_search in H. bind H as r Hr. inv_ok Hr. guard H as Ho. guard H as Hst.
  rewrite bool_decide_eq_true in Hst. destruct (request_by_public_id_spec _ _ _ Hr) as [Hin _].
  pose proof (open_cycle_sound m r window now Hs Hin Hst) as Hopen.
  destruct (_cycle_for_request m r) as [c|] eqn:Hc; [|by apply Hopen].
  destruct (cy_status c) eqn:Hcs; try done; [|by apply Hopen..].
  assert (Hsc : searching_cycle m r = Some c).
  { unfold searching_cycle. rewrite bool_decide_eq_true_2, Hc by done. simpl. by case_decide. }
  apply searching_cycle_spec in Hsc as (_ & Hcin & _ & Hsr); [|apply Hs].
  unfold retry_current in H. destruct (_close_cycle_at_deadline m c now) as [m'|] eqn:Hcl.
  { injection H as <-. split; [|by eapply close_at_deadline_frame].
    eapply close_at_deadline_sound; [apply Hs|by apply sound_served_but|done|done]. }
  destruct (active_offer m (cy_id c)) as [a|] eqn:Ha.
  - guard H as Hacc. by eapply answer_active_sound.
  - by eapply start_search_sound.
Qed.

(** ** Cancellation *)

Lemma cancel_request_sound m public_id uid now :
  search_sound m -> sound_step m (cancel_request m public_id uid now).
Proof.
  intros Hs p H. unfold cancel_request in H. bind H as r Hr. inv_ok Hr. guard H as Ho.
  destruct (request_by_public_id_spec _ _ _ Hr) as [Hin _].
  destruct (rr_status r) eqn:Hst; [|done|done|injection H as <-; auto with rides].
  set (m1 := match _cycle_for_request m r with Some c => _ | None => m end) in H.
  assert (H1 : search_sound m1 /\ search_frame m m1 /\ st_requests m1 = st_requests m
    /\ forall c, c ∈ st_cycles m1 -> cy_ride_request_id c = rr_id r -> ~ searching c).
  { unfold m1. destruct (_cycle_for_request m r) as [c|] eqn:Hc.
    - case_decide as Hcs.
      + pose proof (cycle_for_request_spec m r (sh_base _ Hs)) as Hsp. rewrite Hc in Hsp.
        destruct Hsp as (Hcin & E & _).
        split_and!; [| |done|].
        * apply (end_cycle_sound _ _ c); try done; auto with rides.
          -- apply answer_offers_base; auto with rides. apply Hs.
          -- apply answer_offers_served; auto with rides. by apply sound_served_but.
          -- apply answer_offers_quiet; auto with rides.
        * eapply search_frame_trans; apply same_requests_frame.
        * intros x (y & Hy & ->)%elem_of_update. simpl.
          destruct (Z.eqb_spec (cy_id y) (cy_id c)) as [|Hne]; [done|]. intros Ex Hsy. apply Hne.
          f_equal. eapply (searching_once _ _ _ y c (sb_cycles _ (sh_base _ Hs))); try done. congruence.
      + split_and!; auto with rides. apply idle_request; [apply Hs|]. intros c' Hc'. congruence.
    - split_and!; auto with rides. apply idle_request; [apply Hs|]. intros c' Hc'. congruence. }
  destruct H1 as (H1 & F1 & E1 & Hno). injection H as <-. simpl.
  destruct (put_request_sound m1 r (set_request RQ_cancelled (Some now) (rr_converted_at r) (rr_retry_count r) r))
    as [H2 F2]; try done; [by rewrite E1|by right|].
  split; [done|]. by eapply search_frame_trans.
Qed.

(** ** Recovery *)

Lemma recover_offer_sound now m n p :
  search_sound m -> search_sound (recover_offer now (m, n) p).1
                    /\ search_frame m (recover_offer now (m, n) p).1.
Proof.
  intros Hs. unfold recover_offer. destruct (revalidated m p.1 p.2) as [[c a]|] eqn:Hv; [|auto with rides].
  unfold revalidated in Hv. destruct (request_by_id m _) as [r|]; simpl in Hv; [|done].
  destruct (searching_cycle m r) as [c'|] eqn:Hc; simpl in Hv; [|done].
  destruct (List.find _ _) as [a'|] eqn:Ha; simpl in Hv; [|done]. injection Hv as -> ->.
  apply searching_cycle_spec in Hc as (_ & Hin & _ & Hsr); [|apply Hs].
  apply List.find_some in Ha as [Ha%list_elem_of_In Hof].
  rewrite !andb_true_iff, !Z.eqb_eq, bool_decide_eq_true in Hof. destruct Hof as [[_ E] Hof].
  destruct (_close_cycle_at_deadline m c now) as [m'|] eqn:Hcl; simpl.
  { split; [|by eapply close_at_deadline_frame].
    eapply close_at_deadline_sound; [apply Hs|by apply sound_served_but|done|done]. }
  destruct (_ && _); [auto with rides|].
  destruct (advance_locked_spec m c a OF_timed_out now Hs Hin Hsr Ha E) as (q & Hq & ? & ?).
  - apply actionable_spec. rewrite Hof. set_solver.
  - auto with rides.
  - rewrite Hq. by destruct q as [m' []].
Qed.

Lemma recover_offers_sound now l m n :
  search_sound m -> search_sound (fold_left (recover_offer now) l (m, n)).1
                    /\ search_frame m (fold_left (recover_offer now) l (m, n)).1.
Proof.
  revert m n. induction l as [|p l IH]; intros m n Hs; cbn [fold_left]; [auto with rides|].
  destruct (recover_offer_sound now m n p Hs) as [H1 F1].
  destruct (recover_offer now (m, n) p) as [m1 n1]. destruct (IH m1 n1 H1). split; [done|].
  by eapply search_frame_trans.
Qed.

Lemma recover_searches_sound now l m :
  search_sound m -> search_sound (fold_left (recover_search now) l m)
                    /\ search_frame m (fold_left (recover_search now) l m).
Proof.
  revert m. induction l as [|r l IH]; intros m Hs; simpl; [auto with rides|].
  assert (H1 : search_sound (recover_search now m r) /\ search_frame m (recover_search now m r)).
  { unfold recover_search. destruct (start_search m (rr_public_id r) now) as [p|] eqn:Hp; [|auto with rides].
    exact (start_search_sound m _ now Hs p Hp). }
  destruct H1 as [H1 F1], (IH _ H1). split; [done|]. by eapply search_frame_trans.
Qed.

Lemma recover_expired_sound m batch now :
  search_sound m -> search_sound (recover_expired m batch now).1
                    /\ search_frame m (recover_expired m batch now).1.
Proof.
  intros Hs. unfold recover_expired.
  pose proof (recover_offers_sound now (stale_offers m batch now) m
    {| re_expired := 0; re_advanced := 0; re_closed := 0 |} Hs) as [H1 F1].
  destruct (fold_left (recover_offer now) _ _) as [m1 n]. simpl in *.
  destruct (recover_searches_sound now (unserved m1 batch) m1 H1). split; [done|].
  by eapply search_frame_trans.
Qed.

End ranked.
