(* ===== verification/RideAccept.v ===== *)
(** Acceptance: what [accept_offer] requires, what it leaves when it refuses, and
    that a conversion keeps the invariants of trips and of the search tables. *)

From S2P Require Import Prelude Tables Decimal InvoiceModel TripModel Trips TripLaws RideDispatch RideLaws.

Local Open Scope Z_scope.

Import AssignmentService RideRequestDispatchService.

(** * The two outcomes *)

(** What the driver must hold for the ride to become his. *)
Record acceptable (m : store) (public_id : string) (driver_id vehicle_id now : Z)
    (r : ride_request) (c : search_cycle) (a : offer_attempt) : Prop := {
  ac_request : request_by_public_id m public_id = Some r;
  ac_cycle : searching_cycle m r = Some c;
  ac_window : reached (cy_deadline c) now = false;
  ac_offer : offered_to m (cy_id c) driver_id = Some a;
  ac_vehicle : oa_vehicle_id a = vehicle_id;
  ac_in_time : exists t, oa_response_deadline a = Some t /\ now < t;
  ac_paired : paired m driver_id vehicle_id = true;
}.

Lemma advance_and_refuse_Ok {A} m c a o now e m' (x : A) :
  advance_and_refuse m c a o now e <> (m', Ok x).
Proof. unfold advance_and_refuse. by destruct (_advance_locked m c a o now). Qed.

Lemma accept_current_Ok m r c a who new_ref now m' id :
  accept_current m r c a who new_ref now = (m', Ok id) ->
  exists amount currency inv,
    to_cents (default dzero (rr_fare_estimate_amount r)) = Ok amount
    /\ currency = upper (str_or (rr_currency_code r) "USD") /\ str_in currency Currency = true
    /\ wallet_invoice (in_flight m r c a now) r = Ok inv
    /\ convert (in_flight m r c a now) r c a amount currency inv who new_ref now = Ok (m', id).
Proof.
  unfold accept_current. destruct (rbind _ _) as [[[amount currency] inv]|e] eqn:Hpre; [|by intros [=]].
  bind Hpre as am Ham. guard Hpre as Hcur. bind Hpre as iv Hiv. injection Hpre as <- <- <-.
  intros H. destruct (convert _ _ _ _ _ _ _ _ _ _) as [p|e] eqn:Hconv.
  - injection H as <- <-. exists am, (upper (str_or (rr_currency_code r) "USD")), iv.
    split_and!; try done. by destruct p.
  - destruct (is_conversion_error e); [|by injection H]. by apply advance_and_refuse_Ok in H.
Qed.

Lemma accept_offer_Ok m pid d v who new_ref now m' id :
  accept_offer m pid d v who new_ref now = (m', Ok id) ->
  exists r c a, acceptable m pid d v now r c a
    /\ accept_current m r c a who new_ref now = (m', Ok id).
Proof.
  unfold accept_offer, dispatch_error. intros H.
  destruct (request_by_public_id m pid) as [r|] eqn:Hr; [|done].
  case_decide; [done|]. destruct (negb _); [done|].
  destruct (searching_cycle m r) as [c|] eqn:Hc; [|done].
  destruct (_close_cycle_at_deadline m c now) as [mc|] eqn:Hcl; [done|].
  unfold accept_answer, dispatch_error in H. destruct (offered_to m (cy_id c) d) as [a|] eqn:Ha; [|done].
  destruct (Z.eqb_spec (oa_vehicle_id a) v) as [Hv|]; [|done]. cbn [negb] in H.
  destruct (negb (is_some (oa_response_deadline a)) || _) eqn:Hdl; [by apply advance_and_refuse_Ok in H|].
  destruct (paired m d v) eqn:Hp; [|by apply advance_and_refuse_Ok in H].
  exists r, c, a. split; [|done]. split; try done.
  - unfold _close_cycle_at_deadline in Hcl. by destruct (reached (cy_deadline c) now).
  - destruct (oa_response_deadline a) as [t|]; [|done]. simpl in Hdl. exists t.
    split; [done|]. by apply Z.leb_gt.
Qed.

Lemma acceptable_spec m pid d v now r c a : search_sound m -> acceptable m pid d v now r c a ->
  r ∈ st_requests m /\ rr_public_id r = pid /\ rr_status r = RQ_searching
  /\ c ∈ st_cycles m /\ cy_ride_request_id c = rr_id r /\ searching c
  /\ a ∈ st_offers m /\ oa_cycle_id a = cy_id c /\ oa_driver_id a = d /\ oa_status a = OF_offered.
Proof.
  intros Hs [Hr Hc _ Ha _ _ _].
  apply request_by_public_id_spec in Hr as [? ?]. apply searching_cycle_spec in Hc as (? & ? & ? & ?); [|apply Hs].
  apply List.find_some in Ha as [[? ?]%list_elem_of_In%elem_of_offers_of Ha].
  rewrite andb_true_iff, Z.eqb_eq, bool_decide_eq_true in Ha. destruct Ha. by split_and!.
Qed.

(** ** Refusal *)

Lemma offered_actionable a : oa_status a = OF_offered -> actionable a = true.
Proof. intros E. apply actionable_spec. rewrite E. set_solver. Qed.

Lemma advance_and_refuse_sound {A} m c a o now e m' (x : result trip_error A) :
  search_sound m -> c ∈ st_cycles m -> searching c -> a ∈ st_offers m -> oa_cycle_id a = cy_id c ->
  oa_status a = OF_offered -> quiet_outcome o ->
  advance_and_refuse m c a o now e = (m', x) -> search_sound m' /\ search_frame m m' /\ x = Err e.
Proof.
  intros Hs Hc Hsr Ha E Hof Hq H. unfold advance_and_refuse in H.
  destruct (advance_locked_spec m c a o now Hs Hc Hsr Ha E (offered_actionable _ Hof) Hq) as (p & Hp & ? & ?).
  rewrite Hp in H. by injection H as <- <-.
Qed.

(** A refusal leaves trips, vehicles, payments and invoices as they were. *)
Lemma accept_offer_Err m pid d v who new_ref now m' e :
  search_sound m -> accept_offer m pid d v who new_ref now = (m', Err e) ->
  search_sound m' /\ search_frame m m'.
Proof.
  intros Hs H. unfold accept_offer, dispatch_error in H.
  destruct (request_by_public_id m pid) as [r|] eqn:Hr; [|injection H as <- _; auto with rides].
  case_decide; [injection H as <- _; auto with rides|].
  destruct (negb _); [injection H as <- _; auto with rides|].
  destruct (searching_cycle m r) as [c|] eqn:Hc; [|injection H as <- _; auto with rides].
  apply searching_cycle_spec in Hc as (_ & Hcin & _ & Hsr); [|apply Hs].
  destruct (_close_cycle_at_deadline m c now) as [mc|] eqn:Hcl.
  { injection H as <- _. split; [|by eapply close_at_deadline_frame].
    eapply close_at_deadline_sound; [apply Hs|by apply sound_served_but|done|done]. }
  unfold accept_answer, dispatch_error in H.
  destruct (offered_to m (cy_id c) d) as [a|] eqn:Ha; [|injection H as <- _; auto with rides].
  apply List.find_some in Ha as [[Ha Ec]%list_elem_of_In%elem_of_offers_of Hof].
  rewrite andb_true_iff, Z.eqb_eq, bool_decide_eq_true in Hof. destruct Hof as [_ Hof].
  destruct (negb (oa_vehicle_id a =? v)); [injection H as <- _; auto with rides|].
  destruct (_ || _).
  { eapply (advance_and_refuse_sound m c a) in H as (? & ? & _); auto with rides. }
  destruct (negb (paired m d v)).
  { eapply (advance_and_refuse_sound m c a) in H as (? & ? & _); auto with rides. }
  unfold accept_current in H.
  destruct (rbind _ _) as [[[amount currency] inv]|e1]; [|injection H as <- _; auto with rides].
  destruct (convert _ _ _ _ _ _ _ _ _ _) as [p|e2]; [done|].
  destruct (is_conversion_error e2); [|injection H as <- _; auto with rides].
  eapply (advance_and_refuse_sound m c a) in H as (? & ? & _); auto with rides.
Qed.

(** * Conversion *)

(** The row a conversion inserts, and the steps to it. *)
Lemma convert_Ok m r c a amount currency inv who new_ref now p :
  convert m r c a amount currency inv who new_ref now = Ok p ->
  exists m2 q, let b := booking_of (st_next m) new_ref r c amount currency now in
    insertable b = true /\ (forall x, x ∈ st_trips m -> collides b x = false)
    /\ dltb dzero amount = true /\ is_some (rr_payment_method r) = true
    /\ m2 = with_payments (take_id (with_trips m (st_trips m ++ [b])))
             (st_payments m ++ [{| tp_booking_id := st_next m; tp_amount := amount;
                                   tp_payment_method := rr_payment_method r;
                                   tp_wallet_invoice_id := inv |}])
    /\ claim m2 new_ref (oa_driver_id a) (oa_vehicle_id a) who false now = Ok q
    /\ p = (converted q.1 r c a now, q.2).
Proof.
  intros H. unfold convert in H. bind H as m1 H1. bind H as m2 H2. bind H as q Hq. injection H as <-.
  unfold insert_booking in H1. guard H1 as Hi. injection H1 as <-.
  unfold insert_payment in H2. guard H2 as Hp. injection H2 as <-.
  rewrite andb_true_iff, negb_true_iff, existsb_false in Hi. destruct Hi as [Hi Hcol].
  apply andb_prop in Hp as [Hp1 Hp2]. eexists _, q. by split_and!.
Qed.

(** An unassigned booking with the next id. *)
Lemma insert_trip_sound m b : trips_sound m -> tid b = st_next m ->
  chk_no_match_reason b = true -> tb_driver_id b = None -> tb_vehicle_id b = None ->
  trips_sound (take_id (with_trips m (st_trips m ++ [b]))).
Proof.
  intros [Hi Hc Hf Hr Hd Hv Hp] Ht Hk Ed Ev.
  assert (Hin : forall x, x ∈ st_trips m ++ [b] -> x ∈ st_trips m \/ x = b).
  { intros x. by rewrite elem_of_app, list_elem_of_singleton. }
  split; simpl.
  - rewrite fmap_app. apply list.NoDup_app. split_and!; [done| |apply NoDup_singleton].
    intros x (y & -> & Hy)%list_elem_of_fmap Hx%list_elem_of_singleton.
    specialize (Hf y Hy). lia.
  - done.
  - intros x [Hx| ->]%Hin; [specialize (Hf x Hx)|]; lia.
  - intros x [Hx| ->]%Hin; [by apply Hr|]. split; [done|unfold held|]; by rewrite Ed, Ev.
  - intros x y d [Hx| ->]%Hin [Hy| ->]%Hin E1 E2; [by eapply Hd|congruence..].
  - intros x y d [Hx| ->]%Hin [Hy| ->]%Hin E1 E2; [by eapply Hv|congruence..].
  - intros x k v [Hx| ->]%Hin Hk' E1 E2; [by eapply Hp|congruence].
Qed.

(** The payment row does not matter to trips. *)
Lemma convert_claim_effect m r c a amount currency inv who new_ref now p :
  trips_sound m -> convert m r c a amount currency inv who new_ref now = Ok p ->
  exists m2 q, trip_effect table_only m2 q.1 /\ p = (converted q.1 r c a now, q.2)
    /\ claim m2 new_ref (oa_driver_id a) (oa_vehicle_id a) who false now = Ok q
    /\ st_trips m2 = st_trips m ++ [booking_of (st_next m) new_ref r c amount currency now]
    /\ st_next m2 = st_next m + 1 /\ st_fleet m2 = st_fleet m /\ st_requests m2 = st_requests m
    /\ st_cycles m2 = st_cycles m /\ st_offers m2 = st_offers m /\ st_invoices m2 = st_invoices m
    /\ st_cabs m2 = st_cabs m.
Proof.
  intros Hs (m2 & q & Hi & _ & _ & _ & Em & Hq & ->)%convert_Ok. exists m2, q.
  assert (H1 : trips_sound (take_id (with_trips m
      (st_trips m ++ [booking_of (st_next m) new_ref r c amount currency now])))).
  { by apply insert_trip_sound. }
  assert (H2 : trips_sound m2) by (rewrite Em; refine (trips_sound_frame _ _ _ _ _ H1); done).
  split; [by eapply claim_effect|]. split_and!; [done|exact Hq|by rewrite Em..].
Qed.

Lemma convert_trips_sound m r c a amount currency inv who new_ref now p :
  trips_sound m -> convert m r c a amount currency inv who new_ref now = Ok p -> trips_sound p.1.
Proof.
  intros Hs H. destruct (convert_claim_effect _ _ _ _ _ _ _ _ _ _ _ Hs H) as (m2 & q & He & -> & _).
  apply te_sound in He. by eapply trips_sound_frame; [..|exact He].
Qed.

(** ** The search tables of a conversion *)

Lemma update_overwrite {A} (key : A -> Z) (l : list A) (x y : A) k : key x = k ->
  update_where (fun r => key r =? k) (fun _ => y) (update_where (fun r => key r =? k) (fun _ => x) l)
  = update_where (fun r => key r =? k) (fun _ => y) l.
Proof.
  intros E. unfold update_where. rewrite <- list_fmap_compose. apply list_fmap_ext. intros i r _. simpl.
  destruct (Z.eqb_spec (key r) k) as [Er|Hn].
  - by rewrite E, Z.eqb_refl.
  - by destruct (Z.eqb_spec (key r) k).
Qed.

(** The statuses in flight are overwritten: the tables are those of the store
    before, converted. *)
Lemma converted_tables m m1 r c a now :
  st_requests m1 = st_requests (in_flight m r c a now) ->
  st_cycles m1 = st_cycles (in_flight m r c a now) ->
  st_offers m1 = st_offers (in_flight m r c a now) ->
  st_requests (converted m1 r c a now) = st_requests (converted m r c a now)
  /\ st_cycles (converted m1 r c a now) = st_cycles (converted m r c a now)
  /\ st_offers (converted m1 r c a now) = st_offers (converted m r c a now).
Proof.
  intros Er Ec Eo. unfold converted, skip_others, put_request, put_cycle, put_offer; simpl.
  rewrite Er, Ec, Eo. simpl. by rewrite !update_overwrite.
Qed.

(** A searching request becomes converted with the booking appended. *)
Lemma convert_request_sound m m' r r' i :
  search_sound m -> r ∈ st_requests m -> request_key r' = request_key r ->
  rr_status r = RQ_searching -> rr_status r' = RQ_converted ->
  (forall c, c ∈ st_cycles m -> cy_ride_request_id c = rr_id r -> ~ searching c) ->
  st_requests m' = st_requests (put_request r' m) -> st_cycles m' = st_cycles m ->
  st_offers m' = st_offers m -> st_next m <= st_next m' ->
  tb_info <$> st_trips m' = (tb_info <$> st_trips m) ++ [i] ->
  ti_ride_request_id i = Some (rr_id r) -> search_sound m'.
Proof.
  intros [[Hq Hc Ho Hl] Hs] Hr Hk Hst Hst' Hidle Er Ec Eo Hn Et Hi.
  assert (Hu := fun x => updated_request (st_requests m) r r' x (rq_ids _ _ Hq) Hr Hk).
  assert (Hids : rr_id r' = rr_id r) by by injection Hk.
  assert (Hr' : r' ∈ st_requests (put_request r' m)) by by apply (put_request_elem m r).
  split; [split|].
  - rewrite Er. eapply requests_next; [exact Hn|]. apply (requests_write _ r); try done. by rewrite Hst'.
  - rewrite Ec, Er. eapply cycles_requests; [exact Hn| | |done].
    { simpl. by rewrite (update_request_ids _ r); [|apply Hq|..]. }
    intros x c Hx Hxs Hcx Hsc E. exists x. split_and!; [|done|done]. simpl. rewrite Hids.
    apply (write_other rr_id); [done|]. intros Ex. by apply (Hidle c Hcx); [congruence|].
  - rewrite Ec, Eo. by eapply offers_next.
  - rewrite Er, Et. destruct Hl as [H1 H2 H3].
    assert (Hfree : forall j, j ∈ tb_info <$> st_trips m -> ti_ride_request_id j <> Some (rr_id r)).
    { intros j Hj E. destruct (H1 j _ Hj E) as (x & Hx & Ex & Hxs).
      assert (x = r) as -> by (by apply (key_unique rr_id (st_requests m)); [apply Hq|..]). congruence. }
    assert (Hin : forall j, j ∈ (tb_info <$> st_trips m) ++ [i] -> j ∈ tb_info <$> st_trips m \/ j = i).
    { intros j. by rewrite elem_of_app, list_elem_of_singleton. }
    split.
    + intros j id [Hj| ->]%Hin E; [|by exists r'; split_and!; [|congruence|]].
      destruct (H1 j id Hj E) as (x & Hx & Ex & Hxs). exists x. split_and!; [|done|done].
      simpl. rewrite Hids. apply (write_other rr_id); [done|]. intros E'. apply (Hfree j Hj). congruence.
    + intros x [->|[Hx _]]%Hu Hxs.
      * exists i. split; [set_solver|]. by rewrite Hids.
      * destruct (H2 x Hx Hxs) as (j & Hj & E). exists j. split; [set_solver|done].
    + intros j k id [Hj| ->]%Hin [Hk'| ->]%Hin E1 E2; [by eapply H3| | |done].
      * exfalso. apply (Hfree j Hj). congruence.
      * exfalso. apply (Hfree k Hk'). congruence.
  - intros c Hc'. rewrite Ec in Hc'. intros Hsr (a & Ha & E). rewrite Eo in Ha.
    destruct (Hs c Hc' Hsr) as (w & Hw & Ew); [by exists a|]. exists w. by rewrite Eo.
Qed.

(** The winning offer, the others, and the cycle. *)
Lemma conversion_base m r c a now :
  search_sound m -> c ∈ st_cycles m -> a ∈ st_offers m -> oa_cycle_id a = cy_id c ->
  actionable a = true -> cy_ride_request_id c = rr_id r -> searching c ->
  let m1 := put_cycle (close_cycle CY_completed now None c)
              (skip_others (put_offer (respond OF_won now None a) m) a now) in
  search_sound m1 /\ forall x, x ∈ st_cycles m1 -> cy_ride_request_id x = rr_id r -> ~ searching x.
Proof.
  intros Hs Hc Ha E Hact Er Hsr m1.
  destruct (put_offer_base OF_won None now a m) as (Hb & Hsv & Hqc); auto with rides; [apply Hs|].
  rewrite E in Hsv, Hqc. specialize (Hsv (sound_served_but m _ Hs)). specialize (Hqc Hact).
  assert (Hf : forall x, offer_key (respond OF_skipped now (Some "another_driver_won"%string) x) = offer_key x
    /\ quiet_offer (respond OF_skipped now (Some "another_driver_won"%string) x)).
  { intros x. apply respond_key. auto with rides. }
  split.
  - apply (end_cycle_sound _ _ c); try done; auto with rides.
    + by apply update_offers_base.
    + apply update_offers_served; [done| |done]. intros x _. rewrite !andb_true_iff, Z.eqb_eq.
      intros [[-> _] _]. done.
    + intros x (y & Hy & ->)%elem_of_update Ey. simpl in Hy. destruct (_ && _) eqn:Hcond; [done|].
      by apply (Hqc y Hy).
  - intros x (y & Hy & ->)%elem_of_update. simpl in *.
    destruct (Z.eqb_spec (cy_id y) (cy_id c)) as [|Hne]; [done|]. intros Ey Hsy. apply Hne. f_equal.
    eapply (searching_once _ _ _ y c (sb_cycles _ (sh_base _ Hs))); try done. congruence.
Qed.

Lemma convert_search_sound m r c a amount currency inv who new_ref now p :
  trips_sound m -> search_sound m -> r ∈ st_requests m -> rr_status r = RQ_searching ->
  c ∈ st_cycles m -> a ∈ st_offers m -> oa_cycle_id a = cy_id c -> actionable a = true ->
  cy_ride_request_id c = rr_id r -> searching c ->
  convert (in_flight m r c a now) r c a amount currency inv who new_ref now = Ok p ->
  search_sound p.1.
Proof.
  intros Ht Hs Hr Hst Hc Ha E Hact Er Hsr H.
  assert (Ht' : trips_sound (in_flight m r c a now)) by (by eapply trips_sound_frame; [..|exact Ht]).
  destruct (convert_claim_effect _ _ _ _ _ _ _ _ _ _ _ Ht' H)
    as (m2 & q & He & -> & _ & E2 & En & _ & Eq2 & Ec2 & Eo2 & _).
  destruct (conversion_base m r c a now Hs Hc Ha E Hact Er Hsr) as [Hbase Hidle].
  destruct (converted_tables m q.1 r c a now) as (Eq & Ec & Eo).
  { by rewrite (te_requests _ _ _ He). } { by rewrite (te_cycles _ _ _ He). } { by rewrite (te_offers _ _ _ He). }
  eapply (convert_request_sound _ _ r
            (set_request RQ_converted (rr_cancelled_at r) (Some now) (rr_retry_count r) r)
            (tb_info (booking_of (st_next m) new_ref r c amount currency now)));
    [exact Hbase|done|done|done|done|exact Hidle|exact Eq|exact Ec|exact Eo|..]; try done.
  - simpl. rewrite (te_next _ _ _ He), En. simpl. lia.
  - simpl. rewrite (te_info _ _ _ He), E2, fmap_app. done.
Qed.

(** * The whole operation *)

(** Accepting keeps both invariants whatever the result. *)
Lemma accept_offer_sound m pid d v who new_ref now :
  trips_sound m -> search_sound m ->
  trips_sound (accept_offer m pid d v who new_ref now).1
  /\ search_sound (accept_offer m pid d v who new_ref now).1.
Proof.
  intros Ht Hs. destruct (accept_offer m pid d v who new_ref now) as [m' [id|e]] eqn:H; simpl.
  - destruct (accept_offer_Ok _ _ _ _ _ _ _ _ _ H) as (r & c & a & Hacc & Hcur).
    destruct (accept_current_Ok _ _ _ _ _ _ _ _ _ Hcur) as (am & cur & inv & _ & _ & _ & _ & Hconv).
    destruct (acceptable_spec _ _ _ _ _ _ _ _ Hs Hacc) as (? & _ & ? & ? & ? & ? & ? & ? & _ & ?).
    split.
    + refine (convert_trips_sound _ _ _ _ _ _ _ _ _ _ _ _ Hconv). by eapply trips_sound_frame; [..|exact Ht].
    + eapply (convert_search_sound m r c a _ _ _ _ _ _ (m', id)); eauto using offered_actionable.
  - destruct (accept_offer_Err _ _ _ _ _ _ _ _ _ Hs H) as [? F]. split; [|done].
    destruct F. by eapply trips_sound_frame; [..|exact Ht].
Qed.
