(* ===== verification/TransportHistory.v ===== *)
(** Histories of the transport store: any sequence of the operations of Trips,
    RideDispatch and RideRequests, with new bookings and changes of drivers coming
    from outside, and what holds after it. *)

From S2P Require Import Prelude Tables Decimal Ledger InvoiceModel Invoices TripModel Trips TripLaws.
From S2P Require Import RideDispatch RideLaws RideAccept RideRequests.

Local Open Scope Z_scope.

Import AssignmentService RideRequestDispatchService RideRequestService.

(** * Creation *)

Lemma with_invoices_sound m l : search_sound m -> search_sound (TripModel.with_invoices m l).
Proof. intros [[] ?]. by split; [split|]. Qed.

Lemma insert_request_sound m r d m' :
  search_sound m -> rr_id r = st_next m -> rr_status r = RQ_searching ->
  insert_request m r d = Ok m' ->
  search_sound m' /\ m' = take_id (with_search m (st_requests m ++ [r]) (st_cycles m) (st_offers m)).
Proof.
  intros [[Hq Hc Ho Hl] Hs] Hid Hst H. unfold insert_request in H. skip H. guard H as Hu.
  injection H as <-. rewrite negb_true_iff, existsb_false in Hu. split; [|done].
  assert (Hn : st_next m <= st_next m + 1) by lia.
  assert (Hin : forall x, x ∈ st_requests m ++ [r] -> x ∈ st_requests m \/ x = r).
  { intros x. by rewrite elem_of_app, list_elem_of_singleton. }
  split; [split; simpl|exact Hs].
  - split.
    + rewrite fmap_app. apply list.NoDup_app. split_and!; [apply Hq| |apply NoDup_singleton].
      intros x (y & -> & Hy)%list_elem_of_fmap Hx%list_elem_of_singleton.
      pose proof (rq_fresh _ _ Hq y Hy). lia.
    + rewrite fmap_app. apply list.NoDup_app. split_and!; [apply Hq| |apply NoDup_singleton].
      intros x (y & -> & Hy)%list_elem_of_fmap Hx%list_elem_of_singleton.
      specialize (Hu y Hy). by rewrite Hx, String.eqb_refl in Hu.
    + intros x [Hx| ->]%Hin; [pose proof (rq_fresh _ _ Hq x Hx)|]; lia.
    + intros x [Hx| ->]%Hin; [by eapply rq_settled|by rewrite Hst].
  - eapply (cycles_requests (st_requests m)); [exact Hn| | |done].
    + intros id Hid'. rewrite fmap_app. apply elem_of_app. by left.
    + intros x c Hx Hxs _ _ _. exists x. split_and!; [apply elem_of_app; by left|done..].
  - by eapply offers_next.
  - destruct Hl as [H1 H2 H3]. split; [| |done].
    + intros i id Hi E. destruct (H1 i id Hi E) as (x & ? & ? & ?). exists x.
      split_and!; [apply elem_of_app; by left|done..].
    + intros x [Hx| ->]%Hin Hxs; [by apply H2|congruence].
Qed.

(** A request that is settled stays as it is. *)
Definition requests_move (m m' : store) : Prop :=
  forall r, r ∈ st_requests m -> exists r', r' ∈ st_requests m' /\ request_key r' = request_key r
    /\ (rr_status r' = rr_status r \/ rr_status r = RQ_searching).

Lemma requests_move_refl m : requests_move m m.
Proof. intros r Hr. exists r. auto. Qed.

Lemma requests_move_trans m1 m2 m3 : requests_move m1 m2 -> requests_move m2 m3 -> requests_move m1 m3.
Proof.
  intros H1 H2 r Hr. destruct (H1 r Hr) as (r' & Hr' & E & S). destruct (H2 r' Hr') as (r'' & ? & E' & S').
  exists r''. split_and!; [done|congruence|]. destruct S as [S|]; [|by right].
  destruct S' as [S'|S']; [left|right]; congruence.
Qed.

Lemma same_requests_move m m' : st_requests m' = st_requests m -> requests_move m m'.
Proof. intros E r Hr. exists r. rewrite E. auto. Qed.

Lemma frame_requests_move m m' : search_frame m m' -> requests_move m m'.
Proof.
  intros F r Hr. destruct (sf_requests _ _ F r Hr) as (r' & ? & ? & [?|[? _]]); exists r'; auto.
Qed.

(** The search tables grow, the rest of the store keeps its rows. *)
Lemma create_request_sound w methods m d public_id invoice_id window now p :
  search_sound m -> create_request w methods m d public_id invoice_id window now = Ok p ->
  search_sound p.1 /\ st_trips p.1 = st_trips m /\ st_cabs p.1 = st_cabs m
  /\ st_next m <= st_next p.1
  /\ requests_move m p.1.
Proof.
  intros Hs H. unfold create_request in H. destruct (existing_request m d) as [r|].
  { unfold replay in H. skip H. injection H as <-. split_and!; try done. apply requests_move_refl. }
  destruct (insert_all w methods m d public_id invoice_id window now) as [q|e] eqn:Hi;
    [injection H as ->|by destruct e]. unfold insert_all in Hi.
  bind Hi as m1 H1. bind Hi as q Hq. bind Hi as m3 H3. injection Hi as <-. simpl.
  set (r := new_request (st_next m) public_id now d) in *.
  destruct (insert_request_sound m r d m1 Hs eq_refl eq_refl H1) as [Hs1 E1].
  set (r' := set_wallet_invoice (iv_id q.2) r) in *.
  set (m2 := TripModel.with_invoices m1 q.1) in *.
  assert (Hr : r ∈ st_requests m2).
  { unfold m2. rewrite E1. simpl. apply elem_of_app. right. by apply list_elem_of_singleton. }
  destruct (put_request_sound m2 r r' (with_invoices_sound _ _ Hs1) Hr eq_refl eq_refl) as [Hs2 F2];
    [by left|].
  pose proof (put_request_elem m2 r r' Hr eq_refl) as Hr'.
  assert (Hno : forall c, c ∈ st_cycles (put_request r' m2) -> cy_ride_request_id c <> rr_id r').
  { intros c Hc E. unfold m2 in Hc. rewrite E1 in Hc. simpl in Hc.
    pose proof (cc_foreign _ _ _ (sb_cycles _ (sh_base _ Hs)) c Hc) as Hf. rewrite E in Hf.
    apply list_elem_of_fmap in Hf as (x & Ex & Hx). pose proof (rq_fresh _ _ (sb_requests _ (sh_base _ Hs)) x Hx).
    simpl in Ex. lia. }
  eapply (insert_cycle_sound _ _ _ _ _ _ _ Hs2 Hr' eq_refl eq_refl) in H3 as [Hs3 F3];
    [|intros c Hc E; by destruct (Hno c Hc)].
  pose proof (search_frame_trans _ _ _ F2 F3) as [Ft Fc _ _ _ Fn Fr].
  unfold m2 in Ft, Fc, Fn, Fr. rewrite E1 in Ft, Fc, Fn, Fr. simpl in Ft, Fc, Fn, Fr.
  split_and!; [done|done|done|lia|]. intros x Hx.
  destruct (Fr x) as (y & Hy & Ey & Hst); [apply elem_of_app; by left|].
  exists y. split_and!; [done|done|]. destruct Hst as [?|[? _]]; auto.
Qed.

(** A successful acceptance converts its request and no other. *)
Lemma accept_requests_move m p d v who ref now m' id :
  trips_sound m -> search_sound m -> accept_offer m p d v who ref now = (m', Ok id) ->
  requests_move m m'.
Proof.
  intros Ht Hs H. destruct (accept_offer_Ok _ _ _ _ _ _ _ _ _ H) as (r & c & a & Hacc & Hcur).
  destruct (accept_current_Ok _ _ _ _ _ _ _ _ _ Hcur) as (am & cur & inv & _ & _ & _ & _ & Hconv).
  destruct (acceptable_spec _ _ _ _ _ _ _ _ Hs Hacc) as (Hr & _ & Hst & _).
  assert (Ht' : trips_sound (in_flight m r c a now)) by (by eapply trips_sound_frame; [..|exact Ht]).
  destruct (convert_claim_effect _ _ _ _ _ _ _ _ _ _ _ Ht' Hconv)
    as (m2 & q & He & E & _ & _ & _ & _ & Eq2 & Ec2 & Eo2 & _).
  injection E as -> _. destruct (converted_tables m q.1 r c a now) as (Eq & _ & _).
  { by rewrite (te_requests _ _ _ He). } { by rewrite (te_cycles _ _ _ He). } { by rewrite (te_offers _ _ _ He). }
  intros x Hx. rewrite Eq. simpl. exists (if rr_id x =? rr_id r
    then set_request RQ_converted (rr_cancelled_at r) (Some now) (rr_retry_count r) r else x).
  split; [apply elem_of_update; by exists x|].
  destruct (Z.eqb_spec (rr_id x) (rr_id r)) as [Ex|]; [|auto].
  assert (x = r) as ->; [|auto].
  apply (key_unique rr_id (st_requests m)); [apply Hs|done|done|done].
Qed.

(** * Histories *)

Inductive op : Type :=
  | OpenBooking (b : trip)                          (* a booking made elsewhere *)
  | SetFleet (f : fleet)                            (* drivers, pairings, observations *)
  | Claim (ref : string) (driver_id vehicle_id : Z) (who : actor) (force : bool) (now : Z)
  | CancelBooking (q : BookingService.cancel_request) (now : Z)
  | Transition (id : Z) (s : BookingStatus) (reason : option string) (by_ : string) (now : Z)
  | MarkNoMatch (id : Z) (reason : string) (now : Z)
  | RetryMatching (id user_id now : Z)
  | MarkNoShow (id user_id : Z) (reason : option string) (now : Z)
  | DriverCancel (id user_id : Z) (reason : option string) (now : Z)
  | TripAction (d : driver) (ref : string) (a : DriverTrip.action) (now : Z)
  | DeleteBooking (ref : string)
  | Approve (id now : Z)                            (* by a moderator *)
  | StallRecovery (seconds batch after now : Z)
  | CreateRequest (w : Ledger.store) (methods : list method_config) (d : draft)
      (public_id invoice_id : string) (window now : Z)
  | StartSearch (public_id : string) (now : Z)
  | RetrySearch (public_id : string) (user_id window now : Z)
  | CancelRequest (public_id : string) (user_id now : Z)
  | DeclineOffer (public_id : string) (driver_id now : Z)
  | RecoverExpired (batch : nat) (now : Z)
  | AcceptOffer (public_id : string) (driver_id vehicle_id : Z) (who : actor) (new_ref : string) (now : Z).

(** A booking another part of the program may insert: not assigned, not linked. *)
Definition opens (m : store) (b : trip) : bool :=
  (tid b =? st_next m) && bool_decide (tb_status b ∈ [DRAFT; PENDING_PAYMENT; CONFIRMED])
  && negb (held b) && chk_no_match_reason b && negb (is_some (ti_ride_request_id (tb_info b))).

Definition with_fleet (m : store) (f : fleet) : store := {|
  st_fleet := f; st_cabs := st_cabs m; st_trips := st_trips m; st_events := st_events m;
  st_requests := st_requests m; st_cycles := st_cycles m; st_offers := st_offers m;
  st_payments := st_payments m; st_invoices := st_invoices m; st_next := st_next m;
|}.

(** An operation that raises changes nothing. *)
Definition keep {E A} (m : store) (r : result E (store * A)) : store :=
  match r with Ok p => p.1 | Err _ => m end.
Definition keep_store {E} (m : store) (r : result E store) : store :=
  match r with Ok m' => m' | Err _ => m end.

Section ranked.
Context `{Hrank : Ranker}.

Definition apply (m : store) (o : op) : store :=
  match o with
  | OpenBooking b => if opens m b then take_id (with_trips m (st_trips m ++ [b])) else m
  | SetFleet f => with_fleet m f
  | Claim ref d v who force now => keep m (claim m ref d v who force now)
  | CancelBooking q now => keep m (BookingService.cancel_booking m q now)
  | Transition id s reason by_ now => keep_store m (BookingService.transition_status m id s reason by_ now)
  | MarkNoMatch id reason now => keep m (BookingService.mark_no_match m id reason now)
  | RetryMatching id uid now => keep_store m (BookingService.retry_matching m id uid now)
  | MarkNoShow id uid reason now => keep m (BookingService.mark_no_show m id uid reason now)
  | DriverCancel id uid reason now => keep m (BookingService.driver_cancel m id uid reason now)
  | TripAction d ref a now => keep_store m (DriverTrip.post m d ref a now)
  | DeleteBooking ref => keep_store m (TripAdmin.delete m ref)
  | Approve id now => keep_store m (TripAdmin.approve m id now)
  | StallRecovery secs batch after now => TripAdmin.stall_recovery m secs batch after now
  | CreateRequest w methods d public_id invoice_id window now =>
      keep m (create_request w methods m d public_id invoice_id window now)
  | StartSearch p now => keep m (start_search m p now)
  | RetrySearch p uid window now => keep m (retry_search m p uid window now)
  | CancelRequest p uid now => keep m (RideRequestDispatchService.cancel_request m p uid now)
  | DeclineOffer p d now => keep m (decline_offer m p d now)
  | RecoverExpired batch now => (recover_expired m batch now).1
  | AcceptOffer p d v who ref now => (accept_offer m p d v who ref now).1
  end.

Definition run (m : store) (ops : list op) : store := fold_left apply ops m.

(** An approval that takes a disputed booking back to CONFIRMED, with the driver and
    the vehicle it may still hold. *)
Definition reopens (m : store) (o : op) : bool :=
  match o with
  | Approve id _ =>
      match find_trip m id with Some b => bool_decide (tb_status b = DISPUTED) | None => false end
  | _ => false
  end.

(** No step of the run does that. *)
Fixpoint no_reopening (m : store) (ops : list op) : bool :=
  match ops with
  | [] => true
  | o :: rest => negb (reopens m o) && no_reopening (apply m o) rest
  end.

(** The shortcut around the table of statuses that an operation may take. *)
Definition takes_shortcut (k : shortcut) (o : op) : bool :=
  match o, k with
  | CancelBooking _ _, cancel_at_pickup
  | DriverCancel _ _ _ _, driver_withdraws
  | TripAction _ _ DriverTrip.cancel _, driver_withdraws
  | TripAction _ _ DriverTrip.complete _, early_completion => true
  | _, _ => false
  end.

Definition shortcuts (ops : list op) (k : shortcut) : bool := existsb (takes_shortcut k) ops.

(** * The invariant of a history *)

Definition transport_sound (m : store) : Prop := trips_sound m /\ search_sound m.

(** Bookings keep their rows and move along the lifecycle. *)
Definition trips_move (allow : shortcut -> bool) (m m' : store) : Prop :=
  forall b, b ∈ st_trips m -> exists b', b' ∈ st_trips m' /\ tid b' = tid b
    /\ moves allow (tb_status b) (tb_status b').

Record step_effect (allow : shortcut -> bool) (m m' : store) : Prop := {
  st_sound : transport_sound m';
  st_trips_move : trips_move allow m m';
  st_requests_move : requests_move m m';
}.

Lemma trips_move_same allow m m' : st_trips m' = st_trips m -> trips_move allow m m'.
Proof. intros E b Hb. exists b. by rewrite E. Qed.

Lemma step_effect_refl allow m : transport_sound m -> step_effect allow m m.
Proof. split; [done|by apply trips_move_same|apply requests_move_refl]. Qed.

Lemma step_effect_mono (allow allow' : shortcut -> bool) m m' :
  (forall k, allow k = true -> allow' k = true) -> step_effect allow m m' -> step_effect allow' m m'.
Proof.
  intros Ha [? Hm ?]. split; [done| |done]. intros b Hb. destruct (Hm b Hb) as (b' & ? & ? & ?).
  exists b'. split_and!; [done|done|by eapply moves_mono].
Qed.

Lemma trips_move_trans allow m1 m2 m3 :
  trips_move allow m1 m2 -> trips_move allow m2 m3 -> trips_move allow m1 m3.
Proof.
  intros H1 H2 b Hb. destruct (H1 b Hb) as (b' & Hb' & ? & ?). destruct (H2 b' Hb') as (b'' & ? & ? & ?).
  exists b''. split_and!; [done|congruence|by etrans].
Qed.

Lemma step_effect_trans allow m1 m2 m3 :
  step_effect allow m1 m2 -> step_effect allow m2 m3 -> step_effect allow m1 m3.
Proof.
  intros [] []. split; [done|by eapply trips_move_trans|by eapply requests_move_trans].
Qed.

(** Operations on trips leave the search tables alone. *)
Lemma search_sound_frame m m' :
  st_requests m' = st_requests m -> st_cycles m' = st_cycles m -> st_offers m' = st_offers m ->
  st_next m' = st_next m -> tb_info <$> st_trips m' = tb_info <$> st_trips m ->
  search_sound m -> search_sound m'.
Proof.
  intros Er Ec Eo En Et [[] Hs]. split; [split; rewrite ?Er, ?Ec, ?Eo, ?En, ?Et; done|].
  intros c Hc. rewrite Ec in Hc. specialize (Hs c Hc). unfold served, offered_in, waiting_in in *.
  by rewrite Eo.
Qed.

Lemma trip_step allow m m' : transport_sound m -> trip_effect allow m m' -> step_effect allow m m'.
Proof.
  intros [_ Hs] He. destruct He as [Ht Hm Ei _ Er Ec Eo _ _ En]. split; [|done|by apply same_requests_move].
  split; [done|]. by apply (search_sound_frame m).
Qed.

Lemma keep_trip {E A} allow m (r : result E (store * A)) : transport_sound m ->
  (forall p, r = Ok p -> trip_effect allow m p.1) -> step_effect allow m (keep m r).
Proof.
  intros Hs H. destruct r as [p|e]; [|by apply step_effect_refl]. apply trip_step; [done|by apply H].
Qed.

Lemma keep_store_trip {E} allow m (r : result E store) : transport_sound m ->
  (forall m', r = Ok m' -> trip_effect allow m m') -> step_effect allow m (keep_store m r).
Proof.
  intros Hs H. destruct r as [p|e]; [|by apply step_effect_refl]. apply trip_step; [done|by apply H].
Qed.

(** Operations on searches leave trips alone. *)
Lemma search_step allow m m' : transport_sound m -> search_sound m' -> search_frame m m' -> step_effect allow m m'.
Proof.
  intros [Ht _] Hs F. split; [split; [|done]| |by apply frame_requests_move].
  - destruct F. by eapply trips_sound_frame; [..|exact Ht].
  - apply trips_move_same, F.
Qed.

Lemma keep_search {A} allow m (r : result trip_error (store * A)) : transport_sound m ->
  sound_step m r -> step_effect allow m (keep m r).
Proof.
  intros Hs H. destruct r as [p|e]; [|by apply step_effect_refl].
  destruct (H p eq_refl). by apply search_step.
Qed.

Lemma open_step allow m b : transport_sound m -> opens m b = true ->
  step_effect allow m (take_id (with_trips m (st_trips m ++ [b]))).
Proof.
  intros [Ht Hs] Ho. unfold opens in Ho.
  rewrite !andb_true_iff, !negb_true_iff, Z.eqb_eq in Ho. destruct Ho as [[[[E _] Hh] Hk] Hl].
  unfold held in Hh. rewrite orb_false_iff in Hh. destruct Hh as [Hd Hv].
  split; [split| |by apply same_requests_move].
  - apply insert_trip_sound; [done|done|done|by destruct (tb_driver_id b)|by destruct (tb_vehicle_id b)].
  - destruct Hs as [[Hq Hc Hof Hlk] Hsv]. assert (Hn : st_next m <= st_next m + 1) by lia.
    split; [split; simpl|exact Hsv].
    + by eapply requests_next.
    + eapply (cycles_requests (st_requests m)); [exact Hn|done|by eauto|done].
    + by eapply offers_next.
    + rewrite fmap_app. destruct Hlk as [H1 H2 H3].
      assert (Hin : forall i, i ∈ (tb_info <$> st_trips m) ++ [tb_info b] ->
        i ∈ tb_info <$> st_trips m \/ ti_ride_request_id i = None).
      { intros i. rewrite elem_of_app, list_elem_of_singleton. intros [|E']; [by left|right].
        rewrite E'. by destruct (ti_ride_request_id (tb_info b)). }
      split.
      * intros i id [Hi|Hn']%Hin; [by apply H1|congruence].
      * intros r Hr Hrs. destruct (H2 r Hr Hrs) as (i & Hi & ?). exists i. split; [|done].
        apply elem_of_app. by left.
      * intros i j id [Hi|Hn']%Hin [Hj|Hn'']%Hin; [by apply H3|congruence..].
  - intros x Hx. exists x. split_and!; [|done|done]. apply elem_of_app. by left.
Qed.

Lemma accept_step allow m p d v who ref now :
  transport_sound m -> step_effect allow m (accept_offer m p d v who ref now).1.
Proof.
  intros [Ht Hs]. pose proof (accept_offer_sound m p d v who ref now Ht Hs) as Hsound.
  destruct (accept_offer m p d v who ref now) as [m' [id|e]] eqn:H; simpl in *; [|
    destruct (accept_offer_Err _ _ _ _ _ _ _ _ _ Hs H); by apply search_step].
  split; [done|..].
  - destruct (accept_offer_Ok _ _ _ _ _ _ _ _ _ H) as (r & c & a & _ & Hcur).
    destruct (accept_current_Ok _ _ _ _ _ _ _ _ _ Hcur) as (am & cur & inv & _ & _ & _ & _ & Hconv).
    assert (Ht' : trips_sound (in_flight m r c a now)) by (by eapply trips_sound_frame; [..|exact Ht]).
    destruct (convert_claim_effect _ _ _ _ _ _ _ _ _ _ _ Ht' Hconv) as (m2 & q & He & E & _ & E2 & _).
    injection E as -> _. intros b Hb. destruct (te_moves _ _ _ He b) as (b' & ? & ? & ?);
      [rewrite E2; apply elem_of_app; by left|].
    exists b'. split_and!; [done|done|by eapply (moves_mono table_only)].
  - by eapply accept_requests_move.
Qed.

Lemma apply_effect m o : transport_sound m -> reopens m o = false ->
  step_effect (fun k => takes_shortcut k o) m (apply m o).
Proof.
  intros Hs Hr. pose proof Hs as [Ht Hsr]. destruct o; simpl.
  - destruct (opens m b) eqn:Ho; [by apply open_step|by apply step_effect_refl].
  - split; [split|by apply trips_move_same|by apply same_requests_move].
    + by eapply trips_sound_frame; [..|exact Ht].
    + by apply (search_sound_frame m).
  - apply keep_trip; [done|]. intros r. by apply claim_effect.
  - apply keep_trip; [done|]. intros r. by apply cancel_booking_effect.
  - apply keep_store_trip; [done|]. intros r. by apply transition_status_effect.
  - apply keep_trip; [done|]. intros r. by apply mark_no_match_effect.
  - apply keep_store_trip; [done|]. intros r. by apply retry_matching_effect.
  - apply keep_trip; [done|]. intros r. by apply mark_no_show_effect.
  - apply keep_trip; [done|]. intros r. by apply driver_cancel_effect.
  - apply keep_store_trip; [done|]. intros r. apply post_effect; [|done].
    by destruct a; intros k [= <-].
  - apply keep_store_trip; [done|]. intros r. by apply delete_effect.
  - apply keep_store_trip; [done|]. intros r. apply approve_effect; [done|].
    intros b Hb. simpl in Hr. rewrite Hb in Hr. by apply bool_decide_eq_false in Hr.
  - by apply trip_step, stall_recovery_effect.
  - destruct (create_request w methods m d public_id invoice_id window now) as [p|e] eqn:H;
      [|by apply step_effect_refl].
    destruct (create_request_sound _ _ _ _ _ _ _ _ _ Hsr H) as (? & Et & Ec & ? & ?).
    split; [split; [by eapply trips_sound_frame; [..|exact Ht]|done]|by apply trips_move_same|done].
  - by apply keep_search, start_search_sound.
  - by apply keep_search, retry_search_sound.
  - by apply keep_search, cancel_request_sound.
  - by apply keep_search, decline_offer_sound.
  - destruct (recover_expired_sound m batch now Hsr). by apply search_step.
  - by apply accept_step.
Qed.

Lemma run_effect m ops : transport_sound m -> no_reopening m ops = true ->
  step_effect (shortcuts ops) m (run m ops).
Proof.
  unfold run. revert m. induction ops as [|o ops IH]; intros m Hs Hn; simpl; [by apply step_effect_refl|].
  simpl in Hn. rewrite andb_true_iff, negb_true_iff in Hn. destruct Hn as [Hr Hn].
  pose proof (apply_effect m o Hs Hr) as H1.
  eapply step_effect_trans; (eapply step_effect_mono; [|first [exact H1|apply IH; [apply H1|exact Hn]]]);
    intros k Hk; unfold shortcuts; simpl; [by rewrite Hk|by rewrite orb_true_iff; right].
Qed.

End ranked.
