(* ===== verification/TransportTheorems.v ===== *)
(** What holds of transport after any history: assignments are exclusive, statuses
    follow the lifecycle, a ride is offered to one driver at a time and converted
    once; and what an acceptance requires and writes. *)

From S2P Require Import Prelude Tables Decimal Ledger InvoiceModel Invoices TripModel Trips TripLaws.
From S2P Require Import RideDispatch RideLaws RideAccept RideRequests TransportHistory.

Local Open Scope Z_scope.

Import AssignmentService RideRequestDispatchService.

Section ranked.
Context `{Hrank : Ranker}.

(** * Trips *)

(** C4: after any sequence of operations from a sound store in which no moderator
    approves a disputed booking, a booking that holds a driver is active and not
    deleted and no other live active booking holds that driver; the same for its
    vehicle, which is marked unavailable. (The approval of a disputed booking
    confirms it with its driver still on it, a defect of the code:
    [TransportSample.reopened_dispute_double_books] is a run that then puts one
    driver on two bookings.) *)
Theorem no_double_assignment (m : store) (ops : list op) (b : trip) :
  transport_sound m -> no_reopening m ops = true -> b ∈ st_trips (run m ops) ->
  (forall d, tb_driver_id b = Some d ->
     active b = true /\ live b = true /\ driver_engaged_other (run m ops) d (tid b) = false)
  /\ (forall v, tb_vehicle_id b = Some v ->
     active b = true /\ live b = true /\ vehicle_engaged_other (run m ops) v (tid b) = false
     /\ forall c, c ∈ st_cabs (run m ops) -> vh_id c = v -> vh_is_available c = false).
Proof.
  intros Hs Hn Hb. destruct (st_sound _ _ _ (run_effect m ops Hs Hn)) as [Ht _].
  assert (Hother : forall (holds : trip -> bool), (forall x, x ∈ st_trips (run m ops) -> holds x = true -> tid x = tid b) ->
    engaged_other holds (run m ops) (tid b) = false).
  { intros holds Hx. apply existsb_false. intros x Hin. destruct (holds x) eqn:E; [|done].
    rewrite (Hx x Hin E), Z.eqb_refl. done. }
  split.
  - intros d Hd. destruct (ro_active b (ts_rows _ Ht b Hb) (held_driver _ _ Hd)) as [Ha Hl].
    split_and!; [done|done|]. apply Hother. intros x Hx E%bool_decide_eq_true.
    by eapply (ts_driver _ Ht x b d).
  - intros v Hv. destruct (ro_active b (ts_rows _ Ht b Hb) (held_vehicle _ _ Hv)) as [Ha Hl].
    split_and!; [done|done| |].
    + apply Hother. intros x Hx E%bool_decide_eq_true. by eapply (ts_vehicle _ Ht x b v).
    + intros c Hc Ec. by eapply (ts_parked _ Ht b c v).
Qed.

(** C7: along any history in which no moderator approves a disputed booking, every
    booking keeps its row and its status moves only by steps of the table
    STATUS_TRANSITIONS of the booking service and by three shortcuts that other
    code takes past that table, each only if the history has an operation that takes
    it: a driver's completion of a trip not yet started, a driver's withdrawal
    before the start (to NO_MATCH) and a cancellation at the pickup. A history
    without these three operations follows the table; a completed, cancelled or
    no-show booking never changes status again. *)
Theorem lifecycle_followed (m : store) (ops : list op) (b : trip) :
  transport_sound m -> no_reopening m ops = true -> b ∈ st_trips m ->
  exists b', b' ∈ st_trips (run m ops) /\ tid b' = tid b
    /\ moves (shortcuts ops) (tb_status b) (tb_status b')
    /\ ((forall k, shortcuts ops k = false) ->
         rtc (tstep BookingService.STATUS_TRANSITIONS) (tb_status b) (tb_status b'))
    /\ (tb_status b ∈ TERMINAL_RELEASE_STATUSES -> tb_status b' = tb_status b).
Proof.
  intros Hs Hn Hb. destruct (st_trips_move _ _ _ (run_effect m ops Hs Hn) b Hb) as (b' & Hb' & Ht & Hm).
  exists b'. split_and!; [done|done|done| |].
  - intros Hk. apply moves_table, (moves_mono (shortcuts ops)); [|done]. intros k. by rewrite Hk.
  - intros Hterm. by eapply moves_final.
Qed.

(** * Rides *)

(** C29: after any history in which no moderator approves a disputed booking, a
    request has at most one searching cycle, a cycle at most one offer awaiting an answer, and such an offer belongs to a searching
    cycle of a searching request; a searching cycle that made offers awaits one. *)
Theorem one_live_offer (m : store) (ops : list op) :
  transport_sound m -> no_reopening m ops = true ->
  (forall c c', c ∈ st_cycles (run m ops) -> c' ∈ st_cycles (run m ops) ->
     cy_ride_request_id c = cy_ride_request_id c' -> searching c -> searching c' -> c = c')
  /\ (forall a a', a ∈ st_offers (run m ops) -> a' ∈ st_offers (run m ops) ->
     oa_cycle_id a = oa_cycle_id a' -> actionable a = true -> actionable a' = true -> a = a')
  /\ (forall a, a ∈ st_offers (run m ops) -> actionable a = true ->
     exists c r, c ∈ st_cycles (run m ops) /\ cy_id c = oa_cycle_id a /\ searching c
       /\ r ∈ st_requests (run m ops) /\ rr_id r = cy_ride_request_id c
       /\ rr_status r = RQ_searching)
  /\ (forall c, c ∈ st_cycles (run m ops) -> searching c -> offers_of (run m ops) (cy_id c) <> [] ->
     exists a, active_offer (run m ops) (cy_id c) = Some a).
Proof.
  intros Hs Hn. destruct (st_sound _ _ _ (run_effect m ops Hs Hn)) as [_ [[Hq Hc Ho Hl] Hsv]].
  split_and!.
  - intros c c'. by apply (searching_once _ _ _ c c' Hc).
  - intros a a' Ha Ha' E H1 H2. apply (key_unique oa_id (st_offers (run m ops))); [apply Ho|done|done|].
    by eapply (oo_one _ _ _ Ho).
  - intros a Ha Hact. destruct (oo_cycle _ _ _ Ho a Ha Hact) as (c & Hcin & E & Hsr).
    destruct (cc_parent _ _ _ Hc c Hcin Hsr) as (r & ? & ? & ?). by exists c, r.
  - intros c Hcin Hsr Hne. destruct (active_offer (run m ops) (cy_id c)) as [a|] eqn:Ha; [by exists a|].
    exfalso. apply (active_offer_none _ _ Ha), (Hsv c Hcin Hsr).
    destruct (offers_of (run m ops) (cy_id c)) as [|a l] eqn:El; [done|]. exists a.
    apply elem_of_offers_of. rewrite El. by left.
Qed.

(** C18: after any history in which no moderator approves a disputed booking, a
    cycle asked at most five drivers, each at most once and each with a vehicle it was ranked with: so a search ends after at most five
    offers whatever the drivers answer. *)
Theorem asked_once_each (m : store) (ops : list op) (c : search_cycle) :
  transport_sound m -> no_reopening m ops = true -> c ∈ st_cycles (run m ops) ->
  NoDup (oa_driver_id <$> offers_of (run m ops) (cy_id c))
  /\ (length (offers_of (run m ops) (cy_id c)) <= MATCHING_POOL_SIZE)%nat
  /\ forall a, a ∈ offers_of (run m ops) (cy_id c) -> exists p k, cy_ranked_pool c = Some p /\ k ∈ p
       /\ ca_driver_id k = oa_driver_id a /\ ca_vehicle_id k = oa_vehicle_id a.
Proof.
  intros Hs Hn Hcin. destruct (st_sound _ _ _ (run_effect m ops Hs Hn)) as [_ [[Hq Hc Ho Hl] _]].
  assert (Hpool : forall a, a ∈ offers_of (run m ops) (cy_id c) -> exists p k,
    cy_ranked_pool c = Some p /\ k ∈ p /\ ca_driver_id k = oa_driver_id a /\ ca_vehicle_id k = oa_vehicle_id a).
  { intros a [Ha E]%elem_of_offers_of. destruct (oo_pool _ _ _ Ho a Ha) as (c' & p & k & Hc' & Ec & ? & ? & ? & ?).
    assert (c' = c) as -> by (apply (key_unique cy_id (st_cycles (run m ops))); [apply Hc|done|done|congruence]).
    by exists p, k. }
  assert (Hnd : NoDup (oa_driver_id <$> offers_of (run m ops) (cy_id c))).
  { apply NoDup_fmap_2_strong.
    - intros a a' [Ha E]%elem_of_offers_of [Ha' E']%elem_of_offers_of Ed.
      apply (key_unique oa_id (st_offers (run m ops))); [apply Ho|done|done|].
      eapply (oo_drivers _ _ _ Ho); congruence.
    - unfold offers_of. apply NoDup_ListNoDup, List.NoDup_filter, NoDup_ListNoDup.
      eapply NoDup_fmap_1, (oo_ids _ _ _ Ho). }
  split_and!; [done| |done].
  destruct (offers_of (run m ops) (cy_id c)) as [|a0 l] eqn:El; [simpl; lia|].
  destruct (Hpool a0) as (p & _ & Hp & _); [by left|].
  rewrite <- (length_fmap oa_driver_id (a0 :: l)). etrans; [|exact (cc_pool _ _ _ Hc c p Hcin Hp)].
  rewrite <- (length_fmap ca_driver_id p). apply submseteq_length, NoDup_submseteq; [done|].
  intros x (a & -> & Ha)%list_elem_of_fmap. destruct (Hpool a Ha) as (p' & k & Hp' & Hk & <- & _).
  apply list_elem_of_fmap_2. congruence.
Qed.

(** C14: after any history in which no moderator approves a disputed booking, a
    ride request is converted exactly when a booking was made for it, and never by two bookings; a request that was cancelled stays
    cancelled and gets none. *)
Theorem converted_once (m : store) (ops : list op) :
  transport_sound m -> no_reopening m ops = true ->
  (forall r, r ∈ st_requests (run m ops) -> rr_status r = RQ_converted <->
     exists b, b ∈ st_trips (run m ops) /\ ti_ride_request_id (tb_info b) = Some (rr_id r))
  /\ (forall b b' id, b ∈ st_trips (run m ops) -> b' ∈ st_trips (run m ops) ->
     ti_ride_request_id (tb_info b) = Some id -> ti_ride_request_id (tb_info b') = Some id -> b = b')
  /\ (forall r, r ∈ st_requests m -> rr_status r = RQ_cancelled ->
     exists r', r' ∈ st_requests (run m ops) /\ rr_id r' = rr_id r /\ rr_status r' = RQ_cancelled
       /\ forall b, b ∈ st_trips (run m ops) -> ti_ride_request_id (tb_info b) <> Some (rr_id r)).
Proof.
  intros Hs Hn. pose proof (run_effect m ops Hs Hn) as [[Ht [[Hq Hc Ho Hl] _]] _ Hrm].
  assert (Hbook : forall b id, b ∈ st_trips (run m ops) -> ti_ride_request_id (tb_info b) = Some id ->
    exists r, r ∈ st_requests (run m ops) /\ rr_id r = id /\ rr_status r = RQ_converted).
  { intros b id Hb E. eapply (lk_booked _ _ Hl); [|exact E]. by apply list_elem_of_fmap_2. }
  assert (Huniq : forall r r', r ∈ st_requests (run m ops) -> r' ∈ st_requests (run m ops) ->
    rr_id r = rr_id r' -> r = r').
  { intros r r' Hr Hr' E. by apply (key_unique rr_id (st_requests (run m ops))); [apply Hq|..]. }
  split_and!.
  - intros r Hr. split.
    + intros Hst. destruct (lk_converted _ _ Hl r Hr Hst) as (i & Hi & E).
      apply list_elem_of_fmap in Hi as (b & -> & Hb). by exists b.
    + intros (b & Hb & E). destruct (Hbook b _ Hb E) as (r' & Hr' & Er & Hst).
      by rewrite <- (Huniq r' r Hr' Hr Er).
  - intros b b' id Hb Hb' E E'. apply (key_unique tid (st_trips (run m ops))); [apply Ht|done|done|].
    unfold tid. f_equal. eapply (lk_once _ _ Hl); [by apply list_elem_of_fmap_2..|done|done].
  - intros r Hr Hst. destruct (Hrm r Hr) as (r' & Hr' & [= Ei _] & Hs'). rewrite Hst in Hs'.
    exists r'. destruct Hs' as [Hs'|]; [|done]. split_and!; [done|done|done|]. intros b Hb E.
    destruct (Hbook b _ Hb E) as (x & Hx & Ex & Hxs).
    rewrite (Huniq x r' Hx Hr' ltac:(congruence)) in Hxs. congruence.
Qed.

(** * Acceptance *)

(** The claim of a conversion finds the booking it inserted. *)
Lemma convert_booking m r c a amount currency inv who new_ref now m' id :
  trips_sound m -> convert m r c a amount currency inv who new_ref now = Ok (m', id) ->
  id = st_next m
  /\ assigned (oa_driver_id a) (oa_vehicle_id a) now
       (booking_of (st_next m) new_ref r c amount currency now) ∈ st_trips m'
  /\ {| tp_booking_id := st_next m; tp_amount := amount; tp_payment_method := rr_payment_method r;
        tp_wallet_invoice_id := inv |} ∈ st_payments m'.
Proof.
  intros Hs H. destruct (convert_Ok _ _ _ _ _ _ _ _ _ _ _ H) as (m2 & q & Hi & Hcol & _ & _ & Em & Hq & E).
  injection E as -> ->. set (b := booking_of _ _ _ _ _ _ _) in *.
  destruct (claim_Ok _ _ _ _ _ _ _ _ Hq) as (x & Href & _ & _ & b0 & Hfind & _ & _ & _ & _ & Eq).
  assert (Et : st_trips m2 = st_trips m ++ [b]) by by rewrite Em.
  assert (Hin : forall y, y ∈ st_trips m2 -> y ∈ st_trips m \/ y = b).
  { intros y. by rewrite Et, elem_of_app, list_elem_of_singleton. }
  destruct (trip_by_reference_elem _ _ _ Href) as [Hx Hxr].
  assert (x = b) as ->.
  { destruct (Hin x Hx) as [Hx'|]; [|done]. specialize (Hcol x Hx'). unfold collides in Hcol.
    rewrite !orb_false_iff in Hcol. destruct Hcol as [[Hc _] _]. rewrite Hxr in Hc.
    change (reference b) with new_ref in Hc. by rewrite String.eqb_refl in Hc. }
  destruct (find_trip_elem _ _ _ Hfind) as [Hb0 Hid].
  assert (b0 = b) as ->.
  { destruct (Hin b0 Hb0) as [Hb0'|]; [|done]. pose proof (ts_fresh _ Hs b0 Hb0'). change (tid b) with (st_next m) in Hid. lia. }
  rewrite Eq. simpl. split_and!; [done| |].
  - apply elem_of_update. exists b. split; [by rewrite Et; apply elem_of_app; right; left|].
    change (tid b) with (st_next m). unfold tid; simpl. by rewrite Z.eqb_refl.
  - rewrite Em. simpl. apply elem_of_app. right. by left.
Qed.

(** C16: an acceptance that succeeds was made by the driver who holds the current
    offer, in time, with the vehicle offered and still his; the booking it leaves
    is assigned to that driver and vehicle, for the rider and the fare of the
    request, with its payment due; the request is converted. *)
Theorem accept_spec (m m' : store) (public_id : string) (d v : Z) (who : actor) (new_ref : string) (now id : Z) :
  transport_sound m -> accept_offer m public_id d v who new_ref now = (m', Ok id) ->
  exists r c a amount b, acceptable m public_id d v now r c a
    /\ to_cents (default dzero (rr_fare_estimate_amount r)) = Ok amount
    /\ b ∈ st_trips m' /\ tid b = id /\ tb_status b = ASSIGNED
    /\ tb_driver_id b = Some d /\ tb_vehicle_id b = Some v
    /\ reference b = new_ref /\ ti_user_id (tb_info b) = rr_user_id r
    /\ ti_final_price (tb_info b) = amount /\ ti_ride_request_id (tb_info b) = Some (rr_id r)
    /\ (exists p, p ∈ st_payments m' /\ tp_booking_id p = id /\ tp_amount p = amount)
    /\ (exists r', r' ∈ st_requests m' /\ rr_id r' = rr_id r /\ rr_status r' = RQ_converted).
Proof.
  intros [Ht Hs] H. destruct (accept_offer_sound m public_id d v who new_ref now Ht Hs) as [_ Hs'].
  rewrite H in Hs'. simpl in Hs'.
  destruct (accept_offer_Ok _ _ _ _ _ _ _ _ _ H) as (r & c & a & Hacc & Hcur).
  destruct (accept_current_Ok _ _ _ _ _ _ _ _ _ Hcur) as (amount & cur & inv & Ham & _ & _ & _ & Hconv).
  destruct (acceptable_spec _ _ _ _ _ _ _ _ Hs Hacc) as (_ & _ & _ & _ & _ & _ & _ & _ & Ed & _).
  assert (Ht' : trips_sound (in_flight m r c a now)) by (by eapply trips_sound_frame; [..|exact Ht]).
  destruct (convert_booking _ _ _ _ _ _ _ _ _ _ _ _ Ht' Hconv) as (Eid & Hb & Hp).
  eexists r, c, a, amount, _. split; [done|]. split; [done|]. split; [exact Hb|].
  rewrite (ac_vehicle _ _ _ _ _ _ _ _ Hacc), Ed. split_and!; try done.
  - eexists. split; [exact Hp|]. done.
  - eapply (lk_booked _ _ (sb_links _ (sh_base _ Hs'))); [apply list_elem_of_fmap_2; exact Hb|done].
Qed.

(** C32: an acceptance that fails, for whatever reason, adds no booking and no
    payment, takes no driver and no vehicle, and leaves every invoice as it was. *)
Theorem accept_refusal_atomic (m m' : store) (public_id : string) (d v : Z) (who : actor) (new_ref : string)
    (now : Z) (e : trip_error) :
  search_sound m -> accept_offer m public_id d v who new_ref now = (m', Err e) ->
  st_trips m' = st_trips m /\ st_cabs m' = st_cabs m /\ st_payments m' = st_payments m
  /\ st_invoices m' = st_invoices m /\ st_fleet m' = st_fleet m.
Proof.
  intros Hs H. destruct (accept_offer_Err _ _ _ _ _ _ _ _ _ Hs H) as [_ []]. by split_and!.
Qed.

(** A request whose pickup time lies five minutes or more in the past, or whose
    fare is zero, is never converted, whoever accepts: the constraints of the
    booking and payment tables refuse the rows. *)
Theorem stale_pickup_never_converts (m m' : store) (public_id : string) (r : ride_request) (d v : Z) (who : actor)
    (new_ref : string) (now id : Z) :
  search_sound m -> request_by_public_id m public_id = Some r ->
  (exists t, rr_requested_pickup_time r = Some t /\ t <= now - minutes 5)
  \/ default dzero (rr_fare_estimate_amount r) = cents 0 ->
  accept_offer m public_id d v who new_ref now <> (m', Ok id).
Proof.
  intros Hs Hr Hbad H. destruct (accept_offer_Ok _ _ _ _ _ _ _ _ _ H) as (r' & c & a & Hacc & Hcur).
  pose proof (ac_request _ _ _ _ _ _ _ _ Hacc) as Hr'. rewrite Hr in Hr'. injection Hr' as <-.
  destruct (accept_current_Ok _ _ _ _ _ _ _ _ _ Hcur) as (amount & cur & inv & Ham & _ & _ & _ & Hconv).
  destruct (convert_Ok _ _ _ _ _ _ _ _ _ _ _ Hconv) as (_ & _ & Hi & _ & Hpos & _).
  destruct Hbad as [(t & Et & Hle)|E0].
  - unfold insertable in Hi. rewrite !andb_true_iff in Hi. destruct Hi as [[[[_ Hp] _] _] _].
    simpl in Hp. rewrite Et in Hp. apply Z.ltb_lt in Hp. simpl in Hp. unfold minutes in *. lia.
  - rewrite E0 in Ham. injection Ham as <-. done.
Qed.

End ranked.
