(* ===== verification/InvoiceLaws.v ===== *)
(** What the invoice service guarantees, and where it does not: idempotent
    creation, settlement at most once and only against a verified transfer, the
    refund that cannot complete, the attempt that counts twice, and the ride whose
    invoice cannot be settled. *)

From S2P Require Import Prelude Tables Decimal DecimalLaws Ledger LedgerLaws RegulatoryVolume KycLimits.
From S2P Require Import WalletService WalletLaws InvoiceModel Invoices.

Local Open Scope Z_scope.

Import MarketplaceInvoiceService.
Import TransactionRepository(get_by_id).
Import LedgerRepository(balance).

(** * Rows *)

Lemma find_invoice_elem l id i : find_invoice_row l id = Some i -> i ∈ l /\ iv_id i = id.
Proof. unfold find_invoice_row. by intros [H1%list_elem_of_In H2%String.eqb_eq]%List.find_some. Qed.

(** The first row of an id, after it was written. *)
Lemma find_write_invoice l id i i' : find_invoice_row l id = Some i -> iv_id i' = id ->
  find_invoice_row (write_invoice l i') id = Some i'.
Proof.
  unfold find_invoice_row, write_invoice. intros Hf <-. induction l as [|x l IH]; [done|]. simpl in *.
  destruct (String.eqb_spec (iv_id x) (iv_id i')) as [E|Hn]; simpl.
  - by rewrite String.eqb_refl.
  - rewrite (proj2 (String.eqb_neq (iv_id x) (iv_id i')) Hn). by apply IH.
Qed.

Lemma find_write_other l id i' : iv_id i' <> id -> find_invoice_row (write_invoice l i') id = find_invoice_row l id.
Proof.
  unfold find_invoice_row, write_invoice. intros Hn. induction l as [|x l IH]; [done|]. simpl.
  destruct (String.eqb_spec (iv_id x) (iv_id i')) as [E|_]; simpl; [|by rewrite IH].
  rewrite (proj2 (String.eqb_neq (iv_id i') id) Hn). rewrite E, (proj2 (String.eqb_neq (iv_id i') id) Hn). apply IH.
Qed.

Lemma get_invoice_Ok m id i : get_invoice m id = Ok i <-> find_invoice_row (mk_invoices m) id = Some i.
Proof. unfold get_invoice. apply of_option_Ok. Qed.

Lemma get_saved m i i' : get_invoice m (iv_id i') = Ok i -> get_invoice (save_invoice i' m) (iv_id i') = Ok i'.
Proof. rewrite !get_invoice_Ok. intros H. by eapply find_write_invoice. Qed.

(** * Texts *)

Lemma map_string_idem f s : (forall c, f (f c) = f c) -> map_string f (map_string f s) = map_string f s.
Proof. intros Hf. induction s as [|c s IH]; [done|]. simpl. by rewrite Hf, IH. Qed.

Lemma upper_upper s : upper (upper s) = upper s.
Proof. apply map_string_idem. intros [[] [] [] [] [] [] [] []]; reflexivity. Qed.
Lemma lower_lower s : lower (lower s) = lower s.
Proof. apply map_string_idem. intros [[] [] [] [] [] [] [] []]; reflexivity. Qed.

Lemma currency_upper v c : _currency v = Ok c -> upper c = c.
Proof. unfold _currency. intros H. guard H as Hr. injection H as <-. apply upper_upper. Qed.

Lemma money_positive d a : _money d = Ok a -> dexp a = -2 /\ 0 < coef a /\ repr a.
Proof.
  unfold _money, refuse. destruct (quantize _ _ _) as [x|] eqn:Hq; [|done]. intros H. guard H as Hp.
  injection H as <-. apply dltb_spec, dlt_0 in Hp. split_and!; [by eapply quantize_exp|done|by eapply quantize_repr].
Qed.

(** A stored amount of hundredths equals the amount it was stored from. *)
Lemma same_amount_stored a : dexp a = -2 -> repr a -> same_amount (to_micro a) a = true.
Proof.
  intros He Hr. unfold same_amount, two_decimals.
  rewrite (quantize_exact _ _ _ a); [by apply deqb_spec|done|done|].
  apply (deq_at (micro (to_micro a)) a (-6)); [done|lia|].
  unfold at_exp. rewrite to_micro_cents, He by done. unfold pow10. simpl. lia.
Qed.

(** * Creation *)

(** The three checks of the normalised terms. *)
Definition terms_accepted (t : invoice_terms) : Prop :=
  negb (String.eqb (it_idempotency_key t) "") && (slen (it_idempotency_key t) <=? 255) = true
  /\ negb (String.eqb (it_service_code t) "") && (slen (it_service_code t) <=? 50)
     && negb (String.eqb (it_service_reference t) "") && (slen (it_service_reference t) <=? 255) = true
  /\ str_in (it_settlement_timing t) _SUPPORTED_SETTLEMENT_TIMINGS = true.

(** The stages of [create_invoice]. *)
Lemma create_invoice_Ok w methods l new_id q l' i :
  create_invoice w methods l new_id q = Ok (l', i) ->
  exists currency amount, _currency (nq_currency q) = Ok currency /\ _money (nq_amount q) = Ok amount
    /\ let t := normal_terms q new_id currency 0 in
       terms_accepted t
       /\ ((existing_invoice l t = Some i /\ _immutable_terms_match i t amount = true /\ l' = l)
           \/ (existing_invoice l t = None /\ i = pending_invoice (normal_terms q new_id currency (to_micro amount))
               /\ l' = l ++ [i])).
Proof.
  unfold create_invoice. intros H. bind H as currency Hc. bind H as amount Ha. exists currency, amount.
  split; [done|]. split; [done|]. cbv zeta in *. set (t := normal_terms q new_id currency 0) in *.
  guard H as H1. guard H as H2. guard H as H3. split; [by split_and!|].
  destruct (existing_invoice l t) as [x|] eqn:Hx.
  - guard H as Hm. injection H as <- <-. by left.
  - right. bind H as c Hcfg. guard H as H4. guard H as H5. bind H as ts Hts. injection H as <- <-.
    split; [done|]. assert (E : ts = normal_terms q new_id currency (to_micro amount)); [|by rewrite E].
    unfold uncaught in Hts. rewrite map_err_Ok in Hts. unfold store_terms in Hts.
    bind Hts as n Hn. bind Hts as a1 Ha1. bind Hts as a2 Ha2. bind Hts as a3 Ha3. injection Hts as <-.
    apply positive_amount_Ok in Hn as [-> _]. done.
Qed.

(** The keys of the unique constraints. *)
Definition service_key (i : invoice) : string * string :=
  (it_service_code (iv_terms i), it_service_reference (iv_terms i)).
Definition idem_key (i : invoice) : string := it_idempotency_key (iv_terms i).

Record invoices_unique (l : list invoice) : Prop := {
  iu_keys : NoDup (idem_key <$> l);
  iu_services : NoDup (service_key <$> l);
}.

Lemma existing_none l t : existing_invoice l t = None ->
  (forall i, i ∈ l -> idem_key i <> it_idempotency_key t)
  /\ forall i, i ∈ l -> service_key i <> (it_service_code t, it_service_reference t).
Proof.
  unfold existing_invoice. destruct (List.find (by_key _) l) as [x|] eqn:Hk; [done|]. intros Hr.
  split; intros i Hi E.
  - assert (Hf := List.find_none _ _ Hk i). unfold by_key, idem_key in *.
    rewrite E, String.eqb_refl in Hf. by specialize (Hf (proj1 (list_elem_of_In _ _) Hi)).
  - injection E as E1 E2. assert (Hf := List.find_none _ _ Hr i). unfold by_reference in Hf.
    rewrite E1, E2, !String.eqb_refl in Hf. by specialize (Hf (proj1 (list_elem_of_In _ _) Hi)).
Qed.

(** The new row is found by its key. *)
Lemma existing_appended l t i : existing_invoice l t = None -> idem_key i = it_idempotency_key t ->
  existing_invoice (l ++ [i]) t = Some i.
Proof.
  unfold existing_invoice. rewrite find_app. destruct (List.find (by_key _) l); [done|]. intros _ E.
  simpl. unfold by_key. unfold idem_key in E. by rewrite E, String.eqb_refl.
Qed.

Lemma new_terms_match q new_id other c amount :
  upper c = c -> dexp amount = -2 -> repr amount ->
  _immutable_terms_match (pending_invoice (normal_terms q new_id c (to_micro amount)))
    (normal_terms q other c 0) amount = true.
Proof.
  intros Hc He Hr. unfold _immutable_terms_match. simpl.
  rewrite !lower_lower, Hc, !String.eqb_refl, Z.eqb_refl, same_amount_stored by done.
  by rewrite !bool_decide_eq_true_2.
Qed.

(** C31: creating an invoice keeps the keys of the table unique, and creating it
    again with the same request, whatever the wallet and the method configuration
    have become, answers the same invoice and writes nothing. *)
Theorem invoice_created_once (w : Ledger.store) (methods : list method_config) (l l' : list invoice)
    (new_id : string) (q : invoice_request) (i : invoice) :
  invoices_unique l -> create_invoice w methods l new_id q = Ok (l', i) ->
  invoices_unique l' /\ i ∈ l'
  /\ forall w' methods' other, create_invoice w' methods' l' other q = Ok (l', i).
Proof.
  intros [Hk Hs] H. apply create_invoice_Ok in H as (c & a & Hc & Ha & Hacc & Hcase).
  destruct (money_positive _ _ Ha) as (He & _ & Hr).
  assert (Hagain : forall l0, existing_invoice l0 (normal_terms q new_id c 0) = Some i ->
    _immutable_terms_match i (normal_terms q new_id c 0) a = true ->
    forall w' methods' other, create_invoice w' methods' l0 other q = Ok (l0, i)).
  { intros l0 Hx Hm w' methods' other.
    destruct (Hacc : terms_accepted (normal_terms q other c 0)) as (H1 & H2 & H3).
    unfold create_invoice. rewrite Hc, Ha. cbn [rbind]. cbv zeta. rewrite H1, H2, H3.
    change (existing_invoice l0 (normal_terms q other c 0)) with
      (existing_invoice l0 (normal_terms q new_id c 0)). rewrite Hx.
    change (_immutable_terms_match i (normal_terms q other c 0) a) with
      (_immutable_terms_match i (normal_terms q new_id c 0) a). by rewrite Hm. }
  destruct Hcase as [(Hx & Hm & ->)|(Hx & -> & ->)].
  - split_and!; [done| |by apply Hagain].
    unfold existing_invoice in Hx.
    destruct (List.find (by_key _) l) as [x|] eqn:Hf.
    + injection Hx as ->. apply List.find_some in Hf as [Hin _]. by apply list_elem_of_In.
    + apply List.find_some in Hx as [Hin _]. by apply list_elem_of_In.
  - destruct (existing_none _ _ Hx) as [Hnk Hns]. set (i := pending_invoice _) in *.
    split_and!; [split| |apply Hagain].
    + rewrite fmap_app. apply list.NoDup_app. split_and!; [done| |apply NoDup_singleton].
      intros k (x & -> & Hx')%list_elem_of_fmap E%list_elem_of_singleton. by apply (Hnk x Hx').
    + rewrite fmap_app. apply list.NoDup_app. split_and!; [done| |apply NoDup_singleton].
      intros k (x & -> & Hx')%list_elem_of_fmap E%list_elem_of_singleton. by apply (Hns x Hx').
    + apply elem_of_app. right. by left.
    + by apply existing_appended.
    + apply new_terms_match; [by eapply currency_upper|done|done].
Qed.

(** * Settlement *)

Lemma validate_context_get m id x i : get_invoice m id = Ok i -> forall m' i',
  get_invoice m' id = Ok i' -> iv_terms i' = iv_terms i ->
  _validate_context i x = Ok tt -> _validate_context i' x = Ok tt.
Proof. intros _ m' i' _ E. unfold _validate_context. by rewrite E. Qed.

Lemma mark_due_Ok m id x now m' i : mark_due_after_completion m id x now = Ok (m', i) ->
  exists i0, get_invoice m id = Ok i0 /\ _validate_context i0 x = Ok tt /\ get_invoice m' id = Ok i
    /\ iv_terms i = iv_terms i0 /\ iv_transaction_id i = iv_transaction_id i0
    /\ mk_wallet m' = mk_wallet m /\ mk_allocations m' = mk_allocations m
    /\ (iv_status i0 = IV_pending /\ iv_status i = IV_due
        \/ iv_status i = iv_status i0 /\ m' = m /\ iv_status i ∈ [IV_due; IV_paid; IV_cash_received]).
Proof.
  unfold mark_due_after_completion. intros H. bind H as i0 Hi. bind H as u Hv. destruct u.
  exists i0. pose proof (proj1 (get_invoice_Ok _ _ _) Hi) as Hf. apply find_invoice_elem in Hf as [_ Hid].
  destruct (iv_status i0) eqn:Hst; try done; injection H as <- <-;
    [|split_and!; try done; right; rewrite Hst; split_and!; try done; set_solver..].
  split_and!; try done; [|by left]. rewrite <- Hid in *.
  exact (get_saved m i0 (set_invoice IV_due (iv_transaction_id i0) (Some now) (iv_paid_at i0) i0) Hi).
Qed.

Section settlement.
Context `{KycService} `{FraudScorer} `{FxRates} `{PinHash}.

(** The two ways a settlement succeeds: nothing to transfer, or a verified transfer. *)
Lemma settle_cases env m id x rid m' r :
  settle_after_completion env m id x rid = (m', Ok r) ->
  exists m1 i, mark_due_after_completion m id x (we_now env) = Ok (m1, i)
    /\ ((settled_already i = Some (Ok r) /\ m' = m1)
        \/ exists payer escrow w tr, payer_account (mk_wallet m1) (iv_terms i) = Ok payer
             /\ _get_transport_escrow_account (mk_wallet m1) (it_currency (iv_terms i)) = Ok escrow
             /\ WalletService.transfer env
                  (system_transfer payer escrow (micro (it_amount (iv_terms i))) (it_currency (iv_terms i))
                     (wallet_key (it_id (iv_terms i))) (settlement_metadata (iv_terms i) escrow rid))
                  (mk_wallet m1) = Ok (w, tr)
             /\ transaction_verified i escrow (get_by_id w (WalletService.rs_transaction_id tr)) = true
             /\ record_payment env (with_wallet w m1) (it_id (iv_terms i)) (WalletService.rs_transaction_id tr)
                = (m', Ok r)).
Proof.
  unfold settle_after_completion.
  destruct (mark_due_after_completion m id x (we_now env)) as [[m1 i]|]; [|by intros [=]].
  intros Hs. exists m1, i. split; [done|]. destruct (settled_already i) as [a|].
  - injection Hs as -> ->. by left.
  - right. unfold settle_by_wallet in Hs. destruct (payer_account _ _) as [a|] eqn:Ha; [|done].
    destruct (_get_transport_escrow_account _ _) as [escrow|] eqn:He; [|done].
    destruct (WalletService.transfer _ _ _) as [[w tr]|] eqn:Ht; [|done].
    destruct (transaction_verified _ _ _) eqn:Hv; [|done]. by exists a, escrow, w, tr.
Qed.

(** The invoice after a recorded payment. *)
Lemma record_payment_Ok env m i tx m' r :
  get_invoice m (iv_id i) = Ok i -> record_payment env m (iv_id i) tx = (m', Ok r) ->
  mk_wallet m' = mk_wallet m /\ se_status r = IV_paid /\ se_transaction_id r = Some tx
  /\ exists i', get_invoice m' (iv_id i) = Ok i' /\ iv_terms i' = iv_terms i
       /\ iv_status i' = IV_paid /\ iv_transaction_id i' = Some tx.
Proof.
  intros Hg. unfold record_payment. rewrite Hg. destruct (iv_status i) eqn:Hs; try (by intros [=]).
  - intros [= <- <-]. split_and!; [done..|].
    exists (set_invoice IV_paid (Some tx) (iv_due_at i) (Some (we_now env)) i). split_and!; [|done..].
    exact (get_saved m i (set_invoice IV_paid (Some tx) (iv_due_at i) (Some (we_now env)) i) Hg).
  - case_decide; [|by intros [=]]. intros [= <- <-]. split_and!; [done..|]. by exists i.
Qed.

Lemma mark_due_id m id x now m' i : mark_due_after_completion m id x now = Ok (m', i) ->
  iv_id i = id /\ get_invoice m' (iv_id i) = Ok i.
Proof.
  intros (i0 & _ & _ & Hi & _)%mark_due_Ok.
  pose proof (proj1 (get_invoice_Ok _ _ _) Hi) as Hf. apply find_invoice_elem in Hf as [_ Hid].
  by rewrite Hid.
Qed.

(** What a settlement that reports a payment has done. *)
Lemma settle_paid env m id x rid m' r :
  settle_after_completion env m id x rid = (m', Ok r) -> se_status r = IV_paid ->
  exists i, get_invoice m' id = Ok i /\ iv_status i = IV_paid /\ iv_transaction_id i = se_transaction_id r
    /\ _validate_context i x = Ok tt.
Proof.
  intros (m1 & i & Hd & Hcase)%settle_cases Hp. destruct (mark_due_id _ _ _ _ _ _ Hd) as [Hid Hg].
  apply mark_due_Ok in Hd as (i0 & _ & Hv & Hi & Et & _).
  assert (Hvi : _validate_context i x = Ok tt) by (unfold _validate_context; by rewrite Et).
  destruct Hcase as [[Ha ->]|(payer & escrow & w & tr & _ & _ & _ & _ & Hr)].
  - exists i. unfold settled_already in Ha.
    destruct (bool_decide _) eqn:Hb; [injection Ha as <-; simpl in Hp; by split_and!|].
    destruct (String.eqb _ "cash"); [by injection Ha as <-|]. by destruct (String.eqb _ "wallet").
  - destruct (record_payment_Ok env (with_wallet w m1) i _ m' r Hg Hr)
      as (_ & _ & Etx & i' & Hi' & Et' & Hst & Eti).
    exists i'. rewrite <- Hid. split_and!; [done|done|congruence|]. unfold _validate_context in *. by rewrite Et'.
Qed.

(** ** Afterwards *)

(** An operation of the service on any invoice, with any answer, or anything else
    that happens to the wallet and to the payment methods. *)
Inductive invoice_step (m : market) : market -> Prop :=
  | step_create new_id q l i :
      create_invoice (mk_wallet m) (mk_methods m) (mk_invoices m) new_id q = Ok (l, i) ->
      invoice_step m (with_invoices l m)
  | step_due id x now m' i : mark_due_after_completion m id x now = Ok (m', i) -> invoice_step m m'
  | step_cash id x driver profile code now m' b :
      confirm_cash_receipt m id x driver profile code now = Ok (m', b) -> invoice_step m m'
  | step_settle env id x rid m' r : settle_after_completion env m id x rid = (m', r) -> invoice_step m m'
  | step_refund env id amount currency reason original suffix m' r :
      process_refund env m id amount currency reason original suffix = (m', r) -> invoice_step m m'
  | step_attempt env new_id id amount currency method m' p :
      create_payment_attempt env m new_id id amount currency method = Ok (m', p) -> invoice_step m m'
  | step_complete env attempt_id tx status m' :
      complete_payment_attempt env m attempt_id tx status = Ok m' -> invoice_step m m'
  | step_reconcile env id i : get_invoice m id = Ok i ->
      invoice_step m (save_invoice (update_invoice_status_from_allocations env m i) m)
  | step_elsewhere w methods :
      invoice_step m {| mk_wallet := w; mk_methods := methods; mk_invoices := mk_invoices m;
                        mk_attempts := mk_attempts m; mk_allocations := mk_allocations m |}.

(** The statuses from which a settlement may still transfer. *)
Definition payable (i : invoice) : bool := bool_decide (iv_status i ∈ [IV_pending; IV_due]).

Definition closed (m : market) (id : string) : Prop :=
  exists i, get_invoice m id = Ok i /\ payable i = false.

Definition keeps (m m' : market) : Prop := forall id, closed m id -> closed m' id.

Lemma keeps_invoices m m' : mk_invoices m' = mk_invoices m -> keeps m m'.
Proof. intros E id (i & Hg & Hp). exists i. split; [|done]. rewrite get_invoice_Ok, E. by apply get_invoice_Ok. Qed.

Lemma keeps_save m i i' : get_invoice m (iv_id i') = Ok i -> (payable i = false -> payable i' = false) ->
  keeps m (save_invoice i' m).
Proof.
  intros Hg Hi id (x & Hx & Hp). destruct (decide (iv_id i' = id)) as [<-|Hn].
  - exists i'. split; [by eapply get_saved|]. apply Hi. congruence.
  - exists x. split; [|done]. rewrite get_invoice_Ok in *. simpl. by rewrite find_write_other.
Qed.

Lemma keeps_row m id i i' : get_invoice m id = Ok i -> iv_terms i' = iv_terms i ->
  (payable i = false -> payable i' = false) -> keeps m (save_invoice i' m).
Proof.
  intros Hg Et Hp. apply (keeps_save m i); [|done].
  assert (Hid : iv_id i = id) by (by eapply find_invoice_elem, get_invoice_Ok).
  unfold iv_id in *. by rewrite Et, Hid.
Qed.

Lemma keeps_trans m1 m2 m3 : keeps m1 m2 -> keeps m2 m3 -> keeps m1 m3.
Proof. intros Ha Hb id Hc. by apply Hb, Ha. Qed.

Lemma payable_spec i : payable i = false <-> iv_status i <> IV_pending /\ iv_status i <> IV_due.
Proof. unfold payable. rewrite bool_decide_eq_false. destruct (iv_status i); set_solver. Qed.

Lemma keeps_due m id x now m' i : mark_due_after_completion m id x now = Ok (m', i) -> keeps m m'.
Proof.
  unfold mark_due_after_completion. intros Hd. bind Hd as i0 Hi. bind Hd as u Hv.
  destruct (iv_status i0) eqn:Hs; try done; injection Hd as <- <-; try by apply keeps_invoices.
  eapply keeps_row; [exact Hi|done|]. by intros [Hn _]%payable_spec.
Qed.

Lemma keeps_cash m id x driver profile code now m' b :
  confirm_cash_receipt m id x driver profile code now = Ok (m', b) -> keeps m m'.
Proof.
  unfold confirm_cash_receipt. intros Hc. bind Hc as i0 Hi. bind Hc as u Hv. guard Hc as Hm.
  destruct (iv_status i0) eqn:Hs; try done.
  - injection Hc as <- _. by eapply keeps_row.
  - destruct (iv_receipt i0) as [rc|]; guard Hc as Hr; injection Hc as <- _; by apply keeps_invoices.
Qed.

Lemma keeps_payment env m id tx : keeps m (record_payment env m id tx).1.
Proof.
  unfold record_payment. destruct (get_invoice m id) as [i|] eqn:Hg; [|by apply keeps_invoices].
  destruct (iv_status i); try by apply keeps_invoices.
  - by eapply keeps_row.
  - case_decide; by apply keeps_invoices.
Qed.

Lemma keeps_settle env m id x rid : keeps m (settle_after_completion env m id x rid).1.
Proof.
  unfold settle_after_completion.
  destruct (mark_due_after_completion m id x (we_now env)) as [[m1 i]|] eqn:Hd; [|by apply keeps_invoices].
  eapply keeps_trans; [by eapply keeps_due|]. destruct (settled_already i); [by apply keeps_invoices|].
  unfold settle_by_wallet. destruct (payer_account _ _); [|by apply keeps_invoices].
  destruct (_get_transport_escrow_account _ _); [|by apply keeps_invoices].
  destruct (WalletService.transfer _ _ _) as [[w tr]|]; [|by apply keeps_invoices].
  destruct (transaction_verified _ _ _); [|by apply keeps_invoices].
  eapply keeps_trans; [|apply keeps_payment]. by apply keeps_invoices.
Qed.

Lemma keeps_after_refund env m id i : get_invoice m id = Ok i -> keeps m (status_after_refund env m i).
Proof.
  intros Hg. unfold status_after_refund. cbv zeta.
  destruct (dleb _ _); [by eapply keeps_row|]. destruct (dltb _ _); by eapply keeps_row.
Qed.

Lemma insert_allocation_Ok m a m' : insert_allocation m a = Ok m' ->
  m' = with_allocations (mk_allocations m ++ [a]) m.
Proof. unfold insert_allocation. intros Hi. guard Hi as Hp. guard Hi as Hu. by injection Hi as <-. Qed.

Lemma keeps_refund env m id amount currency reason original suffix :
  keeps m (process_refund env m id amount currency reason original suffix).1.
Proof.
  unfold process_refund. destruct (rbind _ _) as [[i a]|e] eqn:Hpre; [|by apply keeps_invoices].
  bind Hpre as j Hj. bind Hpre as a1 Ha1. bind Hpre as c1 Hc1. guard Hpre as Hr1. guard Hpre as Hr2. guard Hpre as Hr3.
  injection Hpre as <- <-. destruct (_ && _); [|by eapply keeps_after_refund].
  unfold refund_by_wallet. destruct (uncaught _) as [[payer|]|]; try by apply keeps_invoices.
  destruct (_get_transport_escrow_account _ _) as [escrow|]; [|by apply keeps_invoices].
  destruct (WalletService.transfer _ _ _) as [[w tr]|]; [|by apply keeps_invoices].
  destruct (insert_allocation _ _) as [m2|] eqn:Hm2; [|by apply keeps_invoices].
  apply insert_allocation_Ok in Hm2 as ->.
  eapply keeps_trans; [|eapply keeps_after_refund; exact Hj]. by apply keeps_invoices.
Qed.

Lemma keeps_attempt env m new_id id amount currency method m' p :
  create_payment_attempt env m new_id id amount currency method = Ok (m', p) -> keeps m m'.
Proof.
  unfold create_payment_attempt. intros Hc. bind Hc as i Hi. bind Hc as a Ha. bind Hc as c Hcu.
  guard Hc as Hr1. guard Hc as Hr2. guard Hc as Hr3. bind Hc as n Hn. bind Hc as me Hme. injection Hc as <- _.
  eapply keeps_trans; [|eapply keeps_row; [exact Hi| |]]; [by apply keeps_invoices| |].
  - unfold attempt_started. by repeat case_match.
  - intros [Hn1 Hn2]%payable_spec. apply payable_spec.
    unfold attempt_started. destruct (iv_status i) eqn:Hst; try done; by rewrite Hst.
Qed.

Lemma keeps_complete env m attempt_id tx status m' :
  complete_payment_attempt env m attempt_id tx status = Ok m' -> keeps m m'.
Proof.
  unfold complete_payment_attempt. intros Hc. bind Hc as p Hp. guard Hc as Ho. case_decide; cycle 1.
  { injection Hc as <-. by apply keeps_invoices. }
  bind Hc as u Hu. bind Hc as m2 Hm2. bind Hc as i Hi. injection Hc as <-.
  unfold uncaught in Hm2. rewrite map_err_Ok in Hm2. apply insert_allocation_Ok in Hm2 as ->.
  eapply keeps_trans; [|eapply keeps_row; [exact Hi|..]]; [by apply keeps_invoices|..];
    unfold invoice_after_attempt; by destruct (dleb _ _).
Qed.

(** The reconciliation never makes an invoice due: its last case is reached with a
    positive net amount only. *)
Lemma reconciled_closed env m i : payable i = false -> payable (update_invoice_status_from_allocations env m i) = false.
Proof.
  intros Hp. unfold update_invoice_status_from_allocations. cbv zeta. set (net := net_allocated _).
  destruct (dleb net dzero) eqn:Hn; [by case_decide|].
  assert (Hpos : dltb dzero net = true).
  { apply dltb_spec. apply not_true_iff_false in Hn. rewrite dleb_spec in Hn. by apply QArith_base.Qnot_le_lt. }
  rewrite Hpos. destruct (dleb _ net); [by case_decide|]. case_decide; [done|]. by destruct (_ && _).
Qed.

Lemma step_keeps m m' : invoice_step m m' -> keeps m m'.
Proof.
  destruct 1 as [new_id q l i Hc|id x now m' i Hd|id x d p c now m' b Hc|env id x rid m' r Hs
    |env id a c re o su m' r Hr|env n id a c me m' p Hc|env aid tx st m' Hc|env id i Hg|w ms].
  - apply create_invoice_Ok in Hc as (cu & a & _ & _ & _ & [(_ & _ & ->)|(_ & _ & ->)]); [by apply keeps_invoices|].
    intros id (j & Hj & Hp). exists j. split; [|done]. rewrite get_invoice_Ok in *. simpl.
    unfold find_invoice_row in *. by rewrite find_app, Hj.
  - by eapply keeps_due.
  - by eapply keeps_cash.
  - pose proof (keeps_settle env m id x rid) as Hk. by rewrite Hs in Hk.
  - pose proof (keeps_refund env m id a c re o su) as Hk. by rewrite Hr in Hk.
  - by eapply keeps_attempt.
  - by eapply keeps_complete.
  - eapply keeps_row; [exact Hg| |apply reconciled_closed].
    unfold update_invoice_status_from_allocations. repeat case_match; done.
  - by apply keeps_invoices.
Qed.

(** Settling an invoice that is closed. *)
Lemma settle_closed env m id x rid i : get_invoice m id = Ok i -> payable i = false ->
  exists a, settle_after_completion env m id x rid = (m, a)
    /\ ((exists e, a = Err e)
        \/ a = Ok {| se_status := iv_status i; se_transaction_id := iv_transaction_id i; se_already_processed := true |}).
Proof.
  intros Hg [Hn1 Hn2]%payable_spec. unfold settle_after_completion, mark_due_after_completion. rewrite Hg. cbn [rbind].
  destruct (_validate_context i x); cbn [rbind]; [|eauto].
  destruct (iv_status i) eqn:Hs; try done; eauto; unfold settled_already; rewrite Hs, bool_decide_eq_true_2 by set_solver;
    eauto.
Qed.

(** C11: once a settlement has reported an invoice paid, then after any operations
    of the invoice service, with any answers, and any change of the wallet, settling
    it again with any context and request id moves no money and writes nothing: it
    answers that the invoice was already processed, or an error. As long as the row
    of the invoice is as the settlement left it, the same context is answered the
    same transaction. *)
Theorem settled_once env (m m' m'' : market) (id : string) (x : context) (rid : option string) (r : settlement) :
  settle_after_completion env m id x rid = (m', Ok r) -> se_status r = IV_paid ->
  rtc invoice_step m' m'' ->
  forall env' x' rid', exists a, settle_after_completion env' m'' id x' rid' = (m'', a)
    /\ ((exists e, a = Err e) \/ exists s, a = Ok s /\ se_already_processed s = true)
    /\ (get_invoice m'' id = get_invoice m' id -> x' = x ->
        a = Ok {| se_status := IV_paid; se_transaction_id := se_transaction_id r; se_already_processed := true |}).
Proof.
  intros Hset Hp Hrtc env' x' rid'. destruct (settle_paid _ _ _ _ _ _ _ Hset Hp) as (i & Hi & Hs & Ht & Hv).
  assert (Hc : closed m'' id).
  { assert (Hc : closed m' id) by (exists i; split; [done|by apply payable_spec; rewrite Hs]).
    clear -Hc Hrtc. induction Hrtc as [|? ? ? Hst _ IH]; [done|]. by apply IH, (step_keeps _ _ Hst). }
  destruct Hc as (i'' & Hi'' & Hp''). destruct (settle_closed env' m'' id x' rid' i'' Hi'' Hp'') as (a & Ha & Hcase).
  exists a. split; [done|]. split; [destruct Hcase as [?| ->]; [by left|right; eauto]|].
  intros E ->. rewrite E, Hi in Hi''. injection Hi'' as <-.
  unfold settle_after_completion, mark_due_after_completion in Ha. rewrite E, Hi in Ha. cbn [rbind] in Ha.
  rewrite Hv in Ha. cbn [rbind] in Ha. rewrite Hs in Ha. unfold settled_already in Ha.
  rewrite Hs, Ht, bool_decide_eq_true_2 in Ha by set_solver. congruence.
Qed.

(** ** Where the money goes *)

Lemma payer_account_Ok w t a : payer_account w t = Ok a ->
  a ∈ st_accounts w /\ ac_user_id a = Some (it_payer_user_id t) /\ ac_currency a = it_currency t.
Proof.
  unfold payer_account. intros Hp. bind Hp as o Ho. bind Hp as b Hb. inv_ok Hb. subst o.
  guard Hp as Hq1. guard Hp as Hq2. injection Hp as <-.
  unfold uncaught in Ho. rewrite map_err_Ok in Ho. unfold AccountRepository.get_by_user_id in Ho.
  guard Ho as Hpos.
  assert (Hin : forall y, y ∈ List.filter (fun a => bool_decide (ac_user_id a = Some (it_payer_user_id t))
                 && String.eqb (ac_currency a) (it_currency t)) (st_accounts w) ->
    y ∈ st_accounts w /\ ac_user_id y = Some (it_payer_user_id t) /\ ac_currency y = it_currency t).
  { intros y Hy. rewrite list_elem_of_In, List.filter_In, <- list_elem_of_In in Hy.
    rewrite andb_true_iff, bool_decide_eq_true, String.eqb_eq in Hy. naive_solver. }
  destruct (List.filter _ _) as [|y [|]]; [done| |done]. injection Ho as ->. apply Hin. by left.
Qed.

Lemma escrow_account_Ok w c a : _get_transport_escrow_account w c = Ok a ->
  a ∈ st_accounts w /\ escrow_row c a = true /\ ac_currency a = c.
Proof.
  unfold _get_transport_escrow_account. rewrite of_option_Ok.
  intros [Hin%list_elem_of_In He]%List.find_some. split_and!; [done|done|].
  unfold escrow_row in He. rewrite !andb_true_iff, !String.eqb_eq in He. apply He.
Qed.

Lemma account_by_id w a b : NoDup (ac_id <$> st_accounts w) -> a ∈ st_accounts w ->
  AccountRepository.get_by_id w (ac_id a) = Some b -> b = a.
Proof.
  intros Hnd Hin [Hb E]%get_account_Some.
  apply list_elem_of_lookup in Hin as [i Hi]. apply list_elem_of_lookup in Hb as [j Hj].
  assert (i = j) as ->; [|congruence].
  eapply (NoDup_lookup (ac_id <$> st_accounts w)); [done|by rewrite list_lookup_fmap, Hi|].
  rewrite list_lookup_fmap, Hj. simpl. by rewrite E.
Qed.

(** What a transfer between two accounts of one currency does to every balance. *)
Definition moves_money (w w' : Ledger.store) (from to : account) (n : Z) : Prop :=
  forall k c, balance w' k c = balance w k c
    + (if String.eqb (ac_id to) k && String.eqb (ac_currency to) c then n else 0)
    - (if String.eqb (ac_id from) k && String.eqb (ac_currency from) c then n else 0).

(** A transfer without a fee between accounts of one currency moves its amount, or
    answers a transaction already booked and moves nothing. *)
Lemma system_transfer_moves env from to amount0 currency key md w w' tr :
  NoDup (ac_id <$> st_accounts w) -> from ∈ st_accounts w -> to ∈ st_accounts w ->
  ac_currency from = ac_currency to ->
  WalletService.transfer env (system_transfer from to amount0 currency key md) w = Ok (w', tr) ->
  exists amount, WalletService._quantize amount0 = Ok amount
    /\ (st_entries w' = st_entries w \/ moves_money w w' from to (to_micro amount)).
Proof.
  intros Hnd Hf Ht Hc Hop. apply transfer_cases in Hop as (us & amount & f & t & Hq & Hd & _ & Hgf & Hgt & Hcase).
  apply (account_by_id _ _ _ Hnd Hf) in Hgf. apply (account_by_id _ _ _ Hnd Ht) in Hgt. subst f t.
  exists amount. split; [done|].
  destruct Hcase as [(tx & _ & _ & _ & -> & _)|(_ & tm & s1 & tx & Hchk & Hcl & Hs)]; [by left|].
  pose proof (claims_frame _ _ _ _ _ Hcl) as [E _].
  destruct Hs as [_ [(_ & -> & _)|(_ & Hb & _)]]; [left; exact E|right].
  apply transfer_checks_Ok in Hchk as (_ & _ & Htm & _); [|done].
  apply transfer_terms_Ok in Htm as (Edc & Ecc & _ & _ & Esame); [|done]. destruct (Esame Hc) as [Ed Ec].
  intros k c. rewrite (booked_balance _ _ _ _ _ k c Hb).
  assert (Eb : balance s1 k c = balance w k c) by (by apply balance_entries).
  rewrite Eb. unfold WalletService.transfer_entries, posted. simpl.
  rewrite Edc, Ecc, Ed, Ec. destruct (_ && _), (_ && _); simpl; lia.
Qed.

(** C15: a settlement that reports an invoice paid through the wallet found a
    completed transfer from the payer to the owner of the escrow account, recorded
    for this invoice and that account, in the invoice's currency and equal to the
    invoice's amount in hundredths; and it moved exactly that amount, rounded down to hundredths, from the
    payer's account to the escrow account and between no others, or, when the
    transfer had been booked before, nothing. *)
Theorem settlement_moves_fare env (m m' : market) (id : string) (x : context) (rid : option string)
    (r : settlement) (i0 : invoice) :
  NoDup (ac_id <$> st_accounts (mk_wallet m)) ->
  get_invoice m id = Ok i0 -> iv_status i0 ∈ [IV_pending; IV_due] ->
  it_payment_method (iv_terms i0) = "wallet"%string ->
  settle_after_completion env m id x rid = (m', Ok r) ->
  exists payer escrow t amount n, payer ∈ st_accounts (mk_wallet m) /\ escrow ∈ st_accounts (mk_wallet m)
    /\ ac_user_id payer = Some (it_payer_user_id (iv_terms i0))
    /\ escrow_row (it_currency (iv_terms i0)) escrow = true
    /\ se_status r = IV_paid /\ se_transaction_id r = Some n /\ get_by_id (mk_wallet m') n = Some t
    /\ tx_status t = TransactionStatus.COMPLETED /\ tx_type t = TransactionType.TRANSFER
    /\ (exists q, two_decimals (tx_amount t) = Ok q /\ same_amount (iv_amount i0) q = true)
    /\ upper (tx_currency t) = it_currency (iv_terms i0) /\ tx_user_id t = Some (it_payer_user_id (iv_terms i0))
    /\ tx_recipient_user_id t = ac_user_id escrow /\ ac_user_id escrow <> None
    /\ json_get (tx_metadata t) "marketplace_invoice_id" = JStr id
    /\ json_get (tx_metadata t) "escrow_account_id" = JStr (ac_id escrow)
    /\ WalletService._quantize (micro (iv_amount i0)) = Ok amount
    /\ (st_entries (mk_wallet m') = st_entries (mk_wallet m)
        \/ moves_money (mk_wallet m) (mk_wallet m') payer escrow (to_micro amount)).
Proof.
  intros Hnd Hg0 Hs0 Hw (m1 & i & Hd & Hcase)%settle_cases.
  destruct (mark_due_id _ _ _ _ _ _ Hd) as [Hid Hg].
  apply mark_due_Ok in Hd as (j & Hj & _ & Hi & Et & _ & Ew & _ & Hst).
  rewrite Hg0 in Hj. injection Hj as <-.
  assert (Hdue : iv_status i = IV_due).
  { destruct Hst as [[_ ?]|(E & _ & Hin)]; [done|]. rewrite E in Hin |- *. destruct (iv_status i0); set_solver. }
  destruct Hcase as [[Ha ->]|(payer & escrow & w & tr & Hp & He & Htr & Hv & Hr)].
  { unfold settled_already in Ha. rewrite Hdue, Et, Hw in Ha. by rewrite bool_decide_eq_false_2 in Ha by set_solver. }
  rewrite Ew, Et in *. destruct (payer_account_Ok _ _ _ Hp) as (Hpin & Hpu & Hpc).
  destruct (escrow_account_Ok _ _ _ He) as (Hein & Hrow & Hec).
  destruct (system_transfer_moves _ _ _ _ _ _ _ _ _ _ Hnd Hpin Hein ltac:(congruence) Htr) as (amount & Hq & Hmv).
  change (it_id (iv_terms i0)) with (iv_id i0) in Hr.
  assert (Eid : iv_id i0 = iv_id i) by (unfold iv_id; by rewrite Et). rewrite Eid in Hr.
  destruct (record_payment_Ok env (with_wallet w m1) i _ m' r Hg Hr) as (Ew' & Es & Etx & _).
  unfold transaction_verified in Hv.
  destruct (get_by_id w (WalletService.rs_transaction_id tr)) as [t|] eqn:Ht; [|done].
  rewrite !andb_true_iff, !bool_decide_eq_true, String.eqb_eq in Hv.
  destruct Hv as ((((((((Hv1 & Hv2) & Hv3) & Hv4) & Hv5) & Hv6) & Hv7) & Hv8) & Hv9). rewrite Ew'. simpl.
  exists payer, escrow, t, amount, (WalletService.rs_transaction_id tr).
  rewrite Et in Hv4, Hv5. rewrite Hid in Hv8. rewrite Hv7 in Hv6.
  split_and!; try done; [|by intros E; rewrite E in Hv6].
  destruct (two_decimals (tx_amount t)) as [q|] eqn:Hq1; [|done]. exists q. split; [done|].
  unfold same_amount, iv_amount in *. rewrite Et in Hv3. destruct (two_decimals (it_amount _)) as [q'|]; [|done].
  rewrite deqb_spec in *. by symmetry.
Qed.

(** * Refunds *)

(** Refunding an invoice paid through the wallet never completes: once the
    transfer to the payer is committed, the allocation that records it is refused
    by the constraint of its table, so the invoice keeps its status and the refund
    can be asked for again. *)
Theorem wallet_refund_never_completes env (m m' : market) (id currency reason suffix : string) (amount : dec)
    (original : option string) (i : invoice) :
  get_invoice m id = Ok i -> it_payment_method (iv_terms i) = "wallet"%string ->
  iv_status i <> IV_cash_received ->
  process_refund env m id amount currency reason original suffix <> (m', Ok tt)
  /\ mk_invoices (process_refund env m id amount currency reason original suffix).1 = mk_invoices m
  /\ mk_allocations (process_refund env m id amount currency reason original suffix).1 = mk_allocations m.
Proof.
  intros Hg Hw Hc. unfold process_refund.
  destruct (rbind _ _) as [[j a]|e] eqn:Hpre; [|done].
  bind Hpre as i1 Hi1. rewrite Hg in Hi1. injection Hi1 as <-. bind Hpre as a1 Ha1. bind Hpre as c1 Hc1.
  guard Hpre as Hr1. guard Hpre as Hr2. guard Hpre as Hr3. injection Hpre as <- <-.
  rewrite Hw, bool_decide_eq_false_2 by done. simpl.
  unfold refund_by_wallet. destruct (uncaught _) as [[payer|]|]; [|done..].
  destruct (_get_transport_escrow_account _ _) as [escrow|]; [|done].
  destruct (WalletService.transfer _ _ _) as [[w tr]|]; [|done].
  destruct (money_positive _ _ Ha1) as (He & Hpos & _).
  unfold insert_allocation. simpl. rewrite to_micro_cents by done.
  replace (0 <? - (coef a1 * 10000)) with false; [done|]. symmetry. apply Z.ltb_ge. lia.
Qed.

(** * Payment attempts *)

Lemma micro_repr n : Z.abs n < MICRO_MAX -> repr (micro n).
Proof. intros Hn. unfold repr. simpl. etrans; [exact Hn|]. done. Qed.

(** One allocation, counted once more. *)
Lemma counted_twice a : 0 <= a < MICRO_MAX -> dadd (dadd dzero (micro a)) (micro a) ≃ micro (2 * a).
Proof.
  intros Ha.
  assert (Ez : add_exact dzero (micro a) = micro a).
  { unfold add_exact, common_exp, at_exp, dzero, dint, micro. cbn [coef dexp].
    change (Z.min 0 (-6)) with (-6). change (pow10 (-6 - -6)) with 1.
    rewrite Z.mul_0_l, Z.add_0_l, Z.mul_1_r. done. }
  assert (E : dadd dzero (micro a) = micro a).
  { unfold dadd. rewrite Ez. apply fix_exact, micro_repr. lia. }
  rewrite E, dadd_same; [|done|].
  - simpl. unfold micro. replace (a + a) with (2 * a) by lia. reflexivity.
  - simpl. assert (2 * MICRO_MAX < pow10 prec) by done. lia.
Qed.

(** A payment attempt that succeeds on an invoice with no earlier payment marks
    it paid as soon as twice the attempt covers the amount: half of the fare is
    enough, because the allocation is counted from its table and once more. *)
Theorem half_payment_marks_paid env (m m' : market) (attempt_id : string) (tx : Z) (p : payment_attempt)
    (i : invoice) :
  List.find (fun r => String.eqb (pa_id r) attempt_id) (mk_attempts m) = Some p ->
  get_invoice m (pa_invoice_id p) = Ok i -> allocations_of m (iv_id i) = [] ->
  pa_amount p < MICRO_MAX ->
  complete_payment_attempt env m attempt_id tx AT_succeeded = Ok m' ->
  exists i', get_invoice m' (iv_id i) = Ok i'
    /\ (iv_status i' = IV_paid <-> iv_amount i <= 2 * pa_amount p)
    /\ (iv_status i' = IV_partially_paid <-> 2 * pa_amount p < iv_amount i).
Proof.
  intros Hp Hg Hno Hmax Hc. unfold complete_payment_attempt in Hc. bind Hc as q Hq. inv_ok Hq.
  rewrite Hp in Hq. injection Hq as <-. guard Hc as Hopen. cbv zeta in Hc.
  rewrite decide_True in Hc by done. bind Hc as u Hu. bind Hc as m2 Hm2. bind Hc as j Hj. injection Hc as <-.
  unfold uncaught in Hm2. rewrite map_err_Ok in Hm2. unfold insert_allocation in Hm2.
  guard Hm2 as Hpos. guard Hm2 as Huniq. injection Hm2 as <-. simpl in Hpos. apply Z.ltb_lt in Hpos.
  assert (Hid : iv_id i = pa_invoice_id p) by (apply get_invoice_Ok, find_invoice_elem in Hg; apply Hg).
  assert (j = i) as ->. { rewrite get_invoice_Ok in Hj, Hg. simpl in Hj. congruence. }
  set (m2 := with_allocations _ _) in *.
  set (i' := invoice_after_attempt env m2 i (pa_amount p) tx). exists i'.
  assert (Hsum : sum_allocated (allocations_of m2 (iv_id i)) = dadd dzero (micro (pa_amount p))).
  { unfold allocations_of, m2. simpl. rewrite List.filter_app.
    change (List.filter _ (mk_allocations m)) with (allocations_of m (iv_id i)). rewrite Hno. simpl.
    by rewrite Hid, String.eqb_refl. }
  assert (Hle : dleb (micro (iv_amount i)) (dadd (sum_allocated (allocations_of m2 (iv_id i))) (micro (pa_amount p)))
    = (iv_amount i <=? 2 * pa_amount p)).
  { pose proof (counted_twice (pa_amount p) ltac:(lia)) as Htwice. rewrite Hsum. apply eq_true_iff_eq.
    rewrite dleb_spec, Htwice, dle_coef by done. by rewrite Z.leb_le. }
  assert (Hst : iv_status i' = if iv_amount i <=? 2 * pa_amount p then IV_paid else IV_partially_paid).
  { unfold i', invoice_after_attempt. cbv zeta. rewrite Hle. by destruct (iv_amount i <=? _). }
  split.
  - assert (E : iv_id i' = iv_id i) by (unfold i', invoice_after_attempt; cbv zeta; by destruct (dleb _ _)).
    rewrite <- E. apply (get_saved m2 i i'). rewrite E, Hid. exact Hj.
  - rewrite Hst. destruct (Z.leb_spec (iv_amount i) (2 * pa_amount p)); split; split; intros; try done; lia.
Qed.

End settlement.
