(* ===== verification/RidePaymentLaws.v ===== *)
(** The composition of a converted ride with its payment: the invoice of a ride
    names its request, transport asks for the booking, and the two never meet. *)

From S2P Require Import Prelude Tables Decimal Ledger KycLimits WalletService InvoiceModel Invoices InvoiceLaws.
From S2P Require Import TripModel Trips TripLaws RideDispatch RideLaws RideAccept RideRequests.
From S2P Require Import TransportHistory TransportTheorems RidePayment.

Local Open Scope Z_scope.

Import MarketplaceInvoiceService PaymentService.

(** * Stripping twice *)

Lemma rstrip_rstrip s : rstrip (rstrip s) = rstrip s.
Proof.
  induction s as [|c s IH]; [done|]. simpl. destruct (rstrip s) as [|c' s'] eqn:E.
  - destruct (is_space c) eqn:Hc; [done|]. simpl. by rewrite Hc.
  - simpl in *. by rewrite IH.
Qed.

Lemma rstrip_head c s : is_space c = false -> exists s', rstrip (String c s) = String c s'.
Proof. intros Hc. simpl. destruct (rstrip s) as [|c' s'']; [rewrite Hc|]; by eexists. Qed.

Lemma strip_strip s : strip (strip s) = strip s.
Proof.
  unfold strip. assert (E : lstrip (rstrip (lstrip s)) = rstrip (lstrip s)); [|by rewrite E, rstrip_rstrip].
  induction s as [|c s IH]; [done|]. simpl lstrip at 2 3. destruct (is_space c) eqn:Hc; [done|].
  destruct (rstrip_head c s Hc) as [s' ->]. simpl. by rewrite Hc.
Qed.

(** * Refusals *)

(** An invoice of another service reference is refused by every operation that
    names the booking. *)
Lemma context_refused i x : it_service_reference (iv_terms i) <> strip (cx_service_reference x) ->
  exists e, _validate_context i x = Err e.
Proof.
  intros Hn. unfold _validate_context. destruct (_money (cx_amount x)) as [a|e]; [|by exists e].
  destruct (_currency (cx_currency x)) as [c|e]; [|by exists e]. simpl.
  rewrite (proj2 (String.eqb_neq _ _) Hn), andb_false_r. by eexists.
Qed.

Lemma key_elem (l : list invoice) i j : invoices_unique l -> i ∈ l -> j ∈ l -> idem_key i = idem_key j -> i = j.
Proof.
  intros [Hk _] Hi Hj E. apply list_elem_of_lookup in Hi as [a Ha]. apply list_elem_of_lookup in Hj as [c Hc].
  assert (a = c) as ->; [|congruence].
  eapply (NoDup_lookup (idem_key <$> l)); [done|by rewrite list_lookup_fmap, Ha|].
  rewrite list_lookup_fmap, Hc. simpl. by rewrite E.
Qed.

Lemma create_with_other_reference w methods l new_id q i :
  invoices_unique l -> i ∈ l -> strip (nq_idempotency_key q) = idem_key i ->
  it_service_reference (iv_terms i) <> strip (nq_service_reference q) ->
  exists e, create_invoice w methods l new_id q = Err e.
Proof.
  intros Hu Hi Hk Hn. destruct (create_invoice w methods l new_id q) as [[l' j]|e] eqn:H; [|by exists e].
  exfalso. apply create_invoice_Ok in H as (c & a & _ & _ & _ & Hcase).
  assert (Hx : existing_invoice l (normal_terms q new_id c 0) = Some i).
  { unfold existing_invoice. simpl. rewrite Hk.
    destruct (List.find (by_key (idem_key i)) l) as [x|] eqn:Hf.
    - apply List.find_some in Hf as [Hx%list_elem_of_In E]. unfold by_key in E. apply String.eqb_eq in E.
      f_equal. by apply (key_elem l).
    - assert (Hf' := List.find_none _ _ Hf i (proj1 (list_elem_of_In _ _) Hi)). unfold by_key, idem_key in Hf'.
      by rewrite String.eqb_refl in Hf'. }
  destruct Hcase as [(Hj & Hm & _)|(Hj & _)]; rewrite Hx in Hj; [|done]. injection Hj as <-.
  unfold _immutable_terms_match in Hm. rewrite !andb_true_iff in Hm.
  destruct Hm as [[[[[[[[_ E] _] _] _] _] _] _] _]. apply String.eqb_eq in E. by apply Hn.
Qed.

Section payment.
Context `{KycService} `{FraudScorer} `{FxRates} `{PinHash}.

Lemma booking_payment_refused env m b i price new_id rid d :
  invoices_unique (mk_invoices m) -> get_invoice m (iv_id i) = Ok i -> iv_id i <> ""%string ->
  strip (idem_key i) = idem_key i -> it_service_reference (iv_terms i) <> strip (reference b) ->
  (exists e, process_payment env m b (Some (iv_id i)) price new_id rid = (m, Err e))
  /\ exists e, confirm_cash env m b (Some (iv_id i)) price d new_id = Err e.
Proof.
  intros Hu Hg Hne Hk Hn. apply String.eqb_neq in Hne. split.
  - unfold process_payment, _ensure_wallet_invoice_for_booking, invoice_key. rewrite Hne, Hg. simpl.
    match goal with |- context [create_invoice ?w ?ms ?l ?id ?q] =>
      destruct (create_with_other_reference w ms l id q i) as [e He] end; [done| |done|done|].
    { apply get_invoice_Ok, find_invoice_elem in Hg as [Hin _]. done. }
    rewrite He. by exists e.
  - unfold confirm_cash, cash_invoice. rewrite Hne, Hg. simpl.
    unfold mark_due_after_completion. rewrite Hg. simpl.
    destruct (context_refused i (booking_context b price (ti_currency (tb_info b)))) as [e He]; [done|].
    rewrite He. by exists e.
Qed.

Context `{Hrank : Ranker}.

(** A ride that was converted from a request can never be paid: its invoice
    names the request, the settlement and the driver's cash confirmation name the
    booking, so both refuse, whatever the price, and no money moves. *)
Theorem converted_ride_unpayable env (m m' : TripModel.store) (mk : market) (public_id : string) (d v : Z)
    (who : AssignmentService.actor) (new_ref : string) (now id : Z) (b : trip) (r : ride_request) (inv : string) :
  transport_sound m ->
  RideRequestDispatchService.accept_offer m public_id d v who new_ref now = (m', Ok id) ->
  b ∈ st_trips m' -> tid b = id ->
  RideRequestDispatchService.request_by_public_id m public_id = Some r ->
  rr_wallet_invoice_id r = Some inv -> inv <> ""%string ->
  mk_invoices mk = st_invoices m -> invoices_unique (st_invoices m) ->
  (forall i, i ∈ st_invoices m -> strip (idem_key i) = idem_key i) ->
  strip new_ref <> public_id ->
  forall price new_id rid drv,
    (exists e, process_payment env mk b (Some inv) price new_id rid = (mk, Err e))
    /\ exists e, confirm_cash env mk b (Some inv) price drv new_id = Err e.
Proof.
  intros Hs Ha Hb Hid Hr Hinv Hne Hmk Hu Hstrip Href price new_id rid drv.
  destruct (accept_offer_sound m public_id d v who new_ref now (proj1 Hs) (proj2 Hs)) as [Ht' _].
  rewrite Ha in Ht'. simpl in Ht'.
  destruct (accept_offer_Ok _ _ _ _ _ _ _ _ _ Ha) as (r' & c & a & Hacc & Hcur).
  pose proof (ac_request _ _ _ _ _ _ _ _ Hacc) as Hr'. rewrite Hr in Hr'. injection Hr' as <-.
  destruct (accept_current_Ok _ _ _ _ _ _ _ _ _ Hcur) as (amount & cur & i0 & _ & _ & _ & Hw & Hconv).
  assert (Hts : trips_sound (RideRequestDispatchService.in_flight m r c a now)).
  { eapply trips_sound_frame; [..|exact (proj1 Hs)]; done. }
  destruct (convert_booking _ _ _ _ _ _ _ _ _ _ _ _ Hts Hconv) as (Eid & Hnew & _).
  assert (Eref : reference b = new_ref).
  { eapply (key_unique tid (st_trips m') b) in Hnew as ->; [done|apply Ht'|done|]. rewrite Hid, Eid. done. }
  unfold RideRequestDispatchService.wallet_invoice in Hw. rewrite Hinv in Hw.
  rewrite (proj2 (String.eqb_neq _ _) Hne) in Hw. bind Hw as i Hi. bind Hw as bad Hbad. guard Hw as Hok.
  apply of_option_Ok in Hi. simpl in Hi. destruct (find_invoice_elem _ _ _ Hi) as [Hin Eii].
  assert (Esr : it_service_reference (iv_terms i) = public_id).
  { unfold RideRequestDispatchService.invoice_mismatch in Hbad.
    destruct (String.eqb (it_service_code (iv_terms i)) "transport"
              && String.eqb (it_service_reference (iv_terms i)) (rr_public_id r)
              && (it_payer_user_id (iv_terms i) =? rr_user_id r)) eqn:Hm;
      [|injection Hbad as Eb; rewrite <- Eb in Hok; discriminate Hok].
    rewrite !andb_true_iff, !String.eqb_eq in Hm. destruct Hm as [[_ ->] _].
    by destruct (request_by_public_id_spec _ _ _ Hr). }
  rewrite <- Eii. apply booking_payment_refused.
  - by rewrite Hmk.
  - apply get_invoice_Ok. by rewrite Hmk, Eii.
  - by rewrite Eii.
  - by apply Hstrip.
  - rewrite Esr, Eref. congruence.
Qed.
End payment.
