(* ===== verification/InvoiceSample.v ===== *)
(** Concrete runs of the invoices: the theorems of InvoiceLaws.v at a rider with
    20000 in the wallet and an invoice of 5000, and the refund that moves money
    without ever completing. *)

From S2P Require Import Prelude Tables Decimal DecimalLaws Ledger LedgerLaws RegulatoryVolume KycLimits.
From S2P Require Import WalletService WalletLaws WalletSample InvoiceModel Invoices InvoiceLaws.

Local Open Scope Z_scope.

Import MarketplaceInvoiceService.
Import LedgerRepository(balance).
Import TransactionRepository(get_by_id).

#[local] Instance tiers : KycTiers := fun _ => 2.
#[local] Instance fraud : FraudScorer := fun _ _ _ _ _ _ => "allow"%string.
#[local] Instance pins : PinHash := String.eqb.
#[local] Instance rates : FxRates := fun _ _ _ => Ok (dint 3800).

(** The rider has no PIN; the platform holds an escrow account for transport. *)
Definition escrow_account : account := {|
  ac_info := {| ai_id := "E"; ai_owner_type := "platform"; ai_user_id := Some 99;
                ai_organisation_id := None; ai_currency := "UGX";
                ai_monthly_volume_limit := None; ai_status := "active";
                ai_account_type := "escrow"; ai_platform_account := true;
                ai_service_type := Some "transport"%string |};
  ac_is_frozen := false;
  ac_frozen_reason := None;
  ac_frozen_at := None;
  ac_daily_volume := 0;
  ac_daily_volume_reset_at := None;
  ac_monthly_volume := 0;
  ac_monthly_volume_reset_at := None;
|}.

Definition rider : pin_user := {|
  us_id := 1; us_pin_hash := None; us_pin_failed_attempts := 0; us_pin_locked_until := None;
|}.

Definition purse : Ledger.store := {|
  st_accounts := [open_account "A" 1 "UGX"; escrow_account];
  st_transactions := [];
  st_entries := [];
  st_commissions := [];
  st_users := [rider; user 99];
  st_next_tx := 1;
|}.

Definition funded_purse : Ledger.store :=
  match WalletService.deposit (session 1) (deposit_of "A" "k1" "UGX" 20000) purse with
  | Ok p => p.1
  | Err _ => purse
  end.

Definition method (id : string) : method_config := {|
  pm_method_id := id;
  pm_is_enabled := true;
  pm_is_active := true;
  pm_marketplace_collection_implemented := true;
  pm_supported_currencies := ["UGX"]%string;
  pm_allowed_timings := ["pay_on_completion"; "pay_now"]%string;
  pm_country_code := "";
  pm_min_amount := None;
  pm_max_amount := None;
|}.

Definition methods : list method_config := [method "cash"; method "wallet"].

Definition fare_request : invoice_request := {|
  nq_idempotency_key := " transport-ride:1:k ";
  nq_service_code := "Transport";
  nq_service_reference := "REQ-1";
  nq_payer_user_id := 1;
  nq_amount := dint 5000;
  nq_currency := "ugx";
  nq_payment_method := "wallet";
  nq_settlement_timing := "pay_on_completion";
  nq_service_country_code := None;
  nq_payer_country_code := None;
|}.

Definition made : list invoice * invoice :=
  match create_invoice funded_purse methods [] "I1" fare_request with
  | Ok p => p
  | Err _ => ([], pending_invoice (normal_terms fare_request "" "" 0))
  end.

Lemma made_ok : create_invoice funded_purse methods [] "I1" fare_request = Ok (made.1, made.2).
Proof. vm_compute. reflexivity. Qed.

Lemma no_invoices_unique : invoices_unique [].
Proof. split; constructor. Qed.

Lemma invoice_created_once_witness :
  invoices_unique made.1 /\ create_invoice purse [] made.1 "I2" fare_request = Ok (made.1, made.2).
Proof.
  destruct (invoice_created_once funded_purse methods [] made.1 "I1" fare_request made.2
              no_invoices_unique made_ok) as (Hu & _ & Hagain).
  split; [exact Hu|exact (Hagain purse [] "I2"%string)].
Defined.

(** ** Settlement *)

Definition stall : market := {|
  mk_wallet := funded_purse;
  mk_methods := methods;
  mk_invoices := made.1;
  mk_attempts := [];
  mk_allocations := [];
|}.

Definition fare_context : context := {|
  cx_payer_user_id := 1;
  cx_service_code := "transport";
  cx_service_reference := "REQ-1";
  cx_amount := dint 5000;
  cx_currency := "UGX";
|}.

Definition settling : market * result invoice_error settlement :=
  settle_after_completion (session 1) stall "I1" fare_context None.

Definition paid_answer : settlement :=
  {| se_status := IV_paid; se_transaction_id := Some 2; se_already_processed := false |}.

Lemma settling_ok : settle_after_completion (session 1) stall "I1" fare_context None
  = (settling.1, Ok paid_answer).
Proof.
  assert (E : settling.2 = Ok paid_answer) by (vm_compute; reflexivity).
  change (settling = (settling.1, Ok paid_answer)). rewrite <- E. by destruct settling.
Qed.

Example settled_balances :
  (balance (mk_wallet settling.1) "A" "UGX", balance (mk_wallet settling.1) "E" "UGX")
  = (15000000000, 5000000000).
Proof. vm_compute. reflexivity. Qed.

Lemma purse_ids : NoDup (ac_id <$> st_accounts (mk_wallet stall)).
Proof. vm_compute. repeat constructor; set_solver. Qed.

Lemma fare_found : get_invoice stall "I1" = Ok made.2.
Proof. vm_compute. reflexivity. Qed.

Lemma fare_pending : iv_status made.2 ∈ [IV_pending; IV_due].
Proof. vm_compute. left. Qed.

Lemma fare_by_wallet : it_payment_method (iv_terms made.2) = "wallet"%string.
Proof. vm_compute. reflexivity. Qed.

Lemma settlement_moves_fare_witness :
  exists payer escrow amount, moves_money (mk_wallet stall) (mk_wallet settling.1) payer escrow (to_micro amount)
    /\ WalletService._quantize (micro (iv_amount made.2)) = Ok amount.
Proof.
  destruct (settlement_moves_fare (session 1) stall settling.1 "I1" fare_context None paid_answer made.2
              purse_ids fare_found fare_pending fare_by_wallet settling_ok)
    as (payer & escrow & t & amount & n & _ & _ & _ & _ & _ & _ & _ & _ & _ & Ham & _ & _ & _ & _ & _ & _ & Hq & [Hsame|Hm]).
  - exfalso. apply (f_equal length) in Hsame. vm_compute in Hsame. discriminate Hsame.
  - exists payer, escrow, amount. split; [exact Hm|exact Hq].
Defined.

(** ** The refund *)

Definition refund (m : market) (suffix : string) : market * result invoice_error unit :=
  process_refund (session 1) m "I1" (dint 1000) "UGX" "complaint" None suffix.

(** An invoice with a recorded payment, as a payment attempt leaves it. *)
Definition allocated : market :=
  with_allocations [{| al_transaction_id := 2; al_invoice_id := "I1"; al_amount := 5000000000;
                       al_currency := "UGX" |}] settling.1.

Definition refunded_once : market := (refund allocated "r1").1.

(** Two refunds of 1000: each answers an error, each pays the rider, and the invoice
    stays paid with its allocation unchanged. *)
Example refunds_paid_without_record :
  (balance (mk_wallet allocated) "A" "UGX",
   balance (mk_wallet refunded_once) "A" "UGX",
   balance (mk_wallet (refund refunded_once "r2").1) "A" "UGX",
   (refund allocated "r1").2, (refund refunded_once "r2").2,
   mk_allocations (refund refunded_once "r2").1)
  = (15000000000, 16000000000, 17000000000, Err (Uncaught IntegrityError), Err (Uncaught IntegrityError),
     mk_allocations allocated).
Proof. vm_compute. reflexivity. Qed.

Definition paid_invoice : invoice :=
  match get_invoice allocated "I1" with Ok i => i | Err _ => made.2 end.

Lemma paid_found : get_invoice allocated "I1" = Ok paid_invoice.
Proof. vm_compute. reflexivity. Qed.

Lemma wallet_refund_never_completes_witness : (refund allocated "r1").2 <> Ok tt.
Proof.
  destruct (wallet_refund_never_completes (session 1) allocated (refund allocated "r1").1 "I1" "UGX" "complaint"
              "r1" (dint 1000) None paid_invoice paid_found ltac:(vm_compute; reflexivity) ltac:(vm_compute; discriminate)) as [Hn _].
  intros E. apply Hn. unfold refund in *. rewrite <- E. by destruct (process_refund _ _ _ _ _ _ _ _).
Defined.

(** ** An attempt of half the fare *)

Definition half_attempt : payment_attempt := {|
  pa_id := "P1"; pa_invoice_id := "I1"; pa_attempt_number := 1; pa_amount := 2500000000;
  pa_currency := "UGX"; pa_payment_method := "wallet"; pa_status := AT_created; pa_completed_at := None;
|}.

(** A completed transfer of 2500 from the rider to the escrow account. *)
Definition half_transfer : WalletService.transfer_request := {|
  WalletService.tq_from_account_id := "A";
  WalletService.tq_to_account_id := "E";
  WalletService.tq_amount := dint 2500;
  WalletService.tq_currency := "UGX";
  WalletService.tq_client_request_id := Some "half"%string;
  WalletService.tq_metadata := None;
  WalletService.tq_platform_fee := None;
  WalletService.tq_fee_currency := None;
  WalletService.tq_pin := None;
  WalletService.tq_system_initiated := true;
|}.

Definition attempted : market := {|
  mk_wallet := match WalletService.transfer (session 1) half_transfer funded_purse with
               | Ok p => p.1 | Err _ => purse end;
  mk_methods := methods;
  mk_invoices := made.1;
  mk_attempts := [half_attempt];
  mk_allocations := [];
|}.

Definition completed_attempt : market :=
  match complete_payment_attempt (session 1) attempted "P1" 2 AT_succeeded with
  | Ok m => m | Err _ => attempted end.

Lemma attempt_found : List.find (fun r => String.eqb (pa_id r) "P1") (mk_attempts attempted) = Some half_attempt.
Proof. reflexivity. Qed.
Lemma attempt_invoice : get_invoice attempted (pa_invoice_id half_attempt) = Ok made.2.
Proof. vm_compute. reflexivity. Qed.
Lemma attempt_completed :
  complete_payment_attempt (session 1) attempted "P1" 2 AT_succeeded = Ok completed_attempt.
Proof. vm_compute. reflexivity. Qed.

(** The invoice of 5000 is paid by 2500. *)
Lemma half_payment_marks_paid_witness :
  exists i', get_invoice completed_attempt (iv_id made.2) = Ok i' /\ iv_status i' = IV_paid.
Proof.
  destruct (half_payment_marks_paid (session 1) attempted completed_attempt "P1" 2 half_attempt made.2
              attempt_found attempt_invoice eq_refl ltac:(vm_compute; reflexivity) attempt_completed)
    as (i' & Hi & [_ Hpaid] & _).
  exists i'. split; [exact Hi|]. apply Hpaid. vm_compute. discriminate.
Defined.

(** ** A settled invoice and an attempt of part of its fare *)

(** An attempt of 1000 is opened, the ride settles the whole fare, a further 1000 are
    transferred, and the attempt completes. *)
Definition opened : market :=
  match create_payment_attempt (session 1) stall "P9" "I1" (dint 1000) "UGX" "wallet" with
  | Ok p => p.1 | Err _ => stall end.

Definition settled_open : market := (settle_after_completion (session 1) opened "I1" fare_context None).1.

Definition small_transfer : WalletService.transfer_request := {|
  WalletService.tq_from_account_id := "A";
  WalletService.tq_to_account_id := "E";
  WalletService.tq_amount := dint 1000;
  WalletService.tq_currency := "UGX";
  WalletService.tq_client_request_id := Some "small"%string;
  WalletService.tq_metadata := None;
  WalletService.tq_platform_fee := None;
  WalletService.tq_fee_currency := None;
  WalletService.tq_pin := None;
  WalletService.tq_system_initiated := true;
|}.

Definition paid_more : market :=
  with_wallet (match WalletService.transfer (session 2) small_transfer (mk_wallet settled_open) with
               | Ok p => p.1 | Err _ => purse end) settled_open.

Definition reopened : market :=
  match complete_payment_attempt (session 2) paid_more "P9" 3 AT_succeeded with
  | Ok m => m | Err _ => paid_more end.

(** The paid invoice is partially paid afterwards, and a settlement is refused. *)
Example attempt_reopens_invoice :
  (iv_status <$> mk_invoices settled_open, iv_status <$> mk_invoices reopened,
   (settle_after_completion (session 3) reopened "I1" fare_context None).2)
  = ([IV_paid], [IV_partially_paid], Err (MarketplaceInvoiceError "invoice_not_payable")).
Proof. vm_compute. reflexivity. Qed.

Lemma settled_open_ok : settle_after_completion (session 1) opened "I1" fare_context None
  = (settled_open, Ok paid_answer).
Proof.
  assert (E : (settle_after_completion (session 1) opened "I1" fare_context None).2 = Ok paid_answer)
    by (vm_compute; reflexivity).
  rewrite <- E. apply surjective_pairing.
Qed.

Lemma reopened_run : rtc invoice_step settled_open reopened.
Proof.
  eapply rtc_l; [exact (step_elsewhere settled_open (mk_wallet paid_more) (mk_methods settled_open))|].
  apply rtc_once. apply (step_complete paid_more (session 2) "P9" 3 AT_succeeded). vm_compute. reflexivity.
Qed.

Lemma settled_once_witness :
  (exists a, settle_after_completion (session 3) reopened "I1" fare_context (Some "again"%string) = (reopened, a)
     /\ ((exists e, a = Err e) \/ exists s, a = Ok s /\ se_already_processed s = true))
  /\ settle_after_completion (session 3) settled_open "I1" fare_context (Some "again"%string)
     = (settled_open, Ok {| se_status := IV_paid; se_transaction_id := Some 2; se_already_processed := true |}).
Proof.
  split.
  - destruct (settled_once (session 1) opened settled_open reopened "I1" fare_context None paid_answer
                settled_open_ok eq_refl reopened_run (session 3) fare_context (Some "again"%string))
      as (a & Ha & Hcase & _).
    exists a. split; [exact Ha|exact Hcase].
  - destruct (settled_once (session 1) opened settled_open settled_open "I1" fare_context None paid_answer
                settled_open_ok eq_refl (rtc_refl _ _) (session 3) fare_context (Some "again"%string))
      as (a & Ha & _ & Hsame).
    rewrite Ha, (Hsame eq_refl eq_refl). reflexivity.
Defined.
