(* ===== verification/TransportSample.v ===== *)
(** Concrete runs of transport: two drivers, a booking made elsewhere, rides that
    are declined, accepted, refused and cancelled; the theorems at those runs, and the
    dispute that lets one driver hold two bookings. *)

From S2P Require Import Prelude Tables Decimal DecimalLaws Ledger KycLimits WalletService WalletSample.
From S2P Require Import InvoiceModel Invoices InvoiceLaws InvoiceSample TripModel Trips TripLaws TripMoney.
From S2P Require Import RideDispatch RideLaws RideAccept RideRequests RidePayment RidePaymentLaws.
From S2P Require Import TransportHistory TransportTheorems.

Local Open Scope Z_scope.

Import AssignmentService RideRequestDispatchService RideRequestService.

#[local] Instance tiers : KycTiers := fun _ => 2.
#[local] Instance fraud : FraudScorer := fun _ _ _ _ _ _ => "allow"%string.
#[local] Instance pins : PinHash := String.eqb.
#[local] Instance rates : FxRates := fun _ _ _ => Ok (dint 3800).

(** Driver 1 in vehicle 7, then driver 2 in vehicle 8. *)
#[local] Instance ranking : Ranker := fun _ _ => [(Some 1, Some 7); (None, Some 9); (Some 2, Some 8)].

Definition driver_row (id : Z) : driver := {|
  dr_id := id; dr_user_id := 10 + id; dr_driver_code := "D"; dr_user_public_id := None;
  dr_compliance_status := "approved"; dr_is_online := true; dr_is_deleted := false;
|}.
Definition cab_row (id : Z) : cab :=
  {| vh_id := id; vh_status := "active"; vh_is_available := true; vh_is_deleted := false |}.
Definition pair_row (d v : Z) : pairing :=
  {| pr_driver_id := d; pr_vehicle_id := v; pr_ended_at := None; pr_is_deleted := false |}.

Definition depot : TripModel.store := {|
  st_fleet := {| fl_drivers := [driver_row 1; driver_row 2];
                 fl_pairings := [pair_row 1 7; pair_row 2 8]; fl_observations := [] |};
  st_cabs := [cab_row 7; cab_row 8];
  st_trips := []; st_events := []; st_requests := []; st_cycles := []; st_offers := [];
  st_payments := []; st_invoices := []; st_next := 1;
|}.

Lemma depot_sound : transport_sound depot.
Proof.
  split.
  - split; simpl; try (intros; by apply not_elem_of_nil in H); try constructor; try set_solver.
    repeat constructor; set_solver.
  - split; [split; split; simpl; try constructor; try set_solver|simpl; set_solver].
Qed.

Definition noon : Z := hours 12.
Definition after (s : Z) : Z := noon + s * 1000000.

Definition trip_row (id : Z) (ref : string) (price : Z) : trip := {|
  tb_info := {| ti_id := id; ti_reference := ref; ti_user_id := 50; ti_provider_id := None;
                ti_pickup_time := Some (noon + minutes 30); ti_pickup_mode := Some "scheduled"%string;
                ti_passenger_count := 1; ti_final_price := cents price; ti_currency := "UGX";
                ti_payment_method := Some "cash"%string; ti_ride_request_id := None;
                ti_search_cycle_id := None; ti_created_at := noon |};
  tb_status := CONFIRMED; tb_no_match_reason := None; tb_driver_id := None; tb_vehicle_id := None;
  tb_times := confirmed_at noon; tb_cancel := no_cancellation;
  tb_meta := {| md_booking_mode := Some "scheduled"%string; md_matching_started_at := None;
                md_cancellation := None; md_no_show := None; md_driver_credits := [];
                md_no_match_cause := None; md_driver_cancellations := []; md_completed_by := None |};
  tb_log := []; tb_is_deleted := false;
|}.

(** * Trips *)

(** Driver 1 takes TR1; a moderator approves TR2, which is confirmed already; driver
    2 cannot also take vehicle 7 for TR2, nor driver 1 a second vehicle. *)
Definition claims : list op := [
  OpenBooking (trip_row 1 "TR1" 2000000);
  OpenBooking (trip_row 2 "TR2" 2000000);
  Claim "TR1" 1 7 None false (after 1);
  Approve 2 (after 2);
  Claim "TR2" 2 7 None false (after 2);
  Claim "TR2" 1 8 None false (after 3)
].

Definition claimed : TripModel.store := run depot claims.

(** Status, driver and vehicle of the bookings. *)
Definition board (m : TripModel.store) : list (Z * BookingStatus * option Z * option Z) :=
  (fun b => (tid b, tb_status b, tb_driver_id b, tb_vehicle_id b)) <$> st_trips m.

Example claims_exclusive :
  board claimed = [(1, ASSIGNED, Some 1, Some 7); (2, CONFIRMED, None, None)].
Proof. vm_compute. reflexivity. Qed.

Definition first_trip (m : TripModel.store) : trip := default (trip_row 0 "" 0) (head (st_trips m)).

Lemma first_claimed : first_trip claimed ∈ st_trips (run depot claims).
Proof. vm_compute. left. Qed.
Lemma first_driver : tb_driver_id (first_trip claimed) = Some 1.
Proof. vm_compute. reflexivity. Qed.

Lemma no_double_assignment_witness : driver_engaged_other (run depot claims) 1 1 = false.
Proof.
  destruct (no_double_assignment depot claims (first_trip claimed) depot_sound eq_refl first_claimed) as [Hd _].
  destruct (Hd 1 first_driver) as (_ & _ & He). exact He.
Defined.

(** TR1 is driven to its end; a later cancellation and a second completion fail. *)
Definition drive : list op := [
  TripAction (driver_row 1) "TR1" DriverTrip.en_route (after 10);
  TripAction (driver_row 1) "TR1" DriverTrip.arrive (after 20);
  TripAction (driver_row 1) "TR1" DriverTrip.start (after 30);
  TripAction (driver_row 1) "TR1" DriverTrip.complete (after 40);
  Transition 1 CANCELLED None "admin" (after 50);
  Claim "TR2" 1 7 None false (after 60)
].

Example driven : board (run claimed drive) = [(1, COMPLETED, None, None); (2, ASSIGNED, Some 1, Some 7)].
Proof. vm_compute. reflexivity. Qed.

Definition finished : TripModel.store := run depot (claims ++ take 4 drive).
Lemma finished_sound : transport_sound finished.
Proof. exact (st_sound _ _ _ (run_effect depot (claims ++ take 4 drive) depot_sound eq_refl)). Qed.
Lemma first_finished : first_trip finished ∈ st_trips finished.
Proof. vm_compute. left. Qed.
Lemma first_completed : tb_status (first_trip finished) ∈ TERMINAL_RELEASE_STATUSES.
Proof. vm_compute. left. Qed.

Lemma lifecycle_followed_witness :
  exists b', b' ∈ st_trips (run finished (skipn 4 drive)) /\ tb_status b' = tb_status (first_trip finished).
Proof.
  destruct (lifecycle_followed finished (skipn 4 drive) (first_trip finished) finished_sound eq_refl
              first_finished) as (b' & Hb' & _ & _ & _ & Hfin).
  exists b'. split; [exact Hb'|exact (Hfin first_completed)].
Defined.

(** The shortcut past the table: driver 1 completes TR1 without having started it. *)
Example completed_unstarted :
  board (run claimed [TripAction (driver_row 1) "TR1" DriverTrip.complete (after 10)])
  = [(1, COMPLETED, None, None); (2, CONFIRMED, None, None)]
  /\ BookingService._can_transition ASSIGNED COMPLETED = false.
Proof. vm_compute. split; reflexivity. Qed.

(** The rider cancels TR1 twenty minutes before the pickup: 20 per cent of 20000. *)
Definition cancel_tr1 : BookingService.cancel_request := {|
  BookingService.cq_booking_id := 1; BookingService.cq_user_id := 50;
  BookingService.cq_reason := None; BookingService.cq_reason_category := None;
  BookingService.cq_safety_flag := false;
|}.

Definition cancelling : TripModel.store * BookingService.cancel_answer :=
  match BookingService.cancel_booking claimed cancel_tr1 (noon + minutes 10) with
  | Ok p => p
  | Err _ => (claimed, {| BookingService.ca_fee := dzero; BookingService.ca_tier := "";
                          BookingService.ca_refund_estimate := dzero;
                          BookingService.ca_driver_credit := dzero |})
  end.

Lemma cancelling_ok :
  BookingService.cancel_booking claimed cancel_tr1 (noon + minutes 10) = Ok (cancelling.1, cancelling.2).
Proof. vm_compute. reflexivity. Qed.

Example cancelling_figures : cancelling.2 = {|
  BookingService.ca_fee := cents 400000; BookingService.ca_tier := "15m_to_1h";
  BookingService.ca_refund_estimate := cents 1600000;
  BookingService.ca_driver_credit := cents 320000 |}.
Proof. vm_compute. reflexivity. Qed.

Lemma tr1_found : find_trip claimed (BookingService.cq_booking_id cancel_tr1) = Some (first_trip claimed).
Proof. vm_compute. reflexivity. Qed.
Lemma tr1_money : money (ti_final_price (tb_info (first_trip claimed))).
Proof. vm_compute. repeat split; discriminate. Qed.

Lemma cancellation_money_witness :
  BookingService.ca_fee cancelling.2 = cents 400000
  /\ BookingService.ca_refund_estimate cancelling.2 = cents 1600000
  /\ exists credit, BookingService.ca_driver_credit cancelling.2 = cents credit /\ 0 <= credit <= 400000.
Proof.
  destruct (cancellation_money claimed cancelling.1 (first_trip claimed) cancel_tr1 cancelling.2
              (noon + minutes 10) tr1_found tr1_money cancelling_ok)
    as (fee & credit & Hf & Hc & Hb & Efee & _ & Hr).
  assert (E : fee = 400000) by (rewrite Efee; vm_compute; reflexivity). clear Efee. subst fee.
  split; [exact Hf|split; [exact Hr|]].
  exists credit. split; [exact Hc|exact Hb].
Defined.

(** ** A dispute that is reopened *)

(** TR1 is disputed while driver 1 drives; the moderator approves it, which confirms
    it with driver and vehicle still on it; driver 1 takes TR2 in vehicle 8; an
    administrator assigns TR1 again. *)
Definition disputed : TripModel.store :=
  run claimed (take 3 drive ++ [Transition 1 DISPUTED None "admin" (after 40)]).
Definition approved : TripModel.store := run disputed [Approve 1 (after 50)].
Definition reassigned : TripModel.store :=
  run approved [Claim "TR2" 1 8 None false (after 60); Transition 1 ASSIGNED None "admin" (after 70)].

(** The moderator's approval of a disputed booking confirms it without releasing
    its driver, and from there the ordinary operations put one driver on two live
    active bookings at once. *)
Theorem reopened_dispute_double_books :
  transport_sound disputed
  /\ reopens disputed (Approve 1 (after 50)) = true /\ TripAdmin.approve disputed 1 (after 50) = Ok approved
  /\ exists b c, b ∈ st_trips reassigned /\ c ∈ st_trips reassigned /\ tid b <> tid c
       /\ active b = true /\ live b = true /\ active c = true /\ live c = true
       /\ tb_driver_id b = Some 1 /\ tb_driver_id c = Some 1.
Proof.
  split; [|split; [vm_compute; reflexivity|split; [vm_compute; reflexivity|]]].
  - unfold disputed, claimed. apply run_effect; [|reflexivity].
    apply run_effect; [exact depot_sound|reflexivity].
  - exists (first_trip reassigned), (default (trip_row 0 "" 0) (st_trips reassigned !! 1%nat)).
    split; [vm_compute; left|]. split; [vm_compute; right; left|]. vm_compute. by repeat split.
Qed.

(** * Rides *)

Definition ride (key : string) (pickup fare : Z) : draft := {|
  rd_owner_user_id := 50; rd_key := key; rd_requested_pickup_time := pickup; rd_passenger_count := 1;
  rd_fare_cents := fare; rd_currency_code := "UGX"; rd_payment_method := "cash"; rd_trip_hash := "h";
  rd_booking_mode := "instant";
|}.

Definition ask (key public_id invoice_id : string) : list op := [
  CreateRequest purse methods (ride key noon 500000) public_id invoice_id 300 noon;
  StartSearch public_id (after 1)
].

(** Driver 1 declines, driver 2 is asked; the rider cancels a second ride. *)
Definition rides : list op :=
  ask "k" "REQ-9" "I9" ++ [DeclineOffer "REQ-9" 1 (after 5)]
  ++ ask "k2" "REQ-8" "I8" ++ [CancelRequest "REQ-8" 50 (after 6)].

Definition waiting : TripModel.store := run depot rides.

(** Driver, number and status of the offers. *)
Definition offers (m : TripModel.store) : list (Z * Z * OfferStatus) :=
  (fun a => (oa_driver_id a, oa_attempt_number a, oa_status a)) <$> st_offers m.

Example offers_waiting :
  (offers waiting, cy_status <$> st_cycles waiting, rr_status <$> st_requests waiting)
  = ([(1, 1, OF_declined); (2, 2, OF_offered); (1, 1, OF_withdrawn)],
     [CY_searching; CY_cancelled], [RQ_searching; RQ_cancelled]).
Proof. vm_compute. reflexivity. Qed.

Lemma waiting_sound : transport_sound waiting.
Proof. exact (st_sound _ _ _ (run_effect depot rides depot_sound eq_refl)). Qed.

Definition first_cycle_row : search_cycle :=
  default {| cy_id := 0; cy_ride_request_id := 0; cy_cycle_number := 0; cy_deadline := None;
             cy_is_deleted := false; cy_status := CY_expired; cy_completed_at := None;
             cy_terminal_reason := None; cy_ranked_pool := None |} (head (st_cycles waiting)).
Lemma first_cycle_in : first_cycle_row ∈ st_cycles (run depot rides).
Proof. vm_compute. left. Qed.
Lemma first_cycle_searching : searching first_cycle_row.
Proof. vm_compute. reflexivity. Qed.
Lemma first_cycle_offers : offers_of (run depot rides) (cy_id first_cycle_row) <> [].
Proof. vm_compute. discriminate. Qed.

Lemma one_live_offer_witness :
  exists a, active_offer (run depot rides) (cy_id first_cycle_row) = Some a.
Proof.
  destruct (one_live_offer depot rides depot_sound eq_refl) as (_ & _ & _ & Hw).
  exact (Hw first_cycle_row first_cycle_in first_cycle_searching first_cycle_offers).
Defined.

Lemma asked_once_each_witness :
  NoDup (oa_driver_id <$> offers_of (run depot rides) (cy_id first_cycle_row)).
Proof. exact (proj1 (asked_once_each depot rides first_cycle_row depot_sound eq_refl first_cycle_in)). Defined.

(** ** Acceptance *)

Definition accepting : TripModel.store * result trip_error Z :=
  accept_offer waiting "REQ-9" 2 8 None "TR9" (after 10).

Lemma accepting_ok : accept_offer waiting "REQ-9" 2 8 None "TR9" (after 10) = (accepting.1, Ok 8).
Proof. vm_compute. reflexivity. Qed.

Example accepted_board :
  (board accepting.1, rr_status <$> st_requests accepting.1, cy_status <$> st_cycles accepting.1,
   tp_amount <$> st_payments accepting.1)
  = ([(8, ASSIGNED, Some 2, Some 8)], [RQ_converted; RQ_cancelled], [CY_completed; CY_cancelled],
     [cents 500000]).
Proof. vm_compute. reflexivity. Qed.

Lemma accept_spec_witness :
  exists b, b ∈ st_trips accepting.1 /\ tb_status b = ASSIGNED /\ tb_driver_id b = Some 2
            /\ tb_vehicle_id b = Some 8.
Proof.
  destruct (accept_spec waiting accepting.1 "REQ-9" 2 8 None "TR9" (after 10) 8 waiting_sound accepting_ok)
    as (r & c & a & amount & b & _ & _ & Hb & _ & Hs & Hd & Hv & _).
  exists b. split; [exact Hb|split; [exact Hs|split; [exact Hd|exact Hv]]].
Defined.

Definition ride_history : list op := rides ++ [AcceptOffer "REQ-9" 2 8 None "TR9" (after 10)].

Definition cancelled_ride : ride_request :=
  default (new_request 0 "" 0 (ride "" 0 0)) (st_requests waiting !! 1%nat).
Lemma cancelled_in : cancelled_ride ∈ st_requests waiting.
Proof. vm_compute. right. left. Qed.
Lemma cancelled_status : rr_status cancelled_ride = RQ_cancelled.
Proof. vm_compute. reflexivity. Qed.

(** The ride that was cancelled gets no booking when the other is accepted. *)
Lemma converted_once_witness :
  exists r', r' ∈ st_requests (run waiting [AcceptOffer "REQ-9" 2 8 None "TR9" (after 10)])
    /\ rr_status r' = RQ_cancelled.
Proof.
  destruct (converted_once waiting [AcceptOffer "REQ-9" 2 8 None "TR9" (after 10)] waiting_sound eq_refl)
    as (_ & _ & Hc).
  destruct (Hc cancelled_ride cancelled_in cancelled_status) as (r' & Hr' & _ & Hs & _).
  exists r'. split; [exact Hr'|exact Hs].
Defined.

(** Driver 1, who declined, cannot accept. *)
Definition late_accept : TripModel.store * result trip_error Z :=
  accept_offer waiting "REQ-9" 1 7 None "TR9" (after 10).
Definition late_error : trip_error := RideRequestDispatchError "offer_unavailable".
Lemma late_refused : accept_offer waiting "REQ-9" 1 7 None "TR9" (after 10) = (late_accept.1, Err late_error).
Proof. vm_compute. reflexivity. Qed.

Lemma accept_refusal_atomic_witness : st_trips late_accept.1 = st_trips waiting.
Proof.
  exact (proj1 (accept_refusal_atomic waiting late_accept.1 "REQ-9" 1 7 None "TR9" (after 10) late_error
                  (proj2 waiting_sound) late_refused)).
Defined.

(** ** A ride retried after its pickup time *)

(** Nobody answers the first window; six minutes after the request the rider retries
    and driver 1 is asked again. *)
Definition retried : list op :=
  ask "k" "REQ-9" "I9" ++ [RecoverExpired 100 (after 310); RetrySearch "REQ-9" 50 300 (after 360)].

Definition late : TripModel.store := run depot retried.

Example late_offers :
  (offers late, cy_status <$> st_cycles late)
  = ([(1, 1, OF_timed_out); (1, 1, OF_offered)], [CY_expired; CY_searching]).
Proof. vm_compute. reflexivity. Qed.

Definition late_request : ride_request :=
  default (new_request 0 "" 0 (ride "" 0 0)) (request_by_public_id late "REQ-9").
Lemma late_request_in : request_by_public_id late "REQ-9" = Some late_request.
Proof. vm_compute. reflexivity. Qed.
Lemma late_stale : exists t, rr_requested_pickup_time late_request = Some t /\ t <= after 365 - minutes 5.
Proof. exists noon. split; [vm_compute; reflexivity|]. unfold after, minutes. lia. Qed.
Lemma late_sound : search_sound late.
Proof. exact (proj2 (st_sound _ _ _ (run_effect depot retried depot_sound eq_refl))). Qed.

(** The driver who holds the offer accepts in time, and is refused. *)
Example late_acceptance :
  (accept_offer late "REQ-9" 1 7 None "TR9" (after 365)).2
  = Err (RideRequestDispatchError "assignment_conflict").
Proof. vm_compute. reflexivity. Qed.

Lemma stale_pickup_never_converts_witness :
  accept_offer late "REQ-9" 1 7 None "TR9" (after 365) <> (late, Ok 8).
Proof.
  exact (stale_pickup_never_converts late late "REQ-9" late_request 1 7 None "TR9" (after 365) 8
           late_sound late_request_in (or_introl late_stale)).
Defined.

(** ** The payment of the converted ride *)

Definition till : market := {|
  mk_wallet := funded_purse;
  mk_methods := methods;
  mk_invoices := st_invoices accepting.1;
  mk_attempts := [];
  mk_allocations := [];
|}.

Definition ninth_request : ride_request :=
  default (new_request 0 "" 0 (ride "" 0 0)) (request_by_public_id waiting "REQ-9").
Lemma ninth_request_in : request_by_public_id waiting "REQ-9" = Some ninth_request.
Proof. vm_compute. reflexivity. Qed.
Lemma ninth_invoice : rr_wallet_invoice_id ninth_request = Some "I9"%string.
Proof. vm_compute. reflexivity. Qed.
Lemma ninth_booked : first_trip accepting.1 ∈ st_trips accepting.1.
Proof. vm_compute. left. Qed.
Lemma ninth_id : tid (first_trip accepting.1) = 8.
Proof. vm_compute. reflexivity. Qed.
Lemma same_invoices : mk_invoices till = st_invoices waiting.
Proof. vm_compute. reflexivity. Qed.
Lemma waiting_invoices_unique : invoices_unique (st_invoices waiting).
Proof. vm_compute. split; vm_compute; repeat constructor; set_solver. Qed.
Lemma keys_stripped l : forallb (fun i => String.eqb (strip (idem_key i)) (idem_key i)) l = true ->
  forall i, i ∈ l -> strip (idem_key i) = idem_key i.
Proof. intros E i Hi. rewrite forallb_forall in E. apply String.eqb_eq, E, list_elem_of_In, Hi. Qed.
Lemma waiting_keys : forall i, i ∈ st_invoices waiting -> strip (idem_key i) = idem_key i.
Proof. apply keys_stripped. vm_compute. reflexivity. Qed.

(** Neither the settlement nor the cash confirmation of the trip succeeds. *)
Lemma converted_ride_unpayable_witness :
  exists e, PaymentService.process_payment (session 1) till (first_trip accepting.1) (Some "I9"%string)
              (cents 500000) "I10" None = (till, Err e).
Proof.
  exact (proj1 (converted_ride_unpayable (session 1) waiting accepting.1 till "REQ-9" 2 8 None "TR9" (after 10) 8
    (first_trip accepting.1) ninth_request "I9" waiting_sound accepting_ok ninth_booked ninth_id
    ninth_request_in ninth_invoice ltac:(discriminate) same_invoices waiting_invoices_unique waiting_keys
    ltac:(vm_compute; discriminate) (cents 500000) "I10"%string None (driver_row 2))).
Defined.
