(* ===== verification/AuthModel.v ===== *)
(** The data of sign-in: the values the short-lived store holds (the payload of a
    pending registration, a native token's record, a sign-in challenge), and the
    rows of User and Session (app/identity/models/user.py), ServerSession
    (app/auth/sessions.py) and the profile's phone, with the uniqueness checks of
    the users table. *)

From S2P Require Import Prelude Tables.

Local Open Scope Z_scope.

(** * What the store holds *)

(** The payload [start_pending_registration] builds. Times are in microseconds. *)
Record payload : Type := {
  pd_username : string;
  pd_email : string;
  pd_email_as_entered : string;
  pd_phone : option string;
  pd_password_hash : string;
  pd_full_name : string;
  pd_otp_hash : string;
  pd_channel : string;
  pd_attempts : Z;
  pd_created_at : Z;
  pd_expires_at : Z;
  pd_hard_expires_at : Z;
  pd_ip : option string;
  pd_user_agent : option string;
  pd_mx_unverified : bool;
}.

(** The record behind a native token; [issued_at] is in seconds. *)
Record token_record : Type := {
  tk_user_public_id : string;
  tk_session_id : string;
  tk_server_session_id : string;
  tk_client : string;
  tk_device_id : string;
  tk_issued_at : Z;
  tk_token_type : string;
}.

(** The challenge of a native sign-in that needs a second factor. *)
Record challenge_record : Type := {
  ch_user_public_id : string;
  ch_client : string;
  ch_device_id : string;
  ch_device_name : string;
  ch_mfa_type : string;
  ch_sms_phone_hint : option string;
  ch_created_at : Z;
}.

#[export] Instance payload_eq_dec : EqDecision payload.
Proof. solve_decision. Defined.
#[export] Instance token_record_eq_dec : EqDecision token_record.
Proof. solve_decision. Defined.
#[export] Instance challenge_record_eq_dec : EqDecision challenge_record.
Proof. solve_decision. Defined.

(** A stored value: a JSON text or number, one of the objects above, or a set of
    keys. *)
Inductive stored : Type :=
  | SText (s : string)
  | SInt (n : Z)
  | SPending (p : payload)
  | SToken (t : token_record)
  | SChallenge (c : challenge_record)
  | SKeys (ks : gset string).

#[export] Instance stored_eq_dec : EqDecision stored.
Proof. solve_decision. Defined.

Definition as_text (v : stored) : option string := match v with SText s => Some s | _ => None end.
Definition as_pending (v : stored) : option payload := match v with SPending p => Some p | _ => None end.
Definition as_token (v : stored) : option token_record := match v with SToken t => Some t | _ => None end.
Definition as_challenge (v : stored) : option challenge_record :=
  match v with SChallenge c => Some c | _ => None end.

(** A counter: the number a rate limit keeps under its key. *)
Definition as_counter (v : stored) : option Z := match v with SInt n => Some n | _ => None end.

Definition with_attempts (p : payload) (n : Z) : payload := {|
  pd_username := pd_username p; pd_email := pd_email p;
  pd_email_as_entered := pd_email_as_entered p; pd_phone := pd_phone p;
  pd_password_hash := pd_password_hash p; pd_full_name := pd_full_name p;
  pd_otp_hash := pd_otp_hash p; pd_channel := pd_channel p;
  pd_attempts := n; pd_created_at := pd_created_at p; pd_expires_at := pd_expires_at p;
  pd_hard_expires_at := pd_hard_expires_at p; pd_ip := pd_ip p;
  pd_user_agent := pd_user_agent p; pd_mx_unverified := pd_mx_unverified p;
|}.

Definition with_expiry (p : payload) (t : Z) : payload := {|
  pd_username := pd_username p; pd_email := pd_email p;
  pd_email_as_entered := pd_email_as_entered p; pd_phone := pd_phone p;
  pd_password_hash := pd_password_hash p; pd_full_name := pd_full_name p;
  pd_otp_hash := pd_otp_hash p; pd_channel := pd_channel p;
  pd_attempts := pd_attempts p; pd_created_at := pd_created_at p; pd_expires_at := t;
  pd_hard_expires_at := pd_hard_expires_at p; pd_ip := pd_ip p;
  pd_user_agent := pd_user_agent p; pd_mx_unverified := pd_mx_unverified p;
|}.

(** A fresh code with a fresh budget of attempts. *)
Definition with_code (p : payload) (otp_hash : string) (expires_at : Z) : payload := {|
  pd_username := pd_username p; pd_email := pd_email p;
  pd_email_as_entered := pd_email_as_entered p; pd_phone := pd_phone p;
  pd_password_hash := pd_password_hash p; pd_full_name := pd_full_name p;
  pd_otp_hash := otp_hash; pd_channel := pd_channel p;
  pd_attempts := 0; pd_created_at := pd_created_at p; pd_expires_at := expires_at;
  pd_hard_expires_at := pd_hard_expires_at p; pd_ip := pd_ip p;
  pd_user_agent := pd_user_agent p; pd_mx_unverified := pd_mx_unverified p;
|}.

Definition token_with (r : token_record) (issued_at : Z) (token_type : string) : token_record := {|
  tk_user_public_id := tk_user_public_id r; tk_session_id := tk_session_id r;
  tk_server_session_id := tk_server_session_id r; tk_client := tk_client r;
  tk_device_id := tk_device_id r; tk_issued_at := issued_at; tk_token_type := token_type;
|}.

(** * Rows *)

Record user : Type := {
  us_id : Z;
  us_public_id : string;
  us_username : option string;
  us_email : string;
  us_phone : option string;
  us_password_hash : string;
  us_is_active : bool;
  us_is_deleted : bool;
  us_is_verified : bool;
  us_email_verified : bool;
  us_email_verified_at : option Z;
  us_phone_verified : bool;
  us_phone_verified_at : option Z;
  us_activated_at : option Z;
}.

(** A Session row: a device that stays signed in. *)
Record device_session : Type := {
  ds_session_id : string;
  ds_user_id : Z;
  ds_device_id : string;
  ds_ip : option string;
  ds_user_agent : option string;
  ds_expires_at : Z;
  ds_revoked_at : option Z;
  ds_revoked_reason : option string;
  ds_created_at : Z;
  ds_updated_at : option Z;
}.

Record server_session : Type := {
  ss_session_id : string;
  ss_user_id : string;
  ss_ip_address : option string;
  ss_user_agent : option string;
  ss_expires_at : Z;
  ss_is_revoked : bool;
}.

(** What phone verification reads and writes of a profile. *)
Record phone_profile : Type := {
  pp_phone_number : option string;
  pp_phone_verified : bool;
}.

#[export] Instance user_eq_dec : EqDecision user.
Proof. solve_decision. Defined.
#[export] Instance device_session_eq_dec : EqDecision device_session.
Proof. solve_decision. Defined.
#[export] Instance server_session_eq_dec : EqDecision server_session.
Proof. solve_decision. Defined.

(** [query.get(id)], [filter_by(email=...).first()] and so on. *)
Definition user_by_id (users : list user) (id : Z) : option user :=
  List.find (fun u => us_id u =? id) users.
Definition user_by_email (users : list user) (email : string) : option user :=
  List.find (fun u => String.eqb (us_email u) email) users.
Definition user_by_username (users : list user) (name : string) : option user :=
  List.find (fun u => bool_decide (us_username u = Some name)) users.
Definition user_by_public_id (users : list user) (pid : string) : option user :=
  List.find (fun u => String.eqb (us_public_id u) pid) users.

Definition write_user (u : user) (users : list user) : list user :=
  update_where (fun r => us_id r =? us_id u) (fun _ => u) users.

(** [check_user_duplicates]: the label of the first column whose value another
    row has; [None] lets the write go on. On an update the row itself is left
    out. *)
Definition check_user_duplicates (users : list user) (u : user) (is_update : bool) : option string :=
  let others := List.filter (fun r => negb (is_update && (us_id r =? us_id u))) users in
  let taken (label : string) (value : option string) (column : user -> option string) :=
    if truthy value && existsb (fun r => bool_decide (column r = value)) others
    then Some label else None in
  let orelse (a b : option string) := match a with Some l => Some l | None => b end in
  orelse (taken "email"%string (Some (us_email u)) (fun r => Some (us_email r)))
  (orelse (taken "username"%string (us_username u) us_username)
  (orelse (taken "phone"%string (us_phone u) us_phone)
  (taken "public_id"%string (Some (us_public_id u)) (fun r => Some (us_public_id r))))).

(** The unique constraints of the users table: public id, email, phone. *)
Definition user_unique (users : list user) : Prop :=
  NoDup (us_public_id <$> users) /\ NoDup (us_email <$> users) /\ NoDup (omap us_phone users).
