(* ===== verification/EmailAddress.v ===== *)
(** The validation of an email address before an account is created:
    app/auth/email_validation.py. The syntax check of the email_validator library,
    the answer of the DNS and the list of burner domains are arguments. *)

From S2P Require Import Prelude Tables.
From Stdlib Require Import Ascii.

Local Open Scope Z_scope.

(** * Texts *)

Section texts.
Local Open Scope char_scope.

Fixpoint has_char (c : ascii) (s : string) : bool :=
  match s with
  | EmptyString => false
  | String d s => Ascii.eqb d c || has_char c s
  end.

Fixpoint count_char (c : ascii) (s : string) : nat :=
  match s with
  | EmptyString => 0
  | String d s => (if Ascii.eqb d c then 1 else 0) + count_char c s
  end.

(** [s.strip(chars)] and [s.rstrip(chars)] for the characters of [p]. *)
Fixpoint lstrip_by (p : ascii -> bool) (s : string) : string :=
  match s with
  | EmptyString => EmptyString
  | String c s' => if p c then lstrip_by p s' else s
  end.

Fixpoint rstrip_by (p : ascii -> bool) (s : string) : string :=
  match s with
  | EmptyString => EmptyString
  | String c s' =>
      match rstrip_by p s' with
      | EmptyString => if p c then EmptyString else String c EmptyString
      | r => String c r
      end
  end.

Definition strip_by (p : ascii -> bool) (s : string) : string := rstrip_by p (lstrip_by p s).

(** [s.rpartition(c)] where [c] occurs: what stands before and after its last
    occurrence. *)
Fixpoint rpartition (c : ascii) (s : string) : string * string :=
  match s with
  | EmptyString => (EmptyString, EmptyString)
  | String d s' =>
      if has_char c s' then let (a, b) := rpartition c s' in (String d a, b)
      else if Ascii.eqb d c then (EmptyString, s') else (EmptyString, s)
  end.

(** [s.split(c, 1)] where [c] occurs. *)
Fixpoint split_once (c : ascii) (s : string) : string * string :=
  match s with
  | EmptyString => (EmptyString, EmptyString)
  | String d s => if Ascii.eqb d c then (EmptyString, s)
                  else let (a, b) := split_once c s in (String d a, b)
  end.

(** [s.split(c)] *)
Fixpoint split_all (c : ascii) (s : string) : list string :=
  match s with
  | EmptyString => [EmptyString]
  | String d s => if Ascii.eqb d c then EmptyString :: split_all c s
                  else match split_all c s with
                       | [] => [String d EmptyString]
                       | a :: l => String d a :: l
                       end
  end.

(** [s.replace(c, "")] *)
Fixpoint remove_char (c : ascii) (s : string) : string :=
  match s with
  | EmptyString => EmptyString
  | String d s => if Ascii.eqb d c then remove_char c s else String d (remove_char c s)
  end.

(** [".." in s], [s.startswith(c)], [s.endswith(c)] *)
Fixpoint has_double (c : ascii) (s : string) : bool :=
  match s with
  | String a ((String b _) as s') => (Ascii.eqb a c && Ascii.eqb b c) || has_double c s'
  | _ => false
  end.

Definition starts_with (c : ascii) (s : string) : bool :=
  match s with String d _ => Ascii.eqb d c | EmptyString => false end.

Fixpoint ends_with (c : ascii) (s : string) : bool :=
  match s with
  | EmptyString => false
  | String d EmptyString => Ascii.eqb d c
  | String _ s => ends_with c s
  end.

(** [s.isalpha()] on ASCII; false of the empty text. *)
Fixpoint all_letters (s : string) : bool :=
  match s with
  | EmptyString => true
  | String c s => let n := nat_of_ascii (lower_ascii c) in
                  Nat.leb 97 n && Nat.leb n 122 && all_letters s
  end.

Definition isalpha (s : string) : bool := negb (String.eqb s "") && all_letters s.

Definition angle (c : ascii) : bool := Ascii.eqb c "<" || Ascii.eqb c ">".
Definition dot (c : ascii) : bool := Ascii.eqb c ".".

End texts.

Module EmailValidation.

Local Open Scope string_scope.
Local Open Scope Z_scope.

Definition MAX_EMAIL_LENGTH : nat := 254.
Definition MAX_LOCAL_LENGTH : nat := 64.
Definition MAX_LABEL_LENGTH : nat := 63.

Definition RESERVED_LOCAL_PARTS : list string :=
  ["abuse"; "admin"; "administrator"; "billing"; "compliance"; "contact";
   "devnull"; "enquiries"; "enquiry"; "everyone"; "finance"; "ftp"; "help";
   "helpdesk"; "hostmaster"; "info"; "inquiries"; "it"; "mail"; "mailer";
   "mailer-daemon"; "marketing"; "no-reply"; "noc"; "noreply"; "notifications";
   "office"; "postmaster"; "root"; "sales"; "security"; "spam"; "support";
   "sysadmin"; "team"; "test"; "testing"; "usenet"; "uucp"; "webmaster";
   "www"; "www-data"].

Definition _DOT_FOLDING_DOMAINS : list string := ["gmail.com"; "googlemail.com"].

Definition _PLUS_FOLDING_DOMAINS : list string :=
  ["gmail.com"; "googlemail.com"; "outlook.com"; "hotmail.com"; "live.com";
   "msn.com"; "yahoo.com"; "proton.me"; "protonmail.com"; "pm.me";
   "icloud.com"; "me.com"; "mac.com"; "fastmail.com"; "zoho.com"].

(** [_DOMAIN_ALIASES.get(domain, domain)] *)
Definition domain_alias (domain : string) : string :=
  if String.eqb domain "googlemail.com" then "gmail.com" else domain.

Definition COMMON_DOMAINS : list string :=
  ["gmail.com"; "yahoo.com"; "hotmail.com"; "outlook.com"; "live.com";
   "aol.com"; "icloud.com"; "me.com"; "mac.com"; "msn.com"; "proton.me";
   "protonmail.com"; "zoho.com"; "fastmail.com"; "gmx.com"; "gmx.net";
   "mail.com"; "yandex.com"; "qq.com"; "163.com"; "126.com"; "naver.com";
   "hotmail.co.uk"; "yahoo.co.uk"; "btinternet.com"; "orange.fr";
   "web.de"; "t-online.de"; "libero.it"; "free.fr"; "sfr.fr";
   "yahoo.fr"; "yahoo.co.in"; "rediffmail.com"; "gmail.co.uk";
   "yahoo.ca"; "outlook.fr"; "outlook.co.uk";
   "gmail.com"; "yahoo.co.za"; "webmail.co.za"; "mweb.co.za";
   "africaonline.co.ug"; "utlonline.co.ug"; "orange.co.ke"; "safaricom.co.ke"].

(** [email.strip().strip("<>").strip()] *)
Definition cleaned (email : string) : string := strip (strip_by angle (strip email)).

Definition fold_local (local domain : string) : string :=
  let local := if str_in domain _PLUS_FOLDING_DOMAINS && has_char "+" local
               then fst (split_once "+" local) else local in
  if str_in domain _DOT_FOLDING_DOMAINS then remove_char "." local else local.

Definition normalize_email (email : string) : string :=
  if String.eqb email "" then "" else
  let c := cleaned email in
  if negb (has_char "@" c) then lower c else
  let (local, domain) := rpartition "@" c in
  let local := lower local in
  let domain := domain_alias (rstrip_by dot (lower domain)) in
  fold_local local domain +:+ "@" +:+ domain.

(** * Edit distance *)

(** One row of the table, after its first cell [last]: from the row before, each
    cell is the least of a deletion, an insertion and a substitution. *)
Fixpoint lev_row (ca : ascii) (b : list ascii) (previous : list Z) (last : Z) : list Z :=
  match b, previous with
  | cb :: b, p0 :: ((p1 :: _) as previous) =>
      let cost := if Ascii.eqb ca cb then 0 else 1 in
      let value := Z.min (Z.min (p1 + 1) (last + 1)) (p0 + cost) in
      value :: lev_row ca b previous value
  | _, _ => []
  end.

(** [best_in_row], which starts at the first cell. *)
Definition best_in (i : Z) (cells : list Z) : Z := foldl Z.min i cells.

Fixpoint lev_rows (a b : list ascii) (i : Z) (previous : list Z) (max_distance : Z) : Z :=
  match a with
  | [] => List.last previous 0
  | ca :: a =>
      let cells := lev_row ca b previous i in
      if max_distance <? best_in i cells then max_distance + 1
      else lev_rows a b (i + 1) (i :: cells) max_distance
  end.

Definition _levenshtein (a b : string) (max_distance : Z) : Z :=
  if String.eqb a b then 0 else
  let a := String.list_ascii_of_string a in
  let b := String.list_ascii_of_string b in
  if max_distance <? Z.abs (Z.of_nat (length a) - Z.of_nat (length b)) then max_distance + 1
  else lev_rows a b 1 (Z.of_nat <$> seq 0 (length b + 1)) max_distance.

(** The closest of the candidates: the first of those at the least distance. *)
Definition closest (domain : string) (max_distance : Z) (candidates : list string) : option string * Z :=
  foldl (fun '(best, best_distance) candidate =>
           let distance := _levenshtein domain candidate max_distance in
           if distance <? best_distance then (Some candidate, distance) else (best, best_distance))
        (None, max_distance + 1) candidates.

Definition suggest_domain (domain : string) (max_distance : Z) : option string :=
  if String.eqb domain "" then None else
  let domain := lower domain in
  if str_in domain COMMON_DOMAINS then None else
  let (best, best_distance) := closest domain max_distance COMMON_DOMAINS in
  if best_distance <=? max_distance then best else None.

(** * Validation *)

Section validation.
(** [burner] is the block list, [lib_valid] the library's check, [mx] what the DNS
    says: yes, no, or unknown. *)
Context (burner : list string) (lib_valid : string -> bool) (mx : string -> option bool).

(** The parents of a domain that still have a dot. *)
Fixpoint parents (labels : list string) : list string :=
  match labels with
  | [] | [_] | [_; _] => []
  | _ :: ((_ :: _ :: _) as rest) => String.concat "." rest :: parents rest
  end.

Definition is_disposable_domain (domain : string) : bool :=
  if String.eqb domain "" then false else
  let domain := rstrip_by dot (lower domain) in
  str_in domain burner || existsb (fun p => str_in p burner) (parents (split_all "." domain)).

(** The codes of a syntax error; [None] is a correct address. *)
Definition _check_syntax (email : string) : option string :=
  if Nat.ltb MAX_EMAIL_LENGTH (String.length email) then Some "too_long"
  else if negb (Nat.eqb (count_char "@" email) 1) then Some "syntax"
  else
    let (local, domain) := split_once "@" email in
    if String.eqb local "" then Some "syntax"
    else if Nat.ltb MAX_LOCAL_LENGTH (String.length local) then Some "local_too_long"
    else if starts_with "." local || ends_with "." local || has_double "." local then Some "syntax"
    else if String.eqb domain "" || negb (has_char "." domain) then Some "syntax"
    else if starts_with "-" domain || ends_with "-" domain || has_double "." domain then Some "syntax"
    else if existsb (fun l => Nat.ltb MAX_LABEL_LENGTH (String.length l)) (split_all "." domain)
    then Some "syntax"
    else
      let tld := snd (rpartition "." domain) in
      if Nat.ltb (String.length tld) 2 || negb (isalpha tld) then Some "syntax"
      else if lib_valid email then None else Some "syntax".

Record EmailValidationResult : Type := {
  ev_is_valid : bool;
  ev_normalized : option string;
  ev_code : option string;
  ev_suggestion : option string;
  ev_mx_unverified : bool;
}.

Definition refused (normalized : option string) (code : string) (suggestion : option string)
    : EmailValidationResult := {|
  ev_is_valid := false; ev_normalized := normalized; ev_code := Some code;
  ev_suggestion := suggestion; ev_mx_unverified := false;
|}.

Definition control_char (c : ascii) : bool :=
  Nat.ltb (nat_of_ascii c) 32 || Nat.eqb (nat_of_ascii c) 127.

(** The address with another domain. *)
Definition with_domain (local : string) (domain : option string) : option string :=
  (fun d => local +:+ "@" +:+ d) <$> domain.

Definition validate_email_address (check_mx allow_role_accounts allow_disposable : bool)
    (email : option string) : EmailValidationResult :=
  let email := default "" email in
  let raw := strip email in
  if String.eqb raw "" then refused None "missing" None
  else if existsb control_char (String.list_ascii_of_string raw) then refused None "control_chars" None
  else
    let normalized := normalize_email raw in
    match _check_syntax normalized with
    | Some code =>
        refused None code
          (if Nat.eqb (count_char "@" normalized) 1 then
             let (local, domain) := split_once "@" normalized in
             if negb (String.eqb local "") && negb (String.eqb domain "")
             then with_domain local (suggest_domain domain 2) else None
           else None)
    | None =>
        let (local_part, domain) := split_once "@" normalized in
        if negb allow_role_accounts && str_in local_part RESERVED_LOCAL_PARTS
        then refused (Some normalized) "role_account" None
        else if negb allow_disposable && is_disposable_domain domain
        then refused (Some normalized) "disposable" None
        else
          let suggestion := with_domain local_part (suggest_domain domain 2) in
          let has_mx := if check_mx then mx domain else Some true in
          if bool_decide (has_mx = Some false) then refused (Some normalized) "no_mx" suggestion
          else {| ev_is_valid := true; ev_normalized := Some normalized; ev_code := None;
                  ev_suggestion := suggestion; ev_mx_unverified := negb (is_some has_mx) |}
    end.

End validation.
End EmailValidation.
