(* ===== verification/KeyStore.v ===== *)
(** The key/value store with expiry behind sign-in: app/auth/otp_store.py. The
    in-process store [_MemoryStore] is modelled as it is written; the shared store,
    Redis, is any instance of [KeyStore] whose operations obey the documented laws
    [KeyStoreLaws]. The in-process store obeys them too, save where its [expire]
    brings an expired key back. The public functions choose between the two. *)

From S2P Require Import Prelude Tables AuthModel.

Local Open Scope Z_scope.

(** * The interface *)

(** Times are microseconds, [ttl] whole seconds. *)
Definition seconds (n : Z) : Z := n * 1000000.

(** A value and the time it expires, if ever. *)
Abbreviation entry := (stored * option Z)%type.

Definition expired_at (now : Z) (expires_at : option Z) : bool :=
  match expires_at with Some e => e <=? now | None => false end.

(** What a reader sees of an entry at a time. *)
Definition live (now : Z) (o : option entry) : option entry :=
  match o with
  | Some (v, e) => if expired_at now e then None else Some (v, e)
  | None => None
  end.

Class KeyStore (S : Type) := {
  ks_get : Z -> string -> S -> option stored * S;
  ks_set : Z -> string -> stored -> option Z -> S -> bool * S;
  ks_set_if_absent : Z -> string -> stored -> option Z -> S -> bool * S;
  ks_delete : Z -> string -> S -> bool * S;
  ks_incr : Z -> string -> S -> option (Z * S);
  ks_ttl : Z -> string -> S -> Z;
  ks_expire : Z -> string -> Z -> S -> bool * S;
  ks_contents : S -> string -> option entry;
}.

(** What is seen under [k] at time [now]. *)
Definition view {S} `{KeyStore S} (now : Z) (k : string) (s : S) : option entry :=
  live now (ks_contents s k).

(** From [now] on, the two stores show the same under [k]. *)
Definition same_from {S} `{KeyStore S} (now : Z) (k : string) (s s' : S) : Prop :=
  forall t, now <= t -> view t k s' = view t k s.

(** From [now] on, [s'] shows [o] under [k]. *)
Definition shows_from {S} `{KeyStore S} (now : Z) (k : string) (o : option entry) (s' : S) : Prop :=
  forall t, now <= t -> view t k s' = live t o.

(** The expiry a write gives: [time.time() + ttl if ttl else None]. *)
Definition deadline (now : Z) (ttl : option Z) : option Z :=
  match ttl with
  | Some n => if n =? 0 then None else Some (now + seconds n)
  | None => None
  end.

Class KeyStoreLaws (S : Type) `{KeyStore S} : Prop := {
  get_value now k (s : S) : fst (ks_get now k s) = fst <$> view now k s;
  get_frame now k k' (s : S) : same_from now k' s (snd (ks_get now k s));
  set_true now k v ttl (s : S) : fst (ks_set now k v ttl s) = true;
  set_here now k v ttl (s : S) : shows_from now k (Some (v, deadline now ttl)) (snd (ks_set now k v ttl s));
  set_frame now k v ttl k' (s : S) : k' <> k -> same_from now k' s (snd (ks_set now k v ttl s));
  setnx_absent now k v ttl (s : S) : view now k s = None ->
    fst (ks_set_if_absent now k v ttl s) = true
    /\ shows_from now k (Some (v, deadline now ttl)) (snd (ks_set_if_absent now k v ttl s));
  setnx_present now k v ttl (s : S) : view now k s <> None ->
    fst (ks_set_if_absent now k v ttl s) = false
    /\ same_from now k s (snd (ks_set_if_absent now k v ttl s));
  setnx_frame now k v ttl k' (s : S) : k' <> k ->
    same_from now k' s (snd (ks_set_if_absent now k v ttl s));
  delete_here now k (s : S) : shows_from now k None (snd (ks_delete now k s));
  delete_found now k (s : S) : view now k s <> None -> fst (ks_delete now k s) = true;
  delete_frame now k k' (s : S) : k' <> k -> same_from now k' s (snd (ks_delete now k s));
  incr_absent now k (s : S) : view now k s = None ->
    exists s', ks_incr now k s = Some (1, s') /\ shows_from now k (Some (SInt 1, None)) s';
  incr_counter now k n e (s : S) : view now k s = Some (SInt n, e) ->
    exists s', ks_incr now k s = Some (n + 1, s') /\ shows_from now k (Some (SInt (n + 1), e)) s';
  incr_frame now k k' (s s' : S) n : k' <> k -> ks_incr now k s = Some (n, s') -> same_from now k' s s';
  ttl_bound now k v e (s : S) : view now k s = Some (v, Some e) ->
    seconds (ks_ttl now k s) <= (e - now) + 500000;
  ttl_absent now k (s : S) : view now k s = None -> ks_ttl now k s = -2;
  ttl_forever now k v (s : S) : view now k s = Some (v, None) -> ks_ttl now k s = -1;
  expire_live now k ttl v e (s : S) : view now k s = Some (v, e) ->
    fst (ks_expire now k ttl s) = true
    /\ shows_from now k (Some (v, Some (now + seconds ttl))) (snd (ks_expire now k ttl s));
  expire_frame now k ttl k' (s : S) : k' <> k -> same_from now k' s (snd (ks_expire now k ttl s));
}.

(** Time only takes entries away. *)
Lemma live_later now t o : now <= t -> live now o = None -> live t o = None.
Proof.
  intros Ht. destruct o as [[v [e|]]|]; simpl; [|done|done].
  destruct (Z.leb_spec e now); [|done]. destruct (Z.leb_spec e t); [done|lia].
Qed.

Lemma live_some now o v e : live now o = Some (v, e) -> o = Some (v, e) /\ expired_at now e = false.
Proof. destruct o as [[w f]|]; simpl; [|done]. destruct (expired_at now f) eqn:?; naive_solver. Qed.

Lemma live_same now t o v e : now <= t -> live t o = Some (v, e) -> live now o = Some (v, e).
Proof.
  intros Ht [-> Hx]%live_some. destruct e as [e|]; simpl in *; [|done].
  apply Z.leb_gt in Hx. destruct (Z.leb_spec e now); [lia|done].
Qed.

Section views.
Context {S : Type} `{KeyStore S}.

Lemma view_later now t k (s : S) : now <= t -> view now k s = None -> view t k s = None.
Proof. apply live_later. Qed.

Lemma view_before now t k (s : S) v e : now <= t -> view t k s = Some (v, e) -> view now k s = Some (v, e).
Proof. apply live_same. Qed.

Lemma view_live now k (s : S) v e : view now k s = Some (v, Some e) -> now < e.
Proof. intros [_ Hx]%live_some. simpl in Hx. lia. Qed.

Lemma view_until now t k (s : S) v e : view now k s = Some (v, Some e) -> t < e ->
  view t k s = Some (v, Some e).
Proof.
  unfold view. intros [-> _]%live_some Ht. simpl. destruct (Z.leb_spec e t); [lia|done].
Qed.

Lemma same_from_refl now k (s : S) : same_from now k s s.
Proof. by intros t _. Qed.

Lemma same_from_trans now t k (s s' s'' : S) : now <= t ->
  same_from now k s s' -> same_from t k s' s'' -> same_from t k s s''.
Proof. intros Hle H1 H2 u Hu. rewrite (H2 u Hu). apply H1. lia. Qed.

(** The Lua script of [store_compare_and_delete], which Redis runs as one step. *)
Definition consume_script (now : Z) (k : string) (expected : stored) (s : S) : bool * S :=
  let (current, s) := ks_get now k s in
  match current with
  | None => (false, s)
  | Some v => if bool_decide (v = expected) then (true, snd (ks_delete now k s)) else (false, s)
  end.

Lemma consume_spec `{!KeyStoreLaws S} now k v (s : S) : fst <$> view now k s = Some v ->
  fst (consume_script now k v s) = true /\ shows_from now k None (snd (consume_script now k v s)).
Proof.
  intros Hv. unfold consume_script. pose proof (get_value now k s) as Hg.
  destruct (ks_get now k s) as [o s']. simpl in Hg. subst o. rewrite Hv.
  rewrite bool_decide_eq_true_2 by done. split; [done|]. apply delete_here.
Qed.

Lemma consume_differs `{!KeyStoreLaws S} now k v (s : S) : fst <$> view now k s <> Some v ->
  fst (consume_script now k v s) = false /\ same_from now k s (snd (consume_script now k v s)).
Proof.
  intros Hv. unfold consume_script. pose proof (get_value now k s) as Hg.
  pose proof (get_frame now k k s) as Hs. destruct (ks_get now k s) as [o s']. simpl in Hg, Hs. subst o.
  destruct (fst <$> view now k s) as [w|]; [|done]. rewrite bool_decide_eq_false_2 by congruence. done.
Qed.

Lemma consume_frame `{!KeyStoreLaws S} now k v k' (s : S) : k' <> k ->
  same_from now k' s (snd (consume_script now k v s)).
Proof.
  intros Hne. unfold consume_script. pose proof (get_frame now k k' s) as Hs.
  destruct (ks_get now k s) as [[w|] s']; simpl in Hs; [|done]. case_bool_decide; [|done]. simpl.
  intros t Ht. rewrite (delete_frame now k k' s' Hne t Ht). by apply Hs.
Qed.

Lemma same_from_later now t k (s s' : S) : now <= t -> same_from now k s s' -> same_from t k s s'.
Proof. intros Hle Hs u Hu. apply Hs. lia. Qed.
End views.

#[export] Hint Resolve same_from_refl : keystore.

(** * The in-process store *)

(** [self._data]. Every method runs under the store's lock. *)
Abbreviation memory := (gmap string entry).

Module MemoryStore.

Definition _expired : Z -> option Z -> bool := expired_at.

Definition _purge (now : Z) (s : memory) : memory :=
  filter (fun kv => _expired now (snd (snd kv)) = false) s.

Definition get (now : Z) (k : string) (s : memory) : option stored * memory :=
  match s !! k with
  | None => (None, s)
  | Some (v, e) => if _expired now e then (None, delete k s) else (Some v, s)
  end.

Definition set (now : Z) (k : string) (v : stored) (ttl : option Z) (s : memory) : bool * memory :=
  (true, <[k := (v, deadline now ttl)]> (_purge now s)).

Definition set_if_absent (now : Z) (k : string) (v : stored) (ttl : option Z) (s : memory)
    : bool * memory :=
  let (current, s) := get now k s in
  if is_some current then (false, s) else set now k v ttl s.

Definition delete (now : Z) (k : string) (s : memory) : bool * memory :=
  (is_some (s !! k), base.delete k s).

(** [int(current or 0) + 1]; [None] is the error of [int] on what is no number. *)
Definition incr (now : Z) (k : string) (ttl : option Z) (s : memory) : option (Z * memory) :=
  let (current, s) := get now k s in
  match current with
  | None => Some (1, snd (set now k (SInt 1) ttl s))
  | Some v =>
      n ← as_counter v;
      Some (n + 1, <[k := (SInt (n + 1), (s !! k) ≫= snd)]> s)
  end.

(** [int(expires_at - time.time())] truncates. *)
Definition ttl (now : Z) (k : string) (s : memory) : Z :=
  match s !! k with
  | None => -2
  | Some (_, None) => -1
  | Some (_, Some e) => let remaining := Z.quot (e - now) (seconds 1) in
                        if remaining >? 0 then remaining else -2
  end.

Definition expire (now : Z) (k : string) (ttl : Z) (s : memory) : bool * memory :=
  match s !! k with
  | None => (false, s)
  | Some (v, _) => (true, <[k := (v, Some (now + seconds ttl))]> s)
  end.

Definition compare_and_delete (now : Z) (k : string) (expected : stored) (s : memory) : bool * memory :=
  match s !! k with
  | None => (false, s)
  | Some (v, e) =>
      if _expired now e then (false, base.delete k s)
      else if bool_decide (v = expected) then (true, base.delete k s)
      else (false, s)
  end.

#[export] Instance memory_store : KeyStore memory := {|
  ks_get := get;
  ks_set := set;
  ks_set_if_absent := set_if_absent;
  ks_delete := delete;
  ks_incr now k s := incr now k None s;
  ks_ttl := ttl;
  ks_expire := expire;
  ks_contents s k := s !! k;
|}.

Lemma purge_view now t k s : now <= t -> live t (_purge now s !! k) = live t (s !! k).
Proof.
  intros Ht. unfold _purge. destruct (s !! k) as [[v e]|] eqn:Hk.
  - destruct (_expired now e) eqn:He.
    + replace (filter _ s !! k) with (@None entry).
      * symmetry. apply (live_later now); [done|]. unfold live, _expired in *. by rewrite He.
      * symmetry. apply map_lookup_filter_None_2. right. intros x Hx. simpl.
        simplify_eq. simpl. by rewrite He.
    + by rewrite (map_lookup_filter_Some_2 _ s k (v, e)).
  - rewrite map_lookup_filter_None_2; [done|]. by left.
Qed.

Lemma insert_shows now k o s : shows_from now k (Some o) (<[k := o]> s).
Proof. intros t _. unfold view. simpl. by rewrite lookup_insert_eq. Qed.

Lemma insert_frame now k o k' s : k' <> k -> same_from now k' s (<[k := o]> s).
Proof. intros Hne t _. unfold view. simpl. by rewrite lookup_insert_ne. Qed.

Lemma delete_shows now k s : shows_from now k None (base.delete k s).
Proof. intros t _. unfold view. simpl. by rewrite lookup_delete_eq. Qed.

Lemma delete_same now k k' s : k' <> k -> same_from now k' s (base.delete k s).
Proof. intros Hne t _. unfold view. simpl. by rewrite lookup_delete_ne. Qed.

Lemma purge_same now k s : same_from now k s (_purge now s).
Proof. intros t Ht. by apply purge_view. Qed.

Lemma expired_same now k s v e : s !! k = Some (v, e) -> expired_at now e = true ->
  same_from now k s (base.delete k s).
Proof.
  intros Hk He t Ht. unfold view. simpl. rewrite lookup_delete_eq, Hk. symmetry.
  apply (live_later now); [done|]. simpl. by rewrite He.
Qed.

Lemma memory_get_same now k k' s : same_from now k' s (snd (get now k s)).
Proof.
  unfold get. destruct (s !! k) as [[v e]|] eqn:Hk; [|apply same_from_refl].
  unfold _expired. destruct (expired_at now e) eqn:He; [|apply same_from_refl].
  destruct (decide (k' = k)) as [->|]; [by eapply expired_same|by apply delete_same].
Qed.

Lemma get_fst now k s : fst (get now k s) = fst <$> view now k s.
Proof.
  unfold get, view. simpl. destruct (s !! k) as [[v e]|]; [|done]. simpl. unfold _expired.
  by destruct (expired_at now e).
Qed.

Lemma set_shows now k v tl s : shows_from now k (Some (v, deadline now tl)) (snd (set now k v tl s)).
Proof. apply insert_shows. Qed.

Lemma set_same now k v tl k' s : k' <> k -> same_from now k' s (snd (set now k v tl s)).
Proof.
  intros Hne. eapply same_from_trans; [done|apply purge_same|]. by apply insert_frame.
Qed.

#[local] Hint Resolve insert_shows insert_frame delete_shows delete_same memory_get_same set_shows set_same
  purge_same expired_same : keystore.

(** The in-process store obeys the laws of the shared one. *)
#[export] Instance memory_laws : KeyStoreLaws memory.
Proof.
  assert (Hget : forall now k s, exists o s', get now k s = (o, s') /\ o = fst <$> view now k s
                   /\ (forall k', same_from now k' s s')).
  { intros now k s. exists (fst (get now k s)), (snd (get now k s)).
    split; [by destruct (get now k s)|]. split; [apply get_fst|]. intros k'. apply memory_get_same. }
  split; cbn [ks_get ks_set ks_set_if_absent ks_delete ks_incr ks_ttl ks_expire memory_store]; try by eauto with keystore.
  - intros. apply get_fst.
  - intros now k v tl s Hv. unfold set_if_absent. destruct (Hget now k s) as (o & s' & -> & Ho & Hs).
    rewrite Hv in Ho. subst o. simpl. eauto with keystore.
  - intros now k v tl s Hv. unfold set_if_absent. destruct (Hget now k s) as (o & s' & -> & Ho & Hs).
    destruct (view now k s) as [[w e]|]; [|done]. subst o. simpl. eauto.
  - intros now k v tl k' s Hne. unfold set_if_absent. destruct (Hget now k s) as (o & s' & -> & Ho & Hs).
    destruct (is_some o); [apply Hs|]. eapply same_from_trans; [done|apply Hs|]. by apply set_same.
  - intros now k s. apply delete_shows.
  - intros now k s Hv. unfold view in Hv. simpl in Hv. unfold delete. by destruct (s !! k).
  - intros now k k' s. apply delete_same.
  - intros now k s Hv. unfold incr. destruct (Hget now k s) as (o & s' & -> & Ho & Hs).
    rewrite Hv in Ho. subst o. simpl. eexists. split; [done|]. apply insert_shows.
  - intros now k n e s Hv. unfold incr, get. unfold view in Hv. simpl in Hv.
    apply live_some in Hv as [Hk He]. rewrite Hk. unfold _expired. rewrite He. simpl.
    rewrite Hk. simpl. eexists. split; [done|]. apply insert_shows.
  - intros now k k' s s' n Hne. unfold incr. destruct (Hget now k s) as (o & s1 & -> & Ho & Hs).
    destruct o as [v|].
    + destruct (as_counter v) as [c|]; simpl; [|done]. intros [= _ <-].
      eapply same_from_trans; [done|apply Hs|]. by apply insert_frame.
    + intros [= _ <-]. eapply same_from_trans; [done|apply Hs|]. by apply (set_same now k (SInt 1) None).
  - intros now k v e s [Hk Hx]%live_some. unfold ttl. simpl in Hk. rewrite Hk.
    simpl in Hx. apply Z.leb_gt in Hx. cbv zeta. change (seconds 1) with 1000000.
    rewrite Z.quot_div_nonneg by lia.
    pose proof (Z.mul_div_le (e - now) 1000000 ltac:(lia)).
    destruct (_ >? 0); unfold seconds in *; lia.
  - intros now k s Hv. unfold view in Hv. simpl in Hv. unfold ttl.
    destruct (s !! k) as [[v [e|]]|]; [|done|done]. simpl in Hv.
    destruct (Z.leb_spec e now); [|done]. cbv zeta.
    assert (Z.quot (e - now) (seconds 1) <= 0).
    { apply Z.quot_le_upper_bound; unfold seconds; lia. }
    destruct (Z.gtb_spec (Z.quot (e - now) (seconds 1)) 0); [lia|done].
  - intros now k v s [Hk _]%live_some. simpl in Hk. unfold ttl. by rewrite Hk.
  - intros now k tl v e s [Hk _]%live_some. simpl in Hk. unfold expire. rewrite Hk. simpl.
    eauto with keystore.
  - intros now k tl k' s Hne. unfold expire. destruct (s !! k) as [[v e]|]; eauto with keystore.
Qed.

(** The in-process [compare_and_delete] does what the script does. *)
Lemma compare_and_delete_script now k v s :
  fst (compare_and_delete now k v s) = fst (consume_script now k v s)
  /\ forall k', same_from now k' (snd (compare_and_delete now k v s)) (snd (consume_script now k v s)).
Proof.
  unfold compare_and_delete, consume_script. simpl. unfold get, _expired.
  destruct (s !! k) as [[w e]|] eqn:Hk; [|split; intros; [done|apply same_from_refl]].
  destruct (expired_at now e); [split; intros; [done|apply same_from_refl]|].
  case_bool_decide; (split; intros; [done|apply same_from_refl]).
Qed.

End MemoryStore.

(** * The public functions *)

(** How one call reaches Redis: it answers; there is no client; or the call
    raises, before or after the server carried the command out. *)
Inductive link : Type := Up | Down | Raises (applied : bool).

Record auth_store (S : Type) : Type := AuthStore { shared : S; local : memory }.
Arguments AuthStore {S} shared local.
Arguments shared {S} _.
Arguments local {S} _.

(** Redis refuses an [EX] of zero or less. *)
Definition refused_ttl (ttl : option Z) : bool :=
  match ttl with Some n => n <=? 0 | None => false end.

Definition ttl_checked (ttl : option Z) (l : link) : link :=
  match l with Down => Down | _ => if refused_ttl ttl then Raises false else l end.

(** Whether Redis carries a command out. *)
Definition carried (l : link) : bool :=
  match l with Up => true | Down => false | Raises applied => applied end.

Section public.
Context {S : Type} `{KeyStore S} (redis_required : bool).

Definition with_shared (st : auth_store S) (s : S) : auth_store S := AuthStore s (local st).
Definition with_memory (st : auth_store S) (m : memory) : auth_store S := AuthStore (shared st) m.

(** A result of the in-process store. *)
Definition in_memory {A} (f : memory -> A * memory) (st : auth_store S) : A * auth_store S :=
  let (r, m) := f (local st) in (r, with_memory st m).

Definition on_redis {A} (f : S -> A * S) (st : auth_store S) : A * auth_store S :=
  let (r, s) := f (shared st) in (r, with_shared st s).

(** The effect of a call that raised. *)
Definition after_raise {A} (applied : bool) (f : S -> A * S) (st : auth_store S) : auth_store S :=
  if applied then snd (on_redis f st) else st.

(** A write, read or delete: refused when Redis is required and fails, carried
    out in memory when it is not. *)
Definition guarded {A} (l : link) (refusal : A) (f : S -> A * S) (g : memory -> A * memory)
    (st : auth_store S) : A * auth_store S :=
  let fallback st := if redis_required then (refusal, st) else in_memory g st in
  match l with
  | Up => on_redis f st
  | Down => fallback st
  | Raises applied => fallback (after_raise applied f st)
  end.

Definition store_set (l : link) (now : Z) (k : string) (v : stored) (ttl : option Z)
    (st : auth_store S) : bool * auth_store S :=
  let l := ttl_checked ttl l in
  guarded l false (ks_set now k v ttl) (MemoryStore.set now k v ttl) st.

Definition store_get (l : link) (now : Z) (k : string) (st : auth_store S)
    : option stored * auth_store S :=
  guarded l None (ks_get now k) (MemoryStore.get now k) st.

Definition store_delete (l : link) (now : Z) (k : string) (st : auth_store S) : bool * auth_store S :=
  guarded l false (ks_delete now k) (MemoryStore.delete now k) st.

(** The remaining four fall back to memory whether Redis is required or not, the
    last one only when there is no client and Redis is not required. *)
Definition store_set_if_absent (l : link) (now : Z) (k : string) (v : stored) (ttl : option Z)
    (st : auth_store S) : bool * auth_store S :=
  let l := ttl_checked ttl l in
  match l with
  | Up => on_redis (ks_set_if_absent now k v ttl) st
  | Down => in_memory (MemoryStore.set_if_absent now k v ttl) st
  | Raises applied =>
      in_memory (MemoryStore.set_if_absent now k v ttl)
        (after_raise applied (ks_set_if_absent now k v ttl) st)
  end.

(** The expiry is set when the counter is new; [None] is an error of the
    counter's value in memory. *)
Definition store_incr (l : link) (now : Z) (k : string) (ttl : option Z) (st : auth_store S)
    : option (Z * auth_store S) :=
  let fallback st :=
    '(n, m) ← MemoryStore.incr now k ttl (local st); Some (n, with_memory st m) in
  match l, ks_incr now k (shared st) with
  | Up, Some (n, s) =>
      let s := match ttl with
               | Some t => if negb (t =? 0) && (ks_ttl now k s <? 0)
                           then snd (ks_expire now k t s) else s
               | None => s
               end in
      Some (n, with_shared st s)
  | Raises true, Some (_, s) => fallback (with_shared st s)
  | _, _ => fallback st
  end.

Definition store_ttl (l : link) (now : Z) (k : string) (st : auth_store S) : Z :=
  match l with
  | Up => ks_ttl now k (shared st)
  | _ => MemoryStore.ttl now k (local st)
  end.

Definition store_expire (l : link) (now : Z) (k : string) (ttl : Z) (st : auth_store S)
    : bool * auth_store S :=
  match l with
  | Up => on_redis (ks_expire now k ttl) st
  | Down => in_memory (MemoryStore.expire now k ttl) st
  | Raises applied =>
      in_memory (MemoryStore.expire now k ttl) (after_raise applied (ks_expire now k ttl) st)
  end.

Definition store_compare_and_delete (l : link) (now : Z) (k : string) (expected : stored)
    (st : auth_store S) : bool * auth_store S :=
  match l with
  | Up => on_redis (consume_script now k expected) st
  | Down => if redis_required then (false, st)
            else in_memory (MemoryStore.compare_and_delete now k expected) st
  | Raises applied => (false, after_raise applied (consume_script now k expected) st)
  end.

End public.

(** * When Redis is required *)

Section required.
Context {S : Type} `{KeyStoreLaws S}.
Implicit Types st : auth_store S.

Lemma guarded_required {A} l (refusal : A) f g st :
  guarded true l refusal f g st
  = match l with
    | Up => on_redis f st
    | Down => (refusal, st)
    | Raises applied => (refusal, after_raise applied f st)
    end.
Proof. by destruct l. Qed.

Lemma shared_on_redis {A} (f : S -> A * S) st : shared (snd (on_redis f st)) = snd (f (shared st)).
Proof. unfold on_redis. by destruct (f (shared st)). Qed.

Lemma fst_on_redis {A} (f : S -> A * S) st : fst (on_redis f st) = fst (f (shared st)).
Proof. unfold on_redis. by destruct (f (shared st)). Qed.

(** The effect of a guarded command on Redis: all of it or nothing. *)
Lemma guarded_effect {A} l (refusal : A) f g st :
  shared (snd (guarded true l refusal f g st))
  = if carried l then snd (f (shared st)) else shared st.
Proof.
  rewrite guarded_required. destruct l as [| |[|]]; simpl; by rewrite ?shared_on_redis.
Qed.

Lemma guarded_answer {A} l (refusal : A) f g st :
  fst (guarded true l refusal f g st)
  = match l with Up => fst (f (shared st)) | _ => refusal end.
Proof. rewrite guarded_required. destruct l; simpl; by rewrite ?fst_on_redis. Qed.

Definition written (ttl : option Z) (l : link) : bool := carried (ttl_checked ttl l).

Lemma set_answer l now k v ttl st :
  fst (store_set true l now k v ttl st) = true ->
  shows_from now k (Some (v, deadline now ttl)) (shared (snd (store_set true l now k v ttl st)))
  /\ refused_ttl ttl = false.
Proof.
  unfold store_set. rewrite guarded_answer, guarded_effect. unfold ttl_checked.
  destruct l; [|done|destruct (refused_ttl ttl); done]. destruct (refused_ttl ttl); [done|].
  intros _. split; [apply set_here|done].
Qed.

Lemma set_effect l now k v ttl st :
  if written ttl l
  then shows_from now k (Some (v, deadline now ttl)) (shared (snd (store_set true l now k v ttl st)))
  else shared (snd (store_set true l now k v ttl st)) = shared st.
Proof.
  unfold store_set, written. rewrite guarded_effect. destruct (carried _); [apply set_here|done].
Qed.

Lemma set_other l now k v ttl k' st : k' <> k ->
  same_from now k' (shared st) (shared (snd (store_set true l now k v ttl st))).
Proof.
  intros Hne. unfold store_set. rewrite guarded_effect.
  destruct (carried _); [by apply set_frame|apply same_from_refl].
Qed.

Lemma get_answer l now k st v : fst (store_get true l now k st) = Some v ->
  l = Up /\ fst <$> view now k (shared st) = Some v.
Proof. unfold store_get. rewrite guarded_answer. destruct l; [|done|done]. by rewrite get_value. Qed.

Lemma get_same l now k k' st : same_from now k' (shared st) (shared (snd (store_get true l now k st))).
Proof.
  unfold store_get. rewrite guarded_effect. destruct (carried _); [apply get_frame|apply same_from_refl].
Qed.

Lemma store_delete_effect l now k st :
  if carried l then shows_from now k None (shared (snd (store_delete true l now k st)))
  else shared (snd (store_delete true l now k st)) = shared st.
Proof. unfold store_delete. rewrite guarded_effect. destruct (carried l); [apply delete_here|done]. Qed.

Lemma delete_other l now k k' st : k' <> k ->
  same_from now k' (shared st) (shared (snd (store_delete true l now k st))).
Proof.
  intros Hne. unfold store_delete. rewrite guarded_effect.
  destruct (carried _); [by apply delete_frame|apply same_from_refl].
Qed.

(** A value is consumed by an answering Redis, when it is the one expected. *)
Lemma consume_answer l now k v st : fst (store_compare_and_delete true l now k v st) = true <->
  l = Up /\ fst <$> view now k (shared st) = Some v.
Proof.
  unfold store_compare_and_delete. destruct l; [|simpl; naive_solver|simpl; naive_solver].
  rewrite fst_on_redis. destruct (decide (fst <$> view now k (shared st) = Some v)) as [E|E].
  - destruct (consume_spec now k v (shared st) E) as [-> _]. naive_solver.
  - destruct (consume_differs now k v (shared st) E) as [-> _]. naive_solver.
Qed.

Lemma consume_taken l now k v st : fst (store_compare_and_delete true l now k v st) = true ->
  shows_from now k None (shared (snd (store_compare_and_delete true l now k v st))).
Proof.
  intros [-> Hv]%consume_answer. simpl. rewrite shared_on_redis. by apply consume_spec.
Qed.

(** Whatever it answers, the key shows what it did, or nothing. *)
Lemma consume_effect l now k v st :
  shows_from now k None (shared (snd (store_compare_and_delete true l now k v st)))
  \/ same_from now k (shared st) (shared (snd (store_compare_and_delete true l now k v st))).
Proof.
  assert (Hs : shows_from now k None (snd (consume_script now k v (shared st)))
               \/ same_from now k (shared st) (snd (consume_script now k v (shared st)))).
  { destruct (decide (fst <$> view now k (shared st) = Some v)) as [E|E].
    - left. by apply consume_spec.
    - right. by apply consume_differs. }
  unfold store_compare_and_delete. destruct l as [| |[|]]; simpl; rewrite ?shared_on_redis; eauto with keystore.
Qed.

Lemma consume_other l now k v k' st : k' <> k ->
  same_from now k' (shared st) (shared (snd (store_compare_and_delete true l now k v st))).
Proof.
  intros Hne. unfold store_compare_and_delete. destruct l as [| |[|]]; simpl; rewrite ?shared_on_redis;
    auto using same_from_refl, consume_frame.
Qed.

End required.

(** When and how one call of a public function is made. *)
Record call : Type := Call { at_time : Z; via : link }.

(** * Histories *)

(** A log of events, the latest first; the last thing that happened to a key. *)
Section logs.
Context {E : Type} (event_key : E -> string).

Definition latest (k : string) (log : list E) : option E :=
  List.find (fun ev => String.eqb (event_key ev) k) log.

Lemma latest_skip k evs log : (forall ev, ev ∈ evs -> event_key ev <> k) ->
  latest k (evs ++ log) = latest k log.
Proof.
  unfold latest. intros Hne. rewrite find_app. destruct (List.find _ evs) as [ev|] eqn:Hf; [|done].
  apply List.find_some in Hf as [Hin E0]. exfalso. apply (Hne ev); [by apply list_elem_of_In|].
  by apply String.eqb_eq.
Qed.

Lemma latest_other k ev log : event_key ev <> k -> latest k (ev :: log) = latest k log.
Proof. intros Hne. apply (latest_skip k [ev]). intros ev' ->%list_elem_of_singleton. done. Qed.

Lemma latest_here ev log : latest (event_key ev) (ev :: log) = Some ev.
Proof. unfold latest. simpl. by rewrite String.eqb_refl. Qed.

End logs.
