(* ===== verification/OneTime.v ===== *)
(** One-time codes: class OTPService (app/auth/otp_service.py), the verification
    of an account's email (app/auth/email.py) and of its phone
    (app/auth/phone_verification.py), and the verification of a channel of an
    existing account in app/auth/pending_registration.py. The six digits drawn and
    what the mail or SMS gateway answers are arguments; the keyed digest is
    [OtpDigest]. *)

From S2P Require Import Prelude Tables AuthModel KeyStore.
From stdpp Require Import pretty.

Local Open Scope Z_scope.

(** [hmac.new(pepper, otp, sha256).hexdigest()] under the application's pepper. *)
Class OtpDigest : Type := otp_digest : string -> string.

(** The last part of a key: which flow the code belongs to. *)
Definition otp_key (identifier purpose : string) : string :=
  ("otp:" +:+ identifier +:+ ":" +:+ purpose)%string.

(** [s.isdigit()] on ASCII. *)
Fixpoint all_digits (s : string) : bool :=
  match s with
  | EmptyString => true
  | String c s => let n := Ascii.nat_of_ascii c in
                  Nat.leb 48 n && Nat.leb n 57 && all_digits s
  end.
Definition isdigit (s : string) : bool := negb (String.eqb s "") && all_digits s.

(** [not otp.isdigit() or len(otp) != 6] *)
Definition malformed (otp : string) : bool :=
  negb (isdigit otp) || negb (Nat.eqb (String.length otp) 6).

Definition some_text (s : string) : bool := negb (String.eqb s "").

(** The answers of the verifications. *)
Inductive otp_message : Type :=
  | MissingParameters | NotFoundOrExpired | Verified | UsedOrReplaced | InvalidOtp
  | EnterSixDigits | UserNotFound | NoEmailOnUser | EmailVerified | VerificationFailed
  | VerifyEmailFirst | PhoneNotSaved | InvalidOrExpired | AccountVerified.

#[export] Instance otp_message_eq_dec : EqDecision otp_message.
Proof. solve_decision. Defined.

(** What the gateway answers: sent, logged for a developer, or failed. *)
Inductive delivery : Type := Sent | DevFallback | Undelivered.

Definition delivered (d : delivery) : bool := match d with Undelivered => false | _ => true end.

Module OTPService.
Section service.
Context {S : Type} `{KeyStore S} `{OtpDigest} (redis_required : bool).

(** [digits] are the draws of [secrets.randbelow(10)]; a length below 4 raises. *)
Definition generate_otp (length : nat) (digits : nat -> nat) : option string :=
  if Nat.ltb length 4 then None
  else Some (String.concat "" (pretty ∘ digits <$> seq 0 length)).

Definition hash_otp (otp : string) : string := otp_digest otp.

Definition verify_otp_hash (otp expected_hash : string) : bool :=
  if negb (some_text otp) || negb (some_text expected_hash) then false
  else String.eqb (hash_otp otp) expected_hash.

(** [None] is the ValueError of a missing parameter. *)
Definition store_otp (c : call) (identifier otp purpose : string) (ttl : Z) (st : auth_store S)
    : option (bool * auth_store S) :=
  if negb (some_text identifier) || negb (some_text otp) || negb (some_text purpose) then None
  else Some (store_set redis_required (via c) (at_time c) (otp_key identifier purpose)
               (SText (hash_otp otp)) (Some ttl) st).

(** The first half of [verify_otp]: everything before the code is consumed. On
    the right it gives the hash it has checked. *)
Definition read_otp (c : call) (identifier otp purpose : string) (st : auth_store S)
    : (otp_message + string) * auth_store S :=
  if negb (some_text identifier) || negb (some_text otp) || negb (some_text purpose)
  then (inl MissingParameters, st)
  else
    let (v, st) := store_get redis_required (via c) (at_time c) (otp_key identifier purpose) st in
    match v ≫= as_text with
    | None => (inl NotFoundOrExpired, st)
    | Some h => if negb (some_text h) then (inl NotFoundOrExpired, st)
                else if verify_otp_hash otp h then (inr h, st) else (inl InvalidOtp, st)
    end.

(** The second half: the checked hash is consumed, if it is still there. *)
Definition consume_otp (c : call) (identifier purpose hash : string) (st : auth_store S)
    : (bool * otp_message) * auth_store S :=
  let (consumed, st) := store_compare_and_delete redis_required (via c) (at_time c)
                          (otp_key identifier purpose) (SText hash) st in
  if consumed then ((true, Verified), st) else ((false, UsedOrReplaced), st).

Definition verify_otp (c1 c2 : call) (identifier otp purpose : string) (st : auth_store S)
    : (bool * otp_message) * auth_store S :=
  match read_otp c1 identifier otp purpose st with
  | (inl m, st) => ((false, m), st)
  | (inr h, st) => consume_otp c2 identifier purpose h st
  end.

Definition invalidate_otp (c : call) (identifier purpose : string) (st : auth_store S)
    : bool * auth_store S :=
  if negb (some_text identifier) || negb (some_text purpose) then (false, st)
  else store_delete redis_required (via c) (at_time c) (otp_key identifier purpose) st.

Definition get_remaining_ttl (c : call) (identifier purpose : string) (st : auth_store S) : Z :=
  store_ttl (via c) (at_time c) (otp_key identifier purpose) st.

(** [str(internal_user_id) if internal_user_id is not None else phone] *)
Definition sms_identifier (phone : string) (internal_user_id : option Z) : string :=
  match internal_user_id with Some i => pretty i | None => phone end.

(** [enabled] is the switch [sms_delivery_enabled()]; [sent] is what the gateway
    answers, an exception included. The second part is the code returned. *)
Definition send_sms_otp (c1 c2 : call) (enabled sent : bool) (phone otp : string)
    (internal_user_id : option Z) (st : auth_store S) : option ((bool * option string) * auth_store S) :=
  if negb (some_text phone) then Some ((false, None), st)
  else if negb enabled then Some ((false, None), st)
  else
    let identifier := sms_identifier phone internal_user_id in
    '(stored, st) ← store_otp c1 identifier otp "sms_verification" 300 st;
    if negb stored then Some ((false, None), st)
    else if sent then Some ((true, Some otp), st)
    else Some ((false, None), snd (invalidate_otp c2 identifier "sms_verification" st)).

(** Annotated [bool]; it returns [False] or the pair of [verify_otp]. *)
Definition verify_sms_otp (c1 c2 : call) (phone otp : string) (internal_user_id : option Z)
    (st : auth_store S) : (bool + (bool * otp_message)) * auth_store S :=
  let identifier := sms_identifier phone internal_user_id in
  if negb (some_text identifier) || negb (some_text otp) then (inl false, st)
  else let (r, st) := verify_otp c1 c2 identifier otp "sms_verification" st in (inr r, st).

(** Python's truth value of what [verify_sms_otp] returns: a pair is true. *)
Definition truth (r : bool + (bool * otp_message)) : bool :=
  match r with inl b => b | inr _ => true end.

End service.
End OTPService.

(** * Changing a user row *)

Definition set_email_verified (u : user) (at_ : option Z) : user := {|
  us_id := us_id u; us_public_id := us_public_id u; us_username := us_username u;
  us_email := us_email u; us_phone := us_phone u; us_password_hash := us_password_hash u;
  us_is_active := us_is_active u; us_is_deleted := us_is_deleted u;
  us_is_verified := true; us_email_verified := true; us_email_verified_at := at_;
  us_phone_verified := us_phone_verified u; us_phone_verified_at := us_phone_verified_at u;
  us_activated_at := us_activated_at u;
|}.

Definition set_phone_verified (u : user) (at_ : Z) : user := {|
  us_id := us_id u; us_public_id := us_public_id u; us_username := us_username u;
  us_email := us_email u; us_phone := us_phone u; us_password_hash := us_password_hash u;
  us_is_active := us_is_active u; us_is_deleted := us_is_deleted u;
  us_is_verified := us_is_verified u; us_email_verified := us_email_verified u;
  us_email_verified_at := us_email_verified_at u;
  us_phone_verified := true; us_phone_verified_at := Some at_;
  us_activated_at := us_activated_at u;
|}.

(** [user.phone = phone]: the column's validator drops the blanks. *)
Fixpoint drop_blanks (s : string) : string :=
  match s with
  | EmptyString => EmptyString
  | String c s => if Nat.eqb (Ascii.nat_of_ascii c) 32 then drop_blanks s else String c (drop_blanks s)
  end.

Definition validate_phone (phone : string) : string := drop_blanks (strip phone).

Definition set_phone (u : user) (phone : string) : user := {|
  us_id := us_id u; us_public_id := us_public_id u; us_username := us_username u;
  us_email := us_email u; us_phone := Some (validate_phone phone);
  us_password_hash := us_password_hash u;
  us_is_active := us_is_active u; us_is_deleted := us_is_deleted u;
  us_is_verified := us_is_verified u; us_email_verified := us_email_verified u;
  us_email_verified_at := us_email_verified_at u;
  us_phone_verified := us_phone_verified u; us_phone_verified_at := us_phone_verified_at u;
  us_activated_at := us_activated_at u;
|}.

Definition set_active (u : user) (now : Z) : user := {|
  us_id := us_id u; us_public_id := us_public_id u; us_username := us_username u;
  us_email := us_email u; us_phone := us_phone u; us_password_hash := us_password_hash u;
  us_is_active := true; us_is_deleted := us_is_deleted u;
  us_is_verified := us_is_verified u; us_email_verified := us_email_verified u;
  us_email_verified_at := us_email_verified_at u;
  us_phone_verified := us_phone_verified u; us_phone_verified_at := us_phone_verified_at u;
  us_activated_at := match us_activated_at u with Some t => Some t | None => Some now end;
|}.

(** The commit of a changed row: its listener refuses a value another row has.
    [None] is the exception, after which the session is rolled back. *)
Definition commit_user (users : list user) (u : user) : option (list user) :=
  match check_user_duplicates users u true with
  | Some _ => None
  | None => Some (write_user u users)
  end.

Module EmailVerification.
Import OTPService.
Section email.
Context {S : Type} `{KeyStore S} `{OtpDigest} (redis_required : bool).

Definition EMAIL_OTP_TTL : Z := 1800.
Definition _PURPOSE : string := "email_verification".

Definition send_verification_email (c1 c2 : call) (d : delivery) (otp : string) (u : user)
    (st : auth_store S) : bool * auth_store S :=
  if negb (some_text (us_email u)) then (false, st)
  else match store_otp redis_required c1 (us_email u) otp _PURPOSE EMAIL_OTP_TTL st with
       | None => (false, st)
       | Some (stored, st) =>
           if negb stored then (false, st)
           else if negb (delivered d)
           then (false, snd (invalidate_otp redis_required c2 (us_email u) _PURPOSE st))
           else (true, st)
       end.

(** The code is consumed before the row is written. *)
Definition verify_email_code (c1 c2 : call) (user_id : Z) (code : string) (users : list user)
    (st : auth_store S) : (bool * otp_message) * (list user * auth_store S) :=
  let code := strip code in
  if malformed code then ((false, EnterSixDigits), (users, st))
  else match user_by_id users user_id with
       | None => ((false, UserNotFound), (users, st))
       | Some u =>
           if negb (some_text (us_email u)) then ((false, NoEmailOnUser), (users, st))
           else
             let '((success, message), st) :=
               verify_otp redis_required c1 c2 (us_email u) code _PURPOSE st in
             if negb success then ((false, message), (users, st))
             else
               let at_ := match us_email_verified_at u with
                          | Some t => Some t | None => Some (at_time c2) end in
               match commit_user users (set_email_verified u at_) with
               | None => ((false, VerificationFailed), (users, st))
               | Some users => ((true, EmailVerified), (users, st))
               end
       end.

End email.
End EmailVerification.

Module PhoneVerificationService.
Import OTPService.
Section phone.
Context {S : Type} `{KeyStore S} `{OtpDigest} (redis_required : bool).

Definition PHONE_VERIFICATION_PURPOSE : string := "phone_verification".
Definition PHONE_VERIFICATION_TTL : Z := 300.

Definition _email_is_verified (u : user) : bool := us_email_verified u || us_is_verified u.

(** The codes of the answers. *)
Inductive request_result : Type :=
  | MissingPhone | MissingEmail | EmailNotVerified | ProfileUpdateFailed | StorageFailed
  | NotDelivered | CodeSent.

(** [d] is what the chosen transport answers. The number is saved first. *)
Definition request_code (c1 c2 : call) (d : delivery) (otp : string) (u : user)
    (profile : option phone_profile) (phone_number : string) (users : list user) (st : auth_store S)
    : option (request_result * (list user * option phone_profile * auth_store S)) :=
  let email := strip (us_email u) in
  let phone_number := strip phone_number in
  if negb (some_text phone_number) then Some (MissingPhone, (users, profile, st))
  else if negb (some_text email) then Some (MissingEmail, (users, profile, st))
  else if negb (_email_is_verified u) then Some (EmailNotVerified, (users, profile, st))
  else
    let profile' := (fun p => {| pp_phone_number := Some phone_number;
                                 pp_phone_verified := pp_phone_verified p |}) <$> profile in
    let saved :=
      if bool_decide (us_phone u = Some phone_number) then Some users
      else commit_user users (set_phone u phone_number) in
    match saved with
    | None => Some (ProfileUpdateFailed, (users, profile, st))
    | Some users =>
        '(stored, st) ← store_otp redis_required c1 email otp PHONE_VERIFICATION_PURPOSE
                          PHONE_VERIFICATION_TTL st;
        if negb stored then Some (StorageFailed, (users, profile', st))
        else if delivered d then Some (CodeSent, (users, profile', st))
        else Some (NotDelivered, (users, profile',
               snd (invalidate_otp redis_required c2 email PHONE_VERIFICATION_PURPOSE st)))
    end.

Definition verify_code (c1 c2 : call) (u : user) (profile : option phone_profile) (code : string)
    (users : list user) (st : auth_store S)
    : (bool * otp_message) * (list user * option phone_profile * auth_store S) :=
  let email := strip (us_email u) in
  let code := strip code in
  if negb (some_text email) || negb (some_text code)
  then ((false, MissingParameters), (users, profile, st))
  else if negb (_email_is_verified u) then ((false, VerifyEmailFirst), (users, profile, st))
  else
    let '((success, message), st) :=
      verify_otp redis_required c1 c2 email code PHONE_VERIFICATION_PURPOSE st in
    if negb success then ((false, message), (users, profile, st))
    else match commit_user users (set_phone_verified u (at_time c2)) with
         | None => ((false, PhoneNotSaved), (users, profile, st))
         | Some users =>
             ((true, message), (users, (fun p => {| pp_phone_number := pp_phone_number p;
                                                    pp_phone_verified := true |}) <$> profile, st))
         end.

End phone.
End PhoneVerificationService.

(** The channels of an account that exists: the last two functions of
    app/auth/pending_registration.py. *)
Module ChannelVerification.
Import OTPService.
Section channel.
Context {S : Type} `{KeyStore S} `{OtpDigest} (redis_required : bool).

Definition phone_channel (channel : string) : bool := str_in channel ["sms"; "whatsapp"]%string.

Definition email_known (u : user) : bool := us_email_verified u || us_is_verified u.

(** The answers of [start_channel_verification]. *)
Inductive start_message : Type :=
  | StartUserNotFound | StartNoEmail | StartNotStored | StartNotSent | StartSentToEmail
  | StartNoPhone | StartEmailFirst | StartSentBySms | StartInvalidChannel.

(** [sms_config] is the truth value of the setting SMS_DELIVERY_ENABLED,
    [sms_switch] what [sms_delivery_enabled()] makes of it, [sms_sent] the
    gateway's answer, [d] the mail's. The third part is the code handed to the caller. *)
Definition start_channel_verification (c1 c2 : call) (sms_config sms_switch sms_sent : bool) (d : delivery)
    (otp : string) (user_id : Z) (channel : string) (users : list user) (st : auth_store S)
    : option ((bool * start_message * option string) * auth_store S) :=
  let debug := match d with DevFallback => Some otp | _ => None end in
  match user_by_id users user_id with
  | None => Some ((false, StartUserNotFound, None), st)
  | Some u =>
      if String.eqb channel "email" then
        if negb (some_text (us_email u)) then Some ((false, StartNoEmail, None), st)
        else
          '(stored, st) ← store_otp redis_required c1 (pretty (us_id u)) otp "channel_verify_email" 600 st;
          if negb stored then Some ((false, StartNotStored, None), st)
          else if negb (delivered d) then Some ((false, StartNotSent, None), st)
          else Some ((true, StartSentToEmail, debug), st)
      else if phone_channel channel then
        if negb (truthy (us_phone u)) then Some ((false, StartNoPhone, None), st)
        else if negb (some_text (us_email u)) then Some ((false, StartNoEmail, None), st)
        else if negb (email_known u) then Some ((false, StartEmailFirst, None), st)
        else if sms_config then
          '((success, _), st) ← send_sms_otp redis_required c1 c2 sms_switch sms_sent
                                  (default ""%string (us_phone u)) otp (Some (us_id u)) st;
          if negb success then Some ((false, StartNotSent, None), st)
          else Some ((true, StartSentBySms, Some otp), st)
        else
          '(stored, st) ← store_otp redis_required c1 (pretty (us_id u)) otp "sms_verification" 300 st;
          if negb stored then Some ((false, StartNotStored, None), st)
          else if negb (delivered d)
          then Some ((false, StartNotSent, None),
                     snd (invalidate_otp redis_required c2 (pretty (us_id u)) "sms_verification" st))
          else Some ((true, StartSentToEmail, debug), st)
      else Some ((false, StartInvalidChannel, None), st)
  end.

(** [valid] is the pair of [verify_otp], or what [verify_sms_otp] returns, and is
    tested as it stands. [None] is an exception of the commit. *)
Definition verify_channel_otp (c1 c2 : call) (user_id : Z) (channel otp : string)
    (users : list user) (st : auth_store S)
    : option ((bool * otp_message) * (list user * auth_store S)) :=
  match user_by_id users user_id with
  | None => Some ((false, UserNotFound), (users, st))
  | Some u =>
      let otp := strip otp in
      if malformed otp then Some ((false, EnterSixDigits), (users, st))
      else if phone_channel channel && negb (email_known u)
      then Some ((false, VerifyEmailFirst), (users, st))
      else
        let (valid, st) :=
          if String.eqb channel "email"
          then let (r, st) := verify_otp redis_required c1 c2 (pretty (us_id u)) otp "channel_verify_email" st
               in (inr r, st)
          else verify_sms_otp redis_required c1 c2 (default ""%string (us_phone u)) otp (Some (us_id u)) st in
        if negb (truth valid) then Some ((false, InvalidOrExpired), (users, st))
        else
          let u := set_active u (at_time c2) in
          let u := if String.eqb channel "email" then set_email_verified u (Some (at_time c2))
                   else if phone_channel channel then set_phone_verified u (at_time c2) else u in
          users ← commit_user users u;
          Some ((true, AccountVerified), (users, st))
  end.

End channel.
End ChannelVerification.
