(* ===== verification/MobileTokens.v ===== *)
(** Native sign-in: the opaque access and refresh tokens of
    app/auth/mobile_tokens.py, the device and server sessions of
    app/auth/sessions.py, and the handlers of app/auth/mobile_api.py that issue,
    rotate and revoke them. The digest of a token and the tokens drawn are
    arguments; the Lua scripts are translated as what Redis runs in one step. *)

From S2P Require Import Prelude Tables AuthModel KeyStore.

Local Open Scope Z_scope.

(** [hashlib.sha256(token).hexdigest()] *)
Class TokenDigest : Type := token_digest : string -> string.

(** Redis keeps sets of keys next to the values: SADD and SMEMBERS. *)
Class KeySets (S : Type) : Type := {
  ks_sadd : Z -> string -> list string -> S -> S;
  ks_smembers : Z -> string -> S -> list string;
}.

Class KeySetsLaws (S : Type) `{KeyStore S} `{KeySets S} : Prop := {
  sadd_new now k ks (s : S) : view now k s = None ->
    shows_from now k (Some (SKeys (list_to_set ks), None)) (ks_sadd now k ks s);
  sadd_more now k ks old e (s : S) : view now k s = Some (SKeys old, e) ->
    shows_from now k (Some (SKeys (old ∪ list_to_set ks), e)) (ks_sadd now k ks s);
  sadd_frame now k ks k' (s : S) : k' <> k -> same_from now k' s (ks_sadd now k ks s);
  smembers_new now k (s : S) : view now k s = None -> ks_smembers now k s = [];
  smembers_set now k ks e (s : S) : view now k s = Some (SKeys ks, e) ->
    forall x, x ∈ ks_smembers now k s <-> x ∈ ks;
}.

(** A command, script or transaction: [None] is an exception, after which the
    server may have carried it out all the same. *)
Definition command {S A : Type} (c : call) (f : S -> A * S) (s : S) : option A * S :=
  match via c with
  | Up => let (a, s) := f s in (Some a, s)
  | Down => (None, s)
  | Raises applied => (None, if applied then snd (f s) else s)
  end.

Definition ACCESS_TTL_SECONDS : Z := 10 * 60.
Definition REFRESH_TTL_SECONDS : Z := 30 * 24 * 60 * 60.
Definition SESSION_REVOKE_TTL_SECONDS : Z := 90 * 24 * 60 * 60.

(** The rows the tokens are checked against. *)
Record accounts : Type := {
  ac_users : list user;
  ac_devices : list device_session;
  ac_servers : list server_session;
}.

(** * Device and server sessions *)

Module Sessions.

Definition days (n : Z) : Z := hours (24 * n).

(** [filter_by(session_id=..., revoked_at=None).first()] *)
Definition live_device (d : accounts) (sid : string) : option device_session :=
  List.find (fun r => String.eqb (ds_session_id r) sid && negb (is_some (ds_revoked_at r))) (ac_devices d).

Definition live_server (d : accounts) (sid : string) : option server_session :=
  List.find (fun r => String.eqb (ss_session_id r) sid && negb (ss_is_revoked r)) (ac_servers d).

Definition with_devices (d : accounts) (l : list device_session) : accounts :=
  {| ac_users := ac_users d; ac_devices := l; ac_servers := ac_servers d |}.
Definition with_servers (d : accounts) (l : list server_session) : accounts :=
  {| ac_users := ac_users d; ac_devices := ac_devices d; ac_servers := l |}.

Definition write_device (r : device_session) (d : accounts) : accounts :=
  with_devices d (update_where (fun x => String.eqb (ds_session_id x) (ds_session_id r)) (fun _ => r)
                    (ac_devices d)).
Definition write_server (r : server_session) (d : accounts) : accounts :=
  with_servers d (update_where (fun x => String.eqb (ss_session_id x) (ss_session_id r)) (fun _ => r)
                    (ac_servers d)).

(** The id drawn is returned whether the row was stored or not. *)
Definition start_server_session (now : Z) (sid : string) (stored : bool) (public_user_id : string)
    (ip ua : option string) (ttl_hours : Z) (d : accounts) : string * accounts :=
  let row := {| ss_session_id := sid; ss_user_id := public_user_id; ss_ip_address := ip;
                ss_user_agent := ua; ss_expires_at := now + hours ttl_hours; ss_is_revoked := false |} in
  (sid, if stored then with_servers d (ac_servers d ++ [row]) else d).

Definition revoke_session (sid : string) (d : accounts) : bool * accounts :=
  match live_server d sid with
  | None => (false, d)
  | Some s => (true, write_server {| ss_session_id := ss_session_id s; ss_user_id := ss_user_id s;
                                     ss_ip_address := ss_ip_address s; ss_user_agent := ss_user_agent s;
                                     ss_expires_at := ss_expires_at s; ss_is_revoked := true |} d)
  end.

Definition revoke_all_sessions_for_user (public_user_id : string) (d : accounts) : accounts :=
  with_servers d (update_where (fun s => String.eqb (ss_user_id s) public_user_id && negb (ss_is_revoked s))
    (fun s => {| ss_session_id := ss_session_id s; ss_user_id := ss_user_id s;
                 ss_ip_address := ss_ip_address s; ss_user_agent := ss_user_agent s;
                 ss_expires_at := ss_expires_at s; ss_is_revoked := true |}) (ac_servers d)).

(** [fingerprint] is the digest of the device id or the user agent. *)
Definition start_device_session (now : Z) (sid fingerprint : string) (stored : bool) (u : user)
    (ip ua : option string) (ttl_days : Z) (d : accounts) : option string * accounts :=
  let row := {| ds_session_id := sid; ds_user_id := us_id u; ds_device_id := fingerprint; ds_ip := ip;
                ds_user_agent := if truthy ua then String.substring 0 512 <$> ua else None;
                ds_expires_at := Z.min (now + days ttl_days) (now + days 90);
                ds_revoked_at := None; ds_revoked_reason := None;
                ds_created_at := now; ds_updated_at := Some now |} in
  if stored then (Some sid, with_devices d (ac_devices d ++ [row])) else (None, d).

Definition revoked (now : Z) (reason : string) (r : device_session) : device_session := {|
  ds_session_id := ds_session_id r; ds_user_id := ds_user_id r; ds_device_id := ds_device_id r;
  ds_ip := ds_ip r; ds_user_agent := ds_user_agent r; ds_expires_at := ds_expires_at r;
  ds_revoked_at := Some now; ds_revoked_reason := Some reason;
  ds_created_at := ds_created_at r; ds_updated_at := Some now;
|}.

Definition revoke_device_session (now : Z) (sid : string) (user_id : option Z) (reason : string)
    (d : accounts) : bool * accounts :=
  let mine r := match user_id with
                | Some i => (i =? 0) || (ds_user_id r =? i)
                | None => true
                end in
  match List.find (fun r => String.eqb (ds_session_id r) sid && negb (is_some (ds_revoked_at r)) && mine r)
          (ac_devices d) with
  | None => (false, d)
  | Some r => (true, write_device (revoked now reason r) d)
  end.

Definition revoke_all_device_sessions_for_user (now : Z) (user_id : Z) (reason : string)
    (d : accounts) : Z * accounts :=
  let hit r := (ds_user_id r =? user_id) && negb (is_some (ds_revoked_at r)) in
  (rowcount hit (ac_devices d), with_devices d (update_where hit (revoked now reason) (ac_devices d))).

(** The sliding expiry: at most once an hour, 30 days from now, and never beyond
    90 days from the start. *)
Definition touch_device_session (now : Z) (sid : string) (d : accounts) : bool * accounts :=
  match live_device d sid with
  | None => (false, d)
  | Some r =>
      let last_touch := default (ds_created_at r) (ds_updated_at r) in
      if now - last_touch <? seconds 3600 then (false, d)
      else
        let new_expiry := Z.min (now + days 30) (ds_created_at r + days 90) in
        if new_expiry <=? ds_expires_at r then (false, d)
        else (true, write_device {| ds_session_id := ds_session_id r; ds_user_id := ds_user_id r;
                                    ds_device_id := ds_device_id r; ds_ip := ds_ip r;
                                    ds_user_agent := ds_user_agent r; ds_expires_at := new_expiry;
                                    ds_revoked_at := ds_revoked_at r;
                                    ds_revoked_reason := ds_revoked_reason r;
                                    ds_created_at := ds_created_at r; ds_updated_at := Some now |} d)
  end.

End Sessions.

(** * Tokens *)

Module MobileTokens.
Import Sessions.

Definition token_prefix : string := "afcon360:mobile:".

Section tokens.
Context {S : Type} `{KeyStore S} `{KeySets S} `{TokenDigest}.

Definition _token_key (kind token : string) : string :=
  (token_prefix +:+ kind +:+ ":" +:+ token_digest token)%string.
Definition _session_key (sid : string) : string := (token_prefix +:+ "session-keys:" +:+ sid)%string.
Definition _revoked_key (sid : string) : string := (token_prefix +:+ "revoked-session:" +:+ sid)%string.
Definition _mfa_key (challenge : string) : string :=
  (token_prefix +:+ "mfa:" +:+ token_digest challenge)%string.

(** SETEX, EXPIRE, EXISTS and DEL as a script or transaction uses them. *)
Definition setex (now : Z) (k : string) (ttl : Z) (v : stored) (s : S) : S :=
  snd (ks_set now k v (Some ttl) s).
Definition expire (now : Z) (k : string) (ttl : Z) (s : S) : S := snd (ks_expire now k ttl s).
Definition del (now : Z) (k : string) (s : S) : S := snd (ks_delete now k s).
Definition exists_ (now : Z) (k : string) (s : S) : bool * S :=
  let (v, s) := ks_get now k s in (is_some v, s).

(** [int(datetime.now(timezone.utc).timestamp())] *)
Definition timestamp (now : Z) : Z := now / seconds 1.

Record credentials : Type := {
  cr_access_token : string;
  cr_expires_in : Z;
  cr_refresh_token : string;
  cr_refresh_expires_in : Z;
}.

Definition pair_of (access_token refresh_token : string) : credentials := {|
  cr_access_token := access_token; cr_expires_in := ACCESS_TTL_SECONDS;
  cr_refresh_token := refresh_token; cr_refresh_expires_in := REFRESH_TTL_SECONDS;
|}.

(** The transaction of [issue_mobile_tokens]. *)
Definition issue_transaction (now : Z) (access_token refresh_token : string) (r : token_record) (s : S) : S :=
  let access_key := _token_key "access" access_token in
  let refresh_key := _token_key "refresh" refresh_token in
  let session_key := _session_key (tk_session_id r) in
  let s := setex now access_key ACCESS_TTL_SECONDS (SToken (token_with r (tk_issued_at r) "access")) s in
  let s := setex now refresh_key REFRESH_TTL_SECONDS (SToken (token_with r (tk_issued_at r) "refresh")) s in
  let s := ks_sadd now session_key [access_key; refresh_key] s in
  expire now session_key REFRESH_TTL_SECONDS s.

Definition issue_mobile_tokens (c : call) (access_token refresh_token : string)
    (user_public_id session_id server_session_id client device_id : string) (s : S)
    : option credentials * S :=
  let common := {| tk_user_public_id := user_public_id; tk_session_id := session_id;
                   tk_server_session_id := server_session_id; tk_client := client;
                   tk_device_id := device_id; tk_issued_at := timestamp (at_time c);
                   tk_token_type := "access" |} in
  command c (fun s => (pair_of access_token refresh_token,
                       issue_transaction (at_time c) access_token refresh_token common s)) s.

Record context : Type := {
  cx_user : user;
  cx_record : token_record;
  cx_device_session : device_session;
  cx_server_session : server_session;
}.

Definition text (s : string) : bool := negb (String.eqb s "").

(** The second option is [None] for an exception of Redis. *)
Definition _resolve_record (c : call) (r : token_record) (d : accounts) (s : S)
    : option (option context) * S :=
  if negb (text (tk_user_public_id r)) || negb (text (tk_session_id r))
     || negb (text (tk_server_session_id r)) then (Some None, s)
  else
    let now := at_time c in
    let (revoked, s) := command c (exists_ now (_revoked_key (tk_session_id r))) s in
    (revoked ← revoked;
     if (revoked : bool) then Some None else Some (
       device ← live_device d (tk_session_id r);
       if ds_expires_at device <=? now then None else
       server ← live_server d (tk_server_session_id r);
       if ss_expires_at server <=? now then None else
       u ← user_by_public_id (ac_users d) (tk_user_public_id r);
       if negb (us_is_active u) || us_is_deleted u then None
       else if negb (ds_user_id device =? us_id u) then None
       else Some {| cx_user := u; cx_record := r; cx_device_session := device;
                    cx_server_session := server |}), s).

(** [_load_json(redis.get(key))]; what is no object is no record. *)
Definition load_record (c : call) (k : string) (s : S) : option (option token_record) * S :=
  let (v, s) := command c (ks_get (at_time c) k) s in
  ((fun v => v ≫= as_token) <$> v, s).

(** The text after the first blank of the stripped header, for the scheme
    [bearer]. *)
Fixpoint partition (s : string) : string * string :=
  match s with
  | EmptyString => (EmptyString, EmptyString)
  | String ch s => if Nat.eqb (Ascii.nat_of_ascii ch) 32 then (EmptyString, s)
                   else let (a, b) := partition s in (String ch a, b)
  end.

Definition bearer_token (auth_header : string) : option string :=
  let (scheme, token) := partition (strip auth_header) in
  if negb (String.eqb (lower scheme) "bearer") || negb (text token) || Nat.ltb 256 (String.length token)
  then None else Some token.

(** Any exception is a refusal. [cached] is the request's own earlier answer. *)
Definition load_mobile_bearer_context (c1 c2 : call) (cached : option (string * context))
    (auth_header : string) (d : accounts) (s : S) : option context * S :=
  match bearer_token auth_header with
  | None => (None, s)
  | Some token =>
      let earlier := '(hash, cx) ← cached; if String.eqb hash (token_digest token) then Some cx else None in
      match earlier with
      | Some cx => (Some cx, s)
      | None =>
          let (r, s) := load_record c1 (_token_key "access" token) s in
          match r with
          | Some (Some r) =>
              if negb (String.eqb (tk_token_type r) "access") then (None, s)
              else let (x, s) := _resolve_record c2 r d s in (default None x, s)
          | _ => (None, s)
          end
      end
  end.

Inductive mobile_error : Type := mobile_auth_required | mobile_client_mismatch.

Definition require_mobile_context (c1 c2 : call) (cached : option (string * context))
    (expected_client : option string) (auth_header : string) (d : accounts) (s : S)
    : result mobile_error context * S :=
  let (cx, s) := load_mobile_bearer_context c1 c2 cached auth_header d s in
  (match cx with
   | None => Err mobile_auth_required
   | Some cx => if truthy expected_client
                   && negb (bool_decide (Some (tk_client (cx_record cx)) = expected_client))
                then Err mobile_client_mismatch else Ok cx
   end, s).

(** The Lua script of [rotate_mobile_refresh_token]. *)
Definition rotate_script (now : Z) (old_key used_key new_key revoked_key session_key : string)
    (new_value : token_record) (s : S) : Z * S :=
  let (revoked, s) := exists_ now revoked_key s in
  if revoked then (-2, s) else
  let (current, s) := ks_get now old_key s in
  match current with
  | None => let (used, s) := exists_ now used_key s in (if used then -1 else 0, s)
  | Some current =>
      let s := del now old_key s in
      let s := setex now used_key REFRESH_TTL_SECONDS current s in
      let s := setex now new_key REFRESH_TTL_SECONDS (SToken new_value) s in
      let s := ks_sadd now session_key [new_key] s in
      (1, expire now session_key REFRESH_TTL_SECONDS s)
  end.

(** The script with the keys [rotate_mobile_refresh_token] passes. *)
Definition rotation (now : Z) (refresh_token new_refresh_token : string) (refresh_record : token_record)
    : S -> Z * S :=
  let sid := tk_session_id refresh_record in
  rotate_script now (_token_key "refresh" refresh_token) (_token_key "refresh-used" refresh_token)
    (_token_key "refresh" new_refresh_token) (_revoked_key sid) (_session_key sid) refresh_record.

Definition rotate_mobile_refresh_token (c : call) (refresh_token new_refresh_token : string)
    (refresh_record : token_record) (s : S) : option Z * S :=
  command c (rotation (at_time c) refresh_token new_refresh_token refresh_record) s.

Definition access_transaction (now : Z) (access_token : string) (r : token_record) (s : S) : S :=
  let access_key := _token_key "access" access_token in
  let s := setex now access_key ACCESS_TTL_SECONDS (SToken r) s in
  let s := ks_sadd now (_session_key (tk_session_id r)) [access_key] s in
  expire now (_session_key (tk_session_id r)) REFRESH_TTL_SECONDS s.

Definition store_rotated_access_token (c : call) (access_token : string) (r : token_record) (s : S)
    : option unit * S :=
  command c (fun s => (tt, access_transaction (at_time c) access_token r s)) s.

(** The transaction of [mark_mobile_session_revoked]. *)
Definition revoke_transaction (now : Z) (sid : string) (token_keys : list string) (s : S) : S :=
  let s := setex now (_revoked_key sid) SESSION_REVOKE_TTL_SECONDS (SInt 1) s in
  let s := foldl (fun s k => del now k s) s token_keys in
  del now (_session_key sid) s.

Definition mark_mobile_session_revoked (c1 c2 : call) (sid : string) (s : S) : option unit * S :=
  let (token_keys, s) := command c1 (fun s => (ks_smembers (at_time c1) (_session_key sid) s, s)) s in
  match token_keys with
  | None => (None, s)
  | Some token_keys => command c2 (fun s => (tt, revoke_transaction (at_time c2) sid token_keys s)) s
  end.

(** The script that takes a challenge: GET and DEL in one step. *)
Definition pop_script (now : Z) (k : string) (s : S) : option stored * S :=
  let (v, s) := ks_get now k s in
  match v with Some v => (Some v, del now k s) | None => (None, s) end.

Definition pop_mobile_mfa_challenge (c : call) (challenge_token : string) (s : S)
    : option (option challenge_record) * S :=
  let (v, s) := command c (pop_script (at_time c) (_mfa_key challenge_token)) s in
  ((fun v => v ≫= as_challenge) <$> v, s).

End tokens.
End MobileTokens.
