(* ===== verification/MobileApi.v ===== *)
(** The handlers of app/auth/mobile_api.py on native sign-in: the end of a login,
    the second factor, the rotation of a refresh token and the logout. *)

From S2P Require Import Prelude Tables AuthModel KeyStore OneTime MobileTokens.
From stdpp Require Import pretty.

Local Open Scope Z_scope.

Module MobileApi.
Import Sessions MobileTokens.

(** The codes of [_error]. *)
Inductive api_error : Type :=
  | session_storage_unavailable | refresh_invalid | refresh_reuse_detected
  | auth_service_unavailable | invalid_mfa_challenge | mfa_verification_failed
  | not_eligible | logout_failed.

Section handlers.
Context {S : Type} `{KeyStore S} `{KeySets S} `{TokenDigest} `{OtpDigest}.

(** The rows and Redis. *)
Definition world : Type := accounts * S.

(** [_active_server_session] *)
Definition _active_server_session (now : Z) (sid : string) (d : accounts) : bool :=
  match live_server d sid with
  | None => false
  | Some row => now <? ss_expires_at row
  end.

Definition set_server_expiry (row : server_session) (t : Z) : server_session := {|
  ss_session_id := ss_session_id row; ss_user_id := ss_user_id row;
  ss_ip_address := ss_ip_address row; ss_user_agent := ss_user_agent row;
  ss_expires_at := t; ss_is_revoked := ss_is_revoked row;
|}.

(** [.filter_by(session_id=..., user_id=..., ...)] of the two session tables. *)
Definition user_device (d : accounts) (sid : string) (user_id : Z) : option device_session :=
  List.find (fun r => String.eqb (ds_session_id r) sid && (ds_user_id r =? user_id)
                      && negb (is_some (ds_revoked_at r))) (ac_devices d).
Definition user_server (d : accounts) (sid public_id : string) : option server_session :=
  List.find (fun r => String.eqb (ss_session_id r) sid && String.eqb (ss_user_id r) public_id
                      && negb (ss_is_revoked r)) (ac_servers d).

(** What a login draws, and whether its device row is stored. *)
Record login_draw : Type := {
  ld_session_id : string;
  ld_fingerprint : string;
  ld_stored : bool;
  ld_ip : option string;
  ld_user_agent : option string;
  ld_access_token : string;
  ld_refresh_token : string;
}.

(** [_complete_native_login]: [ci] issues the tokens, [cm] and [cr] are the two
    commands of the cleanup. *)
Definition _complete_native_login (ci cm cr : call) (w : login_draw) (u : user) (client device_id : string)
    (server_session_id : string) (x : world) : result api_error credentials * world :=
  let (d, s) := x in
  let now := at_time ci in
  if negb (_active_server_session now server_session_id d)
  then (Err session_storage_unavailable, (d, s))
  else
    let (sid, d) := start_device_session now (ld_session_id w) (ld_fingerprint w) (ld_stored w) u
                      (ld_ip w) (ld_user_agent w) 30 d in
    match sid with
    | None => (Err session_storage_unavailable, (snd (revoke_session server_session_id d), s))
    | Some sid =>
        let (issued, s) := issue_mobile_tokens ci (ld_access_token w) (ld_refresh_token w)
                             (us_public_id u) sid server_session_id client device_id s in
        let aligned :=
          tokens ← issued;
          device ← user_device d sid (us_id u);
          server ← user_server d server_session_id (us_public_id u);
          Some (tokens, write_server (set_server_expiry server (ds_expires_at device)) d) in
        match aligned with
        | Some (tokens, d) => (Ok tokens, (d, s))
        | None =>
            let d := snd (revoke_device_session now sid (Some (us_id u)) "mobile_token_issue_failed" d) in
            let d := snd (revoke_session server_session_id d) in
            (Err session_storage_unavailable, (d, snd (mark_mobile_session_revoked cm cr sid s)))
        end
    end.

(** The revocation of both sessions after a replay; Redis may fail in between. *)
Definition revoke_replayed (cm cr : call) (r : token_record) (x : world) : world :=
  let (d, s) := x in
  let (d, s) :=
    if text (tk_session_id r)
    then (snd (revoke_device_session (at_time cm) (tk_session_id r) None "refresh_token_reuse" d),
          snd (mark_mobile_session_revoked cm cr (tk_session_id r) s))
    else (d, s) in
  (if text (tk_server_session_id r) then snd (revoke_session (tk_server_session_id r) d) else d, s).

(** The commands of one refresh, in order, and the tokens it draws. *)
Record refresh_draw : Type := {
  rd_get : call;
  rd_used : call;
  rd_resolve : call;
  rd_rotate : call;
  rd_store : call;
  rd_members : call;
  rd_revoke : call;
  rd_new_access : string;
  rd_new_refresh : string;
}.

(** The second half of [mobile_refresh], for the record [r] that was resolved. *)
Definition rotate_for (w : refresh_draw) (old_refresh : string) (r : token_record) (u : user) (x : world)
    : result api_error credentials * world :=
  let (d, s) := x in
  let d := snd (touch_device_session (at_time (rd_rotate w)) (tk_session_id r) d) in
  match user_device d (tk_session_id r) (us_id u),
        user_server d (tk_server_session_id r) (us_public_id u) with
  | Some device, Some server =>
      let d := if ss_expires_at server =? ds_expires_at device then d
               else write_server (set_server_expiry server (ds_expires_at device)) d in
      let issued := timestamp (at_time (rd_rotate w)) in
      let (status, s) := rotate_mobile_refresh_token (rd_rotate w) old_refresh (rd_new_refresh w)
                           (token_with r issued "refresh") s in
      match status with
      | None => (Err auth_service_unavailable, (d, s))
      | Some status =>
          if status =? -1
          then (Err refresh_reuse_detected, revoke_replayed (rd_members w) (rd_revoke w) r (d, s))
          else if negb (status =? 1) then (Err refresh_invalid, (d, s))
          else
            let (stored, s) := store_rotated_access_token (rd_store w) (rd_new_access w)
                                 (token_with r issued "access") s in
            match stored with
            | None => (Err auth_service_unavailable, (d, s))
            | Some _ => (Ok (pair_of (rd_new_access w) (rd_new_refresh w)), (d, s))
            end
      end
  | _, _ => (Err refresh_invalid, (d, s))
  end.

(** [mobile_refresh] *)
Definition mobile_refresh (w : refresh_draw) (old_refresh : string) (x : world)
    : result api_error credentials * world :=
  let old_refresh := strip old_refresh in
  if negb (text old_refresh) || Nat.ltb 256 (String.length old_refresh) then (Err refresh_invalid, x)
  else
    let (d, s) := x in
    let (old, s) := load_record (rd_get w) (_token_key "refresh" old_refresh) s in
    match old with
    | None => (Err auth_service_unavailable, (d, s))
    | Some old =>
        match (r ← old; if String.eqb (tk_token_type r) "refresh" then Some r else None) with
        | None =>
            let (used, s) := load_record (rd_used w) (_token_key "refresh-used" old_refresh) s in
            match used with
            | None => (Err auth_service_unavailable, (d, s))
            | Some None => (Err refresh_invalid, (d, s))
            | Some (Some used) =>
                (Err refresh_reuse_detected, revoke_replayed (rd_members w) (rd_revoke w) used (d, s))
            end
        | Some r =>
            let (resolved, s) := _resolve_record (rd_resolve w) r d s in
            match resolved with
            | None => (Err auth_service_unavailable, (d, s))
            | Some None => (Err refresh_invalid, (d, s))
            | Some (Some cx) => rotate_for w old_refresh r (cx_user cx) (d, s)
            end
        end
    end.

(** [mobile_logout], for the context of the bearer. *)
Definition mobile_logout (cm cr : call) (cx : context) (x : world) : result api_error bool * world :=
  let (d, s) := x in
  let r := cx_record cx in
  let (revoked, d) := revoke_device_session (at_time cm) (tk_session_id r) (Some (us_id (cx_user cx)))
                        "mobile_logout" d in
  let d := snd (revoke_session (tk_server_session_id r) d) in
  let (marked, s) := mark_mobile_session_revoked cm cr (tk_session_id r) s in
  match marked with
  | None => (Err logout_failed, (d, s))
  | Some _ => (Ok revoked, (d, s))
  end.

(** [mobile_mfa_verify]. [eligible] is [_verify_login_eligibility], [totp] the
    authenticator's check; the id of the server session and the login's draws
    follow. The one-time code of an SMS lives in the store of OneTime.v. *)
Definition mobile_mfa_verify (redis_required : bool) (eligible : user -> string -> bool)
    (totp : user -> string -> bool) (cp c1 c2 ci cm cr : call) (server_sid : string) (server_stored : bool)
    (w : login_draw) (challenge code : string) (d : accounts) (st : auth_store S)
    : result api_error credentials * (accounts * auth_store S) :=
  let challenge := strip challenge in
  let code := strip code in
  if negb (text challenge) || Nat.ltb 256 (String.length challenge) || negb (text code)
     || Nat.ltb 16 (String.length code)
  then (Err invalid_mfa_challenge, (d, st))
  else
    let (popped, s) := pop_mobile_mfa_challenge cp challenge (shared st) in
    let st := AuthStore s (local st) in
    match popped with
    | None => (Err auth_service_unavailable, (d, st))
    | Some None => (Err invalid_mfa_challenge, (d, st))
    | Some (Some ch) =>
        if negb (str_in (ch_mfa_type ch) ["totp"; "sms"]%string) then (Err invalid_mfa_challenge, (d, st))
        else match user_by_public_id (ac_users d) (ch_user_public_id ch) with
        | None => (Err invalid_mfa_challenge, (d, st))
        | Some u =>
            if negb (eligible u (ch_client ch)) then (Err not_eligible, (d, st)) else
            let (ok, st) :=
              if String.eqb (ch_mfa_type ch) "totp" then (totp u code, st)
              else let '((ok, _), st) := OTPService.verify_otp redis_required c1 c2 (pretty (us_id u)) code
                                           "2fa_login" st in (ok, st) in
            if negb ok then (Err mfa_verification_failed, (d, st)) else
            let (sid, d) := start_server_session (at_time ci) server_sid server_stored (us_public_id u)
                              (ld_ip w) (ld_user_agent w) 12 d in
            let '(r, (d, s)) := _complete_native_login ci cm cr w u (ch_client ch) (ch_device_id ch) sid
                                  (d, shared st) in
            (r, (d, AuthStore s (local st)))
        end
    end.

End handlers.
End MobileApi.
