(* ===== verification/MobileReset.v ===== *)
(** The native password reset by a code sent to the account's email:
    app/auth/mobile_password_reset.py, with the password rules of
    app/auth/validators.py and the password change of app/auth/services.py that it
    calls. It stores its codes through OTPService and consumes them without
    [verify_otp]. The digests, the mail's answer and whether the token signed for
    the change is taken back are arguments. *)

From S2P Require Import Prelude Tables AuthModel KeyStore OneTime MobileTokens.

Local Open Scope Z_scope.

(** * The password rules *)

Definition between (lo hi : nat) (c : Ascii.ascii) : bool :=
  let n := Ascii.nat_of_ascii c in Nat.leb lo n && Nat.leb n hi.

Definition upper_letter : Ascii.ascii -> bool := between 65 90.
Definition lower_letter : Ascii.ascii -> bool := between 97 122.
Definition digit : Ascii.ascii -> bool := between 48 57.
Definition symbol (c : Ascii.ascii) : bool := negb (upper_letter c || lower_letter c || digit c).

(** [bool(re.search(pattern, password))] for a class of characters. *)
Fixpoint has (p : Ascii.ascii -> bool) (s : string) : bool :=
  match s with EmptyString => false | String c s => p c || has p s end.

Definition validate_password_strength (password : string) : bool :=
  if Nat.ltb (String.length password) 10 then false
  else Nat.leb 3 (length (List.filter (fun p => has p password)
                            [upper_letter; lower_letter; digit; symbol])).

Definition set_password (u : user) (password_hash : string) : user := {|
  us_id := us_id u; us_public_id := us_public_id u; us_username := us_username u;
  us_email := us_email u; us_phone := us_phone u; us_password_hash := password_hash;
  us_is_active := us_is_active u; us_is_deleted := us_is_deleted u;
  us_is_verified := us_is_verified u; us_email_verified := us_email_verified u;
  us_email_verified_at := us_email_verified_at u;
  us_phone_verified := us_phone_verified u; us_phone_verified_at := us_phone_verified_at u;
  us_activated_at := us_activated_at u;
|}.

Module MobilePasswordReset.
Import OTPService Sessions.

Definition PASSWORD_RESET_OTP_TTL_SECONDS : Z := 10 * 60.
Definition PASSWORD_RESET_OTP_PURPOSE : string := "mobile_password_reset".
Definition PASSWORD_RESET_MAX_ATTEMPTS : Z := 5.

(** The lower-cased username or email. *)
Definition _find_user (users : list user) (identifier : string) : option user :=
  let normalized := lower (strip identifier) in
  if negb (some_text normalized) then None
  else List.find (fun u => bool_decide (lower <$> us_username u = Some normalized)
                           || String.eqb (lower (us_email u)) normalized) users.

(** The accounts that the two functions serve. *)
Definition resettable (u : user) : bool :=
  us_is_active u && negb (us_is_deleted u) && some_text (us_email u).

Section reset.
Context {S : Type} `{KeyStore S} `{OtpDigest} (redis_required : bool).

Definition attempt_key (public_id : string) : string :=
  ("mobile-password-reset:attempts:" +:+ public_id)%string.

(** [None] is the ValueError of a missing identifier. *)
Definition request_mobile_password_reset (c1 c2 : call) (d : delivery) (otp identifier : string)
    (users : list user) (st : auth_store S) : option (bool * auth_store S) :=
  match _find_user users identifier with
  | None => Some (false, st)
  | Some u =>
      if negb (resettable u) then Some (false, st)
      else if redis_required && match via c1 with Down => true | _ => false end then Some (false, st)
      else
        '(stored, st) ← store_otp redis_required c1 (us_public_id u) otp PASSWORD_RESET_OTP_PURPOSE
                          PASSWORD_RESET_OTP_TTL_SECONDS st;
        if negb stored then Some (false, st)
        else if negb (delivered d)
        then Some (false, snd (invalidate_otp redis_required c2 (us_public_id u)
                                 PASSWORD_RESET_OTP_PURPOSE st))
        else Some (true, st)
  end.

(** The code is compared and deleted in one step, past [verify_otp]. *)
Definition take_code (c : call) (public_id code : string) (st : auth_store S) : bool * auth_store S :=
  store_compare_and_delete redis_required (via c) (at_time c)
    (otp_key public_id PASSWORD_RESET_OTP_PURPOSE) (SText (hash_otp (strip code))) st.

(** The change of [confirm_password_reset] under a token signed just before:
    [fresh] tells whether it reads back and is not older than the last reset.
    The commit ends every server session of the user; [None] is an exception. *)
Definition confirm_password_reset (fresh : bool) (public_id password_hash : string) (d : accounts)
    : option (bool * accounts) :=
  if negb fresh then Some (false, d)
  else match user_by_public_id (ac_users d) public_id with
  | None => Some (false, d)
  | Some u =>
      users ← commit_user (ac_users d) (set_password u password_hash);
      Some (true, revoke_all_sessions_for_user (us_public_id u)
                    {| ac_users := users; ac_devices := ac_devices d; ac_servers := ac_servers d |})
  end.

Inductive reset_message : Type :=
  | CodeInvalidOrExpired | PasswordTooWeak | TooManyIncorrect | CodeWrong | CouldNotComplete | PasswordReset.

(** [cleaned] is false when ending the device sessions raises, which is logged. *)
Definition confirm_mobile_password_reset (c1 c2 c3 : call) (fresh cleaned : bool) (password_hash : string)
    (identifier code new_password : string) (d : accounts) (st : auth_store S)
    : option ((bool * reset_message) * (accounts * auth_store S)) :=
  match _find_user (ac_users d) identifier with
  | None => Some ((false, CodeInvalidOrExpired), (d, st))
  | Some u =>
      if negb (resettable u) then Some ((false, CodeInvalidOrExpired), (d, st))
      else if negb (validate_password_strength new_password) then Some ((false, PasswordTooWeak), (d, st))
      else
        let pid := us_public_id u in
        '(attempts, st) ← store_incr (via c1) (at_time c1) (attempt_key pid)
                            (Some PASSWORD_RESET_OTP_TTL_SECONDS) st;
        if PASSWORD_RESET_MAX_ATTEMPTS <? attempts then
          let st := snd (invalidate_otp redis_required c2 pid PASSWORD_RESET_OTP_PURPOSE st) in
          let st := snd (store_delete redis_required (via c3) (at_time c3) (attempt_key pid) st) in
          Some ((false, TooManyIncorrect), (d, st))
        else
          let (verified, st) := take_code c2 pid code st in
          if negb verified then Some ((false, CodeWrong), (d, st))
          else
            let st := snd (store_delete redis_required (via c3) (at_time c3) (attempt_key pid) st) in
            '(changed, d) ← confirm_password_reset fresh pid password_hash d;
            if negb (changed : bool) then Some ((false, CouldNotComplete), (d, st))
            else
              let d := if (cleaned : bool)
                       then snd (revoke_all_device_sessions_for_user (at_time c3) (us_id u) "password_reset" d)
                       else d in
              Some ((true, PasswordReset), (d, st))
  end.

End reset.
End MobilePasswordReset.
