(* ===== verification/EmailLaws.v ===== *)
(** The laws of email addresses: the bounded table of [_levenshtein] finds the edit
    distance whenever it is within the bound, the canonical form of an address is
    canonical, and what an accepted address satisfies. *)

From S2P Require Import Prelude Tables EmailAddress.
From Stdlib Require Import Ascii.

Local Open Scope Z_scope.

Import EmailValidation.

(** * The reference: alignments and their cost *)

Section edit.
Context {A : Type} `{EqDecision A}.
Implicit Types a b : list A.

(** [edit a b n]: [a] becomes [b] by deletions, insertions and substitutions of
    total cost [n]. *)
Inductive edit : list A -> list A -> Z -> Prop :=
  | edit_nil : edit [] [] 0
  | edit_delete x a b n : edit a b n -> edit (x :: a) b (n + 1)
  | edit_insert y a b n : edit a b n -> edit a (y :: b) (n + 1)
  | edit_match x a b n : edit a b n -> edit (x :: a) (x :: b) n
  | edit_replace x y a b n : edit a b n -> edit (x :: a) (y :: b) (n + 1).

(** The edit distance: the least cost. *)
Definition distance a b n : Prop := edit a b n /\ forall m, edit a b m -> n <= m.

Lemma edit_append a b c d n m : edit a b n -> edit c d m -> edit (a ++ c) (b ++ d) (n + m).
Proof.
  intros He Hm. induction He as [|x a b n He IH|y a b n He IH|x a b n He IH|x y a b n He IH]; simpl.
  - done.
  - replace (n + 1 + m) with (n + m + 1) by lia. by constructor.
  - replace (n + 1 + m) with (n + m + 1) by lia. by constructor.
  - by constructor.
  - replace (n + 1 + m) with (n + m + 1) by lia. by constructor.
Qed.

Lemma edit_nonneg a b n : edit a b n -> 0 <= n.
Proof. induction 1; lia. Qed.

(** An alignment of a concatenation splits where the first part ends. *)
Lemma edit_split a1 a2 b n : edit (a1 ++ a2) b n ->
  exists b1 b2 n1 n2, b = b1 ++ b2 /\ edit a1 b1 n1 /\ edit a2 b2 n2 /\ n = n1 + n2.
Proof.
  remember (a1 ++ a2) as a eqn:E. intros He. revert a1 E.
  induction He as [|x a b n He IH|y a b n He IH|x a b n He IH|x y a b n He IH]; intros a1 E.
  - destruct a1; [|done]. simpl in E. subst. exists [], [], 0, 0. split_and!; [done|constructor|constructor|done].
  - destruct a1 as [|x' a1]; simpl in E.
    + exists [], b, 0, (n + 1). subst. split_and!; [done|constructor|by constructor|done].
    + injection E as <- ->. destruct (IH a1 eq_refl) as (b1 & b2 & n1 & n2 & -> & H1 & H2 & ->).
      exists b1, b2, (n1 + 1), n2. split_and!; [done|by constructor|done|lia].
  - destruct (IH a1 E) as (b1 & b2 & n1 & n2 & -> & H1 & H2 & ->).
    exists (y :: b1), b2, (n1 + 1), n2. split_and!; [done|by constructor|done|lia].
  - destruct a1 as [|x' a1]; simpl in E.
    + exists [], (x :: b), 0, n. subst. split_and!; [done|constructor|by constructor|done].
    + injection E as <- ->. destruct (IH a1 eq_refl) as (b1 & b2 & n1 & n2 & -> & H1 & H2 & ->).
      exists (x :: b1), b2, n1, n2. split_and!; [done|by constructor|done|lia].
  - destruct a1 as [|x' a1]; simpl in E.
    + exists [], (y :: b), 0, (n + 1). subst. split_and!; [done|constructor|by constructor|done].
    + injection E as <- ->. destruct (IH a1 eq_refl) as (b1 & b2 & n1 & n2 & -> & H1 & H2 & ->).
      exists (y :: b1), b2, (n1 + 1), n2. split_and!; [done|by constructor|done|lia].
Qed.

Lemma edit_from_nil b n : edit [] b n -> n = Z.of_nat (length b).
Proof. remember [] as a eqn:E. induction 1; try done. simpl. rewrite IHedit by done. lia. Qed.

Lemma edit_nil_self b : edit [] b (Z.of_nat (length b)).
Proof.
  induction b as [|y b IH]; [constructor|]. simpl.
  replace (Z.of_nat (Datatypes.S (length b))) with (Z.of_nat (length b) + 1) by lia. by constructor.
Qed.

Lemma edit_swap a b n : edit a b n -> edit b a n.
Proof. induction 1; by constructor. Qed.

Lemma edit_refl a : edit a a 0.
Proof. induction a; by constructor. Qed.

(** No alignment is cheaper than the difference of the lengths. *)
Lemma edit_lengths a b n : edit a b n -> Z.abs (Z.of_nat (length a) - Z.of_nat (length b)) <= n.
Proof. induction 1; simpl; lia. Qed.

Lemma edit_letters x y n : edit [x] [y] n -> (if decide (x = y) then 0 else 1) <= n.
Proof.
  intros He. apply edit_nonneg in He as Hn. destruct (decide (x = y)) as [|Hne]; [done|].
  inversion He; subst; try done;
    match goal with H : edit _ _ ?k |- _ <= ?k + 1 => apply edit_nonneg in H end; lia.
Qed.

Lemma edit_letter x y : edit [x] [y] (if decide (x = y) then 0 else 1).
Proof.
  destruct (decide (x = y)) as [->|]; [by repeat constructor|].
  change 1 with (0 + 1). by repeat constructor.
Qed.

(** The last letters of an alignment. *)
Lemma edit_snoc_inv a x b y n : edit (a ++ [x]) (b ++ [y]) n ->
  (exists m, edit a (b ++ [y]) m /\ m + 1 <= n)
  \/ (exists m, edit (a ++ [x]) b m /\ m + 1 <= n)
  \/ (exists m, edit a b m /\ m + (if decide (x = y) then 0 else 1) <= n).
Proof.
  intros (b1 & b2 & n1 & n2 & Eb & H1 & H2 & ->)%edit_split.
  destruct b2 as [|z b2 _] using rev_ind.
  - rewrite app_nil_r in Eb. subst b1. left. exists n1. split; [done|].
    apply edit_swap, edit_from_nil in H2. simpl in H2. lia.
  - rewrite app_assoc in Eb. apply app_inj_tail in Eb as [-> <-]. right.
    apply edit_swap, edit_split in H2 as (d1 & d2 & m1 & m2 & Ed & H3%edit_swap & H4%edit_swap & ->).
    destruct d1 as [|d d1]; simpl in Ed.
    + subst d2. right. exists (n1 + m1). apply edit_letters in H4.
      pose proof (edit_append _ _ _ _ _ _ H1 H3) as Ha. rewrite app_nil_r in Ha. split; [done|lia].
    + injection Ed as -> Ed. symmetry in Ed. apply app_eq_nil in Ed as [-> ->]. left.
      exists (n1 + m1). apply edit_from_nil in H4. simpl in H4. split; [by apply edit_append|lia].
Qed.

(** The recurrence on the last letters. *)
Lemma distance_snoc a x b y p q r :
  distance a b p -> distance a (b ++ [y]) q -> distance (a ++ [x]) b r ->
  distance (a ++ [x]) (b ++ [y])
    (Z.min (Z.min (q + 1) (r + 1)) (p + (if decide (x = y) then 0 else 1))).
Proof.
  intros [Hp Lp] [Hq Lq] [Hr Lr]. set (c := if decide (x = y) then 0 else 1).
  assert (E1 : edit (a ++ [x]) (b ++ [y]) (q + 1)).
  { pose proof (edit_append _ _ [x] [] _ 1 Hq) as Ha. rewrite app_nil_r in Ha. apply Ha.
    change 1 with (0 + 1). by repeat constructor. }
  assert (E2 : edit (a ++ [x]) (b ++ [y]) (r + 1)).
  { pose proof (edit_append _ _ [] [y] _ 1 Hr) as Ha. rewrite app_nil_r in Ha. apply Ha.
    change 1 with (0 + 1). by repeat constructor. }
  assert (E3 : edit (a ++ [x]) (b ++ [y]) (p + c)) by (apply edit_append; [done|apply edit_letter]).
  split.
  - destruct (Z.min_spec (q + 1) (r + 1)) as [[_ ->]|[_ ->]];
      [destruct (Z.min_spec (q + 1) (p + c)) as [[_ ->]|[_ ->]]|destruct (Z.min_spec (r + 1) (p + c)) as [[_ ->]|[_ ->]]]; done.
  - intros m [(k & Hk & Hle)|[(k & Hk & Hle)|(k & Hk & Hle)]]%edit_snoc_inv.
    + specialize (Lq k Hk). lia.
    + specialize (Lr k Hk). lia.
    + specialize (Lp k Hk). lia.
Qed.

Lemma distance_nil b : distance [] b (Z.of_nat (length b)).
Proof. split; [apply edit_nil_self|]. intros m Hm. apply edit_from_nil in Hm. lia. Qed.

Lemma distance_to_nil a : distance a [] (Z.of_nat (length a)).
Proof.
  destruct (distance_nil a) as [He Hl]. split; [by apply edit_swap|]. intros m Hm. by apply Hl, edit_swap.
Qed.

End edit.

(** * The table *)

(** The row of the prefix [a]: its distance to each prefix of [b]. *)
Definition row_of (a b : list ascii) (row : list Z) : Prop :=
  length row = Datatypes.S (length b)
  /\ forall j v, row !! j = Some v -> distance a (take j b) v.

Lemma eqb_cost (x y : ascii) : (if Ascii.eqb x y then 0 else 1) = (if decide (x = y) then 0 else 1).
Proof. destruct (Ascii.eqb_spec x y), (decide (x = y)); done. Qed.

Lemma lev_row_ok x a b1 b2 previous last :
  length previous = Datatypes.S (length b2) ->
  (forall j v, previous !! j = Some v -> distance a (b1 ++ take j b2) v) ->
  distance (a ++ [x]) b1 last ->
  length (lev_row x b2 previous last) = length b2
  /\ forall j v, lev_row x b2 previous last !! j = Some v -> distance (a ++ [x]) (b1 ++ take (Datatypes.S j) b2) v.
Proof.
  revert b1 previous last. induction b2 as [|y b2 IH]; intros b1 previous last Hlen Hprev Hlast; [done|].
  destruct previous as [|p0 previous]; [done|]. destruct previous as [|p1 previous]; [done|].
  cbn [lev_row]. rewrite eqb_cost.
  set (v := Z.min (Z.min (p1 + 1) (last + 1)) (p0 + (if decide (x = y) then 0 else 1))).
  assert (Hv : distance (a ++ [x]) (b1 ++ [y]) v).
  { apply distance_snoc; [|exact (Hprev 1%nat p1 eq_refl)|done].
    pose proof (Hprev 0%nat p0 eq_refl) as H0. by rewrite take_0, app_nil_r in H0. }
  destruct (IH (b1 ++ [y]) (p1 :: previous) v) as [Hl Hc]; [simpl in *; lia| |done|].
  { intros j w Hj. rewrite <- app_assoc. exact (Hprev (Datatypes.S j) w Hj). }
  split; [simpl in *; lia|]. intros [|j] w Hj.
  - injection Hj as <-. by rewrite firstn_cons, take_0.
  - specialize (Hc j w Hj). by rewrite <- app_assoc in Hc.
Qed.

Lemma row_step x a b previous i : row_of a b previous -> i = Z.of_nat (length (a ++ [x])) ->
  row_of (a ++ [x]) b (i :: lev_row x b previous i).
Proof.
  intros [Hl Hp] ->.
  destruct (lev_row_ok x a [] b previous (Z.of_nat (length (a ++ [x]))) Hl Hp (distance_to_nil _)) as [Hn Hc].
  split; [simpl; lia|]. intros [|j] v Hj; [|by apply Hc].
  injection Hj as <-. rewrite take_0. apply distance_to_nil.
Qed.

Lemma foldl_min_le (l : list Z) (i : Z) v : v ∈ i :: l -> foldl Z.min i l <= v.
Proof.
  revert i v. induction l as [|x l IH]; intros i v Hin; simpl.
  - apply list_elem_of_singleton in Hin. lia.
  - apply elem_of_cons in Hin as [->|Hin].
    + specialize (IH (Z.min i x) (Z.min i x) ltac:(set_solver)). lia.
    + apply elem_of_cons in Hin as [->|Hin].
      * specialize (IH (Z.min i x) (Z.min i x) ltac:(set_solver)). lia.
      * apply IH. set_solver.
Qed.

(** A row all of whose cells exceed the bound: so does every distance below it. *)
Lemma row_exceeds a a' b row m n : row_of a b row -> (forall v, v ∈ row -> m < v) -> edit (a ++ a') b n -> m < n.
Proof.
  intros [Hl Hr] Hm (b1 & b2 & n1 & n2 & -> & H1 & H2 & ->)%edit_split.
  destruct (row !! length b1) as [v|] eqn:Hv.
  - specialize (Hm v ltac:(by eapply list_elem_of_lookup_2)).
    destruct (Hr _ _ Hv) as [_ Hle]. rewrite take_app_length in Hle.
    specialize (Hle n1 H1). apply edit_nonneg in H2. lia.
  - apply lookup_ge_None in Hv. rewrite Hl, length_app in Hv. lia.
Qed.

(** What the bounded computation promises. *)
Definition bounded_distance (a b : list ascii) (m r : Z) : Prop :=
  (r <= m -> distance a b r) /\ (m < r -> forall n, edit a b n -> m < n).

Lemma lev_rows_ok a2 a1 b i previous m : row_of a1 b previous -> i = Z.of_nat (length a1) + 1 ->
  bounded_distance (a1 ++ a2) b m (lev_rows a2 b i previous m).
Proof.
  revert a1 i previous. induction a2 as [|x a2 IH]; intros a1 i previous Hrow ->; cbn [lev_rows].
  - rewrite app_nil_r. destruct Hrow as [Hl Hp].
    assert (Hd : distance a1 b (List.last previous 0)).
    { destruct previous as [|p l _] using rev_ind; [done|]. rewrite List.last_last.
      rewrite length_app in Hl. simpl in Hl.
      specialize (Hp (length l) p). rewrite lookup_app_r, Nat.sub_diag in Hp by lia.
      specialize (Hp eq_refl). by rewrite take_ge in Hp by lia. }
    split; [done|]. intros Hlt n Hn. destruct Hd as [_ Hle]. specialize (Hle n Hn). lia.
  - assert (Hstep : row_of (a1 ++ [x]) b ((Z.of_nat (length a1) + 1) :: lev_row x b previous (Z.of_nat (length a1) + 1))).
    { apply row_step; [done|]. rewrite length_app. simpl. lia. }
    destruct (Z.ltb_spec m (best_in (Z.of_nat (length a1) + 1) (lev_row x b previous (Z.of_nat (length a1) + 1)))) as [Hm|Hm].
    + split; [lia|]. intros _ n Hn. rewrite cons_middle, app_assoc in Hn.
      eapply (row_exceeds (a1 ++ [x]) a2); [done| |done].
      intros v Hv. apply foldl_min_le in Hv. unfold best_in in Hm. lia.
    + rewrite cons_middle, app_assoc. apply IH; [done|]. rewrite length_app. simpl. lia.
Qed.

(** C21: [_levenshtein] is the edit distance when that is at most [max_distance],
    and more than [max_distance] otherwise. *)
Theorem levenshtein_distance (a b : string) (m : Z) : 0 <= m ->
  bounded_distance (String.list_ascii_of_string a) (String.list_ascii_of_string b) m (_levenshtein a b m).
Proof.
  intros Hm. unfold _levenshtein. destruct (String.eqb_spec a b) as [->|Hne].
  - split; [|lia]. intros _. split; [apply edit_refl|]. intros n. apply edit_nonneg.
  - destruct (Z.ltb_spec m (Z.abs (Z.of_nat (length (String.list_ascii_of_string a))
                                   - Z.of_nat (length (String.list_ascii_of_string b))))) as [Hl|Hl].
    + split; [lia|]. intros _ n Hn. apply edit_lengths in Hn. lia.
    + apply (lev_rows_ok (String.list_ascii_of_string a) []); [|done]. split.
      * rewrite length_fmap, length_seq. lia.
      * intros j v Hj. apply list_lookup_fmap_Some in Hj as (k & -> & Hk).
        apply lookup_seq in Hk as [-> Hk]. simpl.
        replace (Z.of_nat j) with (Z.of_nat (length (take j (String.list_ascii_of_string b))));
          [apply distance_nil|]. rewrite length_take. lia.
Qed.

(** * Canonical addresses *)

Section canonical.
Local Open Scope char_scope.

Lemma lower_ascii_idem c : lower_ascii (lower_ascii c) = lower_ascii c.
Proof. destruct c as [[] [] [] [] [] [] [] []]; reflexivity. Qed.

Lemma lower_idem s : lower (lower s) = lower s.
Proof. induction s as [|c s IH]; [done|]. unfold lower in *. simpl. by rewrite lower_ascii_idem, IH. Qed.

Lemma lower_ascii_at c : Ascii.eqb (lower_ascii c) "@" = Ascii.eqb c "@".
Proof. destruct c as [[] [] [] [] [] [] [] []]; reflexivity. Qed.

Lemma lower_at s : has_char "@" (lower s) = has_char "@" s.
Proof. induction s as [|c s IH]; [done|]. unfold lower in *. simpl. by rewrite lower_ascii_at, IH. Qed.

Lemma lower_cons c s : lower (String c s) = String c s <-> lower_ascii c = c /\ lower s = s.
Proof. unfold lower. simpl. split; [by intros [= -> ->]|by intros [-> ->]]. Qed.

Lemma rstrip_lower p s : lower s = s -> lower (rstrip_by p s) = rstrip_by p s.
Proof.
  induction s as [|c s IH]; [done|]. intros [Hc Hs]%lower_cons. specialize (IH Hs). simpl.
  destruct (rstrip_by p s) as [|d t]; [destruct (p c); [done|]|]; by rewrite lower_cons.
Qed.

Lemma remove_lower c s : lower s = s -> lower (remove_char c s) = remove_char c s.
Proof.
  induction s as [|d s IH]; [done|]. intros [Hd Hs]%lower_cons. simpl.
  destruct (Ascii.eqb d c); [by apply IH|]. rewrite lower_cons. auto.
Qed.

Lemma split_lower c s : lower s = s -> lower (fst (split_once c s)) = fst (split_once c s).
Proof.
  induction s as [|d s IH]; [done|]. intros [Hd Hs]%lower_cons. simpl.
  destruct (Ascii.eqb d c); [done|]. specialize (IH Hs). destruct (split_once c s) as [a b]. simpl in *.
  by rewrite lower_cons.
Qed.

Lemma rstrip_idem p s : rstrip_by p (rstrip_by p s) = rstrip_by p s.
Proof.
  induction s as [|c s IH]; [done|]. simpl.
  destruct (rstrip_by p s) as [|d t] eqn:E.
  - destruct (p c) eqn:Hc; simpl; [done|by rewrite Hc].
  - revert IH. remember (String d t) as u. intros IH. cbn [rstrip_by]. rewrite IH. by rewrite Hequ.
Qed.

Lemma rstrip_no p c s : has_char c s = false -> has_char c (rstrip_by p s) = false.
Proof.
  induction s as [|d s IH]; [done|]. simpl. intros [Hd Hs]%orb_false_iff. specialize (IH Hs).
  destruct (rstrip_by p s) as [|e t]; [destruct (p d); [done|]|]; simpl; rewrite Hd; done.
Qed.

Lemma split_no c s : has_char c s = true -> has_char c (fst (split_once c s)) = false.
Proof.
  induction s as [|d s IH]; [done|]. simpl. destruct (Ascii.eqb d c) eqn:Hd; [done|]. simpl. intros Hs.
  specialize (IH Hs). destruct (split_once c s) as [a b]. simpl in *. by rewrite Hd.
Qed.

Lemma remove_no c s : has_char c (remove_char c s) = false.
Proof. induction s as [|d s IH]; [done|]. simpl. destruct (Ascii.eqb d c) eqn:Hd; [done|]. simpl. by rewrite Hd. Qed.

Lemma remove_keeps c e s : has_char c s = false -> has_char c (remove_char e s) = false.
Proof.
  induction s as [|d s IH]; [done|]. simpl. intros [Hd Hs]%orb_false_iff.
  destruct (Ascii.eqb d e); [by apply IH|]. simpl. rewrite Hd. by apply IH.
Qed.

Lemma remove_absent c s : has_char c s = false -> remove_char c s = s.
Proof.
  induction s as [|d s IH]; [done|]. simpl. intros [Hd Hs]%orb_false_iff. rewrite Hd. by rewrite IH.
Qed.

Lemma rpartition_no c s : has_char c s = true -> has_char c (snd (rpartition c s)) = false.
Proof.
  induction s as [|d s IH]; [done|]. simpl. destruct (has_char c s) eqn:Hs.
  - intros _. specialize (IH eq_refl). by destruct (rpartition c s).
  - rewrite orb_false_r. intros ->. done.
Qed.

Lemma has_app c a b : has_char c (a +:+ b) = has_char c a || has_char c b.
Proof. induction a as [|d a IH]; [done|]. simpl. by rewrite IH, orb_assoc. Qed.

Lemma rpartition_app c a b : has_char c b = false -> rpartition c (a +:+ String c b) = (a, b).
Proof.
  intros Hb. induction a as [|d a IH]; simpl.
  - rewrite Hb. by rewrite (proj2 (Ascii.eqb_eq c c) eq_refl).
  - rewrite has_app. simpl. rewrite (proj2 (Ascii.eqb_eq c c) eq_refl), orb_true_r. by rewrite IH.
Qed.

Lemma alias_idem d : domain_alias (domain_alias d) = domain_alias d.
Proof. unfold domain_alias. destruct (String.eqb_spec d "googlemail.com"); [done|]. by destruct (String.eqb_spec d "googlemail.com"). Qed.

Lemma alias_lower d : lower d = d -> lower (domain_alias d) = domain_alias d.
Proof. unfold domain_alias. by destruct (String.eqb d "googlemail.com"). Qed.

Lemma alias_no d : has_char "@" d = false -> has_char "@" (domain_alias d) = false.
Proof. unfold domain_alias. by destruct (String.eqb d "googlemail.com"). Qed.

Lemma alias_rstrip d : rstrip_by dot d = d -> rstrip_by dot (domain_alias d) = domain_alias d.
Proof. unfold domain_alias. by destruct (String.eqb d "googlemail.com"). Qed.

Lemma fold_lower l d : lower l = l -> lower (fold_local l d) = fold_local l d.
Proof.
  intros Hl. unfold fold_local.
  assert (H1 : lower (if str_in d _PLUS_FOLDING_DOMAINS && has_char "+" l then fst (split_once "+" l) else l)
               = (if str_in d _PLUS_FOLDING_DOMAINS && has_char "+" l then fst (split_once "+" l) else l)).
  { destruct (_ && _); [by apply split_lower|done]. }
  destruct (str_in d _DOT_FOLDING_DOMAINS); [by apply remove_lower|done].
Qed.

Lemma fold_idem l d : fold_local (fold_local l d) d = fold_local l d.
Proof.
  unfold fold_local. destruct (str_in d _PLUS_FOLDING_DOMAINS); cbn [andb].
  - set (l1 := if has_char "+" l then fst (split_once "+" l) else l).
    assert (H1 : has_char "+" l1 = false).
    { unfold l1. destruct (has_char "+" l) eqn:E; [by apply split_no|done]. }
    destruct (str_in d _DOT_FOLDING_DOMAINS).
    + rewrite remove_keeps by done. apply remove_absent, remove_no.
    + by rewrite H1.
  - destruct (str_in d _DOT_FOLDING_DOMAINS); [|done]. apply remove_absent, remove_no.
Qed.

(** A canonical form that needs no trimming is its own canonical form. *)
Lemma normalize_idempotent e : cleaned (normalize_email e) = normalize_email e ->
  normalize_email (normalize_email e) = normalize_email e.
Proof.
  set (n := normalize_email e). intros Hc. unfold normalize_email at 1. rewrite Hc.
  destruct (String.eqb_spec n ""); [done|]. unfold n, normalize_email in *.
  destruct (String.eqb e ""); [done|].
  destruct (has_char "@" (cleaned e)) eqn:Hat; cbn [negb] in *.
  - pose proof (rpartition_no "@" (cleaned e) Hat) as Hno.
    destruct (rpartition "@" (cleaned e)) as [l d]. simpl in Hno.
    set (D := domain_alias (rstrip_by dot (lower d))).
    set (L := fold_local (lower l) D).
    assert (HD : has_char "@" D = false).
    { apply alias_no, rstrip_no. by rewrite lower_at. }
    assert (Hn : has_char "@" (L +:+ "@" +:+ D) = true) by (rewrite has_app; simpl; by rewrite orb_true_r).
    rewrite Hn. cbn [negb].
    assert (Hrp : rpartition "@" (L +:+ "@" +:+ D) = (L, D)) by (by apply (rpartition_app "@")).
    rewrite Hrp.
    assert (HDl : lower D = D) by (apply alias_lower, rstrip_lower, lower_idem).
    rewrite HDl. replace (domain_alias (rstrip_by dot D)) with D.
    + assert (HLl : lower L = L) by (apply fold_lower, lower_idem). rewrite HLl.
      assert (HLf : fold_local L D = L) by apply fold_idem. by rewrite HLf.
    + unfold D at 2. rewrite (alias_rstrip _ (rstrip_idem _ _)). by rewrite alias_idem.
  - rewrite lower_at, Hat. cbn [negb]. apply lower_idem.
Qed.
End canonical.

Section accepted.
Context (burner : list string) (lib_valid : string -> bool) (mx : string -> option bool).

(** The email_validator library refuses an address with blanks or angle brackets
    at its ends. *)
Hypothesis lib_trimmed : forall s, lib_valid s = true -> cleaned s = s.

Lemma syntax_lib s : _check_syntax lib_valid s = None -> lib_valid s = true.
Proof.
  unfold _check_syntax. intros Hs. by repeat (case_match; simplify_eq/=).
Qed.

(** C40: the address an accepted sign-up keeps is canonical, so that normalising it
    again, as the User row does when it is written, changes nothing; it passed the
    syntax check, is no shared mailbox and no burner unless these are allowed, and
    the DNS did not refuse its domain. *)
Theorem accepted_canonical check_mx roles burners email n :
  let r := validate_email_address burner lib_valid mx check_mx roles burners email in
  ev_is_valid r = true -> ev_normalized r = Some n ->
  normalize_email n = n /\ _check_syntax lib_valid n = None
  /\ (roles = false -> fst (split_once "@" n) ∉ RESERVED_LOCAL_PARTS)
  /\ (burners = false -> is_disposable_domain burner (snd (split_once "@" n)) = false)
  /\ (check_mx = true -> mx (snd (split_once "@" n)) <> Some false).
Proof.
  cbv zeta. unfold validate_email_address. destruct (String.eqb _ ""); [done|].
  destruct (existsb _ _); [done|].
  destruct (_check_syntax lib_valid _) as [code|] eqn:Hs; [done|].
  set (m := normalize_email (strip (default "" email))) in *.
  destruct (split_once "@" m) as [l d] eqn:Hsp.
  destruct (negb roles && str_in l RESERVED_LOCAL_PARTS) eqn:Hr; [done|].
  destruct (negb burners && is_disposable_domain burner d) eqn:Hb; [done|].
  destruct (bool_decide _) eqn:Hm; [done|]. intros _ [= <-]. simpl.
  split_and!; [|done|..].
  - apply normalize_idempotent. apply lib_trimmed. by apply syntax_lib.
  - intros -> Hin. rewrite Hsp in Hin. apply str_in_spec in Hin. cbn [fst] in Hin. by rewrite Hin in Hr.
  - intros ->. by rewrite Hsp.
  - intros ->. rewrite Hsp. by apply bool_decide_eq_false in Hm.
Qed.
End accepted.
