(* ===== verification/OneTimeLaws.v ===== *)
(** The laws of one-time codes: when a code is accepted, what the verification of
    an email does on every branch, and that over any interleaving of requests each
    acceptance uses up the code stored last, in time. *)

From S2P Require Import Prelude Tables AuthModel KeyStore OneTime MobileTokens MobileReset.
From stdpp Require Import pretty.

Local Open Scope Z_scope.

Import OTPService.

(** * Keys *)

Lemma app_colon_inj (a b c d : string) :
  (forall x y, c <> (x +:+ ":" +:+ y)%string) -> (forall x y, d <> (x +:+ ":" +:+ y)%string) ->
  (a +:+ ":" +:+ c = b +:+ ":" +:+ d)%string -> a = b /\ c = d.
Proof.
  intros Hc Hd. revert b. induction a as [|x a IH]; intros [|y b] E; simpl in E.
  - injection E as E. done.
  - injection E as Ec E. exfalso. by apply (Hc b d).
  - injection E as Ec E. exfalso. by apply (Hd a c).
  - injection E as Ec E. subst y. by destruct (IH b E) as [-> ->].
Qed.

(** Two flows whose purposes hold no colon never share a key. *)
Lemma otp_key_inj i i' p p' :
  (forall x y, p <> (x +:+ ":" +:+ y)%string) -> (forall x y, p' <> (x +:+ ":" +:+ y)%string) ->
  otp_key i p = otp_key i' p' -> i = i' /\ p = p'.
Proof.
  intros Hp Hp' E. unfold otp_key in E. simpl in E. injection E as E. by apply app_colon_inj.
Qed.

(** * One verification *)

Section verify.
Context {S : Type} `{KeyStoreLaws S} `{OtpDigest}.
Implicit Types st : auth_store S.

Lemma read_otp_right c i o p st h st' : read_otp true c i o p st = (inr h, st') ->
  verify_otp_hash o h = true /\ some_text i = true /\ some_text p = true
  /\ via c = Up /\ fst <$> view (at_time c) (otp_key i p) (shared st) = Some (SText h).
Proof.
  unfold read_otp. destruct (some_text i) eqn:Hi; simpl; [|by intros].
  destruct (some_text o); simpl; [|by intros]. destruct (some_text p) eqn:Hp; simpl; [|by intros].
  destruct (store_get _ _ _ _ st) as [v st1] eqn:Hg.
  destruct v as [v|]; simpl; [|by intros]. destruct v as [h'| | | | |]; simpl; try by intros.
  destruct (some_text h'); simpl; [|by intros]. destruct (verify_otp_hash o h') eqn:Hv; [|by intros].
  intros [= <- _].
  destruct (get_answer (via c) (at_time c) (otp_key i p) st (SText h')) as [Hl Hs]; [by rewrite Hg|].
  done.
Qed.

Lemma read_otp_same c i o p k st : same_from (at_time c) k (shared st) (shared (snd (read_otp true c i o p st))).
Proof.
  unfold read_otp. destruct (_ || _ || _); [apply same_from_refl|].
  pose proof (get_same (via c) (at_time c) (otp_key i p) k st) as Hs.
  destruct (store_get _ _ _ _ st) as [v st1]. simpl in Hs.
  destruct (v ≫= as_text) as [h|]; [|done]. destruct (some_text h); simpl; [|done].
  by destruct (verify_otp_hash o h).
Qed.

Lemma consume_otp_true c i p h st : fst (fst (consume_otp true c i p h st)) = true <->
  via c = Up /\ fst <$> view (at_time c) (otp_key i p) (shared st) = Some (SText h).
Proof.
  unfold consume_otp. rewrite <- (consume_answer (via c) (at_time c) (otp_key i p) (SText h) st).
  by destruct (store_compare_and_delete _ _ _ _ _ st) as [[|] st'].
Qed.

Lemma consume_otp_Ok c i p h st a m st' : consume_otp true c i p h st = ((a, m), st') ->
  store_compare_and_delete true (via c) (at_time c) (otp_key i p) (SText h) st = (a, st').
Proof.
  unfold consume_otp. destruct (store_compare_and_delete _ _ _ _ _ st) as [[|] s1]; by intros [= <- _ <-].
Qed.

Lemma consume_otp_store c i p h st : snd (consume_otp true c i p h st)
  = snd (store_compare_and_delete true (via c) (at_time c) (otp_key i p) (SText h) st).
Proof. unfold consume_otp. by destruct (store_compare_and_delete _ _ _ _ _ st) as [[|] st']. Qed.

Lemma verify_otp_hash_true o h : verify_otp_hash o h = true <->
  some_text o = true /\ some_text h = true /\ otp_digest o = h.
Proof.
  unfold verify_otp_hash, hash_otp. destruct (some_text o), (some_text h); simpl;
    rewrite ?String.eqb_eq; naive_solver.
Qed.

(** A code is accepted exactly when Redis answers both times and shows the digest
    of the code under the key, both times. *)
Lemma verify_otp_accepts c1 c2 i o p st : at_time c1 <= at_time c2 ->
  fst (fst (verify_otp true c1 c2 i o p st)) = true <->
  (some_text i = true /\ some_text o = true /\ some_text p = true /\ some_text (otp_digest o) = true)
  /\ via c1 = Up /\ via c2 = Up
  /\ fst <$> view (at_time c2) (otp_key i p) (shared st) = Some (SText (otp_digest o)).
Proof.
  intros Ht. unfold verify_otp. pose proof (read_otp_same c1 i o p (otp_key i p) st _ Ht) as Hs.
  destruct (read_otp true c1 i o p st) as [[m|h] st'] eqn:Hr; simpl in Hs.
  - simpl. split; [done|]. intros ((Hi & Ho & Hp & Hd) & Hl1 & Hl2 & Hv). exfalso.
    unfold read_otp in Hr. rewrite Hi, Ho, Hp in Hr. simpl in Hr.
    destruct (view (at_time c2) (otp_key i p) (shared st)) as [[v e]|] eqn:E2; [|done].
    simpl in Hv. injection Hv as ->. apply (view_before (at_time c1)) in E2; [|done].
    unfold store_get in Hr. rewrite guarded_required, Hl1 in Hr. unfold on_redis in Hr.
    pose proof (get_value (at_time c1) (otp_key i p) (shared st)) as Hg.
    destruct (ks_get _ _ _) as [o' s1]. simpl in Hg. subst o'. rewrite E2 in Hr. simpl in Hr.
    rewrite Hd in Hr. simpl in Hr.
    assert (Hok : verify_otp_hash o (otp_digest o) = true) by (by apply verify_otp_hash_true).
    by rewrite Hok in Hr.
  - apply read_otp_right in Hr as (Hh & Hi & Hp & Hl & Hv1).
    apply verify_otp_hash_true in Hh as (Ho & Hd & <-).
    rewrite consume_otp_true, Hs. naive_solver.
Qed.

Lemma verify_otp_consumed c1 c2 i o p st : at_time c1 <= at_time c2 ->
  fst (fst (verify_otp true c1 c2 i o p st)) = true ->
  shows_from (at_time c2) (otp_key i p) None (shared (snd (verify_otp true c1 c2 i o p st))).
Proof.
  intros Ht. unfold verify_otp. destruct (read_otp true c1 i o p st) as [[m|h] st'] eqn:Hr; [done|].
  intros Hc. rewrite consume_otp_store. apply consume_taken.
  by apply consume_answer, consume_otp_true.
Qed.

End verify.

(** * Any interleaving of requests *)

Module OtpHistory.
Import MobilePasswordReset.

(** What happened to a key: a code stored, with its time and life; a guess
    accepted; the code given up. *)
Inductive otp_event : Type :=
  | CodeStored (key otp : string) (at_ ttl : Z)
  | GuessAccepted (key otp : string) (at_ : Z)
  | CodeDropped (key : string).

Definition event_key (ev : otp_event) : string :=
  match ev with CodeStored k _ _ _ | GuessAccepted k _ _ | CodeDropped k => k end.

(** A request between the two halves of [verify_otp]. *)
Record pending_guess : Type := {
  pg_identifier : string;
  pg_purpose : string;
  pg_otp : string;
  pg_hash : string;
}.

Section history.
Context {S : Type} `{KeyStoreLaws S} `{OtpDigest}.

Record otp_system : Type := {
  os_store : auth_store S;
  os_now : Z;
  os_waiting : list pending_guess;
  os_log : list otp_event;
}.

(** Requests take their steps in any order, each step with Redis answering, away
    or failing: the two halves of [verify_otp], and the native password reset, which
    compares and deletes in one step. No other code of the program uses the keys of
    codes. *)
Inductive otp_step (x : otp_system) : otp_system -> Prop :=
  | step_store c identifier otp purpose ttl b st :
      at_time c = os_now x ->
      store_otp true c identifier otp purpose ttl (os_store x) = Some (b, st) ->
      otp_step x {| os_store := st; os_now := os_now x; os_waiting := os_waiting x;
                    os_log := (if written (Some ttl) (via c)
                               then [CodeStored (otp_key identifier purpose) otp (os_now x) ttl] else [])
                              ++ os_log x |}
  | step_read c identifier otp purpose r st :
      at_time c = os_now x ->
      read_otp true c identifier otp purpose (os_store x) = (r, st) ->
      otp_step x {| os_store := st; os_now := os_now x;
                    os_waiting := match r with
                                  | inl _ => os_waiting x
                                  | inr h => {| pg_identifier := identifier; pg_purpose := purpose;
                                                pg_otp := otp; pg_hash := h |} :: os_waiting x
                                  end;
                    os_log := os_log x |}
  | step_consume c w1 g w2 accepted m st :
      at_time c = os_now x -> os_waiting x = w1 ++ g :: w2 ->
      consume_otp true c (pg_identifier g) (pg_purpose g) (pg_hash g) (os_store x) = ((accepted, m), st) ->
      otp_step x {| os_store := st; os_now := os_now x; os_waiting := w1 ++ w2;
                    os_log := (if accepted
                               then [GuessAccepted (otp_key (pg_identifier g) (pg_purpose g)) (pg_otp g)
                                       (os_now x)] else [])
                              ++ os_log x |}
  | step_redeem c public_id code b st :
      at_time c = os_now x ->
      take_code true c public_id code (os_store x) = (b, st) ->
      otp_step x {| os_store := st; os_now := os_now x; os_waiting := os_waiting x;
                    os_log := (if b
                               then [GuessAccepted (otp_key public_id PASSWORD_RESET_OTP_PURPOSE) (strip code)
                                       (os_now x)] else [])
                              ++ os_log x |}
  | step_invalidate c identifier purpose b st :
      at_time c = os_now x ->
      invalidate_otp true c identifier purpose (os_store x) = (b, st) ->
      otp_step x {| os_store := st; os_now := os_now x; os_waiting := os_waiting x;
                    os_log := (if b then [CodeDropped (otp_key identifier purpose)] else []) ++ os_log x |}
  | step_wait now :
      os_now x <= now ->
      otp_step x {| os_store := os_store x; os_now := now; os_waiting := os_waiting x;
                    os_log := os_log x |}
  | step_elsewhere st :
      (forall i p, same_from (os_now x) (otp_key i p) (shared (os_store x)) (shared st)) ->
      otp_step x {| os_store := st; os_now := os_now x; os_waiting := os_waiting x;
                    os_log := os_log x |}.

(** A start: nothing stored under any key of a code, nobody waiting. *)
Definition fresh_start (x : otp_system) : Prop :=
  os_waiting x = [] /\ os_log x = []
  /\ forall i p, view (os_now x) (otp_key i p) (shared (os_store x)) = None.

(** What is seen under a key is what was stored there last. *)
Definition tracked (x : otp_system) : Prop :=
  forall i p v e, view (os_now x) (otp_key i p) (shared (os_store x)) = Some (v, e) ->
  exists otp at_ ttl, latest event_key (otp_key i p) (os_log x) = Some (CodeStored (otp_key i p) otp at_ ttl)
    /\ v = SText (otp_digest otp) /\ e = Some (at_ + seconds ttl) /\ at_ <= os_now x.

Definition guesses_checked (x : otp_system) : Prop :=
  forall g, g ∈ os_waiting x -> verify_otp_hash (pg_otp g) (pg_hash g) = true.

(** Each acceptance in the log uses up what was stored last, in time. *)
Definition used_latest (k otp : string) (at_ : Z) (earlier : list otp_event) : Prop :=
  exists otp' stored_at ttl, latest event_key k earlier = Some (CodeStored k otp' stored_at ttl)
    /\ otp_digest otp = otp_digest otp' /\ stored_at <= at_ < stored_at + seconds ttl.

Fixpoint log_good (log : list otp_event) : Prop :=
  match log with
  | [] => True
  | GuessAccepted k otp at_ :: earlier => used_latest k otp at_ earlier /\ log_good earlier
  | _ :: earlier => log_good earlier
  end.

Lemma log_good_at l1 k otp at_ l2 :
  log_good (l1 ++ GuessAccepted k otp at_ :: l2) -> used_latest k otp at_ l2.
Proof. induction l1 as [|[k' o t d|k' o t|k'] l1 IH]; simpl; naive_solver. Qed.

(** A step that leaves every code's key as it was. *)
Lemma tracked_same x st w :
  (forall i p, same_from (os_now x) (otp_key i p) (shared (os_store x)) (shared st)) ->
  tracked x ->
  tracked {| os_store := st; os_now := os_now x; os_waiting := w; os_log := os_log x |}.
Proof. intros Hs Ht i p v e Hv. simpl in *. apply Ht. rewrite <- Hv. symmetry. apply Hs. lia. Qed.

(** A step on one key that leaves nothing there, whatever it logs. *)
Lemma tracked_gone x st w k evs :
  (forall ev, ev ∈ evs -> event_key ev = k) ->
  shows_from (os_now x) k None (shared st) ->
  (forall k', k' <> k -> same_from (os_now x) k' (shared (os_store x)) (shared st)) ->
  tracked x ->
  tracked {| os_store := st; os_now := os_now x; os_waiting := w; os_log := evs ++ os_log x |}.
Proof.
  intros Hev Hk Hs Ht i p v e Hv. simpl in *.
  destruct (decide (otp_key i p = k)) as [E|E].
  - rewrite E in Hv. rewrite (Hk (os_now x)) in Hv by lia. done.
  - assert (El : latest event_key (otp_key i p) (evs ++ os_log x) = latest event_key (otp_key i p) (os_log x)).
    { apply latest_skip. intros ev Hin. rewrite (Hev ev Hin). congruence. }
    rewrite El. apply Ht. rewrite <- Hv. symmetry. by apply Hs.
Qed.

(** A compare-and-delete, which logs nothing when it is refused. *)
Lemma tracked_consume x c k h b st w evs :
  at_time c = os_now x ->
  store_compare_and_delete true (via c) (at_time c) k (SText h) (os_store x) = (b, st) ->
  (forall ev, ev ∈ evs -> event_key ev = k) -> (b = false -> evs = []) ->
  tracked x ->
  tracked {| os_store := st; os_now := os_now x; os_waiting := w; os_log := evs ++ os_log x |}.
Proof.
  intros Hc Hcs Hev Hno Ht. pose proof (f_equal snd Hcs) as Hst. simpl in Hst.
  assert (Hf : forall k', k' <> k -> same_from (os_now x) k' (shared (os_store x)) (shared st)).
  { intros k' Hne. rewrite <- Hst, <- Hc. by apply consume_other. }
  destruct (consume_effect (via c) (at_time c) k (SText h) (os_store x)) as [Hg|Hg];
    rewrite Hst, Hc in Hg.
  - by apply tracked_gone with (k := k).
  - destruct b.
    + apply tracked_gone with (k := k); [done| |done|done]. rewrite <- Hst, <- Hc.
      apply consume_taken. by rewrite Hcs.
    + rewrite (Hno eq_refl). simpl. apply tracked_same; [|done]. intros i' p'.
      destruct (decide (otp_key i' p' = k)) as [->|Hne]; [done|by apply Hf].
Qed.

(** What a compare-and-delete takes is what was stored last. *)
Lemma taken_used x c i p h otp st :
  at_time c = os_now x ->
  store_compare_and_delete true (via c) (at_time c) (otp_key i p) (SText h) (os_store x) = (true, st) ->
  otp_digest otp = h -> tracked x -> used_latest (otp_key i p) otp (os_now x) (os_log x).
Proof.
  intros Hc Hcs Hd Ht.
  assert (Ha : fst (store_compare_and_delete true (via c) (at_time c) (otp_key i p) (SText h) (os_store x)) = true)
    by by rewrite Hcs.
  apply consume_answer in Ha as [_ Hv]. rewrite Hc in Hv.
  destruct (view _ _ _) as [[v e]|] eqn:E; [|done]. simpl in Hv. injection Hv as ->.
  destruct (Ht _ _ _ _ E) as (o & t & tl & Hlt & [= Ho] & -> & Hle). exists o, t, tl.
  split; [done|]. split; [congruence|]. apply view_live in E. lia.
Qed.

Lemma step_tracked x y : otp_step x y -> tracked x -> tracked y.
Proof.
  destruct 1 as [c i o p tl b st Hc Hst|c i o p r st Hc Hr|c w1 g w2 a m st Hc Hw Hcs
                |c pid code b st Hc Hrd|c i p b st Hc Hi|now Hn|st Hs]; intros Ht.
  - unfold store_otp in Hst. destruct (_ || _ || _); [done|]. injection Hst as Hst.
    pose proof (set_effect (via c) (at_time c) (otp_key i p) (SText (hash_otp o)) (Some tl) (os_store x)) as He.
    pose proof (fun k' => set_other (via c) (at_time c) (otp_key i p) (SText (hash_otp o)) (Some tl) k' (os_store x)) as Hf.
    rewrite Hst in He, Hf. simpl in He, Hf. rewrite Hc in He, Hf.
    destruct (written (Some tl) (via c)) eqn:Hw.
    + intros i' p' v e Hv. cbn [os_store os_now os_log app] in *.
      destruct (decide (otp_key i' p' = otp_key i p)) as [E|E].
      * rewrite E in Hv |- *. rewrite He in Hv by lia. cbn [deadline] in Hv.
        destruct (Z.eqb_spec tl 0) as [->|Hz].
        { unfold written, ttl_checked in Hw. by destruct (via c) as [| |[|]]. }
        apply live_some in Hv as [[= <- <-] Hx]. exists o, (os_now x), tl.
        split; [apply (latest_here event_key (CodeStored _ _ _ _))|]. done.
      * rewrite latest_other by (simpl; congruence). apply Ht.
        rewrite <- Hv. symmetry. by apply Hf.
    + apply tracked_same; [|done]. rewrite He. intros. apply same_from_refl.
  - apply tracked_same; [|done]. intros i' p'. rewrite <- Hc.
    pose proof (read_otp_same c i o p (otp_key i' p') (os_store x)) as Hs. by rewrite Hr in Hs.
  - apply consume_otp_Ok in Hcs. eapply tracked_consume; [done|exact Hcs| |by intros ->|done].
    destruct a; set_solver.
  - eapply tracked_consume; [done|exact Hrd| |by intros ->|done]. destruct b; set_solver.
  - unfold invalidate_otp in Hi. destruct (_ || _).
    { injection Hi as <- <-. apply tracked_same; [|done]. intros. apply same_from_refl. }
    pose proof (store_delete_effect (via c) (at_time c) (otp_key i p) (os_store x)) as He.
    pose proof (fun k' => delete_other (via c) (at_time c) (otp_key i p) k' (os_store x)) as Hf.
    rewrite Hi in He, Hf. simpl in He, Hf. rewrite Hc in He, Hf.
    destruct (carried (via c)) eqn:Hca.
    + apply tracked_gone with (k := otp_key i p); [destruct b; set_solver|done|done|done].
    + assert (b = false) as ->.
      { unfold store_delete in Hi. assert (E : fst (b, st) = b) by done. rewrite <- Hi, guarded_answer in E.
        by destruct (via c). }
      apply tracked_same; [|done]. rewrite He. intros. apply same_from_refl.
  - intros i p v e Hv. cbn [os_store os_now os_log] in *. apply (view_before (os_now x)) in Hv; [|done].
    destruct (Ht _ _ _ _ Hv) as (o & t & tl & Hl & ? & ? & ?). exists o, t, tl. repeat split; [done..|lia].
  - by apply tracked_same.
Qed.

Lemma step_checked x y : otp_step x y -> guesses_checked x -> guesses_checked y.
Proof.
  destruct 1 as [c i o p tl b st Hc Hst|c i o p r st Hc Hr|c w1 g w2 a m st Hc Hw Hcs
                |c pid code b st Hc Hrd|c i p b st Hc Hi|now Hn|st Hs]; intros Hg; try done.
  - destruct r as [m|h]; [done|]. apply read_otp_right in Hr as (Hh & _).
    intros g Hin. cbn [os_waiting] in Hin. apply elem_of_cons in Hin as [->|Hin]; [done|by apply Hg].
  - intros g' Hin. apply Hg. cbn [os_waiting] in Hin. rewrite Hw. set_solver.
Qed.

Lemma step_log x y : otp_step x y -> tracked x -> guesses_checked x -> log_good (os_log x) ->
  log_good (os_log y).
Proof.
  destruct 1 as [c i o p tl b st Hc Hst|c i o p r st Hc Hr|c w1 g w2 a m st Hc Hw Hcs
                |c pid code b st Hc Hrd|c i p b st Hc Hi|now Hn|st Hs]; intros Ht Hg Hl; simpl; try done.
  - by destruct (written (Some tl) (via c)).
  - apply consume_otp_Ok in Hcs. destruct a; [|done]. split; [|done].
    assert (Hck : verify_otp_hash (pg_otp g) (pg_hash g) = true) by (apply Hg; rewrite Hw; set_solver).
    apply verify_otp_hash_true in Hck as (_ & _ & Hd). by eapply taken_used.
  - destruct b; [|done]. split; [|done]. by eapply taken_used.
  - by destruct b.
Qed.

Lemma history_good x y : fresh_start x -> rtc otp_step x y -> log_good (os_log y).
Proof.
  intros (Hw & Hl & Hv) Hr.
  assert (Hinv : tracked x /\ guesses_checked x /\ log_good (os_log x)).
  { split; [|split].
    - intros i p v e E. by rewrite Hv in E.
    - intros g. rewrite Hw. set_solver.
    - by rewrite Hl. }
  clear Hw Hl Hv. induction Hr as [|x y z Hxy Hyz IH]; [apply Hinv|].
  destruct Hinv as (Ht & Hg & Hl). apply IH. split_and!; eauto using step_tracked, step_checked, step_log.
Qed.

(** C8: where Redis is required (REDIS_REQUIRED), however requests interleave and
    whenever Redis fails, a guess accepted by [verify_otp] or by the native password
    reset is the code stored last for that identifier and purpose, within its life,
    and since it was stored neither another guess was accepted nor it was given up.
    (Where it is not required, the memory a call falls back to can accept a code
    that a later one replaced in Redis: [AuthSample.fallback_accepts_older].) *)
Theorem code_accepted_once x y l1 k otp at_ l2 :
  fresh_start x -> rtc otp_step x y -> os_log y = l1 ++ GuessAccepted k otp at_ :: l2 ->
  exists otp' stored_at ttl, latest event_key k l2 = Some (CodeStored k otp' stored_at ttl)
    /\ otp_digest otp = otp_digest otp' /\ stored_at <= at_ < stored_at + seconds ttl.
Proof.
  intros Hf Hr E. apply (log_good_at l1). rewrite <- E. by eapply history_good.
Qed.

End history.
End OtpHistory.

(** * The verification of an account *)

Lemma pretty_go_nonempty (n : N) s : s <> ""%string -> pretty_N_go n s <> ""%string.
Proof.
  revert s. induction (N.lt_wf_0 n) as [n _ IH]. intros s Hs.
  destruct (decide (n = 0)%N) as [->|Hn]; [by rewrite pretty_N_go_0|].
  rewrite pretty_N_go_step by lia. apply IH; [apply N.div_lt; lia|done].
Qed.

Lemma pretty_N_nonempty (n : N) : pretty n <> ""%string.
Proof.
  unfold pretty, pretty_N. destruct (decide (n = 0)%N) as [|Hn]; [done|].
  rewrite pretty_N_go_step by lia. by apply pretty_go_nonempty.
Qed.

Lemma pretty_some_text (z : Z) : some_text (pretty z) = true.
Proof.
  unfold some_text. destruct (String.eqb_spec (pretty z) ""%string) as [E|]; [|done]. exfalso.
  destruct z as [|p|p]; [done| |done]. by apply (pretty_N_nonempty (N.pos p)).
Qed.

Lemma malformed_nonempty otp : malformed otp = false -> some_text otp = true.
Proof. by destruct otp. Qed.

Module AccountVerification.
Import EmailVerification ChannelVerification.
Section account.
Context {S : Type} `{KeyStoreLaws S} `{OtpDigest}.
Implicit Types st : auth_store S.

(** C22: what one call of [verify_email_code] does where Redis is required: it marks
    the email of the account verified exactly when it answers success, and then
    Redis answered both times and showed, under that email, the digest of the code,
    which is used up; every other answer leaves all accounts as they were. (It is
    not the only way to a verified email: [channel_code_unchecked] below needs no
    code.) *)
Theorem email_verified_by_code c1 c2 uid code users st : at_time c1 <= at_time c2 ->
  let '((ok, m), (users', st')) := verify_email_code true c1 c2 uid code users st in
  if ok then
    exists u at_, user_by_id users uid = Some u /\ malformed (strip code) = false
    /\ via c1 = Up /\ via c2 = Up
    /\ fst <$> view (at_time c2) (otp_key (us_email u) _PURPOSE) (shared st)
       = Some (SText (otp_digest (strip code)))
    /\ shows_from (at_time c2) (otp_key (us_email u) _PURPOSE) None (shared st')
    /\ commit_user users (set_email_verified u (Some at_)) = Some users'
  else users' = users.
Proof.
  intros Ht. unfold verify_email_code. destruct (malformed (strip code)) eqn:Hm; [done|].
  destruct (user_by_id users uid) as [u|] eqn:Hu; [|done].
  destruct (some_text (us_email u)) eqn:He; simpl; [|done].
  pose proof (verify_otp_accepts c1 c2 (us_email u) (strip code) _PURPOSE st Ht) as Ha.
  pose proof (verify_otp_consumed c1 c2 (us_email u) (strip code) _PURPOSE st Ht) as Hc.
  destruct (verify_otp _ _ _ _ _ _ st) as [[ok m] st']. simpl in Ha, Hc.
  destruct ok; simpl; [|done]. destruct Ha as [Ha _]. specialize (Ha eq_refl) as (_ & Hl1 & Hl2 & Hv).
  destruct (commit_user _ _) as [users'|] eqn:Hcm; [|done]. exists u.
  destruct (us_email_verified_at u) as [t|]; eexists; split_and!; eauto.
Qed.

(** FINDING: the verification of a channel accepts any six digits. *)
Theorem channel_code_unchecked c1 c2 uid channel otp users st u :
  user_by_id users uid = Some u -> malformed (strip otp) = false ->
  (phone_channel channel = true -> email_known u = true) ->
  exists st' u', us_is_active u' = true
    /\ (channel = "email"%string -> us_email_verified u' = true)
    /\ (channel = "sms"%string -> us_phone_verified u' = true)
    /\ verify_channel_otp true c1 c2 uid channel otp users st
       = (users' ← commit_user users u'; Some ((true, AccountVerified), (users', st'))).
Proof.
  intros Hu Hm Hp. unfold verify_channel_otp. rewrite Hu, Hm.
  assert (Hpe : phone_channel channel && negb (email_known u) = false).
  { destruct (phone_channel channel); [|done]. by rewrite Hp. }
  rewrite Hpe. destruct (String.eqb_spec channel "email") as [->|Hne].
  - destruct (verify_otp _ _ _ _ _ _ st) as [r st']. simpl.
    eexists st', _. split; [|split; [|split]]; [| | |reflexivity]; done.
  - unfold verify_sms_otp. simpl. rewrite pretty_some_text, (malformed_nonempty _ Hm). simpl.
    destruct (verify_otp _ _ _ _ _ _ st) as [r st']. simpl.
    eexists st', _. split; [|split; [|split]]; [| | |reflexivity]; try done.
    + by destruct (phone_channel channel).
    + by intros ->.
Qed.

End account.
End AccountVerification.
