(* ===== verification/MobileLaws.v ===== *)
(** The laws of native tokens: what the scripts and transactions do to Redis, that
    over any interleaving a refresh token is exchanged at most once, that the
    tokens of a revoked session are dead, and what a bearer context implies. *)

From S2P Require Import Prelude Tables AuthModel KeyStore OneTime MobileTokens MobileApi.

Local Open Scope Z_scope.

Import Sessions MobileTokens MobileApi.

(** * Commands inside scripts and transactions *)

Section commands.
Context {S : Type} `{KeySetsLaws S} `{!KeyStoreLaws S} `{TokenDigest}.
Implicit Types s : S.

(** Frames through a sequence of commands at one time. *)
Lemma command_trans now k s1 s2 s3 : same_from now k s1 s2 -> same_from now k s2 s3 -> same_from now k s1 s3.
Proof. by apply same_from_trans. Qed.

Lemma shows_frame now k o s s' : shows_from now k o s -> same_from now k s s' -> shows_from now k o s'.
Proof. intros Hs Hf t Ht. by rewrite (Hf t Ht), (Hs t Ht). Qed.

Lemma same_shows now k o s s' : same_from now k s s' -> shows_from now k o s -> shows_from now k o s'.
Proof. intros Hf Hs. by eapply shows_frame. Qed.

Lemma setex_here now k ttl v s : 0 < ttl -> shows_from now k (Some (v, Some (now + seconds ttl))) (setex now k ttl v s).
Proof.
  intros Hp. pose proof (set_here now k v (Some ttl) s) as Hs. unfold deadline in Hs.
  by destruct (Z.eqb_spec ttl 0); [lia|].
Qed.

Lemma setex_frame now k ttl v k' s : k' <> k -> same_from now k' s (setex now k ttl v s).
Proof. apply set_frame. Qed.

Lemma del_here now k s : shows_from now k None (del now k s).
Proof. apply delete_here. Qed.

Lemma del_frame now k k' s : k' <> k -> same_from now k' s (del now k s).
Proof. apply delete_frame. Qed.

Lemma dels_frame now ks k' s : k' ∉ ks -> same_from now k' s (foldl (fun s k => del now k s) s ks).
Proof.
  revert s. induction ks as [|k ks IH]; intros s Hn; [apply same_from_refl|]. simpl.
  apply not_elem_of_cons in Hn as [Hne Hn]. eapply command_trans; [by apply del_frame|by apply IH].
Qed.

Lemma del_effect now k k' s : shows_from now k' None (del now k s) \/ same_from now k' s (del now k s).
Proof. destruct (decide (k' = k)) as [->|]; [left; apply del_here|right; by apply del_frame]. Qed.

Lemma expire_here now k ttl v e s : view now k s = Some (v, e) ->
  shows_from now k (Some (v, Some (now + seconds ttl))) (expire now k ttl s).
Proof. intros Hv. by eapply expire_live. Qed.

Lemma exists_spec now k s : fst (exists_ now k s) = is_some (view now k s)
  /\ forall k', same_from now k' s (snd (exists_ now k s)).
Proof.
  unfold exists_. pose proof (get_value now k s) as Hg. pose proof (fun k' => get_frame now k k' s) as Hf.
  destruct (ks_get now k s) as [v s']. simpl in *. subst v. split; [|done].
  by destruct (view now k s).
Qed.

(** A command either happens or it does not. *)
Lemma command_effect {A} c (f : S -> A * S) s : snd (command c f s) = if carried (via c) then snd (f s) else s.
Proof. unfold command. destruct (via c) as [| |[|]]; simpl; [by destruct (f s)|done..]. Qed.

Lemma command_answer {A} c (f : S -> A * S) s : fst (command c f s) = match via c with Up => Some (fst (f s)) | _ => None end.
Proof. unfold command. destruct (via c); [by destruct (f s)|done..]. Qed.

End commands.

(** Frames through a script or transaction, one command at a time. *)
Ltac frames ne :=
  lazymatch goal with
  | |- same_from _ _ ?s ?s => apply same_from_refl
  | |- same_from _ _ _ (expire _ _ _ _) => first [eapply command_trans; [|apply expire_frame; ne]; frames ne | apply same_from_refl]
  | |- same_from _ _ _ (ks_sadd _ _ _ _) => first [eapply command_trans; [|apply sadd_frame; ne]; frames ne | apply same_from_refl]
  | |- same_from _ _ _ (setex _ _ _ _ _) => first [eapply command_trans; [|apply setex_frame; ne]; frames ne | apply same_from_refl]
  | |- same_from _ _ _ (del _ _ _) => first [eapply command_trans; [|apply del_frame; ne]; frames ne | apply same_from_refl]
  | |- same_from _ _ _ (foldl _ _ _) => first [eapply command_trans; [|apply dels_frame; ne]; frames ne | apply same_from_refl]
  | |- _ => idtac
  end.

(** * Keys *)

(** The keys of the five families differ from the first letters of the family. *)
Section keys.
Context `{TokenDigest}.

Definition token_kind (kind : string) : Prop := kind = "access"%string \/ kind = "refresh"%string.

Lemma session_revoked_ne sid sid' : _session_key sid <> _revoked_key sid'.
Proof. unfold _session_key, _revoked_key, token_prefix. intros E. simpl in E. discriminate E. Qed.

Lemma token_session_ne kind t sid : token_kind kind -> _token_key kind t <> _session_key sid.
Proof. unfold _session_key, _token_key, token_prefix. intros [->| ->] E; simpl in E; discriminate E. Qed.

Lemma token_revoked_ne kind t sid : token_kind kind -> _token_key kind t <> _revoked_key sid.
Proof. unfold _revoked_key, _token_key, token_prefix. intros [->| ->] E; simpl in E; discriminate E. Qed.

Lemma used_ne t k : (exists t', k = _token_key "refresh" t') \/ (exists sid, k = _session_key sid)
  \/ (exists sid, k = _revoked_key sid) -> k <> _token_key "refresh-used" t.
Proof.
  unfold _revoked_key, _session_key, _token_key, token_prefix.
  intros [[? ->]|[[? ->]|[? ->]]] E; simpl in E; discriminate E.
Qed.

Lemma access_used_ne t t' : _token_key "access" t <> _token_key "refresh-used" t'.
Proof. unfold _token_key, token_prefix. intros E. simpl in E. discriminate E. Qed.

(** The key of the marker goes with the key of the token. *)
Lemma used_key_refresh t t' :
  _token_key "refresh-used" t = _token_key "refresh-used" t' <-> _token_key "refresh" t = _token_key "refresh" t'.
Proof.
  unfold _token_key, token_prefix. split; intros E; simpl in E; injection E as E;
    assert (token_digest t = token_digest t') as -> by exact E; done.
Qed.

Lemma access_refresh_ne t t' : _token_key "access" t <> _token_key "refresh" t'.
Proof. unfold _token_key, token_prefix. intros E. simpl in E. discriminate E. Qed.

Lemma revoked_key_inj sid sid' : _revoked_key sid = _revoked_key sid' -> sid = sid'.
Proof. unfold _revoked_key, token_prefix. intros E. simpl in E. by injection E. Qed.

Lemma session_key_inj sid sid' : _session_key sid = _session_key sid' -> sid = sid'.
Proof. unfold _session_key, token_prefix. intros E. simpl in E. by injection E. Qed.

End keys.

(** * Histories *)

Module MobileHistory.

Create HintDb keys.

Abbreviation refresh_key t := (_token_key "refresh" t).
Abbreviation used_key t := (_token_key "refresh-used" t).

(** What was done to a refresh token or a session: its record was written, it was
    exchanged (the script was carried out, whether or not its answer arrived), the
    session was revoked. *)
Inductive token_event : Type :=
  | TokenWritten (key : string) (record : token_record) (at_ : Z)
  | TokenRotated (key : string) (at_ : Z)
  | SessionRevoked (sid : string) (at_ : Z).

Definition token_event_key `{TokenDigest} (ev : token_event) : string :=
  match ev with
  | TokenWritten k _ _ | TokenRotated k _ => k
  | SessionRevoked sid _ => _revoked_key sid
  end.

(** The record a token had when it was exchanged, and when: the last that
    happened to it is the exchange, and before that it was written. *)
Fixpoint exchanged `{TokenDigest} (k : string) (log : list token_event) : option (token_record * Z) :=
  match log with
  | [] => None
  | TokenWritten k' _ _ :: log => if String.eqb k' k then None else exchanged k log
  | TokenRotated k' at_ :: log =>
      if String.eqb k' k
      then match latest token_event_key k log with
           | Some (TokenWritten _ r _) => Some (r, at_)
           | _ => None
           end
      else exchanged k log
  | SessionRevoked _ _ :: log => exchanged k log
  end.

(** The record [issue_mobile_tokens] stores for the refresh token. *)
Definition first_record (now : Z) (user_public_id session_id server_session_id client device_id : string)
    : token_record := {|
  tk_user_public_id := user_public_id; tk_session_id := session_id;
  tk_server_session_id := server_session_id; tk_client := client;
  tk_device_id := device_id; tk_issued_at := timestamp now; tk_token_type := "refresh";
|}.

Section history.
Context {S : Type} `{KeySetsLaws S} `{!KeyStoreLaws S} `{TokenDigest}.

Record mobile_system : Type := {
  ms_store : S;
  ms_now : Z;
  ms_revoking : list (string * list string);
  ms_log : list token_event;
}.

Definition mobile_key (k : string) : Prop :=
  (exists kind t, token_kind kind /\ k = _token_key kind t)
  \/ (exists sid, k = _session_key sid) \/ (exists sid, k = _revoked_key sid)
  \/ (exists t, k = used_key t).

Definition moved (x : mobile_system) (s : S) (evs : list token_event) : mobile_system :=
  {| ms_store := s; ms_now := ms_now x; ms_revoking := ms_revoking x; ms_log := evs ++ ms_log x |}.

(** Each script and transaction is one step; a revocation reads the keys of the
    session in one step and writes in another. Redis may fail at any of them. *)
Inductive mobile_step (x : mobile_system) : mobile_system -> Prop :=
  | step_issue c a t pid sid ssid client device r s :
      at_time c = ms_now x ->
      issue_mobile_tokens c a t pid sid ssid client device (ms_store x) = (r, s) ->
      mobile_step x (moved x s (if carried (via c)
         then [TokenWritten (refresh_key t) (first_record (ms_now x) pid sid ssid client device) (ms_now x)]
         else []))
  | step_rotate c old new rec z s :
      at_time c = ms_now x ->
      rotate_mobile_refresh_token c old new rec (ms_store x) = (z, s) ->
      mobile_step x (moved x s
        (if carried (via c) && bool_decide (fst (rotation (ms_now x) old new rec (ms_store x)) = 1)
         then [TokenWritten (refresh_key new) rec (ms_now x); TokenRotated (refresh_key old) (ms_now x)]
         else []))
  | step_access c a rec r s :
      at_time c = ms_now x ->
      store_rotated_access_token c a rec (ms_store x) = (r, s) ->
      mobile_step x (moved x s [])
  | step_members c sid ks :
      at_time c = ms_now x -> ks = ks_smembers (ms_now x) (_session_key sid) (ms_store x) ->
      mobile_step x {| ms_store := ms_store x; ms_now := ms_now x;
                       ms_revoking := (sid, ks) :: ms_revoking x; ms_log := ms_log x |}
  | step_revoke c sid ks r s :
      at_time c = ms_now x -> (sid, ks) ∈ ms_revoking x ->
      command c (fun s => (tt, revoke_transaction (at_time c) sid ks s)) (ms_store x) = (r, s) ->
      mobile_step x (moved x s (if carried (via c) then [SessionRevoked sid (ms_now x)] else []))
  | step_pop c challenge r s :
      at_time c = ms_now x -> pop_mobile_mfa_challenge c challenge (ms_store x) = (r, s) ->
      mobile_step x (moved x s [])
  | step_wait now :
      ms_now x <= now ->
      mobile_step x {| ms_store := ms_store x; ms_now := now; ms_revoking := ms_revoking x;
                       ms_log := ms_log x |}
  | step_elsewhere s :
      (forall k, mobile_key k -> same_from (ms_now x) k (ms_store x) s) ->
      mobile_step x (moved x s []).

Definition fresh_start (x : mobile_system) : Prop :=
  ms_revoking x = [] /\ ms_log x = [] /\ forall t sid,
  view (ms_now x) (refresh_key t) (ms_store x) = None /\ view (ms_now x) (_session_key sid) (ms_store x) = None.

Definition token_key (k : string) : Prop := exists kind t, token_kind kind /\ k = _token_key kind t.

(** What is seen of a refresh token was written last, and lives 30 days. *)
Definition tokens_tracked (x : mobile_system) : Prop :=
  forall t v e, view (ms_now x) (refresh_key t) (ms_store x) = Some (v, e) ->
  exists r at_, latest token_event_key (refresh_key t) (ms_log x) = Some (TokenWritten (refresh_key t) r at_)
    /\ v = SToken r /\ e = Some (at_ + seconds REFRESH_TTL_SECONDS) /\ at_ <= ms_now x.

(** A session's key shows a set of token keys. *)
Definition sets_shaped (x : mobile_system) : Prop :=
  forall sid v e, view (ms_now x) (_session_key sid) (ms_store x) = Some (v, e) ->
  exists ks, v = SKeys ks /\ forall k, k ∈ ks -> token_key k.

Definition revocations_held (x : mobile_system) : Prop :=
  forall sid at_, SessionRevoked sid at_ ∈ ms_log x ->
  ms_now x < at_ + seconds SESSION_REVOKE_TTL_SECONDS ->
  exists v e, view (ms_now x) (_revoked_key sid) (ms_store x) = Some (v, Some e)
    /\ at_ + seconds SESSION_REVOKE_TTL_SECONDS <= e.

(** The marker of an exchanged token keeps its record for 30 days. *)
Definition used_tracked (x : mobile_system) : Prop :=
  forall t r at_, exchanged (refresh_key t) (ms_log x) = Some (r, at_) ->
  ms_now x < at_ + seconds REFRESH_TTL_SECONDS ->
  view (ms_now x) (used_key t) (ms_store x) = Some (SToken r, Some (at_ + seconds REFRESH_TTL_SECONDS)).

Definition revoking_tokens (x : mobile_system) : Prop :=
  forall sid ks k, (sid, ks) ∈ ms_revoking x -> k ∈ ks -> token_key k.

Record mobile_inv (x : mobile_system) : Prop := {
  mi_tokens : tokens_tracked x;
  mi_sets : sets_shaped x;
  mi_revoked : revocations_held x;
  mi_used : used_tracked x;
  mi_revoking : revoking_tokens x;
}.

(** What a step may do to each family of keys. *)
Definition tokens_effect (x : mobile_system) (s : S) (evs : list token_event) : Prop :=
  forall t, (same_from (ms_now x) (refresh_key t) (ms_store x) s
             /\ forall ev, ev ∈ evs -> token_event_key ev <> refresh_key t)
    \/ shows_from (ms_now x) (refresh_key t) None s
    \/ exists r, shows_from (ms_now x) (refresh_key t)
                    (Some (SToken r, Some (ms_now x + seconds REFRESH_TTL_SECONDS))) s
        /\ latest token_event_key (refresh_key t) (evs ++ ms_log x) = Some (TokenWritten (refresh_key t) r (ms_now x)).

Definition sets_effect (x : mobile_system) (s : S) : Prop :=
  forall sid, same_from (ms_now x) (_session_key sid) (ms_store x) s
    \/ shows_from (ms_now x) (_session_key sid) None s
    \/ exists ks e, shows_from (ms_now x) (_session_key sid) (Some (SKeys ks, e)) s
                    /\ forall k, k ∈ ks -> token_key k.

Definition revoked_effect (x : mobile_system) (s : S) (evs : list token_event) : Prop :=
  forall sid, (same_from (ms_now x) (_revoked_key sid) (ms_store x) s
               /\ forall at_, SessionRevoked sid at_ ∉ evs)
    \/ (exists v, shows_from (ms_now x) (_revoked_key sid)
                    (Some (v, Some (ms_now x + seconds SESSION_REVOKE_TTL_SECONDS))) s
        /\ forall at_, SessionRevoked sid at_ ∈ evs -> at_ = ms_now x).

Definition used_effect (x : mobile_system) (s : S) (evs : list token_event) : Prop :=
  forall t r at_, exchanged (refresh_key t) (evs ++ ms_log x) = Some (r, at_) ->
    (same_from (ms_now x) (used_key t) (ms_store x) s /\ exchanged (refresh_key t) (ms_log x) = Some (r, at_))
    \/ (at_ = ms_now x
        /\ shows_from (ms_now x) (used_key t) (Some (SToken r, Some (at_ + seconds REFRESH_TTL_SECONDS))) s).

(** What a step may do to the keys of this module. *)
Definition effects (x : mobile_system) (s : S) (evs : list token_event) : Prop :=
  tokens_effect x s evs /\ sets_effect x s /\ revoked_effect x s evs /\ used_effect x s evs.

(** A step without events that leaves the markers alone. *)
Lemma used_quiet x s : (forall t, same_from (ms_now x) (used_key t) (ms_store x) s) -> used_effect x s [].
Proof. intros Hs t r at_ Hx. by left. Qed.

Lemma effects_inv x s evs : mobile_inv x -> effects x s evs -> (forall sid at_, SessionRevoked sid at_ ∈ ms_log x -> at_ <= ms_now x) ->
  mobile_inv (moved x s evs).
Proof.
  intros [It Is Ir Iu Iv] (Et & Es & Er & Eu) Hle. split.
  - intros t v e Hv. cbn [ms_store ms_now ms_log moved] in *. destruct (Et t) as [[Hs He]|[Hs|(w & Hs & Hl)]].
    + rewrite latest_skip by done. apply (It t v). rewrite <- Hv. symmetry. apply Hs. lia.
    + rewrite Hs in Hv by lia. done.
    + rewrite Hs in Hv by lia. apply live_some in Hv as [[= <- <-] _]. exists w, (ms_now x). done.
  - intros sid v e Hv. cbn [ms_store ms_now moved] in *. destruct (Es sid) as [Hs|[Hs|(ks & e' & Hs & Hk)]].
    + apply (Is sid v e). rewrite <- Hv. symmetry. apply Hs. lia.
    + rewrite Hs in Hv by lia. done.
    + rewrite Hs in Hv by lia. apply live_some in Hv as [[= <- <-] _]. eauto.
  - intros sid at_ Hin Hlt. cbn [ms_store ms_now ms_log moved] in *. destruct (Er sid) as [[Hs Hn]|(v & Hs & Ha)].
    + apply elem_of_app in Hin as [Hin|Hin]; [by destruct (Hn at_)|].
      rewrite Hs by lia. by apply Ir.
    + exists v, (ms_now x + seconds SESSION_REVOKE_TTL_SECONDS). rewrite Hs by lia. cbn [live expired_at].
      assert (Hpos : 0 < seconds SESSION_REVOKE_TTL_SECONDS) by done.
      destruct (Z.leb_spec (ms_now x + seconds SESSION_REVOKE_TTL_SECONDS) (ms_now x)); [lia|]. split; [done|].
      apply elem_of_app in Hin as [Hin|Hin]; [rewrite (Ha _ Hin); lia|]. specialize (Hle _ _ Hin). lia.
  - intros t r at_ Hx Hlt. cbn [ms_store ms_now ms_log moved] in *. destruct (Eu t r at_ Hx) as [[Hs Ho]|[-> Hs]].
    + rewrite Hs by lia. by apply Iu.
    + rewrite Hs by lia. cbn [live expired_at].
      by destruct (Z.leb_spec (ms_now x + seconds REFRESH_TTL_SECONDS) (ms_now x)); [lia|].
  - done.
Qed.

(** SADD and EXPIRE on the key of a session. *)
Lemma enroll_spec now sid new s :
  (forall v e, view now (_session_key sid) s = Some (v, e) -> exists ks, v = SKeys ks /\ forall k, k ∈ ks -> token_key k) ->
  (forall k, k ∈ new -> token_key k) ->
  exists ks e, shows_from now (_session_key sid) (Some (SKeys ks, e))
                 (expire now (_session_key sid) REFRESH_TTL_SECONDS (ks_sadd now (_session_key sid) new s))
    /\ forall k, k ∈ ks -> token_key k.
Proof.
  intros Hold Hnew. destruct (view now (_session_key sid) s) as [[v e]|] eqn:E.
  - destruct (Hold _ _ eq_refl) as (ks & -> & Hks). pose proof (sadd_more _ _ new _ _ _ E) as Hs.
    eexists (ks ∪ list_to_set new), _. split; [|set_solver].
    eapply expire_here. rewrite (Hs now) by lia. apply live_some in E as [_ Hx]. simpl. by rewrite Hx.
  - pose proof (sadd_new _ _ new _ E) as Hs. eexists (list_to_set new), _. split; [|set_solver].
    eapply expire_here. by rewrite (Hs now) by lia.
Qed.

Definition session_shaped now sid s : Prop := forall v e, view now (_session_key sid) s = Some (v, e) ->
  exists ks, v = SKeys ks /\ forall k, k ∈ ks -> token_key k.

Lemma shaped_frame now sid s s' : same_from now (_session_key sid) s s' -> session_shaped now sid s ->
  session_shaped now sid s'.
Proof. intros Hs Hp v e Hv. apply (Hp v e). rewrite <- Hv. symmetry. apply Hs. lia. Qed.

Lemma refresh_session_ne t sid : refresh_key t <> _session_key sid.
Proof. apply token_session_ne. by right. Qed.

Lemma refresh_revoked_ne t sid : refresh_key t <> _revoked_key sid.
Proof. apply token_revoked_ne. by right. Qed.

Lemma access_session_ne t sid : _token_key "access" t <> _session_key sid.
Proof. apply token_session_ne. by left. Qed.

Lemma access_revoked_ne t sid : _token_key "access" t <> _revoked_key sid.
Proof. apply token_revoked_ne. by left. Qed.

Lemma refresh_token_key t : token_key (refresh_key t).
Proof. exists "refresh"%string, t. split; [by right|done]. Qed.

Lemma access_token_key t : token_key (_token_key "access" t).
Proof. exists "access"%string, t. split; [by left|done]. Qed.

Lemma refresh_used_ne t t' : refresh_key t <> _token_key "refresh-used" t'.
Proof. apply used_ne. eauto. Qed.

Lemma other_used_ne t t' : refresh_key t <> refresh_key t' -> used_key t <> used_key t'.
Proof. by rewrite used_key_refresh. Qed.

Lemma session_used_ne sid t : _session_key sid <> _token_key "refresh-used" t.
Proof. apply used_ne. eauto. Qed.

Lemma revoked_used_ne sid t : _revoked_key sid <> _token_key "refresh-used" t.
Proof. apply used_ne. eauto. Qed.

End history.

#[local] Hint Resolve refresh_session_ne refresh_revoked_ne access_session_ne access_revoked_ne
  refresh_used_ne access_used_ne session_used_ne revoked_used_ne session_revoked_ne access_refresh_ne
  refresh_token_key access_token_key : keys.
#[local] Hint Extern 1 (_ <> _) => apply not_eq_sym : keys.

Ltac key_ne := solve [assumption | congruence | eauto 3 with keys].

Section steps.
Context {S : Type} `{KeySetsLaws S} `{!KeyStoreLaws S} `{TokenDigest}.
Implicit Types x : mobile_system (S := S).

Lemma issue_effects x a t r s : mobile_inv x ->
  s = issue_transaction (ms_now x) a t r (ms_store x) ->
  effects x s [TokenWritten (refresh_key t) (token_with r (tk_issued_at r) "refresh") (ms_now x)].
Proof.
  intros [_ Is _ _ _] ->. unfold issue_transaction. split_and!.
  - intros t'. destruct (decide (refresh_key t' = refresh_key t)) as [E|E].
    + right. right. rewrite E. eexists. split; [|apply (latest_here token_event_key (TokenWritten _ _ _))].
      eapply shows_frame; [|by frames key_ne]. by apply setex_here.
    + left. split; [frames key_ne|]. intros ev ->%list_elem_of_singleton. simpl. congruence.
  - intros sid. destruct (decide (sid = tk_session_id r)) as [->|E].
    + right. right. apply enroll_spec.
      * apply (shaped_frame _ _ (ms_store x)); [frames key_ne|]. intros v e. apply Is.
      * intros k Hk. apply elem_of_cons in Hk as [->| ->%list_elem_of_singleton]; eauto with keys.
    + left. assert (_session_key sid <> _session_key (tk_session_id r)).
      { intros E'. apply E. by apply session_key_inj. }
      frames key_ne.
  - intros sid. left. split; [frames key_ne|]. intros at_ [=]%list_elem_of_singleton.
  - intros t' r' at_. cbn [exchanged app]. destruct (String.eqb_spec (refresh_key t) (refresh_key t')); [done|].
    intros Hx. left. split; [frames key_ne|done].
Qed.

(** The store after a rotation that succeeds, from [s1] on. *)
Definition rotated now old new r (v : stored) (s1 : S) : S :=
  let sk := _session_key (tk_session_id r) in
  expire now sk REFRESH_TTL_SECONDS (ks_sadd now sk [refresh_key new]
    (setex now (refresh_key new) REFRESH_TTL_SECONDS (SToken r)
      (setex now (_token_key "refresh-used" old) REFRESH_TTL_SECONDS v (del now (refresh_key old) s1)))).

Lemma rotation_spec now old new r (s : S) :
  (fst (rotation now old new r s) = 1 /\ view now (_revoked_key (tk_session_id r)) s = None
   /\ exists v e s1, view now (refresh_key old) s = Some (v, e) /\ (forall k, same_from now k s s1)
      /\ snd (rotation now old new r s) = rotated now old new r v s1)
  \/ (fst (rotation now old new r s) <> 1 /\ forall k, same_from now k s (snd (rotation now old new r s))).
Proof.
  unfold rotation, rotate_script.
  destruct (exists_spec now (_revoked_key (tk_session_id r)) s) as [He Hs].
  destruct (exists_ now (_revoked_key (tk_session_id r)) s) as [rv s0]. simpl in He, Hs.
  destruct rv; [right; done|].
  pose proof (get_value now (refresh_key old) s0) as Hg.
  pose proof (fun k => get_frame now (refresh_key old) k s0) as Hf.
  destruct (ks_get now (refresh_key old) s0) as [cur s1]. simpl in Hg, Hf. subst cur.
  assert (Hs1 : forall k, same_from now k s s1) by (intros k; by eapply command_trans).
  destruct (view now (refresh_key old) s0) as [[v e]|] eqn:E; simpl.
  - left. split; [done|]. split; [by destruct (view now (_revoked_key _) s)|].
    exists v, e, s1. rewrite (Hs _ now) in E by lia. done.
  - right. destruct (exists_spec now (_token_key "refresh-used" old) s1) as [_ Hs2].
    destruct (exists_ now (_token_key "refresh-used" old) s1) as [u s2]. simpl in Hs2 |- *.
    split; [by destruct u|]. intros k. eapply command_trans; [apply Hs1|apply Hs2].
Qed.

(** The script on a token already exchanged. *)
Lemma rotation_replayed now old new r (s : S) used :
  view now (_revoked_key (tk_session_id r)) s = None -> view now (refresh_key old) s = None ->
  view now (used_key old) s = Some used ->
  fst (rotation now old new r s) = -1 /\ forall k, same_from now k s (snd (rotation now old new r s)).
Proof.
  intros Hrev Hold Hused. unfold rotation, rotate_script.
  destruct (exists_spec now (_revoked_key (tk_session_id r)) s) as [He Hs]. rewrite Hrev in He.
  destruct (exists_ now (_revoked_key (tk_session_id r)) s) as [rv s0]. simpl in He, Hs. subst rv.
  pose proof (get_value now (refresh_key old) s0) as Hg. rewrite (Hs _ now), Hold in Hg by lia.
  pose proof (fun k => get_frame now (refresh_key old) k s0) as Hf.
  destruct (ks_get now (refresh_key old) s0) as [cur s1]. simpl in Hg, Hf. subst cur.
  destruct (exists_spec now (used_key old) s1) as [Hu Hs2].
  rewrite (Hf _ now), (Hs _ now), Hused in Hu by lia.
  destruct (exists_ now (used_key old) s1) as [u s2]. simpl in Hu, Hs2 |- *. subst u. split; [done|].
  intros k. eapply command_trans; [apply Hs|]. eapply command_trans; [apply Hf|apply Hs2].
Qed.

Lemma rotated_effects x old new r v e s1 : mobile_inv x ->
  view (ms_now x) (refresh_key old) (ms_store x) = Some (v, e) ->
  (forall k, same_from (ms_now x) k (ms_store x) s1) ->
  effects x (rotated (ms_now x) old new r v s1)
    [TokenWritten (refresh_key new) r (ms_now x); TokenRotated (refresh_key old) (ms_now x)].
Proof.
  intros [It Is _ _ _] Hv Hs1. unfold rotated. split_and!.
  - intros t. destruct (decide (refresh_key t = refresh_key new)) as [E|E].
    + right. right. rewrite E. eexists. split; [|apply (latest_here token_event_key (TokenWritten _ _ _))].
      eapply shows_frame; [|by frames key_ne]. by apply setex_here.
    + destruct (decide (refresh_key t = refresh_key old)) as [E'|E'].
      * right. left. rewrite E' in E |- *. eapply shows_frame; [|by frames key_ne]. apply del_here.
      * left. split; [eapply command_trans; [apply Hs1|]; frames key_ne|].
        by intros ev [->| ->%list_elem_of_singleton]%elem_of_cons; simpl; apply not_eq_sym.
  - intros sid. destruct (decide (sid = tk_session_id r)) as [->|E].
    + right. right. apply enroll_spec.
      * apply (shaped_frame _ _ (ms_store x)); [eapply command_trans; [apply Hs1|]; frames key_ne|].
        intros v' e'. apply Is.
      * intros k ->%list_elem_of_singleton. eauto with keys.
    + left. assert (_session_key sid <> _session_key (tk_session_id r)).
      { intros E'. apply E. by apply session_key_inj. }
      eapply command_trans; [apply Hs1|]. frames key_ne.
  - intros sid. left. split; [eapply command_trans; [apply Hs1|]; frames key_ne|].
    by intros at_ [[=]|[=]%list_elem_of_singleton]%elem_of_cons.
  - intros t r' at_. cbn [exchanged app]. destruct (String.eqb_spec (refresh_key new) (refresh_key t)) as [|En]; [done|].
    destruct (String.eqb_spec (refresh_key old) (refresh_key t)) as [E|E].
    + destruct (It old v e Hv) as (w & at_w & Hl & -> & _). rewrite <- E, Hl. intros [= <- <-]. right.
      split; [done|]. apply used_key_refresh in E as <-.
      eapply shows_frame; [by apply setex_here|]. frames key_ne.
    + intros Hx. left. split; [|done]. apply not_eq_sym, other_used_ne in E.
      eapply command_trans; [apply Hs1|]. frames key_ne.
Qed.

Lemma access_effects x a r s : mobile_inv x -> s = access_transaction (ms_now x) a r (ms_store x) ->
  effects x s [].
Proof.
  intros [_ Is _ _ _] ->. unfold access_transaction. split_and!.
  - intros t. left. split; [frames key_ne|]. intros ev []%not_elem_of_nil.
  - intros sid. destruct (decide (sid = tk_session_id r)) as [->|E].
    + right. right. apply enroll_spec.
      * apply (shaped_frame _ _ (ms_store x)); [frames key_ne|]. intros v e. apply Is.
      * intros k ->%list_elem_of_singleton. eauto with keys.
    + left. assert (_session_key sid <> _session_key (tk_session_id r)).
      { intros E'. apply E. by apply session_key_inj. }
      frames key_ne.
  - intros sid. left. split; [frames key_ne|]. intros at_ []%not_elem_of_nil.
  - apply used_quiet. intros t. frames key_ne.
Qed.

Lemma same_effects x s : (forall k, mobile_key k -> same_from (ms_now x) k (ms_store x) s) ->
  effects x s [].
Proof.
  intros Hs. split_and!.
  - intros t. left. split; [apply Hs; left; exists "refresh"%string, t; split; [by right|done]|].
    intros ev []%not_elem_of_nil.
  - intros sid. left. apply Hs. right. left. by exists sid.
  - intros sid. left. split; [apply Hs; right; right; left; by exists sid|]. intros at_ []%not_elem_of_nil.
  - apply used_quiet. intros t. apply Hs. right. right. right. by exists t.
Qed.

Lemma dels_effect now ks k s :
  shows_from now k None (foldl (fun s k => del now k s) s ks) \/ same_from now k s (foldl (fun s k => del now k s) s ks).
Proof.
  revert s. induction ks as [|k' ks IH]; intros s; [right; apply same_from_refl|]. simpl.
  destruct (IH (del now k' s)) as [Hn|Hs]; [by left|].
  destruct (del_effect now k' k s) as [Hd|Hd]; [left; by eapply shows_frame|right; by eapply command_trans].
Qed.

Lemma revoke_effects x sid ks s : mobile_inv x -> (forall k, k ∈ ks -> token_key k) ->
  s = revoke_transaction (ms_now x) sid ks (ms_store x) ->
  effects x s [SessionRevoked sid (ms_now x)].
Proof.
  intros _ Hks ->. unfold revoke_transaction. cbv zeta.
  set (s0 := setex _ _ _ _ (ms_store x)). split_and!.
  - intros t. destruct (dels_effect (ms_now x) ks (refresh_key t) s0) as [Hd|Hd].
    + right. left. eapply shows_frame; [exact Hd|]. frames key_ne.
    + left. split.
      * eapply command_trans; [|by apply del_frame; key_ne]. eapply command_trans; [|exact Hd].
        unfold s0. frames key_ne.
      * intros ev ->%list_elem_of_singleton. simpl. key_ne.
  - intros sid'. destruct (decide (sid' = sid)) as [->|E].
    + right. left. apply del_here.
    + left. assert (_session_key sid' <> _session_key sid).
      { intros E'. apply E. by apply session_key_inj. }
      assert (_session_key sid' ∉ ks).
      { intros (kind & t & Hk & E')%Hks. by destruct (token_session_ne kind t sid' Hk). }
      unfold s0. frames key_ne.
  - intros sid'. assert (_revoked_key sid' ∉ ks).
    { intros (kind & t & Hk & E')%Hks. by destruct (token_revoked_ne kind t sid' Hk). }
    destruct (decide (sid' = sid)) as [->|E].
    + right. eexists. split.
      * eapply shows_frame; [by apply (setex_here _ (_revoked_key sid) SESSION_REVOKE_TTL_SECONDS (SInt 1) (ms_store x))|].
        unfold s0. frames key_ne.
      * by intros at_ [= ->]%list_elem_of_singleton.
    + left. assert (_revoked_key sid' <> _revoked_key sid).
      { intros E'. apply E. by apply revoked_key_inj. }
      split; [unfold s0; frames key_ne|]. intros at_ [= -> _]%list_elem_of_singleton. done.
  - intros t r at_ Hx. left. split; [|done].
    assert (used_key t ∉ ks).
    { intros (kind & t' & Hk & E)%Hks. symmetry in E. destruct Hk as [-> | ->]; [by eapply access_used_ne|by eapply refresh_used_ne]. }
    unfold s0. frames key_ne.
Qed.

Definition revoked_before x : Prop := forall sid at_, SessionRevoked sid at_ ∈ ms_log x -> at_ <= ms_now x.

(** Each rotation in the log uses up what was written last, within its life. *)
Definition rotation_good (k : string) (at_ : Z) (earlier : list token_event) : Prop :=
  exists r written_at, latest token_event_key k earlier = Some (TokenWritten k r written_at)
    /\ written_at <= at_ < written_at + seconds REFRESH_TTL_SECONDS.

Fixpoint rotations_good (log : list token_event) : Prop :=
  match log with
  | [] => True
  | TokenRotated k at_ :: earlier => rotation_good k at_ earlier /\ rotations_good earlier
  | _ :: earlier => rotations_good earlier
  end.

Definition system_inv x : Prop := mobile_inv x /\ revoked_before x /\ rotations_good (ms_log x).

Lemma moved_inv x s evs : system_inv x -> effects x s evs ->
  (forall sid at_, SessionRevoked sid at_ ∈ evs -> at_ <= ms_now x) ->
  rotations_good (evs ++ ms_log x) -> system_inv (moved x s evs).
Proof.
  intros (Hi & Hb & Hr) He Hev Hg. split_and!; [by apply effects_inv| |done].
  intros sid at_ [Hin|Hin]%elem_of_app; [by eapply Hev|by eapply Hb].
Qed.

Lemma unmoved_inv x s : system_inv x -> s = ms_store x -> system_inv (moved x s []).
Proof.
  intros Hi ->. apply moved_inv; [done| | |apply Hi].
  - apply same_effects. intros. apply same_from_refl.
  - intros sid at_ []%not_elem_of_nil.
Qed.

Lemma rotate_inv x c old new r z s : at_time c = ms_now x ->
  rotate_mobile_refresh_token c old new r (ms_store x) = (z, s) -> system_inv x ->
  system_inv (moved x s
    (if carried (via c) && bool_decide (fst (rotation (ms_now x) old new r (ms_store x)) = 1)
     then [TokenWritten (refresh_key new) r (ms_now x); TokenRotated (refresh_key old) (ms_now x)]
     else [])).
Proof.
  intros Hc Hr Hi. unfold rotate_mobile_refresh_token in Hr.
  assert (Hs : s = snd (command c (rotation (at_time c) old new r) (ms_store x))) by by rewrite Hr.
  clear Hr. rewrite command_effect, Hc in Hs.
  destruct (rotation_spec (ms_now x) old new r (ms_store x))
    as [(H1z & Hrv & v & e & s1 & Hv & Hs1 & Hs2)|(H1z & Hsame)].
  - rewrite H1z, (bool_decide_eq_true_2 (1 = 1)), andb_true_r by done. rewrite Hs2 in Hs.
    destruct (carried (via c)) eqn:Hca; [|by apply unmoved_inv]. rewrite Hs. apply moved_inv; [done| | |].
    + eapply rotated_effects; [apply Hi|done..].
    + by intros sid at_ [[=]|[=]%list_elem_of_singleton]%elem_of_cons.
    + cbn [app rotations_good]. split; [|apply Hi].
      destruct Hi as ([It _ _ _ _] & _ & _). destruct (It old v e Hv) as (w & at_w & Hl & _ & -> & Hle).
      exists w, at_w. split; [done|]. apply view_live in Hv. lia.
  - rewrite (bool_decide_eq_false_2 (fst _ = 1)), andb_false_r by done. apply moved_inv; [done| | |apply Hi].
    + apply same_effects. intros k _. rewrite Hs. destruct (carried _); [done|apply same_from_refl].
    + intros sid at_ []%not_elem_of_nil.
Qed.

Lemma pop_same c challenge k s r s' : mobile_key k -> pop_mobile_mfa_challenge c challenge s = (r, s') ->
  same_from (at_time c) k s s'.
Proof.
  intros Hk. unfold pop_mobile_mfa_challenge.
  assert (Hne : k <> _mfa_key challenge).
  { unfold _mfa_key. destruct Hk as [(kd & t & [->| ->] & ->)|[[sid ->]|[[sid ->]|[t ->]]]];
      unfold _token_key, _session_key, _revoked_key, token_prefix; intros E; simpl in E; discriminate E. }
  assert (Hp : same_from (at_time c) k s (snd (pop_script (at_time c) (_mfa_key challenge) s))).
  { unfold pop_script. pose proof (get_frame (at_time c) (_mfa_key challenge) k s) as Hf.
    destruct (ks_get _ _ s) as [[v|] s1]; simpl in Hf |- *; [|done].
    eapply command_trans; [exact Hf|]. by apply del_frame. }
  pose proof (command_effect c (pop_script (at_time c) (_mfa_key challenge)) s) as He.
  destruct (command _ _ _) as [v s1]. simpl in He. intros [= _ <-]. rewrite He.
  destruct (carried _); [done|apply same_from_refl].
Qed.

Lemma step_inv x y : mobile_step x y -> system_inv x -> system_inv y.
Proof.
  destruct 1 as [c a t pid sid ssid client device r s Hc Hs|c old new rec z s Hc Hs|c a rec r s Hc Hs
    |c sid ks Hc Hk|c sid ks r s Hc Hin Hs|c ch r s Hc Hs|now Hn|s Hs]; intros Hi.
  - unfold issue_mobile_tokens in Hs.
    match type of Hs with command c ?f ?s0 = _ => pose proof (command_effect c f s0) as He end.
    rewrite Hs in He. simpl in He. destruct (carried (via c)); [|by apply unmoved_inv].
    rewrite He, Hc. apply moved_inv; [done| | |apply Hi].
    + match goal with |- effects _ (issue_transaction _ _ _ ?r _) _ => exact (issue_effects x a t r _ (proj1 Hi) eq_refl) end.
    + by intros sid' at_ [=]%list_elem_of_singleton.
  - by eapply rotate_inv.
  - unfold store_rotated_access_token in Hs.
    match type of Hs with command c ?f ?s0 = _ => pose proof (command_effect c f s0) as He end.
    rewrite Hs in He. simpl in He. destruct (carried (via c)); [|by apply unmoved_inv].
    rewrite He, Hc. apply moved_inv; [done| | |apply Hi].
    + by eapply access_effects; [apply Hi|].
    + intros sid' at_ []%not_elem_of_nil.
  - destruct Hi as ([It Is Ir Iu Iv] & Hb & Hg). split_and!; [|done|done]. split; [done..|].
    intros sid' ks' k Hin Hk'. cbn [ms_revoking] in Hin.
    apply elem_of_cons in Hin as [[= -> ->]|Hin]; [|by eapply Iv]. subst ks.
    destruct (view (ms_now x) (_session_key sid) (ms_store x)) as [[v e]|] eqn:E.
    + destruct (Is _ _ _ E) as (ks0 & -> & Hall). apply Hall.
      by apply (smembers_set _ _ _ _ _ E).
    + rewrite (smembers_new _ _ _ E) in Hk'. by apply not_elem_of_nil in Hk'.
  - match type of Hs with command c ?f ?s0 = _ =>
      pose proof (command_effect c f s0) as He end.
    rewrite Hs in He. simpl in He.
    destruct (carried (via c)); [|by apply unmoved_inv]. apply moved_inv; [done| | |apply Hi].
    + apply (revoke_effects x sid ks); [apply Hi| |by rewrite He, Hc].
      intros k. by eapply (mi_revoking x (proj1 Hi)).
    + intros sid' at_ [= _ ->]%list_elem_of_singleton. lia.
  - apply moved_inv; [done| | |apply Hi]; [|intros sid at_ []%not_elem_of_nil].
    apply same_effects. intros k Hk. rewrite <- Hc. by eapply pop_same.
  - destruct Hi as ([It Is Ir Iu Iv] & Hb & Hg). split_and!; [|intros sid at_ Hin; specialize (Hb _ _ Hin); simpl; lia|done].
    split; [| | | |done]; cbn [ms_now ms_store ms_log] in *.
    + intros t v e Hv. apply (view_before (ms_now x)) in Hv; [|done].
      destruct (It _ _ _ Hv) as (r & w & ? & ? & ? & ?). exists r, w. cbn [ms_now ms_log]. split_and!; [done..|lia].
    + intros sid v e Hv. apply (view_before (ms_now x)) in Hv; [|done]. by eapply Is.
    + intros sid at_ Hin Hlt. cbn [ms_now ms_store ms_log] in *.
      destruct (Ir _ _ Hin ltac:(lia)) as (v & e & Hv & He). exists v, e.
      split; [|done]. eapply view_until; [done|lia].
    + intros t r at_ Hx Hlt. cbn [ms_now ms_store ms_log] in *. eapply view_until; [apply (Iu t r at_ Hx)|]; lia.
  - apply moved_inv; [done|by apply same_effects| |apply Hi]. intros sid at_ []%not_elem_of_nil.
Qed.

Lemma history_inv x y : fresh_start x -> rtc mobile_step x y -> system_inv y.
Proof.
  intros (Hr & Hl & Hv) Hrtc. assert (Hi : system_inv x).
  { split_and!; [split| |by rewrite Hl].
    - intros t v e E. by rewrite (proj1 (Hv t "")) in E.
    - intros sid v e E. by rewrite (proj2 (Hv "" sid)) in E.
    - intros sid at_. rewrite Hl. by intros []%not_elem_of_nil.
    - intros t r at_. by rewrite Hl.
    - intros sid ks k. rewrite Hr. by intros []%not_elem_of_nil.
    - intros sid at_. rewrite Hl. by intros []%not_elem_of_nil. }
  clear Hr Hl Hv. induction Hrtc as [|x y z Hxy Hyz IH]; [done|]. apply IH. by eapply step_inv.
Qed.

Lemma rotations_good_at l1 k at_ l2 : rotations_good (l1 ++ TokenRotated k at_ :: l2) -> rotation_good k at_ l2.
Proof. induction l1 as [|[k' r t|k' t|sid t] l1 IH]; simpl; naive_solver. Qed.

(** C10: however the requests of all devices interleave, a refresh token is
    exchanged at most once for each time it was issued, within 30 days: what
    happened to it last, before the exchange, is that it was written. An exchange
    whose answer was lost counts as well. *)
Theorem refresh_rotated_once x y l1 k at_ l2 :
  fresh_start x -> rtc mobile_step x y -> ms_log y = l1 ++ TokenRotated k at_ :: l2 ->
  exists r written_at, latest token_event_key k l2 = Some (TokenWritten k r written_at)
    /\ written_at <= at_ < written_at + seconds REFRESH_TTL_SECONDS.
Proof.
  intros Hf Hr E. apply (rotations_good_at l1). rewrite <- E. by destruct (history_inv _ _ Hf Hr) as (_ & _ & ?).
Qed.

(** C17: for 90 days after a session was revoked, whatever requests interleave,
    no token of it is resolved and none is exchanged. *)
Theorem revoked_session_dead x y sid at_ :
  fresh_start x -> rtc mobile_step x y -> SessionRevoked sid at_ ∈ ms_log y ->
  ms_now y < at_ + seconds SESSION_REVOKE_TTL_SECONDS ->
  forall c r d old new, at_time c = ms_now y -> tk_session_id r = sid ->
  default None (fst (_resolve_record c r d (ms_store y))) = None
  /\ fst (rotate_mobile_refresh_token c old new r (ms_store y)) <> Some 1.
Proof.
  intros Hf Hr Hin Hlt c r d old new Hc <-.
  destruct (history_inv _ _ Hf Hr) as ([_ _ Hrev _ _] & _ & _).
  destruct (Hrev _ _ Hin Hlt) as (v & e & Hv & _). rewrite <- Hc in Hv. split.
  - unfold _resolve_record. destruct (_ || _ || _); [done|].
    pose proof (command_answer c (exists_ (at_time c) (_revoked_key (tk_session_id r))) (ms_store y)) as Ha.
    destruct (exists_spec (at_time c) (_revoked_key (tk_session_id r)) (ms_store y)) as [He _].
    rewrite Hv in He. destruct (command _ _ _) as [rv s]. simpl in Ha. subst rv.
    destruct (via c); simpl; [|done..]. by rewrite He.
  - unfold rotate_mobile_refresh_token. rewrite command_answer. destruct (via c); [|done..].
    destruct (rotation_spec (at_time c) old new r (ms_store y)) as [(_ & Hn & _)|[Hne _]]; [|congruence].
    by rewrite Hv in Hn.
Qed.

(** What a history leaves of an exchanged token: its key is gone, its marker shows
    the record it had, and the set of its session names token keys. *)
Lemma exchanged_seen x y old r at_ t : fresh_start x -> rtc mobile_step x y ->
  exchanged (refresh_key old) (ms_log y) = Some (r, at_) -> ms_now y <= t ->
  view t (refresh_key old) (ms_store y) = None
  /\ (t < at_ + seconds REFRESH_TTL_SECONDS -> exists e, view t (used_key old) (ms_store y) = Some (SToken r, e))
  /\ (forall sid, session_shaped t sid (ms_store y)).
Proof.
  intros Hf Hr Hx Ht. destruct (history_inv _ _ Hf Hr) as ([It Is _ Iu _] & _ & _). split_and!.
  - apply (view_later (ms_now y)); [done|]. destruct (view _ _ _) as [[v e]|] eqn:Hv; [|done].
    destruct (It _ _ _ Hv) as (r' & w & Hl & _). exfalso. clear -Hx Hl.
    induction (ms_log y) as [|[k r0 t0|k t0|sid t0] log IH]; [done| | |].
    + simpl in Hx. unfold latest in Hl. simpl in Hl. destruct (String.eqb _ _); [done|by apply IH].
    + simpl in Hx. unfold latest in Hl. simpl in Hl. destruct (String.eqb _ _); [done|by apply IH].
    + apply IH; [done|]. rewrite <- Hl. symmetry. apply latest_other. apply not_eq_sym, refresh_revoked_ne.
  - intros Hlt. eexists. eapply view_until; [apply (Iu old r at_ Hx)|]; lia.
  - intros sid v e Hv. apply (Is sid v e). by eapply view_before.
Qed.

End steps.
End MobileHistory.

(** * One request *)

Section requests.
Context {S : Type} `{KeySetsLaws S} `{!KeyStoreLaws S} `{TokenDigest}.
Implicit Types s : S.

(** What [_resolve_record] checks. *)
Definition record_valid (now : Z) (r : token_record) (d : accounts) (cx : context) : Prop :=
  cx_record cx = r
  /\ live_device d (tk_session_id r) = Some (cx_device_session cx) /\ now < ds_expires_at (cx_device_session cx)
  /\ live_server d (tk_server_session_id r) = Some (cx_server_session cx) /\ now < ss_expires_at (cx_server_session cx)
  /\ user_by_public_id (ac_users d) (tk_user_public_id r) = Some (cx_user cx)
  /\ us_is_active (cx_user cx) = true /\ us_is_deleted (cx_user cx) = false
  /\ ds_user_id (cx_device_session cx) = us_id (cx_user cx).

Definition names_all (r : token_record) : bool :=
  text (tk_user_public_id r) && text (tk_session_id r) && text (tk_server_session_id r).

Lemma resolve_spec c r d s cx :
  fst (_resolve_record c r d s) = Some (Some cx) <->
  names_all r = true /\ via c = Up /\ view (at_time c) (_revoked_key (tk_session_id r)) s = None
  /\ record_valid (at_time c) r d cx.
Proof.
  unfold _resolve_record, names_all.
  destruct (text (tk_user_public_id r)), (text (tk_session_id r)), (text (tk_server_session_id r)); simpl;
    try (by split; [|intros ([=] & _)]).
  pose proof (command_answer c (exists_ (at_time c) (_revoked_key (tk_session_id r))) s) as Ha.
  destruct (exists_spec (at_time c) (_revoked_key (tk_session_id r)) s) as [He _].
  destruct (command _ _ _) as [rv s']. simpl in Ha. subst rv.
  destruct (via c); simpl; [|by split; [|intros (_ & [=] & _)]..]. rewrite He.
  destruct (view _ _ s) as [[v e]|]; simpl; [by split; [|intros (_ & _ & [=] & _)]|].
  unfold record_valid. split.
  - intros [= Hx]. revert Hx.
    destruct (live_device d (tk_session_id r)) as [dv|]; simpl; [|done].
    destruct (Z.leb_spec (ds_expires_at dv) (at_time c)); [done|].
    destruct (live_server d (tk_server_session_id r)) as [sv|]; simpl; [|done].
    destruct (Z.leb_spec (ss_expires_at sv) (at_time c)); [done|].
    destruct (user_by_public_id _ _) as [u|]; simpl; [|done].
    destruct (us_is_active u) eqn:?; simpl; [|done]. destruct (us_is_deleted u) eqn:?; simpl; [done|].
    destruct (Z.eqb_spec (ds_user_id dv) (us_id u)); simpl; [|done].
    intros [= <-]. simpl. done.
  - intros (_ & _ & _ & Hr & -> & Hd & -> & Hs & -> & Ha & Hdl & Hu). simpl.
    destruct (Z.leb_spec (ds_expires_at (cx_device_session cx)) (at_time c)); [lia|].
    destruct (Z.leb_spec (ss_expires_at (cx_server_session cx)) (at_time c)); [lia|].
    simpl. rewrite Ha, Hdl, Hu, Z.eqb_refl. simpl. destruct cx. simpl in *. by subst.
Qed.

Lemma load_record_spec c k s :
  fst (load_record c k s) = match via c with
                            | Up => Some ((fst <$> view (at_time c) k s) ≫= as_token)
                            | _ => None
                            end
  /\ forall k', same_from (at_time c) k' s (snd (load_record c k s)).
Proof.
  unfold load_record. pose proof (command_answer c (ks_get (at_time c) k) s) as Ha.
  pose proof (command_effect c (ks_get (at_time c) k) s) as He. rewrite get_value in Ha.
  destruct (command _ _ _) as [v s']. simpl in *. subst v s'. split; [by destruct (via c)|].
  intros k'. destruct (carried _); [apply get_frame|apply same_from_refl].
Qed.

(** C28: a bearer is accepted exactly when Redis answers and shows an access
    record for the token, the session is not marked revoked there, and the device
    session, the server session and the account it names are live and fit. *)
Theorem bearer_accepted c1 c2 header d s cx : at_time c1 <= at_time c2 ->
  fst (load_mobile_bearer_context c1 c2 None header d s) = Some cx <->
  exists token, bearer_token header = Some token
    /\ via c1 = Up /\ fst <$> view (at_time c1) (_token_key "access" token) s = Some (SToken (cx_record cx))
    /\ tk_token_type (cx_record cx) = "access"%string /\ names_all (cx_record cx) = true
    /\ via c2 = Up /\ view (at_time c2) (_revoked_key (tk_session_id (cx_record cx))) s = None
    /\ record_valid (at_time c2) (cx_record cx) d cx.
Proof.
  intros Ht. unfold load_mobile_bearer_context. destruct (bearer_token header) as [token|]; [|by split; [|intros (? & [=] & _)]].
  simpl. destruct (load_record_spec c1 (_token_key "access" token) s) as [Hl Hs].
  destruct (load_record c1 (_token_key "access" token) s) as [lr s']. simpl in Hl, Hs. subst lr.
  assert (Hres : forall r, fst (_resolve_record c2 r d s') = Some (Some cx) <->
     names_all r = true /\ via c2 = Up /\ view (at_time c2) (_revoked_key (tk_session_id r)) s = None
     /\ record_valid (at_time c2) r d cx).
  { intros r. rewrite resolve_spec. by rewrite (Hs _ (at_time c2)). }
  destruct (via c1); simpl; [|by split; [|intros (? & [= <-] & [=] & _)]..].
  destruct (view _ _ s) as [[v e]|] eqn:Hv1; simpl;
    [|by split; [|intros (? & [= <-] & _ & Hn & _); rewrite Hv1 in Hn]].
  destruct v as [| | |r| |]; simpl;
    try (by split; [|intros (? & [= <-] & _ & Hn & _); rewrite Hv1 in Hn]).
  destruct (String.eqb_spec (tk_token_type r) "access") as [Et|Et]; simpl.
  - assert (Hd : forall a, fst (let (x, s) := _resolve_record c2 r d s' in (default None x, s)) = Some a <->
                 fst (_resolve_record c2 r d s') = Some (Some a)).
    { intros a. destruct (_resolve_record c2 r d s') as [[[b|]|] s2]; simpl; split; congruence. }
    rewrite Hd, Hres. split.
    + intros (Hn & Hv & Hr & Hval). exists token. rewrite Hv1. pose proof (proj1 Hval) as ->.
      split_and!; done.
    + intros (token' & [= <-] & _ & Hc & _ & Hn & Hv & Hr & Hval). rewrite Hv1 in Hc.
      injection Hc as ->. done.
  - split; [done|]. intros (token' & [= <-] & _ & Hc & ? & _). rewrite Hv1 in Hc. by injection Hc as ->.
Qed.

(** The sliding expiry never shortens a session nor carries it past 90 days. *)
Lemma touch_bounds now sid d d' r : touch_device_session now sid d = (true, d') -> live_device d sid = Some r ->
  exists e, ds_expires_at r < e <= ds_created_at r + days 90 /\ e <= now + days 30
    /\ exists r', ds_expires_at r' = e /\ ds_session_id r' = ds_session_id r /\ d' = write_device r' d.
Proof.
  intros Ht Hr. unfold touch_device_session in Ht. rewrite Hr in Ht.
  destruct (_ <? _); [done|]. destruct (Z.leb_spec (Z.min (now + days 30) (ds_created_at r + days 90)) (ds_expires_at r)); [done|].
  injection Ht as <-. exists (Z.min (now + days 30) (ds_created_at r + days 90)).
  split; [lia|]. split; [lia|]. eexists. split; [|split; [|reflexivity]]; reflexivity.
Qed.

(** Revoking leaves no live row of the session. *)
Lemma revoke_device_gone now sid reason d : live_device (snd (revoke_device_session now sid None reason d)) sid = None.
Proof.
  unfold revoke_device_session.
  destruct (List.find _ (ac_devices d)) as [r|] eqn:Hf.
  - apply List.find_some in Hf as [_ Hf]. rewrite andb_true_r in Hf.
    apply andb_true_iff in Hf as [Hid%String.eqb_eq _]. simpl. unfold live_device. simpl.
    destruct (List.find _ _) as [x|] eqn:Hx; [|done]. exfalso.
    apply List.find_some in Hx as [Hin Hx]. apply list_elem_of_In, elem_of_update in Hin as (y & _ & ->).
    destruct (String.eqb_spec (ds_session_id y) (ds_session_id r)) as [E|E].
    + simpl in Hx. by rewrite andb_false_r in Hx.
    + apply andb_true_iff in Hx as [Hx%String.eqb_eq _]. congruence.
  - simpl. destruct (live_device d sid) as [x|] eqn:Hx; [|done]. exfalso. unfold live_device in Hx.
    apply List.find_some in Hx as [Hin Hx]. apply (List.find_none _ _ Hf) in Hin.
    by rewrite andb_true_r, Hx in Hin.
Qed.

Lemma revoke_server_gone sid d : live_server (snd (revoke_session sid d)) sid = None.
Proof.
  unfold revoke_session. destruct (live_server d sid) as [r|] eqn:Hl; [|done].
  unfold live_server in Hl. apply List.find_some in Hl as [_ Hf].
  apply andb_true_iff in Hf as [Hid%String.eqb_eq _]. simpl. unfold live_server. simpl.
  destruct (List.find _ _) as [x|] eqn:Hx; [|done]. exfalso.
  apply List.find_some in Hx as [Hin Hx]. apply list_elem_of_In, elem_of_update in Hin as (y & _ & ->).
  destruct (String.eqb_spec (ss_session_id y) (ss_session_id r)) as [E|E].
  - simpl in Hx. by rewrite andb_false_r in Hx.
  - apply andb_true_iff in Hx as [Hx%String.eqb_eq _]. congruence.
Qed.

Lemma revoke_session_devices sid d sid' : live_device (snd (revoke_session sid d)) sid' = live_device d sid'.
Proof. unfold revoke_session. by destruct (live_server d sid). Qed.

Lemma marked_revoked cm cr sid s : via cm = Up -> via cr = Up ->
  (forall k, k ∈ ks_smembers (at_time cm) (_session_key sid) s -> MobileHistory.token_key k) ->
  shows_from (at_time cr) (_revoked_key sid)
    (Some (SInt 1, Some (at_time cr + seconds SESSION_REVOKE_TTL_SECONDS)))
    (snd (mark_mobile_session_revoked cm cr sid s)).
Proof.
  intros Hm Hr Hk. unfold mark_mobile_session_revoked, command. rewrite Hm, Hr. simpl.
  unfold revoke_transaction. cbv zeta.
  assert (_revoked_key sid ∉ ks_smembers (at_time cm) (_session_key sid) s).
  { intros (kind & t & Hkd & E)%Hk. by destruct (token_revoked_ne kind t sid Hkd). }
  eapply shows_frame; [by apply (setex_here _ (_revoked_key sid) SESSION_REVOKE_TTL_SECONDS (SInt 1) s)|].
  frames ltac:(first [assumption | apply not_eq_sym, session_revoked_ne]).
Qed.

(** The revocation after a replay, with Redis answering. *)
Lemma replayed_revoked cm cr r d s : names_all r = true -> via cm = Up -> via cr = Up ->
  MobileHistory.session_shaped (at_time cm) (tk_session_id r) s ->
  let '(d', s') := revoke_replayed cm cr r (d, s) in
  live_device d' (tk_session_id r) = None /\ live_server d' (tk_server_session_id r) = None
  /\ shows_from (at_time cr) (_revoked_key (tk_session_id r))
       (Some (SInt 1, Some (at_time cr + seconds SESSION_REVOKE_TTL_SECONDS))) s'.
Proof.
  intros Hn Hm Hr Hset. unfold revoke_replayed. apply andb_true_iff in Hn as [[_ Ht1]%andb_true_iff Ht2].
  rewrite Ht1, Ht2. split_and!.
  - rewrite revoke_session_devices. apply revoke_device_gone.
  - apply revoke_server_gone.
  - apply marked_revoked; [done..|]. intros k Hk.
    destruct (view (at_time cm) (_session_key (tk_session_id r)) s) as [[v e]|] eqn:Hv.
    + destruct (Hset _ _ Hv) as (ks & -> & Hall). apply Hall. by apply (smembers_set _ _ _ _ _ Hv).
    + rewrite (smembers_new _ _ _ Hv) in Hk. by apply not_elem_of_nil in Hk.
Qed.

#[local] Arguments revoke_replayed : simpl never.

(** The same when another request exchanged the token after this one read it: the
    script answers -1. *)
Lemma race_revokes (w : refresh_draw) old r u d s device server used :
  let d1 := snd (touch_device_session (at_time (rd_rotate w)) (tk_session_id r) d) in
  user_device d1 (tk_session_id r) (us_id u) = Some device ->
  user_server d1 (tk_server_session_id r) (us_public_id u) = Some server ->
  names_all r = true -> via (rd_rotate w) = Up -> via (rd_members w) = Up -> via (rd_revoke w) = Up ->
  at_time (rd_rotate w) <= at_time (rd_members w) ->
  view (at_time (rd_rotate w)) (_revoked_key (tk_session_id r)) s = None ->
  view (at_time (rd_rotate w)) (_token_key "refresh" old) s = None ->
  view (at_time (rd_rotate w)) (_token_key "refresh-used" old) s = Some used ->
  MobileHistory.session_shaped (at_time (rd_members w)) (tk_session_id r) s ->
  let '(a, (d', s')) := rotate_for w old r u (d, s) in
  a = Err refresh_reuse_detected
  /\ live_device d' (tk_session_id r) = None /\ live_server d' (tk_server_session_id r) = None
  /\ shows_from (at_time (rd_revoke w)) (_revoked_key (tk_session_id r))
       (Some (SInt 1, Some (at_time (rd_revoke w) + seconds SESSION_REVOKE_TTL_SECONDS))) s'.
Proof.
  cbv zeta. intros Hd Hsv Hn Hrot Hm Hr Htm Hrev Hold Hused Hset. unfold rotate_for. rewrite Hd, Hsv.
  cbv zeta. set (rec := token_with r _ "refresh"). set (d1 := if _ =? _ then _ else _).
  pose proof (command_answer (rd_rotate w) (rotation (at_time (rd_rotate w)) old (rd_new_refresh w) rec) s) as Ha.
  pose proof (command_effect (rd_rotate w) (rotation (at_time (rd_rotate w)) old (rd_new_refresh w) rec) s) as He.
  unfold rotate_mobile_refresh_token. destruct (command _ _ s) as [z s1]. simpl in Ha, He. rewrite Hrot in Ha, He.
  destruct (MobileHistory.rotation_replayed _ old (rd_new_refresh w) rec _ _ Hrev Hold Hused) as [Hz Hs].
  rewrite Hz in Ha. subst z. simpl in He. simpl. pose proof (replayed_revoked _ _ r d1 s1 Hn Hm Hr) as Hrep.
  unfold d1 in *. destruct (revoke_replayed _ _ r _) as [d' s']. split; [done|]. apply Hrep.
  apply (MobileHistory.shaped_frame _ _ s); [|done]. subst s1. intros t Ht. apply Hs. lia.
Qed.

(** C27: in every history that starts without tokens, when a refresh token was
    exchanged and is presented again within 30 days of that, with Redis answering,
    the answer is [refresh_reuse_detected] and the whole sign-in the token was
    written for is revoked: its device session, its server session, and in Redis
    for 90 days. (A request that read the token before another one exchanged it
    ends the same way: [race_revokes].) *)
Theorem replay_revokes (w : refresh_draw) old d x y r at_ :
  let token := strip old in
  MobileHistory.fresh_start x -> rtc MobileHistory.mobile_step x y ->
  MobileHistory.exchanged (_token_key "refresh" token) (MobileHistory.ms_log y) = Some (r, at_) ->
  names_all r = true -> text token = true -> Nat.ltb 256 (String.length token) = false ->
  via (rd_get w) = Up -> via (rd_used w) = Up -> via (rd_members w) = Up -> via (rd_revoke w) = Up ->
  MobileHistory.ms_now y <= at_time (rd_get w) <= at_time (rd_used w) ->
  at_time (rd_used w) <= at_time (rd_members w) ->
  at_time (rd_used w) < at_ + seconds REFRESH_TTL_SECONDS ->
  let '(a, (d', s')) := mobile_refresh w old (d, MobileHistory.ms_store y) in
  a = Err refresh_reuse_detected
  /\ live_device d' (tk_session_id r) = None /\ live_server d' (tk_server_session_id r) = None
  /\ shows_from (at_time (rd_revoke w)) (_revoked_key (tk_session_id r))
       (Some (SInt 1, Some (at_time (rd_revoke w) + seconds SESSION_REVOKE_TTL_SECONDS))) s'.
Proof.
  cbv zeta. intros Hf Hrtc Hx Hn Ht Hlen Hg Hu Hm Hr Ht1 Ht2 Ht3.
  destruct (MobileHistory.exchanged_seen _ _ _ _ _ (at_time (rd_get w)) Hf Hrtc Hx) as (Hold & _ & _); [lia|].
  destruct (MobileHistory.exchanged_seen _ _ _ _ _ (at_time (rd_used w)) Hf Hrtc Hx) as (_ & [e Hused]%(fun f => f Ht3) & _); [lia|].
  destruct (MobileHistory.exchanged_seen _ _ _ _ _ (at_time (rd_members w)) Hf Hrtc Hx) as (_ & _ & Hset); [lia|].
  set (s := MobileHistory.ms_store y) in *. unfold mobile_refresh. rewrite Ht, Hlen. simpl.
  destruct (load_record_spec (rd_get w) (_token_key "refresh" (strip old)) s) as [Hl1 Hs1].
  destruct (load_record (rd_get w) _ s) as [o1 s1]. simpl in Hl1, Hs1. rewrite Hg in Hl1. rewrite Hold in Hl1. subst o1. simpl.
  destruct (load_record_spec (rd_used w) (_token_key "refresh-used" (strip old)) s1) as [Hl2 Hs2].
  destruct (load_record (rd_used w) _ s1) as [o2 s2]. simpl in Hl2, Hs2.
  rewrite (Hs1 _ (at_time (rd_used w))), Hu, Hused in Hl2 by lia. subst o2.
  simpl.
  pose proof (replayed_revoked (rd_members w) (rd_revoke w) r d s2 Hn Hm Hr) as Hrep.
  destruct (revoke_replayed _ _ r (d, s2)) as [d' s']. split; [done|]. apply Hrep.
  apply (MobileHistory.shaped_frame _ _ s); [|apply Hset]. intros t' Ht'.
  rewrite (Hs2 _ t'), (Hs1 _ t') by lia. done.
Qed.

End requests.
