(* ===== verification/Signup.v ===== *)
(** Sign-up: app/auth/pending_registration.py. The data of a new account wait in
    the short-lived store until the code sent to its address comes back; only then
    is the row written. The code, the token, the password's hash and what the mail
    answers are arguments; the clock of a request is [now], and [c i] is its i-th
    call of the store. *)

From S2P Require Import Prelude Tables AuthModel EmailAddress KeyStore OneTime MobileTokens.

Local Open Scope string_scope.
Local Open Scope Z_scope.

(** The tunables. *)
Record signup_config : Type := {
  SIGNUP_OTP_TTL : Z;
  SIGNUP_OTP_MAX_LIFETIME : Z;
  SIGNUP_OTP_KEEPALIVE : Z;
  SIGNUP_OTP_MAX_ATTEMPTS : Z;
  SIGNUP_EMAIL_RATE_LIMIT : Z;
  SIGNUP_IP_RATE_LIMIT : Z;
  SIGNUP_RATE_WINDOW : Z;
}.

Definition default_config : signup_config := {|
  SIGNUP_OTP_TTL := 600; SIGNUP_OTP_MAX_LIFETIME := 900; SIGNUP_OTP_KEEPALIVE := 120;
  SIGNUP_OTP_MAX_ATTEMPTS := 5; SIGNUP_EMAIL_RATE_LIMIT := 3; SIGNUP_IP_RATE_LIMIT := 10;
  SIGNUP_RATE_WINDOW := 900;
|}.

(** What the layers of the address check rely on, and their switches. *)
Record email_checks : Type := {
  ec_burner : list string;
  ec_lib_valid : string -> bool;
  ec_mx : string -> option bool;
  ec_check_mx : bool;
  ec_allow_role_accounts : bool;
  ec_allow_disposable : bool;
}.

Record PendingResult : Type := {
  pr_success : bool;
  pr_token : option string;
  pr_code : option string;
  pr_suggestion : option string;
  pr_retry_after : option Z;
  pr_email : option string;
  pr_debug_otp : option string;
}.

Record VerifyResult : Type := {
  vr_success : bool;
  vr_user : option user;
  vr_code : option string;
  vr_remaining_attempts : option Z;
  vr_already_existed : bool;
}.

Module PendingRegistration.
Import EmailValidation OTPService.

Section signup.
Context {S : Type} `{KeyStore S} `{OtpDigest} `{TokenDigest}.
Context (redis_required : bool) (cfg : signup_config) (checks : email_checks).

(** The keys; the digests are of the address. *)
Definition pending_key (token : string) : string := "pending_signup:" +:+ token.
Definition email_index_key (email : string) : string := "pending_signup_email:" +:+ token_digest email.
Definition email_rate_key (email : string) : string := "rate:signup:email:" +:+ token_digest email.
Definition ip_rate_key (ip : string) : string := "rate:signup:ip:" +:+ ip.

Definition failed (code : string) : PendingResult := {|
  pr_success := false; pr_token := None; pr_code := Some code; pr_suggestion := None;
  pr_retry_after := None; pr_email := None; pr_debug_otp := None;
|}.

Definition failed_for (email : string) (code : string) : PendingResult := {|
  pr_success := false; pr_token := None; pr_code := Some code; pr_suggestion := None;
  pr_retry_after := None; pr_email := Some email; pr_debug_otp := None;
|}.

Definition limited (email code : string) (retry_after : Z) : PendingResult := {|
  pr_success := false; pr_token := None; pr_code := Some code; pr_suggestion := None;
  pr_retry_after := Some retry_after; pr_email := Some email; pr_debug_otp := None;
|}.

Definition sent_to (token email : string) (debug_otp : option string) : PendingResult := {|
  pr_success := true; pr_token := Some token; pr_code := None; pr_suggestion := None;
  pr_retry_after := None; pr_email := Some email; pr_debug_otp := debug_otp;
|}.

(** The calls of the store are numbered from [k]. The outer option is an error of
    a counter, the inner one [None] when no limit is exceeded. *)
Definition _rate_limit_check (c : nat -> call) (k : nat) (email : string) (ip : option string)
    (st : auth_store S) : option (option PendingResult * auth_store S) :=
  let incr k key st := store_incr (via (c k)) (at_time (c k)) key (Some (SIGNUP_RATE_WINDOW cfg)) st in
  let retry k key st := Z.max (store_ttl (via (c k)) (at_time (c k)) key st) 0 in
  '(count, st) ← incr k (email_rate_key email) st;
  if SIGNUP_EMAIL_RATE_LIMIT cfg <? count
  then Some (Some (limited email "rate_limited_email" (retry (1 + k)%nat (email_rate_key email) st)), st)
  else if negb (truthy ip) then Some (None, st)
  else
    let key := ip_rate_key (default "" ip) in
    '(ip_count, st) ← incr (1 + k)%nat key st;
    if SIGNUP_IP_RATE_LIMIT cfg <? ip_count
    then Some (Some (limited email "rate_limited_ip" (retry (2 + k)%nat key st)), st)
    else Some (None, st).

(** The form, with the password already hashed. *)
Record signup_form : Type := {
  sf_username : string;
  sf_password_hash : string;
  sf_email : string;
  sf_full_name : option string;
  sf_ip : option string;
  sf_user_agent : option string;
  sf_phone : option string;
}.

Definition validation (email : string) : EmailValidationResult :=
  validate_email_address (ec_burner checks) (ec_lib_valid checks) (ec_mx checks) (ec_check_mx checks)
    (ec_allow_role_accounts checks) (ec_allow_disposable checks) (Some email).

Definition new_payload (now : Z) (f : signup_form) (normalized_email otp : string) (mx_unverified : bool)
    : payload := {|
  pd_username := sf_username f;
  pd_email := normalized_email;
  pd_email_as_entered := strip (sf_email f);
  pd_phone := sf_phone f;
  pd_password_hash := sf_password_hash f;
  pd_full_name := str_or (sf_full_name f) (sf_username f);
  pd_otp_hash := hash_otp otp;
  pd_channel := "email";
  pd_attempts := 0;
  pd_created_at := now;
  pd_expires_at := now + seconds (SIGNUP_OTP_TTL cfg);
  pd_hard_expires_at := now + seconds (SIGNUP_OTP_MAX_LIFETIME cfg);
  pd_ip := sf_ip f;
  pd_user_agent := sf_user_agent f;
  pd_mx_unverified := mx_unverified;
|}.

Definition set_at (c : call) (key : string) (v : stored) (ttl : Z) (st : auth_store S) : bool * auth_store S :=
  store_set redis_required (via c) (at_time c) key v (Some ttl) st.
Definition get_at (c : call) (key : string) (st : auth_store S) : option stored * auth_store S :=
  store_get redis_required (via c) (at_time c) key st.
Definition delete_at (c : call) (key : string) (st : auth_store S) : auth_store S :=
  snd (store_delete redis_required (via c) (at_time c) key st).

(** The debug code a developer sees. *)
Definition debug_otp (d : delivery) (otp : string) : option string :=
  match d with DevFallback => Some otp | _ => None end.

Definition refused_address (v : EmailValidationResult) : PendingResult := {|
  pr_success := false; pr_token := None; pr_code := ev_code v; pr_suggestion := ev_suggestion v;
  pr_retry_after := None; pr_email := None; pr_debug_otp := None;
|}.

(** Steps 1 to 3: the refusal, if any. *)
Definition start_refusal (c : nat -> call) (f : signup_form) (users : list user) (st : auth_store S)
    : option (option PendingResult * auth_store S) :=
  let v := validation (sf_email f) in
  if negb (ev_is_valid v) then Some (Some (refused_address v), st)
  else
    let email := default "" (ev_normalized v) in
    if is_some (user_by_email users email) then Some (Some (failed_for email "email_exists"), st)
    else if is_some (user_by_username users (sf_username f))
    then Some (Some (failed "username_exists"), st)
    else _rate_limit_check c 0 email (sf_ip f) st.

(** Steps 4 and 5: the payload is stored and the code sent. *)
Definition start_issue (c : nat -> call) (p : payload) (otp token : string) (d : delivery)
    (delivery_code : string) (st : auth_store S) : PendingResult * auth_store S :=
  let email := pd_email p in
  let ttl := SIGNUP_OTP_TTL cfg in
  let (stored, st) := set_at (c 3%nat) (pending_key token) (SPending p) ttl st in
  if negb stored then (failed "store_failure", st)
  else
    let st := snd (set_at (c 4%nat) (email_index_key email) (SText token) ttl st) in
    if negb (delivered d)
    then (failed_for email delivery_code, delete_at (c 5%nat) (pending_key token) st)
    else (sent_to token email (debug_otp d otp), st).

Definition start_payload (now : Z) (f : signup_form) (otp : string) : payload :=
  let v := validation (sf_email f) in
  new_payload now f (default "" (ev_normalized v)) otp (ev_mx_unverified v).

Definition start_pending_registration (c : nat -> call) (now : Z) (f : signup_form) (otp token : string)
    (d : delivery) (delivery_code : string) (users : list user) (st : auth_store S)
    : option (PendingResult * auth_store S) :=
  '(refusal, st) ← start_refusal c f users st;
  match refusal with
  | Some r => Some (r, st)
  | None => Some (start_issue c (start_payload now f otp) otp token d delivery_code st)
  end.

(** [int(t)] of seconds kept in microseconds. *)
Definition whole_seconds (t : Z) : Z := Z.quot t (seconds 1).

Definition expire_pending (c : nat -> call) (token email : string) (st : auth_store S)
    : PendingResult * auth_store S :=
  let st := delete_at (c 1%nat) (pending_key token) st in
  (failed_for email "expired",
   if some_text email then delete_at (c 2%nat) (email_index_key email) st else st).

(** The refusal, or the payload with the whole seconds left to it. *)
Definition resend_admission (c : nat -> call) (now : Z) (token : string) (ip : option string)
    (st : auth_store S) : option ((PendingResult + payload * Z) * auth_store S) :=
  let (v, st) := get_at (c 0%nat) (pending_key token) st in
  match v ≫= as_pending with
  | None => Some (inl (failed "expired"), st)
  | Some p =>
      let email := pd_email p in
      let hard_deadline := pd_hard_expires_at p in
      let expired := expire_pending c token email st in
      if (hard_deadline =? 0) || (hard_deadline <=? now) then Some (inl (fst expired), snd expired)
      else
        let ttl := Z.min (SIGNUP_OTP_TTL cfg) (whole_seconds (hard_deadline - now)) in
        if ttl <=? 0 then Some (inl (fst expired), snd expired)
        else
          '(limit, st) ← _rate_limit_check c 1 email ip st;
          match limit with
          | Some r => Some (inl r, st)
          | None => Some (inr (p, ttl), st)
          end
  end.

Definition resend_issue (c : nat -> call) (p : payload) (ttl : Z) (otp token : string) (d : delivery)
    (delivery_code : string) (st : auth_store S) : PendingResult * auth_store S :=
  let email := pd_email p in
  let (stored, st) := set_at (c 4%nat) (pending_key token) (SPending p) ttl st in
  if negb stored then (failed_for email "store_failure", st)
  else if negb (delivered d) then (failed_for email delivery_code, st)
  else (sent_to token email (debug_otp d otp), st).

Definition resend_payload (now : Z) (p : payload) (ttl : Z) (otp : string) : payload :=
  with_code p (hash_otp otp) (Z.min (now + seconds ttl) (pd_hard_expires_at p)).

Definition resend_pending_otp (c : nat -> call) (now : Z) (token : string) (ip : option string)
    (otp : string) (d : delivery) (delivery_code : string) (st : auth_store S)
    : option (PendingResult * auth_store S) :=
  '(admission, st) ← resend_admission c now token ip st;
  match admission with
  | inl r => Some (r, st)
  | inr (p, ttl) => Some (resend_issue c (resend_payload now p ttl otp) ttl otp token d delivery_code st)
  end.

Definition restart_pending_registration (c : nat -> call) (now : Z) (token : option string)
    (ip : option string) (otp : string) (d : delivery) (delivery_code : string) (st : auth_store S)
    : option (PendingResult * auth_store S) :=
  match token with
  | None => Some (failed "expired", st)
  | Some token => if negb (some_text token) then Some (failed "expired", st)
                  else resend_pending_otp c now token ip otp d delivery_code st
  end.

(** The heartbeat: whether the life was set anew, and the seconds left. *)
Definition touch_pending_registration (c : nat -> call) (now : Z) (token : string) (st : auth_store S)
    : (bool * Z) * auth_store S :=
  let key := pending_key token in
  let (v, st) := get_at (c 0%nat) key st in
  match v ≫= as_pending with
  | None => ((false, 0), st)
  | Some p =>
      let hard_deadline := pd_hard_expires_at p in
      if hard_deadline <=? now
      then ((false, Z.max 0 (store_ttl (via (c 1%nat)) (at_time (c 1%nat)) key st)), st)
      else
        let new_expiry := Z.min (now + seconds (SIGNUP_OTP_KEEPALIVE cfg)) hard_deadline in
        let new_ttl := whole_seconds (new_expiry - now) in
        if new_ttl <=? 0 then ((false, 0), st)
        else
          let st := snd (set_at (c 1%nat) key (SPending (with_expiry p new_expiry)) new_ttl st) in
          let st := snd (store_expire (via (c 2%nat)) (at_time (c 2%nat)) key new_ttl st) in
          ((true, new_ttl), st)
  end.

(** The stored payload without the two hashes. *)
Definition without_secrets (p : payload) : payload := {|
  pd_username := pd_username p; pd_email := pd_email p;
  pd_email_as_entered := pd_email_as_entered p; pd_phone := pd_phone p;
  pd_password_hash := ""; pd_full_name := pd_full_name p;
  pd_otp_hash := ""; pd_channel := pd_channel p;
  pd_attempts := pd_attempts p; pd_created_at := pd_created_at p; pd_expires_at := pd_expires_at p;
  pd_hard_expires_at := pd_hard_expires_at p; pd_ip := pd_ip p;
  pd_user_agent := pd_user_agent p; pd_mx_unverified := pd_mx_unverified p;
|}.

Definition get_pending_registration (c : call) (token : string) (st : auth_store S)
    : option payload * auth_store S :=
  let (v, st) := get_at c (pending_key token) st in
  (without_secrets <$> (v ≫= as_pending), st).

Definition discard_pending_registration (c : call) (token : string) (st : auth_store S)
    : bool * auth_store S :=
  store_delete redis_required (via c) (at_time c) (pending_key token) st.

(** * Verification and creation *)

(** What the three moments of the transaction see of the users table: the first
    query, the check before the insert, and the insert. *)
Record tables_seen : Type := { ts_first : list user; ts_check : list user; ts_insert : list user }.

(** The row to insert. The column's validator normalises the address once more. *)
Definition verified_row (id : Z) (public_id : string) (now : Z) (p : payload) (channel : string) : user :=
  let by_phone := str_in channel ["sms"; "whatsapp"] in
  let by_email := String.eqb channel "email" in {|
  us_id := id;
  us_public_id := public_id;
  us_username := Some (pd_username p);
  us_email := normalize_email (pd_email p);
  us_phone := if negb by_email && by_phone && truthy (pd_phone p)
              then validate_phone <$> pd_phone p else None;
  us_password_hash := pd_password_hash p;
  us_is_active := true;
  us_is_deleted := false;
  us_is_verified := by_email;
  us_email_verified := by_email;
  us_email_verified_at := if by_email then Some now else None;
  us_phone_verified := negb by_email && by_phone;
  us_phone_verified_at := if negb by_email && by_phone then Some now else None;
  us_activated_at := Some now;
|}.

(** The unique constraints of the table, for one more row. *)
Definition insertable (users : list user) (u : user) : bool :=
  negb (existsb (fun r => String.eqb (us_public_id r) (us_public_id u) || String.eqb (us_email r) (us_email u)
                          || (is_some (us_phone u) && bool_decide (us_phone r = us_phone u))) users).

Inductive creation : Type :=
  | Existing (u : user)
  | Created (u : user)
  | Rejected
  | CreationFailed.

(** [fails]: any other exception of the transaction. *)
Definition _create_verified_user (id : Z) (public_id : string) (now : Z) (fails : bool) (p : payload)
    (channel : string) (seen : tables_seen) : creation :=
  match user_by_email (ts_first seen) (pd_email p) with
  | Some u => Existing u
  | None =>
      let u := verified_row id public_id now p channel in
      if is_some (check_user_duplicates (ts_check seen) u false) then Rejected
      else if negb (insertable (ts_insert seen) u) then
        match user_by_email (ts_insert seen) (pd_email p) with
        | Some winner => Existing winner
        | None => Rejected
        end
      else if fails then CreationFailed
      else Created u
  end.

Definition not_verified (code : string) (remaining : option Z) : VerifyResult := {|
  vr_success := false; vr_user := None; vr_code := Some code; vr_remaining_attempts := remaining;
  vr_already_existed := false;
|}.

Definition verified_as (u : user) (already_existed : bool) : VerifyResult := {|
  vr_success := true; vr_user := Some u; vr_code := None; vr_remaining_attempts := None;
  vr_already_existed := already_existed;
|}.

(** A wrong code: the payload is destroyed, or stored again with one attempt more. *)
Definition wrong_code (c : nat -> call) (key : string) (p : payload) (st : auth_store S)
    : VerifyResult * auth_store S :=
  let attempts := pd_attempts p + 1 in
  let max_attempts := SIGNUP_OTP_MAX_ATTEMPTS cfg in
  if max_attempts <=? attempts
  then (not_verified "too_many_attempts" (Some 0), delete_at (c 1%nat) key st)
  else
    let remaining_ttl := Z.max (store_ttl (via (c 1%nat)) (at_time (c 1%nat)) key st) 1 in
    let st := snd (set_at (c 2%nat) key (SPending (with_attempts p attempts)) remaining_ttl st) in
    (not_verified "invalid_otp" (Some (max_attempts - attempts)), st).

(** The answer, and the row that was inserted. *)
Definition verify_pending_registration (c : nat -> call) (id : Z) (public_id : string) (now : Z)
    (fails : bool) (token otp channel : string) (seen : tables_seen) (st : auth_store S)
    : (VerifyResult * option user) * auth_store S :=
  let key := pending_key token in
  let (v, st) := get_at (c 0%nat) key st in
  match v ≫= as_pending with
  | None => ((not_verified "expired" None, None), st)
  | Some p =>
      let otp := strip otp in
      if malformed otp
      then ((not_verified "malformed" (Some (SIGNUP_OTP_MAX_ATTEMPTS cfg - pd_attempts p)), None), st)
      else if negb (verify_otp_hash otp (pd_otp_hash p))
      then let (r, st) := wrong_code c key p st in ((r, None), st)
      else
        let resolved_channel := if some_text channel then channel else pd_channel p in
        let done u existed st :=
          (verified_as u existed,
           delete_at (c 2%nat) (email_index_key (pd_email p)) (delete_at (c 1%nat) key st)) in
        match _create_verified_user id public_id now fails p resolved_channel seen with
        | Rejected => ((not_verified "creation_rejected" None, None), st)
        | CreationFailed => ((not_verified "creation_failed" None, None), st)
        | Existing u => let (r, st) := done u true st in ((r, None), st)
        | Created u => let (r, st) := done u false st in ((r, Some u), st)
        end
  end.

End signup.
End PendingRegistration.
