(* ===== verification/SignupLaws.v ===== *)
(** The laws of sign-up: an account comes only from the code of a sign-up that is
    still live, within its hard deadline and its attempts; wrong codes destroy it;
    a row that is written keeps the users table unique. *)

From S2P Require Import Prelude Tables AuthModel EmailAddress KeyStore OneTime MobileTokens Signup.
From S2P Require Import OneTimeLaws.

Local Open Scope string_scope.
Local Open Scope Z_scope.

Import EmailValidation OTPService PendingRegistration.

(** * Keys *)

Section keys.
Context `{TokenDigest}.

Lemma pending_key_inj t t' : pending_key t = pending_key t' -> t = t'.
Proof. unfold pending_key. intros E. simpl in E. by injection E. Qed.

Lemma pending_index_ne t e : pending_key t <> email_index_key e.
Proof. unfold pending_key, email_index_key. intros E. simpl in E. discriminate E. Qed.

Lemma pending_email_rate_ne t e : pending_key t <> email_rate_key e.
Proof. unfold pending_key, email_rate_key. intros E. simpl in E. discriminate E. Qed.

Lemma pending_ip_rate_ne t i : pending_key t <> ip_rate_key i.
Proof. unfold pending_key, ip_rate_key. intros E. simpl in E. discriminate E. Qed.

End keys.

(** * What the parts of a request do to the store *)

Section parts.
Context {S : Type} `{KeyStoreLaws S} `{OtpDigest} `{TokenDigest}.
Context (cfg : signup_config) (checks : email_checks).
Implicit Types st : auth_store S.

(** The store as seen under [k] from [now] on, before and after. *)
Definition untouched (now : Z) (k : string) st st' : Prop := same_from now k (shared st) (shared st').

Lemma untouched_trans now k st1 st2 st3 :
  untouched now k st1 st2 -> untouched now k st2 st3 -> untouched now k st1 st3.
Proof. by apply same_from_trans. Qed.

Lemma untouched_refl now k st : untouched now k st st.
Proof. apply same_from_refl. Qed.

Lemma get_at_untouched c k k' st : untouched (at_time c) k' st (snd (get_at true c k st)).
Proof. apply get_same. Qed.

Lemma get_at_view c k st v : fst (get_at true c k st) = Some v ->
  via c = Up /\ fst <$> view (at_time c) k (shared st) = Some v.
Proof. apply get_answer. Qed.

Lemma set_at_other c k v ttl k' st : k' <> k -> untouched (at_time c) k' st (snd (set_at true c k v ttl st)).
Proof. apply set_other. Qed.

(** A write happens with its life, or not at all. *)
Lemma set_at_effect c k v ttl st :
  if written (Some ttl) (via c)
  then 0 < ttl /\ shows_from (at_time c) k (Some (v, Some (at_time c + seconds ttl)))
                   (shared (snd (set_at true c k v ttl st)))
  else untouched (at_time c) k st (snd (set_at true c k v ttl st)).
Proof.
  unfold set_at. pose proof (set_effect (via c) (at_time c) k v (Some ttl) st) as He.
  destruct (written (Some ttl) (via c)) eqn:Hw; [|unfold untouched; rewrite He; apply same_from_refl].
  assert (Hp : 0 < ttl).
  { unfold written, ttl_checked, refused_ttl in Hw. destruct (Z.leb_spec ttl 0); [|done].
    by destruct (via c). }
  split; [done|]. unfold deadline in He. by destruct (Z.eqb_spec ttl 0); [lia|done].
Qed.

Lemma set_at_up now k v ttl st : 0 < ttl ->
  view now k (shared (snd (set_at true (Call now Up) k v ttl st))) = Some (v, Some (now + seconds ttl)).
Proof.
  intros Hp. pose proof (set_at_effect (Call now Up) k v ttl st) as Hs.
  assert (Hw : written (Some ttl) Up = true).
  { unfold written, ttl_checked, refused_ttl. by destruct (Z.leb_spec ttl 0); [lia|]. }
  cbn [via at_time] in Hs. rewrite Hw in Hs. destruct Hs as [_ Hs]. rewrite (Hs now) by lia.
  unfold live, expired_at. by destruct (Z.leb_spec (now + seconds ttl) now); [unfold seconds in *; lia|].
Qed.

Lemma delete_at_other c k k' st : k' <> k -> untouched (at_time c) k' st (delete_at true c k st).
Proof. apply delete_other. Qed.

Lemma delete_at_effect c k st :
  untouched (at_time c) k st (delete_at true c k st)
  \/ shows_from (at_time c) k None (shared (delete_at true c k st)).
Proof.
  unfold delete_at. pose proof (store_delete_effect (via c) (at_time c) k st) as He.
  destruct (carried (via c)); [by right|left; unfold untouched; rewrite He; apply same_from_refl].
Qed.

Lemma incr_untouched l now k ttl k' st n st' : k' <> k -> store_incr l now k ttl st = Some (n, st') ->
  untouched now k' st st'.
Proof.
  intros Hne. unfold store_incr, untouched.
  destruct (ks_incr now k (shared st)) as [[m s]|] eqn:Hi.
  - pose proof (incr_frame now k k' (shared st) s m Hne Hi) as Hf.
    assert (Hfb : forall st0, same_from now k' (shared st) (shared st0) ->
       ('(n, m) ← MemoryStore.incr now k ttl (local st0); Some (n, with_memory st0 m)) = Some (n, st') ->
       same_from now k' (shared st) (shared st')).
    { intros st0 Hs. destruct (MemoryStore.incr _ _ _ _) as [[m' s']|]; simpl; [|done]. by intros [= _ <-]. }
    destruct l as [| |[|]]; [|by apply (Hfb st), same_from_refl|by apply (Hfb (with_shared st s))
                             |by apply (Hfb st), same_from_refl].
    intros [= _ <-]. simpl. destruct ttl as [t|]; [|done]. destruct (_ && _); [|done].
    eapply same_from_trans; [done|exact Hf|]. by apply expire_frame.
  - assert (Hfb : ('(n, m) ← MemoryStore.incr now k ttl (local st); Some (n, with_memory st m)) = Some (n, st') ->
       same_from now k' (shared st) (shared st')).
    { destruct (MemoryStore.incr _ _ _ _) as [[m' s']|]; simpl; [|done]. intros [= _ <-]. apply same_from_refl. }
    destruct l as [| |[|]]; exact Hfb.
Qed.

Lemma expire_untouched l now k ttl k' st : k' <> k -> untouched now k' st (snd (store_expire l now k ttl st)).
Proof.
  intros Hne. unfold store_expire, untouched, in_memory.
  assert (Hf : same_from now k' (shared st) (snd (ks_expire now k ttl (shared st)))) by by apply expire_frame.
  destruct l as [| |[|]]; cbn [after_raise].
  - by rewrite shared_on_redis.
  - destruct (MemoryStore.expire _ _ _ _). simpl. apply same_from_refl.
  - destruct (MemoryStore.expire _ _ _ _). simpl. by rewrite shared_on_redis.
  - destruct (MemoryStore.expire _ _ _ _). simpl. apply same_from_refl.
Qed.

(** An expiry set anew, or nothing. *)
Lemma expire_effect l now k ttl st v e : view now k (shared st) = Some (v, e) ->
  untouched now k st (snd (store_expire l now k ttl st))
  \/ shows_from now k (Some (v, Some (now + seconds ttl))) (shared (snd (store_expire l now k ttl st))).
Proof.
  intros Hv. unfold store_expire, untouched, in_memory.
  destruct (expire_live now k ttl v e (shared st) Hv) as [_ Hs].
  destruct l as [| |[|]]; cbn [after_raise].
  - right. by rewrite shared_on_redis.
  - left. destruct (MemoryStore.expire _ _ _ _). simpl. apply same_from_refl.
  - right. destruct (MemoryStore.expire _ _ _ _). simpl. by rewrite shared_on_redis.
  - left. destruct (MemoryStore.expire _ _ _ _). simpl. apply same_from_refl.
Qed.

Lemma rate_limit_untouched c k email ip token st r st' now :
  (forall i, at_time (c i) = now) ->
  _rate_limit_check cfg c k email ip st = Some (r, st') -> untouched now (pending_key token) st st'.
Proof.
  intros Hc. unfold _rate_limit_check. rewrite !Hc.
  destruct (store_incr _ now (email_rate_key email) _ st) as [[n st1]|] eqn:Hi1; simpl; [|done].
  apply (incr_untouched _ _ _ _ (pending_key token)) in Hi1; [|apply pending_email_rate_ne].
  destruct (_ <? n); [by intros [= _ <-]|]. destruct (truthy ip); simpl; [|by intros [= _ <-]].
  destruct (store_incr _ now (ip_rate_key _) _ st1) as [[m st2]|] eqn:Hi2; simpl; [|done].
  apply (incr_untouched _ _ _ _ (pending_key token)) in Hi2; [|apply pending_ip_rate_ne].
  intros Hr. assert (st' = st2) as -> by (destruct (_ <? m); congruence).
  by eapply untouched_trans.
Qed.

(** * The memory of the process holds no sign-up *)

Definition local_clear st : Prop := forall token, local st !! pending_key token = None.

Lemma guarded_local {A} l (refusal : A) f g st : local (snd (guarded true l refusal f g st)) = local st.
Proof.
  rewrite guarded_required. unfold on_redis, after_raise, on_redis.
  destruct l as [| |[|]]; simpl; try done; by destruct (f (shared st)).
Qed.

Lemma memory_incr_clear now k ttl (m m' : memory) n token : pending_key token <> k ->
  MemoryStore.incr now k ttl m = Some (n, m') -> m !! pending_key token = None ->
  m' !! pending_key token = None.
Proof.
  intros Hne. unfold MemoryStore.incr, MemoryStore.get. intros Hi Hm.
  assert (Hp : forall m0 : memory, m0 !! pending_key token = None ->
     MemoryStore._purge now m0 !! pending_key token = None).
  { intros m0 Hm0. unfold MemoryStore._purge. apply map_lookup_filter_None_2. by left. }
  assert (Hd : base.delete k m !! pending_key token = None) by by rewrite lookup_delete_ne.
  destruct (m !! k) as [[v e]|] eqn:Hk.
  - destruct (MemoryStore._expired now e).
    + injection Hi as _ <-. rewrite lookup_insert_ne by done. by apply Hp.
    + destruct (as_counter v); simpl in Hi; [|done]. injection Hi as _ <-. by rewrite lookup_insert_ne.
  - injection Hi as _ <-. rewrite lookup_insert_ne by done. by apply Hp.
Qed.

Lemma incr_clear l now k ttl st n st' : (forall token, pending_key token <> k) ->
  store_incr l now k ttl st = Some (n, st') -> local_clear st -> local_clear st'.
Proof.
  intros Hne Hi Hc token. unfold store_incr in Hi.
  assert (Hfb : forall st0, local st0 = local st ->
     ('(n, m) ← MemoryStore.incr now k ttl (local st0); Some (n, with_memory st0 m)) = Some (n, st') ->
     local st' !! pending_key token = None).
  { intros st0 -> E. destruct (MemoryStore.incr _ _ _ _) as [[m' s']|] eqn:Em; simpl in E; [|done].
    injection E as -> <-. by eapply memory_incr_clear. }
  destruct (ks_incr now k (shared st)) as [[m s]|]; destruct l as [| |[|]];
    first [by eapply Hfb; [|exact Hi] | by injection Hi as _ <-; apply Hc].
Qed.

Lemma rate_limit_clear c k email ip st r st' :
  _rate_limit_check cfg c k email ip st = Some (r, st') -> local_clear st -> local_clear st'.
Proof.
  unfold _rate_limit_check. intros Hr Hl.
  destruct (store_incr _ _ (email_rate_key email) _ st) as [[n st1]|] eqn:Hi1; simpl in Hr; [|done].
  apply incr_clear in Hi1; [|by intros; apply pending_email_rate_ne|done].
  destruct (_ <? n); [by injection Hr as _ <-|]. destruct (truthy ip); simpl in Hr; [|by injection Hr as _ <-].
  destruct (store_incr _ _ (ip_rate_key _) _ st1) as [[m st2]|] eqn:Hi2; simpl in Hr; [|done].
  apply incr_clear in Hi2; [|by intros; apply pending_ip_rate_ne|done].
  destruct (_ <? m); by injection Hr as _ <-.
Qed.

Lemma expire_clear l now k ttl st : local_clear st -> local_clear (snd (store_expire l now k ttl st)).
Proof.
  intros Hl t. unfold store_expire, in_memory, MemoryStore.expire.
  assert (Hm : forall st0, local st0 = local st ->
    local (snd (let (r, m) := match local st0 !! k with
                              | Some (v, _) => (true, <[k:=(v, Some (now + seconds ttl))]> (local st0))
                              | None => (false, local st0)
                              end in (r, with_memory st0 m))) !! pending_key t = None).
  { intros st0 ->. destruct (local st !! k) as [[v e]|] eqn:Hk; simpl; [|apply Hl].
    rewrite lookup_insert_ne; [apply Hl|]. intros ->. by rewrite Hl in Hk. }
  destruct l as [| |[|]]; cbn [after_raise]; unfold on_redis.
  - destruct (ks_expire _ _ _ _). apply Hl.
  - by apply Hm.
  - apply Hm. by destruct (ks_expire _ _ _ _).
  - by apply Hm.
Qed.

End parts.
