(* ===== verification/SignupHistory.v ===== *)
(** Every history of sign-ups: what the payload under a token is, from the code
    stored last and the guesses counted since; an account is opened by that code
    alone, in time and within the attempts. *)

From S2P Require Import Prelude Tables AuthModel EmailAddress KeyStore OneTime MobileTokens Signup.
From S2P Require Import OneTimeLaws SignupLaws.

Local Open Scope string_scope.
Local Open Scope Z_scope.

Import EmailValidation OTPService PendingRegistration.

(** What happened to a key: a code stored with its payload, a wrong guess
    counted, an account opened (with whether its row was inserted). *)
Inductive signup_event : Type :=
  | CodeIssued (key otp : string) (p : payload)
  | GuessCounted (key : string)
  | AccountOpened (key otp : string) (u : user) (inserted : bool) (at_ : Z).

(** The code and the payload stored last under a key, and the wrong guesses
    counted since. *)
Fixpoint current (k : string) (log : list signup_event) : option (string * payload * nat) :=
  match log with
  | [] => None
  | CodeIssued k' otp p :: earlier =>
      if String.eqb k' k then Some (otp, p, 0%nat) else current k earlier
  | GuessCounted k' :: earlier =>
      if String.eqb k' k then (fun '(otp, p, n) => (otp, p, Datatypes.S n)) <$> current k earlier
      else current k earlier
  | AccountOpened _ _ _ _ _ :: earlier => current k earlier
  end.

Section effects.
Context {S : Type} `{KeyStoreLaws S} `{OtpDigest} `{TokenDigest}.
Context (cfg : signup_config) (checks : email_checks).
Implicit Types st : auth_store S.

(** The end of a sign-up that begins with a payload, guesses apart. The deadline is
    the maximal lifetime from the beginning, but the first code lives for its own
    setting, which is not capped by it. *)
Definition sign_up_end (p : payload) : Z :=
  pd_created_at p + seconds (Z.max (SIGNUP_OTP_MAX_LIFETIME cfg) (SIGNUP_OTP_TTL cfg)).

(** The wrong guesses are fewer than the limit; a limit below one admits a first
    guess all the same. *)
Definition within_attempts (n : nat) : Prop :=
  n = 0%nat \/ Z.of_nat n < SIGNUP_OTP_MAX_ATTEMPTS cfg.

(** A payload [q], which disappears at [d], is what its history says. *)
Definition accounted (cur : option (string * payload * nat)) (now : Z) (q : payload) (d : Z) : Prop :=
  exists otp p n, cur = Some (otp, p, n)
  /\ q = with_expiry (with_attempts p (Z.of_nat n)) (pd_expires_at q)
  /\ pd_otp_hash p = hash_otp otp
  /\ within_attempts n
  /\ d <= sign_up_end p + seconds (Z.of_nat n)
  /\ pd_hard_expires_at p = pd_created_at p + seconds (SIGNUP_OTP_MAX_LIFETIME cfg)
  /\ pd_created_at p <= now.

Definition tracked (now : Z) st (log : list signup_event) : Prop :=
  local_clear st /\ forall token v e, view now (pending_key token) (shared st) = Some (v, e) ->
  exists q d, v = SPending q /\ e = Some d /\ accounted (current (pending_key token) log) now q d.

(** What a part of a request may do: nothing to the other tokens; to its own,
    nothing, or a removal, or a payload that is what the new history says. *)
Definition leaves (now : Z) (token : string) st (log : list signup_event) st' (log' : list signup_event) : Prop :=
  (local_clear st -> local_clear st')
  /\ (forall t, t <> token -> untouched now (pending_key t) st st'
        /\ current (pending_key t) log' = current (pending_key t) log)
  /\ ((untouched now (pending_key token) st st'
        /\ current (pending_key token) log' = current (pending_key token) log)
      \/ shows_from now (pending_key token) None (shared st')
      \/ exists q d, shows_from now (pending_key token) (Some (SPending q, Some d)) (shared st')
         /\ accounted (current (pending_key token) log') now q d).

Lemma leaves_untouched now token st log st' : (local_clear st -> local_clear st') ->
  (forall t, untouched now (pending_key t) st st') -> leaves now token st log st' log.
Proof. intros Hl Hu. split; [done|]. split; [by intros; split|]. by left. Qed.

Lemma leaves_trans now token st1 log1 st2 log2 st3 log3 :
  leaves now token st1 log1 st2 log2 -> leaves now token st2 log2 st3 log3 ->
  leaves now token st1 log1 st3 log3.
Proof.
  intros (Hl1 & Ho1 & Hk1) (Hl2 & Ho2 & Hk2). split; [by auto|]. split.
  - intros t Ht. destruct (Ho1 t Ht) as [Hu1 Hc1], (Ho2 t Ht) as [Hu2 Hc2].
    split; [by eapply untouched_trans|congruence].
  - destruct Hk2 as [[Hu2 Hc2]|Hk2]; [|by right].
    assert (Hsh : forall o, shows_from now (pending_key token) o (shared st2) ->
                            shows_from now (pending_key token) o (shared st3)).
    { intros o Hs t Ht. by rewrite (Hu2 t Ht), (Hs t Ht). }
    destruct Hk1 as [[Hu1 Hc1]|[Hn|(q & d & Hs & Ha)]].
    + left. split; [by eapply untouched_trans|congruence].
    + right. left. by apply Hsh.
    + right. right. exists q, d. rewrite Hc2. split; [by apply Hsh|done].
Qed.

Lemma leaves_tracked now token st log st' log' :
  leaves now token st log st' log' -> tracked now st log -> tracked now st' log'.
Proof.
  intros (Hl & Ho & Hk) [Hcl Ht]. split; [by auto|]. intros t v e Hv.
  assert (Hu : untouched now (pending_key t) st st' ->
     current (pending_key t) log' = current (pending_key t) log ->
     exists q d, v = SPending q /\ e = Some d /\ accounted (current (pending_key t) log') now q d).
  { intros Hu ->. apply Ht. rewrite <- Hv. symmetry. apply Hu. lia. }
  destruct (decide (t = token)) as [->|Hne]; [|by destruct (Ho t Hne); auto].
  destruct Hk as [[Hu' Hc]|[Hn|(q & d & Hs & Ha)]]; [by auto|by rewrite Hn in Hv by lia|].
  rewrite Hs in Hv by lia. apply live_some in Hv as [[= <- <-] _]. eauto.
Qed.

(** A live payload keeps being accounted for as time passes. *)
Lemma tracked_later now t st log : now <= t -> tracked now st log -> tracked t st log.
Proof.
  intros Hle [Hcl Ht]. split; [done|]. intros token v e Hv. apply (view_before now) in Hv; [|done].
  destruct (Ht _ _ _ Hv) as (q & d & -> & -> & (otp & p & n & ? & ? & ? & ? & ? & ? & ?)).
  exists q, d. split_and!; [done..|]. exists otp, p, n. split_and!; try done. lia.
Qed.

(** * The parts *)

Section atomic.
Context (now : Z) (c : nat -> call) (at_once : forall i, at_time (c i) = now).

Lemma get_leaves i key token st log :
  leaves now token st log (snd (get_at true (c i) key st)) log.
Proof.
  apply leaves_untouched.
  - unfold local_clear, get_at, store_get. by rewrite guarded_local.
  - intros t. rewrite <- (at_once i). apply get_at_untouched.
Qed.

Lemma index_leaves i email v ttl token st log :
  leaves now token st log (snd (set_at true (c i) (email_index_key email) v ttl st)) log.
Proof.
  apply leaves_untouched.
  - unfold local_clear, set_at, store_set. by rewrite guarded_local.
  - intros t. rewrite <- (at_once i). apply set_at_other, pending_index_ne.
Qed.

Lemma index_delete_leaves i email token st log :
  leaves now token st log (delete_at true (c i) (email_index_key email) st) log.
Proof.
  apply leaves_untouched.
  - unfold local_clear, delete_at, store_delete. by rewrite guarded_local.
  - intros t. rewrite <- (at_once i). apply delete_at_other, pending_index_ne.
Qed.

Lemma delete_leaves i token st log :
  leaves now token st log (delete_at true (c i) (pending_key token) st) log.
Proof.
  split; [unfold local_clear, delete_at, store_delete; by rewrite guarded_local|]. rewrite <- (at_once i).
  split.
  - intros t Hne. split; [|done]. apply delete_at_other. intros E. by apply pending_key_inj in E.
  - destruct (delete_at_effect (c i) (pending_key token) st); auto.
Qed.

Lemma limit_leaves k email ip token st r st' log :
  _rate_limit_check cfg c k email ip st = Some (r, st') -> leaves now token st log st' log.
Proof.
  intros Hr. apply leaves_untouched.
  - by eapply rate_limit_clear.
  - intros t. by eapply rate_limit_untouched.
Qed.

(** A payload stored under its token, with the events that say so. *)
Lemma payload_leaves i token q ttl evs st log :
  (forall t, t <> token -> current (pending_key t) (evs ++ log) = current (pending_key t) log) ->
  (0 < ttl -> accounted (current (pending_key token) (evs ++ log)) now q (now + seconds ttl)) ->
  leaves now token st log (snd (set_at true (c i) (pending_key token) (SPending q) ttl st))
    ((if written (Some ttl) (via (c i)) then evs else []) ++ log).
Proof.
  intros Hevs Ha. split; [unfold local_clear, set_at, store_set; by rewrite guarded_local|]. split.
  - intros t Hne. split.
    + rewrite <- (at_once i). apply set_at_other. intros E. by apply pending_key_inj in E.
    + destruct (written _ _); [by apply Hevs|done].
  - pose proof (set_at_effect (c i) (pending_key token) (SPending q) ttl st) as He.
    rewrite at_once in He. destruct (written (Some ttl) (via (c i))); [|by left].
    destruct He as [Hp Hs]. right. right. exists q, (now + seconds ttl). auto.
Qed.

(** * The handlers *)

Lemma current_issued k otp p log : current k (CodeIssued k otp p :: log) = Some (otp, p, 0%nat).
Proof. simpl. by rewrite String.eqb_refl. Qed.

Lemma current_other token t evs log : (forall ev, ev ∈ evs ->
    match ev with CodeIssued k _ _ | GuessCounted k => k = pending_key token | AccountOpened _ _ _ _ _ => True end) ->
  t <> token -> current (pending_key t) (evs ++ log) = current (pending_key t) log.
Proof.
  intros Hev Hne. induction evs as [|ev evs IH]; [done|].
  assert (Hk : String.eqb (pending_key token) (pending_key t) = false).
  { apply String.eqb_neq. intros E. apply pending_key_inj in E. congruence. }
  pose proof (Hev ev ltac:(set_solver)) as He. specialize (IH ltac:(set_solver)).
  destruct ev; subst; cbn [current app]; rewrite ?Hk; done.
Qed.

Lemma issued_leaves i token otp p ttl st log :
  (0 < ttl -> accounted (Some (otp, p, 0%nat)) now p (now + seconds ttl)) ->
  leaves now token st log (snd (set_at true (c i) (pending_key token) (SPending p) ttl st))
    ((if written (Some ttl) (via (c i)) then [CodeIssued (pending_key token) otp p] else []) ++ log).
Proof.
  intros Ha. apply payload_leaves.
  - intros t Ht. apply (current_other token); [set_solver|done].
  - cbn [app]. by rewrite current_issued.
Qed.

Lemma start_refusal_leaves f users token st r st' log :
  start_refusal cfg checks c f users st = Some (r, st') -> leaves now token st log st' log.
Proof.
  unfold start_refusal. repeat case_match; simpl; try (intros [= _ <-]; by apply leaves_untouched).
  apply limit_leaves.
Qed.

Lemma start_issue_leaves f otp token d dc st log :
  let p := start_payload cfg checks now f otp in
  leaves now token st log (snd (start_issue true cfg c p otp token d dc st))
    ((if written (Some (SIGNUP_OTP_TTL cfg)) (via (c 3%nat))
      then [CodeIssued (pending_key token) otp p] else []) ++ log).
Proof.
  intros p. unfold start_issue.
  assert (Ha : accounted (Some (otp, p, 0%nat)) now p (now + seconds (SIGNUP_OTP_TTL cfg))).
  { exists otp, p, 0%nat. subst p. split_and!; try done; [by left|].
    unfold sign_up_end; cbn; unfold seconds; lia. }
  pose proof (issued_leaves 3 token otp p (SIGNUP_OTP_TTL cfg) st log (fun _ => Ha)) as Hp.
  destruct (set_at true (c 3%nat) _ _ _ st) as [b st1]. cbn [snd] in Hp.
  destruct b; [|done]. eapply leaves_trans; [exact Hp|]. cbn [negb].
  destruct (delivered d); cbn [negb snd]; [apply index_leaves|].
  eapply leaves_trans; [apply index_leaves|apply delete_leaves].
Qed.

Lemma get_tracked i token st log p : tracked now st log ->
  fst (get_at true (c i) (pending_key token) st) ≫= as_pending = Some p ->
  exists d, accounted (current (pending_key token) log) now p d
  /\ view now (pending_key token) (shared st) = Some (SPending p, Some d) /\ now < d.
Proof.
  intros [_ Ht] Hg. destruct (fst (get_at _ _ _ _)) as [v|] eqn:Hv; [|done]. simpl in Hg.
  apply get_at_view in Hv as [_ Hv]. rewrite at_once in Hv.
  destruct (view _ _ _) as [[w e]|] eqn:Hw; [|done]. simpl in Hv. injection Hv as ->.
  destruct (Ht _ _ _ Hw) as (q & d & -> & -> & Ha). simpl in Hg. injection Hg as ->.
  exists d. split; [done|]. split; [done|]. by eapply view_live.
Qed.

Lemma whole_seconds_le t : 0 <= t -> seconds (whole_seconds t) <= t.
Proof.
  intros Ht. unfold whole_seconds, seconds. change (1 * 1000000) with 1000000. rewrite Z.quot_div_nonneg by lia.
  pose proof (Z.mul_div_le t 1000000 ltac:(lia)). lia.
Qed.

Lemma accounted_hard cur q d otp p n : accounted cur now q d -> cur = Some (otp, p, n) ->
  pd_hard_expires_at q = pd_hard_expires_at p.
Proof. intros (o & p' & n' & -> & -> & _) [= -> -> ->]. done. Qed.

Lemma expire_pending_leaves token email st log :
  leaves now token st log (snd (expire_pending true c token email st)) log.
Proof.
  unfold expire_pending. cbn [snd]. eapply leaves_trans; [apply delete_leaves|].
  destruct (some_text email); [apply index_delete_leaves|by apply leaves_untouched].
Qed.

Lemma resend_admission_leaves token ip st a st' log : tracked now st log ->
  resend_admission true cfg c now token ip st = Some (a, st') ->
  leaves now token st log st' log
  /\ forall p ttl, a = inr (p, ttl) -> now + seconds ttl <= pd_hard_expires_at p
      /\ exists d, accounted (current (pending_key token) log) now p d.
Proof.
  intros Ht. unfold resend_admission.
  pose proof (get_leaves 0 (pending_key token) token st log) as Hg.
  pose proof (get_tracked 0 token st log) as Hp.
  destruct (get_at true (c 0%nat) _ st) as [v st1]. cbn [fst snd] in Hg, Hp.
  destruct (v ≫= as_pending) as [p|]; [|by intros [= <- <-]].
  destruct (Hp _ Ht eq_refl) as (d & Ha & _).
  assert (Hx : leaves now token st log (snd (expire_pending true c token (pd_email p) st1)) log)
    by (eapply leaves_trans; [exact Hg|apply expire_pending_leaves]).
  destruct (_ || _) eqn:Hh; [by intros [= <- <-]|].
  destruct (_ <=? 0) eqn:Hl; [by intros [= <- <-]|].
  destruct (_rate_limit_check _ _ _ _ _ st1) as [[r st2]|] eqn:Hr; simpl; [|done].
  apply (limit_leaves _ _ _ token _ _ _ log) in Hr. intros E.
  assert (st' = st2) as -> by (destruct r; congruence).
  split; [eapply leaves_trans; [exact Hg|exact Hr]|]. intros p' ttl ->. destruct r; [done|]. injection E as <- <-.
  split; [|by eauto]. apply orb_false_iff in Hh as [_ Hh]. apply Z.leb_gt in Hh.
  pose proof (whole_seconds_le (pd_hard_expires_at p - now) ltac:(lia)). unfold seconds in *. lia.
Qed.

Lemma resend_issue_leaves p d ttl otp token dl dc st log :
  now + seconds ttl <= pd_hard_expires_at p -> accounted (current (pending_key token) log) now p d ->
  let p' := resend_payload now p ttl otp in
  leaves now token st log (snd (resend_issue true c p' ttl otp token dl dc st))
    ((if written (Some ttl) (via (c 4%nat)) then [CodeIssued (pending_key token) otp p'] else []) ++ log).
Proof.
  intros Hle (o & p0 & n & _ & Hq & _ & _ & _ & Hl & Hc) p'. unfold resend_issue.
  assert (Ha : accounted (Some (otp, p', 0%nat)) now p' (now + seconds ttl)).
  { exists otp, p', 0%nat. subst p'. rewrite Hq in Hle |- *. cbn in *.
    split_and!; try done; [by left|]. unfold sign_up_end in *. cbn. unfold seconds in *. lia. }
  pose proof (issued_leaves 4 token otp p' ttl st log (fun _ => Ha)) as Hp.
  destruct (set_at true (c 4%nat) _ _ _ st) as [b st1]. cbn [snd] in Hp.
  by destruct b; cbn [negb]; [destruct (delivered dl)|].
Qed.

(** The same payload with another expiry, within the hard deadline. *)
Lemma accounted_again cur q d t d' : accounted cur now q d -> d' <= pd_hard_expires_at q ->
  accounted cur now (with_expiry q t) d' /\ accounted cur now q d'.
Proof.
  intros (o & p & n & -> & Hq & Hh & Hn & Hl & Hd & Hc) Hd'.
  assert (He : pd_hard_expires_at q = pd_hard_expires_at p) by by rewrite Hq.
  assert (Hle : d' <= sign_up_end p + seconds (Z.of_nat n)) by (unfold sign_up_end, seconds in *; lia).
  split; exists o, p, n; [|by split_and!]. split_and!; try done. rewrite Hq. done.
Qed.

Lemma expire_leaves i token ttl st log q d : tracked now st log ->
  view now (pending_key token) (shared st) = Some (SPending q, Some d) ->
  now + seconds ttl <= pd_hard_expires_at q ->
  leaves now token st log (snd (store_expire (via (c i)) now (pending_key token) ttl st)) log.
Proof.
  intros [Hcl Ht] Hv Hle. split; [intros; by apply expire_clear|]. split.
  - intros t Hne. split; [|done]. apply expire_untouched. intros E. by apply pending_key_inj in E.
  - destruct (expire_effect (via (c i)) now (pending_key token) ttl st _ _ Hv) as [Hu|Hs]; [by left|].
    right. right. exists q, (now + seconds ttl). split; [done|].
    destruct (Ht _ _ _ Hv) as (q' & d' & [= <-] & [= <-] & Ha).
    by apply (accounted_again _ _ _ 0) with (d' := now + seconds ttl) in Ha as [_ Ha].
Qed.

Lemma touch_leaves token st log : tracked now st log ->
  leaves now token st log (snd (touch_pending_registration true cfg c now token st)) log.
Proof.
  intros Ht. unfold touch_pending_registration.
  pose proof (get_leaves 0 (pending_key token) token st log) as Hg.
  pose proof (get_tracked 0 token st log) as Hp.
  pose proof (get_at_untouched (c 0%nat) (pending_key token) (pending_key token) st) as Hu.
  rewrite at_once in Hu. destruct (get_at true (c 0%nat) _ st) as [v st1]. cbn [fst snd] in Hg, Hp, Hu.
  destruct (v ≫= as_pending) as [p|]; [|done]. destruct (Hp _ Ht eq_refl) as (d & Ha & Hv & Hd).
  rewrite <- (Hu now) in Hv by lia. clear Hp Hu. destruct (_ <=? now) eqn:Hh; [done|]. apply Z.leb_gt in Hh.
  set (e := Z.min _ _). set (ttl := whole_seconds (e - now)). destruct (ttl <=? 0) eqn:Hz; [done|].
  apply Z.leb_gt in Hz. cbn [snd].
  assert (Hle : now + seconds ttl <= pd_hard_expires_at p).
  { destruct (Z.leb_spec now e).
    - pose proof (whole_seconds_le (e - now) ltac:(lia)). subst ttl. lia.
    - subst ttl. unfold whole_seconds in Hz. pose proof (Z.quot_le_upper_bound (e - now) (seconds 1) 0).
      unfold seconds in *. lia. }
  pose proof (leaves_tracked _ _ _ _ _ _ Hg Ht) as Ht1.
  destruct (accounted_again _ _ _ e _ Ha Hle) as [Ha' _].
  pose proof (payload_leaves 1 token (with_expiry p e) ttl [] st1 log (fun _ _ => eq_refl) (fun _ => Ha')) as Hs.
  pose proof (set_at_effect (c 1%nat) (pending_key token) (SPending (with_expiry p e)) ttl st1) as He.
  rewrite at_once in He |- *. set (st2 := snd (set_at _ _ _ _ _ st1)) in *.
  assert (Hs' : leaves now token st1 log st2 log) by by destruct (written _ _).
  eapply leaves_trans; [exact Hg|]. eapply leaves_trans; [exact Hs'|].
  pose proof (leaves_tracked _ _ _ _ _ _ Hs' Ht1) as Ht2. destruct (written _ _).
  - destruct He as [_ He]. eapply expire_leaves with (q := with_expiry p e); [done| |exact Hle].
    rewrite (He now) by lia. unfold live, expired_at.
    destruct (Z.leb_spec (now + seconds ttl) now); [unfold seconds in *; lia|done].
  - eapply expire_leaves with (q := p); [done| |exact Hle]. rewrite (He now) by lia. exact Hv.
Qed.

(** The life given back after a wrong guess is at most a second longer. *)
Lemma remaining_ttl i token v d st : local_clear st ->
  view now (pending_key token) (shared st) = Some (v, Some d) ->
  now + seconds (Z.max (store_ttl (via (c i)) now (pending_key token) st) 1) <= d + seconds 1.
Proof.
  intros Hcl Hv. pose proof (view_live _ _ _ _ _ Hv) as Hd. unfold store_ttl.
  assert (Hm : MemoryStore.ttl now (pending_key token) (local st) = -2) by (unfold MemoryStore.ttl; by rewrite Hcl).
  destruct (via (c i)); rewrite ?Hm; [|unfold seconds; lia..].
  pose proof (ttl_bound now (pending_key token) v d (shared st) Hv). unfold seconds in *. lia.
Qed.

Definition counted (r : VerifyResult) : bool :=
  bool_decide (vr_code r = Some "invalid_otp") && carried (via (c 2%nat)).

Lemma wrong_code_leaves token p d st log : tracked now st log ->
  accounted (current (pending_key token) log) now p d ->
  view now (pending_key token) (shared st) = Some (SPending p, Some d) ->
  let '(r, st') := wrong_code true cfg c (pending_key token) p st in
  leaves now token st log st' ((if counted r then [GuessCounted (pending_key token)] else []) ++ log)
  /\ vr_success r = false.
Proof.
  intros [Hcl Ht] (o & p0 & n & Hcur & Hq & Hh & Hn & Hl & Hhard & Hc) Hv. unfold wrong_code, counted.
  destruct (_ <=? _) eqn:Hm; [split; [apply delete_leaves|done]|]. apply Z.leb_gt in Hm. split; [|done].
  rewrite at_once. set (ttl := Z.max _ 1). rewrite bool_decide_eq_true_2 by done. cbn [andb].
  assert (Hw : carried (via (c 2%nat)) = written (Some ttl) (via (c 2%nat))).
  { unfold written, ttl_checked, refused_ttl. destruct (Z.leb_spec ttl 0); [subst ttl; lia|by destruct (via (c 2%nat))]. }
  rewrite Hw. apply payload_leaves.
  - intros t Hne. apply (current_other token); [set_solver|done].
  - intros _. cbn [app current]. rewrite String.eqb_refl, Hcur. cbn.
    assert (Hn' : pd_attempts p = Z.of_nat n) by by rewrite Hq.
    exists o, p0, (Datatypes.S n). split_and!; try done; [|right; lia|].
    + rewrite Hq at 1. rewrite Hn'. unfold with_attempts, with_expiry. cbn. repeat f_equal; lia.
    + pose proof (remaining_ttl 1 token _ _ st Hcl Hv). subst ttl. unfold seconds in *. lia.
Qed.

(** What a verification adds to the history. *)
Definition verify_events (key otp : string) (answer : VerifyResult * option user) : list signup_event :=
  match vr_user (fst answer) with
  | Some u => [AccountOpened key otp u (is_some (snd answer)) now]
  | None => if counted (fst answer) then [GuessCounted key] else []
  end.

(** An account is opened by the code stored last, in time and within the attempts;
    it is the row that payload asks for, or the one the address already has. *)
Definition opened_by_code (cur : option (string * payload * nat)) (otp : string) (u : user)
    (inserted : bool) (at_ : Z) : Prop :=
  exists otp' p n, cur = Some (otp', p, n) /\ otp_digest otp = otp_digest otp'
  /\ within_attempts n
  /\ pd_created_at p <= at_ < sign_up_end p + seconds (Z.of_nat n)
  /\ if inserted then exists id pid channel, u = verified_row id pid at_ p channel
     else us_email u = pd_email p.

Lemma user_by_email_some users e u : user_by_email users e = Some u -> us_email u = e /\ u ∈ users.
Proof.
  intros [Hin E]%List.find_some. apply String.eqb_eq in E. split; [done|]. by apply list_elem_of_In.
Qed.

Lemma create_spec id pid fails p ch seen :
  match _create_verified_user id pid now fails p ch seen with
  | Existing u => us_email u = pd_email p
  | Created u => u = verified_row id pid now p ch /\ insertable (ts_insert seen) u = true
  | _ => True
  end.
Proof.
  unfold _create_verified_user. destruct (user_by_email (ts_first seen) _) as [u|] eqn:Hf.
  { by apply user_by_email_some in Hf as [? _]. }
  destruct (is_some _); [done|]. destruct (insertable _ _) eqn:Hi; simpl.
  - by destruct fails.
  - destruct (user_by_email (ts_insert seen) _) as [u|] eqn:Hu; [|done].
    by apply user_by_email_some in Hu as [? _].
Qed.

Lemma opened_spec p d cur otp u (inserted : bool) : accounted cur now p d -> now < d ->
  verify_otp_hash otp (pd_otp_hash p) = true ->
  (if inserted then exists id pid channel, u = verified_row id pid now p channel else us_email u = pd_email p) ->
  opened_by_code cur otp u inserted now.
Proof.
  intros (o & p0 & n & Hcur & Hq & Hh & Hn & Hl & Hhard & Hc) Hd Hok Hu.
  apply verify_otp_hash_true in Hok as (_ & _ & Hok). rewrite Hq in Hok, Hu. cbn in Hok, Hu.
  exists o, p0, n. split_and!; try done; [rewrite Hok; exact Hh|lia].
Qed.

(** The right code: the row, if any, and the two keys given up. *)
Definition settled (key : string) (p : payload) (made : creation) (st : auth_store S)
    : (VerifyResult * option user) * auth_store S :=
  let st' := delete_at true (c 2%nat) (email_index_key (pd_email p)) (delete_at true (c 1%nat) key st) in
  match made with
  | Rejected => ((not_verified "creation_rejected" None, None), st)
  | CreationFailed => ((not_verified "creation_failed" None, None), st)
  | Existing u => ((verified_as u true, None), st')
  | Created u => ((verified_as u false, Some u), st')
  end.

Lemma settled_leaves token otp p made st log :
  let '(answer, st') := settled (pending_key token) p made st in
  leaves now token st log st' (verify_events (pending_key token) otp answer ++ log).
Proof.
  assert (Hdel : leaves now token st log
     (delete_at true (c 2%nat) (email_index_key (pd_email p)) (delete_at true (c 1%nat) (pending_key token) st)) log).
  { eapply leaves_trans; [apply delete_leaves|apply index_delete_leaves]. }
  destruct made; simpl; unfold verify_events; simpl; try exact Hdel; by apply leaves_untouched.
Qed.

Lemma verify_leaves id pid fails token otp channel seen st log answer st' : tracked now st log ->
  verify_pending_registration true cfg c id pid now fails token otp channel seen st = (answer, st') ->
  leaves now token st log st' (verify_events (pending_key token) (strip otp) answer ++ log)
  /\ (forall u, vr_user (fst answer) = Some u ->
       opened_by_code (current (pending_key token) log) (strip otp) u (is_some (snd answer)) now)
  /\ (forall u, snd answer = Some u -> insertable (ts_insert seen) u = true).
Proof.
  intros Ht. unfold verify_pending_registration.
  pose proof (get_leaves 0 (pending_key token) token st log) as Hg.
  pose proof (get_tracked 0 token st log) as Hp.
  pose proof (get_at_untouched (c 0%nat) (pending_key token) (pending_key token) st) as Hu.
  rewrite at_once in Hu. destruct (get_at true (c 0%nat) _ st) as [v st1]. cbn [fst snd] in Hg, Hp, Hu.
  destruct (v ≫= as_pending) as [p|]; [|by intros [= <- <-]].
  destruct (Hp _ Ht eq_refl) as (d & Ha & Hv & Hd). rewrite <- (Hu now) in Hv by lia.
  destruct (malformed _); [by intros [= <- <-]|].
  destruct (verify_otp_hash _ _) eqn:Hok; cbn [negb].
  - pose proof (create_spec id pid fails p (if some_text channel then channel else pd_channel p) seen) as Hm.
    set (made := _create_verified_user _ _ _ _ _ _ _) in *.
    pose proof (settled_leaves token (strip otp) p made st1 log) as Hs. intros E.
    assert (Es : settled (pending_key token) p made st1 = (answer, st')) by (rewrite <- E; by destruct made).
    rewrite Es in Hs. split; [by eapply leaves_trans; [exact Hg|exact Hs]|]. clear Hs E.
    destruct made; injection Es as <- <-; (split; [|by cbn; first [intros ? [= <-]; apply Hm|intros]]); cbn;
      intros w [= <-]; eapply opened_spec; eauto. destruct Hm as [-> _]. eauto.
  - pose proof (wrong_code_leaves token p d st1 log (leaves_tracked _ _ _ _ _ _ Hg Ht) Ha Hv) as Hw.
    destruct (wrong_code _ _ _ _ _ _) as [r st2] eqn:Hwc. destruct Hw as [Hw Hs]. intros [= <- <-].
    assert (Hno : vr_user r = None) by (unfold wrong_code in Hwc; destruct (_ <=? _); by injection Hwc as <- _).
    unfold verify_events. cbn [fst snd]. rewrite Hno.
    split; [by eapply leaves_trans; [exact Hg|exact Hw]|done].
Qed.

End atomic.
End effects.

(** * Histories *)

Module SignupHistory.
Section history.
Context {S : Type} `{KeyStoreLaws S} `{OtpDigest} `{TokenDigest}.
Context (cfg : signup_config) (checks : email_checks).

Record signup_system : Type := {
  sg_now : Z;
  sg_store : auth_store S;
  sg_users : list user;
  sg_log : list signup_event;
}.

Definition moved (x : signup_system) (st : auth_store S) (users : list user) (evs : list signup_event)
    : signup_system :=
  {| sg_now := sg_now x; sg_store := st; sg_users := users; sg_log := evs ++ sg_log x |}.

(** The code a request stored, when Redis carried the write out. *)
Definition start_events (c : nat -> call) (now : Z) (f : signup_form) (otp token : string)
    (users : list user) (st : auth_store S) : list signup_event :=
  match start_refusal cfg checks c f users st with
  | Some (None, _) =>
      if written (Some (SIGNUP_OTP_TTL cfg)) (via (c 3%nat))
      then [CodeIssued (pending_key token) otp (start_payload cfg checks now f otp)] else []
  | _ => []
  end.

Definition resend_events (c : nat -> call) (now : Z) (token : string) (ip : option string) (otp : string)
    (st : auth_store S) : list signup_event :=
  match resend_admission true cfg c now token ip st with
  | Some (inr (p, ttl), _) =>
      if written (Some ttl) (via (c 4%nat))
      then [CodeIssued (pending_key token) otp (resend_payload now p ttl otp)] else []
  | _ => []
  end.

(** Each request is one step at one instant, each of its calls with Redis
    answering, away or failing. What a request read of the users table earlier may
    be anything; only the insert meets the table as it is. The rest of the program
    works on other keys, and keeps the table's constraints. *)
Inductive signup_step (x : signup_system) : signup_system -> Prop :=
  | step_start c f otp token d code users r st :
      (forall i, at_time (c i) = sg_now x) ->
      start_pending_registration true cfg checks c (sg_now x) f otp token d code users (sg_store x)
        = Some (r, st) ->
      signup_step x (moved x st (sg_users x)
                       (start_events c (sg_now x) f otp token users (sg_store x)))
  | step_resend c token ip otp d code r st :
      (forall i, at_time (c i) = sg_now x) ->
      restart_pending_registration true cfg c (sg_now x) (Some token) ip otp d code (sg_store x)
        = Some (r, st) ->
      signup_step x (moved x st (sg_users x)
                       (if some_text token
                        then resend_events c (sg_now x) token ip otp (sg_store x) else []))
  | step_touch c token :
      (forall i, at_time (c i) = sg_now x) ->
      signup_step x (moved x (snd (touch_pending_registration true cfg c (sg_now x) token (sg_store x)))
                       (sg_users x) [])
  | step_get c token :
      at_time c = sg_now x ->
      signup_step x (moved x (snd (get_pending_registration true c token (sg_store x))) (sg_users x) [])
  | step_discard c token :
      at_time c = sg_now x ->
      signup_step x (moved x (snd (discard_pending_registration true c token (sg_store x))) (sg_users x) [])
  | step_verify c id pid fails token otp channel seen answer st :
      (forall i, at_time (c i) = sg_now x) -> ts_insert seen = sg_users x ->
      verify_pending_registration true cfg c id pid (sg_now x) fails token otp channel seen (sg_store x)
        = (answer, st) ->
      signup_step x (moved x st (sg_users x ++ option_list (snd answer))
                       (verify_events (sg_now x) c (pending_key token) (strip otp) answer))
  | step_wait now :
      sg_now x <= now ->
      signup_step x {| sg_now := now; sg_store := sg_store x; sg_users := sg_users x; sg_log := sg_log x |}
  | step_elsewhere st users :
      (forall token, untouched (sg_now x) (pending_key token) (sg_store x) st) ->
      (local_clear (sg_store x) -> local_clear st) ->
      (user_unique (sg_users x) -> user_unique users) ->
      signup_step x (moved x st users []).

Definition fresh_start (x : signup_system) : Prop :=
  sg_log x = [] /\ local_clear (sg_store x)
  /\ forall token, view (sg_now x) (pending_key token) (shared (sg_store x)) = None.

(** Each account in the log was opened by its code. *)
Fixpoint log_good (log : list signup_event) : Prop :=
  match log with
  | [] => True
  | AccountOpened k otp u inserted at_ :: earlier =>
      opened_by_code cfg (current k earlier) otp u inserted at_ /\ log_good earlier
  | _ :: earlier => log_good earlier
  end.

Definition system_inv (x : signup_system) : Prop :=
  tracked cfg (sg_now x) (sg_store x) (sg_log x) /\ log_good (sg_log x).

Lemma leaves_inv x token st users evs : system_inv x ->
  leaves cfg (sg_now x) token (sg_store x) (sg_log x) st (evs ++ sg_log x) -> log_good (evs ++ sg_log x) ->
  system_inv (moved x st users evs).
Proof. intros [Ht _] Hl Hg. split; [|done]. by eapply leaves_tracked. Qed.

Lemma issued_good evs log : log_good log ->
  (forall ev, ev ∈ evs -> exists k otp p, ev = CodeIssued k otp p) -> log_good (evs ++ log).
Proof.
  intros Hg Hev. induction evs as [|ev evs IH]; [done|]. destruct (Hev ev ltac:(set_solver)) as (k & o & p & ->).
  apply IH. set_solver.
Qed.

Lemma start_inv x c f otp token d code users r st : (forall i, at_time (c i) = sg_now x) -> system_inv x ->
  start_pending_registration true cfg checks c (sg_now x) f otp token d code users (sg_store x) = Some (r, st) ->
  system_inv (moved x st (sg_users x) (start_events c (sg_now x) f otp token users (sg_store x))).
Proof.
  intros Hc Hi. unfold start_pending_registration, start_events.
  destruct (start_refusal _ _ _ _ _ _) as [[o st1]|] eqn:Hr; simpl; [|done].
  apply (start_refusal_leaves cfg checks (sg_now x) c Hc f users token _ _ _ (sg_log x)) in Hr. intros E.
  destruct o as [r'|].
  - injection E as <- <-. eapply (leaves_inv x token); [done|exact Hr|apply Hi].
  - injection E as E. assert (Est : snd (r, st) = st) by done. rewrite <- E in Est. subst st. eapply (leaves_inv x token); [done| |].
    + eapply leaves_trans; [exact Hr|]. by apply start_issue_leaves.
    + apply issued_good; [apply Hi|]. destruct (written _ _); set_solver.
Qed.

Lemma resend_inv x c token ip otp d code r st : (forall i, at_time (c i) = sg_now x) -> system_inv x ->
  resend_pending_otp true cfg c (sg_now x) token ip otp d code (sg_store x) = Some (r, st) ->
  system_inv (moved x st (sg_users x) (resend_events c (sg_now x) token ip otp (sg_store x))).
Proof.
  intros Hc Hi. unfold resend_pending_otp, resend_events.
  destruct (resend_admission _ _ _ _ _ _ _) as [[a st1]|] eqn:Hr; simpl; [|done].
  apply (resend_admission_leaves cfg (sg_now x) c Hc token ip _ _ _ (sg_log x)) in Hr as [Hr Hp]; [|apply Hi].
  intros E. destruct a as [r'|[p ttl]].
  - injection E as <- <-. eapply (leaves_inv x token); [done|exact Hr|apply Hi].
  - injection E as E. assert (Est : snd (r, st) = st) by done. rewrite <- E in Est. subst st. destruct (Hp _ _ eq_refl) as (Hle & d' & Ha).
    eapply (leaves_inv x token); [done| |].
    + eapply leaves_trans; [exact Hr|]. by eapply resend_issue_leaves.
    + apply issued_good; [apply Hi|]. destruct (written _ _); set_solver.
Qed.

Lemma opened_good now c k otp answer log : log_good log ->
  (forall u, vr_user (fst answer) = Some u ->
     opened_by_code cfg (current k log) otp u (is_some (snd answer)) now) ->
  log_good (verify_events now c k otp answer ++ log).
Proof.
  intros Hg Ho. unfold verify_events. destruct (vr_user (fst answer)) as [u|].
  - split; [by apply Ho|done].
  - by destruct (counted _ _).
Qed.

Lemma idle_inv x st users : system_inv x ->
  (forall token, untouched (sg_now x) (pending_key token) (sg_store x) st) ->
  (local_clear (sg_store x) -> local_clear st) -> system_inv (moved x st users []).
Proof.
  intros Hi Hu Hl. apply (leaves_inv x ""); [done| |apply Hi]. by apply leaves_untouched.
Qed.

Lemma signup_inv x y : signup_step x y -> system_inv x -> system_inv y.
Proof.
  destruct 1 as [c f otp token d code users r st Hc Hs|c token ip otp d code r st Hc Hs|c token Hc|c token Hc
                |c token Hc|c id pid fails token otp ch seen answer st Hc Hseen Hv|now Hn|st users Hu Hl Hus];
    intros Hi.
  - by eapply start_inv.
  - unfold restart_pending_registration in Hs. destruct (some_text token); simpl in Hs.
    + by eapply resend_inv.
    + injection Hs as <- <-. by apply idle_inv.
  - apply (leaves_inv x token); [done| |apply Hi]. apply touch_leaves; [done|apply Hi].
  - apply (leaves_inv x token); [done| |apply Hi]. unfold get_pending_registration.
    pose proof (get_leaves cfg (sg_now x) (fun _ => c) (fun _ => Hc) 0 (pending_key token) token
                  (sg_store x) (sg_log x)) as Hg. by destruct (get_at _ _ _ _).
  - apply (leaves_inv x token); [done| |apply Hi].
    apply (delete_leaves cfg (sg_now x) (fun _ => c) (fun _ => Hc) 0 token).
  - apply (verify_leaves cfg (sg_now x) c Hc id pid fails token otp ch seen _ (sg_log x)) in Hv
      as (Hl & Ho & _); [|apply Hi].
    apply (leaves_inv x token); [done|exact Hl|]. apply opened_good; [apply Hi|exact Ho].
  - destruct Hi as [Ht Hg]. split; [|done]. by eapply tracked_later.
  - by apply idle_inv.
Qed.

Lemma signups_inv x y : fresh_start x -> rtc signup_step x y -> system_inv y.
Proof.
  intros (Hl & Hc & Hv) Hr. assert (Hi : system_inv x).
  { split; [split; [done|]|by rewrite Hl]. intros token v e E. by rewrite Hv in E. }
  clear Hl Hc Hv. induction Hr as [|x y z Hxy _ IH]; [done|]. by eapply IH, signup_inv.
Qed.

Lemma opened_at l1 k otp u inserted at_ l2 : log_good (l1 ++ AccountOpened k otp u inserted at_ :: l2) ->
  opened_by_code cfg (current k l2) otp u inserted at_.
Proof. induction l1 as [|[] l1 IH]; simpl; naive_solver. Qed.

(** C9: where Redis is required (REDIS_REQUIRED), over any history of sign-ups, each
    request one step, and whenever Redis fails, an account is opened by the code
    stored last for its token; by the first guess at it or with fewer wrong guesses
    counted since than the limit; and, from the beginning of the sign-up, within the
    longer of the maximal lifetime and the life of a code, and one second per wrong
    guess. A row that is inserted is the one that sign-up asked for, otherwise the
    account is the one that has its address. (The first code is stored for its own
    life even when that passes the maximal lifetime, [AuthSample.code_outlives_sign_up].) *)
Theorem account_by_code x y l1 k otp u inserted at_ l2 :
  fresh_start x -> rtc signup_step x y -> sg_log y = (l1 ++ AccountOpened k otp u inserted at_ :: l2)%list ->
  exists otp' p n, current k l2 = Some (otp', p, n) /\ otp_digest otp = otp_digest otp'
    /\ (n = 0%nat \/ Z.of_nat n < SIGNUP_OTP_MAX_ATTEMPTS cfg)
    /\ pd_created_at p <= at_
       < pd_created_at p + seconds (Z.max (SIGNUP_OTP_MAX_LIFETIME cfg) (SIGNUP_OTP_TTL cfg)) + seconds (Z.of_nat n)
    /\ if inserted then exists id pid channel, u = verified_row id pid at_ p channel
       else us_email u = pd_email p.
Proof.
  intros Hf Hr E. apply (opened_at l1). rewrite <- E. apply (signups_inv _ _ Hf Hr).
Qed.

(** * The users table *)

Lemma insertable_differs users u r : insertable users u = true -> r ∈ users ->
  us_public_id r <> us_public_id u /\ us_email r <> us_email u
  /\ forall phone, us_phone u = Some phone -> us_phone r <> Some phone.
Proof.
  unfold insertable. intros Hi Hr. apply negb_true_iff in Hi.
  assert (Hx : forall b, (b -> existsb (fun r => String.eqb (us_public_id r) (us_public_id u)
      || String.eqb (us_email r) (us_email u)
      || (is_some (us_phone u) && bool_decide (us_phone r = us_phone u))) users = true) -> ~ b) by by intros b Hb ?%Hb; congruence.
  split_and!; [apply Hx; intros E..|intros ph Hph; apply Hx; intros E];
    apply existsb_exists; exists r; (split; [by apply list_elem_of_In|]).
  - by rewrite E, String.eqb_refl.
  - by rewrite E, String.eqb_refl, orb_true_r.
  - rewrite Hph, E. simpl. by rewrite bool_decide_eq_true_2, orb_true_r.
Qed.

Lemma nodup_snoc {A} (l : list A) a : NoDup l -> a ∉ l -> NoDup (l ++ [a]).
Proof.
  intros Hl Ha. apply list.NoDup_app. split_and!; [done| |apply NoDup_singleton].
  intros z Hz ->%list_elem_of_singleton. done.
Qed.

Lemma insert_unique users u : user_unique users -> insertable users u = true -> user_unique (users ++ [u]).
Proof.
  intros (Hp & He & Hph) Hi. unfold user_unique. rewrite !fmap_app, omap_app. split_and!.
  - apply nodup_snoc; [done|]. intros (r & Hr & Hin)%list_elem_of_fmap.
    destruct (insertable_differs _ _ _ Hi Hin) as (? & _). congruence.
  - apply nodup_snoc; [done|]. intros (r & Hr & Hin)%list_elem_of_fmap.
    destruct (insertable_differs _ _ _ Hi Hin) as (_ & ? & _). congruence.
  - simpl. destruct (us_phone u) as [ph|] eqn:Hu; [|by rewrite app_nil_r]. apply nodup_snoc; [done|].
    intros (r & Hin & Hr)%list_elem_of_omap. destruct (insertable_differs _ _ _ Hi Hin) as (_ & _ & Hn).
    by apply (Hn ph).
Qed.

(** Whatever a request saw of the table before its insert, no two rows share an
    address, a phone or a public id. *)
Theorem accounts_unique x y : fresh_start x -> user_unique (sg_users x) -> rtc signup_step x y ->
  user_unique (sg_users y).
Proof.
  intros Hf Hu Hr. assert (Hi : system_inv x) by (eapply signups_inv; [done|apply rtc_refl]). clear Hf.
  induction Hr as [|x y z Hxy _ IH]; [done|]. apply IH; [|by eapply signup_inv]. clear IH.
  destruct Hxy as [| | | | |c id pid fails token otp ch seen answer st Hc Hseen Hv|now Hn|st users Hl Hcl Hus];
    cbn [moved sg_users]; [done..| |done|by apply Hus].
  apply (verify_leaves cfg (sg_now x) c Hc id pid fails token otp ch seen _
    (sg_log x)) in Hv as (_ & _ & Hv); [|apply Hi].
  destruct (snd answer) as [u|]; simpl; [|by rewrite app_nil_r].
  apply insert_unique; [done|]. rewrite <- Hseen. by apply Hv.
Qed.

End history.
End SignupHistory.
