(* ===== verification/SignupCage.v ===== *)
(** The attempt cage: wrong codes use up a sign-up. Then two behaviours that are not
    what the module's text says: a heartbeat can shorten the life of a code, and a
    duplicate that appears while a verification runs is an error. *)

From S2P Require Import Prelude Tables AuthModel EmailAddress KeyStore OneTime MobileTokens Signup.
From S2P Require Import SignupLaws.

Local Open Scope string_scope.
Local Open Scope Z_scope.

Import EmailValidation OTPService PendingRegistration.

Module AttemptCage.

(** What a browser that holds the token may ask for between its guesses. *)
Inductive request : Type :=
  | Guess (at_ : Z) (otp : string)
  | Heartbeat (at_ : Z)
  | Look (at_ : Z)
  | GiveUp (at_ : Z).

Definition request_time (q : request) : Z :=
  match q with Guess t _ | Heartbeat t | Look t | GiveUp t => t end.

Definition is_guess (q : request) : bool := match q with Guess _ _ => true | _ => false end.

Definition guess_count (qs : list request) : nat := length (List.filter is_guess qs).

(** Times that do not go back, and the last one. *)
Fixpoint in_order (now : Z) (qs : list request) : Prop :=
  match qs with [] => True | q :: qs => now <= request_time q /\ in_order (request_time q) qs end.

Fixpoint last_time (now : Z) (qs : list request) : Z :=
  match qs with [] => now | q :: qs => last_time (request_time q) qs end.

Section cage.
Context {S : Type} `{KeyStoreLaws S} `{OtpDigest} `{TokenDigest}.
Context (cfg : signup_config).
Context (id : Z) (public_id : string) (fails : bool) (channel : string) (seen : tables_seen).
Implicit Types st : auth_store S.

(** Requests one after the other, each with Redis answering every call. *)
Definition answering (now : Z) : nat -> call := fun _ => Call now Up.

Definition guess (token : string) (now : Z) (otp : string) st : (VerifyResult * option user) * auth_store S :=
  verify_pending_registration true cfg (answering now) id public_id now fails token otp channel seen st.

(** The answer of a guess, the effect of the others. *)
Definition serve (token : string) (q : request) st : list (VerifyResult * option user) * auth_store S :=
  match q with
  | Guess now otp => let (r, st) := guess token now otp st in ([r], st)
  | Heartbeat now => ([], snd (touch_pending_registration true cfg (answering now) now token st))
  | Look now => ([], snd (get_pending_registration true (Call now Up) token st))
  | GiveUp now => ([], snd (discard_pending_registration true (Call now Up) token st))
  end.

Fixpoint serve_all (token : string) (qs : list request) st
    : list (VerifyResult * option user) * auth_store S :=
  match qs with
  | [] => ([], st)
  | q :: qs => let (r, st) := serve token q st in
               let (rs, st) := serve_all token qs st in ((r ++ rs)%list, st)
  end.

(** A well-formed code that is not the one of the payload. *)
Definition wrong (otp_hash : string) (q : request) : Prop :=
  match q with
  | Guess _ otp => malformed (strip otp) = false /\ verify_otp_hash (strip otp) otp_hash = false
  | _ => True
  end.

Definition refused (r : VerifyResult * option user) : Prop := vr_success (fst r) = false /\ snd r = None.

(** Where a sign-up stands: gone, or with attempts left. *)
Definition caged (now : Z) (token otp_hash : string) (left : nat) st : Prop :=
  view now (pending_key token) (shared st) = None
  \/ exists q, fst <$> view now (pending_key token) (shared st) = Some (SPending q)
     /\ pd_otp_hash q = otp_hash
     /\ pd_attempts q < SIGNUP_OTP_MAX_ATTEMPTS cfg <= pd_attempts q + Z.of_nat left.

Lemma caged_later now t token h left st : now <= t -> caged now token h left st -> caged t token h left st.
Proof.
  intros Ht [Hn|(q & Hq & Hh & Ha)]; [left; by eapply view_later|].
  destruct (view t (pending_key token) (shared st)) as [[v e]|] eqn:Hv; [|by left]. right. exists q.
  rewrite (view_before now t _ _ v e Ht Hv) in Hq. by rewrite Hv.
Qed.

(** A read with Redis answering gives what is there and leaves it. *)
Lemma get_at_answering now token st :
  fst (get_at true (Call now Up) (pending_key token) st) = fst <$> view now (pending_key token) (shared st)
  /\ view now (pending_key token) (shared (snd (get_at true (Call now Up) (pending_key token) st)))
     = view now (pending_key token) (shared st).
Proof.
  split; [|by apply (get_at_untouched (Call now Up))]. unfold get_at, store_get.
  rewrite guarded_required. cbn [via at_time]. rewrite fst_on_redis. apply get_value.
Qed.

Lemma guess_caged token h left now otp st : wrong h (Guess now otp) ->
  caged now token h (Datatypes.S left) st ->
  let '(r, st') := guess token now otp st in refused r /\ caged now token h left st'.
Proof.
  intros [Hm Hw] Hc. unfold guess, verify_pending_registration. set (c := answering now).
  change (c 0%nat) with (Call now Up).
  destruct (get_at_answering now token st) as [Hg Hu].
  destruct (get_at true (Call now Up) (pending_key token) st) as [v st1]. cbn [fst snd] in Hg, Hu. subst v.
  destruct Hc as [Hn|(q & Hq & Hh & Ha)].
  { rewrite Hn. cbn. split; [done|]. left. by rewrite Hu. }
  rewrite Hq. cbn -[wrong_code]. rewrite Hm, Hh, Hw. cbn -[wrong_code]. unfold wrong_code.
  destruct (Z.leb_spec (SIGNUP_OTP_MAX_ATTEMPTS cfg) (pd_attempts q + 1)) as [Hx|Hx]; cbn.
  - split; [done|]. left. unfold delete_at.
    pose proof (store_delete_effect Up now (pending_key token) st1) as Hd.
    cbn in Hd |- *. apply Hd. lia.
  - split; [done|]. right. exists (with_attempts q (pd_attempts q + 1)).
    change (c 2%nat) with (Call now Up). rewrite set_at_up by lia. split_and!; [done..|simpl; lia].
Qed.

Lemma touch_caged token h left now st : caged now token h left st ->
  caged now token h left (snd (touch_pending_registration true cfg (answering now) now token st)).
Proof.
  intros Hc. unfold touch_pending_registration. change (answering now 0%nat) with (Call now Up).
  destruct (get_at_answering now token st) as [Hg Hu].
  destruct (get_at true (Call now Up) (pending_key token) st) as [v st1]. cbn [fst snd] in Hg, Hu. subst v.
  assert (Hc1 : caged now token h left st1) by (unfold caged in *; by rewrite Hu). clear Hc.
  destruct (view now (pending_key token) (shared st)) as [[v e]|] eqn:Hv; [|done].
  destruct Hc1 as [Hn|(q & Hq & Hh & Ha)]; [congruence|]. rewrite Hu in Hq. cbn in Hq. injection Hq as ->.
  cbn -[set_at store_expire]. assert (Hst1 : caged now token h left st1).
  { right. exists q. by rewrite Hu. }
  destruct (_ <=? now); [done|]. set (e' := Z.min _ _). destruct (_ <=? 0) eqn:Hz; [done|].
  apply Z.leb_gt in Hz. change (answering now 1%nat) with (Call now Up).
  pose proof (set_at_up now (pending_key token) (SPending (with_expiry q e')) _ st1 Hz) as Hs.
  set (st2 := snd (set_at _ _ _ _ _ st1)) in *. right. exists (with_expiry q e'). split; [|done].
  cbn [snd]. destruct (expire_effect Up now (pending_key token) (whole_seconds (e' - now)) st2 _ _ Hs) as [Hx|Hx];
    rewrite (Hx now) by lia; [by rewrite Hs|]. unfold live, expired_at.
  by destruct (Z.leb_spec (now + seconds (whole_seconds (e' - now))) now); [unfold seconds in *; lia|].
Qed.

Lemma serve_caged token h qs q st : wrong h q ->
  caged (request_time q) token h (guess_count (q :: qs)) st ->
  let '(rs, st') := serve token q st in
  Forall refused rs /\ caged (request_time q) token h (guess_count qs) st'.
Proof.
  intros Hw Hc. destruct q as [now otp|now|now|now]; cbn [request_time] in *.
  - pose proof (guess_caged token h (guess_count qs) now otp st Hw Hc) as Hg. unfold serve.
    destruct (guess token now otp st) as [r st1]. destruct Hg as [Hr Hc1]. split; [by apply Forall_singleton|done].
  - split; [constructor|]. by apply touch_caged.
  - split; [constructor|]. unfold get_pending_registration.
    destruct (get_at_answering now token st) as [_ Hu]. destruct (get_at _ _ _ st) as [v st1]. cbn [snd] in *.
    unfold caged in *. by rewrite Hu.
  - split; [constructor|]. left.
    pose proof (store_delete_effect Up now (pending_key token) st) as Hd. cbn in Hd |- *. apply Hd. lia.
Qed.

Lemma serve_all_caged token h qs now st : in_order now qs -> Forall (wrong h) qs ->
  caged now token h (guess_count qs) st ->
  let '(rs, st') := serve_all token qs st in
  Forall refused rs /\ view (last_time now qs) (pending_key token) (shared st') = None.
Proof.
  revert now st. induction qs as [|q qs IH]; intros now st Ho Hw Hc; cbn [serve_all last_time].
  - split; [done|]. destruct Hc as [Hn|(p & _ & _ & Ha)]; [done|unfold guess_count in Ha; simpl in Ha; lia].
  - destruct Ho as [Ht Ho]. inversion_clear Hw as [|? ? Hg Hw'].
    apply (caged_later now (request_time q)) in Hc; [|done].
    pose proof (serve_caged token h qs q st Hg Hc) as Hone.
    destruct (serve token q st) as [r st1]. destruct Hone as [Hr Hc1].
    pose proof (IH (request_time q) st1 Ho Hw' Hc1) as Hrest. destruct (serve_all token qs st1) as [rs st2].
    destruct Hrest as [Hrs Hv]. split; [by apply Forall_app|done].
Qed.

(** C23: requests served one after the other, where Redis is required and answers
    every call: wrong codes, as many as the sign-up has attempts left, with
    heartbeats, looks and giving up in between, are all refused, create no account,
    and leave the sign-up destroyed. (Guesses in parallel, or while Redis refuses
    writes, are not all counted: see the findings.) *)
Theorem attempts_exhausted token qs now p st :
  fst <$> view now (pending_key token) (shared st) = Some (SPending p) ->
  pd_attempts p < SIGNUP_OTP_MAX_ATTEMPTS cfg <= pd_attempts p + Z.of_nat (guess_count qs) ->
  in_order now qs -> Forall (wrong (pd_otp_hash p)) qs ->
  let '(rs, st') := serve_all token qs st in
  Forall refused rs
  /\ forall t, last_time now qs <= t -> view t (pending_key token) (shared st') = None.
Proof.
  intros Hv Ha Ho Hw. pose proof (serve_all_caged token (pd_otp_hash p) qs now st Ho Hw) as Hc.
  destruct (serve_all token qs st) as [rs st']. destruct Hc as [Hr Hn]; [right; by exists p|].
  split; [done|]. intros t Ht. by eapply view_later.
Qed.

End cage.
End AttemptCage.

(** * What the text says otherwise *)

Section findings.
Context {S : Type} `{KeyStoreLaws S} `{OtpDigest} `{TokenDigest}.
Context (cfg : signup_config).
Implicit Types st : auth_store S.

(** FINDING: a heartbeat gives the code the keep-alive from now, however much more
    life it had. *)
Theorem touch_resets_life now token p st :
  fst <$> view now (pending_key token) (shared st) = Some (SPending p) ->
  0 < SIGNUP_OTP_KEEPALIVE cfg -> now + seconds (SIGNUP_OTP_KEEPALIVE cfg) <= pd_hard_expires_at p ->
  let '((extended, life), st') := touch_pending_registration true cfg (AttemptCage.answering now) now token st in
  extended = true /\ life = SIGNUP_OTP_KEEPALIVE cfg
  /\ exists v, view now (pending_key token) (shared st')
               = Some (v, Some (now + seconds (SIGNUP_OTP_KEEPALIVE cfg))).
Proof.
  intros Hv Hk Hh. unfold touch_pending_registration, get_at, store_get. rewrite guarded_required.
  cbn [via at_time AttemptCage.answering]. unfold on_redis.
  pose proof (get_value now (pending_key token) (shared st)) as Hg.
  destruct (ks_get now (pending_key token) (shared st)) as [v s1]. simpl in Hg. subst v.
  rewrite Hv. cbn -[store_expire]. unfold seconds in Hh.
  destruct (Z.leb_spec (pd_hard_expires_at p) now); [lia|].
  rewrite Z.min_l by (unfold seconds; lia).
  assert (Hw : whole_seconds (now + seconds (SIGNUP_OTP_KEEPALIVE cfg) - now) = SIGNUP_OTP_KEEPALIVE cfg).
  { unfold whole_seconds, seconds. rewrite Z.add_simpl_l. change (1 * 1000000) with 1000000.
    by rewrite Z.quot_mul. }
  rewrite Hw. destruct (Z.leb_spec (SIGNUP_OTP_KEEPALIVE cfg) 0); [lia|]. cbn -[store_expire].
  split; [done|]. split; [done|].
  set (ttl := SIGNUP_OTP_KEEPALIVE cfg) in *.
  pose proof (set_at_up now (pending_key token) (SPending (with_expiry p (now + seconds ttl))) ttl
    (with_shared st s1) Hk) as Hs.
  change (AttemptCage.answering now 1%nat) with (Call now Up).
  set (st1 := snd (set_at _ _ _ _ _ _)) in *. unfold store_expire. rewrite shared_on_redis.
  destruct (expire_live now (pending_key token) ttl _ _ _ Hs) as [_ He].
  eexists. rewrite (He now) by lia. unfold live, expired_at.
  by destruct (Z.leb_spec (now + seconds ttl) now); [unfold seconds in *; lia|].
Qed.

(** FINDING: an account of the same address that appears between the first query and
    the insert's own check is an error, not the account to return. *)
Theorem late_duplicate_rejected id pid now fails p channel seen u :
  user_by_email (ts_first seen) (pd_email p) = None ->
  u ∈ ts_check seen -> us_email u = normalize_email (pd_email p) -> some_text (us_email u) = true ->
  _create_verified_user id pid now fails p channel seen = Rejected.
Proof.
  intros Hf Hin He Ht. unfold _create_verified_user. rewrite Hf.
  replace (check_user_duplicates _ _ _) with (Some "email"); [done|]. symmetry.
  unfold check_user_duplicates. cbv zeta.
  assert (Hx : existsb (fun r => bool_decide (Some (us_email r)
                 = Some (us_email (verified_row id pid now p channel))))
     (List.filter (fun r => negb (false && (us_id r =? us_id (verified_row id pid now p channel))))
        (ts_check seen)) = true).
  { apply existsb_exists. exists u. split; [|apply bool_decide_eq_true_2; by rewrite He].
    apply filter_In. split; [by apply list_elem_of_In|done]. }
  rewrite Hx. cbn [us_email verified_row]. rewrite <- He. unfold truthy, some_text in *. by rewrite Ht.
Qed.

End findings.
