(* ===== verification/AuthSample.v ===== *)
(** Concrete histories of sign-in: the theorems about codes, tokens and addresses
    at inputs where their hypotheses hold, and runs that show a finding. *)

From S2P Require Import Prelude Tables AuthModel EmailAddress KeyStore OneTime MobileTokens MobileApi MobileReset.
From S2P Require Import Signup EmailLaws OneTimeLaws SignupLaws SignupHistory SignupCage MobileLaws.
From Stdlib Require Import Ascii.

Local Open Scope Z_scope.
Local Open Scope string_scope.
Local Open Scope Z_scope.

(** Digests for the runs below, and the in-process store as Redis. *)
#[local] Instance digest : OtpDigest := fun s => "h" +:+ s.
#[local] Instance tdigest : TokenDigest := fun s => "d" +:+ s.

#[local] Existing Instance MemoryStore.memory_store.
#[local] Existing Instance MemoryStore.memory_laws.

#[local] Instance memory_sets : KeySets memory := {|
  ks_sadd now k ks s :=
    match live now (s !! k) with
    | Some (SKeys old, e) => <[k := (SKeys (old ∪ list_to_set ks), e)]> s
    | Some _ => s
    | None => <[k := (SKeys (list_to_set ks), None)]> s
    end;
  ks_smembers now k s :=
    match live now (s !! k) with Some (SKeys old, _) => elements old | _ => [] end;
|}.

#[local] Instance memory_sets_laws : KeySetsLaws memory.
Proof.
  split; unfold view; cbn [ks_contents ks_sadd ks_smembers MemoryStore.memory_store memory_sets].
  - intros now k ks s ->. apply MemoryStore.insert_shows.
  - intros now k ks old e s ->. apply MemoryStore.insert_shows.
  - intros now k ks k' s Hne. destruct (live now (s !! k)) as [[[| | | | |old] e]|];
      first [apply same_from_refl | by apply MemoryStore.insert_frame].
  - by intros now k s ->.
  - intros now k ks e s -> x. apply elem_of_elements.
Qed.

Definition up (seconds_ : Z) : call := Call (seconds seconds_) Up.

(** * A code stored, read and consumed *)

Definition nobody : auth_store memory := AuthStore ∅ ∅.

Definition mail_key : string := otp_key "amina@example.org" "email_verification".

Definition stored_code : auth_store memory :=
  snd (default (false, nobody)
    (OTPService.store_otp true (up 0) "amina@example.org" "480213" "email_verification" 1800 nobody)).

Definition guess : OtpHistory.pending_guess := {|
  OtpHistory.pg_identifier := "amina@example.org"; OtpHistory.pg_purpose := "email_verification";
  OtpHistory.pg_otp := "480213"; OtpHistory.pg_hash := "h480213" |}.

Definition at_rest : OtpHistory.otp_system (S := memory) := {|
  OtpHistory.os_store := nobody; OtpHistory.os_now := seconds 0; OtpHistory.os_waiting := [];
  OtpHistory.os_log := [] |}.

Definition consumed : auth_store memory :=
  snd (OTPService.consume_otp true (up 90) "amina@example.org" "email_verification" "h480213" stored_code).

Lemma accepted_run : exists y, rtc OtpHistory.otp_step at_rest y
  /\ OtpHistory.os_log y = [OtpHistory.GuessAccepted mail_key "480213" (seconds 90);
                            OtpHistory.CodeStored mail_key "480213" 0 1800].
Proof.
  eexists. split.
  - eapply rtc_l.
    { apply (OtpHistory.step_store at_rest (up 0) "amina@example.org" "480213" "email_verification" 1800 true
               stored_code); reflexivity. }
    eapply rtc_l; [by apply (OtpHistory.step_wait _ (seconds 60))|].
    eapply rtc_l.
    { apply (OtpHistory.step_read _ (up 60) "amina@example.org" "480213" "email_verification" (inr "h480213")
               stored_code); reflexivity. }
    eapply rtc_l; [by apply (OtpHistory.step_wait _ (seconds 90))|].
    eapply rtc_l; [|apply rtc_refl].
    apply (OtpHistory.step_consume _ (up 90) [] guess [] true Verified consumed); reflexivity.
  - reflexivity.
Qed.

Lemma code_accepted_once_witness : exists otp' stored_at ttl,
  latest OtpHistory.event_key mail_key [OtpHistory.CodeStored mail_key "480213" 0 1800]
    = Some (OtpHistory.CodeStored mail_key otp' stored_at ttl)
  /\ digest "480213" = digest otp' /\ stored_at <= seconds 90 < stored_at + seconds ttl.
Proof.
  destruct accepted_run as (y & Hr & Hl).
  exact (OtpHistory.code_accepted_once at_rest y [] mail_key "480213" (seconds 90)
           [OtpHistory.CodeStored mail_key "480213" 0 1800]
           (conj eq_refl (conj eq_refl (fun i p => eq_refl))) Hr Hl).
Defined.

(** FINDING: where Redis is not required, a code stored in memory while Redis was
    away is accepted, the next time it is away, after a newer one replaced it. *)
Definition fallback : auth_store memory :=
  let store c otp st := snd (default (false, st)
    (OTPService.store_otp false c "amina@example.org" otp "email_verification" 1800 st)) in
  store (up 30) "222222" (store (Call 0 Down) "111111" nobody).

Example fallback_accepts_older :
  fst (OTPService.verify_otp false (Call (seconds 60) Down) (Call (seconds 61) Down) "amina@example.org"
         "111111" "email_verification" fallback) = (true, Verified)
  /\ fst <$> view (seconds 60) mail_key (shared fallback) = Some (SText "h222222").
Proof. vm_compute. split; reflexivity. Qed.

(** * The verification of an email *)

Definition amina : user := {|
  us_id := 7; us_public_id := "u-7"; us_username := Some "amina"; us_email := "amina@example.org";
  us_phone := Some "+256700000001"; us_password_hash := "pw"; us_is_active := true; us_is_deleted := false;
  us_is_verified := true; us_email_verified := false; us_email_verified_at := None;
  us_phone_verified := true; us_phone_verified_at := Some 0; us_activated_at := Some 0;
|}.

Lemma email_verified_by_code_witness :
  exists u at_, user_by_id [amina] 7 = Some u /\ malformed "480213" = false
  /\ via (up 60) = Up /\ via (up 90) = Up
  /\ fst <$> view (seconds 90) (otp_key (us_email u) EmailVerification._PURPOSE) (shared stored_code)
     = Some (SText (digest "480213"))
  /\ shows_from (seconds 90) (otp_key (us_email u) EmailVerification._PURPOSE) None (shared consumed)
  /\ commit_user [amina] (set_email_verified u (Some at_)) = Some [set_email_verified amina (Some (seconds 90))].
Proof.
  exact (AccountVerification.email_verified_by_code (up 60) (up 90) 7 " 480213 " [amina] stored_code
           ltac:(vm_compute; discriminate)).
Defined.

(** * The native password reset *)

(** A code is mailed to the account, and changes the password once. *)
Definition reset_sent : bool * auth_store memory :=
  default (false, nobody)
    (MobilePasswordReset.request_mobile_password_reset true (up 0) (up 1) Sent "480213" " AMINA@example.org "
       [amina] nobody).

Definition amina_home : accounts := {|
  ac_users := [amina]; ac_devices := [];
  ac_servers := [{| ss_session_id := "srv-1"; ss_user_id := "u-7"; ss_ip_address := None;
                    ss_user_agent := None; ss_expires_at := seconds 36000; ss_is_revoked := false |}];
|}.

Definition reset_with (code : string) (d : accounts) (st : auth_store memory) :=
  MobilePasswordReset.confirm_mobile_password_reset true (up 60) (up 60) (up 60) true true "new"
    "amina" code "Kampala-2027" d st.

Example reset_once :
  fst reset_sent = true
  /\ match reset_with " 480213 " amina_home (snd reset_sent) with
     | Some (r, (d, st)) =>
         r = (true, MobilePasswordReset.PasswordReset)
         /\ us_password_hash <$> ac_users d = ["new"] /\ ss_is_revoked <$> ac_servers d = [true]
         /\ (fst <$> reset_with "480213" d st) = Some (false, MobilePasswordReset.CodeWrong)
     | None => False
     end.
Proof. vm_compute. repeat split; reflexivity. Qed.

(** FINDING: six other digits verify the same address. *)
Example any_digits_verify : exists st', ChannelVerification.verify_channel_otp true (up 60) (up 90) 7 "email"
    "000000" [amina] nobody
  = Some ((true, AccountVerified), ([set_email_verified amina (Some (seconds 90))], st')).
Proof. eexists. vm_compute. reflexivity. Qed.

(** FINDING: a number that was never verified takes over the mark of the old one. *)
Example new_number_stays_verified :
  let '(r, (users, _, _)) := default (PhoneVerificationService.MissingPhone, ([], None, nobody))
    (PhoneVerificationService.request_code true (up 0) (up 1) Undelivered "112233" amina None "+15550100"
       [amina] nobody) in
  r = PhoneVerificationService.NotDelivered
  /\ (fun u => (us_phone u, us_phone_verified u)) <$> users = [(Some "+15550100", true)].
Proof. vm_compute. split; reflexivity. Qed.

(** * Addresses *)

Lemma levenshtein_distance_witness : 0 <= 2 /\
  bounded_distance (String.list_ascii_of_string "gnail.com") (String.list_ascii_of_string "gmail.com") 2
    (EmailValidation._levenshtein "gnail.com" "gmail.com" 2).
Proof.
  split; [discriminate|]. exact (levenshtein_distance "gnail.com" "gmail.com" 2 ltac:(discriminate)).
Defined.

(** FINDING: beyond the bound the result is not capped at the bound plus one. *)
Example levenshtein_uncapped : EmailValidation._levenshtein "abcd" "cdab" 2 = 4.
Proof. reflexivity. Qed.

Definition trims (s : string) : bool := String.eqb (EmailValidation.cleaned s) s.

Lemma trims_trimmed s : trims s = true -> EmailValidation.cleaned s = s.
Proof. apply String.eqb_eq. Qed.

Lemma accepted_canonical_witness :
  EmailValidation.normalize_email "aminadoe@gmail.com" = "aminadoe@gmail.com"
  /\ EmailValidation._check_syntax trims "aminadoe@gmail.com" = None
  /\ (false = false -> fst (split_once "@" "aminadoe@gmail.com") ∉ EmailValidation.RESERVED_LOCAL_PARTS)
  /\ (false = false -> EmailValidation.is_disposable_domain ["mailinator.com"]
                         (snd (split_once "@" "aminadoe@gmail.com")) = false)
  /\ (true = true -> Some true <> Some false).
Proof.
  exact (accepted_canonical ["mailinator.com"] trims (fun _ => Some true) trims_trimmed true false false
           (Some " Amina.Doe+afcon@GoogleMail.com ") "aminadoe@gmail.com" eq_refl eq_refl).
Defined.

(** * A device: signed in, refreshed, revoked *)

Import Sessions MobileTokens MobileApi MobileHistory.

Definition device_at (t : Z) : call := Call t Up.

Definition device_record (kind : string) : token_record := {|
  tk_user_public_id := "u-7"; tk_session_id := "dev-1"; tk_server_session_id := "srv-1";
  tk_client := "user"; tk_device_id := "install-1"; tk_issued_at := 0; tk_token_type := kind;
|}.

Definition signed_in : memory :=
  snd (issue_mobile_tokens (up 0) "access-1" "refresh-1" "u-7" "dev-1" "srv-1" "user" "install-1" ∅).

Definition refreshed : memory :=
  snd (rotate_mobile_refresh_token (up 60) "refresh-1" "refresh-2" (device_record "refresh") signed_in).

Definition revoked_keys : list string := ks_smembers (seconds 60) (_session_key "dev-1") refreshed.

Definition signed_out : memory := revoke_transaction (seconds 60) "dev-1" revoked_keys refreshed.

Definition no_device : mobile_system (S := memory) := {|
  ms_store := ∅; ms_now := seconds 0; ms_revoking := []; ms_log := []
|}.

Lemma no_device_fresh : fresh_start no_device.
Proof. by split_and!. Qed.

Definition device_log : list token_event :=
  [SessionRevoked "dev-1" (seconds 60);
   TokenWritten (refresh_key "refresh-2") (device_record "refresh") (seconds 60);
   TokenRotated (refresh_key "refresh-1") (seconds 60);
   TokenWritten (refresh_key "refresh-1") (device_record "refresh") (seconds 0)].

Definition device_end : mobile_system (S := memory) := {|
  ms_store := signed_out; ms_now := seconds 60; ms_revoking := [("dev-1", revoked_keys)]; ms_log := device_log
|}.

Definition issued : mobile_system (S := memory) := {|
  ms_store := signed_in; ms_now := seconds 0; ms_revoking := [];
  ms_log := [TokenWritten (refresh_key "refresh-1") (device_record "refresh") (seconds 0)]
|}.

Definition waited : mobile_system (S := memory) := {|
  ms_store := signed_in; ms_now := seconds 60; ms_revoking := [];
  ms_log := [TokenWritten (refresh_key "refresh-1") (device_record "refresh") (seconds 0)]
|}.

Lemma step_eq (x y z : mobile_system (S := memory)) : mobile_step x y -> y = z -> mobile_step x z.
Proof. by intros ? <-. Qed.

Definition refreshed_end : mobile_system (S := memory) := {|
  ms_store := refreshed; ms_now := seconds 60; ms_revoking := []; ms_log := List.tl device_log
|}.

Lemma refreshed_run : rtc mobile_step no_device refreshed_end.
Proof.
  apply (rtc_l _ _ issued).
  { eapply step_eq.
    - apply (step_issue no_device (up 0) "access-1" "refresh-1" "u-7" "dev-1" "srv-1" "user" "install-1"
               (Some (pair_of "access-1" "refresh-1")) signed_in); reflexivity.
    - reflexivity. }
  apply (rtc_l _ _ waited); [by apply (step_wait issued (seconds 60))|].
  eapply rtc_l; [|apply rtc_refl]. eapply step_eq.
  - apply (step_rotate waited (up 60) "refresh-1" "refresh-2" (device_record "refresh") (Some 1) refreshed);
      reflexivity.
  - reflexivity.
Qed.

Lemma device_run : rtc mobile_step no_device device_end.
Proof.
  transitivity refreshed_end; [apply refreshed_run|].
  eapply rtc_l; [by apply (step_members refreshed_end (up 60) "dev-1" revoked_keys)|].
  eapply rtc_l; [|apply rtc_refl]. eapply step_eq.
  - eapply (step_revoke _ (up 60) "dev-1" revoked_keys (Some tt) signed_out); [reflexivity|left|reflexivity].
  - reflexivity.
Qed.

Lemma refresh_rotated_once_witness : exists r written_at,
  latest token_event_key (refresh_key "refresh-1")
    [TokenWritten (refresh_key "refresh-1") (device_record "refresh") (seconds 0)]
    = Some (TokenWritten (refresh_key "refresh-1") r written_at)
  /\ written_at <= seconds 60 < written_at + seconds REFRESH_TTL_SECONDS.
Proof.
  exact (refresh_rotated_once no_device device_end
           [SessionRevoked "dev-1" (seconds 60);
            TokenWritten (refresh_key "refresh-2") (device_record "refresh") (seconds 60)]
           (refresh_key "refresh-1") (seconds 60)
           [TokenWritten (refresh_key "refresh-1") (device_record "refresh") (seconds 0)]
           no_device_fresh device_run eq_refl).
Defined.

Definition sign_ins : accounts := {|
  ac_users := [amina];
  ac_devices := [{| ds_session_id := "dev-1"; ds_user_id := 7; ds_device_id := "f"; ds_ip := None;
                    ds_user_agent := None; ds_expires_at := days 30; ds_revoked_at := None;
                    ds_revoked_reason := None; ds_created_at := 0; ds_updated_at := Some 0 |}];
  ac_servers := [{| ss_session_id := "srv-1"; ss_user_id := "u-7"; ss_ip_address := None;
                    ss_user_agent := None; ss_expires_at := days 30; ss_is_revoked := false |}];
|}.

Lemma revoked_session_dead_witness :
  default None (fst (_resolve_record (up 60) (device_record "access") sign_ins signed_out)) = None
  /\ fst (rotate_mobile_refresh_token (up 60) "refresh-2" "refresh-3" (device_record "refresh") signed_out)
     <> Some 1.
Proof.
  assert (Hin : SessionRevoked "dev-1" (seconds 60) ∈ ms_log device_end) by (left).
  split.
  - exact (proj1 (revoked_session_dead no_device device_end "dev-1" (seconds 60) no_device_fresh device_run Hin
             ltac:(vm_compute; reflexivity) (up 60) (device_record "access") sign_ins "refresh-2" "refresh-3"
             eq_refl eq_refl)).
  - exact (proj2 (revoked_session_dead no_device device_end "dev-1" (seconds 60) no_device_fresh device_run Hin
             ltac:(vm_compute; reflexivity) (up 60) (device_record "refresh") sign_ins "refresh-2" "refresh-3"
             eq_refl eq_refl)).
Defined.

Definition amina_context : context := {|
  cx_user := amina; cx_record := device_record "access";
  cx_device_session := {| ds_session_id := "dev-1"; ds_user_id := 7; ds_device_id := "f"; ds_ip := None;
                    ds_user_agent := None; ds_expires_at := days 30; ds_revoked_at := None;
                    ds_revoked_reason := None; ds_created_at := 0; ds_updated_at := Some 0 |};
  cx_server_session := {| ss_session_id := "srv-1"; ss_user_id := "u-7"; ss_ip_address := None;
                    ss_user_agent := None; ss_expires_at := days 30; ss_is_revoked := false |};
|}.

Lemma bearer_accepted_witness : exists token, bearer_token " Bearer access-1" = Some token
  /\ via (up 60) = Up
  /\ fst <$> view (seconds 60) (_token_key "access" token) signed_in = Some (SToken (device_record "access"))
  /\ "access" = "access" /\ names_all (device_record "access") = true
  /\ via (up 61) = Up /\ view (seconds 61) (_revoked_key "dev-1") signed_in = None
  /\ record_valid (seconds 61) (device_record "access") sign_ins amina_context.
Proof.
  exact (proj1 (bearer_accepted (up 60) (up 61) " Bearer access-1" sign_ins signed_in amina_context
                  ltac:(vm_compute; discriminate)) ltac:(vm_compute; reflexivity)).
Defined.

Definition replay_draw : refresh_draw := {|
  rd_get := up 70; rd_used := up 70; rd_resolve := up 70; rd_rotate := up 70; rd_store := up 70;
  rd_members := up 70; rd_revoke := up 70; rd_new_access := "access-3"; rd_new_refresh := "refresh-3";
|}.

Lemma replay_revokes_witness :
  let '(r, (d', s')) := mobile_refresh replay_draw "refresh-1" (sign_ins, refreshed) in
  r = Err refresh_reuse_detected
  /\ live_device d' "dev-1" = None /\ live_server d' "srv-1" = None
  /\ shows_from (seconds 70) (_revoked_key "dev-1")
       (Some (SInt 1, Some (seconds 70 + seconds SESSION_REVOKE_TTL_SECONDS))) s'.
Proof.
  exact (replay_revokes replay_draw "refresh-1" sign_ins no_device refreshed_end (device_record "refresh")
           (seconds 60) no_device_fresh refreshed_run ltac:(vm_compute; reflexivity)
           eq_refl eq_refl eq_refl eq_refl eq_refl eq_refl eq_refl
           ltac:(vm_compute; split; discriminate) ltac:(vm_compute; discriminate) ltac:(vm_compute; reflexivity)).
Defined.

(** * A sign-up, its code, and the cage of its attempts *)

Definition open_checks : email_checks := {|
  ec_burner := ["mailinator.com"]; ec_lib_valid := fun _ => true; ec_mx := fun _ => Some true;
  ec_check_mx := true; ec_allow_role_accounts := false; ec_allow_disposable := false |}.

Definition joining : PendingRegistration.signup_form := {|
  PendingRegistration.sf_username := "joan"; PendingRegistration.sf_password_hash := "pbkdf2";
  PendingRegistration.sf_email := " Joan@Example.org"; PendingRegistration.sf_full_name := None;
  PendingRegistration.sf_ip := Some "10.0.0.9"; PendingRegistration.sf_user_agent := None;
  PendingRegistration.sf_phone := None |}.

Definition always (t : Z) : nat -> call := fun _ => up t.

Definition waiting : auth_store memory :=
  from_option snd nobody
    (PendingRegistration.start_pending_registration true default_config open_checks (always 0) 0 joining
       "480213" "tok" Sent "" [] nobody).

Definition nobody_yet : SignupHistory.signup_system (S := memory) := {|
  SignupHistory.sg_now := 0; SignupHistory.sg_store := nobody; SignupHistory.sg_users := [];
  SignupHistory.sg_log := [] |}.

Definition pending_joan : payload :=
  PendingRegistration.start_payload default_config open_checks 0 joining "480213".

Definition joan : user := PendingRegistration.verified_row 1 "u-1" (seconds 60) pending_joan "email".

Definition tok : string := PendingRegistration.pending_key "tok".

Definition no_rows : PendingRegistration.tables_seen := {|
  PendingRegistration.ts_first := []; PendingRegistration.ts_check := []; PendingRegistration.ts_insert := [] |}.

Lemma joined_run : exists y, rtc (SignupHistory.signup_step default_config open_checks) nobody_yet y
  /\ SignupHistory.sg_log y = [AccountOpened tok "480213" joan true (seconds 60);
                               CodeIssued tok "480213" pending_joan].
Proof.
  eexists. split.
  - eapply rtc_l.
    { eapply (SignupHistory.step_start _ _ nobody_yet (always 0) joining "480213" "tok" Sent "" [] _ waiting);
        reflexivity. }
    eapply rtc_l; [by apply (SignupHistory.step_wait _ _ _ (seconds 60))|].
    eapply rtc_l; [|apply rtc_refl].
    eapply (SignupHistory.step_verify _ _ _ (always 60) 1 "u-1" false "tok" " 480213 " "email"
      no_rows); reflexivity.
  - reflexivity.
Qed.

Lemma account_by_code_witness :
  exists otp' p n, current tok [CodeIssued tok "480213" pending_joan] = Some (otp', p, n)
  /\ digest "480213" = digest otp' /\ (n = 0%nat \/ Z.of_nat n < 5)
  /\ pd_created_at p <= seconds 60 < pd_created_at p + seconds 900 + seconds (Z.of_nat n)
  /\ exists id pid channel, joan = PendingRegistration.verified_row id pid (seconds 60) p channel.
Proof.
  destruct joined_run as (y & Hr & Hl).
  exact (SignupHistory.account_by_code default_config open_checks nobody_yet y [] tok "480213" joan true (seconds 60)
           [CodeIssued tok "480213" pending_joan]
           (conj eq_refl (conj (fun t => eq_refl) (fun t => eq_refl))) Hr Hl).
Defined.

Definition guesses_made : list AttemptCage.request :=
  [AttemptCage.Guess (seconds 1) "000001"; AttemptCage.Heartbeat (seconds 1);
   AttemptCage.Guess (seconds 2) "000002"; AttemptCage.Look (seconds 2);
   AttemptCage.Guess (seconds 3) "000003"; AttemptCage.Guess (seconds 4) "000004";
   AttemptCage.Guess (seconds 5) "000005"].

Lemma attempts_exhausted_witness :
  let '(rs, st) := AttemptCage.serve_all default_config 1 "u-1" false "email" no_rows "tok" guesses_made waiting in
  Forall AttemptCage.refused rs
  /\ forall t, seconds 5 <= t -> view t (PendingRegistration.pending_key "tok") (shared st) = None.
Proof.
  apply (AttemptCage.attempts_exhausted default_config 1 "u-1" false "email" no_rows "tok" guesses_made 0
           pending_joan waiting).
  - reflexivity.
  - split; [reflexivity|discriminate].
  - repeat split; discriminate.
  - repeat constructor.
Defined.

(** FINDING: a code whose own life is longer than the maximal lifetime opens the
    account after the sign-up's deadline. *)
Definition long_code : signup_config := {|
  SIGNUP_OTP_TTL := 3600; SIGNUP_OTP_MAX_LIFETIME := 900; SIGNUP_OTP_KEEPALIVE := 120;
  SIGNUP_OTP_MAX_ATTEMPTS := 5; SIGNUP_EMAIL_RATE_LIMIT := 3; SIGNUP_IP_RATE_LIMIT := 10;
  SIGNUP_RATE_WINDOW := 900;
|}.

Example code_outlives_sign_up :
  let st := from_option snd nobody
    (PendingRegistration.start_pending_registration true long_code open_checks (always 0) 0 joining
       "480213" "tok" Sent "" [] nobody) in
  vr_success (fst (fst (PendingRegistration.verify_pending_registration true long_code (always 3000) 1 "u-1"
    (seconds 3000) false "tok" "480213" "email" no_rows st))) = true.
Proof. vm_compute. reflexivity. Qed.
